(* ===== verification/_CoqProject ===== *)
-Q . S2P
Prelude.v
GoStrings.v
Sql.v
Api.v
Schema.v
Admission.v
Invariant.v
Fixture.v
AdmissionFacts.v
Lease.v
Handoff.v
LeaseFacts.v
Removal.v
RemovalFacts.v
Scheduling.v
Catalog.v
CatalogFacts.v
Decode.v
Bootstrap.v
BootstrapFacts.v
Provision.v
Http.v
HttpFacts.v
HostCatalog.v
Actions.v
System.v
ProblemCache.v
Calls.v
CatalogHttp.v
Activity.v
Autoscaler.v
AutoscalerFacts.v
Regex.v
Subd.v
SubdFacts.v
HostRpc.v
HostOps.v
HostOpsFacts.v
HostLock.v
Dominator.v
DominatorFacts.v
Worker.v
LocalHost.v
LocalHostFacts.v
Probe.v
Redact.v
RedactFacts.v
RedactText.v
Logging.v
Progress.v
Cidr.v
Deployment.v
Router.v
Settings.v
ApiServer.v
DominatorServer.v
AgentServer.v
Topology.v
Telemetry.v
Runner.v
RunnerFacts.v
AwsConfig.v
AwsConfigFacts.v
AwsCli.v
AwsCloud.v
AwsResources.v
AwsRuntime.v
LegacyProvider.v
AwsRuntimeFacts.v
AwsTopologyFacts.v
AwsSession.v
AwsDemo.v
Commands.v
Startup.v
AwsFacts.v
AwsRunFacts.v
AwsSessionFacts.v
