(* ===== verification/Prelude.v ===== *)
(** * Crane OSS: a verification development

    Crane is a control plane for Kubernetes worker capacity.  The Cluster Autoscaler asks for
    nodes through an adapter, the platform API admits the request into a PostgreSQL catalog,
    zone controllers claim the resulting operations under fenced leases and drive hosts to
    READY, and a bootstrap controller builds a cluster's first zone the same way.  In each
    zone a Dominator launches workers at the cloud provider, joins them to the cluster and
    delivers their expected state to an agent on the host.  A command line bootstraps the
    first platform.  An older plane beside it detects bad hosts and replaces them.  This
    library models those parts of the repository as executable functions and proves what makes
    them correct.

    ** Parts of the program and files of the library

    Shared: [Prelude] (boolean tests, the Go error type and its monad, 64-bit integers, list
    lemmas, the tactics [bsplit] and [inv_ok], the hint database [crane]), [GoStrings]
    (package strings), [Sql] (tables as lists of rows, statements as combinators), [Api]
    (types of pkg/api), [Schema] (the tables of internal/capacity/schema.sql with their
    constraints, the record [DB] of all tables, transactions [Tx] that roll back on error,
    clocks and identifiers [Env]), [Decode] (encoding/json into the request types), [Router]
    (http.ServeMux), [Settings] (internal/config and the schema checks of schema.go), [Fixture]
    (a small concrete deployment on which witnesses evaluate).

    Capacity, internal/capacity:
    - [Admission]: [SetTarget] of store.go and everything below it (replay, compare and swap,
      the pool check [checkReservations], provisioning intents, cancellation, excess marks).
    - [Invariant]: the ledger [Ledger d], its equivalence [same_ledger] with [Proper]
      instances, the targets and removals invariants.
    - [Lease], [Handoff]: claims, renewals, launch records and the hand-off to READY, the
      second half of store.go, provision_lease.go, provision_handoff.go.
    - [Removal]: [CreateRemoval] of catalog.go and removals.go.
    - [Scheduling], [Catalog]: pkg/api/naming.go and scheduling.go, catalog.go, scheduling.go,
      discovery.go, hosts.go.
    - [Bootstrap]: [BootstrapPhase] of catalog.go and the bootstrap_*.go files, with one run of
      the controller of bootstrap.go over an arbitrary executor.
    - [Provision]: one run of the controller of provision_worker.go over an arbitrary executor.
    - [Http]: http.go, every route behind its authentication; [ApiServer]: the same API from
      the wire, with strict bodies, both muxes of crane-api and the Secret route.
    - [Topology]: the placement validator (internal/provider/registry, awscompute topology.go).
    - [System]: any interleaving of all of these, and of the statements of the legacy plane on
      the same host table, as a step relation on [DB].
    Each has its theorems in the same file or in [<File>Facts].

    Adapter, internal/adapter/autoscaler: [Autoscaler] (server.go, static.go, client.go,
    kubernetes.go) and [AutoscalerFacts].  The Go interface CraneClient is the class
    [CraneClient], the server is proved against it, and the HTTP client is an instance over a
    lossy network in front of the modelled API.

    Legacy plane: [ProblemCache] (activitymanager/problemcache, a doubly linked list in a
    heap of nodes), [HostCatalog] (internal/hostcatalog service and store), [CatalogHttp] (its
    handlers), [Actions] (internal/execute), [Activity] (internal/badhost and internal/activitymanager).  The
    activity manager is proved against the class [SeenProblemCache] that the pointer cache
    implements.

    Hosts: [Regex] (Go regular expressions by backtracking, with leftmost-first submatches),
    [Subd] (the agent's server, internal/subd server.go, state.go, cluster_join.go, over a
    durable machine that may crash at every write), [LocalHost] (its host.go, kubernetes.go,
    worker_join.go and collectors, over commands and files), [HostRpc] (internal/hostrpc and
    the Secret types), [HostOps] (internal/hostoperations), [HostLock] (its advisory lock,
    statement by statement among any number of processes), [Dominator] (internal/dominator:
    provisioner, worker_csr, worker_membership, resolver, over a world that answers calls from
    the history so far), [Worker] (the Dominator's readiness gate against the agent's own
    code), most with their [Facts]; [DominatorServer] (the listener of internal/dominator
    server.go) and [AgentServer] (the agent from its configuration file to its listener).

    Platform: [Deployment] (internal/bootstrap config.go, artifacts.go, database.go),
    [Runner] (runner.go, state.go, progress.go, provider.go, operation.go: a resumable run
    over a state directory), [Progress] (the reporter's texts), [Redact] (internal/logging/redact.go over a heap of Go values that
    may be cyclic), with [RunnerFacts], [RedactFacts] and [RedactText]; [Logging] (logging.go,
    otlp.go, bridge.go around it); [Telemetry] (internal/telemetry).

    AWS provider, internal/provider/awscompute:
    - [Calls]: a small monad of requests to an outside service, with the trace of what was sent
      and the number of pauses left; [Cidr]: net.IPNet and its overlap test.
    - [AwsRuntime]: runtime.go and runtime_identity.go, the workers of the Dominator.
    - [AwsConfig]: bootstrap_config.go, bootstrap_artifacts.go, topology.go, bootstrap_state.go.
    - [AwsCli]: the command line, its errors and labels, of bootstrap_aws.go.
    - [AwsCloud]: the requests of the layer-zero side and what each answers; [AwsResources]:
      bootstrap_resources.go and bootstrap_endpoint.go.
    - [AwsSession]: bootstrap_session.go, bootstrap_runner.go, bootstrap_scripts.go,
      bootstrap_operation.go, bootstrap_operation_dominator.go, bootstrap_operation_network.go;
      the session is an instance of the provider interface that [Runner] drives.
    - [LegacyProvider]: provider.go, the provider of the legacy plane's actions.
    - [AwsDemo]: an account that behaves like the documented services, with a bootstrap run
      twice in it.  Theorems: [AwsRuntimeFacts], [AwsConfigFacts], [AwsTopologyFacts],
      [AwsFacts] (a weakest-precondition calculus and a specification of every function),
      [AwsRunFacts], [AwsSessionFacts].

    Commands: [Probe] (cmd/crane-bootstrap-probe, against the agent's own handler),
    [Commands] (the decisions of cmd/crane-bootstrap, cmd/crane-api and
    cmd/crane-autoscaler-adapter) and [Startup] (the polling loops, and what the long-running
    processes open and close, in order).

    ** How the model corresponds to the code

    A function of the store is a function [DB -> result A * DB]; a transaction either commits
    all of its statements or leaves [DB] as it was, and runs alone: row locks, SELECT FOR
    UPDATE and the exclusive group lock of the code make one transaction one step.  Statements
    outside a transaction are steps of their own.  Times are integers in milliseconds and
    every reading of a clock or a fresh identifier is an argument, so theorems hold for all of
    them; where a reading matters twice the code's own expression is kept.  Go's int64
    arithmetic wraps ([add64], [sub64], [mul64]).  Map iteration order is an arbitrary
    permutation.  Code outside the repository is a parameter: the cloud provider, EC2 and SSM,
    Kubernetes' validators and API, net/url, net.ParseIP, SHA-256, X.509, Starlark, system
    commands, gzip, the JSON parser of the principals.  A component that calls another through
    a Go interface is proved against a class or a record of functions; where the repository
    has the implementation, a theorem composes the two.  A process that can die does so
    through a fate per write or call ([Subd], [Runner]): what is on disk then is what the next
    start reads.

    ** What the theorems show

    - The whole capacity service ([System]): in every state reachable by any interleaving the
      ledger is consistent and no pool is over-committed; operations and the hosts that are
      managed or protected only move forward, whatever the legacy plane does beside them; a
      managed host becomes READY only by finalizing; an overtaken controller is shut out.
      Hosts outside both kinds belong to the legacy plane, and nothing is claimed of them.
    - Admission ([AdmissionFacts]): the overflow-guarded pool check equals the mathematical
      one, the ledger is preserved, retries replay, stale revisions are refused, an increase
      creates exactly its intents and a decrease spares claimed work.
    - Leases ([LeaseFacts]): a claim takes the oldest open operation, never a finished one, and
      raises its fence; of the writes under a lease only finalizing makes a host READY, and all
      of them stay on their operation, host, reservation and binding.  Without the live lease
      every write of a provisioning or bootstrap controller is refused ([BootstrapFacts]); the
      record of the protected control-plane host takes no lease, and is shown to touch that host
      alone.
    - Removal, catalog and scheduling ([RemovalFacts], [CatalogFacts], [Scheduling]):
      atomicity, replay, exclusive ownership, immutability of topology, discovery scoped to a
      cluster, labels that cannot be spoofed.
    - Bootstrap and provisioning controllers ([BootstrapFacts], [Provision]): phases advance
      one at a time, a run that succeeds advances the operation it claimed and no other, the
      parameter filter is characterized.
    - API and adapter ([HttpFacts], [ApiServer], [AutoscalerFacts]): authentication is exact, a
      request from the wire changes the store only with the credentials for it and an adapter
      is confined to its cluster, one change of target is admitted at most once whatever the
      network does, reports are exact.
    - Legacy plane: the pointer cache refines an abstract least-recently-recorded list for
      distinct live keys, state transitions follow the table, the executor never terminates a
      managed or protected host, a scan records what the checks found; over HTTP a state
      changes exactly as the table allows ([CatalogHttp]).
    - Host agent ([SubdFacts], [LocalHostFacts]): whatever crashes happen, a restart recovers a
      state the writes allow, revisions never regress, enforcement is fenced, reports are
      true, only the authorized writer acts; a rendered join is what the Dominator accepts.
    - Host operations, Dominator and their composition ([HostOpsFacts], [DominatorFacts],
      [Worker]): a request's revision is permanent, a Secret reported applied was enforced by
      the agent, a worker is released only behind every gate, calls stay on the worker of the
      operation, join tokens and certificates are handled as the protocol demands.  At most
      one execution is under a host's lock with a live session, and revisions only increase,
      whatever sessions and answers are lost ([HostLock]).
    - Listeners ([DominatorServer], [AgentServer]): a Dominator listens under its zone's
      identity only and acts for Crane API only, on hosts of its zone; an agent is changed
      only by its writer.
    - Platform bootstrap ([RunnerFacts]): the calls of a run are a prefix of the script in
      order, whatever fails; a deployment's pinned configuration never changes.
    - AWS runtime ([AwsRuntimeFacts]): whoever launches an operation sends the same request, so
      that by the documented idempotency of RunInstances ([idempotent], for as long as EC2
      remembers the client token) a second launch starts nothing; verification recognizes what
      was launched and accepts it exactly if its address is private; commands sent to hosts are
      split by a shell into exactly the intended words.
    - AWS layer zero: every request of a bootstrap and of an operation that changes the account
      names a resource made in this deployment or found under its ownership tags
      ([AwsRunFacts]; the audit does not look at the instance profile of a launch, the subnet
      group of the database or whether a listener was absent); an accepted network has disjoint subnets inside its VPC, settings once
      pinned stay pinned, also through their file ([AwsConfigFacts], [AwsSessionFacts]); an
      accepted configuration gives well-formed zones whose launches the worker runtime accepts
      ([AwsTopologyFacts]).
    - Command line of AWS ([AwsCli]): of a service's message only an error code can be shown, of
      a request only listed identifiers.
    - Commands ([Probe], [Commands]): a probe leaves the agent as it is and passes exactly when
      identity and rights are as asked; a dry run accepts what the run would accept.
    - Legacy provider ([LegacyProvider]): a database handed out was seen available; the
      database can be made once only.
    - Redaction and logging ([RedactFacts], [RedactText], [Logging]): no sink of a logger, the
      console's or the exporter's, gets a string, number, boolean or time that was reachable
      only through a sensitive key; redaction terminates on cyclic values and hides key-value secrets in text.
    - Telemetry ([Telemetry]): exporters start as configured or everything is a no-op and what
      was started is stopped; labels have bounded cardinality.
    - Settings, placement, processes ([Settings], [Topology], [Startup]): the database URL reads
      back as its parts, schema installation is idempotent, accepted zones were confirmed by
      the provider, loops keep the ledger, and a process closes what it opened in reverse
      order whichever step fails.
    Theorems and examples that show defects (refused deletions, actions that never run,
    a cache that grows) state what the code does.

    ** Bounds and fuel

    Recursion follows the data except in these places.  The expiry loop of [ProblemCache] has
    fuel equal to the number of nodes ever allocated, which the refinement theorem shows is
    enough.  [retry] of [Autoscaler] counts the attempts the code allows, three.  The number
    of intents of an admission is the difference of two checked targets.  A regular expression
    is matched with fuel equal to the length of the text, since every iteration of a star
    consumes a character.  The polling loops of [Dominator], [LocalHost] and [AwsRuntime] take
    the number of polls before their context ends, an arbitrary argument; a conflicting Secret
    write is retried as often as the code's backoff allows, four times.  A run of [Calls]
    carries the pauses left before its context ends, an arbitrary number: a wait that uses them
    up fails with the context's error, as in the code; an instance launch is retried seven
    times, and the tickers of [LegacyProvider] look 40, 20 and 18 times, the quotient of the
    code's deadline and interval.  [redact_within]
    descends [maxRedactDepth] levels, the code's own bound, and the termination theorem counts
    the work.  A polling loop of [Startup] runs over the list of its ticks, an arbitrary list:
    the loop returns when its context ends.  Routing and bodies recurse on the path and the
    parsed value.

    ** Not modelled

    Constructors that only store their arguments; metrics of the controllers and of the
    readiness gate; the internals of the OpenTelemetry SDK and of slog's formats; TLS, whose
    result, the identity of a peer, is an argument; connections and headers of net/http beyond
    those read; gRPC and protobuf; concurrency inside one process below the level of a store
    call, except the advisory lock of [HostLock]; signals, which arrive as the end of serving;
    indexes and column types of the schema; of internal/provider the fake and no-op providers,
    test data, the text of the script templates (a parameter of [AwsSession]) and of the SPIRE
    datastore configuration, and the aws process itself; the loading of Starlark policies from
    disk.  These are text, wiring, or code outside the repository. *)
From Stdlib Require Export ZArith Lia.
From stdpp Require Export prelude strings gmap list sorting.

#[global] Open Scope Z_scope.

(** ** Boolean tests

    Guards of the Go code and of its SQL are boolean functions here.  [x == y]
    is the decided equality of any type with [EqDecision]: strings, options,
    enumerations and rows alike. *)
Declare Scope crane_scope.
Delimit Scope crane_scope with crane.
#[global] Open Scope crane_scope.

Notation "x == y" := (bool_decide (x = y)) (at level 70, no associativity) : crane_scope.
Notation "x != y" := (negb (bool_decide (x = y))) (at level 70, no associativity) : crane_scope.

#[global] Arguments bool_decide _ {_} : simpl never.

Lemma eq_refl_true {A} `{EqDecision A} (x : A) : (x == x) = true.
Proof. by apply bool_decide_eq_true. Qed.

(** The lemmas that close the routine goals of every component. *)
Create HintDb crane discriminated.
#[export] Hint Resolve eq_refl_true : crane.
#[export] Hint Rewrite @andb_true_r @andb_false_r @orb_false_r @orb_true_r : crane.

(** Membership of a finite enumeration, SQL's [x IN (...)]. *)
Definition one_of {A} `{EqDecision A} (x : A) (l : list A) : bool :=
  existsb (fun y => x == y) l.

Lemma one_of_spec {A} `{EqDecision A} (x : A) l : one_of x l = true <-> In x l.
Proof.
  unfold one_of. rewrite existsb_exists. split.
  - intros (y & Hy & E). apply bool_decide_eq_true in E. by subst.
  - intros H. exists x. split; [done|]. by apply bool_decide_eq_true.
Qed.

(** ** Go errors

    The sentinel errors of the capacity package, the error values that
    database/sql and PostgreSQL hand back ([sql.ErrNoRows], and a constraint
    violation with its SQLSTATE), and errors made on the spot. *)
Inductive error : Type :=
| ErrInvalid | ErrAttachmentUnavailable | ErrConflict | ErrReplayMismatch
| ErrForbidden | ErrInactive | ErrLimit | ErrTemplate | ErrFulfilled | ErrFenced
| ErrNoRows
| ErrSql (state : string)
| ErrMsg (msg : string).

#[global] Instance error_eq_dec : EqDecision error.
Proof. solve_decision. Defined.

Inductive result (A : Type) : Type :=
| Ok (a : A)
| Err (e : error).
Arguments Ok {A} a.
Arguments Err {A} e.

#[global] Instance result_eq_dec {A} `{EqDecision A} : EqDecision (result A).
Proof. solve_decision. Defined.

Definition rbind {A B} (m : result A) (k : A -> result B) : result B :=
  match m with Ok a => k a | Err e => Err e end.

Definition of_option {A} (e : error) (o : option A) : result A :=
  match o with Some a => Ok a | None => Err e end.

(** Guard clause: Go's [if bad { return e }]. *)
Definition require (b : bool) (e : error) : result unit :=
  if b then Ok tt else Err e.

Definition is_ok {A} (r : result A) : bool :=
  match r with Ok _ => true | Err _ => false end.

Notation "'let*' x := m 'in' k" := (rbind m (fun x => k))
  (at level 10, x pattern, m at level 100, k at level 200,
   format "'[v' 'let*'  x  :=  m  'in' '/' k ']'") : crane_scope.
Notation "'guard' b 'else' e 'in' k" := (rbind (require b e) (fun _ => k))
  (at level 10, b at level 100, e at level 100, k at level 200,
   format "'[v' 'guard'  b  'else'  e  'in' '/' k ']'") : crane_scope.

Lemma rbind_ok {A B} (m : result A) (k : A -> result B) b :
  rbind m k = Ok b <-> exists a, m = Ok a /\ k a = Ok b.
Proof. destruct m; simpl; naive_solver. Qed.

Lemma require_ok b e u : require b e = Ok u <-> b = true.
Proof. destruct b, u; simpl; naive_solver. Qed.

Lemma of_option_ok {A} e (o : option A) a : of_option e o = Ok a <-> o = Some a.
Proof. destruct o; simpl; naive_solver. Qed.

(** ** 64-bit integers

    Go's [int64] and PostgreSQL's [bigint] share the range; Go wraps. *)
Definition MaxInt64 : Z := 9223372036854775807.
Definition MaxInt32 : Z := 2147483647.

Definition wrap64 (z : Z) : Z := (z + 2 ^ 63) mod 2 ^ 64 - 2 ^ 63.

Definition int64 (z : Z) : Prop := - 2 ^ 63 <= z <= MaxInt64.

Lemma wrap64_id z : int64 z -> wrap64 z = z.
Proof.
  unfold int64, MaxInt64, wrap64. intros H.
  rewrite Z.mod_small; lia.
Qed.

Lemma wrap64_range z : int64 (wrap64 z).
Proof.
  unfold int64, MaxInt64, wrap64.
  pose proof (Z.mod_pos_bound (z + 2 ^ 63) (2 ^ 64)). lia.
Qed.

Definition add64 (a b : Z) : Z := wrap64 (a + b).
Definition sub64 (a b : Z) : Z := wrap64 (a - b).
Definition mul64 (a b : Z) : Z := wrap64 (a * b).

(** ** Sums over lists *)
Fixpoint sum_of {A} (f : A -> Z) (l : list A) : Z :=
  match l with [] => 0 | x :: r => f x + sum_of f r end.

Lemma sum_of_app {A} (f : A -> Z) l k : sum_of f (l ++ k) = sum_of f l + sum_of f k.
Proof. induction l; simpl; lia. Qed.

Lemma sum_of_ext {A} (f g : A -> Z) l :
  (forall x, In x l -> f x = g x) -> sum_of f l = sum_of g l.
Proof.
  induction l as [|x l IH]; simpl; intros H; [done|].
  rewrite (H x) by auto. rewrite IH; auto.
Qed.

Lemma sum_of_le {A} (f g : A -> Z) l :
  (forall x, In x l -> f x <= g x) -> sum_of f l <= sum_of g l.
Proof.
  induction l as [|x l IH]; simpl; intros H; [lia|].
  pose proof (H x (or_introl eq_refl)).
  pose proof (IH (fun y Hy => H y (or_intror Hy))). lia.
Qed.

Lemma sum_of_nonneg {A} (f : A -> Z) l :
  (forall x, In x l -> 0 <= f x) -> 0 <= sum_of f l.
Proof.
  induction l as [|x l IH]; simpl; intros H; [lia|].
  pose proof (H x (or_introl eq_refl)).
  pose proof (IH (fun y Hy => H y (or_intror Hy))). lia.
Qed.

Lemma sum_of_zero {A} (l : list A) : sum_of (fun _ => 0) l = 0.
Proof. induction l; simpl; lia. Qed.

Lemma sum_of_map {A B} (f : B -> Z) (g : A -> B) l :
  sum_of f (map g l) = sum_of (fun x => f (g x)) l.
Proof. induction l; simpl; lia. Qed.

#[export] Hint Resolve sum_of_nonneg sum_of_le sum_of_app wrap64_id wrap64_range : crane.

(** ** Tactics *)

(** Split boolean hypotheses of a guard into propositions. *)
Ltac bsplit_hyp H :=
  lazymatch type of H with
  | (_ && _)%bool = true => apply andb_prop in H; let H1 := fresh H in destruct H as [H1 H]; bsplit_hyp H1; bsplit_hyp H
  | (_ || _)%bool = false => apply orb_false_elim in H; let H1 := fresh H in destruct H as [H1 H]; bsplit_hyp H1; bsplit_hyp H
  | negb _ = true => apply negb_true_iff in H; bsplit_hyp H
  | negb _ = false => apply negb_false_iff in H; bsplit_hyp H
  | bool_decide _ = true => apply bool_decide_eq_true in H
  | bool_decide _ = false => apply bool_decide_eq_false in H
  | Is_true _ => apply Is_true_eq_true in H; bsplit_hyp H
  | (_ <? _)%Z = true => apply Z.ltb_lt in H
  | (_ <? _)%Z = false => apply Z.ltb_ge in H
  | (_ <=? _)%Z = true => apply Z.leb_le in H
  | (_ <=? _)%Z = false => apply Z.leb_gt in H
  | _ => idtac
  end.

Ltac bsplit :=
  repeat match goal with
  | H : (_ && _)%bool = true |- _ => progress bsplit_hyp H
  | H : (_ || _)%bool = false |- _ => progress bsplit_hyp H
  | H : negb _ = _ |- _ => progress bsplit_hyp H
  | H : bool_decide _ = _ |- _ => progress bsplit_hyp H
  | H : (_ <? _)%Z = _ |- _ => progress bsplit_hyp H
  | H : (_ <=? _)%Z = _ |- _ => progress bsplit_hyp H
  end.

(** Take apart a successful run of a computation in the error monad. *)
Ltac inv_ok :=
  repeat match goal with
  | H : rbind _ _ = Ok _ |- _ => apply rbind_ok in H as (?x & ?Hx & H)
  | H : require _ _ = Ok _ |- _ => apply require_ok in H
  | H : of_option _ _ = Ok _ |- _ => apply of_option_ok in H
  | H : Ok _ = Ok _ |- _ => injection H as ?; subst
  | H : Err _ = Ok _ |- _ => discriminate H
  | H : Ok _ = Err _ |- _ => discriminate H
  end.
