(* ===== verification/GoStrings.v ===== *)
(** * Go string helpers

    The functions of package [strings] (and the one regular expression of
    [pkg/api/naming.go]) that the modelled code calls, over byte strings.
    [strings.TrimSpace] and [strings.ToLower] are modelled on ASCII, the only
    letters and spaces the callers' identifiers and keys may hold. *)
From S2P Require Import Prelude.
From Stdlib Require Import Ascii String.

Local Open Scope string_scope.
Local Open Scope list_scope.

Definition HasPrefix (s p : string) : bool := String.prefix p s.

Fixpoint HasSuffix (s suf : string) : bool :=
  (s == suf) || match s with EmptyString => false | String _ r => HasSuffix r suf end.

Fixpoint Contains (s sub : string) : bool :=
  HasPrefix s sub || match s with EmptyString => false | String _ r => Contains r sub end.

(** [strings.TrimPrefix]. *)
Fixpoint drop_chars (n : nat) (s : string) : string :=
  match n, s with
  | S n, String _ r => drop_chars n r
  | _, _ => s
  end.

Definition TrimPrefix (s p : string) : string :=
  if HasPrefix s p then drop_chars (String.length p) s else s.

(** [strings.Cut s "/"], with the separator one byte. *)
Fixpoint Cut (s : string) (sep : ascii) : string * string * bool :=
  match s with
  | EmptyString => (EmptyString, EmptyString, false)
  | String c r =>
      if c == sep then (EmptyString, r, true)
      else let '(a, b, found) := Cut r sep in (String c a, b, found)
  end.

Definition is_space (c : ascii) : bool :=
  one_of (nat_of_ascii c) [9; 10; 11; 12; 13; 32]%nat.

Fixpoint trim_left (s : string) : string :=
  match s with
  | String c r => if is_space c then trim_left r else s
  | EmptyString => EmptyString
  end.

Fixpoint all_space (s : string) : bool :=
  match s with EmptyString => true | String c r => is_space c && all_space r end.

Fixpoint trim_right (s : string) : string :=
  match s with
  | String c r => if all_space s then EmptyString else String c (trim_right r)
  | EmptyString => EmptyString
  end.

Definition TrimSpace (s : string) : string := trim_right (trim_left s).

Definition lower (c : ascii) : ascii :=
  let n := nat_of_ascii c in
  if ((65 <=? n) && (n <=? 90))%nat then ascii_of_nat (n + 32) else c.

Fixpoint ToLower (s : string) : string :=
  match s with EmptyString => EmptyString | String c r => String (lower c) (ToLower r) end.

Fixpoint Join (l : list string) (sep : string) : string :=
  match l with
  | [] => EmptyString
  | [x] => x
  | x :: r => String.append x (String.append sep (Join r sep))
  end.

(** The classes of [^[a-z0-9](?:[a-z0-9-]*[a-z0-9])?$]. *)
Definition lower_alnum (c : ascii) : bool :=
  let n := nat_of_ascii c in
  (((97 <=? n) && (n <=? 122)) || ((48 <=? n) && (n <=? 57)))%nat.

Definition name_char (c : ascii) : bool := lower_alnum c || (nat_of_ascii c =? 45)%nat.

(** The tail [[a-z0-9-]*[a-z0-9]] read left to right: every character is in the
    class and the last one is not a hyphen. *)
Fixpoint name_tail (s : string) : bool :=
  match s with
  | EmptyString => true
  | String c EmptyString => lower_alnum c
  | String c r => name_char c && name_tail r
  end.

Definition namingComponent (s : string) : bool :=
  match s with
  | EmptyString => false
  | String c r => lower_alnum c && name_tail r
  end.

(** ** Facts *)

Lemma HasSuffix_app p s : HasSuffix (String.append p s) s = true.
Proof.
  assert (forall t, HasSuffix t t = true) as Hrefl.
  { intros [|c t]; [done|]. simpl. rewrite bool_decide_true by done. done. }
  induction p as [|c p IH]; simpl; [apply Hrefl|].
  rewrite IH. apply orb_true_r.
Qed.

Lemma prefix_append p s : String.prefix p (String.append p s) = true.
Proof.
  induction p as [|c p IH]; simpl; [by destruct s|].
  destruct (Ascii.ascii_dec c c); [done|congruence].
Qed.

Lemma TrimPrefix_append p s : TrimPrefix (String.append p s) p = s.
Proof.
  unfold TrimPrefix, HasPrefix. rewrite prefix_append.
  induction p as [|c p IH]; simpl; done.
Qed.

Lemma HasPrefix_append p s : HasPrefix (String.append p s) p = true.
Proof. apply prefix_append. Qed.

(** A naming component is never empty and is written in its alphabet only. *)
Fixpoint all_chars (f : ascii -> bool) (s : string) : bool :=
  match s with EmptyString => true | String c r => f c && all_chars f r end.

Lemma lower_alnum_name_char c : lower_alnum c = true -> name_char c = true.
Proof. unfold name_char. intros ->. done. Qed.

Lemma name_tail_chars s : name_tail s = true -> all_chars name_char s = true.
Proof.
  induction s as [|c r IH]; [done|]. simpl. destruct r as [|d r'].
  - intros H. rewrite (lower_alnum_name_char _ H). done.
  - intros H. apply andb_prop in H as [H1 H2]. by rewrite H1, IH.
Qed.

Lemma namingComponent_chars s :
  namingComponent s = true -> s <> EmptyString /\ all_chars name_char s = true.
Proof.
  destruct s as [|c r]; [done|]. simpl. intros H. apply andb_prop in H as [H1 H2].
  by rewrite (lower_alnum_name_char _ H1), (name_tail_chars _ H2).
Qed.

Lemma all_chars_append f a b :
  all_chars f (String.append a b) = all_chars f a && all_chars f b.
Proof. induction a; simpl; [done|]. rewrite IHa. apply andb_assoc. Qed.

(** ** Files that hold one JSON value: what [os.ReadFile] and [json.Unmarshal] make of them *)
Inductive file (A : Type) : Type := Missing | Unreadable | Garbage | Stored (a : A).
Arguments Missing {A}.
Arguments Unreadable {A}.
Arguments Garbage {A}.
Arguments Stored {A} a.
