(* ===== verification/Sql.v ===== *)
(** * The relational layer

    A table is the list of its rows; a statement of the Go code is one of the
    combinators below applied to the predicate and the assignment that its SQL
    text spells out.  [rows_affected] is what [sql.Result.RowsAffected] reports,
    and a unique-constraint violation is an error with SQLSTATE 23505. *)
From S2P Require Import Prelude.

Section Table.
Context {R : Type}.
Implicit Types (p q : R -> bool) (f : R -> R) (t u : list R).

(** [UPDATE t SET f WHERE p]. *)
Definition update_where p f t : list R := map (fun r => if p r then f r else r) t.

Definition rows_affected p t : Z := Z.of_nat (length (List.filter p t)).

(** [SELECT ... WHERE p] read with [QueryRowContext]: the first row, if any. *)
Definition select_one p t : option R := List.find p t.

Definition select p t : list R := List.filter p t.

(** [EXISTS(SELECT 1 FROM t WHERE p)]. *)
Definition exists_row p t : bool := existsb p t.

(** [ORDER BY ... LIMIT n], the order given by a comparison of rows. *)
#[local] Instance bool_rel_dec (le : R -> R -> bool) a b : Decision (le a b = true) :=
  decide (le a b = true).

Definition order_by (le : R -> R -> bool) t : list R :=
  merge_sort (fun a b => le a b = true) t.

Definition limit (n : Z) t : list R := take (Z.to_nat n) t.

(** [INSERT INTO t VALUES r] under the unique constraints [clash]. *)
Definition insert_row (clash : R -> bool) (r : R) t : result (list R) :=
  if existsb clash t then Err (ErrSql "23505") else Ok (t ++ [r]).

(** ** Updates *)

Lemma in_update_where p f t r :
  In r (update_where p f t) <-> exists r0, In r0 t /\ r = (if p r0 then f r0 else r0).
Proof. unfold update_where. rewrite in_map_iff. naive_solver. Qed.

Lemma update_where_none p f t :
  (forall r, In r t -> p r = false) -> update_where p f t = t.
Proof.
  unfold update_where. induction t as [|r t IH]; simpl; intros H; [done|].
  rewrite (H r) by auto. rewrite IH; auto.
Qed.

Lemma update_where_id p f t :
  (forall r, In r t -> p r = true -> f r = r) -> update_where p f t = t.
Proof.
  unfold update_where. induction t as [|r t IH]; simpl; intros H; [done|].
  rewrite IH by auto. destruct (p r) eqn:E; [rewrite (H r)|]; auto.
Qed.

Lemma rows_affected_zero p t :
  rows_affected p t = 0 <-> forall r, In r t -> p r = false.
Proof.
  unfold rows_affected. induction t as [|r t IH]; simpl; [naive_solver|].
  destruct (p r) eqn:E; simpl.
  - split; [lia|]. intros H. rewrite (H r) in E by auto. done.
  - rewrite IH. naive_solver.
Qed.

Lemma rows_affected_pos p t : rows_affected p t = 1 -> exists r, In r t /\ p r = true.
Proof.
  intros H. destruct (List.filter p t) as [|r l] eqn:E; [unfold rows_affected in H; by rewrite E in H|].
  exists r. apply filter_In. rewrite E. by left.
Qed.

Lemma rows_affected_zero_update p f t :
  rows_affected p t = 0 -> update_where p f t = t.
Proof. intros H. apply update_where_none. by apply rows_affected_zero. Qed.

Lemma update_where_map {B} (g : R -> B) p f t :
  (forall r, In r t -> p r = true -> g (f r) = g r) ->
  map g (update_where p f t) = map g t.
Proof.
  unfold update_where. induction t as [|r t IH]; simpl; intros H; [done|].
  rewrite IH by auto. destruct (p r) eqn:E; [rewrite (H r)|]; auto.
Qed.

Lemma sum_update_where (g : R -> Z) p f t :
  (forall r, In r t -> p r = true -> g (f r) = g r) ->
  sum_of g (update_where p f t) = sum_of g t.
Proof.
  unfold update_where. intros H. rewrite sum_of_map. apply sum_of_ext.
  intros r Hr. destruct (p r) eqn:E; auto.
Qed.

Lemma sum_update_where_le (g : R -> Z) p f t :
  (forall r, In r t -> p r = true -> g (f r) <= g r) ->
  sum_of g (update_where p f t) <= sum_of g t.
Proof.
  unfold update_where. intros H. rewrite sum_of_map. apply sum_of_le.
  intros r Hr. destruct (p r) eqn:E; auto. lia.
Qed.

Lemma exists_row_true p t : exists_row p t = true <-> exists r, In r t /\ p r = true.
Proof. unfold exists_row. apply existsb_exists. Qed.

Lemma exists_row_false p t : exists_row p t = false <-> forall r, In r t -> p r = false.
Proof.
  unfold exists_row. induction t as [|r t IH]; simpl; [naive_solver|].
  rewrite orb_false_iff, IH. naive_solver.
Qed.

(** Rows that a predicate reading unchanged columns keeps. *)
Lemma exists_row_update p q f t :
  (forall r, p (if q r then f r else r) = p r) ->
  exists_row p (update_where q f t) = exists_row p t.
Proof.
  intros H. unfold exists_row, update_where.
  induction t as [|r t IH]; simpl; [done|]. by rewrite H, IH.
Qed.

Lemma exists_row_app p t u : exists_row p (t ++ u) = exists_row p t || exists_row p u.
Proof. apply existsb_app. Qed.

(** ** Inserts *)

Lemma insert_row_ok (clash : R -> bool) r t t' :
  insert_row clash r t = Ok t' <-> t' = t ++ [r] /\ forall r0, In r0 t -> clash r0 = false.
Proof.
  unfold insert_row. destruct (existsb clash t) eqn:E.
  - split; [done|]. intros [_ H]. apply existsb_exists in E as (x & Hx & Ex).
    rewrite H in Ex; done.
  - pose proof (proj1 (exists_row_false clash t) E). naive_solver.
Qed.

(** ** Ordering *)

Lemma order_by_perm le t : Permutation (order_by le t) t.
Proof. apply merge_sort_Permutation. Qed.

Lemma in_order_by le t r : In r (order_by le t) <-> In r t.
Proof.
  split; apply Permutation_in; [|symmetry]; apply order_by_perm.
Qed.

Lemma order_by_sorted le t : (forall a b, le a b = true \/ le b a = true) -> Sorted (fun a b => le a b = true) (order_by le t).
Proof. intros H. assert (Total (fun a b => le a b = true)) by exact H. apply (Sorted_merge_sort (fun a b => le a b = true)). Qed.

Lemma in_limit n t r : In r (limit n t) -> In r t.
Proof.
  unfold limit. rewrite <- !list_elem_of_In.
  intros H. apply elem_of_take in H as (i & Hi & _). by eapply list_elem_of_lookup_2.
Qed.

Lemma select_one_some p t r : select_one p t = Some r -> In r t /\ p r = true.
Proof. apply List.find_some. Qed.

Lemma select_one_middle p t u r :
  select_one p t = None -> p r = true -> select_one p (t ++ r :: u) = Some r.
Proof.
  unfold select_one. induction t as [|x t IH]; simpl; [by intros _ ->|].
  destruct (p x); [done|]. apply IH.
Qed.

Lemma select_one_none p t : select_one p t = None <-> forall r, In r t -> p r = false.
Proof.
  split; [apply List.find_none|]. unfold select_one. induction t as [|r t IH]; simpl; [done|].
  intros H. rewrite (H r) by auto. auto.
Qed.
End Table.

(** ** Keyed tables *)
Section Keyed.
Context {R K : Type} `{EqDecision K} (key : R -> K).

Definition unique_key (t : list R) : Prop := NoDup (map key t).

Lemma unique_key_in t r1 r2 :
  unique_key t -> In r1 t -> In r2 t -> key r1 = key r2 -> r1 = r2.
Proof.
  unfold unique_key. induction t as [|r t IH]; simpl; [done|].
  intros Hnd [<-|H1] [<-|H2] Hk; apply NoDup_cons in Hnd as [Hn Hnd]; auto.
  - destruct Hn. rewrite Hk. apply list_elem_of_In. by apply in_map.
  - destruct Hn. rewrite <- Hk. apply list_elem_of_In. by apply in_map.
Qed.

Lemma select_one_key t r :
  unique_key t -> In r t -> select_one (fun x => key x == key r) t = Some r.
Proof.
  intros Hu Hr. destruct (select_one _ t) as [x|] eqn:E.
  - apply select_one_some in E as [Hx Ex]. bsplit. f_equal.
    by apply (unique_key_in t).
  - pose proof (proj1 (select_one_none _ _) E r Hr) as H. cbn in H. bsplit. done.
Qed.

Lemma unique_key_update (p : R -> bool) (f : R -> R) t :
  (forall r, In r t -> p r = true -> key (f r) = key r) ->
  unique_key t -> unique_key (update_where p f t).
Proof. unfold unique_key. intros H. by rewrite update_where_map. Qed.

Lemma unique_key_app t r :
  unique_key t -> (forall r0, In r0 t -> key r0 <> key r) -> unique_key (t ++ [r]).
Proof.
  unfold unique_key. rewrite map_app. intros Hu Hn. apply NoDup_app. split; [done|].
  split; [|apply NoDup_singleton].
  intros k Hk. simpl. rewrite list_elem_of_singleton. intros ->.
  apply list_elem_of_In, in_map_iff in Hk as (r0 & E & H0). by apply (Hn r0).
Qed.

(** A statement that selects by primary key touches at most one row. *)
Lemma rows_affected_key k (p : R -> bool) t :
  unique_key t -> (forall r, In r t -> p r = true -> key r = k) -> rows_affected p t <= 1.
Proof.
  unfold rows_affected, unique_key. induction t as [|r t IH]; simpl; [lia|].
  intros Hnd Hp. apply NoDup_cons in Hnd as [Hn Hnd].
  destruct (p r) eqn:E; [|by apply IH; auto]. simpl.
  assert (rows_affected p t = 0) as H0; [|unfold rows_affected in H0; lia].
  apply rows_affected_zero. intros x Hx. destruct (p x) eqn:Ex; [|done].
  destruct Hn. rewrite (Hp r), <- (Hp x) by auto. apply list_elem_of_In. by apply in_map.
Qed.

Lemma rows_affected_one (p : R -> bool) t r :
  In r t -> p r = true -> rows_affected p t <= 1 -> rows_affected p t = 1.
Proof.
  intros Hr Hp H1. destruct (decide (rows_affected p t = 0)) as [E|].
  - rewrite (proj1 (rows_affected_zero p t) E r Hr) in Hp. done.
  - unfold rows_affected in *. lia.
Qed.
End Keyed.
