(* ===== verification/Api.v ===== *)
(** * The wire and domain types of [pkg/api]

    Structs become records with the Go field order; string enumerations with a
    fixed set of constants become inductive types; the Kubernetes validators of
    k8s.io/apimachinery and the SHA-256 digest are parameters ([K8s], [Digest]).
    A [json.RawMessage] is [Some] value when [json.Valid] accepts it; a jsonb
    column holds the value that was marshalled into it. *)
From S2P Require Import Prelude GoStrings.

Local Open Scope string_scope.
Local Open Scope list_scope.
Local Open Scope Z_scope.
Local Open Scope crane_scope.

(** ** JSON *)
#[warnings="-register-all"]
Inductive Json : Type :=
| JNull
| JBool (b : bool)
| JNum (n : Z)
| JStr (s : string)
| JArr (l : list Json)
| JObj (l : list (string * Json)).

Fixpoint json_eq (a b : Json) {struct a} : {a = b} + {a <> b}.
Proof.
  decide equality.
  - apply bool_dec.
  - apply Z.eq_dec.
  - apply String.string_dec.
  - apply List.list_eq_dec, json_eq.
  - apply List.list_eq_dec. intros [k x] [k' x'].
    destruct (String.string_dec k k') as [->|N]; [|right; congruence].
    destruct (json_eq x x') as [->|N]; [left; done|right; congruence].
Defined.

#[global] Instance Json_eq_dec : EqDecision Json := json_eq.

Definition RawMessage : Type := option Json.
#[global] Instance RawMessage_eq_dec : EqDecision RawMessage := _.

(** [json.Valid]. *)
Definition json_valid (m : RawMessage) : bool := match m with Some _ => true | None => false end.

(** [COALESCE(j->>'k','')] for a string member. *)
Definition json_text (k : string) (j : Json) : string :=
  match j with
  | JObj l => match List.find (fun kv => fst kv == k) l with
              | Some (_, JStr s) => s
              | _ => ""
              end
  | _ => ""
  end.

(** ** Enumerations *)
Inductive HostState : Type :=
| HostRequested | HostProvisioning | HostBooting | HostRegistering | HostConverging
| HostReady | HostDraining | HostTerminating | HostTerminated | HostFailed | HostUnhealthy.

#[global] Instance HostState_eq_dec : EqDecision HostState.
Proof. solve_decision. Defined.

(** Go's [HostHealth] is a string; values outside the constants are kept as they are. *)
Inductive HostHealth : Type :=
| HostHealthUnknown | HostHealthHealthy | HostHealthUnhealthy | HostHealthOther (s : string).

#[global] Instance HostHealth_eq_dec : EqDecision HostHealth.
Proof. solve_decision. Defined.

Inductive ZoneBootstrapPhase : Type :=
| ZoneRequested | ZoneInfrastructureProvisioning | ZoneControlPlaneInitializing
| ZoneNetworkInstalling | ZoneDominatorInstalling | ZoneValidating | ZoneReady | ZoneFailed.

#[global] Instance ZoneBootstrapPhase_eq_dec : EqDecision ZoneBootstrapPhase.
Proof. solve_decision. Defined.

(** ** Resources, scheduling and naming *)
Record Resources : Type := mkResources { VCPU : Z; MemoryMiB : Z; Nodes : Z }.

#[global] Instance Resources_eq_dec : EqDecision Resources.
Proof. solve_decision. Defined.

Record SchedulingTaint : Type := mkTaint { taint_Key : string; taint_Value : string; taint_Effect : string }.

#[global] Instance SchedulingTaint_eq_dec : EqDecision SchedulingTaint.
Proof. solve_decision. Defined.

Record SchedulingTemplate : Type := mkScheduling {
  InstanceType : string; Architecture : string; sRegion : string; sZone : string;
  Labels : gmap string string; Taints : list SchedulingTaint }.

#[global] Instance SchedulingTemplate_eq_dec : EqDecision SchedulingTemplate.
Proof. solve_decision. Defined.

Definition empty_scheduling : SchedulingTemplate := mkScheduling "" "" "" "" ∅ [].

Record NodeGroupNaming : Type := mkNaming {
  n_Provider : string; n_DevelopmentStage : string; n_Region : string; n_AZ : string; n_Group : string }.

#[global] Instance NodeGroupNaming_eq_dec : EqDecision NodeGroupNaming.
Proof. solve_decision. Defined.

(** ** Topology inputs *)
Record ZoneInput : Type := mkZoneInput {
  zi_ID : string; zi_Provider : string; zi_AccountID : string; zi_Region : string;
  zi_ProviderZoneID : string; zi_KubernetesRegion : string; zi_KubernetesZone : string }.

Record ClusterInput : Type := mkClusterInput {
  ci_ID : string; ci_APIServerEndpoint : string; ci_CACertHash : string; ci_KubeadmVersion : string;
  ci_KubeletVersion : string; ci_ContainerRuntime : string; ci_CNI : string }.

Record NodePoolInput : Type := mkNodePoolInput { pi_ID : string; pi_Limits : Resources }.

Record ClusterZoneInput : Type := mkClusterZoneInput {
  mi_ClusterID : string; mi_ZoneID : string; mi_LifecycleState : string; mi_AccessState : string }.

Record NodeGroupInput : Type := mkNodeGroupInput {
  gi_Naming : NodeGroupNaming; gi_ID : string; gi_ClusterID : string; gi_NodePoolID : string;
  gi_ZoneID : string; gi_CapacityClass : string; gi_ProviderZoneID : string;
  gi_MinNodes : Z; gi_MaxNodes : Z; gi_TemplateRevision : string; gi_PerNode : Resources;
  gi_LaunchParameters : RawMessage; gi_Scheduling : SchedulingTemplate }.

Record FirstZoneInput : Type := mkFirstZoneInput {
  fz_Zone : ZoneInput; fz_Cluster : ClusterInput; fz_Membership : ClusterZoneInput;
  fz_Pool : NodePoolInput; fz_Group : NodeGroupInput }.

(** ** Capacity requests, removals and operations *)
Record CapacityRequest : Type := mkCapacityRequest {
  NodeGroupID : string; RequestID : string; ClusterID : string;
  ExpectedTargetRevision : Z; DesiredTarget : Z; TemplateRevision : string }.

#[global] Instance CapacityRequest_eq_dec : EqDecision CapacityRequest.
Proof. solve_decision. Defined.

Record CapacityResult : Type := mkCapacityResult {
  res_RequestID : string; res_NodeGroupID : string; res_TargetNodes : Z; res_TargetRevision : Z }.

Record RemovalNode : Type := mkRemovalNode { rn_HostID : string; rn_NodeName : string; rn_ProviderID : string }.

#[global] Instance RemovalNode_eq_dec : EqDecision RemovalNode.
Proof. solve_decision. Defined.

Record NodeRemovalRequest : Type := mkNodeRemovalRequest {
  rr_NodeGroupID : string; rr_RequestID : string; rr_ExpectedTargetRevision : Z; rr_Nodes : list RemovalNode }.

#[global] Instance NodeRemovalRequest_eq_dec : EqDecision NodeRemovalRequest.
Proof. solve_decision. Defined.

Record ProvisioningTemplate : Type := mkProvisioningTemplate {
  pt_LaunchParameters : RawMessage; pt_Scheduling : SchedulingTemplate;
  pt_TemplateRevision : string; pt_CapacityClass : string }.

#[global] Instance ProvisioningTemplate_eq_dec : EqDecision ProvisioningTemplate.
Proof. solve_decision. Defined.

(** Operation kinds and states, as the CHECK constraints of [operations] list them. *)
Inductive OpKind : Type := Kprovision | Kcreate_cluster | Kattach_zone | Kremove_node.

#[global] Instance OpKind_eq_dec : EqDecision OpKind.
Proof. solve_decision. Defined.

Inductive OpState : Type :=
| Opending | Oleased | Olaunching | Osucceeded | Ocancelled | Ofailed | Oblocked.

#[global] Instance OpState_eq_dec : EqDecision OpState.
Proof. solve_decision. Defined.

(** What the jsonb column [operations.parameters] holds: a marshalled
    provisioning template, a marshalled removal request, or plain JSON. *)
Inductive Parameters : Type :=
| PTemplate (t : ProvisioningTemplate)
| PRemoval (r : NodeRemovalRequest)
| PJson (j : Json).

#[global] Instance Parameters_eq_dec : EqDecision Parameters.
Proof. solve_decision. Defined.

(** The facts that [LoadProvisioningTarget] and [LoadBootstrapTarget] copy from
    the catalog into the Go struct. *)
Record OperationTarget : Type := mkTarget {
  t_ClusterID : string; t_NodePoolID : string; t_APIServerEndpoint : string; t_CACertHash : string;
  t_Provider : string; t_AccountID : string; t_Region : string; t_ProviderZoneID : string;
  t_KubernetesRegion : string; t_KubernetesZone : string; t_CapacityClass : string;
  t_TemplateRevision : string; t_LaunchParameters : RawMessage; t_Scheduling : SchedulingTemplate;
  t_SpireInstanceID : string }.

Definition empty_target : OperationTarget :=
  mkTarget "" "" "" "" "" "" "" "" "" "" "" "" None empty_scheduling "".

Record Operation : Type := mkOperation {
  op_ID : string; op_Kind : OpKind; op_ZoneID : string; op_NodeGroupID : string; op_HostID : string;
  op_CapacityRequestID : string; op_Target : OperationTarget; op_TargetRevision : Z;
  op_State : OpState; op_ProviderToken : string; op_Parameters : Parameters;
  op_LeaseOwner : string; op_LeaseUntil : Z; op_Fence : Z; op_LastError : string;
  op_CreatedAt : Z; op_UpdatedAt : Z }.

Record NodeRemovalOperation : Type := mkNodeRemovalOperation {
  ro_NodeGroupID : string; ro_HostID : string; ro_NodeName : string; ro_ProviderID : string;
  ro_Reason : string; ro_PreserveDesiredCapacity : bool; ro_DrainDeadline : option Z }.

(** ** Expected host state *)
Record HostPackageChange : Type := mkPackageChange { pc_Name : string; pc_Action : string }.

#[global] Instance HostPackageChange_eq_dec : EqDecision HostPackageChange.
Proof. solve_decision. Defined.

Record KubernetesSecret : Type := mkSecret {
  ks_Namespace : string; ks_Name : string; ks_Type : string;
  ks_Data : gmap string string; ks_StringData : gmap string string; ks_RolloutDeployment : string }.

#[global] Instance KubernetesSecret_eq_dec : EqDecision KubernetesSecret.
Proof. solve_decision. Defined.

Record ExpectedHostState : Type := mkExpected {
  ex_Revision : Z; ex_ImageID : string; ex_Track : string; ex_Version : string;
  ex_Services : gmap string bool; ex_Packages : list HostPackageChange;
  ex_Secret : option KubernetesSecret }.

#[global] Instance ExpectedHostState_eq_dec : EqDecision ExpectedHostState.
Proof. solve_decision. Defined.

(** ** Bootstrap *)
Record BootstrapRequest : Type := mkBootstrapRequest {
  br_Kind : string; br_RequestID : string; br_ClusterID : string; br_ZoneID : string;
  br_Parameters : RawMessage }.

Record BootstrapStepResult : Type := mkStepResult {
  sr_APIServerEndpoint : string; sr_CACertHash : string; sr_ProviderHostID : string;
  sr_HostPrivateIP : string; sr_ImageID : string; sr_DominatorEndpoint : string;
  sr_DominatorIdentity : string }.
