(* ===== verification/Schema.v ===== *)
(** * The Crane database

    One record per table of [internal/capacity/schema.sql] and [DB], the state
    every component of the control plane shares.  A nullable column is an
    [option]; timestamps are integers (milliseconds).  Columns that no modelled
    statement reads or writes are left out.

    A transaction ([Tx]) runs on a private copy of the database and either
    commits it or, on any error, leaves the database as it was: this is the
    [BeginTx ... defer tx.Rollback() ... Commit()] idiom of the Go code.
    A [Store] action keeps its effects even when it returns an error, as a
    sequence of autocommitted statements does. *)
From S2P Require Import Prelude Sql Api.

Local Open Scope string_scope.
Local Open Scope list_scope.
Local Open Scope Z_scope.
Local Open Scope crane_scope.

(** ** Rows *)
Record ZoneRow : Type := mkZone {
  z_id : string; z_provider : string; z_account_id : string; z_region : string;
  z_provider_zone_id : string; z_kubernetes_region : string; z_kubernetes_zone : string;
  z_enabled : bool; z_lifecycle_state : string }.

Record RegionRow : Type := mkRegion {
  tr_provider : string; tr_account_id : string; tr_region : string; tr_kubernetes_region : string }.

Record ClusterRow : Type := mkCluster {
  c_id : string; c_api_server_endpoint : string; c_ca_cert_hash : string; c_kubeadm_version : string;
  c_kubelet_version : string; c_container_runtime : string; c_cni : string; c_lifecycle_state : string }.

Record MemberRow : Type := mkMember {
  m_cluster_id : string; m_zone_id : string; m_lifecycle_state : string; m_access_state : string }.

Record PoolRow : Type := mkPool { p_id : string; p_enabled : bool; p_limits : Resources }.

Record GroupRow : Type := mkGroup {
  g_naming : NodeGroupNaming; g_id : string; g_cluster_id : string; g_zone_id : string;
  g_node_pool_id : string; g_capacity_class : string; g_provider_zone_id : string;
  g_target_nodes : Z; g_target_revision : Z; g_min_nodes : Z; g_max_nodes : Z;
  g_template_revision : string; g_lifecycle_state : string; g_vcpu : Z; g_memory_mib : Z;
  g_launch_parameters : Json; g_scheduling : SchedulingTemplate }.

Record RequestRow : Type := mkRequest {
  r_id : string; r_group_id : string; r_request_id : string; r_cluster_id : string;
  r_expected_revision : Z; r_desired_target : Z; r_template_revision : string; r_result_revision : Z }.

Record HostRow : Type := mkHost {
  h_id : string; h_role : option string; h_zone : option string; h_imageid : option string;
  h_state : HostState; h_health : option HostHealth; h_createdat : option Z; h_updatedat : option Z;
  h_provider : option string; h_providerid : option string; h_lastseenheartbeat : option Z;
  h_endpoint : option string; h_db : option (Z * string * string * string * string);
  h_protected : bool; h_subd_endpoint : string; h_kubernetes_provider_id : string;
  h_node_group_id : option string; h_node_pool_id : option string; h_crane_zone : option string;
  h_operation_id : option string; h_desired_state_version : string; h_observed_state_version : string;
  h_reserved_vcpu : Z; h_reserved_memory_mib : Z; h_excess_capacity : bool }.

Record DominatorRow : Type := mkDominator {
  d_zone_id : string; d_endpoint : string; d_identity : string; d_observability_status : string }.

Record OpRow : Type := mkOp {
  o_id : string; o_kind : OpKind; o_zone_id : string; o_group_id : option string; o_host_id : option string;
  o_capacity_request_id : option string; o_target_revision : Z; o_state : OpState;
  o_provider_token : string; o_parameters : Parameters; o_lease_owner : option string;
  o_lease_until : option Z; o_fence : Z; o_last_error : string; o_created_at : Z; o_updated_at : Z }.

Record BindingRow : Type := mkBinding {
  b_host_id : string; b_operation_id : string; b_node_name : string; b_node_uid : string;
  b_provider_id : string; b_contract_hash : string; b_expected_state : option ExpectedHostState;
  b_release_started : bool }.

Inductive ResState : Type := Rreserved | Rcommitted | Rreleased.

#[global] Instance ResState_eq_dec : EqDecision ResState.
Proof. solve_decision. Defined.

Record ReservationRow : Type := mkReservation {
  i_id : string; i_group_id : string; i_capacity_request_id : string; i_host_id : string;
  i_vcpu : Z; i_memory_mib : Z; i_nodes : Z; i_state : ResState }.

Record BootstrapRow : Type := mkBootstrap {
  bo_operation_id : string; bo_zone_id : string; bo_cluster_id : option string;
  bo_request_id : option string; bo_phase : ZoneBootstrapPhase }.

Record RemovalRow : Type := mkRemoval {
  rm_operation_id : string; rm_group_id : string; rm_host_id : string; rm_node_name : string;
  rm_provider_id : string; rm_reason : string; rm_preserve_desired_capacity : bool;
  rm_drain_deadline : Z; rm_completed_at : option Z }.

(** ** The database *)
Record DB : Type := mkDB {
  topology_regions : list RegionRow; zones : list ZoneRow; clusters : list ClusterRow;
  cluster_zones : list MemberRow; node_pools : list PoolRow; node_groups : list GroupRow;
  capacity_requests : list RequestRow; host : list HostRow; zone_dominators : list DominatorRow;
  operations : list OpRow; worker_provisioning_state : list BindingRow;
  infrastructure_reservations : list ReservationRow;
  zone_bootstrap_operations : list BootstrapRow; node_removal_operations : list RemovalRow }.

Definition empty_db : DB := mkDB [] [] [] [] [] [] [] [] [] [] [] [] [] [].

Definition set_topology_regions t (d : DB) : DB :=
  mkDB t (zones d) (clusters d) (cluster_zones d) (node_pools d) (node_groups d) (capacity_requests d) (host d) (zone_dominators d) (operations d) (worker_provisioning_state d) (infrastructure_reservations d) (zone_bootstrap_operations d) (node_removal_operations d).
Definition set_zones t (d : DB) : DB :=
  mkDB (topology_regions d) t (clusters d) (cluster_zones d) (node_pools d) (node_groups d) (capacity_requests d) (host d) (zone_dominators d) (operations d) (worker_provisioning_state d) (infrastructure_reservations d) (zone_bootstrap_operations d) (node_removal_operations d).
Definition set_clusters t (d : DB) : DB :=
  mkDB (topology_regions d) (zones d) t (cluster_zones d) (node_pools d) (node_groups d) (capacity_requests d) (host d) (zone_dominators d) (operations d) (worker_provisioning_state d) (infrastructure_reservations d) (zone_bootstrap_operations d) (node_removal_operations d).
Definition set_cluster_zones t (d : DB) : DB :=
  mkDB (topology_regions d) (zones d) (clusters d) t (node_pools d) (node_groups d) (capacity_requests d) (host d) (zone_dominators d) (operations d) (worker_provisioning_state d) (infrastructure_reservations d) (zone_bootstrap_operations d) (node_removal_operations d).
Definition set_node_pools t (d : DB) : DB :=
  mkDB (topology_regions d) (zones d) (clusters d) (cluster_zones d) t (node_groups d) (capacity_requests d) (host d) (zone_dominators d) (operations d) (worker_provisioning_state d) (infrastructure_reservations d) (zone_bootstrap_operations d) (node_removal_operations d).
Definition set_node_groups t (d : DB) : DB :=
  mkDB (topology_regions d) (zones d) (clusters d) (cluster_zones d) (node_pools d) t (capacity_requests d) (host d) (zone_dominators d) (operations d) (worker_provisioning_state d) (infrastructure_reservations d) (zone_bootstrap_operations d) (node_removal_operations d).
Definition set_capacity_requests t (d : DB) : DB :=
  mkDB (topology_regions d) (zones d) (clusters d) (cluster_zones d) (node_pools d) (node_groups d) t (host d) (zone_dominators d) (operations d) (worker_provisioning_state d) (infrastructure_reservations d) (zone_bootstrap_operations d) (node_removal_operations d).
Definition set_host t (d : DB) : DB :=
  mkDB (topology_regions d) (zones d) (clusters d) (cluster_zones d) (node_pools d) (node_groups d) (capacity_requests d) t (zone_dominators d) (operations d) (worker_provisioning_state d) (infrastructure_reservations d) (zone_bootstrap_operations d) (node_removal_operations d).
Definition set_zone_dominators t (d : DB) : DB :=
  mkDB (topology_regions d) (zones d) (clusters d) (cluster_zones d) (node_pools d) (node_groups d) (capacity_requests d) (host d) t (operations d) (worker_provisioning_state d) (infrastructure_reservations d) (zone_bootstrap_operations d) (node_removal_operations d).
Definition set_operations t (d : DB) : DB :=
  mkDB (topology_regions d) (zones d) (clusters d) (cluster_zones d) (node_pools d) (node_groups d) (capacity_requests d) (host d) (zone_dominators d) t (worker_provisioning_state d) (infrastructure_reservations d) (zone_bootstrap_operations d) (node_removal_operations d).
Definition set_worker_provisioning_state t (d : DB) : DB :=
  mkDB (topology_regions d) (zones d) (clusters d) (cluster_zones d) (node_pools d) (node_groups d) (capacity_requests d) (host d) (zone_dominators d) (operations d) t (infrastructure_reservations d) (zone_bootstrap_operations d) (node_removal_operations d).
Definition set_infrastructure_reservations t (d : DB) : DB :=
  mkDB (topology_regions d) (zones d) (clusters d) (cluster_zones d) (node_pools d) (node_groups d) (capacity_requests d) (host d) (zone_dominators d) (operations d) (worker_provisioning_state d) t (zone_bootstrap_operations d) (node_removal_operations d).
Definition set_zone_bootstrap_operations t (d : DB) : DB :=
  mkDB (topology_regions d) (zones d) (clusters d) (cluster_zones d) (node_pools d) (node_groups d) (capacity_requests d) (host d) (zone_dominators d) (operations d) (worker_provisioning_state d) (infrastructure_reservations d) t (node_removal_operations d).
Definition set_node_removal_operations t (d : DB) : DB :=
  mkDB (topology_regions d) (zones d) (clusters d) (cluster_zones d) (node_pools d) (node_groups d) (capacity_requests d) (host d) (zone_dominators d) (operations d) (worker_provisioning_state d) (infrastructure_reservations d) (zone_bootstrap_operations d) t.

(** ** Column assignments: [SET column = value] on one row *)
Definition set_z_lifecycle_state (v : string) (x : ZoneRow) : ZoneRow :=
  mkZone (z_id x) (z_provider x) (z_account_id x) (z_region x) (z_provider_zone_id x) (z_kubernetes_region x) (z_kubernetes_zone x) (z_enabled x) v.
Definition set_c_api_server_endpoint (v : string) (x : ClusterRow) : ClusterRow :=
  mkCluster (c_id x) v (c_ca_cert_hash x) (c_kubeadm_version x) (c_kubelet_version x) (c_container_runtime x) (c_cni x) (c_lifecycle_state x).
Definition set_c_ca_cert_hash (v : string) (x : ClusterRow) : ClusterRow :=
  mkCluster (c_id x) (c_api_server_endpoint x) v (c_kubeadm_version x) (c_kubelet_version x) (c_container_runtime x) (c_cni x) (c_lifecycle_state x).
Definition set_c_lifecycle_state (v : string) (x : ClusterRow) : ClusterRow :=
  mkCluster (c_id x) (c_api_server_endpoint x) (c_ca_cert_hash x) (c_kubeadm_version x) (c_kubelet_version x) (c_container_runtime x) (c_cni x) v.
Definition set_m_lifecycle_state (v : string) (x : MemberRow) : MemberRow :=
  mkMember (m_cluster_id x) (m_zone_id x) v (m_access_state x).
Definition set_m_access_state (v : string) (x : MemberRow) : MemberRow :=
  mkMember (m_cluster_id x) (m_zone_id x) (m_lifecycle_state x) v.
Definition set_g_target_nodes (v : Z) (x : GroupRow) : GroupRow :=
  mkGroup (g_naming x) (g_id x) (g_cluster_id x) (g_zone_id x) (g_node_pool_id x) (g_capacity_class x) (g_provider_zone_id x) v (g_target_revision x) (g_min_nodes x) (g_max_nodes x) (g_template_revision x) (g_lifecycle_state x) (g_vcpu x) (g_memory_mib x) (g_launch_parameters x) (g_scheduling x).
Definition set_g_target_revision (v : Z) (x : GroupRow) : GroupRow :=
  mkGroup (g_naming x) (g_id x) (g_cluster_id x) (g_zone_id x) (g_node_pool_id x) (g_capacity_class x) (g_provider_zone_id x) (g_target_nodes x) v (g_min_nodes x) (g_max_nodes x) (g_template_revision x) (g_lifecycle_state x) (g_vcpu x) (g_memory_mib x) (g_launch_parameters x) (g_scheduling x).
Definition set_g_template_revision (v : string) (x : GroupRow) : GroupRow :=
  mkGroup (g_naming x) (g_id x) (g_cluster_id x) (g_zone_id x) (g_node_pool_id x) (g_capacity_class x) (g_provider_zone_id x) (g_target_nodes x) (g_target_revision x) (g_min_nodes x) (g_max_nodes x) v (g_lifecycle_state x) (g_vcpu x) (g_memory_mib x) (g_launch_parameters x) (g_scheduling x).
Definition set_g_launch_parameters (v : Json) (x : GroupRow) : GroupRow :=
  mkGroup (g_naming x) (g_id x) (g_cluster_id x) (g_zone_id x) (g_node_pool_id x) (g_capacity_class x) (g_provider_zone_id x) (g_target_nodes x) (g_target_revision x) (g_min_nodes x) (g_max_nodes x) (g_template_revision x) (g_lifecycle_state x) (g_vcpu x) (g_memory_mib x) v (g_scheduling x).
Definition set_g_scheduling (v : SchedulingTemplate) (x : GroupRow) : GroupRow :=
  mkGroup (g_naming x) (g_id x) (g_cluster_id x) (g_zone_id x) (g_node_pool_id x) (g_capacity_class x) (g_provider_zone_id x) (g_target_nodes x) (g_target_revision x) (g_min_nodes x) (g_max_nodes x) (g_template_revision x) (g_lifecycle_state x) (g_vcpu x) (g_memory_mib x) (g_launch_parameters x) v.
Definition set_h_role (v : option string) (x : HostRow) : HostRow :=
  mkHost (h_id x) v (h_zone x) (h_imageid x) (h_state x) (h_health x) (h_createdat x) (h_updatedat x) (h_provider x) (h_providerid x) (h_lastseenheartbeat x) (h_endpoint x) (h_db x) (h_protected x) (h_subd_endpoint x) (h_kubernetes_provider_id x) (h_node_group_id x) (h_node_pool_id x) (h_crane_zone x) (h_operation_id x) (h_desired_state_version x) (h_observed_state_version x) (h_reserved_vcpu x) (h_reserved_memory_mib x) (h_excess_capacity x).
Definition set_h_zone (v : option string) (x : HostRow) : HostRow :=
  mkHost (h_id x) (h_role x) v (h_imageid x) (h_state x) (h_health x) (h_createdat x) (h_updatedat x) (h_provider x) (h_providerid x) (h_lastseenheartbeat x) (h_endpoint x) (h_db x) (h_protected x) (h_subd_endpoint x) (h_kubernetes_provider_id x) (h_node_group_id x) (h_node_pool_id x) (h_crane_zone x) (h_operation_id x) (h_desired_state_version x) (h_observed_state_version x) (h_reserved_vcpu x) (h_reserved_memory_mib x) (h_excess_capacity x).
Definition set_h_imageid (v : option string) (x : HostRow) : HostRow :=
  mkHost (h_id x) (h_role x) (h_zone x) v (h_state x) (h_health x) (h_createdat x) (h_updatedat x) (h_provider x) (h_providerid x) (h_lastseenheartbeat x) (h_endpoint x) (h_db x) (h_protected x) (h_subd_endpoint x) (h_kubernetes_provider_id x) (h_node_group_id x) (h_node_pool_id x) (h_crane_zone x) (h_operation_id x) (h_desired_state_version x) (h_observed_state_version x) (h_reserved_vcpu x) (h_reserved_memory_mib x) (h_excess_capacity x).
Definition set_h_state (v : HostState) (x : HostRow) : HostRow :=
  mkHost (h_id x) (h_role x) (h_zone x) (h_imageid x) v (h_health x) (h_createdat x) (h_updatedat x) (h_provider x) (h_providerid x) (h_lastseenheartbeat x) (h_endpoint x) (h_db x) (h_protected x) (h_subd_endpoint x) (h_kubernetes_provider_id x) (h_node_group_id x) (h_node_pool_id x) (h_crane_zone x) (h_operation_id x) (h_desired_state_version x) (h_observed_state_version x) (h_reserved_vcpu x) (h_reserved_memory_mib x) (h_excess_capacity x).
Definition set_h_health (v : option HostHealth) (x : HostRow) : HostRow :=
  mkHost (h_id x) (h_role x) (h_zone x) (h_imageid x) (h_state x) v (h_createdat x) (h_updatedat x) (h_provider x) (h_providerid x) (h_lastseenheartbeat x) (h_endpoint x) (h_db x) (h_protected x) (h_subd_endpoint x) (h_kubernetes_provider_id x) (h_node_group_id x) (h_node_pool_id x) (h_crane_zone x) (h_operation_id x) (h_desired_state_version x) (h_observed_state_version x) (h_reserved_vcpu x) (h_reserved_memory_mib x) (h_excess_capacity x).
Definition set_h_updatedat (v : option Z) (x : HostRow) : HostRow :=
  mkHost (h_id x) (h_role x) (h_zone x) (h_imageid x) (h_state x) (h_health x) (h_createdat x) v (h_provider x) (h_providerid x) (h_lastseenheartbeat x) (h_endpoint x) (h_db x) (h_protected x) (h_subd_endpoint x) (h_kubernetes_provider_id x) (h_node_group_id x) (h_node_pool_id x) (h_crane_zone x) (h_operation_id x) (h_desired_state_version x) (h_observed_state_version x) (h_reserved_vcpu x) (h_reserved_memory_mib x) (h_excess_capacity x).
Definition set_h_provider (v : option string) (x : HostRow) : HostRow :=
  mkHost (h_id x) (h_role x) (h_zone x) (h_imageid x) (h_state x) (h_health x) (h_createdat x) (h_updatedat x) v (h_providerid x) (h_lastseenheartbeat x) (h_endpoint x) (h_db x) (h_protected x) (h_subd_endpoint x) (h_kubernetes_provider_id x) (h_node_group_id x) (h_node_pool_id x) (h_crane_zone x) (h_operation_id x) (h_desired_state_version x) (h_observed_state_version x) (h_reserved_vcpu x) (h_reserved_memory_mib x) (h_excess_capacity x).
Definition set_h_providerid (v : option string) (x : HostRow) : HostRow :=
  mkHost (h_id x) (h_role x) (h_zone x) (h_imageid x) (h_state x) (h_health x) (h_createdat x) (h_updatedat x) (h_provider x) v (h_lastseenheartbeat x) (h_endpoint x) (h_db x) (h_protected x) (h_subd_endpoint x) (h_kubernetes_provider_id x) (h_node_group_id x) (h_node_pool_id x) (h_crane_zone x) (h_operation_id x) (h_desired_state_version x) (h_observed_state_version x) (h_reserved_vcpu x) (h_reserved_memory_mib x) (h_excess_capacity x).
Definition set_h_lastseenheartbeat (v : option Z) (x : HostRow) : HostRow :=
  mkHost (h_id x) (h_role x) (h_zone x) (h_imageid x) (h_state x) (h_health x) (h_createdat x) (h_updatedat x) (h_provider x) (h_providerid x) v (h_endpoint x) (h_db x) (h_protected x) (h_subd_endpoint x) (h_kubernetes_provider_id x) (h_node_group_id x) (h_node_pool_id x) (h_crane_zone x) (h_operation_id x) (h_desired_state_version x) (h_observed_state_version x) (h_reserved_vcpu x) (h_reserved_memory_mib x) (h_excess_capacity x).
Definition set_h_endpoint (v : option string) (x : HostRow) : HostRow :=
  mkHost (h_id x) (h_role x) (h_zone x) (h_imageid x) (h_state x) (h_health x) (h_createdat x) (h_updatedat x) (h_provider x) (h_providerid x) (h_lastseenheartbeat x) v (h_db x) (h_protected x) (h_subd_endpoint x) (h_kubernetes_provider_id x) (h_node_group_id x) (h_node_pool_id x) (h_crane_zone x) (h_operation_id x) (h_desired_state_version x) (h_observed_state_version x) (h_reserved_vcpu x) (h_reserved_memory_mib x) (h_excess_capacity x).
Definition set_h_db (v : option (Z * string * string * string * string)) (x : HostRow) : HostRow :=
  mkHost (h_id x) (h_role x) (h_zone x) (h_imageid x) (h_state x) (h_health x) (h_createdat x) (h_updatedat x) (h_provider x) (h_providerid x) (h_lastseenheartbeat x) (h_endpoint x) v (h_protected x) (h_subd_endpoint x) (h_kubernetes_provider_id x) (h_node_group_id x) (h_node_pool_id x) (h_crane_zone x) (h_operation_id x) (h_desired_state_version x) (h_observed_state_version x) (h_reserved_vcpu x) (h_reserved_memory_mib x) (h_excess_capacity x).
Definition set_h_protected (v : bool) (x : HostRow) : HostRow :=
  mkHost (h_id x) (h_role x) (h_zone x) (h_imageid x) (h_state x) (h_health x) (h_createdat x) (h_updatedat x) (h_provider x) (h_providerid x) (h_lastseenheartbeat x) (h_endpoint x) (h_db x) v (h_subd_endpoint x) (h_kubernetes_provider_id x) (h_node_group_id x) (h_node_pool_id x) (h_crane_zone x) (h_operation_id x) (h_desired_state_version x) (h_observed_state_version x) (h_reserved_vcpu x) (h_reserved_memory_mib x) (h_excess_capacity x).
Definition set_h_subd_endpoint (v : string) (x : HostRow) : HostRow :=
  mkHost (h_id x) (h_role x) (h_zone x) (h_imageid x) (h_state x) (h_health x) (h_createdat x) (h_updatedat x) (h_provider x) (h_providerid x) (h_lastseenheartbeat x) (h_endpoint x) (h_db x) (h_protected x) v (h_kubernetes_provider_id x) (h_node_group_id x) (h_node_pool_id x) (h_crane_zone x) (h_operation_id x) (h_desired_state_version x) (h_observed_state_version x) (h_reserved_vcpu x) (h_reserved_memory_mib x) (h_excess_capacity x).
Definition set_h_kubernetes_provider_id (v : string) (x : HostRow) : HostRow :=
  mkHost (h_id x) (h_role x) (h_zone x) (h_imageid x) (h_state x) (h_health x) (h_createdat x) (h_updatedat x) (h_provider x) (h_providerid x) (h_lastseenheartbeat x) (h_endpoint x) (h_db x) (h_protected x) (h_subd_endpoint x) v (h_node_group_id x) (h_node_pool_id x) (h_crane_zone x) (h_operation_id x) (h_desired_state_version x) (h_observed_state_version x) (h_reserved_vcpu x) (h_reserved_memory_mib x) (h_excess_capacity x).
Definition set_h_desired_state_version (v : string) (x : HostRow) : HostRow :=
  mkHost (h_id x) (h_role x) (h_zone x) (h_imageid x) (h_state x) (h_health x) (h_createdat x) (h_updatedat x) (h_provider x) (h_providerid x) (h_lastseenheartbeat x) (h_endpoint x) (h_db x) (h_protected x) (h_subd_endpoint x) (h_kubernetes_provider_id x) (h_node_group_id x) (h_node_pool_id x) (h_crane_zone x) (h_operation_id x) v (h_observed_state_version x) (h_reserved_vcpu x) (h_reserved_memory_mib x) (h_excess_capacity x).
Definition set_h_observed_state_version (v : string) (x : HostRow) : HostRow :=
  mkHost (h_id x) (h_role x) (h_zone x) (h_imageid x) (h_state x) (h_health x) (h_createdat x) (h_updatedat x) (h_provider x) (h_providerid x) (h_lastseenheartbeat x) (h_endpoint x) (h_db x) (h_protected x) (h_subd_endpoint x) (h_kubernetes_provider_id x) (h_node_group_id x) (h_node_pool_id x) (h_crane_zone x) (h_operation_id x) (h_desired_state_version x) v (h_reserved_vcpu x) (h_reserved_memory_mib x) (h_excess_capacity x).
Definition set_h_reserved_vcpu (v : Z) (x : HostRow) : HostRow :=
  mkHost (h_id x) (h_role x) (h_zone x) (h_imageid x) (h_state x) (h_health x) (h_createdat x) (h_updatedat x) (h_provider x) (h_providerid x) (h_lastseenheartbeat x) (h_endpoint x) (h_db x) (h_protected x) (h_subd_endpoint x) (h_kubernetes_provider_id x) (h_node_group_id x) (h_node_pool_id x) (h_crane_zone x) (h_operation_id x) (h_desired_state_version x) (h_observed_state_version x) v (h_reserved_memory_mib x) (h_excess_capacity x).
Definition set_h_reserved_memory_mib (v : Z) (x : HostRow) : HostRow :=
  mkHost (h_id x) (h_role x) (h_zone x) (h_imageid x) (h_state x) (h_health x) (h_createdat x) (h_updatedat x) (h_provider x) (h_providerid x) (h_lastseenheartbeat x) (h_endpoint x) (h_db x) (h_protected x) (h_subd_endpoint x) (h_kubernetes_provider_id x) (h_node_group_id x) (h_node_pool_id x) (h_crane_zone x) (h_operation_id x) (h_desired_state_version x) (h_observed_state_version x) (h_reserved_vcpu x) v (h_excess_capacity x).
Definition set_h_excess_capacity (v : bool) (x : HostRow) : HostRow :=
  mkHost (h_id x) (h_role x) (h_zone x) (h_imageid x) (h_state x) (h_health x) (h_createdat x) (h_updatedat x) (h_provider x) (h_providerid x) (h_lastseenheartbeat x) (h_endpoint x) (h_db x) (h_protected x) (h_subd_endpoint x) (h_kubernetes_provider_id x) (h_node_group_id x) (h_node_pool_id x) (h_crane_zone x) (h_operation_id x) (h_desired_state_version x) (h_observed_state_version x) (h_reserved_vcpu x) (h_reserved_memory_mib x) v.
Definition set_d_endpoint (v : string) (x : DominatorRow) : DominatorRow :=
  mkDominator (d_zone_id x) v (d_identity x) (d_observability_status x).
Definition set_d_identity (v : string) (x : DominatorRow) : DominatorRow :=
  mkDominator (d_zone_id x) (d_endpoint x) v (d_observability_status x).
Definition set_d_observability_status (v : string) (x : DominatorRow) : DominatorRow :=
  mkDominator (d_zone_id x) (d_endpoint x) (d_identity x) v.
Definition set_o_state (v : OpState) (x : OpRow) : OpRow :=
  mkOp (o_id x) (o_kind x) (o_zone_id x) (o_group_id x) (o_host_id x) (o_capacity_request_id x) (o_target_revision x) v (o_provider_token x) (o_parameters x) (o_lease_owner x) (o_lease_until x) (o_fence x) (o_last_error x) (o_created_at x) (o_updated_at x).
Definition set_o_lease_owner (v : option string) (x : OpRow) : OpRow :=
  mkOp (o_id x) (o_kind x) (o_zone_id x) (o_group_id x) (o_host_id x) (o_capacity_request_id x) (o_target_revision x) (o_state x) (o_provider_token x) (o_parameters x) v (o_lease_until x) (o_fence x) (o_last_error x) (o_created_at x) (o_updated_at x).
Definition set_o_lease_until (v : option Z) (x : OpRow) : OpRow :=
  mkOp (o_id x) (o_kind x) (o_zone_id x) (o_group_id x) (o_host_id x) (o_capacity_request_id x) (o_target_revision x) (o_state x) (o_provider_token x) (o_parameters x) (o_lease_owner x) v (o_fence x) (o_last_error x) (o_created_at x) (o_updated_at x).
Definition set_o_fence (v : Z) (x : OpRow) : OpRow :=
  mkOp (o_id x) (o_kind x) (o_zone_id x) (o_group_id x) (o_host_id x) (o_capacity_request_id x) (o_target_revision x) (o_state x) (o_provider_token x) (o_parameters x) (o_lease_owner x) (o_lease_until x) v (o_last_error x) (o_created_at x) (o_updated_at x).
Definition set_o_last_error (v : string) (x : OpRow) : OpRow :=
  mkOp (o_id x) (o_kind x) (o_zone_id x) (o_group_id x) (o_host_id x) (o_capacity_request_id x) (o_target_revision x) (o_state x) (o_provider_token x) (o_parameters x) (o_lease_owner x) (o_lease_until x) (o_fence x) v (o_created_at x) (o_updated_at x).
Definition set_o_updated_at (v : Z) (x : OpRow) : OpRow :=
  mkOp (o_id x) (o_kind x) (o_zone_id x) (o_group_id x) (o_host_id x) (o_capacity_request_id x) (o_target_revision x) (o_state x) (o_provider_token x) (o_parameters x) (o_lease_owner x) (o_lease_until x) (o_fence x) (o_last_error x) (o_created_at x) v.
Definition set_b_expected_state (v : option ExpectedHostState) (x : BindingRow) : BindingRow :=
  mkBinding (b_host_id x) (b_operation_id x) (b_node_name x) (b_node_uid x) (b_provider_id x) (b_contract_hash x) v (b_release_started x).
Definition set_b_release_started (v : bool) (x : BindingRow) : BindingRow :=
  mkBinding (b_host_id x) (b_operation_id x) (b_node_name x) (b_node_uid x) (b_provider_id x) (b_contract_hash x) (b_expected_state x) v.
Definition set_i_state (v : ResState) (x : ReservationRow) : ReservationRow :=
  mkReservation (i_id x) (i_group_id x) (i_capacity_request_id x) (i_host_id x) (i_vcpu x) (i_memory_mib x) (i_nodes x) v.
Definition set_bo_phase (v : ZoneBootstrapPhase) (x : BootstrapRow) : BootstrapRow :=
  mkBootstrap (bo_operation_id x) (bo_zone_id x) (bo_cluster_id x) (bo_request_id x) v.

(** ** Transactions and store actions *)
Definition Tx (A : Type) : Type := DB -> result (A * DB).
Definition Store (A : Type) : Type := DB -> result A * DB.

Definition tx_ret {A} (a : A) : Tx A := fun d => Ok (a, d).
Definition tx_bind {A B} (m : Tx A) (k : A -> Tx B) : Tx B :=
  fun d => match m d with Ok (a, d') => k a d' | Err e => Err e end.
(** A Go value with an error, inside a transaction. *)
Definition tx_lift {A} (r : result A) : Tx A :=
  fun d => match r with Ok a => Ok (a, d) | Err e => Err e end.
(** A read. *)
Definition tx_query {A} (q : DB -> result A) : Tx A := fun d => tx_lift (q d) d.
(** A write that cannot fail, and one that may violate a constraint. *)
Definition tx_exec (f : DB -> DB) : Tx unit := fun d => Ok (tt, f d).
Definition tx_insert (f : DB -> result DB) : Tx unit :=
  fun d => match f d with Ok d' => Ok (tt, d') | Err e => Err e end.

(** Commit on success, roll back on error. *)
Definition run_tx {A} (m : Tx A) : Store A :=
  fun d => match m d with Ok (a, d') => (Ok a, d') | Err e => (Err e, d) end.

Definition st_ret {A} (r : result A) : Store A := fun d => (r, d).
Definition st_bind {A B} (m : Store A) (k : A -> Store B) : Store B :=
  fun d => match m d with (Ok a, d') => k a d' | (Err e, d') => (Err e, d') end.

Notation "'tx!' x := m 'in' k" := (tx_bind m (fun x => k))
  (at level 10, x pattern, m at level 100, k at level 200,
   format "'[v' 'tx!'  x  :=  m  'in' '/' k ']'") : crane_scope.
Notation "'txguard' b 'else' e 'in' k" := (tx_bind (tx_lift (require b e)) (fun _ => k))
  (at level 10, b at level 100, e at level 100, k at level 200,
   format "'[v' 'txguard'  b  'else'  e  'in' '/' k ']'") : crane_scope.
Notation "'st!' x := m 'in' k" := (st_bind m (fun x => k))
  (at level 10, x pattern, m at level 100, k at level 200,
   format "'[v' 'st!'  x  :=  m  'in' '/' k ']'") : crane_scope.

Lemma tx_bind_ok {A B} (m : Tx A) (k : A -> Tx B) d b d' :
  tx_bind m k d = Ok (b, d') <-> exists a d1, m d = Ok (a, d1) /\ k a d1 = Ok (b, d').
Proof.
  unfold tx_bind. destruct (m d) as [[a d1]|e]; split.
  - intros H. by exists a, d1.
  - intros (? & ? & H & ?). by simplify_eq.
  - done.
  - intros (? & ? & H & ?). done.
Qed.

Lemma tx_lift_ok {A} (r : result A) d a d' :
  tx_lift r d = Ok (a, d') <-> r = Ok a /\ d' = d.
Proof. unfold tx_lift. destruct r; naive_solver. Qed.

Lemma tx_query_ok {A} (q : DB -> result A) d a d' :
  tx_query q d = Ok (a, d') <-> q d = Ok a /\ d' = d.
Proof. unfold tx_query. apply tx_lift_ok. Qed.

Lemma tx_exec_ok f d u d' : tx_exec f d = Ok (u, d') <-> d' = f d.
Proof. unfold tx_exec. destruct u. naive_solver. Qed.

Lemma tx_insert_ok f d u d' : tx_insert f d = Ok (u, d') <-> f d = Ok d'.
Proof. unfold tx_insert. destruct u, (f d); naive_solver. Qed.

Lemma run_tx_ok {A} (m : Tx A) d a d' : run_tx m d = (Ok a, d') <-> m d = Ok (a, d').
Proof. unfold run_tx. destruct (m d) as [[]|]; naive_solver. Qed.

(** A transaction that fails changes nothing. *)
Lemma run_tx_err {A} (m : Tx A) d e d' :
  run_tx m d = (Err e, d') -> d' = d /\ m d = Err e.
Proof. unfold run_tx. destruct (m d) as [[]|]; naive_solver. Qed.

(** Take apart a successful transaction. *)
Ltac inv_tx :=
  repeat match goal with
  | H : tx_bind _ _ _ = Ok _ |- _ => apply tx_bind_ok in H as (?x & ?d & ?Hx & H)
  | H : tx_lift _ _ = Ok (_, _) |- _ => apply tx_lift_ok in H as [H ->]
  | H : tx_query _ _ = Ok (_, _) |- _ => apply tx_query_ok in H as [H ->]
  | H : tx_exec _ _ = Ok (_, _) |- _ => apply tx_exec_ok in H as ->
  | H : tx_insert _ _ = Ok (_, _) |- _ => apply tx_insert_ok in H
  | H : tx_ret _ _ = Ok (_, _) |- _ => unfold tx_ret in H; injection H; clear H; intros
  | H : require _ _ = Ok _ |- _ => apply require_ok in H
  | H : of_option _ _ = Ok _ |- _ => apply of_option_ok in H
  | H : Ok _ = Ok _ |- _ => injection H as ?
  | H : Err _ = Ok _ |- _ => discriminate H
  end; subst.

(** ** Clocks and identifiers

    [clock_timestamp()] and [uuid.NewString()] are read several times by one
    call; [now k] and [uuid k] are the k-th readings of that call. *)
Record Env : Type := mkEnv { now : nat -> Z; uuid : nat -> string }.

(** ** Results of statements *)

(** [fencedResult] and [affectedExactlyOne] of store.go. *)
Definition fencedResult (n : Z) : result unit := require (n == 1) ErrFenced.
Definition affectedExactlyOne (n : Z) : result unit := require (n == 1) ErrConflict.

(** [UPDATE operations SET f WHERE p], autocommitted, then [fencedResult]. *)
Definition fenced_update_operations (p : OpRow -> bool) (f : OpRow -> OpRow) : Store unit :=
  fun d => (fencedResult (rows_affected p (operations d)),
            set_operations (update_where p f (operations d)) d).

Definition fenced_update_host (p : HostRow -> bool) (f : HostRow -> HostRow) : Store unit :=
  fun d => (fencedResult (rows_affected p (host d)), set_host (update_where p f (host d)) d).

(** ** Shared predicates of the queries *)
Definition membership_approved (m : MemberRow) : bool :=
  (m_lifecycle_state m == "ready") && (m_access_state m == "approved").

Definition membership_of (g : GroupRow) (m : MemberRow) : bool :=
  (m_cluster_id m == g_cluster_id g) && (m_zone_id m == g_zone_id g).
