(* ===== verification/Admission.v ===== *)
(** * Capacity admission: [SetTarget] of internal/capacity/store.go

    The durable admission boundary.  A request names the revision it expects
    (compare and swap), is deduplicated by (group, request ID), is checked
    against the limits of the shared pool, and commits the new target together
    with one host, one provisioning operation and one reservation per added
    node.  A decrease cancels unclaimed intents and marks the rest as excess. *)
From S2P Require Import Prelude Sql Api Schema.

Local Open Scope string_scope.
Local Open Scope list_scope.
Local Open Scope Z_scope.
Local Open Scope crane_scope.

(** ** Policy *)
Record policy : Type := mkPolicy { group : GroupRow; poolLimit : Resources; enabled : bool }.

(** The joins of [loadPolicy] are on primary keys: each side has at most one row,
    and a missing side makes the query return no row.  The scheduling column is held decoded
    ([g_scheduling]): it is written only as the encoding of a template, so that the refusal of
    a value that [json.Unmarshal] cannot read has no counterpart. *)
Definition loadPolicy (id : string) (d : DB) : result policy :=
  let* g := of_option ErrNoRows (select_one (fun g => g_id g == id) (node_groups d)) in
  let* p := of_option ErrNoRows (select_one (fun p => p_id p == g_node_pool_id g) (node_pools d)) in
  let* z := of_option ErrNoRows (select_one (fun z => z_id z == g_zone_id g) (zones d)) in
  let* c := of_option ErrNoRows (select_one (fun c => c_id c == g_cluster_id g) (clusters d)) in
  let* m := of_option ErrNoRows (select_one (membership_of g) (cluster_zones d)) in
  Ok (mkPolicy g (p_limits p)
        ((g_lifecycle_state g == "active") && p_enabled p && z_enabled z &&
         (z_lifecycle_state z == "ready") && (c_lifecycle_state c == "ready") &&
         membership_approved m)).

(** ** Reservations *)

(** The rows that the sum of [checkReservations] ranges over. *)
Definition counts_against (pool : string) (groups : list GroupRow) (r : ReservationRow) : bool :=
  (i_state r != Rreleased) &&
  exists_row (fun g => (g_id g == i_group_id r) && (g_node_pool_id g == pool)) groups.

Definition used_by (f : ReservationRow -> Z) (pool : string) (d : DB) : Z :=
  sum_of f (select (counts_against pool (node_groups d)) (infrastructure_reservations d)).

Definition pool_used (pool : string) (d : DB) : Resources :=
  mkResources (used_by i_vcpu pool d) (used_by i_memory_mib pool d) (used_by i_nodes pool d).

Definition checkReservations (p : policy) (nodes : Z) (d : DB) : result unit :=
  guard negb ((Z.quot MaxInt64 (g_vcpu (group p)) <? nodes) ||
              (Z.quot MaxInt64 (g_memory_mib (group p)) <? nodes)) else ErrLimit in
  let add := mkResources (mul64 nodes (g_vcpu (group p))) (mul64 nodes (g_memory_mib (group p))) nodes in
  let used := pool_used (g_node_pool_id (group p)) d in
  guard negb ((sub64 (VCPU (poolLimit p)) (VCPU used) <? VCPU add) ||
              (sub64 (MemoryMiB (poolLimit p)) (MemoryMiB used) <? MemoryMiB add) ||
              (sub64 (Nodes (poolLimit p)) (Nodes used) <? Nodes add)) else ErrLimit in
  Ok tt.

(** ** Provisioning intents *)

Definition insert_operation (o : OpRow) (d : DB) : result DB :=
  let* t := insert_row (fun x => (o_id x == o_id o) || (o_provider_token x == o_provider_token o))
              o (operations d) in
  Ok (set_operations t d).

Definition insert_host (h : HostRow) (d : DB) : result DB :=
  let* t := insert_row (fun x => h_id x == h_id h) h (host d) in
  Ok (set_host t d).

Definition insert_reservation (r : ReservationRow) (d : DB) : result DB :=
  let* t := insert_row (fun x => (i_id x == i_id r) || (i_host_id x == i_host_id r))
              r (infrastructure_reservations d) in
  Ok (set_infrastructure_reservations t d).

Definition provision_template (p : policy) : ProvisioningTemplate :=
  mkProvisioningTemplate (Some (g_launch_parameters (group p))) (g_scheduling (group p))
    (g_template_revision (group p)) (g_capacity_class (group p)).

(** The three rows of one intent.  [k] numbers the intents of the call: intent
    [k] reads the identifiers [4k+1 .. 4k+4] and the clock readings [2k], [2k+1]. *)
Definition intent_host_id (e : Env) (k : nat) : string := uuid e (4 * k + 1).
Definition intent_op_id (e : Env) (k : nat) : string := uuid e (4 * k + 2).

Definition intent_operation (e : Env) (p : policy) (requestID : string) (revision : Z) (k : nat) : OpRow :=
  mkOp (intent_op_id e k) Kprovision (g_zone_id (group p)) (Some (g_id (group p)))
    (Some (intent_host_id e k)) (Some requestID) revision Opending (uuid e (4 * k + 3))
    (PTemplate (provision_template p)) None None 0 "" (now e (2 * k)) (now e (2 * k)).

Definition intent_host (e : Env) (p : policy) (k : nat) : HostRow :=
  let g := group p in
  mkHost (intent_host_id e k) (Some (g_capacity_class g)) (Some (g_zone_id g))
    (Some (json_text "image_id" (g_launch_parameters g))) HostRequested (Some HostHealthUnknown)
    (Some (now e (2 * k + 1))) None None None None None None false "" ""
    (Some (g_id g)) (Some (g_node_pool_id g)) (Some (g_zone_id g)) (Some (intent_op_id e k))
    (g_template_revision g) "" (g_vcpu g) (g_memory_mib g) false.

Definition intent_reservation (e : Env) (p : policy) (requestID : string) (k : nat) : ReservationRow :=
  mkReservation (uuid e (4 * k + 4)) (g_id (group p)) requestID (intent_host_id e k)
    (g_vcpu (group p)) (g_memory_mib (group p)) 1 Rreserved.

Definition provisionIntent (e : Env) (p : policy) (requestID : string) (revision : Z) (k : nat) : Tx unit :=
  tx! _ := tx_insert (insert_operation (intent_operation e p requestID revision k)) in
  tx! _ := tx_insert (insert_host (intent_host e p k)) in
  tx_insert (insert_reservation (intent_reservation e p requestID k)).

(** [for i := int64(0); i < delta; i++ { provisionIntent(...) }]. *)
Fixpoint provisionIntents (e : Env) (p : policy) (requestID : string) (revision : Z) (k n : nat) : Tx unit :=
  match n with
  | O => tx_ret tt
  | S n => tx! _ := provisionIntent e p requestID revision k in
           provisionIntents e p requestID revision (S k) n
  end.

(** ** Cancelling *)

(** [ORDER BY created_at DESC, id]; a NULL timestamp sorts first in descending order. *)
Definition newest_first {R} (at_ : R -> option Z) (id : R -> string) (a b : R) : bool :=
  match at_ a, at_ b with
  | None, Some _ => true
  | Some _, None => false
  | None, None => String.leb (id a) (id b)
  | Some x, Some y => (y <? x) || ((x == y) && String.leb (id a) (id b))
  end.

Definition cancellable (groupID : string) (hosts : list HostRow) (o : OpRow) : bool :=
  (o_group_id o == Some groupID) && (o_kind o == Kprovision) && (o_state o == Opending) &&
  (o_lease_owner o == None) &&
  exists_row (fun h => (o_host_id o == Some (h_id h)) &&
                       one_of (h_state h) [HostRequested; HostProvisioning]) hosts.

Definition cancel_operation (t : Z) (o : OpRow) : OpRow :=
  set_o_updated_at t (set_o_fence (o_fence o + 1) (set_o_state Ocancelled o)).

Definition cancel_host (t : Z) (h : HostRow) : HostRow :=
  set_h_updatedat (Some t) (set_h_reserved_memory_mib 0 (set_h_reserved_vcpu 0 (set_h_state HostTerminated h))).

(** The three updates of one cancelled intent. *)
Definition cancelIntent (t : Z) (op : OpRow) (d : DB) : DB :=
  set_infrastructure_reservations
    (update_where (fun r => o_host_id op == Some (i_host_id r)) (set_i_state Rreleased)
       (infrastructure_reservations d))
  (set_host (update_where (fun h => o_host_id op == Some (h_id h)) (cancel_host t) (host d))
  (set_operations (update_where (fun o => o_id o == o_id op) (cancel_operation t) (operations d)) d)).

Definition excess_candidate (groupID : string) (ops : list OpRow) (h : HostRow) : bool :=
  (h_node_group_id h == Some groupID) &&
  one_of (h_state h) [HostRequested; HostProvisioning; HostBooting] &&
  negb (h_excess_capacity h) &&
  exists_row (fun o => (h_operation_id h == Some (o_id o)) && (o_state o != Ocancelled)) ops.

Definition markExcess (groupID : string) (remaining : Z) (d : DB) : DB :=
  let chosen := limit remaining (order_by (newest_first h_createdat h_id)
                  (select (excess_candidate groupID (operations d)) (host d))) in
  set_host (update_where (fun h => one_of (h_id h) (map h_id chosen)) (set_h_excess_capacity true) (host d)) d.

Definition cancel_intents (groupID : string) (count : Z) (d : DB) : list OpRow :=
  limit count (order_by (newest_first (fun o => Some (o_created_at o)) o_id)
    (select (cancellable groupID (host d)) (operations d))).

Definition cancelPending (e : Env) (groupID : string) (count : Z) (d : DB) : DB :=
  let intents := cancel_intents groupID count d in
  let d1 := fold_left (fun d op => cancelIntent (now e 0) op d) intents d in
  let remaining := count - Z.of_nat (length intents) in
  if 0 <? remaining then markExcess groupID remaining d1 else d1.

(** ** [SetTarget] *)

(** The CHECK constraints of [node_groups] that an update of the target can meet. *)
Definition group_check (g : GroupRow) : bool :=
  (0 <=? g_target_revision g) && (g_min_nodes g <=? g_target_nodes g) && (g_target_nodes g <=? g_max_nodes g).

Definition update_group (id : string) (f : GroupRow -> GroupRow) (d : DB) : result DB :=
  let t := update_where (fun g => g_id g == id) f (node_groups d) in
  guard forallb group_check (select (fun g => g_id g == id) t) else ErrSql "23514" in
  Ok (set_node_groups t d).

Definition registered_states : list HostState :=
  [HostRegistering; HostConverging; HostReady; HostDraining; HostUnhealthy; HostTerminating].

Definition registered_count (groupID : string) (d : DB) : Z :=
  rows_affected (fun h => (h_node_group_id h == Some groupID) && one_of (h_state h) registered_states) (host d).

Definition request_key (req : CapacityRequest) (r : RequestRow) : bool :=
  (r_group_id r == NodeGroupID req) && (r_request_id r == RequestID req).

Definition previous_request (req : CapacityRequest) (r : RequestRow) : CapacityRequest :=
  mkCapacityRequest (NodeGroupID req) (RequestID req) (r_cluster_id r)
    (r_expected_revision r) (r_desired_target r) (r_template_revision r).

Definition insert_request (r : RequestRow) (d : DB) : result DB :=
  let* t := insert_row (fun x => (r_id x == r_id r) ||
                 ((r_group_id x == r_group_id r) && (r_request_id x == r_request_id r)))
              r (capacity_requests d) in
  Ok (set_capacity_requests t d).

Definition request_row (e : Env) (req : CapacityRequest) (revision : Z) : RequestRow :=
  mkRequest (uuid e 0) (NodeGroupID req) (RequestID req) (ClusterID req)
    (ExpectedTargetRevision req) (DesiredTarget req) (TemplateRevision req) revision.

(** The part after the replay lookup found no row. *)
Definition admit_target (e : Env) (p : policy) (req : CapacityRequest) : Tx CapacityResult :=
  let g := group p in
  txguard enabled p else ErrInactive in
  txguard g_template_revision g == TemplateRevision req else ErrTemplate in
  txguard g_target_revision g == ExpectedTargetRevision req else ErrConflict in
  txguard negb ((DesiredTarget req <? g_min_nodes g) || (g_max_nodes g <? DesiredTarget req) ||
                (g_target_revision g == MaxInt64)) else ErrLimit in
  tx! pool := tx_query (fun d => of_option ErrNoRows (select_one (fun p => p_id p == g_node_pool_id g) (node_pools d))) in
  let p := mkPolicy g (p_limits pool) (enabled p) in
  let delta := sub64 (DesiredTarget req) (g_target_nodes g) in
  tx! _ := (if 0 <? delta then tx_query (checkReservations p delta) else tx_ret tt) in
  tx! _ := (if delta <? 0 then
              tx_query (fun d => require (negb (DesiredTarget req <? registered_count (NodeGroupID req) d)) ErrFulfilled)
            else tx_ret tt) in
  let requestID := uuid e 0 in
  let revision := add64 (g_target_revision g) 1 in
  tx! _ := tx_insert (insert_request (request_row e req revision)) in
  tx! _ := tx_insert (update_group (NodeGroupID req)
             (fun x => set_g_target_revision revision (set_g_target_nodes (DesiredTarget req) x))) in
  tx! _ := provisionIntents e p requestID revision 0 (Z.to_nat delta) in
  tx! _ := (if delta <? 0 then tx_exec (cancelPending e (NodeGroupID req) (- delta)) else tx_ret tt) in
  tx_ret (mkCapacityResult (RequestID req) (NodeGroupID req) (DesiredTarget req) revision).

Definition SetTarget (e : Env) (req : CapacityRequest) : Store CapacityResult :=
  if (NodeGroupID req == "") || (RequestID req == "") || (ClusterID req == "") ||
     (TemplateRevision req == "") || (DesiredTarget req <? 0) || (ExpectedTargetRevision req <? 0)
  then st_ret (Err ErrInvalid)
  else run_tx (
    tx! p := tx_query (loadPolicy (NodeGroupID req)) in
    txguard g_cluster_id (group p) == ClusterID req else ErrForbidden in
    tx! prev := tx_query (fun d => Ok (select_one (request_key req) (capacity_requests d))) in
    match prev with
    | Some row =>
        txguard previous_request req row == req else ErrReplayMismatch in
        tx_ret (mkCapacityResult (RequestID req) (NodeGroupID req) (DesiredTarget req) (r_result_revision row))
    | None => admit_target e p req
    end).

(** [Target], the read used for restart recovery. *)
Definition Target (clusterID groupID : string) (d : DB) : result CapacityResult :=
  let* g := of_option ErrNoRows
    (select_one (fun g => (g_id g == groupID) && (g_cluster_id g == clusterID)) (node_groups d)) in
  Ok (mkCapacityResult "" groupID (g_target_nodes g) (g_target_revision g)).
