(* ===== verification/Invariant.v ===== *)
(** * The capacity ledger and its invariant

    What admission, leasing, launching, hand-off, removal and the legacy plane
    must keep true of the shared database: keys are unique, references between
    operations, hosts and reservations are mutual, a managed host holds its
    reservation exactly until it is terminated, and no pool is over-committed.

    Most operations touch none of the columns this depends on.  [same_ledger]
    is the equivalence of databases that agree on those columns; the invariant
    respects it, so such operations preserve it by one rewrite. *)
From S2P Require Import Prelude Sql Api Schema Admission.
From Stdlib Require Import Setoid Morphisms.

Local Open Scope string_scope.
Local Open Scope list_scope.
Local Open Scope Z_scope.
Local Open Scope crane_scope.

(** ** The columns the ledger depends on *)

(** Exactly the columns that trigger [crane_immutable_operation] protects, and the key. *)
Definition op_ident (o : OpRow) :=
  (o_id o, o_kind o, o_zone_id o, o_group_id o, o_host_id o, o_capacity_request_id o,
   o_target_revision o, o_provider_token o, o_parameters o).

Definition host_ident (h : HostRow) :=
  (h_id h, h_node_group_id h, h_node_pool_id h, h_crane_zone h, h_operation_id h, h_protected h,
   h_state h == HostTerminated).

Definition res_ident (r : ReservationRow) :=
  (i_id r, i_group_id r, i_host_id r, i_vcpu r, i_memory_mib r, i_nodes r, i_state r == Rreleased).

Definition group_ident (g : GroupRow) :=
  (g_id g, g_cluster_id g, g_zone_id g, g_node_pool_id g, g_min_nodes g, g_max_nodes g, g_vcpu g, g_memory_mib g).

Definition pool_ident (p : PoolRow) := (p_id p, p_limits p).

Record same_ledger (d d' : DB) : Prop := mkSameLedger {
  sl_ops : map op_ident (operations d) = map op_ident (operations d');
  sl_hosts : map host_ident (host d) = map host_ident (host d');
  sl_res : map res_ident (infrastructure_reservations d) = map res_ident (infrastructure_reservations d');
  sl_groups : map group_ident (node_groups d) = map group_ident (node_groups d');
  sl_pools : map pool_ident (node_pools d) = map pool_ident (node_pools d') }.

#[global] Instance same_ledger_equiv : Equivalence same_ledger.
Proof.
  split.
  - intros d. by split.
  - intros d d' []. by split; symmetry.
  - intros d1 d2 d3 [] []. split; etrans; eauto.
Qed.

(** ** The invariant *)

Definition group_ok (g : GroupRow) : Prop :=
  0 <= g_min_nodes g <= g_max_nodes g /\ g_max_nodes g <= MaxInt64 /\
  0 < g_vcpu g <= MaxInt64 /\ 0 < g_memory_mib g <= MaxInt64.

Definition limits_ok (l : Resources) : Prop :=
  0 <= VCPU l <= MaxInt64 /\ 0 <= MemoryMiB l <= MaxInt64 /\ 0 <= Nodes l <= MaxInt64.

(** No pool is over-committed. *)
Definition within (u l : Resources) : Prop :=
  VCPU u <= VCPU l /\ MemoryMiB u <= MemoryMiB l /\ Nodes u <= Nodes l.

Definition capacity_safe (d : DB) : Prop :=
  forall p, In p (node_pools d) -> within (pool_used (p_id p) d) (p_limits p).

(** A reservation is released exactly when its host is terminated. *)
Definition credit_matches (h : HostRow) (r : ReservationRow) : Prop :=
  i_state r = Rreleased <-> h_state h = HostTerminated.

Record Ledger (d : DB) : Prop := mkLedger {
  L_ops : unique_key o_id (operations d);
  L_hosts : unique_key h_id (host d);
  L_res : unique_key i_host_id (infrastructure_reservations d);
  L_groups : unique_key g_id (node_groups d);
  L_pools : unique_key p_id (node_pools d);
  L_group_ok : forall g, In g (node_groups d) -> group_ok g;
  L_pool_ok : forall p, In p (node_pools d) -> limits_ok (p_limits p);
  (** foreign key and CHECK constraints of [infrastructure_reservations] *)
  L_res_ok : forall r, In r (infrastructure_reservations d) ->
      0 < i_vcpu r /\ 0 < i_memory_mib r /\ i_nodes r = 1 /\
      exists g, In g (node_groups d) /\ g_id g = i_group_id r;
  (** every managed host has its reservation, and conversely *)
  L_credit : forall h gid, In h (host d) -> h_node_group_id h = Some gid ->
      exists r, In r (infrastructure_reservations d) /\ i_host_id r = h_id h /\
                i_group_id r = gid /\ credit_matches h r;
  L_backed : forall r, In r (infrastructure_reservations d) ->
      exists h, In h (host d) /\ h_id h = i_host_id r /\ h_node_group_id h = Some (i_group_id r);
  (** a provisioning operation and its host name each other *)
  L_intent : forall o, In o (operations d) -> o_kind o = Kprovision ->
      exists h, In h (host d) /\ o_host_id o = Some (h_id h) /\ h_operation_id h = Some (o_id o) /\
                h_node_group_id h = o_group_id o /\ is_Some (o_group_id o);
  (** foreign key of [node_groups] *)
  L_group_pool : forall g, In g (node_groups d) -> exists p, In p (node_pools d) /\ p_id p = g_node_pool_id g;
  L_safe : capacity_safe d }.

(** ** The invariant depends on the ledger columns only *)

(** Transport a row along equal projections of two tables. *)
Lemma ident_in {A B} (f : A -> B) (l l' : list A) y :
  map f l = map f l' -> In y l' -> exists x, In x l /\ f x = f y.
Proof.
  intros E Hy. assert (In (f y) (map f l)) as H by (rewrite E; by apply in_map).
  apply in_map_iff in H as (x & Ex & Hx). eauto.
Qed.

Lemma unique_key_ident {A B K} `{EqDecision K} (f : A -> B) (k : B -> K) (key : A -> K) (l l' : list A) :
  (forall x, key x = k (f x)) -> map f l = map f l' -> unique_key key l -> unique_key key l'.
Proof.
  intros Hk E. unfold unique_key.
  assert (forall m, map key m = map k (map f m)) as Hm.
  { intros m. rewrite map_map. by apply map_ext. }
  by rewrite !Hm, E.
Qed.

Lemma sum_of_ident {A B} (f : A -> B) (g : B -> Z) (l l' : list A) :
  map f l = map f l' -> sum_of (fun x => g (f x)) l = sum_of (fun x => g (f x)) l'.
Proof. intros E. by rewrite <- (sum_of_map g f l), <- (sum_of_map g f l'), E. Qed.

(** A filtered sum as a sum of conditional terms. *)
Lemma sum_select {A} (f : A -> Z) (p : A -> bool) l :
  sum_of f (select p l) = sum_of (fun x => if p x then f x else 0) l.
Proof. induction l as [|x l IH]; simpl; [done|]. destruct (p x); simpl; lia. Qed.

Lemma exists_row_ident {A B} (f : A -> B) (p : B -> bool) (l l' : list A) :
  map f l = map f l' ->
  exists_row (fun x => p (f x)) l = exists_row (fun x => p (f x)) l'.
Proof.
  intros E. unfold exists_row.
  assert (forall k : list A, existsb (fun x => p (f x)) k = existsb p (map f k)) as H.
  { intros k. induction k as [|x k IH]; simpl; [done|]. by rewrite IH. }
  by rewrite !H, E.
Qed.

Definition counted_group (pool gid : string) (i : string * string * string * string * Z * Z * Z * Z) : bool :=
  let '(id, _, _, pl, _, _, _, _) := i in (id == gid) && (pl == pool).

Lemma exists_group_ident pool gid l :
  exists_row (fun g => (g_id g == gid) && (g_node_pool_id g == pool)) l =
  existsb (counted_group pool gid) (map group_ident l).
Proof. induction l as [|g l IH]; simpl; [done|]. by rewrite <- IH. Qed.

Lemma used_by_same_ledger (f : ReservationRow -> Z) (F : _ -> Z) pool d d' :
  (forall r, f r = F (res_ident r)) -> same_ledger d d' -> used_by f pool d = used_by f pool d'.
Proof.
  intros HF [_ _ Hr Hg _]. unfold used_by. rewrite !sum_select.
  pose (G := fun i : string * string * string * Z * Z * Z * bool =>
    let '(_, gid, _, _, _, _, released) := i in
    if negb released && existsb (counted_group pool gid) (map group_ident (node_groups d)) then F i else 0).
  transitivity (sum_of (fun r => G (res_ident r)) (infrastructure_reservations d));
    [|rewrite (sum_of_ident res_ident G _ _ Hr)]; apply sum_of_ext; intros r _;
    unfold G, counts_against; rewrite exists_group_ident, HF; [done|]. by rewrite Hg.
Qed.

Lemma pool_used_same_ledger pool d d' : same_ledger d d' -> pool_used pool d = pool_used pool d'.
Proof.
  intros H. unfold pool_used. f_equal.
  - by apply (used_by_same_ledger i_vcpu (fun '(_, _, _, v, _, _, _) => v)).
  - by apply (used_by_same_ledger i_memory_mib (fun '(_, _, _, _, m, _, _) => m)).
  - by apply (used_by_same_ledger i_nodes (fun '(_, _, _, _, _, n, _) => n)).
Qed.

Lemma group_ok_ident g g' : group_ident g = group_ident g' -> group_ok g -> group_ok g'.
Proof. unfold group_ident, group_ok. intros H. simplify_eq. by destruct g, g'; simplify_eq/=. Qed.

Lemma bool_decide_same (P Q : Prop) `{Decision P, Decision Q} : bool_decide P = bool_decide Q -> (P <-> Q).
Proof. intros H1. rewrite <- (bool_decide_eq_true P), <- (bool_decide_eq_true Q). by rewrite H1. Qed.

Lemma host_ident_eq h h' : host_ident h = host_ident h' ->
  h_id h = h_id h' /\ h_node_group_id h = h_node_group_id h' /\ h_operation_id h = h_operation_id h' /\
  (h_state h = HostTerminated <-> h_state h' = HostTerminated).
Proof.
  unfold host_ident. intros H. injection H as ? ? ? ? ? ? Hb.
  apply bool_decide_same in Hb. done.
Qed.

Lemma res_ident_eq r r' : res_ident r = res_ident r' ->
  i_group_id r = i_group_id r' /\ i_host_id r = i_host_id r' /\ i_vcpu r = i_vcpu r' /\
  i_memory_mib r = i_memory_mib r' /\ i_nodes r = i_nodes r' /\
  (i_state r = Rreleased <-> i_state r' = Rreleased).
Proof.
  unfold res_ident. intros H. injection H as ? ? ? ? ? ? Hb.
  apply bool_decide_same in Hb. done.
Qed.

Lemma op_ident_eq o o' : op_ident o = op_ident o' ->
  o_id o = o_id o' /\ o_kind o = o_kind o' /\ o_group_id o = o_group_id o' /\ o_host_id o = o_host_id o'.
Proof. unfold op_ident. intros H. by injection H. Qed.

Lemma group_ident_id g g' : group_ident g = group_ident g' -> g_id g = g_id g'.
Proof. unfold group_ident. intros H. by injection H. Qed.

Lemma capacity_safe_same_ledger d d' : same_ledger d d' -> capacity_safe d -> capacity_safe d'.
Proof.
  intros HS H p Hp. destruct (ident_in pool_ident _ _ _ (sl_pools _ _ HS) Hp) as (p0 & H0 & E).
  unfold pool_ident in E. injection E as E1 E2.
  rewrite <- (pool_used_same_ledger _ _ _ HS), <- E1, <- E2. by apply H.
Qed.

(** One clause of the invariant at a time. *)
Section Transport.
Context (d d' : DB) (HS : same_ledger d d') (HL : Ledger d).

Lemma transport_res_ok r : In r (infrastructure_reservations d') ->
  0 < i_vcpu r /\ 0 < i_memory_mib r /\ i_nodes r = 1 /\
  exists g, In g (node_groups d') /\ g_id g = i_group_id r.
Proof.
  intros Hin. destruct (ident_in res_ident _ _ _ (sl_res _ _ HS) Hin) as (r0 & H0 & E).
  destruct (L_res_ok _ HL _ H0) as (H1 & H2 & H3 & g & Hg & Hid).
  apply res_ident_eq in E as (E1 & _ & E3 & E4 & E5 & _).
  destruct (ident_in group_ident _ _ _ (eq_sym (sl_groups _ _ HS)) Hg) as (g1 & Hg1 & E6).
  apply group_ident_id in E6. split_and!; try congruence. exists g1. split; [done|congruence].
Qed.

Lemma transport_credit h gid : In h (host d') -> h_node_group_id h = Some gid ->
  exists r, In r (infrastructure_reservations d') /\ i_host_id r = h_id h /\
            i_group_id r = gid /\ credit_matches h r.
Proof.
  intros Hin Hgid. destruct (ident_in host_ident _ _ _ (sl_hosts _ _ HS) Hin) as (h0 & H0 & E).
  apply host_ident_eq in E as (E1 & E2 & _ & E4).
  destruct (L_credit _ HL h0 gid H0) as (r & Hr & F1 & F2 & F3); [congruence|].
  destruct (ident_in res_ident _ _ _ (eq_sym (sl_res _ _ HS)) Hr) as (r1 & Hr1 & E5).
  apply res_ident_eq in E5 as (G1 & G2 & _ & _ & _ & G6).
  exists r1. split_and!; [done|congruence|congruence|]. unfold credit_matches in *. tauto.
Qed.

Lemma transport_backed r : In r (infrastructure_reservations d') ->
  exists h, In h (host d') /\ h_id h = i_host_id r /\ h_node_group_id h = Some (i_group_id r).
Proof.
  intros Hin. destruct (ident_in res_ident _ _ _ (sl_res _ _ HS) Hin) as (r0 & H0 & E).
  destruct (L_backed _ HL _ H0) as (h & Hh & F1 & F2).
  destruct (ident_in host_ident _ _ _ (eq_sym (sl_hosts _ _ HS)) Hh) as (h1 & Hh1 & E1).
  apply res_ident_eq in E as (G1 & G2 & _). apply host_ident_eq in E1 as (K1 & K2 & _).
  exists h1. split_and!; [done|congruence|congruence].
Qed.

Lemma transport_intent o : In o (operations d') -> o_kind o = Kprovision ->
  exists h, In h (host d') /\ o_host_id o = Some (h_id h) /\ h_operation_id h = Some (o_id o) /\
            h_node_group_id h = o_group_id o /\ is_Some (o_group_id o).
Proof.
  intros Hin Hk. destruct (ident_in op_ident _ _ _ (sl_ops _ _ HS) Hin) as (o0 & H0 & E).
  apply op_ident_eq in E as (E1 & E2 & E3 & E4).
  destruct (L_intent _ HL o0 H0) as (h & Hh & F1 & F2 & F3 & F4); [congruence|].
  destruct (ident_in host_ident _ _ _ (eq_sym (sl_hosts _ _ HS)) Hh) as (h1 & Hh1 & G).
  apply host_ident_eq in G as (G1 & G2 & G3 & _).
  exists h1. split_and!; [done|congruence|congruence|congruence|congruence].
Qed.

Lemma transport_group_pool g : In g (node_groups d') -> exists p, In p (node_pools d') /\ p_id p = g_node_pool_id g.
Proof.
  intros Hin. destruct (ident_in group_ident _ _ _ (sl_groups _ _ HS) Hin) as (g0 & H0 & E).
  destruct (L_group_pool _ HL _ H0) as (p & Hp & Ep).
  destruct (ident_in pool_ident _ _ _ (eq_sym (sl_pools _ _ HS)) Hp) as (p1 & Hp1 & E1).
  unfold group_ident in E. unfold pool_ident in E1. simplify_eq. exists p1. split; [done|congruence].
Qed.

Lemma Ledger_same : Ledger d'.
Proof.
  pose proof HS as [So Sh Sr Sg Sp]. destruct HL as [Ho Hh Hr Hg Hp Hgo Hpo _ _ _ _ _ Hs].
  split; auto using transport_res_ok, transport_credit, transport_backed, transport_intent, transport_group_pool.
  - by apply (unique_key_ident op_ident (fun '(id, _, _, _, _, _, _, _, _) => id) o_id (operations d)).
  - by apply (unique_key_ident host_ident (fun '(id, _, _, _, _, _, _) => id) h_id (host d)).
  - by apply (unique_key_ident res_ident (fun '(_, _, hid, _, _, _, _) => hid) i_host_id (infrastructure_reservations d)).
  - by apply (unique_key_ident group_ident (fun '(id, _, _, _, _, _, _, _) => id) g_id (node_groups d)).
  - by apply (unique_key_ident pool_ident fst p_id (node_pools d)).
  - intros g Hin. destruct (ident_in group_ident _ _ _ Sg Hin) as (g0 & H0 & E).
    by apply (group_ok_ident g0); auto.
  - intros p Hin. destruct (ident_in pool_ident _ _ _ Sp Hin) as (p0 & H0 & E).
    injection E as _ <-. auto.
  - by apply (capacity_safe_same_ledger d).
Qed.
End Transport.

#[global] Instance Ledger_proper : Proper (same_ledger ==> iff) Ledger.
Proof. intros d d' H. split; apply Ledger_same; [|symmetry]; done. Qed.

(** ** Adding one intent *)

Definition add_intent (o : OpRow) (h : HostRow) (r : ReservationRow) (d : DB) : DB :=
  set_infrastructure_reservations (infrastructure_reservations d ++ [r])
    (set_host (host d ++ [h]) (set_operations (operations d ++ [o]) d)).

Definition res_add (u : Resources) (r : ReservationRow) : Resources :=
  mkResources (VCPU u + i_vcpu r) (MemoryMiB u + i_memory_mib r) (Nodes u + i_nodes r).

Lemma in_snoc {A} (l : list A) x y : In y (l ++ [x]) <-> In y l \/ y = x.
Proof. rewrite in_app_iff. simpl. naive_solver. Qed.

(** The rows of an intent for group [g] agree with each other and are new. *)
Record intent_rows (d : DB) (g : GroupRow) (o : OpRow) (h : HostRow) (r : ReservationRow) : Prop := mkIntentRows {
  ir_group : In g (node_groups d);
  ir_op_host : o_host_id o = Some (h_id h);
  ir_op_group : o_group_id o = Some (g_id g);
  ir_host_op : h_operation_id h = Some (o_id o);
  ir_host_group : h_node_group_id h = Some (g_id g);
  ir_host_state : h_state h <> HostTerminated;
  ir_res_host : i_host_id r = h_id h;
  ir_res_group : i_group_id r = g_id g;
  ir_res_state : i_state r <> Rreleased;
  ir_res_vcpu : i_vcpu r = g_vcpu g;
  ir_res_memory : i_memory_mib r = g_memory_mib g;
  ir_res_nodes : i_nodes r = 1;
  ir_fresh_op : forall x, In x (operations d) -> o_id x <> o_id o;
  ir_fresh_host : forall x, In x (host d) -> h_id x <> h_id h;
  ir_fresh_res : forall x, In x (infrastructure_reservations d) -> i_host_id x <> i_host_id r }.

Section AddIntent.
Context (d : DB) (HL : Ledger d) (g : GroupRow) (o : OpRow) (h : HostRow) (r : ReservationRow)
        (HI : intent_rows d g o h r).

Lemma counts_intent pool : counts_against pool (node_groups d) r = (g_node_pool_id g == pool).
Proof.
  unfold counts_against. rewrite (bool_decide_false (i_state r = Rreleased)) by apply HI. simpl.
  apply eq_true_iff_eq. rewrite exists_row_true, bool_decide_eq_true. split.
  - intros (g' & Hin & H). bsplit. rewrite (ir_res_group _ _ _ _ _ HI) in H0.
    by rewrite <- (unique_key_in g_id (node_groups d) g' g (L_groups _ HL) Hin (ir_group _ _ _ _ _ HI) H0).
  - intros E. exists g. split; [apply HI|]. rewrite E, (ir_res_group _ _ _ _ _ HI).
    by rewrite !bool_decide_true.
Qed.

Lemma used_by_add f pool :
  used_by f pool (add_intent o h r d) = used_by f pool d + (if g_node_pool_id g == pool then f r else 0).
Proof.
  unfold used_by. simpl. rewrite !sum_select, sum_of_app. simpl. rewrite counts_intent. lia.
Qed.

Lemma pool_used_add pool :
  pool_used pool (add_intent o h r d) =
  if g_node_pool_id g == pool then res_add (pool_used pool d) r else pool_used pool d.
Proof.
  unfold pool_used. rewrite !used_by_add. case_bool_decide; [done|]. by rewrite !Z.add_0_r.
Qed.

Lemma add_intent_safe :
  (forall p, In p (node_pools d) -> p_id p = g_node_pool_id g ->
     within (res_add (pool_used (p_id p) d) r) (p_limits p)) ->
  capacity_safe (add_intent o h r d).
Proof.
  intros H p Hp. rewrite pool_used_add. case_bool_decide as E.
  - by apply H.
  - by apply (L_safe _ HL).
Qed.

Lemma add_intent_credit x gid : In x (host d ++ [h]) -> h_node_group_id x = Some gid ->
  exists y, In y (infrastructure_reservations d ++ [r]) /\ i_host_id y = h_id x /\ i_group_id y = gid /\
            credit_matches x y.
Proof.
  rewrite in_snoc. intros [Hx| ->] Hg.
  - destruct (L_credit _ HL x gid Hx Hg) as (y & Hy & ?). exists y. rewrite in_snoc. auto.
  - exists r. rewrite in_snoc. destruct HI. split_and!; [by right|done|congruence|].
    unfold credit_matches. tauto.
Qed.

Lemma add_intent_backed y : In y (infrastructure_reservations d ++ [r]) ->
  exists x, In x (host d ++ [h]) /\ h_id x = i_host_id y /\ h_node_group_id x = Some (i_group_id y).
Proof.
  rewrite in_snoc. intros [Hy| ->].
  - destruct (L_backed _ HL y Hy) as (x & Hx & ?). exists x. rewrite in_snoc. auto.
  - exists h. rewrite in_snoc. destruct HI. split_and!; [by right|done|congruence].
Qed.

Lemma add_intent_intent x : In x (operations d ++ [o]) -> o_kind x = Kprovision ->
  exists y, In y (host d ++ [h]) /\ o_host_id x = Some (h_id y) /\ h_operation_id y = Some (o_id x) /\
            h_node_group_id y = o_group_id x /\ is_Some (o_group_id x).
Proof.
  rewrite in_snoc. intros [Hx| ->] Hk.
  - destruct (L_intent _ HL x Hx Hk) as (y & Hy & ?). exists y. rewrite in_snoc. auto.
  - exists h. rewrite in_snoc. destruct HI. split_and!; [by right|done|done|congruence|by eexists].
Qed.

Lemma Ledger_add_intent :
  (forall p, In p (node_pools d) -> p_id p = g_node_pool_id g ->
     within (res_add (pool_used (p_id p) d) r) (p_limits p)) ->
  Ledger (add_intent o h r d).
Proof.
  intros Hs. split; simpl; [| | | | | | | |exact add_intent_credit|exact add_intent_backed
    |exact add_intent_intent|apply HL|by apply add_intent_safe].
  1-3: apply unique_key_app; [apply HL|apply HI].
  1-4: apply HL.
  intros x Hx. apply in_snoc in Hx as [Hx| ->]; [by apply (L_res_ok _ HL)|].
  destruct HI as [Hg _ _ _ _ _ _ E1 _ E2 E3 E4 _ _ _].
  destruct (L_group_ok _ HL g Hg) as (_ & _ & ? & ?). split_and!; try lia. eauto.
Qed.
End AddIntent.

(** ** Cancelling one intent *)
Section CancelIntent.
Context (d : DB) (HL : Ledger d) (t : Z) (op : OpRow).

Lemma cancel_used_le f pool : (forall r, In r (infrastructure_reservations d) -> 0 <= f r) ->
  (forall r, f (set_i_state Rreleased r) = f r) ->
  used_by f pool (cancelIntent t op d) <= used_by f pool d.
Proof.
  intros Hpos Hf. unfold used_by. simpl. rewrite !sum_select. apply sum_update_where_le.
  intros r Hr _. unfold counts_against. simpl. destruct (_ && _); [auto|lia].
Qed.

Lemma cancel_safe : capacity_safe (cancelIntent t op d).
Proof.
  intros p Hp. simpl in Hp. pose proof (L_safe _ HL p Hp) as (H1 & H2 & H3).
  pose proof (L_res_ok _ HL) as Hr.
  unfold within, pool_used in *. simpl in *. split_and!;
    (etrans; [apply cancel_used_le; [|done]|eassumption]); intros r Hin; destruct (Hr r Hin); lia.
Qed.

Lemma cancel_host_ident_id h : h_id (if o_host_id op == Some (h_id h) then cancel_host t h else h) = h_id h.
Proof. by case_bool_decide. Qed.

Lemma Ledger_cancelIntent : Ledger (cancelIntent t op d).
Proof.
  destruct HL as [Ho Hh Hr Hg Hp Hgo Hpo Hro Hc Hb Hi Hgp Hs]. split; simpl; auto using cancel_safe.
  - by apply unique_key_update.
  - by apply unique_key_update.
  - by apply unique_key_update.
  - intros r Hin. apply in_update_where in Hin as (r0 & H0 & ->).
    destruct (Hro _ H0) as (? & ? & ? & ?). by case_bool_decide.
  - intros h gid Hin Hgid. apply in_update_where in Hin as (h0 & H0 & ->).
    destruct (Hc h0 gid H0) as (r & Hrin & E1 & E2 & E3); [by case_bool_decide|].
    exists (if o_host_id op == Some (i_host_id r) then set_i_state Rreleased r else r).
    split_and!; [apply in_update_where; eauto| | |]; rewrite E1; case_bool_decide; auto.
    unfold credit_matches. simpl. tauto.
  - intros r Hin. apply in_update_where in Hin as (r0 & H0 & ->).
    destruct (Hb _ H0) as (h & Hhin & E1 & E2).
    exists (if o_host_id op == Some (h_id h) then cancel_host t h else h).
    split; [apply in_update_where; eauto|]. rewrite E1. by case_bool_decide.
  - intros o Hin Hk. apply in_update_where in Hin as (o0 & H0 & ->).
    destruct (Hi o0 H0) as (h & Hhin & E1 & E2 & E3 & E4); [by case_bool_decide|].
    exists (if o_host_id op == Some (h_id h) then cancel_host t h else h).
    split; [apply in_update_where; eauto|].
    case_bool_decide as C1; case_bool_decide as C2; simpl; auto.
Qed.
End CancelIntent.

(** Targets stay inside their group's bounds and revisions in [int64]. *)
Definition target_ok (g : GroupRow) : Prop :=
  g_min_nodes g <= g_target_nodes g <= g_max_nodes g /\ 0 <= g_target_revision g <= MaxInt64.

Definition targets_ok (d : DB) : Prop := forall g, In g (node_groups d) -> target_ok g.

(** A frame for operations that touch operations, hosts and bindings only. *)
Lemma same_ledger_ops d t :
  map op_ident t = map op_ident (operations d) -> same_ledger d (set_operations t d).
Proof. intros H. by split. Qed.

Lemma same_ledger_host d t :
  map host_ident t = map host_ident (host d) -> same_ledger d (set_host t d).
Proof. intros H. by split. Qed.

Lemma op_ident_update p f l :
  (forall o, op_ident (f o) = op_ident o) -> map op_ident (update_where p f l) = map op_ident l.
Proof. intros H. apply update_where_map. auto. Qed.

Lemma host_ident_update p f l :
  (forall h, In h l -> p h = true -> host_ident (f h) = host_ident h) ->
  map host_ident (update_where p f l) = map host_ident l.
Proof. intros H. by apply update_where_map. Qed.
