(* ===== verification/Fixture.v ===== *)
(** * A small concrete deployment

    One zone, one cluster, one pool of four nodes and one group of at most three,
    with clocks and identifiers that are easy to read.  The witnesses of the
    theorems evaluate the definitions on it. *)
From S2P Require Import Prelude Sql Api Schema Admission Invariant.

Local Open Scope string_scope.
Local Open Scope list_scope.
Local Open Scope Z_scope.
Local Open Scope crane_scope.

Fixpoint marks (n : nat) : string := match n with O => "" | S n => String.append "i" (marks n) end.

(** Distinct identifiers: the prefix [p] followed by [k] marks; a clock that ticks from [t]. *)
Definition env_at (p : string) (t : Z) : Env :=
  mkEnv (fun k => t + Z.of_nat k) (fun k => String.append p (marks k)).

Definition demo_zone : ZoneRow := mkZone "z1" "aws" "acct" "us-west-2" "us-west-2a" "us-west-2" "us-west-2a" true "ready".
Definition demo_cluster : ClusterRow :=
  mkCluster "c1" "https://10.0.0.1:6443" "sha256:00" "1.30" "1.30" "containerd" "cilium" "ready".
Definition demo_member : MemberRow := mkMember "c1" "z1" "ready" "approved".
Definition demo_pool : PoolRow := mkPool "pool" true (mkResources 8 32768 4).
Definition demo_naming : NodeGroupNaming := mkNaming "aws" "prod" "us-west-2" "a" "general".
Definition demo_scheduling : SchedulingTemplate :=
  mkScheduling "m7i.large" "amd64" "us-west-2" "us-west-2a" ∅ [].
Definition demo_group : GroupRow :=
  mkGroup demo_naming "aws-prod-us-west-2-a-general" "c1" "z1" "pool" "general" "us-west-2a" 0 0 0 3 "rev-1" "active"
    2 8192 (JObj [("image_id", JStr "ami-1")]) demo_scheduling.
Definition demo_dominator : DominatorRow :=
  mkDominator "z1" "https://10.0.0.2:44000" "spiffe://crane/dominator/z1" "configuration_pending".
Definition demo_spire : HostRow :=
  mkHost "bootstrap/spire" (Some "spire") (Some "z1") (Some "ami-0") HostConverging (Some HostHealthUnknown)
    (Some 0) None (Some "aws") (Some "i-spire") None None None true "https://10.0.0.3:44001" ""
    None None None None "" "" 0 0 false.

Definition demo_db : DB :=
  mkDB [mkRegion "aws" "acct" "us-west-2" "us-west-2"] [demo_zone] [demo_cluster] [demo_member] [demo_pool] [demo_group]
    [] [demo_spire] [demo_dominator] [] [] [] [] [].

Definition demo_gid : string := "aws-prod-us-west-2-a-general".

Definition demo_request (id : string) (expected desired : Z) : CapacityRequest :=
  mkCapacityRequest demo_gid id "c1" expected desired "rev-1".

Lemma demo_ledger : Ledger demo_db.
Proof.
  split; simpl.
  1-5: unfold unique_key; simpl; repeat constructor; set_solver.
  - intros g [<-|[]]. unfold group_ok, MaxInt64. simpl. lia.
  - intros p [<-|[]]. unfold limits_ok, MaxInt64. simpl. lia.
  - done.
  - intros h gid [<-|[]]. done.
  - done.
  - done.
  - intros g [<-|[]]. exists demo_pool. by split; [left|].
  - intros p [<-|[]]. repeat split; vm_compute; congruence.
Qed.

Lemma demo_targets : targets_ok demo_db.
Proof. intros g [<-|[]]. unfold target_ok, MaxInt64. simpl. lia. Qed.

(** Two nodes requested, through the real admission code. *)
Definition db_two : DB := snd (SetTarget (env_at "a" 100) (demo_request "req-1" 0 2) demo_db).

Example db_two_admitted :
  fst (SetTarget (env_at "a" 100) (demo_request "req-1" 0 2) demo_db) =
  Ok (mkCapacityResult "req-1" demo_gid 2 1).
Proof. vm_compute. reflexivity. Qed.

Example db_two_hosts : map h_state (host db_two) = [HostConverging; HostRequested; HostRequested].
Proof. vm_compute. reflexivity. Qed.
