(* ===== verification/AdmissionFacts.v ===== *)
(** * What admission guarantees

    Theorems about [Admission.SetTarget]: exactness of the overflow-guarded pool
    check, preservation of the ledger, compare-and-swap and replay behaviour,
    tenancy, and what a decrease may touch. *)
From S2P Require Import Prelude Sql Api Schema Admission Invariant Fixture.

Local Open Scope string_scope.
Local Open Scope list_scope.
Local Open Scope Z_scope.
Local Open Scope crane_scope.

(** ** The pool check *)

Lemma quot_guard n v : 0 < v -> 0 <= n -> (Z.quot MaxInt64 v <? n) = false <-> n * v <= MaxInt64.
Proof.
  intros Hv Hn. rewrite Z.ltb_ge. assert (0 <= MaxInt64) by (unfold MaxInt64; lia).
  rewrite Z.quot_div_nonneg by lia. split; intros H1.
  - pose proof (Z.mul_div_le MaxInt64 v). nia.
  - apply Z.div_le_lower_bound; lia.
Qed.

(** One resource of the check: the guarded 64-bit comparison is the mathematical one. *)
Lemma resource_guard lim used n v : 0 < v -> 0 <= n -> 0 <= used <= lim -> lim <= MaxInt64 ->
  (Z.quot MaxInt64 v <? n) = false ->
  (sub64 lim used <? mul64 n v) = false <-> used + n * v <= lim.
Proof.
  intros Hv Hn Hu Hl Hg. apply quot_guard in Hg; [|lia..].
  unfold sub64, mul64. rewrite !wrap64_id by (unfold int64, MaxInt64 in *; nia).
  rewrite Z.ltb_ge. lia.
Qed.

Definition fits (p : policy) (n : Z) (d : DB) : Prop :=
  let u := pool_used (g_node_pool_id (group p)) d in
  VCPU u + n * g_vcpu (group p) <= VCPU (poolLimit p) /\
  MemoryMiB u + n * g_memory_mib (group p) <= MemoryMiB (poolLimit p) /\
  Nodes u + n <= Nodes (poolLimit p).

Lemma fits_same_ledger p n d d' : same_ledger d d' -> fits p n d -> fits p n d'.
Proof. intros HS. unfold fits. by rewrite (pool_used_same_ledger _ _ _ HS). Qed.

Lemma checkReservations_spec p n d : group_ok (group p) -> limits_ok (poolLimit p) -> 0 <= n ->
  let u := pool_used (g_node_pool_id (group p)) d in
  0 <= VCPU u <= VCPU (poolLimit p) -> 0 <= MemoryMiB u <= MemoryMiB (poolLimit p) ->
  0 <= Nodes u <= Nodes (poolLimit p) -> n <= MaxInt64 ->
  checkReservations p n d = Ok tt <-> fits p n d.
Proof.
  intros (_ & _ & Hv & Hm) (L1 & L2 & L3) Hn u U1 U2 U3 HM.
  unfold fits, checkReservations. fold u. clearbody u. simpl.
  destruct (Z.quot MaxInt64 (g_vcpu (group p)) <? n) eqn:G1; simpl.
  { split; [done|]. intros (H & _). exfalso.
    assert (n * g_vcpu (group p) <= MaxInt64) as C by lia. apply quot_guard in C; [congruence|lia..]. }
  destruct (Z.quot MaxInt64 (g_memory_mib (group p)) <? n) eqn:G2; simpl.
  { split; [done|]. intros (_ & H & _). exfalso.
    assert (n * g_memory_mib (group p) <= MaxInt64) as C by lia. apply quot_guard in C; [congruence|lia..]. }
  pose proof (resource_guard (VCPU (poolLimit p)) (VCPU u) n _ (proj1 Hv) Hn U1 (proj2 L1) G1) as R1.
  pose proof (resource_guard (MemoryMiB (poolLimit p)) (MemoryMiB u) n _ (proj1 Hm) Hn U2 (proj2 L2) G2) as R2.
  assert ((sub64 (Nodes (poolLimit p)) (Nodes u) <? n) = false <-> Nodes u + n <= Nodes (poolLimit p)) as R3.
  { unfold sub64. rewrite wrap64_id by (unfold int64, MaxInt64 in *; lia). rewrite Z.ltb_ge. lia. }
  destruct (sub64 (VCPU _) _ <? _), (sub64 (MemoryMiB _) _ <? _), (sub64 (Nodes _) _ <? _); simpl; naive_solver.
Qed.

(** The usage of a pool is never negative. *)
Lemma pool_used_nonneg d pool : Ledger d ->
  0 <= VCPU (pool_used pool d) /\ 0 <= MemoryMiB (pool_used pool d) /\ 0 <= Nodes (pool_used pool d).
Proof.
  intros HL. simpl. unfold used_by, select.
  split_and!; apply sum_of_nonneg; intros r Hr; apply List.filter_In in Hr as [Hr _];
    destruct (L_res_ok _ HL r Hr) as (? & ? & ? & _); lia.
Qed.

(** ** Policies *)

Lemma loadPolicy_ok id d p : loadPolicy id d = Ok p ->
  In (group p) (node_groups d) /\ g_id (group p) = id /\
  exists pool, In pool (node_pools d) /\ p_id pool = g_node_pool_id (group p) /\ poolLimit p = p_limits pool.
Proof.
  unfold loadPolicy. intros H. inv_ok. simpl.
  repeat match goal with H : select_one _ _ = Some _ |- _ => apply select_one_some in H as [? ?] end.
  bsplit. eauto 10.
Qed.

(** ** Intents *)

Lemma insert_operation_ok o d d' : insert_operation o d = Ok d' ->
  d' = set_operations (operations d ++ [o]) d /\
  forall x, In x (operations d) -> o_id x <> o_id o /\ o_provider_token x <> o_provider_token o.
Proof.
  unfold insert_operation. intros H. inv_ok. apply insert_row_ok in Hx as [-> Hc].
  split; [done|]. intros x Hx. specialize (Hc x Hx). by bsplit.
Qed.

Lemma insert_host_ok h d d' : insert_host h d = Ok d' ->
  d' = set_host (host d ++ [h]) d /\ forall x, In x (host d) -> h_id x <> h_id h.
Proof.
  unfold insert_host. intros H. inv_ok. apply insert_row_ok in Hx as [-> Hc].
  split; [done|]. intros x Hx. specialize (Hc x Hx). by bsplit.
Qed.

Lemma insert_reservation_ok r d d' : insert_reservation r d = Ok d' ->
  d' = set_infrastructure_reservations (infrastructure_reservations d ++ [r]) d /\
  forall x, In x (infrastructure_reservations d) -> i_host_id x <> i_host_id r.
Proof.
  unfold insert_reservation. intros H. inv_ok. apply insert_row_ok in Hx as [-> Hc].
  split; [done|]. intros x Hx. specialize (Hc x Hx). by bsplit.
Qed.

Lemma provisionIntent_ok e p rid rev k d g u d' : provisionIntent e p rid rev k d = Ok (u, d') ->
  In g (node_groups d) -> group_ident g = group_ident (group p) ->
  d' = add_intent (intent_operation e p rid rev k) (intent_host e p k) (intent_reservation e p rid k) d /\
  intent_rows d g (intent_operation e p rid rev k) (intent_host e p k) (intent_reservation e p rid k).
Proof.
  unfold provisionIntent. intros H Hg E. inv_tx.
  apply insert_operation_ok in Hx as [-> F1]. apply insert_host_ok in Hx0 as [-> F2].
  apply insert_reservation_ok in H as [-> F3]. split; [done|].
  unfold group_ident in E. injection E as E1 E2 E3 E4 E5 E6 E7 E8.
  split; simpl in *; auto; try congruence. intros y Hy. apply (F1 y Hy).
Qed.

(** The whole effect of the intent loop. *)
Lemma provisionIntents_shape e p rid rev k n d u d' : provisionIntents e p rid rev k n d = Ok (u, d') ->
  d' = set_infrastructure_reservations
         (infrastructure_reservations d ++ map (intent_reservation e p rid) (seq k n))
       (set_host (host d ++ map (intent_host e p) (seq k n))
       (set_operations (operations d ++ map (intent_operation e p rid rev) (seq k n)) d)).
Proof.
  revert k d. induction n as [|n IH]; intros k d H; simpl in *.
  - unfold tx_ret in H. simplify_eq. rewrite !app_nil_r. by destruct d'.
  - inv_tx. rewrite (IH _ _ H). unfold provisionIntent in Hx. inv_tx.
    apply insert_operation_ok in Hx0 as [-> _]. apply insert_host_ok in Hx1 as [-> _].
    apply insert_reservation_ok in Hx as [-> _]. simpl. by rewrite <- !app_assoc.
Qed.

Lemma provisionIntents_ledger e p rid rev k n d g u d' :
  provisionIntents e p rid rev k n d = Ok (u, d') -> Ledger d ->
  In g (node_groups d) -> group_ident g = group_ident (group p) ->
  (forall pool, In pool (node_pools d) -> p_id pool = g_node_pool_id g -> poolLimit p = p_limits pool) ->
  fits p (Z.of_nat n) d ->
  Ledger d'.
Proof.
  revert k d. induction n as [|n IH]; intros k d H HL Hg Eg Hpl Hfit; simpl in H.
  { unfold tx_ret in H. by simplify_eq. }
  inv_tx. destruct (provisionIntent_ok _ _ _ _ _ _ _ _ _ Hx Hg Eg) as [-> HI].
  destruct (L_group_ok _ HL _ Hg) as (_ & _ & Hv & Hm).
  destruct Hfit as (F1 & F2 & F3).
  pose proof Eg as Eg'. unfold group_ident in Eg'. injection Eg' as _ _ _ E4 _ _ E7 E8.
  apply IH in H; auto.
  - apply (Ledger_add_intent d HL g); auto. intros pool Hp E. rewrite E, E4.
    rewrite <- (Hpl pool Hp E). unfold within, res_add. cbn [intent_reservation i_vcpu i_memory_mib i_nodes VCPU MemoryMiB Nodes].
    split_and!; nia.
  - unfold fits. rewrite (pool_used_add d HL g _ _ _ HI), bool_decide_true by done.
    unfold res_add. cbn [intent_reservation i_vcpu i_memory_mib i_nodes VCPU MemoryMiB Nodes].
    split_and!; nia.
Qed.

(** ** Decreases *)

Lemma cancelIntents_ledger t ops d : Ledger d ->
  Ledger (fold_left (fun d op => cancelIntent t op d) ops d).
Proof. revert d. induction ops; simpl; auto using Ledger_cancelIntent. Qed.

(** The tables a decrease does not touch. *)
Definition topology (d : DB) :=
  (zones d, clusters d, cluster_zones d, node_pools d, node_groups d, capacity_requests d).

Lemma cancelIntents_topology t ops d :
  topology (fold_left (fun d op => cancelIntent t op d) ops d) = topology d.
Proof. revert d. induction ops as [|o ops IH]; intros d; simpl; [done|]. by rewrite IH. Qed.

Lemma markExcess_same g n d : same_ledger d (markExcess g n d).
Proof. unfold markExcess. apply same_ledger_host, host_ident_update. done. Qed.

Lemma cancelPending_ledger e g n d : Ledger d -> Ledger (cancelPending e g n d).
Proof.
  intros HL. unfold cancelPending. case_match; [rewrite <- markExcess_same|]; by apply cancelIntents_ledger.
Qed.

Lemma cancelPending_topology e g n d : topology (cancelPending e g n d) = topology d.
Proof. unfold cancelPending. case_match; apply cancelIntents_topology. Qed.

Ltac cancel_frame :=
  match goal with |- context [cancelPending ?e ?g ?n ?x] =>
    generalize (cancelPending_topology e g n x); generalize (cancelPending e g n x);
    let y := fresh in let T := fresh in intros y T; unfold topology in T;
    injection T as ? ? ? ? ? ?
  end.

(** ** The group update *)

Lemma update_group_ok id f d d' : update_group id f d = Ok d' ->
  d' = set_node_groups (update_where (fun g => g_id g == id) f (node_groups d)) d /\
  forall g, In g (select (fun g => g_id g == id) (node_groups d')) -> group_check g = true.
Proof.
  unfold update_group. intros H. inv_ok. split; [done|]. simpl. by apply forallb_forall.
Qed.

Lemma update_group_same id f d d' : update_group id f d = Ok d' ->
  (forall g, group_ident (f g) = group_ident g) -> same_ledger d d'.
Proof.
  intros H Hf. apply update_group_ok in H as [-> _]. split; simpl; try done.
  symmetry. apply update_where_map. auto.
Qed.

Lemma set_target_ident n v g : group_ident (set_g_target_revision n (set_g_target_nodes v g)) = group_ident g.
Proof. done. Qed.

Lemma insert_request_ok r d d' : insert_request r d = Ok d' ->
  d' = set_capacity_requests (capacity_requests d ++ [r]) d /\
  forall x, In x (capacity_requests d) ->
    r_id x <> r_id r /\ ~ (r_group_id x = r_group_id r /\ r_request_id x = r_request_id r).
Proof.
  unfold insert_request. intros H. inv_ok. apply insert_row_ok in Hx as [-> Hc]. split; [done|].
  intros x Hx. specialize (Hc x Hx). apply orb_false_elim in Hc as [H1 H2].
  apply andb_false_iff in H2. bsplit. split; [done|]. intros [E1 E2].
  destruct H2 as [H2|H2]; bsplit; done.
Qed.

(** ** The shape of a successful admission *)
Record admitted (e : Env) (p : policy) (req : CapacityRequest) (d : DB) (r : CapacityResult) (d' : DB) : Prop := mkAdmitted {
  ad_enabled : enabled p = true;
  ad_template : g_template_revision (group p) = TemplateRevision req;
  ad_cas : g_target_revision (group p) = ExpectedTargetRevision req;
  ad_bounds : g_min_nodes (group p) <= DesiredTarget req <= g_max_nodes (group p);
  ad_room : g_target_revision (group p) <> MaxInt64;
  ad_result : r = mkCapacityResult (RequestID req) (NodeGroupID req) (DesiredTarget req) (add64 (g_target_revision (group p)) 1);
  ad_run : exists pool d1 d2 d3,
    select_one (fun q => p_id q == g_node_pool_id (group p)) (node_pools d) = Some pool /\
    let p1 := mkPolicy (group p) (p_limits pool) (enabled p) in
    let delta := sub64 (DesiredTarget req) (g_target_nodes (group p)) in
    (0 < delta -> checkReservations p1 delta d = Ok tt) /\
    (delta < 0 -> registered_count (NodeGroupID req) d <= DesiredTarget req) /\
    insert_request (request_row e req (res_TargetRevision r)) d = Ok d1 /\
    update_group (NodeGroupID req)
      (fun x => set_g_target_revision (res_TargetRevision r) (set_g_target_nodes (DesiredTarget req) x)) d1 = Ok d2 /\
    provisionIntents e p1 (uuid e 0) (res_TargetRevision r) 0 (Z.to_nat delta) d2 = Ok (tt, d3) /\
    d' = if delta <? 0 then cancelPending e (NodeGroupID req) (- delta) d3 else d3 }.

Lemma admit_target_ok e p req d r d' : admit_target e p req d = Ok (r, d') -> admitted e p req d r d'.
Proof.
  unfold admit_target. intros H.
  inv_tx. bsplit.
  set (delta := sub64 (DesiredTarget req) (g_target_nodes (group p))) in *.
  assert (d5 = d /\ (0 < delta -> checkReservations (mkPolicy (group p) (p_limits x3) (enabled p)) delta d = Ok tt))
    as [-> Hcheck].
  { clear - Hx4. destruct (0 <? delta) eqn:E; bsplit.
    - apply tx_query_ok in Hx4 as [Hx4 ->]. by destruct x4.
    - unfold tx_ret in Hx4. simplify_eq. split; [done|lia]. }
  assert (d6 = d /\ (delta < 0 -> registered_count (NodeGroupID req) d <= DesiredTarget req)) as [-> Hreg].
  { clear - Hx5. destruct (delta <? 0) eqn:E; bsplit.
    - apply tx_query_ok in Hx5 as [Hx5 ->]. apply require_ok in Hx5. by bsplit.
    - unfold tx_ret in Hx5. simplify_eq. split; [done|lia]. }
  split; auto.
  exists x3. do 3 eexists. split; [eassumption|].
  split; [exact Hcheck|]. split; [exact Hreg|].
  split; [eassumption|]. split; [eassumption|]. split; [by destruct x8|].
  fold delta. destruct (delta <? 0); unfold tx_exec, tx_ret in Hx9; by simplify_eq.
Qed.

(** A run of [SetTarget] that succeeds is a replay or an admission. *)
Lemma SetTarget_ok e req d r d' : SetTarget e req d = (Ok r, d') ->
  exists p, loadPolicy (NodeGroupID req) d = Ok p /\ g_cluster_id (group p) = ClusterID req /\
  match select_one (request_key req) (capacity_requests d) with
  | Some row => previous_request req row = req /\ d' = d /\
      r = mkCapacityResult (RequestID req) (NodeGroupID req) (DesiredTarget req) (r_result_revision row)
  | None => admitted e p req d r d'
  end.
Proof.
  unfold SetTarget. case_match; [done|]. rewrite run_tx_ok. intros Hrun.
  apply tx_bind_ok in Hrun as (p & d1 & Hp & Hrun). apply tx_query_ok in Hp as [Hp ->].
  apply tx_bind_ok in Hrun as ([] & d2 & Hc & Hrun). apply tx_lift_ok in Hc as [Hc ->].
  apply require_ok in Hc. bsplit.
  apply tx_bind_ok in Hrun as (prev & d3 & Hq & Hrun). apply tx_query_ok in Hq as [Hq ->].
  exists p. split; [done|]. split; [done|]. simplify_eq. destruct (select_one _ _) as [row|].
  - inv_tx. by bsplit.
  - by apply admit_target_ok.
Qed.

(** The policy that admission works with reads the limits of the group's own pool. *)
Lemma select_pool_limits d pool id : Ledger d ->
  select_one (fun q => p_id q == id) (node_pools d) = Some pool ->
  forall q, In q (node_pools d) -> p_id q = id -> p_limits pool = p_limits q.
Proof.
  intros HL Hs q Hq E. apply select_one_some in Hs as [Hin Hid]. bsplit.
  by rewrite (unique_key_in p_id (node_pools d) pool q (L_pools _ HL) Hin Hq) by congruence.
Qed.

Lemma delta_exact v g : group_ok g -> target_ok g -> g_min_nodes g <= v <= g_max_nodes g ->
  sub64 v (g_target_nodes g) = v - g_target_nodes g.
Proof.
  unfold group_ok, target_ok, sub64. intros ? ? ?. apply wrap64_id. unfold int64, MaxInt64 in *. lia.
Qed.

Lemma revision_exact g : target_ok g -> g_target_revision g <> MaxInt64 ->
  add64 (g_target_revision g) 1 = g_target_revision g + 1.
Proof. unfold target_ok, add64. intros ? ?. apply wrap64_id. unfold int64, MaxInt64 in *. lia. Qed.

Section AfterAdmission.
Context (e : Env) (p : policy) (req : CapacityRequest) (d : DB) (r : CapacityResult) (d' : DB).
Context (HL : Ledger d) (HT : targets_ok d) (Hp : loadPolicy (NodeGroupID req) d = Ok p)
        (HA : admitted e p req d r d').

Lemma admitted_groups :
  node_groups d' = update_where (fun g => g_id g == NodeGroupID req)
    (fun x => set_g_target_revision (res_TargetRevision r) (set_g_target_nodes (DesiredTarget req) x)) (node_groups d).
Proof.
  destruct HA as [_ _ _ Hb _ Hr (pool & d1 & d2 & d3 & Hpool & Hchk & Hreg & H1 & H2 & H3 & ->)].
  apply insert_request_ok in H1 as [-> _]. apply update_group_ok in H2 as [-> _].
  apply provisionIntents_shape in H3 as ->.
  clear HA. case_match; [cancel_frame|]; done.
Qed.

(** Only the requested group changes, to exactly the requested target. *)
Lemma admitted_targets : targets_ok d'.
Proof.
  intros g Hin. rewrite admitted_groups in Hin. apply in_update_where in Hin as (g0 & H0 & ->).
  case_bool_decide as E; [|by apply HT]. destruct HA as [_ _ _ Hb Hroom Hr _].
  destruct (loadPolicy_ok _ _ _ Hp) as (Hg & Hid & _).
  assert (g0 = group p) as -> by (apply (unique_key_in g_id (node_groups d)); auto using L_groups; congruence).
  pose proof (HT _ Hg) as Ht. rewrite Hr. unfold target_ok in *. simpl. rewrite revision_exact by done.
  unfold MaxInt64 in *. lia.
Qed.

Lemma admitted_ledger : Ledger d'.
Proof.
  destruct HA as [_ _ _ Hb _ Hr (pool & d1 & d2 & d3 & Hpool & Hchk & Hreg & H1 & H2 & H3 & ->)].
  destruct (loadPolicy_ok _ _ _ Hp) as (Hg & Hid & _).
  pose proof (L_group_ok _ HL _ Hg) as Hgo. pose proof (HT _ Hg) as Hto.
  rewrite (delta_exact _ _ Hgo Hto Hb) in *.
  assert (Ledger d3) as H; [|case_match; auto using cancelPending_ledger].
  assert (same_ledger d d2) as HS.
  { apply insert_request_ok in H1 as [-> _]. etrans; [|by eapply update_group_same]. by split. }
  assert (Ledger d2) as HL2 by by rewrite <- HS.
  destruct (decide (0 < DesiredTarget req - g_target_nodes (group p))) as [Hpos|Hneg].
  2: { rewrite Z2Nat.nonpos in H3 by lia. simpl in H3. unfold tx_ret in H3. by simplify_eq. }
  (* the intents of an increase fit into the pool *)
  destruct (loadPolicy_ok _ _ _ Hp) as (_ & _ & pool0 & Hp0 & Ep0 & _).
  destruct (ident_in group_ident _ _ _ (eq_sym (sl_groups _ _ HS)) Hg) as (g2 & Hg2 & E2).
  assert (g_node_pool_id g2 = g_node_pool_id (group p)) as Epool by (unfold group_ident in E2; congruence).
  apply select_one_some in Hpool as Hpin. destruct Hpin as [Hpin Hpid]. bsplit.
  apply (provisionIntents_ledger _ _ _ _ _ _ _ g2 _ _ H3); auto.
  - intros q Hq Eq. simpl. rewrite Epool in Eq.
    destruct (ident_in pool_ident _ _ _ (sl_pools _ _ HS) Hq) as (q0 & Hq0 & Eq0).
    unfold pool_ident in Eq0. injection Eq0 as Eq1 <-.
    apply (select_pool_limits d pool (g_node_pool_id (group p))); auto; congruence.
  - rewrite Z2Nat.id by lia. apply (fits_same_ledger _ _ d); [done|]. specialize (Hchk Hpos).
    pose proof (pool_used_nonneg d (g_node_pool_id (group p)) HL) as (U1 & U2 & U3).
    pose proof (L_safe _ HL pool Hpin) as (W1 & W2 & W3). rewrite Hpid in W1, W2, W3.
    apply checkReservations_spec in Hchk; cbn [group poolLimit]; auto.
    + by apply (L_pool_ok _ HL).
    + lia.
    + unfold group_ok, target_ok in *. lia.
Qed.
End AfterAdmission.

(** ** Reading the database an admission leaves *)

Lemma select_one_update {R} (q p : R -> bool) (f : R -> R) t :
  (forall r, q (if p r then f r else r) = q r) ->
  select_one q (update_where p f t) = option_map (fun r => if p r then f r else r) (select_one q t).
Proof.
  intros H. unfold select_one, update_where. induction t as [|r t IH]; simpl; [done|].
  rewrite H. destruct (q r); [done|]. apply IH.
Qed.

(** Admission touches no topology table but the target of its group. *)
Lemma admitted_topology e p req d r d' : admitted e p req d r d' ->
  node_pools d' = node_pools d /\ zones d' = zones d /\ clusters d' = clusters d /\
  cluster_zones d' = cluster_zones d /\
  capacity_requests d' = capacity_requests d ++ [request_row e req (res_TargetRevision r)].
Proof.
  intros [_ _ _ Hb _ Hr (pool & d1 & d2 & d3 & Hpool & Hchk & Hreg & H1 & H2 & H3 & ->)].
  apply insert_request_ok in H1 as [-> _]. apply update_group_ok in H2 as [-> _].
  apply provisionIntents_shape in H3 as ->.
  case_match; [cancel_frame|]; done.
Qed.

(** The policy of a group whose target alone was changed. *)
Lemma loadPolicy_retarget id v (n : GroupRow -> Z) d d' p :
  node_groups d' = update_where (fun g => g_id g == id)
    (fun x => set_g_target_revision v (set_g_target_nodes (n x) x)) (node_groups d) ->
  node_pools d' = node_pools d -> zones d' = zones d -> clusters d' = clusters d -> cluster_zones d' = cluster_zones d ->
  loadPolicy id d = Ok p ->
  loadPolicy id d' =
    Ok (mkPolicy (set_g_target_revision v (set_g_target_nodes (n (group p)) (group p))) (poolLimit p) (enabled p)).
Proof.
  intros E5 E1 E2 E3 E4 Hp.
  unfold loadPolicy in *. rewrite E5, E1, E2, E3, E4, select_one_update
    by (intros g; destruct (g_id g == id) eqn:Eg; simpl; by rewrite Eg).
  apply rbind_ok in Hp as (g & Hg & Hp). apply of_option_ok in Hg as Hg'. rewrite Hg'.
  apply select_one_some in Hg' as [_ Hid]. cbn [option_map]. bsplit. rewrite Hid, bool_decide_true by done.
  cbn [of_option rbind]. unfold membership_of in *.
  cbn [g_node_pool_id g_zone_id g_cluster_id g_lifecycle_state set_g_target_revision set_g_target_nodes].
  repeat match goal with
  | H : rbind _ _ = Ok _ |- _ =>
      let y := fresh in let Hy := fresh in
      apply rbind_ok in H as (y & Hy & H); rewrite Hy; cbn [rbind]
  end. by simplify_eq.
Qed.

Lemma admitted_policy e p req d r d' : admitted e p req d r d' ->
  loadPolicy (NodeGroupID req) d = Ok p ->
  loadPolicy (NodeGroupID req) d' =
    Ok (mkPolicy (set_g_target_revision (res_TargetRevision r) (set_g_target_nodes (DesiredTarget req) (group p)))
          (poolLimit p) (enabled p)).
Proof.
  intros HA Hp. destruct (admitted_topology _ _ _ _ _ _ HA) as (E1 & E2 & E3 & E4 & _).
  pose proof (admitted_groups _ _ _ _ _ _ HA) as E5.
  by apply (loadPolicy_retarget _ _ (fun _ => DesiredTarget req) d).
Qed.

(** Every call, whatever it answers, keeps the ledger. *)
Lemma SetTarget_keeps e req d r d' :
  Ledger d -> targets_ok d -> SetTarget e req d = (r, d') -> Ledger d' /\ targets_ok d'.
Proof.
  intros HL HT H. destruct r as [r|err].
  - apply SetTarget_ok in H as (p & Hp & _ & H).
    destruct (select_one _ _) as [row|]; [by destruct H as (_ & -> & _)|].
    split; [by apply (admitted_ledger e p req d r)|by apply (admitted_targets e p req d r)].
  - unfold SetTarget in H. case_match; [unfold st_ret in H; by simplify_eq|].
    apply run_tx_err in H as [-> _]. done.
Qed.

(** ** Tables and hosts that admission leaves alone *)
Lemma cancelIntents_removals t ops d :
  node_removal_operations (fold_left (fun d op => cancelIntent t op d) ops d) = node_removal_operations d.
Proof. revert d. induction ops as [|o ops IH]; intros d; simpl; [done|]. by rewrite IH. Qed.

Lemma cancelPending_removals e g n d : node_removal_operations (cancelPending e g n d) = node_removal_operations d.
Proof. unfold cancelPending. case_match; apply cancelIntents_removals. Qed.

Lemma SetTarget_err e req d err d' : SetTarget e req d = (Err err, d') -> d' = d.
Proof. unfold SetTarget. case_match; [by intros [= _ <-]|]. by intros [-> _]%run_tx_err. Qed.

Lemma SetTarget_removals e req d r d' : SetTarget e req d = (r, d') ->
  node_removal_operations d' = node_removal_operations d.
Proof.
  destruct r as [r|err]; [|by intros ->%SetTarget_err]. intros H. apply SetTarget_ok in H as (p & _ & _ & H).
  destruct (select_one _ _); [by destruct H as (_ & -> & _)|].
  destruct H as [_ _ _ _ _ _ (pool & d1 & d2 & d3 & _ & _ & _ & H1 & H2 & H3 & ->)].
  apply insert_request_ok in H1 as [-> _]. apply update_group_ok in H2 as [-> _].
  apply provisionIntents_shape in H3 as ->. case_match; [by rewrite cancelPending_removals|done].
Qed.

(** An intent that a decrease cancels: pending, unleased, its host not launched. *)
Lemma cancel_intents_in g n d o : In o (cancel_intents g n d) ->
  In o (operations d) /\ cancellable g (host d) o = true.
Proof. unfold cancel_intents. intros H. by apply in_limit, in_order_by, filter_In in H. Qed.

(** A host that no cancelled intent names is not touched by cancelling. *)
Lemma cancelIntents_host t ops d h : In h (host d) -> (forall o, In o ops -> o_host_id o <> Some (h_id h)) ->
  In h (host (fold_left (fun d op => cancelIntent t op d) ops d)).
Proof.
  revert d. induction ops as [|o ops IH]; simpl; intros d Hh Hno; [done|]. apply IH; [|auto].
  simpl. apply in_update_where. exists h. split; [done|]. by rewrite bool_decide_false by (apply Hno; auto).
Qed.

Lemma markExcess_host g n d h : Ledger d -> In h (host d) ->
  exists h', In h' (host (markExcess g n d)) /\ h_id h' = h_id h /\ h_state h' = h_state h /\
             (h_node_group_id h <> Some g -> h' = h).
Proof.
  intros HL Hh. eexists. split; [simpl; apply in_update_where; exists h; split; [done|reflexivity]|].
  cbv beta. destruct (one_of (h_id h) _) eqn:E; [|done]. split_and!; try done. intros Hg. exfalso.
  apply one_of_spec, in_map_iff in E as (c & Ec & Hc). apply in_limit, in_order_by, filter_In in Hc as [Hc Hx].
  unfold excess_candidate in Hx. bsplit. apply Hg. by rewrite (unique_key_in h_id _ h c (L_hosts _ HL)).
Qed.

(** What a decrease does to one host. *)
Lemma cancelPending_host e g n d h : Ledger d -> In h (host d) ->
  (forall o, In o (cancel_intents g n d) -> o_host_id o <> Some (h_id h)) ->
  exists h', In h' (host (cancelPending e g n d)) /\ h_id h' = h_id h /\ h_state h' = h_state h /\
             (h_node_group_id h <> Some g -> h' = h).
Proof.
  intros HL Hh Hno. unfold cancelPending. pose proof (cancelIntents_host (now e 0) _ _ _ Hh Hno) as H1.
  case_match; [|by exists h]. apply markExcess_host; [by apply cancelIntents_ledger|done].
Qed.

(** Cancelled intents belong to the group. *)
Lemma cancel_intents_group g n d o h : Ledger d -> In o (cancel_intents g n d) -> In h (host d) ->
  o_host_id o = Some (h_id h) -> h_node_group_id h = Some g.
Proof.
  intros HL Ho Hh E. apply cancel_intents_in in Ho as [Ho Hc]. unfold cancellable in Hc. bsplit.
  destruct (L_intent _ HL o Ho) as (h0 & Hh0 & E0 & _ & Eg & _); [done|].
  rewrite (unique_key_in h_id _ h h0 (L_hosts _ HL)) by (done || congruence). congruence.
Qed.

(** A host that is launched, claimed or of another group keeps its state. *)
Lemma SetTarget_spares e req d r d' h :
  Ledger d -> targets_ok d -> SetTarget e req d = (r, d') -> In h (host d) ->
  (~ In (h_state h) [HostRequested; HostProvisioning] \/
   (forall o, In o (operations d) -> o_host_id o = Some (h_id h) -> o_state o <> Opending \/ o_lease_owner o <> None) \/
   h_node_group_id h <> Some (NodeGroupID req)) ->
  exists h', In h' (host d') /\ h_id h' = h_id h /\ h_state h' = h_state h /\
             (h_node_group_id h <> Some (NodeGroupID req) -> h' = h).
Proof.
  intros HL HT H Hh Hsafe. destruct r as [r|err]; [|apply SetTarget_err in H as ->; by exists h].
  pose proof H as H0. apply SetTarget_ok in H as (p & Hp & _ & H).
  destruct (select_one _ _); [destruct H as (_ & -> & _); by exists h|].
  destruct H as [_ _ _ _ _ _ (pool & d1 & d2 & d3 & _ & _ & _ & H1 & H2 & H3 & ->)].
  apply insert_request_ok in H1 as [-> _]. pose proof (update_group_same _ _ _ _ H2 (set_target_ident _ _)) as HS.
  apply update_group_ok in H2 as [-> _]. destruct (_ <? 0) eqn:Ed; bsplit.
  - rewrite Z2Nat.nonpos in H3 by lia. simpl in H3. unfold tx_ret in H3. injection H3 as <-.
    match type of HS with same_ledger _ ?x => set (d3 := x) in * end.
    assert (Ledger d3) as HL3 by (rewrite <- HS, <- (Ledger_proper d); [done|by split]).
    apply cancelPending_host; [done|done|]. intros o Ho Ehost.
    pose proof (cancel_intents_group _ _ _ _ _ HL3 Ho Hh Ehost) as Hgr.
    apply cancel_intents_in in Ho as [Ho Hc]. unfold cancellable in Hc. bsplit. destruct Hsafe as [Hs|[Hs|Hs]]; [..|done].
    + apply Hs. match goal with H : exists_row _ _ = true |- _ => apply exists_row_true in H as (h1 & Hh1 & Hx) end.
      bsplit. apply one_of_spec. rewrite (unique_key_in h_id _ h h1 (L_hosts _ HL3)) by (done || congruence). done.
    + by destruct (Hs o Ho Ehost).
  - apply provisionIntents_shape in H3 as ->. exists h. simpl. rewrite in_app_iff. auto.
Qed.

(** ** Theorems *)

(** C3. admission never over-commits a pool and never breaks the ledger.  Whatever
    the request and whatever [SetTarget] answers, the database it leaves has unique
    keys, matched hosts, operations and reservations, every pool within its vCPU,
    memory and node limits, and every target inside its group's bounds. *)
Theorem SetTarget_preserves_ledger e req d r d' :
  Ledger d -> targets_ok d -> SetTarget e req d = (r, d') -> Ledger d' /\ targets_ok d'.
Proof. apply SetTarget_keeps. Qed.

(** C4. the 64-bit arithmetic of the pool check is exact.  For every stored policy the
    two division guards exclude overflow, and the check accepts [n] more nodes if and
    only if current use plus [n] nodes fits the pool's vCPU, memory and node limits. *)
Theorem checkReservations_exact id p n d :
  Ledger d -> loadPolicy id d = Ok p -> 0 <= n <= MaxInt64 ->
  checkReservations p n d = Ok tt <-> fits p n d.
Proof.
  intros HL Hp Hn. destruct (loadPolicy_ok _ _ _ Hp) as (Hg & _ & pool & Hin & Hid & Hlim).
  pose proof (pool_used_nonneg d (g_node_pool_id (group p)) HL) as (U1 & U2 & U3).
  pose proof (L_safe _ HL pool Hin) as (W1 & W2 & W3). rewrite Hid, <- Hlim in W1, W2, W3.
  apply checkReservations_spec; auto; try lia; [by apply (L_group_ok _ HL)|].
  rewrite Hlim. by apply (L_pool_ok _ HL).
Qed.

(** an exact retry is answered from the record.  After any successful call, the same
    request returns the same result and changes nothing, whatever clocks and
    identifiers the retry would draw. *)
Theorem SetTarget_replay e e' req d r d' :
  SetTarget e req d = (Ok r, d') -> SetTarget e' req d' = (Ok r, d').
Proof.
  intros H. pose proof H as H0. apply SetTarget_ok in H as (p & Hp & Hc & H).
  unfold SetTarget in H0 |- *. destruct (_ || _); [done|]. clear H0.
  apply run_tx_ok. destruct (select_one _ _) as [row|] eqn:Es.
  - destruct H as (H1 & -> & ->). unfold tx_bind, tx_query, tx_lift. rewrite Hp. simpl.
    rewrite (bool_decide_true (g_cluster_id _ = _)) by done. simpl. rewrite Es. simpl.
    by rewrite (bool_decide_true (previous_request _ _ = _)).
  - pose proof (admitted_topology _ _ _ _ _ _ H) as (_ & _ & _ & _ & E).
    unfold tx_bind, tx_query, tx_lift. rewrite (admitted_policy _ _ _ _ _ _ H Hp). simpl.
    rewrite (bool_decide_true (g_cluster_id _ = _)) by done. simpl.
    rewrite E, (select_one_middle (request_key req)); [|done|unfold request_key; simpl; by rewrite !bool_decide_true].
    simpl. rewrite bool_decide_true; [by rewrite (ad_result _ _ _ _ _ _ H)|].
    unfold previous_request. simpl. by destruct req.
Qed.

(** compare and swap.  Once a new request has been admitted, every other new request
    for the group that expects the same revision is refused and changes nothing, so two
    controllers that read the same target cannot both change it. *)
Theorem SetTarget_cas e1 e2 req1 req2 d r d' :
  targets_ok d -> SetTarget e1 req1 d = (Ok r, d') ->
  select_one (request_key req1) (capacity_requests d) = None ->
  NodeGroupID req2 = NodeGroupID req1 ->
  select_one (request_key req2) (capacity_requests d') = None ->
  ExpectedTargetRevision req2 = ExpectedTargetRevision req1 ->
  exists err, SetTarget e2 req2 d' = (Err err, d').
Proof.
  intros HT H Hnew Hg Hnew2 Hrev. apply SetTarget_ok in H as (p & Hp & Hc & H). rewrite Hnew in H.
  destruct (SetTarget e2 req2 d') as [[r2|err] d2] eqn:E2.
  - exfalso. apply SetTarget_ok in E2 as (p2 & Hp2 & _ & E2). rewrite Hnew2 in E2.
    rewrite Hg, (admitted_policy _ _ _ _ _ _ H Hp) in Hp2. simplify_eq.
    pose proof (ad_cas _ _ _ _ _ _ E2) as C2. pose proof (ad_cas _ _ _ _ _ _ H) as C1.
    destruct (loadPolicy_ok _ _ _ Hp) as (Hin & _).
    simpl in C2. rewrite (ad_result _ _ _ _ _ _ H) in C2. simpl in C2.
    rewrite revision_exact in C2; [|by apply HT|by apply (ad_room _ _ _ _ _ _ H)]. lia.
  - exists err. unfold SetTarget in E2. case_match; [unfold st_ret in E2; by simplify_eq|].
    by apply run_tx_err in E2 as [-> _].
Qed.

(** Tenancy.  A request whose authenticated cluster does not own the group is refused
    before the replay record, the revision or the limits are looked at, and changes nothing. *)
Theorem SetTarget_tenancy e req p d :
  loadPolicy (NodeGroupID req) d = Ok p -> g_cluster_id (group p) <> ClusterID req ->
  SetTarget e req d = (Err ErrForbidden, d) \/ SetTarget e req d = (Err ErrInvalid, d).
Proof.
  intros Hp Hc. unfold SetTarget. destruct (_ || _); [by right|left].
  unfold run_tx, tx_bind at 1, tx_query at 1, tx_lift. rewrite Hp.
  unfold tx_bind at 1, tx_lift. by rewrite bool_decide_false.
Qed.

(** a scale-up creates exactly what it promises.  When a new request raises the target,
    the database gains one REQUESTED host, one pending provisioning operation and one
    reservation per added node, with the identifiers of that node, and every existing
    host, operation and reservation is exactly as before. *)
Theorem increase_exact e req d r d' p :
  Ledger d -> targets_ok d -> loadPolicy (NodeGroupID req) d = Ok p -> SetTarget e req d = (Ok r, d') ->
  select_one (request_key req) (capacity_requests d) = None -> g_target_nodes (group p) <= DesiredTarget req ->
  let n := Z.to_nat (DesiredTarget req - g_target_nodes (group p)) in
  host d' = host d ++ map (intent_host e p) (seq 0 n) /\
  map op_ident (operations d') = map op_ident (operations d) ++
    map (fun k => op_ident (intent_operation e p (uuid e 0) (res_TargetRevision r) k)) (seq 0 n) /\
  Forall (fun o => o_state o = Opending) (skipn (length (operations d)) (operations d')) /\
  infrastructure_reservations d' = infrastructure_reservations d ++ map (intent_reservation e p (uuid e 0)) (seq 0 n) /\
  res_TargetNodes r = DesiredTarget req /\ res_TargetRevision r = g_target_revision (group p) + 1.
Proof.
  intros HL HT Hp H Hnew Hle n. apply SetTarget_ok in H as (p' & Hp' & _ & H). rewrite Hp in Hp'. simplify_eq.
  rewrite Hnew in H. destruct (loadPolicy_ok _ _ _ Hp) as (Hg & _).
  pose proof (delta_exact (DesiredTarget req) _ (L_group_ok _ HL _ Hg) (HT _ Hg) (ad_bounds _ _ _ _ _ _ H)) as Hdelta.
  destruct H as [_ _ _ _ Hroom Hr (pool & d1 & d2 & d3 & _ & _ & _ & H1 & H2 & H3 & E)].
  apply insert_request_ok in H1 as [-> _]. apply update_group_ok in H2 as [-> _].
  rewrite Hdelta in *. rewrite (proj2 (Z.ltb_ge (DesiredTarget req - g_target_nodes (group p')) 0)) in E by lia. subst d3.
  apply provisionIntents_shape in H3 as ->. simpl. split_and!.
  - done.
  - rewrite map_app. f_equal. by rewrite map_map.
  - rewrite skipn_app, skipn_all, Nat.sub_diag. simpl. apply Forall_forall. intros o Ho.
    apply list_elem_of_In, in_map_iff in Ho as (k & <- & _). done.
  - done.
  - by rewrite Hr.
  - rewrite Hr. simpl. apply revision_exact; [by apply HT|done].
Qed.

(** a scale-down spares work in progress and other groups.  No call of [SetTarget] changes
    the state of a host that has launched (any state but REQUESTED and PROVISIONING) or whose
    operation is claimed or finished, and hosts of other groups are not changed at all. *)
Theorem decrease_spares_claimed e req d r d' h :
  Ledger d -> targets_ok d -> SetTarget e req d = (r, d') -> In h (host d) ->
  (~ In (h_state h) [HostRequested; HostProvisioning] \/
   (forall o, In o (operations d) -> o_host_id o = Some (h_id h) -> o_state o <> Opending \/ o_lease_owner o <> None) \/
   h_node_group_id h <> Some (NodeGroupID req)) ->
  exists h', In h' (host d') /\ h_id h' = h_id h /\ h_state h' = h_state h /\
             (h_node_group_id h <> Some (NodeGroupID req) -> h' = h).
Proof. apply SetTarget_spares. Qed.

(** ** Witnesses *)

Lemma SetTarget_preserves_ledger_witness :
  fst (SetTarget (env_at "a" 100) (demo_request "req-1" 0 2) demo_db) = Ok (mkCapacityResult "req-1" demo_gid 2 1) /\
  Ledger db_two /\ targets_ok db_two.
Proof.
  split; [vm_compute; reflexivity|].
  exact (SetTarget_preserves_ledger (env_at "a" 100) (demo_request "req-1" 0 2) demo_db _ db_two
           demo_ledger demo_targets (surjective_pairing _)).
Defined.

Definition demo_policy : policy := mkPolicy demo_group (mkResources 8 32768 4) true.

Lemma checkReservations_exact_witness :
  (checkReservations demo_policy 4 demo_db = Ok tt <-> fits demo_policy 4 demo_db) /\
  checkReservations demo_policy 4 demo_db = Ok tt /\ checkReservations demo_policy 5 demo_db = Err ErrLimit.
Proof.
  split; [|split; vm_compute; reflexivity].
  apply (checkReservations_exact demo_gid demo_policy 4 demo_db demo_ledger); [vm_compute; reflexivity|].
  unfold MaxInt64. lia.
Defined.

Lemma SetTarget_replay_witness :
  SetTarget (env_at "b" 900) (demo_request "req-1" 0 2) db_two = (Ok (mkCapacityResult "req-1" demo_gid 2 1), db_two).
Proof.
  apply (SetTarget_replay (env_at "a" 100) (env_at "b" 900) (demo_request "req-1" 0 2) demo_db).
  vm_compute. reflexivity.
Defined.

Lemma SetTarget_cas_witness :
  exists err, SetTarget (env_at "b" 900) (demo_request "req-2" 0 1) db_two = (Err err, db_two).
Proof.
  apply (SetTarget_cas (env_at "a" 100) (env_at "b" 900) (demo_request "req-1" 0 2) (demo_request "req-2" 0 1)
           demo_db (mkCapacityResult "req-1" demo_gid 2 1) db_two demo_targets); vm_compute; reflexivity.
Defined.

Lemma SetTarget_tenancy_witness :
  let req := mkCapacityRequest demo_gid "req-9" "c2" 0 2 "rev-1" in
  SetTarget (env_at "a" 100) req demo_db = (Err ErrForbidden, demo_db) \/
  SetTarget (env_at "a" 100) req demo_db = (Err ErrInvalid, demo_db).
Proof.
  apply (SetTarget_tenancy (env_at "a" 100) (mkCapacityRequest demo_gid "req-9" "c2" 0 2 "rev-1") demo_policy demo_db);
    [vm_compute; reflexivity|discriminate].
Defined.

Lemma increase_exact_witness :
  host db_two = host demo_db ++ map (intent_host (env_at "a" 100) demo_policy) (seq 0 2).
Proof.
  apply (increase_exact (env_at "a" 100) (demo_request "req-1" 0 2) demo_db (mkCapacityResult "req-1" demo_gid 2 1) db_two
           demo_policy demo_ledger demo_targets); try (vm_compute; reflexivity). vm_compute. discriminate.
Defined.

Lemma decrease_spares_claimed_witness :
  let d' := snd (SetTarget (env_at "c" 500) (demo_request "req-2" 1 0) db_two) in
  map h_state (host d') = [HostConverging; HostTerminated; HostTerminated] /\
  exists h', In h' (host d') /\ h_id h' = h_id demo_spire /\ h_state h' = h_state demo_spire /\
             (h_node_group_id demo_spire <> Some demo_gid -> h' = demo_spire).
Proof.
  intros d'. split; [vm_compute; reflexivity|].
  destruct (SetTarget_keeps _ _ _ _ _ demo_ledger demo_targets (surjective_pairing (SetTarget (env_at "a" 100) (demo_request "req-1" 0 2) demo_db)))
    as [HL HT].
  refine (decrease_spares_claimed (env_at "c" 500) (demo_request "req-2" 1 0) db_two _ _ demo_spire HL HT (surjective_pairing _)
           (or_introl eq_refl) (or_intror (or_intror _))). vm_compute. discriminate.
Defined.
