(* ===== verification/Lease.v ===== *)
(** * Operation leases and fencing: the second half of internal/capacity/store.go

    Controllers claim persisted operations, renew their lease, and write results
    only while they hold it.  Every write names the owner and the fence that the
    claim returned; a claim of an expired lease raises the fence, which shuts the
    earlier holder out. *)
From S2P Require Import Prelude GoStrings Sql Api Schema Admission.

Local Open Scope string_scope.
Local Open Scope list_scope.
Local Open Scope Z_scope.
Local Open Scope crane_scope.

(** [net.ParseIP(s) != nil && ip.IsPrivate()]. *)
Class GoNet : Type := { private_ip : string -> bool }.

(** Durations are nanoseconds, as [time.Duration]; stored times are milliseconds. *)
Definition Millisecond : Z := 1000000.
Definition Hour : Z := 3600 * 1000 * Millisecond.
Definition milliseconds (duration : Z) : Z := Z.quot duration Millisecond.

Definition valid_duration (duration : Z) : bool :=
  negb ((duration <? Millisecond) || (24 * Hour <? duration)).

(** ** Authorization joins *)

(** [zone_dominators JOIN node_groups JOIN cluster_zones]: [owner] is the registered
    Dominator of the operation's zone and the group's membership is ready and approved. *)
Definition dominator_authorized (d : DB) (owner : string) (o : OpRow) : bool :=
  exists_row (fun dm => (d_zone_id dm == o_zone_id o) && (d_identity dm == owner) &&
    exists_row (fun g => (o_group_id o == Some (g_id g)) && (g_zone_id g == o_zone_id o) &&
      exists_row (fun m => membership_of g m && membership_approved m) (cluster_zones d))
    (node_groups d)) (zone_dominators d).

Definition owner_authorized (d : DB) (o : OpRow) : bool :=
  match o_lease_owner o with Some w => dominator_authorized d w o | None => false end.

(** ** Claiming *)

(** As in the SQL, a lease without an end is expired; [claimable] asks it only of operations in
    flight, and finished ones are refused for their state. *)
Definition lease_expired (t : Z) (o : OpRow) : bool :=
  match o_lease_until o with None => true | Some u => u <=? t end.

Definition claimable (d : DB) (t : Z) (zoneID : string) (kind : OpKind) (owner : string) (authorize : bool) (o : OpRow) : bool :=
  (o_zone_id o == zoneID) && (o_kind o == kind) &&
  ((o_state o == Opending) || (one_of (o_state o) [Oleased; Olaunching] && lease_expired t o)) &&
  (negb authorize || dominator_authorized d owner o).

Definition oldest_first (a b : OpRow) : bool :=
  (o_created_at a <? o_created_at b) || ((o_created_at a == o_created_at b) && String.leb (o_id a) (o_id b)).

(** The host has passed the provider launch boundary. *)
Definition beyond_launch (d : DB) (o : OpRow) : bool :=
  exists_row (fun h => (o_host_id o == Some (h_id h)) &&
                       one_of (h_state h) [HostBooting; HostRegistering; HostConverging]) (host d).

Definition claim_row (d : DB) (t duration : Z) (owner : string) (o : OpRow) : OpRow :=
  set_o_updated_at t (set_o_fence (o_fence o + 1) (set_o_lease_until (Some (t + milliseconds duration))
    (set_o_lease_owner (Some owner)
      (set_o_state (if (o_kind o == Kprovision) && beyond_launch d o then Olaunching else Oleased) o)))).

(** The Go struct scanned from a row; NULLs become empty strings. *)
Definition operation_of_row (o : OpRow) : Operation :=
  mkOperation (o_id o) (o_kind o) (o_zone_id o) (default "" (o_group_id o)) (default "" (o_host_id o))
    (default "" (o_capacity_request_id o)) empty_target (o_target_revision o) (o_state o) (o_provider_token o)
    (o_parameters o) (default "" (o_lease_owner o)) (default 0 (o_lease_until o)) (o_fence o) (o_last_error o)
    (o_created_at o) (o_updated_at o).

Definition claim (t : Z) (zoneID : string) (kind : OpKind) (owner : string) (duration : Z) (authorize : bool) : Store Operation :=
  fun d =>
  if (zoneID == "") || (owner == "") || negb (valid_duration duration)
  then (Err (ErrMsg "invalid operation lease"), d)
  else match order_by oldest_first (select (claimable d t zoneID kind owner authorize) (operations d)) with
       | [] => (Err ErrNoRows, d)
       | o :: _ =>
           (Ok (operation_of_row (claim_row d t duration owner o)),
            set_operations (update_where (fun x => o_id x == o_id o) (claim_row d t duration owner) (operations d)) d)
       end.

Definition Claim (t : Z) (zoneID : string) (kind : OpKind) (owner : string) (duration : Z) : Store Operation :=
  if kind != Kcreate_cluster then st_ret (Err ErrForbidden)
  else claim t zoneID kind owner duration false.

Definition ClaimDominator (t : Z) (zoneID : string) (kind : OpKind) (identity : string) (duration : Z) : Store Operation :=
  if (kind != Kprovision) && (kind != Kremove_node) then st_ret (Err ErrForbidden)
  else claim t zoneID kind identity duration true.

(** ** Writes under a lease *)

Definition lease_live (t : Z) (o : OpRow) : bool :=
  match o_lease_until o with Some u => t <? u | None => false end.

(** [id=$1 AND lease_owner=$2 AND fence=$3 AND lease_until>clock_timestamp()]. *)
Definition lease_held (t : Z) (op : Operation) (o : OpRow) : bool :=
  (o_id o == op_ID op) && (o_lease_owner o == Some (op_LeaseOwner op)) && (o_fence o == op_Fence op) && lease_live t o.

Definition in_flight (o : OpRow) : bool := one_of (o_state o) [Oleased; Olaunching].

Definition Renew (t : Z) (op : Operation) (duration : Z) : Store unit :=
  if negb (valid_duration duration) then st_ret (Err (ErrMsg "invalid operation lease"))
  else fun d => fenced_update_operations
    (fun o => lease_held t op o && in_flight o &&
              (one_of (o_kind o) [Kcreate_cluster; Kattach_zone] || owner_authorized d o))
    (fun o => set_o_updated_at t (set_o_lease_until (Some (t + milliseconds duration)) o)) d.

Definition BeginLaunch (t : Z) (op : Operation) : Store unit :=
  fun d => fenced_update_operations
    (fun o => lease_held t op o && in_flight o && owner_authorized d o)
    (fun o => set_o_updated_at t (set_o_state Olaunching o)) d.

(** ** Launch results *)

(** [net.JoinHostPort]. *)
Definition JoinHostPort (h port : string) : string :=
  if Contains h ":" then String.append "[" (String.append h (String.append "]:" port))
  else String.append h (String.append ":" port).

Definition launch_endpoint `{GoNet} (privateIP : string) : result string :=
  if privateIP == "" then Ok ""
  else if private_ip privateIP then Ok (String.append "https://" (JoinHostPort privateIP "44001"))
  else Err ErrInvalid.

(** A nullable or empty provider ID, or the same one again. *)
Definition same_or_unset (cur : option string) (v : string) : bool :=
  match cur with None => true | Some c => (c == "") || (c == v) end.

Definition launch_host_row (t : Z) (d : DB) (providerID endpoint nodeProviderID : string) (h : HostRow) : HostRow :=
  let prov := match select_one (fun z => h_crane_zone h == Some (z_id z)) (zones d) with
              | Some z => Some (z_provider z) | None => h_provider h end in
  set_h_updatedat (Some t)
  (set_h_state (if one_of (h_state h) [HostProvisioning; HostBooting] then HostBooting else h_state h)
  (set_h_provider prov
  (set_h_subd_endpoint (if endpoint == "" then h_subd_endpoint h else endpoint)
  (set_h_endpoint (if endpoint == "" then h_endpoint h else Some endpoint)
  (set_h_kubernetes_provider_id (if nodeProviderID == "" then h_kubernetes_provider_id h else nodeProviderID)
  (set_h_providerid (if same_or_unset (h_providerid h) providerID then Some providerID else h_providerid h) h)))))).

Definition launch_host_match (d : DB) (hostID providerID nodeProviderID : string) (h : HostRow) : bool :=
  (h_id h == hostID) && exists_row (fun z => h_crane_zone h == Some (z_id z)) (zones d) &&
  same_or_unset (h_providerid h) providerID &&
  ((h_kubernetes_provider_id h == "") || (nodeProviderID == "") || (h_kubernetes_provider_id h == nodeProviderID)).

(** The transaction, once the arguments are checked. *)
Definition record_launch `{GoNet} (t : Z) (op : Operation) (providerID privateIP nodeProviderID : string) : Tx unit :=
  tx! n := (fun d =>
    let p := fun o => lease_held t op o && (o_kind o == Kprovision) && (o_host_id o == Some (op_HostID op)) &&
                      (o_state o == Olaunching) in
    Ok (rows_affected p (operations d),
        set_operations (update_where p (set_o_updated_at t) (operations d)) d)) in
  tx! _ := tx_lift (fencedResult n) in
  tx! endpoint := tx_lift (launch_endpoint privateIP) in
  tx! n := (fun d =>
    let p := launch_host_match d (op_HostID op) providerID nodeProviderID in
    Ok (rows_affected p (host d),
        set_host (update_where p (launch_host_row t d providerID endpoint nodeProviderID) (host d)) d)) in
  tx! _ := tx_lift (affectedExactlyOne n) in
  tx_exec (fun d => set_infrastructure_reservations
    (update_where (fun r => (i_host_id r == op_HostID op) && (i_state r == Rreserved)) (set_i_state Rcommitted)
       (infrastructure_reservations d)) d).

Definition RecordLaunchWithAddress `{GoNet} (t : Z) (op : Operation) (providerID privateIP : string)
    (nodeProviderIDs : list string) : Store unit :=
  if (op_Kind op != Kprovision) || (providerID == "") then st_ret (Err (ErrMsg "invalid provider result"))
  else match nodeProviderIDs with
  | [] => run_tx (record_launch t op providerID privateIP "")
  | [nodeProviderID] => run_tx (record_launch t op providerID privateIP nodeProviderID)
  | _ => st_ret (Err ErrInvalid)
  end.

Definition RecordLaunch `{GoNet} (t : Z) (op : Operation) (providerID : string) : Store unit :=
  RecordLaunchWithAddress t op providerID "" [].

(** ** The launch template and the trusted target *)

(** [json.Unmarshal(op.Parameters, &template)]: other documents leave the fields empty. *)
Definition template_of (p : Parameters) : ProvisioningTemplate :=
  match p with
  | PTemplate t => t
  | PRemoval _ | PJson _ => mkProvisioningTemplate None empty_scheduling "" ""
  end.

Definition oldest_host (a b : HostRow) : bool :=
  match h_createdat a, h_createdat b with
  | Some x, Some y => x <=? y
  | Some _, None => true
  | None, None => true
  | None, Some _ => false
  end.

(** The provider ID of the zone's protected SPIRE host, or the empty string. *)
Definition spire_instance (d : DB) (z : ZoneRow) : string :=
  match order_by oldest_host (select (fun h => h_protected h && (h_crane_zone h == None) &&
          (h_zone h == Some (z_id z)) && (h_role h == Some "spire")) (host d)) with
  | [] => ""
  | h :: _ => default "" (h_providerid h)
  end.

Definition LoadProvisioningTarget (op : Operation) (d : DB) : result Operation :=
  guard negb ((op_Kind op != Kprovision) || (op_HostID op == "") || (op_NodeGroupID op == "")) else ErrInvalid in
  let t := template_of (op_Parameters op) in
  guard negb (negb (json_valid (pt_LaunchParameters t)) || (pt_TemplateRevision t == "") || (pt_CapacityClass t == ""))
    else ErrInvalid in
  let* g := of_option ErrInactive
    (select_one (fun g => (g_id g == op_NodeGroupID op) && (g_zone_id g == op_ZoneID op)) (node_groups d)) in
  let* z := of_option ErrInactive (select_one (fun z => z_id z == g_zone_id g) (zones d)) in
  let* c := of_option ErrInactive (select_one (fun c => c_id c == g_cluster_id g) (clusters d)) in
  let* m := of_option ErrInactive (select_one (membership_of g) (cluster_zones d)) in
  guard (c_lifecycle_state c == "ready") && (z_lifecycle_state z == "ready") && z_enabled z && membership_approved m
    else ErrInactive in
  guard spire_instance d z != "" else ErrMsg "zone SPIRE host is unavailable" in
  guard negb ((sZone (pt_Scheduling t) != "") &&
              ((sRegion (pt_Scheduling t) != z_kubernetes_region z) || (sZone (pt_Scheduling t) != z_kubernetes_zone z)))
    else ErrInvalid in
  Ok (mkOperation (op_ID op) (op_Kind op) (op_ZoneID op) (op_NodeGroupID op) (op_HostID op) (op_CapacityRequestID op)
    (mkTarget (g_cluster_id g) (g_node_pool_id g) (c_api_server_endpoint c) (c_ca_cert_hash c) (z_provider z)
       (z_account_id z) (z_region z) (z_provider_zone_id z) (z_kubernetes_region z) (z_kubernetes_zone z)
       (pt_CapacityClass t) (pt_TemplateRevision t) (pt_LaunchParameters t) (pt_Scheduling t) (spire_instance d z))
    (op_TargetRevision op) (op_State op) (op_ProviderToken op) (op_Parameters op) (op_LeaseOwner op)
    (op_LeaseUntil op) (op_Fence op) (op_LastError op) (op_CreatedAt op) (op_UpdatedAt op)).

(** ** Lifecycle hand-offs *)

(** The operation row that authorizes a host write: same lease, launching, naming this host. *)
Definition launching_for (t : Z) (op : Operation) (d : DB) (h : HostRow) : bool :=
  exists_row (fun o => lease_held t op o && (o_kind o == Kprovision) && (o_state o == Olaunching) &&
                       (o_host_id o == Some (h_id h))) (operations d).

Definition SetProvisionDesiredVersion (t : Z) (op : Operation) (version : string) : Store unit :=
  if (op_Kind op != Kprovision) || (version == "") || (128 <? Z.of_nat (String.length version))
  then st_ret (Err ErrInvalid)
  else fun d => fenced_update_host
    (fun h => launching_for t op d h && (h_state h == HostRegistering))
    (fun h => set_h_updatedat (Some t) (set_h_desired_state_version version h)) d.

Definition allowed (s : HostState) : option HostState :=
  match s with
  | HostRequested => Some HostProvisioning
  | HostBooting => Some HostRegistering
  | HostRegistering => Some HostConverging
  | _ => None
  end.

Definition SetProvisionState (t : Z) (op : Operation) (expected next : HostState) : Store unit :=
  if (op_Kind op != Kprovision) || (allowed expected != Some next) then st_ret (Err ErrInvalid)
  else fun d => fenced_update_host
    (fun h => launching_for t op d h && (h_state h == expected))
    (fun h => set_h_updatedat (Some t) (set_h_state next h)) d.

Definition clear_lease (t : Z) (s : OpState) (o : OpRow) : OpRow :=
  set_o_updated_at t (set_o_lease_until None (set_o_lease_owner None (set_o_state s o))).

(** [h.providerid IS NOT NULL AND h.providerid<>'']. *)
Definition has_provider_id (h : HostRow) : bool :=
  match h_providerid h with Some p => p != "" | None => false end.

Definition CompleteProvision (t : Z) (op : Operation) : Store unit :=
  fun d => fenced_update_operations
    (fun o => lease_held t op o && (o_kind o == Kprovision) && (o_host_id o == Some (op_HostID op)) &&
              (o_state o == Olaunching) &&
              exists_row (fun h => (o_host_id o == Some (h_id h)) && (h_state h == HostReady) && has_provider_id h &&
                exists_row (fun b => (b_host_id b == h_id h) && (b_operation_id b == o_id o) && b_release_started b)
                  (worker_provisioning_state d)) (host d))
    (clear_lease t Osucceeded) d.

Definition RecordProvisionFailure (t : Z) (op : Operation) (category : string) : Store unit :=
  if (category == "") || (80 <? Z.of_nat (String.length category)) then st_ret (Err ErrInvalid)
  else fun d => fenced_update_operations
    (fun o => lease_held t op o && (o_kind o == Kprovision) && in_flight o)
    (fun o => set_o_updated_at t (set_o_last_error category o)) d.

Definition ReleaseProvisionLease (t : Z) (op : Operation) : Store unit :=
  fun d => fenced_update_operations
    (fun o => lease_held t op o && (o_kind o == Kprovision) && in_flight o)
    (fun o => clear_lease t (if beyond_launch d o then Olaunching else Opending) o) d.

(** [CheckProvisionLease] of provision_lease.go. *)
Definition CheckProvisionLease (t : Z) (op : Operation) (d : DB) : result unit :=
  require (exists_row (fun o => lease_held t op o && (o_host_id o == Some (op_HostID op)) &&
      (o_kind o == Kprovision) && (o_state o == Olaunching) &&
      exists_row (fun g => (o_group_id o == Some (g_id g)) && (g_cluster_id g == t_ClusterID (op_Target op)) &&
        exists_row (fun m => membership_of g m && membership_approved m) (cluster_zones d)) (node_groups d))
    (operations d)) ErrFenced.
