(* ===== verification/Handoff.v ===== *)
(** * The worker hand-off: internal/capacity/provision_handoff.go

    Between registration and readiness a worker is bound to the Kubernetes node
    that joined as it, its expected state is pinned, the intent to release the
    quarantine is committed, and READY is written together with the success of
    the operation after the release ran inside the lease. *)
From S2P Require Import Prelude GoStrings Sql Api Schema Admission Lease.

Local Open Scope string_scope.
Local Open Scope list_scope.
Local Open Scope Z_scope.
Local Open Scope crane_scope.

(** The first sixteen bytes of SHA-256, in hexadecimal. *)
Class Digest : Type := { sha256_16 : string -> string }.

(** [api.WorkerNodeName]. *)
Definition WorkerNodeName `{Digest} (hostID : string) : string := String.append "crane-" (sha256_16 hostID).

Record ProvisionBinding : Type := mkProvisionBinding {
  pb_NodeName : string; pb_NodeUID : string; pb_ProviderID : string; pb_ContractHash : string;
  pb_ReleaseStarted : bool; pb_ExpectedState : option ExpectedHostState }.

(** The group of an operation is a member of its cluster, ready and approved. *)
Definition group_approved (d : DB) (o : OpRow) : bool :=
  exists_row (fun g => (o_group_id o == Some (g_id g)) &&
    exists_row (fun m => membership_of g m && membership_approved m) (cluster_zones d)) (node_groups d).

Definition bind_source (t : Z) (op : Operation) (d : DB) : bool :=
  exists_row (fun o => lease_held t op o && (o_host_id o == Some (op_HostID op)) && (o_kind o == Kprovision) &&
      (o_state o == Olaunching) && group_approved d o &&
      exists_row (fun h => (o_host_id o == Some (h_id h)) && (h_state h == HostRegistering)) (host d))
    (operations d).

Definition binding_row (op : Operation) (b : ProvisionBinding) : BindingRow :=
  mkBinding (op_HostID op) (op_ID op) (pb_NodeName b) (pb_NodeUID b) (pb_ProviderID b) (pb_ContractHash b) None false.

Definition same_binding (x y : BindingRow) : bool :=
  (b_operation_id x == b_operation_id y) && (b_node_name x == b_node_name y) && (b_node_uid x == b_node_uid y) &&
  (b_provider_id x == b_provider_id y) && (b_contract_hash x == b_contract_hash y).

(** [INSERT ... SELECT ... ON CONFLICT(host_id) DO UPDATE ... WHERE same]: one row is
    affected when the binding is new or identical, none when it differs. *)
Definition BindProvisionNode `{Digest} (t : Z) (op : Operation) (b : ProvisionBinding) : Store unit :=
  fun d =>
  if (pb_NodeName b != WorkerNodeName (op_HostID op)) || (pb_NodeUID b == "") || (pb_ProviderID b == "") ||
     (Z.of_nat (String.length (pb_ContractHash b)) != 64)
  then (Err ErrInvalid, d)
  else if negb (bind_source t op d) then (Err ErrFenced, d)
  else let row := binding_row op b in
       match select_one (fun x => b_host_id x == op_HostID op) (worker_provisioning_state d) with
       | Some x => if same_binding x row then (Ok tt, d) else (Err ErrFenced, d)
       | None =>
           match insert_row (fun x => (b_operation_id x == b_operation_id row) || (b_node_uid x == b_node_uid row))
                   row (worker_provisioning_state d) with
           | Ok w => (Ok tt, set_worker_provisioning_state w d)
           | Err e => (Err e, d)
           end
       end.

Definition is_binding (op : Operation) (b : BindingRow) : bool :=
  (b_host_id b == op_HostID op) && (b_operation_id b == op_ID op).

Definition ProvisionBinding_read (op : Operation) (d : DB) : result ProvisionBinding :=
  let* b := of_option ErrNoRows (select_one (is_binding op) (worker_provisioning_state d)) in
  Ok (mkProvisionBinding (b_node_name b) (b_node_uid b) (b_provider_id b) (b_contract_hash b)
        (b_release_started b) (b_expected_state b)).

(** ** Pinning *)

Definition pin_row (x : ExpectedHostState) (b : BindingRow) : BindingRow :=
  match b_expected_state b with None => set_b_expected_state (Some x) b | Some _ => b end.

(** [UPDATE worker_provisioning_state ... RETURNING expected_state]. *)
Definition pin_update (op : Operation) (x : ExpectedHostState) : Tx ExpectedHostState :=
  fun d =>
  let w := update_where (is_binding op) (pin_row x) (worker_provisioning_state d) in
  match select_one (is_binding op) w with
  | Some b => match b_expected_state b with
              | Some pinned => Ok (pinned, set_worker_provisioning_state w d)
              | None => Err ErrInvalid
              end
  | None => Err ErrNoRows
  end.

Definition PinProvisionExpectedState (t : Z) (op : Operation) (x : ExpectedHostState) : Store ExpectedHostState :=
  if (ex_Revision x != 1) || (ex_Version x == "") || (128 <? Z.of_nat (String.length (ex_Version x))) ||
     (ex_Secret x != None)
  then st_ret (Err ErrInvalid)
  else run_tx (
    tx! _ := tx_query (fun d => require (exists_row (fun o => lease_held t op o && (o_host_id o == Some (op_HostID op)) &&
        (o_state o == Olaunching) &&
        exists_row (fun h => (o_host_id o == Some (h_id h)) && (h_state h == HostRegistering)) (host d)) (operations d))
      ErrFenced) in
    tx! pinned := pin_update op x in
    txguard negb ((ex_Revision pinned != 1) || (ex_Version pinned == "") || (ex_Secret pinned != None)) else ErrInvalid in
    tx! _ := tx_exec (fun d => set_host (update_where (fun h => h_id h == op_HostID op)
               (set_h_desired_state_version (ex_Version pinned)) (host d)) d) in
    tx_ret pinned).

(** ** Release *)

Definition pinned_version (b : BindingRow) (version : string) : bool :=
  match b_expected_state b with
  | Some x => (ex_Version x == version) && (ex_Revision x == 1)
  | None => false
  end.

Definition PrepareProvisionRelease (t : Z) (op : Operation) (desiredVersion : string) : Store unit :=
  fun d =>
  let p := fun b => exists_row (fun o => lease_held t op o && (o_state o == Olaunching) && group_approved d o &&
      (b_operation_id b == o_id o) &&
      exists_row (fun h => (o_host_id o == Some (h_id h)) && (b_host_id b == h_id h) && (h_state h == HostConverging) &&
                           (h_desired_state_version h == desiredVersion)) (host d)) (operations d) &&
      (desiredVersion != "") && pinned_version b desiredVersion in
  (fencedResult (rows_affected p (worker_provisioning_state d)),
   set_worker_provisioning_state (update_where p (set_b_release_started true) (worker_provisioning_state d)) d).

(** Zone and cluster of the operation's group accept work, and its membership is approved. *)
Definition placement_ready (d : DB) (o : OpRow) : bool :=
  exists_row (fun g => (o_group_id o == Some (g_id g)) &&
    exists_row (fun m => membership_of g m && membership_approved m) (cluster_zones d) &&
    exists_row (fun z => (z_id z == g_zone_id g) && z_enabled z && (z_lifecycle_state z == "ready")) (zones d) &&
    exists_row (fun c => (c_id c == g_cluster_id g) && (c_lifecycle_state c == "ready")) (clusters d)) (node_groups d).

Definition finalizable (t : Z) (op : Operation) (desiredVersion : string) (d : DB) (o : OpRow) : bool :=
  (o_id o == op_ID op) && (o_lease_owner o == Some (op_LeaseOwner op)) && (o_fence o == op_Fence op) &&
  (o_host_id o == Some (op_HostID op)) && (o_kind o == Kprovision) && (o_state o == Olaunching) &&
  match o_lease_until o with Some u => t + 1000 <? u | None => false end &&
  placement_ready d o &&
  exists_row (fun h => (o_host_id o == Some (h_id h)) && (h_state h == HostConverging) &&
      (h_desired_state_version h == desiredVersion) &&
      exists_row (fun b => (b_host_id b == h_id h) && (b_operation_id b == o_id o) && b_release_started b &&
                           pinned_version b desiredVersion) (worker_provisioning_state d)) (host d).

(** The deadline of the release step: twenty seconds, or one second before the lease ends. *)
Definition release_deadline (client_now until : Z) : Z :=
  if until - 1000 <? client_now + 20000 then until - 1000 else client_now + 20000.

(** The release callback runs while the rows are locked: [outcome] is what it returned
    and [client_end] the client's clock when it did. *)
Definition FinalizeProvision (t1 t2 client_now client_end : Z) (op : Operation) (desiredVersion : string)
    (release : option (result unit)) : Store unit :=
  match release with
  | None => st_ret (Err ErrInvalid)
  | Some outcome =>
    run_tx (
      tx! o := tx_query (fun d => of_option ErrFenced (select_one (finalizable t1 op desiredVersion d) (operations d))) in
      tx! _ := tx_lift outcome in
      txguard negb (release_deadline client_now (default 0 (o_lease_until o)) <=? client_end)
        else ErrMsg "context deadline exceeded" in
      tx! n := (fun d =>
        let p := fun h => (h_state h == HostConverging) &&
          exists_row (fun o => (o_id o == op_ID op) && (o_host_id o == Some (h_id h)) && lease_live t2 o &&
                               (o_fence o == op_Fence op)) (operations d) in
        Ok (rows_affected p (host d),
            set_host (update_where p (fun h => set_h_updatedat (Some t2)
              (set_h_observed_state_version (h_desired_state_version h) (set_h_state HostReady h))) (host d)) d)) in
      tx! _ := tx_lift (fencedResult n) in
      tx! n := (fun d =>
        let p := fun o => (o_id o == op_ID op) && (o_fence o == op_Fence op) in
        Ok (rows_affected p (operations d),
            set_operations (update_where p (clear_lease t2 Osucceeded) (operations d)) d)) in
      tx_lift (fencedResult n))
  end.

(** The operation carried by the release context authorizes exactly that lease. *)
Definition ProvisionReleaseAuthorized (held : option Operation) (op : Operation) : bool :=
  match held with
  | Some x => (op_ID x == op_ID op) && (op_Fence x == op_Fence op) && (op_LeaseOwner x == op_LeaseOwner op)
  | None => false
  end.
