(* ===== verification/LeaseFacts.v ===== *)
(** * What leases and fences guarantee

    The writes that a controller makes under a lease are collected in
    [lease_write]; the theorems hold for each of them.  Without a live lease a
    write is refused and changes nothing; with one it touches only its own
    operation, host, binding and reservation, and never the capacity ledger.  That no
    write of either controller passes without a lease is stated in
    [BootstrapFacts], that only finalizing makes a worker READY in [System]. *)
From S2P Require Import Prelude GoStrings Sql Api Schema Admission Invariant Fixture AdmissionFacts Lease Handoff.

Local Open Scope string_scope.
Local Open Scope list_scope.
Local Open Scope Z_scope.
Local Open Scope crane_scope.

(** ** The writes of a lease holder *)
Inductive lease_write : Type :=
| WRenew (duration : Z)
| WBeginLaunch
| WRecordLaunch (providerID privateIP : string) (nodeProviderIDs : list string)
| WDesiredVersion (version : string)
| WState (expected next : HostState)
| WComplete
| WFailure (category : string)
| WRelease
| WBind (b : ProvisionBinding)
| WPin (x : ExpectedHostState)
| WPrepare (version : string)
| WFinalize (t2 client_now client_end : Z) (version : string) (release : option (result unit)).

(** Forget the value a store action returns. *)
Definition ignore {A} (m : Store A) : Store unit :=
  fun d => match m d with (Ok _, d') => (Ok tt, d') | (Err e, d') => (Err e, d') end.

Section Writes.
Context {gonet : GoNet} {digest : Digest}.

Definition write (t : Z) (op : Operation) (w : lease_write) : Store unit :=
  match w with
  | WRenew duration => Renew t op duration
  | WBeginLaunch => BeginLaunch t op
  | WRecordLaunch pid ip nids => RecordLaunchWithAddress t op pid ip nids
  | WDesiredVersion v => SetProvisionDesiredVersion t op v
  | WState a b => SetProvisionState t op a b
  | WComplete => CompleteProvision t op
  | WFailure c => RecordProvisionFailure t op c
  | WRelease => ReleaseProvisionLease t op
  | WBind b => BindProvisionNode t op b
  | WPin x => ignore (PinProvisionExpectedState t op x)
  | WPrepare v => PrepareProvisionRelease t op v
  | WFinalize t2 cn ce v r => FinalizeProvision t t2 cn ce op v r
  end.

(** The operation row still carries the holder's owner and fence and has not expired. *)
Definition holds_lease (t : Z) (op : Operation) (d : DB) : bool :=
  exists_row (lease_held t op) (operations d).

(** ** Refusal *)

Lemma set_operations_id d : set_operations (operations d) d = d.
Proof. by destruct d. Qed.
Lemma set_host_id d : set_host (host d) d = d.
Proof. by destruct d. Qed.
Lemma set_bindings_id d : set_worker_provisioning_state (worker_provisioning_state d) d = d.
Proof. by destruct d. Qed.

Lemma none_refused {R} (p : R -> bool) t :
  (forall r, In r t -> p r = false) -> fencedResult (rows_affected p t) = Err ErrFenced.
Proof. intros H. by rewrite (proj2 (rows_affected_zero p t) H). Qed.

Lemma refuse_operations p f d : (forall o, In o (operations d) -> p o = false) ->
  fenced_update_operations p f d = (Err ErrFenced, d).
Proof.
  intros H. unfold fenced_update_operations.
  by rewrite none_refused, update_where_none, set_operations_id.
Qed.

Lemma refuse_host p f d : (forall h, In h (host d) -> p h = false) ->
  fenced_update_host p f d = (Err ErrFenced, d).
Proof. intros H. unfold fenced_update_host. by rewrite none_refused, update_where_none, set_host_id. Qed.

(** A guard that begins with the lease is false without it. *)
Lemma guard_false (a b : bool) : a = false -> (a && b) = false.
Proof. by intros ->. Qed.

Section NoLease.
Context (t : Z) (op : Operation) (d : DB) (Hno : holds_lease t op d = false).

Lemma no_lease o : In o (operations d) -> lease_held t op o = false.
Proof. by apply exists_row_false. Qed.

Lemma no_lease_launching h : launching_for t op d h = false.
Proof.
  apply exists_row_false. intros o Ho. by rewrite (no_lease o Ho).
Qed.

Lemma refused_update p f : (forall o, lease_held t op o = false -> p o = false) ->
  fenced_update_operations p f d = (Err ErrFenced, d).
Proof. intros Hp. apply refuse_operations. intros o Ho. by apply Hp, no_lease. Qed.

Lemma refused_record_launch pid ip nids :
  exists e, RecordLaunchWithAddress t op pid ip nids d = (Err e, d).
Proof.
  unfold RecordLaunchWithAddress. case_match; [by eexists|].
  assert (forall nid, run_tx (record_launch t op pid ip nid) d = (Err ErrFenced, d)) as H1;
    [|repeat case_match; eauto].
  intros nid. unfold run_tx, record_launch, tx_bind at 1. unfold tx_bind at 1, tx_lift at 1.
  rewrite none_refused; [done|]. intros o Ho. by rewrite (no_lease o Ho).
Qed.

Lemma refused_bind b : exists e, BindProvisionNode t op b d = (Err e, d).
Proof.
  unfold BindProvisionNode. case_match; [by eexists|].
  assert (bind_source t op d = false) as ->; [|by eexists].
  apply exists_row_false. intros o Ho. by rewrite (no_lease o Ho).
Qed.

Lemma refused_pin x : exists e, ignore (PinProvisionExpectedState t op x) d = (Err e, d).
Proof.
  unfold ignore, PinProvisionExpectedState.
  match goal with |- context [if ?b then st_ret _ else _] => destruct b end; [by eexists|]. exists ErrFenced.
  unfold run_tx, tx_bind at 1, tx_query at 1, tx_lift at 1.
  assert (exists_row (fun o => lease_held t op o && (o_host_id o == Some (op_HostID op)) && (o_state o == Olaunching) &&
     exists_row (fun h => (o_host_id o == Some (h_id h)) && (h_state h == HostRegistering)) (host d)) (operations d) = false)
    as ->; [|done].
  apply exists_row_false. intros o Ho. by rewrite (no_lease o Ho).
Qed.

Lemma refused_prepare v : PrepareProvisionRelease t op v d = (Err ErrFenced, d).
Proof.
  unfold PrepareProvisionRelease.
  assert (forall b : BindingRow, exists_row (fun o => lease_held t op o && (o_state o == Olaunching) && group_approved d o &&
      (b_operation_id b == o_id o) &&
      exists_row (fun h => (o_host_id o == Some (h_id h)) && (b_host_id b == h_id h) && (h_state h == HostConverging) &&
                           (h_desired_state_version h == v)) (host d)) (operations d) = false) as Hb.
  { intros b. apply exists_row_false. intros o Ho. by rewrite (no_lease o Ho). }
  rewrite none_refused, update_where_none, set_bindings_id; [done|..]; intros b _; by rewrite Hb.
Qed.

(** The margin of one second that finalizing asks for implies a live lease. *)
Lemma finalizable_held v o : finalizable t op v d o = true -> lease_held t op o = true.
Proof.
  unfold finalizable, lease_held, lease_live. intros Hf.
  repeat (apply andb_prop in Hf as [Hf ?]). bsplit.
  rewrite !andb_true_iff. split_and!; try (apply bool_decide_eq_true; congruence).
  destruct (o_lease_until o); [|done]. bsplit. apply Z.ltb_lt. lia.
Qed.

Lemma refused_finalize t2 cn ce v r : exists e, FinalizeProvision t t2 cn ce op v r d = (Err e, d).
Proof.
  unfold FinalizeProvision. destruct r as [outcome|]; [|by eexists]. exists ErrFenced.
  unfold run_tx, tx_bind at 1, tx_query at 1, tx_lift at 1.
  assert (select_one (finalizable t op v d) (operations d) = None) as ->; [|done].
  apply select_one_none. intros o Ho. destruct (finalizable t op v d o) eqn:E; [|done].
  apply finalizable_held in E. by rewrite (no_lease o Ho) in E.
Qed.

Lemma write_refused w : exists e, write t op w d = (Err e, d).
Proof.
  destruct w; simpl; auto using refused_record_launch, refused_bind, refused_pin, refused_finalize.
  - unfold Renew. case_match; [by eexists|]. eexists. apply refused_update. by intros o ->.
  - eexists. apply refused_update. by intros o ->.
  - unfold SetProvisionDesiredVersion. case_match; [by eexists|]. eexists. apply refuse_host.
    intros h _. by rewrite no_lease_launching.
  - unfold SetProvisionState. case_match; [by eexists|]. eexists. apply refuse_host.
    intros h _. by rewrite no_lease_launching.
  - eexists. apply refused_update. by intros o ->.
  - unfold RecordProvisionFailure. case_match; [by eexists|]. eexists. apply refused_update. by intros o ->.
  - eexists. apply refused_update. by intros o ->.
  - eexists. apply refused_prepare.
Qed.
End NoLease.

(** ** Frames

    What a write may do to each table, row by row. *)

(** The lifecycle moves of a provisioning host; the last one belongs to finalizing. *)
Definition lifecycle (ready : bool) (s s' : HostState) : Prop :=
  In (s, s') [(HostRequested, HostProvisioning); (HostProvisioning, HostBooting);
              (HostBooting, HostRegistering); (HostRegistering, HostConverging)] \/
  (ready = true /\ s = HostConverging /\ s' = HostReady).

Definition advances (ready : bool) : HostState -> HostState -> Prop := rtc (lifecycle ready).

Definition op_frame (op : Operation) (o o' : OpRow) : Prop :=
  o' = o \/ (o_id o = op_ID op /\ o_fence o = op_Fence op /\ op_ident o' = op_ident o /\
            o_fence o' = o_fence o /\ o_created_at o' = o_created_at o).

(** The operation names the host. *)
Definition owns (op : Operation) (d : DB) (h : HostRow) : Prop :=
  exists o, In o (operations d) /\ o_id o = op_ID op /\ o_fence o = op_Fence op /\ o_host_id o = Some (h_id h).

Definition host_frame (ready : bool) (op : Operation) (d : DB) (h h' : HostRow) : Prop :=
  h' = h \/ (owns op d h /\ host_ident h' = host_ident h /\
            advances ready (h_state h) (h_state h') /\
            (forall p, h_providerid h = Some p -> p <> "" -> h_providerid h' = Some p)).

Definition res_frame (op : Operation) (d : DB) (r r' : ReservationRow) : Prop :=
  r' = r \/ (i_state r = Rreserved /\ r' = set_i_state Rcommitted r /\
            exists o, In o (operations d) /\ o_id o = op_ID op /\ o_fence o = op_Fence op /\
                      o_host_id o = Some (i_host_id r)).

(** Rows that are theirs are in both versions of a table or in neither. *)
Definition untouched {R} (theirs : R -> Prop) (t t' : list R) : Prop := forall r, theirs r -> (In r t' <-> In r t).

Definition foreign_binding (op : Operation) (b : BindingRow) : Prop := b_operation_id b <> op_ID op.

(** The tables no lease holder writes. *)
Definition elsewhere (d : DB) :=
  (topology d, topology_regions d, zone_dominators d, zone_bootstrap_operations d, node_removal_operations d).

Record framed (ready : bool) (op : Operation) (d d' : DB) : Prop := mkFramed {
  fr_ops : Forall2 (op_frame op) (operations d) (operations d');
  fr_hosts : Forall2 (host_frame ready op d) (host d) (host d');
  fr_res : Forall2 (res_frame op d) (infrastructure_reservations d) (infrastructure_reservations d');
  fr_bindings : untouched (foreign_binding op) (worker_provisioning_state d) (worker_provisioning_state d');
  fr_elsewhere : elsewhere d' = elsewhere d }.

Lemma Forall2_same {A} (R : A -> A -> Prop) l : (forall x, R x x) -> Forall2 R l l.
Proof. intros H. induction l; auto. Qed.

Lemma Forall2_update {A} (R : A -> A -> Prop) (p : A -> bool) f l :
  (forall x, R x x) -> (forall x, In x l -> p x = true -> R x (f x)) -> Forall2 R l (update_where p f l).
Proof.
  intros Hr H. unfold update_where. induction l as [|x l IH]; simpl; constructor.
  - destruct (p x) eqn:E; auto. apply H; simpl; auto.
  - apply IH. intros y Hy. apply H. simpl. auto.
Qed.

Lemma op_frame_refl op o : op_frame op o o.
Proof. by left. Qed.
Lemma host_frame_refl b op d h : host_frame b op d h h.
Proof. by left. Qed.
Lemma res_frame_refl op d r : res_frame op d r r.
Proof. by left. Qed.
Lemma untouched_refl {R} (theirs : R -> Prop) t : untouched theirs t t.
Proof. done. Qed.
Lemma untouched_trans {R} (theirs : R -> Prop) t1 t2 t3 : untouched theirs t1 t2 -> untouched theirs t2 t3 -> untouched theirs t1 t3.
Proof. intros H1 H2 r Hr. by rewrite (H2 r Hr), (H1 r Hr). Qed.

(** An update of rows that are not theirs, which stay not theirs. *)
Lemma untouched_update {R} (theirs : R -> Prop) p f t :
  (forall r, In r t -> p r = true -> ~ theirs r /\ ~ theirs (f r)) -> untouched theirs t (update_where p f t).
Proof.
  intros H r Hr. rewrite in_update_where. split.
  - intros (x & Hx & ->). destruct (p x) eqn:E; [|done]. by destruct (H x Hx E) as [_ []].
  - intros Hin. exists r. split; [done|]. destruct (p r) eqn:E; [|done]. by destruct (H r Hin E) as [[] _].
Qed.

Lemma untouched_app {R} (theirs : R -> Prop) t r : ~ theirs r -> untouched theirs t (t ++ [r]).
Proof. intros H x Hx. rewrite in_app_iff. simpl. naive_solver. Qed.

(** Rows in frames: what the frame does not change is untouched. *)
Lemma untouched_Forall2 {R} (F : R -> R -> Prop) (theirs : R -> Prop) t t' :
  (forall x y, F x y -> theirs x \/ theirs y -> y = x) -> Forall2 F t t' -> untouched theirs t t'.
Proof.
  intros H. induction 1 as [|x y t t' HF _ IH]; [done|]. intros r Hr. simpl. rewrite (IH r Hr).
  split; (intros [<-|]; [|by right]); left; [symmetry|]; apply H; auto.
Qed.

Create HintDb frame.
#[local] Hint Resolve op_frame_refl host_frame_refl res_frame_refl Forall2_same untouched_refl : frame.

Lemma framed_refl b op d : framed b op d d.
Proof. split; auto with frame. Qed.
#[local] Hint Resolve framed_refl : frame.

Lemma lease_held_inv t op o : lease_held t op o = true ->
  o_id o = op_ID op /\ o_lease_owner o = Some (op_LeaseOwner op) /\ o_fence o = op_Fence op /\ lease_live t o = true.
Proof. unfold lease_held. intros H. bsplit. done. Qed.

Ltac inv_held :=
  bsplit; repeat match goal with
  | H : lease_held _ _ _ = true |- _ => apply lease_held_inv in H as (? & ? & ? & ?)
  end.

(** A fenced update of the operation table that keeps the immutable columns. *)
Lemma framed_operations b op p f d :
  (forall o, p o = true -> o_id o = op_ID op /\ o_fence o = op_Fence op) ->
  (forall o, op_ident (f o) = op_ident o /\ o_fence (f o) = o_fence o /\ o_created_at (f o) = o_created_at o) ->
  framed b op d (set_operations (update_where p f (operations d)) d).
Proof.
  intros Hp Hf. split; simpl; auto with frame. apply Forall2_update; auto with frame.
  intros o _ Ho. right. destruct (Hp o Ho), (Hf o) as (? & ? & ?). done.
Qed.

Lemma framed_host b op p f d :
  (forall h, In h (host d) -> p h = true -> host_frame b op d h (f h)) ->
  framed b op d (set_host (update_where p f (host d)) d).
Proof. intros Hp. split; simpl; auto with frame. apply Forall2_update; auto with frame. Qed.

Lemma launching_for_owns t op d h : launching_for t op d h = true -> owns op d h.
Proof.
  intros H. apply exists_row_true in H as (o & Ho & H). inv_held. by exists o.
Qed.

Lemma same_or_unset_keeps cur v p : same_or_unset cur v = true -> cur = Some p -> p <> "" -> v = p.
Proof.
  intros H -> Hp. unfold same_or_unset in H. apply orb_true_iff in H as [H|H]; bsplit; congruence.
Qed.

Lemma launch_host_frame b t op d pid ep nid hid h : owns op d h ->
  forall d1, launch_host_match d1 hid pid nid h = true ->
  owns op d h /\ host_ident (launch_host_row t d1 pid ep nid h) = host_ident h /\
  advances b (h_state h) (h_state (launch_host_row t d1 pid ep nid h)) /\
  (forall p, h_providerid h = Some p -> p <> "" -> h_providerid (launch_host_row t d1 pid ep nid h) = Some p).
Proof.
  intros Ho d1 Hm. unfold launch_host_match in Hm. bsplit. split_and!; [done|..].
  - unfold host_ident, launch_host_row. simpl. by destruct (h_state h).
  - unfold advances, launch_host_row. simpl. destruct (h_state h) eqn:Es; simpl; try reflexivity.
    apply rtc_once. left. simpl. tauto.
  - intros p Hp Hne. simpl. destruct (same_or_unset (h_providerid h) pid) eqn:E; [|done].
    f_equal. by eapply same_or_unset_keeps.
Qed.

Lemma framed_record_launch b t op pid ip nids d :
  framed b op d (snd (RecordLaunchWithAddress t op pid ip nids d)).
Proof.
  unfold RecordLaunchWithAddress. case_match; [apply framed_refl|].
  assert (forall nid, framed b op d (snd (run_tx (record_launch t op pid ip nid) d))) as H1;
    [|destruct nids as [|? [|]]; auto; apply framed_refl].
  intros nid. destruct (run_tx _ d) as [[[]|e] d'] eqn:E; cycle 1.
  { apply run_tx_err in E as [-> _]. apply framed_refl. }
  apply run_tx_ok in E. unfold record_launch in E. inv_tx. simpl.
  unfold fencedResult in *. inv_tx. bsplit.
  match goal with H : rows_affected _ _ = 1 |- _ => apply rows_affected_pos in H as (o & Ho & Hp) end.
  inv_held.
  split; simpl; auto.
  - apply Forall2_update; auto with frame. intros x _ Hx. inv_held. by right.
  - apply Forall2_update; auto with frame. intros h _ Hm. right. eapply launch_host_frame; eauto.
    exists o. unfold launch_host_match in Hm. bsplit. split_and!; auto. congruence.
  - apply Forall2_update; auto with frame. intros r _ Hr. bsplit. right. split_and!; auto.
    exists o. split_and!; auto. congruence.
  - apply untouched_refl.
Qed.

Lemma framed_pin b t op x d : framed b op d (snd (ignore (PinProvisionExpectedState t op x) d)).
Proof.
  unfold ignore, PinProvisionExpectedState.
  match goal with |- context [if ?b then st_ret _ else _] => destruct b end; [apply framed_refl|].
  destruct (run_tx _ d) as [[y|e] d'] eqn:E; simpl.
  2: { apply run_tx_err in E as [-> _]. apply framed_refl. }
  apply run_tx_ok in E. inv_tx.
  match goal with H : exists_row _ _ = true |- _ => apply exists_row_true in H as (o & Ho & Hp) end. inv_held.
  unfold pin_update in *. repeat case_match; inv_tx; simplify_eq.
  assert (forall b, In b (worker_provisioning_state d) -> is_binding op b = true ->
            ~ foreign_binding op b /\ ~ foreign_binding op (pin_row x b)) as Hb.
  { unfold is_binding, foreign_binding, pin_row. intros bd _ Hy. bsplit. split; [naive_solver|]. case_match; naive_solver. }
  split; simpl; auto using untouched_update with frame. apply Forall2_update; auto with frame. intros h _ Hh. bsplit. right.
  split_and!; auto; [|done]. exists o. split_and!; auto. congruence.
Qed.

Lemma framed_bind b t op x d : framed b op d (snd (BindProvisionNode t op x d)).
Proof.
  unfold BindProvisionNode. repeat case_match; simpl; auto with frame; split; simpl; auto with frame.
  match goal with H : insert_row _ _ _ = Ok _ |- _ => apply insert_row_ok in H as [-> _] end. apply untouched_app. by intros [].
Qed.

Lemma framed_finalize t t2 cn ce op v r d : framed true op d (snd (FinalizeProvision t t2 cn ce op v r d)).
Proof.
  unfold FinalizeProvision. destruct r as [outcome|]; [|apply framed_refl].
  destruct (run_tx _ d) as [[y|e] d'] eqn:E; simpl.
  2: { apply run_tx_err in E as [-> _]. apply framed_refl. }
  apply run_tx_ok in E. inv_tx. simpl. split; simpl; auto with frame.
  - apply Forall2_update; auto with frame. intros o _ Ho. bsplit. by right.
  - apply Forall2_update; auto with frame. intros h _ Hh. bsplit.
    match goal with H : exists_row _ _ = true |- _ => apply exists_row_true in H as (o & Ho & Hp) end. bsplit.
    right. match goal with H : h_state h = _ |- _ => rename H into Es end.
    split_and!; auto; [by exists o|unfold host_ident; simpl; by rewrite Es|].
    apply rtc_once. right. done.
Qed.

Definition is_finalize (w : lease_write) : bool := match w with WFinalize _ _ _ _ _ => true | _ => false end.

Lemma allowed_advances b s s' : allowed s = Some s' -> advances b s s' /\ (s == HostTerminated) = (s' == HostTerminated).
Proof. intros H. split; [apply rtc_once; left|]; destruct s; try discriminate H; injection H as <-; simpl; tauto || done. Qed.

(** Every write stays inside its frame; only finalizing reaches READY. *)
Lemma write_framed t op w d : framed (is_finalize w) op d (snd (write t op w d)).
Proof.
  destruct w; simpl; auto using framed_record_launch, framed_bind, framed_pin, framed_finalize.
  - unfold Renew. case_match; [apply framed_refl|]. apply framed_operations; [|done]. intros o Ho. by inv_held.
  - apply framed_operations; [|done]. intros o Ho. by inv_held.
  - unfold SetProvisionDesiredVersion. case_match; [apply framed_refl|]. apply framed_host.
    intros h Hh Hp. bsplit. right. split_and!; eauto using launching_for_owns. apply rtc_refl.
  - unfold SetProvisionState. case_match; [apply framed_refl|]. apply framed_host.
    intros h Hh Hp. bsplit. destruct (allowed_advances false expected next) as [Ha Ht]; [done|].
    right. split_and!; eauto using launching_for_owns.
    + unfold host_ident. simpl. subst. by rewrite Ht.
    + by subst.
  - apply framed_operations; [|done]. intros o Ho. by inv_held.
  - unfold RecordProvisionFailure. case_match; [apply framed_refl|]. apply framed_operations; [|done].
    intros o Ho. by inv_held.
  - apply framed_operations; [|done]. intros o Ho. by inv_held.
  - split; simpl; auto with frame. apply untouched_update. unfold foreign_binding. intros b _ Hb. cbv beta in Hb. bsplit.
    match goal with H : exists_row _ _ = true |- _ => apply exists_row_true in H as (o & _ & H1) end. inv_held. simpl.
    by split; intros []; congruence.
Qed.

Lemma Forall2_map_eq {A B} (R : A -> A -> Prop) (f : A -> B) l l' :
  (forall x y, R x y -> f y = f x) -> Forall2 R l l' -> map f l = map f l'.
Proof. intros H. induction 1; simpl; [done|]. f_equal; auto. symmetry. auto. Qed.

Lemma Forall2_in {A} (R : A -> A -> Prop) l l' x : Forall2 R l l' -> In x l -> exists y, In y l' /\ R x y.
Proof. induction 1; simpl; [done|]. intros [->|Hx]; naive_solver. Qed.

Lemma Forall2_in_r {A} (R : A -> A -> Prop) l l' y : Forall2 R l l' -> In y l' -> exists x, In x l /\ R x y.
Proof. induction 1; simpl; [done|]. intros [->|Hx]; naive_solver. Qed.

(** Only finalizing ends in READY. *)
Lemma ready_stays s : advances false s HostReady -> s = HostReady.
Proof.
  intros H. apply rtc_inv_r in H as [->|(y & _ & [Hy|[? _]])]; [done| |done].
  simpl in Hy. naive_solver.
Qed.

(** ** Frames compose *)
Lemma lifecycle_weaken b s s' : advances false s s' -> advances b s s'.
Proof. apply rtc_subrel. intros x y [H|[? _]]; [by left|done]. Qed.

Lemma owns_back b op d d' h h' : framed b op d d' -> owns op d' h' -> h_id h' = h_id h -> owns op d h.
Proof.
  intros F (o & Ho & Hid & Hf & Hh) E. destruct (Forall2_in_r _ _ _ _ (fr_ops _ _ _ _ F) Ho) as (o0 & Ho0 & [->|(H1 & H2 & H3 & H4 & _)]).
  - exists o0. rewrite <- E. done.
  - apply op_ident_eq in H3 as (_ & _ & _ & H3). exists o0. split_and!; auto; congruence.
Qed.

Lemma Forall2_compose {A} (R S T : A -> A -> Prop) l1 l2 l3 :
  (forall x y z, R x y -> S y z -> T x z) -> Forall2 R l1 l2 -> Forall2 S l2 l3 -> Forall2 T l1 l3.
Proof.
  intros H H1. revert l3. induction H1 as [|x y l1 l2 Hxy H1 IH]; intros l3 H2; inversion H2; subst; constructor; eauto.
Qed.

Lemma framed_trans b op d1 d2 d3 : framed b op d1 d2 -> framed b op d2 d3 -> framed b op d1 d3.
Proof.
  intros F1 F2. split.
  - eapply Forall2_compose; [|apply F1|apply F2]. intros o1 o2 o3 [->|(A1 & A2 & A3 & A4 & A5)] [->|(B1 & B2 & B3 & B4 & B5)];
      unfold op_frame; auto; right; split_and!; congruence.
  - eapply Forall2_compose; [|apply F1|apply F2]. intros h1 h2 h3 [->|(A1 & A2 & A3 & A4)] [->|(B1 & B2 & B3 & B4)].
    + by left.
    + right. split_and!; auto. by eapply owns_back.
    + by right.
    + right. split_and!; eauto; [congruence|]. by etrans.
  - eapply Forall2_compose; [|apply F1|apply F2]. intros r1 r2 r3 [->|(A1 & -> & A3)] [->|(B1 & -> & o & Ho & Hid & Hf & Hh)].
    + by left.
    + right. split_and!; auto.
      destruct (Forall2_in_r _ _ _ _ (fr_ops _ _ _ _ F1) Ho) as (o0 & Ho0 & [->|(H1 & H2 & H3 & H4 & _)]); [by exists o0|].
      apply op_ident_eq in H3 as (_ & _ & _ & H3). exists o0. split_and!; auto; congruence.
    + by right.
    + simpl in B1. done.
  - eapply untouched_trans; [apply F1|apply F2].
  - rewrite (fr_elsewhere _ _ _ _ F2). apply F1.
Qed.

Lemma framed_weaken b op d d' : framed false op d d' -> framed b op d d'.
Proof.
  intros [Fo Fh Fr Fb Fe]. split; auto. eapply Forall2_impl; [exact Fh|].
  intros h h' [->|(H1 & H2 & H3 & H4)]; [by left|]. right. split_and!; auto using lifecycle_weaken.
Qed.

(** ** Consequences of a frame *)

(** What [d'] has of other operations, of hosts that [o] does not name, of their reservations
    and of other workers' bindings is what [d] has, and no other table differs. *)
Record confined_to (o : OpRow) (d d' : DB) : Prop := mkConfined {
  cf_elsewhere : elsewhere d' = elsewhere d;
  cf_operations : untouched (fun o2 => o_id o2 <> o_id o) (operations d) (operations d');
  cf_hosts : untouched (fun h => o_host_id o <> Some (h_id h)) (host d) (host d');
  cf_reservations : untouched (fun r => o_host_id o <> Some (i_host_id r)) (infrastructure_reservations d) (infrastructure_reservations d');
  cf_bindings : untouched (fun b => b_operation_id b <> o_id o) (worker_provisioning_state d) (worker_provisioning_state d') }.

Lemma confined_trans o d1 d2 d3 : confined_to o d1 d2 -> confined_to o d2 d3 -> confined_to o d1 d3.
Proof. intros [A1 A2 A3 A4 A5] [B1 B2 B3 B4 B5]. split; [congruence|by eapply untouched_trans..]. Qed.

(** An update of the one operation row of [o]. *)
Lemma claim_confined o f d : (forall x, o_id (f x) = o_id x) ->
  confined_to o d (set_operations (update_where (fun x => o_id x == o_id o) f (operations d)) d).
Proof.
  intros Hf. split; simpl; try apply untouched_refl; [done|].
  apply untouched_update. intros x _ E. bsplit. rewrite Hf. naive_solver.
Qed.

(** A frame of the only operation with its ID. *)
Lemma framed_confined b op d d' o : framed b op d d' -> op_ID op = o_id o ->
  (forall x, In x (operations d) -> o_id x = op_ID op -> o_host_id x = o_host_id o) -> confined_to o d d'.
Proof.
  intros [Fo Fh Fr Fb Fe] Eid Hone. split; [done|..].
  - eapply untouched_Forall2; [|exact Fo]. intros x y [->|(E1 & _ & E2 & _)] Hn; [done|].
    apply op_ident_eq in E2 as [E2 _]. exfalso. destruct Hn as [[]|[]]; congruence.
  - eapply untouched_Forall2; [|exact Fh]. intros x y [->|((o1 & H1 & E1 & _ & E3) & E2 & _)] Hn; [done|].
    apply host_ident_eq in E2 as [E2 _]. rewrite (Hone o1 H1 E1) in E3. exfalso. destruct Hn as [[]|[]]; congruence.
  - eapply untouched_Forall2; [|exact Fr]. intros x y [->|(_ & -> & o1 & H1 & E1 & _ & E3)] Hn; [done|].
    rewrite (Hone o1 H1 E1) in E3. exfalso. by destruct Hn as [[]|[]].
  - intros r Hr. apply Fb. unfold foreign_binding. congruence.
Qed.
Lemma framed_same_ledger b op d d' : framed b op d d' -> same_ledger d d'.
Proof.
  intros [Fo Fh Fr Fb Fe]. unfold elsewhere, topology in Fe. injection Fe as _ _ _ Ep Eg _ _ _ _ _.
  split; [..|by rewrite Eg|by rewrite Ep].
  - eapply Forall2_map_eq; [|done]. intros o o' [->|(? & ? & ? & ?)]; done.
  - eapply Forall2_map_eq; [|done]. intros h h' [->|(? & ? & ? & ?)]; done.
  - eapply Forall2_map_eq; [|done]. intros r r' [->|(Hr & -> & _)]; [done|].
    unfold res_ident. simpl. by rewrite Hr.
Qed.

Lemma framed_groups b op d d' : framed b op d d' -> node_groups d' = node_groups d.
Proof. intros [_ _ _ _ Fe]. unfold elsewhere, topology in Fe. by injection Fe. Qed.

(** ** Claiming *)
Lemma claim_ok t z k w dur a d op d' : claim t z k w dur a d = (Ok op, d') ->
  exists o, In o (operations d) /\ claimable d t z k w a o = true /\
    op = operation_of_row (claim_row d t dur w o) /\
    d' = set_operations (update_where (fun x => o_id x == o_id o) (claim_row d t dur w) (operations d)) d.
Proof.
  unfold claim. case_match; [done|]. case_match eqn:E; [done|]. intros [= <- <-].
  match type of E with _ = ?o :: _ => exists o; assert (In o (order_by oldest_first (select (claimable d t z k w a) (operations d)))) as Hin
    by (rewrite E; by left) end.
  apply in_order_by, filter_In in Hin as [? ?]. done.
Qed.

Lemma oldest_total a b : oldest_first a b = true \/ oldest_first b a = true.
Proof.
  unfold oldest_first. destruct (Z.lt_trichotomy (o_created_at a) (o_created_at b)) as [H|[H|H]].
  - left. by rewrite (proj2 (Z.ltb_lt _ _) H).
  - rewrite H, Z.ltb_irrefl, !eq_refl_true. apply String.leb_total.
  - right. by rewrite (proj2 (Z.ltb_lt _ _) H).
Qed.

Lemma Sorted_weaken {A} (R S : A -> A -> Prop) l : (forall x y, R x y -> S x y) -> Sorted R l -> Sorted S l.
Proof. intros H. induction 1 as [|x l _ IH Hd]; constructor; [done|]. destruct Hd; constructor. auto. Qed.

(** What is claimed is the first of its kind. *)
Lemma claim_first t z k w dur a d op d' : claim t z k w dur a d = (Ok op, d') ->
  exists o, In o (operations d) /\ claimable d t z k w a o = true /\
    (forall o2, In o2 (operations d) -> claimable d t z k w a o2 = true -> o_created_at o <= o_created_at o2) /\
    op = operation_of_row (claim_row d t dur w o) /\
    d' = set_operations (update_where (fun x => o_id x == o_id o) (claim_row d t dur w) (operations d)) d.
Proof.
  unfold claim. case_match; [done|]. set (l := select (claimable d t z k w a) (operations d)).
  assert (StronglySorted (fun x y => o_created_at x <= o_created_at y) (order_by oldest_first l)) as Hs.
  { apply Sorted_StronglySorted; [intros x y y2; lia|]. eapply Sorted_weaken; [|apply order_by_sorted, oldest_total]. intros x y Hxy.
    unfold oldest_first in Hxy. apply orb_true_iff in Hxy as [Hxy|Hxy]; bsplit; lia. }
  assert (forall x, In x (order_by oldest_first l) <-> In x (operations d) /\ claimable d t z k w a x = true) as Hin
    by (intros x; rewrite in_order_by; apply filter_In).
  destruct (order_by oldest_first l) as [|o r]; [done|]. intros [= <- <-]. exists o.
  destruct (proj1 (Hin o) (in_eq _ _)) as [Ho Hc]. split_and!; try done. intros o2 H2 C2.
  apply StronglySorted_inv in Hs as [_ Hall]. destruct (proj2 (Hin o2) (conj H2 C2)) as [->|Hr]; [lia|].
  rewrite List.Forall_forall in Hall. auto.
Qed.

Lemma claim_err t z k w dur a d e d' : claim t z k w dur a d = (Err e, d') -> d' = d.
Proof. unfold claim. repeat case_match; naive_solver. Qed.

Lemma claim_same_ledger t z k w dur a d r d' : claim t z k w dur a d = (r, d') -> same_ledger d d'.
Proof.
  destruct r as [op|e]; [|by intros ->%claim_err].
  intros (o & _ & _ & _ & ->)%claim_ok. split; simpl; auto.
  symmetry. by apply update_where_map.
Qed.

Lemma claim_groups t z k w dur a d r d' : claim t z k w dur a d = (r, d') -> node_groups d' = node_groups d.
Proof. destruct r as [op|e]; [|by intros ->%claim_err]. by intros (o & _ & _ & _ & ->)%claim_ok. Qed.

(** The claimed row is the only one with its ID, and carries the new lease. *)
Lemma claimed_row t z k w dur a d op d' o' : Ledger d -> claim t z k w dur a d = (Ok op, d') ->
  In o' (operations d') -> o_id o' = op_ID op ->
  exists o, In o (operations d) /\ claimable d t z k w a o = true /\ o' = claim_row d t dur w o /\
            op = operation_of_row o'.
Proof.
  intros HL (o & Ho & Hc & -> & ->)%claim_ok Hin Hid. simpl in *. exists o. split_and!; try done.
  all: apply in_update_where in Hin as (x & Hx & ->); case_match; bsplit; simpl in *; try congruence.
  all: by rewrite (unique_key_in o_id _ x o (L_ops _ HL)).
Qed.

(** ** Readiness *)
Definition finalized (t2 : Z) (h : HostRow) : HostRow :=
  set_h_updatedat (Some t2) (set_h_observed_state_version (h_desired_state_version h) (set_h_state HostReady h)).

Lemma finalize_ok t t2 cn ce op v r d d' : Ledger d -> FinalizeProvision t t2 cn ce op v r d = (Ok tt, d') ->
  exists o h, In o (operations d) /\ In h (host d) /\ finalizable t op v d o = true /\ o_host_id o = Some (h_id h) /\
    r = Some (Ok tt) /\ ce < release_deadline cn (default 0 (o_lease_until o)) /\
    In (finalized t2 h) (host d') /\ In (clear_lease t2 Osucceeded o) (operations d') /\
    (forall x, In x (host d') -> x = finalized t2 h \/ In x (host d)).
Proof.
  intros HL Hf. unfold FinalizeProvision in Hf. destruct r as [outcome|]; [|done].
  apply run_tx_ok in Hf. inv_tx. unfold fencedResult in *. inv_tx. bsplit.
  match goal with H : select_one _ _ = Some ?o |- _ => apply select_one_some in H as [Ho Hfin]; rename o into o0 end.
  match goal with H : rows_affected _ (host d) = 1 |- _ => apply rows_affected_pos in H as (h & Hh & Hp) end.
  cbv beta in Hp. bsplit.
  match goal with H : exists_row _ _ = true |- _ => apply exists_row_true in H as (o1 & Ho1 & Hp1) end.
  assert (o_id o0 = op_ID op /\ o_fence o0 = op_Fence op) as [E1 E2] by (unfold finalizable in Hfin; by bsplit).
  bsplit. assert (o1 = o0) as -> by (apply (unique_key_in o_id _ _ _ (L_ops _ HL)); done || congruence).
  exists o0, h. split_and!; try done; simpl.
  - by destruct x0.
  - apply in_update_where. exists h. split; [done|].
    assert (((h_state h == HostConverging) && exists_row (fun o => (o_id o == op_ID op) && (o_host_id o == Some (h_id h)) &&
       lease_live t2 o && (o_fence o == op_Fence op)) (operations d)) = true) as ->; [|done].
    apply andb_true_iff. split; [by apply bool_decide_eq_true|]. apply exists_row_true. exists o0.
    split; [done|]. by rewrite Hp4, Hp3, Hp2, Hp1, !bool_decide_true.
  - apply in_update_where. exists o0. split; [done|]. by rewrite E1, E2, !bool_decide_true.
  - intros y Hy. apply in_update_where in Hy as (y0 & Hy0 & ->).
    match goal with |- context [if ?b then _ else _] => destruct b eqn:Hc end; [|by right]. left. cbv beta in Hc. bsplit.
    apply exists_row_true in Hc as (o2 & Ho2 & Hc). bsplit.
    assert (o2 = o0) as -> by (apply (unique_key_in o_id _ _ _ (L_ops _ HL)); done || congruence).
    f_equal. by rewrite (unique_key_in h_id _ y0 h (L_hosts _ HL)) by (done || congruence).
Qed.

Lemma finalize_err t t2 cn ce op v r d e d' : FinalizeProvision t t2 cn ce op v r d = (Err e, d') -> d' = d.
Proof.
  unfold FinalizeProvision. destruct r; [|by intros [= _ <-]]. by intros [-> _]%run_tx_err.
Qed.

(** ** Theorems *)

(** A write under a lease preserves the capacity ledger and the targets, and is
    confined to its own operation and host: every other operation row, every host
    that the operation does not name, and all other tables are untouched, whether
    the write succeeds or fails. *)
Theorem lease_write_isolated t op w d r d' :
  Ledger d -> targets_ok d -> write t op w d = (r, d') ->
  Ledger d' /\ targets_ok d' /\ elsewhere d' = elsewhere d /\
  (forall o, In o (operations d) -> o_id o <> op_ID op -> In o (operations d')) /\
  (forall h, In h (host d) -> (forall o, In o (operations d) -> o_id o = op_ID op -> o_host_id o <> Some (h_id h)) ->
             In h (host d')).
Proof.
  intros HL HT Hw. pose proof (write_framed t op w d) as F. rewrite Hw in F. simpl in F. split_and!.
  - by rewrite <- (framed_same_ledger _ _ _ _ F).
  - unfold targets_ok. by rewrite (framed_groups _ _ _ _ F).
  - apply F.
  - intros o Ho Hne. destruct (Forall2_in _ _ _ _ (fr_ops _ _ _ _ F) Ho) as (o' & Ho' & [->|(? & _)]); done.
  - intros h Hh Hne. destruct (Forall2_in _ _ _ _ (fr_hosts _ _ _ _ F) Hh) as (h' & Hh' & [->|((o & Ho & Hid & _ & Hn) & _)]);
      [done|]. by destruct (Hne o Ho Hid).
Qed.

(** C6. A claim takes exactly the oldest operation that is open to it.  The operation it returns
    was pending, or in flight (leased or launching) with an expired lease, never one that has
    finished; it is of the zone and kind asked for, its Dominator is authorized where that is
    asked, and nothing else that could be claimed was created before it.  Its fence is raised
    by one, its identity, template and provider token are kept, the caller has a lease for the
    whole duration, every earlier holder is shut out at every later time, and no other
    operation changes. *)
Theorem claim_fences t z k w dur a d op d' :
  Ledger d -> claim t z k w dur a d = (Ok op, d') ->
  Ledger d' /\
  (exists o, In o (operations d) /\ o_id o = op_ID op /\ o_zone_id o = z /\ o_kind o = k /\
     (o_state o = Opending \/ (In (o_state o) [Oleased; Olaunching] /\ lease_expired t o = true)) /\
     (a = true -> dominator_authorized d w o = true) /\
     (forall o2, In o2 (operations d) -> claimable d t z k w a o2 = true -> o_created_at o <= o_created_at o2) /\
     op_Fence op = o_fence o + 1 /\ op_ProviderToken op = o_provider_token o /\ op_Parameters op = o_parameters o /\
     op_State op = if (k == Kprovision) && beyond_launch d o then Olaunching else Oleased) /\
  (forall t', t' < t + milliseconds dur -> holds_lease t' op d' = true) /\
  (forall old t', op_ID old = op_ID op -> op_Fence old < op_Fence op -> holds_lease t' old d' = false) /\
  (forall o2, In o2 (operations d) -> o_id o2 <> op_ID op -> In o2 (operations d')).
Proof.
  intros HL Hc. split; [by rewrite <- (claim_same_ledger _ _ _ _ _ _ _ _ _ Hc)|].
  pose proof (claim_first _ _ _ _ _ _ _ _ _ Hc) as (o & Ho & Hcl & Hfirst & Hop & Hd). split_and!.
  - exists o. pose proof Hcl as Hcl'. unfold claimable in Hcl'. bsplit. rewrite Hop. simpl. split_and!; try done; [..|by subst k].
    + match goal with H : ((o_state o == Opending) || _) = true |- _ => apply orb_true_iff in H as [H|H] end; bsplit; auto.
      right. split; [|done]. by match goal with H : one_of _ _ = true |- _ => apply one_of_spec in H end.
    + intros ->. by match goal with H : (negb true || _) = true |- _ => simpl in H end.
  - intros t' Ht. apply exists_row_true. exists (claim_row d t dur w o). split.
    + rewrite Hd. apply in_update_where. exists o. split; [done|]. case_match; bsplit; done.
    + rewrite Hop. unfold lease_held, lease_live. simpl. rewrite !andb_true_iff, !bool_decide_eq_true.
      split_and!; try done. by apply Z.ltb_lt.
  - intros old t' Hid Hf. apply exists_row_false. intros o' Ho'.
    destruct (lease_held t' old o') eqn:E; [|done]. inv_held.
    destruct (claimed_row _ _ _ _ _ _ _ _ _ o' HL Hc Ho') as (_ & _ & _ & _ & Hrow); [congruence|].
    rewrite Hrow in Hf. simpl in Hf. lia.
  - intros o2 Ho2 Hne. rewrite Hd. apply in_update_where. exists o2. split; [done|].
    rewrite bool_decide_false; [done|]. rewrite Hop in Hne. done.
Qed.

(** Of the writes under a lease only finalizing makes a host READY: the release ran and returned
    success before the deadline, and the success of the operation is committed together with
    the state. *)
Lemma write_ready_finalizes t op w d r d' h' :
  Ledger d -> write t op w d = (r, d') -> In h' (host d') -> h_state h' = HostReady ->
  (forall h, In h (host d) -> h_id h = h_id h' -> h_state h <> HostReady) ->
  exists t2 cn ce v o, w = WFinalize t2 cn ce v (Some (Ok tt)) /\ In o (operations d) /\
    finalizable t op v d o = true /\ o_host_id o = Some (h_id h') /\
    ce < release_deadline cn (default 0 (o_lease_until o)) /\
    h_observed_state_version h' = h_desired_state_version h' /\
    In (clear_lease t2 Osucceeded o) (operations d').
Proof.
  intros HL Hw Hin Hs Hnot. destruct (is_finalize w) eqn:Ew.
  - destruct w; try done. simpl in Hw. destruct r as [[]|e].
    2: { apply finalize_err in Hw as ->. by destruct (Hnot h' Hin). }
    destruct (finalize_ok _ _ _ _ _ _ _ _ _ HL Hw) as (o & h & Ho & Hh & Hf & Hho & -> & Hce & Hfin & Hop & Hall).
    destruct (Hall h' Hin) as [->|Hold]; [|by destruct (Hnot h' Hold)].
    by exists t2, client_now, client_end, version, o.
  - pose proof (write_framed t op w d) as F. rewrite Hw, Ew in F.
    destruct (Forall2_in_r _ _ _ _ (fr_hosts _ _ _ _ F) Hin) as (h & Hh & [->|(_ & Hid & Ha & _)]).
    { by destruct (Hnot h Hh). }
    apply host_ident_eq in Hid as (Hid & _).
    destruct (Hnot h Hh); [done|]. rewrite Hs in Ha. by apply ready_stays.
Qed.

(** The provider identity of a host is recorded once: no write under a lease
    replaces a provider ID, and reporting a different instance for a launched host
    is refused without effect. *)
Theorem launch_identity_immutable t op d h p :
  Ledger d -> In h (host d) -> h_providerid h = Some p -> p <> "" ->
  (forall w r d', write t op w d = (r, d') ->
     exists h', In h' (host d') /\ h_id h' = h_id h /\ h_providerid h' = Some p) /\
  (forall q ip nids, op_HostID op = h_id h -> q <> p ->
     exists e, RecordLaunchWithAddress t op q ip nids d = (Err e, d)).
Proof.
  intros HL Hh Hp Hne. split.
  - intros w r d' Hw. pose proof (write_framed t op w d) as F. rewrite Hw in F.
    destruct (Forall2_in _ _ _ _ (fr_hosts _ _ _ _ F) Hh) as (h' & Hh' & [->|(_ & Hid & _ & Hk)]); [by exists h|].
    apply host_ident_eq in Hid as (Hid & _). exists h'. auto.
  - intros q ip nids Hid Hq. unfold RecordLaunchWithAddress. case_match; [by eexists|].
    assert (forall nid, exists e, run_tx (record_launch t op q ip nid) d = (Err e, d)) as H1;
      [|destruct nids as [|? [|]]; auto; by eexists].
    intros nid. destruct (run_tx _ d) as [[[]|e] d'] eqn:E; [|apply run_tx_err in E as [-> _]; by eexists].
    apply run_tx_ok in E. unfold record_launch in E. inv_tx. unfold affectedExactlyOne in *. inv_tx. bsplit.
    match goal with H : rows_affected _ (host _) = 1 |- _ => apply rows_affected_pos in H as (h1 & Hh1 & Hm) end.
    unfold launch_host_match in Hm. bsplit.
    assert (h1 = h) as -> by (apply (unique_key_in h_id _ _ _ (L_hosts _ HL)); simpl in *; done || congruence).
    destruct Hq. by eapply same_or_unset_keeps.
Qed.
End Writes.

(** ** Witnesses: the demo deployment provisions its first worker *)
#[local] Instance demo_net : GoNet := {| private_ip := fun s => HasPrefix s "10." |}.
#[local] Instance demo_digest : Digest := {| sha256_16 := fun s => s |}.

Definition demo_owner : string := "spiffe://crane/dominator/z1".
Definition minute : Z := 60 * 1000 * Millisecond.

Definition claimed_op : Operation :=
  match ClaimDominator 1000 "z1" Kprovision demo_owner minute db_two with
  | (Ok op, _) => op
  | (Err _, _) => operation_of_row (mkOp "" Kprovision "" None None None 0 Opending "" (PJson JNull) None None 0 "" 0 0)
  end.
Definition db_claimed : DB := snd (ClaimDominator 1000 "z1" Kprovision demo_owner minute db_two).

(** Run writes one after the other at the same time, all of which must succeed. *)
Fixpoint writes (t : Z) (op : Operation) (ws : list lease_write) (d : DB) : option DB :=
  match ws with
  | [] => Some d
  | w :: ws => match write t op w d with (Ok _, d') => writes t op ws d' | (Err _, _) => None end
  end.

Definition demo_expected : ExpectedHostState := mkExpected 1 "ami-1" "stable" "v1" ∅ [] None.
Definition demo_hash : string := "0123456789abcdef0123456789abcdef0123456789abcdef0123456789abcdef".
Definition demo_binding : ProvisionBinding :=
  mkProvisionBinding (WorkerNodeName (op_HostID claimed_op)) "uid-1" "aws:///us-west-2a/i-1" demo_hash false None.

Definition to_launched : list lease_write :=
  [WBeginLaunch; WState HostRequested HostProvisioning; WRecordLaunch "i-1" "10.0.0.9" ["aws:///us-west-2a/i-1"]].
Definition to_release : list lease_write :=
  to_launched ++ [WState HostBooting HostRegistering; WBind demo_binding; WPin demo_expected;
                  WState HostRegistering HostConverging; WPrepare "v1"].

Definition db_launched : DB := default db_claimed (writes 2000 claimed_op to_launched db_claimed).
Definition db_releasing : DB := default db_claimed (writes 2000 claimed_op to_release db_claimed).
Definition demo_finalize : lease_write := WFinalize 3000 3000 3001 "v1" (Some (Ok tt)).
Definition db_ready : DB := snd (write 3000 claimed_op demo_finalize db_releasing).

Example demo_provisions : is_Some (writes 2000 claimed_op (to_release ++ [demo_finalize]) db_claimed).
Proof. vm_compute. eauto. Qed.

Lemma db_two_ledger : Ledger db_two /\ targets_ok db_two.
Proof. eapply SetTarget_keeps; [apply demo_ledger|apply demo_targets|apply surjective_pairing]. Qed.

Lemma db_claimed_ledger : Ledger db_claimed.
Proof.
  rewrite <- (claim_same_ledger 1000 "z1" Kprovision demo_owner minute true db_two _ db_claimed (surjective_pairing _)).
  apply db_two_ledger.
Qed.

(** Databases reached by writes keep the ledger. *)
Lemma writes_ledger t op ws d d' : Ledger d -> writes t op ws d = Some d' -> Ledger d'.
Proof.
  revert d. induction ws as [|w ws IH]; simpl; intros d HL Hw; [by simplify_eq|].
  pose proof (write_framed t op w d) as F. destruct (write t op w d) as [[?|?] d1]; [|done].
  apply IH in Hw; [done|]. by rewrite <- (framed_same_ledger _ _ _ _ F).
Qed.

Lemma db_launched_ledger : Ledger db_launched.
Proof.
  eapply (writes_ledger 2000 claimed_op to_launched _ _ db_claimed_ledger). vm_compute. reflexivity.
Qed.

Lemma db_releasing_ledger : Ledger db_releasing.
Proof.
  eapply (writes_ledger 2000 claimed_op to_release _ _ db_claimed_ledger). vm_compute. reflexivity.
Qed.

Lemma lease_write_isolated_witness :
  Ledger (snd (write 2000 claimed_op WBeginLaunch db_claimed)) /\
  In (List.nth 1 (operations db_claimed) (intent_operation (env_at "a" 0) demo_policy "" 0 0))
     (operations (snd (write 2000 claimed_op WBeginLaunch db_claimed))).
Proof.
  destruct (lease_write_isolated 2000 claimed_op WBeginLaunch db_claimed _ _ db_claimed_ledger (proj2 db_two_ledger)
              (surjective_pairing _)) as (H1 & _ & _ & H2 & _).
  split; [exact H1|]. apply H2; [apply nth_In; vm_compute; lia|vm_compute; discriminate].
Defined.

Lemma claim_fences_witness :
  op_Fence claimed_op = 1 /\ holds_lease 60999 claimed_op db_claimed = true.
Proof.
  split; [vm_compute; reflexivity|].
  assert (claim 1000 "z1" Kprovision demo_owner minute true db_two = (Ok claimed_op, db_claimed)) as Hc
    by (vm_compute; reflexivity).
  destruct (claim_fences 1000 "z1" Kprovision demo_owner minute true db_two claimed_op db_claimed
              (proj1 db_two_ledger) Hc) as (_ & _ & H & _).
  apply H. reflexivity.
Defined.

Lemma launch_identity_immutable_witness :
  exists e, RecordLaunchWithAddress 2500 claimed_op "i-2" "10.0.0.10" [] db_launched = (Err e, db_launched).
Proof.
  apply (launch_identity_immutable 2500 claimed_op db_launched (List.nth 1 (host db_launched) demo_spire) "i-1"
           db_launched_ledger).
  - apply nth_In. vm_compute. lia.
  - vm_compute. reflexivity.
  - discriminate.
  - vm_compute. reflexivity.
  - discriminate.
Defined.

(** Finding: a decrease may count a host twice.  Both intents are claimed when the target
    drops to one, so the newer host is marked as excess; after the leases are given back,
    dropping to zero cancels that same excess host, and the older one stays live, not
    excess and still claimable, with a target of zero. *)
Example decrease_counts_excess_twice :
  let d1 := snd (ClaimDominator 1001 "z1" Kprovision demo_owner minute db_claimed) in
  let second := match fst (ClaimDominator 1001 "z1" Kprovision demo_owner minute db_claimed) with Ok op => op | Err _ => claimed_op end in
  let d2 := snd (SetTarget (env_at "c" 1500) (demo_request "req-2" 1 1) d1) in
  let d3 := snd (ReleaseProvisionLease 1600 claimed_op d2) in
  let d4 := snd (ReleaseProvisionLease 1601 second d3) in
  let d5 := snd (SetTarget (env_at "d" 1700) (demo_request "req-3" 2 0) d4) in
  map g_target_nodes (node_groups d5) = [0] /\
  map (fun h => (h_state h, h_excess_capacity h)) (host d5) =
    [(HostConverging, false); (HostRequested, false); (HostTerminated, true)] /\
  map o_state (operations d5) = [Opending; Ocancelled].
Proof. vm_compute. done. Qed.
