(* ===== verification/Removal.v ===== *)
(** * Node removal: [CreateRemoval] of internal/capacity/catalog.go and
      internal/capacity/removals.go

    A removal is an operation with exclusive ownership of a named host.  The
    autoscaler's removals lower the target with compare and swap; repair and
    maintenance preserve it.  Credits stay with the host until it terminates. *)
From S2P Require Import Prelude GoStrings Sql Api Schema Admission.

Local Open Scope string_scope.
Local Open Scope list_scope.
Local Open Scope Z_scope.
Local Open Scope crane_scope.

(** ** The rows of one removal *)
Definition removal_operation (id zone group hostID token : string) (revision t : Z) (p : Parameters) : OpRow :=
  mkOp id Kremove_node zone (Some group) (Some hostID) None revision Opending token p None None 0 "" t t.

(** The unique index [node_removal_exclusive]: one unfinished removal per host. *)
Definition active_removal (hostID : string) (r : RemovalRow) : bool :=
  (rm_host_id r == hostID) && (rm_completed_at r == None).

Definition insert_removal (r : RemovalRow) (d : DB) : result DB :=
  let* t := insert_row (fun x => (rm_operation_id x == rm_operation_id r) || active_removal (rm_host_id r) x)
              r (node_removal_operations d) in
  Ok (set_node_removal_operations t d).

Definition finished_states : list HostState := [HostTerminated; HostTerminating; HostFailed].

(** ** [CreateRemoval] *)
Definition removal_reasons : list string := ["autoscaler-delete"; "repair"; "maintenance"].

Definition CreateRemoval (e : Env) (clusterID : string) (expectedRevision : Z) (r : NodeRemovalOperation) : Store string :=
  if (clusterID == "") || (ro_NodeGroupID r == "") || (ro_HostID r == "") || (ro_NodeName r == "") ||
     (ro_ProviderID r == "") || (ro_DrainDeadline r == None)
  then st_ret (Err (ErrMsg "invalid removal operation"))
  else if negb (one_of (ro_Reason r) removal_reasons) then st_ret (Err (ErrMsg "invalid removal reason"))
  else if ro_PreserveDesiredCapacity r != (ro_Reason r != "autoscaler-delete")
  then st_ret (Err (ErrMsg "invalid desired capacity policy"))
  else run_tx (
    tx! p := tx_query (loadPolicy (ro_NodeGroupID r)) in
    let g := group p in
    txguard g_cluster_id g == clusterID else ErrForbidden in
    txguard g_target_revision g == expectedRevision else ErrConflict in
    tx! h := tx_query (fun d => of_option ErrNoRows
      (select_one (fun h => (h_id h == ro_HostID r) && negb (one_of (h_state h) finished_states)) (host d))) in
    txguard (default "" (h_node_group_id h) == ro_NodeGroupID r) && (default "" (h_providerid h) == ro_ProviderID r)
      else ErrForbidden in
    let lower := negb (ro_PreserveDesiredCapacity r) in
    txguard negb (lower && (g_target_nodes g <=? g_min_nodes g)) else ErrLimit in
    let revision := if lower then add64 (g_target_revision g) 1 else g_target_revision g in
    tx! _ := (if lower then tx_insert (update_group (g_id g)
                (fun x => set_g_target_revision revision (set_g_target_nodes (g_target_nodes x - 1) x)))
              else tx_ret tt) in
    let id := uuid e 0 in
    tx! _ := tx_insert (insert_operation (removal_operation id (g_zone_id g) (g_id g) (ro_HostID r) (uuid e 1)
                          revision (now e 0) (PJson (JObj [])))) in
    tx! _ := tx_insert (insert_removal (mkRemoval id (g_id g) (ro_HostID r) (ro_NodeName r) (ro_ProviderID r)
                          (ro_Reason r) (ro_PreserveDesiredCapacity r) (default 0 (ro_DrainDeadline r)) None)) in
    tx_ret id).

(** ** [CreateAutoscalerRemovals] *)

(** The loop over [req.Nodes] with its [seen] map. *)
Fixpoint valid_nodes (seen : list string) (nodes : list RemovalNode) : bool :=
  match nodes with
  | [] => true
  | n :: rest =>
      if (rn_HostID n == "") || (rn_ProviderID n == "") || (rn_NodeName n == "") || one_of (rn_HostID n) seen
      then false else valid_nodes (rn_HostID n :: seen) rest
  end.

(** The operation that recorded an earlier request with this ID. *)
Definition recorded_request (req : NodeRemovalRequest) (o : OpRow) : bool :=
  (o_group_id o == Some (rr_NodeGroupID req)) && (o_kind o == Kremove_node) &&
  match o_parameters o with PRemoval r => rr_RequestID r == rr_RequestID req | _ => false end.

(** Provider identity as Kubernetes spells it. *)
Definition node_identity (provider zone providerID : string) : string :=
  if provider == "aws" then String.append "aws:///" (String.append zone (String.append "/" providerID)) else providerID.

(** Validation of one named node; the result is the host's provider ID. *)
Definition check_removal (req : NodeRemovalRequest) (node : RemovalNode) (d : DB) : result string :=
  let* h := of_option ErrNoRows (select_one (fun h => (h_id h == rn_HostID node) &&
      exists_row (fun z => h_crane_zone h == Some (z_id z)) (zones d)) (host d)) in
  let* z := of_option ErrNoRows (select_one (fun z => h_crane_zone h == Some (z_id z)) (zones d)) in
  let providerID := default "" (h_providerid h) in
  let identity := node_identity (default "" (h_provider h)) (z_provider_zone_id z) providerID in
  guard (default "" (h_node_group_id h) == rr_NodeGroupID req) && (providerID != "") && (identity == rn_ProviderID node)
    else ErrForbidden in
  guard negb (one_of (h_state h) finished_states) else ErrFulfilled in
  guard negb (exists_row (active_removal (rn_HostID node)) (node_removal_operations d)) else ErrConflict in
  Ok providerID.

Fixpoint check_removals (req : NodeRemovalRequest) (nodes : list RemovalNode) (d : DB) : result (list string) :=
  match nodes with
  | [] => Ok []
  | n :: rest => let* p := check_removal req n d in
                 let* ps := check_removals req rest d in
                 Ok (p :: ps)
  end.

(** Thirty minutes, in milliseconds. *)
Definition drain_window : Z := 30 * 60 * 1000.

Definition removal_intent (e : Env) (p : policy) (req : NodeRemovalRequest) (revision : Z) (i : nat)
    (node : RemovalNode) (providerID : string) : Tx unit :=
  let id := uuid e (2 * i) in
  tx! _ := tx_insert (insert_operation (removal_operation id (g_zone_id (group p)) (rr_NodeGroupID req) (rn_HostID node)
                        (uuid e (2 * i + 1)) revision (now e (S i)) (PRemoval req))) in
  tx_insert (insert_removal (mkRemoval id (rr_NodeGroupID req) (rn_HostID node) (rn_NodeName node) providerID
               "autoscaler-delete" false (now e 0 + drain_window) None)).

Fixpoint removal_intents (e : Env) (p : policy) (req : NodeRemovalRequest) (revision : Z) (i : nat)
    (nodes : list (RemovalNode * string)) : Tx unit :=
  match nodes with
  | [] => tx_ret tt
  | (n, providerID) :: rest =>
      tx! _ := removal_intent e p req revision i n providerID in
      removal_intents e p req revision (S i) rest
  end.

(** After the replay lookup found nothing. *)
Definition admit_removals (e : Env) (p : policy) (req : NodeRemovalRequest) : Tx unit :=
  let g := group p in
  let count := Z.of_nat (length (rr_Nodes req)) in
  txguard g_target_revision g == rr_ExpectedTargetRevision req else ErrConflict in
  txguard negb ((sub64 (g_target_nodes g) count <? g_min_nodes g) || (g_target_revision g == MaxInt64)) else ErrLimit in
  tx! ids := tx_query (check_removals req (rr_Nodes req)) in
  let revision := add64 (g_target_revision g) 1 in
  tx! _ := tx_insert (update_group (rr_NodeGroupID req)
             (fun x => set_g_target_revision revision (set_g_target_nodes (g_target_nodes x - count) x))) in
  removal_intents e p req revision 0 (combine (rr_Nodes req) ids).

Definition CreateAutoscalerRemovals (e : Env) (clusterID : string) (req : NodeRemovalRequest) : Store unit :=
  if (clusterID == "") || (rr_NodeGroupID req == "") || (rr_RequestID req == "") ||
     (rr_ExpectedTargetRevision req <? 0) || (length (rr_Nodes req) =? 0)%nat || negb (valid_nodes [] (rr_Nodes req))
  then st_ret (Err ErrInvalid)
  else run_tx (
    tx! p := tx_query (loadPolicy (rr_NodeGroupID req)) in
    txguard g_cluster_id (group p) == clusterID else ErrForbidden in
    tx! prev := tx_query (fun d => Ok (select_one (recorded_request req) (operations d))) in
    match prev with
    | Some o => txguard o_parameters o == PRemoval req else ErrReplayMismatch in tx_ret tt
    | None => admit_removals e p req
    end).
