(* ===== verification/RemovalFacts.v ===== *)
(** * What removals guarantee

    Theorems about [Removal]: admission of a removal request is atomic, owns its
    hosts exclusively, is idempotent, and keeps the credits of the hosts. *)
From S2P Require Import Prelude GoStrings Sql Api Schema Admission Invariant Fixture AdmissionFacts Lease Handoff LeaseFacts Removal.

Local Open Scope string_scope.
Local Open Scope list_scope.
Local Open Scope Z_scope.
Local Open Scope crane_scope.

(** ** Operations that are not provisioning intents *)
Lemma Ledger_add_operation o d : Ledger d -> o_kind o <> Kprovision ->
  (forall x, In x (operations d) -> o_id x <> o_id o) ->
  Ledger (set_operations (operations d ++ [o]) d).
Proof.
  intros HL Hk Hf. destruct HL as [Ho Hh Hr Hg Hp Hgo Hpo Hro Hc Hb Hi Hgp Hs]. split; auto.
  - by apply unique_key_app.
  - intros x Hx Hkx. apply in_snoc in Hx as [Hx| ->]; [by apply Hi|done].
Qed.

(** Tables the ledger does not read. *)
Lemma Ledger_set_removals t d : Ledger d -> Ledger (set_node_removal_operations t d).
Proof. by rewrite (Ledger_proper d (set_node_removal_operations t d)) by by split. Qed.

(** ** One unfinished removal per host *)
Definition removals_exclusive (d : DB) : Prop :=
  forall h, rows_affected (active_removal h) (node_removal_operations d) <= 1.

Lemma rows_affected_app {R} (p : R -> bool) t u : rows_affected p (t ++ u) = rows_affected p t + rows_affected p u.
Proof. unfold rows_affected. rewrite List.filter_app, length_app. lia. Qed.

Lemma insert_removal_ok r d d' : insert_removal r d = Ok d' ->
  d' = set_node_removal_operations (node_removal_operations d ++ [r]) d /\
  (forall x, In x (node_removal_operations d) -> active_removal (rm_host_id r) x = false).
Proof.
  unfold insert_removal. intros H. inv_ok. apply insert_row_ok in Hx as [-> Hc].
  split; [done|]. intros x Hx. specialize (Hc x Hx). by apply orb_false_elim in Hc as [_ ?].
Qed.

Lemma insert_removal_exclusive r d d' : insert_removal r d = Ok d' -> removals_exclusive d -> removals_exclusive d'.
Proof.
  intros [-> Hc]%insert_removal_ok Hx h. simpl. rewrite rows_affected_app.
  destruct (active_removal h r) eqn:E.
  - unfold active_removal in E. bsplit. subst h. rewrite (proj2 (rows_affected_zero _ _) Hc).
    unfold rows_affected. simpl. destruct (active_removal _ _); simpl; lia.
  - unfold rows_affected at 2. simpl. rewrite E. simpl. specialize (Hx h). lia.
Qed.

(** ** The rows a request adds *)
Fixpoint removal_ops (e : Env) (p : policy) (req : NodeRemovalRequest) (rev : Z) (i : nat) (nodes : list RemovalNode) : list OpRow :=
  match nodes with
  | [] => []
  | n :: rest => removal_operation (uuid e (2 * i)) (g_zone_id (group p)) (rr_NodeGroupID req) (rn_HostID n)
                   (uuid e (2 * i + 1)) rev (now e (S i)) (PRemoval req) :: removal_ops e p req rev (S i) rest
  end.

Fixpoint removal_rows (e : Env) (req : NodeRemovalRequest) (i : nat) (nodes : list (RemovalNode * string)) : list RemovalRow :=
  match nodes with
  | [] => []
  | (n, pid) :: rest => mkRemoval (uuid e (2 * i)) (rr_NodeGroupID req) (rn_HostID n) (rn_NodeName n) pid
      "autoscaler-delete" false (now e 0 + drain_window) None :: removal_rows e req (S i) rest
  end.

Definition add_removals (os : list OpRow) (rs : list RemovalRow) (d : DB) : DB :=
  set_node_removal_operations (node_removal_operations d ++ rs) (set_operations (operations d ++ os) d).

Lemma removal_intents_shape e p req rev nodes : forall i d u d', removal_intents e p req rev i nodes d = Ok (u, d') ->
  d' = add_removals (removal_ops e p req rev i (map fst nodes)) (removal_rows e req i nodes) d.
Proof.
  induction nodes as [|[n pid] nodes IH]; simpl; intros i d u d' H; inv_tx.
  - unfold add_removals. rewrite !app_nil_r. by destruct d'.
  - unfold removal_intent in Hx. inv_tx. apply IH in H as ->.
    apply insert_operation_ok in Hx0 as [-> _]. apply insert_removal_ok in Hx as [-> _].
    unfold add_removals. simpl. by rewrite <- !app_assoc.
Qed.

Lemma removal_intents_keep e p req rev nodes : forall i d u d', removal_intents e p req rev i nodes d = Ok (u, d') ->
  Ledger d -> removals_exclusive d -> Ledger d' /\ removals_exclusive d'.
Proof.
  induction nodes as [|[n pid] nodes IH]; simpl; intros i d u d' H HL HX; inv_tx; [done|].
  unfold removal_intent in Hx. inv_tx. apply insert_operation_ok in Hx0 as [-> Hf].
  apply IH in H; [done|..].
  - apply insert_removal_ok in Hx as [-> _]. apply Ledger_set_removals, Ledger_add_operation; [done..|].
    intros y Hy. by apply Hf.
  - by eapply insert_removal_exclusive.
Qed.

(** ** A successful request *)
Record removed (e : Env) (p : policy) (req : NodeRemovalRequest) (d d' : DB) : Prop := mkRemoved {
  rd_cas : g_target_revision (group p) = rr_ExpectedTargetRevision req;
  rd_room : g_target_revision (group p) <> MaxInt64;
  rd_min : g_min_nodes (group p) <= sub64 (g_target_nodes (group p)) (Z.of_nat (length (rr_Nodes req)));
  rd_run : exists ids d1, check_removals req (rr_Nodes req) d = Ok ids /\
    update_group (rr_NodeGroupID req) (fun x => set_g_target_revision (add64 (g_target_revision (group p)) 1)
      (set_g_target_nodes (g_target_nodes x - Z.of_nat (length (rr_Nodes req))) x)) d = Ok d1 /\
    removal_intents e p req (add64 (g_target_revision (group p)) 1) 0 (combine (rr_Nodes req) ids) d1 = Ok (tt, d') }.

Lemma admit_removals_ok e p req d u d' : admit_removals e p req d = Ok (u, d') -> removed e p req d d'.
Proof.
  unfold admit_removals. intros H. inv_tx. bsplit. split; try done. destruct u. eauto.
Qed.

Lemma CreateAutoscalerRemovals_ok e c req d u d' : CreateAutoscalerRemovals e c req d = (Ok u, d') ->
  rr_Nodes req <> [] /\
  exists p, loadPolicy (rr_NodeGroupID req) d = Ok p /\ g_cluster_id (group p) = c /\
  match select_one (recorded_request req) (operations d) with
  | Some o => o_parameters o = PRemoval req /\ d' = d
  | None => removed e p req d d'
  end.
Proof.
  unfold CreateAutoscalerRemovals. case_match; [done|]. rewrite run_tx_ok. intros Hrun.
  apply tx_bind_ok in Hrun as (p & d1 & Hp & Hrun). apply tx_query_ok in Hp as [Hp ->].
  apply tx_bind_ok in Hrun as ([] & d2 & Hc & Hrun). apply tx_lift_ok in Hc as [Hc ->].
  apply require_ok in Hc. bsplit.
  apply tx_bind_ok in Hrun as (prev & d3 & Hq & Hrun). apply tx_query_ok in Hq as [Hq ->].
  split; [by destruct (rr_Nodes req)|]. exists p. split; [done|]. split; [done|].
  simplify_eq. destruct (select_one _ _) as [row|].
  - inv_tx. by bsplit.
  - by eapply admit_removals_ok.
Qed.

Lemma CreateAutoscalerRemovals_err e c req d err d' : CreateAutoscalerRemovals e c req d = (Err err, d') -> d' = d.
Proof.
  unfold CreateAutoscalerRemovals. case_match; [by intros [= _ <-]|]. by intros [-> _]%run_tx_err.
Qed.

Lemma check_removals_length req nodes d ids : check_removals req nodes d = Ok ids -> length ids = length nodes.
Proof.
  revert ids. induction nodes as [|n nodes IH]; simpl; intros ids H; inv_ok; simpl; [done|].
  f_equal. by apply IH.
Qed.

Lemma map_fst_combine {A B} (l : list A) (k : list B) : length k = length l -> map fst (combine l k) = l.
Proof. revert k. induction l as [|a l IH]; intros [|b k]; simpl; try done. intros [= E]. by rewrite IH. Qed.

Section Removed.
Context (e : Env) (p : policy) (req : NodeRemovalRequest) (d d' : DB).
Context (Hp : loadPolicy (rr_NodeGroupID req) d = Ok p) (HR : removed e p req d d').

Lemma removed_shape : exists ids, check_removals req (rr_Nodes req) d = Ok ids /\
  d' = add_removals (removal_ops e p req (add64 (g_target_revision (group p)) 1) 0 (rr_Nodes req))
         (removal_rows e req 0 (combine (rr_Nodes req) ids))
         (set_node_groups (update_where (fun g => g_id g == rr_NodeGroupID req)
            (fun x => set_g_target_revision (add64 (g_target_revision (group p)) 1)
               (set_g_target_nodes (g_target_nodes x - Z.of_nat (length (rr_Nodes req))) x)) (node_groups d)) d).
Proof.
  destruct HR as [_ _ _ (ids & d1 & Hc & Hu & Hi)]. exists ids. split; [done|].
  apply removal_intents_shape in Hi as ->. apply update_group_ok in Hu as [-> _].
  by rewrite map_fst_combine by by eapply check_removals_length.
Qed.

Lemma removed_targets : Ledger d -> targets_ok d -> targets_ok d'.
Proof.
  intros HL HT g Hin. destruct removed_shape as (ids & _ & E). rewrite E in Hin. simpl in Hin.
  apply in_update_where in Hin as (g0 & H0 & ->). case_bool_decide as Eg; [|by apply HT].
  destruct HR as [_ Hroom Hmin (ids' & d1 & _ & Hu & _)]. destruct (loadPolicy_ok _ _ _ Hp) as (Hg & Hid & _).
  assert (g0 = group p) as -> by (apply (unique_key_in g_id (node_groups d)); auto using L_groups; congruence).
  apply update_group_ok in Hu as [-> Hchk]. simpl in Hchk.
  assert (group_check (set_g_target_revision (add64 (g_target_revision (group p)) 1)
    (set_g_target_nodes (g_target_nodes (group p) - Z.of_nat (length (rr_Nodes req))) (group p))) = true) as Hck.
  { apply Hchk. apply filter_In. simpl. split; [|by rewrite Eg, bool_decide_true].
    apply in_update_where. exists (group p). split; [done|]. by rewrite Eg, bool_decide_true. }
  pose proof (HT _ Hg) as Ht. unfold group_check in Hck. simpl in Hck. bsplit.
  unfold target_ok in *. simpl. rewrite revision_exact in * by done. unfold MaxInt64 in *. lia.
Qed.

Lemma removed_keep : Ledger d -> removals_exclusive d -> Ledger d' /\ removals_exclusive d'.
Proof.
  intros HL HX. destruct HR as [_ _ _ (ids & d1 & _ & Hu & Hi)].
  eapply removal_intents_keep; [exact Hi|..].
  - by rewrite <- (update_group_same _ _ _ _ Hu).
  - apply update_group_ok in Hu as [-> _]. exact HX.
Qed.
End Removed.

Lemma removal_rows_in e req nodes n pid : forall i, In (n, pid) nodes ->
  exists r, In r (removal_rows e req i nodes) /\ active_removal (rn_HostID n) r = true.
Proof.
  induction nodes as [|[m q] nodes IH]; simpl; [done|]. intros i [E|Hin].
  - simplify_eq. eexists. split; [by left|]. unfold active_removal. simpl. by rewrite !bool_decide_true.
  - destruct (IH (S i) Hin) as (r & Hr & Ha). exists r. auto.
Qed.

Lemma in_combine_l' {A B} (l : list A) (k : list B) a : length k = length l -> In a l -> exists b, In (a, b) (combine l k).
Proof.
  revert k. induction l as [|x l IH]; intros [|y k]; simpl; try done. intros [= E] [->|Ha]; [by eauto|].
  destruct (IH k E Ha) as [b Hb]. eauto.
Qed.

(** Each named host was free of removals and acceptable when it was checked. *)
Lemma check_removals_in req nodes d ids n : check_removals req nodes d = Ok ids -> In n nodes ->
  exists pid, check_removal req n d = Ok pid.
Proof.
  revert ids. induction nodes as [|m nodes IH]; simpl; intros ids H; [done|]. inv_ok.
  intros [->|Hn]; eauto.
Qed.

Lemma CreateAutoscalerRemovals_keeps e c req d r d' :
  Ledger d -> targets_ok d -> removals_exclusive d -> CreateAutoscalerRemovals e c req d = (r, d') ->
  Ledger d' /\ targets_ok d' /\ removals_exclusive d'.
Proof.
  intros HL HT HX H. destruct r as [u|err]; [|by apply CreateAutoscalerRemovals_err in H as ->].
  apply CreateAutoscalerRemovals_ok in H as (_ & p & Hp & _ & H).
  destruct (select_one _ _); [by destruct H as [_ ->]|].
  destruct (removed_keep _ _ _ _ _ H HL HX). split_and!; auto. by eapply removed_targets.
Qed.

(** ** [CreateRemoval] *)
Lemma CreateRemoval_err e c rev r d err d' : CreateRemoval e c rev r d = (Err err, d') -> d' = d.
Proof. unfold CreateRemoval. repeat (case_match; [by intros [= _ <-]|]). by intros [-> _]%run_tx_err. Qed.

Definition removal_target (r : NodeRemovalOperation) (p : policy) (d : DB) : list GroupRow :=
  if ro_PreserveDesiredCapacity r then node_groups d
  else update_where (fun g => g_id g == g_id (group p)) (fun x =>
         set_g_target_revision (add64 (g_target_revision (group p)) 1) (set_g_target_nodes (g_target_nodes x - 1) x))
         (node_groups d).

Lemma CreateRemoval_ok e c rev r d id d' : CreateRemoval e c rev r d = (Ok id, d') ->
  exists p h d1 d2, loadPolicy (ro_NodeGroupID r) d = Ok p /\ g_cluster_id (group p) = c /\
    g_target_revision (group p) = rev /\ In h (host d) /\ h_id h = ro_HostID r /\
    default "" (h_node_group_id h) = ro_NodeGroupID r /\
    d1 = set_node_groups (removal_target r p d) d /\
    (forall g, In g (removal_target r p d) -> g_id g = g_id (group p) -> ro_PreserveDesiredCapacity r = false -> group_check g = true) /\
    (exists o, insert_operation o d1 = Ok d2 /\ o_id o = id /\ o_kind o = Kremove_node /\ o_host_id o = Some (ro_HostID r)) /\
    (exists x, insert_removal x d2 = Ok d' /\ rm_host_id x = ro_HostID r /\ rm_completed_at x = None).
Proof.
  unfold CreateRemoval. repeat (case_match; [done|]). rewrite run_tx_ok. intros H'. inv_tx. bsplit.
  match goal with H : select_one _ _ = Some ?h |- _ => apply select_one_some in H as [Hin Hh]; exists x, h end.
  bsplit. unfold removal_target. destruct (ro_PreserveDesiredCapacity r) eqn:E; simpl in *; inv_tx.
  - match goal with H : insert_operation _ ?d0 = _ |- _ => exists d0; eexists; split_and!; eauto; by destruct d0 end.
  - match goal with H : update_group _ _ _ = Ok _ |- _ => apply update_group_ok in H as [-> Hck] end.
    eexists _, _. split_and!; eauto; try done.
    intros g Hg Hid _. apply Hck. apply filter_In. split; [done|]. by rewrite Hid, bool_decide_true.
Qed.

Lemma CreateRemoval_keeps e c rev r d res d' :
  Ledger d -> targets_ok d -> removals_exclusive d -> CreateRemoval e c rev r d = (res, d') ->
  Ledger d' /\ targets_ok d' /\ removals_exclusive d'.
Proof.
  intros HL HT HX H. destruct res as [id|err]; [|by apply CreateRemoval_err in H as ->].
  apply CreateRemoval_ok in H as (p & h & d1 & d2 & Hp & _ & Hrev & _ & _ & _ & -> & Hck & (o & Ho & _ & Hk & _) & (x & Hx & _)).
  destruct (loadPolicy_ok _ _ _ Hp) as (Hg & _).
  assert (Ledger (set_node_groups (removal_target r p d) d)) as HL1.
  { unfold removal_target. destruct (ro_PreserveDesiredCapacity r); [by destruct d|].
    rewrite <- (Ledger_proper d); [done|]. split; simpl; try done. symmetry. by apply update_where_map. }
  apply insert_operation_ok in Ho as [-> Hf].
  pose proof (insert_removal_exclusive _ _ _ Hx HX) as HX'. apply insert_removal_ok in Hx as [-> _]. split_and!; [..|done].
  - apply Ledger_set_removals, Ledger_add_operation; [done|by rewrite Hk|]. intros y Hy. by apply Hf.
  - intros g Hin. simpl in Hin. specialize (Hck g Hin). unfold removal_target in *.
    destruct (ro_PreserveDesiredCapacity r); [by apply HT|].
    apply in_update_where in Hin as (g0 & H0 & ->). case_bool_decide as E; [|by apply HT].
    assert (g0 = group p) as -> by by apply (unique_key_in g_id (node_groups d)); auto using L_groups.
    specialize (Hck E eq_refl). pose proof (HT _ Hg) as Ht. unfold group_check in Hck. simpl in Hck. bsplit.
    unfold target_ok in *. simpl. pose proof (wrap64_range (g_target_revision (group p) + 1)).
    unfold add64, int64 in *. lia.
Qed.

(** ** Theorems *)

(** C8. A removal request of the autoscaler is admitted as a whole or not at all.
    When it is admitted for the first time the group's target drops by exactly the
    number of named nodes and its revision rises by one, every named host, none of
    which had an unfinished removal, now has exactly one, and no host or reservation
    changes, so credits stay until termination.  The ledger, the target bounds and the
    exclusivity of removals hold afterwards in every case. *)
Theorem removals_atomic e c req d r d' :
  Ledger d -> targets_ok d -> removals_exclusive d -> CreateAutoscalerRemovals e c req d = (r, d') ->
  (Ledger d' /\ targets_ok d' /\ removals_exclusive d') /\
  host d' = host d /\ infrastructure_reservations d' = infrastructure_reservations d /\
  match r with
  | Err _ => d' = d
  | Ok _ =>
      select_one (recorded_request req) (operations d) = None ->
      exists g g', In g (node_groups d) /\ In g' (node_groups d') /\ g_id g = rr_NodeGroupID req /\ g_id g' = g_id g /\
        g_cluster_id g = c /\ g_target_nodes g' = g_target_nodes g - Z.of_nat (length (rr_Nodes req)) /\
        g_target_revision g = rr_ExpectedTargetRevision req /\ g_target_revision g' = g_target_revision g + 1 /\
        forall n, In n (rr_Nodes req) ->
          rows_affected (active_removal (rn_HostID n)) (node_removal_operations d) = 0 /\
          rows_affected (active_removal (rn_HostID n)) (node_removal_operations d') = 1
  end.
Proof.
  intros HL HT HX H. pose proof (CreateAutoscalerRemovals_keeps _ _ _ _ _ _ HL HT HX H) as HK. split; [done|].
  destruct r as [u|err]; [|by apply CreateAutoscalerRemovals_err in H as ->].
  apply CreateAutoscalerRemovals_ok in H as (_ & p & Hp & Hc & H).
  destruct (select_one _ _); [destruct H as [_ ->]; done|].
  destruct (removed_shape _ _ _ _ _ H) as (ids & Hids & E). split; [by rewrite E|]. split; [by rewrite E|]. intros _.
  destruct (loadPolicy_ok _ _ _ Hp) as (Hg & Hid & _).
  exists (group p), (set_g_target_revision (add64 (g_target_revision (group p)) 1)
    (set_g_target_nodes (g_target_nodes (group p) - Z.of_nat (length (rr_Nodes req))) (group p))).
  split_and!; try done; simpl.
  - rewrite E. simpl. apply in_update_where. exists (group p). split; [done|]. by rewrite bool_decide_true.
  - by apply H.
  - apply revision_exact; [by apply HT|apply H].
  - intros n Hn. destruct (check_removals_in _ _ _ _ _ Hids Hn) as (pid & Hpid). split.
    + unfold check_removal in Hpid. inv_ok. bsplit. by apply rows_affected_zero, exists_row_false.
    + destruct (in_combine_l' (rr_Nodes req) ids n) as [q Hq]; [by eapply check_removals_length|done|].
      destruct (removal_rows_in e req _ n q 0 Hq) as (row & Hrow & Ha).
      apply (rows_affected_one _ _ row); [|done|apply HK]. rewrite E. simpl. apply in_app_iff. by right.
Qed.

(** Retrying a removal request is harmless: after any success the same request
    succeeds again and changes nothing, and a different request that reuses its ID is
    refused, so one request never removes two sets of nodes. *)
Theorem removals_replay e e' c req req' d d' :
  CreateAutoscalerRemovals e c req d = (Ok tt, d') ->
  CreateAutoscalerRemovals e' c req d' = (Ok tt, d') /\
  (rr_NodeGroupID req' = rr_NodeGroupID req -> rr_RequestID req' = rr_RequestID req -> req' <> req ->
   exists err, CreateAutoscalerRemovals e' c req' d' = (Err err, d')).
Proof.
  intros H. pose proof H as H0. apply CreateAutoscalerRemovals_ok in H as (Hne & p & Hp & Hc & H).
  assert (exists p' o, loadPolicy (rr_NodeGroupID req) d' = Ok p' /\ g_cluster_id (group p') = c /\
            select_one (recorded_request req) (operations d') = Some o /\ o_parameters o = PRemoval req)
    as (p' & o & Hp' & Hc' & Hs & Hpar).
  { destruct (select_one (recorded_request req) (operations d)) as [o|] eqn:Es.
    - destruct H as [Hpar ->]. by exists p, o.
    - destruct (removed_shape _ _ _ _ _ H) as (ids & _ & ->). destruct (rr_Nodes req) as [|n ns] eqn:En; [done|]. eexists _, _. split_and!.
      + by apply (loadPolicy_retarget _ (add64 (g_target_revision (group p)) 1)
                    (fun x => g_target_nodes x - Z.of_nat (length (n :: ns))) d).
      + done.
      + simpl. apply select_one_middle; [done|]. unfold recorded_request. simpl. by rewrite !bool_decide_true.
      + done. }
  split.
  - unfold CreateAutoscalerRemovals in H0 |- *. destruct (_ || _); [done|]. clear H0. apply run_tx_ok.
    unfold tx_bind, tx_query, tx_lift. rewrite Hp'. simpl. rewrite (bool_decide_true (g_cluster_id _ = _)) by done.
    simpl. rewrite Hs. simpl. by rewrite bool_decide_true.
  - intros Eg Er Hd. destruct (CreateAutoscalerRemovals e' c req' d') as [[u|err] d2] eqn:E2.
    + exfalso. apply CreateAutoscalerRemovals_ok in E2 as (_ & p2 & _ & _ & E2).
      assert (select_one (recorded_request req') (operations d') = Some o) as Es'.
      { rewrite <- Hs. unfold select_one, recorded_request. by rewrite Eg, Er. }
      rewrite Es', Hpar in E2. destruct E2 as [[= E2] _]. by destruct Hd.
    + exists err. by apply CreateAutoscalerRemovals_err in E2 as ->.
Qed.

(** A single removal takes exclusive ownership of its host under compare and swap.
    On success the host belongs to the named group of the caller's cluster, the caller
    knew the current revision, the host has exactly one unfinished removal, a repair or
    maintenance removal leaves every target alone, and an autoscaler removal lowers its
    group's target; the invariants hold, and an error changes nothing. *)
Theorem removal_owns_host e c rev r d res d' :
  Ledger d -> targets_ok d -> removals_exclusive d -> CreateRemoval e c rev r d = (res, d') ->
  (Ledger d' /\ targets_ok d' /\ removals_exclusive d') /\
  match res with
  | Err _ => d' = d
  | Ok id =>
      exists p h, loadPolicy (ro_NodeGroupID r) d = Ok p /\ g_cluster_id (group p) = c /\ g_target_revision (group p) = rev /\
        In h (host d) /\ h_id h = ro_HostID r /\ default "" (h_node_group_id h) = ro_NodeGroupID r /\
        node_groups d' = removal_target r p d /\ host d' = host d /\
        infrastructure_reservations d' = infrastructure_reservations d /\
        rows_affected (active_removal (ro_HostID r)) (node_removal_operations d') = 1
  end.
Proof.
  intros HL HT HX H. pose proof (CreateRemoval_keeps _ _ _ _ _ _ _ HL HT HX H) as HK. split; [done|].
  destruct res as [id|err]; [|by apply CreateRemoval_err in H].
  apply CreateRemoval_ok in H as (p & h & d1 & d2 & Hp & Hc & Hrev & Hin & Hid & Hgr & -> & _ & (o & Ho & _) & (x & Hx & Exh & Exc)).
  apply insert_operation_ok in Ho as [-> _]. apply insert_removal_ok in Hx as [E _].
  exists p, h. split_and!; try done; try by rewrite E.
  apply (rows_affected_one _ _ x); [rewrite E; simpl; apply in_app_iff; right; by left| |apply HK].
  unfold active_removal. by rewrite Exh, Exc, !bool_decide_true.
Qed.

(** ** Witnesses: the worker that became READY is removed *)
Definition demo_node : RemovalNode := mkRemovalNode (op_HostID claimed_op) "node-1" "aws:///us-west-2a/i-1".
Definition demo_removal : NodeRemovalRequest := mkNodeRemovalRequest demo_gid "rm-1" 1 [demo_node].
Definition db_removed : DB := snd (CreateAutoscalerRemovals (env_at "r" 5000) "c1" demo_removal db_ready).

#[local] Existing Instance demo_net.
#[local] Existing Instance demo_digest.

Lemma db_ready_invariants : Ledger db_ready /\ targets_ok db_ready /\ removals_exclusive db_ready.
Proof.
  pose proof (write_framed 3000 claimed_op demo_finalize db_releasing) as F. split_and!.
  - unfold db_ready. rewrite <- (framed_same_ledger _ _ _ _ F). apply db_releasing_ledger.
  - assert (node_groups db_ready = node_groups db_two) as E by (vm_compute; reflexivity).
    unfold targets_ok. rewrite E. apply db_two_ledger.
  - intros h. vm_compute. discriminate.
Qed.

Lemma removals_atomic_witness :
  CreateAutoscalerRemovals (env_at "r" 5000) "c1" demo_removal db_ready = (Ok tt, db_removed) /\ removals_exclusive db_removed /\ map g_target_nodes (node_groups db_removed) = [1].
Proof.
  assert (CreateAutoscalerRemovals (env_at "r" 5000) "c1" demo_removal db_ready = (Ok tt, db_removed)) as E
    by (vm_compute; reflexivity).
  split; [exact E|]. split; [|vm_compute; reflexivity]. destruct db_ready_invariants as (HL & HT & HX).
  apply (removals_atomic _ _ _ _ _ _ HL HT HX E).
Defined.

Lemma removals_replay_witness :
  CreateAutoscalerRemovals (env_at "s" 6000) "c1" demo_removal db_removed = (Ok tt, db_removed).
Proof.
  apply (removals_replay (env_at "r" 5000) (env_at "s" 6000) "c1" demo_removal demo_removal db_ready db_removed).
  vm_compute. reflexivity.
Defined.

Definition demo_repair : NodeRemovalOperation :=
  mkNodeRemovalOperation demo_gid (op_HostID claimed_op) "node-1" "i-1" "repair" true (Some 9000).

Lemma removal_owns_host_witness :
  let d' := snd (CreateRemoval (env_at "r" 5000) "c1" 1 demo_repair db_ready) in
  is_ok (fst (CreateRemoval (env_at "r" 5000) "c1" 1 demo_repair db_ready)) = true /\ removals_exclusive d'.
Proof.
  intros d'. split; [vm_compute; reflexivity|]. destruct db_ready_invariants as (HL & HT & HX).
  destruct (removal_owns_host (env_at "r" 5000) "c1" 1 demo_repair db_ready _ _ HL HT HX (surjective_pairing _))
    as [(_ & _ & H) _]. exact H.
Defined.

(** Finding: lowering at the last revision is not refused by the code but by the
    database, whose CHECK constraint rejects the wrapped revision. *)
Example CreateRemoval_revision_overflow :
  let g := set_g_target_revision MaxInt64 (set_g_target_nodes 1 demo_group) in
  let d := set_node_groups [g] db_ready in
  let r := mkNodeRemovalOperation demo_gid (op_HostID claimed_op) "node-1" "i-1" "autoscaler-delete" false (Some 9000) in
  CreateRemoval (env_at "r" 5000) "c1" MaxInt64 r d = (Err (ErrSql "23514"), d).
Proof. vm_compute. reflexivity. Qed.
