(* ===== verification/Scheduling.v ===== *)
(** * Naming and scheduling metadata: pkg/api/naming.go, pkg/api/scheduling.go,
      the registration contract of pkg/api/worker.go

    The label validators of k8s.io/apimachinery are a parameter ([K8s]). *)
From S2P Require Import Prelude GoStrings Api Handoff.
From Stdlib Require Import Ascii String.

Local Open Scope string_scope.
Local Open Scope list_scope.
Local Open Scope Z_scope.
Local Open Scope crane_scope.

(** [validation.IsQualifiedName] and [validation.IsValidLabelValue] with no complaints. *)
Class K8s : Type := { qualified_name : string -> bool; valid_label_value : string -> bool }.

(** ** Node-group names *)
Definition naming_parts (n : NodeGroupNaming) : list string :=
  [n_Provider n; n_DevelopmentStage n; n_Region n; n_AZ n; n_Group n].

Definition FormatNodeGroupID (n : NodeGroupNaming) : result string :=
  if forallb namingComponent (naming_parts n) then Ok (Join (naming_parts n) "-")
  else Err (ErrMsg "node-group naming requires provider, development_stage, region, az and group using lowercase alphanumeric components with internal hyphens").

Definition set_gi_ID (v : string) (g : NodeGroupInput) : NodeGroupInput :=
  mkNodeGroupInput (gi_Naming g) v (gi_ClusterID g) (gi_NodePoolID g) (gi_ZoneID g) (gi_CapacityClass g)
    (gi_ProviderZoneID g) (gi_MinNodes g) (gi_MaxNodes g) (gi_TemplateRevision g) (gi_PerNode g)
    (gi_LaunchParameters g) (gi_Scheduling g).

(** The receiver with its ID filled in. *)
Definition NormalizeID (g : NodeGroupInput) : result NodeGroupInput :=
  let* id := FormatNodeGroupID (gi_Naming g) in
  guard negb ((gi_ID g != "") && (gi_ID g != id)) else ErrMsg "node-group ID does not match naming inputs" in
  Ok (set_gi_ID id g).

(** ** Scheduling labels and taints *)
Definition ProvisioningTaint : string := "platform.crane.io/provisioning".

Definition canonical_labels (t : SchedulingTemplate) (pool : string) : gmap string string :=
  <["kubernetes.io/os" := "linux"]> (<["kubernetes.io/arch" := Architecture t]>
  (<["topology.kubernetes.io/region" := sRegion t]> (<["topology.kubernetes.io/zone" := sZone t]>
  (<["node.kubernetes.io/instance-type" := InstanceType t]> (<["platform.crane.io/node-pool" := pool]> ∅))))).

(** The template's own labels override the canonical ones. *)
Definition SchedulingLabels (t : SchedulingTemplate) (pool : string) : gmap string string :=
  Labels t ∪ canonical_labels t pool.

Definition reserved_key (k : string) : bool :=
  let '(namespace, _, qualified) := Cut k "/"%char in
  qualified && ((namespace == "kubernetes.io") || HasSuffix namespace ".kubernetes.io" ||
                (namespace == "k8s.io") || HasSuffix namespace ".k8s.io").

Definition label_ok `{K8s} (canonical : gmap string string) (kv : string * string) : bool :=
  let '(k, v) := kv in
  negb (negb (qualified_name k) || negb (valid_label_value v) || (v == "")) &&
  match canonical !! k with
  | Some expected => v == expected
  | None => negb (reserved_key k || HasPrefix k "platform.crane.io/")
  end.

Definition taint_effects : list string := ["NoSchedule"; "NoExecute"; "PreferNoSchedule"].

(** The loop over the taints with its [seen] map, keyed by key and effect. *)
Fixpoint taints_ok `{K8s} (seen : list string) (l : list SchedulingTaint) : bool :=
  match l with
  | [] => true
  | taint :: rest =>
      let key := String.append (taint_Key taint) (String.append "/" (taint_Effect taint)) in
      if (taint_Key taint == ProvisioningTaint) || one_of key seen || negb (qualified_name (taint_Key taint)) ||
         negb (valid_label_value (taint_Value taint)) || negb (one_of (taint_Effect taint) taint_effects)
      then false else taints_ok (key :: seen) rest
  end.

Definition ValidateScheduling `{K8s} (t : SchedulingTemplate) (pool : string) : result unit :=
  let invalid := ErrMsg "invalid scheduling metadata" in
  guard negb ((InstanceType t == "") || (sRegion t == "") || (sZone t == "") || (pool == "") ||
              ((Architecture t != "amd64") && (Architecture t != "arm64"))) else invalid in
  guard forallb (label_ok (canonical_labels t pool)) (map_to_list (SchedulingLabels t pool)) else invalid in
  guard taints_ok [] (Taints t) else invalid in
  Ok tt.

(** ** The worker's registration contract *)
Record WorkerRegistration : Type := mkRegistration {
  wr_ClusterID : string; wr_HostID : string; wr_NodeGroupID : string; wr_NodePoolID : string;
  wr_TemplateRevision : string; wr_NodeName : string; wr_ProviderID : string; wr_Scheduling : SchedulingTemplate }.

Definition Validate `{K8s} `{Digest} (r : WorkerRegistration) : result unit :=
  require (negb ((wr_ClusterID r == "") || (wr_HostID r == "") || (wr_NodeGroupID r == "") || (wr_NodePoolID r == "") ||
                 (wr_TemplateRevision r == "") || (wr_ProviderID r == "") || (wr_NodeName r != WorkerNodeName (wr_HostID r)) ||
                 negb (is_ok (ValidateScheduling (wr_Scheduling r) (wr_NodePoolID r)))))
    (ErrMsg "invalid worker registration").

(** ** Facts *)
Section Facts.
Context {k8s : K8s} {digest : Digest}.

Lemma ValidateScheduling_ok t pool : ValidateScheduling t pool = Ok tt ->
  (forall k v, SchedulingLabels t pool !! k = Some v -> label_ok (canonical_labels t pool) (k, v) = true) /\
  taints_ok [] (Taints t) = true.
Proof.
  unfold ValidateScheduling. intros H. inv_ok. split; [|done]. intros k v Hkv.
  match goal with H : forallb _ _ = true |- _ => apply (proj1 (forallb_forall _ _) H) end.
  apply list_elem_of_In, elem_of_map_to_list, Hkv.
Qed.

(** An accepted template cannot override what Crane itself advertises. *)
Lemma canonical_label_kept t pool k v : ValidateScheduling t pool = Ok tt ->
  canonical_labels t pool !! k = Some v -> SchedulingLabels t pool !! k = Some v.
Proof.
  intros [Hl _]%ValidateScheduling_ok Hk. destruct (SchedulingLabels t pool !! k) as [w|] eqn:E.
  - specialize (Hl k w E). unfold label_ok in Hl. rewrite Hk in Hl. bsplit. by subst.
  - apply lookup_union_None in E as [_ E]. by rewrite Hk in E.
Qed.

(** A label outside the canonical set stays out of the reserved name spaces. *)
Lemma custom_label_unreserved t pool k v : ValidateScheduling t pool = Ok tt ->
  Labels t !! k = Some v -> canonical_labels t pool !! k = None ->
  reserved_key k = false /\ HasPrefix k "platform.crane.io/" = false.
Proof.
  intros [Hl _]%ValidateScheduling_ok Hk Hn.
  assert (SchedulingLabels t pool !! k = Some v) as E by by apply lookup_union_Some_l.
  specialize (Hl k v E). unfold label_ok in Hl. rewrite Hn in Hl. by bsplit.
Qed.

Lemma taints_ok_key seen l x : taints_ok seen l = true -> In x l -> taint_Key x <> ProvisioningTaint.
Proof.
  revert seen. induction l as [|y l IH]; simpl; intros seen; [done|].
  case_match eqn:E; [done|]. intros H [->|Hx]; [|by eapply IH]. by bsplit.
Qed.
End Facts.

(** Validated scheduling metadata cannot spoof the platform: every label that Crane
    derives itself (architecture, region, zone, instance type, pool) is advertised with
    Crane's value, a template's own labels stay out of the Kubernetes and Crane name
    spaces, and no taint imitates the provisioning quarantine. *)
Theorem scheduling_cannot_spoof {k8s : K8s} t pool : ValidateScheduling t pool = Ok tt ->
  (forall k v, canonical_labels t pool !! k = Some v -> SchedulingLabels t pool !! k = Some v) /\
  (forall k v, Labels t !! k = Some v -> canonical_labels t pool !! k = None ->
     reserved_key k = false /\ HasPrefix k "platform.crane.io/" = false) /\
  (forall x, In x (Taints t) -> taint_Key x <> ProvisioningTaint).
Proof.
  intros H. split_and!; intros; eauto using canonical_label_kept, custom_label_unreserved.
  eapply taints_ok_key; [|done]. by apply (ValidateScheduling_ok t pool).
Qed.

Lemma scheduling_cannot_spoof_witness :
  let k8s := {| qualified_name := fun k => k != ""; valid_label_value := fun _ => true |} in
  let t := mkScheduling "m7i.large" "amd64" "us-west-2" "us-west-2a" {[ "team" := "core" ]}
             [mkTaint "dedicated" "gpu" "NoSchedule"] in
  @ValidateScheduling k8s t "pool" = Ok tt /\
  SchedulingLabels t "pool" !! "platform.crane.io/node-pool" = Some "pool".
Proof.
  intros k8s t. assert (@ValidateScheduling k8s t "pool" = Ok tt) as E by (vm_compute; reflexivity).
  split; [exact E|]. apply (scheduling_cannot_spoof t "pool" E). vm_compute. reflexivity.
Defined.

(** The rendered name is not injective: hyphens are allowed inside components, so
    the ID alone does not determine the naming inputs. *)
Example FormatNodeGroupID_ambiguous :
  FormatNodeGroupID (mkNaming "aws" "prod-us" "west" "a" "general") =
  FormatNodeGroupID (mkNaming "aws" "prod" "us-west" "a" "general").
Proof. reflexivity. Qed.
