(* ===== verification/Catalog.v ===== *)
(** * The topology catalog: internal/capacity/catalog.go, scheduling.go,
      discovery.go and hosts.go

    Zones, clusters, memberships, pools and groups are inserted once and accept an
    exact retry; the reads that operators, the autoscaler adapter and controllers
    use are pure functions of the database. *)
From S2P Require Import Prelude GoStrings Sql Api Schema Admission Handoff Scheduling.

Local Open Scope string_scope.
Local Open Scope list_scope.
Local Open Scope Z_scope.
Local Open Scope crane_scope.

(** ** Statements *)

(** A statement reports the rows it affected, or fails without effect. *)
Definition Stmt : Type := DB -> result (Z * DB).

Definition topologyError (e : error) : error :=
  match e with
  | ErrSql s => if s == "23505" then ErrConflict
                else if one_of s ["23503"; "23514"; "23502"] then ErrInvalid else e
  | _ => e
  end.

(** Autocommitted: what the statement and its triggers did stays, even when no row was affected. *)
Definition immutableInsert (stmt : Stmt) : Store unit :=
  fun d => match stmt d with
           | Err e => (Err (topologyError e), d)
           | Ok (n, d') => if n == 0 then (Err ErrConflict, d') else (Ok tt, d')
           end.

(** The same call on a transaction. *)
Definition in_tx {A} (m : Store A) : Tx A :=
  fun d => match m d with (Ok a, d') => Ok (a, d') | (Err e, _) => Err e end.

(** [ON CONFLICT(key) DO UPDATE ... WHERE same]: the outcome on an existing row. *)
Definition on_conflict (same : bool) (updated d : DB) : result (Z * DB) :=
  if same then Ok (1, updated) else Ok (0, d).

(** ** Zones *)

(** Trigger [crane_zone_region]: one Kubernetes region per provider region, both ways. *)
Definition zone_region (z : ZoneRow) (d : DB) : result DB :=
  match select_one (fun r => (tr_provider r == z_provider z) && (tr_account_id r == z_account_id z) &&
                             (tr_region r == z_region z)) (topology_regions d) with
  | Some r => if tr_kubernetes_region r == z_kubernetes_region z then Ok d else Err (ErrSql "23505")
  | None =>
      let* t := insert_row (fun r => tr_kubernetes_region r == z_kubernetes_region z)
                  (mkRegion (z_provider z) (z_account_id z) (z_region z) (z_kubernetes_region z)) (topology_regions d) in
      Ok (set_topology_regions t d)
  end.

Definition same_zone (x z : ZoneRow) : bool :=
  (z_provider x == z_provider z) && (z_account_id x == z_account_id z) && (z_region x == z_region z) &&
  (z_provider_zone_id x == z_provider_zone_id z) && (z_kubernetes_region x == z_kubernetes_region z) &&
  (z_kubernetes_zone x == z_kubernetes_zone z).

Definition insert_zone (z : ZoneRow) : Stmt := fun d =>
  let* d1 := zone_region z d in
  guard negb ((z_kubernetes_region z == "") || (z_kubernetes_zone z == "")) else ErrSql "23514" in
  match select_one (fun x => z_id x == z_id z) (zones d1) with
  | Some x => if same_zone x z then let* d2 := zone_region x d1 in Ok (1, d2) else Ok (0, d1)
  | None =>
      let* t := insert_row (fun x => (z_kubernetes_zone x == z_kubernetes_zone z) ||
                  ((z_provider x == z_provider z) && (z_account_id x == z_account_id z) &&
                   (z_region x == z_region z) && (z_provider_zone_id x == z_provider_zone_id z))) z (zones d1) in
      Ok (1, set_zones t d1)
  end.

Definition or_default (v dflt : string) : string := if v == "" then dflt else v.

Definition zone_row (z : ZoneInput) (lifecycle : string) : ZoneRow :=
  mkZone (zi_ID z) (zi_Provider z) (zi_AccountID z) (zi_Region z) (zi_ProviderZoneID z)
    (or_default (zi_KubernetesRegion z) (zi_Region z)) (or_default (zi_KubernetesZone z) (zi_ProviderZoneID z)) true lifecycle.

Definition createZone `{K8s} (z : ZoneInput) (lifecycle : string) : Store unit :=
  let row := zone_row z lifecycle in
  if (zi_ID z == "") || (zi_Provider z == "") || (zi_AccountID z == "") || (zi_Region z == "") || (zi_ProviderZoneID z == "")
  then st_ret (Err ErrInvalid)
  else if negb (valid_label_value (z_kubernetes_region row)) || negb (valid_label_value (z_kubernetes_zone row))
  then st_ret (Err ErrInvalid)
  else immutableInsert (insert_zone row).

(** ** Clusters and memberships *)
Definition same_cluster (seed : bool) (x c : ClusterRow) : bool :=
  (c_kubeadm_version x == c_kubeadm_version c) && (c_kubelet_version x == c_kubelet_version c) &&
  (c_container_runtime x == c_container_runtime c) && (c_cni x == c_cni c) &&
  ((c_api_server_endpoint x == c_api_server_endpoint c) || (seed && (c_api_server_endpoint c == ""))) &&
  ((c_ca_cert_hash x == c_ca_cert_hash c) || (seed && (c_ca_cert_hash c == ""))).

Definition insert_cluster (c : ClusterRow) (seed : bool) : Stmt := fun d =>
  match select_one (fun x => c_id x == c_id c) (clusters d) with
  | Some x => on_conflict (same_cluster seed x c) d d
  | None => Ok (1, set_clusters (clusters d ++ [c]) d)
  end.

Definition createCluster (c : ClusterInput) (lifecycle : string) (seed : bool) : Store unit :=
  if (ci_ID c == "") || (ci_KubeadmVersion c == "") || (ci_KubeletVersion c == "") || (ci_ContainerRuntime c == "") ||
     (ci_CNI c != "cilium")
  then st_ret (Err ErrInvalid)
  else immutableInsert (insert_cluster (mkCluster (ci_ID c) (ci_APIServerEndpoint c) (ci_CACertHash c) (ci_KubeadmVersion c)
         (ci_KubeletVersion c) (ci_ContainerRuntime c) (ci_CNI c) lifecycle) seed).

Definition normalizeMembership (m : ClusterZoneInput) : result ClusterZoneInput :=
  let m := mkClusterZoneInput (mi_ClusterID m) (mi_ZoneID m) (or_default (mi_LifecycleState m) "requested")
             (or_default (mi_AccessState m) "pending") in
  guard negb ((mi_ClusterID m == "") || (mi_ZoneID m == "")) else ErrInvalid in
  guard one_of (mi_LifecycleState m) ["requested"; "initializing"; "ready"; "failed"] else ErrInvalid in
  guard one_of (mi_AccessState m) ["pending"; "approved"; "revoked"] else ErrInvalid in
  Ok m.

Definition member_key (m x : MemberRow) : bool := (m_cluster_id x == m_cluster_id m) && (m_zone_id x == m_zone_id m).

Definition insert_member (m : MemberRow) (seed : bool) : Stmt := fun d =>
  match select_one (member_key m) (cluster_zones d) with
  | Some x => on_conflict (seed || ((m_lifecycle_state x == m_lifecycle_state m) && (m_access_state x == m_access_state m))) d d
  | None =>
      guard exists_row (fun c => c_id c == m_cluster_id m) (clusters d) && exists_row (fun z => z_id z == m_zone_id m) (zones d)
        else ErrSql "23503" in
      Ok (1, set_cluster_zones (cluster_zones d ++ [m]) d)
  end.

Definition member_row (m : ClusterZoneInput) : MemberRow :=
  mkMember (mi_ClusterID m) (mi_ZoneID m) (mi_LifecycleState m) (mi_AccessState m).

Definition createMembership (m : ClusterZoneInput) (seed : bool) : Store unit :=
  match normalizeMembership m with
  | Err e => st_ret (Err e)
  | Ok m => immutableInsert (insert_member (member_row m) seed)
  end.

(** ** Pools and groups *)
Definition insert_pool (p : PoolRow) : Stmt := fun d =>
  match select_one (fun x => p_id x == p_id p) (node_pools d) with
  | Some x => on_conflict (p_limits x == p_limits p) d d
  | None => Ok (1, set_node_pools (node_pools d ++ [p]) d)
  end.

Definition createPool (p : NodePoolInput) : Store unit :=
  if (pi_ID p == "") || (VCPU (pi_Limits p) <? 0) || (MemoryMiB (pi_Limits p) <? 0) || (Nodes (pi_Limits p) <? 0)
  then st_ret (Err ErrInvalid)
  else immutableInsert (insert_pool (mkPool (pi_ID p) true (pi_Limits p))).

(** [COALESCE(scheduling->>'instance_type','')='' AND COALESCE(scheduling->>'zone','')='']. *)
Definition unscheduled (g : GroupRow) : bool := (InstanceType (g_scheduling g) == "") && (sZone (g_scheduling g) == "").

Definition same_group (x g : GroupRow) : bool :=
  (g_cluster_id x == g_cluster_id g) && (g_zone_id x == g_zone_id g) && (g_node_pool_id x == g_node_pool_id g) &&
  (g_capacity_class x == g_capacity_class g) && (g_provider_zone_id x == g_provider_zone_id g) &&
  (g_min_nodes x == g_min_nodes g) && (g_max_nodes x == g_max_nodes g) && (g_template_revision x == g_template_revision g) &&
  (g_vcpu x == g_vcpu g) && (g_memory_mib x == g_memory_mib g) && (g_launch_parameters x == g_launch_parameters g) &&
  (g_naming x == g_naming g).

(** The foreign keys of [node_groups]. *)
Definition group_references (g : GroupRow) (d : DB) : bool :=
  exists_row (fun m => membership_of g m) (cluster_zones d) &&
  exists_row (fun p => p_id p == g_node_pool_id g) (node_pools d) &&
  exists_row (fun z => (z_id z == g_zone_id g) && (z_provider_zone_id z == g_provider_zone_id g)) (zones d) &&
  exists_row (fun z => (z_id z == g_zone_id g) && (z_provider z == n_Provider (g_naming g)) &&
                       (z_region z == n_Region (g_naming g))) (zones d).

Definition insert_group (g : GroupRow) : Stmt := fun d =>
  guard group_check g else ErrSql "23514" in
  match select_one (fun x => g_id x == g_id g) (node_groups d) with
  | Some x =>
      on_conflict (same_group x g && ((g_scheduling x == g_scheduling g) || unscheduled x))
        (set_node_groups (update_where (fun y => g_id y == g_id g)
           (fun y => set_g_scheduling (if unscheduled y then g_scheduling g else g_scheduling y) y) (node_groups d)) d) d
  | None =>
      guard group_references g d else ErrSql "23503" in
      Ok (1, set_node_groups (node_groups d ++ [g]) d)
  end.

Definition group_row (g : NodeGroupInput) (launch : Json) : GroupRow :=
  mkGroup (gi_Naming g) (gi_ID g) (gi_ClusterID g) (gi_ZoneID g) (gi_NodePoolID g) (gi_CapacityClass g)
    (gi_ProviderZoneID g) 0 0 (gi_MinNodes g) (gi_MaxNodes g) (gi_TemplateRevision g) "active"
    (VCPU (gi_PerNode g)) (MemoryMiB (gi_PerNode g)) launch (gi_Scheduling g).

(** Any scheduling field that is set. *)
Definition has_scheduling (t : SchedulingTemplate) : bool :=
  (InstanceType t != "") || (sRegion t != "") || (sZone t != "") || (Architecture t != "") ||
  (Labels t != ∅) || (negb (length (Taints t) =? 0)%nat).

Definition validateScheduling `{K8s} (t : SchedulingTemplate) (pool : string) : result unit :=
  if is_ok (ValidateScheduling t pool) then Ok tt else Err ErrInvalid.

(** The zone that a group's scheduling metadata must name. *)
Definition check_group_scheduling `{K8s} (g : NodeGroupInput) (d : DB) : result unit :=
  if has_scheduling (gi_Scheduling g) then
    let* _ := validateScheduling (gi_Scheduling g) (gi_NodePoolID g) in
    match select_one (fun z => z_id z == gi_ZoneID g) (zones d) with
    | Some z => require ((sRegion (gi_Scheduling g) == z_kubernetes_region z) && (sZone (gi_Scheduling g) == z_kubernetes_zone z)) ErrInvalid
    | None => Err ErrInvalid
    end
  else Ok tt.

Definition createGroup `{K8s} (g : NodeGroupInput) : Store unit := fun d =>
  match NormalizeID g with
  | Err _ => (Err ErrInvalid, d)
  | Ok g =>
      if (gi_ClusterID g == "") || (gi_ZoneID g == "") || (gi_NodePoolID g == "") || (gi_CapacityClass g == "") ||
         (gi_TemplateRevision g == "") || (gi_MinNodes g <? 0) || (gi_MaxNodes g <? gi_MinNodes g) ||
         (VCPU (gi_PerNode g) <=? 0) || (MemoryMiB (gi_PerNode g) <=? 0)
      then (Err ErrInvalid, d)
      else match gi_LaunchParameters g with
           | None => (Err ErrInvalid, d)
           | Some launch =>
               match check_group_scheduling g d with
               | Err e => (Err e, d)
               | Ok _ => immutableInsert (insert_group (group_row g launch)) d
               end
           end
  end.

(** ** Seeding *)
Definition seedFirstZoneTx `{K8s} (i : FirstZoneInput) (ready : bool) : Tx unit :=
  tx! g := tx_lift (match NormalizeID (fz_Group i) with Ok g => Ok g | Err _ => Err ErrInvalid end) in
  txguard negb ((mi_ClusterID (fz_Membership i) != ci_ID (fz_Cluster i)) || (mi_ZoneID (fz_Membership i) != zi_ID (fz_Zone i)) ||
                (gi_ClusterID g != ci_ID (fz_Cluster i)) || (gi_ZoneID g != zi_ID (fz_Zone i)) ||
                (gi_NodePoolID g != pi_ID (fz_Pool i)) || (gi_MinNodes g != 0)) else ErrInvalid in
  let lifecycle := if ready then "ready" else "initializing" in
  let access := if ready then "approved" else "pending" in
  tx! _ := in_tx (createZone (fz_Zone i) lifecycle) in
  tx! _ := in_tx (createCluster (fz_Cluster i) lifecycle true) in
  tx! _ := in_tx (createMembership (mkClusterZoneInput (mi_ClusterID (fz_Membership i)) (mi_ZoneID (fz_Membership i)) lifecycle access) true) in
  tx! _ := in_tx (createPool (fz_Pool i)) in
  in_tx (createGroup g).

Definition seedFirstZone `{K8s} (i : FirstZoneInput) (ready : bool) : Store unit := run_tx (seedFirstZoneTx i ready).
Definition SeedFirstZone `{K8s} (i : FirstZoneInput) : Store unit := seedFirstZone i true.
Definition SeedFirstZonePending `{K8s} (i : FirstZoneInput) : Store unit := seedFirstZone i false.

(** ** The authenticated platform API *)
Definition CreateZone `{K8s} (z : ZoneInput) : Store unit := createZone z "ready".
Definition CreateCluster (c : ClusterInput) : Store unit := createCluster c "ready" false.
Definition CreateNodePool (p : NodePoolInput) : Store unit := createPool p.
Definition CreateNodeGroup `{K8s} (g : NodeGroupInput) : Store unit := createGroup g.
Definition CreateClusterZone (m : ClusterZoneInput) : Store unit := createMembership m false.

Definition UpdateClusterZone (m : ClusterZoneInput) : Store unit :=
  match normalizeMembership m with
  | Err e => st_ret (Err e)
  | Ok m => fun d =>
      let p := member_key (member_row m) in
      (if rows_affected p (cluster_zones d) == 0 then Err ErrNoRows else Ok tt,
       set_cluster_zones (update_where p (fun x => set_m_access_state (mi_AccessState m)
         (set_m_lifecycle_state (mi_LifecycleState m) x)) (cluster_zones d)) d)
  end.

(** [UpdateNodeGroupScheduling] of scheduling.go. *)
Definition UpdateNodeGroupScheduling `{K8s} (id expected revision : string) (t : SchedulingTemplate) (launch : RawMessage) : Store unit :=
  match launch with
  | None => st_ret (Err ErrInvalid)
  | Some launch =>
      if (id == "") || (expected == "") || (revision == "") then st_ret (Err ErrInvalid)
      else run_tx (
        tx! g := tx_query (fun d => of_option ErrNoRows (select_one (fun g => (g_id g == id) &&
                   exists_row (fun z => z_id z == g_zone_id g) (zones d)) (node_groups d))) in
        tx! z := tx_query (fun d => of_option ErrNoRows (select_one (fun z => z_id z == g_zone_id g) (zones d))) in
        tx! _ := tx_lift (validateScheduling t (g_node_pool_id g)) in
        txguard (sRegion t == z_kubernetes_region z) && (sZone t == z_kubernetes_zone z) else ErrInvalid in
        if g_template_revision g == revision then
          txguard (g_scheduling g == t) && (g_launch_parameters g == launch) else ErrConflict in tx_ret tt
        else
          txguard g_template_revision g == expected else ErrConflict in
          tx_exec (fun d => set_node_groups (update_where (fun g => g_id g == id)
            (fun g => set_g_launch_parameters launch (set_g_scheduling t (set_g_template_revision revision g))) (node_groups d)) d))
  end.

(** ** Host reads and heartbeats *)

(** The columns that [Store.Host] returns; the allocatable columns are never written and read as zero. *)
Record HostView : Type := mkHostView {
  hv_ID : string; hv_Provider : string; hv_ProviderID : string; hv_Zone : string; hv_State : HostState;
  hv_Health : HostHealth; hv_CreatedAt : option Z; hv_LastSeenHeartbeat : option Z; hv_NodeGroupID : string;
  hv_NodePoolID : string; hv_OperationID : string; hv_DesiredStateVersion : string; hv_ObservedStateVersion : string;
  hv_Reserved : Resources; hv_ExcessCapacity : bool; hv_Protected : bool; hv_SubdEndpoint : string }.

Definition coalesce (a b : option string) (dflt : string) : string :=
  match a with Some x => x | None => default dflt b end.

Definition Host (id : string) (d : DB) : result HostView :=
  let* h := of_option ErrNoRows (select_one (fun h => h_id h == id) (host d)) in
  let group := default "" (h_node_group_id h) in
  Ok (mkHostView id (default "" (h_provider h)) (default "" (h_providerid h)) (coalesce (h_crane_zone h) (h_zone h) "")
        (h_state h) (default HostHealthUnknown (h_health h)) (h_createdat h) (h_lastseenheartbeat h) group
        (default "" (h_node_pool_id h)) (default "" (h_operation_id h)) (h_desired_state_version h) (h_observed_state_version h)
        (mkResources (h_reserved_vcpu h) (h_reserved_memory_mib h)
           (if (group != "") && (h_state h != HostTerminated) then 1 else 0))
        (h_excess_capacity h) (h_protected h) (h_subd_endpoint h)).

(** Heartbeats older than the recorded one are ignored. *)
Definition Observe (hostID observedVersion : string) (heartbeat : Z) : Store unit := fun d =>
  (Ok tt, set_host (update_where (fun h => (h_id h == hostID) &&
     match h_lastseenheartbeat h with None => true | Some t => t <=? heartbeat end)
     (fun h => set_h_lastseenheartbeat (Some heartbeat) (set_h_observed_state_version observedVersion h)) (host d)) d).

(** [ListHosts] of hosts.go. *)
Record HostSummary : Type := mkHostSummary {
  hs_ID : string; hs_Provider : string; hs_ProviderID : string; hs_Region : string; hs_ZoneID : string; hs_Role : string;
  hs_State : HostState; hs_Health : HostHealth; hs_Protected : bool; hs_NodeGroupID : string; hs_NodePoolID : string;
  hs_DesiredStateVersion : string; hs_ObservedStateVersion : string }.

Definition by_host_id (a b : HostRow) : bool := String.leb (h_id a) (h_id b).

Definition host_zone (d : DB) (h : HostRow) : option ZoneRow :=
  select_one (fun z => match h_crane_zone h with
                       | Some c => z_id z == c
                       | None => Some (z_id z) == h_zone h
                       end) (zones d).

Definition in_region (d : DB) (provider region : string) (h : HostRow) : bool :=
  (h_provider h == Some provider) &&
  match host_zone d h with Some z => (z_provider z == provider) && (z_region z == region) | None => false end.

Definition ListHosts (provider region : string) (d : DB) : list HostSummary :=
  map (fun h => mkHostSummary (h_id h) provider (default "" (h_providerid h)) region
                  (match host_zone d h with Some z => z_id z | None => "" end) (default "" (h_role h)) (h_state h)
                  (default HostHealthUnknown (h_health h)) (h_protected h) (default "" (h_node_group_id h))
                  (default "" (h_node_pool_id h)) (h_desired_state_version h) (h_observed_state_version h))
      (order_by by_host_id (select (in_region d provider region) (host d))).

(** ** Autoscaler discovery (discovery.go) *)
Record AutoscalerNode : Type := mkAutoscalerNode { an_HostID : string; an_ProviderID : string; an_State : HostState }.

Record AutoscalerGroup : Type := mkAutoscalerGroup {
  ag_ID : string; ag_ClusterID : string; ag_ZoneID : string; ag_Pool : string; ag_TemplateRevision : string;
  ag_MinNodes : Z; ag_MaxNodes : Z; ag_CPU : Z; ag_MemoryMiB : Z; ag_LaunchReady : bool;
  ag_Scheduling : SchedulingTemplate; ag_Nodes : list AutoscalerNode }.

Definition live_in (gid : string) (h : HostRow) : bool := (h_node_group_id h == Some gid) && (h_state h != HostTerminated).

Definition launch_ready (d : DB) (g : GroupRow) : bool :=
  match loadPolicy (g_id g) d with Ok p => enabled p | Err _ => false end.

Definition discoverable (d : DB) (clusterID : string) (g : GroupRow) : bool :=
  (g_cluster_id g == clusterID) && is_ok (loadPolicy (g_id g) d) && (launch_ready d g || exists_row (live_in (g_id g)) (host d)).

Definition group_nodes (d : DB) (gid : string) : list AutoscalerNode :=
  map (fun h => mkAutoscalerNode (h_id h) (h_kubernetes_provider_id h) (h_state h))
    (List.filter (fun h => h_kubernetes_provider_id h != "") (order_by by_host_id (select (live_in gid) (host d)))).

Definition by_group_id (a b : GroupRow) : bool := String.leb (g_id a) (g_id b).

Definition AutoscalerDiscovery (clusterID : string) (d : DB) : result (list AutoscalerGroup) :=
  guard clusterID != "" else ErrInvalid in
  Ok (map (fun g => mkAutoscalerGroup (g_id g) (g_cluster_id g) (g_zone_id g) (g_node_pool_id g) (g_template_revision g)
                      (g_min_nodes g) (g_max_nodes g) (g_vcpu g) (g_memory_mib g) (launch_ready d g) (g_scheduling g)
                      (group_nodes d (g_id g)))
        (order_by by_group_id (select (discoverable d clusterID) (node_groups d)))).
