(* ===== verification/CatalogFacts.v ===== *)
(** * What the topology catalog guarantees

    Theorems about [Catalog]: topology only grows, a retry is a no-op, the capacity
    ledger is untouched by new topology, and discovery is scoped and complete. *)
From S2P Require Import Prelude GoStrings Sql Api Schema Admission Invariant Fixture AdmissionFacts Lease Handoff LeaseFacts Removal RemovalFacts Scheduling Catalog.

Local Open Scope string_scope.
Local Open Scope list_scope.
Local Open Scope Z_scope.
Local Open Scope crane_scope.

(** ** New topology and the ledger *)
Lemma exists_row_snoc {R} (p : R -> bool) t r : exists_row p (t ++ [r]) = exists_row p t || p r.
Proof. rewrite exists_row_app. simpl. by rewrite orb_false_r. Qed.

Lemma Ledger_add_pool p d : Ledger d -> limits_ok (p_limits p) ->
  (forall x, In x (node_pools d) -> p_id x <> p_id p) -> Ledger (set_node_pools (node_pools d ++ [p]) d).
Proof.
  intros HL Hlim Hf. destruct HL as [Ho Hh Hr Hg Hp Hgo Hpo Hro Hc Hb Hi Hgp Hs]. split; auto; simpl.
  - by apply unique_key_app.
  - intros x Hx. apply in_snoc in Hx as [Hx| ->]; auto.
  - intros g Hin. destruct (Hgp g Hin) as (x & Hx & E). exists x. rewrite in_snoc. auto.
  - intros x Hx. apply in_snoc in Hx as [Hx| ->]; [by apply Hs|].
    assert (forall f, used_by f (p_id p) (set_node_pools (node_pools d ++ [p]) d) = 0) as E.
    { intros f. unfold used_by. rewrite sum_select, (sum_of_ext _ (fun _ => 0)); [apply sum_of_zero|].
      { intros r _. case_match eqn:Ec; [|done]. unfold counts_against in Ec. bsplit.
        apply exists_row_true in Ec as (g & Hin & Hg'). bsplit. destruct (Hgp g Hin) as (q & Hq & Eq).
        destruct (Hf q Hq). congruence. } }
    unfold within, pool_used, limits_ok in *. simpl. rewrite !E. lia.
Qed.

Lemma Ledger_add_group g d : Ledger d -> group_ok g ->
  (exists p, In p (node_pools d) /\ p_id p = g_node_pool_id g) ->
  (forall x, In x (node_groups d) -> g_id x <> g_id g) -> Ledger (set_node_groups (node_groups d ++ [g]) d).
Proof.
  intros HL Hok Hpool Hf. destruct HL as [Ho Hh Hr Hg Hp Hgo Hpo Hro Hc Hb Hi Hgp Hs]. split; auto; simpl.
  - by apply unique_key_app.
  - intros x Hx. apply in_snoc in Hx as [Hx| ->]; auto.
  - intros r Hin. destruct (Hro r Hin) as (? & ? & ? & x & Hx & Ex). split_and!; auto.
    exists x. rewrite in_snoc. auto.
  - intros x Hx. apply in_snoc in Hx as [Hx| ->]; auto.
  - intros p Hin. specialize (Hs p Hin).
    assert (forall f, used_by f (p_id p) (set_node_groups (node_groups d ++ [g]) d) = used_by f (p_id p) d) as E.
    { intros f. unfold used_by. rewrite !sum_select. apply sum_of_ext. intros r Hin'. simpl in Hin'.
      unfold counts_against. simpl. rewrite exists_row_snoc.
      destruct (Hro r Hin') as (_ & _ & _ & x & Hx & Ex).
      rewrite (bool_decide_false (g_id g = i_group_id r)) by (rewrite <- Ex; intros E; by apply (Hf x Hx)).
      by rewrite orb_false_r. }
    unfold within, pool_used in *. simpl in *. by rewrite !E.
Qed.

(** ** Growth *)

(** A group as it was, or with the scheduling metadata it lacked. *)
Definition group_grows (g g' : GroupRow) : Prop :=
  g' = g \/ (unscheduled g = true /\ exists s, g' = set_g_scheduling s g).

(** Existing topology stays, and nothing but topology changes. *)
Record grows (d d' : DB) : Prop := mkGrows {
  gw_zones : forall z, In z (zones d) -> In z (zones d');
  gw_clusters : forall c, In c (clusters d) -> In c (clusters d');
  gw_members : forall m, In m (cluster_zones d) -> In m (cluster_zones d');
  gw_pools : forall p, In p (node_pools d) -> In p (node_pools d');
  gw_groups : forall g, In g (node_groups d) -> exists g', In g' (node_groups d') /\ group_grows g g';
  gw_rest : (host d', operations d', infrastructure_reservations d', capacity_requests d', zone_dominators d',
             worker_provisioning_state d', zone_bootstrap_operations d', node_removal_operations d') =
            (host d, operations d, infrastructure_reservations d, capacity_requests d, zone_dominators d,
             worker_provisioning_state d, zone_bootstrap_operations d, node_removal_operations d) }.

Lemma group_grows_refl g : group_grows g g.
Proof. by left. Qed.

Lemma grows_refl d : grows d d.
Proof. split; eauto using group_grows_refl. Qed.

Lemma grows_trans d1 d2 d3 : grows d1 d2 -> grows d2 d3 -> grows d1 d3.
Proof.
  intros [] []. split; auto; [|congruence]. intros g Hg.
  destruct (gw_groups0 g Hg) as (g' & Hg' & E1). destruct (gw_groups1 g' Hg') as (g'' & Hg'' & E2).
  exists g''. split; [done|]. destruct E1 as [->|(U & s & ->)], E2 as [->|(U' & s' & ->)]; unfold group_grows; eauto.
Qed.

(** ** One insert at a time *)
Lemma immutableInsert_inv stmt d r d' : immutableInsert stmt d = (r, d') ->
  (r <> Ok tt /\ d' = d) \/ (exists n, stmt d = Ok (n, d') /\ (r = Ok tt <-> n <> 0)).
Proof.
  unfold immutableInsert. destruct (stmt d) as [[n d1]|e]; [case_bool_decide as E|]; intros [= <- <-].
  - right. exists n. naive_solver.
  - right. exists n. naive_solver.
  - left. split; [destruct (topologyError e)|]; done.
Qed.

Lemma zone_region_ok z d d' : zone_region z d = Ok d' ->
  (exists t, d' = set_topology_regions t d) /\ zone_region z d' = Ok d'.
Proof.
  unfold zone_region at 1. destruct (select_one _ (topology_regions d)) as [r|] eqn:E.
  - case_bool_decide as K; intros [= <-]. split; [exists (topology_regions d); by destruct d|].
    unfold zone_region. by rewrite E, bool_decide_true.
  - intros H. inv_ok. split; [by eexists|]. apply insert_row_ok in Hx as [-> _].
    unfold zone_region. simpl. rewrite (select_one_middle _ _ [] _ E); [by rewrite bool_decide_true|].
    simpl. by rewrite !bool_decide_true.
Qed.

Lemma insert_zone_ok z d n d' : insert_zone z d = Ok (n, d') ->
  exists t, (d' = set_topology_regions t d) \/ (d' = set_zones (zones d ++ [z]) (set_topology_regions t d)).
Proof.
  unfold insert_zone. intros H. inv_ok. destruct (zone_region_ok _ _ _ Hx) as [[t ->] _]. simpl in H.
  destruct (select_one _ (zones d)) as [old|] eqn:E.
  - destruct (same_zone old z); inv_ok; [|by eauto].
    match goal with H : zone_region old _ = Ok _ |- _ => destruct (zone_region_ok _ _ _ H) as [[u ->] _] end.
    exists u. by left.
  - inv_ok. match goal with H : insert_row _ _ _ = Ok _ |- _ => apply insert_row_ok in H as [-> _] end. eauto.
Qed.

(** ** Retries

    After a success, the same statement on any database that still has the same
    topology tables affects a row and changes nothing. *)
Lemma zone_region_agree z d d' : topology_regions d' = topology_regions d ->
  zone_region z d = Ok d -> zone_region z d' = Ok d'.
Proof.
  intros E H. unfold zone_region in *. rewrite E. destruct (select_one _ _).
  - by case_bool_decide.
  - inv_ok. apply insert_row_ok in Hx as [-> _]. exfalso.
    apply (f_equal (fun d => length (topology_regions d))) in H. simpl in H. rewrite length_app in H. simpl in H. lia.
Qed.

Lemma same_zone_refl z : same_zone z z = true.
Proof. unfold same_zone. by rewrite !bool_decide_true. Qed.

(** Zones that agree are mapped alike. *)
Lemma zone_region_same x z d : same_zone x z = true -> zone_region x d = zone_region z d.
Proof. unfold same_zone, zone_region. intros H. bsplit. by repeat match goal with E : _ x = _ z |- _ => rewrite E; clear E end. Qed.

Lemma insert_zone_retry z d n d1 d2 : insert_zone z d = Ok (n, d1) -> n <> 0 ->
  zones d2 = zones d1 -> topology_regions d2 = topology_regions d1 -> insert_zone z d2 = Ok (1, d2).
Proof.
  unfold insert_zone. intros H Hn Ez Er. inv_ok. destruct (zone_region_ok _ _ _ Hx) as [_ Hfix].
  destruct (select_one _ (zones x)) as [old|] eqn:E.
  - destruct (same_zone old z) eqn:S; inv_ok; [|done].
    match goal with H : zone_region old _ = Ok _ |- _ => rewrite (zone_region_same _ _ _ S), Hfix in H end. inv_ok.
    pose proof (zone_region_agree _ _ _ Er Hfix) as R2. rewrite R2. simpl.
    match goal with H : negb _ = true |- _ => rewrite H end. simpl. rewrite Ez, E, S.
    by rewrite (zone_region_same _ _ _ S), R2.
  - inv_ok. match goal with H : insert_row _ _ _ = Ok _ |- _ => apply insert_row_ok in H as [-> _] end.
    pose proof (zone_region_agree z x d2 Er Hfix) as R2. rewrite R2. simpl.
    match goal with H : negb _ = true |- _ => rewrite H end. simpl. rewrite Ez. simpl.
    rewrite (select_one_middle _ _ [] _ E) by by rewrite bool_decide_true. by rewrite same_zone_refl, R2.
Qed.

Lemma immutableInsert_retry stmt d2 : stmt d2 = Ok (1, d2) -> immutableInsert stmt d2 = (Ok tt, d2).
Proof. intros H. unfold immutableInsert. by rewrite H. Qed.

(** The operations of the catalog, as the HTTP API and the bootstrap command call them. *)
Inductive topology_op : Type :=
| TZone (z : ZoneInput) (lifecycle : string)
| TCluster (c : ClusterInput) (lifecycle : string) (seed : bool)
| TMembership (m : ClusterZoneInput) (seed : bool)
| TPool (p : NodePoolInput)
| TGroup (g : NodeGroupInput)
| TSeed (i : FirstZoneInput) (ready : bool).

(** The integer fields of the inputs are Go [int64] values. *)
Definition pool_typed (p : NodePoolInput) : Prop :=
  VCPU (pi_Limits p) <= MaxInt64 /\ MemoryMiB (pi_Limits p) <= MaxInt64 /\ Nodes (pi_Limits p) <= MaxInt64.
Definition group_typed (g : NodeGroupInput) : Prop :=
  gi_MaxNodes g <= MaxInt64 /\ VCPU (gi_PerNode g) <= MaxInt64 /\ MemoryMiB (gi_PerNode g) <= MaxInt64.
Definition typed (t : topology_op) : Prop :=
  match t with
  | TPool p => pool_typed p
  | TGroup g => group_typed g
  | TSeed i _ => pool_typed (fz_Pool i) /\ group_typed (fz_Group i)
  | _ => True
  end.

Section Topology.
Context {k8s : K8s}.

Definition create (t : topology_op) : Store unit :=
  match t with
  | TZone z l => createZone z l
  | TCluster c l seed => createCluster c l seed
  | TMembership m seed => createMembership m seed
  | TPool p => createPool p
  | TGroup g => createGroup g
  | TSeed i ready => seedFirstZone i ready
  end.

Definition kept (d d' : DB) : Prop := (Ledger d -> targets_ok d -> Ledger d' /\ targets_ok d') /\ grows d d'.

Lemma kept_refl d : kept d d.
Proof. split; auto using grows_refl. Qed.

Lemma kept_trans d1 d2 d3 : kept d1 d2 -> kept d2 d3 -> kept d1 d3.
Proof. intros [K1 G1] [K2 G2]. split; [|by eapply grows_trans]. intros HL HT. destruct (K1 HL HT). auto. Qed.

(** A change outside hosts, operations, reservations, groups and pools. *)
Lemma kept_same d d' : same_ledger d d' -> node_groups d' = node_groups d -> grows d d' -> kept d d'.
Proof. intros HS Hg G. split; [|done]. intros HL HT. split; [by rewrite <- HS|]. unfold targets_ok. by rewrite Hg. Qed.

Lemma createZone_kept z l d r d' : createZone z l d = (r, d') -> kept d d'.
Proof.
  unfold createZone. do 2 (case_match; [intros [= _ <-]; apply kept_refl|]).
  intros [[_ ->]|(n & Hn & _)]%immutableInsert_inv; [apply kept_refl|].
  apply insert_zone_ok in Hn as (t & [->| ->]); (apply kept_same; [by split|done|split; simpl; eauto using group_grows_refl]).
  intros x Hx. apply in_app_iff. by left.
Qed.

Lemma createCluster_kept c l seed d r d' : createCluster c l seed d = (r, d') -> kept d d'.
Proof.
  unfold createCluster. case_match; [intros [= _ <-]; apply kept_refl|].
  intros [[_ ->]|(n & Hn & _)]%immutableInsert_inv; [apply kept_refl|].
  unfold insert_cluster, on_conflict in Hn. repeat case_match; simplify_eq; try apply kept_refl.
  apply kept_same; [by split|done|split; simpl; eauto using group_grows_refl].
  intros x Hx. apply in_app_iff. by left.
Qed.

Lemma createMembership_kept m seed d r d' : createMembership m seed d = (r, d') -> kept d d'.
Proof.
  unfold createMembership. destruct (normalizeMembership m); [|intros [= _ <-]; apply kept_refl].
  intros [[_ ->]|(n & Hn & _)]%immutableInsert_inv; [apply kept_refl|].
  unfold insert_member, on_conflict in Hn. destruct (select_one _ _).
  - case_match; simplify_eq; apply kept_refl.
  - inv_ok. apply kept_same; [by split|done|split; simpl; eauto using group_grows_refl].
    intros y Hy. apply in_app_iff. by left.
Qed.

Lemma createPool_kept p d r d' : pool_typed p -> createPool p d = (r, d') -> kept d d'.
Proof.
  intros Ht. unfold createPool. case_match; [intros [= _ <-]; apply kept_refl|].
  intros [[_ ->]|(n & Hn & _)]%immutableInsert_inv; [apply kept_refl|].
  unfold insert_pool, on_conflict in Hn. destruct (select_one _ _) eqn:E.
  - case_match; simplify_eq; apply kept_refl.
  - inv_ok. bsplit. split.
    + intros HL HT. split; [|exact HT]. apply Ledger_add_pool; [done| |].
      * unfold limits_ok, pool_typed in *. simpl. lia.
      * intros y Hy. pose proof (proj1 (select_one_none _ _) E y Hy) as Hb. simpl in Hb. by bsplit.
    + split; simpl; eauto using group_grows_refl. intros y Hy. apply in_app_iff. by left.
Qed.

Lemma insert_group_kept g d n d' : group_ok g -> g_target_revision g = 0 -> insert_group g d = Ok (n, d') -> kept d d'.
Proof.
  intros Hok Hrev. unfold insert_group, on_conflict. intros H. inv_ok. destruct (select_one _ _) as [old|] eqn:E.
  - case_match; simplify_eq; [|apply kept_refl]. split.
    + intros HL HT. split.
      * rewrite <- (Ledger_proper d); [done|]. split; simpl; try done. symmetry. by apply update_where_map.
      * intros y Hy. simpl in Hy. apply in_update_where in Hy as (y0 & Hy0 & ->).
        specialize (HT y0 Hy0). cbv beta. destruct (g_id y0 == g_id g); exact HT.
    + split; simpl; auto. intros y Hy. eexists. split; [apply in_update_where; by exists y|].
      cbv beta. destruct (g_id y == g_id g); [|by left]. destruct (unscheduled y) eqn:U; [right; eauto|left; by destruct y].
  - inv_ok. split.
    + intros HL HT. split.
      * apply Ledger_add_group; try done.
        -- unfold group_references in *. bsplit.
           match goal with H : exists_row (fun p => p_id p == _) _ = true |- _ => apply exists_row_true in H as (p & Hp & E') end.
           bsplit. eauto.
        -- intros y Hy. pose proof (proj1 (select_one_none _ _) E y Hy) as Hb. simpl in Hb. by bsplit.
      * intros y Hy. apply in_snoc in Hy as [Hy| ->]; [by apply HT|].
        unfold group_check in *. bsplit. unfold target_ok. rewrite Hrev. unfold MaxInt64. lia.
    + split; simpl; auto. intros y Hy. exists y. split; [apply in_app_iff; by left|by left].
Qed.

Lemma NormalizeID_ok g g' : NormalizeID g = Ok g' -> exists id, g' = set_gi_ID id g.
Proof. unfold NormalizeID. intros H. inv_ok. eauto. Qed.

Lemma createGroup_kept g d r d' : group_typed g -> createGroup g d = (r, d') -> kept d d'.
Proof.
  intros Ht. unfold createGroup. destruct (NormalizeID g) as [g1|] eqn:En; [|intros [= _ <-]; apply kept_refl].
  apply NormalizeID_ok in En as [id ->]. simpl.
  match goal with |- context [if ?b then (Err ErrInvalid, d) else _] => destruct b eqn:Hb end; [intros [= _ <-]; apply kept_refl|].
  destruct (gi_LaunchParameters g) as [launch|]; [|intros [= _ <-]; apply kept_refl].
  destruct (check_group_scheduling _ d); [|intros [= _ <-]; apply kept_refl].
  intros [[_ ->]|(n & Hn & _)]%immutableInsert_inv; [apply kept_refl|].
  refine (insert_group_kept (group_row (set_gi_ID id g) launch) _ _ _ _ eq_refl Hn). bsplit. unfold group_ok, group_typed in *. simpl. lia.
Qed.

Lemma in_tx_ok {A} (m : Store A) d a d' : in_tx m d = Ok (a, d') -> m d = (Ok a, d').
Proof. unfold in_tx. repeat case_match; naive_solver. Qed.

Lemma seedFirstZone_kept i ready d r d' : pool_typed (fz_Pool i) -> group_typed (fz_Group i) ->
  seedFirstZone i ready d = (r, d') -> kept d d'.
Proof.
  intros Hp Hg. unfold seedFirstZone. destruct r as [[]|e]; [|intros [-> _]%run_tx_err; apply kept_refl].
  rewrite run_tx_ok. unfold seedFirstZoneTx. intros H. inv_tx.
  destruct (NormalizeID (fz_Group i)) as [g|] eqn:En; [|done]. simplify_eq.
  apply NormalizeID_ok in En as [id ->].
  repeat match goal with H : in_tx _ _ = Ok _ |- _ => apply in_tx_ok in H end.
  repeat match goal with
  | H : createZone _ _ _ = _ |- _ => apply createZone_kept in H
  | H : createCluster _ _ _ _ = _ |- _ => apply createCluster_kept in H
  | H : createMembership _ _ _ = _ |- _ => apply createMembership_kept in H
  | H : createPool _ _ = _ |- _ => apply createPool_kept in H; [|done]
  | H : createGroup _ _ = _ |- _ => apply createGroup_kept in H; [|done]
  end.
  eauto using kept_trans.
Qed.

Lemma create_kept t d r d' : typed t -> create t d = (r, d') -> kept d d'.
Proof.
  destruct t; simpl; intros Ht H.
  - by eapply createZone_kept.
  - by eapply createCluster_kept.
  - by eapply createMembership_kept.
  - by eapply createPool_kept.
  - by eapply createGroup_kept.
  - destruct Ht. by eapply seedFirstZone_kept.
Qed.

Lemma createZone_retry z l d d1 d2 : createZone z l d = (Ok tt, d1) ->
  zones d2 = zones d1 -> topology_regions d2 = topology_regions d1 -> createZone z l d2 = (Ok tt, d2).
Proof.
  unfold createZone. do 2 (case_match; [done|]). intros [[? _]|(n & Hn & Hr)]%immutableInsert_inv Ez Er; [done|].
  apply immutableInsert_retry. eapply insert_zone_retry; eauto. naive_solver.
Qed.

Lemma createCluster_retry c l seed d d1 d2 : createCluster c l seed d = (Ok tt, d1) ->
  clusters d2 = clusters d1 -> createCluster c l seed d2 = (Ok tt, d2).
Proof.
  unfold createCluster. case_match; [done|]. intros [[? _]|(n & Hn & Hr)]%immutableInsert_inv Ec; [done|].
  apply immutableInsert_retry. unfold insert_cluster, on_conflict in *. rewrite Ec.
  destruct (select_one _ (clusters d)) as [old|] eqn:E.
  - destruct (same_cluster seed old _) eqn:S; simplify_eq; [by rewrite E, S|naive_solver].
  - simplify_eq. simpl. rewrite (select_one_middle _ _ [] _ E) by by rewrite bool_decide_true.
    unfold same_cluster. by rewrite !eq_refl_true.
Qed.

Lemma createMembership_retry m seed d d1 d2 : createMembership m seed d = (Ok tt, d1) ->
  cluster_zones d2 = cluster_zones d1 -> createMembership m seed d2 = (Ok tt, d2).
Proof.
  unfold createMembership. destruct (normalizeMembership m) as [m'|]; [|done].
  intros [[? _]|(n & Hn & Hr)]%immutableInsert_inv Ec; [done|].
  apply immutableInsert_retry. unfold insert_member, on_conflict in *. rewrite Ec.
  destruct (select_one _ (cluster_zones d)) as [old|] eqn:E.
  - case_match eqn:S; simplify_eq; [by rewrite E, S|naive_solver].
  - inv_ok. simpl. rewrite (select_one_middle _ _ [] _ E) by (unfold member_key; by rewrite !bool_decide_true).
    by rewrite !eq_refl_true, orb_true_r.
Qed.

Lemma createPool_retry p d d1 d2 : createPool p d = (Ok tt, d1) -> node_pools d2 = node_pools d1 ->
  createPool p d2 = (Ok tt, d2).
Proof.
  unfold createPool. case_match; [done|]. intros [[? _]|(n & Hn & Hr)]%immutableInsert_inv Ec; [done|].
  apply immutableInsert_retry. unfold insert_pool, on_conflict in *. rewrite Ec.
  destruct (select_one _ (node_pools d)) as [old|] eqn:E.
  - case_match eqn:S; simplify_eq; [by rewrite E, S|naive_solver].
  - inv_ok. simpl. rewrite (select_one_middle _ _ [] _ E) by by rewrite bool_decide_true. by rewrite bool_decide_true.
Qed.

Lemma same_group_refl g : same_group g g = true.
Proof. unfold same_group. by rewrite !bool_decide_true. Qed.

Lemma insert_group_retry g d n d1 d2 : unique_key g_id (node_groups d) -> insert_group g d = Ok (n, d1) -> n <> 0 ->
  node_groups d2 = node_groups d1 -> insert_group g d2 = Ok (1, d2).
Proof.
  intros Hu H Hn Eg. assert (exists x, In x (node_groups d1) /\ g_id x = g_id g /\ same_group x g = true /\
    g_scheduling x = g_scheduling g) as (x & Hx & Eid & Es & Esch).
  { unfold insert_group, on_conflict in H. inv_ok. destruct (select_one _ _) as [old|] eqn:E.
    - apply select_one_some in E as [Hold Eid]. case_match eqn:S; inv_ok; [|done]. bsplit. eexists. split_and!.
      + simpl. apply in_update_where. by exists old.
      + by rewrite Eid, bool_decide_true.
      + by rewrite Eid, bool_decide_true.
      + rewrite Eid, bool_decide_true by done. simpl. destruct (unscheduled old); [done|].
        match goal with H : (_ || false) = true |- _ => rewrite orb_false_r in H end. by bsplit.
    - inv_ok. exists g. split_and!; auto using same_group_refl. simpl. apply in_app_iff. right. by left. }
  assert (unique_key g_id (node_groups d1)) as Hu1.
  { unfold insert_group, on_conflict in H. inv_ok. destruct (select_one _ _) as [old|] eqn:E.
    - case_match; inv_ok; [|done]. by apply unique_key_update.
    - inv_ok. apply unique_key_app; [done|]. intros y Hy.
      pose proof (proj1 (select_one_none _ _) E y Hy) as Hb. simpl in Hb. by bsplit. }
  unfold insert_group at 1. unfold insert_group in H. inv_ok. rewrite Hx0. simpl. rewrite Eg.
  assert (select_one (fun y => g_id y == g_id g) (node_groups d1) = Some x) as -> by (rewrite <- Eid; by apply select_one_key).
  rewrite Es, Esch, eq_refl_true. simpl.
  unfold on_conflict. f_equal. f_equal. rewrite update_where_id.
  - rewrite <- Eg. by destruct d2.
  - intros y Hy Hid. bsplit. assert (y = x) as -> by (apply (unique_key_in g_id _ _ _ Hu1); done || congruence).
    rewrite <- Esch. by destruct (unscheduled x), x.
Qed.

Lemma createGroup_retry g d d1 d2 : unique_key g_id (node_groups d) -> createGroup g d = (Ok tt, d1) ->
  node_groups d2 = node_groups d1 -> zones d2 = zones d -> createGroup g d2 = (Ok tt, d2).
Proof.
  intros Hu. unfold createGroup. destruct (NormalizeID g) as [g1|]; [|done].
  case_match; [done|]. destruct (gi_LaunchParameters g1) as [launch|]; [|done].
  destruct (check_group_scheduling g1 d) eqn:Ec; [|done].
  intros [[? _]|(n & Hn & Hr)]%immutableInsert_inv Eg Ez; [done|].
  assert (check_group_scheduling g1 d2 = check_group_scheduling g1 d) as -> by (unfold check_group_scheduling; by rewrite Ez).
  rewrite Ec. apply immutableInsert_retry. eapply insert_group_retry; eauto. naive_solver.
Qed.

(** Tables that the later steps of a seed leave alone. *)
Lemma createCluster_frame c l seed d d' : createCluster c l seed d = (Ok tt, d') ->
  zones d' = zones d /\ topology_regions d' = topology_regions d /\ cluster_zones d' = cluster_zones d /\ node_pools d' = node_pools d /\ node_groups d' = node_groups d.
Proof.
  unfold createCluster. case_match; [done|]. intros [[? _]|(n & Hn & Hr)]%immutableInsert_inv; [done|].
  unfold insert_cluster, on_conflict in *. repeat case_match; by simplify_eq.
Qed.

Lemma createMembership_frame m seed d d' : createMembership m seed d = (Ok tt, d') ->
  zones d' = zones d /\ topology_regions d' = topology_regions d /\ clusters d' = clusters d /\ node_pools d' = node_pools d /\ node_groups d' = node_groups d.
Proof.
  unfold createMembership. destruct (normalizeMembership m); [|done]. intros [[? _]|(n & Hn & Hr)]%immutableInsert_inv; [done|].
  unfold insert_member, on_conflict in *. destruct (select_one _ _); [case_match|]; simplify_eq; inv_ok; done.
Qed.

Lemma createPool_frame p d d' : createPool p d = (Ok tt, d') ->
  zones d' = zones d /\ topology_regions d' = topology_regions d /\ clusters d' = clusters d /\ cluster_zones d' = cluster_zones d /\ node_groups d' = node_groups d.
Proof.
  unfold createPool. case_match; [done|]. intros [[? _]|(n & Hn & Hr)]%immutableInsert_inv; [done|].
  unfold insert_pool, on_conflict in *. repeat case_match; by simplify_eq.
Qed.

Lemma createGroup_frame g d d' : createGroup g d = (Ok tt, d') ->
  zones d' = zones d /\ topology_regions d' = topology_regions d /\ clusters d' = clusters d /\ cluster_zones d' = cluster_zones d /\ node_pools d' = node_pools d.
Proof.
  unfold createGroup. repeat (case_match; try done). intros [[? _]|(n & Hn & Hr)]%immutableInsert_inv; [done|].
  unfold insert_group, on_conflict in *. inv_ok. destruct (select_one _ _); [case_match|]; inv_ok; done.
Qed.

Lemma createZone_groups z l d d' : createZone z l d = (Ok tt, d') -> node_groups d' = node_groups d.
Proof.
  unfold createZone. do 2 (case_match; [done|]). intros [[? _]|(n & Hn & Hr)]%immutableInsert_inv; [done|].
  apply insert_zone_ok in Hn as (t & [->| ->]); done.
Qed.

Lemma in_tx_of {A} (m : Store A) d a d' : m d = (Ok a, d') -> in_tx m d = Ok (a, d').
Proof. unfold in_tx. by intros ->. Qed.

Lemma seedFirstZone_retry i ready d d1 : unique_key g_id (node_groups d) ->
  seedFirstZone i ready d = (Ok tt, d1) -> seedFirstZone i ready d1 = (Ok tt, d1).
Proof.
  intros Hu. unfold seedFirstZone. rewrite !run_tx_ok. unfold seedFirstZoneTx. intros H.
  apply tx_bind_ok in H as (g & d' & Hg & H). apply tx_lift_ok in Hg as [Hg ->]. rewrite Hg.
  apply tx_bind_ok in H as (u & d' & Hb & H). apply tx_lift_ok in Hb as [Hb ->].
  unfold tx_bind at 1, tx_lift at 1. unfold tx_bind at 1, tx_lift at 1. rewrite Hb.
  apply tx_bind_ok in H as ([] & da & Ha & H). apply tx_bind_ok in H as ([] & db & Hc & H).
  apply tx_bind_ok in H as ([] & dc & Hm & H). apply tx_bind_ok in H as ([] & dp & Hp & H).
  apply in_tx_ok in Ha, Hc, Hm, Hp, H.
  pose proof (createCluster_frame _ _ _ _ _ Hc) as (C1 & C2 & C3 & C4 & C5).
  pose proof (createMembership_frame _ _ _ _ Hm) as (M1 & M2 & M3 & M4 & M5).
  pose proof (createPool_frame _ _ _ Hp) as (P1 & P2 & P3 & P4 & P5).
  pose proof (createGroup_frame _ _ _ H) as (G1 & G2 & G3 & G4 & G5).
  pose proof (createZone_groups _ _ _ _ Ha) as Z1.
  unfold tx_bind. rewrite (in_tx_of _ _ _ _ (createZone_retry _ _ _ _ d1 Ha ltac:(congruence) ltac:(congruence))).
  rewrite (in_tx_of _ _ _ _ (createCluster_retry _ _ _ _ _ d1 Hc ltac:(congruence))).
  rewrite (in_tx_of _ _ _ _ (createMembership_retry _ _ _ _ d1 Hm ltac:(congruence))).
  rewrite (in_tx_of _ _ _ _ (createPool_retry _ _ _ d1 Hp ltac:(congruence))).
  apply in_tx_of. eapply createGroup_retry; [|exact H|done|done]. congruence.
Qed.
End Topology.

(** ** Theorems *)

(** Topology is immutable once created.  No create or seed call, whether it succeeds or
    is refused, changes an existing zone, cluster, membership or pool, or any runtime
    state; a group changes only by gaining scheduling metadata it had none of.  The
    capacity ledger and the target bounds are kept. *)
Theorem topology_immutable {k8s : K8s} t d r d' :
  typed t -> Ledger d -> targets_ok d -> create t d = (r, d') -> Ledger d' /\ targets_ok d' /\ grows d d'.
Proof. intros Ht HL HT H. destruct (create_kept t d r d' Ht H) as [K G]. destruct (K HL HT). done. Qed.

(** Creating topology is idempotent: the exact retry of any successful create or seed
    succeeds again and changes nothing. *)
Theorem topology_retry {k8s : K8s} t d d' :
  Ledger d -> create t d = (Ok tt, d') -> create t d' = (Ok tt, d').
Proof.
  intros HL. pose proof (L_groups _ HL) as Hu. destruct t; simpl; intros H.
  - by eapply createZone_retry.
  - by eapply createCluster_retry.
  - by eapply createMembership_retry.
  - by eapply createPool_retry.
  - eapply createGroup_retry; eauto. by apply createGroup_frame in H as (-> & _).
  - by eapply seedFirstZone_retry.
Qed.

(** A scheduling update is a compare and swap on the template revision.  If it succeeds
    the group carries exactly the requested revision, scheduling and launch parameters;
    either it already did and nothing changed, or it carried the expected revision.  No
    other group, no target and no ledger column changes, and an error changes nothing. *)
Theorem scheduling_update_cas {k8s : K8s} id expected revision t launch d r d' :
  Ledger d -> targets_ok d -> UpdateNodeGroupScheduling id expected revision t launch d = (r, d') ->
  Ledger d' /\ targets_ok d' /\
  match r with
  | Err _ => d' = d
  | Ok _ => exists g j, In g (node_groups d) /\ g_id g = id /\ launch = Some j /\
      ((d' = d /\ g_template_revision g = revision /\ g_scheduling g = t /\ g_launch_parameters g = j) \/
       (g_template_revision g = expected /\ node_groups d' = update_where (fun g => g_id g == id)
          (fun g => set_g_launch_parameters j (set_g_scheduling t (set_g_template_revision revision g))) (node_groups d)))
  end.
Proof.
  intros HL HT. unfold UpdateNodeGroupScheduling. destruct launch as [j|]; [|by intros [= <- <-]].
  case_match; [by intros [= <- <-]|]. destruct r as [[]|e]; [|by intros [-> _]%run_tx_err].
  rewrite run_tx_ok. intros Hrun.
  apply tx_bind_ok in Hrun as (g & d1 & Hg & Hrun). apply tx_query_ok in Hg as [Hg ->].
  apply tx_bind_ok in Hrun as (z & d2 & Hz & Hrun). apply tx_query_ok in Hz as [Hz ->].
  apply tx_bind_ok in Hrun as ([] & d3 & Hv & Hrun). apply tx_lift_ok in Hv as [Hv ->].
  apply tx_bind_ok in Hrun as ([] & d4 & Hs & Hrun). apply tx_lift_ok in Hs as [Hs ->].
  apply of_option_ok, select_one_some in Hg as [Hin Hid]. cbv beta in Hid. bsplit.
  case_bool_decide as Er; inv_tx; bsplit.
  - split_and!; auto. exists g, j. split_and!; auto.
  - split_and!.
    + rewrite <- (Ledger_proper d); [done|]. split; simpl; try done. symmetry. by apply update_where_map.
    + intros y Hy. simpl in Hy. apply in_update_where in Hy as (y0 & Hy0 & ->). specialize (HT y0 Hy0).
      cbv beta. destruct (g_id y0 == g_id g); exact HT.
    + exists g, j. split_and!; auto.
Qed.

(** Discovery is confined to the caller's cluster and complete for what it owns: every
    group returned belongs to the cluster, every group that can launch or still has a live
    host is returned, and its node list is exactly the live hosts that have joined under a
    Kubernetes provider ID, in every state but TERMINATED. *)
Theorem discovery_scoped_and_complete cluster d gs :
  AutoscalerDiscovery cluster d = Ok gs ->
  (forall a, In a gs -> ag_ClusterID a = cluster /\
     (forall n, In n (ag_Nodes a) <-> exists h, In h (host d) /\ h_node_group_id h = Some (ag_ID a) /\
        h_state h <> HostTerminated /\ h_kubernetes_provider_id h <> "" /\
        n = mkAutoscalerNode (h_id h) (h_kubernetes_provider_id h) (h_state h))) /\
  (forall g, In g (node_groups d) -> g_cluster_id g = cluster -> is_ok (loadPolicy (g_id g) d) = true ->
     (launch_ready d g = true \/ (exists h, In h (host d) /\ h_node_group_id h = Some (g_id g) /\ h_state h <> HostTerminated)) ->
     exists a, In a gs /\ ag_ID a = g_id g /\ ag_LaunchReady a = launch_ready d g).
Proof.
  unfold AutoscalerDiscovery. intros H. inv_ok. split.
  - intros a Ha. apply in_map_iff in Ha as (g & <- & Hg). apply in_order_by, filter_In in Hg as [_ Hd].
    unfold discoverable in Hd. bsplit. split; [done|]. intros n. simpl. unfold group_nodes. rewrite in_map_iff. split.
    + intros (h & <- & Hh). apply filter_In in Hh as [Hh Hp]. apply in_order_by, filter_In in Hh as [Hh Hl].
      unfold live_in in Hl. bsplit. by exists h.
    + intros (h & Hh & Hgr & Hs & Hp & ->). exists h. split; [done|]. apply filter_In. split.
      * apply in_order_by, filter_In. split; [done|]. unfold live_in.
        by rewrite bool_decide_true, bool_decide_false by done.
      * by rewrite bool_decide_false.
  - intros g Hg Hc Hl Hr. eexists. split; [apply in_map_iff; eexists; split; [reflexivity|]|].
    + apply in_order_by, filter_In. split; [exact Hg|].
      unfold discoverable. rewrite bool_decide_true by done. rewrite Hl. simpl.
      destruct Hr as [->|(h & Hh & H1 & H2)]; [done|]. apply orb_true_iff. right. apply exists_row_true.
      exists h. split; [done|]. unfold live_in. by rewrite bool_decide_true, bool_decide_false by done.
    + done.
Qed.

(** A group with a positive minimum cannot be created: its initial target of zero would
    be out of bounds, so the request is refused and changes nothing. *)
Theorem positive_minimum_refused {k8s : K8s} g d :
  0 < gi_MinNodes g -> exists e, createGroup g d = (Err e, d).
Proof.
  intros Hmin. unfold createGroup. destruct (NormalizeID g) as [g1|] eqn:En; [|by eexists].
  apply NormalizeID_ok in En as [id ->]. simpl. case_match; [by eexists|].
  destruct (gi_LaunchParameters g) as [launch|]; [|by eexists].
  destruct (check_group_scheduling _ d); [|by eexists].
  unfold immutableInsert, insert_group. simpl.
  assert (group_check (group_row (set_gi_ID id g) launch) = false) as ->.
  { unfold group_check. simpl. by rewrite (proj2 (Z.leb_gt (gi_MinNodes g) 0)) by lia. }
  by eexists.
Qed.

(** ** Witnesses and findings *)
#[local] Instance demo_k8s : K8s := {| qualified_name := fun k => k != ""; valid_label_value := fun _ => true |}.

Definition demo_zone_input : ZoneInput := mkZoneInput "z1" "aws" "acct" "us-west-2" "us-west-2a" "" "".
Definition demo_group_input (minimum : Z) : NodeGroupInput :=
  mkNodeGroupInput demo_naming "" "c1" "pool" "z1" "general" "us-west-2a" minimum 3 "rev-1" (mkResources 2 8192 0)
    (Some (JObj [("image_id", JStr "ami-1")])) demo_scheduling.
Definition demo_first_zone : FirstZoneInput :=
  mkFirstZoneInput demo_zone_input (mkClusterInput "c1" "" "" "1.30" "1.30" "containerd" "cilium")
    (mkClusterZoneInput "c1" "z1" "" "") (mkNodePoolInput "pool" (mkResources 8 32768 4)) (demo_group_input 0).
Definition db_seeded : DB := snd (SeedFirstZone demo_first_zone empty_db).

Lemma empty_ledger : Ledger empty_db /\ targets_ok empty_db.
Proof. split; [split; simpl; try done; apply NoDup_nil_2|done]. Qed.

Example demo_seed_accepted : fst (SeedFirstZone demo_first_zone empty_db) = Ok tt /\ map g_id (node_groups db_seeded) = [demo_gid].
Proof. vm_compute. done. Qed.

Lemma topology_immutable_witness : Ledger db_seeded /\ targets_ok db_seeded /\ grows empty_db db_seeded.
Proof.
  apply (topology_immutable (TSeed demo_first_zone true) empty_db (fst (SeedFirstZone demo_first_zone empty_db)) db_seeded).
  - vm_compute. intuition discriminate.
  - apply empty_ledger.
  - apply empty_ledger.
  - apply surjective_pairing.
Defined.

Lemma topology_retry_witness : SeedFirstZone demo_first_zone db_seeded = (Ok tt, db_seeded).
Proof.
  apply (topology_retry (TSeed demo_first_zone true) empty_db db_seeded (proj1 empty_ledger)). vm_compute. reflexivity.
Defined.

Lemma scheduling_update_cas_witness :
  let d' := snd (UpdateNodeGroupScheduling demo_gid "rev-1" "rev-2" demo_scheduling (Some JNull) demo_db) in
  map g_template_revision (node_groups d') = ["rev-2"] /\ Ledger d'.
Proof.
  intros d'. split; [vm_compute; reflexivity|].
  destruct (scheduling_update_cas demo_gid "rev-1" "rev-2" demo_scheduling (Some JNull) demo_db _ _ demo_ledger demo_targets
              (surjective_pairing _)) as [H _]. exact H.
Defined.

Lemma discovery_scoped_and_complete_witness :
  exists a, In a (match AutoscalerDiscovery "c1" demo_db with Ok gs => gs | Err _ => [] end) /\ ag_ID a = demo_gid /\ ag_LaunchReady a = true.
Proof.
  destruct (discovery_scoped_and_complete "c1" demo_db (match AutoscalerDiscovery "c1" demo_db with Ok gs => gs | Err _ => [] end))
    as [_ H]; [vm_compute; reflexivity|].
  apply (H demo_group); [by left|reflexivity|vm_compute; reflexivity|]. left. vm_compute. reflexivity.
Defined.

Lemma positive_minimum_refused_witness : exists e, createGroup (demo_group_input 1) db_seeded = (Err e, db_seeded).
Proof. apply (positive_minimum_refused (demo_group_input 1) db_seeded). vm_compute. reflexivity. Defined.

(** Finding: a zone that is refused because its ID is taken still registers its region,
    since the trigger's insert commits with the statement that affected no row. *)
Example refused_zone_leaves_region :
  let z := mkZoneInput "z1" "aws" "acct" "eu-north-1" "eu-north-1a" "" "" in
  fst (CreateZone z db_seeded) = Err ErrConflict /\
  map tr_region (topology_regions (snd (CreateZone z db_seeded))) = ["us-west-2"; "eu-north-1"].
Proof. vm_compute. done. Qed.
