(* ===== verification/Decode.v ===== *)
(** * [encoding/json] decoding of the bootstrap intent

    [json.Unmarshal] into the tagged structs of pkg/api/capacity.go: a key matches a
    field without regard to case, the last match wins, unknown keys are ignored,
    [null] and absence leave the zero value, a value of the wrong kind is an error,
    and a [json.RawMessage] keeps the value it is given. *)
From S2P Require Import Prelude GoStrings Api.

Local Open Scope string_scope.
Local Open Scope list_scope.
Local Open Scope Z_scope.
Local Open Scope crane_scope.

Definition field (name : string) (l : list (string * Json)) : option Json :=
  match List.find (fun kv => ToLower (fst kv) == ToLower name) (rev l) with
  | Some (_, j) => Some j
  | None => None
  end.

Definition dec_string (j : option Json) : option string :=
  match j with None | Some JNull => Some "" | Some (JStr s) => Some s | _ => None end.

(** An [int64] field: out-of-range numbers are an error. *)
Definition dec_int64 (j : option Json) : option Z :=
  match j with
  | None | Some JNull => Some 0
  | Some (JNum n) => if (- 2 ^ 63 <=? n) && (n <=? MaxInt64) then Some n else None
  | _ => None
  end.

Definition dec_object (j : option Json) : option (list (string * Json)) :=
  match j with None | Some JNull => Some [] | Some (JObj l) => Some l | _ => None end.

Definition dec_array (j : option Json) : option (list Json) :=
  match j with None | Some JNull => Some [] | Some (JArr l) => Some l | _ => None end.

Definition dec_labels (j : option Json) : option (gmap string string) :=
  l ← dec_object j; m ← mapM (fun kv => s ← dec_string (Some (snd kv)); Some (fst kv, s)) l;
  Some (list_to_map (rev m)).

Definition dec_taint (j : Json) : option SchedulingTaint :=
  l ← dec_object (Some j);
  k ← dec_string (field "key" l); v ← dec_string (field "value" l); e ← dec_string (field "effect" l);
  Some (mkTaint k v e).

Definition dec_scheduling (j : option Json) : option SchedulingTemplate :=
  l ← dec_object j;
  it ← dec_string (field "instance_type" l); ar ← dec_string (field "architecture" l);
  re ← dec_string (field "region" l); zo ← dec_string (field "zone" l);
  la ← dec_labels (field "labels" l); ts ← dec_array (field "taints" l); ta ← mapM dec_taint ts;
  Some (mkScheduling it ar re zo la ta).

Definition dec_resources (j : option Json) : option Resources :=
  l ← dec_object j;
  v ← dec_int64 (field "vcpu" l); m ← dec_int64 (field "memory_mib" l); n ← dec_int64 (field "nodes" l);
  Some (mkResources v m n).

Definition dec_naming (j : option Json) : option NodeGroupNaming :=
  l ← dec_object j;
  p ← dec_string (field "provider" l); s ← dec_string (field "development_stage" l); r ← dec_string (field "region" l);
  a ← dec_string (field "az" l); g ← dec_string (field "group" l);
  Some (mkNaming p s r a g).

Definition dec_zone (j : option Json) : option ZoneInput :=
  l ← dec_object j;
  i ← dec_string (field "id" l); p ← dec_string (field "provider" l); a ← dec_string (field "account_id" l);
  r ← dec_string (field "region" l); z ← dec_string (field "provider_zone_id" l);
  kr ← dec_string (field "kubernetes_region" l); kz ← dec_string (field "kubernetes_zone" l);
  Some (mkZoneInput i p a r z kr kz).

Definition dec_cluster (j : option Json) : option ClusterInput :=
  l ← dec_object j;
  i ← dec_string (field "id" l); e ← dec_string (field "api_server_endpoint" l); h ← dec_string (field "ca_cert_hash" l);
  ka ← dec_string (field "kubeadm_version" l); kl ← dec_string (field "kubelet_version" l);
  cr ← dec_string (field "container_runtime" l); cn ← dec_string (field "cni" l);
  Some (mkClusterInput i e h ka kl cr cn).

Definition dec_membership (j : option Json) : option ClusterZoneInput :=
  l ← dec_object j;
  c ← dec_string (field "cluster_id" l); z ← dec_string (field "zone_id" l);
  s ← dec_string (field "lifecycle_state" l); a ← dec_string (field "access_state" l);
  Some (mkClusterZoneInput c z s a).

Definition dec_pool (j : option Json) : option NodePoolInput :=
  l ← dec_object j; i ← dec_string (field "id" l); r ← dec_resources (field "limits" l); Some (mkNodePoolInput i r).

Definition dec_group (j : option Json) : option NodeGroupInput :=
  l ← dec_object j;
  n ← dec_naming (field "naming" l); i ← dec_string (field "id" l); c ← dec_string (field "cluster_id" l);
  p ← dec_string (field "node_pool_id" l); z ← dec_string (field "zone_id" l); cc ← dec_string (field "capacity_class" l);
  pz ← dec_string (field "provider_zone_id" l); mi ← dec_int64 (field "min_nodes" l); ma ← dec_int64 (field "max_nodes" l);
  tr ← dec_string (field "template_revision" l); pn ← dec_resources (field "per_node" l);
  s ← dec_scheduling (field "scheduling" l);
  Some (mkNodeGroupInput n i c p z cc pz mi ma tr pn (field "launch_parameters" l) s).

Definition dec_first_zone (j : option Json) : option FirstZoneInput :=
  l ← dec_object j;
  z ← dec_zone (field "zone" l); c ← dec_cluster (field "cluster" l); m ← dec_membership (field "membership" l);
  p ← dec_pool (field "pool" l); g ← dec_group (field "group" l);
  Some (mkFirstZoneInput z c m p g).

(** The anonymous intent struct of [CreateBootstrap]. *)
Definition dec_intent (p : RawMessage) : option FirstZoneInput :=
  match p with
  | None => None
  | Some j => l ← dec_object (Some j); dec_first_zone (field "first_zone" l)
  end.

(** Decoded integers are [int64] values. *)
Lemma dec_int64_range j n : dec_int64 j = Some n -> int64 n.
Proof.
  unfold dec_int64, int64, MaxInt64. repeat case_match; intros; simplify_eq; bsplit; lia.
Qed.

Lemma dec_resources_range j r : dec_resources j = Some r -> int64 (VCPU r) /\ int64 (MemoryMiB r) /\ int64 (Nodes r).
Proof.
  unfold dec_resources. intros H. repeat (apply bind_Some in H as (? & ? & H)). simplify_eq. simpl.
  split_and!; eapply dec_int64_range; eassumption.
Qed.

Lemma dec_pool_range j p : dec_pool j = Some p -> int64 (VCPU (pi_Limits p)) /\ int64 (MemoryMiB (pi_Limits p)) /\ int64 (Nodes (pi_Limits p)).
Proof.
  unfold dec_pool. intros H. repeat (apply bind_Some in H as (? & ? & H)). simplify_eq. simpl. eauto using dec_resources_range.
Qed.

Lemma dec_group_range j g : dec_group j = Some g ->
  int64 (gi_MaxNodes g) /\ int64 (VCPU (gi_PerNode g)) /\ int64 (MemoryMiB (gi_PerNode g)).
Proof.
  unfold dec_group. intros H. repeat (apply bind_Some in H as (? & ? & H)). simplify_eq. simpl.
  match goal with H : dec_resources _ = Some _ |- _ => apply dec_resources_range in H as (? & ? & ?) end.
  split_and!; try done; eapply dec_int64_range; eassumption.
Qed.

Lemma dec_intent_range p i : dec_intent p = Some i ->
  (int64 (VCPU (pi_Limits (fz_Pool i))) /\ int64 (MemoryMiB (pi_Limits (fz_Pool i))) /\ int64 (Nodes (pi_Limits (fz_Pool i)))) /\
  (int64 (gi_MaxNodes (fz_Group i)) /\ int64 (VCPU (gi_PerNode (fz_Group i))) /\ int64 (MemoryMiB (gi_PerNode (fz_Group i)))).
Proof.
  destruct p as [j|]; simpl; [|done]. unfold dec_first_zone. intros H.
  repeat (apply bind_Some in H as (? & ? & H)). simplify_eq. simpl. eauto using dec_pool_range, dec_group_range.
Qed.
