(* ===== verification/Bootstrap.v ===== *)
(** * Zone bootstrap: the bootstrap_*.go files of internal/capacity and
      [BootstrapPhase] of catalog.go

    A bootstrap operation walks a fixed sequence of phases.  The operator's intent is
    stored once, free of secrets; every phase change and every fact discovered by the
    layer-zero executor is written under the operation's fenced lease; the topology
    becomes ready together with the last phase. *)
From S2P Require Import Prelude GoStrings Sql Api Decode Schema Admission Lease Handoff Scheduling Catalog.
From Stdlib Require Import Ascii String.

Local Open Scope string_scope.
Local Open Scope list_scope.
Local Open Scope Z_scope.
Local Open Scope crane_scope.

(** ** The phase graph *)
Definition bootstrap_sequence : list ZoneBootstrapPhase :=
  [ZoneRequested; ZoneInfrastructureProvisioning; ZoneControlPlaneInitializing; ZoneNetworkInstalling;
   ZoneDominatorInstalling; ZoneValidating; ZoneReady].

Fixpoint successor (phase : ZoneBootstrapPhase) (l : list ZoneBootstrapPhase) : option ZoneBootstrapPhase :=
  match l with
  | a :: ((b :: _) as rest) => if a == phase then Some b else successor phase rest
  | _ => None
  end.

Definition bootstrapNext (kind : OpKind) (phase : ZoneBootstrapPhase) : option ZoneBootstrapPhase :=
  match kind with Kcreate_cluster => successor phase bootstrap_sequence | _ => None end.

Definition final_phase (p : ZoneBootstrapPhase) : bool := one_of p [ZoneReady; ZoneFailed].

(** ** Secret-free parameters *)
Definition reference_key (name : string) : bool :=
  HasSuffix name "_arn" || HasSuffix name "_ref" || HasSuffix name "_reference".

Definition forbidden_words : list string := ["password"; "secret"; "token"; "credential"; "private_key"].

Definition forbidden_key (name : string) : bool := existsb (Contains name) forbidden_words.

(** [walk]: an order-independent conjunction over the object's entries. *)
Fixpoint walk (v : Json) : bool :=
  match v with
  | JArr l => forallb walk l
  | JObj l => forallb (fun kv => let name := ToLower (fst kv) in
                         if reference_key name then true
                         else if forbidden_key name then false else walk (snd kv)) l
  | _ => true
  end.

Definition safeBootstrapParameters (raw : RawMessage) : bool :=
  match raw with Some (JObj l) => walk (JObj l) | _ => false end.

(** ** Creating the intent *)

(** The bootstrap row and the operation it belongs to. *)
Definition bootstrap_row (id : string) (b : BootstrapRow) : bool := bo_operation_id b == id.

Definition operation_of (b : BootstrapRow) (d : DB) : option OpRow :=
  select_one (fun o => o_id o == bo_operation_id b) (operations d).

Definition active_bootstrap (d : DB) (cluster zone : string) (b : BootstrapRow) : bool :=
  (bo_cluster_id b == Some cluster) && negb (final_phase (bo_phase b)) &&
  match operation_of b d with
  | Some o => (o_kind o == Kcreate_cluster) || ((o_kind o == Kattach_zone) && (o_zone_id o == zone))
  | None => false
  end.

(** Unique indexes [bootstrap_request_id] and [zone_bootstrap_active]. *)
Definition insert_bootstrap (b : BootstrapRow) (d : DB) : result DB :=
  let* t := insert_row (fun x => (bo_operation_id x == bo_operation_id b) ||
                ((bo_request_id x == bo_request_id b) && (bo_request_id b != None)) ||
                ((bo_zone_id x == bo_zone_id b) && negb (final_phase (bo_phase x)) && negb (final_phase (bo_phase b))))
              b (zone_bootstrap_operations d) in
  Ok (set_zone_bootstrap_operations t d).

Definition bootstrap_operation (e : Env) (zone : string) (parameters : Json) : OpRow :=
  mkOp (uuid e 0) Kcreate_cluster zone None None None 0 Opending (uuid e 1) (PJson parameters) None None 0 "" (now e 0) (now e 0).

(** After the replay lookup found nothing. *)
Definition admit_bootstrap `{K8s} (e : Env) (r : BootstrapRequest) (parameters : Json) : Tx string :=
  tx! _ := tx_query (fun d => require (negb (exists_row (active_bootstrap d (br_ClusterID r) (br_ZoneID r))
                                              (zone_bootstrap_operations d))) ErrConflict) in
  tx! i := tx_lift (of_option ErrInvalid (dec_intent (Some parameters))) in
  txguard (ci_ID (fz_Cluster i) == br_ClusterID r) && (zi_ID (fz_Zone i) == br_ZoneID r) else ErrInvalid in
  tx! _ := seedFirstZoneTx i false in
  tx! _ := tx_query (fun d => require
    (exists_row (fun c => (c_id c == br_ClusterID r) && (c_lifecycle_state c == "initializing")) (clusters d) &&
     exists_row (fun z => (z_id z == br_ZoneID r) && (z_lifecycle_state z == "initializing")) (zones d)) ErrInvalid) in
  tx! _ := tx_insert (insert_operation (bootstrap_operation e (br_ZoneID r) parameters)) in
  tx! _ := tx_insert (insert_bootstrap (mkBootstrap (uuid e 0) (br_ZoneID r) (Some (br_ClusterID r)) (Some (br_RequestID r)) ZoneRequested)) in
  tx_ret (uuid e 0).

(** A NULL cluster cannot be scanned into the string field. *)
Definition scan_string (v : option string) : result string :=
  of_option (ErrMsg "converting NULL to string is unsupported") v.

(** A row that an earlier request with this ID left, with its operation. *)
Definition bootstrap_request (r : BootstrapRequest) (d : DB) : option (BootstrapRow * OpRow) :=
  b ← select_one (fun b => bo_request_id b == Some (br_RequestID r)) (zone_bootstrap_operations d);
  o ← operation_of b d; Some (b, o).

(** A replay must name the same kind, cluster and zone, and carry equal parameters.  (Go
    compares the decoded documents with their numbers as float64; integers up to 2^53
    are compared exactly.) *)
Definition CreateBootstrap `{K8s} (e : Env) (r : BootstrapRequest) : Store string :=
  if br_Kind r == "attach_zone" then st_ret (Err ErrAttachmentUnavailable)
  else if (br_Kind r != "create_cluster") || (br_RequestID r == "") || (br_ClusterID r == "") || (br_ZoneID r == "") ||
          negb (safeBootstrapParameters (br_Parameters r))
  then st_ret (Err ErrInvalid)
  else match br_Parameters r with
  | None => st_ret (Err ErrInvalid)
  | Some parameters => run_tx (
      tx! prev := tx_query (fun d => Ok (bootstrap_request r d)) in
      match prev with
      | Some (b, o) =>
          tx! cluster := tx_lift (scan_string (bo_cluster_id b)) in
          txguard (o_kind o == Kcreate_cluster) && (cluster == br_ClusterID r) &&
                  (o_zone_id o == br_ZoneID r) && (o_parameters o == PJson parameters) else ErrReplayMismatch in
          tx_ret (o_id o)
      | None => admit_bootstrap e r parameters
      end)
  end.

(** ** Phase changes under the lease *)

(** The operation row held by [op], with its bootstrap row. *)
Definition held_bootstrap (t : Z) (op : Operation) (d : DB) : option BootstrapRow :=
  if exists_row (fun o => lease_held t op o && in_flight o) (operations d)
  then select_one (bootstrap_row (op_ID op)) (zone_bootstrap_operations d) else None.

(** The three topology updates that accompany the last phase. *)
Definition ready_cluster (cluster : string) (d : DB) : DB :=
  set_clusters (update_where (fun c => (c_id c == cluster) && (c_lifecycle_state c == "initializing"))
                  (set_c_lifecycle_state "ready") (clusters d)) d.
Definition ready_zone (zone : string) (d : DB) : DB :=
  set_zones (update_where (fun z => (z_id z == zone) && (z_lifecycle_state z == "initializing"))
               (set_z_lifecycle_state "ready") (zones d)) d.
Definition pending_member (cluster zone : string) (m : MemberRow) : bool :=
  (m_cluster_id m == cluster) && (m_zone_id m == zone) && (m_lifecycle_state m == "initializing") && (m_access_state m == "pending").
Definition approve_member (m : MemberRow) : MemberRow := set_m_access_state "approved" (set_m_lifecycle_state "ready" m).

Definition ready_topology (cluster zone : string) : Tx unit :=
  tx! _ := tx_exec (ready_cluster cluster) in
  tx! _ := tx_exec (ready_zone zone) in
  fun d =>
    let p := pending_member cluster zone in
    if rows_affected p (cluster_zones d) == 1
    then Ok (tt, set_cluster_zones (update_where p approve_member (cluster_zones d)) d)
    else Err ErrConflict.

Definition set_phase (id : string) (next : ZoneBootstrapPhase) (d : DB) : DB :=
  set_zone_bootstrap_operations (update_where (bootstrap_row id) (set_bo_phase next) (zone_bootstrap_operations d)) d.

Definition finish_operation (t : Z) (id : string) (s : OpState) (d : DB) : DB :=
  set_operations (update_where (fun o => o_id o == id) (clear_lease t s) (operations d)) d.

Definition BootstrapPhase (t : Z) (op : Operation) (next : ZoneBootstrapPhase) (validated : bool) : Store unit :=
  if op_Kind op != Kcreate_cluster then st_ret (Err (ErrMsg "not a bootstrap operation"))
  else run_tx (
    tx! b := tx_query (fun d => of_option ErrFenced (held_bootstrap t op d)) in
    txguard (next == ZoneFailed) || (bootstrapNext (op_Kind op) (bo_phase b) == Some next)
      else ErrMsg "invalid bootstrap phase transition" in
    txguard negb ((next == ZoneReady) && negb validated) else ErrMsg "bootstrap handoff has not been validated" in
    tx! _ := (match next, bo_cluster_id b with
              | ZoneReady, Some cluster => ready_topology cluster (op_ZoneID op)
              | _, _ => tx_ret tt
              end) in
    tx! _ := tx_exec (set_phase (op_ID op) next) in
    match next with
    | ZoneReady => tx_exec (finish_operation t (op_ID op) Osucceeded)
    | ZoneFailed => tx_exec (finish_operation t (op_ID op) Ofailed)
    | _ => tx_ret tt
    end).

Definition ReleaseBootstrapLease (t : Z) (op : Operation) : Store unit :=
  if op_Kind op != Kcreate_cluster then st_ret (Err ErrForbidden)
  else fun d => fenced_update_operations (fun o => lease_held t op o && in_flight o) (clear_lease t Opending) d.

(** ** Reads *)
Definition NextBootstrapZone (t : Z) (d : DB) : result string :=
  match order_by oldest_first (select (fun o => (o_kind o == Kcreate_cluster) &&
          exists_row (fun b => (bo_operation_id b == o_id o) && negb (final_phase (bo_phase b))) (zone_bootstrap_operations d) &&
          ((o_state o == Opending) || (one_of (o_state o) [Oleased; Olaunching] &&
             match o_lease_until o with Some u => u <=? t | None => false end))) (operations d)) with
  | [] => Err ErrNoRows
  | o :: _ => Ok (o_zone_id o)
  end.

Record BootstrapStatusView : Type := mkBootstrapStatus {
  bs_OperationID : string; bs_Kind : OpKind; bs_ClusterID : string; bs_ZoneID : string; bs_State : OpState;
  bs_Phase : ZoneBootstrapPhase }.

Definition BootstrapStatus (id : string) (d : DB) : result BootstrapStatusView :=
  let* b := of_option ErrNoRows (select_one (bootstrap_row id) (zone_bootstrap_operations d)) in
  let* o := of_option ErrNoRows (operation_of b d) in
  let* c := scan_string (bo_cluster_id b) in
  Ok (mkBootstrapStatus (o_id o) (o_kind o) c (o_zone_id o) (o_state o) (bo_phase b)).

Definition currentPhase (id : string) (d : DB) : result ZoneBootstrapPhase :=
  let* b := of_option ErrNoRows (select_one (bootstrap_row id) (zone_bootstrap_operations d)) in Ok (bo_phase b).

Definition set_op_Target (v : OperationTarget) (op : Operation) : Operation :=
  mkOperation (op_ID op) (op_Kind op) (op_ZoneID op) (op_NodeGroupID op) (op_HostID op) (op_CapacityRequestID op) v
    (op_TargetRevision op) (op_State op) (op_ProviderToken op) (op_Parameters op) (op_LeaseOwner op) (op_LeaseUntil op)
    (op_Fence op) (op_LastError op) (op_CreatedAt op) (op_UpdatedAt op).

Definition LoadBootstrapTarget (op : Operation) (d : DB) : result Operation :=
  guard op_Kind op == Kcreate_cluster else ErrInvalid in
  let* b := of_option ErrInvalid (select_one (bootstrap_row (op_ID op)) (zone_bootstrap_operations d)) in
  guard exists_row (fun o => (o_id o == op_ID op) && (o_kind o == op_Kind op) && (o_zone_id o == op_ZoneID op)) (operations d)
    else ErrInvalid in
  let* c := of_option ErrInvalid (select_one (fun c => bo_cluster_id b == Some (c_id c)) (clusters d)) in
  let t := op_Target op in
  Ok (set_op_Target (mkTarget (c_id c) (t_NodePoolID t) (c_api_server_endpoint c) (c_ca_cert_hash c) (t_Provider t)
        (t_AccountID t) (t_Region t) (t_ProviderZoneID t) (t_KubernetesRegion t) (t_KubernetesZone t) (t_CapacityClass t)
        (t_TemplateRevision t) (t_LaunchParameters t) (t_Scheduling t) (t_SpireInstanceID t)) op).

(** ** Facts discovered by the executor *)

(** [net/url.Parse]: the parts the validation looks at. *)
Record URL : Type := mkURL {
  u_Scheme : string; u_User : bool; u_Host : string; u_Hostname : string; u_Port : string;
  u_Path : string; u_RawQuery : string; u_Fragment : string }.

(** [url.Parse], and [net.ParseIP(s) != nil]. *)
Class GoURL : Type := { url_parse : string -> option URL; is_ip : string -> bool }.

Definition hex_char (c : ascii) : bool :=
  let n := nat_of_ascii c in (((97 <=? n) && (n <=? 102)) || ((48 <=? n) && (n <=? 57)))%nat.

Fixpoint all_of (f : ascii -> bool) (s : string) : bool :=
  match s with EmptyString => true | String c r => f c && all_of f r end.

(** [^sha256:[a-f0-9]{64}$]. *)
Definition caHashPattern (s : string) : bool :=
  HasPrefix s "sha256:" && (String.length s =? 71)%nat && all_of hex_char (drop_chars 7 s).

Definition instance_char (c : ascii) : bool :=
  let n := nat_of_ascii c in
  (((97 <=? n) && (n <=? 122)) || ((65 <=? n) && (n <=? 90)) || ((48 <=? n) && (n <=? 57)))%nat ||
  one_of n [46; 95; 58; 47; 45]%nat.

(** [^[A-Za-z0-9._:/-]{1,200}$]. *)
Definition providerInstanceID (s : string) : bool :=
  (1 <=? String.length s)%nat && (String.length s <=? 200)%nat && all_of instance_char s.

Definition discovery_valid `{GoURL} `{GoNet} (r : BootstrapStepResult) : bool :=
  match url_parse (sr_APIServerEndpoint r) with
  | Some u => (u_Scheme u == "https") && (u_Host u != "") && negb (u_User u) && (u_RawQuery u == "") &&
              (u_Fragment u == "") && caHashPattern (sr_CACertHash r) && private_ip (u_Hostname u)
  | None => false
  end.

(** The lease of a bootstrap operation that sits in the given phase. *)
Definition held_in_phase (t : Z) (op : Operation) (phase : ZoneBootstrapPhase) (d : DB) (b : BootstrapRow) : bool :=
  (bo_phase b == phase) &&
  exists_row (fun o => lease_held t op o && (o_kind o == Kcreate_cluster) && in_flight o && (o_id o == bo_operation_id b))
    (operations d).

Definition SetClusterDiscovery `{GoURL} `{GoNet} (t : Z) (op : Operation) (r : BootstrapStepResult) : Store unit :=
  if (op_Kind op != Kcreate_cluster) || negb (discovery_valid r) then st_ret (Err ErrInvalid)
  else fun d =>
    let p := fun c => exists_row (fun b => (bo_cluster_id b == Some (c_id c)) &&
                        held_in_phase t op ZoneInfrastructureProvisioning d b) (zone_bootstrap_operations d) &&
                      (c_lifecycle_state c == "initializing") &&
                      one_of (c_api_server_endpoint c) [""; sr_APIServerEndpoint r] &&
                      one_of (c_ca_cert_hash c) [""; sr_CACertHash r] in
    (fencedResult (rows_affected p (clusters d)),
     set_clusters (update_where p (fun c => set_c_ca_cert_hash (sr_CACertHash r)
       (set_c_api_server_endpoint (sr_APIServerEndpoint r) c)) (clusters d)) d).

Definition route_valid `{GoURL} `{GoNet} (zone : string) (r : BootstrapStepResult) : bool :=
  match url_parse (sr_DominatorEndpoint r), url_parse (sr_DominatorIdentity r) with
  | Some u, Some i =>
      (u_Scheme u == "https") && negb (u_User u) && (u_Path u == "") && (u_RawQuery u == "") && (u_Fragment u == "") &&
      (u_Port u == "44000") &&
      (if is_ip (u_Hostname u) then private_ip (u_Hostname u)
       else HasSuffix (u_Hostname u) ".svc.cluster.local" && HasPrefix (u_Hostname u) "dominator-") &&
      (zone != "") && (u_Scheme i == "spiffe") && (u_Host i != "") && (u_RawQuery i == "") && (u_Fragment i == "") &&
      (u_Path i == String.append "/dominator/" zone)
  | _, _ => false
  end.

Definition SetDominatorRoute `{GoURL} `{GoNet} (t : Z) (op : Operation) (r : BootstrapStepResult) : Store unit :=
  if op_Kind op != Kcreate_cluster then st_ret (Err ErrForbidden)
  else if negb (route_valid (op_ZoneID op) r) then st_ret (Err ErrInvalid)
  else fun d =>
    match select_one (held_in_phase t op ZoneNetworkInstalling d) (zone_bootstrap_operations d) with
    | None => (Err ErrFenced, d)
    | Some b =>
        match select_one (fun x => d_zone_id x == bo_zone_id b) (zone_dominators d) with
        | Some x => if (d_endpoint x == sr_DominatorEndpoint r) && (d_identity x == sr_DominatorIdentity r)
                    then (Ok tt, d) else (Err ErrFenced, d)
        | None => (Ok tt, set_zone_dominators (zone_dominators d ++
                    [mkDominator (bo_zone_id b) (sr_DominatorEndpoint r) (sr_DominatorIdentity r) "configuration_pending"]) d)
        end
    end.

(** The record of the provider-owned host; no lease is checked. *)
Definition bootstrap_host_id (op : Operation) : string := String.append "bootstrap/" (op_ID op).

Definition bootstrap_host (t : Z) (op : Operation) (r : BootstrapStepResult) : HostRow :=
  mkHost (bootstrap_host_id op) (Some "cluster-control-plane") (Some (op_ZoneID op)) (Some (sr_ImageID r)) HostConverging
    (Some HostHealthUnknown) (Some t) None (Some "aws") (Some (sr_ProviderHostID r)) None None None true
    (String.append "https://" (String.append (sr_HostPrivateIP r) ":44001")) "" None None None None "" "" 0 0 false.

Definition same_bootstrap_host (h : HostRow) (x : HostRow) : bool :=
  (h_id x == h_id h) && (h_provider x == h_provider h) && (h_providerid x == h_providerid h) && h_protected x.

Definition update_bootstrap_host (h x : HostRow) : HostRow :=
  set_h_subd_endpoint (h_subd_endpoint h) (set_h_protected true (set_h_providerid (h_providerid h)
    (set_h_provider (h_provider h) (set_h_imageid (h_imageid h) (set_h_zone (h_zone h) (set_h_role (h_role h) x)))))).

Definition upsert_bootstrap_host (h : HostRow) (d : DB) : DB :=
  if exists_row (fun x => h_id x == h_id h) (host d)
  then set_host (update_where (same_bootstrap_host h) (update_bootstrap_host h) (host d)) d
  else set_host (host d ++ [h]) d.

Definition RecordBootstrapHost `{GoNet} (t : Z) (op : Operation) (r : BootstrapStepResult) : Store unit :=
  if op_Kind op != Kcreate_cluster then st_ret (Err ErrForbidden)
  else if (sr_ProviderHostID r == "") || negb (providerInstanceID (sr_ProviderHostID r)) then st_ret (Err ErrInvalid)
  else if negb (private_ip (sr_HostPrivateIP r)) || (sr_ImageID r == "") then st_ret (Err ErrInvalid)
  else run_tx (
    tx! b := tx_query (fun d => of_option ErrNoRows (select_one (bootstrap_row (op_ID op)) (zone_bootstrap_operations d))) in
    tx! _ := tx_lift (scan_string (bo_cluster_id b)) in
    tx! _ := tx_exec (upsert_bootstrap_host (bootstrap_host t op r)) in
    tx! h := tx_query (fun d => of_option ErrNoRows (select_one (fun h => h_id h == bootstrap_host_id op) (host d))) in
    tx! stored := tx_lift (scan_string (h_providerid h)) in
    txguard stored == sr_ProviderHostID r else ErrMsg "bootstrap host identity conflict" in
    tx_ret tt).

(** ** The controller *)

(** What the layer-zero executor answers to [Step] and [Validated]. *)
Record BootstrapExecutor : Type := mkBootstrapExecutor {
  be_Step : Operation -> ZoneBootstrapPhase -> result BootstrapStepResult;
  be_Validated : Operation -> result bool }.

(** [withLease]: the lease is renewed at each tick while the step runs; a failed
    renewal cancels the step and is returned in place of its outcome. *)
Fixpoint renewals (ticks : list Z) (op : Operation) (lease : Z) : Store unit :=
  match ticks with
  | [] => st_ret (Ok tt)
  | t :: rest => st! _ := Renew t op lease in renewals rest op lease
  end.

Definition withLease {A} (ticks : list Z) (op : Operation) (lease : Z) (outcome : result A) : Store A :=
  st! _ := renewals ticks op lease in st_ret outcome.

(** The default lease, two minutes. *)
Definition lease_or_default (lease : Z) : Z := if lease == 0 then 2 * 60 * 1000 * Millisecond else lease.

(** The write that goes with a finished step. *)
Definition record_step `{GoURL} `{GoNet} (t : Z) (op : Operation) (n : ZoneBootstrapPhase) (r : BootstrapStepResult) : Store unit :=
  match n with
  | ZoneControlPlaneInitializing => SetClusterDiscovery t op r
  | ZoneInfrastructureProvisioning => RecordBootstrapHost t op r
  | ZoneDominatorInstalling => SetDominatorRoute t op r
  | _ => if (sr_APIServerEndpoint r != "") || (sr_CACertHash r != "")
         then st_ret (Err (ErrMsg "unexpected cluster discovery")) else st_ret (Ok tt)
  end.

(** Clock readings: the claim at [now 0], the writes at [now 1 .. 3]; renewals tick at [ticks]. *)
Definition bootstrap_RunOnce `{GoURL} `{GoNet} (e : Env) (ticks : list Z) (x : BootstrapExecutor) (lease : Z)
    (zoneID owner : string) : Store unit := fun d =>
  let l := lease_or_default lease in
  if owner == "" then (Err (ErrMsg "bootstrap controller is not configured"), d)
  else match Claim (now e 0) zoneID Kcreate_cluster owner l d with
  | (Err ErrNoRows, d1) => (Ok tt, d1)
  | (Err err, d1) => (Err err, d1)
  | (Ok op, d1) =>
      match LoadBootstrapTarget op d1 with
      | Err err => (Err err, d1)
      | Ok op =>
        match currentPhase (op_ID op) d1 with
        | Err err => (Err err, d1)
        | Ok ZoneValidating =>
            (st! ok := withLease ticks op l (be_Validated x op) in
             if ok then BootstrapPhase (now e 1) op ZoneReady ok
             else st_ret (Err (ErrMsg "bootstrap operation has not passed validation"))) d1
        | Ok phase =>
            match bootstrapNext (op_Kind op) phase with
            | None => (Err (ErrMsg "bootstrap operation is in terminal phase"), d1)
            | Some n =>
                (st! r := withLease ticks op l (be_Step x op n) in
                 st! _ := record_step (now e 1) op n r in
                 st! _ := BootstrapPhase (now e 2) op n false in
                 ReleaseBootstrapLease (now e 3) op) d1
            end
        end
      end
  end.
