(* ===== verification/BootstrapFacts.v ===== *)
(** * What the bootstrap state machine guarantees

    Theorems about [Bootstrap]: the parameter filter is characterized exactly, phases
    advance one at a time under the lease, readiness is atomic with the topology, discovered
    facts are written once, and a controller without a live lease, of provisioning or of a
    bootstrap, cannot write. *)
From S2P Require Import Prelude GoStrings Sql Api Decode Schema Admission Invariant Fixture AdmissionFacts Lease Handoff LeaseFacts Removal RemovalFacts Scheduling Catalog CatalogFacts Bootstrap.

Local Open Scope string_scope.
Local Open Scope list_scope.
Local Open Scope Z_scope.
Local Open Scope crane_scope.

(** ** The parameter filter *)

(** Keys of the document that are not inside the value of a reference key. *)
Inductive visible_key : Json -> string -> Prop :=
| visible_here l k v : In (k, v) l -> visible_key (JObj l) k
| visible_member l k v k' : In (k, v) l -> reference_key (ToLower k) = false -> visible_key v k' -> visible_key (JObj l) k'
| visible_item l v k' : In v l -> visible_key v k' -> visible_key (JArr l) k'.

Definition clean_key (k : string) : Prop := reference_key (ToLower k) = true \/ forbidden_key (ToLower k) = false.

(** Induction over nested documents. *)
Section JsonInd.
Context (P : Json -> Prop).
Context (Hatom : forall j, (forall l, j <> JArr l) -> (forall l, j <> JObj l) -> P j).
Context (Harr : forall l, (forall v, In v l -> P v) -> P (JArr l)).
Context (Hobj : forall l, (forall k v, In (k, v) l -> P v) -> P (JObj l)).

Fixpoint json_nested_ind (j : Json) : P j.
Proof.
  destruct j as [| | | |l|l]; try (apply Hatom; intros; discriminate).
  - apply Harr. induction l as [|v l IH]; [intros ? []|]. intros w [<-|Hw]; [apply json_nested_ind|exact (IH w Hw)].
  - apply Hobj. induction l as [|[k v] l IH]; [intros ? ? []|]. intros k' w [E|Hw]; [injection E as <- <-; apply json_nested_ind|exact (IH k' w Hw)].
Defined.
End JsonInd.

Lemma walk_spec j : walk j = true <-> forall k, visible_key j k -> clean_key k.
Proof.
  induction j as [j Ha Ho|l IH|l IH] using json_nested_ind.
  - split; [|by destruct j; try done; [by destruct (Ha l)|by destruct (Ho l)]].
    intros _ k Hk. destruct Hk; [by destruct (Ho l)|by destruct (Ho l)|by destruct (Ha l)].
  - simpl. rewrite forallb_forall. split.
    + intros H k Hk. inversion Hk; subst. by apply (proj1 (IH v ltac:(done)) (H v ltac:(done))).
    + intros H v Hv. apply IH; [done|]. intros k Hk. apply H. by econstructor.
  - simpl. rewrite forallb_forall. split.
    + intros H k Hk. inversion Hk; subst.
      * match goal with Hin : In (k, v) l |- _ => specialize (H _ Hin) end. simpl in H. unfold clean_key.
        destruct (reference_key _); [by left|]. destruct (forbidden_key _); [done|by right].
      * match goal with Hin : In (?k0, v) l |- _ => specialize (H _ Hin); simpl in H; rename Hin into Hkv end.
        match goal with Hr : reference_key _ = false |- _ => rewrite Hr in H end.
        destruct (forbidden_key _); [done|]. by apply (proj1 (IH _ v Hkv) H).
    + intros H [k v] Hkv. simpl. destruct (reference_key (ToLower k)) eqn:Er; [done|].
      destruct (forbidden_key (ToLower k)) eqn:Ef.
      * destruct (H k) as [?|?]; [by econstructor|congruence|congruence].
      * apply (IH k v Hkv). intros k' Hk'. apply H. by eapply visible_member.
Qed.

(** ** Phases *)
Fixpoint phase_index (l : list ZoneBootstrapPhase) (p : ZoneBootstrapPhase) : nat :=
  match l with [] => 0 | x :: r => if x == p then 0 else S (phase_index r p) end.

Definition rank (p : ZoneBootstrapPhase) : nat := phase_index bootstrap_sequence p.

Lemma bootstrapNext_rank k p n : bootstrapNext k p = Some n -> rank n = S (rank p) /\ k = Kcreate_cluster.
Proof. destruct k; try done. destruct p; intros [= <-]; vm_compute; done. Qed.

Lemma bootstrapNext_ready k p : bootstrapNext k p = Some ZoneReady -> p = ZoneValidating.
Proof. destruct k; try done. by destruct p. Qed.

Lemma bootstrapNext_live p n : bootstrapNext Kcreate_cluster p = Some n -> n <> ZoneFailed.
Proof. by destruct p; intros [= <-]. Qed.

(** ** The ledger *)
Lemma Ledger_set_bootstraps t d : Ledger d -> Ledger (set_zone_bootstrap_operations t d).
Proof. by rewrite (Ledger_proper d (set_zone_bootstrap_operations t d)) by by split. Qed.

Lemma Ledger_add_host h d : Ledger d -> h_node_group_id h = None ->
  (forall x, In x (host d) -> h_id x <> h_id h) -> Ledger (set_host (host d ++ [h]) d).
Proof.
  intros HL Hn Hf. destruct HL as [Ho Hh Hr Hg Hp Hgo Hpo Hro Hc Hb Hi Hgp Hs]. split; auto; simpl.
  - by apply unique_key_app.
  - intros x gid Hx Hgid. apply in_snoc in Hx as [Hx| ->]; [by apply Hc|congruence].
  - intros r Hin. destruct (Hb r Hin) as (x & Hx & ?). exists x. rewrite in_snoc. auto.
  - intros o Hin Hk. destruct (Hi o Hin Hk) as (x & Hx & ?). exists x. rewrite in_snoc. auto.
Qed.

(** Everything but groups may change freely for the targets. *)
Definition kept_ledger (d d' : DB) : Prop := Ledger d -> targets_ok d -> Ledger d' /\ targets_ok d'.

Lemma kept_ledger_refl d : kept_ledger d d.
Proof. by split. Qed.

Lemma kept_ledger_trans d1 d2 d3 : kept_ledger d1 d2 -> kept_ledger d2 d3 -> kept_ledger d1 d3.
Proof. intros K1 K2 HL HT. destruct (K1 HL HT). auto. Qed.

Lemma kept_ledger_same d d' : same_ledger d d' -> node_groups d' = node_groups d -> kept_ledger d d'.
Proof. intros HS Hg HL HT. split; [by rewrite <- HS|]. unfold targets_ok. by rewrite Hg. Qed.

(** ** Phase changes *)
Lemma held_bootstrap_some t op d b : held_bootstrap t op d = Some b ->
  In b (zone_bootstrap_operations d) /\ bo_operation_id b = op_ID op /\
  exists o, In o (operations d) /\ lease_held t op o = true /\ in_flight o = true.
Proof.
  unfold held_bootstrap. case_match eqn:E; [|done]. intros [Hin Hid]%select_one_some. unfold bootstrap_row in Hid.
  apply exists_row_true in E as (o & Ho & H). bsplit. eauto 10.
Qed.

(** What one successful phase change did. *)
Record advanced (t : Z) (op : Operation) (next : ZoneBootstrapPhase) (validated : bool) (d d' : DB) : Prop := mkAdvanced {
  av_row : exists b, held_bootstrap t op d = Some b /\
    (next = ZoneFailed \/ bootstrapNext (op_Kind op) (bo_phase b) = Some next) /\
    (next = ZoneReady -> validated = true) /\
    (next = ZoneReady -> forall c, bo_cluster_id b = Some c ->
       clusters d' = clusters (ready_cluster c d) /\ zones d' = zones (ready_zone (op_ZoneID op) d) /\
       rows_affected (pending_member c (op_ZoneID op)) (cluster_zones d) = 1 /\
       cluster_zones d' = update_where (pending_member c (op_ZoneID op)) approve_member (cluster_zones d));
  av_phase : zone_bootstrap_operations d' = zone_bootstrap_operations (set_phase (op_ID op) next d);
  av_ops : operations d' = match next with
                           | ZoneReady => operations (finish_operation t (op_ID op) Osucceeded d)
                           | ZoneFailed => operations (finish_operation t (op_ID op) Ofailed d)
                           | _ => operations d
                           end;
  av_hosts : host d' = host d;
  av_res : infrastructure_reservations d' = infrastructure_reservations d;
  av_groups : node_groups d' = node_groups d;
  av_pools : node_pools d' = node_pools d;
  av_topology : next <> ZoneReady -> clusters d' = clusters d /\ zones d' = zones d /\ cluster_zones d' = cluster_zones d }.

Lemma BootstrapPhase_ok t op next v d d' : BootstrapPhase t op next v d = (Ok tt, d') ->
  op_Kind op = Kcreate_cluster /\ advanced t op next v d d'.
Proof.
  unfold BootstrapPhase. destruct (op_Kind op != Kcreate_cluster) eqn:Hk; [done|]. bsplit. rewrite run_tx_ok. intros Hrun.
  apply tx_bind_ok in Hrun as (b & d1 & Hb & Hrun). apply tx_query_ok in Hb as [Hb ->]. apply of_option_ok in Hb.
  apply tx_bind_ok in Hrun as (u1 & d2 & H1 & Hrun). apply tx_lift_ok in H1 as [H1 ->]. apply require_ok in H1.
  apply tx_bind_ok in Hrun as (u2 & d3 & H2 & Hrun). apply tx_lift_ok in H2 as [H2 ->]. apply require_ok in H2.
  apply tx_bind_ok in Hrun as (u3 & d4 & H3 & Hrun). apply tx_bind_ok in Hrun as (u4 & d5 & H4 & Hrun).
  apply tx_exec_ok in H4 as ->. split; [done|].
  assert (next = ZoneFailed \/ bootstrapNext (op_Kind op) (bo_phase b) = Some next) as Hn.
  { apply orb_true_iff in H1 as [H1|H1]; bsplit; auto. }
  assert (next = ZoneReady -> v = true) as Hv.
  { intros ->. destruct v; [done|]. by rewrite eq_refl_true in H2. }
  destruct (decide (next = ZoneReady)) as [->|Hnr].
  - inv_tx. destruct (bo_cluster_id b) as [c|] eqn:Ec.
    + unfold ready_topology in H3. inv_tx. case_bool_decide as Er; [|done]. simplify_eq.
      split; simpl; auto; [|done]. exists b. split_and!; auto. intros _ c0 Hc0. rewrite Ec in Hc0. simplify_eq. auto.
    + inv_tx. split; simpl; auto. exists b. split_and!; auto. intros _ c0 Hc0. congruence.
  - assert (d4 = d) as ->.
    { destruct next; try done; unfold tx_ret in H3; by simplify_eq. }
    split; [exists b; split_and!; auto; by intros ->|..]; destruct next; try done; inv_tx; simpl; auto;
      unfold tx_ret in Hrun; by simplify_eq.
Qed.

Lemma BootstrapPhase_err t op next v d e d' : BootstrapPhase t op next v d = (Err e, d') -> d' = d.
Proof.
  unfold BootstrapPhase. destruct (op_Kind op != Kcreate_cluster); [by intros [= _ <-]|]. by intros [-> _]%run_tx_err.
Qed.

Lemma advanced_same_ledger t op next v d d' : advanced t op next v d d' -> same_ledger d d'.
Proof.
  intros [_ _ Ho Hh Hr Hg Hp _]. split; [|by rewrite Hh|by rewrite Hr|by rewrite Hg|by rewrite Hp].
  rewrite Ho. destruct next; simpl; auto; symmetry; by apply update_where_map.
Qed.

Lemma BootstrapPhase_kept t op next v d r d' : BootstrapPhase t op next v d = (r, d') -> kept_ledger d d'.
Proof.
  destruct r as [[]|e]; intros H; [|apply BootstrapPhase_err in H as ->; apply kept_ledger_refl].
  apply BootstrapPhase_ok in H as [_ H]. apply kept_ledger_same; [by eapply advanced_same_ledger|apply H].
Qed.

(** ** The other writes *)
Section Facts.
Context {gonet : GoNet} {gourl : GoURL} {k8s : K8s}.

Lemma set_clusters_id d : set_clusters (clusters d) d = d.
Proof. by destruct d. Qed.

Lemma SetClusterDiscovery_inv t op r d res d' : SetClusterDiscovery t op r d = (res, d') ->
  d' = d \/ exists p, d' = set_clusters (update_where p (fun c => set_c_ca_cert_hash (sr_CACertHash r)
       (set_c_api_server_endpoint (sr_APIServerEndpoint r) c)) (clusters d)) d /\
    forall c, p c = true -> In (c_api_server_endpoint c) [""; sr_APIServerEndpoint r] /\ In (c_ca_cert_hash c) [""; sr_CACertHash r].
Proof.
  unfold SetClusterDiscovery. destruct (_ || _); [intros [= _ <-]; by left|].
  intros [= _ <-]. right. eexists. split; [reflexivity|]. intros c Hc. cbv beta in Hc.
  apply andb_prop in Hc as [Hc H2]. apply andb_prop in Hc as [_ H1]. by rewrite <- !one_of_spec.
Qed.

Lemma SetDominatorRoute_inv t op r d res d' : SetDominatorRoute t op r d = (res, d') ->
  d' = d \/ exists x, d' = set_zone_dominators (zone_dominators d ++ [x]) d /\
                      (forall y, In y (zone_dominators d) -> d_zone_id y <> d_zone_id x).
Proof.
  unfold SetDominatorRoute. destruct (op_Kind op != Kcreate_cluster); [intros [= _ <-]; by left|].
  destruct (negb _); [intros [= _ <-]; by left|].
  destruct (select_one (held_in_phase _ _ _ _) _) as [b|]; [|intros [= _ <-]; by left].
  destruct (select_one _ (zone_dominators d)) as [x|] eqn:E.
  - destruct (_ && _); intros [= _ <-]; by left.
  - intros [= _ <-]. right. eexists. split; [reflexivity|]. intros y Hy.
    pose proof (proj1 (select_one_none _ _) E y Hy) as Hb. simpl in Hb. by bsplit.
Qed.

Lemma ReleaseBootstrapLease_inv t op d res d' : ReleaseBootstrapLease t op d = (res, d') ->
  d' = d \/ exists p, d' = set_operations (update_where p (clear_lease t Opending) (operations d)) d /\
    forall o, p o = true -> lease_held t op o = true.
Proof.
  unfold ReleaseBootstrapLease. destruct (op_Kind op != Kcreate_cluster); [intros [= _ <-]; by left|].
  intros [= _ <-]. right. eexists. split; [reflexivity|]. intros o Ho. cbv beta in Ho. by bsplit.
Qed.

Lemma upsert_bootstrap_host_keeps h d : h_node_group_id h = None -> Ledger d -> Ledger (upsert_bootstrap_host h d).
Proof.
  intros Hn HL. unfold upsert_bootstrap_host. destruct (exists_row _ _) eqn:E.
  - rewrite <- (Ledger_proper d); [done|]. apply same_ledger_host, host_ident_update.
    intros x _ Hx. unfold same_bootstrap_host in Hx. bsplit. unfold host_ident. simpl. congruence.
  - apply Ledger_add_host; [done..|]. intros x Hx. pose proof (proj1 (exists_row_false _ _) E x Hx) as Hb.
    simpl in Hb. by bsplit.
Qed.

Lemma upsert_bootstrap_host_frame h d : exists t, upsert_bootstrap_host h d = set_host t d.
Proof. unfold upsert_bootstrap_host. case_match; eauto. Qed.

Lemma RecordBootstrapHost_inv t op r d res d' : RecordBootstrapHost t op r d = (res, d') ->
  d' = d \/ (d' = upsert_bootstrap_host (bootstrap_host t op r) d /\ res = Ok tt).
Proof.
  unfold RecordBootstrapHost. destruct (op_Kind op != Kcreate_cluster); [intros [= _ <-]; by left|].
  destruct (_ || _); [intros [= _ <-]; by left|]. destruct (_ || _); [intros [= _ <-]; by left|].
  destruct res as [[]|e]; [|intros [-> _]%run_tx_err; by left]. rewrite run_tx_ok. intros H. inv_tx. by right.
Qed.

Lemma record_step_kept t op n r d res d' : record_step t op n r d = (res, d') ->
  kept_ledger d d' /\ zone_bootstrap_operations d' = zone_bootstrap_operations d /\ operations d' = operations d.
Proof.
  assert (forall res0, (if (sr_APIServerEndpoint r != "") || (sr_CACertHash r != "") then st_ret (Err (ErrMsg "unexpected cluster discovery"))
           else st_ret (Ok tt)) d = (res0, d') -> d' = d) as Hother.
  { intros res0. case_match; by intros [= _ <-]. }
  destruct n; simpl; intros H; try (apply Hother in H as ->; auto using kept_ledger_refl).
  - apply RecordBootstrapHost_inv in H as [->|[-> _]]; [auto using kept_ledger_refl|].
    destruct (upsert_bootstrap_host_frame (bootstrap_host t op r) d) as [u E].
    split_and!; [|by rewrite E|by rewrite E]. intros HL HT. split; [by apply upsert_bootstrap_host_keeps|].
    unfold targets_ok. by rewrite E.
  - apply SetClusterDiscovery_inv in H as [->|(p & -> & _)]; [auto using kept_ledger_refl|].
    split_and!; try done. by apply kept_ledger_same; [by split|].
  - apply SetDominatorRoute_inv in H as [->|(x & -> & _)]; [auto using kept_ledger_refl|].
    split_and!; try done. by apply kept_ledger_same; [by split|].
Qed.

Lemma renewals_kept ticks op l d res d' : renewals ticks op l d = (res, d') ->
  kept_ledger d d' /\ zone_bootstrap_operations d' = zone_bootstrap_operations d.
Proof.
  revert d. induction ticks as [|t ticks IH]; simpl; intros d; [intros [= _ <-]; auto using kept_ledger_refl|].
  unfold st_bind, Renew. destruct (negb _); [intros [= _ <-]; auto using kept_ledger_refl|]. simpl.
  assert (forall p u, kept_ledger d (set_operations (update_where p
    (fun o => set_o_updated_at u (set_o_lease_until (Some (u + milliseconds l)) o)) (operations d)) d)) as K.
  { intros p u. by apply kept_ledger_same; [apply same_ledger_ops, op_ident_update|]. }
  unfold fenced_update_operations. destruct (fencedResult _).
  - intros [K2 E2]%IH. split; [|done]. eapply kept_ledger_trans; [apply K|exact K2].
  - intros [= _ <-]. auto.
Qed.

Lemma withLease_kept {A} ticks op l (o : result A) d res d' : withLease ticks op l o d = (res, d') ->
  kept_ledger d d' /\ zone_bootstrap_operations d' = zone_bootstrap_operations d /\ (res = o \/ exists e, res = Err e).
Proof.
  unfold withLease, st_bind. destruct (renewals ticks op l d) as [[u|e] d1] eqn:E; apply renewals_kept in E as [K Eb];
    intros [= <- <-]; eauto.
Qed.

(** ** Creating the intent *)
Lemma CreateBootstrap_err e r d err d' : CreateBootstrap e r d = (Err err, d') -> d' = d.
Proof.
  unfold CreateBootstrap. do 2 (case_match; [by intros [= _ <-]|]).
  destruct (br_Parameters r); [|by intros [= _ <-]]. by intros [-> _]%run_tx_err.
Qed.

(** The seed of a bootstrap keeps the ledger: decoded integers are in range. *)
Lemma seed_tx_kept i d u d' : pool_typed (fz_Pool i) -> group_typed (fz_Group i) ->
  seedFirstZoneTx i false d = Ok (u, d') -> kept d d'.
Proof.
  intros Hp Hg H. apply (seedFirstZone_kept i false d (Ok u)); [done..|]. by apply run_tx_ok.
Qed.

Lemma dec_intent_typed p i : dec_intent p = Some i -> pool_typed (fz_Pool i) /\ group_typed (fz_Group i).
Proof.
  intros H. apply dec_intent_range in H as [(? & ? & ?) (? & ? & ?)]. unfold int64, pool_typed, group_typed in *. lia.
Qed.

Record bootstrapped (e : Env) (r : BootstrapRequest) (p : Json) (d d' : DB) : Prop := mkBootstrapped {
  bp_idle : exists_row (active_bootstrap d (br_ClusterID r) (br_ZoneID r)) (zone_bootstrap_operations d) = false;
  bp_run : exists i d1 d2, dec_intent (Some p) = Some i /\ ci_ID (fz_Cluster i) = br_ClusterID r /\
    zi_ID (fz_Zone i) = br_ZoneID r /\ seedFirstZoneTx i false d = Ok (tt, d1) /\
    exists_row (fun c => (c_id c == br_ClusterID r) && (c_lifecycle_state c == "initializing")) (clusters d1) = true /\
    exists_row (fun z => (z_id z == br_ZoneID r) && (z_lifecycle_state z == "initializing")) (zones d1) = true /\
    insert_operation (bootstrap_operation e (br_ZoneID r) p) d1 = Ok d2 /\
    insert_bootstrap (mkBootstrap (uuid e 0) (br_ZoneID r) (Some (br_ClusterID r)) (Some (br_RequestID r)) ZoneRequested) d2 = Ok d' }.

Lemma CreateBootstrap_ok e r d id d' : CreateBootstrap e r d = (Ok id, d') ->
  exists p, br_Parameters r = Some p /\ safeBootstrapParameters (Some p) = true /\
  match bootstrap_request r d with
  | Some (b, o) => d' = d /\ id = o_id o /\ o_kind o = Kcreate_cluster /\ bo_cluster_id b = Some (br_ClusterID r) /\
      o_zone_id o = br_ZoneID r /\ o_parameters o = PJson p
  | None => id = uuid e 0 /\ bootstrapped e r p d d'
  end.
Proof.
  unfold CreateBootstrap. case_match; [done|]. case_match eqn:Hg; [done|].
  destruct (br_Parameters r) as [p|] eqn:Ep; [|done]. rewrite run_tx_ok. intros Hrun. exists p. bsplit. split_and!; [done..|].
  apply tx_bind_ok in Hrun as (prev & d1 & Hq & Hrun). apply tx_query_ok in Hq as [Hq ->]. simplify_eq.
  destruct (bootstrap_request r d) as [[b o]|].
  - inv_tx. bsplit. unfold scan_string in *. inv_tx. split_and!; congruence.
  - unfold admit_bootstrap in Hrun. inv_tx. bsplit. split; [done|]. split; [done|].
    repeat match goal with u : () |- _ => destruct u end. eexists _, _, _. split_and!; eauto.
Qed.

Lemma CreateBootstrap_kept e r d res d' : CreateBootstrap e r d = (res, d') -> kept_ledger d d'.
Proof.
  destruct res as [id|err]; intros H; [|apply CreateBootstrap_err in H as ->; apply kept_ledger_refl].
  apply CreateBootstrap_ok in H as (p & _ & _ & H). destruct (bootstrap_request r d) as [[b o]|].
  { destruct H as [-> _]. apply kept_ledger_refl. }
  destruct H as [_ [_ (i & d1 & d2 & Hi & _ & _ & Hs & _ & _ & Ho & Hb)]].
  apply dec_intent_typed in Hi as [Hpt Hgt]. destruct (seed_tx_kept _ _ _ _ Hpt Hgt Hs) as [K _].
  apply insert_operation_ok in Ho as [-> Hf]. unfold insert_bootstrap in Hb. inv_ok.
  intros HL HT. destruct (K HL HT) as [HL1 HT1]. split; [|exact HT1].
  apply Ledger_set_bootstraps, Ledger_add_operation; [done|done|]. intros x0 Hx0. by apply Hf.
Qed.
End Facts.

(** ** Progress of the controller *)
Section Progress.
Context {gonet : GoNet} {gourl : GoURL} {k8s : K8s}.

Definition phase_of (id : string) (d : DB) : option ZoneBootstrapPhase :=
  option_map bo_phase (select_one (bootstrap_row id) (zone_bootstrap_operations d)).

Lemma phase_of_agree id d d' : zone_bootstrap_operations d' = zone_bootstrap_operations d -> phase_of id d' = phase_of id d.
Proof. intros E. unfold phase_of. by rewrite E. Qed.

Lemma advanced_others t op next v d d' id : advanced t op next v d d' -> id <> op_ID op -> phase_of id d' = phase_of id d.
Proof.
  intros [_ Hp _ _ _ _ _ _] Hne. unfold phase_of. rewrite Hp. unfold set_phase. simpl.
  rewrite select_one_update by (intros x; unfold bootstrap_row; by destruct (bo_operation_id x == op_ID op)).
  destruct (select_one (bootstrap_row id) (zone_bootstrap_operations d)) as [b|] eqn:E; [|done]. simpl.
  apply select_one_some in E as [_ E]. unfold bootstrap_row in *. bsplit. by rewrite bool_decide_false by congruence.
Qed.

Lemma advanced_phase t op next v d d' : advanced t op next v d d' ->
  exists p, phase_of (op_ID op) d = Some p /\ (next = ZoneFailed \/ bootstrapNext (op_Kind op) p = Some next) /\
            phase_of (op_ID op) d' = Some next.
Proof.
  intros [(b & Hb & Hn & _) Hp _ _ _ _ _ _]. unfold held_bootstrap in Hb. destruct (exists_row _ _); [|done].
  exists (bo_phase b). unfold phase_of. rewrite Hb, Hp. simpl. split_and!; [done|done|].
  unfold set_phase. simpl. rewrite select_one_update by (intros x; unfold bootstrap_row; by destruct (bo_operation_id x == op_ID op) eqn:E; simpl; rewrite E).
  rewrite Hb. simpl. apply select_one_some in Hb as [_ Hb]. by rewrite Hb.
Qed.

Lemma Claim_bootstraps t z k w l d res d' : Claim t z k w l d = (res, d') ->
  kept_ledger d d' /\ zone_bootstrap_operations d' = zone_bootstrap_operations d /\
  (forall e, res = Err e -> d' = d).
Proof.
  unfold Claim. case_match; [intros [= <- <-]; auto using kept_ledger_refl|]. intros Hc. split_and!.
  - apply kept_ledger_same; [by eapply claim_same_ledger|by eapply claim_groups].
  - destruct res as [op|e]; [|by apply claim_err in Hc as ->]. by apply claim_ok in Hc as (o & _ & _ & _ & ->).
  - intros e ->. by eapply claim_err.
Qed.

Lemma LoadBootstrapTarget_id op d op' : LoadBootstrapTarget op d = Ok op' -> op_ID op' = op_ID op /\ op_Kind op' = op_Kind op.
Proof. unfold LoadBootstrapTarget. intros H. inv_ok. done. Qed.

Lemma ReleaseBootstrapLease_kept t op d res d' : ReleaseBootstrapLease t op d = (res, d') ->
  kept_ledger d d' /\ zone_bootstrap_operations d' = zone_bootstrap_operations d.
Proof.
  intros [->|(p & -> & _)]%ReleaseBootstrapLease_inv; [auto using kept_ledger_refl|]. split; [|done].
  by apply kept_ledger_same; [apply same_ledger_ops, op_ident_update|].
Qed.

(** The bootstrap of operation [id] moved from its phase to the next one, and no other
    bootstrap changed phase. *)
Definition moved_on k (id : string) (d d' : DB) : Prop :=
  (exists p n, phase_of id d = Some p /\ bootstrapNext k p = Some n /\ phase_of id d' = Some n) /\
  forall other, other <> id -> phase_of other d' = phase_of other d.

Lemma moved_on_phase t op next v d d' : BootstrapPhase t op next v d = (Ok tt, d') -> next <> ZoneFailed ->
  moved_on (op_Kind op) (op_ID op) d d'.
Proof.
  intros H Hf. apply BootstrapPhase_ok in H as [_ H]. split; [|intros other; by eapply advanced_others].
  destruct (advanced_phase _ _ _ _ _ _ H) as (p & P1 & [?|P2] & P3); [done|eauto].
Qed.

Lemma moved_on_agree k id d1 d2 d3 d4 : zone_bootstrap_operations d2 = zone_bootstrap_operations d1 ->
  zone_bootstrap_operations d4 = zone_bootstrap_operations d3 -> moved_on k id d2 d3 -> moved_on k id d1 d4.
Proof.
  intros E1 E2 [(p & n & P1 & P2 & P3) Ho]. split.
  - exists p, n. by rewrite <- (phase_of_agree id _ _ E1), (phase_of_agree id _ _ E2).
  - intros other Hne. rewrite (phase_of_agree other _ _ E2), Ho by done. by apply phase_of_agree.
Qed.

(** A step that runs, is recorded, advances the phase and releases its lease. *)
Lemma step_progress e ticks l op (o : result BootstrapStepResult) n d res d' : n <> ZoneFailed ->
  (st! r := withLease ticks op l o in st! _ := record_step (now e 1) op n r in
   st! _ := BootstrapPhase (now e 2) op n false in ReleaseBootstrapLease (now e 3) op) d = (res, d') ->
  kept_ledger d d' /\ (res = Ok tt -> moved_on (op_Kind op) (op_ID op) d d').
Proof.
  intros Hn. unfold st_bind.
  destruct (withLease ticks op l o d) as [[r|err] d1] eqn:E1; apply withLease_kept in E1 as (K1 & B1 & _).
  2: { intros [= <- <-]. by split. }
  destruct (record_step (now e 1) op n r d1) as [[u|err] d2] eqn:E2; apply record_step_kept in E2 as (K2 & B2 & _).
  2: { intros [= <- <-]. split; [by eapply kept_ledger_trans|done]. }
  destruct (BootstrapPhase (now e 2) op n false d2) as [[[]|err] d3] eqn:E3; pose proof (BootstrapPhase_kept _ _ _ _ _ _ _ E3) as K3.
  2: { intros [= <- <-]. split; [|done]. by repeat (eapply kept_ledger_trans; [eassumption|]). }
  intros E4. pose proof (ReleaseBootstrapLease_kept _ _ _ _ _ E4) as [K4 B4].
  split; [by repeat (eapply kept_ledger_trans; [eassumption|])|]. intros _.
  eapply moved_on_agree; [|exact B4|by eapply moved_on_phase]. congruence.
Qed.

(** The last step: validation, then READY. *)
Lemma validate_progress e ticks l op (o : result bool) d res d' :
  (st! ok := withLease ticks op l o in
   if ok then BootstrapPhase (now e 1) op ZoneReady ok
   else st_ret (Err (ErrMsg "bootstrap operation has not passed validation"))) d = (res, d') ->
  kept_ledger d d' /\ (res = Ok tt -> moved_on (op_Kind op) (op_ID op) d d').
Proof.
  unfold st_bind. destruct (withLease ticks op l o d) as [[ok|err] d1] eqn:E1; apply withLease_kept in E1 as (K1 & B1 & _).
  2: { intros [= <- <-]. by split. }
  destruct ok; [|intros [= <- <-]; by split]. intros E3. pose proof (BootstrapPhase_kept _ _ _ _ _ _ _ E3) as K3.
  split; [by eapply kept_ledger_trans|]. intros ->. by eapply (moved_on_agree _ _ d d1 d' d' B1), moved_on_phase.
Qed.

Lemma RunOnce_outcome e ticks x lease z w d res d' : bootstrap_RunOnce e ticks x lease z w d = (res, d') ->
  kept_ledger d d' /\
  (res = Ok tt ->
     (Claim (now e 0) z Kcreate_cluster w (lease_or_default lease) d = (Err ErrNoRows, d) /\ d' = d) \/
     exists op d1, Claim (now e 0) z Kcreate_cluster w (lease_or_default lease) d = (Ok op, d1) /\
       moved_on Kcreate_cluster (op_ID op) d d').
Proof.
  unfold bootstrap_RunOnce. case_match; [intros [= <- <-]; split; [apply kept_ledger_refl|done]|].
  destruct (Claim _ _ _ _ _ d) as [[op|err] d1] eqn:Ec; pose proof (Claim_bootstraps _ _ _ _ _ _ _ _ Ec) as (K1 & B1 & Herr).
  2: { rewrite (Herr err eq_refl). destruct err; intros [= <- <-]; split; try apply kept_ledger_refl; try done. by left. }
  destruct (LoadBootstrapTarget op d1) as [op'|err] eqn:El; [|intros [= <- <-]; by split].
  assert (op_Kind op' = Kcreate_cluster) as Hk.
  { unfold LoadBootstrapTarget in El. inv_ok. simpl. by bsplit. }
  destruct (currentPhase (op_ID op') d1) as [phase|err] eqn:Ep; [|intros [= <- <-]; by split].
  assert (kept_ledger d1 d' /\ (res = Ok tt -> moved_on (op_Kind op') (op_ID op') d1 d') ->
    kept_ledger d d' /\ (res = Ok tt -> ((Ok op, d1) = (Err ErrNoRows, d) /\ d' = d) \/
      exists op0 d0, (Ok op, d1) = (Ok op0, d0) /\ moved_on Kcreate_cluster (op_ID op0) d d')) as Hdone.
  { intros [K2 Hp]. split; [by eapply kept_ledger_trans|]. intros Hr. right. exists op, d1. split; [done|].
    specialize (Hp Hr). rewrite Hk, (proj1 (LoadBootstrapTarget_id _ _ _ El)) in Hp.
    by eapply moved_on_agree. }
  intros Hm. apply Hdone. clear Hdone.
  destruct (decide (phase = ZoneValidating)) as [->|Hv]; [by eapply validate_progress|].
  destruct (bootstrapNext (op_Kind op') phase) as [n|] eqn:En.
  - assert ((st! r := withLease ticks op' (lease_or_default lease) (be_Step x op' n) in
      st! _ := record_step (now e 1) op' n r in st! _ := BootstrapPhase (now e 2) op' n false in
      ReleaseBootstrapLease (now e 3) op') d1 = (res, d')) as Hm' by (by destruct phase).
    eapply step_progress; [|exact Hm']. rewrite Hk in En. by eapply bootstrapNext_live.
  - assert (d' = d1 /\ exists err, res = Err err) as [-> [err ->]] by (destruct phase; naive_solver).
    split; [apply kept_ledger_refl|done].
Qed.
End Progress.

(** ** Theorems *)

(** The secret filter decides exactly what it promises: parameters are accepted if and
    only if they are a JSON object in which every key outside the values of reference keys
    ([_arn], [_ref], [_reference]) is itself a reference key or contains none of the
    forbidden words. *)
Theorem safe_parameters_exact raw :
  safeBootstrapParameters raw = true <->
  exists l, raw = Some (JObj l) /\ forall k, visible_key (JObj l) k -> clean_key k.
Proof.
  unfold safeBootstrapParameters. split.
  - destruct raw as [[| | | | |l]|]; try done. intros H. exists l. split; [done|]. by apply walk_spec.
  - intros (l & -> & H). by apply walk_spec.
Qed.

(** Phases advance one at a time and readiness is atomic.  A successful phase change,
    made under the operation's live lease, either fails the bootstrap or moves it to the
    next phase of the sequence; READY needs a validated hand-off and the VALIDATING phase,
    and with it, in the same transaction, the cluster and zone become ready, the one
    pending membership is approved, and the operation succeeds and gives up its lease.
    A refused change leaves the database as it was. *)
Theorem bootstrap_phase_step t op next v d r d' :
  Ledger d -> targets_ok d -> BootstrapPhase t op next v d = (r, d') ->
  (Ledger d' /\ targets_ok d') /\
  match r with
  | Err _ => d' = d
  | Ok _ => exists b, In b (zone_bootstrap_operations d) /\ bo_operation_id b = op_ID op /\ holds_lease t op d = true /\
      (next = ZoneFailed \/ rank next = S (rank (bo_phase b))) /\
      phase_of (op_ID op) d' = Some next /\
      (next = ZoneReady -> v = true /\ bo_phase b = ZoneValidating /\
         operations d' = operations (finish_operation t (op_ID op) Osucceeded d) /\
         forall c, bo_cluster_id b = Some c ->
           clusters d' = clusters (ready_cluster c d) /\ zones d' = zones (ready_zone (op_ZoneID op) d) /\
           rows_affected (pending_member c (op_ZoneID op)) (cluster_zones d) = 1 /\
           cluster_zones d' = update_where (pending_member c (op_ZoneID op)) approve_member (cluster_zones d))
  end.
Proof.
  intros HL HT H. split; [by eapply BootstrapPhase_kept|]. destruct r as [[]|e]; [|by apply BootstrapPhase_err in H].
  apply BootstrapPhase_ok in H as [Hk H]. pose proof (advanced_phase _ _ _ _ _ _ H) as (p & _ & _ & Hp').
  destruct H as [(b & Hb & Hn & Hv & Htop) _ Hops _ _ _ _ _].
  apply held_bootstrap_some in Hb as (Hin & Hid & o & Ho & Hheld & _). exists b. split_and!; auto.
  - apply exists_row_true. eauto.
  - destruct Hn as [->|Hn]; [by left|]. right. by apply bootstrapNext_rank in Hn as [-> _].
  - intros ->. split; [by apply Hv|]. split; [|split; [done|by apply Htop]].
    destruct Hn as [?|Hn]; [done|]. by eapply bootstrapNext_ready.
Qed.

(** Without the lease no record of the bootstrap controller is accepted. *)
Lemma bootstrap_refused {gonet : GoNet} {gourl : GoURL} t op d :
  holds_lease t op d = false ->
  (forall next v, exists e, BootstrapPhase t op next v d = (Err e, d)) /\
  (forall r, exists e, SetClusterDiscovery t op r d = (Err e, d)) /\
  (forall r, exists e, SetDominatorRoute t op r d = (Err e, d)) /\
  (exists e, ReleaseBootstrapLease t op d = (Err e, d)).
Proof.
  intros Hno. pose proof (proj1 (exists_row_false _ _) Hno) as Hrows. cbv beta in Hrows.
  assert (forall ph b, held_in_phase t op ph d b = false) as Hph.
  { intros ph b. unfold held_in_phase. apply andb_false_iff. right. apply exists_row_false. intros o Ho. by rewrite Hrows. }
  split_and!.
  - intros next v. destruct (BootstrapPhase t op next v d) as [[[]|e] d'] eqn:E.
    + apply BootstrapPhase_ok in E as [_ [(b & Hb & _) _ _ _ _ _ _ _]].
      apply held_bootstrap_some in Hb as (_ & _ & o & Ho & Hh & _). by rewrite Hrows in Hh.
    + apply BootstrapPhase_err in E as ->. by eexists.
  - intros r. unfold SetClusterDiscovery. destruct (_ || _); [by eexists|]. exists ErrFenced.
    assert (forall c, exists_row (fun b => (bo_cluster_id b == Some (c_id c)) && held_in_phase t op ZoneInfrastructureProvisioning d b)
              (zone_bootstrap_operations d) = false) as Hc.
    { intros c. apply exists_row_false. intros b _. by rewrite Hph, andb_false_r. }
    rewrite none_refused, update_where_none, set_clusters_id; [done|..]; intros c _; by rewrite Hc.
  - intros r. unfold SetDominatorRoute. destruct (op_Kind op != Kcreate_cluster); [by eexists|].
    destruct (negb _); [by eexists|]. exists ErrFenced.
    assert (select_one (held_in_phase t op ZoneNetworkInstalling d) (zone_bootstrap_operations d) = None) as ->; [|done].
    apply select_one_none. intros b _. apply Hph.
  - unfold ReleaseBootstrapLease. destruct (op_Kind op != Kcreate_cluster); [by eexists|]. exists ErrFenced.
    apply refuse_operations. intros o Ho. by rewrite Hrows.
Qed.

(** What recording the protected control-plane host can change: one row of the host table, and
    of an existing row only a protected one, whose provider instance it keeps. *)
Record host_recorded (id : string) (d d' : DB) : Prop := mkHostRecorded {
  rec_rest : d' = set_host (host d') d;
  rec_others : forall h, h_id h <> id -> (In h (host d) <-> In h (host d'));
  rec_kept : forall h, In h (host d) -> h_id h = id -> exists h', In h' (host d') /\ host_ident h' = host_ident h /\
    h_state h' = h_state h /\ h_provider h' = h_provider h /\ h_providerid h' = h_providerid h /\
    (h_protected h = false -> h' = h) }.

Lemma RecordBootstrapHost_recorded {gonet : GoNet} t op r d res d' : RecordBootstrapHost t op r d = (res, d') ->
  host_recorded (bootstrap_host_id op) d d'.
Proof.
  intros [->|[-> _]]%RecordBootstrapHost_inv; [split; [by destruct d|done|eauto 10]|]. unfold upsert_bootstrap_host.
  assert (forall x, same_bootstrap_host (bootstrap_host t op r) x = true -> h_id x = bootstrap_host_id op /\
    h_provider x = h_provider (bootstrap_host t op r) /\ h_providerid x = h_providerid (bootstrap_host t op r) /\
    h_protected x = true) as Hs by (intros x Hx; unfold same_bootstrap_host in Hx; by bsplit).
  destruct (exists_row _ _) eqn:E; split; simpl; try done.
  - intros h Hne. split; intros Hh.
    + apply in_update_where. exists h. split; [done|]. destruct (same_bootstrap_host _ h) eqn:Eh; [|done].
      by destruct (Hs h Eh).
    + apply in_update_where in Hh as (x & Hx & ->). destruct (same_bootstrap_host _ x) eqn:Eh; [|done].
      destruct (Hs x Eh) as [Ex _]. by destruct Hne.
  - intros h Hh Eid. eexists. split; [apply in_update_where; by exists h|].
    destruct (same_bootstrap_host _ h) eqn:Eh; [|done]. destruct (Hs h Eh) as (E1 & E2 & E3 & E4).
    unfold host_ident. simpl in *. split_and!; congruence.
  - intros h Hne. rewrite in_app_iff. split; [by left|]. intros [?|[<-|[]]]; [done|]. by destruct Hne.
  - intros h Hh Eid. pose proof (proj1 (exists_row_false _ _) E h Hh) as Hb. simpl in Hb. by bsplit.
Qed.

(** C5. A controller without a live lease cannot write what the lease protects.  When its lease
    on an operation expired, was given up, or was overtaken by a later claim, every write of a
    provisioning controller (renew, begin launch, version, state, launch record, release,
    failure, waiting, node binding, expected state, prepare, finalize) and every one of a bootstrap
    controller (phase, cluster discovery, Dominator route, release of the lease) is refused with
    the database unchanged.  The one record that is taken without a lease is the bootstrap's
    RecordBootstrapHost: whatever it answers, it changes no table but the host table, and in it no
    other host than the bootstrap's own, of which it keeps state and provider instance and which
    it leaves alone altogether unless it is protected. *)
Theorem stale_lease_cannot_write {gonet : GoNet} {gourl : GoURL} {digest : Digest} t op d :
  holds_lease t op d = false ->
  (forall w, exists e, write t op w d = (Err e, d)) /\
  (forall next v, exists e, BootstrapPhase t op next v d = (Err e, d)) /\
  (forall r, exists e, SetClusterDiscovery t op r d = (Err e, d)) /\
  (forall r, exists e, SetDominatorRoute t op r d = (Err e, d)) /\
  (exists e, ReleaseBootstrapLease t op d = (Err e, d)) /\
  (forall r res d', RecordBootstrapHost t op r d = (res, d') -> host_recorded (bootstrap_host_id op) d d').
Proof.
  intros Hno. destruct (bootstrap_refused t op d Hno) as (H1 & H2 & H3 & H4).
  split_and!; try done; [intros w; by apply write_refused|]. intros r res d'. apply RecordBootstrapHost_recorded.
Qed.

(** Discovered facts are written once: recording cluster discovery never replaces an
    endpoint or a trust root that is already known, and recording a Dominator route never
    changes the route or identity of a zone that has one. *)
Theorem discovery_written_once {gonet : GoNet} {gourl : GoURL} t op r d :
  let d1 := snd (SetClusterDiscovery t op r d) in
  let d2 := snd (SetDominatorRoute t op r d) in
  (forall c, In c (clusters d) -> exists c', In c' (clusters d1) /\ c_id c' = c_id c /\
     (c_api_server_endpoint c <> "" -> c_api_server_endpoint c' = c_api_server_endpoint c) /\
     (c_ca_cert_hash c <> "" -> c_ca_cert_hash c' = c_ca_cert_hash c)) /\
  (forall x, In x (zone_dominators d) -> In x (zone_dominators d2)).
Proof.
  intros d1 d2. pose proof (surjective_pairing (SetClusterDiscovery t op r d)) as H1.
  pose proof (surjective_pairing (SetDominatorRoute t op r d)) as H2. fold d1 in H1. fold d2 in H2.
  clearbody d1 d2. split.
  - apply SetClusterDiscovery_inv in H1 as [->|(p & -> & Hp)]; intros c Hc; [by exists c|].
    eexists. split; [simpl; apply in_update_where; by exists c|]. destruct (p c) eqn:E; [|done].
    destruct (Hp c E) as [P1 P2]. simpl in *. split_and!; [done|..]; intros; naive_solver.
  - apply SetDominatorRoute_inv in H2 as [->|(y & -> & _)]; intros x Hx; [done|]. simpl. apply in_app_iff. by left.
Qed.

(** C18. Running the bootstrap controller is safe and makes progress.  Whatever the executor
    answers, the ledger is kept; and a run that returns success either found nothing to claim
    and changed nothing, or it claimed an operation, moved the phase of exactly that operation
    to the next one in the sequence, and left the phase of every other bootstrap as it was. *)
Theorem bootstrap_run_progresses {gonet : GoNet} {gourl : GoURL} {k8s : K8s} e ticks x lease z w d res d' :
  Ledger d -> targets_ok d -> bootstrap_RunOnce e ticks x lease z w d = (res, d') ->
  (Ledger d' /\ targets_ok d') /\
  (res = Ok tt ->
     (Claim (now e 0) z Kcreate_cluster w (lease_or_default lease) d = (Err ErrNoRows, d) /\ d' = d) \/
     exists op d1, Claim (now e 0) z Kcreate_cluster w (lease_or_default lease) d = (Ok op, d1) /\
       (exists p n, phase_of (op_ID op) d = Some p /\ bootstrapNext Kcreate_cluster p = Some n /\
                    phase_of (op_ID op) d' = Some n) /\
       (forall other, other <> op_ID op -> phase_of other d' = phase_of other d)).
Proof. intros HL HT H. destruct (RunOnce_outcome _ _ _ _ _ _ _ _ _ H) as [K P]. split; [by apply K|exact P]. Qed.

(** Submitting a bootstrap is idempotent: after a success, the same request returns the
    same operation and changes nothing, while a request that reuses the ID with another
    cluster, zone or document is refused. *)
Theorem bootstrap_replay {k8s : K8s} e e' r r' d id d' :
  CreateBootstrap e r d = (Ok id, d') ->
  CreateBootstrap e' r d' = (Ok id, d') /\
  (br_RequestID r' = br_RequestID r ->
   (br_ClusterID r' <> br_ClusterID r \/ br_ZoneID r' <> br_ZoneID r \/ br_Parameters r' <> br_Parameters r) ->
   exists err, CreateBootstrap e' r' d' = (Err err, d')).
Proof.
  intros H. pose proof H as H0. apply CreateBootstrap_ok in H as (p & Hp & Hsafe & H).
  assert (exists b o, bootstrap_request r d' = Some (b, o) /\ id = o_id o /\ o_kind o = Kcreate_cluster /\
    bo_cluster_id b = Some (br_ClusterID r) /\ o_zone_id o = br_ZoneID r /\ o_parameters o = PJson p)
    as (b & o & Hreq & Hid & Hk & Hc & Hz & Hpar).
  { destruct (bootstrap_request r d) as [[b o]|] eqn:Er.
    - destruct H as (-> & ? & ? & ? & ? & ?). by exists b, o.
    - destruct H as [-> [_ (i & d1 & d2 & _ & _ & _ & Hs & _ & _ & Ho & Hb)]].
      apply insert_operation_ok in Ho as [-> Hf]. unfold insert_bootstrap in Hb. inv_ok.
      apply insert_row_ok in Hx as [-> Hfb]. simpl in Hfb.
      eexists _, _. unfold bootstrap_request. simpl. split_and!.
      + rewrite (select_one_middle _ _ [] _); [|apply select_one_none|by rewrite eq_refl_true].
        * simpl. unfold operation_of. simpl. rewrite (select_one_middle _ _ [] _); [reflexivity| |by rewrite eq_refl_true].
          apply select_one_none. intros x Hx. apply bool_decide_eq_false. by apply Hf.
        * intros x Hx. specialize (Hfb x Hx). apply orb_false_iff in Hfb as [Hfb _]. apply orb_false_iff in Hfb as [_ Hfb].
          apply andb_false_iff in Hfb as [Hfb|Hfb]; [exact Hfb|by bsplit].
      + done.
      + done.
      + done.
      + done.
      + done. }
  split.
  - unfold CreateBootstrap in H0 |- *. destruct (br_Kind r == "attach_zone"); [done|]. destruct (_ || _); [done|].
    rewrite Hp in *. apply run_tx_ok. unfold tx_bind, tx_query, tx_lift. rewrite Hreq, Hc. simpl.
    rewrite Hk, Hz, Hpar, !eq_refl_true. simpl. by rewrite Hid.
  - intros Erid Hdiff. destruct (CreateBootstrap e' r' d') as [[id2|err] d2] eqn:E2.
    + exfalso. apply CreateBootstrap_ok in E2 as (p2 & Hp2 & _ & E2).
      assert (bootstrap_request r' d' = Some (b, o)) as Es by (rewrite <- Hreq; unfold bootstrap_request; by rewrite Erid).
      rewrite Es in E2. destruct E2 as (_ & _ & _ & C2 & Z2 & P2). destruct Hdiff as [?|[?|Hd]]; [congruence|congruence|].
      apply Hd. rewrite Hp, Hp2. congruence.
    + exists err. by apply CreateBootstrap_err in E2 as ->.
Qed.

(** ** Witnesses: a first zone is bootstrapped from an empty database *)
#[local] Existing Instance demo_net.
#[local] Existing Instance demo_k8s.
#[local] Existing Instance demo_digest.
#[local] Instance demo_url : GoURL :=
  {| url_parse := fun s =>
       if s == "https://10.0.0.1:6443" then Some (mkURL "https" false "10.0.0.1:6443" "10.0.0.1" "6443" "" "" "")
       else if s == "https://10.0.0.2:44000" then Some (mkURL "https" false "10.0.0.2:44000" "10.0.0.2" "44000" "" "" "")
       else if s == "spiffe://crane/dominator/z1" then Some (mkURL "spiffe" false "crane" "crane" "" "/dominator/z1" "" "")
       else None;
     is_ip := fun s => HasPrefix s "10." |}.

Definition demo_parameters : Json :=
  JObj [("join_token_ref", JStr "arn:demo");
    ("first_zone", JObj [
      ("zone", JObj [("id", JStr "z1"); ("provider", JStr "aws"); ("account_id", JStr "acct"); ("region", JStr "us-west-2");
                     ("provider_zone_id", JStr "us-west-2a")]);
      ("cluster", JObj [("id", JStr "c1"); ("kubeadm_version", JStr "1.30"); ("kubelet_version", JStr "1.30");
                        ("container_runtime", JStr "containerd"); ("cni", JStr "cilium")]);
      ("membership", JObj [("cluster_id", JStr "c1"); ("zone_id", JStr "z1")]);
      ("pool", JObj [("id", JStr "pool"); ("limits", JObj [("vcpu", JNum 8); ("memory_mib", JNum 32768); ("nodes", JNum 4)])]);
      ("group", JObj [("naming", JObj [("provider", JStr "aws"); ("development_stage", JStr "prod"); ("region", JStr "us-west-2");
                         ("az", JStr "a"); ("group", JStr "general")]);
                      ("cluster_id", JStr "c1"); ("node_pool_id", JStr "pool"); ("zone_id", JStr "z1");
                      ("capacity_class", JStr "general"); ("provider_zone_id", JStr "us-west-2a"); ("max_nodes", JNum 3);
                      ("template_revision", JStr "rev-1"); ("per_node", JObj [("vcpu", JNum 2); ("memory_mib", JNum 8192)]);
                      ("launch_parameters", JObj [("image_id", JStr "ami-1")])])])].

Definition demo_bootstrap_request : BootstrapRequest := mkBootstrapRequest "create_cluster" "boot-1" "c1" "z1" (Some demo_parameters).
Definition db_boot : DB := snd (CreateBootstrap (env_at "b" 0) demo_bootstrap_request empty_db).

Definition demo_ca : string := String.append "sha256:" demo_hash.
Definition demo_bootstrap_executor : BootstrapExecutor :=
  mkBootstrapExecutor
    (fun _ n => Ok (match n with
       | ZoneInfrastructureProvisioning => mkStepResult "" "" "i-cp" "10.0.0.1" "ami-0" "" ""
       | ZoneControlPlaneInitializing => mkStepResult "https://10.0.0.1:6443" demo_ca "" "" "" "" ""
       | ZoneDominatorInstalling => mkStepResult "" "" "" "" "" "https://10.0.0.2:44000" "spiffe://crane/dominator/z1"
       | _ => mkStepResult "" "" "" "" "" "" ""
       end))
    (fun _ => Ok true).

Fixpoint boot_runs (n : nat) (d : DB) : DB :=
  match n with
  | O => d
  | S n => snd (bootstrap_RunOnce (env_at "b" (1000 + 1000 * Z.of_nat n)) [] demo_bootstrap_executor 0 "z1" "layer-zero" (boot_runs n d))
  end.

(** Six runs take the operation to READY. *)
Example demo_bootstrap_completes :
  phase_of (uuid (env_at "b" 0) 0) (boot_runs 6 db_boot) = Some ZoneReady /\
  map m_access_state (cluster_zones (boot_runs 6 db_boot)) = ["approved"].
Proof. vm_compute. done. Qed.

Lemma db_boot_invariants : Ledger db_boot /\ targets_ok db_boot.
Proof.
  apply (CreateBootstrap_kept (env_at "b" 0) demo_bootstrap_request empty_db _ db_boot (surjective_pairing _)); apply empty_ledger.
Qed.

Definition boot_op : Operation :=
  match Claim 1000 "z1" Kcreate_cluster "layer-zero" minute db_boot with (Ok op, _) => op | (Err _, _) => claimed_op end.
Definition db_boot_claimed : DB := snd (Claim 1000 "z1" Kcreate_cluster "layer-zero" minute db_boot).

Lemma boot_claimed_invariants : Ledger db_boot_claimed /\ targets_ok db_boot_claimed.
Proof.
  destruct (Claim_bootstraps 1000 "z1" Kcreate_cluster "layer-zero" minute db_boot _ db_boot_claimed (surjective_pairing _)) as [K _].
  apply K; apply db_boot_invariants.
Qed.

Lemma bootstrap_phase_step_witness :
  BootstrapPhase 1500 boot_op ZoneInfrastructureProvisioning false db_boot_claimed =
    (Ok tt, snd (BootstrapPhase 1500 boot_op ZoneInfrastructureProvisioning false db_boot_claimed)) /\
  Ledger (snd (BootstrapPhase 1500 boot_op ZoneInfrastructureProvisioning false db_boot_claimed)).
Proof.
  split; [vm_compute; reflexivity|]. destruct boot_claimed_invariants as [HL HT].
  destruct (bootstrap_phase_step 1500 boot_op ZoneInfrastructureProvisioning false db_boot_claimed _ _ HL HT (surjective_pairing _))
    as [[H _] _]. exact H.
Defined.

Lemma stale_lease_cannot_write_witness :
  holds_lease 2000 claimed_op db_claimed = true /\
  (exists e, write 70000 claimed_op WBeginLaunch db_claimed = (Err e, db_claimed)) /\
  (exists e, BootstrapPhase 99000 boot_op ZoneInfrastructureProvisioning false db_boot_claimed = (Err e, db_boot_claimed)).
Proof.
  split; [vm_compute; reflexivity|]. split.
  - destruct (stale_lease_cannot_write 70000 claimed_op db_claimed) as [H _]; [vm_compute; reflexivity|]. apply H.
  - destruct (stale_lease_cannot_write 99000 boot_op db_boot_claimed) as (_ & H & _); [vm_compute; reflexivity|]. apply H.
Defined.

Lemma bootstrap_run_progresses_witness :
  exists op d1 p n, Claim (now (env_at "b" 1000) 0) "z1" Kcreate_cluster "layer-zero" (lease_or_default 0) db_boot = (Ok op, d1) /\
    phase_of (op_ID op) db_boot = Some p /\ bootstrapNext Kcreate_cluster p = Some n /\
    phase_of (op_ID op) (boot_runs 1 db_boot) = Some n.
Proof.
  destruct db_boot_invariants as [HL HT].
  destruct (bootstrap_run_progresses (env_at "b" 1000) [] demo_bootstrap_executor 0 "z1" "layer-zero" db_boot (Ok tt) (boot_runs 1 db_boot) HL HT)
    as [_ H]; [vm_compute; reflexivity|].
  destruct (H eq_refl) as [[E _]|(op & d1 & Hc & (p & n & H') & _)].
  - exfalso. vm_compute in E. discriminate E.
  - exists op, d1, p, n. exact (conj Hc H').
Defined.

(** After six runs the recorded route and endpoint survive a second report of other facts. *)
Definition other_facts : BootstrapStepResult :=
  mkStepResult "https://10.0.0.1:6443" demo_ca "" "" "" "https://10.0.0.2:44000" "spiffe://crane/dominator/z1".

Lemma discovery_written_once_witness :
  (forall c, In c (clusters (boot_runs 6 db_boot)) -> c_api_server_endpoint c <> "" ->
     exists c', In c' (clusters (snd (SetClusterDiscovery 9000 boot_op other_facts (boot_runs 6 db_boot)))) /\
       c_api_server_endpoint c' = c_api_server_endpoint c)%type /\
  (forall x, In x (zone_dominators (boot_runs 6 db_boot)) ->
     In x (zone_dominators (snd (SetDominatorRoute 9000 boot_op other_facts (boot_runs 6 db_boot))))).
Proof.
  destruct (discovery_written_once 9000 boot_op other_facts (boot_runs 6 db_boot)) as [H1 H2].
  split; [|exact H2].
  intros c Hc E. destruct (H1 c Hc) as (c' & I & _ & K & _). exists c'. exact (conj I (K E)).
Defined.

Lemma bootstrap_replay_witness :
  CreateBootstrap (env_at "x" 500) demo_bootstrap_request db_boot = (Ok (uuid (env_at "b" 0) 0), db_boot).
Proof.
  apply (bootstrap_replay (env_at "b" 0) (env_at "x" 500) demo_bootstrap_request demo_bootstrap_request empty_db).
  vm_compute. reflexivity.
Defined.

(** Finding: a secret nested under a reference key is accepted. *)
Example reference_key_hides_secret :
  safeBootstrapParameters (Some (JObj [("bootstrap_ref", JObj [("password", JStr "hunter2")])])) = true.
Proof. vm_compute. reflexivity. Qed.

(** Finding: the protected host is recorded without a lease, here after it expired. *)
Example bootstrap_host_not_fenced :
  holds_lease 99000 boot_op db_boot_claimed = false /\
  fst (RecordBootstrapHost 99000 boot_op (mkStepResult "" "" "i-stale" "10.0.0.7" "ami-0" "" "") db_boot_claimed) = Ok tt.
Proof. vm_compute. done. Qed.
