(* ===== verification/Provision.v ===== *)
(** * The provisioning controller: internal/capacity/provision_worker.go

    One run claims an operation, loads its trusted target and advances its host by one
    stage, through an executor that owns the provider and Kubernetes clients.  What the
    executor may do to the database is the law [ExecutorLaws]; the controller's theorems
    are proved against it. *)
From S2P Require Import Prelude GoStrings Sql Api Schema Admission Invariant Fixture AdmissionFacts Lease Handoff LeaseFacts Scheduling Catalog.

Local Open Scope string_scope.
Local Open Scope list_scope.
Local Open Scope Z_scope.
Local Open Scope crane_scope.

Record ProvisionResult : Type := mkProvisionResult {
  pr_KubernetesProviderID : string; pr_ProviderID : string; pr_PrivateIP : string }.

(** [Release] runs inside [FinalizeProvision], while its rows are locked. *)
Record ProvisionExecutor : Type := mkProvisionExecutor {
  Launch : Operation -> Store ProvisionResult;
  EnrollAndJoin : Operation -> HostView -> Store unit;
  Ready : Operation -> HostView -> Store bool;
  Release : Operation -> HostView -> result unit }.

Section Controller.
Context {gonet : GoNet} (x : ProvisionExecutor).

(** Record the failure category, give the lease up, and report. *)
Definition retryable {A} (t1 t2 : Z) (op : Operation) (category : string) (cause : error) : Store A :=
  st! _ := RecordProvisionFailure t1 op category in
  st! _ := ReleaseProvisionLease t2 op in
  st_ret (Err cause).

(** [if err != nil { return c.retryable(...) }]: failures of the executor are retryable. *)
Definition attempt {A B} (t1 t2 : Z) (op : Operation) (category : string) (m : Store A) (k : A -> Store B) : Store B :=
  fun d => match m d with
           | (Ok a, d') => k a d'
           | (Err cause, d') => retryable t1 t2 op category cause d'
           end.

Definition launch_stage (e : Env) (op : Operation) (s : HostState) : Store unit :=
  st! _ := BeginLaunch (now e 1) op in
  st! _ := (if s == HostRequested then SetProvisionState (now e 2) op HostRequested HostProvisioning else st_ret (Ok tt)) in
  attempt (now e 4) (now e 5) op "provider_launch" (Launch x op) (fun r =>
    st! _ := RecordLaunchWithAddress (now e 3) op (pr_ProviderID r) (pr_PrivateIP r) [pr_KubernetesProviderID r] in
    ReleaseProvisionLease (now e 4) op).

Definition enroll_stage (e : Env) (op : Operation) (h : HostView) : Store unit :=
  attempt (now e 4) (now e 5) op "host_enrollment" (EnrollAndJoin x op h) (fun _ =>
    st! _ := SetProvisionState (now e 3) op HostRegistering HostConverging in
    ReleaseProvisionLease (now e 4) op).

Definition ready_stage (e : Env) (op : Operation) (h : HostView) : Store unit :=
  attempt (now e 7) (now e 8) op "readiness_check" (Ready x op h) (fun ready =>
    if negb ready then ReleaseProvisionLease (now e 2) op
    else
      st! _ := PrepareProvisionRelease (now e 2) op (hv_DesiredStateVersion h) in
      attempt (now e 7) (now e 8) op "readiness_handoff"
        (FinalizeProvision (now e 3) (now e 4) (now e 5) (now e 6) op (hv_DesiredStateVersion h) (Some (Release x op h)))
        (fun _ => st_ret (Ok tt))).

Definition advance (e : Env) (op : Operation) : Store unit := fun d =>
  match Host (op_HostID op) d with
  | Err err => (Err err, d)
  | Ok h =>
      match hv_State h with
      | HostRequested | HostProvisioning => launch_stage e op (hv_State h) d
      | HostBooting =>
          (st! _ := SetProvisionState (now e 1) op HostBooting HostRegistering in enroll_stage e op h) d
      | HostRegistering => enroll_stage e op h d
      | HostConverging => ready_stage e op h d
      | HostReady => CompleteProvision (now e 1) op d
      | _ => (Err (ErrMsg "provision operation has host in non-runnable state"), d)
      end
  end.

(** The lease renewals that tick while [run] works; a failed renewal cancels the step and
    its error is what the caller sees. *)
Fixpoint provision_renewals (ticks : list Z) (op : Operation) (lease : Z) : Store unit :=
  match ticks with
  | [] => st_ret (Ok tt)
  | t :: rest => st! _ := Renew t op lease in provision_renewals rest op lease
  end.

Definition provision_withLease (ticks : list Z) (op : Operation) (lease : Z) (run : Store unit) : Store unit :=
  fun d =>
  let (leaseErr, d1) := provision_renewals ticks op lease d in
  let (r, d2) := run d1 in
  (match leaseErr with Err e => Err e | Ok _ => r end, d2).

Definition provision_RunOnce (e : Env) (ticks : list Z) (zoneID identity : string) (lease : Z) : Store unit := fun d =>
  if (zoneID == "") || (identity == "") then (Err (ErrMsg "provisioning worker is not configured"), d)
  else
    let l := if lease == 0 then 2 * 60 * 1000 * Millisecond else lease in
    match ClaimDominator (now e 0) zoneID Kprovision identity l d with
    | (Err ErrNoRows, d1) => (Ok tt, d1)
    | (Err err, d1) => (Err err, d1)
    | (Ok op, d1) =>
        match LoadProvisioningTarget op d1 with
        | Err err => (Err err, d1)
        | Ok op => provision_withLease ticks op l (advance e op) d1
        end
    end.

(** ** What the executor promises *)
Class ExecutorLaws : Prop := {
  launch_framed op d : framed false op d (snd (Launch x op d));
  enroll_framed op h d : framed false op d (snd (EnrollAndJoin x op h d));
  ready_framed op h d : framed false op d (snd (Ready x op h d)) }.

(** ** The controller stays inside the frame of its operation *)
Section Framed.
Context {digest : Digest} {laws : ExecutorLaws}.

(** An action of the holder of [op], whatever the outcome. *)
Definition within_frame {A} (op : Operation) (m : Store A) : Prop := forall d, framed true op d (snd (m d)).

Lemma frame_ret {A} op (r : result A) : within_frame op (st_ret r).
Proof. intros d. apply framed_refl. Qed.

Lemma frame_bind {A B} op (m : Store A) (k : A -> Store B) :
  within_frame op m -> (forall a, within_frame op (k a)) -> within_frame op (st_bind m k).
Proof.
  intros Hm Hk d. specialize (Hm d). unfold st_bind. destruct (m d) as [[a|e] d1]; simpl in *; [|done].
  eapply framed_trans; [exact Hm|apply Hk].
Qed.

Lemma frame_write t op w : within_frame op (write t op w).
Proof. intros d. pose proof (write_framed t op w d) as F. destruct (is_finalize w); [done|by apply framed_weaken]. Qed.

Lemma frame_retryable {A} t1 t2 op c cause : within_frame op (@retryable A t1 t2 op c cause).
Proof.
  unfold retryable. apply frame_bind; [apply (frame_write t1 op (WFailure c))|]. intros _.
  apply frame_bind; [apply (frame_write t2 op WRelease)|]. intros _. apply frame_ret.
Qed.

Lemma frame_attempt {A B} t1 t2 op c (m : Store A) (k : A -> Store B) :
  within_frame op m -> (forall a, within_frame op (k a)) -> within_frame op (attempt t1 t2 op c m k).
Proof.
  intros Hm Hk d. specialize (Hm d). unfold attempt. destruct (m d) as [[a|e] d1]; simpl in *;
    (eapply framed_trans; [exact Hm|]); [apply Hk|apply frame_retryable].
Qed.

Lemma frame_executor {A} op (m : Store A) : (forall d, framed false op d (snd (m d))) -> within_frame op m.
Proof. intros H d. apply framed_weaken, H. Qed.

Lemma frame_state t op a b : within_frame op (SetProvisionState t op a b).
Proof. apply (frame_write t op (WState a b)). Qed.

Lemma frame_release t op : within_frame op (ReleaseProvisionLease t op).
Proof. apply (frame_write t op WRelease). Qed.

Lemma frame_launch_stage e op s : within_frame op (launch_stage e op s).
Proof.
  unfold launch_stage. apply frame_bind; [apply (frame_write (now e 1) op WBeginLaunch)|]. intros _.
  apply frame_bind; [case_match; [apply frame_state|apply frame_ret]|]. intros _.
  apply frame_attempt; [apply frame_executor; intros d; apply launch_framed|]. intros r.
  apply frame_bind; [|intros _; apply frame_release].
  apply (frame_write (now e 3) op (WRecordLaunch (pr_ProviderID r) (pr_PrivateIP r) [pr_KubernetesProviderID r])).
Qed.

Lemma frame_enroll_stage e op h : within_frame op (enroll_stage e op h).
Proof.
  unfold enroll_stage. apply frame_attempt; [apply frame_executor; intros d; apply enroll_framed|]. intros _.
  apply frame_bind; [apply frame_state|]. intros _. apply frame_release.
Qed.

Lemma frame_ready_stage e op h : within_frame op (ready_stage e op h).
Proof.
  unfold ready_stage. apply frame_attempt; [apply frame_executor; intros d; apply ready_framed|]. intros [].
  - apply frame_bind; [apply (frame_write (now e 2) op (WPrepare (hv_DesiredStateVersion h)))|]. intros _.
    apply frame_attempt; [|intros _; apply frame_ret].
    apply (frame_write (now e 3) op (WFinalize (now e 4) (now e 5) (now e 6) (hv_DesiredStateVersion h) (Some (Release x op h)))).
  - apply frame_release.
Qed.

Lemma frame_advance e op : within_frame op (advance e op).
Proof.
  intros d. unfold advance. destruct (Host (op_HostID op) d) as [h|err]; [|apply framed_refl].
  destruct (hv_State h); try apply framed_refl.
  - apply frame_launch_stage.
  - apply frame_launch_stage.
  - apply frame_bind; [apply frame_state|]. intros _. apply frame_enroll_stage.
  - apply frame_enroll_stage.
  - apply frame_ready_stage.
  - apply (frame_write (now e 1) op WComplete).
Qed.

Lemma frame_renewals ticks op l : within_frame op (provision_renewals ticks op l).
Proof.
  induction ticks as [|t ticks IH]; simpl; [apply frame_ret|].
  apply frame_bind; [apply (frame_write t op (WRenew l))|done].
Qed.

Lemma frame_withLease ticks op l m : within_frame op m -> within_frame op (provision_withLease ticks op l m).
Proof.
  intros Hm d. unfold provision_withLease. pose proof (frame_renewals ticks op l d) as F.
  destruct (provision_renewals ticks op l d) as [r1 d1]. specialize (Hm d1). destruct (m d1) as [r2 d2].
  simpl in *. by eapply framed_trans.
Qed.
End Framed.
End Controller.

Lemma LoadProvisioningTarget_id op d op' : LoadProvisioningTarget op d = Ok op' ->
  op_ID op' = op_ID op /\ op_Fence op' = op_Fence op /\ op_HostID op' = op_HostID op.
Proof. unfold LoadProvisioningTarget. intros H. inv_ok. done. Qed.

Lemma run_confined {gonet : GoNet} {digest : Digest} x `{!ExecutorLaws x} e ticks z identity lease d r d' :
  Ledger d -> targets_ok d -> provision_RunOnce x e ticks z identity lease d = (r, d') ->
  Ledger d' /\ targets_ok d' /\
  (d' = d \/ exists o, In o (operations d) /\ o_zone_id o = z /\ o_kind o = Kprovision /\
     dominator_authorized d identity o = true /\ confined_to o d d').
Proof.
  intros HL HT. unfold provision_RunOnce. case_match; [intros [= <- <-]; auto|].
  destruct (ClaimDominator _ _ _ _ _ d) as [[op|err] d1] eqn:Ec.
  2: { assert (d1 = d) as ->.
       { unfold ClaimDominator in Ec. case_match; [by injection Ec|]. by eapply claim_err. }
       destruct err; intros [= <- <-]; auto. }
  unfold ClaimDominator in Ec. case_match; [done|].
  pose proof (claim_ok _ _ _ _ _ _ _ _ _ Ec) as (o & Ho & Hcl & Hop & Hd1).
  intros H'. assert (framed true op d1 d') as F.
  { destruct (LoadProvisioningTarget op d1) as [op'|err] eqn:El; [|injection H' as <- <-; apply framed_refl].
    destruct (LoadProvisioningTarget_id _ _ _ El) as (E1 & E2 & _).
    pose proof (frame_withLease ticks op' (if lease == 0 then 2 * 60 * 1000 * Millisecond else lease) _ (frame_advance x e op') d1) as F.
    rewrite H' in F. simpl in F. destruct F as [Fo Fh Fr Fb Fe].
    split; auto; unfold op_frame, host_frame, res_frame, foreign_binding, owns in *; by rewrite <- E1, <- ?E2. }
  assert (Ledger d1) as HL1 by by rewrite <- (claim_same_ledger _ _ _ _ _ _ _ _ _ Ec).
  split; [by rewrite <- (framed_same_ledger _ _ _ _ F)|].
  split; [unfold targets_ok; rewrite (framed_groups _ _ _ _ F), (claim_groups _ _ _ _ _ _ _ _ _ Ec); exact HT|].
  right. exists o. unfold claimable in Hcl. bsplit. simpl in *. split_and!; try done.
  eapply confined_trans; [|eapply framed_confined; [exact F|by rewrite Hop|]].
  - rewrite Hd1. by apply (claim_confined o (claim_row d _ _ _)).
  - intros o3 Hx Ex. destruct (claimed_row _ _ _ _ _ _ _ _ _ o3 HL Ec Hx Ex) as (o4 & Ho4 & _ & -> & E5).
    assert (o4 = o) as ->; [|done]. apply (unique_key_in o_id _ _ _ (L_ops _ HL)); try done. rewrite E5 in Hop. by injection Hop.
Qed.

(** One run of the provisioning controller is confined to one operation.  For every
    executor that stays inside the frame of the operation it is handed, whatever its
    answers, the run keeps the ledger and the targets, and it either changes nothing or
    works on one provisioning operation of its own zone, for which its identity is the
    registered Dominator and the membership is approved: all other operations, all hosts
    that operation does not name with their reservations, all other operations' node bindings,
    and all other tables are untouched. *)
Theorem provision_run_confined {gonet : GoNet} {digest : Digest} x `{!ExecutorLaws x} e ticks z identity lease d r d' :
  Ledger d -> targets_ok d -> provision_RunOnce x e ticks z identity lease d = (r, d') ->
  Ledger d' /\ targets_ok d' /\
  (d' = d \/ exists o, In o (operations d) /\ o_zone_id o = z /\ o_kind o = Kprovision /\
     dominator_authorized d identity o = true /\ confined_to o d d').
Proof. by apply run_confined. Qed.

(** ** A cooperative executor, and the first worker of the demo deployment *)
#[local] Existing Instance demo_net.
#[local] Existing Instance demo_digest.

Definition demo_executor (t : Z) : ProvisionExecutor :=
  mkProvisionExecutor
    (fun _ => st_ret (Ok (mkProvisionResult "aws:///us-west-2a/i-1" "i-1" "10.0.0.9")))
    (fun op h => st! _ := BindProvisionNode t op (mkProvisionBinding (WorkerNodeName (op_HostID op)) "uid-1" "aws:///us-west-2a/i-1" demo_hash false None) in
                 ignore (PinProvisionExpectedState t op demo_expected))
    (fun _ _ => st_ret (Ok true))
    (fun _ _ => Ok tt).

#[local] Instance demo_executor_laws t : ExecutorLaws (demo_executor t).
Proof.
  split.
  - intros op d. apply framed_refl.
  - intros op h d. simpl. unfold st_bind. pose proof (framed_bind false t op
      (mkProvisionBinding (WorkerNodeName (op_HostID op)) "uid-1" "aws:///us-west-2a/i-1" demo_hash false None) d) as F1.
    destruct (BindProvisionNode _ _ _ d) as [[u|e] d1]; simpl in *; [|done].
    eapply framed_trans; [exact F1|]. apply framed_pin.
  - intros op h d. apply framed_refl.
Qed.

Definition provision_run (t : Z) (d : DB) : result unit * DB :=
  provision_RunOnce (demo_executor (t + 2)) (env_at "p" t) [] "z1" demo_owner 0 d.

Definition db_run1 : DB := snd (provision_run 1000 db_two).
Definition db_run2 : DB := snd (provision_run 2000 db_run1).
Definition db_run3 : DB := snd (provision_run 3000 db_run2).

(** Three runs launch, enroll and release the oldest intent. *)
Example three_runs_ready :
  fst (provision_run 1000 db_two) = Ok tt /\ fst (provision_run 2000 db_run1) = Ok tt /\ fst (provision_run 3000 db_run2) = Ok tt /\
  map h_state (host db_run3) = [HostConverging; HostReady; HostRequested] /\
  map o_state (operations db_run3) = [Osucceeded; Opending].
Proof. vm_compute. done. Qed.

Lemma provision_run_confined_witness : Ledger db_run1 /\ targets_ok db_run1.
Proof.
  destruct (provision_run_confined (demo_executor 1002) (env_at "p" 1000) [] "z1" demo_owner 0 db_two _ db_run1
              (proj1 db_two_ledger) (proj2 db_two_ledger) (surjective_pairing _)) as (H1 & H2 & _).
  exact (conj H1 H2).
Defined.
