(* ===== verification/Http.v ===== *)
(** * The platform HTTP API: internal/capacity/http.go and [listHosts] of hosts.go

    Requests arrive routed ([ApiCall], one constructor per route of [Handler]) with their
    body decoded, [None] standing for a body that [decodeJSON] refuses; file [ApiServer]
    reads both from the wire.  Administration needs the admin bearer token; adapter calls
    need a credential that is bound to one cluster, and act for that cluster only. *)
From S2P Require Import Prelude GoStrings Sql Api Decode Schema Admission Lease Handoff Removal Scheduling Catalog Bootstrap.

Local Open Scope string_scope.
Local Open Scope list_scope.
Local Open Scope Z_scope.
Local Open Scope crane_scope.

(** ** Adapter principals *)

(** [json.Unmarshal] of a text, [None] when it is not valid JSON. *)
Class GoJson : Type := { json_parse : string -> option Json }.

(** Decoding into [map[string]string]; [null] gives a nil map, which is refused. *)
Definition dec_principals (j : option Json) : option (gmap string string) :=
  match j with
  | Some (JObj l) => m ← mapM (fun kv => s ← dec_string (Some (snd kv)); Some (fst kv, s)) l; Some (list_to_map (rev m))
  | _ => None
  end.

Definition canonical (s : string) : bool := (s != "") && (s == TrimSpace s).

(** The loop over the map, whose iteration order Go does not fix: [l] is the order of
    this run, [seen] the credentials met so far. *)
Fixpoint check_principals (seen : list string) (l : list (string * string)) : result unit :=
  match l with
  | [] => Ok tt
  | (cluster, token) :: rest =>
      if negb (canonical cluster && canonical token)
      then Err (ErrMsg "adapter principal cluster IDs and credentials must be non-empty and canonical")
      else if one_of token seen then Err (ErrMsg "adapter credential is assigned to multiple clusters")
      else check_principals (token :: seen) rest
  end.

(** [order] is the iteration order of the decoded map. *)
Definition ParseAdapterPrincipals `{GoJson} (order : gmap string string -> list (string * string)) (raw : string) : result (gmap string string) :=
  if TrimSpace raw == "" then Ok ∅
  else match dec_principals (json_parse raw) with
       | None => Err (ErrMsg "CRANE_ADAPTER_PRINCIPALS must be a JSON object")
       | Some m => let* _ := check_principals [] (order m) in Ok m
       end.

(** ** Authentication *)
Record API : Type := mkAPI {
  ValidateTopology : option (ZoneInput -> bool); adminToken : string; adapterPrincipals : gmap string string }.

Record Headers : Type := mkHeaders { Authorization : string; XCraneClusterID : string }.

Definition bearer (token : string) : string := String.append "Bearer " token.

(** [None] lets the request through. *)
Definition admin (a : API) (h : Headers) : bool :=
  negb ((adminToken a == "") || (Authorization h != bearer (adminToken a))).

Definition presented (h : Headers) : string :=
  if HasPrefix (Authorization h) "Bearer " then TrimPrefix (Authorization h) "Bearer " else "".

(** The loop over the principals keeps the last match of the iteration order. *)
Definition authenticate (order : list (string * string)) (p : string) : string :=
  fold_left (fun acc ct => if (p != "") && (p == snd ct) then fst ct else acc) order "".

Inductive adapter_outcome : Type := Unauthorized | ForbiddenCluster | Authenticated (cluster : string).

Definition adapter (order : list (string * string)) (h : Headers) : adapter_outcome :=
  let c := authenticate order (presented h) in
  if c == "" then Unauthorized
  else if TrimSpace (XCraneClusterID h) != c then ForbiddenCluster
  else Authenticated c.

(** ** Responses *)
Inductive Body : Type :=
| BText (s : string) | BCode (code : string) | BStatus (status : string) | BOperation (id : string)
| BZone (z : ZoneInput) | BCluster (c : ClusterInput) | BPool (p : NodePoolInput) | BGroup (g : NodeGroupInput)
| BMembership (m : ClusterZoneInput) | BHosts (l : list HostSummary) | BBootstrap (s : BootstrapStatusView)
| BTarget (r : CapacityResult) | BDiscovery (l : list AutoscalerGroup).

Record Response : Type := mkResponse { rs_status : Z; rs_body : Body }.

Definition capacityError (e : error) : Response :=
  match e with
  | ErrAttachmentUnavailable => mkResponse 503 (BCode "attachment_unavailable")
  | ErrNoRows => mkResponse 404 (BCode "not_found")
  | ErrForbidden => mkResponse 403 (BCode "forbidden")
  | ErrConflict | ErrReplayMismatch => mkResponse 409 (BCode "conflict")
  | ErrLimit => mkResponse 422 (BCode "capacity_limit")
  | ErrInactive | ErrTemplate | ErrFulfilled => mkResponse 422 (BCode "precondition")
  | ErrInvalid => mkResponse 400 (BCode "invalid")
  | ErrFenced | ErrSql _ | ErrMsg _ => mkResponse 500 (BCode "internal")
  end.

Definition writeJSON (b : Body) : Response := mkResponse 200 b.

(** The end of a handler: an error is mapped, a value is written. *)
Definition respond {A} (m : Store A) (k : A -> Body) : DB -> Response * DB :=
  fun d => match m d with
           | (Ok a, d') => (writeJSON (k a), d')
           | (Err e, d') => (capacityError e, d')
           end.

Definition respond_read {A} (q : DB -> result A) (k : A -> Body) : DB -> Response * DB :=
  respond (fun d => (q d, d)) k.

Definition reply (r : Response) : DB -> Response * DB := fun d => (r, d).

(** ** Calls *)
Record setTargetRequest : Type := mkSetTargetRequest {
  st_NodeGroupID : string; st_RequestID : string; st_ExpectedTargetRevision : Z; st_DesiredTarget : Z; st_TemplateRevision : string }.

Record templateUpdate : Type := mkTemplateUpdate {
  tu_Expected : string; tu_Revision : string; tu_Scheduling : SchedulingTemplate; tu_Launch : RawMessage }.

Inductive AdminCall : Type :=
| GetHosts (providers regions : list string)
| PostZone (b : option ZoneInput)
| PostCluster (b : option ClusterInput)
| PostClusterZone (b : option ClusterZoneInput)
| PatchClusterZone (cluster zone : string) (b : option (string * string))
| PostNodePool (b : option NodePoolInput)
| PostNodeGroup (b : option NodeGroupInput)
| PatchTemplate (id : string) (b : option templateUpdate)
| PostFirstZone (b : option FirstZoneInput)
| PostBootstrap (b : option BootstrapRequest)
| GetBootstrap (id : string).

Inductive AdapterCall : Type :=
| PostCapacity (b : option setTargetRequest)
| GetTarget (id : string)
| GetDiscovery
| PostRemovals (b : option NodeRemovalRequest).

Inductive ApiCall : Type := Admin (c : AdminCall) | Adapter (c : AdapterCall).

Definition invalid_json : Response := mkResponse 400 (BText "invalid JSON").

(** [if !decodeJSON(w, r, &in) { return }]. *)
Definition decoded {A} (b : option A) (k : A -> DB -> Response * DB) : DB -> Response * DB :=
  match b with Some a => k a | None => reply invalid_json end.

Section Handlers.
Context {k8s : K8s} (a : API) (e : Env).

Definition topology_valid (z : ZoneInput) : bool := match ValidateTopology a with Some v => v z | None => true end.

(** [url.Values.Get]: the first value, or the empty string. *)
Definition query_get (l : list string) : string := match l with [] => "" | v :: _ => v end.

Definition listHosts (providers regions : list string) : DB -> Response * DB :=
  let provider := TrimSpace (query_get providers) in
  let region := TrimSpace (query_get regions) in
  if negb (length providers =? 1)%nat || negb (length regions =? 1)%nat || (provider == "") || (region == "")
  then reply (mkResponse 400 (BText "one provider and one region are required"))
  else fun d => (writeJSON (BHosts (ListHosts provider region d)), d).

Definition http_createZone (b : option ZoneInput) : DB -> Response * DB :=
  decoded b (fun z => if negb (topology_valid z) then reply (capacityError ErrInvalid)
                      else respond (CreateZone z) (fun _ => BZone z)).

Definition http_createCluster (b : option ClusterInput) : DB -> Response * DB :=
  decoded b (fun c => respond (CreateCluster c) (fun _ => BCluster c)).

Definition http_createNodePool (b : option NodePoolInput) : DB -> Response * DB :=
  decoded b (fun p => respond (CreateNodePool p) (fun _ => BPool p)).

Definition http_createNodeGroup (b : option NodeGroupInput) : DB -> Response * DB :=
  decoded b (fun g => match NormalizeID g with
                      | Err _ => reply (capacityError ErrInvalid)
                      | Ok g => respond (CreateNodeGroup g) (fun _ => BGroup g)
                      end).

Definition updateNodeGroupTemplate (id : string) (b : option templateUpdate) : DB -> Response * DB :=
  decoded b (fun u => respond (UpdateNodeGroupScheduling id (tu_Expected u) (tu_Revision u) (tu_Scheduling u) (tu_Launch u))
                        (fun _ => BStatus "updated")).

Definition http_seedFirstZone (b : option FirstZoneInput) : DB -> Response * DB :=
  decoded b (fun i => if negb (topology_valid (fz_Zone i)) then reply (capacityError ErrInvalid)
                      else respond (SeedFirstZone i) (fun _ => BStatus "ready")).

Definition http_createClusterZone (b : option ClusterZoneInput) : DB -> Response * DB :=
  decoded b (fun m => match normalizeMembership m with
                      | Err err => reply (capacityError err)
                      | Ok m => respond (CreateClusterZone m) (fun _ => BMembership m)
                      end).

Definition http_updateClusterZone (cluster zone : string) (b : option (string * string)) : DB -> Response * DB :=
  decoded b (fun s => let '(lifecycle, access) := s in
    if (lifecycle == "") || (access == "") then reply (capacityError ErrInvalid)
    else let m := mkClusterZoneInput cluster zone lifecycle access in
         respond (UpdateClusterZone m) (fun _ => BMembership m)).

(** The zone that the topology validator sees: [first_zone.zone] of a cluster creation,
    [zone] otherwise. *)
Definition bootstrap_zone (r : BootstrapRequest) : option ZoneInput :=
  match br_Parameters r with
  | None => None
  | Some j => l ← dec_object (Some j); z ← dec_zone (field "zone" l); i ← dec_first_zone (field "first_zone" l);
              Some (if br_Kind r == "create_cluster" then fz_Zone i else z)
  end.

Definition http_createBootstrap (b : option BootstrapRequest) : DB -> Response * DB :=
  decoded b (fun r =>
    if br_Kind r == "attach_zone" then reply (capacityError ErrAttachmentUnavailable)
    else if match ValidateTopology a with
            | None => false
            | Some v => match bootstrap_zone r with Some z => negb (v z) | None => true end
            end
    then reply (capacityError ErrInvalid)
    else respond (CreateBootstrap e r) BOperation).

Definition serve_admin (c : AdminCall) : DB -> Response * DB :=
  match c with
  | GetHosts p r => listHosts p r
  | PostZone b => http_createZone b
  | PostCluster b => http_createCluster b
  | PostClusterZone b => http_createClusterZone b
  | PatchClusterZone c z b => http_updateClusterZone c z b
  | PostNodePool b => http_createNodePool b
  | PostNodeGroup b => http_createNodeGroup b
  | PatchTemplate id b => updateNodeGroupTemplate id b
  | PostFirstZone b => http_seedFirstZone b
  | PostBootstrap b => http_createBootstrap b
  | GetBootstrap id => respond_read (BootstrapStatus id) BBootstrap
  end.

(** [cluster] is the authenticated one, from the request context. *)
Definition capacity_request (cluster : string) (r : setTargetRequest) : CapacityRequest :=
  mkCapacityRequest (st_NodeGroupID r) (st_RequestID r) cluster (st_ExpectedTargetRevision r) (st_DesiredTarget r) (st_TemplateRevision r).

Definition setTarget (cluster : string) (b : option setTargetRequest) : DB -> Response * DB :=
  if cluster == "" then reply (mkResponse 401 (BText "missing cluster identity"))
  else decoded b (fun r => respond (SetTarget e (capacity_request cluster r)) BTarget).

Definition serve_adapter (cluster : string) (c : AdapterCall) : DB -> Response * DB :=
  match c with
  | PostCapacity b => setTarget cluster b
  | GetTarget id => respond_read (Target cluster id) BTarget
  | GetDiscovery => respond_read (AutoscalerDiscovery cluster) BDiscovery
  | PostRemovals b => decoded b (fun r => respond (CreateAutoscalerRemovals e cluster r) (fun _ => BStatus "accepted"))
  end.

(** [order] is the iteration order of the principals in this request. *)
Definition Handler (order : list (string * string)) (h : Headers) (c : ApiCall) : DB -> Response * DB :=
  match c with
  | Admin c => if admin a h then serve_admin c else reply (mkResponse 401 (BText "unauthorized"))
  | Adapter c =>
      match adapter order h with
      | Unauthorized => reply (mkResponse 401 (BText "unauthorized"))
      | ForbiddenCluster => reply (mkResponse 403 (BText "forbidden cluster identity"))
      | Authenticated cluster => serve_adapter cluster c
      end
  end.
End Handlers.
