(* ===== verification/HttpFacts.v ===== *)
(** * What the HTTP API guarantees

    Theorems about [Http]: credentials identify exactly one cluster whatever the order
    in which Go walks its maps, adapters reach only their own cluster, and every call
    keeps the invariants of the database. *)
From S2P Require Import Prelude GoStrings Sql Api Decode Schema Admission Invariant Fixture AdmissionFacts Lease Handoff LeaseFacts Removal RemovalFacts Scheduling Catalog CatalogFacts Bootstrap BootstrapFacts Http.

Local Open Scope string_scope.
Local Open Scope list_scope.
Local Open Scope Z_scope.
Local Open Scope crane_scope.

(** ** Principals *)
Definition principals_ok (m : gmap string string) : Prop :=
  (forall c t, m !! c = Some t -> canonical c = true /\ canonical t = true) /\
  (forall c1 c2 t, m !! c1 = Some t -> m !! c2 = Some t -> c1 = c2).

Lemma check_principals_spec l : forall seen, check_principals seen l = Ok tt <->
  (forall ct, In ct l -> canonical (fst ct) = true /\ canonical (snd ct) = true /\ ~ In (snd ct) seen) /\ NoDup (map snd l).
Proof.
  induction l as [|[c t] l IH]; simpl; intros seen.
  - split; [|done]. intros _. split; [done|apply NoDup_nil_2].
  - rewrite NoDup_cons, list_elem_of_In. destruct (canonical c && canonical t) eqn:Ec; simpl.
    2: { split; [done|]. intros [H _]. destruct (H (c, t)) as (H1 & H2 & _); [by left|]. simpl in *. by rewrite H1, H2 in Ec. }
    destruct (one_of t seen) eqn:Es.
    { split; [done|]. intros [H _]. apply one_of_spec in Es. by destruct (H (c, t)) as (_ & _ & ?); [by left|]. }
    apply andb_prop in Ec as [Ec Et]. assert (~ In t seen) as Hns by (intros Hi; apply one_of_spec in Hi; congruence).
    rewrite IH. split.
    + intros [H Hnd]. split; [|split; [|done]].
      * intros ct [<-|Hin]; [done|]. destruct (H ct Hin) as (? & ? & Hn). simpl in Hn. tauto.
      * intros Hin. apply in_map_iff in Hin as (ct & <- & Hin). destruct (H ct Hin) as (_ & _ & Hn). simpl in Hn. tauto.
    + intros [H [Hn Hnd]]. split; [|done]. intros ct Hin. destruct (H ct (or_intror Hin)) as (? & ? & Hs).
      split_and!; auto. simpl. intros [E|Hi]; [|done]. apply Hn. rewrite E. by apply in_map.
Qed.

Lemma NoDup_tokens (m : gmap string string) :
  NoDup (map snd (map_to_list m)) <-> forall c1 c2 t, m !! c1 = Some t -> m !! c2 = Some t -> c1 = c2.
Proof.
  split.
  - intros Hnd c1 c2 t H1 H2. apply elem_of_map_to_list, list_elem_of_In in H1, H2.
    assert (unique_key snd (map_to_list m)) as Hu by exact Hnd.
    by pose proof (unique_key_in snd _ _ _ Hu H1 H2 eq_refl) as [= ->].
  - intros Hinj. apply NoDup_fmap_2_strong; [|apply NoDup_map_to_list].
    intros [c1 t1] [c2 t2] H1 H2 E. simpl in E. subst. apply elem_of_map_to_list in H1, H2. by rewrite (Hinj c1 c2 t2).
Qed.

Lemma check_principals_map m l : Permutation l (map_to_list m) -> check_principals [] l = Ok tt <-> principals_ok m.
Proof.
  intros Hp. rewrite check_principals_spec. unfold principals_ok. rewrite <- NoDup_tokens.
  rewrite (Permutation_map snd Hp). split; intros [H1 H2]; (split; [|done]).
  - intros c t Hct. destruct (H1 (c, t)) as (? & ? & _); [|done].
    eapply Permutation_in; [symmetry; exact Hp|]. by apply list_elem_of_In, elem_of_map_to_list.
  - intros [c t] Hin. eapply Permutation_in in Hin; [|exact Hp]. apply list_elem_of_In, elem_of_map_to_list in Hin.
    destruct (H1 c t Hin). simpl. auto.
Qed.

Lemma prefix_split s p : HasPrefix s p = true -> s = String.append p (TrimPrefix s p).
Proof.
  intros H. unfold TrimPrefix. rewrite H. unfold HasPrefix in H. revert s H.
  induction p as [|c p IH]; intros s H; [done|]. destruct s as [|c' s]; [done|]. simpl in *.
  destruct (Ascii.ascii_dec c c') as [->|]; [|done]. rewrite (IH s H) at 1. reflexivity.
Qed.

Lemma presented_spec h t : t <> "" -> presented h = t <-> Authorization h = bearer t.
Proof.
  intros Ht. unfold presented, bearer. split.
  - destruct (HasPrefix (Authorization h) "Bearer ") eqn:E; [|by intros <-]. intros <-. by apply prefix_split.
  - intros ->. by rewrite HasPrefix_append, TrimPrefix_append.
Qed.

Lemma authenticate_none (l : list (string * string)) p acc : (forall ct, In ct l -> snd ct <> p) ->
  fold_left (fun acc ct => if p == snd ct then fst ct else acc) l acc = acc.
Proof.
  revert acc. induction l as [|ct l IH]; simpl; intros acc H; [done|].
  rewrite (bool_decide_false (p = snd ct)) by (intros E; by apply (H ct); auto). auto.
Qed.

Lemma authenticate_acc (l : list (string * string)) p c acc : NoDup (map snd l) -> acc <> c ->
  fold_left (fun acc ct => if p == snd ct then fst ct else acc) l acc = c <-> In (c, p) l.
Proof.
  intros Hnd Hc. induction l as [|[c0 t0] l IH]; simpl; [done|].
  apply NoDup_cons in Hnd as [Hn Hnd]. case_bool_decide as E; simpl.
  - subst t0. assert (forall ct, In ct l -> snd ct <> p) as Hno.
    { intros ct Hin E. destruct Hn. apply list_elem_of_In. simpl. rewrite <- E. by apply in_map. }
    rewrite (authenticate_none l p c0 Hno).
    split; [naive_solver|]. intros [[= ->]|Hin]; [done|]. by destruct (Hno _ Hin).
  - rewrite IH by done. naive_solver.
Qed.

Lemma authenticate_spec l p c : p <> "" -> NoDup (map snd l) -> c <> "" -> authenticate l p = c <-> In (c, p) l.
Proof.
  intros Hp Hnd Hc. unfold authenticate. destruct (p == "") eqn:E; bsplit; [done|]. simpl. by apply authenticate_acc.
Qed.

(** ** The adapter's identity *)
Lemma adapter_spec m order h c : principals_ok m -> Permutation order (map_to_list m) ->
  adapter order h = Authenticated c <->
  exists t, m !! c = Some t /\ Authorization h = bearer t /\ TrimSpace (XCraneClusterID h) = c.
Proof.
  intros [Hcan Hinj] Hp.
  assert (NoDup (map snd order)) as Hnd by (rewrite (Permutation_map snd Hp); by apply NoDup_tokens).
  assert (forall c p, In (c, p) order <-> m !! c = Some p) as Hin.
  { intros c' p. rewrite <- elem_of_map_to_list, list_elem_of_In.
    split; apply Permutation_in; [done|by symmetry]. }
  unfold adapter. split.
  - case_bool_decide as E1; [done|]. destruct (TrimSpace (XCraneClusterID h) != authenticate order (presented h)) eqn:E2; [done|].
    intros [= <-]. bsplit. set (c := authenticate order (presented h)) in *.
    assert (presented h <> "") as Hpr.
    { intros E. apply E1. unfold c, authenticate. rewrite E. clear. induction order as [|? ? IH]; simpl; auto. }
    assert (In (c, presented h) order) as Hc by by apply authenticate_spec.
    apply Hin in Hc. exists (presented h). split_and!; [done|by apply presented_spec|done].
  - intros (t & Ht & Ha & Hx). destruct (Hcan c t Ht) as [Hc1 Ht1]. unfold canonical in *. bsplit.
    assert (presented h = t) as Hpr by by apply presented_spec.
    assert (authenticate order (presented h) = c) as ->.
    { rewrite Hpr. apply authenticate_spec; [done..|]. by apply Hin. }
    rewrite bool_decide_false by done. by rewrite Hx, eq_refl_true.
Qed.

(** ** Calls keep the invariants *)
Definition invariants (d : DB) : Prop := Ledger d /\ targets_ok d /\ removals_exclusive d.

Definition keeps (d d' : DB) : Prop := invariants d -> invariants d'.

Lemma keeps_of_ledger d d' : kept_ledger d d' -> node_removal_operations d' = node_removal_operations d -> keeps d d'.
Proof.
  intros K E (HL & HT & HX). destruct (K HL HT). split_and!; auto. unfold removals_exclusive. by rewrite E.
Qed.

Lemma keeps_refl d : keeps d d.
Proof. by intros H. Qed.

Section Calls.
Context {k8s : K8s}.

Lemma keeps_create t d r d' : typed t -> create t d = (r, d') -> keeps d d'.
Proof.
  intros Ht H. destruct (create_kept t d r d' Ht H) as [K G]. apply keeps_of_ledger; [exact K|].
  pose proof (gw_rest _ _ G) as E. by injection E.
Qed.

Lemma keeps_UpdateClusterZone m d r d' : UpdateClusterZone m d = (r, d') -> keeps d d'.
Proof.
  unfold UpdateClusterZone. destruct (normalizeMembership m); intros [= _ <-]; [|apply keeps_refl].
  apply keeps_of_ledger; [|done]. apply kept_ledger_same; [by split|done].
Qed.

Lemma keeps_scheduling id ex rev t l d r d' : UpdateNodeGroupScheduling id ex rev t l d = (r, d') -> keeps d d'.
Proof.
  unfold UpdateNodeGroupScheduling. destruct l as [j|]; [|intros [= _ <-]; apply keeps_refl].
  case_match; [intros [= _ <-]; apply keeps_refl|]. destruct r as [[]|e]; [|intros [-> _]%run_tx_err; apply keeps_refl].
  rewrite run_tx_ok. intros Hrun.
  apply tx_bind_ok in Hrun as (g & d1 & Hg & Hrun). apply tx_query_ok in Hg as [Hg ->].
  apply tx_bind_ok in Hrun as (z & d2 & Hz & Hrun). apply tx_query_ok in Hz as [Hz ->].
  apply tx_bind_ok in Hrun as ([] & d3 & Hv & Hrun). apply tx_lift_ok in Hv as [Hv ->].
  apply tx_bind_ok in Hrun as ([] & d4 & Hs & Hrun). apply tx_lift_ok in Hs as [Hs ->].
  case_bool_decide; inv_tx; [apply keeps_refl|]. apply keeps_of_ledger; [|done]. intros HL HT. split.
  - rewrite <- (Ledger_proper d); [done|]. split; simpl; try done. symmetry. by apply update_where_map.
  - intros y Hy. simpl in Hy. apply in_update_where in Hy as (y0 & Hy0 & ->). specialize (HT y0 Hy0).
    cbv beta. destruct (g_id y0 == id); exact HT.
Qed.

Lemma keeps_CreateBootstrap e r d res d' : CreateBootstrap e r d = (res, d') -> keeps d d'.
Proof.
  intros H. apply keeps_of_ledger; [by eapply CreateBootstrap_kept|].
  destruct res as [id|err]; [|by apply CreateBootstrap_err in H as ->].
  apply CreateBootstrap_ok in H as (p & _ & _ & H). destruct (bootstrap_request r d) as [[b o]|]; [by destruct H as [-> _]|].
  destruct H as [_ [_ (i & d1 & d2 & Hi & _ & _ & Hs & _ & _ & Ho & Hb)]].
  apply dec_intent_typed in Hi as [Hpt Hgt]. destruct (seed_tx_kept _ _ _ _ Hpt Hgt Hs) as [_ G].
  apply insert_operation_ok in Ho as [-> _]. unfold insert_bootstrap in Hb. inv_ok. simpl.
  pose proof (gw_rest _ _ G) as E. by injection E.
Qed.

Lemma keeps_SetTarget e req d r d' : SetTarget e req d = (r, d') -> keeps d d'.
Proof.
  intros H. apply keeps_of_ledger; [|by eapply SetTarget_removals]. intros HL HT. by eapply SetTarget_keeps.
Qed.

Lemma keeps_removals e c req d r d' : CreateAutoscalerRemovals e c req d = (r, d') -> keeps d d'.
Proof. intros H (HL & HT & HX). by eapply CreateAutoscalerRemovals_keeps. Qed.

(** The bodies carry Go [int64] fields. *)
Definition call_typed (c : ApiCall) : Prop :=
  match c with
  | Admin (PostNodePool (Some p)) => pool_typed p
  | Admin (PostNodeGroup (Some g)) => group_typed g
  | Admin (PostFirstZone (Some i)) => pool_typed (fz_Pool i) /\ group_typed (fz_Group i)
  | _ => True
  end.

(** A reflexive relation that holds across every store call of the handlers holds
    across every API call. *)
Record across_calls (R : DB -> DB -> Prop) : Prop := mkAcross {
  ac_refl : forall d, R d d;
  ac_create : forall t d r d', typed t -> create t d = (r, d') -> R d d';
  ac_membership : forall m d r d', UpdateClusterZone m d = (r, d') -> R d d';
  ac_scheduling : forall id ex rev t l d r d', UpdateNodeGroupScheduling id ex rev t l d = (r, d') -> R d d';
  ac_bootstrap : forall e r d res d', CreateBootstrap e r d = (res, d') -> R d d';
  ac_target : forall e req d r d', SetTarget e req d = (r, d') -> R d d';
  ac_removals : forall e c req d r d', CreateAutoscalerRemovals e c req d = (r, d') -> R d d' }.

Section Across.
Context (R : DB -> DB -> Prop) (HR : across_calls R).

Lemma across_respond {A} (m : Store A) k d : (forall r d', m d = (r, d') -> R d d') -> R d (snd (respond m k d)).
Proof. intros H. unfold respond. destruct (m d) as [[a|e] d'] eqn:E; simpl; by eapply H. Qed.

Lemma across_read {A} (q : DB -> result A) k d : R d (snd (respond_read q k d)).
Proof. apply across_respond. intros r d' [= _ <-]. apply HR. Qed.

Lemma across_admin a e c d : call_typed (Admin c) -> R d (snd (serve_admin a e c d)).
Proof.
  pose proof (ac_refl _ HR d) as Hd.
  destruct c as [ps rs|b|b|b|cl z b|b|b|id b|b|b|id]; simpl; intros Ht; try (destruct b as [b|]; simpl; [|exact Hd]).
  - unfold listHosts. case_match; exact Hd.
  - case_match; [exact Hd|]. apply across_respond. intros r d'. by apply (ac_create _ HR (TZone b "ready")).
  - apply across_respond. intros r d'. by apply (ac_create _ HR (TCluster b "ready" false)).
  - destruct (normalizeMembership b) as [m|]; [|exact Hd]. apply across_respond. intros r d'.
    by apply (ac_create _ HR (TMembership m false)).
  - destruct b as [l ac]. case_match; [exact Hd|]. apply across_respond. intros r d'. apply HR.
  - apply across_respond. intros r d'. by apply (ac_create _ HR (TPool b)).
  - destruct (NormalizeID b) as [g|] eqn:E; [|exact Hd]. apply across_respond. intros r d'. apply (ac_create _ HR (TGroup g)).
    apply NormalizeID_ok in E as [id ->]. done.
  - apply across_respond. intros r d'. apply HR.
  - case_match; [exact Hd|]. apply across_respond. intros r d'. by apply (ac_create _ HR (TSeed b true)).
  - case_match; [exact Hd|]. destruct (match ValidateTopology a with Some _ => _ | None => _ end); [exact Hd|].
    apply across_respond. intros r d'. apply HR.
  - apply across_read.
Qed.

Lemma across_adapter e cl c d : R d (snd (serve_adapter e cl c d)).
Proof.
  pose proof (ac_refl _ HR d) as Hd. destruct c as [b|id| |b]; simpl; try apply across_read.
  - unfold setTarget. case_match; [exact Hd|]. destruct b; [|exact Hd]. apply across_respond. intros r d'. apply HR.
  - destruct b; [|exact Hd]. apply across_respond. intros r d'. apply HR.
Qed.

Lemma across_handler a e order h c d : call_typed c -> R d (snd (Handler a e order h c d)).
Proof.
  pose proof (ac_refl _ HR d) as Hd. destruct c as [c|c]; simpl; intros Ht.
  - destruct (admin a h); [by apply across_admin|exact Hd].
  - destruct (adapter order h); simpl; [exact Hd..|]. apply across_adapter.
Qed.
End Across.

Lemma keeps_across : across_calls keeps.
Proof.
  split; eauto using keeps_refl, keeps_create, keeps_UpdateClusterZone, keeps_scheduling, keeps_CreateBootstrap,
    keeps_SetTarget, keeps_removals.
Qed.

Lemma keeps_handler a e order h c d : call_typed c -> keeps d (snd (Handler a e order h c d)).
Proof. apply across_handler, keeps_across. Qed.
End Calls.

(** ** Tenancy *)
Lemma SetTarget_other_groups e req d r d' g : Ledger d -> SetTarget e req d = (r, d') ->
  In g (node_groups d) -> g_cluster_id g <> ClusterID req -> In g (node_groups d').
Proof.
  intros HL H Hg Hc. destruct r as [r|err]; [|by apply SetTarget_err in H as ->].
  apply SetTarget_ok in H as (p & Hp & Hcl & H). destruct (select_one _ _); [by destruct H as (_ & -> & _)|].
  rewrite (admitted_groups _ _ _ _ _ _ H). apply in_update_where. exists g. split; [done|].
  rewrite bool_decide_false; [done|]. intros E. destruct (loadPolicy_ok _ _ _ Hp) as (Hin & Hid & _).
  apply Hc. rewrite (unique_key_in g_id _ g (group p) (L_groups _ HL)) by (done || congruence). done.
Qed.

Lemma removals_other_groups e c req d r d' g : Ledger d -> CreateAutoscalerRemovals e c req d = (r, d') ->
  In g (node_groups d) -> g_cluster_id g <> c -> In g (node_groups d') /\ host d' = host d.
Proof.
  intros HL H Hg Hc. destruct r as [r|err]; [|by apply CreateAutoscalerRemovals_err in H as ->].
  apply CreateAutoscalerRemovals_ok in H as (_ & p & Hp & Hcl & H). destruct (select_one _ _); [by destruct H as (_ & ->)|].
  destruct (removed_shape _ _ _ _ _ H) as (ids & _ & ->). simpl. split; [|done]. apply in_update_where. exists g. split; [done|].
  rewrite bool_decide_false; [done|]. intros E. destruct (loadPolicy_ok _ _ _ Hp) as (Hin & Hid & _).
  apply Hc. rewrite (unique_key_in g_id _ g (group p) (L_groups _ HL)) by (done || congruence). done.
Qed.

(** Rows of other clusters after a call that acts for [cluster]. *)
Definition others_untouched (cluster : string) (d d' : DB) : Prop :=
  forall g, In g (node_groups d) -> g_cluster_id g <> cluster ->
    In g (node_groups d') /\ forall h, In h (host d) -> h_node_group_id h = Some (g_id g) -> In h (host d').

Lemma serve_adapter_confined e cl c d : Ledger d -> targets_ok d -> others_untouched cl d (snd (serve_adapter e cl c d)).
Proof.
  intros HL HT. destruct c as [b|id| |b]; simpl.
  - unfold setTarget. destruct (cl == ""); [done|]. destruct b as [b|]; [|done]. simpl. unfold respond.
    destruct (SetTarget e (capacity_request cl b) d) as [r d'] eqn:E.
    assert (others_untouched cl d d') as H; [|by destruct r].
    intros g Hg Hc. pose proof (SetTarget_other_groups _ _ _ _ _ g HL E Hg Hc) as Hg'. split; [done|]. intros h Hh Hgr.
    destruct r as [r|err]; [|by apply SetTarget_err in E as ->].
    pose proof E as E'. apply SetTarget_ok in E' as (p & Hp & Hcl & _). destruct (loadPolicy_ok _ _ _ Hp) as (Hin & Hid & _).
    assert (h_node_group_id h <> Some (NodeGroupID (capacity_request cl b))) as Hne.
    { intros E'. rewrite Hgr in E'. injection E' as E'. apply Hc. simpl in *.
      rewrite (unique_key_in g_id _ g (group p) (L_groups _ HL)); [done..|congruence]. }
    destruct (SetTarget_spares _ _ _ _ _ h HL HT E Hh) as (h' & Hh' & _ & _ & Heq); [auto|]. by rewrite <- Heq.
  - unfold respond_read, respond. by destruct (Target cl id d).
  - unfold respond_read, respond. by destruct (AutoscalerDiscovery cl d).
  - destruct b as [b|]; [|done]. simpl. unfold respond. destruct (CreateAutoscalerRemovals e cl b d) as [r d'] eqn:E.
    assert (others_untouched cl d d') as H; [|by destruct r].
    intros g Hg Hc. destruct (removals_other_groups _ _ _ _ _ _ g HL E Hg Hc) as [Hg' Hh']. split; [done|]. intros h Hh _. by rewrite Hh'.
Qed.

(** ** Theorems *)

(** Parsing the adapter principals does not depend on the order in which Go walks the
    decoded map: for every iteration order, a document is accepted exactly when it is blank
    or a JSON object of non-empty, trimmed cluster IDs and credentials in which no
    credential serves two clusters. *)
Theorem principals_order_independent {json : GoJson} order raw m :
  (forall m, Permutation (order m) (map_to_list m)) ->
  ParseAdapterPrincipals order raw = Ok m <->
  (TrimSpace raw = "" /\ m = ∅) \/ (TrimSpace raw <> "" /\ dec_principals (json_parse raw) = Some m /\ principals_ok m).
Proof.
  intros Hord. unfold ParseAdapterPrincipals. case_bool_decide as Eb; [naive_solver|].
  destruct (dec_principals (json_parse raw)) as [m0|]; [|naive_solver].
  pose proof (check_principals_map m0 (order m0) (Hord m0)) as Hc.
  destruct (check_principals [] (order m0)) as [[]|err]; simpl.
  - split; [intros [= <-]; right; tauto|]. naive_solver.
  - split; [done|]. intros [[? _]|(_ & [= <-] & Hok)]; [done|]. by apply Hc in Hok.
Qed.

(** C38. An adapter credential stands for exactly one cluster.  With accepted principals, and
    whatever the iteration order, a request is authenticated as a cluster if and only if it
    presents that cluster's bearer credential and names that cluster in its header. *)
Theorem adapter_identity_exact m order h c :
  principals_ok m -> Permutation order (map_to_list m) ->
  adapter order h = Authenticated c <->
  exists t, m !! c = Some t /\ Authorization h = bearer t /\ TrimSpace (XCraneClusterID h) = c.
Proof. apply adapter_spec. Qed.

(** Adapters are confined to their cluster.  Whatever an adapter sends, either nothing
    changes, or it held the credential of a cluster and named it, and no group of any other
    cluster and no host of such a group has changed. *)
Theorem adapter_confined {k8s : K8s} m a e order h c d resp d' :
  principals_ok m -> Permutation order (map_to_list m) -> Ledger d -> targets_ok d ->
  Handler a e order h (Adapter c) d = (resp, d') ->
  d' = d \/ exists cluster t, m !! cluster = Some t /\ Authorization h = bearer t /\
              TrimSpace (XCraneClusterID h) = cluster /\ others_untouched cluster d d'.
Proof.
  intros Hok Hp HL HT. simpl. destruct (adapter order h) as [| |cl] eqn:Ea; [intros [= _ <-]; by left..|].
  intros H. right. apply (adapter_spec m) in Ea as (t & Ht & Hb & Hx); [|done..]. exists cl, t. split_and!; auto.
  pose proof (serve_adapter_confined e cl c d HL HT) as HC. by rewrite H in HC.
Qed.

(** Every call of the platform API, whoever makes it and however it is answered, keeps the
    capacity ledger, the target bounds and the exclusivity of removals; without the admin
    token no administrative call changes anything. *)
Theorem api_keeps_invariants {k8s : K8s} a e order h c d resp d' :
  call_typed c -> invariants d -> Handler a e order h c d = (resp, d') ->
  invariants d' /\ (forall ac, c = Admin ac -> admin a h = false -> rs_status resp = 401 /\ d' = d).
Proof.
  intros Ht HI H. split; [pose proof (keeps_handler a e order h c d Ht HI) as HK; by rewrite H in HK|].
  intros ac -> Hno. simpl in H. rewrite Hno in H. by injection H as <- <-.
Qed.

(** ** Witnesses *)
#[local] Existing Instance demo_k8s.
Definition demo_principals : gmap string string := {[ "c1" := "token-1"; "c2" := "token-2" ]}.
#[local] Instance demo_json : GoJson :=
  {| json_parse := fun _ => Some (JObj [("c1", JStr "token-1"); ("c2", JStr "token-2")]) |}.
Definition demo_api : API := mkAPI None "admin-token" demo_principals.
Definition demo_headers : Headers := mkHeaders "Bearer token-1" " c1 ".
Definition demo_call : AdapterCall := PostCapacity (Some (mkSetTargetRequest demo_gid "req-1" 0 2 "rev-1")).

Lemma principals_order_independent_witness :
  ParseAdapterPrincipals (fun m => rev (map_to_list m)) "{...}" = Ok demo_principals /\ principals_ok demo_principals.
Proof.
  assert (forall m : gmap string string, Permutation (rev (map_to_list m)) (map_to_list m)) as Hord
    by (intros m; symmetry; apply Permutation_rev).
  assert (ParseAdapterPrincipals (fun m => rev (map_to_list m)) "{...}" = Ok demo_principals) as E by (vm_compute; reflexivity).
  split; [exact E|].
  destruct (proj1 (principals_order_independent _ _ _ Hord) E) as [[H _]|(_ & _ & H)]; [vm_compute in H; discriminate H|exact H].
Defined.

Lemma demo_principals_ok : principals_ok demo_principals.
Proof. apply (check_principals_map demo_principals (map_to_list demo_principals)); [done|]. vm_compute. reflexivity. Qed.

Lemma adapter_identity_exact_witness :
  adapter (map_to_list demo_principals) demo_headers = Authenticated "c1" /\
  exists t, demo_principals !! "c1" = Some t /\ Authorization demo_headers = bearer t /\ TrimSpace (XCraneClusterID demo_headers) = "c1".
Proof.
  assert (adapter (map_to_list demo_principals) demo_headers = Authenticated "c1") as E by (vm_compute; reflexivity).
  split; [exact E|]. exact (proj1 (adapter_identity_exact demo_principals _ demo_headers "c1" demo_principals_ok (reflexivity _)) E).
Defined.

Lemma adapter_confined_witness :
  rs_status (fst (Handler demo_api (env_at "a" 100) (map_to_list demo_principals) demo_headers (Adapter demo_call) demo_db)) = 200 /\
  (snd (Handler demo_api (env_at "a" 100) (map_to_list demo_principals) demo_headers (Adapter demo_call) demo_db) = demo_db \/
   exists cluster t, demo_principals !! cluster = Some t /\ Authorization demo_headers = bearer t).
Proof.
  split; [vm_compute; reflexivity|].
  destruct (adapter_confined demo_principals demo_api (env_at "a" 100) (map_to_list demo_principals) demo_headers demo_call demo_db _ _
              demo_principals_ok (reflexivity _) demo_ledger demo_targets (surjective_pairing _)) as [H|(cl & t & H1 & H2 & _)];
    [left; exact H|right; exists cl, t; exact (conj H1 H2)].
Defined.

Lemma api_keeps_invariants_witness :
  invariants (snd (Handler demo_api (env_at "a" 100) (map_to_list demo_principals) demo_headers (Adapter demo_call) demo_db)).
Proof.
  apply (api_keeps_invariants demo_api (env_at "a" 100) (map_to_list demo_principals) demo_headers (Adapter demo_call) demo_db
           (fst (Handler demo_api (env_at "a" 100) (map_to_list demo_principals) demo_headers (Adapter demo_call) demo_db))).
  - exact I.
  - split; [exact demo_ledger|]. split; [exact demo_targets|]. intros h. vm_compute. discriminate.
  - apply surjective_pairing.
Defined.
