(* ===== verification/HostCatalog.v ===== *)
(** * The host catalog service

    internal/hostcatalog: the repository over the [host] table and the service that guards
    it.  The catalog serves hosts that no node group manages; the guard
    [EnsureLegacyLifecycle] keeps it away from hosts that the capacity ledger or the
    bootstrap owns.  The service runs in a world of its own tables ([actions],
    [host_problems], the hosts with recorded state requests) beside the catalog database,
    with the trace of calls made to the cloud provider. *)
From S2P Require Import Prelude GoStrings Sql Api Schema Admission Invariant Fixture AdmissionFacts Lease Handoff LeaseFacts Removal RemovalFacts Scheduling Catalog CatalogFacts Bootstrap BootstrapFacts.

Local Open Scope string_scope.
Local Open Scope list_scope.
Local Open Scope Z_scope.
Local Open Scope crane_scope.

(** ** Actions and problems *)
Inductive ActionType : Type :=
| ActionCreateHost | ActionDrainHost | ActionReplaceHost | ActionCreateLB | ActionCreateDB | ActionCreateSpireInstance.
Inductive ActionStatus : Type := ActionPending | ActionRunning | ActionDone | ActionFailed.

#[global] Instance ActionType_eq_dec : EqDecision ActionType.
Proof. solve_decision. Defined.
#[global] Instance ActionStatus_eq_dec : EqDecision ActionStatus.
Proof. solve_decision. Defined.

(** The columns of [actions]; [provider] is nullable. *)
Record ActionRow : Type := mkActionRow {
  a_id : Z; a_hostid : string; a_status : ActionStatus; a_attempts : Z; a_createdat : Z; a_type : ActionType;
  a_updatedat : option Z; a_provider : option string }.

Inductive ProblemType : Type :=
| ProblemTypeSEL | ProblemTypeSMART | ProblemTypeFirmware | ProblemTypeCloudEvent | ProblemTypeReachability
| ProblemTypeCycling | ProblemTypeNoHeartbeat | ProblemTypeInstanceNotFound.
Inductive ProblemSeverity : Type := SeverityCritical | SeverityWarning | SeverityInfo.

#[global] Instance ProblemType_eq_dec : EqDecision ProblemType.
Proof. solve_decision. Defined.
#[global] Instance ProblemSeverity_eq_dec : EqDecision ProblemSeverity.
Proof. solve_decision. Defined.

Record Problem : Type := mkProblem {
  pr_ID : Z; pr_Host_id : string; pr_Type : ProblemType; pr_Severity : ProblemSeverity; pr_DetectedAt : Z;
  pr_ResolvedAt : option Z; pr_Details : string }.

(** ** The world of the legacy services *)
Record DBConnectionInfo : Type := mkConnInfo {
  ci_Endpoint : string; ci_Port : Z; ci_DBName : string; ci_Username : string; ci_SecretARN : string; ci_SGID : string }.

Inductive CloudCall : Type :=
| CTerminateHost (providerID : string)
| CProvisionHost (role hostID : string)
| CProvisionLB (vpc : string) (subnets : list string) (name : string) (port : Z)
| CProvisionSpireDB (vpc : string) (subnets : list string) (sg : string)
| CProvisionSpireHost (hostID : string) (conn : DBConnectionInfo)
| CRegisterTargets (group instance : string) (port : Z).

Record World : Type := mkWorld {
  w_db : DB; w_actions : list ActionRow; w_problems : list Problem; w_state_requests : list string;
  w_cloud : list CloudCall }.

Definition set_w_db (v : DB) (w : World) : World :=
  mkWorld v (w_actions w) (w_problems w) (w_state_requests w) (w_cloud w).
Definition set_w_actions (v : list ActionRow) (w : World) : World :=
  mkWorld (w_db w) v (w_problems w) (w_state_requests w) (w_cloud w).
Definition set_w_problems (v : list Problem) (w : World) : World :=
  mkWorld (w_db w) (w_actions w) v (w_state_requests w) (w_cloud w).
Definition set_w_cloud (v : list CloudCall) (w : World) : World :=
  mkWorld (w_db w) (w_actions w) (w_problems w) (w_state_requests w) v.

Definition Run (A : Type) : Type := World -> result A * World.
Definition run_ret {A} (r : result A) : Run A := fun w => (r, w).
Definition run_bind {A B} (m : Run A) (k : A -> Run B) : Run B :=
  fun w => match m w with (Ok a, w') => k a w' | (Err e, w') => (Err e, w') end.
Notation "'do!' x := m 'in' k" := (run_bind m (fun x => k))
  (at level 10, x pattern, m at level 100, k at level 200,
   format "'[v' 'do!'  x  :=  m  'in' '/' k ']'") : crane_scope.

(** Statements on the host table. *)
Definition exec_hosts (f : list HostRow -> list HostRow) : Run unit :=
  fun w => (Ok tt, set_w_db (set_host (f (host (w_db w))) (w_db w)) w).
Definition query {A} (q : DB -> result A) : Run A := fun w => (q (w_db w), w).
Definition host_is (id : string) (h : HostRow) : bool := h_id h == id.

(** ** The repository *)

(** The columns [GetByID] reads; NULL is accepted for the provider columns and the
    heartbeat only. *)
Record LegacyHost : Type := mkLegacyHost {
  lh_ID : string; lh_Role : string; lh_Zone : string; lh_ImageID : string; lh_State : HostState; lh_Health : HostHealth;
  lh_CreatedAt : Z; lh_Provider : string; lh_ProviderID : string; lh_LastSeenHeartbeat : option Z;
  lh_Protected : bool; lh_SubdEndpoint : string }.

Definition null_scan : error := ErrMsg "converting NULL to string is unsupported".

Definition scan_host (h : HostRow) : result LegacyHost :=
  let* role := of_option null_scan (h_role h) in
  let* zone := of_option null_scan (h_zone h) in
  let* image := of_option null_scan (h_imageid h) in
  let* health := of_option null_scan (h_health h) in
  let* created := of_option null_scan (h_createdat h) in
  Ok (mkLegacyHost (h_id h) role zone image (h_state h) health created (default "" (h_provider h))
        (default "" (h_providerid h)) (h_lastseenheartbeat h) (h_protected h) (h_subd_endpoint h)).

Fixpoint scan_hosts (l : list HostRow) : result (list LegacyHost) :=
  match l with
  | [] => Ok []
  | h :: r => let* x := scan_host h in let* xs := scan_hosts r in Ok (x :: xs)
  end.

Definition Create (h : HostRow) : Run unit :=
  fun w => match insert_host h (w_db w) with
           | Ok d => (Ok tt, set_w_db d w)
           | Err e => (Err e, w)
           end.

(** Problems and recorded state requests reference the host. *)
Definition Delete (id : string) : Run unit := fun w =>
  if exists_row (host_is id) (host (w_db w)) &&
     (existsb (fun p => pr_Host_id p == id) (w_problems w) || one_of id (w_state_requests w) ||
      existsb (fun b => b_host_id b == id) (worker_provisioning_state (w_db w)) ||
      existsb (fun r => i_host_id r == id) (infrastructure_reservations (w_db w)) ||
      existsb (fun r => rm_host_id r == id) (node_removal_operations (w_db w)))
  then (Err (ErrSql "23503"), w)
  else exec_hosts (List.filter (fun h => negb (host_is id h))) w.

Definition GetByID_row (id : string) : Run LegacyHost :=
  query (fun d => let* h := of_option ErrNoRows (select_one (host_is id) (host d)) in scan_host h).
Definition store_GetByProviderID (id : string) : Run LegacyHost :=
  query (fun d => let* h := of_option ErrNoRows (select_one (fun h => h_providerid h == Some id) (host d)) in scan_host h).
(** The zone is not part of the query. *)
Definition store_GetByZone (zone : string) : Run (list LegacyHost) := query (fun d => scan_hosts (host d)).
Definition store_ListHosts : Run (list LegacyHost) := query (fun d => scan_hosts (host d)).
(** The table has no [token] column. *)
Definition store_GetByToken (token : string) : Run LegacyHost := run_ret (Err (ErrSql "42703")).

(** [None] is a string that is none of the states; the column's CHECK refuses it. *)
Definition store_UpdateState (id : string) (s : option HostState) : Run unit := fun w =>
  match s with
  | Some s => exec_hosts (update_where (host_is id) (set_h_state s)) w
  | None => if exists_row (host_is id) (host (w_db w)) then (Err (ErrSql "23514"), w) else (Ok tt, w)
  end.
Definition store_UpdateHealth (id : string) (s : HostHealth) : Run unit :=
  exec_hosts (update_where (host_is id) (set_h_health (Some s))).
Definition store_UpdateProviderID (id providerID : string) : Run unit :=
  exec_hosts (update_where (host_is id) (set_h_providerid (Some providerID))).
Definition store_UpdateLastSeenHeartbeat (id : string) (t : Z) : Run unit :=
  exec_hosts (update_where (host_is id) (set_h_lastseenheartbeat (Some t))).
Definition store_UpdateDBConnectionInfo (id : string) (c : DBConnectionInfo) : Run unit :=
  exec_hosts (update_where (host_is id) (fun h =>
    set_h_db (Some (ci_Port c, ci_DBName c, ci_Username c, ci_SecretARN c, ci_SGID c)) (set_h_endpoint (Some (ci_Endpoint c)) h))).

(** ** The service *)
Definition ErrManagedCapacity : error := ErrMsg "capacity-managed host requires a fenced durable operation".
Definition ErrProtectedHost : error := ErrMsg "protected host cannot be changed by automatic lifecycle operations".

Definition managed (h : HostRow) : bool := match h_node_group_id h with Some _ => true | None => false end.

Definition EnsureLegacyLifecycle (id : string) : Run unit :=
  query (fun d =>
    let* h := of_option ErrNoRows (select_one (host_is id) (host d)) in
    if h_protected h then Err ErrProtectedHost
    else if managed h then Err ErrManagedCapacity else Ok tt).

Definition GetValidNextStates (s : HostState) : list HostState :=
  match s with
  | HostRequested => [HostProvisioning; HostTerminated; HostFailed]
  | HostProvisioning => [HostBooting; HostFailed]
  | HostBooting => [HostRegistering; HostFailed]
  | HostRegistering => [HostConverging; HostFailed]
  | HostConverging => [HostReady; HostFailed]
  | HostReady => [HostDraining; HostUnhealthy]
  | HostDraining => [HostUnhealthy; HostTerminating]
  | HostTerminating => [HostTerminated; HostFailed]
  | HostUnhealthy => [HostReady; HostTerminated]
  | HostTerminated => []
  | HostFailed => []
  end.

Definition TransitionState (id : string) (newState : option HostState) : Run unit :=
  do! _ := EnsureLegacyLifecycle id in
  do! h := (fun w => match GetByID_row id w with
                     | (Ok h, w') => (Ok h, w')
                     | (Err _, w') => (Err (ErrMsg "Host not found"), w')
                     end) in
  if match newState with Some s => one_of s (GetValidNextStates (lh_State h)) | None => false end
  then store_UpdateState id newState
  else run_ret (Err (ErrMsg "Not a valid next state")).

Definition TransitionHealth (id : string) (newHealth : HostHealth) : Run unit := store_UpdateHealth id newHealth.
Definition GetByID (id : string) : Run LegacyHost := GetByID_row id.
Definition GetByProviderID (id : string) : Run LegacyHost := store_GetByProviderID id.

(** [id] is the fresh UUID and [now] the creation time; role, image and health are Go's empty strings. *)
Definition new_host (id provider : string) (now : Z) : HostRow :=
  mkHost id (Some "") (Some "us-west-2") (Some "") HostProvisioning (Some (HostHealthOther "")) (Some now) None
    (Some provider) (Some "") None None None false "" "" None None None None "" "" 0 0 false.
Definition CreateHost (id : string) (now : Z) (provider : string) : Run string :=
  do! _ := Create (new_host id provider now) in run_ret (Ok id).

Definition UpdateHostProviderID (id providerID : string) : Run unit :=
  do! _ := EnsureLegacyLifecycle id in store_UpdateProviderID id providerID.
Definition UpdateLastSeenHeartbeat (id : string) (t : Z) : Run unit := store_UpdateLastSeenHeartbeat id t.
Definition DeleteHost (id : string) : Run unit :=
  do! _ := EnsureLegacyLifecycle id in Delete id.
Definition GetByZone (zone : string) : Run (list LegacyHost) := store_GetByZone zone.
Definition GetByToken (token : string) : Run LegacyHost := store_GetByToken token.
Definition UpdateState (id : string) (s : option HostState) : Run unit :=
  do! _ := EnsureLegacyLifecycle id in store_UpdateState id s.
Definition UpdateDBConnectionInfo (id : string) (c : DBConnectionInfo) : Run unit := store_UpdateDBConnectionInfo id c.

(** ** Hosts that the legacy services may not drive *)
Definition guarded (h : HostRow) : bool := h_protected h || managed h.

(** What still changes on a guarded host: health, heartbeat and database connection, none of
    which takes part in placement, lifecycle or accounting. *)
Definition quiet (h h' : HostRow) : Prop :=
  exists a b c e, h' = set_h_health a (set_h_lastseenheartbeat b (set_h_db c (set_h_endpoint e h))).

Record spared (d d' : DB) : Prop := mkSpared {
  sp_rest : d' = set_host (host d') d;
  sp_kept : forall h, In h (host d) -> guarded h = true -> exists h', In h' (host d') /\ quiet h h';
  sp_back : forall h', In h' (host d') -> guarded h' = true -> exists h, In h (host d) /\ quiet h h';
  sp_unique : unique_key h_id (host d) -> unique_key h_id (host d') }.

Lemma quiet_refl h : quiet h h.
Proof. exists (h_health h), (h_lastseenheartbeat h), (h_db h), (h_endpoint h). by destruct h. Qed.

Lemma quiet_trans h1 h2 h3 : quiet h1 h2 -> quiet h2 h3 -> quiet h1 h3.
Proof. intros (a & b & c & e & ->) (a' & b' & c' & e' & ->). by exists a', b', c', e'. Qed.

Lemma quiet_guarded h h' : quiet h h' -> guarded h' = guarded h.
Proof. by intros (a & b & c & e & ->). Qed.

Lemma spared_refl d : spared d d.
Proof. split; [by destruct d|eauto using quiet_refl..|done]. Qed.

Lemma spared_trans d1 d2 d3 : spared d1 d2 -> spared d2 d3 -> spared d1 d3.
Proof.
  intros [A1 A2 A3 A4] [B1 B2 B3 B4]. split.
  - rewrite B1 at 1. by rewrite A1.
  - intros h Hh Hg. destruct (A2 h Hh Hg) as (h2 & H2 & Q2). destruct (B2 h2 H2) as (h3 & H3 & Q3).
    { by rewrite (quiet_guarded _ _ Q2). }
    eauto using quiet_trans.
  - intros h Hh Hg. destruct (B3 h Hh Hg) as (h2 & H2 & Q2). destruct (A3 h2 H2) as (h1 & H1 & Q1).
    { by rewrite <- (quiet_guarded _ _ Q2). }
    eauto using quiet_trans.
  - auto.
Qed.

Lemma set_host_eta d t : set_host t d = set_host (host (set_host t d)) d.
Proof. done. Qed.

(** An update of rows that are not guarded, or that is quiet. *)
Lemma spared_update d p f : (forall h, h_id (f h) = h_id h) ->
  (forall h, In h (host d) -> p h = true -> (guarded h = false /\ guarded (f h) = false) \/ quiet h (f h)) ->
  spared d (set_host (update_where p f (host d)) d).
Proof.
  intros Hid Hf. split; [done|..]; simpl.
  - intros h Hh Hg. exists (if p h then f h else h). split; [apply in_update_where; by exists h|].
    destruct (p h) eqn:E; [|apply quiet_refl]. destruct (Hf h Hh E) as [[Hn _]|Q]; [congruence|done].
  - intros h' Hh' Hg. apply in_update_where in Hh' as (h & Hh & ->). exists h. split; [done|].
    destruct (p h) eqn:E; [|apply quiet_refl]. destruct (Hf h Hh E) as [[_ Hn]|Q]; [congruence|done].
  - apply unique_key_update. auto.
Qed.

Lemma spared_insert d h : guarded h = false -> (forall x, In x (host d) -> h_id x <> h_id h) -> spared d (set_host (host d ++ [h]) d).
Proof.
  intros Hg Hx. split; [done|..]; simpl.
  - intros x Hin _. exists x. rewrite in_app_iff. auto using quiet_refl.
  - intros x Hin Hgx. apply in_app_iff in Hin as [Hin|[<-|[]]]; [eauto using quiet_refl|congruence].
  - intros U. apply unique_key_app; [done|]. intros x Hin. auto.
Qed.

(** Guarded hosts carry the ledger. *)
Lemma managed_guarded h g : h_node_group_id h = Some g -> guarded h = true.
Proof. unfold guarded, managed. intros ->. apply orb_true_r. Qed.

Lemma spared_ledger d d' : spared d d' -> Ledger d -> Ledger d'.
Proof.
  intros [Hr Hk Hb Hu] [L1 L2 L3 L4 L5 L6 L7 L8 L9 L10 L11 L12 L13]. generalize dependent (host d'). intros t Hr Hk Hb Hu. subst d'.
  split; simpl; try done; [auto|..].
  - intros h gid Hh Hg. destruct (Hb h Hh (managed_guarded _ _ Hg)) as (h0 & Hh0 & (a & b & c & e & ->)). by apply (L9 h0).
  - intros r Hin. destruct (L10 r Hin) as (h & Hh & Hid & Hg). destruct (Hk h Hh (managed_guarded _ _ Hg)) as (h' & Hh' & (a & b & c & e & ->)).
    eexists. split; [exact Hh'|]. done.
  - intros o Ho Ek. destruct (L11 o Ho Ek) as (h & Hh & E1 & E2 & E3 & [g Eg]). rewrite Eg in E3.
    destruct (Hk h Hh (managed_guarded _ _ E3)) as (h' & Hh' & (a & b & c & e & ->)).
    eexists. split; [exact Hh'|]. simpl. split_and!; [done|done|congruence|by rewrite Eg].
Qed.

(** ** Every call of the service spares them *)
Definition spares {A} (m : Run A) : Prop :=
  forall w r w', unique_key h_id (host (w_db w)) -> m w = (r, w') -> spared (w_db w) (w_db w').

Lemma spares_ret {A} (r : result A) : spares (run_ret r).
Proof. intros w r' w' _ [= _ <-]. apply spared_refl. Qed.

Lemma spares_query {A} (q : DB -> result A) : spares (query q).
Proof. intros w r' w' _ [= _ <-]. apply spared_refl. Qed.

Lemma spares_bind {A B} (m : Run A) (k : A -> Run B) : spares m -> (forall a, spares (k a)) -> spares (run_bind m k).
Proof.
  intros Hm Hk w r w' U. unfold run_bind. destruct (m w) as [[a|e] w1] eqn:E.
  - intros H. pose proof (Hm _ _ _ U E) as S1. eapply spared_trans; [exact S1|]. by eapply Hk; [apply S1|].
  - intros [= _ <-]. by eapply Hm.
Qed.

Lemma spares_quiet p f : (forall h, quiet h (f h)) -> spares (exec_hosts (update_where p f)).
Proof.
  intros Hf w r w' _ [= _ <-]. simpl. apply spared_update.
  - intros h. by destruct (Hf h) as (a & b & c & e & ->).
  - intros h _ _. by right.
Qed.

Lemma Ensure_ok id w u w' : EnsureLegacyLifecycle id w = (Ok u, w') ->
  w' = w /\ exists h, In h (host (w_db w)) /\ h_id h = id /\ guarded h = false.
Proof.
  unfold EnsureLegacyLifecycle, query. intros [= H <-]. split; [done|]. inv_ok.
  match goal with H : select_one _ _ = Some ?h |- _ => apply select_one_some in H as [Hin Hid]; exists h end.
  unfold host_is in Hid. bsplit. split_and!; [done..|]. unfold guarded. by repeat case_match.
Qed.

(** A statement behind the guard. *)
Lemma spares_guarded {A} id (m : Run A) :
  (forall w r w', unique_key h_id (host (w_db w)) -> (forall h, In h (host (w_db w)) -> h_id h = id -> guarded h = false) ->
     m w = (r, w') -> spared (w_db w) (w_db w')) ->
  spares (do! _ := EnsureLegacyLifecycle id in m).
Proof.
  intros Hm w r w' U. unfold run_bind. destruct (EnsureLegacyLifecycle id w) as [[u|e] w1] eqn:E.
  - apply Ensure_ok in E as [-> (h & Hin & Hid & Hg)]. apply Hm; [done|]. intros x Hx Ex.
    by rewrite (unique_key_in h_id _ x h U) by (done || congruence).
  - intros [= _ <-]. injection E as _ <-. apply spared_refl.
Qed.

Lemma spared_exec id f (w : World) r w' : (forall h, h_id (f h) = h_id h /\ guarded (f h) = guarded h) ->
  (forall h, In h (host (w_db w)) -> h_id h = id -> guarded h = false) ->
  exec_hosts (update_where (host_is id) f) w = (r, w') -> spared (w_db w) (w_db w').
Proof.
  intros Hf Hg [= _ <-]. simpl. apply spared_update; [intros h; apply Hf|]. intros h Hh Hp. left.
  unfold host_is in Hp. bsplit. destruct (Hf h) as [_ ->]. auto.
Qed.

Lemma spares_UpdateState_row id s (w : World) r w' : (forall h, In h (host (w_db w)) -> h_id h = id -> guarded h = false) ->
  store_UpdateState id s w = (r, w') -> spared (w_db w) (w_db w').
Proof.
  intros Hg. destruct s; simpl; [by apply spared_exec|]. case_match; intros [= _ <-]; apply spared_refl.
Qed.

Lemma spares_TransitionState id s : spares (TransitionState id s).
Proof.
  apply spares_guarded. intros w r w' U Hg. unfold run_bind. destruct (GetByID_row id w) as [[h|e] w1] eqn:E; injection E as _ <-.
  - case_match; [by apply spares_UpdateState_row|]. intros [= _ <-]. apply spared_refl.
  - intros [= _ <-]. apply spared_refl.
Qed.

Lemma spares_Create id now p : spares (Create (new_host id p now)).
Proof.
  intros w r w' _. unfold Create.
  destruct (insert_host _ _) as [d|e] eqn:E; intros [= _ <-]; [|apply spared_refl]. simpl.
  apply insert_host_ok in E as [-> Hf]. by apply spared_insert.
Qed.

Lemma spares_CreateHost id now p : spares (CreateHost id now p).
Proof. apply spares_bind; [apply spares_Create|intros ?; apply spares_ret]. Qed.

Lemma spares_UpdateHostProviderID id p : spares (UpdateHostProviderID id p).
Proof. apply spares_guarded. intros w r w' U Hg. by apply spared_exec. Qed.

Lemma spares_UpdateState id s : spares (UpdateState id s).
Proof. apply spares_guarded. intros w r w' U Hg. by apply spares_UpdateState_row. Qed.

Lemma spared_Delete id (w : World) r w' : (forall h, In h (host (w_db w)) -> h_id h = id -> guarded h = false) ->
  Delete id w = (r, w') -> spared (w_db w) (w_db w').
Proof.
  intros Hg. unfold Delete. case_match; intros [= _ <-]; [apply spared_refl|]. simpl.
  split; [done|..]; simpl.
  - intros h Hh Hgu. exists h. split; [|apply quiet_refl]. apply filter_In. split; [done|]. unfold host_is.
    rewrite bool_decide_false; [done|]. intros E. rewrite (Hg h Hh E) in Hgu. done.
  - intros h Hh _. apply filter_In in Hh as [Hh _]. eauto using quiet_refl.
  - unfold unique_key. generalize (host (w_db w)). induction l as [|x l IH]; simpl; [done|].
    intros N. apply NoDup_cons in N as [N1 N2]. case_match; simpl; [|auto]. apply NoDup_cons. split; [|auto].
    intros Hx. apply N1. apply list_elem_of_In in Hx. apply in_map_iff in Hx as (y & Ey & Hy).
    apply filter_In in Hy as [Hy _]. apply list_elem_of_In, in_map_iff. eauto.
Qed.

Lemma spares_DeleteHost id : spares (DeleteHost id).
Proof. apply spares_guarded. intros w r w' _. by apply spared_Delete. Qed.

Lemma quiet_health h v : quiet h (set_h_health v h).
Proof. exists v, (h_lastseenheartbeat h), (h_db h), (h_endpoint h). by destruct h. Qed.
Lemma quiet_heartbeat h v : quiet h (set_h_lastseenheartbeat v h).
Proof. exists (h_health h), v, (h_db h), (h_endpoint h). by destruct h. Qed.
Lemma quiet_conn h v e : quiet h (set_h_db v (set_h_endpoint e h)).
Proof. exists (h_health h), (h_lastseenheartbeat h), v, e. by destruct h. Qed.
#[export] Hint Resolve spares_ret spares_query spares_TransitionState spares_CreateHost spares_UpdateHostProviderID
  spares_UpdateState spares_DeleteHost : crane.

(** The decision of [TransitionState] on the row it reads. *)
Definition transition_outcome (h : HostRow) (s : option HostState) : result HostState :=
  if h_protected h then Err ErrProtectedHost
  else if managed h then Err ErrManagedCapacity
  else if negb (is_ok (scan_host h)) then Err (ErrMsg "Host not found")
  else match s with
       | Some n => if one_of n (GetValidNextStates (h_state h)) then Ok n else Err (ErrMsg "Not a valid next state")
       | None => Err (ErrMsg "Not a valid next state")
       end.

Lemma scan_host_state h x : scan_host h = Ok x -> lh_State x = h_state h.
Proof. unfold scan_host. intros H. by inv_ok. Qed.

Lemma TransitionState_eq id s w : TransitionState id s w =
  match select_one (host_is id) (host (w_db w)) with
  | None => (Err ErrNoRows, w)
  | Some h => match transition_outcome h s with
              | Ok n => (Ok tt, set_w_db (set_host (update_where (host_is id) (set_h_state n) (host (w_db w))) (w_db w)) w)
              | Err e => (Err e, w)
              end
  end.
Proof.
  unfold TransitionState, run_bind, EnsureLegacyLifecycle, GetByID_row, query, transition_outcome.
  destruct (select_one (host_is id) (host (w_db w))) as [h|]; simpl; [|done].
  destruct (h_protected h); [done|]. destruct (managed h); [done|].
  destruct (scan_host h) as [x|e] eqn:E; simpl; [|done]. rewrite (scan_host_state _ _ E).
  destruct s as [n|]; [|done]. by destruct (one_of n _).
Qed.

Lemma transition_outcome_ok h s n : transition_outcome h s = Ok n <->
  guarded h = false /\ is_ok (scan_host h) = true /\ s = Some n /\ In n (GetValidNextStates (h_state h)).
Proof.
  unfold transition_outcome, guarded. destruct (h_protected h); simpl; [naive_solver|]. destruct (managed h); simpl; [naive_solver|].
  destruct (is_ok (scan_host h)); simpl; [|naive_solver]. destruct s as [m|]; [|naive_solver].
  destruct (one_of m (GetValidNextStates (h_state h))) eqn:E.
  - apply one_of_spec in E. naive_solver.
  - split; [done|]. intros (_ & _ & [= ->] & Hn). apply one_of_spec in Hn. congruence.
Qed.

(** ** Theorems *)

(** A legacy transition happens exactly when it is allowed.  It succeeds if and only if the host
    exists, is neither protected nor managed by a node group, its row can be read, and the new
    state is one of the successors of its state; then only that host's state changes, and otherwise
    nothing does.  TERMINATED and FAILED hosts have no successor. *)
Theorem transition_exact id s w r w' : unique_key h_id (host (w_db w)) -> TransitionState id s w = (r, w') ->
  (r = Ok tt <-> exists h n, In h (host (w_db w)) /\ h_id h = id /\ guarded h = false /\ is_ok (scan_host h) = true /\
                   s = Some n /\ In n (GetValidNextStates (h_state h))) /\
  (r = Ok tt -> exists n, s = Some n /\ w' = set_w_db (set_host (update_where (host_is id) (set_h_state n) (host (w_db w))) (w_db w)) w) /\
  (r <> Ok tt -> w' = w) /\
  GetValidNextStates HostTerminated = [] /\ GetValidNextStates HostFailed = [].
Proof.
  intros U. rewrite TransitionState_eq. destruct (select_one (host_is id) (host (w_db w))) as [h|] eqn:E.
  2: { intros [= <- <-]. split_and!; try done. split; [done|]. intros (h & n & Hin & Hid & _).
       pose proof (proj1 (select_one_none _ _) E h Hin) as Hb. unfold host_is in Hb. by bsplit. }
  apply select_one_some in E as [Hin Hid]. unfold host_is in Hid. bsplit.
  destruct (transition_outcome h s) as [n|e] eqn:Eo; intros [= <- <-].
  - apply transition_outcome_ok in Eo as (G & Sc & Es & Hn). split_and!; try done; eauto. split; [eauto 10|done].
  - split_and!; try done. split; [done|]. intros (x & n & Hx & Ex & H).
    rewrite (unique_key_in h_id _ x h U) in H by (done || congruence). apply transition_outcome_ok in H. congruence.
Qed.

(** ** A legacy host beside managed ones *)
Definition legacy_world : World :=
  mkWorld (set_host (host db_two ++ [set_h_providerid (Some "i-legacy") (set_h_state HostReady (new_host "legacy-1" "aws" 50))]) db_two)
    [] [] [] [].

Lemma legacy_world_unique : unique_key h_id (host (w_db legacy_world)).
Proof. apply NoDup_ListNoDup. vm_compute. repeat constructor; simpl; intuition discriminate. Qed.

Lemma transition_exact_witness :
  fst (TransitionState "legacy-1" (Some HostDraining) legacy_world) = Ok tt /\
  fst (TransitionState "legacy-1" (Some HostTerminated) legacy_world) <> Ok tt.
Proof.
  destruct (transition_exact "legacy-1" (Some HostDraining) legacy_world _ _ legacy_world_unique (surjective_pairing _)) as [H _].
  split; [|vm_compute; discriminate]. apply H.
  exists (set_h_providerid (Some "i-legacy") (set_h_state HostReady (new_host "legacy-1" "aws" 50))), HostDraining.
  split; [apply in_app_iff; right; left; reflexivity|]. vm_compute. repeat split. left. reflexivity.
Defined.

(** Finding: the zone argument of [GetByZone] is ignored. *)
Example GetByZone_ignores_zone z z' w : GetByZone z w = GetByZone z' w.
Proof. reflexivity. Qed.
