(* ===== verification/Actions.v ===== *)
(** * The action queue, its executor and its worker

    internal/execute: actions are rows of [actions]; the worker takes the oldest pending
    one, hands it to the executor, and records the outcome.  The cloud provider is a
    parameter: every call is appended to the trace of the world, and its answer may depend
    on the whole trace. *)
From S2P Require Import Prelude GoStrings Sql Api Schema Admission Invariant Fixture AdmissionFacts Lease Handoff LeaseFacts HostCatalog.

Local Open Scope string_scope.
Local Open Scope list_scope.
Local Open Scope Z_scope.
Local Open Scope crane_scope.

(** ** The queue *)
Record Action : Type := mkAction { act_HostID : string; act_Type : ActionType }.

Record ActionRecord : Type := mkActionRecord {
  ar_ID : Z; ar_HostID : string; ar_Type : ActionType; ar_Status : ActionStatus; ar_Attempts : Z; ar_Provider : string }.

(** [serial] counts the rows: they are never deleted.  The provider of the record is not stored. *)
Definition Enqueue (now : Z) (a : ActionRecord) : Run unit := fun w =>
  (Ok tt, set_w_actions (w_actions w ++
     [mkActionRow (Z.of_nat (length (w_actions w)) + 1) (ar_HostID a) ActionPending 0 now (ar_Type a) None None]) w).

Definition by_created (a b : ActionRow) : bool := a_createdat a <=? a_createdat b.

Definition start_action (now : Z) (a : ActionRow) : ActionRow :=
  mkActionRow (a_id a) (a_hostid a) ActionRunning (a_attempts a + 1) (a_createdat a) (a_type a) (Some now) (a_provider a).

(** The statement commits on its own; a NULL provider then fails to scan. *)
Definition Next (now : Z) : Run ActionRecord := fun w =>
  match order_by by_created (select (fun a => a_status a == ActionPending) (w_actions w)) with
  | [] => (Err ErrNoRows, w)
  | a :: _ =>
      let w' := set_w_actions (update_where (fun x => a_id x == a_id a) (start_action now) (w_actions w)) w in
      match a_provider a with
      | Some p => (Ok (mkActionRecord (a_id a) (a_hostid a) (a_type a) ActionRunning (a_attempts a + 1) p), w')
      | None => (Err null_scan, w')
      end
  end.

Definition set_status (s : ActionStatus) (now : Z) (a : ActionRow) : ActionRow :=
  mkActionRow (a_id a) (a_hostid a) s (a_attempts a) (a_createdat a) (a_type a) (Some now) (a_provider a).
Definition mark (s : ActionStatus) (id now : Z) : Run unit := fun w =>
  (Ok tt, set_w_actions (update_where (fun x => a_id x == id) (set_status s now) (w_actions w)) w).
Definition MarkDone (id now : Z) : Run unit := mark ActionDone id now.
Definition MarkFailed (id now : Z) : Run unit := mark ActionFailed id now.

(** ** The executor *)
Record Provider : Type := mkProvider {
  ProvisionHost : list CloudCall -> result string;
  TerminateHost : list CloudCall -> result unit;
  ProvisionLB : list CloudCall -> result string;
  ProvisionSpireDB : list CloudCall -> result DBConnectionInfo;
  ProvisionSpireHost : list CloudCall -> result string;
  RegisterTargets : list CloudCall -> result unit }.

(** A provider call is recorded, whatever its answer. *)
Definition cloud {A} (c : CloudCall) (answer : list CloudCall -> result A) : Run A := fun w =>
  let t := w_cloud w ++ [c] in (answer t, set_w_cloud t w).

Definition spire_vpc : string := "vpc-0fe5ab51bdf710362".
Definition lb_call : CloudCall := CProvisionLB spire_vpc ["subnet-0f73ec402ea914eb5"] "spire-server-test-db" 30000.
Definition db_call : CloudCall := CProvisionSpireDB spire_vpc ["subnet-0809d7a67e415e07e"] "sg-0a365ae1dce045677".

(** [id] is the UUID and [now] the clock of the host the action may create. *)
Definition Execute (p : Provider) (id : string) (now : Z) (a : Action) : Run unit :=
  do! _ := (if one_of (act_Type a) [ActionDrainHost; ActionReplaceHost]
            then EnsureLegacyLifecycle (act_HostID a) else run_ret (Ok tt)) in
  match act_Type a with
  | ActionCreateHost =>
      do! hostID := CreateHost id now "aws" in
      do! providerID := cloud (CProvisionHost "role" hostID) (ProvisionHost p) in
      UpdateHostProviderID hostID providerID
  | ActionDrainHost => TransitionState (act_HostID a) (Some HostDraining)
  | ActionReplaceHost =>
      do! h := GetByID (act_HostID a) in
      do! _ := cloud (CTerminateHost (lh_ProviderID h)) (TerminateHost p) in
      TransitionState (act_HostID a) (Some HostUnhealthy)
  | ActionCreateLB =>
      do! _ := cloud lb_call (ProvisionLB p) in run_ret (Ok tt)
  | ActionCreateDB =>
      do! hostID := CreateHost id now "aws" in
      do! conn := cloud db_call (ProvisionSpireDB p) in
      do! _ := UpdateDBConnectionInfo hostID conn in
      UpdateState hostID (Some HostReady)
  | ActionCreateSpireInstance =>
      do! hostID := CreateHost id now "aws" in
      do! conn := cloud db_call (ProvisionSpireDB p) in
      do! _ := UpdateDBConnectionInfo hostID conn in
      do! _ := cloud lb_call (ProvisionLB p) in
      do! providerID := cloud (CProvisionSpireHost hostID conn) (ProvisionSpireHost p) in
      do! _ := cloud (CRegisterTargets "spire-server-test-db-tg" providerID 30000) (RegisterTargets p) in
      UpdateHostProviderID hostID providerID
  end.

(** ** The worker: one iteration of its loop *)
Definition worker_step (execute : Action -> Run unit) (t1 t2 t3 : Z) (w : World) : World :=
  match Next t1 w with
  | (Err _, w1) => w1
  | (Ok r, w1) =>
      let '(outcome, w2) := execute (mkAction (ar_HostID r) (ar_Type r)) w1 in
      let w3 := match outcome with Ok _ => w2 | Err _ => snd (MarkFailed (ar_ID r) t2 w2) end in
      snd (MarkDone (ar_ID r) t3 w3)
  end.

(** ** What execution may touch *)
Lemma spares_cloud {A} c (f : list CloudCall -> result A) : spares (cloud c f).
Proof. intros w r w' _ [= _ <-]. apply spared_refl. Qed.

Lemma spares_conn id c : spares (UpdateDBConnectionInfo id c).
Proof. apply spares_quiet. intros h. apply quiet_conn. Qed.
Lemma spares_GetByID id : spares (GetByID id).
Proof. apply spares_query. Qed.
#[local] Hint Resolve spares_cloud spares_conn spares_GetByID : crane.

Lemma spares_Execute p id now a : spares (Execute p id now a).
Proof.
  apply spares_bind; [destruct (one_of _ _); [apply spares_query|apply spares_ret]|]. intros _.
  destruct (act_Type a); repeat first [solve [auto with crane] | apply spares_bind; [|intros ?]].
Qed.

(** The terminations a call adds to the trace. *)
Definition terminates_only {A} (P : World -> string -> Prop) (m : Run A) : Prop :=
  forall w r w', m w = (r, w') -> exists new, w_cloud w' = w_cloud w ++ new /\
    forall pid, In (CTerminateHost pid) new -> P w pid.

Lemma silent {A} (m : Run A) (P : World -> string -> Prop) : (forall w, w_cloud (snd (m w)) = w_cloud w) -> terminates_only P m.
Proof. intros H w r w' E. specialize (H w). rewrite E in H. exists []. by rewrite app_nil_r. Qed.

Lemma never_bind {A B} (m : Run A) (k : A -> Run B) :
  terminates_only (fun _ _ => False) m -> (forall a, terminates_only (fun _ _ => False) (k a)) ->
  terminates_only (fun _ _ => False) (run_bind m k).
Proof.
  intros Hm Hk w r w'. unfold run_bind. destruct (m w) as [[a|e] w1] eqn:E; intros H; destruct (Hm _ _ _ E) as (n1 & E1 & P1).
  - destruct (Hk a _ _ _ H) as (n2 & E2 & P2). exists (n1 ++ n2). split; [by rewrite E2, E1, app_assoc|].
    intros pid Hin. apply in_app_iff in Hin as [Hin|Hin]; eauto.
  - injection H as _ <-. eauto.
Qed.

Lemma never_cloud {A} c (f : list CloudCall -> result A) : (forall pid, c <> CTerminateHost pid) ->
  terminates_only (fun _ _ => False) (cloud c f).
Proof. intros Hc w r w' [= _ <-]. exists [c]. split; [done|]. intros pid [E|[]]. by apply (Hc pid). Qed.

Lemma silent_guarded {A} id (m : Run A) : (forall w, w_cloud (snd (m w)) = w_cloud w) ->
  forall w, w_cloud (snd ((do! _ := EnsureLegacyLifecycle id in m) w)) = w_cloud w.
Proof. intros H w. unfold run_bind, EnsureLegacyLifecycle, query. destruct (rbind _ _); simpl; auto. Qed.

Lemma silent_UpdateState id s w : w_cloud (snd (store_UpdateState id s w)) = w_cloud w.
Proof. destruct s; simpl; [done|]. by case_match. Qed.

Lemma silent_TransitionState id s w : w_cloud (snd (TransitionState id s w)) = w_cloud w.
Proof. rewrite TransitionState_eq. by repeat case_match. Qed.

Lemma silent_CreateHost id now p w : w_cloud (snd (CreateHost id now p w)) = w_cloud w.
Proof. unfold CreateHost, run_bind, Create. by destruct (insert_host _ _). Qed.

Lemma never_silent {A} (m : Run A) : (forall w, w_cloud (snd (m w)) = w_cloud w) -> terminates_only (fun _ _ => False) m.
Proof. apply silent. Qed.

Lemma never_UpdateHostProviderID id p : terminates_only (fun _ _ => False) (UpdateHostProviderID id p).
Proof. apply never_silent, silent_guarded. done. Qed.
Lemma never_UpdateState id s : terminates_only (fun _ _ => False) (UpdateState id s).
Proof. apply never_silent, silent_guarded, silent_UpdateState. Qed.
Lemma never_CreateHost id now p : terminates_only (fun _ _ => False) (CreateHost id now p).
Proof. apply never_silent, silent_CreateHost. Qed.
Lemma never_conn id c : terminates_only (fun _ _ => False) (UpdateDBConnectionInfo id c).
Proof. by apply never_silent. Qed.
Lemma never_TransitionState id s : terminates_only (fun _ _ => False) (TransitionState id s).
Proof. apply never_silent, silent_TransitionState. Qed.
#[local] Hint Resolve never_UpdateHostProviderID never_UpdateState never_CreateHost never_conn never_TransitionState : crane.

(** Only the instance of the unguarded host of a replace action is ever terminated. *)
Definition replaceable (a : Action) (w : World) (pid : string) : Prop :=
  act_Type a = ActionReplaceHost /\
  exists h, In h (host (w_db w)) /\ h_id h = act_HostID a /\ guarded h = false /\ pid = default "" (h_providerid h).

Lemma Execute_terminates p id now a w r w' : unique_key h_id (host (w_db w)) -> Execute p id now a w = (r, w') ->
  exists new, w_cloud w' = w_cloud w ++ new /\ forall pid, In (CTerminateHost pid) new -> replaceable a w pid.
Proof.
  intros U H.
  assert (act_Type a <> ActionReplaceHost -> terminates_only (fun _ _ => False) (Execute p id now a)) as Hother.
  { intros Hne. apply never_bind.
    - apply never_silent. intros w0. by destruct (one_of _ _).
    - intros _. destruct (act_Type a); try done;
        repeat first [solve [auto with crane] | by apply never_cloud | by apply never_silent | apply never_bind; [|intros ?]]. }
  destruct (decide (act_Type a = ActionReplaceHost)) as [E|Hne].
  2: { destruct (Hother Hne _ _ _ H) as (new & En & Hn). exists new. split; [done|]. intros pid Hin. by destruct (Hn pid Hin). }
  unfold Execute, run_bind in H. rewrite E in H.
  change (one_of ActionReplaceHost [ActionDrainHost; ActionReplaceHost]) with true in H. cbv iota in H.
  destruct (EnsureLegacyLifecycle (act_HostID a) w) as [[u|e] w1] eqn:E1.
  2: { injection H as _ <-. unfold EnsureLegacyLifecycle, query in E1. injection E1 as _ <-. exists []. by rewrite app_nil_r. }
  apply Ensure_ok in E1 as [-> (h & Hin & Hid & Hg)].
  unfold GetByID, GetByID_row, query in H.
  destruct (select_one (host_is (act_HostID a)) (host (w_db w))) as [h0|] eqn:E2; simpl in H.
  2: { injection H as _ <-. exists []. by rewrite app_nil_r. }
  destruct (scan_host h0) as [x|e] eqn:E3; simpl in H; [|injection H as _ <-; exists []; by rewrite app_nil_r].
  apply select_one_some in E2 as [Hin0 Hid0]. unfold host_is in Hid0. bsplit.
  assert (h0 = h) as -> by (apply (unique_key_in h_id _ _ _ U); congruence).
  assert (lh_ProviderID x = default "" (h_providerid h)) as Ex by (unfold scan_host in E3; by inv_ok).
  exists [CTerminateHost (lh_ProviderID x)]. split.
  - destruct (TerminateHost p _); [|by injection H as _ <-].
    match type of H with TransitionState ?i ?s ?w0 = _ => pose proof (silent_TransitionState i s w0) as Es end.
    rewrite H in Es. exact Es.
  - intros pid [[= <-]|[]]. split; [done|]. exists h. rewrite Ex. done.
Qed.

(** ** The queue never delivers *)

(** Rows as [Enqueue] writes them. *)
Definition unassigned (a : ActionRow) : Prop := a_provider a = None /\ (a_status a = ActionPending \/ a_status a = ActionRunning).

(** The activity manager enqueues, the worker iterates, in any order. *)
Inductive queue_step (execute : Action -> Run unit) (w : World) : World -> Prop :=
| queue_enqueue now a : queue_step execute w (snd (Enqueue now a w))
| queue_work t1 t2 t3 : queue_step execute w (worker_step execute t1 t2 t3 w).

Lemma worker_step_unassigned execute t1 t2 t3 w : Forall unassigned (w_actions w) ->
  exists l, worker_step execute t1 t2 t3 w = set_w_actions l w /\ Forall unassigned l.
Proof.
  intros HF. unfold worker_step, Next.
  destruct (order_by by_created _) as [|a l] eqn:E; [exists (w_actions w); split; [by destruct w|done]|].
  assert (In a (w_actions w)) as Ha.
  { assert (In a (order_by by_created (select (fun a => a_status a == ActionPending) (w_actions w)))) as Hin by (rewrite E; by left).
    apply in_order_by, filter_In in Hin. by destruct Hin. }
  pose proof (proj1 (List.Forall_forall _ _) HF a Ha) as [Hp _]. rewrite Hp. eexists. split; [done|].
  apply List.Forall_forall. intros x Hx. apply in_update_where in Hx as (y & Hy & ->).
  pose proof (proj1 (List.Forall_forall _ _) HF y Hy) as [Py Sy]. destruct (a_id y == a_id a); split; simpl; auto.
Qed.

Lemma queue_step_unassigned execute w w' : queue_step execute w w' -> Forall unassigned (w_actions w) ->
  exists l, w' = set_w_actions l w /\ Forall unassigned l.
Proof.
  intros H HF. destruct H as [now a|t1 t2 t3]; [|by apply worker_step_unassigned].
  eexists. split; [done|]. apply Forall_app. split; [done|]. repeat constructor.
Qed.

(** ** Theorems *)

(** The legacy executor never drives a host that the capacity ledger or the bootstrap owns.
    Whatever the action and whatever the provider answers, every managed or protected host keeps
    everything but its health, heartbeat and connection columns, every other table is untouched,
    the ledger is kept, and the only instance the executor ever terminates is the one of the
    unmanaged, unprotected host named by a replace action. *)
Theorem executor_spares_managed p id now a w r w' :
  Ledger (w_db w) -> Execute p id now a w = (r, w') ->
  Ledger (w_db w') /\ spared (w_db w) (w_db w') /\
  exists new, w_cloud w' = w_cloud w ++ new /\ forall pid, In (CTerminateHost pid) new -> replaceable a w pid.
Proof.
  intros HL H. pose proof (spares_Execute p id now a w r w' (L_hosts _ HL) H) as S1.
  split_and!; [by eapply spared_ledger|done|]. by eapply Execute_terminates; [apply L_hosts|].
Qed.

(** No action that was enqueued is ever executed.  [Enqueue] leaves the provider column NULL and
    [Next] cannot read a NULL provider, but has already marked the row running: whatever the
    executor, however often the worker runs and whatever is enqueued, hosts, problems and the
    provider trace stay as they were and every action stays pending or running forever. *)
Theorem enqueued_actions_never_run execute w w' : w_actions w = [] -> rtc (queue_step execute) w w' ->
  w' = set_w_actions (w_actions w') w /\
  Forall (fun a => a_status a = ActionPending \/ a_status a = ActionRunning) (w_actions w').
Proof.
  intros H0 Hs. assert (Forall unassigned (w_actions w)) as HF by (rewrite H0; constructor). clear H0.
  cut (w' = set_w_actions (w_actions w') w /\ Forall unassigned (w_actions w')).
  { intros [E F]. split; [done|]. eapply Forall_impl; [exact F|]. by intros x []. }
  induction Hs as [w|w1 w2 w3 H _ IH]; [split; [by destruct w|done]|].
  destruct (queue_step_unassigned _ _ _ H HF) as (l & -> & Fl). destruct (IH Fl) as [E F]. split; [|done]. exact E.
Qed.

(** A failed action is reported as done.  When the executor returns an error, the worker marks the
    action failed and then falls through and marks it done, so the failed state never survives an
    iteration. *)
Theorem failed_action_marked_done execute t1 t2 t3 w rec w1 e w2 a :
  Next t1 w = (Ok rec, w1) -> execute (mkAction (ar_HostID rec) (ar_Type rec)) w1 = (Err e, w2) ->
  In a (w_actions w2) -> a_id a = ar_ID rec ->
  In (set_status ActionDone t3 (set_status ActionFailed t2 a)) (w_actions (worker_step execute t1 t2 t3 w)).
Proof.
  intros H1 H2 Ha Eid. unfold worker_step. rewrite H1, H2. simpl. apply in_update_where.
  exists (set_status ActionFailed t2 a). split.
  - apply in_update_where. exists a. split; [done|]. by rewrite Eid, eq_refl_true.
  - simpl. by rewrite Eid, eq_refl_true.
Qed.

(** ** A run on a legacy host beside managed ones *)
Lemma legacy_world_ledger : Ledger (w_db legacy_world).
Proof.
  apply (spared_ledger db_two); [|apply db_two_ledger]. apply spared_insert; [reflexivity|].
  intros x Hx. vm_compute in Hx. repeat (destruct Hx as [<-|Hx]; [vm_compute; discriminate|]). destruct Hx.
Qed.

Definition demo_provider : Provider :=
  mkProvider (fun _ => Ok "i-new") (fun _ => Ok tt) (fun _ => Ok "lb.local")
    (fun _ => Ok (mkConnInfo "db.local" 5432 "spire" "root" "arn:secret" "sg-1")) (fun _ => Ok "i-spire") (fun _ => Ok tt).
Definition replace_legacy : Action := mkAction "legacy-1" ActionReplaceHost.

Lemma executor_spares_managed_witness :
  w_cloud (snd (Execute demo_provider "h-new" 60 replace_legacy legacy_world)) = [CTerminateHost "i-legacy"] /\
  Ledger (w_db (snd (Execute demo_provider "h-new" 60 replace_legacy legacy_world))).
Proof.
  split; [vm_compute; reflexivity|].
  destruct (executor_spares_managed demo_provider "h-new" 60 replace_legacy legacy_world _ _ legacy_world_ledger (surjective_pairing _))
    as [H _]. exact H.
Defined.

(** A managed host is refused. *)
Example executor_refuses_managed :
  fst (Execute demo_provider "h-new" 60 (mkAction (op_HostID claimed_op) ActionReplaceHost) legacy_world) = Err ErrManagedCapacity.
Proof. vm_compute. reflexivity. Qed.

Definition replace_record : ActionRecord := mkActionRecord 0 "legacy-1" ActionReplaceHost ActionPending 0 "aws".
Definition enqueued_world : World := snd (Enqueue 100 replace_record legacy_world).
Definition worked_world : World := worker_step (Execute demo_provider "h-new" 60) 200 201 202 enqueued_world.

Lemma enqueued_actions_never_run_witness :
  map a_status (w_actions worked_world) = [ActionRunning] /\ worked_world = set_w_actions (w_actions worked_world) legacy_world.
Proof.
  split; [vm_compute; reflexivity|].
  destruct (enqueued_actions_never_run (Execute demo_provider "h-new" 60) legacy_world worked_world eq_refl) as [H _]; [|exact H].
  apply (rtc_l _ _ enqueued_world); [apply queue_enqueue|]. apply rtc_once. apply queue_work.
Defined.

(** An action whose provider column was filled by other means, and a provider that fails. *)
Definition assigned_world : World :=
  set_w_actions [mkActionRow 1 "legacy-1" ActionPending 0 100 ActionReplaceHost None (Some "aws")] legacy_world.
Definition failing_provider : Provider :=
  mkProvider (fun _ => Ok "") (fun _ => Err (ErrMsg "throttled")) (fun _ => Ok "") (ProvisionSpireDB demo_provider) (fun _ => Ok "") (fun _ => Ok tt).

Lemma failed_action_marked_done_witness :
  exists a, In a (w_actions (worker_step (Execute failing_provider "h-new" 60) 200 201 202 assigned_world)) /\ a_status a = ActionDone.
Proof.
  exists (set_status ActionDone 202 (set_status ActionFailed 201
    (start_action 200 (mkActionRow 1 "legacy-1" ActionPending 0 100 ActionReplaceHost None (Some "aws"))))).
  split; [|reflexivity].
  apply (failed_action_marked_done (Execute failing_provider "h-new" 60) 200 201 202 assigned_world
    (mkActionRecord 1 "legacy-1" ActionReplaceHost ActionRunning 1 "aws") (snd (Next 200 assigned_world))
    (ErrMsg "throttled")
    (snd (Execute failing_provider "h-new" 60 replace_legacy (snd (Next 200 assigned_world))))).
  - vm_compute. reflexivity.
  - vm_compute. reflexivity.
  - vm_compute. left. reflexivity.
  - reflexivity.
Defined.
