(* ===== verification/System.v ===== *)
(** * The system: any interleaving of the store's calls

    Every process of the control plane (API servers, zone controllers, the layer-zero
    controller, host agents reporting through the store) changes the catalog only through
    the store's calls, each of which is one statement or one transaction; the legacy plane
    (the host catalog service with its HTTP API, the action executor and the activity
    manager) writes the same host table through the statements of its repository.  A run of
    the system is therefore an arbitrary sequence of those calls and statements, with
    arbitrary arguments, clocks and identifiers: stale controllers, retries and crashes
    between calls included.  [step] is that transition relation, and the theorems are about
    every run.

    A call of the legacy service is its guard [EnsureLegacyLifecycle] followed by one
    statement, outside any transaction.  [step_legacy] takes the statement alone, wherever
    the guard would let it pass, so that other steps may come between the two and the state
    read before the statement may be stale; [guard_stays] shows that no step turns a host
    that the guard let pass into one that it refuses. *)
From S2P Require Import Prelude GoStrings Sql Api Decode Schema Admission Invariant Fixture AdmissionFacts Lease Handoff LeaseFacts Removal RemovalFacts Scheduling Catalog CatalogFacts Bootstrap BootstrapFacts Provision Http HttpFacts HostCatalog Actions.

Local Open Scope string_scope.
Local Open Scope list_scope.
Local Open Scope Z_scope.
Local Open Scope crane_scope.

(** ** The statements of the legacy plane *)
Inductive legacy_statement : Type :=
| LCreate (id : string) (now : Z) (provider : string)
| LState (id : string) (s : option HostState)
| LHealth (id : string) (health : HostHealth)
| LProviderID (id providerID : string)
| LHeartbeat (id : string) (t : Z)
| LConnection (id : string) (c : DBConnectionInfo)
| LDelete (id : string).

Definition run_legacy (x : legacy_statement) : Run unit :=
  match x with
  | LCreate id now provider => Create (new_host id provider now)
  | LState id s => store_UpdateState id s
  | LHealth id health => store_UpdateHealth id health
  | LProviderID id p => store_UpdateProviderID id p
  | LHeartbeat id t => store_UpdateLastSeenHeartbeat id t
  | LConnection id c => store_UpdateDBConnectionInfo id c
  | LDelete id => Delete id
  end.

(** The service asks [EnsureLegacyLifecycle] before it changes a state or a provider ID and
    before it deletes; health, heartbeat and connection are written without it. *)
Definition guarded_by (x : legacy_statement) : option string :=
  match x with
  | LState id _ | LProviderID id _ | LDelete id => Some id
  | LCreate _ _ _ | LHealth _ _ | LHeartbeat _ _ | LConnection _ _ => None
  end.
Definition guard_passed (x : legacy_statement) (d : DB) : Prop :=
  forall h, In h (host d) -> guarded_by x = Some (h_id h) -> guarded h = false.

Lemma legacy_rest x w r w' : run_legacy x w = (r, w') -> w_db w' = set_host (host (w_db w')) (w_db w).
Proof.
  assert (forall d, d = set_host (host d) d) as Hd by by intros [].
  destruct x as [id now p|id [s|]|id v|id p|id t|id c|id]; simpl; unfold Create, Delete, exec_hosts; repeat case_match;
    intros [= _ <-]; try done; simpl; auto.
  match goal with E : insert_host _ _ = Ok _ |- _ => by apply insert_host_ok in E as [-> _] end.
Qed.

Lemma legacy_spared x w r w' : unique_key h_id (host (w_db w)) -> guard_passed x (w_db w) ->
  run_legacy x w = (r, w') -> spared (w_db w) (w_db w').
Proof.
  intros U G. assert (forall id, guarded_by x = Some id -> forall h, In h (host (w_db w)) -> h_id h = id -> guarded h = false) as G'
    by (intros id E h Hh <-; by apply G).
  destruct x as [id now p|id s|id v|id p|id t|id c|id]; simpl in *.
  - by apply spares_Create.
  - by apply spares_UpdateState_row, G'.
  - apply (spares_quiet (host_is id)); [|done]. intros h. apply quiet_health.
  - by apply spared_exec, G'.
  - apply (spares_quiet (host_is id)); [|done]. intros h. apply quiet_heartbeat.
  - apply (spares_quiet (host_is id)); [|done]. intros h. apply quiet_conn.
  - by apply spared_Delete, G'.
Qed.

(** ** Transitions *)
Section System.
Context {k8s : K8s} {gonet : GoNet} {gourl : GoURL} {digest : Digest}.

Inductive step (d : DB) : DB -> Prop :=
| step_api a e order h c r d' : call_typed c -> Handler a e order h c d = (r, d') -> step d d'
| step_claim t z k w dur r d' : Claim t z k w dur d = (r, d') -> step d d'
| step_claim_dominator t z k w dur r d' : ClaimDominator t z k w dur d = (r, d') -> step d d'
| step_write t op w r d' : write t op w d = (r, d') -> step d d'
| step_removal e c rev x r d' : CreateRemoval e c rev x d = (r, d') -> step d d'
| step_observe hid v hb r d' : Observe hid v hb d = (r, d') -> step d d'
| step_phase t op next v r d' : BootstrapPhase t op next v d = (r, d') -> step d d'
| step_discovery t op x r d' : SetClusterDiscovery t op x d = (r, d') -> step d d'
| step_route t op x r d' : SetDominatorRoute t op x d = (r, d') -> step d d'
| step_bootstrap_host t op x r d' : RecordBootstrapHost t op x d = (r, d') -> step d d'
| step_release_bootstrap t op r d' : ReleaseBootstrapLease t op d = (r, d') -> step d d'
| step_legacy x w r w' : w_db w = d -> guard_passed x d -> run_legacy x w = (r, w') -> step d (w_db w').

Definition reachable (d : DB) : Prop := rtc step empty_db d.

(** ** The invariants *)
Lemma keeps_same d d' : same_ledger d d' -> node_groups d' = node_groups d ->
  node_removal_operations d' = node_removal_operations d -> keeps d d'.
Proof. intros. by apply keeps_of_ledger; [apply kept_ledger_same|]. Qed.

Lemma keeps_claim t z k w dur a d r d' : claim t z k w dur a d = (r, d') -> keeps d d'.
Proof.
  destruct r as [op|e]; [|by intros ->%claim_err; apply keeps_refl]. intros H.
  apply keeps_same; [by eapply claim_same_ledger|..]; by apply claim_ok in H as (o & _ & _ & _ & ->).
Qed.

Lemma keeps_framed b op d d' : framed b op d d' -> keeps d d'.
Proof.
  intros F. apply keeps_same; [by eapply framed_same_ledger|by eapply framed_groups|].
  pose proof (fr_elsewhere _ _ _ _ F) as E. unfold elsewhere in E. by injection E.
Qed.

Lemma keeps_phase t op next v d r d' : BootstrapPhase t op next v d = (r, d') -> keeps d d'.
Proof.
  intros H. apply keeps_of_ledger; [by eapply BootstrapPhase_kept|].
  destruct r as [[]|e]; [|by apply BootstrapPhase_err in H as ->].
  unfold BootstrapPhase in H. case_match; [done|]. apply run_tx_ok in H. inv_tx.
  unfold ready_topology in *. destruct next; try destruct (bo_cluster_id x); inv_tx; simpl; try done;
    case_match; naive_solver.
Qed.

Lemma keeps_bootstrap_host t op x d r d' : RecordBootstrapHost t op x d = (r, d') -> keeps d d'.
Proof.
  intros [->|[-> _]]%RecordBootstrapHost_inv; [apply keeps_refl|].
  destruct (upsert_bootstrap_host_frame (bootstrap_host t op x) d) as [u E]. intros (HL & HT & HX). split_and!.
  - by apply upsert_bootstrap_host_keeps.
  - by rewrite E.
  - by rewrite E.
Qed.

Lemma keeps_spared d d' : spared d d' -> keeps d d'.
Proof.
  intros S (HL & HT & HX). pose proof (sp_rest _ _ S) as E. split_and!; [by eapply spared_ledger|..]; by rewrite E.
Qed.

Lemma step_keeps d d' : step d d' -> keeps d d'.
Proof.
  intros H. destruct H as [a e order h c r d' Ht H|t z k w dur r d' H|t z k w dur r d' H|t op w r d' H|e c rev x r d' H
    |hid v hb r d' H|t op next v r d' H|t op x r d' H|t op x r d' H|t op x r d' H|t op r d' H|x w r w' <- G H].
  - replace d' with (snd (Handler a e order h c d)) by by rewrite H. by apply keeps_handler.
  - unfold Claim in H. case_match; [injection H as _ <-; apply keeps_refl|by eapply keeps_claim].
  - unfold ClaimDominator in H. case_match; [injection H as _ <-; apply keeps_refl|by eapply keeps_claim].
  - pose proof (write_framed t op w d) as F. rewrite H in F. by eapply keeps_framed.
  - intros (HL & HT & HX). by eapply CreateRemoval_keeps.
  - injection H as _ <-. apply keeps_same; [|done..]. by apply same_ledger_host, host_ident_update.
  - by eapply keeps_phase.
  - apply SetClusterDiscovery_inv in H as [->|(p & -> & _)]; [apply keeps_refl|]. by apply keeps_same; [split|..].
  - apply SetDominatorRoute_inv in H as [->|(y & -> & _)]; [apply keeps_refl|]. by apply keeps_same; [split|..].
  - by eapply keeps_bootstrap_host.
  - apply ReleaseBootstrapLease_inv in H as [->|(p & -> & _)]; [apply keeps_refl|].
    apply keeps_same; [|done..]. by apply same_ledger_ops, op_ident_update.
  - intros I. by eapply keeps_spared, I; eapply legacy_spared, H; [apply L_hosts, I|].
Qed.

Lemma steps_keep d d' : rtc step d d' -> keeps d d'.
Proof. induction 1 as [d|d1 d2 d3 H _ IH]; [apply keeps_refl|]. intros I. by apply IH, (step_keeps _ _ H). Qed.
End System.

(** ** Histories

    Rows are never deleted: a table after a call is the old rows, each in a later
    version, followed by new ones. *)
Definition extends {A} (R : A -> A -> Prop) (l l' : list A) : Prop :=
  exists l1 l2, l' = l1 ++ l2 /\ Forall2 R l l1.

Lemma extends_of {A} (R : A -> A -> Prop) l l' : Forall2 R l l' -> extends R l l'.
Proof. intros H. exists l', []. by rewrite app_nil_r. Qed.

Lemma extends_refl {A} (R : A -> A -> Prop) l : (forall x, R x x) -> extends R l l.
Proof. intros H. by apply extends_of, Forall2_same. Qed.

Lemma extends_app {A} (R : A -> A -> Prop) l l2 : (forall x, R x x) -> extends R l (l ++ l2).
Proof. intros H. exists l, l2. split; [done|by apply Forall2_same]. Qed.

Lemma extends_trans {A} (R : A -> A -> Prop) l1 l2 l3 : (forall x y z, R x y -> R y z -> R x z) ->
  extends R l1 l2 -> extends R l2 l3 -> extends R l1 l3.
Proof.
  intros HT (a & b & -> & H1) (c & e & -> & H2). apply Forall2_app_inv_l in H2 as (c1 & c2 & Hc1 & Hc2 & ->).
  exists c1, (c2 ++ e). split; [by rewrite app_assoc|]. by eapply Forall2_compose.
Qed.

Lemma extends_in {A} (R : A -> A -> Prop) l l' x : extends R l l' -> In x l -> exists y, In y l' /\ R x y.
Proof.
  intros (l1 & l2 & -> & H) Hx. destruct (Forall2_in _ _ _ _ H Hx) as (y & Hy & HR). exists y. rewrite in_app_iff. auto.
Qed.

(** An operation that no controller will touch again. *)
Definition settled (o : OpRow) : bool := one_of (o_state o) [Osucceeded; Ocancelled; Ofailed].

(** A later version of an operation: same identity and template, a fence that only
    grows, and no change at all once it is settled. *)
Definition op_later (o o' : OpRow) : Prop :=
  op_ident o' = op_ident o /\ o_fence o <= o_fence o' /\ (settled o = true -> o' = o).

(** The lifecycle of a managed host: provisioning moves forward one state at a time, and
    only an unlaunched host can be cancelled. *)
Definition host_move (s s' : HostState) : Prop :=
  lifecycle true s s' \/ (In s [HostRequested; HostProvisioning] /\ s' = HostTerminated).

(** A later version of a host: same identity and placement, a state further along the
    lifecycle, and a provider instance that is recorded once. *)
Definition host_place (h : HostRow) :=
  (h_id h, h_node_group_id h, h_node_pool_id h, h_crane_zone h, h_operation_id h, h_protected h).
Definition host_later (h h' : HostRow) : Prop :=
  host_place h' = host_place h /\ rtc host_move (h_state h) (h_state h') /\
  (forall p, h_providerid h = Some p -> p <> "" -> h_providerid h' = Some p).

Lemma op_later_refl o : op_later o o.
Proof. by split_and!. Qed.
Lemma op_later_trans o1 o2 o3 : op_later o1 o2 -> op_later o2 o3 -> op_later o1 o3.
Proof.
  intros (A1 & A2 & A3) (B1 & B2 & B3). split_and!; [congruence|lia|]. intros H. specialize (A3 H). subst o2. auto.
Qed.
Lemma host_later_refl h : host_later h h.
Proof. split_and!; [done|apply rtc_refl|done]. Qed.
Lemma host_later_trans h1 h2 h3 : host_later h1 h2 -> host_later h2 h3 -> host_later h1 h3.
Proof. intros (A1 & A2 & A3) (B1 & B2 & B3). split_and!; [congruence|by etrans|auto]. Qed.
#[local] Hint Resolve op_later_refl host_later_refl : crane.

Record evolves (d d' : DB) : Prop := mkEvolves {
  ev_ops : extends op_later (operations d) (operations d');
  ev_hosts : extends host_later (host d) (host d') }.

Lemma evolves_same d d' : operations d' = operations d -> host d' = host d -> evolves d d'.
Proof. intros E1 E2. split; rewrite ?E1, ?E2; apply extends_refl; auto with crane. Qed.

Lemma evolves_trans d1 d2 d3 : evolves d1 d2 -> evolves d2 d3 -> evolves d1 d3.
Proof. intros [A1 A2] [B1 B2]. split; eapply extends_trans; eauto using op_later_trans, host_later_trans. Qed.

(** *** Provisioning and claims *)
Lemma lifecycle_move b s s' : advances b s s' -> rtc host_move s s'.
Proof.
  apply rtc_subrel. intros x y [H|(_ & H)]; left; [by left|by right].
Qed.

Lemma in_flight_unsettled o : in_flight o = true -> settled o = false.
Proof. unfold in_flight, settled, one_of. by destruct (o_state o). Qed.

Section Histories.
Context {k8s : K8s} {gonet : GoNet} {gourl : GoURL} {digest : Digest}.

(** A fenced write leaves every settled operation exactly as it is. *)
Lemma update_spares p (f : OpRow -> OpRow) l o : In o l -> p o = false -> In o (update_where p f l).
Proof. intros Ho Hp. apply in_update_where. exists o. by rewrite Hp. Qed.

Lemma pin_operations t op x d : operations (snd (ignore (PinProvisionExpectedState t op x) d)) = operations d.
Proof.
  unfold ignore, PinProvisionExpectedState. match goal with |- context [if ?b then st_ret _ else _] => destruct b end; [done|].
  destruct (run_tx _ d) as [[y|e] d'] eqn:E; simpl; [|by apply run_tx_err in E as [-> _]].
  apply run_tx_ok in E. inv_tx. unfold pin_update in *. repeat case_match; inv_tx; by simplify_eq.
Qed.

Lemma finalize_spares t t2 cn ce op v r d o : Ledger d -> In o (operations d) -> o_state o <> Olaunching ->
  In o (operations (snd (FinalizeProvision t t2 cn ce op v r d))).
Proof.
  intros HL Ho Hl. destruct (FinalizeProvision t t2 cn ce op v r d) as [[[]|e] d'] eqn:E; simpl; [|by apply finalize_err in E as ->].
  unfold FinalizeProvision in E. destruct r as [outcome|]; [|done]. apply run_tx_ok in E. inv_tx. simpl.
  match goal with H : select_one _ _ = Some ?x |- _ => apply select_one_some in H as [Hx Hfin]; rename x into o0 end.
  apply update_spares; [done|]. destruct (o_id o == op_ID op) eqn:Eid; [|done]. bsplit. exfalso. apply Hl.
  unfold finalizable in Hfin. bsplit. rewrite (unique_key_in o_id _ o o0 (L_ops _ HL)) by (done || congruence). done.
Qed.

Lemma write_spares_settled t op w d o : Ledger d -> In o (operations d) -> settled o = true ->
  In o (operations (snd (write t op w d))).
Proof.
  intros HL Ho Hs. assert (in_flight o = false) as Hf.
  { destruct (in_flight o) eqn:E; [|done]. apply in_flight_unsettled in E. congruence. }
  assert (o_state o <> Olaunching) as Hl by (intros E; unfold in_flight in Hf; by rewrite E in Hf).
  assert ((o_state o == Olaunching) = false) as Hb by by apply bool_decide_eq_false.
  destruct w; simpl.
  - unfold Renew. case_match; [done|]. apply update_spares; [done|]. by rewrite Hf; autorewrite with crane.
  - apply update_spares; [done|]. by rewrite Hf; autorewrite with crane.
  - unfold RecordLaunchWithAddress. case_match; [done|].
    assert (forall nid, In o (operations (snd (run_tx (record_launch t op providerID privateIP nid) d)))) as H1;
      [|destruct nodeProviderIDs as [|? [|]]; auto].
    intros nid. destruct (run_tx _ d) as [[[]|e] d'] eqn:E; [|by apply run_tx_err in E as [-> _]].
    apply run_tx_ok in E. unfold record_launch in E. inv_tx. simpl. apply update_spares; [done|].
    by rewrite Hb; autorewrite with crane.
  - unfold SetProvisionDesiredVersion. by case_match.
  - unfold SetProvisionState. by case_match.
  - apply update_spares; [done|]. by rewrite Hb; autorewrite with crane.
  - unfold RecordProvisionFailure. case_match; [done|]. apply update_spares; [done|]. by rewrite Hf; autorewrite with crane.
  - apply update_spares; [done|]. by rewrite Hf; autorewrite with crane.
  - unfold BindProvisionNode. by repeat case_match.
  - by rewrite pin_operations.
  - done.
  - by apply finalize_spares.
Qed.

Lemma op_frame_later op o o' : op_frame op o o' -> (settled o = true -> o' = o) -> op_later o o'.
Proof. intros [->|(_ & _ & E & F & _)] Hs; [apply op_later_refl|]. split_and!; [done|lia|done]. Qed.

Lemma host_frame_later b op d h h' : host_frame b op d h h' -> host_later h h'.
Proof.
  intros [->|(_ & E & A & P)]; [apply host_later_refl|]. split_and!; [|by eapply lifecycle_move|done].
  unfold host_ident in E. unfold host_place. congruence.
Qed.

Lemma Forall2_strengthen {A} (R S : A -> A -> Prop) l l' :
  (forall x y, In x l -> In y l' -> R x y -> S x y) -> Forall2 R l l' -> Forall2 S l l'.
Proof.
  intros H F. induction F as [|x y l l' HR F IH]; constructor; [apply H; simpl; auto|].
  apply IH. intros. apply H; simpl; auto.
Qed.

Lemma write_evolves t op w d r d' : Ledger d -> write t op w d = (r, d') -> evolves d d'.
Proof.
  intros HL H. pose proof (write_framed t op w d) as F. rewrite H in F. simpl in F.
  assert (Ledger d') as HL' by by rewrite <- (framed_same_ledger _ _ _ _ F). split; apply extends_of.
  - eapply Forall2_strengthen; [|apply F]. intros o o' Ho Ho' Fr. eapply op_frame_later; [exact Fr|]. intros Hs.
    pose proof (write_spares_settled t op w d o HL Ho Hs) as Hin. rewrite H in Hin.
    apply (unique_key_in o_id (operations d')); auto using L_ops.
    destruct Fr as [->|(_ & _ & E & _)]; [done|]. by apply op_ident_eq in E as [E _].
  - eapply Forall2_impl; [apply F|]. intros. by eapply host_frame_later.
Qed.

Lemma claim_evolves t z k w dur a d r d' : Ledger d -> claim t z k w dur a d = (r, d') -> evolves d d'.
Proof.
  intros HL H. destruct r as [op|e]; [|apply claim_err in H as ->; by apply evolves_same].
  apply claim_ok in H as (o & Ho & Hc & _ & ->). split; [|apply extends_refl; auto with crane].
  apply extends_of, Forall2_update; [apply op_later_refl|]. intros x Hx E. bsplit.
  rewrite (unique_key_in o_id _ x o (L_ops _ HL)) by done. split_and!; [done|simpl; lia|]. intros Hs. exfalso.
  unfold claimable, settled, one_of, lease_expired in *. bsplit.
  by destruct (o_state o).
Qed.
End Histories.

(** *** Admission *)
Section Admission.
Context {k8s : K8s}.

(** What a list of cancellations does, row by row: pending operations are cancelled, and
    unlaunched hosts are terminated. *)
Definition cancelled_op (o o' : OpRow) : Prop :=
  o' = o \/ (o_state o = Opending /\ op_ident o' = op_ident o /\ o_fence o <= o_fence o').
Definition cancelled_host (t : Z) (h h' : HostRow) : Prop :=
  h' = h \/ (In (h_state h) [HostRequested; HostProvisioning] /\ h' = cancel_host t h).

Lemma cancelled_later o o' : cancelled_op o o' -> op_later o o'.
Proof.
  intros [->|(Es & E & F)]; [apply op_later_refl|]. split_and!; [done..|]. unfold settled, one_of. by rewrite Es.
Qed.

Lemma cancelled_host_later t h h' : cancelled_host t h h' -> host_later h h'.
Proof.
  intros [->|(Hs & ->)]; [apply host_later_refl|]. split_and!; [done| |done]. apply rtc_once. right. done.
Qed.

Lemma Forall2_update_r {A} (R : A -> A -> Prop) p f l l' :
  (forall x y, In x l -> R x y -> p y = true -> R x (f y)) -> Forall2 R l l' -> Forall2 R l (update_where p f l').
Proof.
  intros H F. unfold update_where. induction F as [|x y l l' HR F IH]; simpl; constructor.
  - destruct (p y) eqn:E; [|done]. apply H; simpl; auto.
  - apply IH. intros. apply H; simpl; auto.
Qed.

Lemma cancelIntents_rows t d0 ops d :
  (forall x o, In x ops -> In o (operations d0) -> o_id o = o_id x -> o_state o = Opending) ->
  (forall x h, In x ops -> In h (host d0) -> o_host_id x = Some (h_id h) -> In (h_state h) [HostRequested; HostProvisioning]) ->
  Forall2 cancelled_op (operations d0) (operations d) -> Forall2 (cancelled_host t) (host d0) (host d) ->
  let d' := fold_left (fun d op => cancelIntent t op d) ops d in
  Forall2 cancelled_op (operations d0) (operations d') /\ Forall2 (cancelled_host t) (host d0) (host d').
Proof.
  revert d. induction ops as [|x ops IH]; intros d Ho Hh F1 F2; simpl; [done|].
  apply IH; [naive_solver..| |]; simpl; (eapply Forall2_update_r; [|done]).
  - intros o o' Hin Hc E. bsplit. right. destruct Hc as [->|(E1 & E2 & E3)].
    + split_and!; [by eapply Ho; [left|..]|done|simpl; lia].
    + split_and!; [done..|simpl; lia].
  - intros h h' Hin Hc E. bsplit. right. destruct Hc as [->|(E1 & ->)]; [|done].
    split; [by eapply Hh; [left|..]|done].
Qed.

Lemma cancelPending_evolves e g n d : Ledger d -> evolves d (cancelPending e g n d).
Proof.
  intros HL. assert (evolves d (fold_left (fun d op => cancelIntent (now e 0) op d) (cancel_intents g n d) d)) as H1.
  { destruct (cancelIntents_rows (now e 0) d (cancel_intents g n d) d) as [F1 F2].
    - intros x o Hx Ho E. apply cancel_intents_in in Hx as [Hx Hc]. unfold cancellable in Hc. bsplit.
      by rewrite (unique_key_in o_id _ o x (L_ops _ HL)).
    - intros x h Hx Hh E. apply cancel_intents_in in Hx as [Hx Hc]. unfold cancellable in Hc. bsplit.
      match goal with H : exists_row _ _ = true |- _ => apply exists_row_true in H as (h1 & Hh1 & Hp) end. bsplit.
      apply one_of_spec. rewrite (unique_key_in h_id _ h h1 (L_hosts _ HL)) by (done || congruence). done.
    - apply Forall2_same. by left.
    - apply Forall2_same. by left.
    - split; apply extends_of; (eapply Forall2_impl; [eassumption|]); eauto using cancelled_later, cancelled_host_later. }
  unfold cancelPending. case_match; [|done]. eapply evolves_trans; [exact H1|]. split; [apply extends_refl; auto with crane|].
  apply extends_of, Forall2_update; [apply host_later_refl|]. intros h _ _. split_and!; [done|apply rtc_refl|done].
Qed.

Lemma SetTarget_evolves e req d r d' : Ledger d -> SetTarget e req d = (r, d') -> evolves d d'.
Proof.
  intros HL H. destruct r as [r|err]; [|apply SetTarget_err in H as ->; by apply evolves_same].
  apply SetTarget_ok in H as (p & Hp & _ & H). destruct (select_one _ _); [destruct H as (_ & -> & _); by apply evolves_same|].
  destruct H as [_ _ _ _ _ _ (pool & d1 & d2 & d3 & _ & _ & _ & H1 & H2 & H3 & ->)].
  apply insert_request_ok in H1 as [-> _]. pose proof (update_group_same _ _ _ _ H2 (set_target_ident _ _)) as HS.
  apply update_group_ok in H2 as [-> _].
  assert (Ledger d) as HL0 by done. destruct (_ <? 0) eqn:Ed; bsplit.
  - rewrite Z2Nat.nonpos in H3 by lia. simpl in H3. unfold tx_ret in H3. injection H3 as <-.
    match type of HS with same_ledger _ ?x => set (d2 := x) in * end.
    assert (Ledger d2) as HL2 by (rewrite <- HS, <- (Ledger_proper d); [done|by split]).
    eapply evolves_trans; [|by apply cancelPending_evolves]. by apply evolves_same.
  - apply provisionIntents_shape in H3 as ->. split; apply extends_app; auto with crane.
Qed.

Lemma removals_evolves e c req d r d' : CreateAutoscalerRemovals e c req d = (r, d') -> evolves d d'.
Proof.
  intros H. destruct r as [r|err]; [|apply CreateAutoscalerRemovals_err in H as ->; by apply evolves_same].
  apply CreateAutoscalerRemovals_ok in H as (_ & p & Hp & Hcl & H).
  destruct (select_one _ _); [destruct H as (_ & ->); by apply evolves_same|].
  destruct (removed_shape _ _ _ _ _ H) as (ids & _ & ->).
  split; [apply extends_app|apply extends_refl]; auto with crane.
Qed.

Lemma CreateRemoval_evolves e c rev x d r d' : CreateRemoval e c rev x d = (r, d') -> evolves d d'.
Proof.
  intros H. destruct r as [r|err]; [|apply CreateRemoval_err in H as ->; by apply evolves_same].
  apply CreateRemoval_ok in H as (p & h & d1 & d2 & _ & _ & _ & _ & _ & _ & -> & _ & (o & Ho & _) & (y & Hy & _)).
  apply insert_operation_ok in Ho as [-> _]. apply insert_removal_ok in Hy as [-> _].
  split; [apply extends_app|apply extends_refl]; auto with crane.
Qed.

Lemma create_evolves t d r d' : typed t -> create t d = (r, d') -> evolves d d'.
Proof.
  intros Ht H. destruct (create_kept t d r d' Ht H) as [_ G]. pose proof (gw_rest _ _ G) as E. injection E as E.
  by apply evolves_same.
Qed.
End Admission.

(** *** Every step *)
Section Runs.
Context {k8s : K8s} {gonet : GoNet} {gourl : GoURL} {digest : Digest}.

Lemma CreateBootstrap_evolves e r d res d' : CreateBootstrap e r d = (res, d') -> evolves d d'.
Proof.
  intros H. destruct res as [id|err]; [|apply CreateBootstrap_err in H as ->; by apply evolves_same].
  apply CreateBootstrap_ok in H as (p & _ & _ & H).
  destruct (bootstrap_request r d) as [[b o]|]; [destruct H as [-> _]; by apply evolves_same|].
  destruct H as [_ [_ (i & d1 & d2 & Hi & _ & _ & Hs & _ & _ & Ho & Hb)]].
  apply dec_intent_typed in Hi as [Hpt Hgt]. destruct (seed_tx_kept _ _ _ _ Hpt Hgt Hs) as [_ G].
  apply insert_operation_ok in Ho as [-> _]. unfold insert_bootstrap in Hb. inv_ok. simpl.
  pose proof (gw_rest _ _ G) as E. injection E as E1 E2.
  split; simpl; rewrite ?E1, ?E2; [apply extends_app|apply extends_refl]; auto with crane.
Qed.

Lemma scheduling_evolves id ex rev t l d r d' : UpdateNodeGroupScheduling id ex rev t l d = (r, d') -> evolves d d'.
Proof.
  unfold UpdateNodeGroupScheduling. destruct l as [j|]; [|intros [= _ <-]; by apply evolves_same].
  case_match; [intros [= _ <-]; by apply evolves_same|].
  destruct r as [[]|e]; [|intros [-> _]%run_tx_err; by apply evolves_same].
  rewrite run_tx_ok. intros Hrun. inv_tx. case_bool_decide; inv_tx; by apply evolves_same.
Qed.

Lemma membership_evolves m d r d' : UpdateClusterZone m d = (r, d') -> evolves d d'.
Proof. unfold UpdateClusterZone. destruct (normalizeMembership m); intros [= _ <-]; by apply evolves_same. Qed.

(** Giving up or finishing the lease of an unsettled operation. *)
Lemma cleared_evolves t s p d : (forall o, In o (operations d) -> p o = true -> settled o = false) ->
  evolves d (set_operations (update_where p (clear_lease t s) (operations d)) d).
Proof.
  intros Hp. split; [|apply extends_refl; auto with crane]. apply extends_of, Forall2_update; [apply op_later_refl|].
  intros o Ho E. split_and!; [done|simpl; lia|]. intros Hs. by rewrite (Hp o Ho E) in Hs.
Qed.

Lemma phase_evolves t op next v d r d' : Ledger d -> BootstrapPhase t op next v d = (r, d') -> evolves d d'.
Proof.
  intros HL H. destruct r as [[]|e]; [|apply BootstrapPhase_err in H as ->; by apply evolves_same].
  apply BootstrapPhase_ok in H as [_ [(b & Hb & _) _ Eo Eh _ _ _ _]].
  assert (forall s, evolves d (finish_operation t (op_ID op) s d)) as Hf.
  { intros s. apply cleared_evolves. intros o Ho E. bsplit.
    apply held_bootstrap_some in Hb as (_ & _ & x & Hx & Hl & Hfl). apply lease_held_inv in Hl as [Hid _].
    rewrite (unique_key_in o_id _ o x (L_ops _ HL)) by (done || congruence). by apply in_flight_unsettled. }
  split; [|rewrite Eh; apply extends_refl; auto with crane]. rewrite Eo.
  destruct next; try apply Hf; apply extends_refl; auto with crane.
Qed.

Lemma bootstrap_host_evolves t op x d r d' : RecordBootstrapHost t op x d = (r, d') -> evolves d d'.
Proof.
  intros [->|[-> _]]%RecordBootstrapHost_inv; [by apply evolves_same|]. unfold upsert_bootstrap_host. case_match; split.
  - apply extends_refl; auto with crane.
  - apply extends_of, Forall2_update; [apply host_later_refl|]. intros h _ Hs. unfold same_bootstrap_host in Hs. bsplit.
    split_and!; [unfold host_place; simpl; congruence|apply rtc_refl|]. intros p Hp _. simpl in *. congruence.
  - apply extends_refl; auto with crane.
  - apply extends_app; auto with crane.
Qed.

Lemma observe_evolves hid v hb d r d' : Observe hid v hb d = (r, d') -> evolves d d'.
Proof.
  intros [= _ <-]. split; [apply extends_refl; auto with crane|]. apply extends_of, Forall2_update; [apply host_later_refl|].
  intros h _ _. split_and!; [done|apply rtc_refl|done].
Qed.

Lemma evolves_across : across_calls (fun d d' => Ledger d -> evolves d d').
Proof.
  split; intros; eauto using create_evolves, membership_evolves, scheduling_evolves, CreateBootstrap_evolves,
    SetTarget_evolves, removals_evolves. by apply evolves_same.
Qed.

(** A step is one of the capacity plane, after which every row has a later version, or one
    of the legacy plane, which spares the guarded hosts and writes no other table. *)
Lemma step_evolves d d' : step d d' -> Ledger d -> evolves d d' \/ spared d d'.
Proof.
  intros H HL. destruct H as [a e order h c r d' Ht H|t z k w dur r d' H|t z k w dur r d' H|t op w r d' H|e c rev x r d' H
    |hid v hb r d' H|t op next v r d' H|t op x r d' H|t op x r d' H|t op x r d' H|t op r d' H|x w r w' <- G H];
    eauto using write_evolves, CreateRemoval_evolves, observe_evolves, phase_evolves, bootstrap_host_evolves.
  - left. replace d' with (snd (Handler a e order h c d)) by by rewrite H.
    by apply (across_handler (fun d d' => Ledger d -> evolves d d') evolves_across).
  - left. unfold Claim in H. case_match; [injection H as _ <-; by apply evolves_same|by eapply claim_evolves].
  - left. unfold ClaimDominator in H. case_match; [injection H as _ <-; by apply evolves_same|by eapply claim_evolves].
  - left. apply SetClusterDiscovery_inv in H as [->|(p & -> & _)]; by apply evolves_same.
  - left. apply SetDominatorRoute_inv in H as [->|(y & -> & _)]; by apply evolves_same.
  - left. unfold ReleaseBootstrapLease in H. case_match; injection H as _ <-; [by apply evolves_same|].
    apply cleared_evolves. intros o _ Hp. cbv beta in Hp. bsplit. by apply in_flight_unsettled.
  - right. by eapply legacy_spared, H; [apply L_hosts|].
Qed.

(** A step never guards a host that was not guarded: placement and protection are fixed. *)
Lemma guard_stays d d' h h' : step d d' -> Ledger d -> Ledger d' -> In h (host d) -> In h' (host d') -> h_id h' = h_id h ->
  guarded h = false -> guarded h' = false.
Proof.
  intros Hs HL HL' Hh Hh' Eid Hg. destruct (step_evolves _ _ Hs HL) as [[_ He]|S].
  - destruct (extends_in _ _ _ _ He Hh) as (x & Hx & Ep & _). unfold host_place in Ep. injection Ep as E1 E2 _ _ _ E6.
    rewrite (unique_key_in h_id _ h' x (L_hosts _ HL')) by (done || congruence). unfold guarded, managed in *. by rewrite E2, E6.
  - destruct (guarded h') eqn:E; [|done]. destruct (sp_back _ _ S h' Hh' E) as (x & Hx & Q).
    pose proof (quiet_guarded _ _ Q) as Eq. assert (h_id h' = h_id x) as Ex by (by destruct Q as (? & ? & ? & ? & ->)).
    rewrite (unique_key_in h_id _ x h (L_hosts _ HL)) in Eq by (done || congruence). congruence.
Qed.

(** What every run keeps of the past: all operations, and the hosts that a node group manages
    or the bootstrap protects. *)
Record history (d d' : DB) : Prop := mkHistory {
  hi_ops : extends op_later (operations d) (operations d');
  hi_hosts : forall h, In h (host d) -> guarded h = true -> exists h', In h' (host d') /\ host_later h h' }.

Lemma later_guarded h h' : host_later h h' -> guarded h' = guarded h.
Proof. intros (E & _). unfold host_place in E. injection E as _ E2 _ _ _ E6. unfold guarded, managed. by rewrite E2, E6. Qed.

Lemma quiet_later h h' : quiet h h' -> host_later h h'.
Proof. intros (a & b & c & e & ->). split_and!; [done|apply rtc_refl|done]. Qed.

Lemma history_trans d1 d2 d3 : history d1 d2 -> history d2 d3 -> history d1 d3.
Proof.
  intros [A1 A2] [B1 B2]. split; [by eapply extends_trans; eauto using op_later_trans|]. intros h Hh Hg.
  destruct (A2 h Hh Hg) as (h2 & H2 & L2). destruct (B2 h2 H2) as (h3 & H3 & L3); [by rewrite (later_guarded _ _ L2)|].
  eauto using host_later_trans.
Qed.

Lemma step_history d d' : step d d' -> Ledger d -> history d d'.
Proof.
  intros H HL. destruct (step_evolves _ _ H HL) as [[E1 E2]|S].
  - split; [done|]. intros h Hh _. by eapply extends_in.
  - split; [rewrite (sp_rest _ _ S); apply extends_refl; auto with crane|]. intros h Hh Hg.
    destruct (sp_kept _ _ S h Hh Hg) as (h' & Hh' & Q). eauto using quiet_later.
Qed.

Lemma steps_history d d' : rtc step d d' -> invariants d -> history d d'.
Proof.
  induction 1 as [d|d1 d2 d3 H _ IH]; intros I.
  - split; [apply extends_refl; auto with crane|eauto with crane].
  - eapply history_trans; [by apply step_history, I|]. apply IH, (step_keeps _ _ H), I.
Qed.

(** *** Node groups

    A group keeps its cluster, zone and pool. *)
Definition group_place (g : GroupRow) := (g_id g, g_cluster_id g, g_zone_id g, g_node_pool_id g).
Definition groups_kept (d d' : DB) : Prop :=
  forall g, In g (node_groups d) -> exists g', In g' (node_groups d') /\ group_place g' = group_place g.

Lemma groups_same d d' : node_groups d' = node_groups d -> groups_kept d d'.
Proof. intros E g Hg. exists g. by rewrite E. Qed.

Lemma groups_trans d1 d2 d3 : groups_kept d1 d2 -> groups_kept d2 d3 -> groups_kept d1 d3.
Proof.
  intros A B g Hg. destruct (A g Hg) as (g2 & H2 & E2). destruct (B g2 H2) as (g3 & H3 & E3). exists g3. split; congruence.
Qed.

Lemma groups_update d d' p f : node_groups d' = update_where p f (node_groups d) ->
  (forall g, group_place (f g) = group_place g) -> groups_kept d d'.
Proof.
  intros E Hf g Hg. exists (if p g then f g else g). rewrite E. split; [apply in_update_where; by exists g|]. by case_match.
Qed.

Lemma groups_grow d d' : grows d d' -> groups_kept d d'.
Proof.
  intros G g Hg. destruct (gw_groups _ _ G g Hg) as (g' & Hg' & [->|(_ & s & ->)]); eauto.
Qed.

Lemma SetTarget_groups e req d r d' : SetTarget e req d = (r, d') -> groups_kept d d'.
Proof.
  destruct r as [r|err]; [|intros ->%SetTarget_err; by apply groups_same].
  intros (p & _ & _ & H)%SetTarget_ok. destruct (select_one _ _); [destruct H as (_ & -> & _); by apply groups_same|].
  eapply groups_update; [by eapply admitted_groups|done].
Qed.

Lemma removals_groups e c req d r d' : CreateAutoscalerRemovals e c req d = (r, d') -> groups_kept d d'.
Proof.
  destruct r as [r|err]; [|intros ->%CreateAutoscalerRemovals_err; by apply groups_same].
  intros (_ & p & _ & _ & H)%CreateAutoscalerRemovals_ok. destruct (select_one _ _); [destruct H as (_ & ->); by apply groups_same|].
  destruct (removed_shape _ _ _ _ _ H) as (ids & _ & ->). by eapply groups_update.
Qed.

Lemma CreateRemoval_groups e c rev x d r d' : CreateRemoval e c rev x d = (r, d') -> groups_kept d d'.
Proof.
  destruct r as [r|err]; [|intros ->%CreateRemoval_err; by apply groups_same].
  intros (p & h & d1 & d2 & _ & _ & _ & _ & _ & _ & -> & _ & (o & Ho & _) & (y & Hy & _))%CreateRemoval_ok.
  apply insert_operation_ok in Ho as [-> _]. apply insert_removal_ok in Hy as [-> _].
  unfold removal_target. case_match; [by apply groups_same|by eapply groups_update].
Qed.

Lemma create_groups t d r d' : typed t -> create t d = (r, d') -> groups_kept d d'.
Proof. intros Ht H. by destruct (create_kept t d r d' Ht H) as [_ G%groups_grow]. Qed.

Lemma CreateBootstrap_groups e r d res d' : CreateBootstrap e r d = (res, d') -> groups_kept d d'.
Proof.
  intros H. destruct res as [id|err]; [|apply CreateBootstrap_err in H as ->; by apply groups_same].
  apply CreateBootstrap_ok in H as (p & _ & _ & H).
  destruct (bootstrap_request r d) as [[b o]|]; [destruct H as [-> _]; by apply groups_same|].
  destruct H as [_ [_ (i & d1 & d2 & Hi & _ & _ & Hs & _ & _ & Ho & Hb)]].
  apply dec_intent_typed in Hi as [Hpt Hgt]. destruct (seed_tx_kept _ _ _ _ Hpt Hgt Hs) as [_ G%groups_grow].
  apply insert_operation_ok in Ho as [-> _]. unfold insert_bootstrap in Hb. by inv_ok.
Qed.

Lemma scheduling_groups id ex rev t l d r d' : UpdateNodeGroupScheduling id ex rev t l d = (r, d') -> groups_kept d d'.
Proof.
  unfold UpdateNodeGroupScheduling. destruct l as [j|]; [|intros [= _ <-]; by apply groups_same].
  case_match; [intros [= _ <-]; by apply groups_same|].
  destruct r as [[]|e]; [|intros [-> _]%run_tx_err; by apply groups_same].
  rewrite run_tx_ok. intros Hrun. inv_tx. case_bool_decide; inv_tx; [by apply groups_same|].
  by eapply groups_update.
Qed.

Lemma membership_groups m d r d' : UpdateClusterZone m d = (r, d') -> groups_kept d d'.
Proof. unfold UpdateClusterZone. destruct (normalizeMembership m); intros [= _ <-]; by apply groups_same. Qed.

Lemma groups_across : across_calls groups_kept.
Proof.
  split; intros; eauto using create_groups, membership_groups, scheduling_groups, CreateBootstrap_groups,
    SetTarget_groups, removals_groups. by apply groups_same.
Qed.

Lemma claim_same_groups t z k w dur a d r d' : claim t z k w dur a d = (r, d') -> groups_kept d d'.
Proof. intros H. by eapply groups_same, claim_groups. Qed.

Lemma step_groups d d' : step d d' -> groups_kept d d'.
Proof.
  intros H. destruct H as [a e order h c r d' Ht H|t z k w dur r d' H|t z k w dur r d' H|t op w r d' H|e c rev x r d' H
    |hid v hb r d' H|t op next v r d' H|t op x r d' H|t op x r d' H|t op x r d' H|t op r d' H|x w r w' <- G H];
    eauto using CreateRemoval_groups.
  - replace d' with (snd (Handler a e order h c d)) by by rewrite H. by apply (across_handler _ groups_across).
  - unfold Claim in H. case_match; [injection H as _ <-; by apply groups_same|by eapply claim_same_groups].
  - unfold ClaimDominator in H. case_match; [injection H as _ <-; by apply groups_same|by eapply claim_same_groups].
  - pose proof (write_framed t op w d) as F. rewrite H in F. by eapply groups_same, framed_groups.
  - injection H as _ <-. by apply groups_same.
  - apply groups_same. destruct r as [[]|e]; [by apply BootstrapPhase_ok in H as [_ [_ _ _ _ _ ? _ _]]|by apply BootstrapPhase_err in H as ->].
  - apply SetClusterDiscovery_inv in H as [->|(p & -> & _)]; by apply groups_same.
  - apply SetDominatorRoute_inv in H as [->|(y & -> & _)]; by apply groups_same.
  - apply RecordBootstrapHost_inv in H as [->|[-> _]]; [by apply groups_same|].
    destruct (upsert_bootstrap_host_frame (bootstrap_host t op x) d) as [u E]. rewrite E. by apply groups_same.
  - apply ReleaseBootstrapLease_inv in H as [->|(p & -> & _)]; by apply groups_same.
  - apply groups_same. by rewrite (legacy_rest _ _ _ _ H).
Qed.

Lemma steps_groups d d' : rtc step d d' -> groups_kept d d'.
Proof.
  induction 1 as [d|d1 d2 d3 H _ IH]; [by apply groups_same|]. by eapply groups_trans; [apply step_groups|].
Qed.

(** *** The legacy services run in steps

    Every call of the host catalog service, and with it every action of the executor and every
    iteration of the worker, is a run of the system. *)
Definition runs {A} (m : Run A) : Prop :=
  forall w r w', Ledger (w_db w) -> m w = (r, w') -> rtc step (w_db w) (w_db w').

Lemma runs_spares {A} (m : Run A) w r w' : spares m -> Ledger (w_db w) -> m w = (r, w') -> Ledger (w_db w').
Proof. intros Hm HL H. eapply spared_ledger, HL. eapply Hm, H. apply HL. Qed.

Lemma runs_pure {A} (m : Run A) : (forall w, w_db (snd (m w)) = w_db w) -> runs m.
Proof. intros Hm w r w' _ H. specialize (Hm w). rewrite H in Hm. simpl in Hm. rewrite Hm. apply rtc_refl. Qed.

Lemma runs_bind {A B} (m : Run A) (k : A -> Run B) : spares m -> runs m -> (forall a, runs (k a)) -> runs (run_bind m k).
Proof.
  intros S Hm Hk w r w' HL. unfold run_bind. destruct (m w) as [[a|e] w1] eqn:E.
  - intros H. etrans; [by eapply Hm|]. eapply Hk, H. by eapply (runs_spares m).
  - intros [= _ <-]. by eapply Hm.
Qed.

Lemma runs_statement x w r w' : guard_passed x (w_db w) -> run_legacy x w = (r, w') -> rtc step (w_db w) (w_db w').
Proof. intros G H. apply rtc_once. by eapply (step_legacy _ x w). Qed.

Lemma runs_guarded id x : guarded_by x = Some id -> runs (do! _ := EnsureLegacyLifecycle id in run_legacy x).
Proof.
  intros Ex w r w' HL. unfold run_bind. destruct (EnsureLegacyLifecycle id w) as [[u|e] w1] eqn:E.
  - apply Ensure_ok in E as [-> (h & Hin & Hid & Hg)]. apply runs_statement. intros y Hy Eid. rewrite Ex in Eid.
    injection Eid as Eid. by rewrite (unique_key_in h_id _ y h (L_hosts _ HL)) by (done || congruence).
  - intros [= _ <-]. unfold EnsureLegacyLifecycle, query in E. injection E as _ <-. apply rtc_refl.
Qed.

Lemma runs_free x : guarded_by x = None -> runs (run_legacy x).
Proof. intros E w r w' _. apply runs_statement. intros h _. by rewrite E. Qed.

Lemma runs_TransitionState id s : runs (TransitionState id s).
Proof.
  intros w r w' HL H. rewrite TransitionState_eq in H.
  destruct (select_one (host_is id) (host (w_db w))) as [h|] eqn:E; [|injection H as _ <-; apply rtc_refl].
  destruct (transition_outcome h s) as [n|e] eqn:Eo; injection H as _ <-; [|apply rtc_refl].
  apply select_one_some in E as [Hin Hid]. unfold host_is in Hid. bsplit. apply transition_outcome_ok in Eo as (G & _).
  apply (runs_statement (LState id (Some n)) w (Ok tt)); [|done]. intros y Hy [= Eid].
  by rewrite (unique_key_in h_id _ y h (L_hosts _ HL)) by (done || congruence).
Qed.

Lemma runs_service :
  (forall id s, runs (TransitionState id s)) /\ (forall id v, runs (TransitionHealth id v)) /\
  (forall id now p, runs (CreateHost id now p)) /\ (forall id p, runs (UpdateHostProviderID id p)) /\
  (forall id t, runs (UpdateLastSeenHeartbeat id t)) /\ (forall id, runs (DeleteHost id)) /\
  (forall id s, runs (UpdateState id s)) /\ (forall id c, runs (UpdateDBConnectionInfo id c)).
Proof.
  split_and!; intros.
  - apply runs_TransitionState.
  - by apply (runs_free (LHealth id v)).
  - apply runs_bind; [apply spares_Create|by apply (runs_free (LCreate id now p))|]. intros _. by apply runs_pure.
  - by apply (runs_guarded id (LProviderID id p)).
  - by apply (runs_free (LHeartbeat id t)).
  - by apply (runs_guarded id (LDelete id)).
  - by apply (runs_guarded id (LState id s)).
  - by apply (runs_free (LConnection id c)).
Qed.

Lemma Execute_runs p id now a : runs (Execute p id now a).
Proof.
  destruct runs_service as (H1 & _ & H3 & H4 & _ & _ & H7 & H8).
  assert (forall A (q : DB -> result A), runs (query q)) as Hq by (intros; by apply runs_pure).
  assert (forall A c (f : list CloudCall -> result A), runs (cloud c f)) as Hc by (intros; by apply runs_pure).
  apply runs_bind; [destruct (one_of _ _); [apply spares_query|apply spares_ret]|destruct (one_of _ _); [apply Hq|by apply runs_pure]|].
  intros _. destruct (act_Type a);
    repeat first [solve [auto] | solve [by apply runs_pure] | apply runs_bind; [solve [auto using spares_cloud, spares_conn, spares_GetByID with crane]| |intros ?]].
Qed.

Lemma worker_runs p id now t1 t2 t3 w : Ledger (w_db w) ->
  rtc step (w_db w) (w_db (worker_step (Execute p id now) t1 t2 t3 w)).
Proof.
  intros HL. unfold worker_step. assert (w_db (snd (Next t1 w)) = w_db w) as En.
  { unfold Next. by repeat case_match. }
  destruct (Next t1 w) as [[r|e] w1]; simpl in En; [|rewrite En; apply rtc_refl].
  destruct (Execute p id now (mkAction (ar_HostID r) (ar_Type r)) w1) as [[u|e] w2] eqn:E;
    rewrite <- En in *; exact (Execute_runs p id now _ _ _ _ HL E).
Qed.

(** *** Readiness

    Every managed host that is READY after a step was READY before it. *)
Definition no_new_ready (d d' : DB) : Prop :=
  forall h', In h' (host d') -> managed h' = true -> h_state h' = HostReady ->
    exists h, In h (host d) /\ h_id h = h_id h' /\ h_state h = HostReady.

Lemma no_new_ready_same d d' : host d' = host d -> no_new_ready d d'.
Proof. intros E h Hh _ Hs. exists h. by rewrite <- E. Qed.

Lemma no_new_ready_update d d' p f : host d' = update_where p f (host d) ->
  (forall h, h_id (f h) = h_id h /\ (h_state (f h) = HostReady -> h_state h = HostReady)) -> no_new_ready d d'.
Proof.
  intros E Hf h' Hh' _ Hs. rewrite E in Hh'. apply in_update_where in Hh' as (h & Hh & ->). exists h.
  destruct (p h); [destruct (Hf h) as [-> Hr]|]; auto.
Qed.

Lemma no_new_ready_app d d' l : host d' = host d ++ l -> (forall h, In h l -> managed h = true -> h_state h <> HostReady) ->
  no_new_ready d d'.
Proof. intros E Hl h Hh M Hs. rewrite E in Hh. apply in_app_iff in Hh as [Hh|Hh]; [eauto|by destruct (Hl h Hh M)]. Qed.

(** The hosts of [d'] are rows of [d], some of them cancelled or marked as excess. *)
Definition winnowed (d d' : DB) : Prop :=
  forall h', In h' (host d') -> h_state h' = HostReady -> exists h, In h (host d) /\ h_id h = h_id h' /\ h_state h = HostReady.

Lemma winnowed_cancel e g n d : winnowed d (cancelPending e g n d).
Proof.
  assert (forall t ops x, winnowed d x -> winnowed d (fold_left (fun d op => cancelIntent t op d) ops x)) as Hc.
  { intros t ops. induction ops as [|o ops IH]; intros x Hx; simpl; [done|]. apply IH. intros h' Hh' Hs. simpl in Hh'.
    apply in_update_where in Hh' as (h & Hh & ->). case_match; [done|by apply Hx]. }
  assert (winnowed d d) as Hd by (intros h Hh Hs; eauto).
  unfold cancelPending. case_match; [|by apply Hc]. intros h' Hh' Hs. unfold markExcess in Hh'. simpl in Hh'.
  apply in_update_where in Hh' as (h & Hh & ->). destruct (Hc _ _ _ Hd h Hh) as (x & Hx & Ex & Sx); [by case_match|].
  exists x. split_and!; try done. by case_match.
Qed.

Lemma SetTarget_ready e req d r d' : SetTarget e req d = (r, d') -> no_new_ready d d'.
Proof.
  intros H. destruct r as [r|err]; [|apply SetTarget_err in H as ->; by apply no_new_ready_same].
  apply SetTarget_ok in H as (p & Hp & _ & H). destruct (select_one _ _); [destruct H as (_ & -> & _); by apply no_new_ready_same|].
  destruct H as [_ _ _ _ _ _ (pool & d1 & d2 & d3 & _ & _ & _ & H1 & H2 & H3 & ->)].
  apply insert_request_ok in H1 as [-> _]. apply update_group_ok in H2 as [-> _]. destruct (_ <? 0) eqn:Ed; bsplit.
  - rewrite Z2Nat.nonpos in H3 by lia. simpl in H3. unfold tx_ret in H3. injection H3 as <-.
    intros h' Hh' _ Hs. by destruct (winnowed_cancel _ _ _ _ h' Hh' Hs) as (h & Hh & ?); exists h.
  - apply provisionIntents_shape in H3 as ->. eapply no_new_ready_app; [reflexivity|].
    intros h Hh _. apply in_map_iff in Hh as (k & <- & _). done.
Qed.

Lemma CreateBootstrap_ready e r d res d' : CreateBootstrap e r d = (res, d') -> no_new_ready d d'.
Proof.
  intros H. apply no_new_ready_same. destruct res as [id|err]; [|by apply CreateBootstrap_err in H as ->].
  apply CreateBootstrap_ok in H as (p & _ & _ & H). destruct (bootstrap_request r d) as [[b o]|]; [by destruct H as [-> _]|].
  destruct H as [_ [_ (i & d1 & d2 & Hi & _ & _ & Hs & _ & _ & Ho & Hb)]].
  apply dec_intent_typed in Hi as [Hpt Hgt]. destruct (seed_tx_kept _ _ _ _ Hpt Hgt Hs) as [_ G].
  apply insert_operation_ok in Ho as [-> _]. unfold insert_bootstrap in Hb. inv_ok. simpl.
  pose proof (gw_rest _ _ G) as E. by injection E.
Qed.

Lemma create_ready t d r d' : typed t -> create t d = (r, d') -> no_new_ready d d'.
Proof.
  intros Ht H. destruct (create_kept t d r d' Ht H) as [_ G]. pose proof (gw_rest _ _ G) as E. injection E as E.
  by apply no_new_ready_same.
Qed.

Lemma scheduling_ready id ex rev t l d r d' : UpdateNodeGroupScheduling id ex rev t l d = (r, d') -> no_new_ready d d'.
Proof.
  intros H. apply no_new_ready_same. revert H. unfold UpdateNodeGroupScheduling. destruct l as [j|]; [|by intros [= _ <-]].
  case_match; [by intros [= _ <-]|]. destruct r as [[]|e]; [|by intros [-> _]%run_tx_err].
  rewrite run_tx_ok. intros Hrun. inv_tx. case_bool_decide; by inv_tx.
Qed.

Lemma membership_ready m d r d' : UpdateClusterZone m d = (r, d') -> no_new_ready d d'.
Proof. unfold UpdateClusterZone. destruct (normalizeMembership m); intros [= _ <-]; by apply no_new_ready_same. Qed.

Lemma removals_ready e c req d r d' : CreateAutoscalerRemovals e c req d = (r, d') -> no_new_ready d d'.
Proof.
  intros H. apply no_new_ready_same. destruct r as [r|err]; [|by apply CreateAutoscalerRemovals_err in H as ->].
  apply CreateAutoscalerRemovals_ok in H as (_ & p & Hp & Hcl & H).
  destruct (select_one _ _); [by destruct H as (_ & ->)|]. by destruct (removed_shape _ _ _ _ _ H) as (ids & _ & ->).
Qed.

Lemma CreateRemoval_ready e c rev x d r d' : CreateRemoval e c rev x d = (r, d') -> no_new_ready d d'.
Proof.
  intros H. apply no_new_ready_same. destruct r as [r|err]; [|by apply CreateRemoval_err in H as ->].
  apply CreateRemoval_ok in H as (p & h & d1 & d2 & _ & _ & _ & _ & _ & _ & -> & _ & (o & Ho & _) & (y & Hy & _)).
  apply insert_operation_ok in Ho as [-> _]. by apply insert_removal_ok in Hy as [-> _].
Qed.

Lemma ready_across : across_calls no_new_ready.
Proof.
  split; intros; eauto using create_ready, membership_ready, scheduling_ready, CreateBootstrap_ready, SetTarget_ready,
    removals_ready. by apply no_new_ready_same.
Qed.

Lemma bootstrap_host_ready t op x d r d' : RecordBootstrapHost t op x d = (r, d') -> no_new_ready d d'.
Proof.
  intros [->|[-> _]]%RecordBootstrapHost_inv; [by apply no_new_ready_same|]. unfold upsert_bootstrap_host. case_match.
  - intros h' Hh' _ Hs. simpl in Hh'. apply in_update_where in Hh' as (h & Hh & ->). exists h. by case_match.
  - eapply no_new_ready_app; [reflexivity|]. by intros h [<-|[]].
Qed.

Lemma claim_ready t z k w dur a d r d' : claim t z k w dur a d = (r, d') -> no_new_ready d d'.
Proof.
  intros H. apply no_new_ready_same. destruct r as [op|e]; [|by apply claim_err in H as ->].
  by apply claim_ok in H as (o & _ & _ & _ & ->).
Qed.

Lemma spared_ready d d' : spared d d' -> no_new_ready d d'.
Proof.
  intros S h' Hh' M Hs. destruct (sp_back _ _ S h' Hh') as (h & Hh & (a & b & c & e & ->)); [unfold guarded; by rewrite M, orb_true_r|].
  by exists h.
Qed.

(** A step is a write under a lease, or makes no managed host READY. *)
Lemma step_ready d d' : step d d' -> Ledger d -> (exists t op w r, write t op w d = (r, d')) \/ no_new_ready d d'.
Proof.
  intros H HL. destruct H as [a e order h c r d' Ht H|t z k w dur r d' H|t z k w dur r d' H|t op w r d' H|e c rev x r d' H
    |hid v hb r d' H|t op next v r d' H|t op x r d' H|t op x r d' H|t op x r d' H|t op r d' H|x w r w' <- G H];
    eauto 6 using CreateRemoval_ready, bootstrap_host_ready; right.
  - replace d' with (snd (Handler a e order h c d)) by by rewrite H. by apply (across_handler _ ready_across).
  - unfold Claim in H. case_match; [injection H as _ <-; by apply no_new_ready_same|by eapply claim_ready].
  - unfold ClaimDominator in H. case_match; [injection H as _ <-; by apply no_new_ready_same|by eapply claim_ready].
  - injection H as _ <-. by eapply no_new_ready_update.
  - apply no_new_ready_same. destruct r as [[]|e]; [by apply BootstrapPhase_ok in H as [_ [_ _ _ ? _ _ _ _]]|by apply BootstrapPhase_err in H as ->].
  - apply SetClusterDiscovery_inv in H as [->|(p & -> & _)]; by apply no_new_ready_same.
  - apply SetDominatorRoute_inv in H as [->|(y & -> & _)]; by apply no_new_ready_same.
  - apply ReleaseBootstrapLease_inv in H as [->|(p & -> & _)]; by apply no_new_ready_same.
  - eapply spared_ready, legacy_spared; [apply L_hosts, HL|exact G|exact H].
Qed.

Lemma empty_invariants : invariants empty_db.
Proof. destruct empty_ledger as [HL HT]. split_and!; [done..|]. intros h. unfold rows_affected. simpl. lia. Qed.

(** A fence that was passed stays passed. *)
Lemma overtaken_forever d d' o op t : rtc step d d' -> invariants d -> In o (operations d) ->
  op_ID op = o_id o -> op_Fence op < o_fence o -> holds_lease t op d' = false.
Proof.
  intros Hs I Ho Hid Hlt. destruct (steps_keep _ _ Hs I) as (HL' & _).
  destruct (extends_in _ _ _ _ (hi_ops _ _ (steps_history _ _ Hs I)) Ho) as (o' & Ho' & E & Hf & _).
  apply op_ident_eq in E as [Eid _]. apply exists_row_false. intros x Hx.
  destruct (lease_held t op x) eqn:El; [|done]. apply lease_held_inv in El as (E1 & _ & E3 & _).
  rewrite (unique_key_in o_id _ x o' (L_ops _ HL')) in E3 by (done || congruence). lia.
Qed.

(** ** Theorems *)

(** C1. Safety of the whole control plane.  In every state that any interleaving of API calls,
    claims, lease writes, bootstrap records, removals, heartbeats and statements of the legacy
    plane can reach from an empty catalog, the capacity ledger is consistent and no pool is over-committed, every target is
    inside its group's bounds, and no host has two unfinished removals. *)
Theorem system_invariants d : reachable d ->
  (Ledger d /\ capacity_safe d) /\ targets_ok d /\ removals_exclusive d.
Proof.
  intros H. destruct (steps_keep _ _ H empty_invariants) as (HL & HT & HX). split_and!; try done. apply HL.
Qed.

(** C9. History of operations and hosts.  Whatever happens after a reachable state, the legacy
    plane included, every operation keeps its identity, parameters and provider token, its fence
    never decreases and once it succeeded, failed or was cancelled it never changes; and every host
    that a node group manages or that is protected is still there, with its identity and
    placement, moves only forward along the provisioning lifecycle or is terminated before it
    launched, and never changes a recorded provider instance.  Hosts outside both, which the
    legacy plane drives and may delete, are not part of the claim. *)
Theorem system_history d d' : reachable d -> rtc step d d' ->
  (forall o, In o (operations d) -> exists o', In o' (operations d') /\ op_ident o' = op_ident o /\
      o_fence o <= o_fence o' /\ (settled o = true -> o' = o)) /\
  (forall h, In h (host d) -> guarded h = true -> exists h', In h' (host d') /\ host_place h' = host_place h /\
  rtc host_move (h_state h) (h_state h') /\
  (forall p, h_providerid h = Some p -> p <> "" -> h_providerid h' = Some p)).
Proof.
  intros Hr Hs. destruct (steps_history _ _ Hs (steps_keep _ _ Hr empty_invariants)) as [Ho Hh].
  split; intros x Hx; [apply (extends_in _ _ _ _ Ho Hx)|by apply Hh].
Qed.

(** C7. A worker becomes READY only by finalizing.  Whatever step the system takes from a state
    with a consistent ledger, as every reachable one is (a call of any API, a claim, a write under
    a lease, a bootstrap record, a statement of the legacy plane), if after it a host that a node group manages is READY and
    was not before, the step is the finalizing of the provisioning operation of that host under
    its live lease: its release ran and returned success before the deadline, the host reports the
    version it was asked to reach, and the success of the operation is committed together
    with the state.  Hosts that no node group manages, which the legacy plane drives, are not
    part of the claim. *)
Theorem worker_ready_only_by_finalize d d' h' :
  Ledger d -> step d d' -> In h' (host d') -> managed h' = true -> h_state h' = HostReady ->
  (forall h, In h (host d) -> h_id h = h_id h' -> h_state h <> HostReady) ->
  exists t op t2 cn ce v o, write t op (WFinalize t2 cn ce v (Some (Ok tt))) d = (Ok tt, d') /\
    In o (operations d) /\ o_kind o = Kprovision /\ o_id o = op_ID op /\ lease_held t op o = true /\
    finalizable t op v d o = true /\ o_host_id o = Some (h_id h') /\
    ce < release_deadline cn (default 0 (o_lease_until o)) /\
    h_observed_state_version h' = h_desired_state_version h' /\
    In (clear_lease t2 Osucceeded o) (operations d').
Proof.
  intros HL Hs Hh M R Hnot. destruct (step_ready _ _ Hs HL) as [(t & op & w & r & Hw)|N].
  2: { destruct (N h' Hh M R) as (h & H1 & H2 & H3). by destruct (Hnot h H1 H2). }
  destruct (write_ready_finalizes _ _ _ _ _ _ _ HL Hw Hh R Hnot) as (t2 & cn & ce & v & o & -> & Ho & Hf & Hid & Hd & Hv & Hd').
  exists t, op, t2, cn, ce, v, o. pose proof Hf as Hf'. unfold finalizable in Hf'. bsplit.
  split_and!; try done; [|by apply finalizable_held in Hf].
  destruct r as [[]|e]; [done|]. apply (finalize_err t t2 cn ce op v (Some (Ok tt))) in Hw as ->. by destruct (Hnot h' Hh).
Qed.

(** C2. A controller that was overtaken stays shut out forever.  Once an operation has been
    claimed again, then after any number of further steps of the system and at any time, every
    provisioning write, phase change, discovery or route recorded with an earlier fence is
    refused and changes nothing. *)
Theorem overtaken_controller_shut_out d t z k w dur a op d1 d2 old t' :
  reachable d -> claim t z k w dur a d = (Ok op, d1) -> rtc step d1 d2 ->
  op_ID old = op_ID op -> op_Fence old < op_Fence op ->
  (forall x, exists e, write t' old x d2 = (Err e, d2)) /\
   (forall next v, exists e, BootstrapPhase t' old next v d2 = (Err e, d2)) /\
  (forall r, exists e, SetClusterDiscovery t' old r d2 = (Err e, d2)) /\
  (forall r, exists e, SetDominatorRoute t' old r d2 = (Err e, d2)).
Proof.
  intros Hr Hc Hs Hid Hf. pose proof (steps_keep _ _ Hr empty_invariants) as I.
  pose proof (keeps_claim _ _ _ _ _ _ _ _ _ Hc I) as I1.
  assert (holds_lease t' old d2 = false) as Hno; [|].
  { apply claim_ok in Hc as (o & Ho & _ & -> & ->).
    eapply (overtaken_forever _ _ (claim_row d t dur w o)); [exact Hs|exact I1| |done|done].
    simpl. apply in_update_where. exists o. split; [done|]. by rewrite eq_refl_true. }
  destruct (bootstrap_refused t' old d2 Hno) as (H1 & H2 & H3 & _). split_and!; [intros x; by apply write_refused|done..].
Qed.
End Runs.

(** ** A run

    A bootstrap is submitted, claimed by one controller, and claimed again after its lease
    expired; the first controller then wakes up. *)
#[local] Existing Instance demo_k8s.
#[local] Existing Instance demo_net.
#[local] Existing Instance demo_digest.
#[local] Existing Instance demo_url.

Definition admin_headers : Headers := mkHeaders "Bearer admin-token" "".
Definition sys_submitted : DB :=
  snd (Handler demo_api (env_at "b" 0) [] admin_headers (Admin (PostBootstrap (Some demo_bootstrap_request))) empty_db).
Definition sys_claimed : DB := snd (Claim 1000 "z1" Kcreate_cluster "first" minute sys_submitted).
Definition first_op : Operation :=
  match Claim 1000 "z1" Kcreate_cluster "first" minute sys_submitted with (Ok op, _) => op | (Err _, _) => claimed_op end.
Definition second_claim : result Operation * DB := claim 99000 "z1" Kcreate_cluster "second" minute false sys_claimed.
Definition second_op : Operation := match fst second_claim with Ok op => op | Err _ => claimed_op end.

Lemma sys_claimed_reachable : reachable sys_claimed.
Proof.
  apply (rtc_l _ _ sys_submitted).
  - eapply (step_api _ demo_api (env_at "b" 0) [] admin_headers (Admin (PostBootstrap (Some demo_bootstrap_request))));
      [exact I|apply surjective_pairing].
  - apply rtc_once. eapply (step_claim _ 1000 "z1" Kcreate_cluster "first" minute), surjective_pairing.
Qed.

Lemma system_invariants_witness : length (operations sys_claimed) = 1%nat /\ capacity_safe sys_claimed.
Proof. split; [vm_compute; reflexivity|]. exact (proj2 (proj1 (system_invariants sys_claimed sys_claimed_reachable))). Defined.

Lemma system_history_witness :
  length (operations sys_claimed) = 1%nat /\
  Forall (fun o => exists o', In o' (operations (snd second_claim)) /\ o_fence o <= o_fence o') (operations sys_claimed).
Proof.
  split; [vm_compute; reflexivity|].
  destruct (system_history sys_claimed (snd second_claim) sys_claimed_reachable) as [H _].
  - apply rtc_once. apply (step_claim _ 99000 "z1" Kcreate_cluster "second" minute (fst second_claim)). vm_compute. reflexivity.
  - apply List.Forall_forall. intros o Ho. destruct (H o Ho) as (o' & I1 & _ & I2 & _). exists o'. exact (conj I1 I2).
Defined.

Lemma worker_ready_only_by_finalize_witness :
  exists t op t2 cn ce v o, write t op (WFinalize t2 cn ce v (Some (Ok tt))) db_releasing = (Ok tt, db_ready) /\
    In o (operations db_releasing) /\ o_kind o = Kprovision.
Proof.
  destruct (worker_ready_only_by_finalize db_releasing db_ready (List.nth 1 (host db_ready) demo_spire) db_releasing_ledger)
    as (t & op & t2 & cn & ce & v & o & H1 & H2 & H3 & _).
  - apply (step_write _ 3000 claimed_op demo_finalize (fst (write 3000 claimed_op demo_finalize db_releasing))), surjective_pairing.
  - apply nth_In. vm_compute. lia.
  - vm_compute. reflexivity.
  - vm_compute. reflexivity.
  - assert (exists_row (fun h => h_state h == HostReady) (host db_releasing) = false) as Hn by (vm_compute; reflexivity).
    intros h Hh _ Hr. pose proof (proj1 (exists_row_false _ _) Hn h Hh) as Hb. cbv beta in Hb.
    apply bool_decide_eq_false in Hb. exact (Hb Hr).
  - exists t, op, t2, cn, ce, v, o. exact (conj H1 (conj H2 H3)).
Defined.

Lemma overtaken_controller_shut_out_witness :
  op_Fence first_op < op_Fence second_op /\
  exists e, BootstrapPhase 99001 first_op ZoneInfrastructureProvisioning false (snd second_claim) = (Err e, snd second_claim).
Proof.
  split; [vm_compute; reflexivity|].
  destruct (overtaken_controller_shut_out sys_claimed 99000 "z1" Kcreate_cluster "second" minute false second_op
    (snd second_claim) (snd second_claim) first_op 99001 sys_claimed_reachable) as (_ & H & _).
  - vm_compute. reflexivity.
  - apply rtc_refl.
  - vm_compute. reflexivity.
  - vm_compute. reflexivity.
  - apply H.
Defined.
