(* ===== verification/ProblemCache.v ===== *)
(** * The seen-problem cache of the activity manager

    internal/activitymanager/problemcache: a doubly linked list of nodes between two
    sentinels, least recent first, with a map from key to node.  Nodes live in a store of
    their own, because the code rewires shared pointers; following a nil pointer is a Go
    panic, [None] here.  The theorems relate the pointer structure to the plain list of
    entries it represents, and the class [SeenProblemCache] is what the activity manager
    is entitled to. *)
From S2P Require Import Prelude.

Local Open Scope string_scope.
Local Open Scope list_scope.
Local Open Scope Z_scope.
Local Open Scope crane_scope.

(** ** Nodes and pointers *)
Abbreviation addr := nat (only parsing).

Record Node : Type := mkNode { Key : string; LastSeen : Z; Next : option addr; Prev : option addr }.
Abbreviation NodeStore := (gmap nat Node) (only parsing).

Definition set_Next (v : option addr) (n : Node) : Node := mkNode (Key n) (LastSeen n) v (Prev n).
Definition set_Prev (v : option addr) (n : Node) : Node := mkNode (Key n) (LastSeen n) (Next n) v.

(** [p.f = v], which panics when [p] is nil. *)
Definition write (p : option addr) (f : Node -> Node) (h : NodeStore) : option NodeStore :=
  a ← p; n ← h !! a; Some (<[a := f n]> h).

Arguments write : simpl never.

Record LRCache : Type := mkCache {
  heap : NodeStore; fresh : addr; LR : addr; MR : addr; Capacity : Z; TTL : Z; Cache : gmap string addr }.

Definition set_heap (h : NodeStore) (c : LRCache) : LRCache :=
  mkCache h (fresh c) (LR c) (MR c) (Capacity c) (TTL c) (Cache c).
Definition set_Cache (m : gmap string addr) (c : LRCache) : LRCache :=
  mkCache (heap c) (fresh c) (LR c) (MR c) (Capacity c) (TTL c) m.

(** The zero [time.Time] of the sentinels is irrelevant: their keys and times are never read
    while the structure is well formed. *)
Definition NewCache (capacity ttl : Z) : LRCache :=
  mkCache (<[0%nat := mkNode "" 0 (Some 1%nat) None]> (<[1%nat := mkNode "" 0 None (Some 0%nat)]> ∅)) 2%nat 0%nat 1%nat capacity ttl ∅.

Definition removeNode (a : addr) (c : LRCache) : option LRCache :=
  n ← heap c !! a;
  h1 ← write (Prev n) (set_Next (Next n)) (heap c);
  h2 ← write (Next n) (set_Prev (Prev n)) h1;
  Some (set_Cache (delete (Key n) (Cache c)) (set_heap h2 c)).

Definition addMR (key : string) (now : Z) (c : LRCache) : option LRCache :=
  let a := fresh c in
  mr ← heap c !! MR c;
  let h0 := <[a := mkNode key now None None]> (heap c) in
  h1 ← write (Prev mr) (set_Next (Some a)) h0;
  h2 ← write (Some a) (set_Next (Some (MR c))) h1;
  h3 ← write (Some a) (set_Prev (Prev mr)) h2;
  h4 ← write (Some (MR c)) (set_Prev (Some a)) h3;
  Some (mkCache h4 (S a) (LR c) (MR c) (Capacity c) (TTL c) (<[key := a]> (Cache c))).

(** [now1] and [now2] are the clock at the two possible insertions. *)
Definition Record_ (key : string) (now1 now2 : Z) (c : LRCache) : option LRCache :=
  c1 ← (match Cache c !! key with
        | Some a => c' ← removeNode a c; addMR key now1 c'
        | None => Some c
        end);
  c2 ← (if Capacity c1 == Z.of_nat (size (Cache c1))
        then lr ← heap c1 !! LR c1; a ← Next lr; removeNode a c1
        else Some c1);
  addMR key now2 c2.

Definition SeenRecently (key : string) (now : Z) (c : LRCache) : option (bool * LRCache) :=
  match Cache c !! key with
  | Some a => c1 ← removeNode a c; c2 ← addMR key now c1; Some (true, c2)
  | None => Some (false, c)
  end.

(** The walk from the least recent node; one unit of fuel per node it removes, and [fresh c]
    bounds the nodes that were ever allocated. *)
Fixpoint expire (fuel : nat) (cutoff : Z) (current : addr) (c : LRCache) : option LRCache :=
  if current == MR c then Some c
  else
    n ← heap c !! current;
    if LastSeen n <? cutoff
    then match fuel with
         | O => None
         | S fuel => c' ← removeNode current c; next ← Next n; expire fuel cutoff next c'
         end
    else Some c.

Definition PeriodicRun (now : Z) (c : LRCache) : option LRCache :=
  lr ← heap c !! LR c;
  first ← Next lr;
  expire (fresh c) (now - TTL c) first c.

(** ** The list a well-formed structure represents *)

(** Neighbours point at each other. *)
Fixpoint linked (h : NodeStore) (l : list addr) : Prop :=
  match l with
  | x :: r =>
      match r with
      | y :: _ => (exists n, h !! x = Some n /\ Next n = Some y) /\ (exists n, h !! y = Some n /\ Prev n = Some x) /\ linked h r
      | [] => exists n, h !! x = Some n
      end
  | [] => True
  end.

Definition entry (h : NodeStore) (a : addr) : option (string * Z) := (fun n => (Key n, LastSeen n)) <$> h !! a.

Record shape (c : LRCache) (as_ : list addr) : Prop := mkShape {
  sh_linked : linked (heap c) (LR c :: as_ ++ [MR c]);
  sh_nodup : NoDup (LR c :: as_ ++ [MR c]);
  sh_fresh : forall a n, heap c !! a = Some n -> (a < fresh c)%nat;
  sh_index : forall k a, Cache c !! k = Some a <-> In a as_ /\ exists t, entry (heap c) a = Some (k, t) }.

(** The cache represents the entries [l], least recent first. *)
Definition represents (c : LRCache) (l : list (string * Z)) : Prop :=
  exists as_, shape c as_ /\ Forall2 (fun a e => entry (heap c) a = Some e) as_ l.

(** ** Linked segments *)
Lemma linked_frame h h' l : (forall a, In a l -> h' !! a = h !! a) -> linked h l -> linked h' l.
Proof.
  induction l as [|x [|y r] IH]; intros F H; [done|..].
  - destruct H as [n Hn]. exists n. by rewrite F by (left; done).
  - destruct H as [(n & Hn & En) [(m & Hm & Em) H]]. split_and!.
    + exists n. by rewrite F by (left; done).
    + exists m. by rewrite F by (right; left; done).
    + apply IH; [|done]. intros a Ha. apply F. by right.
Qed.

Lemma linked_app h l x r : linked h (l ++ x :: r) <-> linked h (l ++ [x]) /\ linked h (x :: r).
Proof.
  induction l as [|y [|z l] IH]; simpl in *.
  - destruct r as [|w r]; [tauto|]. split; [|tauto]. intros H. split; [|done]. destruct H as [(n & Hn & _) _]. eauto.
  - destruct r as [|w r]; [|naive_solver]. split; [|naive_solver]. intros H. split; [done|]. naive_solver.
  - rewrite IH. tauto.
Qed.

Lemma linked_in h l x : linked h l -> In x l -> is_Some (h !! x).
Proof.
  intros H Hx. apply in_split in Hx as (l1 & l2 & ->). apply linked_app in H as [_ H].
  destruct l2 as [|y l2]; simpl in H; naive_solver.
Qed.

Lemma linked_set_next h l x n v : linked h (l ++ [x]) -> ~ In x l -> h !! x = Some n ->
  linked (<[x := set_Next v n]> h) (l ++ [x]).
Proof.
  induction l as [|y [|z l] IH]; intros H Hx Hn; simpl in *.
  - exists (set_Next v n). by rewrite lookup_insert_eq.
  - destruct H as [(m & Hm & Em) [(k & Hk & Ek) _]]. rewrite Hn in Hk. injection Hk as <-. split_and!.
    + exists m. rewrite lookup_insert_ne by (intros ->; tauto). done.
    + exists (set_Next v n). by rewrite lookup_insert_eq.
    + exists (set_Next v n). by rewrite lookup_insert_eq.
  - destruct H as [(m & Hm & Em) [(k & Hk & Ek) H]]. split_and!.
    + exists m. rewrite lookup_insert_ne by (intros ->; tauto). done.
    + exists k. rewrite lookup_insert_ne by (intros ->; tauto). done.
    + apply IH; [done|tauto|done].
Qed.

Lemma linked_set_prev h l x n v : linked h (x :: l) -> ~ In x l -> h !! x = Some n ->
  linked (<[x := set_Prev v n]> h) (x :: l).
Proof.
  intros H Hx Hn. destruct l as [|y l]; simpl in *.
  - exists (set_Prev v n). by rewrite lookup_insert_eq.
  - destruct H as [(m & Hm & Em) [(k & Hk & Ek) H]]. rewrite Hn in Hm. injection Hm as <-. split_and!.
    + exists (set_Prev v n). by rewrite lookup_insert_eq.
    + exists k. rewrite lookup_insert_ne by (intros ->; tauto). done.
    + change (linked (<[x := set_Prev v n]> h) (y :: l)). eapply linked_frame; [|exact H].
      intros a Ha. apply lookup_insert_ne. intros ->. apply Hx. exact Ha.
Qed.

(** Rewiring changes neither keys nor times, and allocates nothing. *)
Definition same_entries (h h' : NodeStore) : Prop := forall a, entry h' a = entry h a.

Lemma same_entries_insert h x n f : h !! x = Some n -> (forall m, Key (f m) = Key m /\ LastSeen (f m) = LastSeen m) ->
  same_entries h (<[x := f n]> h).
Proof.
  intros Hx Hf a. unfold entry. destruct (decide (x = a)) as [->|Hne].
  - rewrite lookup_insert_eq, Hx. simpl. destruct (Hf n) as [-> ->]. done.
  - by rewrite lookup_insert_ne.
Qed.

Lemma same_entries_trans h1 h2 h3 : same_entries h1 h2 -> same_entries h2 h3 -> same_entries h1 h3.
Proof. intros H1 H2 a. by rewrite H2. Qed.

Lemma same_entries_some h h' a n : same_entries h h' -> h' !! a = Some n -> exists n', h !! a = Some n'.
Proof. intros H Hn. specialize (H a). unfold entry in H. rewrite Hn in H. destruct (h !! a); [eauto|done]. Qed.

(** Taking a node out of the chain. *)
Lemma unlink h P p a q Q n : linked h (P ++ p :: a :: q :: Q) -> NoDup (P ++ p :: a :: q :: Q) -> h !! a = Some n ->
  Prev n = Some p /\ Next n = Some q /\
  exists h1 h2, write (Prev n) (set_Next (Next n)) h = Some h1 /\ write (Next n) (set_Prev (Prev n)) h1 = Some h2 /\
    linked h2 (P ++ p :: q :: Q) /\ same_entries h h2.
Proof.
  intros H ND Ha. apply linked_app in H as [H1 H2]. simpl in H2.
  destruct H2 as [(np & Hp & _) [(na & Ha' & Ea) [(na' & Ha'' & En) [(nq & Hq & _) H2]]]].
  rewrite Ha in Ha', Ha''. injection Ha' as <-. injection Ha'' as <-.
  split; [done|]. split; [done|]. rewrite Ea, En.
  assert (~ In p P /\ ~ In q P /\ p <> q /\ ~ In q Q /\ ~ In p Q) as (D1 & D2 & D3 & D4 & D5).
  { apply NoDup_app in ND as (ND1 & ND2 & ND3). apply NoDup_cons in ND3 as [N1 ND3]. apply NoDup_cons in ND3 as [N2 ND3].
    apply NoDup_cons in ND3 as [N3 ND3]. setoid_rewrite list_elem_of_In in ND2.
    rewrite !list_elem_of_In in *. simpl in *. split_and!; naive_solver. }
  assert (<[p := set_Next (Some q) np]> h !! q = Some nq) as Hq' by by rewrite lookup_insert_ne.
  exists (<[p := set_Next (Some q) np]> h), (<[q := set_Prev (Some p) nq]> (<[p := set_Next (Some q) np]> h)). split_and!.
  - unfold write. simpl. by rewrite Hp.
  - unfold write. simpl. by rewrite Hq'.
  - apply linked_app. split.
    + eapply linked_frame; [|eapply linked_set_next; [exact H1|exact D1|exact Hp]].
      intros x Hx. apply lookup_insert_ne. intros <-. apply in_app_iff in Hx as [Hx|[Hx|[]]]; congruence.
    + simpl. split_and!.
      * exists (set_Next (Some q) np). rewrite lookup_insert_ne by congruence. by rewrite lookup_insert_eq.
      * exists (set_Prev (Some p) nq). by rewrite lookup_insert_eq.
      * apply linked_set_prev; [|done|done]. eapply linked_frame; [|exact H2].
        intros x Hx. apply lookup_insert_ne. intros <-. destruct Hx as [Hx|Hx]; congruence.
  - eapply same_entries_trans; apply same_entries_insert; done.
Qed.

(** ** The two primitive updates *)
Definition same_config (c c' : LRCache) : Prop := Capacity c' = Capacity c /\ TTL c' = TTL c /\ MR c' = MR c.

Lemma same_config_trans c1 c2 c3 : same_config c1 c2 -> same_config c2 c3 -> same_config c1 c3.
Proof. unfold same_config. intros (A & B & C) (D & E & F). split_and!; congruence. Qed.

Lemma ends_split {A} (x : A) l : exists P p, x :: l = P ++ [p].
Proof. destruct (exists_last (l := x :: l)) as (P & p & E); [done|]. eauto. Qed.

Lemma shape_nodup c as_ : shape c as_ -> NoDup as_.
Proof. intros H. pose proof (sh_nodup _ _ H) as N. apply NoDup_cons in N as [_ N]. by apply NoDup_app in N as (? & _). Qed.

(** Two nodes of the chain never carry the same key. *)
Lemma shape_key_unique c as_ a b k t u : shape c as_ -> In a as_ -> In b as_ ->
  entry (heap c) a = Some (k, t) -> entry (heap c) b = Some (k, u) -> a = b.
Proof.
  intros H Ha Hb Ea Eb.
  assert (Cache c !! k = Some a) as H1 by (apply (sh_index _ _ H); eauto).
  assert (Cache c !! k = Some b) as H2 by (apply (sh_index _ _ H); eauto). congruence.
Qed.

Lemma remaining_index c s1 a s2 k t : shape c (s1 ++ a :: s2) -> entry (heap c) a = Some (k, t) ->
  forall k' x, delete k (Cache c) !! k' = Some x <-> In x (s1 ++ s2) /\ exists u, entry (heap c) x = Some (k', u).
Proof.
  intros H Ea k' x. pose proof (shape_nodup _ _ H) as ND. apply NoDup_app in ND as (_ & N2 & N3).
  apply NoDup_cons in N3 as [N3 _]. rewrite list_elem_of_In in N3.
  assert (~ In a (s1 ++ s2)) as Hna.
  { rewrite in_app_iff. intros [Hin|Hin]; [|done]. apply list_elem_of_In in Hin. apply (N2 a Hin). left. }
  assert (forall y, In y (s1 ++ s2) -> In y (s1 ++ a :: s2)) as Hsub by (intros y; rewrite !in_app_iff; simpl; tauto).
  destruct (decide (k = k')) as [<-|Hne].
  - rewrite lookup_delete_eq. split; [done|]. intros (Hin & u & Ex). exfalso. apply Hna.
    rewrite (shape_key_unique _ _ a x k t u H); auto. apply in_app_iff. simpl. auto.
  - rewrite lookup_delete_ne by done. rewrite (sh_index _ _ H). split; intros (Hin & u & Ex); (split; [|eauto]); [|auto].
    rewrite in_app_iff in *. simpl in Hin. destruct Hin as [|[->|]]; auto. congruence.
Qed.

Lemma removeNode_shape c s1 a s2 k t : shape c (s1 ++ a :: s2) -> entry (heap c) a = Some (k, t) ->
  exists c' n, heap c !! a = Some n /\ Next n = Some (hd (MR c) (s2 ++ [MR c])) /\
    removeNode a c = Some c' /\ shape c' (s1 ++ s2) /\ same_entries (heap c) (heap c') /\ same_config c c' /\ LR c' = LR c.
Proof.
  intros [Hl0 Hnd0 Hf Hi] Ek0. pose proof Ek0 as Ek. unfold entry in Ek. destruct (heap c !! a) as [n|] eqn:Ha; [|done].
  pose proof Hl0 as Hl. pose proof Hnd0 as Hnd.
  simpl in Ek. injection Ek as Ek Et.
  destruct (ends_split (LR c) s1) as (P & p & EP). destruct (s2 ++ [MR c]) as [|q Q] eqn:EQ; [by destruct s2|].
  assert (LR c :: (s1 ++ a :: s2) ++ [MR c] = P ++ p :: a :: q :: Q) as E.
  { rewrite <- app_assoc. simpl. rewrite EQ, app_comm_cons, EP, <- app_assoc. done. }
  assert (LR c :: (s1 ++ s2) ++ [MR c] = P ++ p :: q :: Q) as E'.
  { rewrite <- app_assoc, EQ, app_comm_cons, EP, <- app_assoc. done. }
  rewrite E in Hl, Hnd. destruct (unlink _ _ _ _ _ _ _ Hl Hnd Ha) as (Ep & Eq & h1 & h2 & W1 & W2 & Hl2 & HS).
  exists (set_Cache (delete (Key n) (Cache c)) (set_heap h2 c)), n. split; [done|]. split; [done|]. split.
  { unfold removeNode. rewrite Ha. simpl. rewrite W1. simpl. by rewrite W2. }
  split_and!; [|done..]. split.
  - change (linked h2 (LR c :: (s1 ++ s2) ++ [MR c])). by rewrite E'.
  - change (NoDup (LR c :: (s1 ++ s2) ++ [MR c])). rewrite E'. apply NoDup_app in Hnd as (N1 & N2 & N3). apply NoDup_app. split_and!; [done| |].
    + intros x Hx. specialize (N2 x Hx). rewrite !not_elem_of_cons in *. naive_solver.
    + apply NoDup_cons in N3 as [N3 N4]. apply NoDup_cons in N4 as [N4 N5]. apply NoDup_cons. split; [|done].
      rewrite !not_elem_of_cons in *. naive_solver.
  - intros x m Hx. destruct (same_entries_some _ _ _ _ HS Hx) as [m' Hm']. by eapply Hf.
  - intros k' x. simpl. rewrite (HS x), Ek. by apply (remaining_index c s1 a s2 k t (mkShape _ _ Hl0 Hnd0 Hf Hi)).
Qed.

Lemma write_some a n f h : h !! a = Some n -> write (Some a) f h = Some (<[a := f n]> h).
Proof. intros H. unfold write. simpl. by rewrite H. Qed.

(** Putting a new node in front of the last sentinel. *)
Lemma append_node h P p z a key now : linked h (P ++ [p; z]) -> NoDup (P ++ [p; z]) -> h !! a = None ->
  exists mr h1 h2 h3 h4, h !! z = Some mr /\
    write (Prev mr) (set_Next (Some a)) (<[a := mkNode key now None None]> h) = Some h1 /\
    write (Some a) (set_Next (Some z)) h1 = Some h2 /\ write (Some a) (set_Prev (Prev mr)) h2 = Some h3 /\
    write (Some z) (set_Prev (Some a)) h3 = Some h4 /\
    linked h4 (P ++ [p; a; z]) /\ (forall x, x <> a -> entry h4 x = entry h x) /\ entry h4 a = Some (key, now).
Proof.
  intros Hl Hnd Hfr. pose proof Hl as Hl'. apply linked_app in Hl as [Hl1 Hl2].
  destruct Hl2 as [(np & Hp & Enp) [(mr & Hmr & Emr) _]].
  assert (a <> p /\ a <> z /\ p <> z /\ ~ In p P /\ ~ In z P) as (D1 & D2 & D3 & D4 & D5).
  { apply NoDup_app in Hnd as (_ & N2 & N3). apply NoDup_cons in N3 as [N3 _]. rewrite !list_elem_of_In in *.
    setoid_rewrite list_elem_of_In in N2. simpl in *. split_and!; [congruence..|naive_solver|naive_solver|naive_solver]. }
  set (h1 := <[p := set_Next (Some a) np]> (<[a := mkNode key now None None]> h)).
  set (h4 := <[z := set_Prev (Some a) mr]> (<[a := mkNode key now (Some z) (Some p)]> h1)).
  exists mr, h1, (<[a := mkNode key now (Some z) None]> h1), (<[a := mkNode key now (Some z) (Some p)]> h1), h4.
  rewrite Emr. split_and!; [done|..].
  - apply write_some. by rewrite lookup_insert_ne.
  - apply (write_some a (mkNode key now None None)). unfold h1. rewrite lookup_insert_ne by congruence. apply lookup_insert_eq.
  - rewrite (write_some a (mkNode key now (Some z) None)) by apply lookup_insert_eq. by rewrite insert_insert_eq.
  - apply write_some. rewrite lookup_insert_ne by congruence. unfold h1. by rewrite !lookup_insert_ne by congruence.
  - apply (linked_app h4 P p). split.
    + eapply linked_frame; [|eapply (linked_set_next _ _ p np (Some a)); [exact Hl1|exact D4|exact Hp]].
      intros x Hx. assert (x <> a /\ x <> z) as [Dx1 Dx2].
      { split; intros ->; [|apply in_app_iff in Hx as [Hx|[Hx|[]]]; congruence].
        destruct (linked_in _ _ _ Hl1 Hx). congruence. }
      unfold h4, h1. rewrite !(lookup_insert_ne _ _ x) by congruence. destruct (decide (x = p)) as [->|].
      * by rewrite !lookup_insert_eq.
      * by rewrite !lookup_insert_ne by congruence.
    + simpl. unfold h4, h1. split_and!; eexists; (split || idtac).
      all: rewrite ?lookup_insert_eq; rewrite ?(lookup_insert_ne _ z) by congruence.
      all: rewrite ?lookup_insert_eq; rewrite ?(lookup_insert_ne _ a) by congruence; rewrite ?lookup_insert_eq; done.
  - intros x Hx. unfold entry, h4, h1. destruct (decide (x = z)) as [->|Hxm]; [by rewrite lookup_insert_eq, Hmr|].
    rewrite !(lookup_insert_ne _ _ x) by congruence. destruct (decide (x = p)) as [->|Hxp].
    + by rewrite lookup_insert_eq, Hp.
    + by rewrite !lookup_insert_ne by congruence.
  - unfold entry, h4. rewrite lookup_insert_ne by congruence. by rewrite lookup_insert_eq.
Qed.

Lemma addMR_shape c as_ key now : shape c as_ -> Cache c !! key = None ->
  exists c', addMR key now c = Some c' /\ shape c' (as_ ++ [fresh c]) /\
    (forall a, In a as_ -> entry (heap c') a = entry (heap c) a) /\
    entry (heap c') (fresh c) = Some (key, now) /\ same_config c c' /\ LR c' = LR c.
Proof.
  intros H Hkey. pose proof H as [Hl Hnd Hf Hi]. destruct (ends_split (LR c) as_) as (P & p & EP).
  assert (LR c :: as_ ++ [MR c] = P ++ [p; MR c]) as E by by rewrite app_comm_cons, EP, <- app_assoc.
  assert (LR c :: (as_ ++ [fresh c]) ++ [MR c] = P ++ [p; fresh c; MR c]) as E' by by rewrite !app_comm_cons, EP, <- !app_assoc.
  assert (heap c !! fresh c = None) as Hfr.
  { destruct (heap c !! fresh c) as [n|] eqn:Ea; [|done]. apply Hf in Ea. lia. }
  assert (forall x, In x (LR c :: as_ ++ [MR c]) -> x <> fresh c) as Hne.
  { intros x Hx ->. destruct (linked_in _ _ _ Hl Hx). congruence. }
  pose proof Hl as Hl0. pose proof Hnd as Hnd0. rewrite E in Hl, Hnd.
  destruct (append_node _ _ _ _ _ key now Hl Hnd Hfr) as (mr & h1 & h2 & h3 & h4 & Hmr & W1 & W2 & W3 & W4 & Hl4 & Hent & Hnew).
  exists (mkCache h4 (S (fresh c)) (LR c) (MR c) (Capacity c) (TTL c) (<[key := fresh c]> (Cache c))). split.
  { unfold addMR. rewrite Hmr. simpl. rewrite W1. simpl. rewrite W2. simpl. rewrite W3. simpl. by rewrite W4. }
  assert (forall x, In x as_ -> x <> fresh c) as Hne' by (intros x Hx; apply Hne; right; apply in_app_iff; auto).
  split_and!; [|intros x Hx; by apply Hent, Hne'|done..]. split.
  - change (linked h4 (LR c :: (as_ ++ [fresh c]) ++ [MR c])). by rewrite E'.
  - change (NoDup (LR c :: (as_ ++ [fresh c]) ++ [MR c])).
    rewrite <- app_assoc. change (NoDup ((LR c :: as_) ++ fresh c :: [MR c])).
    rewrite <- Permutation_middle. apply NoDup_cons. split; [|exact Hnd0].
    rewrite list_elem_of_In. intros Hx. by apply (Hne _ Hx).
  - intros x n Hx. simpl in *. destruct (decide (x = fresh c)) as [->|Hx']; [lia|]. specialize (Hent x Hx').
    unfold entry in Hent. rewrite Hx in Hent. destruct (heap c !! x) as [m|] eqn:Em; [|done]. apply Hf in Em. lia.
  - intros k x. simpl. rewrite in_app_iff. simpl. destruct (decide (k = key)) as [->|Hk].
    + rewrite lookup_insert_eq. split; [intros [= <-]; eauto|]. intros ([Hx|[->|[]]] & t & Et); [|done]. exfalso.
      rewrite Hent in Et by auto. assert (Cache c !! key = Some x) by (apply Hi; eauto). congruence.
    + rewrite lookup_insert_ne by done. rewrite Hi. split.
      * intros [Hx Et]. split; [auto|]. by rewrite Hent by auto.
      * intros ([Hx|[<-|[]]] & t & Et); [|simpl in Hnew; congruence]. rewrite Hent in Et by auto. eauto.
Qed.

(** ** The cache as a list of entries *)

(** The specification: entries least recent first, at most one per key. *)
Definition keys (l : list (string * Z)) : list string := map fst l.
Definition forget (k : string) (l : list (string * Z)) : list (string * Z) := List.filter (fun e => fst e != k) l.
Fixpoint drop_expired (cutoff : Z) (l : list (string * Z)) : list (string * Z) :=
  match l with
  | e :: r => if snd e <? cutoff then drop_expired cutoff r else l
  | [] => []
  end.
Definition make_room (capacity : Z) (l : list (string * Z)) : list (string * Z) :=
  if capacity == Z.of_nat (length l) then tl l else l.

Lemma Forall2_entry_in h as_ l k t : Forall2 (fun a e => entry h a = Some e) as_ l -> In (k, t) l ->
  exists a, In a as_ /\ entry h a = Some (k, t).
Proof. induction 1; simpl; [done|]. intros [->|Hin]; naive_solver. Qed.

Lemma Forall2_entry_key h as_ l a k t : Forall2 (fun a e => entry h a = Some e) as_ l -> In a as_ ->
  entry h a = Some (k, t) -> In (k, t) l.
Proof. induction 1; simpl; [done|]. intros [->|Hin] E; [left; congruence|right; auto]. Qed.

Lemma represents_lookup c l k : represents c l -> is_Some (Cache c !! k) <-> In k (keys l).
Proof.
  intros (as_ & H & F). unfold keys. rewrite in_map_iff. split.
  - intros [a Ha]. apply (sh_index _ _ H) in Ha as (Ha & t & Et). exists (k, t). split; [done|]. by eapply Forall2_entry_key.
  - intros ([k' t] & <- & Hin). destruct (Forall2_entry_in _ _ _ _ _ F Hin) as (a & Ha & Ea). exists a.
    apply (sh_index _ _ H). eauto.
Qed.

Lemma represents_keys c l : represents c l -> List.NoDup (keys l).
Proof.
  intros (as_ & H & F). pose proof (shape_nodup _ _ H) as ND.
  assert (forall a b k t u, In a as_ -> In b as_ -> entry (heap c) a = Some (k, t) -> entry (heap c) b = Some (k, u) -> a = b) as U
    by (intros *; by apply (shape_key_unique c as_)).
  clear H. induction F as [|a [k t] as_ l Ea F IH]; [constructor|]. apply NoDup_cons in ND as [Na ND]. simpl. constructor.
  - intros Hk. unfold keys in Hk. apply in_map_iff in Hk as ([k' u] & E & Hin). simpl in E. subst k'.
    destruct (Forall2_entry_in _ _ _ _ _ F Hin) as (b & Hb & Eb). apply Na. apply list_elem_of_In.
    rewrite (U a b k t u); simpl; auto.
  - apply IH; [done|]. intros x y k' t' u' Hx Hy. apply U; by right.
Qed.

Lemma represents_size c l : represents c l -> size (Cache c) = length l.
Proof.
  intros H. assert (dom (Cache c) = list_to_set (C := gset string) (keys l)) as E.
  { apply set_eq. intros k. rewrite elem_of_dom, elem_of_list_to_set, list_elem_of_In. by apply represents_lookup. }
  rewrite <- size_dom, E, size_list_to_set; [unfold keys; apply length_map|]. apply NoDup_ListNoDup. by eapply represents_keys.
Qed.

Lemma represents_new capacity ttl : represents (NewCache capacity ttl) [].
Proof.
  exists []. split; [|constructor]. split.
  - split_and!; by eexists.
  - apply (NoDup_ListNoDup [0%nat; 1%nat]). repeat constructor; simpl; intuition lia.
  - intros a n Ha. unfold NewCache in *. simpl in *. destruct a as [|[|a]]; [lia..|]. by rewrite !lookup_insert_ne in Ha by lia.
  - intros k a. simpl. split; [done|]. by intros [[] _].
Qed.

Lemma represents_remove c l1 k t l2 : represents c (l1 ++ (k, t) :: l2) ->
  exists a c', Cache c !! k = Some a /\ removeNode a c = Some c' /\ represents c' (l1 ++ l2) /\ same_config c c'.
Proof.
  intros (as_ & H & F). apply Forall2_app_inv_r in F as (s1 & s2' & F1 & F2 & ->). inversion F2 as [|a ? s2 ? Ea F3]; subst.
  destruct (removeNode_shape _ _ _ _ _ _ H Ea) as (c' & n & _ & _ & E & H' & HS & HC & _). exists a, c'. split_and!; try done.
  - apply (sh_index _ _ H). split; [apply in_app_iff; simpl; auto|eauto].
  - exists (s1 ++ s2). split; [done|]. apply Forall2_app; (eapply Forall2_impl; [eassumption|]); intros x e Hx; by rewrite HS.
Qed.

Lemma represents_add c l k now : represents c l -> ~ In k (keys l) ->
  exists c', addMR k now c = Some c' /\ represents c' (l ++ [(k, now)]) /\ same_config c c'.
Proof.
  intros R Hk. pose proof R as (as_ & H & F).
  destruct (addMR_shape c as_ k now H) as (c' & E & H' & Hent & Hnew & HC & _).
  { apply eq_None_not_Some. by rewrite represents_lookup. }
  exists c'. split_and!; try done. exists (as_ ++ [fresh c]). split; [done|]. apply Forall2_app; [|by repeat constructor].
  clear H H' R. induction F as [|a e as_ l Ea F IH]; constructor; [rewrite Hent; simpl; auto|].
  apply IH; [intros X; apply Hk; by right|]. intros x Hx. apply Hent. by right.
Qed.

Lemma forget_split k t l1 l2 : List.NoDup (keys (l1 ++ (k, t) :: l2)) -> forget k (l1 ++ (k, t) :: l2) = l1 ++ l2.
Proof.
  unfold keys, forget. rewrite map_app. simpl. intros ND. apply NoDup_remove_2 in ND. rewrite in_app_iff, !in_map_iff in ND.
  assert (forall l : list (string * Z), (forall e, In e l -> fst e <> k) -> List.filter (fun e => fst e != k) l = l) as Hid.
  { induction l as [|e l IH]; intros He; simpl; [done|]. rewrite (bool_decide_false (fst e = k)) by (apply He; by left). simpl. f_equal. auto with datatypes. }
  rewrite List.filter_app. simpl. rewrite eq_refl_true. simpl. rewrite !Hid; [done|..]; intros e He Ek; apply ND; eauto.
Qed.

(** ** The operations refine the list *)
Lemma seen_refines c l k now : represents c l ->
  exists c', SeenRecently k now c = Some (one_of k (keys l), c') /\ same_config c c' /\
    represents c' (if one_of k (keys l) then forget k l ++ [(k, now)] else l).
Proof.
  intros R. unfold SeenRecently. destruct (one_of k (keys l)) eqn:E.
  - apply one_of_spec in E. unfold keys in E. apply in_map_iff in E as ([k' t] & Ek & Hin). simpl in Ek. subst k'.
    apply in_split in Hin as (l1 & l2 & ->). pose proof (represents_keys _ _ R) as ND.
    destruct (represents_remove _ _ _ _ _ R) as (a & c1 & Ea & E1 & R1 & C1). rewrite Ea, E1. simpl.
    destruct (represents_add c1 (l1 ++ l2) k now R1) as (c2 & E2 & R2 & C2).
    { unfold keys in *. rewrite map_app in *. by apply NoDup_remove_2 in ND. }
    rewrite E2. exists c2. split_and!; [done| |by rewrite forget_split].
    by eapply same_config_trans.
  - assert (Cache c !! k = None) as ->; [|by exists c].
    apply eq_None_not_Some. rewrite represents_lookup by done. intros Hk. apply one_of_spec in Hk. congruence.
Qed.

Lemma record_refines c l k now1 now2 : represents c l -> ~ In k (keys l) -> 0 < Capacity c -> Z.of_nat (length l) <= Capacity c ->
  exists c', Record_ k now1 now2 c = Some c' /\ same_config c c' /\ represents c' (make_room (Capacity c) l ++ [(k, now2)]).
Proof.
  intros R Hk Hc Hlen. unfold Record_. assert (Cache c !! k = None) as ->.
  { apply eq_None_not_Some. by rewrite represents_lookup. }
  simpl. rewrite (represents_size _ _ R). unfold make_room. case_bool_decide as Hfull; simpl.
  - destruct l as [|[k1 t1] l]; [simpl in Hfull; lia|]. simpl.
    pose proof R as (as_ & H & F). inversion F as [|a ? s2 ? Ea F2]; subst.
    destruct (sh_linked _ _ H) as [(n & Hn & En) _]. rewrite Hn. simpl in En |- *. rewrite En. simpl.
    destruct (represents_remove c [] k1 t1 l R) as (a' & c1 & Ea' & E1 & R1 & C1).
    assert (a' = a) as -> by (apply (sh_index _ _ H) in Ea' as (Hin' & u & Eu); symmetry;
      eapply (shape_key_unique c (a :: s2)); eauto; by left).
    rewrite E1. simpl. destruct (represents_add c1 l k now2 R1) as (c2 & E2 & R2 & C2); [intros X; apply Hk; by right|].
    exists c2. split_and!; [done|by eapply same_config_trans|done].
  - destruct (represents_add c l k now2 R Hk) as (c2 & E2 & R2 & C2). eauto.
Qed.

Lemma expire_refines fuel cutoff as_ l c : shape c as_ -> Forall2 (fun a e => entry (heap c) a = Some e) as_ l ->
  (length as_ <= fuel)%nat ->
  exists c', expire fuel cutoff (hd (MR c) as_) c = Some c' /\ same_config c c' /\ represents c' (drop_expired cutoff l).
Proof.
  revert as_ l c. induction fuel as [|fuel IH]; intros as_ l c H F Hf.
  { destruct as_; [|simpl in Hf; lia]. inversion F; subst. simpl. rewrite eq_refl_true. exists c. split_and!; [done..|].
    exists []. by split. }
  destruct F as [|a [k t] as_ l Ea F]; simpl.
  { rewrite eq_refl_true. exists c. split_and!; [done..|]. exists []. by split. }
  assert (a <> MR c) as Hne.
  { intros ->. pose proof (sh_nodup _ _ H) as ND. apply NoDup_cons in ND as [_ ND]. simpl in ND. apply NoDup_cons in ND as [ND _].
    apply ND. apply list_elem_of_In, in_app_iff. simpl. auto. }
  rewrite (bool_decide_false (a = MR c)) by done.
  destruct (removeNode_shape c [] a as_ k t H Ea) as (c1 & n & Hn & En & E1 & H1 & HS & HC & _).
  unfold entry in Ea. rewrite Hn in *. simpl in Ea |- *. injection Ea as Ek Et. rewrite Et.
  destruct (t <? cutoff) eqn:Ec.
  - rewrite E1, En. simpl. destruct (IH as_ l c1 H1) as (c2 & E2 & C2 & R2).
    { eapply Forall2_impl; [exact F|]. intros x e Hx. by rewrite HS. }
    { simpl in Hf. lia. }
    destruct HC as (HC1 & HC2 & HC3). rewrite HC3 in E2. exists c2. split_and!; [by destruct as_|by eapply same_config_trans|done].
  - exists c. split_and!; [done..|]. exists (a :: as_). split; [done|]. constructor; [|done]. unfold entry. rewrite Hn. simpl. congruence.
Qed.

Lemma shape_length c as_ : shape c as_ -> (length as_ <= fresh c)%nat.
Proof.
  intros H. rewrite <- (length_seq (fresh c) 0). apply NoDup_incl_length; [apply NoDup_ListNoDup; by eapply shape_nodup|].
  intros a Ha. apply in_seq. split; [lia|]. destruct (linked_in _ _ a (sh_linked _ _ H)) as [n Hn].
  - right. apply in_app_iff. by left.
  - by apply (sh_fresh _ _ H a n).
Qed.

Lemma periodic_refines c l now : represents c l ->
  exists c', PeriodicRun now c = Some c' /\ same_config c c' /\ represents c' (drop_expired (now - TTL c) l).
Proof.
  intros R. pose proof R as (as_ & H & F). unfold PeriodicRun.
  assert (exists n, heap c !! LR c = Some n /\ Next n = Some (hd (MR c) as_)) as (n & Hn & En).
  { pose proof (sh_linked _ _ H) as L. clear -L. destruct as_; destruct L as [L _]; exact L. }
  rewrite Hn. simpl. rewrite En. simpl. apply (expire_refines _ _ as_ l); [done..|].
  by apply shape_length.
Qed.

(** ** Runs of the cache *)
Inductive cache_op : Type :=
| OSeen (k : string) (now : Z)
| ORecord (k : string) (now1 now2 : Z)
| OExpire (now : Z).

Definition run_op (o : cache_op) (c : LRCache) : option LRCache :=
  match o with
  | OSeen k now => snd <$> SeenRecently k now c
  | ORecord k t1 t2 => Record_ k t1 t2 c
  | OExpire now => PeriodicRun now c
  end.

Definition spec_op (capacity ttl : Z) (o : cache_op) (l : list (string * Z)) : list (string * Z) :=
  match o with
  | OSeen k now => if one_of k (keys l) then forget k l ++ [(k, now)] else l
  | ORecord k _ t2 => make_room capacity l ++ [(k, t2)]
  | OExpire now => drop_expired (now - ttl) l
  end.

(** The discipline of the activity manager: only keys that are not in the cache are recorded. *)
Definition legal (o : cache_op) (l : list (string * Z)) : Prop :=
  match o with ORecord k _ _ => ~ In k (keys l) | _ => True end.

Fixpoint run_ops (os : list cache_op) (c : LRCache) : option LRCache :=
  match os with [] => Some c | o :: r => c' ← run_op o c; run_ops r c' end.
Fixpoint spec_ops (capacity ttl : Z) (os : list cache_op) (l : list (string * Z)) : list (string * Z) :=
  match os with [] => l | o :: r => spec_ops capacity ttl r (spec_op capacity ttl o l) end.
Fixpoint legal_ops (capacity ttl : Z) (os : list cache_op) (l : list (string * Z)) : Prop :=
  match os with [] => True | o :: r => legal o l /\ legal_ops capacity ttl r (spec_op capacity ttl o l) end.

Lemma length_forget k l : List.NoDup (keys l) -> In k (keys l) -> S (length (forget k l)) = length l.
Proof.
  intros ND Hin. unfold keys in Hin. apply in_map_iff in Hin as ([k' t] & Ek & Hin). simpl in Ek. subst k'.
  apply in_split in Hin as (l1 & l2 & ->). rewrite forget_split by done. rewrite !length_app. simpl. lia.
Qed.

Lemma length_drop_expired cutoff l : (length (drop_expired cutoff l) <= length l)%nat.
Proof. induction l as [|e l IH]; simpl; [lia|]. case_match; simpl; lia. Qed.

(** One operation: no panic, the same list, and never more than the capacity. *)
Lemma op_refines o c l : represents c l -> legal o l -> 0 < Capacity c -> Z.of_nat (length l) <= Capacity c ->
  exists c', run_op o c = Some c' /\ same_config c c' /\ represents c' (spec_op (Capacity c) (TTL c) o l) /\
    Z.of_nat (length (spec_op (Capacity c) (TTL c) o l)) <= Capacity c.
Proof.
  intros R Hleg Hc Hlen. destruct o as [k now|k t1 t2|now]; simpl in *.
  - destruct (seen_refines c l k now R) as (c' & E & C & R'). exists c'. rewrite E. split_and!; [done..|].
    destruct (one_of k (keys l)) eqn:Ek; [|done]. apply one_of_spec in Ek. rewrite length_app. simpl.
    pose proof (length_forget k l (represents_keys _ _ R) Ek). lia.
  - destruct (record_refines c l k t1 t2 R Hleg Hc Hlen) as (c' & E & C & R'). exists c'. split_and!; [done..|].
    rewrite length_app. unfold make_room. case_bool_decide; simpl; [|lia]. destruct l; simpl in *; lia.
  - destruct (periodic_refines c l now R) as (c' & E & C & R'). exists c'. split_and!; [done..|].
    pose proof (length_drop_expired (now - TTL c) l). lia.
Qed.

Lemma ops_refine os c l : represents c l -> 0 < Capacity c -> Z.of_nat (length l) <= Capacity c ->
  legal_ops (Capacity c) (TTL c) os l ->
  exists c', run_ops os c = Some c' /\ represents c' (spec_ops (Capacity c) (TTL c) os l) /\
    Z.of_nat (length (spec_ops (Capacity c) (TTL c) os l)) <= Capacity c.
Proof.
  revert c l. induction os as [|o os IH]; intros c l R Hc Hlen Hleg; simpl in *; [eauto|]. destruct Hleg as [Ho Hr].
  destruct (op_refines o c l R Ho Hc Hlen) as (c1 & E1 & (C1 & C2 & _) & R1 & L1). rewrite E1. simpl.
  rewrite <- C1, <- C2 in *. apply IH; [done|lia|lia|done].
Qed.

(** ** What the activity manager relies on

    The interface [SeenProblemCache] of cache.go with its contract: [cache_keys c ks] says
    that the cache remembers exactly [ks]. *)
Class SeenProblemCache (C : Type) : Type := {
  cache_seen : string -> Z -> C -> option (bool * C);
  cache_record : string -> Z -> Z -> C -> option C;
  cache_keys : C -> list string -> Prop;
  cache_seen_ok : forall c ks k now, cache_keys c ks ->
    exists c' ks', cache_seen k now c = Some (one_of k ks, c') /\ cache_keys c' ks' /\ (forall x, In x ks' <-> In x ks);
  cache_record_ok : forall c ks k now1 now2, cache_keys c ks -> ~ In k ks ->
    exists c' ks', cache_record k now1 now2 c = Some c' /\ cache_keys c' ks' /\ In k ks' /\
                   (forall x, In x ks' -> x = k \/ In x ks) }.

Lemma in_forget k x l : In x (keys (forget k l)) -> In x (keys l).
Proof. unfold keys, forget. rewrite !in_map_iff. intros (e & <- & He). apply filter_In in He as [He _]. eauto. Qed.

Lemma keys_moved k now l x : In k (keys l) -> In x (keys (forget k l ++ [(k, now)])) <-> In x (keys l).
Proof.
  intros Hk. unfold keys at 1. rewrite map_app, in_app_iff. simpl. split.
  - intros [H|[<-|[]]]; [by eapply in_forget|done].
  - intros Hx. destruct (decide (x = k)) as [->|Hne]; [auto|]. left. unfold keys, forget in *. apply in_map_iff in Hx as (e & <- & He).
    apply in_map_iff. exists e. split; [done|]. apply filter_In. split; [done|]. by rewrite bool_decide_false.
Qed.

#[export] Program Instance LRCache_seen : SeenProblemCache LRCache := {|
  cache_seen := SeenRecently;
  cache_record := Record_;
  cache_keys := fun c ks => exists l, represents c l /\ ks = keys l /\ 0 < Capacity c /\ Z.of_nat (length l) <= Capacity c |}.
Next Obligation.
  intros c ks k now (l & R & -> & Hc & Hlen). destruct (op_refines (OSeen k now) c l R I Hc Hlen) as (c' & E & (C1 & _) & R' & L').
  destruct (seen_refines c l k now R) as (c2 & E2 & _). simpl in E. rewrite E2 in E. injection E as ->.
  exists c', (keys (spec_op (Capacity c) (TTL c) (OSeen k now) l)). split_and!; [done| |].
  - eexists. split_and!; [exact R'|done|lia|lia].
  - intros x. simpl. destruct (one_of k (keys l)) eqn:Ek; [|done]. apply one_of_spec in Ek. by apply keys_moved.
Qed.
Next Obligation.
  intros c ks k t1 t2 (l & R & -> & Hc & Hlen) Hk.
  destruct (op_refines (ORecord k t1 t2) c l R Hk Hc Hlen) as (c' & E & (C1 & _) & R' & L'). simpl in *.
  exists c', (keys (make_room (Capacity c) l ++ [(k, t2)])). split_and!; [done|..].
  - eexists. split_and!; [exact R'|done|lia|lia].
  - unfold keys. rewrite map_app, in_app_iff. simpl. auto.
  - intros x. unfold keys. rewrite map_app, in_app_iff. simpl. intros [Hx|[<-|[]]]; [|auto]. right.
    unfold make_room in Hx. case_bool_decide; [|done]. destruct l; simpl in *; auto.
Qed.

(** ** Theorems *)

(** C37. The pointer structure is a correct LRU cache for the way it is used.  Starting from a new
    cache of positive capacity, any sequence of lookups, expiry runs and insertions of keys that
    are not in the cache runs without a nil dereference, and the linked list and the map then
    represent exactly the entries of the list specification: no key twice, lookups move a key to
    the recent end, a full cache drops its least recent entry, expiry drops the expired prefix,
    and the capacity is never exceeded. *)
Theorem cache_refines_lru capacity ttl os : 0 < capacity -> legal_ops capacity ttl os [] ->
  exists c, run_ops os (NewCache capacity ttl) = Some c /\ represents c (spec_ops capacity ttl os []) /\
    (forall k, is_Some (Cache c !! k) <-> In k (keys (spec_ops capacity ttl os []))) /\
    Z.of_nat (size (Cache c)) <= capacity.
Proof.
  intros Hc Hleg. destruct (ops_refine os (NewCache capacity ttl) [] (represents_new _ _) Hc) as (c & E & R & L); [simpl; lia|done|].
  exists c. split_and!; [done|done| |rewrite (represents_size _ _ R); exact L]. intros k. by apply represents_lookup.
Qed.

Lemma cache_refines_lru_witness :
  exists c, run_ops [ORecord "h1|sel_event" 1 1; OSeen "h1|sel_event" 5; ORecord "h2|sel_event" 6 6; ORecord "h3|sel_event" 7 7; OExpire 12]
              (NewCache 2 6) = Some c /\ Z.of_nat (size (Cache c)) <= 2.
Proof.
  destruct (cache_refines_lru 2 6 [ORecord "h1|sel_event" 1 1; OSeen "h1|sel_event" 5; ORecord "h2|sel_event" 6 6;
    ORecord "h3|sel_event" 7 7; OExpire 12]) as (c & E & _ & _ & L).
  - reflexivity.
  - vm_compute. intuition discriminate.
  - exists c. exact (conj E L).
Defined.

(** Finding: recording a key that is present adds it twice, the stale node later disarms the
    capacity check, and the cache grows without bound. *)
Definition record_all (ks : list string) (c : LRCache) : option LRCache :=
  run_ops (map (fun k => ORecord k 0 0) ks) c.

Example duplicate_record_unbounds_cache :
  (fun c => size (Cache c)) <$> record_all ["a"; "a"; "b"; "c"; "d"; "e"; "f"; "g"] (NewCache 2 60) = Some 6%nat.
Proof. vm_compute. reflexivity. Qed.

(** Finding: with capacity zero the first record dereferences a nil pointer. *)
Example capacity_zero_panics : Record_ "a" 0 0 (NewCache 0 60) = None.
Proof. vm_compute. reflexivity. Qed.
