(* ===== verification/Calls.v ===== *)
(** * Calls of a remote service

    A computation that sends requests to a service and reads its answers.  Requests are a family
    [R] indexed by the type of the answer; the service is a parameter ([Service]): it answers as it
    likes, with a state of its own.  A computation ([Calls]) is a function on that state, the number
    of pauses before the context ends, and the log of all calls so far, newest first. *)
From S2P Require Import Prelude.
From Stdlib Require Import Ascii String.

Local Open Scope string_scope.
Local Open Scope list_scope.
Local Open Scope crane_scope.

(** An error of the service with its code; [None] is any other error. *)
Definition aws_error : Type := option string.
Definition answer (A : Type) : Type := A + aws_error.
Definition isCode (e : aws_error) (codes : list string) : bool := match e with Some c => one_of c codes | None => false end.
Definition err_of (e : aws_error) : error := ErrMsg (default "command failed" e).

Class Service (R : Type -> Type) (C : Type) : Type := { aws_Call : forall A, R A -> C -> answer A * C }.

Record call_event (R : Type -> Type) : Type := mkEvent { ev_type : Type; ev_request : R ev_type; ev_answer : answer ev_type }.
Arguments mkEvent {R _}.
Arguments ev_type {R}.
Arguments ev_request {R}.
Arguments ev_answer {R}.

(** ** Computations *)
Section Monad.
Context {R : Type -> Type} {C : Type} {service : Service R C}.

Record call_state : Type := mkAwsState { as_cloud : C; as_pauses : nat; as_log : list (call_event R) }.
Definition Calls (A : Type) : Type := call_state -> result A * call_state.
Definition aws_ret {A} (a : A) : Calls A := fun s => (Ok a, s).
Definition aws_fail {A} (msg : string) : Calls A := fun s => (Err (ErrMsg msg), s).
Definition aws_lift {A} (r : result A) : Calls A := fun s => (r, s).
Definition aws_bind {A B} (m : Calls A) (k : A -> Calls B) : Calls B := fun s =>
  match m s with (Ok a, s) => k a s | (Err e, s) => (Err e, s) end.

(** [aws.Call] *)
Definition try_call {A} (rq : R A) : Calls (answer A) := fun s =>
  let '(r, c) := aws_Call A rq (as_cloud s) in (Ok r, mkAwsState c (as_pauses s) (mkEvent rq r :: as_log s)).
Definition call {A} (rq : R A) : Calls A :=
  aws_bind (try_call rq) (fun r => match r with inl a => aws_ret a | inr e => aws_lift (Err (err_of e)) end).

(** Waiting; the context may end meanwhile. *)
Definition pause : Calls unit := fun s =>
  match as_pauses s with O => (Err (ErrMsg "context"), s) | S n => (Ok tt, mkAwsState (as_cloud s) n (as_log s)) end.

(** [for { ... ; pause }]: the body again until it has a result or the context ends. *)
Fixpoint until_from {A} (n : nat) (body : Calls (option A)) : Calls A := fun s =>
  match body s with
  | (Err e, s) => (Err e, s)
  | (Ok (Some a), s) => (Ok a, s)
  | (Ok None, s) => match n with O => (Err (ErrMsg "context"), s) | S n => until_from n body (mkAwsState (as_cloud s) n (as_log s)) end
  end.
Definition until {A} (body : Calls (option A)) : Calls A := fun s => until_from (as_pauses s) body s.

(** A ticker with a deadline: [ticks] looks at most, each after a pause. *)
Fixpoint every_tick {A} (ticks : nat) (timeout : string) (body : Calls (option A)) : Calls A :=
  match ticks with
  | O => aws_bind pause (fun _ => aws_fail timeout)
  | S n => aws_bind pause (fun _ => aws_bind body (fun o => match o with Some a => aws_ret a | None => every_tick n timeout body end))
  end.

Fixpoint for_each {A} (l : list A) (body : A -> Calls unit) : Calls unit :=
  match l with [] => aws_ret tt | x :: l => aws_bind (body x) (fun _ => for_each l body) end.
End Monad.
Arguments call_state : clear implicits.
Arguments Calls : clear implicits.

Notation "'aws!' x := m 'in' k" := (aws_bind m (fun x => k)) (at level 10, x pattern, m at level 100, k at level 200).
Notation "'insist' b 'else' msg 'in' k" := (if b then k else aws_fail msg) (at level 10, b at level 100, msg at level 100, k at level 200).

(** ** Runs that succeeded *)
Section Runs.
Context {R : Type -> Type} {C : Type} {service : Service R C}.

Lemma aws_bind_ok {A B} (m : Calls R C A) (k : A -> Calls R C B) a b a' :
  aws_bind m k a = (Ok b, a') -> exists x a1, m a = (Ok x, a1) /\ k x a1 = (Ok b, a').
Proof. unfold aws_bind. destruct (m a) as [[x|e] a1]; [eauto|done]. Qed.
Lemma aws_lift_ok {A} (r : result A) (a : call_state R C) x a' : aws_lift r a = (Ok x, a') -> r = Ok x /\ a' = a.
Proof. unfold aws_lift. by intros [= -> ->]. Qed.
Lemma aws_ret_ok {A} (v : A) (a : call_state R C) x a' : aws_ret v a = (Ok x, a') -> v = x /\ a' = a.
Proof. unfold aws_ret. by intros [= -> ->]. Qed.
Lemma insist_ok {A} (b : bool) (m : Calls R C A) msg a x a' : (if b then m else aws_fail msg) a = (Ok x, a') -> b = true /\ m a = (Ok x, a').
Proof. by destruct b. Qed.
Lemma try_call_ok {A} (rq : R A) (a : call_state R C) r a' :
  try_call rq a = (Ok r, a') -> fst (aws_Call A rq (as_cloud a)) = r /\ as_cloud a' = snd (aws_Call A rq (as_cloud a)).
Proof. unfold try_call. destruct (aws_Call A rq (as_cloud a)). by intros [= <- <-]. Qed.
Lemma call_ok {A} (rq : R A) (a : call_state R C) x a' :
  call rq a = (Ok x, a') -> fst (aws_Call A rq (as_cloud a)) = inl x /\ as_cloud a' = snd (aws_Call A rq (as_cloud a)).
Proof.
  unfold call. intros (r & a1 & [E1 E2]%try_call_ok & H)%aws_bind_ok. destruct r as [y|e]; [|done]. apply aws_ret_ok in H as [-> ->]. done.
Qed.

(** ** What no request breaks *)
Context (I : C -> Prop) (kept : forall A (rq : R A) c, I c -> I (snd (aws_Call A rq c))).
Definition preserves {A} (m : Calls R C A) : Prop := forall s, I (as_cloud s) -> I (as_cloud (snd (m s))).

Lemma preserves_ret {A} (a : A) : preserves (aws_ret a).
Proof. by intros s. Qed.
Lemma preserves_lift {A} (r : result A) : preserves (aws_lift r).
Proof. by intros s. Qed.
Lemma preserves_fail {A} msg : preserves (aws_fail (A := A) msg).
Proof. by intros s. Qed.
Lemma preserves_bind {A B} (m : Calls R C A) (k : A -> Calls R C B) : preserves m -> (forall a, preserves (k a)) -> preserves (aws_bind m k).
Proof. intros Hm Hk s Hs. specialize (Hm s Hs). unfold aws_bind. destruct (m s) as [[a|e] s1]; [by apply Hk|done]. Qed.
Lemma preserves_try {A} (rq : R A) : preserves (try_call rq).
Proof. intros s Hs. specialize (kept A rq _ Hs). unfold try_call. by destruct (aws_Call A rq (as_cloud s)). Qed.
Lemma preserves_call {A} (rq : R A) : preserves (call rq).
Proof. apply preserves_bind; [apply preserves_try|]. intros [a|e]; [apply preserves_ret|apply preserves_lift]. Qed.
Lemma preserves_pause : preserves pause.
Proof. intros s Hs. unfold pause. by destruct (as_pauses s). Qed.
Lemma preserves_tick {A} n timeout (body : Calls R C (option A)) : preserves body -> preserves (every_tick n timeout body).
Proof.
  intros Hb. induction n as [|n IH]; cbn [every_tick]; (apply preserves_bind; [apply preserves_pause|intros _]); [apply preserves_fail|].
  apply preserves_bind; [done|]. intros [a|]; [apply preserves_ret|done].
Qed.
End Runs.

Ltac aws_ok :=
  repeat match goal with
  | H : aws_bind _ _ _ = (Ok _, _) |- _ => apply aws_bind_ok in H as (?x & ?a & ?Hx & H)
  | H : aws_lift _ _ = (Ok _, _) |- _ => apply aws_lift_ok in H as [H ->]
  | H : aws_ret _ _ = (Ok _, _) |- _ => apply aws_ret_ok in H as [H ->]
  | H : (if _ then _ else aws_fail _) _ = (Ok _, _) |- _ => apply insist_ok in H as [?Hb H]
  end.
