(* ===== verification/CatalogHttp.v ===== *)
(** * The legacy catalog over HTTP: internal/hostcatalog/http/handlers.go

    The two handlers that set a host's state and health through [HostCatalog].  A body is
    represented by its first JSON value; what follows it is not read. *)
From S2P Require Import Prelude GoStrings Sql Api Decode Schema Admission Invariant Fixture AdmissionFacts Lease Handoff LeaseFacts Removal RemovalFacts Scheduling Catalog CatalogFacts Bootstrap BootstrapFacts HostCatalog.

Local Open Scope string_scope.
Local Open Scope list_scope.
Local Open Scope Z_scope.
Local Open Scope crane_scope.

(** The names of pkg/api/types.go; [None] is none of them. *)
Definition HostState_of (s : string) : option HostState :=
  if s == "REQUESTED" then Some HostRequested else if s == "PROVISIONING" then Some HostProvisioning
  else if s == "BOOTING" then Some HostBooting else if s == "REGISTERING" then Some HostRegistering
  else if s == "CONVERGING" then Some HostConverging else if s == "READY" then Some HostReady
  else if s == "DRAINING" then Some HostDraining else if s == "TERMINATING" then Some HostTerminating
  else if s == "TERMINATED" then Some HostTerminated else if s == "FAILED" then Some HostFailed
  else if s == "UNHEALTHY" then Some HostUnhealthy else None.

Definition HostHealth_of (s : string) : HostHealth :=
  if s == "unknown" then HostHealthUnknown else if s == "healthy" then HostHealthHealthy
  else if s == "unhealthy" then HostHealthUnhealthy else HostHealthOther s.

(** The status code and the text of an error. *)
Definition CatalogReply : Type := Z * string.

Section Handlers.
Context (error_text : error -> string).

Definition catalog_reply (m : Run unit) : World -> CatalogReply * World :=
  fun w => match m w with
           | (Ok _, w') => ((204, ""), w')
           | (Err e, w') => ((500, error_text e), w')
           end.

Definition http_TransitionState (id newState : string) (w : World) : CatalogReply * World :=
  if (id == "") || (newState == "") then ((400, "missing id or state"), w)
  else catalog_reply (TransitionState id (HostState_of newState)) w.

(** [body]: [Err] holds what the decoder says of a malformed body. *)
Definition dec_health (j : Json) : option string := l ← dec_object (Some j); dec_string (field "Health" l).

Definition http_TransitionHealth (id : string) (body : result Json) (w : World) : CatalogReply * World :=
  match body with
  | Err e => ((400, error_text e), w)
  | Ok j =>
      match dec_health j with
      | None => ((400, error_text (ErrMsg "json: cannot unmarshal")), w)
      | Some health =>
          if (id == "") || (health == "") then ((400, "missing id or state"), w)
          else catalog_reply (TransitionHealth id (HostHealth_of health)) w
      end
  end.
End Handlers.

(** A state is set over HTTP exactly when the transition is allowed: the answer is 204 if and
    only if the host is a readable, unmanaged and unprotected one and the named state is a
    successor of its state; any other answer leaves everything as it was. *)
Theorem http_transition_exact text id newState w code msg w' :
  unique_key h_id (host (w_db w)) -> http_TransitionState text id newState w = ((code, msg), w') ->
  (code = 204 <-> id <> "" /\ exists h n, In h (host (w_db w)) /\ h_id h = id /\ guarded h = false /\ is_ok (scan_host h) = true /\
                    HostState_of newState = Some n /\ In n (GetValidNextStates (h_state h))) /\
  (code <> 204 -> w' = w).
Proof.
  intros U. unfold http_TransitionState, catalog_reply. destruct ((id == "") || (newState == "")) eqn:E.
  - intros [= <- <- <-]. split; [|done]. split; [done|]. intros (Hid & h & n & _ & _ & _ & _ & Hs & _).
    apply orb_prop in E as [E|E]; bsplit; subst; done.
  - destruct (TransitionState id (HostState_of newState) w) as [r w1] eqn:T.
    destruct (transition_exact id (HostState_of newState) w r w1 U T) as (X & _ & Hn & _). bsplit.
    destruct r as [[]|e]; intros [= <- <- <-]; (split; [|try done; intros _; by apply Hn]).
    + split; [intros _|done]. split; [done|]. by apply X.
    + split; [done|]. intros (_ & Hx). by apply X in Hx.
Qed.

Lemma http_transition_exact_witness :
  fst (http_TransitionState (fun _ => "") "legacy-1" "DRAINING" legacy_world) = (204, "") /\
  exists h n, In h (host (w_db legacy_world)) /\ h_id h = "legacy-1" /\ HostState_of "DRAINING" = Some n /\ In n (GetValidNextStates (h_state h)).
Proof.
  assert (fst (http_TransitionState (fun _ => "") "legacy-1" "DRAINING" legacy_world) = (204, "")) as E by (vm_compute; reflexivity).
  split; [exact E|].
  destruct (http_TransitionState (fun _ => "") "legacy-1" "DRAINING" legacy_world) as [[code msg] w'] eqn:E2. cbn in E. injection E as -> ->.
  destruct (http_transition_exact _ _ _ _ _ _ _ legacy_world_unique E2) as [H _].
  destruct (proj1 H eq_refl) as (_ & h & n & H1 & H2 & _ & _ & H3 & H4). exists h, n. auto.
Qed.
