(* ===== verification/Activity.v ===== *)
(** * Detection of bad hosts and the decisions taken on them

    internal/badhost (the detector, its checks and the problem store) and
    internal/activitymanager (grouping, escalation, decisions).  Checks are functions from a
    host and a clock; the EC2 client is a parameter.  The manager is proved against the
    interface [SeenProblemCache], which the pointer cache implements. *)
From S2P Require Import Prelude GoStrings Sql Api Decode Schema Fixture Http HostCatalog Actions ProblemCache.

Local Open Scope string_scope.
Local Open Scope list_scope.
Local Open Scope Z_scope.
Local Open Scope crane_scope.

(** ** Checks *)
Definition Second : Z := 1000.
Definition Minute : Z := 60 * Second.

(** A problem as a check reports it; identifier and details are empty. *)
Definition critical (host : string) (t : ProblemType) (now : Z) : Problem := mkProblem 0 host t SeverityCritical now None "".

(** [UnhealthyHostStoreCheck.Detect]; an absent heartbeat is Go's zero time. *)
Definition host_store_Detect (now : Z) (h : LegacyHost) : result (list Problem) :=
  let since := match lh_LastSeenHeartbeat h with Some t => now - t | None => now - lh_CreatedAt h end in
  Ok ((if lh_Health h == HostHealthUnhealthy then [critical (lh_ID h) ProblemTypeSEL now] else []) ++
      (if 3 * Minute <? since then [critical (lh_ID h) ProblemTypeNoHeartbeat now] else [])).

(** The answer of [DescribeInstanceStatus]: per instance, system and instance status. *)
Class EC2 : Type := { describe : string -> result (list (option string * option string)) }.

Definition summary_ok (s : option string) : bool := s == Some "ok".

Definition ec2_Detect `{EC2} (now : Z) (h : LegacyHost) : result (list Problem) :=
  match describe (lh_ProviderID h) with
  | Err (ErrMsg m) => if Contains m "InvalidInstanceID.NotFound"
                      then Ok [critical (lh_ID h) ProblemTypeInstanceNotFound now] else Err (ErrMsg m)
  | Err e => Err e
  | Ok [] => Ok []
  | Ok ((system, instance) :: _) =>
      if summary_ok system && summary_ok instance then Ok [] else Ok [critical (lh_ID h) ProblemTypeSEL now]
  end.

(** ** The problem store *)
Definition RecordProblem `{GoJson} (now : Z) (hostID : string) (p : Problem) : Run unit := fun w =>
  let details := if pr_Details p == "" then "null" else pr_Details p in
  if negb (exists_row (host_is hostID) (host (w_db w))) then (Err (ErrSql "23503"), w)
  else match json_parse details with
  | None => (Err (ErrSql "22P02"), w)
  | Some _ =>
      (Ok tt, set_w_problems (w_problems w ++
         [mkProblem (Z.of_nat (length (w_problems w)) + 1) hostID (pr_Type p) (pr_Severity p) now None details]) w)
  end.

(** The query selects columns it does not group by. *)
Definition GetUnresolvedProblems : Run (list Problem) := run_ret (Err (ErrSql "42803")).

Definition newest_problem (a b : Problem) : bool := pr_DetectedAt b <=? pr_DetectedAt a.
Definition recent_problems (since : Z) (l : list Problem) : list Problem :=
  order_by newest_problem (select (fun p => since <=? pr_DetectedAt p) l).
Definition GetRecentProblems (now duration : Z) : Run (list Problem) := fun w =>
  (Ok (recent_problems (now - duration) (w_problems w)), w).

(** ** The detector *)
Definition Check : Type := Z -> LegacyHost -> result (list Problem).

Fixpoint detectProblems (checks : list Check) (now : Z) (h : LegacyHost) : list Problem :=
  match checks with
  | [] => []
  | c :: r => match c now h with
              | Ok ps => ps ++ detectProblems r now h
              | Err _ => detectProblems r now h
              end
  end.

(** Errors of the store are logged and the scan goes on. *)
Fixpoint record_all_problems `{GoJson} (now : Z) (host : string) (ps : list Problem) (w : World) : World :=
  match ps with
  | [] => w
  | p :: r => record_all_problems now host r (snd (RecordProblem now host p w))
  end.

Fixpoint scan_all `{GoJson} (checks : list Check) (now : Z) (hosts : list LegacyHost) (w : World) : World :=
  match hosts with
  | [] => w
  | h :: r => scan_all checks now r (record_all_problems now (lh_ID h) (detectProblems checks now h) w)
  end.

Definition ScanZone `{GoJson} (checks : list Check) (now : Z) (zone : string) (w : World) : World :=
  match GetByZone zone w with
  | (Ok hosts, w') => scan_all checks now hosts w'
  | (Err _, w') => w'
  end.

(** ** Decisions *)
Inductive EscalationLevel : Type := EscalationNone | EscalationDrain | EscalationReplace.

(** The counters are computed and the policy that used them is commented out. *)
Definition EvaluateEscalation (problems : list Problem) (now : Z) : EscalationLevel :=
  let last10min := List.filter (fun p => now - 10 * Minute <? pr_DetectedAt p) problems in
  let last30min := List.filter (fun p => now - 30 * Minute <? pr_DetectedAt p) problems in
  EscalationReplace.

Definition Decide (host : string) (problems : list Problem) (now : Z) : option ActionRecord :=
  match problems with
  | [] => None
  | _ => match EvaluateEscalation problems now with
         | EscalationReplace => Some (mkActionRecord 0 host ActionReplaceHost ActionPending 0 "aws")
         | EscalationDrain => Some (mkActionRecord 0 host ActionDrainHost ActionPending 0 "aws")
         | EscalationNone => None
         end
  end.

(** ** The manager *)
Definition problem_text (t : ProblemType) : string :=
  match t with
  | ProblemTypeSEL => "sel_event" | ProblemTypeSMART => "smart_failure" | ProblemTypeFirmware => "outdated_firmware"
  | ProblemTypeCloudEvent => "cloud_health_event" | ProblemTypeReachability => "unreachable"
  | ProblemTypeCycling => "cycling_host" | ProblemTypeNoHeartbeat => "no_heartbeat"
  | ProblemTypeInstanceNotFound => "instance_not_found"
  end.

(** [ProblemCacheKey.String]. *)
Definition cache_key (host : string) (t : ProblemType) : string := String.append host (String.append "|" (problem_text t)).

Section Manager.
Context {C : Type} `{SeenProblemCache C}.

(** The inner loop over one host's problems; the state is the cache and the world. *)
Fixpoint handle_host (now : Z) (host : string) (all rest : list Problem) (c : C) (w : World) : option (C * World) :=
  match rest with
  | [] => Some (c, w)
  | p :: r =>
      let key := cache_key host (pr_Type p) in
      '(seen, c1) ← cache_seen key now c;
      if seen : bool then handle_host now host all r c1 w
      else
        c2 ← cache_record key now now c1;
        let w' := match Decide host all now with Some a => snd (Enqueue now a w) | None => w end in
        handle_host now host all r c2 w'
  end.

Definition of_host (host : string) (l : list Problem) : list Problem := List.filter (fun p => pr_Host_id p == host) l.

Fixpoint handle_hosts (now : Z) (problems : list Problem) (hosts : list string) (c : C) (w : World) : option (C * World) :=
  match hosts with
  | [] => Some (c, w)
  | h :: r => '(c1, w1) ← handle_host now h (of_host h problems) (of_host h problems) c w; handle_hosts now problems r c1 w1
  end.

(** [order] is the order in which Go walks the map of grouped problems. *)
Definition RunHelp (order : list string -> list string) (now window : Z) (c : C) (w : World) : option (C * World) :=
  match GetRecentProblems now window w with
  | (Err _, w') => Some (c, w')
  | (Ok problems, w') => handle_hosts now problems (order (remove_dups (map pr_Host_id problems))) c w'
  end.
End Manager.

(** ** Keys are unambiguous *)
Definition no_bar (s : string) : bool := all_chars (fun c => negb (Ascii.eqb c (Ascii.ascii_of_nat 124))) s.

Lemma no_bar_text t : no_bar (problem_text t) = true.
Proof. by destruct t. Qed.

Lemma no_bar_app a s : no_bar (String.append a (String (Ascii.ascii_of_nat 124) s)) = false.
Proof. unfold no_bar. induction a as [|c a IH]; simpl; [done|]. by rewrite IH, andb_false_r. Qed.

Lemma bar_split a b s t : no_bar s = true -> no_bar t = true ->
  String.append a (String (Ascii.ascii_of_nat 124) s) = String.append b (String (Ascii.ascii_of_nat 124) t) -> a = b /\ s = t.
Proof.
  intros Hs Ht. revert b. induction a as [|c a IH]; intros [|c' b] E; simpl in E.
  - by injection E as ->.
  - injection E as <- ->. by rewrite no_bar_app in Hs.
  - injection E as -> <-. by rewrite no_bar_app in Ht.
  - injection E as -> E. destruct (IH b E) as [-> ->]. done.
Qed.

Lemma cache_key_inj h t h' t' : cache_key h t = cache_key h' t' -> h = h' /\ t = t'.
Proof.
  intros E. apply bar_split in E as [-> E]; [|apply no_bar_text..]. split; [done|]. by destruct t, t'.
Qed.

(** ** One run of the manager *)

(** The world after replace actions for [hs] were enqueued. *)
Record enqueued (hs : list string) (w w' : World) : Prop := mkEnqueued {
  en_rest : w' = set_w_actions (w_actions w') w;
  en_new : exists new, w_actions w' = w_actions w ++ new /\
    map (fun a => (a_hostid a, a_type a, a_status a)) new = map (fun h => (h, ActionReplaceHost, ActionPending)) hs }.

Lemma enqueued_nil w : enqueued [] w w.
Proof. split; [by destruct w|]. exists []. by rewrite app_nil_r. Qed.

Lemma enqueued_trans hs1 hs2 w1 w2 w3 : enqueued hs1 w1 w2 -> enqueued hs2 w2 w3 -> enqueued (hs1 ++ hs2) w1 w3.
Proof.
  intros [A1 (n1 & A2 & A3)] [B1 (n2 & B2 & B3)]. split.
  - rewrite B1 at 1. by rewrite A1.
  - exists (n1 ++ n2). by rewrite B2, A2, <- app_assoc, !map_app, A3, B3.
Qed.

Lemma Decide_some host all now : all <> [] ->
  Decide host all now = Some (mkActionRecord 0 host ActionReplaceHost ActionPending 0 "aws").
Proof. by destruct all. Qed.

Section Runs.
Context {C : Type} `{SeenProblemCache C}.

Definition key_of (p : Problem) : string := cache_key (pr_Host_id p) (pr_Type p).

Lemma handle_host_spec now host all rest c ks w : all <> [] -> cache_keys c ks ->
  exists c' ks' hs w', handle_host now host all rest c w = Some (c', w') /\ cache_keys c' ks' /\ enqueued hs w w' /\
    (forall h, In h hs -> h = host /\ rest <> []) /\
    (forall p, In p rest -> ~ In (cache_key host (pr_Type p)) ks -> In host hs) /\
    (forall x, In x ks' -> In x ks \/ exists t, x = cache_key host t) /\
    ((forall p, In p rest -> In (cache_key host (pr_Type p)) ks) -> hs = [] /\ forall x, In x ks' <-> In x ks).
Proof.
  intros Hall. revert c ks w. induction rest as [|p r IH]; intros c ks w Hk; simpl.
  { exists c, ks, [], w. split_and!; try done; auto using enqueued_nil. }
  destruct (cache_seen_ok c ks (cache_key host (pr_Type p)) now Hk) as (c1 & ks1 & E1 & K1 & M1). rewrite E1. simpl.
  destruct (one_of (cache_key host (pr_Type p)) ks) eqn:Eseen.
  - apply one_of_spec in Eseen. destruct (IH c1 ks1 w K1) as (c' & ks' & hs & w' & E & K & En & P1 & P2 & P3 & P4).
    exists c', ks', hs, w'. split_and!; try done.
    + intros h Hh. split; [by apply P1|done].
    + intros q [<-|Hq] Hn; [done|]. apply (P2 q Hq). by rewrite M1.
    + intros x Hx. rewrite <- M1. auto.
    + intros Hin. destruct P4 as [-> P4]; [intros q Hq; apply M1; auto|]. split; [done|]. intros x. by rewrite P4, M1.
  - assert (~ In (cache_key host (pr_Type p)) ks) as Hn by (intros X; apply one_of_spec in X; congruence).
    destruct (cache_record_ok c1 ks1 (cache_key host (pr_Type p)) now now K1) as (c2 & ks2 & E2 & K2 & I2 & S2); [by rewrite M1|].
    rewrite E2. simpl. rewrite Decide_some by done.
    match goal with |- context [handle_host now host all r c2 ?x] => set (w1 := x) end.
    destruct (IH c2 ks2 w1 K2) as (c' & ks' & hs & w' & E & K & En & P1 & P2 & P3 & P4).
    exists c', ks', (host :: hs), w'. split_and!; try done.
    + apply (enqueued_trans [host] hs w w1); [|done]. split; [done|]. eexists. split; [done|]. done.
    + intros h [<-|Hh]; [done|]. split; [by apply P1|done].
    + intros q _ _. by left.
    + intros x Hx. destruct (P3 x Hx) as [Hx2|Hx2]; [|auto]. destruct (S2 x Hx2) as [->|Hx1]; [eauto|]. left. by apply M1.
    + intros Hin. destruct Hn. apply Hin. by left.
Qed.

Lemma of_host_in h p l : In p (of_host h l) <-> In p l /\ pr_Host_id p = h.
Proof. unfold of_host. rewrite filter_In, bool_decide_eq_true. done. Qed.

Lemma handle_hosts_spec now problems hosts c ks w : NoDup hosts ->
  (forall h, In h hosts -> of_host h problems <> []) -> cache_keys c ks ->
  exists c' ks' hs w', handle_hosts now problems hosts c w = Some (c', w') /\ cache_keys c' ks' /\ enqueued hs w w' /\
    (forall h, In h hs -> In h hosts) /\
    (forall p, In p problems -> In (pr_Host_id p) hosts -> ~ In (key_of p) ks -> In (pr_Host_id p) hs) /\
    ((forall p, In p problems -> In (pr_Host_id p) hosts -> In (key_of p) ks) -> hs = []).
Proof.
  revert c ks w. induction hosts as [|h r IH]; intros c ks w ND Hne Hk; simpl.
  { exists c, ks, [], w. split_and!; try done; auto using enqueued_nil. }
  apply NoDup_cons in ND as [Nh ND]. rewrite list_elem_of_In in Nh.
  destruct (handle_host_spec now h (of_host h problems) (of_host h problems) c ks w) as (c1 & ks1 & hs1 & w1 & E1 & K1 & En1 & P1 & P2 & P3 & P4);
    [apply Hne; by left|done|]. rewrite E1. simpl.
  destruct (IH c1 ks1 w1) as (c' & ks' & hs & w' & E & K & En & Q1 & Q2 & Q3); [done|intros x Hx; apply Hne; by right|done|].
  exists c', ks', (hs1 ++ hs), w'. split_and!; try done.
  - by eapply enqueued_trans.
  - intros x. rewrite in_app_iff. intros [Hx|Hx]; [left; symmetry; by apply P1|right; auto].
  - intros p Hp Hin Hn. apply in_app_iff. destruct (decide (pr_Host_id p = h)) as [Eh|Ene].
    + left. rewrite Eh. apply (P2 p); [by apply of_host_in|]. by rewrite <- Eh.
    + right. apply Q2; [done|by destruct Hin|]. intros Hx. destruct (P3 _ Hx) as [|[t Et]]; [done|].
      apply cache_key_inj in Et as [Et _]. done.
  - intros Hall. destruct P4 as [-> M].
    { intros p Hp. apply of_host_in in Hp as [Hp Eh]. rewrite <- Eh. apply Hall; [done|by left]. }
    simpl. apply Q3. intros p Hp Hin. apply M. apply Hall; [done|by right].
Qed.
End Runs.

(** ** One scan of the detector *)
Section Scan.
Context {json : GoJson} (Hnull : is_Some (json_parse "null")).

Definition brief (host : string) (p : Problem) : string * ProblemType * ProblemSeverity := (host, pr_Type p, pr_Severity p).

Definition recorded (l : list (string * ProblemType * ProblemSeverity)) (w w' : World) : Prop :=
  exists new, w' = set_w_problems (w_problems w ++ new) w /\ map (fun p => brief (pr_Host_id p) p) new = l.

Lemma recorded_nil w : recorded [] w w.
Proof. exists []. rewrite app_nil_r. by destruct w. Qed.

Lemma recorded_trans l1 l2 w1 w2 w3 : recorded l1 w1 w2 -> recorded l2 w2 w3 -> recorded (l1 ++ l2) w1 w3.
Proof.
  intros (n1 & -> & <-) (n2 & -> & <-). exists (n1 ++ n2). simpl. rewrite map_app, app_assoc. done.
Qed.

Lemma RecordProblem_recorded now hid p w : exists_row (host_is hid) (host (w_db w)) = true -> pr_Details p = "" ->
  recorded [brief hid p] w (snd (RecordProblem now hid p w)).
Proof.
  intros Hh Hd. unfold RecordProblem. rewrite Hh, Hd. simpl. destruct Hnull as [j Hj].
  rewrite Hj. eexists. split; [done|]. done.
Qed.

Lemma record_all_recorded now hid ps w : exists_row (host_is hid) (host (w_db w)) = true ->
  Forall (fun p => pr_Details p = "") ps -> recorded (map (brief hid) ps) w (record_all_problems now hid ps w).
Proof.
  intros Hh HF. revert w Hh. induction HF as [|p ps Hp HF IH]; intros w Hh; simpl; [apply recorded_nil|].
  pose proof (RecordProblem_recorded now hid p w Hh Hp) as R1. apply (recorded_trans [brief hid p] _ w _ _ R1).
  apply IH. destruct R1 as (n & -> & _). exact Hh.
Qed.

Lemma detectProblems_details checks now h : (forall c ps, In c checks -> c now h = Ok ps -> Forall (fun p => pr_Details p = "") ps) ->
  Forall (fun p => pr_Details p = "") (detectProblems checks now h).
Proof.
  induction checks as [|c r IH]; intros Hc; simpl; [constructor|]. destruct (c now h) as [ps|e] eqn:E.
  - apply Forall_app. split; [by eapply Hc; [left|]|]. apply IH. intros c' ps' Hin. apply Hc. by right.
  - apply IH. intros c' ps' Hin. apply Hc. by right.
Qed.

Lemma scan_hosts_in l hosts h : scan_hosts l = Ok hosts -> In h hosts -> exists r, In r l /\ h_id r = lh_ID h.
Proof.
  revert hosts. induction l as [|r l IH]; intros hosts E Hin; simpl in E; inv_ok; [destruct Hin|].
  destruct Hin as [<-|Hin]; [|destruct (IH _ Hx0 Hin) as (y & Hy & Ey); exists y; split; [by right|done]].
  exists r. split; [by left|]. unfold scan_host in Hx. by inv_ok.
Qed.

Lemma scan_all_recorded checks now hosts w :
  (forall h, In h hosts -> exists_row (host_is (lh_ID h)) (host (w_db w)) = true) ->
  (forall c h ps, In c checks -> c now h = Ok ps -> Forall (fun p => pr_Details p = "") ps) ->
  recorded (concat (map (fun h => map (brief (lh_ID h)) (detectProblems checks now h)) hosts)) w (scan_all checks now hosts w).
Proof.
  intros Hh Hc. revert w Hh. induction hosts as [|h r IH]; intros w Hh; simpl; [apply recorded_nil|].
  assert (recorded (map (brief (lh_ID h)) (detectProblems checks now h)) w (record_all_problems now (lh_ID h) (detectProblems checks now h) w)) as R1.
  { apply record_all_recorded; [apply Hh; by left|]. apply detectProblems_details. eauto. }
  eapply recorded_trans; [exact R1|]. apply IH. intros x Hx. destruct R1 as (n & -> & _). apply (Hh x). by right.
Qed.
End Scan.

(** ** Theorems *)

(** A scan records exactly what its checks found.  When every host row can be read, one scan appends
    to the problem table, host by host and check by check, one row for each problem the checks
    report, under the host that was checked, and changes nothing else; a check that fails does not
    hide the findings of the others. *)
Theorem scan_records {json : GoJson} checks now z w hosts :
  is_Some (json_parse "null") -> scan_hosts (host (w_db w)) = Ok hosts ->
  (forall c h ps, In c checks -> c now h = Ok ps -> Forall (fun p => pr_Details p = "") ps) ->
  exists new, ScanZone checks now z w = set_w_problems (w_problems w ++ new) w /\
    map (fun p => brief (pr_Host_id p) p) new = concat (map (fun h => map (brief (lh_ID h)) (detectProblems checks now h)) hosts).
Proof.
  intros Hnull Hs Hc. unfold ScanZone, GetByZone, store_GetByZone, query. rewrite Hs.
  apply scan_all_recorded; [done| |done]. intros h Hin. destruct (scan_hosts_in _ _ _ Hs Hin) as (r & Hr & Er).
  apply exists_row_true. exists r. split; [done|]. unfold host_is. by rewrite Er, eq_refl_true.
Qed.

(** One run of the activity manager.  For every cache that honours the interface and every order in
    which Go walks the grouped problems, the run completes and changes nothing but the action
    queue: it appends only pending replace actions for hosts with a recent problem, a host with a
    recent problem that the cache does not remember gets at least one, and if the cache remembers
    every recent problem nothing is enqueued. *)
Theorem run_help_decides {C : Type} `{SeenProblemCache C} order now window (c : C) ks w :
  (forall l, Permutation (order l) l) -> cache_keys c ks ->
  let problems := recent_problems (now - window) (w_problems w) in
  exists c' ks' hs w', RunHelp order now window c w = Some (c', w') /\ cache_keys c' ks' /\ enqueued hs w w' /\
    (forall h, In h hs -> exists p, In p problems /\ pr_Host_id p = h) /\
    (forall p, In p problems -> ~ In (key_of p) ks -> In (pr_Host_id p) hs) /\
    ((forall p, In p problems -> In (key_of p) ks) -> hs = []).
Proof.
  intros Hperm Hk problems. unfold RunHelp, GetRecentProblems. fold problems.
  set (hosts := order (remove_dups (map pr_Host_id problems))).
  assert (forall h, In h hosts <-> exists p, In p problems /\ pr_Host_id p = h) as Hh.
  { intros h. unfold hosts. rewrite <- list_elem_of_In, (Hperm _), elem_of_remove_dups, list_elem_of_In, in_map_iff. naive_solver. }
  destruct (handle_hosts_spec now problems hosts c ks w) as (c' & ks' & hs & w' & E & K & En & P1 & P2 & P3).
  - unfold hosts. rewrite (Hperm _). apply NoDup_remove_dups.
  - intros h Hin. apply Hh in Hin as (p & Hp & Eh). intros E.
    assert (In p (of_host h problems)) as X by by apply of_host_in. by rewrite E in X.
  - done.
  - exists c', ks', hs, w'. split_and!; try done.
    + intros h Hx. apply Hh. auto.
    + intros p Hp Hn. apply P2; [done| |done]. apply Hh. eauto.
    + intros Hall. apply P3. auto.
Qed.

(** ** A run over the pointer cache *)
Definition problem_world : World :=
  set_w_problems [mkProblem 1 "legacy-1" ProblemTypeNoHeartbeat SeverityCritical 5000 None "null";
                  mkProblem 2 "legacy-1" ProblemTypeSEL SeverityCritical 6000 None "null"] legacy_world.

Lemma new_cache_keys capacity ttl : 0 < capacity -> cache_keys (NewCache capacity ttl) [].
Proof. intros Hc. exists []. split_and!; [apply represents_new|done|done|simpl; lia]. Qed.

Lemma run_help_decides_witness :
  exists c' w', RunHelp (fun l => l) 7000 60000 (NewCache 10 60000) problem_world = Some (c', w') /\
    map a_hostid (w_actions w') = ["legacy-1"; "legacy-1"].
Proof.
  destruct (run_help_decides (fun l => l) 7000 60000 (NewCache 10 60000) [] problem_world) as (c' & ks' & hs & w' & E & _).
  - intros l. reflexivity.
  - apply new_cache_keys. reflexivity.
  - exists c', w'. split; [exact E|]. vm_compute in E. injection E as _ <-. reflexivity.
Defined.

(** Finding: one stale problem is enough to replace a host; the thresholds are not applied. *)
Example one_old_problem_replaces :
  Decide "h" [mkProblem 1 "h" ProblemTypeFirmware SeverityInfo 0 None "null"] (60 * Minute) =
  Some (mkActionRecord 0 "h" ActionReplaceHost ActionPending 0 "aws").
Proof. reflexivity. Qed.

(** The role column may be NULL in the schema, though no modelled operation writes NULL: one such row
    fails the scan of the whole list, and the detector then checks no host. *)
Example null_role_stops_scan : forall checks now z,
  let d := set_host [set_h_role None (new_host "x" "aws" 0)] empty_db in
  let w := mkWorld d [] [] [] [] in
  @ScanZone {| json_parse := fun _ => Some JNull |} checks now z w = w.
Proof. reflexivity. Qed.

#[local] Instance null_json : GoJson := {| json_parse := fun s => if s == "null" then Some JNull else None |}.

Lemma scan_records_witness :
  exists new, ScanZone [host_store_Detect] (4 * Minute) "z1" legacy_world = set_w_problems (w_problems legacy_world ++ new) legacy_world.
Proof.
  destruct (scan_records [host_store_Detect] (4 * Minute) "z1" legacy_world
    (match scan_hosts (host (w_db legacy_world)) with Ok l => l | Err _ => [] end)) as (new & H & _).
  - exists JNull. reflexivity.
  - vm_compute. reflexivity.
  - intros c h ps [<-|[]] E. unfold host_store_Detect in E. injection E as <-. apply Forall_app.
    split; match goal with |- context [if ?b then _ else _] => destruct b end; repeat constructor.
  - exists new. exact H.
Defined.
