(* ===== verification/Autoscaler.v ===== *)
(** * The Cluster Autoscaler adapter: internal/adapter/autoscaler

    The gRPC server that translates the Cluster Autoscaler's callbacks into calls of the
    platform API (server.go), its snapshot of groups (static.go), the node verifier
    (kubernetes.go) and the HTTP client (client.go).

    The Go interface [CraneClient] is a class over the world its calls run in; the server
    is written against it.  The HTTP client is an instance whose world is [Net]: a store
    behind the API of Http.v, and a network that may lose requests or responses, and lets
    any other process act before each call.  Request bodies arrive as they were sent: the
    JSON encoding of the two request types is not modelled. *)
From S2P Require Import Prelude GoStrings Sql Api Schema Admission Removal Scheduling Catalog Bootstrap Http.

Local Open Scope string_scope.
Local Open Scope list_scope.
Local Open Scope Z_scope.
Local Open Scope crane_scope.

(** ** gRPC statuses *)
Inductive Code : Type :=
| Canceled | Unknown | InvalidArgument | DeadlineExceeded | NotFound | PermissionDenied | ResourceExhausted
| FailedPrecondition | Aborted | OutOfRange | Internal | Unavailable | Unauthenticated.

#[global] Instance Code_eq_dec : EqDecision Code.
Proof. solve_decision. Defined.

(** A Go error as [status.Code] sees it; an error without a status is [Unknown]. *)
Inductive grpc (A : Type) : Type := GOk (a : A) | GErr (code : Code) (msg : string).
Arguments GOk {A} a.
Arguments GErr {A} code msg.

(** A call in a world. *)
Definition Call (W A : Type) : Type := W -> grpc A * W.
Definition call_ret {W A} (r : grpc A) : Call W A := fun w => (r, w).
Definition call_bind {W A B} (m : Call W A) (k : A -> Call W B) : Call W B :=
  fun w => match m w with
           | (GOk a, w') => k a w'
           | (GErr c msg, w') => (GErr c msg, w')
           end.

Notation "'rpc!' x := m 'in' k" := (call_bind m (fun x => k))
  (at level 10, x pattern, m at level 100, k at level 200,
   format "'[v' 'rpc!'  x  :=  m  'in' '/' k ']'") : crane_scope.

(** ** static.go *)
Record Taint : Type := mkStaticTaint { tt_Key : string; tt_Value : string; tt_Effect : string }.

(** The states that the code writes as the strings ["running"], ["creating"] and
    ["deleting"]; any other string is refused by [NewServer]. *)
Record Node : Type := mkStaticNode { nd_HostID : string; nd_ProviderID : string; nd_Name : string; nd_State : string }.

Record StaticNodeGroup : Type := mkStaticGroup {
  sg_ID : string; sg_ClusterID : string; sg_TemplateRevision : string; sg_Zone : string; sg_Region : string;
  sg_Pool : string; sg_MinNodes : Z; sg_MaxNodes : Z; sg_InstanceType : string; sg_Architecture : string;
  sg_CPU : Z; sg_MemoryMB : Z; sg_Labels : gmap string string; sg_Taints : list Taint; sg_Nodes : list Node }.

Definition set_sg_Architecture (v : string) (g : StaticNodeGroup) : StaticNodeGroup :=
  mkStaticGroup (sg_ID g) (sg_ClusterID g) (sg_TemplateRevision g) (sg_Zone g) (sg_Region g) (sg_Pool g)
    (sg_MinNodes g) (sg_MaxNodes g) (sg_InstanceType g) v (sg_CPU g) (sg_MemoryMB g) (sg_Labels g) (sg_Taints g) (sg_Nodes g).

(** [NodeGroupForNode] of [StaticProvider]. *)
Definition static_NodeGroupForNode (groups : list StaticNodeGroup) (nodeID : string) : option StaticNodeGroup :=
  List.find (fun g => existsb (fun n => nd_ProviderID n == nodeID) (sg_Nodes g)) groups.

Record NodeTemplate : Type := mkNodeTemplate {
  nt_Zone : string; nt_Region : string; nt_Pool : string; nt_Labels : gmap string string; nt_Taints : list Taint;
  nt_CPU : Z; nt_MemoryMB : Z }.

Definition template_architecture (g : StaticNodeGroup) : string :=
  if sg_Architecture g == "" then "amd64" else sg_Architecture g.

Definition Template (groups : list StaticNodeGroup) (groupID : string) : option NodeTemplate :=
  g ← List.find (fun g => sg_ID g == groupID) groups;
  let labels := SchedulingLabels (mkScheduling (sg_InstanceType g) (template_architecture g) (sg_Region g) (sg_Zone g)
                                    (sg_Labels g) []) (sg_Pool g) in
  Some (mkNodeTemplate (sg_Zone g) (sg_Region g) (sg_Pool g) labels (sg_Taints g) (sg_CPU g) (sg_MemoryMB g)).

(** ** Validation of groups *)

(** The largest memory, in MiB, whose byte count fits [int64]. *)
Definition max_memory : Z := MaxInt64 / (1024 * 1024).

Definition labels_agree (canonical own : gmap string string) : bool :=
  forallb (fun kv => match own !! fst kv with Some v => v == snd kv | None => true end) (map_to_list canonical).

(** The conditions of server.go on one group of the configuration. *)
Definition static_group_ok (ids : list string) (g : StaticNodeGroup) : bool :=
  negb ((sg_ID g == "") || one_of (sg_ID g) ids || (sg_Zone g == "") || (sg_Region g == "") || (sg_Pool g == "") ||
        (sg_TemplateRevision g == "") || (sg_InstanceType g == "") || (sg_MinNodes g <? 0) ||
        (sg_MaxNodes g <? sg_MinNodes g) || (MaxInt32 <? sg_MaxNodes g) || (sg_CPU g <=? 0) ||
        (sg_MemoryMB g <=? 0) || (max_memory <? sg_MemoryMB g)).

Definition static_canonical (g : StaticNodeGroup) : gmap string string :=
  <["kubernetes.io/os" := "linux"]> (<["kubernetes.io/arch" := sg_Architecture g]>
  (<["topology.kubernetes.io/region" := sg_Region g]> (<["topology.kubernetes.io/zone" := sg_Zone g]>
  (<["platform.crane.io/node-pool" := sg_Pool g]> (<["node.kubernetes.io/instance-type" := sg_InstanceType g]> ∅))))).

Definition taint_ok (t : Taint) : bool :=
  negb ((tt_Key t == "") || negb (one_of (tt_Effect t) ["NoSchedule"; "PreferNoSchedule"; "NoExecute"])).

(** The inner loop over the nodes of a group, with the [nodes] map. *)
Fixpoint static_nodes (discovering : bool) (seen : list string) (l : list Node) : option (list string) :=
  match l with
  | [] => Some seen
  | n :: rest =>
      if (nd_ProviderID n == "") || (nd_HostID n == "") || (negb discovering && (nd_Name n == "")) ||
         one_of (nd_ProviderID n) seen || negb (one_of (nd_State n) ["running"; "creating"; "deleting"])
      then None else static_nodes discovering (nd_ProviderID n :: seen) rest
  end.

(** The loop of [NewServer] over [cfg.Groups] with its [ids] and [nodes] maps. *)
Fixpoint static_groups (clusterID : string) (discovering : bool) (ids nodes : list string) (l : list StaticNodeGroup)
    : grpc (list StaticNodeGroup) :=
  match l with
  | [] => GOk []
  | g :: rest =>
      if sg_ClusterID g != clusterID then static_groups clusterID discovering ids nodes rest
      else if negb (static_group_ok ids g) then GErr Unknown "invalid static node group"
      else let g := if sg_Architecture g == "" then set_sg_Architecture "amd64" g else g in
      if negb (one_of (sg_Architecture g) ["amd64"; "arm64"]) then GErr Unknown "unsupported template architecture"
      else if negb (labels_agree (static_canonical g) (sg_Labels g)) then GErr Unknown "static template overrides canonical topology"
      else if negb (forallb taint_ok (sg_Taints g)) then GErr Unknown "invalid static taint"
      else match static_nodes discovering nodes (sg_Nodes g) with
           | None => GErr Unknown "invalid or duplicate static node"
           | Some nodes => match static_groups clusterID discovering (sg_ID g :: ids) nodes rest with
                           | GOk gs => GOk (g :: gs)
                           | e => e
                           end
           end
  end.

(** ** Groups as Crane reports them *)
Definition discovered_group_ok (ids : list string) (g : AutoscalerGroup) : bool :=
  let s := ag_Scheduling g in
  negb ((ag_ID g == "") || one_of (ag_ID g) ids || (ag_ClusterID g == "") || (ag_Pool g == "") ||
        (ag_TemplateRevision g == "") || (ag_MinNodes g <? 0) || (ag_MaxNodes g <? ag_MinNodes g) ||
        (MaxInt32 <? ag_MaxNodes g) || (ag_CPU g <=? 0) || (ag_MemoryMiB g <=? 0) || (sZone s == "") ||
        (sRegion s == "") || (InstanceType s == "") || (max_memory <? ag_MemoryMiB g)).

Definition discovered_canonical (g : AutoscalerGroup) : gmap string string :=
  let s := ag_Scheduling g in
  let m := <["kubernetes.io/os" := "linux"]> (<["topology.kubernetes.io/region" := sRegion s]>
           (<["topology.kubernetes.io/zone" := sZone s]> (<["platform.crane.io/node-pool" := ag_Pool g]>
           (<["node.kubernetes.io/instance-type" := InstanceType s]> ∅)))) in
  if Architecture s == "" then m else <["kubernetes.io/arch" := Architecture s]> m.

Definition instance_state (s : HostState) : string :=
  match s with
  | HostReady | HostConverging | HostRegistering | HostUnhealthy => "running"
  | HostDraining | HostTerminating => "deleting"
  | _ => "creating"
  end.

(** The inner loop over the nodes that Crane reports, which carry no name. *)
Fixpoint discovered_nodes (seen : list string) (l : list AutoscalerNode) : option (list Node * list string) :=
  match l with
  | [] => Some ([], seen)
  | n :: rest =>
      if (an_HostID n == "") || (an_ProviderID n == "") || one_of (an_ProviderID n) seen then None
      else '(ns, seen) ← discovered_nodes (an_ProviderID n :: seen) rest;
           Some (mkStaticNode (an_HostID n) (an_ProviderID n) "" (instance_state (an_State n)) :: ns, seen)
  end.

Definition discovered_group (g : AutoscalerGroup) (ns : list Node) : StaticNodeGroup :=
  let s := ag_Scheduling g in
  mkStaticGroup (ag_ID g) (ag_ClusterID g) (ag_TemplateRevision g) (sZone s) (sRegion s) (ag_Pool g)
    (ag_MinNodes g) (ag_MaxNodes g) (InstanceType s) (Architecture s) (ag_CPU g) (ag_MemoryMiB g) (Labels s)
    (map (fun t => mkStaticTaint (taint_Key t) (taint_Value t) (taint_Effect t)) (Taints s)) ns.

Fixpoint discovered_from (ids nodes : list string) (l : list AutoscalerGroup) : grpc (list StaticNodeGroup) :=
  match l with
  | [] => GOk []
  | g :: rest =>
      if negb (discovered_group_ok ids g) then GErr Internal "invalid Crane group metadata"
      else if negb (one_of (Architecture (ag_Scheduling g)) [""; "amd64"; "arm64"]) then GErr Internal "invalid Crane architecture"
      else if negb (labels_agree (discovered_canonical g) (Labels (ag_Scheduling g))) then GErr Internal "invalid Crane topology label"
      else match discovered_nodes nodes (ag_Nodes g) with
           | None => GErr Internal "duplicate Crane node identity"
           | Some (ns, nodes) =>
               match discovered_from (ag_ID g :: ids) nodes rest with
               | GOk gs => GOk (discovered_group g ns :: gs)
               | e => e
               end
           end
  end.

Definition discoveredGroups (l : list AutoscalerGroup) : grpc (list StaticNodeGroup) := discovered_from [] [] l.

(** ** The interface of the client *)
Class CraneClient (W : Type) : Type := {
  client_Target : string -> Call W CapacityResult;
  client_SetTarget : CapacityRequest -> Call W CapacityResult;
  client_RemoveNodes : NodeRemovalRequest -> Call W unit;
  (** [None] when the client does not implement [Discover]. *)
  client_Discover : option (Call W (list AutoscalerGroup)) }.

(** [ctx.Err()] as [status.FromContextError] maps it: before an attempt of [retry], and
    while it waits after one. *)
Record Deadline : Type := mkDeadline { before_attempt : nat -> option Code; while_waiting : nat -> option Code }.

Definition int32 (z : Z) : Z := (z + 2 ^ 31) mod 2 ^ 32 - 2 ^ 31.

(** ** server.go *)
Section Server.
Context {W : Type} {client : CraneClient W}.

(** [NodeVerifier]: the name and the provider identity of a node against Kubernetes. *)
Definition NodeVerifier : Type := string -> string -> W -> grpc unit.

(** The provider is the last snapshot of the groups; [sv_discovering] says that the server
    was built without configured groups and refreshes its snapshot from Crane. *)
Record Server : Type := mkServer {
  sv_clusterID : string; sv_groups : list StaticNodeGroup; sv_discovering : bool; sv_verifier : option NodeVerifier }.

Definition set_sv_groups (v : list StaticNodeGroup) (s : Server) : Server :=
  mkServer (sv_clusterID s) v (sv_discovering s) (sv_verifier s).
Definition SetNodeVerifier (v : NodeVerifier) (s : Server) : Server :=
  mkServer (sv_clusterID s) (sv_groups s) (sv_discovering s) (Some v).

Definition discover_all : Call W (list StaticNodeGroup) :=
  match client_Discover with
  | None => call_ret (GErr Unknown "Crane discovery client is required")
  | Some discover => rpc! l := discover in call_ret (discoveredGroups l)
  end.

Definition NewServer (clusterID : string) (configured : list StaticNodeGroup) : Call W Server :=
  if clusterID == "" then call_ret (GErr Unknown "cluster identity and Crane client are required")
  else
    let discovering := (length configured =? 0)%nat in
    rpc! cfg := (if discovering then discover_all else call_ret (GOk configured)) in
    rpc! groups := call_ret (static_groups clusterID discovering [] [] cfg) in
    if (length groups =? 0)%nat && negb discovering
    then call_ret (GErr Unknown "at least one node group must belong to the configured cluster")
    else call_ret (GOk (mkServer clusterID groups discovering None)).

(** A refresh that fails leaves the snapshot as it is. *)
Definition refresh (s : Server) : W -> grpc unit * Server * W := fun w =>
  if sv_discovering s then
    match discover_all w with
    | (GErr c msg, w') => (GErr c msg, s, w')
    | (GOk groups, w') =>
        if forallb (fun g => sg_ClusterID g == sv_clusterID s) groups then (GOk tt, set_sv_groups groups s, w')
        else (GErr Internal "foreign Crane group", s, w')
    end
  else (GOk tt, s, w).

Definition group_of (s : Server) (id : string) : grpc StaticNodeGroup :=
  match List.find (fun g => sg_ID g == id) (sv_groups s) with
  | Some g => GOk g
  | None => GErr NotFound "unknown node group"
  end.

(** A callback: it may refresh the snapshot, and answers. *)
Definition Callback (A : Type) : Type := Server -> W -> grpc A * Server * W.

(** [if err := s.refresh(ctx); err != nil { return err }]. *)
Definition refreshed {A} (k : Server -> Call W A) : Callback A := fun s w =>
  match refresh s w with
  | (GErr c msg, s', w') => (GErr c msg, s', w')
  | (GOk _, s', w') => let '(r, w'') := k s' w' in (r, s', w'')
  end.

(** [_ = s.refresh(ctx)]. *)
Definition perhaps_refreshed {A} (k : Server -> Call W A) : Callback A := fun s w =>
  let '(_, s', w') := refresh s w in let '(r, w'') := k s' w' in (r, s', w'').

Record GroupProto : Type := mkGroupProto { gp_Id : string; gp_MinSize : Z; gp_MaxSize : Z; gp_Debug : string }.
Definition empty_group : GroupProto := mkGroupProto "" 0 0 "".
Definition groupProto (g : StaticNodeGroup) : GroupProto :=
  mkGroupProto (sg_ID g) (int32 (sg_MinNodes g)) (int32 (sg_MaxNodes g)) (String.append "crane/" (sg_ID g)).

Definition NodeGroups : Callback (list GroupProto) :=
  refreshed (fun s => call_ret (GOk (map groupProto (sv_groups s)))).

Definition NodeGroupForNode (providerID : string) : Callback GroupProto :=
  perhaps_refreshed (fun s =>
    if providerID == "" then call_ret (GErr InvalidArgument "node provider identity is required")
    else call_ret (GOk (match static_NodeGroupForNode (sv_groups s) providerID with
                        | Some g => groupProto g
                        | None => empty_group
                        end))).

Definition NodeGroupTargetSize (id : string) : Callback Z :=
  perhaps_refreshed (fun s =>
    rpc! g := call_ret (group_of s id) in
    rpc! target := client_Target (sg_ID g) in
    if (res_TargetNodes target <? 0) || (MaxInt32 <? res_TargetNodes target)
    then call_ret (GErr Internal "invalid persisted target")
    else call_ret (GOk (int32 (res_TargetNodes target)))).

(** [retry] with [n] attempts left after this one; the code allows three in all. *)
Fixpoint retry_from (ctx : Deadline) (attempt n : nat) {A} (call : Call W A) : Call W A := fun w =>
  match before_attempt ctx attempt with
  | Some c => (GErr c "context", w)
  | None =>
      match call w with
      | (GErr Unavailable msg, w') =>
          match n with
          | O => (GErr Unavailable msg, w')
          | S n => match while_waiting ctx attempt with
                   | Some c => (GErr c "context", w')
                   | None => retry_from ctx (S attempt) n call w'
                   end
          end
      | r => r
      end
  end.

Definition retry (ctx : Deadline) {A} (call : Call W A) : Call W A := retry_from ctx 0 2 call.

(** The request that one change of target sends, at every attempt. *)
Definition target_request (s : Server) (g : StaticNodeGroup) (id requestID : string) (target : CapacityResult) (delta : Z)
    : CapacityRequest :=
  mkCapacityRequest id requestID (sv_clusterID s) (res_TargetRevision target) (add64 (res_TargetNodes target) delta)
    (sg_TemplateRevision g).

Definition changeTarget (ctx : Deadline) (requestID id : string) (delta : Z) : Callback unit :=
  refreshed (fun s =>
    rpc! g := call_ret (group_of s id) in
    rpc! target := client_Target id in
    if (res_TargetNodes target <? 0) || (MaxInt32 <? res_TargetNodes target) || (res_TargetRevision target <? 0)
    then call_ret (GErr Internal "invalid persisted target")
    else let req := target_request s g id requestID target delta in
    if (DesiredTarget req <? sg_MinNodes g) || (sg_MaxNodes g <? DesiredTarget req)
    then call_ret (GErr OutOfRange "target outside node group limits")
    else retry ctx (rpc! _ := client_SetTarget req in call_ret (GOk tt))).

Definition NodeGroupIncreaseSize (ctx : Deadline) (requestID id : string) (delta : Z) : Callback unit :=
  if delta <=? 0 then fun s w => (GErr InvalidArgument "increase delta must be positive", s, w)
  else changeTarget ctx requestID id delta.

Definition NodeGroupDecreaseTargetSize (ctx : Deadline) (requestID id : string) (delta : Z) : Callback unit :=
  if 0 <=? delta then fun s w => (GErr InvalidArgument "decrease delta must be negative", s, w)
  else changeTarget ctx requestID id delta.

(** The node of the group that a request names; with a verifier only the provider
    identity is compared here. *)
Definition known_node (s : Server) (g : StaticNodeGroup) (name providerID : string) : option Node :=
  List.find (fun n => (nd_ProviderID n == providerID) && (bool_decide (is_Some (sv_verifier s)) || (nd_Name n == name)))
    (sg_Nodes g).

(** The loop over [req.Nodes] with its [seen] map. *)
Fixpoint removal_nodes (s : Server) (g : StaticNodeGroup) (seen : list string) (l : list (string * string)) : Call W (list RemovalNode) :=
  match l with
  | [] => call_ret (GOk [])
  | (name, providerID) :: rest =>
      let refused := call_ret (GErr InvalidArgument "node does not belong to group or is duplicated") in
      match known_node s g name providerID with
      | None => refused
      | Some n =>
          if one_of (nd_HostID n) seen then refused
          else rpc! _ := (match sv_verifier s with
                          | Some verify => fun w => (verify name providerID w, w)
                          | None => call_ret (GOk tt)
                          end) in
               rpc! ns := removal_nodes s g (nd_HostID n :: seen) rest in
               call_ret (GOk (mkRemovalNode (nd_HostID n) (nd_Name n) (nd_ProviderID n) :: ns))
      end
  end.

(** The snapshot is not refreshed here. *)
Definition NodeGroupDeleteNodes (ctx : Deadline) (requestID id : string) (nodes : list (string * string)) : Callback unit :=
  fun s w =>
    let run : Call W unit :=
      rpc! g := call_ret (group_of s id) in
      if (length nodes =? 0)%nat then call_ret (GErr InvalidArgument "named nodes are required")
      else rpc! ns := removal_nodes s g [] nodes in
           rpc! target := client_Target (sg_ID g) in
           retry ctx (client_RemoveNodes (mkNodeRemovalRequest (sg_ID g) requestID (res_TargetRevision target) ns)) in
    let '(r, w') := run w in (r, s, w').

Inductive InstanceState : Type := unspecified | instanceRunning | instanceCreating | instanceDeleting.

(** Lookup in the map [states]: a missing key gives the zero value. *)
Definition proto_state (s : string) : InstanceState :=
  if s == "running" then instanceRunning else if s == "creating" then instanceCreating
  else if s == "deleting" then instanceDeleting else unspecified.

Definition NodeGroupNodes (id : string) : Callback (list (string * InstanceState)) :=
  perhaps_refreshed (fun s =>
    rpc! g := call_ret (group_of s id) in
    call_ret (GOk (map (fun n => (nd_ProviderID n, proto_state (nd_State n))) (sg_Nodes g)))).

(** The Kubernetes node of a template, before protobuf encoding: labels, taints, CPUs,
    bytes of memory and pods. *)
Record TemplateNode : Type := mkTemplateNode {
  tn_Name : string; tn_Labels : gmap string string; tn_Taints : list Taint; tn_CPU : Z; tn_Memory : Z; tn_Pods : Z }.

Definition NodeGroupTemplateNodeInfo (id : string) : Callback TemplateNode :=
  refreshed (fun s =>
    rpc! _ := call_ret (group_of s id) in
    match Template (sv_groups s) id with
    | None => call_ret (GErr NotFound "unknown node group")
    | Some t => call_ret (GOk (mkTemplateNode (String.append "crane-template-" id) (nt_Labels t) (nt_Taints t) (nt_CPU t)
                                 (mul64 (mul64 (nt_MemoryMB t) 1024) 1024) 110))
    end).

Definition Refresh : Callback unit := refreshed (fun _ => call_ret (GOk tt)).

(** ** kubernetes.go *)

(** [get_node] reads [spec.providerID] of the node with a name. *)
Definition VerifyNode (get_node : string -> W -> option string) : NodeVerifier := fun name providerID w =>
  if (name == "") || (providerID == "") then GErr InvalidArgument "node name and provider identity are required"
  else match get_node name w with
       | None => GErr Unavailable "Kubernetes node verification unavailable"
       | Some p => if p != providerID then GErr InvalidArgument "node name and provider identity do not match" else GOk tt
       end.
End Server.
Arguments Server W : clear implicits.

(** ** client.go *)

(** [NewHTTPClient] keeps the credential and the cluster. *)
Record HTTPClient : Type := mkHTTPClient { hc_baseURL : string; hc_token : string; hc_clusterID : string }.

(** [is_loopback] is [net.ParseIP(h).IsLoopback()], [base] the parsed URL without its path
    as [URL.String] prints it. *)
Definition NewHTTPClient `{GoURL} (is_loopback : string -> bool) (base : URL -> string) (baseURL token clusterID : string)
    : grpc HTTPClient :=
  let required := GErr InvalidArgument "Crane URL and adapter credentials are required" in
  match url_parse baseURL with
  | None => required
  | Some u =>
      if (u_Host u == "") || u_User u || (u_RawQuery u != "") || (u_Fragment u != "") ||
         ((u_Path u != "") && (u_Path u != "/")) || ((u_Scheme u != "http") && (u_Scheme u != "https")) ||
         (token == "") || (clusterID == "")
      then required
      else if (u_Scheme u == "http") && (u_Hostname u != "localhost") && negb (is_loopback (u_Hostname u))
      then GErr InvalidArgument "Crane HTTP without TLS is allowed only on loopback"
      else GOk (mkHTTPClient (base u) token clusterID)
  end.

(** What happens to one request: it never reaches the API, it is served and its response
    is lost ([http.Do] fails, the context's error first), the response body is cut, or
    the response arrives whole. *)
Inductive delivery : Type :=
| NotSent (ctx : option Code) | NoResponse (ctx : option Code) | Cut | Delivered.

(** One call: the API's clocks and identifiers, the iteration order of its principals,
    what other processes do to the store before it arrives, and its delivery. *)
Record Exchange : Type := mkExchange {
  x_env : Env; x_order : list (string * string); x_others : DB -> DB; x_delivery : delivery }.

(** A request that the API served, with the store before and after. *)
Record Served : Type := mkServed { s_call : AdapterCall; s_before : DB; s_after : DB }.

Record Net : Type := mkNet { n_db : DB; n_calls : nat; n_served : list Served }.

(** [codes.Unauthenticated] and so on, by response status. *)
Definition status_code (status : Z) : Code :=
  if status =? 400 then InvalidArgument else if status =? 401 then Unauthenticated
  else if status =? 403 then PermissionDenied else if status =? 404 then NotFound
  else if status =? 409 then Aborted else if status =? 422 then FailedPrecondition
  else if one_of status [429; 502; 503; 504] then Unavailable else Internal.

Definition transport_error {A} (ctx : option Code) : grpc A :=
  match ctx with Some c => GErr c "context" | None => GErr Unavailable "Crane transport unavailable" end.

Section Client.
Context {k8s : K8s} (a : API) (wire : nat -> Exchange) (c : HTTPClient).

Definition client_headers : Headers := mkHeaders (bearer (hc_token c)) (hc_clusterID c).

(** The response as [do] reads it; [output] decodes the body, [None] standing for a body
    that was cut, and fails on it unless the caller passes a nil [output]. *)
Definition read_response {A} (output : option Body -> option A) (cut : bool) (r : Response) : grpc A :=
  if (rs_status r <? 200) || (300 <=? rs_status r) then
    let limited := negb cut && match rs_body r with BCode code => code == "capacity_limit" | _ => false end in
    GErr (if (rs_status r =? 422) && limited then ResourceExhausted else status_code (rs_status r)) "Crane rejected request"
  else match output (if cut then None else Some (rs_body r)) with
       | Some v => GOk v
       | None => GErr Unavailable "Crane response incomplete"
       end.

Definition do {A} (call : AdapterCall) (output : option Body -> option A) : Call Net A := fun w =>
  let x := wire (n_calls w) in
  let d := x_others x (n_db w) in
  match x_delivery x with
  | NotSent ctx => (transport_error ctx, mkNet d (S (n_calls w)) (n_served w))
  | sent =>
      let '(r, d') := Handler a (x_env x) (x_order x) client_headers (Adapter call) d in
      (match sent with
       | NoResponse ctx => transport_error ctx
       | Cut => read_response output true r
       | _ => read_response output false r
       end, mkNet d' (S (n_calls w)) (n_served w ++ [mkServed call d d']))
  end.

Definition body_target (b : option Body) : option CapacityResult := match b with Some (BTarget r) => Some r | _ => None end.
Definition body_discovery (b : option Body) : option (list AutoscalerGroup) := match b with Some (BDiscovery l) => Some l | _ => None end.

Definition http_Target (group : string) : Call Net CapacityResult :=
  rpc! r := do (GetTarget group) body_target in
  if (res_NodeGroupID r != group) || (res_TargetNodes r <? 0) || (res_TargetRevision r <? 0)
  then call_ret (GErr Internal "invalid Crane target response") else call_ret (GOk r).

Definition http_Discover : Call Net (list AutoscalerGroup) :=
  rpc! l := do GetDiscovery body_discovery in
  if forallb (fun g => negb ((ag_ClusterID g != hc_clusterID c) || (ag_ID g == "") || (ag_TemplateRevision g == ""))) l
  then call_ret (GOk l) else call_ret (GErr Internal "invalid Crane discovery response").

(** The cluster of the request is not sent: the API takes it from the credential. *)
Definition target_body (req : CapacityRequest) : setTargetRequest :=
  mkSetTargetRequest (NodeGroupID req) (RequestID req) (ExpectedTargetRevision req) (DesiredTarget req) (TemplateRevision req).

Definition http_SetTarget (req : CapacityRequest) : Call Net CapacityResult :=
  rpc! r := do (PostCapacity (Some (target_body req))) body_target in
  if (res_NodeGroupID r != NodeGroupID req) || (res_RequestID r != RequestID req) ||
     (res_TargetNodes r != DesiredTarget req) || (res_TargetRevision r != add64 (ExpectedTargetRevision req) 1)
  then call_ret (GErr Unavailable "Crane outcome could not be verified") else call_ret (GOk r).

Definition http_RemoveNodes (req : NodeRemovalRequest) : Call Net unit := do (PostRemovals (Some req)) (fun _ => Some tt).

#[global] Instance HTTPClient_client : CraneClient Net := {|
  client_Target := http_Target; client_SetTarget := http_SetTarget; client_RemoveNodes := http_RemoveNodes;
  client_Discover := Some http_Discover |}.
End Client.
