(* ===== verification/AutoscalerFacts.v ===== *)
(** * The adapter end to end

    The adapter's callbacks run over a network that loses requests and responses, against
    an API whose store every other process of the system keeps changing (System.v). *)
From S2P Require Import Prelude GoStrings Sql Api Decode Schema Admission Invariant Fixture AdmissionFacts Lease Handoff LeaseFacts Removal RemovalFacts Scheduling Catalog CatalogFacts Bootstrap BootstrapFacts Provision Http HttpFacts System Autoscaler.

Local Open Scope string_scope.
Local Open Scope list_scope.
Local Open Scope Z_scope.
Local Open Scope crane_scope.

(** ** Recorded requests are kept *)
Section Requests.
Context {k8s : K8s} {gonet : GoNet} {gourl : GoURL} {digest : Digest}.

Definition requests_kept (d d' : DB) : Prop := incl (capacity_requests d) (capacity_requests d').

Lemma requests_same d d' : capacity_requests d' = capacity_requests d -> requests_kept d d'.
Proof. unfold requests_kept. intros ->. apply incl_refl. Qed.

Lemma SetTarget_requests e req d r d' : SetTarget e req d = (r, d') -> requests_kept d d'.
Proof.
  destruct r as [r|err]; [|intros ->%SetTarget_err; by apply requests_same].
  intros (p & _ & _ & H)%SetTarget_ok. destruct (select_one _ _); [destruct H as (_ & -> & _); by apply requests_same|].
  apply admitted_topology in H as (_ & _ & _ & _ & E). unfold requests_kept. rewrite E. apply incl_appl, incl_refl.
Qed.

Lemma removals_requests e c req d r d' : CreateAutoscalerRemovals e c req d = (r, d') -> requests_kept d d'.
Proof.
  destruct r as [r|err]; [|intros ->%CreateAutoscalerRemovals_err; by apply requests_same].
  intros (_ & p & _ & _ & H)%CreateAutoscalerRemovals_ok. destruct (select_one _ _); [destruct H as (_ & ->); by apply requests_same|].
  destruct (removed_shape _ _ _ _ _ H) as (ids & _ & ->). by apply requests_same.
Qed.

Lemma CreateRemoval_requests e c rev x d r d' : CreateRemoval e c rev x d = (r, d') -> requests_kept d d'.
Proof.
  destruct r as [r|err]; [|intros ->%CreateRemoval_err; by apply requests_same].
  intros (p & h & d1 & d2 & _ & _ & _ & _ & _ & _ & -> & _ & (o & Ho & _) & (y & Hy & _))%CreateRemoval_ok.
  apply insert_operation_ok in Ho as [-> _]. apply insert_removal_ok in Hy as [-> _]. by apply requests_same.
Qed.

Lemma create_requests t d r d' : typed t -> create t d = (r, d') -> requests_kept d d'.
Proof.
  intros Ht H. destruct (create_kept t d r d' Ht H) as [_ G]. pose proof (gw_rest _ _ G) as E. injection E as E.
  by apply requests_same.
Qed.

Lemma CreateBootstrap_requests e r d res d' : CreateBootstrap e r d = (res, d') -> requests_kept d d'.
Proof.
  intros H. destruct res as [id|err]; [|apply CreateBootstrap_err in H as ->; by apply requests_same].
  apply CreateBootstrap_ok in H as (p & _ & _ & H).
  destruct (bootstrap_request r d) as [[b o]|]; [destruct H as [-> _]; by apply requests_same|].
  destruct H as [_ [_ (i & d1 & d2 & Hi & _ & _ & Hs & _ & _ & Ho & Hb)]].
  apply dec_intent_typed in Hi as [Hpt Hgt]. destruct (seed_tx_kept _ _ _ _ Hpt Hgt Hs) as [_ G].
  apply insert_operation_ok in Ho as [-> _]. unfold insert_bootstrap in Hb. inv_ok.
  pose proof (gw_rest _ _ G) as E. injection E as E. by apply requests_same.
Qed.

Lemma scheduling_requests id ex rev t l d r d' : UpdateNodeGroupScheduling id ex rev t l d = (r, d') -> requests_kept d d'.
Proof.
  unfold UpdateNodeGroupScheduling. destruct l as [j|]; [|intros [= _ <-]; by apply requests_same].
  case_match; [intros [= _ <-]; by apply requests_same|].
  destruct r as [[]|e]; [|intros [-> _]%run_tx_err; by apply requests_same].
  rewrite run_tx_ok. intros Hrun. inv_tx. case_bool_decide; inv_tx; by apply requests_same.
Qed.

Lemma membership_requests m d r d' : UpdateClusterZone m d = (r, d') -> requests_kept d d'.
Proof. unfold UpdateClusterZone. destruct (normalizeMembership m); intros [= _ <-]; by apply requests_same. Qed.

Lemma requests_across : across_calls requests_kept.
Proof.
  split; intros; eauto using create_requests, membership_requests, scheduling_requests, CreateBootstrap_requests,
    SetTarget_requests, removals_requests. by apply requests_same.
Qed.

Lemma framed_requests b op d d' : framed b op d d' -> requests_kept d d'.
Proof. intros F. pose proof (fr_elsewhere _ _ _ _ F) as E. unfold elsewhere, topology in E. injection E as E. by apply requests_same. Qed.

Lemma claim_requests t z k w dur a d r d' : claim t z k w dur a d = (r, d') -> requests_kept d d'.
Proof.
  destruct r as [op|e]; [intros (o & _ & _ & _ & ->)%claim_ok|intros ->%claim_err]; by apply requests_same.
Qed.

Lemma phase_requests t op next v d r d' : BootstrapPhase t op next v d = (r, d') -> requests_kept d d'.
Proof.
  destruct r as [[]|e]; [|intros ->%BootstrapPhase_err; by apply requests_same].
  intros H. apply requests_same. unfold BootstrapPhase in H. case_match; [done|]. apply run_tx_ok in H. inv_tx.
  unfold ready_topology in *. destruct next; try destruct (bo_cluster_id x); inv_tx; simpl; try done;
    case_match; naive_solver.
Qed.

Lemma step_requests d d' : step d d' -> requests_kept d d'.
Proof.
  intros H. destruct H as [a e order h c r d' Ht H|t z k w dur r d' H|t z k w dur r d' H|t op w r d' H|e c rev x r d' H
    |hid v hb r d' H|t op next v r d' H|t op x r d' H|t op x r d' H|t op x r d' H|t op r d' H|x w r w' <- G H];
    eauto using CreateRemoval_requests, phase_requests.
  - replace d' with (snd (Handler a e order h c d)) by by rewrite H. by apply (across_handler _ requests_across).
  - unfold Claim in H. case_match; [injection H as _ <-; by apply requests_same|by eapply claim_requests].
  - unfold ClaimDominator in H. case_match; [injection H as _ <-; by apply requests_same|by eapply claim_requests].
  - pose proof (write_framed t op w d) as F. rewrite H in F. by eapply framed_requests.
  - injection H as _ <-. by apply requests_same.
  - apply SetClusterDiscovery_inv in H as [->|(p & -> & _)]; by apply requests_same.
  - apply SetDominatorRoute_inv in H as [->|(y & -> & _)]; by apply requests_same.
  - apply RecordBootstrapHost_inv in H as [->|[-> _]]; [by apply requests_same|].
    destruct (upsert_bootstrap_host_frame (bootstrap_host t op x) d) as [u E]. rewrite E. by apply requests_same.
  - apply ReleaseBootstrapLease_inv in H as [->|(p & -> & _)]; by apply requests_same.
  - apply requests_same. by rewrite (legacy_rest _ _ _ _ H).
Qed.

Lemma steps_requests d d' : rtc step d d' -> requests_kept d d'.
Proof.
  induction 1 as [d|d1 d2 d3 H _ IH]; [by apply requests_same|]. eapply incl_tran; [by apply step_requests|done].
Qed.
End Requests.

(** ** What the API served *)
Section Chains.
Context {k8s : K8s} {gonet : GoNet} {gourl : GoURL} {digest : Digest} (a : API) (h : Headers).

Definition serves (x : Served) : Prop :=
  exists e order r, Handler a e order h (Adapter (s_call x)) (s_before x) = (r, s_after x).

(** The served requests [l] take the store from [d] to [d'], with any steps of the system
    before, between and after them. *)
Fixpoint chain (d : DB) (l : list Served) (d' : DB) : Prop :=
  match l with
  | [] => rtc step d d'
  | x :: l => rtc step d (s_before x) /\ serves x /\ chain (s_after x) l d'
  end.

Lemma serves_steps x : serves x -> rtc step (s_before x) (s_after x).
Proof. intros (e & order & r & H). apply rtc_once. by apply (step_api _ a e order h (Adapter (s_call x)) r). Qed.

Lemma chain_steps d l d' : chain d l d' -> rtc step d d'.
Proof.
  revert d. induction l as [|x l IH]; intros d; simpl; [done|]. intros (H1 & H2 & H3).
  etrans; [done|]. etrans; [by apply serves_steps|auto].
Qed.

Lemma chain_app d1 l1 d2 l2 d3 : chain d1 l1 d2 -> chain d2 l2 d3 -> chain d1 (l1 ++ l2) d3.
Proof.
  revert d1. induction l1 as [|x l1 IH]; intros d1; simpl.
  - intros H1 H2. destruct l2 as [|x l2]; simpl in *; [by etrans|]. destruct H2 as (H2 & H3 & H4). by split; [etrans|].
  - intros (H1 & H2 & H3) H4. eauto.
Qed.

(** A request for a target that changes the store is in the log of requests after it. *)
Definition logged (b : setTargetRequest) (d : DB) : Prop :=
  exists row, In row (capacity_requests d) /\ r_group_id row = st_NodeGroupID b /\ r_request_id row = st_RequestID b.

Lemma post_logs x b : serves x -> s_call x = PostCapacity (Some b) -> s_after x <> s_before x -> logged b (s_after x).
Proof.
  intros (e & order & r & H) E Hne. rewrite E in H. simpl in H.
  destruct (adapter order h) as [| |cl]; [unfold reply in H; congruence..|]. unfold setTarget in H.
  case_match; [unfold reply in H; congruence|]. simpl in H. unfold respond in H.
  destruct (SetTarget e (capacity_request cl b) (s_before x)) as [[res|err] d'] eqn:ES; injection H as _ ->;
    [|apply SetTarget_err in ES; congruence].
  apply SetTarget_ok in ES as (p & _ & _ & HS). destruct (select_one _ _); [naive_solver|].
  apply admitted_topology in HS as (_ & _ & _ & _ & ER). eexists. rewrite ER. split; [apply in_app_iff; right; by left|done].
Qed.

Lemma logged_later b d d' : rtc step d d' -> logged b d -> logged b d'.
Proof. intros H (row & Hin & E). exists row. split; [by apply (steps_requests _ _ H)|done]. Qed.

(** A request that is in the log changes nothing, whoever presents it. *)
Lemma logged_quiet x b : serves x -> s_call x = PostCapacity (Some b) -> logged b (s_before x) -> s_after x = s_before x.
Proof.
  intros (e & order & r & H) E (row & Hin & E1 & E2). rewrite E in H. simpl in H.
  destruct (adapter order h) as [| |cl]; [unfold reply in H; congruence..|]. unfold setTarget in H.
  case_match; [unfold reply in H; congruence|]. simpl in H. unfold respond in H.
  destruct (SetTarget e (capacity_request cl b) (s_before x)) as [[res|err] d'] eqn:ES; injection H as _ ->;
    [|apply SetTarget_err in ES; congruence].
  apply SetTarget_ok in ES as (p & _ & _ & HS). destruct (select_one _ _) eqn:Es; [naive_solver|].
  pose proof (proj1 (select_one_none _ _) Es row Hin) as Hk. unfold request_key in Hk. simpl in Hk.
  by rewrite E1, E2, !eq_refl_true in Hk.
Qed.

Lemma read_quiet x : serves x -> s_call x = GetDiscovery \/ (exists id, s_call x = GetTarget id) -> s_after x = s_before x.
Proof.
  intros (e & order & r & H) Hc. assert (exists r', Handler a e order h (Adapter (s_call x)) (s_before x) = (r', s_before x)) as [r' H'].
  { destruct Hc as [->|[id ->]]; simpl; destruct (adapter order h); unfold reply, respond_read, respond; try case_match; eauto. }
  congruence.
Qed.

(** Calls of one change of target. *)
Definition call_of (b : setTargetRequest) (x : Served) : Prop :=
  s_call x = GetDiscovery \/ (exists id, s_call x = GetTarget id) \/ s_call x = PostCapacity (Some b).

(** Among the calls of a run, only the first that changes the store does. *)
Definition once (l : list Served) : Prop :=
  forall i j x y, (i < j)%nat -> l !! i = Some x -> l !! j = Some y -> s_after x <> s_before x -> s_after y = s_before y.

Lemma logged_all_quiet b l d d' : chain d l d' -> Forall (call_of b) l -> logged b d -> Forall (fun x => s_after x = s_before x) l.
Proof.
  revert d. induction l as [|x l IH]; intros d Hc HF Hl; [done|]. destruct Hc as (H1 & H2 & H3).
  apply Forall_cons in HF as [Hx HF]. assert (s_after x = s_before x) as E.
  { destruct Hx as [Hx|[Hx|Hx]]; [apply read_quiet; auto..|]. eapply logged_quiet; eauto using logged_later. }
  constructor; [done|]. eapply IH; [done..|]. rewrite E. by eapply logged_later.
Qed.

Lemma chain_once b l d d' : chain d l d' -> Forall (call_of b) l -> once l.
Proof.
  revert d. induction l as [|x l IH]; intros d Hc HF; [by intros i j ? ? ? H|]. destruct Hc as (H1 & H2 & H3).
  apply Forall_cons in HF as [Hx HF]. intros [|i] [|j] x1 y Hij Hi Hj Hne; [lia| |lia|].
  - injection Hi as <-. destruct Hx as [Hx|[Hx|Hx]]; [by destruct Hne; apply read_quiet; auto..|].
    pose proof (logged_all_quiet _ _ _ _ H3 HF (post_logs _ _ H2 Hx Hne)) as HQ.
    by eapply (proj1 (Forall_lookup _ _) HQ j).
  - by eapply (IH _ H3 HF i j); [lia|..].
Qed.
End Chains.

(** ** Calls of the HTTP client *)
Section Calls.
Context {k8s : K8s} {gonet : GoNet} {gourl : GoURL} {digest : Digest} (a : API) (wire : nat -> Exchange) (c : HTTPClient).
Hypothesis others_step : forall k d, rtc step d (x_others (wire k) d).

Definition runs (w w' : Net) (l : list Served) : Prop :=
  n_served w' = n_served w ++ l /\ chain a (client_headers c) (n_db w) l (n_db w').

Lemma runs_refl w : runs w w [].
Proof. split; [by rewrite app_nil_r|apply rtc_refl]. Qed.

Lemma runs_trans w1 w2 w3 l1 l2 : runs w1 w2 l1 -> runs w2 w3 l2 -> runs w1 w3 (l1 ++ l2).
Proof. intros [E1 C1] [E2 C2]. split; [by rewrite E2, E1, app_assoc|by eapply chain_app]. Qed.

(** The answer that a served request got, [cut] or whole. *)
Definition answered {A} (output : option Body -> option A) (x : Served) (v : A) : Prop :=
  exists e order resp cut, Handler a e order (client_headers c) (Adapter (s_call x)) (s_before x) = (resp, s_after x) /\
    200 <= rs_status resp < 300 /\ output (if cut : bool then None else Some (rs_body resp)) = Some v.

Lemma read_response_ok {A} (output : option Body -> option A) cut r v : read_response output cut r = GOk v ->
  200 <= rs_status r < 300 /\ output (if cut then None else Some (rs_body r)) = Some v.
Proof.
  unfold read_response. destruct (_ || _) eqn:E; [done|]. apply orb_false_iff in E as [E1 E2]. bsplit. intros H.
  split; [lia|]. destruct (output _); congruence.
Qed.

Lemma transport_not_ok {A} ctx (v : A) : transport_error ctx <> GOk v.
Proof. by destruct ctx. Qed.

(** What holds after a call that served at most one request, each of the kind [P]. *)
Definition call_effect {A} (P : Served -> Prop) (Q : A -> list Served -> Prop) (n : nat) (r : grpc A) (w w' : Net) : Prop :=
  exists l, runs w w' l /\ (length l <= n)%nat /\ Forall P l /\ forall v, r = GOk v -> Q v l.

Lemma do_effect {A} call (output : option Body -> option A) w r w' : do a wire c call output w = (r, w') ->
  call_effect (fun x => s_call x = call) (fun v l => exists x, l = [x] /\ answered output x v) 1 r w w'.
Proof.
  unfold do. set (x := wire (n_calls w)). set (d := x_others x (n_db w)).
  assert (rtc step (n_db w) d) as Hd by apply others_step.
  destruct (x_delivery x) as [ctx|ctx| |] eqn:Ex.
  1: intros [= <- <-]; exists []; split_and!; [by split; [rewrite app_nil_r|]|simpl; lia|done|by intros v ?%transport_not_ok].
  all: destruct (Handler a (x_env x) (x_order x) (client_headers c) (Adapter call) d) as [resp d'] eqn:EH; intros [= <- <-];
    exists [mkServed call d d']; split_and!; [|simpl; lia|by constructor|].
  1,3,5: split; [done|]; simpl; split_and!; [done|by exists (x_env x), (x_order x), resp|apply rtc_refl].
  - by intros v ?%transport_not_ok.
  - intros v [H1 H2]%read_response_ok. eexists. split; [done|]. by exists (x_env x), (x_order x), resp, true.
  - intros v [H1 H2]%read_response_ok. eexists. split; [done|]. by exists (x_env x), (x_order x), resp, false.
Qed.

(** A successful response comes from a successful store call of an authenticated cluster. *)
Lemma capacityError_status e : 400 <= rs_status (capacityError e).
Proof. destruct e; simpl; lia. Qed.

Lemma served_success x e order resp d' : Handler a e order (client_headers c) (Adapter (s_call x)) (s_before x) = (resp, d') ->
  200 <= rs_status resp < 300 -> exists cl, adapter order (client_headers c) = Authenticated cl /\
    serve_adapter e cl (s_call x) (s_before x) = (resp, d').
Proof.
  simpl. intros H Hs. destruct (adapter order (client_headers c)) as [| |cl]; [..|by exists cl];
    injection H as <- _; simpl in Hs; lia.
Qed.

Lemma respond_ok {A} (m : Store A) k d resp d' : respond m k d = (resp, d') -> 200 <= rs_status resp < 300 ->
  exists v, m d = (Ok v, d') /\ rs_body resp = k v.
Proof.
  unfold respond. destruct (m d) as [[v|e] d1]; intros [= <- <-] Hs; [by exists v|].
  pose proof (capacityError_status e). lia.
Qed.

Lemma target_effect id w r w' : http_Target a wire c id w = (r, w') ->
  call_effect (fun x => s_call x = GetTarget id)
    (fun t l => exists x cl, l = [x] /\ s_call x = GetTarget id /\ Target cl id (s_before x) = Ok t /\
                0 <= res_TargetRevision t) 1 r w w'.
Proof.
  unfold http_Target, call_bind. destruct (do a wire c (GetTarget id) body_target w) as [[t|code msg] w1] eqn:E;
    apply do_effect in E as (l & H1 & H2 & H3 & H4).
  - intros H. exists l. assert (w' = w1) as -> by (case_match; by injection H as _ <-). split_and!; [done..|]. intros v ->.
    case_match eqn:Ec; [done|]. injection H as ->. apply orb_false_iff in Ec as [_ Ec]. bsplit.
    destruct (H4 v eq_refl) as (x & -> & e & order & resp & cut & Hh & Hs & Ho).
    apply Forall_cons in H3 as [Hx _]. apply served_success in Hh as (cl & _ & Hh); [|done]. rewrite Hx in Hh. simpl in Hh.
    unfold respond_read in Hh. apply respond_ok in Hh as (t & Ht & Hb); [|done]. exists x, cl. split_and!; [done..| |lia].
    destruct cut; [done|]. simpl in Ho. rewrite Hb in Ho. simpl in Ho. congruence.
  - intros [= <- <-]. exists l. by split_and!.
Qed.

Lemma discover_effect w r w' : http_Discover a wire c w = (r, w') ->
  call_effect (fun x => s_call x = GetDiscovery) (fun _ _ => True) 1 r w w'.
Proof.
  unfold http_Discover, call_bind. destruct (do a wire c GetDiscovery body_discovery w) as [[t|code msg] w1] eqn:E;
    apply do_effect in E as (l & H1 & H2 & H3 & _); intros H; exists l.
  - assert (w' = w1) as -> by (case_match; by injection H as _ <-). by split_and!.
  - injection H as <- <-. by split_and!.
Qed.

(** The log entry of an admitted request. *)
Definition recorded (req : CapacityRequest) (d : DB) : Prop :=
  exists row, In row (capacity_requests d) /\ r_group_id row = NodeGroupID req /\ r_request_id row = RequestID req /\
    r_expected_revision row = ExpectedTargetRevision req /\ r_desired_target row = DesiredTarget req /\
    r_template_revision row = TemplateRevision req /\ r_result_revision row = add64 (ExpectedTargetRevision req) 1.

Lemma SetTarget_recorded e req d r d' : SetTarget e req d = (Ok r, d') ->
  res_TargetRevision r = add64 (ExpectedTargetRevision req) 1 -> recorded req d'.
Proof.
  intros (p & _ & _ & H)%SetTarget_ok Hr. destruct (select_one _ _) as [row|] eqn:Es.
  - destruct H as (E & -> & ->). apply select_one_some in Es as [Hin Hk]. unfold request_key in Hk. bsplit.
    exists row. unfold previous_request in E. destruct req; simpl in *. injection E as E1 E2 E3 E4. by split_and!.
  - pose proof (admitted_topology _ _ _ _ _ _ H) as (_ & _ & _ & _ & ER).
    eexists. rewrite ER. split; [apply in_app_iff; right; by left|]. by split_and!.
Qed.

Lemma set_target_effect req w r w' : http_SetTarget a wire c req w = (r, w') ->
  call_effect (fun x => s_call x = PostCapacity (Some (target_body req)))
    (fun _ l => exists x cl, l = [x] /\ recorded (capacity_request cl (target_body req)) (s_after x)) 1 r w w'.
Proof.
  unfold http_SetTarget, call_bind.
  destruct (do a wire c (PostCapacity (Some (target_body req))) body_target w) as [[t|code msg] w1] eqn:E;
    apply do_effect in E as (l & H1 & H2 & H3 & H4).
  - intros H. exists l. assert (w' = w1) as -> by (case_match; by injection H as _ <-). split_and!; [done..|]. intros v ->.
    case_match eqn:Ec; [done|]. injection H as ->. bsplit.
    destruct (H4 v eq_refl) as (x & -> & e & order & resp & cut & Hh & Hs & Ho).
    apply Forall_cons in H3 as [Hx _]. apply served_success in Hh as (cl & _ & Hh); [|done]. rewrite Hx in Hh. simpl in Hh.
    unfold setTarget in Hh. destruct (cl == ""); [unfold reply in Hh; injection Hh as <- _; simpl in Hs; lia|]. simpl in Hh.
    apply respond_ok in Hh as (t & Ht & Hb); [|done]. exists x, cl. split; [done|].
    destruct cut; [done|]. rewrite Hb in Ho. simpl in Ho. injection Ho as ->. by eapply SetTarget_recorded.
  - intros [= <- <-]. exists l. by split_and!.
Qed.
End Calls.

(** ** Retries and one change of target *)
Section Change.
Context {k8s : K8s} {gonet : GoNet} {gourl : GoURL} {digest : Digest} (a : API) (wire : nat -> Exchange) (c : HTTPClient).
Hypothesis others_step : forall k d, rtc step d (x_others (wire k) d).
#[local] Instance the_client : CraneClient Net := HTTPClient_client a wire c.

Lemma effect_none {A} P (Q : A -> list Served -> Prop) n code msg w : call_effect a c P Q n (GErr code msg) w w.
Proof. exists []. split_and!; [apply runs_refl|simpl; lia|done|done]. Qed.

Lemma retry_effect {A} P (Q : A -> list Served -> Prop) (call : Call Net A) ctx n :
  (forall w r w', call w = (r, w') -> call_effect a c P Q 1 r w w') ->
  forall k w r w', retry_from ctx k n call w = (r, w') ->
  call_effect a c P (fun v l => exists l1 l2, l = l1 ++ l2 /\ Q v l2) (S n) r w w'.
Proof.
  intros HC. induction n as [|n IH]; intros k w r w' H; simpl in H.
  all: destruct (before_attempt ctx k); [injection H as <- <-; apply effect_none|].
  all: destruct (call w) as [r1 w1] eqn:E; apply HC in E as (l & H1 & H2 & H3 & H4).
  all: assert (call_effect a c P (fun v l => exists l1 l2, l = l1 ++ l2 /\ Q v l2) 1 r1 w w1) as HD
    by (exists l; split_and!; [done..|]; intros v Hv; exists [], l; auto).
  all: assert (forall m, (1 <= m)%nat -> forall r, (r = r1 \/ exists co ms, r = GErr co ms) ->
          call_effect a c P (fun v l => exists l1 l2, l = l1 ++ l2 /\ Q v l2) m r w w1) as HE
    by (intros m Hm r' Hr'; destruct HD as (l' & D1 & D2 & D3 & D4); exists l'; split_and!; [done|lia|done|];
        destruct Hr' as [->|(co & ms & ->)]; [done|by intros v ?]).
  - destruct r1 as [v|[] msg]; injection H as <- <-; apply HE; auto.
  - destruct r1 as [v|[] msg]; try (injection H as <- <-; apply HE; [lia|auto]).
    destruct (while_waiting ctx k); [injection H as <- <-; apply HE; [lia|eauto]|].
    apply IH in H as (l2 & R1 & R2 & R3 & R4). exists (l ++ l2). split_and!.
    + by eapply runs_trans.
    + rewrite length_app. lia.
    + by apply Forall_app.
    + intros v Hv. destruct (R4 v Hv) as (x1 & x2 & -> & HQ). exists (l ++ x1), x2. by rewrite app_assoc.
Qed.

Lemma refresh_effect s w r s' w' : refresh s w = (r, s', w') ->
  call_effect a c (fun x => s_call x = GetDiscovery) (fun _ _ => True) 1 r w w'.
Proof.
  unfold refresh. destruct (sv_discovering s); [|intros [= <- <- <-]; exists []; split_and!; [apply runs_refl|simpl; lia|done..]].
  unfold discover_all. simpl. unfold call_bind at 1. destruct (http_Discover a wire c w) as [[l|co ms] w1] eqn:E;
    apply discover_effect in E as (l0 & H1 & H2 & H3 & _); try done.
  - unfold call_ret. destruct (discoveredGroups l) as [gs|co ms]; [destruct (forallb _ gs)|]; intros [= <- <- <-]; exists l0; by split_and!.
  - intros [= <- <- <-]. exists l0. by split_and!.
Qed.

Definition is_post (x : Served) : bool := match s_call x with PostCapacity _ => true | _ => false end.

Lemma posts_le P l : Forall P l -> (forall x, P x -> is_post x = false) -> List.filter is_post l = [].
Proof. induction 1 as [|x l Hx _ IH]; intros H; simpl; [done|]. by rewrite (H x Hx), IH. Qed.

Lemma recorded_later req d d' : rtc step d d' -> recorded req d -> recorded req d'.
Proof. intros H (row & Hin & E). exists row. split; [by apply (steps_requests _ _ H)|done]. Qed.

(** What one change of target sends, in the order it is served: discovery and target
    reads, then the same request at most three times. *)
Lemma changeTarget_effect ctx rid id delta s w r s' w' : - 2 ^ 31 <= delta < 2 ^ 31 ->
  changeTarget ctx rid id delta s w = (r, s', w') ->
  exists reads posts b, runs a c w w' (reads ++ posts) /\ (length posts <= 3)%nat /\
    st_NodeGroupID b = id /\ st_RequestID b = rid /\
    Forall (fun x => s_call x = GetDiscovery \/ s_call x = GetTarget id) reads /\
    Forall (fun x => s_call x = PostCapacity (Some b)) posts /\
    (r = GOk tt -> exists x cl t g cl', In x reads /\ s_call x = GetTarget id /\ Target cl id (s_before x) = Ok t /\
       group_of s' id = GOk g /\ sg_MinNodes g <= res_TargetNodes t + delta <= sg_MaxNodes g /\
       recorded (mkCapacityRequest id rid cl' (res_TargetRevision t) (res_TargetNodes t + delta) (sg_TemplateRevision g)) (n_db w')).
Proof.
  intros Hdelta. set (any := mkSetTargetRequest id rid 0 0 "").
  unfold changeTarget, refreshed. destruct (refresh s w) as [[rr s1] w1] eqn:ER.
  apply refresh_effect in ER as (l0 & R1 & _ & R2 & _).
  assert (Forall (fun x => s_call x = GetDiscovery \/ s_call x = GetTarget id) l0) as R3 by (eapply Forall_impl; [exact R2|]; auto).
  destruct rr as [[]|co ms].
  2: { intros [= <- <- <-]. exists l0, [], any. rewrite app_nil_r. split_and!; (done || simpl; lia). }
  unfold call_bind at 1. unfold call_ret at 1. destruct (group_of s1 id) as [g|co ms] eqn:EG.
  2: { intros [= <- <- <-]. exists l0, [], any. rewrite app_nil_r. split_and!; (done || simpl; lia). }
  unfold call_bind at 1. simpl client_Target. destruct (http_Target a wire c id w1) as [[t|co ms] w2] eqn:ET;
    (apply target_effect in ET as (l1 & T1 & _ & T2 & T3); [|done]);
    assert (Forall (fun x => s_call x = GetDiscovery \/ s_call x = GetTarget id) (l0 ++ l1)) as RT
      by (apply Forall_app; split; [done|]; eapply Forall_impl; [exact T2|]; auto);
    pose proof (runs_trans _ _ _ _ _ _ _ R1 T1) as HR.
  2: { intros [= <- <- <-]. exists (l0 ++ l1), [], any. rewrite app_nil_r. split_and!; (done || simpl; lia). }
  match goal with |- context [if ?b then _ else _] => destruct b eqn:Eb end.
  { intros [= <- <- <-]. exists (l0 ++ l1), [], any. rewrite app_nil_r. split_and!; (done || simpl; lia). }
  cbv zeta. match goal with |- context [if ?b then _ else _] => destruct b eqn:Ed end.
  { intros [= <- <- <-]. exists (l0 ++ l1), [], any. rewrite app_nil_r. split_and!; (done || simpl; lia). }
  destruct (retry ctx _ w2) as [r1 w3] eqn:Ey. intros [= <- <- <-].
  set (req := target_request s1 g id rid t delta) in *.
  assert (DesiredTarget req = res_TargetNodes t + delta) as Hdes.
  { unfold req. simpl. apply wrap64_id. bsplit. unfold int64, MaxInt64, MaxInt32 in *. lia. }
  apply (retry_effect (fun x => s_call x = PostCapacity (Some (target_body req)))
           (fun _ l => exists x cl, l = [x] /\ recorded (capacity_request cl (target_body req)) (s_after x))) in Ey
    as (l2 & Y1 & Y2 & Y3 & Y4).
  - exists (l0 ++ l1), l2, (target_body req). split_and!; [by eapply runs_trans|done..|]. intros ->.
    destruct (T3 t eq_refl) as (x & cl & -> & Hx1 & Hx2 & _). destruct (Y4 tt eq_refl) as (p1 & p2 & -> & y & cl' & -> & Hrec).
    exists x, cl, t, g, cl'. rewrite Hdes in Ed. bsplit. split_and!; [apply in_app_iff; right; by left|done..|lia|lia|].
    rewrite <- Hdes. eapply recorded_later; [|exact Hrec].
    destruct Y1 as [_ Y1]. clear -Y1. revert Y1. generalize (n_db w2). induction p1 as [|z p1 IH]; simpl; intros d.
    + by intros (_ & _ & H).
    + intros (_ & _ & H). by apply (IH (s_after z)).
  - clear -others_step. intros w r w' H. unfold call_bind in H. simpl in H.
    destruct (http_SetTarget a wire c req w) as [r1 w1] eqn:E. apply set_target_effect in E as (l & H1 & H2 & H3 & H4); [|done].
    exists l. destruct r1 as [v|co ms]; injection H as <- <-; split_and!; try done. intros _ _. by apply (H4 v).
Qed.
End Change.

(** ** Snapshots *)

(** What the adapter relies on when it reports a group. *)
Record group_ok_for (cluster : string) (g : StaticNodeGroup) : Prop := mkGroupOkFor {
  go_cluster : sg_ClusterID g = cluster;
  go_bounds : 0 <= sg_MinNodes g <= sg_MaxNodes g /\ sg_MaxNodes g <= MaxInt32;
  go_memory : 0 < sg_MemoryMB g <= max_memory;
  go_revision : sg_TemplateRevision g <> "" }.

Definition snapshot_ok (cluster : string) (gs : list StaticNodeGroup) : Prop :=
  Forall (group_ok_for cluster) gs /\ NoDup (map sg_ID gs) /\ NoDup (map nd_ProviderID (concat (map sg_Nodes gs))).

Lemma static_nodes_ok disc seen l seen' : NoDup seen -> static_nodes disc seen l = Some seen' ->
  seen' = rev (map nd_ProviderID l) ++ seen /\ NoDup seen'.
Proof.
  revert seen. induction l as [|n l IH]; intros seen Hn; simpl; [by intros [= <-]|].
  destruct (_ || _) eqn:E; [done|]. intros H. bsplit. apply IH in H as [-> H].
  - split; [by rewrite <- app_assoc|done].
  - constructor; [|done]. intros Hin%list_elem_of_In%one_of_spec. congruence.
Qed.

Lemma discovered_nodes_ok seen l ns seen' : NoDup seen -> discovered_nodes seen l = Some (ns, seen') ->
  seen' = rev (map nd_ProviderID ns) ++ seen /\ NoDup seen' /\ Forall (fun n => nd_Name n = "") ns.
Proof.
  revert seen ns. induction l as [|n l IH]; intros seen ns Hn; simpl; [by intros [= <- <-]|].
  destruct (_ || _) eqn:E; [done|]. bsplit.
  destruct (discovered_nodes _ l) as [[ns1 seen1]|] eqn:El; [|done]. intros [= <- <-].
  apply IH in El as (-> & H1 & H2).
  - split_and!; [simpl; by rewrite <- app_assoc|done|by constructor].
  - constructor; [|done]. intros Hin%list_elem_of_In%one_of_spec. congruence.
Qed.

Lemma NoDup_rev_prefix {A} (l k : list A) : NoDup (rev l ++ k) -> NoDup l.
Proof.
  intros [H _]%NoDup_app. apply NoDup_ListNoDup in H. apply NoDup_ListNoDup. rewrite <- (rev_involutive l). by apply NoDup_rev.
Qed.

(** Past a guard that returns an error. *)
Ltac past_guard := match goal with |- (if ?b then GErr _ _ else _) = GOk _ -> _ => destruct b; [discriminate|] end.

Lemma static_groups_ok cl disc ids nodes l gs : NoDup ids -> NoDup nodes -> static_groups cl disc ids nodes l = GOk gs ->
  Forall (group_ok_for cl) gs /\ NoDup (rev (map sg_ID gs) ++ ids) /\
  NoDup (rev (map nd_ProviderID (concat (map sg_Nodes gs))) ++ nodes).
Proof.
  revert ids nodes gs. induction l as [|g l IH]; intros ids nodes gs H1 H2; cbn [static_groups]; [by intros [= <-]|].
  destruct (_ != _) eqn:Ec; [by apply IH|]. destruct (negb (static_group_ok ids g)) eqn:Eg; [done|].
  cbv zeta. set (g' := if sg_Architecture g == "" then _ else g). do 3 past_guard.
  destruct (static_nodes disc nodes (sg_Nodes g')) as [nodes'|] eqn:En; [|done].
  destruct (static_groups cl disc (sg_ID g' :: ids) nodes' l) as [gs'|] eqn:Er; [|done]. intros [= <-].
  assert (sg_ID g' = sg_ID g /\ group_ok_for cl g') as [Eid Hg].
  { unfold static_group_ok in Eg. bsplit. split; [by unfold g'; case_match|]. split; unfold g'; case_match; simpl; try done; lia. }
  apply static_nodes_ok in En as [-> Hn]; [|done]. apply IH in Er as (I1 & I2 & I3); [| |done].
  - split_and!; [by constructor|simpl; by rewrite <- app_assoc|].
    cbn [map concat]. by rewrite map_app, rev_app_distr, <- app_assoc.
  - rewrite Eid. constructor; [|done]. intros Hin%list_elem_of_In%one_of_spec. unfold static_group_ok in Eg. bsplit. congruence.
Qed.

Lemma discovered_from_ok ids nodes l gs : NoDup ids -> NoDup nodes -> discovered_from ids nodes l = GOk gs ->
  Forall (fun g => group_ok_for (sg_ClusterID g) g /\ Forall (fun n => nd_Name n = "") (sg_Nodes g)) gs /\
  NoDup (rev (map sg_ID gs) ++ ids) /\ NoDup (rev (map nd_ProviderID (concat (map sg_Nodes gs))) ++ nodes).
Proof.
  revert ids nodes gs. induction l as [|g l IH]; intros ids nodes gs H1 H2; cbn [discovered_from]; [by intros [= <-]|].
  destruct (negb (discovered_group_ok ids g)) eqn:Eg; [done|]. do 2 past_guard.
  destruct (discovered_nodes nodes (ag_Nodes g)) as [[ns nodes']|] eqn:En; [|done].
  destruct (discovered_from (ag_ID g :: ids) nodes' l) as [gs'|] eqn:Er; [|done]. intros [= <-].
  unfold discovered_group_ok in Eg. bsplit.
  apply discovered_nodes_ok in En as (-> & Hn & Hname); [|done]. apply IH in Er as (I1 & I2 & I3); [| |done].
  - split_and!; [|simpl; by rewrite <- app_assoc|cbn [map concat]; by rewrite map_app, rev_app_distr, <- app_assoc].
    constructor; [|done]. split; [|done]. split; simpl; try done; lia.
  - constructor; [|done]. intros Hin%list_elem_of_In%one_of_spec. congruence.
Qed.

Lemma discoveredGroups_ok l gs : discoveredGroups l = GOk gs ->
  Forall (fun g => group_ok_for (sg_ClusterID g) g /\ Forall (fun n => nd_Name n = "") (sg_Nodes g)) gs /\
  NoDup (map sg_ID gs) /\ NoDup (map nd_ProviderID (concat (map sg_Nodes gs))).
Proof. intros (H1 & H2 & H3)%discovered_from_ok; [|constructor..]. eauto using NoDup_rev_prefix. Qed.

(** *** A server and its callbacks *)
Section Callbacks.
Context {W : Type} {client : CraneClient W}.

Inductive callback_step (s : Server W) : Server W -> Prop :=
| cb_NodeGroups w r s' w' : NodeGroups s w = (r, s', w') -> callback_step s s'
| cb_NodeGroupForNode p w r s' w' : NodeGroupForNode p s w = (r, s', w') -> callback_step s s'
| cb_NodeGroupTargetSize id w r s' w' : NodeGroupTargetSize id s w = (r, s', w') -> callback_step s s'
| cb_NodeGroupIncreaseSize ctx rid id n w r s' w' : NodeGroupIncreaseSize ctx rid id n s w = (r, s', w') -> callback_step s s'
| cb_NodeGroupDecreaseTargetSize ctx rid id n w r s' w' :
    NodeGroupDecreaseTargetSize ctx rid id n s w = (r, s', w') -> callback_step s s'
| cb_NodeGroupDeleteNodes ctx rid id ns w r s' w' : NodeGroupDeleteNodes ctx rid id ns s w = (r, s', w') -> callback_step s s'
| cb_NodeGroupNodes id w r s' w' : NodeGroupNodes id s w = (r, s', w') -> callback_step s s'
| cb_NodeGroupTemplateNodeInfo id w r s' w' : NodeGroupTemplateNodeInfo id s w = (r, s', w') -> callback_step s s'
| cb_Refresh w r s' w' : Refresh s w = (r, s', w') -> callback_step s s'
| cb_SetNodeVerifier v : callback_step s (SetNodeVerifier v s).

(** A callback leaves the groups or replaces them by a refresh. *)
Definition regrouped (s s' : Server W) : Prop :=
  sv_clusterID s' = sv_clusterID s /\ sv_discovering s' = sv_discovering s /\
  (sv_groups s' = sv_groups s \/
   (sv_discovering s = true /\ exists l, discoveredGroups l = GOk (sv_groups s') /\
      forallb (fun g => sg_ClusterID g == sv_clusterID s) (sv_groups s') = true)).

Lemma refresh_regroups s w r s' w' : refresh s w = (r, s', w') -> regrouped s s'.
Proof.
  unfold refresh. destruct (sv_discovering s) eqn:Ed; [|intros [= _ <- _]; by split_and!; auto].
  unfold discover_all. destruct client_Discover as [f|]; [|intros [= _ <- _]; by split_and!; auto].
  unfold call_bind. destruct (f w) as [[l|co ms] w1]; [|intros [= _ <- _]; by split_and!; auto].
  unfold call_ret. destruct (discoveredGroups l) as [gs|] eqn:El; [|intros [= _ <- _]; by split_and!; auto].
  destruct (forallb _ gs) eqn:Ef; intros [= _ <- _]; split_and!; auto. right. split; [done|]. by exists l.
Qed.

Lemma refreshed_regroups {A} (k : Server W -> Call W A) s w r s' w' : refreshed k s w = (r, s', w') -> regrouped s s'.
Proof.
  unfold refreshed. destruct (refresh s w) as [[[u|co ms] s1] w1] eqn:E; apply refresh_regroups in E; [|by intros [= _ <- _]].
  destruct (k s1 w1). by intros [= _ <- _].
Qed.

Lemma perhaps_regroups {A} (k : Server W -> Call W A) s w r s' w' : perhaps_refreshed k s w = (r, s', w') -> regrouped s s'.
Proof.
  unfold perhaps_refreshed. destruct (refresh s w) as [[u s1] w1] eqn:E. apply refresh_regroups in E.
  destruct (k s1 w1). by intros [= _ <- _].
Qed.

Lemma regrouped_refl s : regrouped s s.
Proof. split_and!; auto. Qed.

Lemma callback_regroups s s' : callback_step s s' -> regrouped s s'.
Proof.
  destruct 1 as [w r s' w' H|p w r s' w' H|id w r s' w' H|ctx rid id n w r s' w' H|ctx rid id n w r s' w' H|ctx rid id ns w r s' w' H
    |id w r s' w' H|id w r s' w' H|w r s' w' H|v].
  1,8,9: by apply refreshed_regroups in H.
  1,2,6: by apply perhaps_regroups in H.
  - unfold NodeGroupIncreaseSize in H. destruct (n <=? 0); [injection H as _ <- _; apply regrouped_refl|by apply refreshed_regroups in H].
  - unfold NodeGroupDecreaseTargetSize in H. destruct (0 <=? n); [injection H as _ <- _; apply regrouped_refl|by apply refreshed_regroups in H].
  - unfold NodeGroupDeleteNodes in H. destruct (call_bind _ _ w). injection H as _ <- _. apply regrouped_refl.
  - by split_and!; auto.
Qed.

(** The snapshot of a server, and the names of the nodes it discovers. *)
Definition server_ok (s : Server W) : Prop :=
  snapshot_ok (sv_clusterID s) (sv_groups s) /\
  (sv_discovering s = true -> Forall (fun g => Forall (fun n => nd_Name n = "") (sg_Nodes g)) (sv_groups s)).

Lemma regrouped_ok s s' : regrouped s s' -> server_ok s -> server_ok s'.
Proof.
  intros (E1 & E2 & H) [H1 H2]. unfold server_ok. rewrite E1, E2. destruct H as [->|(Hd & l & (A1 & A2 & A3)%discoveredGroups_ok & Hf)]; [done|].
  rewrite forallb_forall in Hf. split.
  - split; [|done]. apply Forall_forall. intros g Hg. pose proof (proj1 (Forall_forall _ _) A1 g Hg) as [Ho _].
    apply list_elem_of_In, Hf in Hg. bsplit. by rewrite Hg in Ho.
  - intros _. eapply Forall_impl; [exact A1|]. naive_solver.
Qed.

Lemma static_groups_nodes P cl disc ids nodes l gs : static_groups cl disc ids nodes l = GOk gs ->
  Forall (fun g => Forall P (sg_Nodes g)) l -> Forall (fun g => Forall P (sg_Nodes g)) gs.
Proof.
  revert ids nodes gs. induction l as [|g l IH]; intros ids nodes gs; cbn [static_groups]; [by intros [= <-]|].
  intros H [Hg Hl]%Forall_cons. revert H. destruct (_ != _); [by intros; eapply IH|]. past_guard.
  cbv zeta. set (g' := if sg_Architecture g == "" then _ else g). do 3 past_guard.
  destruct (static_nodes disc nodes (sg_Nodes g')) as [nodes'|]; [|done].
  destruct (static_groups cl disc (sg_ID g' :: ids) nodes' l) as [gs'|] eqn:Er; [|done]. intros [= <-].
  constructor; [unfold g'; by case_match|by eapply IH].
Qed.

Lemma NewServer_ok cl cfg w s w' : NewServer cl cfg w = (GOk s, w') ->
  sv_clusterID s = cl /\ sv_discovering s = (length cfg =? 0)%nat /\ server_ok s.
Proof.
  unfold NewServer. destruct (cl == ""); [done|]. unfold call_bind at 1.
  set (disc := (length cfg =? 0)%nat). destruct ((if disc then discover_all else call_ret (GOk cfg)) w) as [[gs|co ms] w1] eqn:Eg; [|done].
  unfold call_bind, call_ret. destruct (static_groups cl disc [] [] gs) as [gs'|] eqn:Es; [|done].
  destruct (_ && _); [done|]. intros [= <- <-]. split; [done|]. split; [done|]. split; simpl.
  - apply static_groups_ok in Es as (H1 & H2 & H3); [|constructor..]. split_and!; eauto using NoDup_rev_prefix.
  - intros Hd. rewrite Hd in Eg. eapply static_groups_nodes; [exact Es|]. unfold discover_all in Eg. destruct client_Discover as [f|]; [|done].
    unfold call_bind in Eg. destruct (f w) as [[l|] w2]; [|done]. injection Eg as Eg _.
    apply discoveredGroups_ok in Eg as [Eg _]. eapply Forall_impl; [exact Eg|]. naive_solver.
Qed.

Lemma callbacks_ok s s' : rtc callback_step s s' -> server_ok s -> sv_clusterID s' = sv_clusterID s /\ server_ok s'.
Proof.
  induction 1 as [s|s1 s2 s3 H _ IH]; intros Hs; [done|]. apply callback_regroups in H.
  destruct IH as [E I]; [by eapply regrouped_ok|]. split; [|done]. destruct H as [H _]. congruence.
Qed.
End Callbacks.

(** *** Exact reports *)
Lemma int32_id z : 0 <= z <= MaxInt32 -> int32 z = z.
Proof. unfold int32, MaxInt32. intros H. rewrite Z.mod_small; lia. Qed.

Lemma memory_bytes m : 0 < m <= max_memory -> mul64 (mul64 m 1024) 1024 = m * 1048576.
Proof.
  intros H. assert (m * 1048576 <= MaxInt64).
  { unfold max_memory in H. pose proof (Z.mul_div_le MaxInt64 (1024 * 1024)). unfold MaxInt64 in *. lia. }
  unfold mul64. rewrite (wrap64_id (m * 1024)) by (unfold int64, MaxInt64 in *; lia).
  rewrite wrap64_id by (unfold int64, MaxInt64 in *; lia). lia.
Qed.

(** An element belongs to one group of a family whose keys are all different. *)
Lemma one_owner {A B K} (f : B -> K) (items : A -> list B) l x y u v :
  NoDup (map f (concat (map items l))) -> In x l -> In y l -> In u (items x) -> In v (items y) -> f u = f v -> x = y.
Proof.
  induction l as [|z l IH]; [done|]. cbn [map concat]. rewrite map_app. intros (_ & Hd & Hn)%NoDup_app Hx Hy Hu Hv E.
  assert (forall w i, In w l -> In i (items w) -> f i ∈ map f (concat (map items l))) as Hin.
  { intros w i Hw Hi. apply list_elem_of_In, in_map, in_concat. exists (items w). split; [by apply in_map|done]. }
  assert (forall i, In i (items z) -> f i ∈ map f (items z)) as Hz by (intros; by apply list_elem_of_In, in_map).
  destruct Hx as [<-|Hx], Hy as [<-|Hy]; [done|..|by apply IH]; exfalso.
  - apply (Hd (f u)); [by apply Hz|]. rewrite E. by eapply Hin.
  - apply (Hd (f v)); [by apply Hz|]. rewrite <- E. by eapply Hin.
Qed.

Lemma owner_found cluster gs g n : snapshot_ok cluster gs -> In g gs -> In n (sg_Nodes g) ->
  static_NodeGroupForNode gs (nd_ProviderID n) = Some g.
Proof.
  intros (_ & _ & Hu) Hg Hn. unfold static_NodeGroupForNode. destruct (List.find _ gs) as [g'|] eqn:E.
  - apply List.find_some in E as [Hg' (n' & Hn' & En)%existsb_exists]. bsplit. f_equal.
    by eapply (one_owner nd_ProviderID sg_Nodes gs g' g n' n).
  - pose proof (List.find_none _ _ E g Hg) as H. cbv beta in H. assert (existsb (fun x => nd_ProviderID x == nd_ProviderID n) (sg_Nodes g) = true); [|congruence].
    apply existsb_exists. exists n. split; [done|apply eq_refl_true].
Qed.

Lemma group_found {W} (s : Server W) g : snapshot_ok (sv_clusterID s) (sv_groups s) -> In g (sv_groups s) -> group_of s (sg_ID g) = GOk g.
Proof. intros (_ & Hu & _) Hg. unfold group_of. pose proof (select_one_key sg_ID _ _ Hu Hg) as E. unfold select_one in E. by rewrite E. Qed.

(** *** Deletions by a discovering server *)
Section Deletion.
Context {k8s : K8s} {gonet : GoNet} {gourl : GoURL} {digest : Digest} (a : API) (wire : nat -> Exchange) (c : HTTPClient).
Hypothesis others_step : forall k d, rtc step d (x_others (wire k) d).

Lemma removal_nodes_world (s : Server Net) g seen l w : exists r, removal_nodes s g seen l w = (r, w).
Proof.
  revert seen. induction l as [|[name pid] l IH]; intros seen; simpl; [eauto|].
  destruct (known_node s g name pid) as [n|]; [|eauto]. destruct (one_of (nd_HostID n) seen); [eauto|].
  destruct (IH (nd_HostID n :: seen)) as [r Hr]. unfold call_bind.
  destruct (sv_verifier s) as [v|]; [destruct (v name pid w); [|eauto]|]; simpl; rewrite Hr; destruct r; eauto.
Qed.

Lemma removal_nodes_nameless (s : Server Net) g seen l w ns : Forall (fun n => nd_Name n = "") (sg_Nodes g) ->
  removal_nodes s g seen l w = (GOk ns, w) -> length ns = length l /\ Forall (fun n => rn_NodeName n = "") ns.
Proof.
  intros Hg. revert seen ns. induction l as [|[name pid] l IH]; intros seen ns; simpl; [by intros [= <-]|].
  destruct (known_node s g name pid) as [n|] eqn:Ek; [|done]. destruct (one_of (nd_HostID n) seen); [done|].
  apply List.find_some in Ek as [Hn _]. apply list_elem_of_In in Hn. pose proof (proj1 (Forall_forall _ _) Hg n Hn) as Hname.
  destruct (removal_nodes_world s g (nd_HostID n :: seen) l w) as [r Hr]. unfold call_bind. intros H.
  assert (exists u, r = GOk u /\ ns = mkRemovalNode (nd_HostID n) (nd_Name n) (nd_ProviderID n) :: u) as (u & -> & ->).
  { destruct (sv_verifier s) as [v|]; [destruct (v name pid w); [|done]|]; simpl in H; rewrite Hr in H; destruct r as [u|]; try done;
      injection H as <-; eauto. }
  apply IH in Hr as (E & HF). split; [simpl; by rewrite E|by constructor].
Qed.

Lemma nameless_refused e cl req d : rr_Nodes req <> [] -> Forall (fun n => rn_NodeName n = "") (rr_Nodes req) ->
  CreateAutoscalerRemovals e cl req d = (Err ErrInvalid, d).
Proof.
  intros Hn HF. unfold CreateAutoscalerRemovals. destruct (rr_Nodes req) as [|n ns]; [done|]. apply Forall_cons in HF as [E _].
  simpl. rewrite E, eq_refl_true. simpl. autorewrite with crane. by autorewrite with crane.
Qed.

Lemma removal_served_refused x req : s_call x = PostRemovals (Some req) -> rr_Nodes req <> [] ->
  Forall (fun n => rn_NodeName n = "") (rr_Nodes req) -> serves a (client_headers c) x ->
  s_after x = s_before x /\ ~ answered a c (fun _ => Some tt) x tt.
Proof.
  intros Hc Hn HF (e & order & r & H). split.
  - rewrite Hc in H. simpl in H. destruct (adapter order _) as [| |cl]; [unfold reply in H; congruence..|].
    unfold respond in H. rewrite nameless_refused in H by done. congruence.
  - intros (e' & order' & resp & cut & H' & Hs & _). apply served_success in H' as (cl & _ & H'); [|done].
    rewrite Hc in H'. simpl in H'. apply respond_ok in H' as (v & Hv & _); [|done]. by rewrite nameless_refused in Hv.
Qed.

Lemma chain_serves d l d' : chain a (client_headers c) d l d' -> Forall (serves a (client_headers c)) l.
Proof. revert d. induction l as [|x l IH]; intros d; simpl; [done|]. intros (_ & H1 & H2). constructor; eauto. Qed.

(** A call that served requests without any effect on the store. *)
Definition quiet_run (w w' : Net) : Prop := exists l, runs a c w w' l /\ Forall (fun x => s_after x = s_before x) l.

Lemma quiet_run_refl w : quiet_run w w.
Proof. exists []. split; [apply runs_refl|done]. Qed.

Lemma target_quiet id w r w' : http_Target a wire c id w = (r, w') -> quiet_run w w'.
Proof.
  intros H. apply target_effect in H as (l & H1 & _ & H2 & _); [|done]. exists l. split; [done|].
  pose proof (chain_serves _ _ _ (proj2 H1)) as H3. apply Forall_forall. intros x Hx. eapply read_quiet.
  - by apply (proj1 (Forall_forall _ _) H3).
  - right. exists id. by apply (proj1 (Forall_forall _ _) H2).
Qed.

Lemma removal_quiet req ctx w r w' : rr_Nodes req <> [] -> Forall (fun n => rn_NodeName n = "") (rr_Nodes req) ->
  retry ctx (http_RemoveNodes a wire c req) w = (r, w') -> r <> GOk tt /\ quiet_run w w'.
Proof.
  intros Hne Hns H. apply (retry_effect a c (fun x => s_call x = PostRemovals (Some req))
    (fun v l => exists x, l = [x] /\ answered a c (fun _ => Some tt) x v)) in H as (l & Y1 & _ & Y2 & Y3);
    [|intros; by eapply do_effect].
  pose proof (chain_serves _ _ _ (proj2 Y1)) as HS.
  assert (forall x, x ∈ l -> s_after x = s_before x /\ ~ answered a c (fun _ => Some tt) x tt) as HX.
  { intros x Hx. apply (removal_served_refused x req); [by apply (proj1 (Forall_forall _ _) Y2)|done|done|].
    by apply (proj1 (Forall_forall _ _) HS). }
  split; [|exists l; split; [done|]; apply Forall_forall; naive_solver].
  intros ->. destruct (Y3 tt eq_refl) as (l1 & l2 & -> & x & -> & Hx). apply (HX x); [set_solver|done].
Qed.

Lemma deletion_quiet ctx rid id nodes (s : Server Net) w r s' w' : server_ok s -> sv_discovering s = true ->
  NodeGroupDeleteNodes (client := HTTPClient_client a wire c) ctx rid id nodes s w = (r, s', w') ->
  r <> GOk tt /\ quiet_run w w'.
Proof.
  intros [_ Hs] Hd H. specialize (Hs Hd). unfold NodeGroupDeleteNodes in H.
  match type of H with (let '(_, _) := ?m in _) = _ => destruct m as [r1 w1] eqn:E end. injection H as <- <- <-.
  unfold call_bind at 1, call_ret at 1 in E.
  destruct (group_of s id) as [g|co ms] eqn:Eg; [|injection E as <- <-; split; [done|apply quiet_run_refl]].
  assert (Forall (fun n => nd_Name n = "") (sg_Nodes g)) as Hg.
  { unfold group_of in Eg. destruct (List.find _ _) as [g0|] eqn:Ef; [|done]. injection Eg as ->.
    apply List.find_some in Ef as [Ef _]. by apply (proj1 (Forall_forall _ _) Hs), list_elem_of_In. }
  destruct (length nodes =? 0)%nat eqn:El; [injection E as <- <-; split; [done|apply quiet_run_refl]|].
  unfold call_bind at 1 in E. destruct (removal_nodes_world s g [] nodes w) as [rn Hrn]. rewrite Hrn in E.
  destruct rn as [ns|co ms]; [|injection E as <- <-; split; [done|apply quiet_run_refl]].
  apply removal_nodes_nameless in Hrn as [Elen Hns]; [|done].
  unfold call_bind at 1 in E. simpl client_Target in E.
  destruct (http_Target a wire c (sg_ID g) w) as [[t|co ms] w3] eqn:Et; apply target_quiet in Et as (l1 & T1 & T2);
    [|injection E as <- <-; split; [done|by exists l1]].
  apply removal_quiet in E as [E1 (l2 & Y1 & Y2)]; [|simpl; apply Nat.eqb_neq in El; by destruct ns|done].
  split; [done|]. exists (l1 ++ l2). split; [by eapply runs_trans|by apply Forall_app].
Qed.
End Deletion.

(** ** Theorems *)
Section Theorems.
Context {k8s : K8s} {gonet : GoNet} {gourl : GoURL} {digest : Digest}.

(** C17. A change of target through the adapter is admitted at most once.  Whatever requests and
    responses the network loses, whatever the other processes of the system do between the
    attempts, and wherever the caller's deadline strikes, one increase or decrease posts one and
    the same request at most three times, and at most one of the requests the API served
    for it changes the store.  When the callback reports success, the request log holds the
    admission of exactly the target read in this run plus the delta, inside the bounds of the
    group, against the revision read with it. *)
Theorem adapter_admits_once a wire c ctx rid id delta (s : Server Net) w r s' w' :
  (forall k d, rtc step d (x_others (wire k) d)) -> - 2 ^ 31 <= delta < 2 ^ 31 ->
  changeTarget (client := HTTPClient_client a wire c) ctx rid id delta s w = (r, s', w') ->
  exists l b, n_served w' = n_served w ++ l /\ once l /\
    (length (List.filter is_post l) <= 3)%nat /\ st_RequestID b = rid /\
    (forall x, In x l -> is_post x = true -> s_call x = PostCapacity (Some b)) /\
    (r = GOk tt -> exists x cl t g cl', In x l /\ Target cl id (s_before x) = Ok t /\
       group_of s' id = GOk g /\ sg_MinNodes g <= res_TargetNodes t + delta <= sg_MaxNodes g /\
       recorded (mkCapacityRequest id rid cl' (res_TargetRevision t) (res_TargetNodes t + delta) (sg_TemplateRevision g)) (n_db w')).
Proof.
  intros Hw Hd H. destruct (changeTarget_effect a wire c Hw _ _ _ _ _ _ _ _ _ Hd H)
    as (reads & posts & b & [E HC] & Hn & Eid & Erid & HR & HP & HOk).
  assert (forall x, x ∈ reads -> s_call x = GetDiscovery \/ s_call x = GetTarget id) as HR' by by apply Forall_forall.
  assert (forall x, x ∈ posts -> s_call x = PostCapacity (Some b)) as HP' by by apply Forall_forall.
  exists (reads ++ posts), b. split_and!; [done| | |done| |].
  - eapply (chain_once a _ b); [exact HC|]. apply Forall_forall. intros x [Hx|Hx]%elem_of_app; unfold call_of;
      [destruct (HR' x Hx); eauto|auto].
  - rewrite List.filter_app, (posts_le _ _ HR), app_nil_l; [|by unfold is_post; intros x [->| ->]].
    etrans; [apply List.filter_length_le|done].
  - intros x [Hx|Hx]%in_app_iff Hp; [|by apply HP', list_elem_of_In].
    unfold is_post in Hp. by destruct (HR' x) as [E1|E1]; [by apply list_elem_of_In|rewrite E1 in Hp..].
  - intros Hr. destruct (HOk Hr) as (x & cl & t & g & cl' & Hx & _ & HT). exists x, cl, t, g, cl'. split; [|done].
    apply in_app_iff. by left.
Qed.

(** The adapter's reports are exact.  After any sequence of callbacks, with any outcome of
    their calls, the snapshot of a server that started holds only groups of its cluster; every
    group is found by its ID and by the provider identity of each of its nodes, its bounds fit
    the 32-bit fields of the protocol without truncation, and the memory of its template is
    its byte count without overflow. *)
Theorem adapter_reports_exact {W} {client : CraneClient W} cluster cfg w0 s0 w1 (s : Server W) g :
  NewServer cluster cfg w0 = (GOk s0, w1) -> rtc callback_step s0 s -> In g (sv_groups s) ->
  sg_ClusterID g = cluster /\ group_of s (sg_ID g) = GOk g /\
  (forall n, In n (sg_Nodes g) -> static_NodeGroupForNode (sv_groups s) (nd_ProviderID n) = Some g) /\
  groupProto g = mkGroupProto (sg_ID g) (sg_MinNodes g) (sg_MaxNodes g) (String.append "crane/" (sg_ID g)) /\
  0 <= sg_MinNodes g <= sg_MaxNodes g /\
  mul64 (mul64 (sg_MemoryMB g) 1024) 1024 = sg_MemoryMB g * 1048576.
Proof.
  intros (E1 & _ & H1)%NewServer_ok Hs Hg. destruct (callbacks_ok _ _ Hs H1) as [E2 [HS _]].
  pose proof HS as (HF & _). pose proof (proj1 (Forall_forall _ _) HF g (proj2 (list_elem_of_In _ _) Hg)) as [G1 [G2 G3] G4 _].
  split_and!; [congruence|by apply group_found|by intros; eapply owner_found| |lia|lia|by apply memory_bytes].
  unfold groupProto. by rewrite !int32_id by (unfold MaxInt32 in *; lia).
Qed.

(** A discovering adapter can never remove a node.  The nodes that Crane reports carry no name,
    and the removal sent for them is refused by the API for its empty node names: whatever the
    callbacks before, the request, the verifier, the network and the other processes do, the
    deletion callback fails, and none of the requests it sends changes the store. *)
Theorem discovered_deletions_refused a wire c cluster w0 s0 w1 (s : Server Net) ctx rid id nodes w r s' w' :
  let client := HTTPClient_client a wire c in
  (forall k d, rtc step d (x_others (wire k) d)) ->
  NewServer cluster [] w0 = (GOk s0, w1) -> rtc callback_step s0 s ->
  NodeGroupDeleteNodes ctx rid id nodes s w = (r, s', w') ->
  (exists code msg, r = GErr code msg) /\
  exists l, n_served w' = n_served w ++ l /\ Forall (fun x => s_after x = s_before x) l.
Proof.
  intros client Hw HN Hs H. destruct (NewServer_ok _ _ _ _ _ HN) as (_ & Hd0 & H0). destruct (callbacks_ok _ _ Hs H0) as [_ HS].
  assert (sv_discovering s = true) as Hd.
  { clear -Hs Hd0. induction Hs as [s|s1 s2 s3 Hc _ IH]; [done|]. apply IH. apply callback_regroups in Hc as (_ & -> & _). done. }
  destruct (deletion_quiet a wire c Hw ctx rid id nodes s w r s' w' HS Hd H) as [Hr (l & [E _] & HF)].
  split; [|by exists l]. destruct r as [[]|co ms]; [done|eauto].
Qed.
End Theorems.

(** ** A run

    An increase by two whose first response is lost and whose second attempt never arrives,
    and a deletion of the node that a discovering server knows. *)
#[local] Existing Instance demo_k8s.
#[local] Existing Instance demo_net.
#[local] Existing Instance demo_digest.
#[local] Existing Instance demo_url.

Definition demo_client : HTTPClient := mkHTTPClient "https://crane.internal" "token-1" "c1".
Definition lossy (k : nat) : delivery := match k with 1%nat => NoResponse None | 2%nat => NotSent None | _ => Delivered end.
Definition lossy_wire (k : nat) : Exchange :=
  mkExchange (env_at (String.append (marks k) "-") (1000 * Z.of_nat k)) (map_to_list demo_principals) (fun d => d) (lossy k).
Definition good_wire (k : nat) : Exchange :=
  mkExchange (env_at (String.append (marks k) "-") 9000) (map_to_list demo_principals) (fun d => d) Delivered.
Definition patient : Deadline := mkDeadline (fun _ => None) (fun _ => None).
Definition demo_static : StaticNodeGroup :=
  mkStaticGroup demo_gid "c1" "rev-1" "us-west-2a" "us-west-2" "pool" 0 3 "m7i.large" "" 2 8192 ∅ []
    [mkStaticNode "host-1" "aws:///us-west-2a/i-9" "node-9" "running"].
Definition demo_server : Server Net := mkServer "c1" [demo_static] false None.
Definition increased : grpc unit * Server Net * Net :=
  changeTarget (client := HTTPClient_client demo_api lossy_wire demo_client) patient "req-a" demo_gid 2 demo_server (mkNet demo_db 0 []).

Lemma adapter_admits_once_witness :
  length (n_served (snd increased)) = 3%nat /\
  exists row, In row (capacity_requests (n_db (snd increased))) /\ r_request_id row = "req-a" /\ r_desired_target row = 2.
Proof.
  split; [vm_compute; reflexivity|].
  destruct (adapter_admits_once demo_api lossy_wire demo_client patient "req-a" demo_gid 2 demo_server (mkNet demo_db 0 [])
    (GOk tt) demo_server (snd increased)) as (l & b & _ & _ & _ & _ & _ & H).
  - intros k d. apply rtc_refl.
  - lia.
  - vm_compute. reflexivity.
  - destruct (H eq_refl) as (x & cl & t & g & cl' & _ & _ & _ & _ & row & Hin & _ & E & _).
    vm_compute in Hin. destruct Hin as [<-|[]]. eexists. split; [vm_compute; left; reflexivity|].
    split; vm_compute; reflexivity.
Defined.

Definition started : grpc (Server Net) * Net :=
  NewServer (client := HTTPClient_client demo_api good_wire demo_client) "c1" [demo_static] (mkNet demo_db 0 []).
Definition amd64_static : StaticNodeGroup := set_sg_Architecture "amd64" demo_static.

Lemma adapter_reports_exact_witness :
  groupProto amd64_static = mkGroupProto demo_gid 0 3 (String.append "crane/" demo_gid) /\
  mul64 (mul64 8192 1024) 1024 = 8589934592.
Proof.
  destruct (adapter_reports_exact (client := HTTPClient_client demo_api good_wire demo_client) "c1" [demo_static] (mkNet demo_db 0 [])
    (mkServer "c1" [amd64_static] false None) (snd started) (mkServer "c1" [amd64_static] false None) amd64_static)
    as (_ & _ & _ & H1 & _ & H2).
  - vm_compute. reflexivity.
  - apply rtc_refl.
  - left. reflexivity.
  - split; [exact H1|exact H2].
Defined.

Definition discovered : grpc (Server Net) * Net :=
  NewServer (client := HTTPClient_client demo_api good_wire demo_client) "c1" [] (mkNet db_ready 0 []).
Definition discovered_server : Server Net := match fst discovered with GOk s => s | GErr _ _ => demo_server end.
Definition kubernetes_verifier : NodeVerifier (W := Net) :=
  VerifyNode (fun name _ => if name == "node-1" then Some "aws:///us-west-2a/i-1" else None).
Definition deletion : grpc unit * Server Net * Net :=
  NodeGroupDeleteNodes (client := HTTPClient_client demo_api good_wire demo_client) patient "rm-a" demo_gid
    [("node-1", "aws:///us-west-2a/i-1")] (SetNodeVerifier kubernetes_verifier discovered_server) (snd discovered).

Lemma discovered_deletions_refused_witness :
  length (n_served (snd deletion)) = 3%nat /\ exists code msg, fst (fst deletion) = GErr code msg.
Proof.
  split; [vm_compute; reflexivity|].
  destruct (discovered_deletions_refused demo_api good_wire demo_client "c1" (mkNet db_ready 0 []) discovered_server (snd discovered)
    (SetNodeVerifier kubernetes_verifier discovered_server) patient "rm-a" demo_gid [("node-1", "aws:///us-west-2a/i-1")]
    (snd discovered) (fst (fst deletion)) (snd (fst deletion)) (snd deletion)) as [H _].
  - intros k d. apply rtc_refl.
  - vm_compute. reflexivity.
  - apply rtc_once, (cb_SetNodeVerifier (client := HTTPClient_client demo_api good_wire demo_client)).
  - vm_compute. reflexivity.
  - exact H.
Defined.
