(* ===== verification/Regex.v ===== *)
(** * Regular expressions

    Package regexp as the code uses it.  [full_match] decides the anchored patterns
    [^...$] by derivatives and is proved equal to their declarative language [matches].
    [replace_all] is [Regexp.ReplaceAllString]: a backtracking search with Go's
    leftmost-first choice (alternatives in order, greedy repetition) and capture groups;
    [search_sound] says that what it finds is in the language.  Characters are bytes; case
    folding is that of ASCII letters. *)
From S2P Require Import Prelude GoStrings.
From Stdlib Require Import Ascii String.

Local Open Scope string_scope.
Local Open Scope list_scope.

(** ** Character classes *)
Definition code (c : ascii) : nat := nat_of_ascii c.
Definition between (a b : ascii) (c : ascii) : bool := ((code a <=? code c) && (code c <=? code b))%nat.
Definition digit : ascii -> bool := between "0" "9".
Definition lower_letter : ascii -> bool := between "a" "z".
Definition letter (c : ascii) : bool := lower_letter (lower c).
Definition hex_digit (c : ascii) : bool := digit c || between "a" "f" c.
Fixpoint any_of (s : string) (c : ascii) : bool :=
  match s with EmptyString => false | String x r => (c == x) || any_of r c end.
(** [\s] of Go: tab, newline, form feed, carriage return and space. *)
Definition space_class (c : ascii) : bool := one_of (code c) [9; 10; 12; 13; 32]%nat.

(** ** Expressions *)
Inductive regex : Type :=
| REps
| RClass (f : ascii -> bool)
| RCat (a b : regex)
| RAlt (a b : regex)
| RStar (a : regex)
| RGroup (n : nat) (a : regex)
| RBegin.

(** [a+], [a?], [a{n}], a literal, and a literal whatever the case. *)
Definition RPlus (a : regex) : regex := RCat a (RStar a).
Definition ROpt (a : regex) : regex := RAlt a REps.
Fixpoint RRep (n : nat) (a : regex) : regex := match n with O => REps | S n => RCat a (RRep n a) end.
(** [a{n,n+m}]. *)
Fixpoint RUpTo (m : nat) (a : regex) : regex := match m with O => REps | S m => ROpt (RCat a (RUpTo m a)) end.
Fixpoint RLit (s : string) : regex :=
  match s with EmptyString => REps | String c r => RCat (RClass (fun x => x == c)) (RLit r) end.
Fixpoint RFold (s : string) : regex :=
  match s with EmptyString => REps | String c r => RCat (RClass (fun x => lower x == lower c)) (RFold r) end.
Fixpoint RAny (l : list regex) : regex :=
  match l with [] => RClass (fun _ => false) | [a] => a | a :: r => RAlt a (RAny r) end.

(** The language of an expression; [start] says that the text begins here. *)
Inductive matches : bool -> regex -> string -> Prop :=
| m_eps b : matches b REps ""
| m_class b f c : f c = true -> matches b (RClass f) (String c "")
| m_cat b r1 r2 s1 s2 : matches b r1 s1 -> matches (b && (s1 == "")) r2 s2 -> matches b (RCat r1 r2) (String.append s1 s2)
| m_left b r1 r2 s : matches b r1 s -> matches b (RAlt r1 r2) s
| m_right b r1 r2 s : matches b r2 s -> matches b (RAlt r1 r2) s
| m_nil b r : matches b (RStar r) ""
| m_star b r s1 s2 : matches b r s1 -> matches (b && (s1 == "")) (RStar r) s2 -> matches b (RStar r) (String.append s1 s2)
| m_group b n r s : matches b r s -> matches b (RGroup n r) s
| m_begin : matches true RBegin "".

Lemma append_cons c s t : String.append (String c s) t = String c (String.append s t).
Proof. reflexivity. Qed.

Lemma length_append a b : String.length (String.append a b) = (String.length a + String.length b)%nat.
Proof. induction a as [|c a IH]; [done|]. rewrite append_cons. cbn. lia. Qed.

Lemma append_nil_inv a b : String.append a b = "" -> a = "" /\ b = "".
Proof. destruct a; [by destruct b|done]. Qed.

(** ** Deciding an anchored pattern *)
Section Derivatives.

Fixpoint nullable (b : bool) (r : regex) : bool :=
  match r with
  | REps | RStar _ => true
  | RClass _ => false
  | RCat r1 r2 => nullable b r1 && nullable b r2
  | RAlt r1 r2 => nullable b r1 || nullable b r2
  | RGroup _ r => nullable b r
  | RBegin => b
  end.

(** What is left of an expression after one character; afterwards the text has begun. *)
Fixpoint derive (b : bool) (c : ascii) (r : regex) : regex :=
  match r with
  | REps | RBegin => RClass (fun _ => false)
  | RClass f => if f c then REps else RClass (fun _ => false)
  | RCat r1 r2 =>
      let d := RCat (derive b c r1) r2 in
      if nullable b r1 then RAlt d (derive b c r2) else d
  | RAlt r1 r2 => RAlt (derive b c r1) (derive b c r2)
  | RStar r => RCat (derive b c r) (RStar r)
  | RGroup _ r => derive b c r
  end.

Fixpoint accepts (b : bool) (r : regex) (s : string) : bool :=
  match s with
  | EmptyString => nullable b r
  | String c s => accepts false (derive b c r) s
  end.

Lemma nullable_matches b r : nullable b r = true -> matches b r "".
Proof.
  revert b. induction r as [|f|r1 IH1 r2 IH2|r1 IH1 r2 IH2|r IH|n r IH|]; intros b H; simpl in H; try done.
  - constructor.
  - bsplit. apply (m_cat b r1 r2 "" ""); [auto|]. rewrite eq_refl_true, andb_true_r. auto.
  - apply orb_true_iff in H as [H|H]; [apply m_left|apply m_right]; auto.
  - constructor.
  - constructor. auto.
  - subst. constructor.
Qed.

Lemma matches_nullable b r s : matches b r s -> s = "" -> nullable b r = true.
Proof.
  induction 1 as [| |b r1 r2 s1 s2 _ IH1 _ IH2|b r1 r2 s _ IH|b r1 r2 s _ IH| |b r s1 s2 _ IH1 _ IH2|b n r s _ IH|]; intros E;
    simpl; try done; auto.
  - apply append_nil_inv in E as [-> ->]. rewrite eq_refl_true, andb_true_r in IH2. by rewrite IH1, IH2.
  - by rewrite IH.
  - rewrite IH by done. apply orb_true_r.
Qed.

Lemma never_matches b s : ~ matches b (RClass (fun _ => false)) s.
Proof. inversion 1. done. Qed.

Lemma derive_sound r : forall b c s, matches false (derive b c r) s -> matches b r (String c s).
Proof.
  induction r as [|f|r1 IH1 r2 IH2|r1 IH1 r2 IH2|r IH|n r IH|]; intros b c s H; simpl in H;
    try (by destruct (never_matches _ _ H)).
  - destruct (f c) eqn:E; [|by destruct (never_matches _ _ H)]. inversion H; subst. by constructor.
  - assert (forall t, matches false (RCat (derive b c r1) r2) t -> matches b (RCat r1 r2) (String c t)) as HC.
    { inversion 1; subst. change (String c (String.append s1 s2)) with (String.append (String c s1) s2).
      constructor; [by apply IH1|]. by rewrite andb_comm. }
    destruct (nullable b r1) eqn:En; [|by apply HC]. inversion H; subst; [by apply HC|].
    apply (m_cat b r1 r2 "" (String c s)); [by apply nullable_matches|]. rewrite eq_refl_true, andb_true_r. by apply IH2.
  - inversion H; subst; [apply m_left|apply m_right]; auto.
  - inversion H; subst. change (String c (String.append s1 s2)) with (String.append (String c s1) s2).
    constructor; [by apply IH|]. by rewrite andb_comm.
  - constructor. by apply IH.
Qed.

Lemma derive_complete b r t : matches b r t -> forall c s, t = String c s -> matches false (derive b c r) s.
Proof.
  induction 1 as [|b f x Hf|b r1 r2 s1 s2 H1 IH1 H2 IH2|b r1 r2 s H IH|b r1 r2 s H IH|b r|b r s1 s2 H1 IH1 H2 IH2|b n r s H IH|];
    intros c t E; simpl; try done.
  - injection E as -> <-. rewrite Hf. constructor.
  - destruct s1 as [|x s1]; [|rewrite append_cons in E].
    + rewrite eq_refl_true, andb_true_r in H2, IH2. rewrite (matches_nullable _ _ _ H1 eq_refl). apply m_right. by apply IH2.
    + injection E as -> <-. rewrite (bool_decide_false (String c s1 = "")), andb_false_r in H2 by done.
      assert (matches false (RCat (derive b c r1) r2) (String.append s1 s2)) by (constructor; [by apply IH1|done]).
      destruct (nullable b r1); [by apply m_left|done].
  - apply m_left. auto.
  - apply m_right. auto.
  - destruct s1 as [|x s1]; [|rewrite append_cons in E].
    + rewrite eq_refl_true, andb_true_r in IH2. by apply IH2.
    + injection E as -> <-. rewrite (bool_decide_false (String c s1 = "")), andb_false_r in H2 by done.
      constructor; [by apply IH1|done].
  - auto.
Qed.

Lemma accepts_spec s : forall b r, accepts b r s = true <-> matches b r s.
Proof.
  induction s as [|c s IH]; intros b r; simpl.
  - split; [apply nullable_matches|intros H; by eapply matches_nullable].
  - rewrite IH. split; [apply derive_sound|intros H; by eapply derive_complete].
Qed.
End Derivatives.

(** [regexp.MustCompile("^...$").MatchString]: without the flag [m], [$] is the end of
    the text. *)
Definition full_match (r : regex) (s : string) : bool := accepts true r s.

Lemma full_match_spec r s : full_match r s = true <-> matches true r s.
Proof. apply accepts_spec. Qed.

(** ** Search and replacement *)
Record mstate : Type := mkMState { ms_start : bool; ms_rest : string; ms_caps : list (nat * string) }.

(** What was read between two remainders of the text. *)
Definition taken (from upto : string) : string := String.substring 0 (String.length from - String.length upto) from.

(** [k] continues after the match; a repetition that consumes nothing is not repeated. *)
Fixpoint match_at (r : regex) (k : mstate -> option mstate) (st : mstate) {struct r} : option mstate :=
  match r with
  | REps => k st
  | RBegin => if ms_start st then k st else None
  | RClass f =>
      match ms_rest st with
      | EmptyString => None
      | String c s => if f c then k (mkMState false s (ms_caps st)) else None
      end
  | RCat r1 r2 => match_at r1 (match_at r2 k) st
  | RAlt r1 r2 => match match_at r1 k st with Some fin => Some fin | None => match_at r2 k st end
  | RStar r =>
      (fix loop (n : nat) (st : mstate) : option mstate :=
         match n with
         | O => k st
         | S n =>
             match match_at r (fun st' => if ms_rest st' == ms_rest st then None else loop n st') st with
             | Some fin => Some fin
             | None => k st
             end
         end) (String.length (ms_rest st)) st
  | RGroup n r => match_at r (fun st' => k (mkMState (ms_start st') (ms_rest st') ((n, taken (ms_rest st) (ms_rest st')) :: ms_caps st'))) st
  end.

(** [${n}] of a template: the text of the group that was closed last. *)
Definition capture (caps : list (nat * string)) (n : nat) : string :=
  match List.find (fun x => fst x =? n)%nat caps with Some x => snd x | None => "" end.

(** Left to right; patterns that match the empty text are not used. *)
Fixpoint replace_from (r : regex) (template : (nat -> string) -> string) (fuel : nat) (start : bool) (s : string) : string :=
  match fuel with
  | O => s
  | S fuel =>
      match match_at r Some (mkMState start s []) with
      | Some fin =>
          if ms_rest fin == s then
            match s with EmptyString => "" | String c s => String c (replace_from r template fuel false s) end
          else String.append (template (capture (ms_caps fin))) (replace_from r template fuel false (ms_rest fin))
      | None => match s with EmptyString => "" | String c s => String c (replace_from r template fuel false s) end
      end
  end.

Definition replace_all (r : regex) (template : (nat -> string) -> string) (s : string) : string :=
  replace_from r template (S (String.length s)) true s.

(** A match that is found consumes a text of the language. *)
Definition steps_by (r : regex) (st st' : mstate) : Prop :=
  exists s, ms_rest st = String.append s (ms_rest st') /\ matches (ms_start st) r s /\ ms_start st' = ms_start st && (s == "").

Lemma append_assoc a b c : String.append (String.append a b) c = String.append a (String.append b c).
Proof. induction a as [|x a IH]; [done|]. by rewrite !append_cons, IH. Qed.

Lemma append_empty a b : (String.append a b == "") = (a == "") && (b == "").
Proof.
  destruct a as [|x a]; [by rewrite eq_refl_true|]. rewrite append_cons, !bool_decide_false by done. done.
Qed.

Lemma steps_cat r1 r2 st1 st2 st3 : steps_by r1 st1 st2 -> steps_by r2 st2 st3 -> steps_by (RCat r1 r2) st1 st3.
Proof.
  intros (s1 & E1 & M1 & B1) (s2 & E2 & M2 & B2). exists (String.append s1 s2). rewrite append_assoc, append_empty, andb_assoc.
  rewrite B1 in *. split_and!; [congruence|by constructor|congruence].
Qed.

Lemma steps_star r st1 st2 st3 : steps_by r st1 st2 -> steps_by (RStar r) st2 st3 -> steps_by (RStar r) st1 st3.
Proof.
  intros (s1 & E1 & M1 & B1) (s2 & E2 & M2 & B2). exists (String.append s1 s2). rewrite append_assoc, append_empty, andb_assoc.
  rewrite B1 in *. split_and!; [congruence|by constructor|congruence].
Qed.

Lemma match_at_sound r : forall k st fin, match_at r k st = Some fin -> exists st', steps_by r st st' /\ k st' = Some fin.
Proof.
  assert (forall r st, matches (ms_start st) r "" -> steps_by r st st) as Hid.
  { intros r0 st M. exists "". by rewrite eq_refl_true, andb_true_r. }
  induction r as [|f|r1 IH1 r2 IH2|r1 IH1 r2 IH2|r IH|n r IH|]; intros k st fin H; simpl in H.
  - exists st. split; [apply Hid; constructor|done].
  - destruct (ms_rest st) as [|c s] eqn:E; [done|]. destruct (f c) eqn:Ef; [|done]. eexists. split; [|exact H].
    exists (String c ""). rewrite (bool_decide_false (String c "" = "")), andb_false_r by done. split_and!; [by rewrite E|by constructor|done].
  - apply IH1 in H as (st1 & H1 & H). apply IH2 in H as (st2 & H2 & H). exists st2. split; [by eapply steps_cat|done].
  - destruct (match_at r1 k st) as [x|] eqn:E; [injection H as ->; apply IH1 in E|apply IH2 in H as (st' & (s & A & M & B) & H)].
    + destruct E as (st' & (s & A & M & B) & E). exists st'. split; [|done]. exists s. split_and!; [done|by apply m_left|done].
    + exists st'. split; [|done]. exists s. split_and!; [done|by apply m_right|done].
  - revert H. generalize (String.length (ms_rest st)). intros n. revert st. induction n as [|n IHn]; intros st H; simpl in H.
    + exists st. split; [apply Hid; constructor|done].
    + destruct (match_at r _ st) as [x|] eqn:E; [|exists st; split; [apply Hid; constructor|done]].
      injection H as ->. apply IH in E as (st1 & H1 & H). case_bool_decide; [done|]. apply IHn in H as (st2 & H2 & H).
      exists st2. split; [by eapply steps_star|done].
  - apply IH in H as (st' & (s & A & M & B) & H). eexists. split; [|exact H]. exists s. split_and!; [done|by constructor|done].
  - destruct (ms_start st) eqn:E; [|done]. exists st. split; [apply Hid; rewrite E; constructor|done].
Qed.

(** ** Where a text of the language must contain a word *)
Definition occurs (r : regex) (s : string) : Prop :=
  exists b u m v, s = String.append u (String.append m v) /\ m <> "" /\ matches b r m.

Lemma replace_none r template n : forall b s, ~ occurs r s -> replace_from r template n b s = s.
Proof.
  induction n as [|n IH]; intros b s Hn; simpl; [done|].
  assert (match s with EmptyString => "" | String c s => String c (replace_from r template n false s) end = s) as Hs.
  { destruct s as [|c s]; [done|]. f_equal. apply IH. intros (b' & u & m & v & -> & Hm). apply Hn.
    exists b', (String c u), m, v. by rewrite append_cons. }
  destruct (match_at r Some _) as [fin|] eqn:E; [|done]. case_bool_decide as Heq; [done|]. exfalso. apply Hn.
  apply match_at_sound in E as (st' & (m & A & M & _) & [= ->]). simpl in A. exists b, "", m, (ms_rest fin). split_and!; [done| |done].
  intros ->. by apply Heq.
Qed.

Lemma replace_all_none r template s : ~ occurs r s -> replace_all r template s = s.
Proof. apply replace_none. Qed.
