(* ===== verification/Subd.v ===== *)
(** * The host agent: internal/subd

    Subd runs on every host, answers its Dominator over mutual TLS, and enforces one
    expected state at a time.  What it accepted, and how far it got, is written to disk
    before and after enforcement, so that a restarted process resumes from the record.

    A handler runs in the monad [Act]: the process may die at any write of the disk and
    during enforcement ([None]), and a write may fail before or after its rename.  The
    machine logs the calls of the host interface in the order they are made. *)
From S2P Require Import Prelude GoStrings Regex Sql Api Schema Lease Handoff Scheduling Catalog Bootstrap.
From Stdlib Require Import Ascii.
From stdpp Require Import pretty.

Local Open Scope string_scope.
Local Open Scope list_scope.
Local Open Scope Z_scope.
Local Open Scope crane_scope.

(** ** pkg/api/kubernetes.go *)

(** [validation.IsDNS1123Label], [IsDNS1123Subdomain] and [IsConfigMapKey] without
    complaints. *)
Class K8sNames : Type := { dns_label : string -> bool; dns_subdomain : string -> bool; config_map_key : string -> bool }.

(** SHA-256 in hexadecimal of the JSON encodings that the code fingerprints. *)
Class Fingerprints : Type := {
  digest : ExpectedHostState -> string;
  SecretFingerprint : KubernetesSecret -> string;
  join_digest : string -> string -> WorkerRegistration -> string }.

Definition data_size (m : gmap string string) : Z := sum_of (fun kv => Z.of_nat (String.length (snd kv))) (map_to_list m).

Definition Normalize `{K8s} `{K8sNames} (s : KubernetesSecret) : result KubernetesSecret :=
  guard negb (negb (dns_label (ks_Namespace s)) || negb (dns_subdomain (ks_Name s)) ||
              ((ks_RolloutDeployment s != "") && negb (dns_subdomain (ks_RolloutDeployment s))))
    else ErrMsg "invalid Kubernetes resource name" in
  let type := if ks_Type s == "" then "Opaque" else ks_Type s in
  guard negb ((253 <? Z.of_nat (String.length type)) || negb (qualified_name type)) else ErrMsg "invalid Secret type" in
  guard forallb (fun kv => bool_decide (ks_Data s !! fst kv = None)) (map_to_list (ks_StringData s)) else ErrMsg "duplicate Secret key" in
  let data := ks_Data s ∪ ks_StringData s in
  guard forallb (fun kv => config_map_key (fst kv)) (map_to_list data) else ErrMsg "invalid Secret key" in
  guard negb (2 ^ 20 <? data_size data) else ErrMsg "Secret data exceeds size limit" in
  Ok (mkSecret (ks_Namespace s) (ks_Name s) type data ∅ (ks_RolloutDeployment s)).

(** ** host.go *)
Definition serviceName : regex :=
  RCat (RClass (fun c => letter c || digit c)) (RCat (RStar (RClass (fun c => letter c || digit c || any_of "_.@:-" c))) (RLit ".service")).

Definition packageName : regex :=
  let c := RClass (fun c => lower_letter c || digit c) in
  RCat c (RCat (RStar (RClass (fun c => lower_letter c || digit c || any_of "+.-" c)))
    (ROpt (RCat (RLit ":") (RCat c (RStar (RClass (fun c => lower_letter c || digit c || any_of "-" c))))))).

Definition too_long (s : string) (n : Z) : bool := n <? Z.of_nat (String.length s).

Fixpoint package_changes (seen : list string) (l : list HostPackageChange) : bool :=
  match l with
  | [] => true
  | p :: rest =>
      if negb (full_match packageName (pc_Name p)) || ((pc_Action p != "install") && (pc_Action p != "remove")) || one_of (pc_Name p) seen
      then false else package_changes (pc_Name p :: seen) rest
  end.

Definition validateExpected `{K8s} `{K8sNames} (x : ExpectedHostState) : result unit :=
  guard negb ((ex_Revision x == 0) || (256 <? Z.of_nat (size (ex_Services x)) + Z.of_nat (length (ex_Packages x))))
    else ErrMsg "invalid update revision or size" in
  guard negb (((ex_ImageID x != "") || (ex_Track x != "") || (ex_Version x != "")) &&
              (too_long (ex_ImageID x) 256 || too_long (ex_Track x) 64 || too_long (ex_Version x) 128 ||
               (ex_ImageID x == "") || (ex_Track x == "") || (ex_Version x == "")))
    else ErrMsg "invalid desired host version" in
  let* _ := (match ex_Secret x with Some s => let* _ := Normalize s in Ok tt | None => Ok tt end) in
  guard forallb (fun kv => full_match serviceName (fst kv)) (map_to_list (ex_Services x)) else ErrMsg "invalid service name" in
  guard package_changes [] (ex_Packages x) else ErrMsg "invalid package change" in
  Ok tt.

(** [if in.Secret != nil { _ = in.Secret.Normalize() }], after validation. *)
Definition with_normal_secret `{K8s} `{K8sNames} (x : ExpectedHostState) : ExpectedHostState :=
  mkExpected (ex_Revision x) (ex_ImageID x) (ex_Track x) (ex_Version x) (ex_Services x) (ex_Packages x)
    (match ex_Secret x with
     | Some s => Some (match Normalize s with Ok s' => s' | Err _ => s end)
     | None => None
     end).

(** ** Wire types of pkg/api/subd.go and worker.go *)
Record KubernetesResult : Type := mkKubernetesResult { kr_Secret : string; kr_Rollout : string }.

#[global] Instance KubernetesResult_eq_dec : EqDecision KubernetesResult.
Proof. solve_decision. Defined.

Record HostAgentStatus : Type := mkStatus {
  hs_Identity : string; hs_PID : Z; hs_InvocationID : string; hs_Ready : bool; hs_AcceptedRevision : Z;
  hs_AppliedRevision : Z; hs_Outcome : string; hs_ExpectedVersion : string; hs_Kubernetes : option KubernetesResult }.

Record ClusterJoinRequest : Type := mkJoinRequest {
  jr_Registration : WorkerRegistration; jr_Fence : Z; jr_OperationID : string; jr_APIServerEndpoint : string;
  jr_Token : string; jr_CACertHash : string }.

Record ClusterMembership : Type := mkMembership {
  cm_ContractHash : string; cm_NodeName : string; cm_NodeUID : string; cm_Certificate : string; cm_Signature : string }.

Definition JoinFingerprint `{Fingerprints} (r : ClusterJoinRequest) : string :=
  join_digest (jr_APIServerEndpoint r) (jr_CACertHash r) (jr_Registration r).

(** ** cluster_join.go: validation *)
Definition token_char (c : ascii) : bool := lower_letter c || digit c.
Definition joinTokenRE : regex := RCat (RRep 6 (RClass token_char)) (RCat (RLit ".") (RRep 16 (RClass token_char))).
Definition joinCAHashRE : regex := RCat (RLit "sha256:") (RRep 64 (RClass hex_digit)).
Definition joinOperationRE : regex := RRep 36 (RClass (fun c => hex_digit c || any_of "-" c)).

(** An absolute https URL without user, query, fragment or path. *)
Definition plain_https (u : URL) : bool :=
  negb ((u_Scheme u != "https") || (u_Host u == "") || u_User u || (u_RawQuery u != "") || (u_Fragment u != "") ||
        ((u_Path u != "") && (u_Path u != "/"))).

Definition validateClusterJoin `{K8s} `{Digest} `{GoURL} (r : ClusterJoinRequest) : result unit :=
  guard negb (negb (is_ok (Validate (jr_Registration r))) || (jr_Fence r <=? 0) || negb (full_match joinOperationRE (jr_OperationID r)) ||
              negb (full_match joinTokenRE (jr_Token r)) || negb (full_match joinCAHashRE (jr_CACertHash r)))
    else ErrMsg "invalid cluster join request" in
  guard match url_parse (jr_APIServerEndpoint r) with Some u => plain_https u | None => false end
    else ErrMsg "invalid cluster join endpoint" in
  Ok tt.

Record clusterJoinState : Type := mkJoinState {
  js_OperationID : string; js_Endpoint : string; js_CACertHash : string; js_Outcome : string;
  js_ContractHash : string; js_Registration : WorkerRegistration; js_Fence : Z }.

Definition zero_registration : WorkerRegistration := mkRegistration "" "" "" "" "" "" "" empty_scheduling.
Definition no_join : clusterJoinState := mkJoinState "" "" "" "" "" zero_registration 0.
Definition set_js_Outcome (v : string) (j : clusterJoinState) : clusterJoinState :=
  mkJoinState (js_OperationID j) (js_Endpoint j) (js_CACertHash j) v (js_ContractHash j) (js_Registration j) (js_Fence j).
Definition set_js_Fence (v : Z) (j : clusterJoinState) : clusterJoinState :=
  mkJoinState (js_OperationID j) (js_Endpoint j) (js_CACertHash j) (js_Outcome j) (js_ContractHash j) (js_Registration j) v.

Definition validateJoinState `{K8s} `{Digest} (j : clusterJoinState) : result unit :=
  guard negb (negb (is_ok (Validate (js_Registration j))) || (String.length (js_ContractHash j) != 64%nat) || (js_Fence j <=? 0) ||
              negb (full_match joinOperationRE (js_OperationID j)) || (js_Endpoint j == "") || negb (full_match joinCAHashRE (js_CACertHash j)))
    else ErrMsg "invalid join state" in
  guard one_of (js_Outcome j) ["applying"; "applied"; "failed"; "interrupted"] else ErrMsg "invalid join outcome" in
  Ok tt.

(** ** state.go *)
Record savedState : Type := mkSaved {
  sa_Request : ExpectedHostState; sa_Digest : string; sa_AppliedRevision : Z; sa_Outcome : string;
  sa_Kubernetes : option KubernetesResult }.

Definition zero_expected : ExpectedHostState := mkExpected 0 "" "" "" ∅ [] None.
Definition zero_saved : savedState := mkSaved zero_expected "" 0 "" None.
Definition set_sa_Outcome (v : string) (s : savedState) : savedState :=
  mkSaved (sa_Request s) (sa_Digest s) (sa_AppliedRevision s) v (sa_Kubernetes s).

Record Disk : Type := mkDisk { dk_state : file savedState; dk_join : file clusterJoinState; dk_status : file HostAgentStatus }.
Definition put_state (v : savedState) (k : Disk) : Disk := mkDisk (Stored v) (dk_join k) (dk_status k).
Definition put_join (v : clusterJoinState) (k : Disk) : Disk := mkDisk (dk_state k) (Stored v) (dk_status k).
Definition put_status (v : HostAgentStatus) (k : Disk) : Disk := mkDisk (dk_state k) (dk_join k) (Stored v).

(** ** The host interface *)
Record Service : Type := mkService { sv_Name : string; sv_Running : bool }.
Record Package : Type := mkPackage { pk_Name : string; pk_Version : string }.
Record CurrentState : Type := mkCurrent { cs_Services : gmap string Service; cs_Packages : list Package }.

(** [Host] with the optional interfaces [secretHost], [clusterJoinHost] and
    [membershipHost]; [None] when the host does not implement one. *)
Class HostOps (H : Type) : Type := {
  host_Collect : H -> result CurrentState;
  host_Apply : ExpectedHostState -> H -> result unit * H;
  host_EnsureSecret : option (string -> KubernetesSecret -> H -> (option KubernetesResult * result unit) * H);
  host_JoinCluster : option (ClusterJoinRequest -> H -> result unit * H);
  host_ClusterMembership : option (ClusterJoinRequest -> string -> H -> result ClusterMembership) }.

(** A write of [atomicJSON]: it works, it fails before or after the rename, or the process
    dies before or after the rename. *)
Inductive write_fault : Type := Works | Fails | FailsRenamed | DiesBefore | DiesRenamed.

(** What goes wrong, by the number of the operation; [dies_enforcing] is a process that
    dies while the host enforces. *)
Class Faults : Type := { fault_at : nat -> write_fault; dies_enforcing : nat -> bool }.

(** Calls of the host interface that change the host, with their success. *)
Inductive host_call : Type := Enforced (x : ExpectedHostState) (ok : bool) | Joined (r : ClusterJoinRequest) (ok : bool).

Section Agent.
Context {H : Type} {host : HostOps H} {k8s : K8s} {names : K8sNames} {fp : Fingerprints} {dg : Digest} {gourl : GoURL} {faults : Faults}.
(** The process: its SPIFFE identity, its PID and its systemd invocation. *)
Context (identity : string) (pid : Z) (invocation : string).

(** The memory of the process, the disk and the host. *)
Record Machine : Type := mkMachine {
  mc_saved : savedState; mc_join : clusterJoinState; mc_view : HostAgentStatus;
  mc_disk : Disk; mc_host : H; mc_io : nat; mc_log : list host_call }.

Definition set_mc_saved (v : savedState) (m : Machine) : Machine :=
  mkMachine v (mc_join m) (mc_view m) (mc_disk m) (mc_host m) (mc_io m) (mc_log m).
Definition set_mc_join (v : clusterJoinState) (m : Machine) : Machine :=
  mkMachine (mc_saved m) v (mc_view m) (mc_disk m) (mc_host m) (mc_io m) (mc_log m).
Definition set_mc_view (v : HostAgentStatus) (m : Machine) : Machine :=
  mkMachine (mc_saved m) (mc_join m) v (mc_disk m) (mc_host m) (mc_io m) (mc_log m).
Definition set_mc_disk (v : Disk) (m : Machine) : Machine :=
  mkMachine (mc_saved m) (mc_join m) (mc_view m) v (mc_host m) (mc_io m) (mc_log m).
Definition set_mc_host (v : H) (m : Machine) : Machine :=
  mkMachine (mc_saved m) (mc_join m) (mc_view m) (mc_disk m) v (mc_io m) (mc_log m).
Definition tick (m : Machine) : Machine :=
  mkMachine (mc_saved m) (mc_join m) (mc_view m) (mc_disk m) (mc_host m) (S (mc_io m)) (mc_log m).
Definition log_call (c : host_call) (m : Machine) : Machine :=
  mkMachine (mc_saved m) (mc_join m) (mc_view m) (mc_disk m) (mc_host m) (mc_io m) (mc_log m ++ [c]).

(** [None]: the process died. *)
Definition Act (A : Type) : Type := Machine -> option A * Machine.
Definition act_ret {A} (a : A) : Act A := fun m => (Some a, m).
Definition act_bind {A B} (x : Act A) (k : A -> Act B) : Act B :=
  fun m => match x m with (Some a, m') => k a m' | (None, m') => (None, m') end.
Definition modify (f : Machine -> Machine) : Act unit := fun m => (Some tt, f m).
Definition gets {A} (f : Machine -> A) : Act A := fun m => (Some (f m), m).

Notation "'act!' x := m 'in' k" := (act_bind m (fun x => k))
  (at level 10, x pattern, m at level 100, k at level 200, format "'[v' 'act!'  x  :=  m  'in' '/' k ']'").

Definition atomicJSON (put : Disk -> Disk) : Act bool := fun m =>
  let stored := tick (set_mc_disk (put (mc_disk m)) m) in
  match fault_at (mc_io m) with
  | Works => (Some true, stored)
  | Fails => (Some false, tick m)
  | FailsRenamed => (Some false, stored)
  | DiesBefore => (None, tick m)
  | DiesRenamed => (None, stored)
  end.

(** *** Status *)
Definition status_of (s : savedState) : HostAgentStatus :=
  mkStatus identity pid invocation true (ex_Revision (sa_Request s)) (sa_AppliedRevision s) (sa_Outcome s)
    (if (sa_Outcome s == "applied") && (sa_AppliedRevision s == ex_Revision (sa_Request s)) then ex_Version (sa_Request s) else "")
    (sa_Kubernetes s).

Definition publish : Act bool :=
  act! st := gets (fun m => status_of (mc_saved m)) in
  act! _ := modify (set_mc_view st) in
  atomicJSON (put_status st).

(** *** Replies *)
Inductive Reply : Type :=
| RStatus (code : Z) (s : HostAgentStatus)
| RState (s : HostAgentStatus) (c : CurrentState)
| RJoin (operation : string)
| RMembership (m : ClusterMembership)
| RText (code : Z) (msg : string).

(** *** [update] *)

(** [Apply], then [EnsureSecret] when the state carries a Secret. *)
Definition enforce (x : ExpectedHostState) : Act (result unit) := fun m =>
  if dies_enforcing (mc_io m) then (None, log_call (Enforced x false) (tick m))
  else
    let '(r, h) := host_Apply x (mc_host m) in
    let m := set_mc_host h (tick m) in
    let '(r, m) :=
      match r, ex_Secret x with
      | Ok _, Some secret =>
          match host_EnsureSecret with
          | Some ensure =>
              let '(k, r, h) := ensure (String.append identity (String.append "/" (pretty (ex_Revision x)))) secret (mc_host m) in
              let s := mc_saved m in
              (r, set_mc_saved (mkSaved (sa_Request s) (sa_Digest s) (sa_AppliedRevision s) (sa_Outcome s) k) (set_mc_host h m))
          | None => (Err (ErrMsg "Kubernetes enforcement unavailable"), m)
          end
      | _, _ => (r, m)
      end in
    (Some r, log_call (Enforced x (is_ok r)) m).

Definition update (cancelled : bool) (body : option ExpectedHostState) : Act Reply :=
  match body with
  | None => act_ret (RText 400 "invalid expected state")
  | Some x =>
      if negb (is_ok (validateExpected x)) then act_ret (RText 400 "invalid expected state")
      else
        let x := with_normal_secret x in
        let hash := digest x in
        if cancelled then act_ret (RText 408 "request cancelled")
        else
          act! previous := gets mc_saved in
          let current := ex_Revision (sa_Request previous) in
          if (ex_Revision x <? current) || ((ex_Revision x == current) && (hash != sa_Digest previous))
          then act_ret (RText 409 "revision conflict")
          else if (ex_Revision x == current) && (sa_Outcome previous == "applied")
          then act_ret (RStatus 200 (status_of previous))
          else
            let accepted := mkSaved x hash (sa_AppliedRevision previous) "applying" None in
            act! _ := modify (set_mc_saved accepted) in
            act! persisted := atomicJSON (put_state accepted) in
            if negb persisted then
              act! _ := modify (set_mc_saved previous) in
              act_ret (RText 500 "cannot persist update")
            else
              act! published := publish in
              if negb published then act_ret (RText 500 "cannot publish status")
              else
                act! r := enforce x in
                act! after := gets mc_saved in
                let outcome := mkSaved (sa_Request after) (sa_Digest after)
                  (if is_ok r then ex_Revision x else sa_AppliedRevision after)
                  (if is_ok r then "applied" else "failed") (sa_Kubernetes after) in
                act! _ := modify (set_mc_saved outcome) in
                act! persisted := atomicJSON (put_state outcome) in
                if negb persisted then
                  act! _ := modify (set_mc_saved (mkSaved (sa_Request outcome) (sa_Digest outcome) (sa_AppliedRevision previous)
                                                    "interrupted" (sa_Kubernetes outcome))) in
                  act! _ := publish in
                  act_ret (RText 500 "cannot persist outcome")
                else
                  act! published := publish in
                  if negb published then act_ret (RText 500 "cannot publish status")
                  else if is_ok r then act_ret (RStatus 200 (status_of outcome))
                  else match ex_Secret x with
                       | Some _ => act_ret (RStatus 500 (status_of outcome))
                       | None => act_ret (RText 500 "host update failed")
                       end
  end.

(** *** [clusterJoin] *)
Definition join_of (r : ClusterJoinRequest) : clusterJoinState :=
  mkJoinState (jr_OperationID r) (jr_APIServerEndpoint r) (jr_CACertHash r) "applying" (JoinFingerprint r) (jr_Registration r) (jr_Fence r).

(** The host call, logged; the process may die in it. *)
Definition join_host (call : ClusterJoinRequest -> H -> result unit * H) (r : ClusterJoinRequest) : Act (result unit) := fun m =>
  if dies_enforcing (mc_io m) then (None, log_call (Joined r false) (tick m))
  else let '(res, h) := call r (mc_host m) in (Some res, log_call (Joined r (is_ok res)) (set_mc_host h (tick m))).

Definition clusterJoin (body : option ClusterJoinRequest) : Act Reply :=
  match body with
  | None => act_ret (RText 400 "invalid cluster join request")
  | Some r =>
      if negb (is_ok (validateClusterJoin r)) then act_ret (RText 400 "invalid cluster join request")
      else
        act! j := gets mc_join in
        if (js_OperationID j != "") &&
           ((js_OperationID j != jr_OperationID r) || (js_ContractHash j != JoinFingerprint r) || (jr_Fence r <? js_Fence j))
        then act_ret (RText 409 "cluster join operation conflict")
        else
          let j := if js_OperationID j == "" then join_of r else j in
          act! _ := modify (set_mc_join j) in
          match host_JoinCluster with
          | None => act_ret (RText 503 "Kubernetes join is unavailable")
          | Some call =>
              let j := set_js_Outcome "applying" (set_js_Fence (jr_Fence r) j) in
              act! _ := modify (set_mc_join j) in
              act! persisted := atomicJSON (put_join j) in
              if negb persisted then act_ret (RText 503 "cannot persist cluster join progress")
              else
                act! res := join_host call r in
                if negb (is_ok res) then
                  let j := set_js_Outcome "failed" j in
                  act! _ := modify (set_mc_join j) in
                  act! _ := atomicJSON (put_join j) in
                  act_ret (RText 502 "Kubernetes node join failed")
                else
                  let j := set_js_Outcome "applied" j in
                  act! _ := modify (set_mc_join j) in
                  act! persisted := atomicJSON (put_join j) in
                  if negb persisted then
                    act! _ := modify (set_mc_join (set_js_Outcome "interrupted" j)) in
                    act_ret (RText 503 "cannot persist cluster join outcome")
                  else act_ret (RJoin (jr_OperationID r))
          end
  end.

(** *** [clusterMembership]; [challenge_bytes] is the length that
    [base64.RawURLEncoding.DecodeString] decodes, [None] when it refuses. *)
Definition clusterMembership (challenge_bytes : string -> option Z) (body : option string) : Act Reply :=
  match body with
  | None => act_ret (RText 400 "invalid request")
  | Some challenge =>
      if challenge_bytes challenge != Some 32 then act_ret (RText 400 "invalid membership challenge")
      else
        act! j := gets mc_join in
        match host_ClusterMembership with
        | Some prove =>
            if js_Outcome j != "applied" then act_ret (RText 503 "worker membership unavailable")
            else
              let request := mkJoinRequest (js_Registration j) 0 "" (js_Endpoint j) "" (js_CACertHash j) in
              act! r := gets (fun m => prove request challenge (mc_host m)) in
              match r with
              | Err _ => act_ret (RText 503 "worker membership verification failed")
              | Ok p => act_ret (RMembership p)
              end
        | None => act_ret (RText 503 "worker membership unavailable")
        end
  end.

(** *** Routes and authorization *)
Inductive AgentCall : Type :=
| GetHealth | GetState
| PutExpectedState (cancelled : bool) (body : option ExpectedHostState)
| PutClusterJoin (body : option ClusterJoinRequest)
| PostMembership (body : option string).

Definition is_get (c : AgentCall) : bool := match c with GetHealth | GetState => true | _ => false end.

Record AgentConfig : Type := mkAgentConfig {
  ac_ListenAddress : string; ac_TrustDomain : string; ac_WriterIdentity : string; ac_ReaderIdentities : list string;
  ac_Kubeconfig : string }.

(** [peer] is the identity of the verified client certificate; [deadline_ok] says that the
    deadline header parses. *)
Definition agent_Handler (cfg : AgentConfig) (challenge_bytes : string -> option Z) (peer : option string) (deadline_ok : bool)
    (c : AgentCall) : Act Reply :=
  match peer with
  | None => act_ret (RText 401 "client identity required")
  | Some id =>
      if negb ((id == ac_WriterIdentity cfg) || (is_get c && one_of id (ac_ReaderIdentities cfg))) then act_ret (RText 403 "forbidden")
      else if negb (is_get c) && negb deadline_ok then act_ret (RText 400 "invalid operation deadline")
      else match c with
           | GetHealth => gets (fun m => RStatus 200 (mc_view m))
           | GetState => gets (fun m => match host_Collect (mc_host m) with
                                        | Ok st => RState (mc_view m) st
                                        | Err _ => RText 503 "host collection failed"
                                        end)
           | PutExpectedState cancelled body => update cancelled body
           | PutClusterJoin body => clusterJoin body
           | PostMembership body => clusterMembership challenge_bytes body
           end
  end.

(** *** [NewServer]: the memory a process starts with *)
Definition recovered_state (f : file savedState) : result savedState :=
  match f with
  | Unreadable => Err (ErrMsg "cannot read persisted Subd state")
  | Garbage => Err (ErrMsg "invalid persisted Subd state")
  | Missing => Ok (set_sa_Outcome "unconfigured" zero_saved)
  | Stored s =>
      guard is_ok (validateExpected (sa_Request s)) && (digest (sa_Request s) == sa_Digest s) &&
            negb (ex_Revision (sa_Request s) <? sa_AppliedRevision s) else ErrMsg "invalid persisted Subd state" in
      if sa_Outcome s == "applying" then Ok (set_sa_Outcome "interrupted" s)
      else if one_of (sa_Outcome s) ["applied"; "failed"; "interrupted"] then Ok s
      else Err (ErrMsg "invalid persisted Subd outcome")
  end.

Definition recovered_join (f : file clusterJoinState) : result clusterJoinState :=
  match f with
  | Unreadable => Err (ErrMsg "cannot read persisted cluster join status")
  | Garbage => Err (ErrMsg "invalid persisted cluster join status")
  | Missing => Ok no_join
  | Stored j =>
      guard is_ok (validateJoinState j) else ErrMsg "invalid persisted cluster join status" in
      Ok (if js_Outcome j == "applying" then set_js_Outcome "interrupted" j else j)
  end.

(** A process that starts on this machine; the log of host calls goes on. *)
Definition restart (m : Machine) : result Machine :=
  let* s := recovered_state (dk_state (mc_disk m)) in
  let* j := recovered_join (dk_join (mc_disk m)) in
  Ok (set_mc_view (status_of s) (set_mc_join j (set_mc_saved s m))).
End Agent.
Arguments Machine H : clear implicits.
