(* ===== verification/SubdFacts.v ===== *)
(** * Facts about the host agent

    The agent's memory, disk and log of host calls through any sequence of requests, write
    faults, deaths of the process and restarts.  Handlers are reasoned about with the
    weakest precondition [wp] of the monad [Act], whose second postcondition is what holds
    of the machine when the process dies. *)
From S2P Require Import Prelude GoStrings Regex Sql Api Schema Lease Handoff Scheduling Catalog Bootstrap Subd.
From stdpp Require Import pretty.

Local Open Scope string_scope.
Local Open Scope list_scope.
Local Open Scope Z_scope.
Local Open Scope crane_scope.

Lemma StronglySorted_snoc {A} (R : A -> A -> Prop) l x :
  StronglySorted R l -> (forall y, In y l -> R y x) -> StronglySorted R (l ++ [x]).
Proof.
  induction l as [|y l IH]; cbn; intros S C; [by repeat constructor|].
  apply StronglySorted_inv in S as [S F]. constructor; [apply IH; auto|].
  apply Forall_app. split; [exact F|]. constructor; [by apply C; left|constructor].
Qed.

(** ** Validation and normalization *)
Section Normal.
Context {k8s : K8s} {names : K8sNames}.

Lemma data_union_empty (m : gmap string string) : m ∪ ∅ = m.
Proof. apply (right_id_L ∅ (∪)). Qed.

(** A Secret that [Normalize] returned is its own normal form. *)
Lemma Normalize_idempotent s s' : Normalize s = Ok s' -> Normalize s' = Ok s'.
Proof.
  unfold Normalize. intros E.
  repeat match type of E with rbind (require ?b _) _ = _ => destruct b eqn:?; cbn [rbind require] in E; [|done] end.
  injection E as <-. cbn [ks_Namespace ks_Name ks_Type ks_Data ks_StringData ks_RolloutDeployment].
  assert (T : (if (if ks_Type s == "" then "Opaque" else ks_Type s) == "" then "Opaque" else if ks_Type s == "" then "Opaque" else ks_Type s)
              = (if ks_Type s == "" then "Opaque" else ks_Type s)).
  { destruct (ks_Type s == "") eqn:Et; [done|]. by rewrite Et. }
  rewrite T, data_union_empty, map_to_list_empty.
  repeat match goal with Ht : ?b = true |- context [require ?b _] => rewrite Ht; cbn [rbind require] end.
  done.
Qed.

Lemma with_normal_secret_valid x : validateExpected x = Ok tt -> validateExpected (with_normal_secret x) = Ok tt.
Proof.
  unfold validateExpected, with_normal_secret. cbn [ex_Revision ex_ImageID ex_Track ex_Version ex_Services ex_Packages ex_Secret].
  intros E. repeat match type of E with rbind (require ?b _) _ = _ => destruct b eqn:?; cbn [rbind require] in E |- *; [|done] end.
  destruct (ex_Secret x) as [s|]; [|exact E].
  destruct (Normalize s) as [s'|] eqn:En; cbn [rbind] in E; [|done].
  by rewrite (Normalize_idempotent s s' En).
Qed.

Lemma is_ok_unit (r : result unit) : is_ok r = true <-> r = Ok tt.
Proof. destruct r as [[]|]; split; done. Qed.

Lemma validateExpected_revision x : validateExpected x = Ok tt -> ex_Revision x <> 0.
Proof.
  unfold validateExpected. intros E R. rewrite R in E. done.
Qed.
End Normal.

(** ** Weakest preconditions *)
Section Wp.
Context {H : Type} {faults : Faults}.


Implicit Types (m : Machine H) (Dead : Machine H -> Prop).

Definition wp {A} (c : Act (H := H) A) (Q : A -> Machine H -> Prop) Dead m : Prop :=
  match c m with (Some a, m') => Q a m' | (None, m') => Dead m' end.

Lemma wp_ret {A} (a : A) Q Dead m : Q a m -> wp (act_ret a) Q Dead m.
Proof. done. Qed.

Lemma wp_bind {A B} (c : Act A) (k : A -> Act B) Q Dead m :
  wp c (fun a m' => wp (k a) Q Dead m') Dead m -> wp (act_bind c k) Q Dead m.
Proof. unfold wp, act_bind. by destruct (c m) as [[a|] m']. Qed.

Lemma wp_modify f (Q : unit -> Machine H -> Prop) Dead m : Q tt (f m) -> wp (modify f) Q Dead m.
Proof. done. Qed.

Lemma wp_gets {A} (f : Machine H -> A) Q Dead m : Q (f m) m -> wp (gets f) Q Dead m.
Proof. done. Qed.

Lemma wp_mono {A} (c : Act A) (Q Q' : A -> Machine H -> Prop) (Dead Dead' : Machine H -> Prop) m :
  wp c Q Dead m -> (forall a m', Q a m' -> Q' a m') -> (forall m', Dead m' -> Dead' m') -> wp c Q' Dead' m.
Proof. unfold wp. destruct (c m) as [[a|] m']; auto. Qed.

(** Whatever the fault, the file is as it was or as it was to be. *)
Lemma wp_atomic put Q Dead m :
  Q true (tick (set_mc_disk (put (mc_disk m)) m)) ->
  Q false (tick m) -> Q false (tick (set_mc_disk (put (mc_disk m)) m)) ->
  Dead (tick m) -> Dead (tick (set_mc_disk (put (mc_disk m)) m)) ->
  wp (atomicJSON put) Q Dead m.
Proof. unfold wp, atomicJSON. by destruct (fault_at (mc_io m)). Qed.

Lemma wp_works put (Q : bool -> Machine H -> Prop) Dead m :
  fault_at (mc_io m) = Works -> Q true (tick (set_mc_disk (put (mc_disk m)) m)) -> wp (atomicJSON put) Q Dead m.
Proof. unfold wp, atomicJSON. by intros ->. Qed.
End Wp.

Ltac wp_if E := match goal with |- wp (if ?b then _ else _) _ _ _ => destruct b eqn:E end.
Ltac machine_cbn :=
  cbv beta iota zeta delta [tick set_mc_disk set_mc_join set_mc_saved set_mc_view set_mc_host log_call
       mc_saved mc_join mc_view mc_disk mc_host mc_io mc_log].

Section Facts.
Context {H : Type} {host : HostOps H} {k8s : K8s} {names : K8sNames} {fp : Fingerprints} {dg : Digest} {gourl : GoURL} {faults : Faults}.
Context (identity : string).
(** SHA-256 in hexadecimal has 64 characters, and the empty string parses to the empty URL. *)
Context (join_digest_length : forall e c r, String.length (join_digest e c r) = 64%nat)
        (url_parse_empty : forall u, url_parse "" = Some u -> u_Host u = "").

Implicit Types (m : Machine H) (Dead : Machine H -> Prop).

(** ** What memory and disk hold of the log *)
Definition first_saved : savedState := set_sa_Outcome "unconfigured" zero_saved.

(** An accepted state, as [NewServer] takes it back. *)
Definition acceptable (s : savedState) : Prop :=
  validateExpected (sa_Request s) = Ok tt /\ sa_Digest s = digest (sa_Request s) /\
  sa_AppliedRevision s <= ex_Revision (sa_Request s) /\ In (sa_Outcome s) ["applying"; "applied"; "failed"; "interrupted"] /\
  0 < ex_Revision (sa_Request s).

Definition enforcements (log : list host_call) : list (ExpectedHostState * bool) :=
  omap (fun c => match c with Enforced x ok => Some (x, ok) | Joined _ _ => None end) log.
Definition joins (log : list host_call) : list ClusterJoinRequest :=
  omap (fun c => match c with Joined r _ => Some r | Enforced _ _ => None end) log.

(** A later enforcement may follow an earlier one: a higher revision, or the same request. *)
Definition supersedes (x y : ExpectedHostState) : Prop :=
  ex_Revision x < ex_Revision y \/ (ex_Revision x = ex_Revision y /\ digest x = digest y).

Definition join_supersedes (r q : ClusterJoinRequest) : Prop :=
  jr_OperationID q = jr_OperationID r /\ JoinFingerprint q = JoinFingerprint r /\ jr_Fence r <= jr_Fence q.

(** The record [s] is not behind any enforcement, and reports no more than happened. *)
Record saved_true (log : list host_call) (s : savedState) : Prop := {
  st_covers : forall x ok, In (x, ok) (enforcements log) ->
    ex_Revision x < ex_Revision (sa_Request s) \/ (ex_Revision x = ex_Revision (sa_Request s) /\ digest x = sa_Digest s);
  st_outcome : sa_Outcome s = "applied" ->
    sa_AppliedRevision s = ex_Revision (sa_Request s) /\ last (enforcements log) = Some (sa_Request s, true);
  st_applied : 0 < sa_AppliedRevision s -> exists x, In (x, true) (enforcements log) /\ ex_Revision x = sa_AppliedRevision s }.

Definition join_true (log : list host_call) (j : clusterJoinState) : Prop :=
  forall r, In r (joins log) -> jr_OperationID r <> "" /\ js_OperationID j = jr_OperationID r /\ js_ContractHash j = JoinFingerprint r /\ jr_Fence r <= js_Fence j.

Definition memory_true (log : list host_call) (s : savedState) (j : clusterJoinState) : Prop :=
  (s = first_saved \/ acceptable s) /\ saved_true log s /\
  (j = no_join \/ validateJoinState j = Ok tt) /\ join_true log j.

Definition disk_true (log : list host_call) (k : Disk) : Prop :=
  match dk_state k with
  | Missing => saved_true log first_saved
  | Stored s => acceptable s /\ saved_true log s
  | _ => False
  end /\
  match dk_join k with
  | Missing => join_true log no_join
  | Stored j => validateJoinState j = Ok tt /\ join_true log j
  | _ => False
  end.

Definition log_fenced (log : list host_call) : Prop :=
  StronglySorted supersedes (map fst (enforcements log)) /\ StronglySorted join_supersedes (joins log) /\
  forall x ok, In (x, ok) (enforcements log) -> 0 < ex_Revision x.

Definition persistent m : Prop := log_fenced (mc_log m) /\ disk_true (mc_log m) (mc_disk m).
Definition consistent m : Prop := persistent m /\ memory_true (mc_log m) (mc_saved m) (mc_join m).

(** *** Growth of the log *)
Lemma enforcements_app l k : enforcements (l ++ k) = enforcements l ++ enforcements k.
Proof. apply omap_app. Qed.

Lemma joins_app l k : joins (l ++ k) = joins l ++ joins k.
Proof. apply omap_app. Qed.

Lemma fenced_enforced log x ok :
  log_fenced log -> 0 < ex_Revision x -> (forall y b, In (y, b) (enforcements log) -> supersedes y x) -> log_fenced (log ++ [Enforced x ok]).
Proof.
  intros (F & J & P) Px C. split; [|split; [by rewrite joins_app, app_nil_r|]].
  2:{ intros y b. rewrite enforcements_app. intros [I|[[= <- <-]|[]]]%in_app_iff; [by apply (P y b)|done]. }
  rewrite enforcements_app, map_app. apply StronglySorted_snoc; [exact F|].
  intros y Hy. apply in_map_iff in Hy as [[y' b] [<- Hy]]. exact (C y' b Hy).
Qed.

Lemma fenced_joined log r ok :
  log_fenced log -> (forall q, In q (joins log) -> join_supersedes q r) -> log_fenced (log ++ [Joined r ok]).
Proof.
  intros (F & J & P) C. split; [by rewrite enforcements_app, app_nil_r|].
  split; [rewrite joins_app; by apply StronglySorted_snoc|]. by rewrite enforcements_app, app_nil_r.
Qed.

Lemma saved_true_joined log r ok s : saved_true log s -> saved_true (log ++ [Joined r ok]) s.
Proof. intros [C O A]. by split; rewrite enforcements_app, app_nil_r. Qed.

Lemma join_true_enforced log x ok j : join_true log j -> join_true (log ++ [Enforced x ok]) j.
Proof. intros J r. rewrite joins_app, app_nil_r. apply J. Qed.

(** The record of the request that is enforced, before and after. *)
Lemma saved_true_enforced log x ok s :
  saved_true log s -> sa_Request s = x -> sa_Digest s = digest x -> sa_Outcome s <> "applied" ->
  saved_true (log ++ [Enforced x ok]) s.
Proof.
  intros [C O A] <- D N. split.
  - intros y b. rewrite enforcements_app. intros [Hy|[[= <- <-]|[]]]%in_app_iff; [by apply (C y b)|]. by right.
  - done.
  - intros P. destruct (A P) as (y & Hy & E). exists y. rewrite enforcements_app. split; [|done]. apply in_app_iff. by left.
Qed.

Lemma saved_true_done log x s k :
  saved_true log s -> sa_Request s = x -> sa_Digest s = digest x ->
  saved_true (log ++ [Enforced x true]) (mkSaved x (digest x) (ex_Revision x) "applied" k).
Proof.
  intros [C O A] Rq D. split; cbn [sa_Request sa_Digest sa_AppliedRevision sa_Outcome sa_Kubernetes].
  - intros y b. rewrite enforcements_app. intros [Hy|[[= <- <-]|[]]]%in_app_iff; [|by right].
    rewrite <- Rq, <- D in *. by apply (C y b).
  - intros _. rewrite enforcements_app. cbn [enforcements omap list_omap]. by rewrite last_snoc.
  - intros _. exists x. rewrite enforcements_app. split; [|done]. apply in_app_iff. right. by left.
Qed.

(** *** Acceptance *)

(** The guard of [update]. *)
Definition admissible (previous : savedState) (x : ExpectedHostState) : Prop :=
  ex_Revision (sa_Request previous) < ex_Revision x \/
  (ex_Revision x = ex_Revision (sa_Request previous) /\ digest x = sa_Digest previous).

Lemma saved_true_accepts log s x o k :
  saved_true log s -> admissible s x -> o <> "applied" -> saved_true log (mkSaved x (digest x) (sa_AppliedRevision s) o k).
Proof.
  intros [C O A] G N. split; cbn [sa_Request sa_Digest sa_AppliedRevision sa_Outcome]; [|done|done].
  intros y b Hy. destruct (C y b Hy) as [L|[L E]], G as [G|[G E']]; [left; lia|left; lia|left; lia|].
  right. split; congruence.
Qed.

Lemma covers_supersedes log s x :
  saved_true log s -> sa_Request s = x -> sa_Digest s = digest x -> forall y b, In (y, b) (enforcements log) -> supersedes y x.
Proof. intros [C _ _] <- D y b Hy. destruct (C y b Hy) as [|[? E]]; [by left|right]. split; congruence. Qed.

Lemma known_applied s : s = first_saved \/ acceptable s -> sa_AppliedRevision s <= ex_Revision (sa_Request s) /\ 0 <= ex_Revision (sa_Request s).
Proof. intros [->|(_ & _ & L & _ & P)]; [done|lia]. Qed.

Lemma acceptable_next s x o k :
  s = first_saved \/ acceptable s -> admissible s x -> validateExpected x = Ok tt ->
  In o ["applying"; "applied"; "failed"; "interrupted"] ->
  acceptable (mkSaved x (digest x) (sa_AppliedRevision s) o k).
Proof.
  intros Ks G V I. apply known_applied in Ks as [L P]. pose proof (validateExpected_revision x V).
  repeat split; try done; cbn; destruct G as [G|[G _]]; lia.
Qed.

Lemma put_state_true log k s : disk_true log k -> acceptable s -> saved_true log s -> disk_true log (put_state s k).
Proof. intros [_ J] A T. by split. Qed.

Lemma put_join_true log k j : disk_true log k -> validateJoinState j = Ok tt -> join_true log j -> disk_true log (put_join j k).
Proof. intros [S _] A T. by split. Qed.

Lemma put_status_true log k v : disk_true log k -> disk_true log (put_status v k).
Proof. done. Qed.

(** ** Handlers *)
Context (pid : Z) (invocation : string).

(** Between requests the published view is the status of the memory. *)
Definition serving m : Prop := consistent m /\ mc_view m = status_of identity pid invocation (mc_saved m).

Lemma serving_intro s j k h io log :
  log_fenced log -> disk_true log k -> s = first_saved \/ acceptable s -> saved_true log s ->
  j = no_join \/ validateJoinState j = Ok tt -> join_true log j ->
  serving (mkMachine s j (status_of identity pid invocation s) k h io log).
Proof. intros. split; [split; [by split|by split; [|split; [|split]]]|done]. Qed.

(** A reply with a status says what the memory holds. *)
Definition reply_true (r : Reply) m : Prop := match r with RStatus _ s => s = mc_view m | RState s _ => s = mc_view m | _ => True end.

Definition keeps (c : Act (H := H) Reply) : Prop := forall m, serving m -> wp c (fun r m' => serving m' /\ reply_true r m') persistent m.

Lemma wp_publish (Q : bool -> Machine H -> Prop) Dead m :
  (forall b k io, k = mc_disk m \/ k = put_status (status_of identity pid invocation (mc_saved m)) (mc_disk m) ->
     Q b (mkMachine (mc_saved m) (mc_join m) (status_of identity pid invocation (mc_saved m)) k (mc_host m) io (mc_log m))) ->
  (forall v k io, k = mc_disk m \/ k = put_status (status_of identity pid invocation (mc_saved m)) (mc_disk m) ->
     Dead (mkMachine (mc_saved m) (mc_join m) v k (mc_host m) io (mc_log m))) ->
  wp (publish identity pid invocation) Q Dead m.
Proof.
  intros HQ HD. unfold publish. apply wp_bind, wp_gets, wp_bind, wp_modify, wp_atomic;
    (apply HQ || apply HD); cbn; auto.
Qed.

(** The disk after a publication. *)
Lemma published_true log k k' v : disk_true log k -> k' = k \/ k' = put_status v k -> disk_true log k'.
Proof. by intros D [->| ->]. Qed.

(** A handler that publishes and answers with a text. *)
Lemma publish_then_reply m code msg :
  log_fenced (mc_log m) -> disk_true (mc_log m) (mc_disk m) -> acceptable (mc_saved m) -> saved_true (mc_log m) (mc_saved m) ->
  mc_join m = no_join \/ validateJoinState (mc_join m) = Ok tt -> join_true (mc_log m) (mc_join m) ->
  wp (act_bind (publish identity pid invocation) (fun _ => act_ret (RText code msg)))
     (fun r m' => serving m' /\ reply_true r m') persistent m.
Proof.
  intros F D A T Kj J. apply wp_bind, wp_publish.
  - intros b k io Hk. apply wp_ret. split; [|done]. apply serving_intro; auto. by apply (published_true _ _ _ _ D Hk).
  - intros v k io Hk. split; [done|]. by apply (published_true _ _ _ _ D Hk).
Qed.

Lemma enforce_true x m :
  persistent m -> memory_true (mc_log m) (mc_saved m) (mc_join m) ->
  sa_Request (mc_saved m) = x -> sa_Digest (mc_saved m) = digest x -> sa_Outcome (mc_saved m) = "applying" ->
  (forall s, dk_state (mc_disk m) = Stored s -> sa_Request s = x /\ sa_Digest s = digest x /\ sa_Outcome s = "applying") ->
  dk_state (mc_disk m) <> Missing ->
  wp (enforce identity x)
     (fun r m' => persistent m' /\ mc_log m' = mc_log m ++ [Enforced x (is_ok r)] /\ mc_join m' = mc_join m /\
                  exists k, mc_saved m' = mkSaved x (digest x) (sa_AppliedRevision (mc_saved m)) "applying" k)
     persistent m.
Proof.
  intros [F D] (Kn & T & _ & J) Rq Dg Ou Ds Nm.
  assert (Px : 0 < ex_Revision x).
  { destruct Kn as [Kn|(_ & _ & _ & _ & Px)]; [by rewrite Kn in Ou|]. by rewrite <- Rq. }
  assert (P : forall ok, log_fenced (mc_log m ++ [Enforced x ok]) /\ disk_true (mc_log m ++ [Enforced x ok]) (mc_disk m)).
  { intros ok. split; [apply fenced_enforced; [done|done|]; by apply (covers_supersedes _ (mc_saved m))|].
    destruct D as [D1 D2]. split.
    - destruct (dk_state (mc_disk m)) as [| | |s]; try done. destruct (Ds s eq_refl) as (R1 & R2 & R3), D1 as [A1 A2].
      split; [done|]. apply saved_true_enforced; try done. by rewrite R3.
    - destruct (dk_join (mc_disk m)) as [| | |j]; try done; [by apply join_true_enforced|].
      split; [apply D2|apply join_true_enforced, D2]. }
  assert (Hk : exists k, mc_saved m = mkSaved x (digest x) (sa_AppliedRevision (mc_saved m)) "applying" k).
  { exists (sa_Kubernetes (mc_saved m)). destruct (mc_saved m); cbn in *; congruence. }
  unfold wp, enforce. destruct (dies_enforcing (mc_io m)); [apply P|].
  destruct (host_Apply x (mc_host m)) as [r h].
  destruct r as [u|e]; [|repeat split; first [apply P | done | exact Hk]].
  destruct (ex_Secret x) as [secret|]; [|repeat split; first [apply P | done | exact Hk]].
  destruct host_EnsureSecret as [ensure|]; [|repeat split; first [apply P | done | exact Hk]].
  destruct (ensure _ _ _) as [[kr rr] h']. repeat split; try apply P.
  exists kr. cbn. by rewrite Rq, Dg, Ou.
Qed.

(** Stable parts of the memory: the join record while an update runs. *)
Lemma memory_join log s j : memory_true log s j -> (j = no_join \/ validateJoinState j = Ok tt) /\ join_true log j.
Proof. by intros (_ & _ & ?). Qed.

(** After enforcement: the outcome is recorded on disk, or the memory takes it back. *)
Definition outcome_of (x : ExpectedHostState) (applied : Z) (k : option KubernetesResult) (ok : bool) : savedState :=
  mkSaved x (digest x) (if ok then ex_Revision x else applied) (if ok then "applied" else "failed") k.

Lemma outcome_true log x s k ok :
  saved_true log s -> acceptable s -> sa_Request s = x -> sa_Digest s = digest x ->
  acceptable (outcome_of x (sa_AppliedRevision s) k ok) /\
  saved_true (log ++ [Enforced x ok]) (outcome_of x (sa_AppliedRevision s) k ok).
Proof.
  intros T A Rq Dg. destruct A as (V & _ & L & _ & P). rewrite Rq in V, L, P.
  destruct ok; unfold outcome_of.
  - split; [repeat split; cbn; auto with lia|]. by apply saved_true_done with s.
  - split; [repeat split; cbn; auto 6|]. apply saved_true_enforced; try done.
    apply saved_true_accepts; [done|right; rewrite Rq; done|done].
Qed.

Lemma update_keeps cancelled body : keeps (update identity pid invocation cancelled body).
Proof.
  intros m [[[F D] M] V]. unfold update.
  destruct body as [x0|]; [|by apply wp_ret].
  destruct (is_ok (validateExpected x0)) eqn:Ev; cbn [negb]; [|by apply wp_ret].
  apply is_ok_unit, with_normal_secret_valid in Ev.
  set (x := with_normal_secret x0) in *. clearbody x.
  destruct cancelled; [by apply wp_ret|]. apply wp_bind, wp_gets.
  wp_if G; [by apply wp_ret|]. wp_if G2; [apply wp_ret; cbv beta; split; [done|by cbn; rewrite V]|].
  assert (Ad : admissible (mc_saved m) x).
  { apply orb_false_iff in G as [G1 G]. apply Z.ltb_ge in G1. destruct (decide (ex_Revision x = ex_Revision (sa_Request (mc_saved m)))) as [Q|Q].
    - right. split; [done|]. rewrite Q, eq_refl_true in G. cbn [andb] in G. by bsplit_hyp G.
    - left. lia. }
  clear G G2. set (acc := mkSaved x (digest x) (sa_AppliedRevision (mc_saved m)) "applying" None).
  destruct M as (Ks & T & Kj & J).
  assert (Ac : acceptable acc) by (apply acceptable_next; cbn; auto; tauto).
  assert (Ta : saved_true (mc_log m) acc) by (by apply saved_true_accepts).
  assert (Da : disk_true (mc_log m) (put_state acc (mc_disk m))) by (by apply put_state_true).
  apply wp_bind, wp_modify, wp_bind, wp_atomic; cbn [negb]; try (by split);
    [|by apply wp_bind, wp_modify, wp_ret..].
  apply wp_bind, wp_publish; [|intros v k io Hk; split; [done|by apply (published_true _ _ _ _ Da Hk)]].
  cbn [tick set_mc_disk set_mc_saved mc_saved mc_join mc_view mc_disk mc_host mc_io mc_log].
  intros b k io Hk. assert (Dk : disk_true (mc_log m) k) by (by apply (published_true _ _ _ _ Da Hk)).
  assert (Hs : dk_state k = Stored acc) by (by destruct Hk as [->| ->]). clear Hk.
  destruct b; cbn [negb]; [|apply wp_ret; split; [apply serving_intro; auto|done]].
  apply wp_bind. pose proof (enforce_true x (mkMachine acc (mc_join m) (status_of identity pid invocation acc) k (mc_host m) io (mc_log m))) as E.
  eapply wp_mono; [apply E; try done; [by split; [|split; [|split]]; auto| |cbn; by rewrite Hs]| |done].
  { cbn. rewrite Hs. by intros ? [= <-]. }
  clear E. cbn [mc_saved mc_join mc_log]. intros r m' ((F' & D') & Lg & Jn & k' & Sv).
  apply wp_bind, wp_gets. rewrite Sv. cbn [sa_Request sa_Digest sa_AppliedRevision sa_Outcome sa_Kubernetes].
  pose proof (outcome_true _ x acc k' (is_ok r) Ta Ac eq_refl eq_refl) as [Ao To].
  change (mkSaved x (digest x) (if is_ok r then ex_Revision x else sa_AppliedRevision acc) (if is_ok r then "applied" else "failed") k')
    with (outcome_of x (sa_AppliedRevision acc) k' (is_ok r)).
  set (out := outcome_of _ _ _ _) in *. rewrite <- Lg in To.
  assert (Jt : join_true (mc_log m') (mc_join m')) by (rewrite Jn, Lg; by apply join_true_enforced).
  rewrite <- Jn in Kj. clear Jn.
  assert (Ti : saved_true (mc_log m') (mkSaved x (digest x) (sa_AppliedRevision (mc_saved m)) "interrupted" k')).
  { rewrite Lg. apply saved_true_enforced; try done. by apply saved_true_accepts. }
  assert (Ai : acceptable (mkSaved x (digest x) (sa_AppliedRevision (mc_saved m)) "interrupted" k')).
  { by apply acceptable_next; cbn; auto 6. }
  assert (Do : disk_true (mc_log m') (put_state out (mc_disk m'))) by (by apply put_state_true).
  apply wp_bind, wp_modify, wp_bind, wp_atomic; cbn [negb]; try (by split).
  - apply wp_bind, wp_publish; cbn [tick set_mc_disk set_mc_saved mc_saved mc_join mc_view mc_disk mc_host mc_io mc_log].
    + intros b k1 io1 Hk1. pose proof (published_true _ _ _ _ Do Hk1) as D1.
      pose proof (serving_intro out (mc_join m') k1 (mc_host m') io1 (mc_log m') F' D1 (or_intror Ao) To Kj Jt) as Sv1.
      destruct b; cbn [negb]; [|by apply wp_ret]. destruct r as [|]; [by apply wp_ret|].
      destruct (ex_Secret x); by apply wp_ret.
    + intros v k1 io1 Hk1. split; [done|]. apply (published_true _ _ _ _ Do Hk1).
  - apply wp_bind, wp_modify. by apply publish_then_reply.
  - apply wp_bind, wp_modify. by apply publish_then_reply.
Qed.

(** *** Joining *)
Lemma validateJoinState_ok j :
  validateJoinState j = Ok tt <->
  is_ok (Validate (js_Registration j)) = true /\ String.length (js_ContractHash j) = 64%nat /\ 0 < js_Fence j /\
  full_match joinOperationRE (js_OperationID j) = true /\ js_Endpoint j <> "" /\ full_match joinCAHashRE (js_CACertHash j) = true /\
  In (js_Outcome j) ["applying"; "applied"; "failed"; "interrupted"].
Proof.
  unfold validateJoinState. split.
  - intros E. inv_ok. apply one_of_spec in Hx0. bsplit. by repeat split.
  - intros (A & B & C & D & E & F & G). apply one_of_spec in G.
    rewrite A, D, F, G, (bool_decide_eq_true_2 _ B), (bool_decide_eq_false_2 _ E), (proj2 (Z.leb_gt _ _) C). done.
Qed.

Lemma validateClusterJoin_state r :
  validateClusterJoin r = Ok tt -> validateJoinState (join_of r) = Ok tt.
Proof.
  unfold validateClusterJoin. intros E. inv_ok. bsplit. apply validateJoinState_ok. cbn.
  repeat split; auto; [apply join_digest_length|]. intros Ee. rewrite Ee in Hx0.
  pose proof url_parse_empty as U. destruct (url_parse "") as [u|]; [|done]. unfold plain_https in Hx0. rewrite (U u eq_refl) in Hx0.
  by rewrite eq_refl_true, orb_true_r in Hx0.
Qed.

Lemma operation_not_empty s : full_match joinOperationRE s = true -> s <> "".
Proof. intros E ->. vm_compute in E. done. Qed.

(** The record a join request leaves, from an empty one or from the operation's own. *)
Definition next_join (j : clusterJoinState) (r : ClusterJoinRequest) (o : string) : clusterJoinState :=
  set_js_Outcome o (set_js_Fence (jr_Fence r) (if js_OperationID j == "" then join_of r else j)).

Lemma next_join_outcome j r o o' : set_js_Outcome o (next_join j r o') = next_join j r o.
Proof. done. Qed.

(** The guard of [clusterJoin]. *)
Definition joinable (j : clusterJoinState) (r : ClusterJoinRequest) : Prop :=
  js_OperationID j = "" \/
  (js_OperationID j = jr_OperationID r /\ js_ContractHash j = JoinFingerprint r /\ js_Fence j <= jr_Fence r).

Lemma next_join_valid j r o :
  validateClusterJoin r = Ok tt -> j = no_join \/ validateJoinState j = Ok tt ->
  In o ["applying"; "applied"; "failed"; "interrupted"] -> validateJoinState (next_join j r o) = Ok tt.
Proof.
  intros V K I. pose proof (validateClusterJoin_state r V) as S. unfold next_join.
  assert (Fr : 0 < jr_Fence r) by (apply validateJoinState_ok in S as (_ & _ & ? & _); done).
  case_bool_decide as E; [|destruct K as [->|K]; [done|]].
  - apply validateJoinState_ok in S. apply validateJoinState_ok. cbn in *. intuition.
  - apply validateJoinState_ok in K. apply validateJoinState_ok. cbn in *. intuition.
Qed.

Lemma next_join_true log j r o :
  jr_OperationID r <> "" -> join_true log j -> joinable j r ->
  join_true log (next_join j r o) /\ (forall q, In q (joins log) -> join_supersedes q r) /\
  forall b, join_true (log ++ [Joined r b]) (next_join j r o).
Proof.
  intros Ho J G.
  assert (Ej : js_OperationID (next_join j r o) = jr_OperationID r /\ js_ContractHash (next_join j r o) = JoinFingerprint r /\
               js_Fence (next_join j r o) = jr_Fence r).
  { unfold next_join. destruct G as [G|(G1 & G2 & _)]; [by rewrite G|]. rewrite (bool_decide_eq_false_2 (js_OperationID j = "")) by congruence. done. }
  assert (Hq : forall q, In q (joins log) -> jr_OperationID q <> "" /\ join_supersedes q r).
  { intros q Hq. destruct (J q Hq) as (E0 & E1 & E2 & E3), G as [G|(G1 & G2 & G3)]; [congruence|].
    split; [done|]. repeat split; [congruence|congruence|lia]. }
  destruct Ej as (E1 & E2 & E3).
  assert (Jn : join_true log (next_join j r o)).
  { intros q Hi. destruct (Hq q Hi) as (N & S1 & S2 & S3). rewrite E1, E2, E3. done. }
  split; [done|]. split; [intros q Hi; by apply Hq|].
  intros b q. rewrite joins_app. intros [Hi|[<-|[]]]%in_app_iff; [by apply Jn|]. rewrite E1, E2, E3. done.
Qed.

Lemma disk_state_joined log k j r b :
  disk_true log k ->
  match dk_state (put_join j k) with
  | Missing => saved_true (log ++ [Joined r b]) first_saved
  | Stored s => acceptable s /\ saved_true (log ++ [Joined r b]) s
  | _ => False
  end.
Proof.
  intros [D _]. cbn [put_join dk_state]. destruct (dk_state k); try done; [by apply saved_true_joined|].
  split; [apply D|by apply saved_true_joined, D].
Qed.

Lemma clusterJoin_keeps body : keeps (clusterJoin body).
Proof.
  intros [ms mj mv mk mh mi ml] [[[F D] (Ks & T & Kj & J)] V]. unfold clusterJoin.
  cbn [mc_saved mc_join mc_view mc_disk mc_host mc_io mc_log] in F, D, Ks, T, Kj, J, V. subst mv.
  destruct body as [r|]; [|by apply wp_ret].
  destruct (is_ok (validateClusterJoin r)) eqn:Ev; cbn [negb]; [|by apply wp_ret].
  apply is_ok_unit in Ev. apply wp_bind, wp_gets. cbn [mc_join]. wp_if G; [by apply wp_ret|].
  assert (Ho : jr_OperationID r <> "").
  { pose proof (validateClusterJoin_state r Ev) as S. apply validateJoinState_ok in S as (_ & _ & _ & S & _). by apply operation_not_empty. }
  assert (Jb : joinable mj r).
  { apply andb_false_iff in G as [G|G]; [left; by bsplit_hyp G|right]. bsplit. repeat split; try congruence; try lia. }
  clear G. apply wp_bind, wp_modify.
  assert (Kn : forall o, In o ["applying"; "applied"; "failed"; "interrupted"] -> validateJoinState (next_join mj r o) = Ok tt)
    by (intros o; by apply next_join_valid).
  assert (Jn := fun o => next_join_true ml mj r o Ho J Jb).
  assert (V1 := Kn "applying" ltac:(cbn; auto)). destruct (Jn "applying") as (J1 & Sup & J1').
  change (set_js_Outcome "applying" (set_js_Fence (jr_Fence r) (if js_OperationID mj == "" then join_of r else mj)))
    with (next_join mj r "applying").
  assert (D1 := put_join_true _ _ _ D V1 J1).
  destruct host_JoinCluster as [call|].
  2:{ apply wp_ret. split; [|done]. apply serving_intro; try assumption.
      - case_bool_decide; [right; by apply validateClusterJoin_state|assumption].
      - unfold next_join in J1. case_bool_decide as E; [exact J1|assumption]. }
  assert (Sv : forall k io, disk_true ml k ->
    serving (mkMachine ms (next_join mj r "applying") (status_of identity pid invocation ms) k mh io ml)).
  { intros. apply serving_intro; auto. }
  apply wp_bind, wp_modify, wp_bind, wp_atomic; cbn [negb]; try (by split); [|by apply wp_ret; split; [apply Sv|]..].
  clear Sv. apply wp_bind. unfold join_host at 1, wp at 1. machine_cbn.
  assert (P : forall b, log_fenced (ml ++ [Joined r b]) /\ saved_true (ml ++ [Joined r b]) ms /\
    forall o, In o ["applying"; "applied"; "failed"; "interrupted"] ->
      disk_true (ml ++ [Joined r b]) (put_join (next_join mj r o) mk) /\
      join_true (ml ++ [Joined r b]) (next_join mj r o)).
  { intros b. split; [by apply fenced_joined|]. split; [by apply saved_true_joined|]. intros o Io. split; [|by apply Jn].
    split; [by apply disk_state_joined|split; [by apply Kn|by apply Jn]]. }
  assert (Sv : forall b o k h io, In o ["applying"; "applied"; "failed"; "interrupted"] -> disk_true (ml ++ [Joined r b]) k ->
    serving (mkMachine ms (next_join mj r o) (status_of identity pid invocation ms) k h io (ml ++ [Joined r b]))).
  { intros b o k h io Io Dk. destruct (P b) as (P1 & P2 & P3). apply serving_intro; auto. by apply P3. }
  assert (Dp : forall b o, In o ["applying"; "applied"; "failed"; "interrupted"] ->
    disk_true (ml ++ [Joined r b]) (put_join (next_join mj r o) (put_join (next_join mj r "applying") mk))).
  { intros b o Io. by apply P. }
  assert (D0 : forall b, disk_true (ml ++ [Joined r b]) (put_join (next_join mj r "applying") mk))
    by (intros b; apply P; cbn; auto).
  destruct (dies_enforcing _); [split; [apply P|apply D0]|].
  assert (I2 : In "applied" ["applying"; "applied"; "failed"; "interrupted"]) by (right; by left).
  assert (I3 : In "failed" ["applying"; "applied"; "failed"; "interrupted"]) by (right; right; by left).
  assert (I4 : In "interrupted" ["applying"; "applied"; "failed"; "interrupted"]) by (right; right; right; by left).
  assert (No := next_join_outcome mj r). clear V1 J1 J1' D1 Kn Jn.
  set (nj := next_join mj r) in *. clearbody nj.
  destruct (call r mh) as [[u|e] h]; cbn [is_ok negb]; rewrite ?No.
  - apply wp_bind, wp_modify, wp_bind, wp_atomic; cbn [negb]; machine_cbn.
    + apply wp_ret. split; [|exact I]. exact (Sv true "applied" _ h _ I2 (Dp true "applied" I2)).
    + apply wp_bind, wp_modify, wp_ret. machine_cbn. split; [|exact I]. exact (Sv true "interrupted" _ h _ I4 (D0 true)).
    + apply wp_bind, wp_modify, wp_ret. machine_cbn. split; [|exact I]. exact (Sv true "interrupted" _ h _ I4 (Dp true "applied" I2)).
    + split; machine_cbn; [apply (P true)|exact (D0 true)].
    + split; machine_cbn; [apply (P true)|exact (Dp true "applied" I2)].
  - apply wp_bind, wp_modify, wp_bind, wp_atomic; machine_cbn.
    + apply wp_ret. split; [|exact I]. exact (Sv false "failed" _ h _ I3 (Dp false "failed" I3)).
    + apply wp_ret. split; [|exact I]. exact (Sv false "failed" _ h _ I3 (D0 false)).
    + apply wp_ret. split; [|exact I]. exact (Sv false "failed" _ h _ I3 (Dp false "failed" I3)).
    + split; machine_cbn; [apply (P false)|exact (D0 false)].
    + split; machine_cbn; [apply (P false)|exact (Dp false "failed" I3)].
Qed.

Lemma clusterMembership_keeps challenge_bytes body : keeps (clusterMembership challenge_bytes body).
Proof.
  intros m I. unfold clusterMembership. destruct body as [c|]; [|by apply wp_ret].
  wp_if E; [by apply wp_ret|]. apply wp_bind, wp_gets. destruct host_ClusterMembership as [prove|]; [|by apply wp_ret].
  wp_if E2; [by apply wp_ret|]. apply wp_bind, wp_gets. by destruct (prove _ _ _).
Qed.

Lemma agent_Handler_keeps cfg challenge_bytes peer deadline_ok c :
  keeps (agent_Handler identity pid invocation cfg challenge_bytes peer deadline_ok c).
Proof.
  intros m I. unfold agent_Handler. destruct peer as [id|]; [|by apply wp_ret].
  wp_if E1; [by apply wp_ret|]. wp_if E2; [by apply wp_ret|]. destruct c.
  - by apply wp_gets.
  - apply wp_gets. split; [done|]. by destruct (host_Collect _).
  - by apply update_keeps.
  - by apply clusterJoin_keeps.
  - by apply clusterMembership_keeps.
Qed.

(** *** Restart *)
Lemma saved_true_interrupted log s : saved_true log s -> saved_true log (set_sa_Outcome "interrupted" s).
Proof. by intros [C O A]; split. Qed.

Lemma restart_serves m : persistent m -> exists m', restart identity pid invocation m = Ok m' /\ serving m' /\ mc_log m' = mc_log m /\ mc_disk m' = mc_disk m.
Proof.
  intros [F [Ds Dj]]. unfold restart.
  assert (exists s, recovered_state (dk_state (mc_disk m)) = Ok s /\ (s = first_saved \/ acceptable s) /\ saved_true (mc_log m) s) as (s & Es & Ks & Ts).
  { destruct (dk_state (mc_disk m)) as [| | |s]; try done; [by exists first_saved; auto|].
    destruct Ds as [(V & Dg & L & O & P) T]. unfold recovered_state. rewrite V, Dg, eq_refl_true, (proj2 (Z.ltb_ge _ _) L). cbn [is_ok andb negb rbind require].
    case_bool_decide as E.
    - exists (set_sa_Outcome "interrupted" s). split; [done|]. split; [right; repeat split; cbn; auto 6|by apply saved_true_interrupted].
    - assert (one_of (sa_Outcome s) ["applied"; "failed"; "interrupted"] = true) as ->
        by (apply one_of_spec; destruct O as [O|O]; [congruence|exact O]).
      exists s. split; [done|]. split; [right; done|done]. }
  assert (exists j, recovered_join (dk_join (mc_disk m)) = Ok j /\ (j = no_join \/ validateJoinState j = Ok tt) /\ join_true (mc_log m) j) as (j & Ej & Kj & Tj).
  { destruct (dk_join (mc_disk m)) as [| | |j]; try done; [by exists no_join; auto|].
    destruct Dj as [V T]. unfold recovered_join. rewrite V. cbn [is_ok rbind require]. eexists. split; [done|].
    case_bool_decide; [|auto]. split; [right|exact T].
    apply validateJoinState_ok in V. apply validateJoinState_ok. cbn in *. intuition. }
  rewrite Es, Ej. cbn [rbind]. eexists. split; [done|]. split; [|done]. apply serving_intro; try done.
Qed.
End Facts.

(** ** The life of an agent

    A host boots with empty files; its agent starts, publishes its readiness, serves
    requests, and may stop or die at any moment and be started again as another process. *)
Section Life.
Context {H : Type} {host : HostOps H} {k8s : K8s} {names : K8sNames} {fp : Fingerprints} {dg : Digest} {gourl : GoURL} {faults : Faults}.
Context (identity : string) (cfg : AgentConfig) (challenge_bytes : string -> option Z).

Implicit Types (m : Machine H) (p : option (Z * string)).

Definition boot (h : H) : Machine H :=
  mkMachine zero_saved no_join (mkStatus "" 0 "" false 0 0 "" "" None) (mkDisk Missing Missing Missing) h 0 [].

(** [Some (pid, invocation)]: a process runs on the machine. *)
Inductive life : option (Z * string) -> Machine H -> Prop :=
| life_boot h : life None (boot h)
| life_start p m pid inv m' :
    life p m -> restart identity pid inv m = Ok m' -> life (Some (pid, inv)) m'
| life_publish pid inv m b m' :
    life (Some (pid, inv)) m -> publish identity pid inv m = (Some b, m') -> life (Some (pid, inv)) m'
| life_publish_dies pid inv m m' :
    life (Some (pid, inv)) m -> publish identity pid inv m = (None, m') -> life None m'
| life_serve pid inv m peer deadline_ok c r m' :
    life (Some (pid, inv)) m ->
    agent_Handler identity pid inv cfg challenge_bytes peer deadline_ok c m = (Some r, m') -> life (Some (pid, inv)) m'
| life_dies pid inv m peer deadline_ok c m' :
    life (Some (pid, inv)) m ->
    agent_Handler identity pid inv cfg challenge_bytes peer deadline_ok c m = (None, m') -> life None m'.

Context (join_digest_length : forall e c r, String.length (join_digest e c r) = 64%nat)
        (url_parse_empty : forall u, url_parse "" = Some u -> u_Host u = "").

Lemma boot_persistent h : persistent (boot h).
Proof.
  split; [split; [constructor|split; [constructor|by intros x ok []]]|]. split; cbn; [|by intros r []].
  split; cbn; [by intros x ok []|done|lia].
Qed.

Definition alive (p : option (Z * string)) (m : Machine H) : Prop :=
  match p with Some (pid, inv) => serving identity pid inv m | None => persistent m end.

Lemma alive_persistent p m : alive p m -> persistent m.
Proof. destruct p as [[pid inv]|]; [|done]. by intros [[P _] _]. Qed.

Lemma wp_run {A} (c : Act (H := H) A) Q Dead m a m' : wp c Q Dead m -> c m = (Some a, m') -> Q a m'.
Proof. unfold wp. by intros W E; rewrite E in W. Qed.

Lemma wp_dies {A} (c : Act (H := H) A) Q Dead m m' : wp c Q Dead m -> c m = (None, m') -> Dead m'.
Proof. unfold wp. by intros W E; rewrite E in W. Qed.

Lemma publish_serving pid inv m :
  serving identity pid inv m -> wp (publish identity pid inv) (fun _ (m' : Machine H) => serving identity pid inv m') persistent m.
Proof.
  intros [[[F D] (Ks & T & Kj & J)] V]. apply wp_publish.
  - intros b k io Hk. apply serving_intro; try done. by apply (published_true _ _ _ _ D Hk).
  - intros v k io Hk. split; [done|]. by apply (published_true _ _ _ _ D Hk).
Qed.

Lemma life_alive p m : life p m -> alive p m.
Proof.
  induction 1 as [h|p m pid inv m' L IH E|pid inv m b m' L IH E|pid inv m m' L IH E|pid inv m peer dl c r m' L IH E|pid inv m peer dl c m' L IH E].
  - apply boot_persistent.
  - destruct (restart_serves identity pid inv m (alive_persistent _ _ IH)) as (m2 & E2 & S2 & _).
    rewrite E in E2. injection E2 as <-. exact S2.
  - exact (wp_run _ _ _ _ _ _ (publish_serving _ _ _ IH) E).
  - exact (wp_dies _ _ _ _ _ (publish_serving _ _ _ IH) E).
  - exact (proj1 (wp_run _ _ _ _ _ _ (agent_Handler_keeps identity join_digest_length url_parse_empty pid inv cfg challenge_bytes peer dl c m IH) E)).
  - exact (wp_dies _ _ _ _ _ (agent_Handler_keeps identity join_digest_length url_parse_empty pid inv cfg challenge_bytes peer dl c m IH) E).
Qed.

(** C11. Whatever requests an agent served, whichever of its writes failed and wherever its
    process died, in the middle of a handler or between two, the files it left are ones
    that [NewServer] takes back: the next process starts. *)
Theorem agent_recovers p m pid inv : life p m -> exists m', restart identity pid inv m = Ok m'.
Proof.
  intros L. destruct (restart_serves identity pid inv m (alive_persistent _ _ (life_alive _ _ L))) as (m' & E & _). eauto.
Qed.

(** C12. Over the whole life of a host, through write faults, deaths and restarts of its agent,
    enforcement is fenced: each expected state enforced has a higher revision than the ones
    enforced before it, or is the same request (by digest) again; and every cluster join
    that reached the host is of one operation and one contract, in the order of its fences. *)
Theorem enforcement_fenced p m :
  life p m -> StronglySorted supersedes (map fst (enforcements (mc_log m))) /\ StronglySorted join_supersedes (joins (mc_log m)).
Proof. intros L. destruct (alive_persistent _ _ (life_alive _ _ L)) as [(F & J & _) _]. done. Qed.

(** An agent does not report what did not happen: the status it serves names as applied
    only a revision whose enforcement succeeded, and when it says that the accepted state
    is applied, that state is the last one enforced on the host, successfully. *)
Theorem applied_report_true pid inv m :
  life (Some (pid, inv)) m ->
  let s := mc_view m in
  (0 < hs_AppliedRevision s -> exists x, In (x, true) (enforcements (mc_log m)) /\ ex_Revision x = hs_AppliedRevision s) /\
  (hs_Outcome s = "applied" ->
     hs_AppliedRevision s = hs_AcceptedRevision s /\
     exists x, last (enforcements (mc_log m)) = Some (x, true) /\ ex_Revision x = hs_AcceptedRevision s /\ ex_Version x = hs_ExpectedVersion s).
Proof.
  intros L. destruct (life_alive _ _ L) as [[_ (_ & T & _)] V]. cbn zeta. rewrite V. cbn [status_of hs_AppliedRevision hs_Outcome hs_AcceptedRevision hs_ExpectedVersion].
  split; [apply T|]. intros O. destruct (st_outcome _ _ T O) as [E La]. split; [done|]. exists (sa_Request (mc_saved m)).
  by rewrite La, O, E, !eq_refl_true.
Qed.

(** Only the configured writer changes anything: a request of any other peer leaves the
    memory, the disk and the host as they are, and does not kill the process. *)
Theorem only_writer_acts pid inv peer deadline_ok c m :
  peer <> Some (ac_WriterIdentity cfg) ->
  exists r, agent_Handler identity pid inv cfg challenge_bytes peer deadline_ok c m = (Some r, m).
Proof.
  intros N. unfold agent_Handler. destruct peer as [id|]; [|by eexists].
  rewrite (bool_decide_eq_false_2 (id = ac_WriterIdentity cfg)) by congruence. cbn [orb].
  destruct c; cbn [is_get andb negb]; try by eexists.
  - destruct (one_of _ _); by eexists.
  - destruct (one_of _ _); [|by eexists]. by eexists.
Qed.

(** When the disk takes the writes and the host the change, an expected state with a new
    revision is enforced once: the agent answers 200 with that revision accepted and
    applied, the host saw exactly one call, and the same request sent again is answered
    from the record without another. *)
Theorem update_applies_once pid inv x m :
  (forall n, fault_at n = Works) -> (forall n, dies_enforcing n = false) -> (forall y h, exists h', host_Apply y h = (Ok tt, h')) ->
  validateExpected x = Ok tt -> ex_Secret x = None -> ex_Revision (sa_Request (mc_saved m)) < ex_Revision x ->
  exists s m', update identity pid inv false (Some x) m = (Some (RStatus 200 s), m') /\
    hs_AcceptedRevision s = ex_Revision x /\ hs_AppliedRevision s = ex_Revision x /\ hs_Outcome s = "applied" /\
    hs_ExpectedVersion s = ex_Version x /\ mc_log m' = mc_log m ++ [Enforced x true] /\
    update identity pid inv false (Some x) m' = (Some (RStatus 200 s), m').
Proof.
  intros W Nd Ap V Ns Lt.
  assert (Nx : with_normal_secret x = x) by (destruct x; cbn in *; by subst).
  destruct (Ap x (mc_host m)) as [h' Eh].
  assert (E1 : (ex_Revision x <? ex_Revision (sa_Request (mc_saved m))) = false) by (apply Z.ltb_ge; lia).
  assert (E2 : (ex_Revision x == ex_Revision (sa_Request (mc_saved m))) = false) by (apply bool_decide_eq_false_2; lia).
  assert (E3 : (ex_Revision x <? ex_Revision x) = false) by apply Z.ltb_irrefl.
  set (done_state := mkSaved x (digest x) (ex_Revision x) "applied" None).
  assert (P : wp (update identity pid inv false (Some x))
                (fun r m' => r = RStatus 200 (status_of identity pid inv done_state) /\ mc_saved m' = done_state /\
                             mc_log m' = mc_log m ++ [Enforced x true]) (fun _ => False) m).
  { unfold update. rewrite V, Nx. cbn [is_ok negb]. apply wp_bind, wp_gets. rewrite E1, E2. cbn [orb andb].
    apply wp_bind, wp_modify, wp_bind, wp_works; [apply W|]. cbn [negb].
    apply wp_bind. unfold publish at 1. apply wp_bind, wp_gets, wp_bind, wp_modify, wp_works; [apply W|]. cbn [negb].
    apply wp_bind. unfold wp, enforce. rewrite Nd. cbn [mc_host tick set_mc_disk set_mc_view set_mc_saved]. rewrite Eh, Ns. cbn [is_ok].
    apply wp_bind, wp_gets, wp_bind, wp_modify, wp_bind, wp_works; [apply W|]. cbn [negb].
    apply wp_bind. unfold publish at 1. apply wp_bind, wp_gets, wp_bind, wp_modify, wp_works; [apply W|]. cbn [negb].
    by apply wp_ret. }
  unfold wp in P. destruct (update identity pid inv false (Some x) m) as [[r|] m'] eqn:Eu; [|done].
  destruct P as (-> & Sv & Lg). exists (status_of identity pid inv done_state), m'. split; [done|].
  cbn [status_of hs_AcceptedRevision hs_AppliedRevision hs_Outcome hs_ExpectedVersion done_state sa_Request sa_AppliedRevision sa_Outcome].
  rewrite !eq_refl_true. repeat split; [done|].
  unfold update. rewrite V, Nx. cbn [is_ok negb]. unfold act_bind, gets. rewrite Sv.
  cbn [done_state sa_Request sa_Digest sa_Outcome]. by rewrite E3, !eq_refl_true.
Qed.
End Life.

(** ** Growth

    The log of host calls only grows, and a status that [update] answers is of the request
    it was sent. *)
Section Growth.
Context {H : Type} {host : HostOps H} {k8s : K8s} {names : K8sNames} {fp : Fingerprints} {dg : Digest} {gourl : GoURL} {faults : Faults}.
Implicit Types m : Machine H.

Definition grows {A} (c : Act (H := H) A) : Prop := forall m, mc_log m `prefix_of` mc_log (snd (c m)).

Lemma grows_ret {A} (a : A) : grows (act_ret a).
Proof. by intros m. Qed.

Lemma grows_gets {A} (f : Machine H -> A) : grows (gets f).
Proof. by intros m. Qed.

Lemma grows_modify f : (forall m, mc_log (f m) = mc_log m) -> grows (modify f).
Proof. intros E m. cbn. by rewrite E. Qed.

Lemma grows_bind {A B} (c : Act A) (k : A -> Act B) : grows c -> (forall a, grows (k a)) -> grows (act_bind c k).
Proof.
  intros C K m. unfold act_bind. pose proof (C m) as P. destruct (c m) as [[a|] m']; [|exact P].
  etransitivity; [exact P|apply K].
Qed.

Lemma grows_atomic put : grows (atomicJSON (H := H) put).
Proof. intros m. unfold atomicJSON. by destruct (fault_at (mc_io m)). Qed.

Lemma grows_enforce identity x : grows (enforce identity x).
Proof.
  intros m. unfold enforce. destruct (dies_enforcing (mc_io m)); [by apply prefix_app_r|].
  destruct (host_Apply x (mc_host m)) as [r h]. destruct r as [u|e]; [|by apply prefix_app_r].
  destruct (ex_Secret x) as [secret|]; [|by apply prefix_app_r]. destruct host_EnsureSecret as [ensure|]; [|by apply prefix_app_r].
  destruct (ensure _ _ _) as [[kr rr] h']. by apply prefix_app_r.
Qed.

Lemma grows_join call r : grows (join_host call r).
Proof.
  intros m. unfold join_host. destruct (dies_enforcing (mc_io m)); [by apply prefix_app_r|].
  destruct (call r (mc_host m)) as [res h]. by apply prefix_app_r.
Qed.

Lemma grows_publish identity pid inv : grows (publish (H := H) identity pid inv).
Proof. apply grows_bind; [apply grows_gets|intros st]. apply grows_bind; [by apply grows_modify|intros _]. apply grows_atomic. Qed.

Create HintDb grows discriminated.
#[local] Hint Resolve grows_ret grows_gets grows_atomic grows_enforce grows_join grows_publish : grows.
Ltac grow :=
  repeat first
    [ progress eauto with grows
    | apply grows_modify; intros; reflexivity
    | apply grows_bind; [|intros ?]
    | match goal with |- grows (if ?b then _ else _) => destruct b end
    | match goal with |- grows (match ?x with _ => _ end) => destruct x end ].

Lemma update_grows identity pid inv cancelled body : grows (update identity pid inv cancelled body).
Proof. unfold update. grow. Qed.

Lemma clusterJoin_grows body : grows (clusterJoin body).
Proof. unfold clusterJoin. grow. Qed.

Lemma agent_Handler_grows identity pid inv cfg challenge_bytes peer deadline_ok c :
  grows (agent_Handler identity pid inv cfg challenge_bytes peer deadline_ok c).
Proof.
  unfold agent_Handler. grow; [apply update_grows|apply clusterJoin_grows|]. unfold clusterMembership. grow.
Qed.

Lemma enforce_digest identity x m :
  wp (enforce identity x) (fun _ m' => sa_Digest (mc_saved m') = sa_Digest (mc_saved m)) (fun _ => True) m.
Proof.
  unfold wp, enforce. destruct (dies_enforcing (mc_io m)); [done|]. destruct (host_Apply x (mc_host m)) as [[u|e] h]; [|done].
  destruct (ex_Secret x) as [secret|]; [|done]. destruct host_EnsureSecret as [ensure|]; [|done]. by destruct (ensure _ _ _) as [[kr rr] h'].
Qed.

Lemma update_answers_request identity pid inv cancelled x m :
  wp (update identity pid inv cancelled (Some x))
     (fun r m' => match r with
                  | RStatus _ _ => sa_Digest (mc_saved m') = digest (with_normal_secret x)
                  | RText _ _ => True
                  | _ => False
                  end) (fun _ => True) m.
Proof.
  unfold update. wp_if Ev; [by apply wp_ret|]. destruct cancelled; [by apply wp_ret|]. apply wp_bind, wp_gets.
  wp_if G; [by apply wp_ret|]. wp_if G2.
  { apply wp_ret. apply orb_false_iff in G as [_ G]. apply andb_prop in G2 as [G2 _]. rewrite G2 in G. cbn [andb] in G.
    bsplit_hyp G. done. }
  apply wp_bind, wp_modify, wp_bind, wp_atomic; cbn [negb]; try done; [|by apply wp_bind, wp_modify, wp_ret..].
  apply wp_bind, wp_publish; [|done]. intros b k io _. destruct b; cbn [negb]; [|by apply wp_ret].
  apply wp_bind. eapply wp_mono; [apply enforce_digest| |done]. cbn [mc_saved set_mc_saved tick set_mc_disk sa_Digest].
  intros r m' Ed. apply wp_bind, wp_gets, wp_bind, wp_modify, wp_bind, wp_atomic; cbn [negb]; try done.
  - apply wp_bind, wp_publish; [|done]. intros b' k' io' _. destruct b'; cbn [negb]; [|by apply wp_ret].
    destruct (is_ok r); [by apply wp_ret|]. destruct (ex_Secret _); by apply wp_ret.
  - apply wp_bind, wp_modify, wp_bind, wp_publish; done.
  - apply wp_bind, wp_modify, wp_bind, wp_publish; done.
Qed.
End Growth.

(** ** Witnesses: an agent dies in the middle of an update and resumes it *)
#[local] Instance demo_names : K8sNames :=
  {| dns_label := fun s => s != ""; dns_subdomain := fun s => s != ""; config_map_key := fun s => s != "" |}.
#[local] Instance demo_k8s_names : K8s := {| qualified_name := fun k => k != ""; valid_label_value := fun _ => true |}.
#[local] Instance demo_prints : Fingerprints :=
  {| digest := fun x => pretty (ex_Revision x); SecretFingerprint := ks_Name;
     join_digest := fun _ _ _ => "0000000000000000000000000000000000000000000000000000000000000000" |}.
#[local] Instance demo_sum : Digest := {| sha256_16 := fun s => s |}.
#[local] Instance demo_urls : GoURL := {| url_parse := fun _ => None; is_ip := fun _ => false |}.
(** A host that counts its changes. *)
#[local] Instance demo_host : HostOps nat :=
  {| host_Collect := fun _ => Ok (mkCurrent ∅ []); host_Apply := fun _ n => (Ok tt, S n);
     host_EnsureSecret := None; host_JoinCluster := None; host_ClusterMembership := None |}.
(** The fifth operation, the record of the outcome, kills the process. *)
#[local] Instance demo_faults : Faults :=
  {| fault_at := fun n => if (n =? 4)%nat then DiesBefore else Works; dies_enforcing := fun _ => false |}.

Definition demo_writer : string := "spiffe://crane/dominator/z1".
Definition demo_agent : AgentConfig := mkAgentConfig "10.0.0.9:44000" "crane" demo_writer [] "".
Definition demo_expected : ExpectedHostState := mkExpected 1 "img" "stable" "1.2" {["kubelet.service" := true]} [mkPackageChange "vim" "install"] None.
Definition demo_me : string := "spiffe://crane/subd/h1".
Definition demo_call := agent_Handler (H := nat) demo_me.

Definition demo_step (pid : Z) (m : Machine nat) : option Reply * Machine nat :=
  demo_call pid "i" demo_agent (fun _ => None) (Some demo_writer) true (PutExpectedState false (Some demo_expected)) m.
Definition demo_start (pid : Z) (m : Machine nat) : Machine nat :=
  match restart demo_me pid "i" m with Ok m' => snd (publish demo_me pid "i" m') | Err _ => m end.

Definition demo_died : Machine nat := snd (demo_step 1 (demo_start 1 (boot 0%nat))).
Definition demo_resumed : Machine nat := snd (demo_step 2 (demo_start 2 demo_died)).

Lemma demo_start_life p m pid : 
  life demo_me demo_agent (fun _ => None) p m -> is_ok (restart demo_me pid "i" m) = true ->
  fault_at (mc_io m) = Works -> life demo_me demo_agent (fun _ => None) (Some (pid, "i")) (demo_start pid m).
Proof.
  intros L R W. unfold demo_start. destruct (restart demo_me pid "i" m) as [m'|] eqn:E; [|done].
  eapply life_publish; [exact (life_start _ _ _ _ _ _ _ _ L E)|].
  assert (mc_io m' = mc_io m) as Ei by (unfold restart in E; inv_ok; done).
  unfold publish, act_bind, gets, modify, atomicJSON. cbn [set_mc_view mc_io mc_disk]. by rewrite Ei, W.
Qed.

Lemma demo_step_life pid m :
  life demo_me demo_agent (fun _ => None) (Some (pid, "i")) m ->
  life demo_me demo_agent (fun _ => None) (match fst (demo_step pid m) with Some _ => Some (pid, "i") | None => None end) (snd (demo_step pid m)).
Proof.
  intros L. destruct (demo_step pid m) as [[r|] m'] eqn:E; cbn [fst snd].
  - exact (life_serve _ _ _ _ _ _ _ _ _ _ _ L E).
  - exact (life_dies _ _ _ _ _ _ _ _ _ _ L E).
Qed.

Lemma demo_life : life demo_me demo_agent (fun _ => None) (Some (2, "i")) demo_resumed.
Proof.
  assert (L1 : life demo_me demo_agent (fun _ => None) None demo_died).
  { pose proof (demo_step_life 1 (demo_start 1 (boot 0%nat))) as P.
    replace (fst _) with (@None Reply) in P by (by vm_compute). apply P.
    apply demo_start_life with None; [constructor|by vm_compute|done]. }
  pose proof (demo_step_life 2 (demo_start 2 demo_died)) as P.
  destruct (fst _) eqn:E in P; [|by vm_compute in E]. apply P.
  apply demo_start_life with None; [exact L1|by vm_compute|by vm_compute].
Qed.

Lemma agent_recovers_witness : exists m', restart demo_me 3 "i" demo_resumed = Ok m'.
Proof. apply (agent_recovers demo_me demo_agent (fun _ => None)) with (Some (2, "i")); [done|done|exact demo_life]. Defined.

(** The state was enforced twice: before the process died, and when it was sent again. *)
Lemma enforcement_fenced_witness :
  enforcements (mc_log demo_resumed) = [(demo_expected, true); (demo_expected, true)] /\
  StronglySorted supersedes (map fst (enforcements (mc_log demo_resumed))) /\ StronglySorted join_supersedes (joins (mc_log demo_resumed)).
Proof.
  split; [by vm_compute|].
  apply (enforcement_fenced demo_me demo_agent (fun _ => None)) with (Some (2, "i")); [done|done|exact demo_life].
Defined.

Lemma applied_report_true_witness :
  hs_Outcome (mc_view demo_resumed) = "applied" /\ 0 < hs_AppliedRevision (mc_view demo_resumed) /\
  exists x, In (x, true) (enforcements (mc_log demo_resumed)) /\ ex_Revision x = hs_AppliedRevision (mc_view demo_resumed).
Proof.
  split; [by vm_compute|]. split; [by vm_compute|].
  refine (proj1 (applied_report_true demo_me demo_agent (fun _ => None) _ _ 2 "i" demo_resumed demo_life) _); [done|done|by vm_compute].
Defined.

Lemma only_writer_acts_witness :
  exists r, agent_Handler demo_me 2 "i" demo_agent (fun _ => None) (Some "spiffe://crane/other") true (PutExpectedState false (Some demo_expected)) demo_resumed
            = (Some r, demo_resumed).
Proof. apply (only_writer_acts demo_me demo_agent (fun _ => None)). done. Defined.

#[local] Instance no_faults : Faults := {| fault_at := fun _ => Works; dies_enforcing := fun _ => false |}.

Lemma update_applies_once_witness :
  exists s m', update demo_me 1 "i" false (Some demo_expected) (boot 0%nat) = (Some (RStatus 200 s), m') /\
    hs_AcceptedRevision s = 1 /\ hs_AppliedRevision s = 1 /\ hs_Outcome s = "applied" /\ hs_ExpectedVersion s = "1.2" /\
    mc_log m' = [Enforced demo_expected true] /\
    update demo_me 1 "i" false (Some demo_expected) m' = (Some (RStatus 200 s), m').
Proof.
  apply (update_applies_once demo_me 1 "i" demo_expected (boot 0%nat)); try done. intros y h. by exists (S h).
Defined.
