(* ===== verification/HostRpc.v ===== *)
(** * The private transport: internal/hostrpc

    Identity-pinned requests between the API, the Dominators and the host agents.  The
    network is a parameter: what a round trip brings back, [None] when the request failed
    (and its completion is unknown). *)
From S2P Require Import Prelude GoStrings Sql Api Schema Lease Handoff Scheduling Bootstrap Regex Subd.

Local Open Scope string_scope.
Local Open Scope list_scope.
Local Open Scope Z_scope.
Local Open Scope crane_scope.

(** go-spiffe: [FromString] (trust domain and path), [TrustDomainFromString] and [FromPath]. *)
Class Spiffe : Type := {
  spiffe_id : string -> option (string * string);
  trust_domain : string -> option string;
  spiffe_path_ok : string -> bool }.

(** [id.String()]. *)
Definition id_string (td path : string) : string := String.append "spiffe://" (String.append td path).

Definition FromPath `{Spiffe} (td path : string) : option string :=
  if spiffe_path_ok path then Some (id_string td path) else None.

(** A response: its code, whether its Content-Type is application/json, and the one JSON
    value its body decodes to. *)
Record Response (A : Type) : Type := mkResponse { rs_code : Z; rs_json : bool; rs_body : option A }.
Arguments mkResponse {A} _ _ _.
Arguments rs_code {A} _.
Arguments rs_json {A} _.
Arguments rs_body {A} _.

(** The status code, and what was decoded into [out]: [Err] for an error. *)
Definition Outcome (A : Type) : Type := Z * result (option A).

Definition client_call {W A} `{GoURL} `{Spiffe} (round_trip : W -> option (Response A) * W) (endpoint identity : string) (w : W) : Outcome A * W :=
  match url_parse endpoint, spiffe_id identity with
  | Some u, Some _ =>
      if negb (plain_https u) then ((0, Err (ErrMsg "invalid private destination")), w)
      else
        match round_trip w with
        | (None, w) => ((0, Err (ErrMsg "private request failed; completion may be unknown")), w)
        | (Some r, w) =>
            if rs_json r then
              match rs_body r with
              | Some a => ((rs_code r, Ok (Some a)), w)
              | None => ((rs_code r, Err (ErrMsg "invalid private response")), w)
              end
            else if rs_code r == 200 then ((200, Err (ErrMsg "invalid private response")), w)
            else ((rs_code r, Ok None), w)
        end
  | _, _ => ((0, Err (ErrMsg "invalid private destination")), w)
  end.

(** [Context]: the deadline of a request, the earliest of the caller's own deadline, the
    header's and ten minutes from now; times are milliseconds. *)
Definition OperationTimeout : Z := 600000.

Definition rpc_Context (now : Z) (header : option (option Z)) (parent : option Z) : result Z :=
  let deadline := now + OperationTimeout in
  let* deadline := (match header with
                    | None => Ok deadline
                    | Some None => Err (ErrMsg "invalid operation deadline")
                    | Some (Some incoming) => Ok (if incoming <? deadline then incoming else deadline)
                    end) in
  Ok (match parent with Some p => if p <? deadline then p else deadline | None => deadline end).

(** ** Facts *)

(** An answer is believed only from a pinned identity over plain https. *)
Lemma client_call_ok {W A} `{GoURL} `{Spiffe} (rt : W -> option (Response A) * W) endpoint identity w code body w' :
  client_call rt endpoint identity w = ((code, Ok body), w') ->
  exists r, rt w = (Some r, w') /\ rs_code r = code /\ body = (if rs_json r then rs_body r else None) /\ (body = None -> code <> 200).
Proof.
  unfold client_call. destruct (url_parse endpoint) as [u|]; [|done]. destruct (spiffe_id identity); [|done].
  destruct (negb (plain_https u)); [done|]. destruct (rt w) as [[[c j b]|] w2]; [|done]. cbn [rs_code rs_json rs_body].
  destruct j; [destruct b as [a|]; [|done]; intros [= <- <- <-]; by eexists|].
  case_bool_decide as E; [done|]. intros [= <- <- <-]. by eexists.
Qed.

Lemma rpc_Context_earliest now header parent t :
  rpc_Context now header parent = Ok t ->
  t <= now + OperationTimeout /\ (forall h, header = Some (Some h) -> t <= h) /\ (forall p, parent = Some p -> t <= p).
Proof.
  unfold rpc_Context. destruct header as [[h|]|]; cbn [rbind]; [|done|];
    destruct parent as [p|]; intros [= <-]; repeat split; intros; simplify_eq; repeat case_match; bsplit; lia.
Qed.
