(* ===== verification/HostOps.v ===== *)
(** * Host operations: internal/hostoperations

    A Secret reaches a host through three processes.  The API resolves the host's zone and
    forwards the request to the zone's Dominator; the Dominator's [Controller] allocates a
    revision for the request in [host_state_requests], sends it to the host agent as an
    expected state, and records what became of it; the host agent (file [Subd]) enforces it.

    An advisory lock makes the executions of one host take turns.  Each statement of an
    execution may fail, and a commit may be lost with its answer; the network between the
    processes is a parameter. *)
From S2P Require Import Prelude GoStrings Sql Api Schema Lease Handoff Scheduling Bootstrap Regex Subd HostRpc.

Local Open Scope string_scope.
Local Open Scope list_scope.
Local Open Scope Z_scope.
Local Open Scope crane_scope.

(** ** pkg/api/kubernetes.go: requests and results *)
Record SecretRequest : Type := mkSecretRequest { sq_RequestID : string; sq_Secret : KubernetesSecret }.

Record SecretResult : Type := mkSecretResult {
  sr_Error : string; sr_HostID : string; sr_ZoneID : string; sr_RequestID : string; sr_Revision : Z; sr_Outcome : string;
  sr_Kubernetes : option KubernetesResult }.

Definition set_sr_Error (v : string) (r : SecretResult) : SecretResult :=
  mkSecretResult v (sr_HostID r) (sr_ZoneID r) (sr_RequestID r) (sr_Revision r) (sr_Outcome r) (sr_Kubernetes r).

Definition SecretRequest_Normalize `{K8s} `{K8sNames} (r : SecretRequest) : result SecretRequest :=
  guard negb ((sq_RequestID r == "") || (128 <? Z.of_nat (String.length (sq_RequestID r)))) else ErrMsg "invalid request ID" in
  let* s := Normalize (sq_Secret r) in
  Ok (mkSecretRequest (sq_RequestID r) s).

(** ** store.go *)

(** [operationError]: the HTTP status and the message. *)
Record operationError : Type := mkOpError { oe_status : Z; oe_message : string }.
Definition fail (status : Z) (message : string) : operationError := mkOpError status message.
Definition errorStatus (e : operationError) : Z := oe_status e.

(** A row of [host_state_requests]. *)
Record HostRequest : Type := mkHostRequest {
  hq_host_id : string; hq_request_id : string; hq_fingerprint : string; hq_revision : Z; hq_outcome : string;
  hq_result : option SecretResult }.

Definition set_hq_result (o : string) (v : SecretResult) (r : HostRequest) : HostRequest :=
  mkHostRequest (hq_host_id r) (hq_request_id r) (hq_fingerprint r) (hq_revision r) o (Some v).

Record Target : Type := mkTarget {
  tg_HostID : string; tg_ZoneID : string; tg_ClusterID : string; tg_ProviderID : string; tg_Endpoint : string;
  tg_DominatorEndpoint : string; tg_DominatorIdentity : string }.

Definition coalesce (o : option string) (d : string) : string := match o with Some s => s | None => d end.

(** The LEFT JOINs of [loadTarget]. *)
Definition host_group (d : DB) (h : HostRow) : option GroupRow :=
  select_one (fun g => (Some (g_id g) == h_node_group_id h) && (Some (g_zone_id g) == h_crane_zone h)) (node_groups d).
Definition group_member (d : DB) (g : option GroupRow) : option MemberRow :=
  match g with
  | Some g => select_one (fun m => (m_cluster_id m == g_cluster_id g) && (m_zone_id m == g_zone_id g)) (cluster_zones d)
  | None => None
  end.

Definition loadTarget (d : DB) (id : string) : Target * option operationError :=
  let none := mkTarget id "" "" "" "" "" "" in
  match select_one (fun h => h_id h == id) (host d) with
  | None => (none, Some (fail 404 "host not found"))
  | Some h =>
      let g := host_group d h in
      let m := group_member d g in
      let zone := match h_crane_zone h with Some z => z | None => coalesce (h_zone h) "" end in
      let cluster := match g with Some g => g_cluster_id g | None => "" end in
      let t := mkTarget id zone cluster (coalesce (h_providerid h) "") (h_subd_endpoint h) "" "" in
      if one_of (h_state h) [HostDraining; HostTerminating; HostTerminated; HostFailed] || (tg_ProviderID t == "") || (tg_Endpoint t == "")
      then (t, Some (fail 409 "host unavailable for expected-state changes"))
      else if (cluster != "") && (((match m with Some m => m_lifecycle_state m | None => "" end) != "ready") ||
                                  ((match m with Some m => m_access_state m | None => "" end) != "approved"))
      then (t, Some (fail 403 "cluster-zone membership does not authorize host state changes"))
      else match select_one (fun x => d_zone_id x == zone) (zone_dominators d) with
           | None => (t, Some (fail 503 "zone Dominator unavailable"))
           | Some x => (mkTarget id zone cluster (tg_ProviderID t) (tg_Endpoint t) (d_endpoint x) (d_identity x), None)
           end
  end.

(** ** controller.go *)
Record Controller : Type := mkController { ct_ZoneID : string; ct_TrustDomain : string; ct_OwnIdentity : string }.

(** How the statements of one execution fare; [lk_commit]: the commit works, fails, or
    works with its answer lost.  [lk_lock] is the error of the advisory lock. *)
Inductive commit_luck : Type := Commits | Refused | AnswerLost.
Record Luck : Type := mkLuck {
  lk_lock : option operationError; lk_select : bool; lk_max : bool; lk_insert : bool; lk_begin : bool; lk_update : bool;
  lk_observe : bool; lk_commit : commit_luck; lk_expired : bool }.

(** The agent as the controller reaches it: health and expected state. *)
Class AgentLink (W : Type) : Type := {
  agent_health : string -> string -> W -> Outcome HostAgentStatus * W;
  agent_put : string -> string -> ExpectedHostState -> W -> Outcome HostAgentStatus * W }.

(** [json.Decode] into a status that holds an older answer: members that a response omits
    keep their value. *)
Definition decode_over (old new : HostAgentStatus) : HostAgentStatus :=
  mkStatus (hs_Identity new) (hs_PID new) (hs_InvocationID new) (hs_Ready new) (hs_AcceptedRevision new) (hs_AppliedRevision new)
    (hs_Outcome new) (if hs_ExpectedVersion new == "" then hs_ExpectedVersion old else hs_ExpectedVersion new)
    (match hs_Kubernetes new with Some k => Some k | None => hs_Kubernetes old end).

Definition zero_status : HostAgentStatus := mkStatus "" 0 "" false 0 0 "" "" None.

Definition request_of (host request : string) (r : HostRequest) : bool := (hq_host_id r == host) && (hq_request_id r == request).

(** [COALESCE(max(revision),0)] over the requests of a host. *)
Fixpoint max_revision (host : string) (t : list HostRequest) : Z :=
  match t with
  | [] => 0
  | r :: rest => if hq_host_id r == host then Z.max (hq_revision r) (max_revision host rest) else max_revision host rest
  end.

Definition clash_row (n r : HostRequest) : bool :=
  (hq_host_id r == hq_host_id n) && ((hq_request_id r == hq_request_id n) || (hq_revision r == hq_revision n)).

(** The INSERT under the table's keys and its check. *)
Definition insert_request (n : HostRequest) (t : list HostRequest) : result (list HostRequest) :=
  guard 0 <? hq_revision n else ErrSql "23514" in
  insert_row (clash_row n) n t.

(** The outcome of the PUT. *)
Definition completed (secret : KubernetesSecret) (peer : string) (revision code : Z) (s : HostAgentStatus) : bool :=
  (code == 200) && (hs_Outcome s == "applied") && (hs_AppliedRevision s == revision) &&
  match hs_Kubernetes s with
  | Some k => (kr_Secret k == "verified") &&
      (((ks_RolloutDeployment secret == "") && (kr_Rollout k == "not_requested")) ||
       ((ks_RolloutDeployment secret != "") && (kr_Rollout k == "ready")))
  | None => false
  end.

Definition classify (secret : KubernetesSecret) (peer : string) (code : Z) (err : bool) (s : HostAgentStatus) (r : SecretResult) : SecretResult :=
  let r := mkSecretResult (sr_Error r) (sr_HostID r) (sr_ZoneID r) (sr_RequestID r) (sr_Revision r) "unknown" (sr_Kubernetes r) in
  if negb err && (hs_Identity s == peer) && (hs_AcceptedRevision s == sr_Revision r) then
    let o := if hs_Outcome s == "failed" then "failed" else "unknown" in
    let o := if completed secret peer (sr_Revision r) code s then "applied" else o in
    mkSecretResult (sr_Error r) (sr_HostID r) (sr_ZoneID r) (sr_RequestID r) (sr_Revision r) o (hs_Kubernetes s)
  else r.

(** The request for the collector's exporter configuration decides the zone's
    observability status. *)
Definition observes (s : KubernetesSecret) : bool :=
  (ks_Namespace s == "crane-system") && (ks_Name s == "otel-exporter-config") && (ks_RolloutDeployment s == "otel-collector").

Definition observe (s : KubernetesSecret) (zone : string) (outcome : string) (d : DB) : DB :=
  if observes s
  then set_zone_dominators (update_where (fun x => d_zone_id x == zone)
         (set_d_observability_status (if outcome == "applied" then "ready" else "failed")) (zone_dominators d)) d
  else d.

Section Execute.
Context {W : Type} {link : AgentLink W} {k8s : K8s} {names : K8sNames} {fp : Fingerprints} {spiffe : Spiffe}.

Record HostStore : Type := mkHostStore { hs_db : DB; hs_requests : list HostRequest; hs_world : W }.
Definition set_hs_db (v : DB) (s : HostStore) : HostStore := mkHostStore v (hs_requests s) (hs_world s).
Definition set_hs_requests (v : list HostRequest) (s : HostStore) : HostStore := mkHostStore (hs_db s) v (hs_world s).
Definition set_hs_world (v : W) (s : HostStore) : HostStore := mkHostStore (hs_db s) (hs_requests s) v.

Definition Done : Type := (SecretResult * option operationError) * HostStore.
Definition failed (r : SecretResult) (status : Z) (msg : string) (s : HostStore) : Done := ((r, Some (fail status msg)), s).

Definition with_revision (v : Z) (r : SecretResult) : SecretResult :=
  mkSecretResult (sr_Error r) (sr_HostID r) (sr_ZoneID r) (sr_RequestID r) v (sr_Outcome r) (sr_Kubernetes r).

(** The bounded completion transaction. *)
Definition record_outcome (lk : Luck) (host : string) (rq : SecretRequest) (zone : string) (r : SecretResult) (s : HostStore) : Done :=
  let lost := "cannot persist host outcome; retry the same request ID" in
  if negb (lk_begin lk) || negb (lk_update lk) then failed r 503 lost s
  else
    let requests := update_where (request_of host (sq_RequestID rq)) (set_hq_result (sr_Outcome r) r) (hs_requests s) in
    if observes (sq_Secret rq) && negb (lk_observe lk) then failed r 503 "cannot persist observability status" s
    else
      let s' := mkHostStore (observe (sq_Secret rq) zone (sr_Outcome r) (hs_db s)) requests (hs_world s) in
      match lk_commit lk with
      | Refused => failed r 503 lost s
      | AnswerLost => failed r 503 lost s'
      | Commits =>
          if sr_Outcome r != "applied" then
            if lk_expired lk then failed r 504 "operation deadline exceeded; completion may be unknown" s'
            else failed r 502 "host operation did not complete; retry the same request ID" s'
          else ((r, None), s')
      end.

(** The delivery of a request whose revision is allocated. *)
Definition deliver_request (lk : Luck) (host : string) (rq : SecretRequest) (zone endpoint peer : string) (status : HostAgentStatus)
    (r : SecretResult) (s : HostStore) : Done :=
  let state := mkExpected (sr_Revision r) "" "" "" ∅ [] (Some (sq_Secret rq)) in
  let '((code, answer), w) := agent_put endpoint peer state (hs_world s) in
  let s := set_hs_world w s in
  let status := match answer with Ok (Some new) => decode_over status new | _ => status end in
  let r := classify (sq_Secret rq) peer code (negb (is_ok answer)) status r in
  if is_ok answer && (code == 409) then failed r 409 "host revision conflict" s
  else record_outcome lk host rq zone r s.

Definition Execute (c : Controller) (lk : Luck) (host : string) (rq : SecretRequest) (s : HostStore) : Done :=
  let r := mkSecretResult "" host "" (sq_RequestID rq) 0 "unknown" None in
  match SecretRequest_Normalize rq with
  | Err _ => failed r 400 "invalid Secret request" s
  | Ok rq =>
  match lk_lock lk with
  | Some e => ((r, Some e), s)
  | None =>
  match loadTarget (hs_db s) host with
  | (_, Some e) => ((r, Some e), s)
  | (t, None) =>
  let r := mkSecretResult "" host (tg_ZoneID t) (sq_RequestID rq) 0 "unknown" None in
  if (ct_ZoneID c == "") || (tg_ZoneID t != ct_ZoneID c) || (tg_DominatorIdentity t != ct_OwnIdentity c)
  then failed r 403 "host is not owned by this Dominator" s
  else
  match trust_domain (ct_TrustDomain c) with
  | None => failed r 503 "host identity unavailable" s
  | Some td =>
  match FromPath td (String.append "/subd/" (tg_ProviderID t)) with
  | None => failed r 503 "host identity unavailable" s
  | Some peer =>
  let fingerprint := SecretFingerprint (sq_Secret rq) in
  if negb (lk_select lk) then failed r 503 "operation store unavailable" s
  else
  let row := select_one (request_of host (sq_RequestID rq)) (hs_requests s) in
  let r := match row with Some q => with_revision (hq_revision q) r | None => r end in
  let health := fun (s : HostStore) =>
    let '((code, answer), w) := agent_health (tg_Endpoint t) peer (hs_world s) in
    let s := set_hs_world w s in
    let status := match answer with Ok (Some st) => decode_over zero_status st | _ => zero_status end in
    if negb (is_ok answer) || (code != 200) || (hs_Identity status != peer) || negb (hs_Ready status)
    then failed r 502 "host state unavailable; completion may be unknown" s
    else match row with
         | Some _ =>
             if sr_Revision r <? hs_AcceptedRevision status then failed r 409 "host operation has been superseded" s
             else deliver_request lk host rq (tg_ZoneID t) (tg_Endpoint t) peer status r s
         | None =>
             if negb (lk_max lk) then failed r 503 "operation store unavailable" s
             else
               let maximum := max_revision host (hs_requests s) in
               let maximum := if maximum <? hs_AcceptedRevision status then hs_AcceptedRevision status else maximum in
               if MaxInt64 <=? maximum then failed r 409 "host revision exhausted" s
               else
                 let r := with_revision (maximum + 1) r in
                 let new := mkHostRequest host (sq_RequestID rq) fingerprint (maximum + 1) "pending" None in
                 match (if lk_insert lk then insert_request new (hs_requests s) else Err (ErrMsg "store")) with
                 | Err _ => failed r 503 "cannot persist host operation" s
                 | Ok t' => deliver_request lk host rq (tg_ZoneID t) (tg_Endpoint t) peer status r (set_hs_requests t' s)
                 end
         end in
  match row with
  | Some q =>
      if hq_fingerprint q != fingerprint then failed r 409 "request ID already used with different contents" s
      else if hq_outcome q == "applied" then
        match hq_result q with
        | Some saved => ((saved, None), s)
        | None => failed r 503 "saved operation outcome unavailable" s
        end
      else health s
  | None => health s
  end
  end end end end end.
End Execute.
Arguments HostStore W : clear implicits.

(** ** http.go *)

(** A forwarded request. *)
Record Delivery : Type := mkDelivery { dl_HostID : string; dl_Request : SecretRequest }.

(** What a handler writes: an error text, or a result with its code. *)
Inductive SecretReply : Type := SText (code : Z) (msg : string) | SResult (code : Z) (r : SecretResult).

(** [Controller.Handler]; [peer] is [hostrpc.Peer], [deadline_ok] that the deadline header
    parses, [body] what [hostrpc.Decode] makes of the body. *)
Definition Controller_Handler {W} `{AgentLink W} `{K8s} `{K8sNames} `{Fingerprints} `{Spiffe} (c : Controller) (apiIdentity peer : string)
    (deadline_ok : bool) (body : option Delivery) (lk : Luck) (s : HostStore W) : SecretReply * HostStore W :=
  if (peer != apiIdentity) || (apiIdentity == "") then (SText 403 "forbidden", s)
  else if negb deadline_ok then (SText 400 "invalid operation deadline", s)
  else match body with
       | None => (SText 400 "invalid request", s)
       | Some dl =>
           if dl_HostID dl == "" then (SText 400 "host required", s)
           else
             let '((r, err), s) := Execute c lk (dl_HostID dl) (dl_Request dl) s in
             (match err with
              | None => SResult 200 r
              | Some e => SResult (errorStatus e) (set_sr_Error (oe_message e) r)
              end, s)
       end.

(** [API.ServeHTTP] over a Dominator that answers with a code and a result. *)
Definition API_ServeHTTP {W} `{K8s} `{K8sNames} (AdminToken authorization : string) (deadline_ok : bool) (hostID namespace name : string)
    (body : option SecretRequest) (d : DB) (dominator : string -> string -> Delivery -> W -> Outcome SecretResult * W) (expired : bool)
    (w : W) : SecretReply * W :=
  if (AdminToken == "") || (authorization != String.append "Bearer " AdminToken) then (SText 401 "unauthorized", w)
  else if negb deadline_ok then (SText 400 "invalid operation deadline", w)
  else match body with
       | None => (SText 400 "invalid request", w)
       | Some rq =>
           let s := sq_Secret rq in
           if ((ks_Namespace s != "") && (ks_Namespace s != namespace)) || ((ks_Name s != "") && (ks_Name s != name))
           then (SText 400 "resource identity conflicts with path", w)
           else
             match SecretRequest_Normalize (mkSecretRequest (sq_RequestID rq)
                     (mkSecret namespace name (ks_Type s) (ks_Data s) (ks_StringData s) (ks_RolloutDeployment s))) with
             | Err _ => (SText 400 "invalid Secret request", w)
             | Ok rq =>
                 match loadTarget d hostID with
                 | (_, Some e) => (SText (errorStatus e) (oe_message e), w)
                 | (t, None) =>
                     let '((code, answer), w) := dominator (tg_DominatorEndpoint t) (tg_DominatorIdentity t) (mkDelivery (tg_HostID t) rq) w in
                     let r := match answer with Ok (Some r) => r | _ => mkSecretResult "" "" "" "" 0 "" None end in
                     if negb (is_ok answer) || (sr_HostID r != tg_HostID t) || (sr_ZoneID r != tg_ZoneID t) || (sr_RequestID r != sq_RequestID rq)
                     then (if expired then SText 504 "operation deadline exceeded; retry the same request ID"
                           else SText 502 "Dominator response unavailable; retry the same request ID", w)
                     else (SResult (if one_of code [200; 400; 403; 404; 409; 502; 503; 504] then code else 502) r, w)
                 end
             end
       end.
