(* ===== verification/HostOpsFacts.v ===== *)
(** * Host operations, end to end

    The controller composed with the agents it reaches: any number of hosts, each with its
    agent (file [Subd]) behind a network that loses requests and answers, agents that die
    and restart, store statements that fail, and commits whose answer is lost. *)
From S2P Require Import Prelude GoStrings Sql Api Schema Admission Invariant Fixture Lease Handoff Scheduling Catalog Bootstrap Regex Subd SubdFacts HostRpc HostOps.

Local Open Scope string_scope.
Local Open Scope list_scope.
Local Open Scope Z_scope.
Local Open Scope crane_scope.

(** ** The table of requests *)
Definition request_key (r : HostRequest) : string * string := (hq_host_id r, hq_request_id r).
Definition revision_key (r : HostRequest) : string * Z := (hq_host_id r, hq_revision r).

Definition requests_ok (t : list HostRequest) : Prop :=
  unique_key request_key t /\ unique_key revision_key t /\ forall r, In r t -> 0 < hq_revision r.

(** What a later table keeps of an earlier one. *)
Definition requests_keep (t t' : list HostRequest) : Prop :=
  forall r, In r t -> exists r', In r' t' /\ request_key r' = request_key r /\ hq_fingerprint r' = hq_fingerprint r /\
                                 hq_revision r' = hq_revision r.

Lemma requests_keep_refl t : requests_keep t t.
Proof. intros r Hr. by exists r. Qed.

Lemma requests_keep_trans t1 t2 t3 : requests_keep t1 t2 -> requests_keep t2 t3 -> requests_keep t1 t3.
Proof.
  intros A B r Hr. destruct (A r Hr) as (r2 & H2 & K2 & F2 & V2). destruct (B r2 H2) as (r3 & H3 & K3 & F3 & V3).
  exists r3. repeat split; congruence.
Qed.

Lemma max_revision_le host t r : In r t -> hq_host_id r = host -> hq_revision r <= max_revision host t.
Proof.
  induction t as [|x t IH]; intros Hr E; [done|]. cbn. destruct Hr as [->|Hr].
  - rewrite E, eq_refl_true. lia.
  - specialize (IH Hr E). case_bool_decide; lia.
Qed.

Lemma max_revision_nonneg host t : 0 <= max_revision host t.
Proof. induction t as [|x t IH]; cbn; [lia|]. case_bool_decide; lia. Qed.

Lemma insert_host_request_ok n t t' :
  insert_request n t = Ok t' -> requests_ok t -> t' = t ++ [n] /\ requests_ok t'.
Proof.
  unfold insert_request. intros E (K & V & P). apply rbind_ok in E as (u & Hx & E). apply require_ok, Z.ltb_lt in Hx.
  apply insert_row_ok in E as [-> C]. split; [done|]. repeat split.
  - apply unique_key_app; [done|]. intros r Hr [= E1 E2]. specialize (C r Hr). unfold clash_row in C.
    by rewrite E1, E2, !eq_refl_true in C.
  - apply unique_key_app; [done|]. intros r Hr [= E1 E2]. specialize (C r Hr). unfold clash_row in C.
    by rewrite E1, E2, !eq_refl_true, orb_true_r in C.
  - intros r [Hr|[<-|[]]]%in_app_iff; [by apply P|done].
Qed.

(** The allocation never meets the table's keys: a new request ID with a revision above
    the host's maximum is always inserted. *)
Lemma insert_request_fresh host request f v t :
  select_one (request_of host request) t = None -> max_revision host t < v ->
  insert_request (mkHostRequest host request f v "pending" None) t = Ok (t ++ [mkHostRequest host request f v "pending" None]).
Proof.
  intros N M. unfold insert_request. cbn [hq_revision]. pose proof (max_revision_nonneg host t).
  rewrite (proj2 (Z.ltb_lt 0 v)) by lia. cbn [require rbind].
  apply insert_row_ok. split; [done|]. intros r Hr. pose proof (proj1 (select_one_none _ _) N r Hr) as Q.
  unfold request_of in Q. unfold clash_row. cbn [hq_host_id hq_request_id hq_revision].
  destruct (hq_host_id r == host) eqn:Eh; [|done]. cbn [andb] in *. rewrite Q. cbn [orb]. bsplit_hyp Eh.
  apply bool_decide_eq_false_2. pose proof (max_revision_le host t r Hr Eh). lia.
Qed.

Lemma complete_request_ok p o v t :
  requests_ok t -> requests_ok (update_where p (set_hq_result o v) t) /\ requests_keep t (update_where p (set_hq_result o v) t).
Proof.
  intros (K & V & P). repeat split.
  - by apply unique_key_update.
  - by apply unique_key_update.
  - intros r Hr. apply in_update_where in Hr as (r0 & H0 & ->). destruct (p r0); exact (P r0 H0).
  - intros r Hr. exists (if p r then set_hq_result o v r else r). split; [by apply in_map with (f := fun r => if p r then set_hq_result o v r else r)|].
    by destruct (p r).
Qed.

(** ** Agents behind a network *)

(** An agent: its machine and the process that runs on it. *)
Record Wire (H : Type) : Type := mkWire { wi_machine : Machine H; wi_proc : option (Z * string) }.
Arguments mkWire {H} _ _.
Arguments wi_machine {H} _.
Arguments wi_proc {H} _.

(** What happens to a round trip: it arrives, the request or the answer is lost, or the
    caller gives up while the agent waits for its lock. *)
Inductive trip_luck : Type := Arrives | RequestLost | AnswerIsLost | GivesUp.

#[global] Instance trip_luck_eq_dec : EqDecision trip_luck.
Proof. solve_decision. Defined.

(** The agents by identity, and the fate of the trips to come. *)
Record Net (H : Type) : Type := mkNet { nt_agents : gmap string (Wire H); nt_trips : list trip_luck }.
Arguments mkNet {H} _ _.
Arguments nt_agents {H} _.
Arguments nt_trips {H} _.

Definition reply_response (r : Reply) : Response HostAgentStatus :=
  match r with
  | RStatus code s => mkResponse code true (Some s)
  | RState s _ => mkResponse 200 true (Some s)
  | RJoin _ | RMembership _ => mkResponse 200 true (Some zero_status)
  | RText code _ => mkResponse code false None
  end.

Section Composed.
Context {H : Type} {host : HostOps H} {k8s : K8s} {names : K8sNames} {fp : Fingerprints} {dg : Digest} {gourl : GoURL} {faults : Faults} {spiffe : Spiffe}.
(** The configuration of each agent, and the decoder of challenges. *)
Context (config : string -> AgentConfig) (challenge_bytes : string -> option Z).
Context (join_digest_length : forall e c r, String.length (join_digest e c r) = 64%nat)
        (url_parse_empty : forall u, url_parse "" = Some u -> u_Host u = "").

Implicit Types (w : Net H) (id : string).

(** One request to the agent with the pinned identity [id] from the workload [from]. *)
Definition trip (from : string) (id : string) (c : bool -> AgentCall) w : option (Response HostAgentStatus) * Net H :=
  let luck := match nt_trips w with l :: _ => l | [] => Arrives end in
  let trips := tail (nt_trips w) in
  let unreached := (None, mkNet (nt_agents w) trips) in
  if luck == RequestLost then unreached
  else
    match nt_agents w !! id with
    | None => unreached
    | Some a =>
        match wi_proc a with
        | None => unreached
        | Some (pid, inv) =>
            match agent_Handler id pid inv (config id) challenge_bytes (Some from) true (c (luck == GivesUp)) (wi_machine a) with
            | (Some r, m') => (if luck == Arrives then Some (reply_response r) else None,
                               mkNet (<[id := mkWire m' (Some (pid, inv))]> (nt_agents w)) trips)
            | (None, m') => (None, mkNet (<[id := mkWire m' None]> (nt_agents w)) trips)
            end
        end
    end.

(** The controller with the identity [own] reaches the agents through [client_call]. *)
Definition net_link (own : string) : AgentLink (Net H) :=
  {| agent_health := fun endpoint peer => client_call (trip own peer (fun _ => GetHealth)) endpoint peer;
     agent_put := fun endpoint peer x => client_call (trip own peer (fun gone => PutExpectedState gone (Some x))) endpoint peer |}.

Definition log_of (w : Net H) id : list host_call := match nt_agents w !! id with Some a => mc_log (wi_machine a) | None => [] end.

Definition agents_live w : Prop :=
  forall id a, nt_agents w !! id = Some a -> life id (config id) challenge_bytes (wi_proc a) (wi_machine a).

(** Every agent's log goes on. *)
Definition logs_grow w w' : Prop := forall id, log_of w id `prefix_of` log_of w' id.

Lemma logs_grow_refl w : logs_grow w w.
Proof. by intros id. Qed.

Lemma logs_grow_trans w1 w2 w3 : logs_grow w1 w2 -> logs_grow w2 w3 -> logs_grow w1 w3.
Proof. intros A B id. etransitivity; [apply A|apply B]. Qed.

Lemma log_of_insert w id a id' trips :
  log_of (mkNet (<[id := a]> (nt_agents w)) trips) id' = if decide (id' = id) then mc_log (wi_machine a) else log_of w id'.
Proof.
  unfold log_of. cbn [nt_agents]. destruct (decide (id' = id)) as [->|N]; [by rewrite lookup_insert_eq|by rewrite lookup_insert_ne].
Qed.

Lemma trip_steps from id c w r w' :
  trip from id c w = (r, w') -> agents_live w -> agents_live w' /\ logs_grow w w'.
Proof.
  unfold trip. intros E L.
  assert (U : forall trips, agents_live (mkNet (nt_agents w) trips) /\ logs_grow w (mkNet (nt_agents w) trips)) by (intros; split; [exact L|by intros i]).
  destruct (_ == RequestLost); [injection E as _ <-; apply U|].
  destruct (nt_agents w !! id) as [a|] eqn:Ea; [|injection E as _ <-; apply U].
  destruct (wi_proc a) as [[pid inv]|] eqn:Ep; [|injection E as _ <-; apply U].
  pose proof (L id a Ea) as La. rewrite Ep in La.
  match type of E with match ?h with _ => _ end = _ => destruct h as [o m'] eqn:Eh end.
  pose proof (agent_Handler_grows id pid inv (config id) challenge_bytes (Some from) true (c ((match nt_trips w with l :: _ => l | [] => Arrives end) == GivesUp)) (wi_machine a)) as G.
  rewrite Eh in G. cbn [snd] in G.
  assert (G' : forall pr trips, logs_grow w (mkNet (<[id := mkWire m' pr]> (nt_agents w)) trips)).
  { intros pr trips id'. rewrite log_of_insert. destruct (decide (id' = id)) as [->|]; [|reflexivity]. unfold log_of. rewrite Ea. exact G. }
  assert (L' : forall pr trips, life id (config id) challenge_bytes pr m' -> agents_live (mkNet (<[id := mkWire m' pr]> (nt_agents w)) trips)).
  { intros pr trips Lm id' a' Hl. cbn [nt_agents] in Hl. apply lookup_insert_Some in Hl as [[<- <-]|[_ Hl]]; [done|by apply L]. }
  destruct o as [rep|]; injection E as _ <-; (split; [|apply G']); apply L'.
  - by eapply life_serve.
  - by eapply life_dies.
Qed.

Lemma client_trip_steps from id c endpoint w r w' :
  client_call (trip from id c) endpoint id w = (r, w') -> agents_live w -> agents_live w' /\ logs_grow w w'.
Proof.
  unfold client_call. intros E L. assert (U : agents_live w /\ logs_grow w w) by (split; [done|apply logs_grow_refl]).
  destruct (url_parse endpoint) as [u|]; [|injection E as _ <-; done]. destruct (spiffe_id id); [|injection E as _ <-; done].
  destruct (negb (plain_https u)); [injection E as _ <-; done|].
  destruct (trip from id c w) as [o w2] eqn:Et. pose proof (trip_steps _ _ _ _ _ _ Et L) as S.
  destruct o as [rs|]; [|by injection E as _ <-]. destruct (rs_json rs); [destruct (rs_body rs)|destruct (rs_code rs == 200)]; by injection E as _ <-.
Qed.

(** An agent that answers "applied" has enforced the state it was sent. *)
Lemma put_applied own id endpoint x w code st w' :
  agent_put (AgentLink := net_link own) endpoint id x w = ((code, Ok (Some st)), w') -> agents_live w -> hs_Outcome st = "applied" ->
  exists y, In (y, true) (enforcements (log_of w' id)) /\ ex_Revision y = hs_AcceptedRevision st /\ digest y = digest (with_normal_secret x).
Proof.
  cbn [agent_put net_link]. intros E L O. apply client_call_ok in E as (r & Et & Ec & Eb & _).
  unfold trip in Et. destruct (_ == RequestLost); [done|].
  destruct (nt_agents w !! id) as [a|] eqn:Ea; [|done]. destruct (wi_proc a) as [[pid inv]|] eqn:Ep; [|done].
  pose proof (life_alive id (config id) challenge_bytes join_digest_length url_parse_empty _ _ (L id a Ea)) as S.
  rewrite Ep in S. cbn [alive] in S.
  match type of Et with match ?h with _ => _ end = _ => destruct h as [[rep|] m'] eqn:Eh end; [|done].
  assert (r = reply_response rep /\ w' = mkNet (<[id := mkWire m' (Some (pid, inv))]> (nt_agents w)) (tail (nt_trips w))) as [-> ->].
  { destruct (_ == Arrives); [|done]. by injection Et as <- <-. }
  clear Et. destruct (wp_run _ _ _ _ _ _ (agent_Handler_keeps id join_digest_length url_parse_empty _ _ _ _ _ _ _ _ S) Eh) as [[[_ (Kn & T & _)] V] Rt].
  unfold agent_Handler in Eh. destruct (negb _); [injection Eh as <- _; done|]. cbn [is_get negb andb] in Eh.
  pose proof (wp_run _ _ _ _ _ _ (update_answers_request id pid inv _ x (wi_machine a)) Eh) as Ur.
  destruct rep as [c s|s c|o|mm|c msg]; try done. cbn in Eb. injection Eb as ->. cbn [reply_true] in Rt. subst s.
  rewrite V in O. cbn [status_of hs_Outcome] in O. destruct (st_outcome _ _ T O) as [_ La].
  exists (sa_Request (mc_saved m')). rewrite log_of_insert, decide_True by done. cbn [wi_machine]. split; [|split].
  - apply last_Some_elem_of, list_elem_of_In in La. exact La.
  - by rewrite V.
  - destruct Kn as [Kn|(_ & Dg & _)]; [by rewrite Kn in O|]. by rewrite <- Dg.
Qed.

(** ** Rows and logs *)
Definition request_state (v : Z) (secret : KubernetesSecret) : ExpectedHostState := mkExpected v "" "" "" ∅ [] (Some secret).

(** An agent enforced, successfully, the state of revision [v] with a Secret of this
    fingerprint. *)
Definition enforced_secret w (v : Z) (fingerprint : string) : Prop :=
  exists id secret y, In (y, true) (enforcements (log_of w id)) /\ ex_Revision y = v /\
    digest y = digest (request_state v secret) /\ SecretFingerprint secret = fingerprint.

Lemma enforced_secret_grows w w' v f : logs_grow w w' -> enforced_secret w v f -> enforced_secret w' v f.
Proof.
  intros G (id & secret & y & Hy & Q). exists id, secret, y. split; [|done]. destruct (G id) as [l ->].
  rewrite enforcements_app. apply in_app_iff. by left.
Qed.

Definition row_true w (q : HostRequest) : Prop :=
  (forall v, hq_result q = Some v -> sr_Outcome v = hq_outcome q /\ sr_Revision v = hq_revision q /\
                                     sr_HostID v = hq_host_id q /\ sr_RequestID v = hq_request_id q) /\
  (hq_outcome q = "applied" -> enforced_secret w (hq_revision q) (hq_fingerprint q)).

Definition hostops_true (s : HostStore (Net H)) : Prop :=
  agents_live (hs_world s) /\ requests_ok (hs_requests s) /\ forall q, In q (hs_requests s) -> row_true (hs_world s) q.

Lemma row_true_grows w w' q : logs_grow w w' -> row_true w q -> row_true w' q.
Proof. intros G [A B]. split; [done|]. intros O. apply (enforced_secret_grows w); auto. Qed.

(** What one execution does to the store. *)
Definition evolves (s s' : HostStore (Net H)) : Prop :=
  hostops_true s' /\ requests_keep (hs_requests s) (hs_requests s') /\ logs_grow (hs_world s) (hs_world s').

Lemma requests_evolve_refl s : hostops_true s -> evolves s s.
Proof. intros I. split; [done|]. split; [apply requests_keep_refl|apply logs_grow_refl]. Qed.

Lemma requests_evolve_trans s1 s2 s3 : evolves s1 s2 -> evolves s2 s3 -> evolves s1 s3.
Proof.
  intros (_ & K1 & G1) (I2 & K2 & G2). split; [done|]. split; [by eapply requests_keep_trans|by eapply logs_grow_trans].
Qed.

Lemma evolves_world s w : hostops_true s -> agents_live w -> logs_grow (hs_world s) w -> evolves s (set_hs_world w s).
Proof.
  intros (_ & R & T) L G. split; [|split; [apply requests_keep_refl|exact G]]. split; [done|]. split; [done|].
  intros q Hq. apply (row_true_grows (hs_world s)); auto.
Qed.

Lemma evolves_insert s t' hid request f v :
  hostops_true s -> insert_request (mkHostRequest hid request f v "pending" None) (hs_requests s) = Ok t' ->
  evolves s (set_hs_requests t' s) /\ t' = hs_requests s ++ [mkHostRequest hid request f v "pending" None].
Proof.
  intros (L & R & T) E. apply insert_host_request_ok in E as [-> R']; [|done]. split; [|done].
  split; [split; [done|split; [done|]]|split; [|apply logs_grow_refl]].
  - intros q [Hq|[<-|[]]]%in_app_iff; [by apply T|]. split; done.
  - intros q Hq. exists q. split; [|done]. apply in_app_iff. by left.
Qed.

(** The request's row, as an execution that delivers it knows it. *)
Definition allocated (s : HostStore (Net H)) (hid : string) (rq : SecretRequest) (r : SecretResult) : Prop :=
  sr_HostID r = hid /\ sr_RequestID r = sq_RequestID rq /\
  forall q, In q (hs_requests s) -> request_of hid (sq_RequestID rq) q = true ->
    hq_revision q = sr_Revision r /\ hq_fingerprint q = SecretFingerprint (sq_Secret rq).

(** The answer of an execution: success only for an enforced Secret. *)
Definition answer_true (rq : SecretRequest) (d : Done) : Prop :=
  snd (fst d) = None -> sr_Outcome (fst (fst d)) = "applied" /\
    enforced_secret (hs_world (snd d)) (sr_Revision (fst (fst d))) (SecretFingerprint (sq_Secret rq)).

Lemma record_outcome_true lk hid rq zone r s :
  hostops_true s -> allocated s hid rq r ->
  (sr_Outcome r = "applied" -> enforced_secret (hs_world s) (sr_Revision r) (SecretFingerprint (sq_Secret rq))) ->
  evolves s (snd (record_outcome lk hid rq zone r s)) /\ answer_true rq (record_outcome lk hid rq zone r s).
Proof.
  intros I (A1 & A2 & A3) P. unfold record_outcome, failed.
  assert (E0 : evolves s s) by (by apply requests_evolve_refl).
  destruct (_ || _); [by split|]. destruct (_ && _); [by split|].
  set (s' := mkHostStore _ _ _).
  assert (E1 : evolves s s').
  { destruct I as (L & R & T). destruct (complete_request_ok (request_of hid (sq_RequestID rq)) (sr_Outcome r) r (hs_requests s) R) as [R' K'].
    split; [split; [done|split; [done|]]|split; [done|apply logs_grow_refl]]. cbn [s' hs_requests hs_world].
    intros q Hq. apply in_update_where in Hq as (q0 & H0 & ->). destruct (request_of _ _ q0) eqn:Eq; [|by apply T].
    destruct (A3 q0 H0 Eq) as [V F]. unfold request_of in Eq. bsplit. split; cbn; [|rewrite V, F; exact P].
    intros v [= <-]. repeat split; congruence. }
  destruct (lk_commit lk); [|by split|by split].
  destruct (sr_Outcome r != "applied") eqn:Eo; [destruct (lk_expired lk); by split|].
  split; [done|]. intros _. bsplit. split; [done|]. by apply P.
Qed.

Lemma classify_keeps secret peer code err st r :
  let r' := classify secret peer code err st r in
  sr_HostID r' = sr_HostID r /\ sr_RequestID r' = sr_RequestID r /\ sr_Revision r' = sr_Revision r.
Proof. unfold classify. by destruct (negb err && _ && _). Qed.

Lemma classify_applied secret peer code err st r :
  sr_Outcome (classify secret peer code err st r) = "applied" ->
  negb err && (hs_Identity st == peer) && (hs_AcceptedRevision st == sr_Revision r) = true /\ completed secret peer (sr_Revision r) code st = true.
Proof.
  unfold classify. cbn [sr_Revision]. destruct (negb err && _ && _) eqn:G; [|done]. cbn [sr_Outcome].
  destruct (completed _ _ _ _ _); [done|]. cbv zeta iota. by destruct (hs_Outcome st == "failed").
Qed.

Lemma deliver_request_true own lk hid rq zone endpoint peer status r s :
  let d := deliver_request (link := net_link own) lk hid rq zone endpoint peer status r s in
  hostops_true s -> allocated s hid rq r -> Normalize (sq_Secret rq) = Ok (sq_Secret rq) ->
  evolves s (snd d) /\ answer_true rq d.
Proof.
  intros d I A N. unfold d, deliver_request.
  destruct (agent_put _ _ _ _) as [[code answer] w] eqn:Ep.
  pose proof (client_trip_steps _ _ _ _ _ _ _ Ep (proj1 I)) as [Lw Gw].
  pose proof (evolves_world s w I Lw Gw) as E1. set (s1 := set_hs_world w s) in *.
  set (status' := match answer with Ok (Some new) => decode_over status new | _ => status end).
  set (r' := classify _ _ _ _ _ _).
  destruct (is_ok answer && (code == 409)) eqn:Ec; [by split|].
  assert (A' : allocated s1 hid rq r').
  { unfold r', allocated. destruct (classify_keeps (sq_Secret rq) peer code (negb (is_ok answer)) status' r) as (-> & -> & ->). exact A. }
  assert (P : sr_Outcome r' = "applied" -> enforced_secret (hs_world s1) (sr_Revision r') (SecretFingerprint (sq_Secret rq))).
  { intros Ap. destruct (classify_keeps (sq_Secret rq) peer code (negb (is_ok answer)) status' r) as (_ & _ & Vr). fold r' in Vr. rewrite Vr.
    apply classify_applied in Ap as [G C]. unfold completed in C. apply andb_prop in C as [C _]. apply andb_prop in C as [C Cr]. apply andb_prop in C as [Cc Co]. bsplit. subst code.
    destruct answer as [[st|]|e]; cbn [is_ok negb] in *; [|exfalso|done].
    - destruct (put_applied own peer endpoint _ _ _ _ _ Ep (proj1 I)) as (y & Hy & Ry & Dy); [done|].
      exists peer, (sq_Secret rq), y. unfold with_normal_secret in Dy. cbn in Dy. rewrite N in Dy.
      split; [done|]. split; [|split; [exact Dy|done]]. rewrite Ry. done.
    - apply client_call_ok in Ep as (? & _ & _ & _ & Hn). by apply Hn. }
  destruct (record_outcome_true lk hid rq zone r' s1 (proj1 E1) A' P) as [E2 T2]. split; [by eapply requests_evolve_trans|done].
Qed.

Lemma SecretRequest_Normalize_ok rq rq' :
  SecretRequest_Normalize rq = Ok rq' -> sq_RequestID rq' = sq_RequestID rq /\ Normalize (sq_Secret rq) = Ok (sq_Secret rq') /\
  Normalize (sq_Secret rq') = Ok (sq_Secret rq').
Proof.
  unfold SecretRequest_Normalize. intros E. inv_ok. cbn. repeat split; [done|]. by apply Normalize_idempotent with (sq_Secret rq).
Qed.

Lemma request_row hid request s q :
  hostops_true s -> select_one (request_of hid request) (hs_requests s) = Some q ->
  forall q', In q' (hs_requests s) -> request_of hid request q' = true -> q' = q.
Proof.
  intros (_ & (K & _ & _) & _) E q' Hq Eq. apply select_one_some in E as [Hq0 E0]. unfold request_of in *. bsplit.
  apply (unique_key_in request_key (hs_requests s)); try done. unfold request_key. congruence.
Qed.

Lemma Execute_true own zone td lk hid rq s :
  let d := Execute (link := net_link own) (mkController zone td own) lk hid rq s in
  hostops_true s -> evolves s (snd d) /\
  (snd (fst d) = None -> sr_Outcome (fst (fst d)) = "applied" /\ exists secret, Normalize (sq_Secret rq) = Ok secret /\
     enforced_secret (hs_world (snd d)) (sr_Revision (fst (fst d))) (SecretFingerprint secret)).
Proof.
  intros d I. unfold d, Execute, failed. clear d. cbn [ct_ZoneID ct_TrustDomain ct_OwnIdentity].
  assert (E0 : evolves s s) by (by apply requests_evolve_refl).
  destruct (SecretRequest_Normalize rq) as [rq'|] eqn:En; [|by split].
  apply SecretRequest_Normalize_ok in En as (Ei & En & N).
  destruct (lk_lock lk); [by split|]. destruct (loadTarget (hs_db s) hid) as [t [e|]]; [by split|].
  match goal with |- context [if ?b then _ else _] => destruct b end; [by split|].
  destruct (trust_domain td) as [tdn|]; [|by split]. destruct (FromPath tdn _) as [peer|]; [|by split].
  destruct (negb (lk_select lk)); [by split|].
  destruct (select_one _ _) as [q|] eqn:Eq.
  - destruct (hq_fingerprint q != _) eqn:Ef; [by split|]. bsplit_hyp Ef.
    destruct (select_one_some _ _ _ Eq) as [Hq Er]. pose proof (proj2 (proj2 I) q Hq) as [Rr Ra].
    case_bool_decide as Eo.
    { destruct (hq_result q) as [saved|] eqn:Es; [|by split]. split; [done|]. intros _. cbn [fst snd].
      destruct (Rr saved eq_refl) as (O1 & O2 & _). split; [congruence|]. exists (sq_Secret rq'). split; [done|].
      rewrite O2, <- Ef. by apply Ra. }
    destruct (agent_health _ _ _) as [[code answer] w] eqn:Eh.
    pose proof (client_trip_steps _ _ _ _ _ _ _ Eh (proj1 I)) as [Lw Gw]. pose proof (evolves_world s w I Lw Gw) as E1.
    match goal with |- context [if ?b then _ else _] => destruct b end; [by split|].
    match goal with |- context [if ?b then _ else _] => destruct b end; [by split|].
    match goal with |- context [deliver_request lk hid rq' ?z ?ep ?pe ?st ?r ?s1] =>
      destruct (deliver_request_true own lk hid rq' z ep pe st r s1 (proj1 E1)) as [E2 T2]; [|done|] end.
    { split; [done|]. split; [done|]. intros q' Hq' Er'. cbn [set_hs_world hs_requests] in Hq'.
      rewrite (request_row hid (sq_RequestID rq') s q I Eq q' Hq' Er'). done. }
    split; [by eapply requests_evolve_trans|]. intros O. destruct (T2 O) as [T2a T2b]. split; [done|]. by exists (sq_Secret rq').
  - destruct (agent_health _ _ _) as [[code answer] w] eqn:Eh.
    pose proof (client_trip_steps _ _ _ _ _ _ _ Eh (proj1 I)) as [Lw Gw]. pose proof (evolves_world s w I Lw Gw) as E1.
    match goal with |- context [if ?b then _ else _] => destruct b end; [by split|].
    destruct (negb (lk_max lk)); [by split|].
    match goal with |- context [MaxInt64 <=? ?b] => set (maximum := b); destruct (MaxInt64 <=? maximum) end; [by split|].
    destruct (lk_insert lk); [|by split].
    destruct (insert_request _ _) as [t'|] eqn:Ein; [|by split].
    destruct (evolves_insert _ _ _ _ _ _ (proj1 E1) Ein) as [E2 Et].
    match goal with |- context [deliver_request lk hid rq' ?z ?ep ?pe ?st ?r ?s1] =>
      destruct (deliver_request_true own lk hid rq' z ep pe st r s1 (proj1 E2)) as [E3 T3]; [|done|] end.
    { split; [done|]. split; [done|]. intros q' Hq' Er'. cbn [set_hs_requests hs_requests] in Hq'. rewrite Et in Hq'.
      apply in_app_iff in Hq' as [Hq'|[<-|[]]]; [|done]. exfalso.
      by rewrite (proj1 (select_one_none _ _) Eq q' Hq') in Er'. }
    split; [by eapply requests_evolve_trans; [|eapply requests_evolve_trans]|]. intros O. destruct (T3 O) as [T3a T3b]. split; [done|]. by exists (sq_Secret rq').
Qed.

(** ** The running system *)
Inductive hostops_step : HostStore (Net H) -> HostStore (Net H) -> Prop :=
| hop_execute s zone td own lk hid rq :
    hostops_step s (snd (Execute (link := net_link own) (mkController zone td own) lk hid rq s))
| hop_traffic s from id c : hostops_step s (set_hs_world (snd (trip from id c (hs_world s))) s)
| hop_start s id a pid inv m :
    nt_agents (hs_world s) !! id = Some a -> restart id pid inv (wi_machine a) = Ok m ->
    hostops_step s (set_hs_world (mkNet (<[id := mkWire m (Some (pid, inv))]> (nt_agents (hs_world s))) (nt_trips (hs_world s))) s)
| hop_install s id h :
    nt_agents (hs_world s) !! id = None ->
    hostops_step s (set_hs_world (mkNet (<[id := mkWire (boot h) None]> (nt_agents (hs_world s))) (nt_trips (hs_world s))) s)
| hop_catalog s d : hostops_step s (set_hs_db d s)
| hop_network s trips : hostops_step s (set_hs_world (mkNet (nt_agents (hs_world s)) trips) s).

Definition no_requests : HostStore (Net H) := mkHostStore empty_db [] (mkNet ∅ []).

Lemma hostops_step_evolves s s' : hostops_step s s' -> hostops_true s -> evolves s s'.
Proof.
  intros S I. destruct S as [s zone td own lk hid rq|s from id c|s id a pid inv m Ea Er|s id h En|s d|s trips].
  - by apply Execute_true.
  - destruct (trip from id c (hs_world s)) as [o w] eqn:Et. destruct (trip_steps _ _ _ _ _ _ Et (proj1 I)). by apply evolves_world.
  - apply evolves_world; [done| |].
    + intros id' a' Hl. cbn [nt_agents] in Hl. apply lookup_insert_Some in Hl as [[<- <-]|[_ Hl]]; [|by apply I].
      by eapply life_start; [apply I|].
    + intros id'. rewrite log_of_insert. destruct (decide (id' = id)) as [->|]; [|reflexivity]. unfold log_of. rewrite Ea. cbn [wi_machine].
      unfold restart in Er. inv_ok. done.
  - apply evolves_world; [done| |].
    + intros id' a' Hl. cbn [nt_agents] in Hl. apply lookup_insert_Some in Hl as [[<- <-]|[_ Hl]]; [constructor|by apply I].
    + intros id'. rewrite log_of_insert. destruct (decide (id' = id)) as [->|]; [|reflexivity]. unfold log_of. by rewrite En.
  - split; [exact I|]. split; [apply requests_keep_refl|apply logs_grow_refl].
  - apply evolves_world; [done|apply I|intros id; reflexivity].
Qed.

Lemma run_evolves s s' : rtc hostops_step s s' -> hostops_true s -> evolves s s'.
Proof.
  induction 1 as [s|s1 s2 s3 S R IH]; intros I; [by apply requests_evolve_refl|].
  pose proof (hostops_step_evolves _ _ S I) as E. eapply requests_evolve_trans; [exact E|]. apply IH, E.
Qed.

Lemma no_requests_true : hostops_true no_requests.
Proof.
  split; [intros id a Hl; unfold no_requests in Hl; cbn [hs_world nt_agents] in Hl; by rewrite lookup_empty in Hl|]. split; [|by intros q []].
  split; [constructor|split; [constructor|by intros r []]].
Qed.

(** C16. A Secret reported as applied was enforced: in every run of the Dominators, the hosts
    and the network, through lost requests and answers, failed statements, lost commits,
    dying and restarted agents and changes of the catalog, a row of [host_state_requests]
    with the outcome applied, and an execution that returns without error, name a revision
    at which an agent enforced, successfully, an expected state with a Secret of exactly
    the requested fingerprint. *)
Theorem applied_secret_enforced s :
  rtc hostops_step no_requests s ->
  (forall q, In q (hs_requests s) -> hq_outcome q = "applied" -> enforced_secret (hs_world s) (hq_revision q) (hq_fingerprint q)) /\
  (forall zone td own lk hid rq r s',
     Execute (link := net_link own) (mkController zone td own) lk hid rq s = ((r, None), s') ->
     sr_Outcome r = "applied" /\ exists secret, Normalize (sq_Secret rq) = Ok secret /\
       enforced_secret (hs_world s') (sr_Revision r) (SecretFingerprint secret)).
Proof.
  intros R. pose proof (proj1 (run_evolves _ _ R no_requests_true)) as I. split.
  - intros q Hq. by apply I.
  - intros zone td own lk hid rq r s' E. pose proof (proj2 (Execute_true own zone td lk hid rq s I)) as T.
    rewrite E in T. by apply T.
Qed.

(** C19. A request ID stands for one revision and one content for good: from any state of the
    system, whatever happens next, the row of a request is still there with the revision
    and the fingerprint it was first given, no two requests of a host share a revision,
    and every revision is positive. *)
Theorem request_revision_permanent s s' :
  rtc hostops_step no_requests s -> rtc hostops_step s s' -> requests_keep (hs_requests s) (hs_requests s') /\ requests_ok (hs_requests s').
Proof.
  intros R R'. pose proof (proj1 (run_evolves _ _ R no_requests_true)) as I.
  destruct (run_evolves _ _ R' I) as (I' & K & _). split; [done|apply I'].
Qed.
End Composed.

(** ** Witnesses: a Secret reaches a host on the second attempt *)
#[local] Existing Instance demo_names.
#[local] Existing Instance demo_k8s_names.
#[local] Existing Instance demo_prints.
#[local] Existing Instance demo_sum.
#[local] Existing Instance no_faults.
#[local] Instance demo_agent_url : GoURL :=
  {| url_parse := fun s => if s == "https://10.0.0.3:44001" then Some (mkURL "https" false "10.0.0.3:44001" "10.0.0.3" "44001" "" "" "") else None;
     is_ip := fun _ => false |}.
#[local] Instance demo_spiffe : Spiffe :=
  {| spiffe_id := fun s => if HasPrefix s "spiffe://" then Some ("crane", "/") else None;
     trust_domain := fun s => Some s; spiffe_path_ok := fun _ => true |}.
(** A host whose Kubernetes API takes every Secret. *)
#[local] Instance demo_kube_host : HostOps nat :=
  {| host_Collect := fun _ => Ok (mkCurrent ∅ []); host_Apply := fun _ n => (Ok tt, n);
     host_EnsureSecret := Some (fun _ _ n => ((Some (mkKubernetesResult "verified" "not_requested"), Ok tt), S n));
     host_JoinCluster := None; host_ClusterMembership := None |}.

Definition demo_config (_ : string) : AgentConfig := mkAgentConfig "10.0.0.3:44001" "crane" "spiffe://crane/dominator/z1" [] "".
Definition demo_peer : string := "spiffe://crane/subd/i-spire".
Definition demo_secret : SecretRequest := mkSecretRequest "req-1" (mkSecret "ns" "db" "" ∅ {["password" := "x"]} "").
Definition demo_luck : Luck := mkLuck None true true true true true true Commits false.

Definition demo_execute (s : HostStore (Net nat)) : Done :=
  Execute (link := net_link demo_config (fun _ => None) "spiffe://crane/dominator/z1")
    (mkController "z1" "crane" "spiffe://crane/dominator/z1") demo_luck "bootstrap/spire" demo_secret s.

(** One agent, whose answer to the second round trip is lost. *)
Definition demo_up : HostStore (Net nat) :=
  mkHostStore demo_db [] (mkNet {[demo_peer := mkWire (match restart demo_peer 1 "i" (boot 0%nat) with Ok m => m | Err _ => boot 0%nat end) (Some (1, "i"))]}
    [Arrives; AnswerIsLost]).
Definition demo_first : HostStore (Net nat) := snd (demo_execute demo_up).
Definition demo_second : HostStore (Net nat) := snd (demo_execute demo_first).

Lemma demo_up_run : rtc (hostops_step demo_config (fun _ => None)) no_requests demo_up.
Proof.
  eapply rtc_l; [exact (hop_catalog _ _ _ demo_db)|].
  eapply rtc_l; [apply (hop_install _ _ _ demo_peer 0%nat); reflexivity|].
  eapply rtc_l.
  { eapply (hop_start _ _ _ demo_peer _ 1 "i"); [reflexivity|reflexivity]. }
  eapply rtc_l; [exact (hop_network _ _ _ [Arrives; AnswerIsLost])|]. vm_compute. apply rtc_refl.
Qed.

Lemma demo_execute_step s : hostops_step demo_config (fun _ => None) s (snd (demo_execute s)).
Proof. apply hop_execute. Qed.

Lemma demo_run : rtc (hostops_step demo_config (fun _ => None)) no_requests demo_second.
Proof. eapply rtc_r; [eapply rtc_r; [exact demo_up_run|]|]; apply demo_execute_step. Qed.

Lemma applied_secret_enforced_witness :
  map hq_outcome (hs_requests demo_first) = ["unknown"] /\ map hq_outcome (hs_requests demo_second) = ["applied"] /\
  forall q, In q (hs_requests demo_second) -> hq_outcome q = "applied" -> enforced_secret (hs_world demo_second) (hq_revision q) (hq_fingerprint q).
Proof.
  split; [by vm_compute|]. split; [by vm_compute|].
  refine (proj1 (applied_secret_enforced demo_config (fun _ => None) _ _ demo_second demo_run)); [done|by intros u E].
Defined.

Lemma request_revision_permanent_witness :
  map hq_revision (hs_requests demo_first) = [1] /\
  requests_keep (hs_requests demo_first) (hs_requests demo_second) /\ requests_ok (hs_requests demo_second).
Proof.
  split; [by vm_compute|].
  refine (request_revision_permanent demo_config (fun _ => None) _ _ demo_first demo_second _ _); [done|by intros u E| |].
  - eapply rtc_r; [exact demo_up_run|]. apply demo_execute_step.
  - eapply rtc_once. apply demo_execute_step.
Defined.
