(* ===== verification/HostLock.v ===== *)
(** * Turns: the advisory lock of internal/hostoperations/store.go

    [HostOps] runs one execution at a time.  Here executions of any number of Dominator
    processes interleave, statement by statement: each takes a connection, asks for the host's
    advisory lock until it has it, looks its request up, numbers it, and gives the lock back.
    A lock belongs to a database session and can be taken twice by the same one, sessions are
    pooled, any session can end at any time, and any answer can be lost after its statement took
    effect.  The state is executable ([step]); an event that is not possible gives [None]. *)
From S2P Require Import Prelude GoStrings Sql Api Schema Lease Handoff Scheduling Bootstrap Regex Subd SubdFacts HostRpc HostOps HostOpsFacts.
From Stdlib Require Import Ascii String.

Local Open Scope string_scope.
Local Open Scope list_scope.
Local Open Scope Z_scope.
Local Open Scope crane_scope.

(** ** Sessions and executions *)

(** Where the client's side of a session is: idle in a pool, taken by an execution, or closed for good. *)
Inductive place : Type := Idle | Taken (e : nat) | Dropped.
(** [ss_live]: the server still has the session; [ss_locks]: the keys it holds there, one entry per acquisition. *)
Record Session : Type := mkLockSession { ss_place : place; ss_live : bool; ss_locks : list Z }.

(** How far an execution is under the lock: its request not looked up, found absent, the highest
    revision read, numbered, or on its way out. *)
Inductive progress : Type := Entered | Absent | Seen (maximum : Z) | Numbered (revision : Z) | Leaving.
Inductive stage : Type := Queued | Trying (s : nat) | Critical (s : nat) (p : progress) | Returned (e : option operationError).
Record Execution : Type := mkExecution { ex_host : string; ex_request : string; ex_fingerprint : string; ex_stage : stage }.
Definition set_ex_stage (v : stage) (x : Execution) : Execution := mkExecution (ex_host x) (ex_request x) (ex_fingerprint x) v.

Record Turns : Type := mkTurns { tn_sessions : gmap nat Session; tn_execs : gmap nat Execution; tn_table : list HostRequest }.
Definition put_session (s : nat) (v : Session) (t : Turns) : Turns := mkTurns (<[s := v]> (tn_sessions t)) (tn_execs t) (tn_table t).
Definition put_exec (e : nat) (x : Execution) (t : Turns) : Turns := mkTurns (tn_sessions t) (<[e := x]> (tn_execs t)) (tn_table t).
Definition put_table (v : list HostRequest) (t : Turns) : Turns := mkTurns (tn_sessions t) (tn_execs t) v.

Definition session_of (x : Execution) : option nat := match ex_stage x with Trying s | Critical s _ => Some s | _ => None end.

(** ** PostgreSQL: [pg_try_advisory_lock] and [pg_advisory_unlock] *)
Definition held_elsewhere (k : Z) (s : nat) (m : gmap nat Session) : bool :=
  existsb (fun p => negb (fst p =? s)%nat && one_of k (ss_locks (snd p))) (map_to_list m).
Definition try_advisory_lock (k : Z) (s : nat) (i : Session) (m : gmap nat Session) : bool * Session :=
  if held_elsewhere k s m then (false, i) else (true, mkLockSession (ss_place i) (ss_live i) (k :: ss_locks i)).
Fixpoint remove_one (k : Z) (l : list Z) : list Z :=
  match l with [] => [] | x :: l => if x =? k then l else x :: remove_one k l end.
Definition advisory_unlock (k : Z) (i : Session) : bool * Session :=
  if one_of k (ss_locks i) then (true, mkLockSession (ss_place i) (ss_live i) (remove_one k (ss_locks i))) else (false, i).
Definition ended (i : Session) : Session := mkLockSession (ss_place i) false [].
Definition moved (p : place) (i : Session) : Session := mkLockSession p (ss_live i) (ss_locks i).

(** What becomes of a statement: answered, executed with the answer lost, or never executed. *)
Inductive delivery_luck : Type := Answered | Lost | Unsent.

Inductive event : Type :=
| Arrive (e : nat) (host request fingerprint : string)
| Connect (e : nat) (from : option nat) (fresh : nat)
| ConnectFails (e : nat) (expired : bool)
| TryLock (e : nat) (luck : delivery_luck) (expired : bool)
| Expire (e : nat)
| LookUp (e : nat)
| ReadMaximum (e : nat) (accepted : Z)
| Allocate (e : nat) (luck : delivery_luck)
| Settle (e : nat) (r : SecretResult)
| Release (e : nat) (luck : delivery_luck) (out : option operationError)
| SessionEnds (s : nat).

Section Lock.
(** [hashtextextended(host, 724163012)]: hosts may share a key. *)
Context (lock_key : string -> Z).

(** An execution with the session it has. *)
Definition at_stage (e : nat) (t : Turns) (f : Execution -> nat -> Session -> option Turns) : option Turns :=
  x ← tn_execs t !! e; s ← session_of x; i ← tn_sessions t !! s; f x s i.
Definition go (e : nat) (x : Execution) (v : stage) (t : Turns) : Turns := put_exec e (set_ex_stage v x) t.

(** [DB.Conn]: an idle connection, or a new one. *)
Definition connect (e : nat) (from : option nat) (fresh : nat) (t : Turns) : option Turns :=
  x ← tn_execs t !! e;
  match ex_stage x, from with
  | Queued, Some s =>
      i ← tn_sessions t !! s;
      match ss_place i with Idle => Some (go e x (Trying s) (put_session s (moved (Taken e) i) t)) | _ => None end
  | Queued, None =>
      match tn_sessions t !! fresh with
      | None => Some (go e x (Trying fresh) (put_session fresh (mkLockSession (Taken e) true []) t))
      | Some _ => None
      end
  | _, _ => None
  end.
Definition connect_fails (e : nat) (expired : bool) (t : Turns) : option Turns :=
  x ← tn_execs t !! e;
  match ex_stage x with
  | Queued => Some (go e x (Returned (Some (if expired then fail 504 "host operation deadline exceeded" else fail 503 "operation store unavailable"))) t)
  | _ => None
  end.

(** One round of the loop of [lock]. An error of the query drops the connection: it may have acquired the lock. *)
Definition try_lock (e : nat) (luck : delivery_luck) (expired : bool) (t : Turns) : option Turns :=
  at_stage e t (fun x s i =>
    match ex_stage x with
    | Trying _ =>
        let '(locked, i') := try_advisory_lock (lock_key (ex_host x)) s i (tn_sessions t) in
        let lost := Returned (Some (if expired then fail 504 "host operation deadline exceeded" else fail 503 "cannot acquire host operation ownership")) in
        match luck with
        | Answered => if negb (ss_live i) then None else Some (go e x (if locked then Critical s Entered else Trying s) (put_session s i' t))
        | Lost => if negb (ss_live i) then None else Some (go e x lost (put_session s (moved Dropped i') t))
        | Unsent => Some (go e x lost (put_session s (moved Dropped i) t))
        end
    | _ => None
    end).
(** [ctx.Done] between two rounds: the connection goes back. *)
Definition expire (e : nat) (t : Turns) : option Turns :=
  at_stage e t (fun x s i =>
    match ex_stage x with
    | Trying _ => Some (go e x (Returned (Some (fail 504 "host operation deadline exceeded"))) (put_session s (moved Idle i) t))
    | _ => None
    end).

(** The statements of [Execute] under the lock run on its connection. *)
Definition under_lock (e : nat) (t : Turns) (f : Execution -> nat -> progress -> option Turns) : option Turns :=
  at_stage e t (fun x s i => match ex_stage x with Critical _ p => if ss_live i then f x s p else None | _ => None end).

Definition look_up (e : nat) (t : Turns) : option Turns :=
  under_lock e t (fun x s p =>
    match p with
    | Entered => Some (go e x (Critical s (match select_one (request_of (ex_host x) (ex_request x)) (tn_table t) with
                                           | Some q => Numbered (hq_revision q) | None => Absent end)) t)
    | _ => None
    end).
(** [accepted] is what the agent reports. *)
Definition read_maximum (e : nat) (accepted : Z) (t : Turns) : option Turns :=
  under_lock e t (fun x s p =>
    match p with
    | Absent =>
        let maximum := max_revision (ex_host x) (tn_table t) in
        Some (go e x (Critical s (Seen (if maximum <? accepted then accepted else maximum))) t)
    | _ => None
    end).
(** The INSERT commits by itself; a lost answer is an error to the execution. *)
Definition allocate (e : nat) (luck : delivery_luck) (t : Turns) : option Turns :=
  under_lock e t (fun x s p =>
    match p with
    | Seen maximum =>
        if MaxInt64 <=? maximum then None
        else
          match insert_request (mkHostRequest (ex_host x) (ex_request x) (ex_fingerprint x) (maximum + 1) "pending" None) (tn_table t), luck with
          | Ok table, Answered => Some (go e x (Critical s (Numbered (maximum + 1))) (put_table table t))
          | Ok table, Lost => Some (go e x (Critical s Leaving) (put_table table t))
          | _, _ => None
          end
    | _ => None
    end).
Definition settle (e : nat) (r : SecretResult) (t : Turns) : option Turns :=
  under_lock e t (fun x s p =>
    match p with
    | Numbered _ => Some (put_table (update_where (request_of (ex_host x) (ex_request x)) (set_hq_result (sr_Outcome r) r) (tn_table t)) t)
    | _ => None
    end).

(** The function that [lock] returns, deferred to every end of [Execute]: a connection goes back
    to the pool only when the server said that the lock is gone. *)
Definition release (e : nat) (luck : delivery_luck) (out : option operationError) (t : Turns) : option Turns :=
  at_stage e t (fun x s i =>
    match ex_stage x with
    | Critical _ _ =>
        let '(unlocked, i') := advisory_unlock (lock_key (ex_host x)) i in
        match luck with
        | Answered => if negb (ss_live i) then None else Some (go e x (Returned out) (put_session s (moved (if unlocked then Idle else Dropped) i') t))
        | Lost => if negb (ss_live i) then None else Some (go e x (Returned out) (put_session s (moved Dropped i') t))
        | Unsent => Some (go e x (Returned out) (put_session s (moved Dropped i) t))
        end
    | _ => None
    end).

Definition step (ev : event) (t : Turns) : option Turns :=
  match ev with
  | Arrive e host request fingerprint =>
      match tn_execs t !! e with None => Some (put_exec e (mkExecution host request fingerprint Queued) t) | Some _ => None end
  | Connect e from fresh => connect e from fresh t
  | ConnectFails e expired => connect_fails e expired t
  | TryLock e luck expired => try_lock e luck expired t
  | Expire e => expire e t
  | LookUp e => look_up e t
  | ReadMaximum e accepted => read_maximum e accepted t
  | Allocate e luck => allocate e luck t
  | Settle e r => settle e r t
  | Release e luck out => release e luck out t
  | SessionEnds s => i ← tn_sessions t !! s; Some (put_session s (ended i) t)
  end.

Fixpoint run_events (evs : list event) (t : Turns) : option Turns :=
  match evs with [] => Some t | ev :: evs => t' ← step ev t; run_events evs t' end.
End Lock.

(** ** What the lock promises *)
Section Turns.
Context (lock_key : string -> Z).
Implicit Types (t : Turns) (x : Execution) (i : Session).

Definition revisions (host : string) (l : list HostRequest) : list Z := map hq_revision (List.filter (fun r => hq_host_id r == host) l).

(** What an execution under the lock knows of the table. *)
Definition knows (x : Execution) (p : progress) (l : list HostRequest) : Prop :=
  match p with
  | Absent => select_one (request_of (ex_host x) (ex_request x)) l = None
  | Seen maximum => select_one (request_of (ex_host x) (ex_request x)) l = None /\ max_revision (ex_host x) l <= maximum
  | _ => True
  end.

Definition stage_ok (x : Execution) (i : Session) (l : list HostRequest) : Prop :=
  match ex_stage x with
  | Trying _ => ss_locks i = []
  | Critical _ p => ss_live i = true -> ss_locks i = [lock_key (ex_host x)] /\ knows x p l
  | _ => True
  end.

Record orderly t : Prop := {
  or_taken : forall e x s, tn_execs t !! e = Some x -> session_of x = Some s ->
    exists i, tn_sessions t !! s = Some i /\ ss_place i = Taken e /\ stage_ok x i (tn_table t);
  or_idle : forall s i, tn_sessions t !! s = Some i -> ss_place i = Idle \/ ss_live i = false -> ss_locks i = [];
  or_exclusive : forall s1 s2 i1 i2 k, tn_sessions t !! s1 = Some i1 -> tn_sessions t !! s2 = Some i2 ->
    In k (ss_locks i1) -> In k (ss_locks i2) -> s1 = s2;
  or_sorted : forall h, StronglySorted Z.lt (revisions h (tn_table t)) }.

Lemma orderly_start : orderly (mkTurns ∅ ∅ []).
Proof. split; cbn; [intros e x s H|intros s i H|intros s1 s2 i1 i2 k H|constructor]; by rewrite lookup_empty in H. Qed.

Lemma held_elsewhere_false k s (m : gmap nat Session) s' i : held_elsewhere k s m = false -> m !! s' = Some i -> s' <> s -> ~ In k (ss_locks i).
Proof.
  unfold held_elsewhere. intros H E N Hk. apply not_true_iff_false in H. apply H, existsb_exists. exists (s', i). split.
  - by apply list_elem_of_In, elem_of_map_to_list.
  - cbn. rewrite (proj2 (Nat.eqb_neq s' s) N). by apply one_of_spec.
Qed.

(** An execution moves to a new stage and its session to a new state: all conditions but its own
    are about others. *)
Lemma orderly_move t e x x' s (o : option Session) i' : orderly t -> tn_execs t !! e = Some x -> (forall j, tn_sessions t !! s = Some j -> o = Some j) ->
  (forall j, o = Some j -> tn_sessions t !! s = Some j /\ (ss_place j = Taken e \/ ss_place j = Idle)) ->
  (session_of x' = None \/ session_of x' = Some s /\ ss_place i' = Taken e /\ stage_ok x' i' (tn_table t)) ->
  (ss_place i' = Idle \/ ss_live i' = false -> ss_locks i' = []) ->
  (forall k, In k (ss_locks i') -> (exists j, o = Some j /\ In k (ss_locks j)) \/ held_elsewhere k s (tn_sessions t) = false) ->
  orderly (put_exec e x' (put_session s i' t)).
Proof.
  intros [T I X S] Ex E0 Es Hx' Hi' Hk. split; cbn [tn_execs tn_sessions tn_table put_exec put_session].
  - intros e0 x0 s0 [[<- <-]|[N E]]%lookup_insert_Some Hs.
    + destruct Hx' as [Hx'|(Hx' & P & K)]; [congruence|]. rewrite Hx' in Hs. injection Hs as <-. exists i'. by rewrite lookup_insert_eq.
    + destruct (T e0 x0 s0 E Hs) as (j & Ej & P & K). exists j. rewrite lookup_insert_ne; [done|]. intros <-.
      specialize (E0 j Ej). destruct (Es j E0) as [_ [P'|P']]; congruence.
  - intros s0 i0 [[<- <-]|[N E]]%lookup_insert_Some; [done|by apply (I s0)].
  - intros s1 s2 i1 i2 k [[<- <-]|[N1 E1]]%lookup_insert_Some [[<- <-]|[N2 E2]]%lookup_insert_Some H1 H2; [done| | |by eapply X].
    + destruct (Hk k H1) as [(j & -> & Hj)|Hj]; [by eapply (X s s2 j i2 k); [apply Es|..]|].
      exfalso. by eapply (held_elsewhere_false k s _ s2 i2).
    + destruct (Hk k H2) as [(j & -> & Hj)|Hj]; [by eapply (X s1 s i1 j k); [|apply Es|..]|].
      exfalso. by eapply (held_elsewhere_false k s _ s1 i1).
  - done.
Qed.

(** Two executions with live sessions are not under the lock of one host. *)
Lemma one_holder t e1 e2 x1 x2 s1 s2 p1 p2 i1 i2 : orderly t ->
  tn_execs t !! e1 = Some x1 -> ex_stage x1 = Critical s1 p1 -> tn_sessions t !! s1 = Some i1 -> ss_live i1 = true ->
  tn_execs t !! e2 = Some x2 -> ex_stage x2 = Critical s2 p2 -> tn_sessions t !! s2 = Some i2 -> ss_live i2 = true ->
  lock_key (ex_host x1) = lock_key (ex_host x2) -> e1 = e2.
Proof.
  intros [T I X S] E1 P1 L1 A1 E2 P2 L2 A2 K.
  destruct (T e1 x1 s1 E1) as (j1 & J1 & Q1 & K1); [unfold session_of; by rewrite P1|].
  destruct (T e2 x2 s2 E2) as (j2 & J2 & Q2 & K2); [unfold session_of; by rewrite P2|].
  unfold stage_ok in K1, K2. rewrite P1 in K1. rewrite P2 in K2. simplify_eq.
  destruct (K1 A1) as [H1 _], (K2 A2) as [H2 _].
  assert (s1 = s2) as <- by (eapply (X s1 s2 i1 i2 (lock_key (ex_host x1))); [done|done|rewrite H1; by left|rewrite H2, K; by left]).
  simplify_eq. congruence.
Qed.

(** ** The table *)
Lemma max_revision_app h l r : max_revision h (l ++ [r]) = if hq_host_id r == h then Z.max (max_revision h l) (Z.max (hq_revision r) 0) else max_revision h l.
Proof.
  pose proof (max_revision_nonneg h l). induction l as [|y l IH]; cbn [max_revision app].
  - case_bool_decide; lia.
  - pose proof (max_revision_nonneg h l). rewrite IH by done. repeat case_bool_decide; lia.
Qed.

Lemma knows_app x p l r : hq_host_id r <> ex_host x -> knows x p l -> knows x p (l ++ [r]).
Proof.
  intros N K. assert (select_one (request_of (ex_host x) (ex_request x)) l = None -> select_one (request_of (ex_host x) (ex_request x)) (l ++ [r]) = None) as A.
  { intros H. apply select_one_none. intros q [Hq|[<-|[]]]%in_app_iff; [by eapply select_one_none|]. unfold request_of. by rewrite bool_decide_false. }
  destruct p; cbn in *; try done; [by apply A|]. destruct K as [K1 K2]. split; [by apply A|]. rewrite max_revision_app, bool_decide_false; done.
Qed.

Lemma revisions_app h l r : revisions h (l ++ [r]) = revisions h l ++ (if hq_host_id r == h then [hq_revision r] else []).
Proof. unfold revisions. rewrite List.filter_app, map_app. cbn. by destruct (_ == h). Qed.

Lemma revisions_le h l v : In v (revisions h l) -> v <= max_revision h l.
Proof. intros (r & <- & [Hr E]%filter_In)%in_map_iff. bsplit. by apply max_revision_le. Qed.

(** A statement that changes neither host, request nor revision of a row. *)
Lemma settled_rows q f l : (forall r, request_key (f r) = request_key r /\ hq_revision (f r) = hq_revision r) ->
  (forall h, max_revision h (update_where q f l) = max_revision h l /\ revisions h (update_where q f l) = revisions h l) /\
  forall h id, select_one (request_of h id) l = None -> select_one (request_of h id) (update_where q f l) = None.
Proof.
  intros F. assert (forall r, hq_host_id (if q r then f r else r) = hq_host_id r /\ hq_request_id (if q r then f r else r) = hq_request_id r /\
    hq_revision (if q r then f r else r) = hq_revision r) as G.
  { intros r. destruct (q r); [|done]. destruct (F r) as [E V]. unfold request_key in E. by injection E as -> ->. }
  split.
  - intros h. unfold update_where, revisions. induction l as [|r l [IH1 IH2]]; [done|]. cbn. destruct (G r) as (-> & _ & V). rewrite IH1.
    destruct (_ == h); cbn; [by rewrite V, IH2|done].
  - intros h id H. apply select_one_none. intros r (r0 & Hr & ->)%in_update_where. destruct (G r0) as (E1 & E2 & _). unfold request_of.
    rewrite E1, E2. by eapply select_one_none in H.
Qed.

Lemma knows_settled x p q f l : (forall r, request_key (f r) = request_key r /\ hq_revision (f r) = hq_revision r) ->
  knows x p l -> knows x p (update_where q f l).
Proof.
  intros F K. destruct (settled_rows q f l F) as [A B]. destruct p; cbn in *; try done; [by apply B|]. destruct K. split; [by apply B|].
  by rewrite (proj1 (A _)).
Qed.

Lemma orderly_settled t q f : (forall r, request_key (f r) = request_key r /\ hq_revision (f r) = hq_revision r) ->
  orderly t -> orderly (put_table (update_where q f (tn_table t)) t).
Proof.
  intros F [T I X S]. split; cbn [put_table tn_execs tn_sessions tn_table]; [|done|done|].
  - intros e x s E Hs. destruct (T e x s E Hs) as (i & Ei & P & K). exists i. split_and!; [done..|]. unfold stage_ok in *.
    destruct (ex_stage x); try done. intros L. destruct (K L). split; [done|]. by apply knows_settled.
  - intros h. by rewrite (proj2 (proj1 (settled_rows q f _ F) h)).
Qed.

(** ** Steps under the lock *)
Section Under.
Context (t : Turns) (e : nat) (x : Execution) (s : nat) (p : progress) (i : Session).
Context (O : orderly t) (Ex : tn_execs t !! e = Some x) (Px : ex_stage x = Critical s p) (Es : tn_sessions t !! s = Some i) (Li : ss_live i = true).

Lemma holder_state : ss_place i = Taken e /\ ss_locks i = [lock_key (ex_host x)] /\ knows x p (tn_table t).
Proof.
  destruct (or_taken t O e x s Ex) as (j & Ej & P & K); [unfold session_of; by rewrite Px|]. simplify_eq. unfold stage_ok in K. rewrite Px in K. by destruct (K Li).
Qed.

Lemma orderly_progress p' : knows x p' (tn_table t) -> orderly (go e x (Critical s p') t).
Proof.
  intros K. destruct holder_state as (P & L & _). unfold go. replace t with (put_session s i t) by (unfold put_session; rewrite insert_id by done; by destruct t).
  apply (orderly_move t e x _ s (Some i) i O Ex); [congruence|intros j [= <-]; auto| | |eauto].
  - right. split_and!; [done..|]. unfold stage_ok. cbn. by destruct p'.
  - intros [D|D]; congruence.
Qed.

Lemma orderly_allocated row l p' : insert_request row (tn_table t) = Ok l -> hq_host_id row = ex_host x -> max_revision (ex_host x) (tn_table t) < hq_revision row ->
  (forall l, knows x p' l) -> orderly (go e x (Critical s p') (put_table l t)).
Proof.
  intros Hi Hh Hr Hp. destruct holder_state as (P & L & _).
  assert (l = tn_table t ++ [row]) as -> by (unfold insert_request in Hi; apply rbind_ok in Hi as (u & _ & Hi); by apply insert_row_ok in Hi as [-> _]).
  pose proof O as [T I X S]. split; cbn [go put_exec put_table tn_execs tn_sessions tn_table]; [|done|done|].
  - intros e0 x0 s0 [[<- <-]|[N E]]%lookup_insert_Some Hs.
    + cbn in Hs. injection Hs as <-. exists i. split_and!; [done..|]. unfold stage_ok. cbn. intros _. split; [done|apply Hp].
    + destruct (T e0 x0 s0 E Hs) as (j & Ej & P0 & K). exists j. split_and!; [done..|]. unfold stage_ok in *. destruct (ex_stage x0) as [| |s1 p0|] eqn:Px0; try done.
      intros A. destruct (K A) as [K1 K2]. split; [done|]. apply knows_app; [|done]. rewrite Hh. intros Q.
      assert (s1 = s0) as -> by (unfold session_of in Hs; rewrite Px0 in Hs; congruence).
      apply N. eapply (one_holder t e e0 x x0 s s0 p p0 i j); try done. by rewrite Q.
  - intros h. rewrite revisions_app. case_bool_decide as Eh; [|by rewrite app_nil_r]. apply StronglySorted_snoc; [done|].
    intros v Hv%revisions_le. rewrite Hh in Eh. subst h. lia.
Qed.
End Under.

(** ** Every step *)
Lemma orderly_ends t s i : orderly t -> tn_sessions t !! s = Some i -> orderly (put_session s (ended i) t).
Proof.
  intros [T I X S] Es. split; cbn [put_session tn_execs tn_sessions tn_table].
  - intros e x s0 E Hs. destruct (T e x s0 E Hs) as (j & Ej & P & K). destruct (decide (s = s0)) as [<-|N].
    + rewrite lookup_insert_eq. simplify_eq. exists (ended i). split_and!; [done..|]. unfold stage_ok in *. by destruct (ex_stage x).
    + rewrite lookup_insert_ne by done. eauto.
  - intros s0 j [[<- <-]|[N E]]%lookup_insert_Some; [done|by apply (I s0)].
  - intros s1 s2 i1 i2 k [[<- <-]|[N1 E1]]%lookup_insert_Some [[<- <-]|[N2 E2]]%lookup_insert_Some H1 H2; by eauto.
  - done.
Qed.

(** An execution that enters or leaves without a session of its own. *)
Lemma orderly_outside t e x : orderly t -> session_of x = None -> orderly (put_exec e x t).
Proof.
  intros [T I X S] Hx. split; cbn [put_exec tn_execs tn_sessions tn_table]; [|done..].
  intros e0 x0 s0 [[<- <-]|[N E]]%lookup_insert_Some Hs; [congruence|by apply (T e0)].
Qed.

Lemma try_lock_locks k s i (m : gmap nat Session) : let '(locked, i') := try_advisory_lock k s i m in
  ss_place i' = ss_place i /\ ss_live i' = ss_live i /\ (if locked then ss_locks i' = k :: ss_locks i /\ held_elsewhere k s m = false else i' = i).
Proof. unfold try_advisory_lock. by destruct (held_elsewhere k s m) eqn:E. Qed.

Lemma remove_one_in k l z : In z (remove_one k l) -> In z l.
Proof. induction l as [|y l IH]; cbn; [done|]. destruct (y =? k); [by right|]. intros [->|H]; [by left|right; auto]. Qed.

Lemma unlock_locks k i : let '(unlocked, i') := advisory_unlock k i in
  ss_place i' = ss_place i /\ ss_live i' = ss_live i /\ (forall z, In z (ss_locks i') -> In z (ss_locks i)) /\ (ss_locks i = [k] -> unlocked = true /\ ss_locks i' = []).
Proof.
  unfold advisory_unlock. destruct (one_of k (ss_locks i)) eqn:E; cbn [ss_place ss_live ss_locks].
  - split_and!; [done..|intros z; apply remove_one_in|]. intros ->. cbn. by rewrite Z.eqb_refl.
  - split_and!; [done..|]. intros L. rewrite L in E. cbn in E. by rewrite eq_refl_true in E.
Qed.

Lemma connect_orderly t e from fresh t' : orderly t -> connect e from fresh t = Some t' -> orderly t'.
Proof.
  intros O H. unfold connect in H. destruct (tn_execs t !! e) as [x|] eqn:Ex; [|done]. cbn in H. destruct (ex_stage x); [|by destruct from..].
  destruct from as [s|].
  - destruct (tn_sessions t !! s) as [i|] eqn:Es; [|done]. cbn in H. destruct (ss_place i) eqn:P; [|done..]. injection H as <-.
    pose proof (or_idle t O s i Es (or_introl P)) as L.
    apply (orderly_move t e x _ s (Some i) _ O Ex); [congruence|intros j [= <-]; auto|right; split_and!; done| |cbn; rewrite L; done].
    cbn. by intros _.
  - destruct (tn_sessions t !! fresh) eqn:Es; [done|]. injection H as <-.
    apply (orderly_move t e x _ fresh None _ O Ex); [congruence|done|right; split_and!; done|done|done].
Qed.

(** The session of an execution that has one. *)
Lemma at_stage_some e t f t' : at_stage e t f = Some t' ->
  exists x s i, tn_execs t !! e = Some x /\ session_of x = Some s /\ tn_sessions t !! s = Some i /\ f x s i = Some t'.
Proof.
  unfold at_stage. destruct (tn_execs t !! e) as [x|] eqn:Ex; [|done]. cbn. destruct (session_of x) as [s|] eqn:Hs; [|done]. cbn.
  destruct (tn_sessions t !! s) as [i|] eqn:Es; [|done]. cbn. eauto 9.
Qed.

(** A connection that is closed, or put back free. *)
Lemma orderly_leaves t e x s i i' out : orderly t -> tn_execs t !! e = Some x -> session_of x = Some s -> tn_sessions t !! s = Some i ->
  (forall z, In z (ss_locks i') -> In z (ss_locks i) \/ held_elsewhere z s (tn_sessions t) = false) ->
  (ss_place i' = Idle \/ ss_live i' = false -> ss_locks i' = []) -> orderly (go e x (Returned out) (put_session s i' t)).
Proof.
  intros O Ex Hs Es Hl Hi. destruct (or_taken t O e x s Ex Hs) as (j & Ej & P & _). simplify_eq.
  apply (orderly_move t e x _ s (Some i) i' O Ex); [congruence|intros j [= <-]; auto|by left|done|].
  intros k Hk. destruct (Hl k Hk); eauto.
Qed.

Lemma try_lock_orderly t e luck expired t' : orderly t -> try_lock lock_key e luck expired t = Some t' -> orderly t'.
Proof.
  intros O (x & s & i & Ex & Hs & Es & H)%at_stage_some. destruct (or_taken t O e x s Ex Hs) as (j & Ej & P & K). simplify_eq.
  unfold stage_ok in K. destruct (ex_stage x) as [|s1| |] eqn:Px; try done. cbn in K.
  pose proof (try_lock_locks (lock_key (ex_host x)) s i (tn_sessions t)) as Q. destruct (try_advisory_lock _ _ _ _) as [locked i']. destruct Q as (Q1 & Q2 & Q3).
  assert (forall z, In z (ss_locks i') -> In z (ss_locks i) \/ held_elsewhere z s (tn_sessions t) = false) as Hin.
  { destruct locked; [destruct Q3 as [-> Q3]; intros z [<-|Hz]; auto|subst i'; auto]. }
  destruct luck; [destruct (ss_live i) eqn:L; [|done]; cbn in H; injection H as <-|destruct (ss_live i) eqn:L; [|done]; cbn in H; injection H as <-|injection H as <-].
  - apply (orderly_move t e x _ s (Some i) i' O Ex); [congruence|intros j [= <-]; auto| |intros [D|D]; congruence|intros k Hk; destruct (Hin k Hk); eauto].
    right. split_and!; [by destruct locked|congruence|]. unfold stage_ok. destruct locked; cbn; [|by subst i'].
    intros _. destruct Q3 as [Q3 _]. by rewrite Q3, K.
  - eapply orderly_leaves; try done. cbn. intros [D|D]; congruence.
  - eapply orderly_leaves; try done; cbn; try solve [auto]; by rewrite K.
Qed.

Lemma expire_orderly t e t' : orderly t -> expire e t = Some t' -> orderly t'.
Proof.
  intros O (x & s & i & Ex & Hs & Es & H)%at_stage_some. destruct (or_taken t O e x s Ex Hs) as (j & Ej & P & K). simplify_eq.
  unfold stage_ok in K. destruct (ex_stage x) eqn:Px; try done. injection H as <-. eapply orderly_leaves; try done; cbn; try solve [auto]; by rewrite K.
Qed.

Lemma release_orderly t e luck out t' : orderly t -> release lock_key e luck out t = Some t' -> orderly t'.
Proof.
  intros O (x & s & i & Ex & Hs & Es & H)%at_stage_some. destruct (or_taken t O e x s Ex Hs) as (j & Ej & P & K). simplify_eq.
  unfold stage_ok in K. destruct (ex_stage x) eqn:Px; try done.
  pose proof (unlock_locks (lock_key (ex_host x)) i) as Q. destruct (advisory_unlock _ _) as [unlocked i']. destruct Q as (Q1 & Q2 & Q3 & Q4).
  destruct luck; [destruct (ss_live i) eqn:L; [|done]; cbn in H; injection H as <-|destruct (ss_live i) eqn:L; [|done]; cbn in H; injection H as <-|injection H as <-].
  - destruct (K eq_refl) as [K1 _]. destruct (Q4 K1) as [-> Q5]. eapply orderly_leaves; try done; cbn; try solve [auto]; by rewrite Q5.
  - eapply orderly_leaves; try done; cbn; try solve [auto]; intros [D|D]; congruence.
  - eapply orderly_leaves; try done; cbn; try solve [auto]; intros [D|D]; [done|]; apply (or_idle t O s i Es); by right.
Qed.

Lemma under_lock_some e t f t' : under_lock e t f = Some t' ->
  exists x s i p, tn_execs t !! e = Some x /\ ex_stage x = Critical s p /\ tn_sessions t !! s = Some i /\ ss_live i = true /\ f x s p = Some t'.
Proof.
  intros (x & s & i & Ex & Hs & Es & H)%at_stage_some. unfold session_of in Hs. destruct (ex_stage x) as [| |s1 p|] eqn:Px; try done.
  injection Hs as ->. destruct (ss_live i) eqn:L; [|done]. by exists x, s, i, p.
Qed.

Lemma step_orderly ev t t' : orderly t -> step lock_key ev t = Some t' -> orderly t'.
Proof.
  intros O H. destruct ev as [e h r f|e from fresh|e expired|e luck expired|e|e|e accepted|e luck|e r|e luck out|s]; cbn in H.
  - destruct (tn_execs t !! e); [done|]. injection H as <-. by apply orderly_outside.
  - by eapply connect_orderly.
  - unfold connect_fails in H. destruct (tn_execs t !! e) as [x|]; [|done]. cbn in H. destruct (ex_stage x); [|done..]. injection H as <-. by apply orderly_outside.
  - by eapply try_lock_orderly.
  - by eapply expire_orderly.
  - apply under_lock_some in H as (x & s & i & p & Ex & Px & Es & L & H). destruct p; try done. injection H as <-.
    eapply orderly_progress; try done. destruct (select_one _ _) eqn:E; [done|by cbn].
  - apply under_lock_some in H as (x & s & i & p & Ex & Px & Es & L & H). destruct p; try done. injection H as <-.
    destruct (holder_state t e x s _ i O Ex Px Es L) as (_ & _ & K). eapply orderly_progress; try done. cbn in *. split; [done|]. destruct (_ <? _) eqn:E; bsplit; lia.
  - apply under_lock_some in H as (x & s & i & p & Ex & Px & Es & L & H). destruct p as [| |maximum| |]; try done. cbv beta iota in H. destruct (MaxInt64 <=? maximum); [done|].
    destruct (holder_state t e x s _ i O Ex Px Es L) as (_ & _ & K1 & K2).
    destruct (insert_request _ _) as [l|] eqn:Ei; [|done]. destruct luck; [injection H as <-|injection H as <-|done];
      (eapply orderly_allocated; [done|done|done|done|done|exact Ei|done|cbn; lia|done]).
  - apply under_lock_some in H as (x & s & i & p & Ex & Px & Es & L & H). destruct p; try done. injection H as <-. by apply orderly_settled.
  - by eapply release_orderly.
  - destruct (tn_sessions t !! s) as [i|] eqn:Es; [|done]. injection H as <-. by apply orderly_ends.
Qed.

Lemma run_orderly evs : forall t t', orderly t -> run_events lock_key evs t = Some t' -> orderly t'.
Proof.
  induction evs as [|ev evs IH]; intros t t' O H; cbn in H; [by injection H as <-|].
  destruct (step lock_key ev t) as [t1|] eqn:E; [|done]. cbn in H. by eapply IH; [eapply step_orderly|].
Qed.

(** The execution is under the lock, on a session that the server still has. *)
Definition holds (t : Turns) (e : nat) (x : Execution) (p : progress) : Prop :=
  exists s i, tn_execs t !! e = Some x /\ ex_stage x = Critical s p /\ tn_sessions t !! s = Some i /\ ss_live i = true.

(** C21. Executions of one host take turns.  However the executions of any number of processes
    interleave, whichever answers are lost, sessions end or waits expire: at most one execution
    of a host is under the lock with a session that still lives; no connection in a pool holds a
    lock; an execution that has read the highest revision allocates the next one without meeting
    the table's keys; and the revisions of a host are allocated in strictly increasing order. *)
Theorem host_operations_take_turns evs t : run_events lock_key evs (mkTurns ∅ ∅ []) = Some t ->
  (forall e1 e2 x1 x2 p1 p2, holds t e1 x1 p1 -> holds t e2 x2 p2 -> ex_host x1 = ex_host x2 -> e1 = e2) /\
  (forall s i, tn_sessions t !! s = Some i -> ss_place i = Idle -> ss_locks i = []) /\
  (forall e x maximum, holds t e x (Seen maximum) -> maximum < MaxInt64 -> is_Some (step lock_key (Allocate e Answered) t)) /\
  (forall host, StronglySorted Z.lt (revisions host (tn_table t))).
Proof.
  intros R. pose proof (run_orderly evs _ _ orderly_start R) as O. split_and!; [| | |apply O].
  - intros e1 e2 x1 x2 p1 p2 (s1 & i1 & E1 & P1 & L1 & A1) (s2 & i2 & E2 & P2 & L2 & A2) Q. by eapply (one_holder t e1 e2 x1 x2); try done; rewrite Q.
  - intros s i E P. apply (or_idle t O s i E). by left.
  - intros e x m (s & i & Ex & Px & Es & L) Hm. destruct (holder_state t e x s _ i O Ex Px Es L) as (_ & _ & K1 & K2).
    cbn [step]. unfold allocate, under_lock, at_stage, session_of. rewrite Ex. cbn [mbind option_bind]. rewrite Px. cbn [mbind option_bind]. rewrite Es.
    cbn [mbind option_bind]. rewrite L, (proj2 (Z.leb_gt _ _) Hm), (insert_request_fresh _ _ _ _ _ K1) by lia. by eexists.
Qed.
End Turns.

(** Two executions of one host: the first numbers its request while the second waits, the answer to
    its unlock is lost; the second gets the lock when that session has ended, on a pooled connection. *)
Definition demo_events : list event :=
  [Arrive 1 "h1" "r1" "f1"; Arrive 2 "h1" "r2" "f2"; Arrive 3 "h2" "r3" "f3"; Connect 3 None 7; TryLock 3 Answered false; Release 3 Answered None;
   Connect 1 None 8; TryLock 1 Answered false; Connect 2 (Some 7%nat) 0; TryLock 2 Answered false; LookUp 1; ReadMaximum 1 4; TryLock 2 Answered false;
   Allocate 1 Answered; Release 1 Lost None; SessionEnds 8; TryLock 2 Answered false; LookUp 2; ReadMaximum 2 0; Allocate 2 Answered].
Definition demo_turns : Turns := default (mkTurns ∅ ∅ []) (run_events (fun h => Z.of_nat (String.length h)) demo_events (mkTurns ∅ ∅ [])).

Lemma host_operations_take_turns_witness :
  revisions "h1" (tn_table demo_turns) = [5; 6] /\ StronglySorted Z.lt (revisions "h1" (tn_table demo_turns)).
Proof.
  split; [vm_compute; reflexivity|].
  apply (proj2 (proj2 (proj2 (host_operations_take_turns (fun h => Z.of_nat (String.length h)) demo_events demo_turns ltac:(vm_compute; reflexivity))))).
Defined.
