(* ===== verification/Dominator.v ===== *)
(** * The zone Dominator: internal/dominator

    The executor behind the provisioning controller (file [Provision]): it launches a worker,
    enrolls its host agent, joins it to the cluster, delivers its expected state, decides
    when it is ready and releases it for scheduling.

    The outside (the Kubernetes API, the cloud provider, the host agent, random bytes and
    the clock) is the record [World]: each answer may depend on the whole history of calls
    and answers, which the executor's monad [Dom] keeps.  The database is the one of
    [Schema]. *)
From S2P Require Import Prelude GoStrings Sql Api Schema Lease Handoff Scheduling Catalog Bootstrap Admission Invariant AdmissionFacts LeaseFacts Fixture Provision Regex Subd HostRpc.

Local Open Scope string_scope.
Local Open Scope list_scope.
Local Open Scope Z_scope.
Local Open Scope crane_scope.

(** ** Kubernetes objects, as far as the executor reads or writes them *)
Record K8sNode : Type := mkK8sNode {
  nd_Name : string; nd_UID : string; nd_ProviderID : string; nd_Addresses : list (string * string);
  nd_Labels : gmap string string; nd_Annotations : gmap string string; nd_Taints : list SchedulingTaint;
  nd_Conditions : list (string * string) }.

Definition set_nd_Taints (v : list SchedulingTaint) (n : K8sNode) : K8sNode :=
  mkK8sNode (nd_Name n) (nd_UID n) (nd_ProviderID n) (nd_Addresses n) (nd_Labels n) (nd_Annotations n) v (nd_Conditions n).
Definition set_nd_Annotations (v : gmap string string) (n : K8sNode) : K8sNode :=
  mkK8sNode (nd_Name n) (nd_UID n) (nd_ProviderID n) (nd_Addresses n) (nd_Labels n) v (nd_Taints n) (nd_Conditions n).

Record OwnerRef : Type := mkOwner { ow_Kind : string; ow_UID : string; ow_Controller : bool }.
Record Pod : Type := mkPod {
  po_NodeName : string; po_Owners : list OwnerRef; po_Conditions : list (string * string); po_Deleting : bool; po_Phase : string;
  po_ContainerReady : list bool; po_Containers : nat }.

Record CSR : Type := mkCSR {
  cs_Name : string; cs_Username : string; cs_SignerName : string; cs_Groups : list string; cs_Request : string;
  cs_Usages : list string; cs_Conditions : nat }.

(** A parsed certificate request; [rq_Names] counts its DNS names, addresses and URIs. *)
Record CertRequest : Type := mkCertRequest { rq_Signed : bool; rq_CommonName : string; rq_Organization : list string; rq_Names : nat }.
Record Cert : Type := mkCert { ce_CommonName : string; ce_Organization : list string; ce_IsCA : bool; ce_KeyHash : string }.

(** crypto/x509 and encoding/pem: parse a PEM request or certificate, verify a client chain
    against a root, check that a certificate and a key are a pair, verify a signature with
    the certificate's key (false for a key type the code does not know); [proof_json] is the JSON of a proof's four members. *)
Class X509 : Type := {
  parse_request : string -> option CertRequest;
  parse_cert : string -> option Cert;
  chain_ok : string -> Cert -> bool;
  key_pair : string -> string -> bool;
  signature_ok : Cert -> string -> string -> bool;
  proof_json : string -> string -> string -> string -> string }.

Definition MembershipProofData `{X509} (challenge : string) (m : ClusterMembership) : string :=
  proof_json challenge (cm_ContractHash m) (cm_NodeName m) (cm_NodeUID m).

Record RuntimeHost : Type := mkRuntimeHost { rh_ProviderID : string; rh_PrivateIP : string; rh_KubernetesProviderID : string }.
Record RuntimeIdentity : Type := mkIdentity { ri_PrivateIP : string; ri_KubernetesProviderID : string }.
Record ClusterJoinResult : Type := mkJoinResult { jo_OperationID : string; jo_Outcome : string }.

(** ** worker_csr.go *)
Definition KubeletSigner : string := "kubernetes.io/kube-apiserver-client-kubelet".

Definition validWorkerCSR `{X509} (c : CSR) (tokenID nodeName : string) : bool :=
  if (cs_Username c != String.append "system:bootstrap:" tokenID) || (cs_SignerName c != KubeletSigner) ||
     negb (one_of "system:bootstrappers:crane" (cs_Groups c))
  then false
  else match parse_request (cs_Request c) with
       | None => false
       | Some q =>
           if negb (rq_Signed q) || (rq_CommonName q != String.append "system:node:" nodeName) ||
              (rq_Organization q != ["system:nodes"]) || (rq_Names q != 0%nat)
           then false
           else if negb (one_of "client auth" (cs_Usages c)) || negb (one_of "digital signature" (cs_Usages c)) then false
           else forallb (fun u => one_of u ["client auth"; "digital signature"; "key encipherment"]) (cs_Usages c)
       end.

(** ** worker_membership.go: proofs *)
Definition KubernetesCAHash `{X509} (ca : string) : option string :=
  match parse_cert ca with
  | Some c => if ce_IsCA c then Some (String.append "sha256:" (ce_KeyHash c)) else None
  | None => None
  end.

Definition verifyMembership `{X509} (proof : ClusterMembership) (challenge contract nodeName ca : string) : result unit :=
  let invalid := ErrMsg "worker kubelet membership proof rejected" in
  guard (cm_ContractHash proof == contract) && (cm_NodeName proof == nodeName) && (cm_NodeUID proof != "") else invalid in
  let* cert := of_option invalid (parse_cert (cm_Certificate proof)) in
  guard (ce_CommonName cert == String.append "system:node:" nodeName) && (ce_Organization cert == ["system:nodes"]) else invalid in
  guard chain_ok ca cert else invalid in
  guard signature_ok cert (MembershipProofData challenge proof) (cm_Signature proof) else invalid in
  Ok tt.

(** ** provisioner.go: pure checks *)
Definition subdPrivateIP `{GoURL} `{GoNet} (raw : string) : result string :=
  let invalid := ErrMsg "invalid catalog Subd endpoint" in
  let* u := of_option invalid (url_parse raw) in
  guard negb ((u_Scheme u != "https") || (u_Host u == "") || u_User u || (u_RawQuery u != "") || (u_Fragment u != "")) else invalid in
  guard private_ip (u_Hostname u) else invalid in
  Ok (u_Hostname u).

Definition same_taint (a b : SchedulingTaint) : bool :=
  (taint_Key a == taint_Key b) && (taint_Effect a == taint_Effect b) && (taint_Value a == taint_Value b).

Definition quarantine_ok (t : SchedulingTaint) : bool := (taint_Value t == "pending") && (taint_Effect t == "NoSchedule").
Definition is_quarantine (t : SchedulingTaint) : bool := taint_Key t == ProvisioningTaint.

Definition validateWorkerNode (n : K8sNode) (reg : WorkerRegistration) (ip : string) (releasing : bool) : result unit :=
  guard negb ((nd_Name n != wr_NodeName reg) || (nd_ProviderID n != wr_ProviderID reg)) else ErrMsg "worker provider identity drift" in
  guard existsb (fun a => (fst a == "InternalIP") && (snd a == ip)) (nd_Addresses n) else ErrMsg "worker address conflicts with provider" in
  guard forallb (fun kv => default "" (nd_Labels n !! fst kv) == snd kv)
          (map_to_list (SchedulingLabels (wr_Scheduling reg) (wr_NodePoolID reg))) else ErrMsg "worker scheduling label drift" in
  guard forallb (fun want => existsb (fun got => same_taint got want) (nd_Taints n)) (Taints (wr_Scheduling reg))
    else ErrMsg "worker template taint drift" in
  guard forallb (fun t => negb (is_quarantine t) || quarantine_ok t) (nd_Taints n) else ErrMsg "worker quarantine drift" in
  guard existsb is_quarantine (nd_Taints n) || releasing else ErrMsg "worker provisioning quarantine missing" in
  Ok tt.

Definition workerExpectedStateReady (s : HostAgentStatus) (desiredVersion : string) : bool :=
  (desiredVersion != "") && hs_Ready s && (hs_AcceptedRevision s == 1) && (hs_AppliedRevision s == hs_AcceptedRevision s) &&
  (hs_Outcome s == "applied") && (hs_ExpectedVersion s == desiredVersion).

(** The last condition of each type counts. *)
Fixpoint node_conditions (ready unavailable : bool) (l : list (string * string)) : bool * bool :=
  match l with
  | [] => (ready, unavailable)
  | (type, status) :: rest =>
      if type == "Ready" then node_conditions (status == "True") unavailable rest
      else if type == "NetworkUnavailable" then node_conditions ready (status != "False") rest
      else node_conditions ready unavailable rest
  end.

Definition nodeReady (n : K8sNode) : bool :=
  let '(ready, unavailable) := node_conditions false false (nd_Conditions n) in ready && negb unavailable.

(** [ciliumReady] on the pods listed and the DaemonSet's UID. *)
Definition the_cilium (nodeName : string) (pods : list Pod) : option Pod :=
  match List.filter (fun p => po_NodeName p == nodeName) pods with [p] => Some p | _ => None end.

Definition cilium_pod_ready (nodeName uid : string) (p : Pod) : bool :=
  existsb (fun o => (ow_Kind o == "DaemonSet") && (ow_UID o == uid) && ow_Controller o) (po_Owners p) &&
  existsb (fun c => (fst c == "Ready") && (snd c == "True")) (po_Conditions p) &&
  negb (po_Deleting p) && (po_NodeName p == nodeName) && (po_Phase p == "Running") &&
  negb ((length (po_ContainerReady p) == 0%nat) || (length (po_ContainerReady p) != po_Containers p)) &&
  forallb (fun b => b) (po_ContainerReady p).

(** ** resolver.go *)

(** SHA-1 of a string: its first four bytes as a big-endian number. *)
Class Sha1 : Type := { sha1_uint32 : string -> Z }.
Definition computeBucket `{Sha1} (hostID : string) : Z := sha1_uint32 hostID mod 100.

(** What a policy returns: a dictionary, whose values are strings or not, or something else. *)
Inductive StarValue : Type := StarDict (m : gmap string (option string)) | StarOther.
Record DesiredState : Type := mkDesired {
  ds_ImageID : string; ds_Track : string; ds_Version : string; ds_Services : gmap string bool; ds_Packages : list string }.

(** [None]: the type assertion on a value that is not a string panics. *)
Definition star_get (m : gmap string (option string)) (key : string) (k : string -> option (result DesiredState)) : option (result DesiredState) :=
  match m !! key with
  | None => Some (Err (ErrMsg (String.append "missing key: " key)))
  | Some None => None
  | Some (Some v) => k v
  end.

Definition starlarkResultToDesiredState (v : StarValue) : option (result DesiredState) :=
  match v with
  | StarOther => Some (Err (ErrMsg "policy must return dict"))
  | StarDict m =>
      star_get m "image_id" (fun imageID => star_get m "track" (fun track => star_get m "version" (fun version =>
        Some (Ok (mkDesired imageID track version ∅ [])))))
  end.

(** The compiled policy: what [resolve] returns for a host struct (id, zone, role, bucket). *)
Definition Policy : Type := string -> string -> string -> Z -> result StarValue.

Definition Resolve `{Sha1} (program : Policy) (id zone role : string) : option (result DesiredState) :=
  match program id zone role (computeBucket id) with
  | Err e => Some (Err e)
  | Ok v => starlarkResultToDesiredState v
  end.

(** ** The outside *)

(** A bootstrap token: its ID and its secret half. *)
Record JoinToken : Type := mkToken { tk_ID : string; tk_Secret : string }.

(** A call with its answer. *)
Inductive event : Type :=
| EvLaunch (op : Operation) (r : result RuntimeHost)
| EvVerify (op : Operation) (providerID : string) (r : result RuntimeIdentity)
| EvReconcile (op : Operation) (providerID : string) (r : result unit)
| EvConfigure (op : Operation) (providerID ip : string) (r : result unit)
| EvMarker (r : result (gmap string string))
| EvGetNode (name : string) (r : result K8sNode)
| EvUpdateNode (n : K8sNode) (r : result K8sNode)
| EvPods (nodeName : string) (r : result (list Pod))
| EvDaemonSet (r : result string)
| EvCreateToken (t : JoinToken) (r : result unit)
| EvDeleteToken (id : string) (r : result unit)
| EvCSRs (r : result (list CSR))
| EvApprove (c : CSR) (r : result unit)
| EvHealth (endpoint identity : string) (r : Outcome HostAgentStatus)
| EvPutState (endpoint identity : string) (x : ExpectedHostState) (r : Outcome HostAgentStatus)
| EvPutJoin (endpoint identity : string) (q : ClusterJoinRequest) (r : Outcome ClusterJoinResult)
| EvMembership (endpoint identity challenge : string) (r : Outcome ClusterMembership).

Definition history : Type := list event.

(** Answers, given the history.  [w_ticks] is how often the approval loop's ticker fires
    while the join request is under way, [w_cancelled] whether its context is done. *)
Record World : Type := mkWorld {
  w_launch : history -> Operation -> result RuntimeHost;
  w_verify : history -> Operation -> string -> result RuntimeIdentity;
  w_reconcile : history -> Operation -> string -> result unit;
  w_configure : history -> Operation -> string -> string -> result unit;
  w_marker : history -> result (gmap string string);
  w_get_node : history -> string -> result K8sNode;
  w_update_node : history -> K8sNode -> result K8sNode;
  w_pods : history -> string -> result (list Pod);
  w_daemonset : history -> result string;
  w_create_token : history -> JoinToken -> result unit;
  w_delete_token : history -> string -> result unit;
  w_csrs : history -> result (list CSR);
  w_approve : history -> CSR -> result unit;
  w_health : history -> string -> string -> Outcome HostAgentStatus;
  w_put_state : history -> string -> string -> ExpectedHostState -> Outcome HostAgentStatus;
  w_put_join : history -> string -> string -> ClusterJoinRequest -> Outcome ClusterJoinResult;
  w_membership : history -> string -> string -> string -> Outcome ClusterMembership;
  w_token : history -> option JoinToken;
  w_nonce : history -> option string;
  w_now : history -> Z;
  w_ticks : history -> nat;
  w_cancelled : history -> bool }.

(** The fields of [ProvisionExecutor]; a nil interface is [false]. *)
Record DominatorConfig : Type := mkDominatorConfig {
  dm_Store : bool; dm_Provider : bool; dm_Kubernetes : bool; dm_Caller : bool; dm_Resolver : option Policy;
  dm_TrustDomain : string; dm_ClusterID : string; dm_ClusterCA : string }.

Section Executor.
Context {gonet : GoNet} {gourl : GoURL} {k8s : K8s} {dg : Digest} {fp : Fingerprints} {x509 : X509} {sha1 : Sha1}.
Context (p : DominatorConfig) (w : World).

(** History and database. *)
Record Run : Type := mkRun { rn_hist : history; rn_db : DB }.

Definition Dom (A : Type) : Type := Run -> result A * Run.
Definition dom_ret {A} (a : A) : Dom A := fun s => (Ok a, s).
Definition dom_err {A} (msg : string) : Dom A := fun s => (Err (ErrMsg msg), s).
Definition dom_bind {A B} (m : Dom A) (k : A -> Dom B) : Dom B :=
  fun s => match m s with (Ok a, s') => k a s' | (Err e, s') => (Err e, s') end.
Definition dom_lift {A} (r : result A) : Dom A := fun s => (r, s).

Notation "'dom!' x := m 'in' k" := (dom_bind m (fun x => k))
  (at level 10, x pattern, m at level 100, k at level 200, format "'[v' 'dom!'  x  :=  m  'in' '/' k ']'").
Notation "'need' b 'else' msg 'in' k" := (if b then k else dom_err msg)
  (at level 10, b at level 100, msg at level 100, k at level 200, format "'[v' 'need'  b  'else'  msg  'in' '/' k ']'").

(** One call: its answer is returned as a value and remembered with it. *)
Definition ask {A} (answer : history -> A) (ev : A -> event) : Dom A := fun s =>
  let a := answer (rn_hist s) in (Ok a, mkRun (rn_hist s ++ [ev a]) (rn_db s)).
(** The code's [if err != nil { return ..., err }] after a call. *)
Definition ask_ok {A} (answer : history -> result A) (ev : result A -> event) : Dom A := dom! r := ask answer ev in dom_lift r.
(** A value of the outside that is no call: random bytes, clock, contexts. *)
Definition peek {A} (f : history -> A) : Dom A := fun s => (Ok (f (rn_hist s)), s).
(** A call of the capacity store. *)
Definition store {A} (m : Store A) : Dom A := fun s =>
  let '(r, d) := m (rn_db s) in (r, mkRun (rn_hist s) d).
Definition store_read {A} (q : DB -> result A) : Dom A := fun s => (q (rn_db s), s).
(** [r, err := m]: the error as a value. *)
Definition dom_try {A} (m : Dom A) : Dom (result A) := fun s => let '(r, s') := m s in (Ok r, s').

Definition subd_identity (h : HostView) : string :=
  String.append "spiffe://" (String.append (dm_TrustDomain p) (String.append "/subd/" (hv_ProviderID h))).

(** *** worker_membership.go *)
Definition validateCluster (op : Operation) : Dom unit :=
  let invalid := "provisioning cluster access does not match approved destination" in
  need negb ((dm_ClusterID p == "") || (dm_ClusterID p != t_ClusterID (op_Target op)) || negb (dm_Kubernetes p)) else invalid in
  need bool_decide (KubernetesCAHash (dm_ClusterCA p) = Some (t_CACertHash (op_Target op))) else invalid in
  dom! marker := ask (w_marker w) EvMarker in
  match marker with
  | Ok data => need default "" (data !! "cluster_id") == t_ClusterID (op_Target op) else invalid in dom_ret tt
  | Err _ => dom_err invalid
  end.

Definition verifiedWorker (op : Operation) (h : HostView) : Dom RuntimeIdentity :=
  need negb (negb (dm_Provider p) || (hv_ID h != op_HostID op) || (hv_NodeGroupID h != op_NodeGroupID op) ||
             (hv_NodePoolID h != t_NodePoolID (op_Target op)) || (hv_Provider h != t_Provider (op_Target op)))
    else "worker catalog identity mismatch" in
  dom! identity := ask (fun hist => w_verify w hist op (hv_ProviderID h)) (EvVerify op (hv_ProviderID h)) in
  match identity, subdPrivateIP (hv_SubdEndpoint h) with
  | Ok i, Ok ip => need (ri_PrivateIP i == ip) && (ri_KubernetesProviderID i != "") else "worker provider identity mismatch" in dom_ret i
  | _, _ => dom_err "worker provider identity mismatch"
  end.

Definition registration (op : Operation) (h : HostView) : Dom WorkerRegistration :=
  dom! i := verifiedWorker op h in
  let t := op_Target op in
  let reg := mkRegistration (t_ClusterID t) (hv_ID h) (op_NodeGroupID op) (t_NodePoolID t) (t_TemplateRevision t)
               (WorkerNodeName (hv_ID h)) (ri_KubernetesProviderID i) (t_Scheduling t) in
  dom! _ := dom_lift (Validate reg) in
  dom_ret reg.

(** The contract of a registration for the operation's cluster. *)
Definition contract_of (op : Operation) (reg : WorkerRegistration) : string :=
  JoinFingerprint (mkJoinRequest reg 0 "" (t_APIServerEndpoint (op_Target op)) "" (t_CACertHash (op_Target op))).

Definition workerMembership (op : Operation) (h : HostView) : Dom ClusterMembership :=
  dom! reg := registration op h in
  dom! nonce := peek (w_nonce w) in
  match nonce with
  | None => dom_err "cannot generate membership challenge"
  | Some challenge =>
      dom! answer := ask (fun hist => w_membership w hist (hv_SubdEndpoint h) (subd_identity h) challenge)
                         (EvMembership (hv_SubdEndpoint h) (subd_identity h) challenge) in
      match answer with
      | (200, Ok (Some proof)) =>
          need is_ok (verifyMembership proof challenge (contract_of op reg) (wr_NodeName reg) (dm_ClusterCA p))
            else "worker kubelet membership verification failed" in
          dom_ret proof
      | _ => dom_err "worker kubelet membership verification failed"
      end
  end.

(** *** Node identity *)
Definition ownership (op : Operation) (h : HostView) (contract : string) : list (string * string) :=
  [("crane.io/host-id", hv_ID h); ("crane.io/cluster-id", t_ClusterID (op_Target op)); ("crane.io/node-group-id", op_NodeGroupID op);
   ("crane.io/node-pool-id", t_NodePoolID (op_Target op)); ("crane.io/operation-id", op_ID op);
   ("crane.io/template-revision", t_TemplateRevision (op_Target op)); ("crane.io/registration-contract", contract)].

Definition annotate (l : list (string * string)) (n : K8sNode) : K8sNode :=
  set_nd_Annotations (foldr (fun kv m => <[fst kv := snd kv]> m) (nd_Annotations n) l) n.

(** The durable binding that a node which is not being bound must match. *)
Definition bound (b : ProvisionBinding) (proof : ClusterMembership) (reg : WorkerRegistration) : bool :=
  (pb_NodeUID b == cm_NodeUID proof) && (pb_NodeName b == cm_NodeName proof) && (pb_ProviderID b == wr_ProviderID reg) &&
  (pb_ContractHash b == cm_ContractHash proof).

Definition ensureNodeIdentity (op : Operation) (h : HostView) (bind : bool) : Dom K8sNode :=
  dom! ip := dom_lift (subdPrivateIP (hv_SubdEndpoint h)) in
  dom! proof := workerMembership op h in
  dom! got := ask (fun hist => w_get_node w hist (cm_NodeName proof)) (EvGetNode (cm_NodeName proof)) in
  match got with
  | Err _ => dom_err "worker Node UID conflicts with authenticated membership"
  | Ok node =>
      need nd_UID node == cm_NodeUID proof else "worker Node UID conflicts with authenticated membership" in
      dom! reg := registration op h in
      dom! binding := (if bind
        then dom_ret (mkProvisionBinding (cm_NodeName proof) (cm_NodeUID proof) (wr_ProviderID reg) (cm_ContractHash proof) false None)
        else
          dom! b := dom_try (store_read (ProvisionBinding_read op)) in
          match b with
          | Ok b => need bound b proof reg else "worker identity conflicts with durable Node binding" in dom_ret b
          | Err _ => dom_err "worker identity conflicts with durable Node binding"
          end) in
      dom! _ := dom_lift (validateWorkerNode node reg ip (pb_ReleaseStarted binding)) in
      let annotations := ownership op h (cm_ContractHash proof) in
      need forallb (fun kv => let got := default "" (nd_Annotations node !! fst kv) in (got == snd kv) || (bind && (got == ""))) annotations
        else "worker ownership annotation drift" in
      if bind then
        dom! now := peek (w_now w) in
        dom! _ := store (BindProvisionNode now op binding) in
        let updated := annotate annotations node in
        dom! r := ask (fun hist => w_update_node w hist updated) (EvUpdateNode updated) in
        match r with
        | Ok n => dom_ret n
        | Err _ => dom_err "cannot record verified worker ownership"
        end
      else dom_ret node
  end.

(** *** Readiness *)
Definition ciliumReady (nodeName : string) : Dom bool :=
  dom! pods := ask (fun hist => w_pods w hist nodeName) (EvPods nodeName) in
  match pods with
  | Err _ => dom_ret false
  | Ok pods =>
      match the_cilium nodeName pods with
      | None => dom_ret false
      | Some pod =>
          dom! ds := ask (w_daemonset w) EvDaemonSet in
          match ds with
          | Ok uid => dom_ret ((uid != "") && cilium_pod_ready nodeName uid pod)
          | Err _ => dom_ret false
          end
      end
  end.

(** [Some node] when every gate holds; [None] when the worker is not ready yet. *)
Definition readyNode (op : Operation) (h : HostView) : Dom (option K8sNode) :=
  dom! _ := validateCluster op in
  dom! node := ensureNodeIdentity op h false in
  if negb (nodeReady node) then dom_ret None
  else
    dom! cilium := ciliumReady (nd_Name node) in
    if negb cilium then dom_ret None
    else
      let identity := subd_identity h in
      dom! answer := ask (fun hist => w_health w hist (hv_SubdEndpoint h) identity) (EvHealth (hv_SubdEndpoint h) identity) in
      match answer with
      | (200, Ok (Some status)) =>
          need hs_Identity status == identity else "worker Subd identity check failed" in
          if workerExpectedStateReady status (hv_DesiredStateVersion h) then dom_ret (Some node) else dom_ret None
      | _ => dom_err "worker Subd identity check failed"
      end.

Definition dominator_Ready (op : Operation) (h : HostView) : Dom bool :=
  dom! n := readyNode op h in
  dom_ret (match n with Some _ => true | None => false end).

(** [held] is the operation whose hand-off transaction the context carries. *)
Definition dominator_Release (held : option Operation) (op : Operation) (h : HostView) : Dom unit :=
  if negb (ProvisionReleaseAuthorized held op) then dom_lift (Err ErrFenced)
  else
    dom! n := readyNode op h in
    match n with
    | None => dom_err "worker readiness changed before scheduling release"
    | Some node =>
        let released := set_nd_Taints (List.filter (fun t => negb (is_quarantine t)) (nd_Taints node)) node in
        dom! r := ask (fun hist => w_update_node w hist released) (EvUpdateNode released) in
        match r with
        | Ok _ => dom_ret tt
        | Err _ => dom_err "worker scheduling release conflicted or failed"
        end
    end.

(** *** Launch *)
Definition dominator_Launch (op : Operation) : Dom ProvisionResult :=
  dom! _ := validateCluster op in
  need dm_Provider p else "runtime provider unavailable" in
  dom! host := ask_ok (fun hist => w_launch w hist op) (EvLaunch op) in
  dom_ret (mkProvisionResult (rh_KubernetesProviderID host) (rh_ProviderID host) (rh_PrivateIP host)).

(** *** Joining *)

(** The requests of one tick, in order; [false] ends the loop (its context is done). *)
Fixpoint approve_all (tokenID nodeName : string) (l : list CSR) : Dom bool :=
  match l with
  | [] => dom_ret true
  | c :: rest =>
      if cs_Username c != String.append "system:bootstrap:" tokenID then approve_all tokenID nodeName rest
      else need validWorkerCSR c tokenID nodeName else "worker certificate request conflicts with join contract" in
        if cs_Conditions c != 0%nat then approve_all tokenID nodeName rest
        else
          dom! r := ask (fun hist => w_approve w hist c) (EvApprove c) in
          dom! gone := peek (w_cancelled w) in
          if is_ok r then approve_all tokenID nodeName rest
          else need gone else "cannot approve worker certificate request" in dom_ret false
  end.

(** [approveWorkerCSRs]: [ticks] firings of the ticker before the context is done. *)
Fixpoint approveWorkerCSRs (ticks : nat) (op : Operation) (tokenID nodeName : string) : Dom unit :=
  match ticks with
  | O => dom_ret tt
  | S ticks =>
      dom! now := peek (w_now w) in
      dom! held := dom_try (store_read (CheckProvisionLease now op)) in
      dom! gone := peek (w_cancelled w) in
      match held with
      | Err e => if gone then dom_ret tt else dom_lift (Err e)
      | Ok _ =>
          dom! requests := ask (w_csrs w) EvCSRs in
          dom! gone := peek (w_cancelled w) in
          match requests with
          | Err _ => if gone then dom_ret tt else dom_err "cannot inspect worker certificate requests"
          | Ok l =>
              dom! more := approve_all tokenID nodeName l in
              if more then approveWorkerCSRs ticks op tokenID nodeName else dom_ret tt
          end
      end
  end.

Definition joinWorker (op : Operation) (h : HostView) (identity : string) : Dom unit :=
  let t := op_Target op in
  need negb ((t_APIServerEndpoint t == "") || (t_CACertHash t == "")) else "trusted cluster discovery is unavailable" in
  dom! reg := registration op h in
  dom! token := peek (w_token w) in
  match token with
  | None => dom_err "cannot create temporary Kubernetes join token"
  | Some token =>
      dom! created := ask (fun hist => w_create_token w hist token) (EvCreateToken token) in
      if negb (is_ok created) then dom_err "cannot create short-lived Kubernetes join token"
      else
        let request := mkJoinRequest reg (op_Fence op) (op_ID op) (t_APIServerEndpoint t)
                         (String.append (tk_ID token) (String.append "." (tk_Secret token))) (t_CACertHash t) in
        dom! ticks := peek (w_ticks w) in
        dom! approval := dom_try (approveWorkerCSRs ticks op (tk_ID token) (wr_NodeName reg)) in
        dom! answer := ask (fun hist => w_put_join w hist (hv_SubdEndpoint h) identity request)
                           (EvPutJoin (hv_SubdEndpoint h) identity request) in
        dom! deleted := ask (fun hist => w_delete_token w hist (tk_ID token)) (EvDeleteToken (tk_ID token)) in
        let joined := match answer with
                      | (200, Ok (Some r)) => (jo_OperationID r == op_ID op) && (jo_Outcome r == "applied")
                      | _ => false
                      end in
        need is_ok approval && joined else "worker cluster join did not complete" in
        need is_ok deleted else "temporary Kubernetes join token cleanup failed" in
        dom! _ := ensureNodeIdentity op h true in
        dom_ret tt
  end.

(** *** Expected state *)
Definition resolved_state (s : DesiredState) : ExpectedHostState :=
  mkExpected 1 (ds_ImageID s) (ds_Track s) (ds_Version s) (ds_Services s)
    (map (fun name => mkPackageChange name "install") (ds_Packages s)) None.

(** The state to deliver: the pinned one, or what the policy resolves; a policy that makes
    the resolver panic ends the call here, and the process in the code. *)
Definition desired_expected (op : Operation) (h : HostView) (b : ProvisionBinding) : result ExpectedHostState :=
  match pb_ExpectedState b with
  | Some x => Ok x
  | None =>
      match dm_Resolver p with
      | None => Err (ErrMsg "host policy resolver unavailable")
      | Some program =>
          match Resolve program (hv_ID h) (t_ProviderZoneID (op_Target op)) (t_CapacityClass (op_Target op)) with
          | Some (Ok s) => Ok (resolved_state s)
          | Some (Err _) => Err (ErrMsg "cannot resolve worker expected state")
          | None => Err (ErrMsg "panic: interface conversion")
          end
      end
  end.

Definition deliverExpectedState (op : Operation) (h : HostView) (identity : string) : Dom unit :=
  dom! binding := store_read (ProvisionBinding_read op) in
  dom! request := dom_lift (desired_expected op h binding) in
  dom! now := peek (w_now w) in
  dom! request := store (PinProvisionExpectedState now op request) in
  dom! answer := ask (fun hist => w_put_state w hist (hv_SubdEndpoint h) identity request) (EvPutState (hv_SubdEndpoint h) identity request) in
  match answer with
  | (200, Ok (Some s)) =>
      need (hs_Identity s == identity) && (hs_Outcome s == "applied") && (hs_AppliedRevision s == ex_Revision request) &&
           (hs_ExpectedVersion s == ex_Version request) else "worker expected state was not applied" in
      dom_ret tt
  | _ => dom_err "worker expected state was not applied"
  end.

(** *** Enrollment *)
Definition dominator_EnrollAndJoin (op : Operation) (h : HostView) : Dom unit :=
  dom! _ := validateCluster op in
  need negb (negb (dm_Provider p) || negb (dm_Kubernetes p) || negb (dm_Caller p) || (dm_TrustDomain p == "") || negb (dm_Store p) ||
             (hv_ProviderID h == "") || (hv_SubdEndpoint h == "")) else "runtime host enrollment is not configured" in
  dom! _ := verifiedWorker op h in
  dom! _ := ask_ok (fun hist => w_reconcile w hist op (hv_ProviderID h)) (EvReconcile op (hv_ProviderID h)) in
  dom! ip := dom_lift (subdPrivateIP (hv_SubdEndpoint h)) in
  dom! _ := ask_ok (fun hist => w_configure w hist op (hv_ProviderID h) ip) (EvConfigure op (hv_ProviderID h) ip) in
  let identity := subd_identity h in
  dom! answer := ask (fun hist => w_health w hist (hv_SubdEndpoint h) identity) (EvHealth (hv_SubdEndpoint h) identity) in
  match answer with
  | (200, Ok (Some s)) =>
      need (hs_Identity s == identity) && hs_Ready s else "Subd identity is not available" in
      dom! _ := joinWorker op h identity in
      deliverExpectedState op h identity
  | _ => dom_err "Subd identity is not available"
  end.

(** The executor as the provisioning controller calls it, in a world whose history starts
    with the call; [committed] is the database that [Release] reads beside the hand-off
    transaction, whose operation its context carries. *)
Definition dom_store {A} (m : Dom A) : Store A := fun d => let '(r, s) := m (mkRun [] d) in (r, rn_db s).

Definition dominator_executor (committed : DB) : ProvisionExecutor :=
  mkProvisionExecutor (fun op => dom_store (dominator_Launch op)) (fun op h => dom_store (dominator_EnrollAndJoin op h))
    (fun op h => dom_store (dominator_Ready op h)) (fun op h => fst (dominator_Release (Some op) op h (mkRun [] committed))).
End Executor.
