(* ===== verification/DominatorFacts.v ===== *)
(** * Facts about the zone Dominator

    The executor stays inside the frame of the operation it is handed, so the controller's
    theorems hold for it; and what its history of calls shows: a worker is released for
    scheduling only behind every gate, a created join token is followed by its deletion, only the
    worker's own certificate requests are approved, and the state sent to a host is the
    one pinned in the database. *)
From S2P Require Import Prelude GoStrings Sql Api Schema Admission Invariant Fixture AdmissionFacts Lease Handoff LeaseFacts Scheduling Catalog Bootstrap Provision Regex Subd HostRpc Dominator.

Local Open Scope string_scope.
Local Open Scope list_scope.
Local Open Scope Z_scope.
Local Open Scope crane_scope.

Section Facts.
Context {gonet : GoNet} {gourl : GoURL} {k8s : K8s} {dg : Digest} {fp : Fingerprints} {x509 : X509} {sha1 : Sha1}.
Context (p : DominatorConfig) (w : World).
Implicit Types s : Run.

(** ** Confinement of the database *)
Definition dom_framed {A} (op : Operation) (m : Dom A) : Prop := forall s, framed false op (rn_db s) (rn_db (snd (m s))).

Lemma dom_framed_pure {A} op (m : Dom A) : (forall s, rn_db (snd (m s)) = rn_db s) -> dom_framed op m.
Proof. intros E s. rewrite E. apply framed_refl. Qed.

Lemma dom_framed_bind {A B} op (m : Dom A) (k : A -> Dom B) :
  dom_framed op m -> (forall a, dom_framed op (k a)) -> dom_framed op (dom_bind m k).
Proof.
  intros M K s. unfold dom_bind. pose proof (M s) as F. destruct (m s) as [[a|e] s']; [|exact F].
  eapply framed_trans; [exact F|apply K].
Qed.

Lemma dom_framed_ask {A} op (f : history -> A) ev : dom_framed op (ask f ev).
Proof. by apply dom_framed_pure. Qed.

Lemma dom_framed_try {A} op (m : Dom A) : dom_framed op m -> dom_framed op (dom_try m).
Proof. intros M s. unfold dom_try. pose proof (M s) as F. by destruct (m s). Qed.

Lemma dom_framed_store {A} op (m : Store A) : (forall d, framed false op d (snd (m d))) -> dom_framed op (store m).
Proof. intros M s. unfold store. pose proof (M (rn_db s)) as F. by destruct (m (rn_db s)). Qed.

Lemma dom_framed_bind_node t op b : dom_framed op (store (BindProvisionNode t op b)).
Proof. apply dom_framed_store. intros d. apply framed_bind. Qed.

Lemma dom_framed_pin t op x : dom_framed op (store (PinProvisionExpectedState t op x)).
Proof.
  apply dom_framed_store. intros d. pose proof (framed_pin false t op x d) as F. unfold ignore in F.
  by destruct (PinProvisionExpectedState t op x d) as [[a|e] d'].
Qed.

Create HintDb dom_frame discriminated.
#[local] Hint Resolve dom_framed_ask dom_framed_bind_node dom_framed_pin : dom_frame.

Ltac dframe :=
  repeat first
    [ solve [auto with dom_frame]
    | apply dom_framed_pure; intros; reflexivity
    | apply dom_framed_bind; [|intros ?]
    | apply dom_framed_try
    | match goal with |- dom_framed _ (if ?b then _ else _) => destruct b end
    | match goal with |- dom_framed _ (match ?x with _ => _ end) => destruct x end ].

Lemma validateCluster_framed op o : dom_framed op (validateCluster p w o).
Proof. unfold validateCluster. dframe. Qed.

Lemma verifiedWorker_framed op o h : dom_framed op (verifiedWorker p w o h).
Proof. unfold verifiedWorker. dframe. Qed.

#[local] Hint Resolve validateCluster_framed verifiedWorker_framed : dom_frame.

Lemma registration_framed op o h : dom_framed op (registration p w o h).
Proof. unfold registration. dframe. Qed.

#[local] Hint Resolve registration_framed : dom_frame.

Lemma workerMembership_framed op o h : dom_framed op (workerMembership p w o h).
Proof. unfold workerMembership. dframe. Qed.

#[local] Hint Resolve workerMembership_framed : dom_frame.

Lemma ensureNodeIdentity_framed op h b : dom_framed op (ensureNodeIdentity p w op h b).
Proof. unfold ensureNodeIdentity. dframe. Qed.

#[local] Hint Resolve ensureNodeIdentity_framed : dom_frame.

Lemma readyNode_framed op h : dom_framed op (readyNode p w op h).
Proof. unfold readyNode, ciliumReady. dframe. Qed.

Lemma approve_all_framed op tokenID nodeName l : dom_framed op (approve_all w tokenID nodeName l).
Proof. induction l as [|c l IH]; cbn [approve_all]; dframe; exact IH. Qed.

#[local] Hint Resolve readyNode_framed approve_all_framed : dom_frame.

Lemma approveWorkerCSRs_framed op ticks o tokenID nodeName : dom_framed op (approveWorkerCSRs w ticks o tokenID nodeName).
Proof. induction ticks as [|n IH]; cbn [approveWorkerCSRs]; dframe; exact IH. Qed.

#[local] Hint Resolve approveWorkerCSRs_framed : dom_frame.

Lemma joinWorker_framed op h identity : dom_framed op (joinWorker p w op h identity).
Proof. unfold joinWorker. dframe. Qed.

Lemma deliverExpectedState_framed op h identity : dom_framed op (deliverExpectedState p w op h identity).
Proof. unfold deliverExpectedState. dframe. Qed.

#[local] Hint Resolve joinWorker_framed deliverExpectedState_framed : dom_frame.

Lemma EnrollAndJoin_framed op h : dom_framed op (dominator_EnrollAndJoin p w op h).
Proof. unfold dominator_EnrollAndJoin. dframe. Qed.

Lemma Launch_framed op : dom_framed op (dominator_Launch p w op).
Proof. unfold dominator_Launch, ask_ok. dframe. Qed.

Lemma dom_store_framed {A} op (m : Dom A) d : dom_framed op m -> framed false op d (snd (dom_store m d)).
Proof. intros M. unfold dom_store. pose proof (M (mkRun [] d)) as F. by destruct (m (mkRun [] d)). Qed.

(** The Dominator keeps the promise that the controller's theorems ask of an executor. *)
#[global] Instance dominator_laws committed : ExecutorLaws (dominator_executor p w committed).
Proof.
  split; intros; apply dom_store_framed.
  - apply Launch_framed.
  - apply EnrollAndJoin_framed.
  - unfold dominator_Ready. dframe.
Qed.

(** ** Histories *)

(** Postcondition of a run from [s]: on its answer and the run it leads to. *)
Definition hoare {A} (m : Dom A) (Q : result A -> Run -> Prop) s : Prop := Q (fst (m s)) (snd (m s)).

Lemma hoare_bind {A B} (m : Dom A) (k : A -> Dom B) Q s :
  hoare m (fun r s' => match r with Ok a => hoare (k a) Q s' | Err e => Q (Err e) s' end) s -> hoare (dom_bind m k) Q s.
Proof. unfold hoare, dom_bind. by destruct (m s) as [[a|e] s']. Qed.

Lemma hoare_mono {A} (m : Dom A) (Q Q' : result A -> Run -> Prop) s :
  hoare m Q s -> (forall r s', Q r s' -> Q' r s') -> hoare m Q' s.
Proof. intros H I. apply I, H. Qed.

(** The history goes on, the database stays, and no call of the kind [bad] is added. *)
Definition quiet (bad : event -> Prop) s s' : Prop :=
  rn_db s' = rn_db s /\ exists l, rn_hist s' = rn_hist s ++ l /\ Forall (fun ev => ~ bad ev) l.

Lemma dom_quiet_refl bad s : quiet bad s s.
Proof. split; [done|]. exists []. by rewrite app_nil_r. Qed.

Lemma dom_quiet_trans bad s1 s2 s3 : quiet bad s1 s2 -> quiet bad s2 s3 -> quiet bad s1 s3.
Proof.
  intros [E1 (l1 & H1 & F1)] [E2 (l2 & H2 & F2)]. split; [congruence|]. exists (l1 ++ l2). rewrite H2, H1, app_assoc.
  split; [done|]. by apply Forall_app.
Qed.

Lemma quiet_in bad s s' ev : quiet bad s s' -> In ev (rn_hist s) -> In ev (rn_hist s').
Proof. intros [_ (l & -> & _)] H. apply in_app_iff. by left. Qed.

(** The code's [code != 200]. *)
Lemma ok_200 (code : Z) : code = 200 \/ forall A (x y : A), match code with 200 => x | _ => y end = y.
Proof. destruct (decide (code = 200)) as [->|N]; [by left|right]. intros A x y. repeat case_match; congruence. Qed.

Lemma quiet_ask bad s ev : ~ bad ev -> quiet bad s (mkRun (rn_hist s ++ [ev]) (rn_db s)).
Proof. intros N. split; [done|]. exists [ev]. split; [done|]. by constructor. Qed.

(** What a part of the executor shows when it succeeds, with no call of a kind. *)
Definition shows {A} (bad : event -> Prop) (m : Dom A) (F : A -> DB -> history -> Prop) : Prop :=
  forall s, hoare m (fun r s' => quiet bad s s' /\ forall a, r = Ok a -> F a (rn_db s') (rn_hist s')) s.

(** Facts about a history that a longer one keeps. *)
Definition lasting {A} (F : A -> DB -> history -> Prop) : Prop :=
  forall a d h l, F a d h -> F a d (h ++ l).

Lemma shows_bind {A B} bad (m : Dom A) (k : A -> Dom B) F G :
  shows bad m F -> lasting F -> (forall a s, F a (rn_db s) (rn_hist s) ->
    hoare (k a) (fun r s' => quiet bad s s' /\ forall b, r = Ok b -> F a (rn_db s') (rn_hist s') -> G b (rn_db s') (rn_hist s')) s) ->
  shows bad (dom_bind m k) G.
Proof.
  intros M L K s. apply hoare_bind. eapply hoare_mono; [apply M|]. cbn. intros [a|e] s1 [Q1 F1]; [|by split].
  pose proof (F1 a eq_refl) as Fa. eapply hoare_mono; [apply (K a s1 Fa)|]. cbn. intros r s2 [Q2 G2]. split; [by eapply dom_quiet_trans|].
  intros b E. apply G2; [done|]. destruct Q2 as [-> (l & -> & _)]. by apply L.
Qed.

Lemma shows_lift {A B} bad (r : result A) (k : A -> Dom B) G :
  (forall a, r = Ok a -> shows bad (k a) G) -> shows bad (dom_bind (dom_lift r) k) G.
Proof. intros K s. unfold hoare, dom_bind, dom_lift. destruct r as [a|e]; [by apply K|]. split; [apply dom_quiet_refl|done]. Qed.

(** Calls that change the cluster or the host. *)
Definition is_effect (ev : event) : Prop :=
  match ev with
  | EvUpdateNode _ _ | EvCreateToken _ _ | EvDeleteToken _ _ | EvApprove _ _ | EvPutState _ _ _ _ | EvPutJoin _ _ _ _ => True
  | _ => False
  end.

(** The provider vouches for the worker that the catalog names. *)
Definition verified (op : Operation) (h : HostView) (i : RuntimeIdentity) (_ : DB) (hist : history) : Prop :=
  hv_ID h = op_HostID op /\ hv_NodeGroupID h = op_NodeGroupID op /\
  In (EvVerify op (hv_ProviderID h) (Ok i)) hist /\ subdPrivateIP (hv_SubdEndpoint h) = Ok (ri_PrivateIP i).

Lemma verified_lasting op h : lasting (verified op h).
Proof. intros i d hist l (A & B & C & D). repeat split; try done. apply in_app_iff. by left. Qed.

Lemma verifiedWorker_shows op h : shows is_effect (verifiedWorker p w op h) (verified op h).
Proof.
  intros s. unfold verifiedWorker. destruct (negb _) eqn:G; [|split; [apply dom_quiet_refl|done]]. bsplit.
  unfold hoare, dom_bind, ask. cbn [fst snd].
  assert (Qs : quiet is_effect s (mkRun (rn_hist s ++ [EvVerify op (hv_ProviderID h) (w_verify w (rn_hist s) op (hv_ProviderID h))]) (rn_db s)))
    by (apply quiet_ask; by intros []).
  destruct (w_verify w (rn_hist s) op (hv_ProviderID h)) as [i|e] eqn:Ev; [|by split].
  destruct (subdPrivateIP (hv_SubdEndpoint h)) as [ip|e] eqn:Ep; [|by split].
  destruct (_ && _) eqn:E; [|by split]. split; [done|]. intros a [= <-]. bsplit. subst ip.
  repeat split; try done. apply in_app_iff. right. by left.
Qed.

Definition registered (op : Operation) (h : HostView) (reg : WorkerRegistration) (d : DB) (hist : history) : Prop :=
  Validate reg = Ok tt /\ wr_HostID reg = hv_ID h /\ wr_ClusterID reg = t_ClusterID (op_Target op) /\
  wr_NodeName reg = WorkerNodeName (hv_ID h) /\ wr_Scheduling reg = t_Scheduling (op_Target op) /\
  exists i, verified op h i d hist /\ wr_ProviderID reg = ri_KubernetesProviderID i.

Lemma registered_lasting op h : lasting (registered op h).
Proof. intros reg d hist l (A & B & C & D & E & i & V & F). repeat split; try done. exists i. split; [by apply verified_lasting|done]. Qed.

Lemma registration_shows op h : shows is_effect (registration p w op h) (registered op h).
Proof.
  apply shows_bind with (verified op h); [apply verifiedWorker_shows|apply verified_lasting|].
  intros i s V. unfold hoare, dom_bind, dom_lift. destruct (Validate _) as [[]|e] eqn:Ev; [|split; [apply dom_quiet_refl|done]].
  split; [apply dom_quiet_refl|]. intros b [= <-] _. cbn. repeat split; try done. by exists i.
Qed.

Definition proved (op : Operation) (h : HostView) (proof : ClusterMembership) (d : DB) (hist : history) : Prop :=
  exists reg challenge, registered op h reg d hist /\
    In (EvMembership (hv_SubdEndpoint h) (subd_identity p h) challenge (200, Ok (Some proof))) hist /\
    verifyMembership proof challenge (contract_of op reg) (wr_NodeName reg) (dm_ClusterCA p) = Ok tt.

Lemma proved_lasting op h : lasting (proved op h).
Proof.
  intros proof d hist l (reg & c & R & I & V). exists reg, c. split; [by apply registered_lasting|]. split; [|done].
  apply in_app_iff. by left.
Qed.

Lemma workerMembership_shows op h : shows is_effect (workerMembership p w op h) (proved op h).
Proof.
  apply shows_bind with (registered op h); [apply registration_shows|apply registered_lasting|].
  intros reg s R. unfold hoare, dom_bind, peek, ask. cbn [fst snd].
  destruct (w_nonce w (rn_hist s)) as [challenge|]; [|split; [apply dom_quiet_refl|done]]. cbn [fst snd].
  match goal with |- context [rn_hist s ++ [?ev]] => assert (Qs : quiet is_effect s (mkRun (rn_hist s ++ [ev]) (rn_db s))) by (apply quiet_ask; by intros []) end.
  destruct (w_membership _ _ _ _ _) as [code ans] eqn:Em.
  match goal with |- context [match code with _ => _ end] => destruct (ok_200 code) as [->|E200]; [|rewrite E200; by split] end.
  destruct ans as [[proof|]|e]; [|by split|by split].
  destruct (is_ok _) eqn:Ev; [|by split]. split; [done|]. intros a [= <-] R'. exists reg, challenge. split; [done|].
  split; [apply in_app_iff; right; by left|]. by destruct (verifyMembership _ _ _ _ _) as [[]|].
Qed.

(** The Node read from the cluster is the one that the host proved membership for, carries
    what its registration asks, and is the one bound to the operation in the database. *)
Definition identified (op : Operation) (h : HostView) (node : K8sNode) (d : DB) (hist : history) : Prop :=
  exists proof reg b ip,
    proved op h proof d hist /\ registered op h reg d hist /\
    In (EvGetNode (cm_NodeName proof) (Ok node)) hist /\ nd_UID node = cm_NodeUID proof /\
    ProvisionBinding_read op d = Ok b /\ bound b proof reg = true /\ subdPrivateIP (hv_SubdEndpoint h) = Ok ip /\
    validateWorkerNode node reg ip (pb_ReleaseStarted b) = Ok tt /\
    Forall (fun kv => default "" (nd_Annotations node !! fst kv) = snd kv) (ownership op h (cm_ContractHash proof)).

Lemma identified_lasting op h : lasting (identified op h).
Proof.
  intros node d hist l (proof & reg & b & ip & P & R & G & Q). exists proof, reg, b, ip.
  split; [by apply proved_lasting|]. split; [by apply registered_lasting|]. split; [|done]. apply in_app_iff. by left.
Qed.

Lemma quiet_step bad s ev s' : ~ bad ev -> quiet bad (mkRun (rn_hist s ++ [ev]) (rn_db s)) s' -> quiet bad s s'.
Proof. intros N Q. eapply dom_quiet_trans; [by apply quiet_ask|exact Q]. Qed.

Lemma ensureNodeIdentity_shows op h : shows is_effect (ensureNodeIdentity p w op h false) (identified op h).
Proof.
  apply shows_lift. intros ip Ep.
  apply shows_bind with (proved op h); [apply workerMembership_shows|apply proved_lasting|].
  intros proof s P. apply hoare_bind. unfold hoare at 1, ask. cbn [fst snd].
  set (s1 := mkRun _ (rn_db s)).
  assert (Q1 : quiet is_effect s s1) by (apply quiet_ask; by intros []).
  destruct (w_get_node w (rn_hist s) (cm_NodeName proof)) as [node|e] eqn:Eg; [|by split].
  assert (Hg : In (EvGetNode (cm_NodeName proof) (Ok node)) (rn_hist s1)) by (apply in_app_iff; right; by left).
  match goal with |- context [if ?b then _ else _] => destruct b eqn:Eu end; [|by split]. bsplit_hyp Eu.
  apply hoare_bind. eapply hoare_mono; [apply (registration_shows op h s1)|]. cbn.
  intros [reg|e] s2 [Q2 R2]; [|split; [by eapply dom_quiet_trans|done]].
  specialize (R2 reg eq_refl). pose proof (dom_quiet_trans _ _ _ _ Q1 Q2) as Q12.
  unfold hoare, dom_bind, dom_try, store_read, dom_lift. cbn [fst snd].
  destruct (ProvisionBinding_read op (rn_db s2)) as [b|e] eqn:Eb; [|by split].
  destruct (bound b proof reg) eqn:Ebd; [|by split]. cbn [dom_ret].
  destruct (validateWorkerNode node reg ip (pb_ReleaseStarted b)) as [[]|e] eqn:Ev; [|by split].
  match goal with |- context [if ?b then _ else _] => destruct b eqn:Ea end; [|by split].
  split; [exact Q12|]. intros a [= <-] P'. exists proof, reg, b, ip. cbn [rn_db rn_hist].
  split; [exact P'|]. split; [exact R2|]. split; [by apply (quiet_in is_effect s1)|]. split; [done|]. split; [done|]. split; [done|].
  split; [done|]. split; [done|]. rewrite !orb_false_r in Ea. bsplit. by repeat constructor.
Qed.

(** ** The gates of a release *)
Record gates (op : Operation) (h : HostView) (node : K8sNode) (d : DB) (hist : history) : Prop := {
  gate_cluster : dm_ClusterID p = t_ClusterID (op_Target op) /\ KubernetesCAHash (dm_ClusterCA p) = Some (t_CACertHash (op_Target op)) /\
    exists data, In (EvMarker (Ok data)) hist /\ default "" (data !! "cluster_id") = t_ClusterID (op_Target op);
  gate_identity : identified op h node d hist;
  gate_node : nodeReady node = true;
  gate_cilium : exists pods pod uid, In (EvPods (nd_Name node) (Ok pods)) hist /\ the_cilium (nd_Name node) pods = Some pod /\
    In (EvDaemonSet (Ok uid)) hist /\ uid <> "" /\ cilium_pod_ready (nd_Name node) uid pod = true;
  gate_state : exists st, In (EvHealth (hv_SubdEndpoint h) (subd_identity p h) (200, Ok (Some st))) hist /\
    hs_Identity st = subd_identity p h /\ workerExpectedStateReady st (hv_DesiredStateVersion h) = true }.

Definition clustered (op : Operation) (_ : unit) (_ : DB) (hist : history) : Prop :=
  dm_ClusterID p = t_ClusterID (op_Target op) /\ KubernetesCAHash (dm_ClusterCA p) = Some (t_CACertHash (op_Target op)) /\
  exists data, In (EvMarker (Ok data)) hist /\ default "" (data !! "cluster_id") = t_ClusterID (op_Target op).

Lemma clustered_lasting op : lasting (clustered op).
Proof. intros u d hist l (A & B & data & I & E). split; [done|]. split; [done|]. exists data. split; [|done]. apply in_app_iff. by left. Qed.

Lemma validateCluster_shows op : shows is_effect (validateCluster p w op) (clustered op).
Proof.
  intros s. unfold validateCluster. destruct (negb _) eqn:G; [|split; [apply dom_quiet_refl|done]]. bsplit.
  destruct (bool_decide (KubernetesCAHash _ = _)) eqn:Eh; [|split; [apply dom_quiet_refl|done]]. bsplit.
  unfold hoare, dom_bind, ask. cbn [fst snd].
  match goal with |- context [rn_hist s ++ [?ev]] => assert (Qs : quiet is_effect s (mkRun (rn_hist s ++ [ev]) (rn_db s))) by (apply quiet_ask; by intros []) end.
  destruct (w_marker w (rn_hist s)) as [data|e]; [|by split].
  match goal with |- context [if ?b then _ else _] => destruct b eqn:Ed end; [|by split]. bsplit.
  split; [done|]. intros u _. split; [done|]. split; [done|]. exists data. split; [|done]. apply in_app_iff. right. by left.
Qed.

Lemma ciliumReady_shows name :
  shows is_effect (ciliumReady w name) (fun b _ hist => b = true -> exists pods pod uid, In (EvPods name (Ok pods)) hist /\
    the_cilium name pods = Some pod /\ In (EvDaemonSet (Ok uid)) hist /\ uid <> "" /\ cilium_pod_ready name uid pod = true).
Proof.
  intros s. unfold ciliumReady, hoare, dom_bind, ask. cbn [fst snd].
  match goal with |- context [rn_hist s ++ [?ev]] => assert (Qs : quiet is_effect s (mkRun (rn_hist s ++ [ev]) (rn_db s))) by (apply quiet_ask; by intros []) end.
  destruct (w_pods w (rn_hist s) name) as [pods|e]; [|split; [done|by intros b [= <-]]].
  destruct (the_cilium name pods) as [pod|] eqn:Ec; [|split; [done|by intros b [= <-]]]. cbn [fst snd rn_hist rn_db].
  match goal with |- context [(rn_hist s ++ [?ev]) ++ [?ev2]] =>
    assert (Qs2 : quiet is_effect s (mkRun ((rn_hist s ++ [ev]) ++ [ev2]) (rn_db s)))
      by (eapply dom_quiet_trans; [exact Qs|]; apply (quiet_ask _ (mkRun _ _)); by intros []) end.
  destruct (w_daemonset _ _) as [uid|e]; [|split; [done|by intros b [= <-]]].
  split; [done|]. intros b [= <-] E. bsplit. exists pods, pod, uid. cbn [rn_hist snd fst dom_ret].
  split; [apply in_app_iff; left; apply in_app_iff; right; by left|]. split; [done|].
  split; [apply in_app_iff; right; by left|]. done.
Qed.

Definition ready_gates (op : Operation) (h : HostView) (n : option K8sNode) (d : DB) (hist : history) : Prop :=
  match n with Some node => gates op h node d hist | None => True end.

Lemma readyNode_shows op h : shows is_effect (readyNode p w op h) (ready_gates op h).
Proof.
  apply shows_bind with (clustered op); [apply validateCluster_shows|apply clustered_lasting|]. intros [] s C0.
  apply hoare_bind. eapply hoare_mono; [apply (ensureNodeIdentity_shows op h s)|]. cbn.
  intros [node|e] s1 [Q1 I1]; [|by split]. specialize (I1 node eq_refl).
  destruct (nodeReady node) eqn:En; cbn [negb]; [|split; [exact Q1|by intros b [= <-]]].
  apply hoare_bind. eapply hoare_mono; [apply (ciliumReady_shows (nd_Name node) s1)|]. cbn.
  intros [c|e] s2 [Q2 I2]; [|split; [by eapply dom_quiet_trans|done]]. pose proof (dom_quiet_trans _ _ _ _ Q1 Q2) as Q12.
  destruct c; cbn [negb]; [|split; [exact Q12|by intros b [= <-]]]. specialize (I2 true eq_refl eq_refl).
  unfold hoare, dom_bind, ask. cbn [fst snd].
  match goal with |- context [rn_hist s2 ++ [?ev]] =>
    assert (Qs : quiet is_effect s2 (mkRun (rn_hist s2 ++ [ev]) (rn_db s2))) by (apply quiet_ask; by intros []) end.
  pose proof (dom_quiet_trans _ _ _ _ Q12 Qs) as Q3. pose proof (dom_quiet_trans _ _ _ _ Q2 Qs) as Q23.
  destruct (w_health _ _ _ _) as [code ans] eqn:Eh.
  match goal with |- context [match code with _ => _ end] => destruct (ok_200 code) as [->|E200]; [|rewrite E200; by split] end.
  destruct ans as [[st|]|e]; [|by split|by split].
  match goal with |- context [if ?b then _ else _] => destruct b eqn:Ei end; [|by split]. bsplit.
  destruct (workerExpectedStateReady st (hv_DesiredStateVersion h)) eqn:Er; cbn [dom_ret fst snd]; [|split; [exact Q3|by intros b [= <-]]].
  split; [exact Q3|]. intros b [= <-] C. cbn [rn_db rn_hist] in C |- *. split; try done.
  - destruct Q23 as [Ed (l & El & _)]. cbn [rn_db rn_hist] in Ed, El. rewrite Ed, El. by apply identified_lasting.
  - destruct I2 as (pods & pod & uid & A & B & D & E & F). exists pods, pod, uid.
    split; [apply in_app_iff; by left|]. split; [done|]. split; [apply in_app_iff; by left|done].
  - exists st. split; [apply in_app_iff; right; by left|done].
Qed.

(** C13. A worker is released for scheduling only behind every gate.  Whatever the cluster,
    the provider, the host agent and the database answer, [Release] changes no row and
    updates a Node at most once; the Node it writes is the one it read with exactly the
    provisioning taint taken away; and before that write, in the same call, the cluster
    was the approved one, the provider vouched for the machine, its kubelet proved
    membership for this registration contract, the Node matched the durable binding, the
    template and the ownership annotations, it was ready with its network, Cilium ran on
    it, and the host agent had applied the desired version.  A call whose context does
    not hold the hand-off transaction of the operation calls nothing. *)
Theorem release_only_behind_gates held op h d r s' :
  dominator_Release p w held op h (mkRun [] d) = (r, s') ->
  rn_db s' = d /\
  (ProvisionReleaseAuthorized held op = false -> r = Err ErrFenced /\ rn_hist s' = []) /\
  (forall n a, In (EvUpdateNode n a) (rn_hist s') -> exists node hist,
     gates op h node d hist /\ rn_hist s' = hist ++ [EvUpdateNode n a] /\ Forall (fun ev => ~ is_effect ev) hist /\
     n = set_nd_Taints (List.filter (fun t => negb (is_quarantine t)) (nd_Taints node)) node /\ (r = Ok tt <-> is_ok a = true)) /\
  (r = Ok tt -> exists n a, In (EvUpdateNode n a) (rn_hist s')).
Proof.
  unfold dominator_Release. destruct (ProvisionReleaseAuthorized held op); cbn [negb]; [|intros [= <- <-]; by repeat split].
  pose proof (readyNode_shows op h (mkRun [] d)) as S. unfold hoare in S. unfold dom_bind.
  destruct (readyNode p w op h (mkRun [] d)) as [[n|e] s1]; cbn [fst snd] in S; destruct S as [[Ed (l & El & Fl)] G]; cbn [rn_db rn_hist app] in Ed, El.
  2:{ intros [= <- <-]. split; [done|]. split; [done|]. split; [|done]. rewrite El. intros n a Hn. exfalso.
      rewrite Forall_forall in Fl. apply list_elem_of_In in Hn. by apply (Fl _ Hn). }
  specialize (G n eq_refl). destruct n as [node|].
  2:{ intros [= <- <-]. split; [done|]. split; [done|]. split; [|done]. rewrite El. intros n a Hn. exfalso.
      rewrite Forall_forall in Fl. apply list_elem_of_In in Hn. by apply (Fl _ Hn). }
  unfold ask. cbn [ready_gates] in G. rewrite Ed, El in G. set (rel := set_nd_Taints _ node).
  set (a0 := w_update_node w (rn_hist s1) rel). intros E.
  assert (Es : rn_db s' = d /\ rn_hist s' = l ++ [EvUpdateNode rel a0] /\ (r = Ok tt <-> is_ok a0 = true)).
  { destruct a0 as [n|e]; injection E as <- <-; cbn [rn_db rn_hist]; rewrite El, Ed; repeat split; done. }
  destruct Es as (E1 & E2 & E3). split; [done|]. split; [done|]. split.
  - intros n a Hn. rewrite E2 in Hn. apply in_app_iff in Hn as [Hn|[[= <- <-]|[]]].
    + exfalso. rewrite Forall_forall in Fl. apply list_elem_of_In in Hn. by apply (Fl _ Hn).
    + exists node, l. done.
  - intros _. exists rel, a0. rewrite E2. apply in_app_iff. right. by left.
Qed.

(** ** The history of an enrollment *)

(** The calls a run adds, none of them of the kind [bad]; rows may change. *)
Definition adds {A} (bad : event -> Prop) (m : Dom A) : Prop :=
  forall s, exists l, rn_hist (snd (m s)) = rn_hist s ++ l /\ Forall (fun ev => ~ bad ev) l.

Lemma adds_none {A} bad (m : Dom A) : (forall s, rn_hist (snd (m s)) = rn_hist s) -> adds bad m.
Proof. intros E s. exists []. by rewrite E, app_nil_r. Qed.

Lemma adds_ask {A} bad (f : history -> A) ev : (forall a, ~ bad (ev a)) -> adds bad (ask f ev).
Proof. intros N s. exists [ev (f (rn_hist s))]. split; [done|]. by constructor. Qed.

Lemma adds_bind {A B} bad (m : Dom A) (k : A -> Dom B) : adds bad m -> (forall a, adds bad (k a)) -> adds bad (dom_bind m k).
Proof.
  intros M K s. unfold dom_bind. destruct (M s) as (l & E & F). destruct (m s) as [[a|e] s1]; cbn [snd] in *; [|by exists l].
  destruct (K a s1) as (l' & E' & F'). exists (l ++ l'). rewrite E', E, app_assoc. split; [done|]. by apply Forall_app.
Qed.

Lemma adds_try {A} bad (m : Dom A) : adds bad m -> adds bad (dom_try m).
Proof. intros M s. unfold dom_try. destruct (M s) as (l & E & F). destruct (m s). by exists l. Qed.

Lemma adds_store {A} bad (m : Store A) : adds bad (store m).
Proof. apply adds_none. intros s. unfold store. by destruct (m (rn_db s)). Qed.

Lemma adds_shows {A} (bad bad' : event -> Prop) (m : Dom A) F : (forall ev, bad' ev -> bad ev) -> shows bad m F -> adds bad' m.
Proof.
  intros W S s. destruct (S s) as [[_ (l & E & Fl)] _]. exists l. split; [done|].
  eapply Forall_impl; [exact Fl|]. cbn. auto.
Qed.

(** Calls that only a join or a delivery makes. *)
Definition is_secret (ev : event) : Prop :=
  match ev with EvCreateToken _ _ | EvDeleteToken _ _ | EvApprove _ _ | EvPutState _ _ _ _ | EvPutJoin _ _ _ _ => True | _ => False end.

Lemma secret_effect ev : is_secret ev -> is_effect ev.
Proof. by destruct ev. Qed.

Lemma ensureNodeIdentity_adds op h b : adds is_secret (ensureNodeIdentity p w op h b).
Proof.
  unfold ensureNodeIdentity. apply adds_bind; [by apply adds_none|intros ip].
  apply adds_bind; [eapply adds_shows; [apply secret_effect|apply workerMembership_shows]|intros proof].
  apply adds_bind; [apply adds_ask; by intros a []|intros got]. destruct got as [node|e]; [|by apply adds_none].
  match goal with |- adds _ (if ?b then _ else _) => destruct b end; [|by apply adds_none].
  apply adds_bind; [eapply adds_shows; [apply secret_effect|apply registration_shows]|intros reg].
  apply adds_bind.
  { destruct b; [by apply adds_none|]. apply adds_bind; [by apply adds_none|]. intros [b|e]; [|by apply adds_none].
    destruct (bound b proof reg); by apply adds_none. }
  intros b'. apply adds_bind; [by apply adds_none|intros _].
  match goal with |- adds _ (if ?b then _ else _) => destruct b end; [|by apply adds_none].
  destruct b; [|by apply adds_none]. apply adds_bind; [by apply adds_none|intros now]. apply adds_bind; [apply adds_store|intros _].
  apply adds_bind; [apply adds_ask; by intros a []|]. intros [n|e]; by apply adds_none.
Qed.

(** Approvals of a loop: only requests of the token for the node. *)
Definition approvals (tokenID nodeName : string) (l : history) : Prop :=
  Forall (fun ev => match ev with EvApprove c _ => validWorkerCSR c tokenID nodeName = true | _ => ~ is_secret ev end) l.

Definition approves {A} (tokenID nodeName : string) (m : Dom A) : Prop :=
  forall s, exists l, rn_hist (snd (m s)) = rn_hist s ++ l /\ approvals tokenID nodeName l.

Lemma approves_adds {A} tokenID nodeName (m : Dom A) : adds is_secret m -> approves tokenID nodeName m.
Proof.
  intros M s. destruct (M s) as (l & E & F). exists l. split; [done|]. eapply Forall_impl; [exact F|]. cbn. intros ev N.
  destruct ev; try exact N. by exfalso; apply N.
Qed.

Lemma approves_bind {A B} tokenID nodeName (m : Dom A) (k : A -> Dom B) :
  approves tokenID nodeName m -> (forall a, approves tokenID nodeName (k a)) -> approves tokenID nodeName (dom_bind m k).
Proof.
  intros M K s. unfold dom_bind. destruct (M s) as (l & E & F). destruct (m s) as [[a|e] s1]; cbn [snd] in *; [|by exists l].
  destruct (K a s1) as (l' & E' & F'). exists (l ++ l'). rewrite E', E, app_assoc. split; [done|]. by apply Forall_app.
Qed.

Lemma approve_all_approves tokenID nodeName l : approves tokenID nodeName (approve_all w tokenID nodeName l).
Proof.
  induction l as [|c l IH]; cbn [approve_all]; [by apply approves_adds, adds_none|].
  destruct (cs_Username c != _); [exact IH|]. destruct (validWorkerCSR c tokenID nodeName) eqn:V; [|by apply approves_adds, adds_none].
  destruct (cs_Conditions c != 0%nat); [exact IH|]. apply approves_bind.
  { intros s. exists [EvApprove c (w_approve w (rn_hist s) c)]. split; [done|]. by constructor. }
  intros r. apply approves_bind; [by apply approves_adds, adds_none|]. intros gone.
  destruct (is_ok r); [exact IH|]. destruct gone; by apply approves_adds, adds_none.
Qed.

Lemma approveWorkerCSRs_approves ticks op tokenID nodeName : approves tokenID nodeName (approveWorkerCSRs w ticks op tokenID nodeName).
Proof.
  induction ticks as [|n IH]; cbn [approveWorkerCSRs]; [by apply approves_adds, adds_none|].
  apply approves_bind; [by apply approves_adds, adds_none|intros now]. apply approves_bind; [by apply approves_adds, adds_none|intros held].
  apply approves_bind; [by apply approves_adds, adds_none|intros gone]. destruct held as [u|e]; [|destruct gone; by apply approves_adds, adds_none].
  apply approves_bind; [apply approves_adds, adds_ask; by intros a []|intros rs].
  apply approves_bind; [by apply approves_adds, adds_none|intros gone']. destruct rs as [l|e]; [|destruct gone'; by apply approves_adds, adds_none].
  apply approves_bind; [apply approve_all_approves|]. intros []; [exact IH|by apply approves_adds, adds_none].
Qed.

Definition clean (l : history) : Prop := Forall (fun ev => ~ is_secret ev) l.

Definition full_token (t : JoinToken) : string := String.append (tk_ID t) (String.append "." (tk_Secret t)).

(** What a join that ends with [r] adds to the history: nothing of note, a token that was not
    created, or a token that is created, used once and deleted.  Only the last can succeed, and
    only if the deletion did. *)
Definition join_shape (op : Operation) (h : HostView) (r : result unit) (l : history) : Prop :=
  (r <> Ok tt /\ clean l) \/
  (exists l0 t e, r <> Ok tt /\ clean l0 /\ l = l0 ++ [EvCreateToken t (Err e)]) \/
  (exists l0 t la q a rd l3, (r = Ok tt -> rd = Ok tt) /\ clean l0 /\ clean l3 /\ approvals (tk_ID t) (WorkerNodeName (hv_ID h)) la /\
     jr_OperationID q = op_ID op /\ jr_Fence q = op_Fence op /\ jr_Token q = full_token t /\
     l = l0 ++ EvCreateToken t (Ok tt) :: la ++ EvPutJoin (hv_SubdEndpoint h) (subd_identity p h) q a :: EvDeleteToken (tk_ID t) rd :: l3).

Lemma hoare_run {A B} (m : Dom A) (k : A -> Dom B) Q s :
  match m s with (Ok a, s') => hoare (k a) Q s' | (Err e, s') => Q (Err e) s' end -> hoare (dom_bind m k) Q s.
Proof. unfold hoare, dom_bind. by destruct (m s) as [[a|e] s']. Qed.

Lemma joinWorker_shape op h s :
  hoare (joinWorker p w op h (subd_identity p h)) (fun r s' => exists l, rn_hist s' = rn_hist s ++ l /\ join_shape op h r l) s.
Proof.
  set (Q := fun r s' => _). unfold joinWorker.
  match goal with |- context [if ?b then _ else _] => destruct b end; [|exists []; rewrite app_nil_r; split; [done|left; by split; [|constructor]]].
  apply hoare_run. destruct (registration_shows op h s) as [[_ (l0 & E0 & F0)] R].
  assert (C0 : clean l0) by (eapply Forall_impl; [exact F0|]; cbn; auto using secret_effect).
  destruct (registration p w op h s) as [[reg|e] s1]; cbn [fst snd] in *; [|exists l0; split; [done|by left]].
  destruct (R reg eq_refl) as (_ & _ & _ & En & _).
  apply hoare_run. unfold peek at 1. destruct (w_token w (rn_hist s1)) as [t|]; [|exists l0; split; [done|by left]].
  apply hoare_run. unfold ask at 1. destruct (w_create_token w (rn_hist s1) t) as [[]|e]; cbn [is_ok negb].
  2:{ exists (l0 ++ [EvCreateToken t (Err e)]). rewrite app_assoc, <- E0. split; [done|]. right. left. by exists l0, t, e. }
  apply hoare_run. unfold peek at 1. set (s2 := mkRun _ _).
  apply hoare_run. unfold dom_try at 1.
  destruct (approveWorkerCSRs_approves (w_ticks w (rn_hist s2)) op (tk_ID t) (wr_NodeName reg) s2) as (la & Ea & Fa).
  destruct (approveWorkerCSRs w _ op (tk_ID t) (wr_NodeName reg) s2) as [ra s3]. cbn [fst snd] in *.
  apply hoare_run. unfold ask at 1. apply hoare_run. unfold ask at 1. cbn [rn_hist rn_db].
  set (q := mkJoinRequest _ _ _ _ _ _). set (a := w_put_join _ _ _ _ _). set (rd := w_delete_token _ _ _). set (s4 := mkRun _ _).
  assert (E4 : rn_hist s4 = rn_hist s ++ l0 ++ EvCreateToken t (Ok tt) :: la ++ [EvPutJoin (hv_SubdEndpoint h) (subd_identity p h) q a; EvDeleteToken (tk_ID t) rd]).
  { unfold s4. cbn [rn_hist]. rewrite Ea. unfold s2. cbn [rn_hist]. rewrite E0. by rewrite <- !app_assoc. }
  rewrite En in Fa.
  assert (Sh : forall r l3, (r = Ok tt -> rd = Ok tt) -> clean l3 ->
    join_shape op h r (l0 ++ EvCreateToken t (Ok tt) :: la ++ EvPutJoin (hv_SubdEndpoint h) (subd_identity p h) q a :: EvDeleteToken (tk_ID t) rd :: l3)).
  { intros r l3 Hr C3. right. right. exists l0, t, la, q, a, rd, l3. done. }
  match goal with |- context [if ?b then _ else _] => destruct b end.
  2:{ eexists. split; [exact E4|]. apply (Sh _ []); [done|constructor]. }
  match goal with |- context [if ?b then _ else _] => destruct b eqn:Erd end.
  2:{ eexists. split; [exact E4|]. apply (Sh _ []); [done|constructor]. }
  apply hoare_run. destruct (ensureNodeIdentity_adds op h true s4) as (l3 & E5 & C3).
  assert (rd = Ok tt) as Hrd by (by destruct rd as [[]|]).
  destruct (ensureNodeIdentity p w op h true s4) as [[n|e] s5]; cbn [fst snd] in *; (eexists; split; [|by apply (Sh _ l3)]);
    cbn [dom_ret snd]; rewrite E5, E4; rewrite <- !app_assoc; cbn [app]; by rewrite <- !app_assoc.
Qed.

(** The state delivered to the host is the one that the database holds for good. *)
Definition pinned (op : Operation) (d : DB) (x : ExpectedHostState) : Prop :=
  ex_Revision x = 1 /\ ex_Version x <> "" /\ ex_Secret x = None /\
  exists b, In b (worker_provisioning_state d) /\ is_binding op b = true /\ b_expected_state b = Some x.

Lemma Pin_pinned t op x d x' d' : PinProvisionExpectedState t op x d = (Ok x', d') -> pinned op d' x'.
Proof.
  unfold PinProvisionExpectedState. case_match; [done|]. rewrite run_tx_ok. intros E.
  apply tx_bind_ok in E as (u & d1 & E1 & E). apply tx_query_ok in E1 as [_ ->].
  apply tx_bind_ok in E as (y & d2 & E2 & E). apply tx_bind_ok in E as (u2 & d3 & E3 & E). apply tx_lift_ok in E3 as [E3 ->].
  apply require_ok in E3. apply tx_bind_ok in E as (u3 & d4 & E4 & E). injection E4 as _ <-. injection E as <- <-.
  unfold pin_update in E2. destruct (select_one _ _) as [b|] eqn:Es; [|done].
  destruct (b_expected_state b) as [z|] eqn:Eb; [|done]. injection E2 as <- <-. apply select_one_some in Es as [Hb Ib]. bsplit.
  split; [done|]. split; [done|]. split; [done|]. by exists b.
Qed.

(** What a delivery adds: at most one call, with the pinned state. *)
Definition delivery_shape (op : Operation) (h : HostView) s (out : result unit * Run) : Prop :=
  (rn_hist (snd out) = rn_hist s /\ fst out <> Ok tt) \/
  exists x a, rn_hist (snd out) = rn_hist s ++ [EvPutState (hv_SubdEndpoint h) (subd_identity p h) x a] /\ pinned op (rn_db (snd out)) x /\
    (fst out = Ok tt -> exists st, a = (200, Ok (Some st)) /\ hs_Identity st = subd_identity p h /\ hs_Outcome st = "applied" /\
       hs_AppliedRevision st = ex_Revision x /\ hs_ExpectedVersion st = ex_Version x).

Lemma deliverExpectedState_shape op h s : delivery_shape op h s (deliverExpectedState p w op h (subd_identity p h) s).
Proof.
  unfold deliverExpectedState, dom_bind at 1, store_read.
  destruct (ProvisionBinding_read op (rn_db s)) as [b|e]; [|by left].
  unfold dom_bind at 1, dom_lift. destruct (desired_expected p op h b) as [x|e]; [|by left].
  unfold dom_bind at 1, peek. unfold dom_bind at 1, store.
  destruct (PinProvisionExpectedState _ op x (rn_db s)) as [[y|e] d'] eqn:Ep; [|by left]. apply Pin_pinned in Ep.
  unfold dom_bind at 1, ask. cbn [rn_hist rn_db]. destruct (w_put_state _ _ _ _ _) as [code ans]. right.
  exists y, (code, ans).
  match goal with |- context [match code with _ => _ end] => destruct (ok_200 code) as [->|E200]; [|rewrite E200; done] end.
  destruct ans as [[st|]|e]; [|done|done].
  match goal with |- context [if ?b then _ else _] => destruct b eqn:E end; [|done]. bsplit.
  split; [done|]. split; [done|]. intros _. by exists st.
Qed.

(** What an enrollment adds: checks, then a join, then a delivery. *)
Definition enroll_shape (op : Operation) (h : HostView) s (out : result unit * Run) : Prop :=
  exists l0 l1 rj, clean l0 /\ join_shape op h rj l1 /\ (fst out = Ok tt -> rj = Ok tt) /\
    ((rn_hist (snd out) = rn_hist s ++ l0 ++ l1 /\ fst out <> Ok tt) \/
     exists x a, rn_hist (snd out) = rn_hist s ++ l0 ++ l1 ++ [EvPutState (hv_SubdEndpoint h) (subd_identity p h) x a] /\ pinned op (rn_db (snd out)) x /\
       (fst out = Ok tt -> exists st, a = (200, Ok (Some st)) /\ hs_Outcome st = "applied" /\ hs_AppliedRevision st = 1)).

Lemma enroll_shape_stop op h s (r : result unit) d : r <> Ok tt -> enroll_shape op h s (r, mkRun (rn_hist s) d).
Proof.
  intros N. exists [], [], r. split; [constructor|]. split; [left; by split; [|constructor]|]. split; [done|]. left. cbn. by rewrite app_nil_r.
Qed.

Lemma enroll_shape_bind {A} op h (m : Dom A) k s :
  adds is_secret m -> (forall a s1, enroll_shape op h s1 (k a s1)) -> enroll_shape op h s (dom_bind m k s).
Proof.
  intros M K. unfold dom_bind. destruct (M s) as (l & E & C). destruct (m s) as [[a|e] s1]; cbn [snd] in E.
  - destruct (K a s1) as (l0 & l1 & rj & C0 & J & O & [[H N]|(x & an & H & Q)]); exists (l ++ l0), l1, rj;
      (split; [by apply Forall_app|]); (split; [exact J|]); (split; [exact O|]); rewrite E in H.
    + left. split; [|done]. by rewrite H, <- !app_assoc.
    + right. exists x, an. split; [|done]. by rewrite H, <- !app_assoc.
  - exists l, [], (Err e). split; [exact C|]. split; [left; by split; [|constructor]|]. split; [done|]. left. cbn. by rewrite app_nil_r.
Qed.

Lemma enroll_shape_need op h s (b : bool) (k : Dom unit) msg :
  enroll_shape op h s (k s) -> enroll_shape op h s ((if b then k else dom_err msg) s).
Proof. destruct b; [done|]. intros _. destruct s as [hist d]. by apply (enroll_shape_stop op h (mkRun hist d)). Qed.

Lemma EnrollAndJoin_shape op h s : enroll_shape op h s (dominator_EnrollAndJoin p w op h s).
Proof.
  unfold dominator_EnrollAndJoin.
  apply enroll_shape_bind; [eapply adds_shows; [apply secret_effect|apply validateCluster_shows]|]. intros _ s1. apply enroll_shape_need.
  apply enroll_shape_bind; [eapply adds_shows; [apply secret_effect|apply verifiedWorker_shows]|]. intros _ s2.
  apply enroll_shape_bind; [apply adds_bind; [apply adds_ask; by intros a []|intros; by apply adds_none]|]. intros _ s3.
  apply enroll_shape_bind; [by apply adds_none|]. intros ip s4.
  apply enroll_shape_bind; [apply adds_bind; [apply adds_ask; by intros a []|intros; by apply adds_none]|]. intros _ s5.
  apply enroll_shape_bind; [apply adds_ask; by intros a []|]. intros [code ans] s6.
  assert (Stop : forall msg, enroll_shape op h s6 (dom_err msg s6)).
  { intros msg. destruct s6 as [hist d]. by apply (enroll_shape_stop op h (mkRun hist d)). }
  match goal with |- context [match code with _ => _ end] => destruct (ok_200 code) as [->|E200]; [|rewrite E200; apply Stop] end.
  destruct ans as [[st|]|e]; [|apply Stop|apply Stop]. apply enroll_shape_need.
  pose proof (joinWorker_shape op h s6) as Sj. unfold hoare in Sj. destruct Sj as (l & El & J). unfold dom_bind.
  destruct (joinWorker p w op h (subd_identity p h) s6) as [[[]|e] s7]; cbn [fst snd] in El, J.
  - destruct (deliverExpectedState_shape op h s7) as [[H N]|(x & a & H & P & Q)]; exists [], l, (Ok tt); (split; [constructor|]); (split; [exact J|]);
      (split; [done|]); rewrite El in H; cbn [app].
    + left. done.
    + right. exists x, a. split; [by rewrite H, <- app_assoc|]. split; [done|]. intros O. destruct (Q O) as (st' & -> & _ & Q1 & Q2 & _).
      exists st'. split; [done|]. split; [done|]. rewrite Q2. apply P.
  - exists [], l, (Err e). split; [constructor|]. split; [exact J|]. split; [done|]. left. done.
Qed.

Lemma clean_not l ev : clean l -> In ev l -> ~ is_secret ev.
Proof. unfold clean. rewrite Forall_forall. intros C I. apply C. by apply list_elem_of_In. Qed.

Lemma approvals_in tokenID nodeName l ev :
  approvals tokenID nodeName l -> In ev l -> match ev with EvApprove c _ => validWorkerCSR c tokenID nodeName = true | _ => ~ is_secret ev end.
Proof. unfold approvals. rewrite Forall_forall. intros C I. apply (C ev). by apply list_elem_of_In. Qed.

(** Every token whose creation was acknowledged is deleted later; if [fine], the deletion was
    acknowledged too. *)
Fixpoint tokens_deleted (fine : Prop) (l : history) : Prop :=
  match l with
  | [] => True
  | ev :: rest =>
      match ev with
      | EvCreateToken t (Ok _) => exists rd, In (EvDeleteToken (tk_ID t) rd) rest /\ (fine -> rd = Ok tt)
      | _ => True
      end /\ tokens_deleted fine rest
  end.

Lemma tokens_deleted_app fine a b : tokens_deleted fine a -> tokens_deleted fine b -> tokens_deleted fine (a ++ b).
Proof.
  intros A B. induction a as [|ev a IH]; [done|]. destruct A as [A1 A2]. cbn. split; [|by apply IH].
  destruct ev as [| | | | | | | | |t [u|e]| | | | | | |]; try done. destruct A1 as (rd & I & O). exists rd. split; [|done].
  apply in_app_iff. by left.
Qed.

Lemma tokens_deleted_mono (P Q : Prop) l : (Q -> P) -> tokens_deleted P l -> tokens_deleted Q l.
Proof.
  intros W. induction l as [|ev l IH]; [done|]. intros [A B]. split; [|by apply IH].
  destruct ev as [| | | | | | | | |t [u|e]| | | | | | |]; try done. destruct A as (rd & I & O). exists rd. auto.
Qed.

Lemma tokens_deleted_split fine l1 t l2 : tokens_deleted fine (l1 ++ EvCreateToken t (Ok tt) :: l2) ->
  exists rd, In (EvDeleteToken (tk_ID t) rd) l2 /\ (fine -> rd = Ok tt).
Proof. induction l1 as [|ev l1 IH]; cbn; intros [A B]; [exact A|by apply IH]. Qed.

Lemma clean_deleted fine l : clean l -> tokens_deleted fine l.
Proof.
  induction l as [|ev l IH]; intros C; [done|]. apply Forall_cons in C as [N C]. split; [|by apply IH].
  by destruct ev.
Qed.

Lemma approvals_deleted fine tokenID nodeName l : approvals tokenID nodeName l -> tokens_deleted fine l.
Proof.
  induction l as [|ev l IH]; intros C; [done|]. apply Forall_cons in C as [N C]. split; [|by apply IH].
  by destruct ev.
Qed.

(** A call that a join may add: which requests it may carry. *)
Definition join_call (op : Operation) (h : HostView) (r : result unit) (l : history) (ev : event) : Prop :=
  match ev with
  | EvCreateToken _ (Err _) => r <> Ok tt
  | EvApprove c _ => exists t, In (EvCreateToken t (Ok tt)) l /\ validWorkerCSR c (tk_ID t) (WorkerNodeName (hv_ID h)) = true
  | EvPutJoin ep id q _ => ep = hv_SubdEndpoint h /\ id = subd_identity p h /\ jr_OperationID q = op_ID op /\
      jr_Fence q = op_Fence op /\ exists t, In (EvCreateToken t (Ok tt)) l /\ jr_Token q = full_token t
  | EvPutState _ _ _ _ => False
  | _ => True
  end.

Lemma join_call_clean op h r l l0 ev : clean l0 -> In ev l0 -> join_call op h r l ev.
Proof. intros C I. pose proof (clean_not _ _ C I) as N. destruct ev; try done; by destruct N. Qed.

(** The claims about a join, on the calls it adds. *)
Lemma join_shape_safe op h r l :
  join_shape op h r l -> tokens_deleted (r = Ok tt) l /\ (forall ev, In ev l -> join_call op h r l ev) /\
  (r = Ok tt -> exists t, In (EvCreateToken t (Ok tt)) l).
Proof.
  intros [[N C]|[(l0 & t & e & N & C & ->)|(l0 & t & la & q & an & rd & l3 & O & C0 & C3 & A & Q1 & Q2 & Q3 & ->)]].
  - split; [by apply clean_deleted|]. split; [|done]. intros ev. by apply join_call_clean.
  - split; [apply tokens_deleted_app; [by apply clean_deleted|by repeat constructor]|]. split; [|done].
    intros ev I. apply in_app_iff in I as [I|[<-|[]]]; [by eapply join_call_clean|done].
  - assert (It : In (EvCreateToken t (Ok tt)) (l0 ++ EvCreateToken t (Ok tt) :: la ++
        EvPutJoin (hv_SubdEndpoint h) (subd_identity p h) q an :: EvDeleteToken (tk_ID t) rd :: l3)) by (apply in_app_iff; right; by left).
    split; [|split; [|eauto]].
    + apply tokens_deleted_app; [by apply clean_deleted|]. cbn. split; [exists rd; split; [apply in_app_iff; right; right; by left|done]|].
      apply tokens_deleted_app; [by apply (approvals_deleted _ _ _ _ A)|]. cbn. split; [done|]. split; [done|]. by apply clean_deleted.
    + intros ev I. apply in_app_iff in I as [I|[<-|I]]; [by apply (join_call_clean _ _ _ _ _ _ C0)|done|].
      apply in_app_iff in I as [I|[<-|[<-|I]]]; [|split_and!; eauto|done|by apply (join_call_clean _ _ _ _ _ _ C3)].
      pose proof (approvals_in _ _ _ _ A I) as Hev. destruct ev; try done; try (by destruct Hev). by exists t.
Qed.

(** C20. Enrollment handles its secrets.  Whatever the cluster, the provider, the host and the
    network answer, in one run of [EnrollAndJoin]: a bootstrap token whose creation was
    acknowledged is followed by a call that deletes it, and a run that succeeds created a token
    and had every such deletion acknowledged; when a creation or a deletion is answered with an
    error, lost answers included, the run fails (and may leave the token behind), and without an acknowledged creation no join is sent.  A join goes only to this worker's
    agent, under this operation's fence, with the token created; every certificate request
    approved carries that token's identity and is a valid kubelet request for exactly this
    worker's node name; and a state sent to the host agent is the revision-1 state, free of
    Secrets, that the database holds pinned for this operation.  A run that succeeds has
    delivered it and was told that it is applied. *)
Theorem enrollment_handles_secrets op h d r s' :
  dominator_EnrollAndJoin p w op h (mkRun [] d) = (r, s') ->
  (forall t l1 l2, rn_hist s' = l1 ++ EvCreateToken t (Ok tt) :: l2 ->
     exists rd, In (EvDeleteToken (tk_ID t) rd) l2 /\ (r = Ok tt -> rd = Ok tt)) /\
  (forall t e, In (EvCreateToken t (Err e)) (rn_hist s') -> r <> Ok tt) /\
  (r = Ok tt -> exists t, In (EvCreateToken t (Ok tt)) (rn_hist s')) /\
  (forall ep id q a, In (EvPutJoin ep id q a) (rn_hist s') ->
     ep = hv_SubdEndpoint h /\ id = subd_identity p h /\ jr_OperationID q = op_ID op /\ jr_Fence q = op_Fence op /\
     exists t, In (EvCreateToken t (Ok tt)) (rn_hist s') /\ jr_Token q = full_token t) /\
  (forall c a, In (EvApprove c a) (rn_hist s') -> exists t, In (EvCreateToken t (Ok tt)) (rn_hist s') /\
     validWorkerCSR c (tk_ID t) (WorkerNodeName (hv_ID h)) = true) /\
  (forall ep id x a, In (EvPutState ep id x a) (rn_hist s') ->
     ep = hv_SubdEndpoint h /\ id = subd_identity p h /\ pinned op (rn_db s') x) /\
  (r = Ok tt -> exists x st, In (EvPutState (hv_SubdEndpoint h) (subd_identity p h) x (200, Ok (Some st))) (rn_hist s') /\
     hs_Outcome st = "applied" /\ hs_AppliedRevision st = 1).
Proof.
  intros E. pose proof (EnrollAndJoin_shape op h (mkRun [] d)) as S. rewrite E in S. destruct S as (l0 & l1 & rj & C0 & J & Hr & S).
  cbn [fst snd rn_hist app] in Hr, S. destruct (join_shape_safe op h rj l1 J) as (T1 & A1 & P1).
  assert (Hh : exists l2, rn_hist s' = l0 ++ l1 ++ l2 /\ tokens_deleted (r = Ok tt) l2 /\
    (forall ev, In ev l2 -> exists x a, ev = EvPutState (hv_SubdEndpoint h) (subd_identity p h) x a /\ pinned op (rn_db s') x)).
  { destruct S as [[H _]|(x & a & H & P & _)]; rewrite H.
    - exists []. rewrite app_nil_r. split; [done|]. split; [done|]. by intros ev [].
    - eexists. split; [done|]. split; [by repeat constructor|]. intros ev [<-|[]]. eauto. }
  destruct Hh as (l2 & Hh & T2 & A2).
  assert (Td : tokens_deleted (r = Ok tt) (rn_hist s')).
  { rewrite Hh. apply tokens_deleted_app; [by apply clean_deleted|]. apply tokens_deleted_app; [|done]. by eapply tokens_deleted_mono. }
  assert (Sub : forall ev, In ev l1 -> In ev (rn_hist s')).
  { intros ev I. rewrite Hh. apply in_app_iff. right. apply in_app_iff. by left. }
  assert (Src : forall ev, In ev (rn_hist s') -> ~ is_secret ev \/ join_call op h rj l1 ev /\ In ev l1 \/
     exists x a, ev = EvPutState (hv_SubdEndpoint h) (subd_identity p h) x a /\ pinned op (rn_db s') x).
  { intros ev I. rewrite Hh in I. apply in_app_iff in I as [I|I]; [left; by apply (clean_not _ _ C0)|].
    apply in_app_iff in I as [I|I]; [right; left; auto|right; right; auto]. }
  split_and!.
  - intros t k1 k2 Hk. rewrite Hk in Td. exact (tokens_deleted_split _ _ _ _ Td).
  - intros t e I O. destruct (Src _ I) as [N|[[N _]|(x & a & [=] & _)]]; [by apply N|by apply N, Hr].
  - intros O. destruct (P1 (Hr O)) as (t & I). eauto.
  - intros ep id q a I. destruct (Src _ I) as [N|[[(Q1 & Q2 & Q3 & Q4 & t & It & Q5) _]|(x & b & [=] & _)]]; [by destruct N|]. split_and!; eauto.
  - intros c a I. destruct (Src _ I) as [N|[[(t & It & V) _]|(x & b & [=] & _)]]; [by destruct N|eauto].
  - intros ep id x a I. destruct (Src _ I) as [N|[[[] _]|(y & b & [= -> -> -> ->] & P)]]; [by destruct N|done].
  - intros O. destruct S as [[_ N]|(x & a & H & _ & Q)]; [done|]. destruct (Q O) as (st & -> & Q1 & Q2). exists x, st.
    split; [|done]. rewrite H. apply in_app_iff. right. apply in_app_iff. right. by left.
Qed.
End Facts.

(** ** The controller with the Dominator as its executor *)

(** C14. The zone's Dominator is confined to the operation it claims.  With its own executor
    behind it, whatever the cluster, the provider and the hosts answer, a run of the
    provisioning controller keeps the ledger and the targets, and either changes nothing or
    works on one provisioning operation of its zone that it is authorized for: all other
    operations, all hosts that the operation does not name, the capacity reservations of those
    hosts, the node bindings of all other operations, and every row of all remaining tables are
    exactly what they were, none added and none lost. *)
Theorem dominator_run_confined {gonet : GoNet} {gourl : GoURL} {k8s : K8s} {dg : Digest} {fp : Fingerprints} {x509 : X509} {sha1 : Sha1}
    (p : DominatorConfig) (w : World) committed e ticks z identity lease d r d' :
  Ledger d -> targets_ok d -> provision_RunOnce (dominator_executor p w committed) e ticks z identity lease d = (r, d') ->
  Ledger d' /\ targets_ok d' /\
  (d' = d \/ exists o, In o (operations d) /\ o_zone_id o = z /\ o_kind o = Kprovision /\
     dominator_authorized d identity o = true /\ confined_to o d d').
Proof. apply run_confined. apply dominator_laws. Qed.

(** ** Witnesses: a worker is launched, enrolled, joined and released *)
#[local] Existing Instance demo_net.
#[local] Existing Instance demo_digest.
#[local] Instance worker_k8s : K8s := {| qualified_name := fun k => k != ""; valid_label_value := fun _ => true |}.
#[local] Instance worker_prints : Fingerprints :=
  {| digest := fun x => ex_Version x; SecretFingerprint := ks_Name; join_digest := fun _ _ _ => demo_hash |}.
#[local] Instance worker_url : GoURL :=
  {| url_parse := fun s => if s == "https://10.0.0.9:44001" then Some (mkURL "https" false "10.0.0.9:44001" "10.0.0.9" "44001" "" "" "") else None;
     is_ip := fun _ => true |}.
#[local] Instance worker_sha1 : Sha1 := {| sha1_uint32 := fun s => Z.of_nat (String.length s) |}.
(** A cluster root, the worker's kubelet certificate and its certificate request. *)
#[local] Instance worker_x509 : X509 :=
  {| parse_request := fun s => if s == "csr" then Some (mkCertRequest true "system:node:crane-ai" ["system:nodes"] 0) else None;
     parse_cert := fun s => if s == "root" then Some (mkCert "kubernetes" [] true "00")
                            else if s == "kubelet" then Some (mkCert "system:node:crane-ai" ["system:nodes"] false "11") else None;
     chain_ok := fun ca c => ca == "root"; key_pair := fun _ _ => true; signature_ok := fun _ data sig => data == sig; proof_json := fun challenge _ _ _ => challenge |}.

Definition worker_host : HostView :=
  mkHostView "ai" "aws" "i-1" "z1" HostConverging HostHealthUnknown None None demo_gid "pool" "aii" "v1" "" (mkResources 2 8192 1) false false
    "https://10.0.0.9:44001".
Definition worker_op : Operation :=
  mkOperation "aii" Kprovision "z1" demo_gid "ai" "a"
    (mkTarget "c1" "pool" "https://10.0.0.1:6443" "sha256:00" "aws" "acct" "us-west-2" "us-west-2a" "us-west-2" "us-west-2a" "general"
       "rev-1" (Some (JObj [("image_id", JStr "ami-1")])) demo_scheduling "i-spire") 1 Olaunching "aiii" (PJson (JObj [])) demo_owner 0 2 "" 0 0.
Definition worker_taint : SchedulingTaint := mkTaint ProvisioningTaint "pending" "NoSchedule".
Definition worker_node : K8sNode :=
  annotate (ownership worker_op worker_host demo_hash)
    (mkK8sNode "crane-ai" "uid-1" "aws:///us-west-2a/i-1" [("InternalIP", "10.0.0.9")] (SchedulingLabels demo_scheduling "pool") ∅ [worker_taint]
       [("Ready", "True"); ("NetworkUnavailable", "False")]).
Definition worker_cilium : Pod := mkPod "crane-ai" [mkOwner "DaemonSet" "ds-1" true] [("Ready", "True")] false "Running" [true] 1.
Definition worker_csr : CSR :=
  mkCSR "csr-1" "system:bootstrap:abc123" KubeletSigner ["system:bootstrappers:crane"] "csr" ["client auth"; "digital signature"] 0.
Definition worker_status : HostAgentStatus := mkStatus "spiffe://crane/subd/i-1" 7 "i" true 1 1 "applied" "v1" None.

Definition worker_world (t : Z) : World :=
  mkWorld (fun _ _ => Ok (mkRuntimeHost "i-1" "10.0.0.9" "aws:///us-west-2a/i-1")) (fun _ _ _ => Ok (mkIdentity "10.0.0.9" "aws:///us-west-2a/i-1"))
    (fun _ _ _ => Ok tt) (fun _ _ _ _ => Ok tt) (fun _ => Ok {["cluster_id" := "c1"]}) (fun _ _ => Ok worker_node) (fun _ n => Ok n)
    (fun _ _ => Ok [worker_cilium]) (fun _ => Ok "ds-1") (fun _ _ => Ok tt) (fun _ _ => Ok tt) (fun _ => Ok [worker_csr]) (fun _ _ => Ok tt)
    (fun _ _ _ => (200, Ok (Some worker_status))) (fun _ _ _ _ => (200, Ok (Some worker_status)))
    (fun _ _ _ q => (200, Ok (Some (mkJoinResult (jr_OperationID q) "applied"))))
    (fun _ _ _ c => (200, Ok (Some (mkMembership demo_hash "crane-ai" "uid-1" "kubelet" c))))
    (fun _ => Some (mkToken "abc123" "0123456789abcdef")) (fun _ => Some "nonce") (fun _ => t + 2) (fun _ => 1%nat) (fun _ => false).

Definition worker_policy : Policy := fun _ _ _ _ =>
  Ok (StarDict (<["image_id" := Some "ami-1"]> (<["track" := Some "stable"]> (<["version" := Some "v1"]> ∅)))).
Definition worker_dominator : DominatorConfig := mkDominatorConfig true true true true (Some worker_policy) "crane" "c1" "root".

Definition dominator_run (t : Z) (d : DB) : result unit * DB :=
  provision_RunOnce (dominator_executor worker_dominator (worker_world t) d) (env_at "p" t) [] "z1" demo_owner 0 d.
Definition db_launched : DB := snd (dominator_run 1000 db_two).
Definition db_enrolled : DB := snd (dominator_run 2000 db_launched).
Definition db_released : DB := snd (dominator_run 3000 db_enrolled).

(** Three runs of the real executor take the oldest intent to READY. *)
Example dominator_three_runs :
  fst (dominator_run 1000 db_two) = Ok tt /\ fst (dominator_run 2000 db_launched) = Ok tt /\ fst (dominator_run 3000 db_enrolled) = Ok tt /\
  map h_state (host db_released) = [HostConverging; HostReady; HostRequested].
Proof. vm_compute. done. Qed.

Lemma dominator_run_confined_witness : Ledger db_launched /\ targets_ok db_launched.
Proof.
  destruct (dominator_run_confined worker_dominator (worker_world 1000) db_two (env_at "p" 1000) [] "z1" demo_owner 0 db_two _ db_launched
              (proj1 db_two_ledger) (proj2 db_two_ledger) (surjective_pairing _)) as (H1 & H2 & _).
  exact (conj H1 H2).
Defined.

Definition release_run : result unit * Run :=
  dominator_Release worker_dominator (worker_world 3000) (Some worker_op) worker_op worker_host (mkRun [] db_enrolled).

(** The release succeeds, and takes the one taint away. *)
Lemma release_only_behind_gates_witness :
  fst release_run = Ok tt /\
  exists node hist n a, gates worker_dominator worker_op worker_host node db_enrolled hist /\ rn_hist (snd release_run) = hist ++ [EvUpdateNode n a] /\
    n = set_nd_Taints (List.filter (fun t => negb (is_quarantine t)) (nd_Taints node)) node.
Proof.
  split; [by vm_compute|].
  destruct (release_only_behind_gates worker_dominator (worker_world 3000) (Some worker_op) worker_op worker_host db_enrolled _ _
              (surjective_pairing release_run)) as (_ & _ & U & O).
  destruct O as (n & a & I); [by vm_compute|]. destruct (U n a I) as (node & hist & G & H & _ & E & _).
  exists node, hist, n, a. exact (conj G (conj H E)).
Defined.

(** The database of the enrollment: the launched worker, claimed and registering. *)
Definition db_registering : DB :=
  snd ((st! op := ClaimDominator 2000 "z1" Kprovision demo_owner (120 * 1000000000) in SetProvisionState 2001 op HostBooting HostRegistering) db_launched).
Definition enroll_run : result unit * Run :=
  dominator_EnrollAndJoin worker_dominator (worker_world 2000) worker_op worker_host (mkRun [] db_registering).

Definition creates (id : string) (ev : event) : bool := match ev with EvCreateToken t (Ok _) => tk_ID t == id | _ => false end.

Lemma creates_split id l : existsb (creates id) l = true -> exists t l1 l2, l = l1 ++ EvCreateToken t (Ok tt) :: l2 /\ tk_ID t = id.
Proof.
  intros E. apply existsb_exists in E as (ev & I & C). destruct ev; try done. destruct r as [[]|]; [|done]. cbn in C. bsplit.
  apply in_split in I as (l1 & l2 & ->). by exists t, l1, l2.
Qed.

Lemma enrollment_handles_secrets_witness :
  fst enroll_run = Ok tt /\
  (exists t l1 l2, rn_hist (snd enroll_run) = l1 ++ EvCreateToken t (Ok tt) :: l2 /\ tk_ID t = "abc123" /\ In (EvDeleteToken (tk_ID t) (Ok tt)) l2) /\
  exists x st, In (EvPutState "https://10.0.0.9:44001" "spiffe://crane/subd/i-1" x (200, Ok (Some st))) (rn_hist (snd enroll_run)) /\
     hs_Outcome st = "applied" /\ hs_AppliedRevision st = 1.
Proof.
  destruct (enrollment_handles_secrets worker_dominator (worker_world 2000) worker_op worker_host db_registering _ _
              (surjective_pairing enroll_run)) as (T & _ & _ & _ & _ & _ & D).
  assert (fst enroll_run = Ok tt) as Hok by (vm_compute; reflexivity).
  split; [exact Hok|]. split; [|exact (D Hok)].
  destruct (creates_split "abc123" (rn_hist (snd enroll_run))) as (t & l1 & l2 & E & Et); [by vm_compute|].
  destruct (T t l1 l2 E) as (rd & I & O). rewrite (O Hok) in I. exists t, l1, l2. exact (conj E (conj Et I)).
Defined.
