(* ===== verification/Worker.v ===== *)
(** * A worker's host agent and its Dominator together

    What the Dominator's readiness gate learns from a host agent, composed with what the
    agent did on its host (files [Subd] and [Dominator]). *)
From S2P Require Import Prelude GoStrings Sql Api Schema Lease Handoff Scheduling Catalog Bootstrap Regex Subd SubdFacts HostRpc Dominator.

Local Open Scope string_scope.
Local Open Scope list_scope.
Local Open Scope Z_scope.
Local Open Scope crane_scope.

Section Worker.
Context {H : Type} {host : HostOps H} {k8s : K8s} {names : K8sNames} {fp : Fingerprints} {dg : Digest} {gourl : GoURL} {faults : Faults}.
Context (identity : string) (cfg : AgentConfig) (challenge_bytes : string -> option Z).
Context (join_digest_length : forall e c r, String.length (join_digest e c r) = 64%nat)
        (url_parse_empty : forall u, url_parse "" = Some u -> u_Host u = "").

(** C15. The readiness gate tells the truth about the host: when the status of a live agent,
    whatever it went through, passes the Dominator's check for a desired version, the
    last state enforced on the host is of revision 1 and of that version, it succeeded,
    and no other content was ever enforced there. *)
Theorem ready_worker_enforced pid inv (m : Machine H) version :
  life identity cfg challenge_bytes (Some (pid, inv)) m -> workerExpectedStateReady (mc_view m) version = true ->
  exists x, last (enforcements (mc_log m)) = Some (x, true) /\ ex_Revision x = 1 /\ ex_Version x = version /\
    forall y ok, In (y, ok) (enforcements (mc_log m)) -> ex_Revision y = 1 /\ digest y = digest x.
Proof.
  intros L R. destruct (life_alive _ _ _ join_digest_length url_parse_empty _ _ L) as [[[(_ & _ & Pos) _] (Kn & T & _)] V].
  rewrite V in R. unfold workerExpectedStateReady in R. cbn [status_of hs_Ready hs_AcceptedRevision hs_AppliedRevision hs_Outcome hs_ExpectedVersion] in R.
  bsplit. destruct (st_outcome _ _ T) as [E La]; [done|]. exists (sa_Request (mc_saved m)). split; [done|]. split; [done|].
  match goal with Ho : sa_Outcome _ = "applied", Hv : context [sa_Outcome _ == "applied"] |- _ => rewrite Ho, E, !eq_refl_true in Hv; split; [exact Hv|] end.
  intros y ok Hy. pose proof (Pos y ok Hy). destruct (st_covers _ _ T y ok Hy) as [Lt|[Eq Dy]]; [lia|]. split; [lia|].
  destruct Kn as [Kn|(_ & Dg & _)]; [by match goal with Ho : sa_Outcome _ = "applied" |- _ => rewrite Kn in Ho end|]. by rewrite Dy.
Qed.

(** A state of a later revision, such as a Secret delivered while the worker is still being
    provisioned, closes the gate for good: no later status of the agent passes it. *)
Theorem later_revision_blocks_readiness pid inv (m : Machine H) x ok version :
  life identity cfg challenge_bytes (Some (pid, inv)) m -> In (x, ok) (enforcements (mc_log m)) -> 1 < ex_Revision x ->
  workerExpectedStateReady (mc_view m) version = false.
Proof.
  intros L Hx G. destruct (life_alive _ _ _ join_digest_length url_parse_empty _ _ L) as [[_ (_ & T & _)] V].
  rewrite V. unfold workerExpectedStateReady. cbn [status_of hs_AcceptedRevision].
  assert (1 < ex_Revision (sa_Request (mc_saved m))) by (destruct (st_covers _ _ T x ok Hx) as [|[]]; lia).
  rewrite (bool_decide_eq_false_2 (ex_Revision (sa_Request (mc_saved m)) = 1)) by lia. by rewrite !andb_false_r.
Qed.
End Worker.

(** ** Witness *)
#[local] Existing Instance demo_names.
#[local] Existing Instance demo_k8s_names.
#[local] Existing Instance demo_prints.
#[local] Existing Instance demo_sum.
#[local] Existing Instance demo_urls.
#[local] Existing Instance demo_host.
#[local] Existing Instance demo_faults.

Lemma ready_worker_enforced_witness :
  exists x, last (enforcements (mc_log demo_resumed)) = Some (x, true) /\ ex_Revision x = 1 /\ ex_Version x = "1.2" /\
    forall y ok, In (y, ok) (enforcements (mc_log demo_resumed)) -> ex_Revision y = 1 /\ digest y = digest x.
Proof.
  apply (ready_worker_enforced demo_me demo_agent (fun _ => None)) with (pid := 2) (inv := "i"); [done|done|exact demo_life|by vm_compute].
Defined.
