(* ===== verification/LocalHost.v ===== *)
(** * The local host: internal/subd host.go, kubernetes.go, worker_join.go, config.go and
      the collectors

    The implementation of the host interface of [Subd] on a real machine.  The machine is a
    parameter ([HostEnv]): commands, the Kubernetes API and the kubelet's files, each call
    with the state it leaves. *)
From S2P Require Import Prelude GoStrings Sql Api Schema Lease Handoff Scheduling Catalog Bootstrap Regex Subd HostRpc Dominator.
From Stdlib Require Import Ascii.
From stdpp Require Import sorting pretty.

Local Open Scope string_scope.
Local Open Scope list_scope.
Local Open Scope Z_scope.
Local Open Scope crane_scope.

(** ** config.go *)

(** [strconv.Atoi] on an optional sign and decimal digits. *)
Fixpoint digits_value (acc : Z) (s : string) : option Z :=
  match s with
  | EmptyString => Some acc
  | String c r => if digit c then digits_value (acc * 10 + Z.of_nat (nat_of_ascii c - 48)) r else None
  end.

Definition Atoi (s : string) : option Z :=
  let signed := match s with
                | String "-" r => if r == "" then None else option_map Z.opp (digits_value 0 r)
                | String "+" r => if r == "" then None else digits_value 0 r
                | EmptyString => None
                | _ => digits_value 0 s
                end in
  match signed with
  | Some n => if (- 2 ^ 63 <=? n) && (n <=? MaxInt64) then Some n else None
  | None => None
  end.

(** [net.SplitHostPort], and [net.ParseIP] with [IsPrivate() || IsLoopback()]. *)
Class ListenNet : Type := { split_host_port : string -> option (string * string); private_or_loopback : string -> bool }.

Definition Config_Validate `{ListenNet} `{Spiffe} (c : AgentConfig) : result unit :=
  guard match split_host_port (ac_ListenAddress c) with
        | Some (host, port) => match Atoi port with
                               | Some n => negb ((n <? 1) || (65535 <? n)) && private_or_loopback host
                               | None => false
                               end
        | None => false
        end else ErrMsg "Subd listen address must be a private or loopback IP and port" in
  guard bool_decide (trust_domain (ac_TrustDomain c) = Some (ac_TrustDomain c)) else ErrMsg "invalid Subd trust domain" in
  guard ac_WriterIdentity c != "" else ErrMsg "Subd writer identity is required" in
  guard forallb (fun raw => match spiffe_id raw with
                            | Some (td, path) => (td == ac_TrustDomain c) && (path != "")
                            | None => false
                            end) (ac_WriterIdentity c :: ac_ReaderIdentities c)
    else ErrMsg "Subd peer identity must belong to its trust domain" in
  Ok tt.

Definition validateOwnID `{Spiffe} (raw domain : string) : result unit :=
  require match spiffe_id raw with
          | Some (td, path) =>
              negb ((td != domain) || negb (HasPrefix path "/subd/") || Contains (TrimPrefix path "/subd/") "/" || (path == "/subd/"))
          | None => false
          end (ErrMsg "unexpected Subd workload identity").

(** ** The collectors *)

(** [strings.Split(s, sep)] for a separator of one character. *)
Fixpoint split_from (sep : ascii) (cur s : string) : list string :=
  match s with
  | EmptyString => [cur]
  | String c r => if Ascii.eqb c sep then cur :: split_from sep "" r else split_from sep (String.append cur (String c "")) r
  end.
Definition Split (s : string) (sep : ascii) : list string := split_from sep "" s.
Definition newline : ascii := ascii_of_nat 10.
Definition split_lines (s : string) : list string := Split s newline.

(** [strings.Fields]. *)
Fixpoint Fields_from (cur s : string) : list string :=
  match s with
  | EmptyString => if cur == "" then [] else [cur]
  | String c r => if is_space c then (if cur == "" then Fields_from "" r else cur :: Fields_from "" r)
                  else Fields_from (String.append cur (String c "")) r
  end.
Definition Fields (s : string) : list string := Fields_from "" s.

Fixpoint package_lines (l : list string) : result (list Package) :=
  match l with
  | [] => Ok []
  | line :: rest =>
      if line == "" then package_lines rest
      else match Fields line with
           | [name; version] => let* ps := package_lines rest in Ok (mkPackage name version :: ps)
           | _ => Err (ErrMsg "invalid package inventory")
           end
  end.

(** [out] is the output of [dpkg-query], [None] when it failed. *)
Definition collectPackages (out : option string) : result (list Package) :=
  let* out := of_option (ErrMsg "dpkg-query failed") out in
  package_lines (split_lines (TrimSpace out)).

(** [None]: [fields[0]] panics on a line of spaces. *)
Fixpoint service_lines (l : list string) (acc : gmap string Service) : option (gmap string Service) :=
  match l with
  | [] => Some acc
  | line :: rest =>
      if line == "" then service_lines rest acc
      else match Fields line with
           | [] => None
           | name :: _ => service_lines rest (<[name := mkService name true]> acc)
           end
  end.

Definition collectServices (out : option string) : option (result (gmap string Service)) :=
  match out with
  | None => Some (Err (ErrMsg "systemctl failed"))
  | Some out => option_map Ok (service_lines (split_lines (TrimSpace out)) ∅)
  end.

Inductive PackageVerb : Type := InstallPackage | UninstallPackage.
Inductive ServiceVerb : Type := StartService | StopService.

(** The ranges over Go maps: the actions are a set. *)
Definition package_names (l : list Package) : gset string := list_to_set (map pk_Name l).
Definition DiffPackages (observed desired : list Package) : list (string * PackageVerb) :=
  map (fun n => (n, InstallPackage)) (elements (package_names desired ∖ package_names observed)) ++
  map (fun n => (n, UninstallPackage)) (elements (package_names observed ∖ package_names desired)).

Definition service_action (current : gmap string Service) (kv : string * Service) : list (string * ServiceVerb) :=
  let '(name, want) := kv in
  let running := match current !! name with Some s => sv_Running s | None => false end in
  (if sv_Running want && negb running then [(name, StartService)] else []) ++
  (if negb (sv_Running want) && running then [(name, StopService)] else []).
Definition DiffServices (desired current : gmap string Service) : list (string * ServiceVerb) :=
  concat (map (service_action current) (map_to_list desired)).

(** ** host.go: enforcement *)
Inductive kube_error : Type := NotFound | Conflict | AlreadyExists | OtherError.
#[global] Instance kube_error_eq_dec : EqDecision kube_error.
Proof. solve_decision. Defined.

(** A Secret and a Deployment of the local cluster; [ks_meta] is the metadata that the code
    reads and writes back untouched. *)
Record KubeSecret : Type := mkKubeSecret { ku_Type : string; ku_Data : gmap string string; ku_meta : string }.
Record Deployment : Type := mkDeployment {
  de_UID : string; de_Annotations : gmap string string; de_Deadline : bool; de_Replicas : option Z; de_Generation : Z;
  de_ObservedGeneration : Z; de_Updated : Z; de_Current : Z; de_Available : Z; de_meta : string }.
Definition set_de_Annotations (v : gmap string string) (d : Deployment) : Deployment :=
  mkDeployment (de_UID d) v (de_Deadline d) (de_Replicas d) (de_Generation d) (de_ObservedGeneration d) (de_Updated d) (de_Current d)
    (de_Available d) (de_meta d).

(** The kubelet's kubeconfig as far as it is checked: server, TLS, CA, certificate, key. *)
Record KubeConfig : Type := mkKubeConfig {
  kc_Host : string; kc_Insecure : bool; kc_CA : option string; kc_Cert : option string; kc_Key : option string }.
Inductive presence : Type := Present | Absent | Unknown.
(** [clientcmd.LoadFromFile]: unreadable, without its context, without its cluster or user,
    or the current cluster. *)
Inductive loaded : Type := NotLoaded | NoContext | NoCluster | Loaded (c : KubeConfig).

(** The kubeadm configuration of a join. *)
Record JoinConfiguration : Type := mkJoinConfiguration {
  jc_Endpoint : string; jc_Token : string; jc_CAHashes : list string; jc_Name : string; jc_Taints : list SchedulingTaint;
  jc_NodeLabels : string; jc_ProviderID : string }.

(** The machine; [sum + ...] answers are errors.  [poll_budget] is how often a poll runs
    before its context ends. *)
Class HostEnv (H : Type) : Type := {
  run_command : list string -> H -> bool * H;
  dpkg_output : H -> option string;
  systemctl_output : H -> option string;
  get_secret : string -> string -> H -> (kube_error + KubeSecret) * H;
  create_secret : string -> string -> KubeSecret -> H -> option kube_error * H;
  update_secret : string -> string -> KubeSecret -> H -> option kube_error * H;
  get_deployment : string -> string -> H -> (kube_error + Deployment) * H;
  update_deployment : string -> Deployment -> H -> (kube_error + Deployment) * H;
  poll_budget : H -> nat;
  kubelet_present : H -> presence;
  kubelet_config : H -> option KubeConfig;
  bootstrap_present : H -> presence;
  bootstrap_config : H -> loaded;
  write_bootstrap_token : string -> H -> bool * H;
  stage_join : JoinConfiguration -> H -> option string * H;
  get_node_uid : string -> H -> option string }.

Section Local.
Context {H : Type} {env : HostEnv H} {k8s : K8s} {names : K8sNames} {fp : Fingerprints} {dg : Digest} {gourl : GoURL} {x509 : X509}.

(** The commands, in order, until one fails. *)
Fixpoint run_all (cmds : list (list string)) (h : H) : bool * H :=
  match cmds with
  | [] => (true, h)
  | c :: rest => let '(ok, h) := run_command c h in if ok then run_all rest h else (false, h)
  end.

(** [sort.Strings]. *)
Definition string_leb (a b : string) : bool := match String.compare a b with Gt => false | _ => true end.
Definition string_le (a b : string) : Prop := string_leb a b = true.
#[local] Instance string_le_dec : RelDecision string_le := fun a b => decide (string_leb a b = true).
Definition sorted_names (m : gmap string bool) : list string := merge_sort string_le (map fst (map_to_list m)).

Definition service_command (m : gmap string bool) (name : string) : list string :=
  ["systemctl"; if default false (m !! name) then "start" else "stop"; "--"; name].
Definition package_command (c : HostPackageChange) : list string := ["apt-get"; "-y"; pc_Action c; "--"; pc_Name c].

Definition local_Apply (x : ExpectedHostState) (h : H) : result unit * H :=
  match validateExpected x with
  | Err e => (Err e, h)
  | Ok _ =>
      let '(ok, h) := run_all (map (service_command (ex_Services x)) (sorted_names (ex_Services x))) h in
      if negb ok then (Err (ErrMsg "service update failed"), h)
      else
        let '(ok, h) := run_all (map package_command (ex_Packages x)) h in
        if negb ok then (Err (ErrMsg "package update failed"), h) else (Ok tt, h)
  end.

Definition local_Collect (h : H) : option (result CurrentState) :=
  match collectServices (systemctl_output h) with
  | None => None
  | Some (Err _) => Some (Err (ErrMsg "service collection failed"))
  | Some (Ok services) =>
      Some (match collectPackages (dpkg_output h) with
            | Err _ => Err (ErrMsg "package collection failed")
            | Ok packages => Ok (mkCurrent services packages)
            end)
  end.

(** ** kubernetes.go *)

(** [retry.OnError(retry.DefaultBackoff, retriable, fn)]: the backoff has four steps. *)
Definition DefaultBackoffSteps : nat := 4.
Fixpoint on_error {A} (steps : nat) (retriable : kube_error -> bool) (fn : H -> (kube_error + A) * H) (h : H) : (kube_error + A) * H :=
  match fn h with
  | (inr a, h) => (inr a, h)
  | (inl e, h) =>
      match steps with
      | O => (inl e, h)
      | S n => match n with O => (inl e, h) | S _ => if retriable e then on_error n retriable fn h else (inl e, h) end
      end
  end.

Definition same_secret (s : KubernetesSecret) (c : KubeSecret) : bool := (ku_Type c == ks_Type s) && (ku_Data c == ks_Data s).

Definition write_secret (s : KubernetesSecret) (h : H) : (kube_error + unit) * H :=
  let done := fun r => match r with (Some e, h) => (inl e, h) | (None, h) => (inr tt, h) end in
  match get_secret (ks_Namespace s) (ks_Name s) h with
  | (inl NotFound, h) => done (create_secret (ks_Namespace s) (ks_Name s) (mkKubeSecret (ks_Type s) (ks_Data s) "") h)
  | (inl e, h) => (inl e, h)
  | (inr c, h) =>
      if same_secret s c then (inr tt, h)
      else done (update_secret (ks_Namespace s) (ks_Name s) (mkKubeSecret (ks_Type s) (ks_Data s) (ku_meta c)) h)
  end.

Definition SecretOperation : string := "crane.io/secret-operation".

Definition restart_deployment (s : KubernetesSecret) (annotation : string) (h : H) : (kube_error + Deployment) * H :=
  match get_deployment (ks_Namespace s) (ks_RolloutDeployment s) h with
  | (inl e, h) => (inl e, h)
  | (inr d, h) =>
      if default "" (de_Annotations d !! SecretOperation) == annotation then (inr d, h)
      else update_deployment (ks_Namespace s) (set_de_Annotations (<[SecretOperation := annotation]> (de_Annotations d)) d) h
  end.

(** One poll of the rollout: finished, not yet, or an error. *)
Definition rollout_state (desired : Deployment) (annotation : string) (c : Deployment) : result bool :=
  guard (de_UID c == de_UID desired) && (default "" (de_Annotations c !! SecretOperation) == annotation)
    else ErrMsg "Deployment rollout superseded" in
  guard negb (de_Deadline c) else ErrMsg "Deployment progress deadline exceeded" in
  let replicas := default 1 (de_Replicas c) in
  guard replicas != 0 else ErrMsg "Deployment has no replicas" in
  Ok ((de_Generation c <=? de_ObservedGeneration c) && (de_Updated c == replicas) && (de_Current c == replicas) && (replicas <=? de_Available c)).

(** [wait.PollUntilContextCancel]: [polls] rounds before the context ends. *)
Fixpoint poll_rollout (polls : nat) (s : KubernetesSecret) (desired : Deployment) (annotation : string) (h : H) : bool * H :=
  match polls with
  | O => (false, h)
  | S polls =>
      match get_deployment (ks_Namespace s) (ks_RolloutDeployment s) h with
      | (inl _, h) => (false, h)
      | (inr c, h) => match rollout_state desired annotation c with
                      | Err _ => (false, h)
                      | Ok true => (true, h)
                      | Ok false => poll_rollout polls s desired annotation h
                      end
      end
  end.

(** [annotation] is the SHA-256 of the token. *)
Definition ensureSecret (sha256_hex : string -> string) (token : string) (secret : KubernetesSecret) (h : H) :
    (option KubernetesResult * result unit) * H :=
  let rollout := if ks_RolloutDeployment secret == "" then "not_requested" else "pending" in
  let failed := fun msg h => ((Some (mkKubernetesResult "failed" rollout), Err (ErrMsg msg)), h) in
  match Normalize secret with
  | Err e => ((Some (mkKubernetesResult "failed" rollout), Err e), h)
  | Ok s =>
      match on_error DefaultBackoffSteps (fun e => (e == Conflict) || (e == AlreadyExists)) (write_secret s) h with
      | (inl _, h) => failed "Secret write failed" h
      | (inr _, h) =>
          match get_secret (ks_Namespace s) (ks_Name s) h with
          | (inl _, h) => failed "Secret verification failed" h
          | (inr c, h) =>
              if negb (same_secret s c) then failed "Secret verification failed" h
              else if ks_RolloutDeployment s == "" then ((Some (mkKubernetesResult "verified" "not_requested"), Ok tt), h)
              else
                let annotation := sha256_hex token in
                match on_error DefaultBackoffSteps (fun e => e == Conflict) (restart_deployment s annotation) h with
                | (inl _, h) => ((Some (mkKubernetesResult "verified" "failed"), Err (ErrMsg "Deployment restart failed")), h)
                | (inr desired, h) =>
                    let '(ready, h) := poll_rollout (poll_budget h) s desired annotation h in
                    if ready then ((Some (mkKubernetesResult "verified" "ready"), Ok tt), h)
                    else ((Some (mkKubernetesResult "verified" "failed"), Err (ErrMsg "Deployment rollout failed")), h)
                end
          end
      end
  end.

(** ** worker_join.go *)

(** A key pair: its certificate in PEM and its key; [signs key data] is the signature. *)
Definition kubeletCredentials (c : option KubeConfig) (endpoint caHash : string) : result (string * string) :=
  let invalid := ErrMsg "local kubelet cluster identity does not match trusted discovery" in
  let* c := of_option invalid c in
  guard negb ((kc_Host c != endpoint) || kc_Insecure c) else invalid in
  let* ca := of_option invalid (kc_CA c) in
  guard bool_decide (KubernetesCAHash ca = Some caHash) else invalid in
  let* cert := of_option invalid (kc_Cert c) in
  let* key := of_option invalid (kc_Key c) in
  guard key_pair cert key else invalid in
  let* parsed := of_option invalid (parse_cert cert) in
  guard chain_ok ca parsed else invalid in
  Ok (cert, key).

Definition label_pairs (labels : gmap string string) : list string :=
  map (fun k => String.append k (String.append "=" (default "" (labels !! k)))) (merge_sort string_le (map fst (map_to_list labels))).

Definition quarantine : SchedulingTaint := mkTaint ProvisioningTaint "pending" "NoSchedule".

Definition renderWorkerJoin (r : ClusterJoinRequest) : result JoinConfiguration :=
  guard is_ok (validateClusterJoin r) else ErrMsg "invalid worker join contract" in
  let reg := jr_Registration r in
  Ok (mkJoinConfiguration (match url_parse (jr_APIServerEndpoint r) with Some u => u_Host u | None => "" end) (jr_Token r) [jr_CACertHash r]
        (wr_NodeName reg) (Taints (wr_Scheduling reg) ++ [quarantine])
        (GoStrings.Join (label_pairs (SchedulingLabels (wr_Scheduling reg) (wr_NodePoolID reg))) ",") (wr_ProviderID reg)).

Definition names_node (pem : string) (nodeName : string) : bool :=
  match parse_cert pem with Some c => ce_CommonName c == String.append "system:node:" nodeName | None => false end.

(** The kubelet that resumes after a refreshed token; [polls] seconds at most. *)
Fixpoint poll_kubelet (polls : nat) (r : ClusterJoinRequest) (h : H) : bool :=
  match polls with
  | O => false
  | S polls =>
      match kubeletCredentials (kubelet_config h) (jr_APIServerEndpoint r) (jr_CACertHash r) with
      | Ok (cert, _) => if names_node cert (wr_NodeName (jr_Registration r)) then true else poll_kubelet polls r h
      | Err _ => poll_kubelet polls r h
      end
  end.

Definition resume_join (r : ClusterJoinRequest) (h : H) : result unit * H :=
  match bootstrap_config h with
  | NotLoaded => (Err (ErrMsg "cannot inspect interrupted worker join"), h)
  | NoContext => (Err (ErrMsg "invalid interrupted worker join"), h)
  | NoCluster => (Err (ErrMsg "interrupted worker join conflicts with destination"), h)
  | Loaded c =>
      if (kc_Host c != jr_APIServerEndpoint r) || kc_Insecure c then (Err (ErrMsg "interrupted worker join conflicts with destination"), h)
      else match kc_CA c with
           | None => (Err (ErrMsg "cannot inspect bootstrap trust root"), h)
           | Some ca =>
               if bool_decide (KubernetesCAHash ca <> Some (jr_CACertHash r)) then (Err (ErrMsg "bootstrap trust root conflicts with destination"), h)
               else
                 let '(ok, h) := write_bootstrap_token (jr_Token r) h in
                 if negb ok then (Err (ErrMsg "cannot persist bootstrap retry"), h)
                 else
                   let '(ok, h) := run_command ["systemctl"; "restart"; "kubelet"] h in
                   if negb ok then (Err (ErrMsg "cannot resume worker kubelet"), h)
                   else if poll_kubelet (poll_budget h) r h then (Ok tt, h) else (Err (ErrMsg "worker join retry is not complete"), h)
           end
  end.

Definition local_JoinCluster (r : ClusterJoinRequest) (h : H) : result unit * H :=
  match renderWorkerJoin r with
  | Err e => (Err e, h)
  | Ok config =>
      match kubelet_present h with
      | Present =>
          match kubeletCredentials (kubelet_config h) (jr_APIServerEndpoint r) (jr_CACertHash r) with
          | Err e => (Err e, h)
          | Ok (cert, _) => if names_node cert (wr_NodeName (jr_Registration r)) then (Ok tt, h)
                            else (Err (ErrMsg "existing kubelet belongs to another host"), h)
          end
      | Unknown => (Err (ErrMsg "cannot inspect existing kubelet identity"), h)
      | Absent =>
          match bootstrap_present h with
          | Present => resume_join r h
          | Unknown => (Err (ErrMsg "cannot inspect bootstrap retry"), h)
          | Absent =>
              match stage_join config h with
              | (None, h) => (Err (ErrMsg "cannot protect worker join credentials"), h)
              | (Some path, h) =>
                  let '(ok, h) := run_command ["kubeadm"; "join"; "--config"; path] h in
                  if ok then (Ok tt, h) else (Err (ErrMsg "Kubernetes worker join failed"), h)
              end
          end
      end
  end.

(** [sign key data] is what the private key makes of the SHA-256 of [data]; [None] when the
    key cannot sign. *)
Definition local_ClusterMembership (sign : string -> string -> option string) (r : ClusterJoinRequest) (challenge : string) (h : H) :
    result ClusterMembership :=
  let invalid := ErrMsg "cannot verify local cluster membership" in
  let* kp := (match kubeletCredentials (kubelet_config h) (jr_APIServerEndpoint r) (jr_CACertHash r) with Ok p => Ok p | Err _ => Err invalid end) in
  let '(cert, key) := kp in
  guard names_node cert (wr_NodeName (jr_Registration r)) else invalid in
  let* uid := of_option invalid (get_node_uid (wr_NodeName (jr_Registration r)) h) in
  guard uid != "" else invalid in
  let proof := mkMembership (JoinFingerprint r) (wr_NodeName (jr_Registration r)) uid cert "" in
  let* signature := of_option invalid (sign key (MembershipProofData challenge proof)) in
  Ok (mkMembership (cm_ContractHash proof) (cm_NodeName proof) (cm_NodeUID proof) cert signature).

(** [LocalHost] as the agent's host; a host without a kubeconfig refuses Secrets. *)
Definition local_EnsureSecret (kubeconfig : string) (client : bool) (sha256_hex : string -> string) (token : string) (s : KubernetesSecret) (h : H) :
    (option KubernetesResult * result unit) * H :=
  let failed := Some (mkKubernetesResult "failed" (if ks_RolloutDeployment s == "" then "not_requested" else "pending")) in
  if kubeconfig == "" then ((failed, Err (ErrMsg "local Kubernetes credentials are not configured")), h)
  else if negb client then ((failed, Err (ErrMsg "cannot load local Kubernetes credentials")), h)
  else ensureSecret sha256_hex token s h.

Definition local_host (kubeconfig : string) (client : bool) (sha256_hex : string -> string) (sign : string -> string -> option string) : HostOps H :=
  {| host_Collect := fun h => match local_Collect h with Some r => r | None => Err (ErrMsg "panic: index out of range") end;
     host_Apply := local_Apply;
     host_EnsureSecret := Some (local_EnsureSecret kubeconfig client sha256_hex);
     host_JoinCluster := Some local_JoinCluster;
     host_ClusterMembership := Some (fun r c h => local_ClusterMembership sign r c h) |}.
End Local.
