(* ===== verification/LocalHostFacts.v ===== *)
(** * Facts about the local host

    Enforcement runs exactly the commands its state asks for; the package difference leads
    from what is installed to what is wanted; and what the host agent renders and proves is
    what the Dominator accepts. *)
From S2P Require Import Prelude GoStrings Sql Api Schema Lease Handoff Scheduling Catalog Bootstrap Regex Subd SubdFacts HostRpc Dominator LocalHost.
From Stdlib Require Import Ascii.
From stdpp Require Import sorting.

Local Open Scope string_scope.
Local Open Scope list_scope.
Local Open Scope Z_scope.
Local Open Scope crane_scope.

(** ** The order of names *)
#[local] Instance string_le_total : Total string_le.
Proof.
  intros a b. unfold string_le, string_leb. destruct (String.compare a b) eqn:E; [by left|by left|right].
  by rewrite String.compare_antisym, E.
Qed.

(** ** Enforcement on a machine that records its commands *)
Section Commands.
Context {k8s : K8s} {names : K8sNames} {fp : Fingerprints} {dg : Digest} {gourl : GoURL} {x509 : X509}.
(** Whether a command works, given the ones before it. *)
Context (works : list (list string) -> list string -> bool).

Definition recording : HostEnv (list (list string)) :=
  {| run_command := fun c log => (works log c, log ++ [c]);
     dpkg_output := fun _ => None; systemctl_output := fun _ => None;
     get_secret := fun _ _ log => (inl OtherError, log); create_secret := fun _ _ _ log => (Some OtherError, log);
     update_secret := fun _ _ _ log => (Some OtherError, log); get_deployment := fun _ _ log => (inl OtherError, log);
     update_deployment := fun _ _ log => (inl OtherError, log); poll_budget := fun _ => 0%nat;
     kubelet_present := fun _ => Unknown; kubelet_config := fun _ => None; bootstrap_present := fun _ => Unknown;
     bootstrap_config := fun _ => NotLoaded; write_bootstrap_token := fun _ log => (false, log);
     stage_join := fun _ log => (None, log); get_node_uid := fun _ _ => None |}.

(** The commands of an expected state: services in the order of their names, then packages
    in the order of the request. *)
Definition commands (x : ExpectedHostState) : list (list string) :=
  map (service_command (ex_Services x)) (sorted_names (ex_Services x)) ++ map package_command (ex_Packages x).

Lemma run_all_log cmds log :
  exists n, snd (run_all (env := recording) cmds log) = log ++ take n cmds /\
    (fst (run_all (env := recording) cmds log) = true -> n = length cmds) /\
    (fst (run_all (env := recording) cmds log) = false -> exists l c, take n cmds = l ++ [c] /\ works (log ++ l) c = false).
Proof.
  revert log. induction cmds as [|c cmds IH]; intros log; cbn [run_all run_command recording].
  - exists 0%nat. cbn. rewrite app_nil_r. split; [done|]. by split.
  - destruct (works log c) eqn:E.
    + destruct (IH (log ++ [c])) as (n & A & B & C). exists (S n). cbn [take length]. rewrite A, <- app_assoc. split; [done|].
      split; [intros T; by rewrite B|]. intros F. destruct (C F) as (l & d & T & W). exists (c :: l), d. rewrite T. split; [done|].
      by rewrite <- app_assoc in W.
    + exists 1%nat. cbn. rewrite take_0. split; [done|]. split; [done|]. intros _. exists [], c. by rewrite app_nil_r.
Qed.

Lemma run_all_app a b log :
  run_all (env := recording) (a ++ b) log =
  (let '(ok, log) := run_all (env := recording) a log in if ok then run_all (env := recording) b log else (false, log)).
Proof.
  revert log. induction a as [|c a IH]; intros log; cbn [run_all app]; [done|]. cbn [run_command recording].
  destruct (works log c); [apply IH|done].
Qed.

(** Enforcing an expected state runs exactly its commands: one per named service, in the
    order of the names and each service once, then one per package change in the order of
    the request, and nothing else.  It succeeds when all of them do; when one fails it
    stops there, after the commands before it; an invalid state runs nothing. *)
Theorem apply_runs_exactly x log r log' :
  local_Apply (env := recording) x log = (r, log') ->
  (validateExpected x = Ok tt -> exists n, log' = log ++ take n (commands x) /\ (r = Ok tt <-> n = length (commands x) /\ fst (run_all (env := recording) (commands x) log) = true) /\
     (r <> Ok tt -> exists l c, take n (commands x) = l ++ [c] /\ works (log ++ l) c = false)) /\
  (validateExpected x <> Ok tt -> r <> Ok tt /\ log' = log) /\
  Permutation (sorted_names (ex_Services x)) (map fst (map_to_list (ex_Services x))) /\ Sorted string_le (sorted_names (ex_Services x)) /\
  NoDup (sorted_names (ex_Services x)).
Proof.
  intros E. split; [|split; [|split; [|split]]].
  - intros V. unfold local_Apply in E. rewrite V in E.
    assert (R : run_all (env := recording) (commands x) log = (is_ok r, log')).
    { unfold commands. rewrite run_all_app. destruct (run_all _ log) as [[] log1]; cbn [negb] in E; [|by injection E as <- <-].
      destruct (run_all _ log1) as [[] log2]; cbn [negb] in E; by injection E as <- <-. }
    destruct (run_all_log (commands x) log) as (n & A & B & C). rewrite R in A, B, C |- *. cbn [fst snd] in *. exists n. split; [done|].
    destruct r as [[]|e]; cbn [is_ok] in *; split; try done.
    + split; [intros _; split; [by apply B|done]|done].
    + split; [done|by intros [_ ?]].
    + intros _. by apply C.
  - intros V. unfold local_Apply in E. destruct (validateExpected x) as [[]|e]; [done|]. by injection E as <- <-.
  - apply merge_sort_Permutation.
  - apply Sorted_merge_sort. apply string_le_total.
  - unfold sorted_names. rewrite merge_sort_Permutation. apply NoDup_fst_map_to_list.
Qed.
End Commands.

(** ** Packages *)

(** What the actions make of the installed names. *)
Definition perform (a : string * PackageVerb) (installed : gset string) : gset string :=
  match snd a with InstallPackage => {[fst a]} ∪ installed | UninstallPackage => installed ∖ {[fst a]} end.

Lemma perform_installs l s : foldr perform s (map (fun n => (n, InstallPackage)) l) = list_to_set l ∪ s.
Proof. induction l as [|n l IH]; cbn; [set_solver|]. rewrite IH. set_solver. Qed.

Lemma perform_removals l s : foldr perform s (map (fun n => (n, UninstallPackage)) l) = s ∖ list_to_set l.
Proof. induction l as [|n l IH]; cbn; [set_solver|]. rewrite IH. set_solver. Qed.

(** The package difference is exact: performing its actions on what is installed leaves
    exactly the names that are wanted, and an inventory that has them already asks for
    nothing. *)
Theorem DiffPackages_exact observed desired :
  foldr perform (package_names observed) (DiffPackages observed desired) = package_names desired /\
  (DiffPackages observed desired = [] <-> package_names observed = package_names desired).
Proof.
  unfold DiffPackages. rewrite foldr_app, perform_removals, perform_installs, !list_to_set_elements_L. split.
  - apply set_eq. intros n. rewrite elem_of_union, !elem_of_difference. destruct (decide (n ∈ package_names observed)), (decide (n ∈ package_names desired)); tauto.
  - split.
    + intros E. apply app_eq_nil in E as [E1 E2]. apply map_eq_nil, elements_empty_inv in E1. apply map_eq_nil, elements_empty_inv in E2.
      apply set_eq. intros n. specialize (E1 n). specialize (E2 n). rewrite elem_of_difference, elem_of_empty in E1, E2.
      destruct (decide (n ∈ package_names observed)), (decide (n ∈ package_names desired)); tauto.
    + intros ->. by rewrite difference_diag_L, elements_empty.
Qed.

(** ** Joining text *)
Lemma append_nil_r s : String.append s "" = s.
Proof. induction s as [|c s IH]; [done|]. by rewrite append_cons, IH. Qed.

Lemma split_from_no sep cur s : all_chars (fun c => negb (Ascii.eqb c sep)) s = true -> split_from sep cur s = [String.append cur s].
Proof.
  revert cur. induction s as [|c s IH]; intros cur E; cbn in *; [by rewrite append_nil_r|].
  apply andb_prop in E as [E1 E2]. apply negb_true_iff in E1. rewrite E1, IH by done.
  by rewrite append_assoc, append_cons.
Qed.

Lemma split_from_sep sep cur a b :
  all_chars (fun c => negb (Ascii.eqb c sep)) a = true ->
  split_from sep cur (String.append a (String sep b)) = String.append cur a :: split_from sep "" b.
Proof.
  revert cur. induction a as [|c a IH]; intros cur E.
  - change (String.append "" (String sep b)) with (String sep b). cbn [split_from]. by rewrite Ascii.eqb_refl, append_nil_r.
  - rewrite append_cons. cbn [split_from all_chars] in *. apply andb_prop in E as [E1 E2]. apply negb_true_iff in E1. rewrite E1, IH by done.
    by rewrite append_assoc, append_cons.
Qed.

Definition comma : ascii := ","%char.

Lemma Split_Join l :
  l <> [] -> Forall (fun s => all_chars (fun c => negb (Ascii.eqb c comma)) s = true) l -> Split (GoStrings.Join l ",") comma = l.
Proof.
  induction l as [|x l IH]; intros N F; [done|]. apply Forall_cons in F as [Fx F]. unfold Split in *.
  destruct l as [|y l]; [cbn; by rewrite split_from_no|].
  change (GoStrings.Join (x :: y :: l) ",") with (String.append x (String.append "," (GoStrings.Join (y :: l) ","))).
  change (String.append "," (GoStrings.Join (y :: l) ",")) with (String comma (GoStrings.Join (y :: l) ",")).
  rewrite split_from_sep by done. cbn [String.append]. by rewrite IH.
Qed.

Lemma Cut_found k v : all_chars (fun c => negb (Ascii.eqb c "="%char)) k = true -> Cut (String.append k (String "="%char v)) "="%char = (k, v, true).
Proof.
  induction k as [|c k IH]; intros E; [done|]. rewrite append_cons. cbn [Cut all_chars] in *.
  apply andb_prop in E as [E1 E2]. apply negb_true_iff, Ascii.eqb_neq in E1. rewrite bool_decide_eq_false_2 by done. by rewrite IH.
Qed.

(** The kubelet's reading of its [node-labels] flag. *)
Definition decode_labels (s : string) : gmap string string :=
  list_to_map (map (fun kv => let '(k, v, _) := Cut kv "="%char in (k, v)) (Split s comma)).

Definition plain_label (s : string) : bool := all_chars (fun c => negb (Ascii.eqb c comma) && negb (Ascii.eqb c "="%char)) s.

Lemma label_pair_plain k v :
  plain_label k = true -> plain_label v = true ->
  all_chars (fun c => negb (Ascii.eqb c comma)) (String.append k (String "="%char v)) = true /\
  all_chars (fun c => negb (Ascii.eqb c "="%char)) k = true.
Proof.
  intros K V. assert (W : forall s, plain_label s = true -> all_chars (fun c => negb (Ascii.eqb c comma)) s = true /\ all_chars (fun c => negb (Ascii.eqb c "="%char)) s = true).
  { induction s as [|c s IH]; [done|]. unfold plain_label. cbn [all_chars]. intros E. apply andb_prop in E as [E1 E2]. apply andb_prop in E1 as [E1 E3].
    destruct (IH E2) as [I1 I2]. by rewrite E1, E3, I1, I2. }
  destruct (W k K) as [K1 K2], (W v V) as [V1 V2]. split; [|done]. rewrite all_chars_append, K1. cbn [all_chars andb]. by rewrite V1.
Qed.

Lemma eq_append v : String.append "=" v = String "="%char v.
Proof. done. Qed.

(** The flag spells the labels: its decoding is the map it was rendered from. *)
Lemma decode_label_pairs (m : gmap string string) :
  m <> ∅ -> (forall k v, m !! k = Some v -> plain_label k = true /\ plain_label v = true) ->
  decode_labels (GoStrings.Join (label_pairs m) ",") = m.
Proof.
  intros N P. unfold decode_labels, label_pairs. set (ks := merge_sort _ _).
  assert (Pk : Permutation ks (map fst (map_to_list m))) by apply merge_sort_Permutation.
  assert (Pl : forall k, In k ks -> exists v, m !! k = Some v /\ plain_label k = true /\ plain_label v = true).
  { intros k Hk. apply (Permutation_in _ Pk), in_map_iff in Hk as ([k' v] & E & Hk). cbn in E. subst k'.
    apply list_elem_of_In, elem_of_map_to_list in Hk. exists v. by destruct (P k v Hk). }
  rewrite Split_Join.
  - rewrite map_map. assert (E : map (fun k => let '(k0, v, _) := Cut (String.append k (String.append "=" (default "" (m !! k)))) "="%char in (k0, v)) ks
      = map (fun k => (k, default "" (m !! k))) ks).
    { apply map_ext_in. intros k Hk. destruct (Pl k Hk) as (v & Ev & Kp & Vp). rewrite Ev, eq_append.
      cbn [default from_option]. by rewrite Cut_found by (by apply (label_pair_plain k v)). }
    rewrite E. clear E. apply map_eq. intros k. destruct (m !! k) as [v|] eqn:Ev.
    + apply elem_of_list_to_map_1.
      * rewrite map_map. cbn. rewrite map_id, Pk. apply NoDup_fst_map_to_list.
      * apply list_elem_of_In, in_map_iff. exists k. rewrite Ev. split; [done|].
        apply (Permutation_in _ (Permutation_sym Pk)), in_map_iff. exists (k, v). split; [done|]. by apply list_elem_of_In, elem_of_map_to_list.
    + apply not_elem_of_list_to_map_1. rewrite map_map. cbn. rewrite map_id, Pk. intros Hk. apply list_elem_of_In, in_map_iff in Hk as ([k' v] & E & Hk).
      cbn in E. subst k'. apply list_elem_of_In, elem_of_map_to_list in Hk. congruence.
  - intros E. apply map_eq_nil in E. rewrite E in Pk. apply Permutation_nil, map_eq_nil, map_to_list_empty_iff in Pk. done.
  - apply Forall_forall. intros s Hs. apply list_elem_of_In, in_map_iff in Hs as (k & <- & Hk). destruct (Pl k Hk) as (v & Ev & Kp & Vp). rewrite Ev, eq_append. by apply (label_pair_plain k v).
Qed.

(** ** What the host renders, the Dominator accepts *)
Section Accepts.
Context {H : Type} {env : HostEnv H} {k8s : K8s} {names : K8sNames} {fp : Fingerprints} {dg : Digest} {gourl : GoURL} {gonet : GoNet} {x509 : X509}.

Lemma taints_ok_quarantine seen l : taints_ok seen l = true -> forallb (fun t => negb (is_quarantine t)) l = true.
Proof.
  revert seen. induction l as [|t l IH]; intros seen E; [done|]. cbn in *. destruct (_ || _) eqn:G; [done|].
  apply orb_false_iff in G as [G _]. apply orb_false_iff in G as [G _]. apply orb_false_iff in G as [G _]. apply orb_false_iff in G as [G _].
  unfold is_quarantine. rewrite G. by apply (IH _ E).
Qed.

Lemma registration_taints reg : Validate reg = Ok tt -> forallb (fun t => negb (is_quarantine t)) (Taints (wr_Scheduling reg)) = true.
Proof.
  unfold Validate. intros V. apply require_ok in V. bsplit. destruct (ValidateScheduling _ _) as [u|e] eqn:E; [|done].
  unfold ValidateScheduling in E. inv_ok. by apply (taints_ok_quarantine []).
Qed.

Lemma filter_all {A} (f : A -> bool) l : forallb f l = true -> List.filter f l = l.
Proof. induction l as [|x l IH]; cbn; [done|]. intros E. apply andb_prop in E as [-> E]. by rewrite IH. Qed.

(** C35. The worker that the host agent joins is the worker that the Dominator expects.  A
    Node that registers with exactly what [renderWorkerJoin] wrote for kubeadm (its name,
    its provider ID, its taints, and the labels that its flag spells) at the host's
    address passes the Dominator's [validateWorkerNode] for the same registration while it
    is still quarantined, and the release that takes the provisioning taint away leaves
    exactly the taints of the scheduling template. *)
Theorem rendered_worker_accepted r c node ip :
  renderWorkerJoin r = Ok c ->
  (forall k v, SchedulingLabels (wr_Scheduling (jr_Registration r)) (wr_NodePoolID (jr_Registration r)) !! k = Some v ->
     plain_label k = true /\ plain_label v = true) ->
  nd_Name node = jc_Name c -> nd_ProviderID node = jc_ProviderID c -> nd_Taints node = jc_Taints c ->
  nd_Labels node = decode_labels (jc_NodeLabels c) -> In ("InternalIP", ip) (nd_Addresses node) ->
  validateWorkerNode node (jr_Registration r) ip false = Ok tt /\
  List.filter (fun t => negb (is_quarantine t)) (nd_Taints node) = Taints (wr_Scheduling (jr_Registration r)).
Proof.
  intros R P En Ep Et El Ia. unfold renderWorkerJoin in R. apply rbind_ok in R as (u & V & R). apply require_ok in V.
  injection R as <-. cbn [jc_Name jc_ProviderID jc_Taints jc_NodeLabels] in *. set (reg := jr_Registration r) in *.
  assert (Vr : Validate reg = Ok tt).
  { apply is_ok_unit in V. unfold validateClusterJoin in V. apply rbind_ok in V as (u2 & V1 & _). apply require_ok in V1. bsplit.
    by apply is_ok_unit. }
  pose proof (registration_taints reg Vr) as Tq.
  rewrite decode_label_pairs in El; [|intros E0; pose proof (f_equal (fun m => m !! "kubernetes.io/os") E0) as E1; cbn beta in E1;
    rewrite lookup_empty in E1; unfold SchedulingLabels, canonical_labels in E1; rewrite lookup_union, lookup_insert_eq in E1;
    by destruct (Labels (wr_Scheduling reg) !! "kubernetes.io/os")|exact P].
  split.
  - unfold validateWorkerNode. rewrite En, Ep, !eq_refl_true. cbn [negb orb require rbind].
    assert (existsb (fun a => (fst a == "InternalIP") && (snd a == ip)) (nd_Addresses node) = true) as ->.
    { apply existsb_exists. exists ("InternalIP", ip). cbn. by rewrite !eq_refl_true. }
    cbn [require rbind].
    assert (forallb (fun kv => default "" (nd_Labels node !! fst kv) == snd kv) (map_to_list (SchedulingLabels (wr_Scheduling reg) (wr_NodePoolID reg))) = true) as ->.
    { apply forallb_forall. intros [k v] Hk. apply list_elem_of_In, elem_of_map_to_list in Hk. cbn. rewrite El, Hk. by rewrite eq_refl_true. }
    cbn [require rbind]. rewrite Et.
    assert (forallb (fun want => existsb (fun got => same_taint got want) (Taints (wr_Scheduling reg) ++ [quarantine])) (Taints (wr_Scheduling reg)) = true) as ->.
    { apply forallb_forall. intros t Ht. apply existsb_exists. exists t. split; [apply in_app_iff; by left|]. unfold same_taint. by rewrite !eq_refl_true. }
    cbn [require rbind]. rewrite forallb_app, existsb_app. cbn [forallb existsb is_quarantine quarantine taint_Key].
    assert (forallb (fun t => negb (is_quarantine t) || quarantine_ok t) (Taints (wr_Scheduling reg)) = true) as ->.
    { rewrite forallb_forall in Tq |- *. intros t Ht. by rewrite (Tq t Ht). }
    cbn. rewrite ?eq_refl_true, ?orb_true_r. done.
  - rewrite Et, List.filter_app, (filter_all _ _ Tq). cbn. by rewrite app_nil_r.
Qed.

(** C36. An honest membership proof is accepted.  When the host agent answers a challenge with
    the kubelet's credentials, and the kubelet certificate is one of a node, the proof
    passes the Dominator's [verifyMembership] for the same challenge, contract, node and
    cluster root, for every signature scheme in which the signatures of a pair verify. *)
Theorem membership_proof_accepted (sign : string -> string -> option string) r challenge h proof cfg ca cert :
  (forall pem key c data sg, key_pair pem key = true -> parse_cert pem = Some c -> sign key data = Some sg -> signature_ok c data sg = true) ->
  local_ClusterMembership sign r challenge h = Ok proof ->
  kubelet_config h = Some cfg -> kc_CA cfg = Some ca -> parse_cert (cm_Certificate proof) = Some cert -> ce_Organization cert = ["system:nodes"] ->
  verifyMembership proof challenge (JoinFingerprint r) (wr_NodeName (jr_Registration r)) ca = Ok tt.
Proof.
  intros S L Ec Ea Ep Eo. unfold local_ClusterMembership in L. rewrite Ec in L.
  destruct (kubeletCredentials (Some cfg) _ _) as [[pem key]|e] eqn:K; [|done]. cbn [rbind] in L.
  apply rbind_ok in L as (u1 & N & L). apply require_ok in N. apply rbind_ok in L as (uid & Ui & L). apply rbind_ok in L as (u2 & Nu & L).
  apply require_ok in Nu. apply rbind_ok in L as (sg & Sg & L). injection L as <-. cbn [cm_Certificate] in Ep.
  unfold kubeletCredentials in K. cbn [of_option rbind] in K. rewrite Ea in K. inv_ok. cbn [of_option] in *. inv_ok.
  unfold verifyMembership. cbn [cm_ContractHash cm_NodeName cm_NodeUID cm_Certificate cm_Signature]. rewrite !eq_refl_true, Nu, Ep.
  cbn [andb require rbind of_option]. unfold names_node in N. rewrite Ep in N. rewrite N, Eo, eq_refl_true. cbn [andb require rbind].
  injection Hx0 as <-. rewrite Ep in Hx5. injection Hx5 as <-. rewrite Hx6. cbn [require rbind].
  pose proof (S _ _ _ _ _ Hx4 Ep Sg) as Vs. unfold MembershipProofData in *. cbn [cm_ContractHash cm_NodeName cm_NodeUID] in *.
  rewrite Vs. done.
Qed.
End Accepts.

(** ** Secrets on a store that keeps what it is given *)
Section HonestStore.
Context {k8s : K8s} {names : K8sNames}.

(** The Secrets of a cluster, by namespace and name. *)
Abbreviation Secrets := (gmap (string * string) KubeSecret).

Definition honest : HostEnv Secrets :=
  {| run_command := fun _ s => (false, s); dpkg_output := fun _ => None; systemctl_output := fun _ => None;
     get_secret := fun ns n s => (match s !! (ns, n) with Some c => inr c | None => inl NotFound end, s);
     create_secret := fun ns n c s => match s !! (ns, n) with Some _ => (Some AlreadyExists, s) | None => (None, <[(ns, n) := c]> s) end;
     update_secret := fun ns n c s => (None, <[(ns, n) := c]> s);
     get_deployment := fun _ _ s => (inl NotFound, s); update_deployment := fun _ _ s => (inl NotFound, s); poll_budget := fun _ => 0%nat;
     kubelet_present := fun _ => Unknown; kubelet_config := fun _ => None; bootstrap_present := fun _ => Unknown;
     bootstrap_config := fun _ => NotLoaded; write_bootstrap_token := fun _ s => (false, s); stage_join := fun _ s => (None, s);
     get_node_uid := fun _ _ => None |}.

(** The object a Secret becomes: its type and data, and the metadata it had. *)
Definition stored (s : KubernetesSecret) (old : option KubeSecret) : KubeSecret :=
  mkKubeSecret (ks_Type s) (ks_Data s) (match old with Some c => ku_meta c | None => "" end).

Lemma stored_same s old : same_secret s (stored s old) = true.
Proof. unfold same_secret, stored. cbn. by rewrite !eq_refl_true. Qed.

Lemma same_stored s c : same_secret s c = true -> stored s (Some c) = c.
Proof. unfold same_secret, stored. intros E. bsplit. destruct c; cbn in *. by subst. Qed.

(** Ensuring a Secret makes it so, and only it: on a cluster that keeps what it is given,
    a valid request without a rollout ends verified, the named object has exactly the
    normalized type and data (other data of it is gone, its metadata is kept), no other
    object changes, and repeating the request changes nothing. *)
Theorem ensureSecret_exact (sha : string -> string) (token : string) (secret s : KubernetesSecret) (store : Secrets) :
  Normalize secret = Ok s -> ks_RolloutDeployment secret = "" ->
  let key := (ks_Namespace s, ks_Name s) in
  let store' := <[key := stored s (store !! key)]> store in
  ensureSecret (env := honest) sha token secret store = ((Some (mkKubernetesResult "verified" "not_requested"), Ok tt), store') /\
  ensureSecret (env := honest) sha token secret store' = ((Some (mkKubernetesResult "verified" "not_requested"), Ok tt), store').
Proof.
  intros N R key store'.
  assert (Rs : ks_RolloutDeployment s = "") by (unfold Normalize in N; inv_ok; done).
  assert (W : forall st, write_secret (env := honest) s st = (inr tt, <[key := stored s (st !! key)]> st)).
  { intros st. unfold write_secret. cbn [get_secret honest]. fold key. destruct (st !! key) as [c|] eqn:E.
    - destruct (same_secret s c) eqn:Sc; [|done]. rewrite same_stored by done. f_equal. symmetry. by apply insert_id.
    - cbn [create_secret honest]. fold key. by rewrite E. }
  assert (En : forall st, ensureSecret (env := honest) sha token secret st =
    ((Some (mkKubernetesResult "verified" "not_requested"), Ok tt), <[key := stored s (st !! key)]> st)).
  { intros st. unfold ensureSecret. rewrite N. unfold DefaultBackoffSteps. cbn [on_error]. rewrite W. cbn [get_secret honest]. fold key.
    rewrite lookup_insert_eq, stored_same, Rs. cbn [negb]. by rewrite eq_refl_true. }
  split; [apply En|]. rewrite En. f_equal. apply insert_id. unfold store'. rewrite lookup_insert_eq. f_equal.
Qed.
End HonestStore.

(** ** Witnesses *)
#[local] Existing Instance demo_names.
#[local] Existing Instance demo_k8s_names.
#[local] Existing Instance demo_prints.
#[local] Existing Instance demo_sum.
#[local] Instance join_url : GoURL :=
  {| url_parse := fun s => if s == "https://10.0.0.1:6443" then Some (mkURL "https" false "10.0.0.1:6443" "10.0.0.1" "6443" "" "" "") else None;
     is_ip := fun _ => true |}.
#[local] Instance join_x509 : X509 :=
  {| parse_request := fun _ => None;
     parse_cert := fun s => if s == "root" then Some (mkCert "kubernetes" [] true (String.substring 7 64 "sha256:0000000000000000000000000000000000000000000000000000000000000000"))
                            else if s == "kubelet" then Some (mkCert "system:node:crane-h1" ["system:nodes"] false "11") else None;
     chain_ok := fun ca c => ca == "root"; key_pair := fun c k => (c == "kubelet") && (k == "key");
     signature_ok := fun _ data sg => sg == String.append "signed " data; proof_json := fun c a b d => String.append c (String.append a (String.append b d)) |}.

(** The third command fails. *)
Definition demo_works (log : list (list string)) (c : list string) : bool := (length log <? 2)%nat.
Definition demo_state : ExpectedHostState :=
  mkExpected 1 "" "" "" {["kubelet.service" := true; "cron.service" := false]} [mkPackageChange "vim" "install"; mkPackageChange "nano" "remove"] None.

Lemma apply_runs_exactly_witness :
  let out := local_Apply (env := recording demo_works) demo_state [] in
  snd out = [["systemctl"; "stop"; "--"; "cron.service"]; ["systemctl"; "start"; "--"; "kubelet.service"]; ["apt-get"; "-y"; "install"; "--"; "vim"]] /\
  exists n, snd out = [] ++ take n (commands demo_state) /\
    (fst out <> Ok tt -> exists l c, take n (commands demo_state) = l ++ [c] /\ demo_works ([] ++ l) c = false).
Proof.
  split; [by vm_compute|].
  destruct (apply_runs_exactly demo_works demo_state [] _ _ (surjective_pairing _)) as (A & _).
  destruct (A ltac:(by vm_compute)) as (n & E & _ & F). exists n. exact (conj E F).
Defined.

(** A name that apt-get reads as the removal of a package passes validation as an install. *)
Example package_suffix_accepted :
  let x := mkExpected 1 "" "" "" ∅ [mkPackageChange "vim-" "install"] None in
  validateExpected x = Ok tt /\ commands x = [["apt-get"; "-y"; "install"; "--"; "vim-"]].
Proof. vm_compute. done. Qed.

Definition demo_join : ClusterJoinRequest :=
  mkJoinRequest (mkRegistration "c1" "h1" "g" "pool" "rev-1" (WorkerNodeName "h1") "aws:///i-1"
      (mkScheduling "m7i.large" "amd64" "us-west-2" "us-west-2a" ∅ [mkTaint "dedicated" "db" "NoSchedule"])) 3
    "00000000-0000-0000-0000-000000000000" "https://10.0.0.1:6443" "abcdef.0123456789abcdef"
    "sha256:0000000000000000000000000000000000000000000000000000000000000000".
Definition demo_config_of : JoinConfiguration :=
  match renderWorkerJoin demo_join with Ok c => c | Err _ => mkJoinConfiguration "" "" [] "" [] "" "" end.
Definition demo_joined_node : K8sNode :=
  mkK8sNode (jc_Name demo_config_of) "uid" (jc_ProviderID demo_config_of) [("InternalIP", "10.0.0.9")] (decode_labels (jc_NodeLabels demo_config_of)) ∅
    (jc_Taints demo_config_of) [].

Lemma rendered_worker_accepted_witness :
  validateWorkerNode demo_joined_node (jr_Registration demo_join) "10.0.0.9" false = Ok tt /\
  List.filter (fun t => negb (is_quarantine t)) (nd_Taints demo_joined_node) = [mkTaint "dedicated" "db" "NoSchedule"].
Proof.
  apply (rendered_worker_accepted demo_join demo_config_of demo_joined_node "10.0.0.9"); [by vm_compute| |done|done|done|done|by left].
  intros k v E. assert (F : Forall (fun kv => plain_label (fst kv) = true /\ plain_label (snd kv) = true)
    (map_to_list (SchedulingLabels (wr_Scheduling (jr_Registration demo_join)) (wr_NodePoolID (jr_Registration demo_join))))).
  { vm_compute. repeat constructor. }
  rewrite Forall_forall in F. apply (F (k, v)). by apply elem_of_map_to_list.
Defined.

(** A machine with the kubelet's credentials. *)
Definition demo_machine : HostEnv unit :=
  {| run_command := fun _ s => (true, s); dpkg_output := fun _ => None; systemctl_output := fun _ => None;
     get_secret := fun _ _ s => (inl OtherError, s); create_secret := fun _ _ _ s => (Some OtherError, s);
     update_secret := fun _ _ _ s => (Some OtherError, s); get_deployment := fun _ _ s => (inl OtherError, s);
     update_deployment := fun _ _ s => (inl OtherError, s); poll_budget := fun _ => 0%nat; kubelet_present := fun _ => Present;
     kubelet_config := fun _ => Some (mkKubeConfig "https://10.0.0.1:6443" false (Some "root") (Some "kubelet") (Some "key"));
     bootstrap_present := fun _ => Absent; bootstrap_config := fun _ => NotLoaded; write_bootstrap_token := fun _ s => (false, s);
     stage_join := fun _ s => (None, s); get_node_uid := fun _ _ => Some "uid" |}.
Definition demo_sign (key data : string) : option string := Some (String.append "signed " data).
Definition demo_proof : ClusterMembership :=
  match local_ClusterMembership (env := demo_machine) demo_sign demo_join "challenge" tt with Ok p => p | Err _ => mkMembership "" "" "" "" "" end.

Lemma membership_proof_accepted_witness :
  verifyMembership demo_proof "challenge" (JoinFingerprint demo_join) (wr_NodeName (jr_Registration demo_join)) "root" = Ok tt.
Proof.
  apply (membership_proof_accepted (env := demo_machine) demo_sign demo_join "challenge" tt demo_proof
    (mkKubeConfig "https://10.0.0.1:6443" false (Some "root") (Some "kubelet") (Some "key")) "root" (mkCert "system:node:crane-h1" ["system:nodes"] false "11")); try done.
  intros pem key c data sg _ _ [= <-]. by apply bool_decide_eq_true_2.
Defined.

Lemma ensureSecret_exact_witness :
  let secret := mkSecret "ns" "db" "" ∅ {["password" := "x"]} "" in
  ensureSecret (env := honest) (fun s => s) "t" secret ∅ =
    ((Some (mkKubernetesResult "verified" "not_requested"), Ok tt), {[("ns", "db") := mkKubeSecret "Opaque" {["password" := "x"]} ""]}).
Proof.
  destruct (ensureSecret_exact (fun s => s) "t" (mkSecret "ns" "db" "" ∅ {["password" := "x"]} "") (mkSecret "ns" "db" "Opaque" {["password" := "x"]} ∅ "") ∅)
    as [E _]; [by vm_compute|done|]. cbn zeta. rewrite E. by vm_compute.
Defined.
