(* ===== verification/Probe.v ===== *)
(** * The deployment probe: cmd/crane-bootstrap-probe/main.go and pkg/api/identity.go

    After a Dominator or an agent was installed, the probe is run on the host with the identity
    under test: it checks its own identity, then either both health routes of the Dominator or
    the agent's health, its authorization of writes and its state.  The network is a parameter
    ([ProbeNet]); the agent's own handler is one instance of its part towards Subd. *)
From S2P Require Import Prelude GoStrings Sql Api Schema Lease Handoff Scheduling Bootstrap Regex Subd SubdFacts HostRpc LocalHost.
From Stdlib Require Import Ascii String.

Local Open Scope string_scope.
Local Open Scope list_scope.
Local Open Scope Z_scope.
Local Open Scope crane_scope.

(** ** pkg/api/identity.go *)
Definition DominatorID `{Spiffe} (trustDomain zoneID : string) : result string :=
  guard negb ((TrimSpace trustDomain == "") || (TrimSpace zoneID == "") || (zoneID != TrimSpace zoneID)) else ErrMsg "trust domain and zone ID are required" in
  let* td := of_option (ErrMsg "invalid SPIFFE trust domain") (trust_domain trustDomain) in
  of_option (ErrMsg "invalid zone-scoped Dominator identity") (FromPath td (String.append "/dominator/" zoneID)).

(** ** [validateDominatorURL]; [url_string] is [u.String()] *)
Definition validateDominatorURL `{GoURL} `{ListenNet} (url_string : URL -> string) (raw : string) : result string :=
  let invalid := ErrMsg "Dominator URL must be a private HTTPS address on port 44000" in
  let* u := of_option invalid (url_parse raw) in
  guard negb ((u_Scheme u != "https") || (u_Port u != "44000") || u_User u || (u_Path u != "") || (u_RawQuery u != "") || (u_Fragment u != "")) else invalid in
  guard if negb (is_ip (u_Hostname u)) then HasSuffix (u_Hostname u) ".svc.cluster.local" && HasPrefix (u_Hostname u) "dominator-"
        else private_or_loopback (u_Hostname u) else ErrMsg "Dominator URL must use a private IP address or in-cluster service" in
  Ok (url_string u).

(** ** [probeSubd] *)

(** A round trip: the status code and what the body decodes to, [None] when the request failed. *)
Definition Answer (A : Type) : Type := option (Z * option A).

(** The three requests of the probe and the two towards a Dominator; the update is the body
    with revision zero. *)
Class ProbeNet (W : Type) : Type := {
  net_health : W -> Answer HostAgentStatus * W;
  net_update : W -> Answer unit * W;
  net_state : W -> Answer HostAgentStatus * W;
  net_get : string -> W -> option Z * W }.

(** The closure [request] with a destination to decode into. *)
Definition request {W A} (rt : W -> Answer A * W) (want : Z) (w : W) : result (option A) * W :=
  match rt w with
  | (None, w) => (Err (ErrMsg "Subd authenticated request failed"), w)
  | (Some (code, body), w) => if code != want then (Err (ErrMsg "Subd returned unexpected status"), w) else (Ok body, w)
  end.
Definition decoded_reply {A} (r : result (option A)) : result A := let* o := r in of_option (ErrMsg "invalid Subd response") o.

Definition probeSubd `{ProbeNet W} (identity : string) (write : bool) (w : W) : result unit * W :=
  let '(r, w) := request net_health 200 w in
  match decoded_reply r with
  | Err e => (Err e, w)
  | Ok health =>
      if negb (hs_Ready health) || (hs_Identity health != identity) then (Err (ErrMsg "Subd readiness or identity mismatch"), w)
      else
        let '(r, w) := request net_update (if write then 400 else 403) w in
        match r with
        | Err e => (Err e, w)
        | Ok _ =>
            let '(r, w) := request net_state 200 w in
            match decoded_reply r with
            | Err e => (Err e, w)
            | Ok state =>
                if (hs_Identity state != identity) || negb (hs_Ready state) || (hs_AcceptedRevision state <? hs_AcceptedRevision health) ||
                   (hs_AcceptedRevision state <? hs_AppliedRevision state)
                then (Err (ErrMsg "Subd current state does not confirm bootstrap update"), w)
                else (Ok tt, w)
            end
        end
  end.

(** ** [run] *)
Record ProbeFlags : Type := mkProbeFlags { pb_endpoint : string; pb_identity : string; pb_zoneID : string; pb_dominatorURL : string; pb_write : bool }.

Fixpoint probe_paths `{ProbeNet W} (url : string) (paths : list string) (w : W) : result unit * W :=
  match paths with
  | [] => (Ok tt, w)
  | p :: paths =>
      match net_get (String.append url p) w with
      | (None, w) => (Err (ErrMsg "Dominator authenticated health failed"), w)
      | (Some code, w) => if code != 200 then (Err (ErrMsg "Dominator returned an unexpected status"), w) else probe_paths url paths w
      end
  end.

(** The identity the probe must hold itself. *)
Definition probe_identity (f : ProbeFlags) (domain expected : string) : string :=
  if (pb_endpoint f != "") && pb_write f then expected else id_string domain "/subd".

(** [domain] is SPIFFE_TRUST_DOMAIN, [own] the identity of the workload's certificate, [None] when there is none. *)
Definition probe_run `{GoURL} `{ListenNet} `{Spiffe} `{ProbeNet W} (url_string : URL -> string) (f : ProbeFlags) (domain : string) (own : option string) (w : W) :
    result unit * W :=
  let checked :=
    let* url := validateDominatorURL url_string (pb_dominatorURL f) in
    let* own := of_option (ErrMsg "SPIRE workload attestation failed") own in
    guard domain != "" else ErrMsg "SPIFFE_TRUST_DOMAIN is required" in
    let* expected := DominatorID domain (pb_zoneID f) in
    guard own == probe_identity f domain expected else ErrMsg "unexpected probe SPIFFE identity" in
    let* _ := (if pb_endpoint f == "" then Ok tt
               else require match spiffe_id (pb_identity f) with Some (td, _) => td == domain | None => false end (ErrMsg "invalid expected Subd identity")) in
    Ok url in
  match checked with
  | Err e => (Err e, w)
  | Ok url => if pb_endpoint f != "" then probeSubd (pb_identity f) (pb_write f) w else probe_paths url ["/v1/health"; "/v1/db/health"] w
  end.

(** ** The probe against the agent *)
Section Agent.
Context {H : Type} {host : HostOps H} {k8s : K8s} {names : K8sNames} {fp : Fingerprints} {dg : Digest} {gourl : GoURL} {faults : Faults}.
Context (identity : string) (pid : Z) (invocation : string) (cfg : AgentConfig) (challenge_bytes : string -> option Z) (peer : option string).

(** What the client reads of a reply; a process that dies gives none. *)
Definition status_reply (r : option Reply) : Answer HostAgentStatus :=
  match r with
  | Some (RStatus code s) => Some (code, Some s)
  | Some (RState s _) => Some (200, Some s)
  | Some (RJoin _ | RMembership _) => Some (200, None)
  | Some (RText code _) => Some (code, None)
  | None => None
  end.
Definition code_of (a : Answer HostAgentStatus) : Answer unit := match a with Some (code, _) => Some (code, None) | None => None end.

Definition serve (c : AgentCall) (m : Machine H) : Answer HostAgentStatus * Machine H :=
  let '(r, m) := agent_Handler identity pid invocation cfg challenge_bytes peer true c m in (status_reply r, m).

#[local] Instance agent_net : ProbeNet (Machine H) :=
  {| net_health := serve GetHealth; net_state := serve GetState;
     net_update := fun m => let '(a, m) := serve (PutExpectedState false (Some zero_expected)) m in (code_of a, m);
     net_get := fun _ m => (None, m) |}.

Definition may_read : bool := match peer with Some id => (id == ac_WriterIdentity cfg) || one_of id (ac_ReaderIdentities cfg) | None => false end.
Definition may_write : bool := match peer with Some id => id == ac_WriterIdentity cfg | None => false end.

(** The code with which a peer that is not authorized is refused. *)
Definition refusal : Z := match peer with Some _ => 403 | None => 401 end.

Lemma serve_health m : serve GetHealth m = (if may_read then Some (200, Some (mc_view m)) else Some (refusal, None), m).
Proof. unfold serve, agent_Handler, may_read, refusal. destruct peer as [id|]; [|done]. cbn [is_get andb]. by destruct (_ || _). Qed.

Lemma serve_update m : serve (PutExpectedState false (Some zero_expected)) m = (Some (if may_write then 400 else refusal, None), m).
Proof. unfold serve, agent_Handler, may_write, refusal. destruct peer as [id|]; [|done]. cbn [is_get andb]. rewrite orb_false_r. by destruct (id == _). Qed.

Lemma serve_state m : may_read = true ->
  serve GetState m = (match host_Collect (mc_host m) with Ok _ => Some (200, Some (mc_view m)) | Err _ => Some (503, None) end, m).
Proof.
  unfold serve, agent_Handler, may_read. destruct peer as [id|]; [|done]. cbn [is_get andb]. intros ->. cbn [negb andb]. unfold gets.
  by destruct (host_Collect _).
Qed.

Lemma may_write_reads : may_write = true -> may_read = true.
Proof. unfold may_write, may_read. destruct peer as [id|]; [|done]. by intros ->. Qed.

(** The three requests one after the other: each leaves the agent as it was. *)
Definition probe_passes (expected : string) (write : bool) (m : Machine H) : bool :=
  may_read && (hs_Identity (mc_view m) == expected) && hs_Ready (mc_view m) && Bool.eqb write may_write && is_ok (host_Collect (mc_host m)) &&
  (hs_AppliedRevision (mc_view m) <=? hs_AcceptedRevision (mc_view m)).

Lemma probe_steps expected write m :
  is_ok (fst (probeSubd expected write m)) = probe_passes expected write m /\ snd (probeSubd expected write m) = m.
Proof.
  unfold probeSubd, request, net_health, net_update, net_state, agent_net, probe_passes. rewrite serve_health.
  destruct may_read eqn:R; [|unfold refusal; by destruct peer]. cbn [decoded_reply rbind of_option andb]. rewrite (bool_decide_true (200 = 200)) by done. cbn [negb decoded_reply rbind of_option].
  destruct (hs_Ready (mc_view m)) eqn:Er; cbn [negb orb]; [|by rewrite andb_false_r].
  case_bool_decide as Ei; cbn [negb andb]; [|done]. rewrite serve_update. cbn [code_of].
  assert (((if may_write then 400 else refusal) == (if write then 400 else 403)) = Bool.eqb write may_write) as Ew.
  { unfold may_write, may_read, refusal in *. destruct peer as [id|]; [|done]. by destruct (id == _), write. }
  rewrite Ew. destruct (Bool.eqb write may_write); cbn [negb andb]; [|done]. rewrite (serve_state m R).
  destruct (host_Collect (mc_host m)) as [st|e]; cbn [is_ok andb]; [|done]. rewrite (bool_decide_true (200 = 200)) by done. cbn [negb decoded_reply rbind of_option].
  rewrite (bool_decide_true _ Ei), Er. cbn [negb orb]. rewrite Z.ltb_irrefl, Z.ltb_antisym. cbn [orb]. by destruct (_ <=? _).
Qed.

(** The probe changes nothing on the agent it looks at, whoever runs it: neither its memory, its
    files nor the host. *)
Theorem probe_changes_nothing expected write m : snd (probeSubd expected write m) = m.
Proof. apply probe_steps. Qed.

(** What a probe says of an agent in service, after any history of requests, faults and deaths:
    it passes exactly when the agent is the expected one, the peer may read, its right to write is
    the one that was asked about, and the host can be inspected. *)
Theorem probe_exact expected write m :
  (forall e c r, String.length (join_digest e c r) = 64%nat) -> (forall u, url_parse "" = Some u -> u_Host u = "") ->
  life identity cfg challenge_bytes (Some (pid, invocation)) m ->
  is_ok (fst (probeSubd expected write m)) = true <->
  expected = identity /\ may_read = true /\ write = may_write /\ is_ok (host_Collect (mc_host m)) = true.
Proof.
  intros Hd Hu L. destruct (life_alive identity cfg challenge_bytes Hd Hu _ _ L) as [[_ (K & _)] V].
  rewrite (proj1 (probe_steps expected write m)). unfold probe_passes. rewrite V. cbn [status_of hs_Identity hs_Ready hs_AppliedRevision hs_AcceptedRevision].
  rewrite (proj2 (Z.leb_le _ _) (proj1 (known_applied _ K))), !andb_true_r, !andb_true_iff, bool_decide_eq_true, Bool.eqb_true_iff. naive_solver.
Qed.
End Agent.

(** The agent of the demonstration, which died and resumed, probed by its writer and by a stranger. *)
#[local] Existing Instances demo_names demo_k8s_names demo_prints demo_sum demo_urls demo_host demo_faults.
Definition demo_probe (peer : string) (write : bool) : result unit * Machine nat :=
  probeSubd (H := agent_net demo_me 2 "i" demo_agent (fun _ => None) (Some peer)) demo_me write demo_resumed.

Lemma probe_exact_witness : is_ok (fst (demo_probe demo_writer true)) = true /\ is_ok (fst (demo_probe "spiffe://crane/other" true)) = false.
Proof.
  split; [|vm_compute; reflexivity].
  apply (probe_exact demo_me 2 "i" demo_agent (fun _ => None) (Some demo_writer) demo_me true demo_resumed); [done|done|exact demo_life|].
  vm_compute. done.
Defined.
