(* ===== verification/Redact.v ===== *)
(** * Log redaction: internal/logging/redact.go

    Every log record of the services passes through [RedactHandler], which replaces what
    looks secret before the wrapped handler sees it.  [isSensitiveKey] judges the names of
    attributes, groups, map keys and struct fields; [redactString] rewrites free text with
    four regular expressions; [redactReflect] walks a value that was logged as such.  Go
    values are described as reflection sees them ([val]): pointers, slices and maps refer
    to a [heap], so a value may contain itself.  The wrapped handler is represented by what
    it is given: the attributes and groups it was derived with, and the record. *)
From S2P Require Import Prelude GoStrings Regex.
From Stdlib Require Import Ascii String.

Local Open Scope string_scope.
Local Open Scope list_scope.
Local Open Scope crane_scope.

(** ** Names *)
Definition Redacted : string := "[REDACTED]".
Definition maxRedactDepth : nat := 12.

Definition sensitiveKeySubstrings : list string :=
  ["password"; "passwd"; "pwd"; "secret"; "token"; "credential"; "authorization"; "apikey"; "accesskey"; "secretkey"; "privatekey";
   "dsn"; "conn"; "connection"; "body"; "rawbody"; "cookie"; "session"].

(** [strings.NewReplacer] of the separators by nothing. *)
Fixpoint drop_separators (s : string) : string :=
  match s with
  | EmptyString => EmptyString
  | String c r => if any_of "-_ ." c then drop_separators r else String c (drop_separators r)
  end.

Definition isSensitiveKey (key : string) : bool :=
  let normalized := drop_separators (ToLower key) in
  if normalized == "" then false else existsb (Contains normalized) sensitiveKeySubstrings.

(** ** Free text *)
Definition dquote : ascii := ascii_of_nat 34.
Definition squote : ascii := ascii_of_nat 39.
Definition backslash : ascii := ascii_of_nat 92.
Definition is_char (x c : ascii) : bool := c == x.
Definition spaces : regex := RStar (RClass space_class).
Definition non_space (c : ascii) : bool := negb (space_class c).
Definition RQuote : regex := RClass (is_char dquote).
(** [a[_-]?b], whatever the case. *)
Definition RTwo (a b : string) : regex := RCat (RFold a) (RCat (ROpt (RClass (any_of "_-"))) (RFold b)).

Definition secret_word : regex :=
  RAny [RFold "password"; RFold "passwd"; RFold "pwd"; RFold "secret"; RFold "token"; RTwo "api" "key"; RTwo "access" "key";
        RTwo "secret" "key"; RFold "dsn"; RFold "authorization"; RFold "credential"].
Definition boundary (c : ascii) : bool := negb (letter c || digit c).
Definition separator (c : ascii) : bool := any_of "=:" c.
Definition secret_value : regex :=
  RAny [RCat RQuote (RCat (RStar (RClass (fun c => negb (is_char dquote c)))) RQuote);
        RCat (RClass (is_char squote)) (RCat (RStar (RClass (fun c => negb (is_char squote c)))) (RClass (is_char squote)));
        RPlus (RClass non_space)].
Definition secretKeyValueRe : regex :=
  RCat (RGroup 1 (RAlt RBegin (RClass boundary)))
    (RCat (RGroup 2 secret_word) (RCat spaces (RCat (RClass separator) (RCat spaces (RGroup 3 secret_value))))).

Definition scheme_char (c : ascii) : bool := letter c || digit c || any_of "+.-" c.
Definition urlCredentialRe : regex :=
  RCat (RGroup 1 (RCat (RClass letter) (RCat (RStar (RClass scheme_char)) (RCat (RLit "://")
                 (RCat (RPlus (RClass (fun c => non_space c && negb (any_of ":@/" c)))) (RLit ":"))))))
    (RCat (RGroup 2 (RPlus (RClass (fun c => non_space c && negb (any_of "@" c))))) (RGroup 3 (RLit "@"))).

Definition authorizationRe : regex :=
  RCat (RGroup 1 (RCat (RFold "authorization") (RCat spaces (RCat (RClass separator) (RCat spaces
                 (RCat (RAlt (RFold "bearer") (RFold "basic")) (RPlus (RClass space_class))))))))
    (RPlus (RClass (fun c => non_space c && negb (any_of ",;" c)))).

Definition json_word : regex :=
  RAny [RFold "password"; RFold "passwd"; RFold "pwd"; RFold "secret"; RFold "token"; RTwo "api" "key"; RTwo "access" "key";
        RTwo "secret" "key"; RFold "authorization"; RFold "credential"].
Definition jsonSecretRe : regex :=
  RCat (RGroup 1 (RCat RQuote (RCat json_word (RCat RQuote (RCat spaces (RCat (RLit ":") spaces))))))
    (RCat RQuote (RCat (RStar (RAlt (RCat (RClass (is_char backslash)) (RClass (fun c => negb (code c =? 10)%nat)))
                                    (RClass (fun c => negb (is_char dquote c || is_char backslash c))))) RQuote)).

Definition authorization_text (g : nat -> string) : string := String.append (g 1%nat) Redacted.
Definition json_secret_text (g : nat -> string) : string := String.append (g 1%nat) (String dquote (String.append Redacted (String dquote ""))).
Definition key_value_text (g : nat -> string) : string := String.append (g 1%nat) (String.append (g 2%nat) (String.append "=" Redacted)).
Definition url_text (g : nat -> string) : string := String.append (g 1%nat) (String.append Redacted (g 3%nat)).

Definition redactString (s : string) : string :=
  if s == "" then s
  else
    let s := replace_all authorizationRe authorization_text s in
    let s := replace_all jsonSecretRe json_secret_text s in
    let s := replace_all secretKeyValueRe key_value_text s in
    replace_all urlCredentialRe url_text s.

(** ** Values *)
Definition addr : Type := positive.
Record Field : Type := mkField { fd_Name : string; fd_json : option string; fd_exported : bool }.

(** [VPtr] is a pointer or an interface; [bytes] marks elements of kind uint8; [VOther] is
    a function, a channel, a complex number or an unsafe pointer. *)
Inductive val : Type :=
| VString (s : string) | VBool (b : bool) | VInt (z : Z) | VUint (z : Z) | VFloat (bits : Z) | VTime (t : Z)
| VPtr (a : option addr)
| VSlice (bytes : bool) (a : option addr)
| VArray (bytes : bool) (l : list val)
| VMap (a : option addr)
| VStruct (l : list (Field * val))
| VOther.

(** Map entries carry their key as [fmt.Sprint] prints it, in the order of the iteration. *)
Record heap : Type := mkHeap { hp_elem : addr -> val; hp_items : addr -> list val; hp_entries : addr -> list (string * val) }.

Inductive out : Type :=
| ONil | OString (s : string) | OBool (b : bool) | OInt (z : Z) | OUint (z : Z) | OFloat (bits : Z) | OTime (t : Z)
| OList (l : list out)
| OMap (m : list (string * out)).

(** [out[name] = v] *)
Fixpoint set_key (name : string) (v : out) (m : list (string * out)) : list (string * out) :=
  match m with
  | [] => [(name, v)]
  | (k, w) :: m => if k == name then (k, v) :: m else (k, w) :: set_key name v m
  end.

(** The name under which a field is written, if it is. *)
Definition field_key (f : Field) : option string :=
  if negb (fd_exported f) then None
  else match fd_json f with
       | None => Some (fd_Name f)
       | Some tag =>
           let '(part, _, _) := Cut tag "," in
           if part == "-" then None else if part != "" then Some part else Some (fd_Name f)
       end.

Definition redact_entry (rec : val -> out) (acc : list (string * out)) (kv : string * val) : list (string * out) :=
  set_key (fst kv) (if isSensitiveKey (fst kv) then OString Redacted else rec (snd kv)) acc.

Definition redact_field (rec : val -> out) (acc : list (string * out)) (fv : Field * val) : list (string * out) :=
  match field_key (fst fv) with
  | None => acc
  | Some name => set_key name (if isSensitiveKey name || isSensitiveKey (fd_Name (fst fv)) then OString Redacted else rec (snd fv)) acc
  end.

Section Values.
Context (h : heap).

(** [redactReflect] with [levels] levels to go before the depth is above [maxRedactDepth]. *)
Fixpoint redact_within (levels : nat) (v : val) : out :=
  match levels with
  | O => OString Redacted
  | S levels =>
      match v with
      | VPtr None => ONil
      | VPtr (Some a) => redact_within levels (hp_elem h a)
      | VString s => OString (redactString s)
      | VBool b => OBool b
      | VInt z => OInt z
      | VUint z => OUint z
      | VFloat z => OFloat z
      | VTime t => OTime t
      | VSlice true _ | VArray true _ => OString Redacted
      | VSlice false None => OList []
      | VSlice false (Some a) => OList (map (redact_within levels) (hp_items h a))
      | VArray false l => OList (map (redact_within levels) l)
      | VMap None => ONil
      | VMap (Some a) => OMap (fold_left (redact_entry (redact_within levels)) (hp_entries h a) [])
      | VStruct l => OMap (fold_left (redact_field (redact_within levels)) l [])
      | VOther => OString Redacted
      end
  end.

Definition redactReflect (v : val) (depth : nat) : out := redact_within (S maxRedactDepth - depth) v.
End Values.

(** ** Attributes *)
Inductive scalar : Type := SBool (b : bool) | SInt64 (z : Z) | SUint64 (z : Z) | SFloat64 (bits : Z) | SDuration (z : Z) | STime (t : Z).

(** [KAny e v] holds [v]; [e] is its error text when its type is an error.  [KValuer v] is
    a [LogValuer] that resolves to [v]. *)
Inductive Value : Type :=
| KString (s : string) | KScalar (x : scalar) | KGroup (l : list (string * Value)) | KNil | KAny (e : option string) (v : val)
| KValuer (v : Value).

Inductive OutValue : Type :=
| WString (s : string) | WScalar (x : scalar) | WGroup (l : list (string * OutValue)) | WAny (o : out).

Definition redactAny (h : heap) (e : option string) (v : val) : out :=
  match e, v with
  | Some text, _ => OString (redactString text)
  | None, VSlice true _ => OString Redacted
  | None, VTime t => OTime t
  | None, _ => redactReflect h v 0
  end.

Section Handler.
Context (h : heap).

Fixpoint redactAttr (suppress : bool) (key : string) (v : Value) : OutValue :=
  match v with
  | KValuer v => redactAttr suppress key v
  | KNil => if (key != "") && (suppress || isSensitiveKey key) then WString Redacted else WAny ONil
  | _ =>
      if suppress || isSensitiveKey key then WString Redacted
      else match v with
           | KString s => WString (redactString s)
           | KGroup l => WGroup (map (fun kv => (fst kv, redactAttr suppress (fst kv) (snd kv))) l)
           | KAny (Some text) _ => WString (redactString text)
           | KAny None (VSlice true _) => WString Redacted
           | KAny None v => WAny (redactAny h None v)
           | KScalar x => WScalar x
           | _ => WAny ONil
           end
  end.

(** What the wrapped handler was derived with. *)
Inductive derived : Type := DAttrs (l : list (string * OutValue)) | DGroup (name : string).
Record RedactHandler : Type := mkHandler { rh_inner : list derived; rh_suppress : bool }.
Definition NewRedactHandler : RedactHandler := mkHandler [] false.

Definition redact_attrs (suppress : bool) (attrs : list (string * Value)) : list (string * OutValue) :=
  map (fun kv => (fst kv, redactAttr suppress (fst kv) (snd kv))) attrs.

Definition WithAttrs (attrs : list (string * Value)) (r : RedactHandler) : RedactHandler :=
  let redacted := map (fun kv => (fst kv, if rh_suppress r then WString Redacted else redactAttr (rh_suppress r) (fst kv) (snd kv))) attrs in
  mkHandler (rh_inner r ++ [DAttrs redacted]) (rh_suppress r).

Definition WithGroup (name : string) (r : RedactHandler) : RedactHandler :=
  mkHandler (rh_inner r ++ [DGroup name]) (rh_suppress r || isSensitiveKey name).

(** What [inner.Handle] gets. *)
Record Delivered : Type := mkDelivered { dv_inner : list derived; dv_message : string; dv_attrs : list (string * OutValue) }.
Definition Handle (message : string) (attrs : list (string * Value)) (r : RedactHandler) : Delivered :=
  mkDelivered (rh_inner r) (redactString message) (redact_attrs (rh_suppress r) attrs).
End Handler.
