(* ===== verification/RedactFacts.v ===== *)
(** * Log redaction: what reaches a log

    [leaf] and its companions say, without looking at the redaction, which atoms a logged
    value holds and under which names, numbers and booleans alike; [handler_leaks_nothing] says
    that an atom of the delivered record is the placeholder or the redacted form of one none of
    whose enclosing names is sensitive.  [Redacts] follows the recursion of [redactReflect] as it
    is written, counting the depth up; [redaction_terminates] says that it ends on every
    value.  [key_value_hidden] is about free text. *)
From S2P Require Import Prelude GoStrings Regex Redact.
From Stdlib Require Import Ascii String.

Local Open Scope string_scope.
Local Open Scope list_scope.
Local Open Scope crane_scope.

(** ** The recursion as the code has it *)
Section Recursion.
Context (h : heap).

Inductive Redacts : nat -> val -> out -> Prop :=
| r_deep depth v : (maxRedactDepth < depth)%nat -> Redacts depth v (OString Redacted)
| r_nil depth : (depth <= maxRedactDepth)%nat -> Redacts depth (VPtr None) ONil
| r_elem depth a o : (depth <= maxRedactDepth)%nat -> Redacts (S depth) (hp_elem h a) o -> Redacts depth (VPtr (Some a)) o
| r_string depth s : (depth <= maxRedactDepth)%nat -> Redacts depth (VString s) (OString (redactString s))
| r_bool depth b : (depth <= maxRedactDepth)%nat -> Redacts depth (VBool b) (OBool b)
| r_int depth z : (depth <= maxRedactDepth)%nat -> Redacts depth (VInt z) (OInt z)
| r_uint depth z : (depth <= maxRedactDepth)%nat -> Redacts depth (VUint z) (OUint z)
| r_float depth z : (depth <= maxRedactDepth)%nat -> Redacts depth (VFloat z) (OFloat z)
| r_time depth z : (depth <= maxRedactDepth)%nat -> Redacts depth (VTime z) (OTime z)
| r_other depth : (depth <= maxRedactDepth)%nat -> Redacts depth VOther (OString Redacted)
| r_slice_bytes depth a : (depth <= maxRedactDepth)%nat -> Redacts depth (VSlice true a) (OString Redacted)
| r_array_bytes depth l : (depth <= maxRedactDepth)%nat -> Redacts depth (VArray true l) (OString Redacted)
| r_slice_nil depth : (depth <= maxRedactDepth)%nat -> Redacts depth (VSlice false None) (OList [])
| r_slice depth a o : (depth <= maxRedactDepth)%nat -> RedactsItems depth (hp_items h a) o -> Redacts depth (VSlice false (Some a)) (OList o)
| r_array depth l o : (depth <= maxRedactDepth)%nat -> RedactsItems depth l o -> Redacts depth (VArray false l) (OList o)
| r_map_nil depth : (depth <= maxRedactDepth)%nat -> Redacts depth (VMap None) ONil
| r_map depth a o : (depth <= maxRedactDepth)%nat -> RedactsEntries depth [] (hp_entries h a) o -> Redacts depth (VMap (Some a)) (OMap o)
| r_struct depth l o : (depth <= maxRedactDepth)%nat -> RedactsFields depth [] l o -> Redacts depth (VStruct l) (OMap o)
with RedactsItems : nat -> list val -> list out -> Prop :=
| ri_nil depth : RedactsItems depth [] []
| ri_cons depth v l o os : Redacts (S depth) v o -> RedactsItems depth l os -> RedactsItems depth (v :: l) (o :: os)
with RedactsEntries : nat -> list (string * out) -> list (string * val) -> list (string * out) -> Prop :=
| re_nil depth acc : RedactsEntries depth acc [] acc
| re_sensitive depth acc k v l o :
    isSensitiveKey k = true -> RedactsEntries depth (set_key k (OString Redacted) acc) l o -> RedactsEntries depth acc ((k, v) :: l) o
| re_plain depth acc k v l x o :
    isSensitiveKey k = false -> Redacts (S depth) v x -> RedactsEntries depth (set_key k x acc) l o ->
    RedactsEntries depth acc ((k, v) :: l) o
with RedactsFields : nat -> list (string * out) -> list (Field * val) -> list (string * out) -> Prop :=
| rf_nil depth acc : RedactsFields depth acc [] acc
| rf_skipped depth acc f v l o : field_key f = None -> RedactsFields depth acc l o -> RedactsFields depth acc ((f, v) :: l) o
| rf_sensitive depth acc f v l k o :
    field_key f = Some k -> isSensitiveKey k || isSensitiveKey (fd_Name f) = true ->
    RedactsFields depth (set_key k (OString Redacted) acc) l o -> RedactsFields depth acc ((f, v) :: l) o
| rf_plain depth acc f v l k x o :
    field_key f = Some k -> isSensitiveKey k || isSensitiveKey (fd_Name f) = false ->
    Redacts (S depth) v x -> RedactsFields depth (set_key k x acc) l o -> RedactsFields depth acc ((f, v) :: l) o.

Scheme Redacts_mut := Minimality for Redacts Sort Prop
  with RedactsItems_mut := Minimality for RedactsItems Sort Prop
  with RedactsEntries_mut := Minimality for RedactsEntries Sort Prop
  with RedactsFields_mut := Minimality for RedactsFields Sort Prop.

Lemma items_redacted rec depth l : (forall v, Redacts (S depth) v (rec v)) -> RedactsItems depth l (map rec l).
Proof. intros R. induction l; constructor; auto. Qed.

Lemma entries_redacted rec depth l : (forall v, Redacts (S depth) v (rec v)) ->
  forall acc, RedactsEntries depth acc l (fold_left (redact_entry rec) l acc).
Proof.
  intros R. induction l as [|[k v] l IH]; intros acc; [constructor|]. cbn [fold_left]. unfold redact_entry at 2. cbn [fst snd].
  destruct (isSensitiveKey k) eqn:E; [by apply re_sensitive|by eapply re_plain].
Qed.

Lemma fields_redacted rec depth l : (forall v, Redacts (S depth) v (rec v)) ->
  forall acc, RedactsFields depth acc l (fold_left (redact_field rec) l acc).
Proof.
  intros R. induction l as [|[f v] l IH]; intros acc; [constructor|]. cbn [fold_left]. unfold redact_field at 2. cbn [fst snd].
  destruct (field_key f) as [k|] eqn:E; [|by apply rf_skipped].
  destruct (isSensitiveKey k || isSensitiveKey (fd_Name f)) eqn:Es; [by eapply rf_sensitive|by eapply rf_plain].
Qed.

Lemma redacts_within n : forall depth v, (n + depth = S maxRedactDepth)%nat -> Redacts depth v (redact_within h n v).
Proof.
  induction n as [|n IH]; intros depth v E; [constructor; lia|]. assert (depth <= maxRedactDepth)%nat by lia.
  assert (R : forall x, Redacts (S depth) x (redact_within h n x)) by (intros x; apply IH; lia).
  destruct v as [| | | | | |[a|]|[] [a|]|[] l|[a|]|l|]; cbn [redact_within]; constructor;
    solve [done|eauto using items_redacted, entries_redacted, fields_redacted].
Qed.

(** The recursion has one result. *)
Lemma redacts_unique depth v o : Redacts depth v o -> o = redactReflect h v depth.
Proof.
  unfold redactReflect. revert depth v o. apply (Redacts_mut
    (fun depth v o => o = redact_within h (S maxRedactDepth - depth) v)
    (fun depth l o => (depth <= maxRedactDepth)%nat -> o = map (redact_within h (maxRedactDepth - depth)) l)
    (fun depth acc l o => (depth <= maxRedactDepth)%nat -> o = fold_left (redact_entry (redact_within h (maxRedactDepth - depth))) l acc)
    (fun depth acc l o => (depth <= maxRedactDepth)%nat -> o = fold_left (redact_field (redact_within h (maxRedactDepth - depth))) l acc));
    intros depth.
  1: { intros v L. by replace (S maxRedactDepth - depth)%nat with O by lia. }
  all: try (intros L; by rewrite Nat.sub_succ_l by done).
  all: try (intros ? L; by rewrite Nat.sub_succ_l by done).
  - intros a o L _ ->. rewrite (Nat.sub_succ_l depth) by done. by rewrite Nat.sub_succ.
  - intros a o L _ E. rewrite (Nat.sub_succ_l depth) by done. cbn [redact_within]. by rewrite (E L).
  - intros l o L _ E. rewrite (Nat.sub_succ_l depth) by done. cbn [redact_within]. by rewrite (E L).
  - intros a o L _ E. rewrite (Nat.sub_succ_l depth) by done. cbn [redact_within]. by rewrite (E L).
  - intros l o L _ E. rewrite (Nat.sub_succ_l depth) by done. cbn [redact_within]. by rewrite (E L).
  - done.
  - intros v l o os _ -> _ E L. cbn [map]. by rewrite (E L).
  - done.
  - intros acc k v l o Es _ E L. rewrite (E L). cbn [fold_left]. unfold redact_entry at 3. cbn [fst snd]. by rewrite Es.
  - intros acc k v l x o Es _ -> _ E L. rewrite (E L). cbn [fold_left]. unfold redact_entry at 3. cbn [fst snd]. by rewrite Es.
  - done.
  - intros acc f v l o Ek _ E L. rewrite (E L). cbn [fold_left]. unfold redact_field at 3. cbn [fst snd]. by rewrite Ek.
  - intros acc f v l k o Ek Es _ E L. rewrite (E L). cbn [fold_left]. unfold redact_field at 3. cbn [fst snd]. by rewrite Ek, Es.
  - intros acc f v l k x o Ek Es _ -> _ E L. rewrite (E L). cbn [fold_left]. unfold redact_field at 3. cbn [fst snd]. by rewrite Ek, Es.
Qed.
End Recursion.

(** ** The contents of a value, with the names that enclose them

    An atom is a string, or a boolean, a number, a duration or a time. *)
Inductive atom : Type := AText (s : string) | AScalar (x : scalar).
Definition redact_atom (a : atom) : atom := match a with AText s => AText (redactString s) | AScalar x => AScalar x end.

Definition val_scalar (v : val) : option scalar :=
  match v with
  | VBool b => Some (SBool b) | VInt z => Some (SInt64 z) | VUint z => Some (SUint64 z) | VFloat z => Some (SFloat64 z) | VTime t => Some (STime t)
  | _ => None
  end.
Definition out_scalar (o : out) : option scalar :=
  match o with
  | OBool b => Some (SBool b) | OInt z => Some (SInt64 z) | OUint z => Some (SUint64 z) | OFloat z => Some (SFloat64 z) | OTime t => Some (STime t)
  | _ => None
  end.

Section Leaves.
Context (h : heap).

(** The names of a field: the one in JSON, and the one in Go. *)
Definition field_names (f : Field) : list string :=
  match field_key f with Some k => [k; fd_Name f] | None => [fd_Name f] end.

Inductive leaf : val -> list string -> atom -> Prop :=
| leaf_string s : leaf (VString s) [] (AText s)
| leaf_scalar v x : val_scalar v = Some x -> leaf v [] (AScalar x)
| leaf_elem a p s : leaf (hp_elem h a) p s -> leaf (VPtr (Some a)) p s
| leaf_slice b a v p s : In v (hp_items h a) -> leaf v p s -> leaf (VSlice b (Some a)) p s
| leaf_array b l v p s : In v l -> leaf v p s -> leaf (VArray b l) p s
| leaf_map a k v p s : In (k, v) (hp_entries h a) -> leaf v p s -> leaf (VMap (Some a)) (k :: p) s
| leaf_field l f v p s : In (f, v) l -> leaf v p s -> leaf (VStruct l) (field_names f ++ p) s.

Inductive value_leaf : Value -> list string -> atom -> Prop :=
| vl_string s : value_leaf (KString s) [] (AText s)
| vl_scalar x : value_leaf (KScalar x) [] (AScalar x)
| vl_group l k v p s : In (k, v) l -> value_leaf v p s -> value_leaf (KGroup l) (k :: p) s
| vl_error t v : value_leaf (KAny (Some t) v) [] (AText t)
| vl_any v p s : leaf v p s -> value_leaf (KAny None v) p s
| vl_valuer v p s : value_leaf v p s -> value_leaf (KValuer v) p s.

Inductive out_leaf : out -> list string -> atom -> Prop :=
| ol_string s : out_leaf (OString s) [] (AText s)
| ol_scalar o x : out_scalar o = Some x -> out_leaf o [] (AScalar x)
| ol_list l o p s : In o l -> out_leaf o p s -> out_leaf (OList l) p s
| ol_map m k o p s : In (k, o) m -> out_leaf o p s -> out_leaf (OMap m) (k :: p) s.

Inductive written : OutValue -> list string -> atom -> Prop :=
| wr_string s : written (WString s) [] (AText s)
| wr_scalar x : written (WScalar x) [] (AScalar x)
| wr_group l k v p s : In (k, v) l -> written v p s -> written (WGroup l) (k :: p) s
| wr_any o p s : out_leaf o p s -> written (WAny o) p s.

Definition public (p : list string) : Prop := Forall (fun k => isSensitiveKey k = false) p.

(** [x], written under the names [q], is the placeholder or the redacted form of an atom of the
    source, and no name above that atom is sensitive. *)
Definition shown (source : list string -> atom -> Prop) (q : list string) (x : atom) : Prop :=
  x = AText Redacted \/ exists p s, source p s /\ x = redact_atom s /\ public p /\ q `sublist_of` p.

Lemma shown_under (f g : list string -> atom -> Prop) ks k q x :
  shown f q x -> public ks -> k `sublist_of` ks -> (forall p s, f p s -> g (ks ++ p) s) -> shown g (k ++ q) x.
Proof.
  intros [->|(p & s & Hf & -> & Pp & Sub)] Pk Sk Hg; [by left|]. right. exists (ks ++ p), s. split_and!; [auto|done| |].
  - unfold public. by rewrite Forall_app.
  - by apply sublist_app.
Qed.

Lemma in_set_key k v m x : In x (set_key k v m) -> x = (k, v) \/ In x m.
Proof.
  induction m as [|[k' w] m IH]; simpl; [intuition|]. case_bool_decide; simpl; intros [<-|H1]; subst; auto. destruct (IH H1); auto.
Qed.

Lemma in_entries rec l : forall acc x, In x (fold_left (redact_entry rec) l acc) ->
  In x acc \/ exists v, In (fst x, v) l /\ snd x = if isSensitiveKey (fst x) then OString Redacted else rec v.
Proof.
  induction l as [|[k v] l IH]; intros acc x Hx; [by left|]. cbn [fold_left] in Hx.
  destruct (IH _ _ Hx) as [Ha|(w & Hw & E)]; [|right; exists w; split; [by right|done]].
  apply in_set_key in Ha as [->|Ha]; [|by left]. right. exists v. split; [by left|done].
Qed.

Lemma in_fields rec l : forall acc x, In x (fold_left (redact_field rec) l acc) ->
  In x acc \/ exists f v, In (f, v) l /\ field_key f = Some (fst x) /\
    snd x = if isSensitiveKey (fst x) || isSensitiveKey (fd_Name f) then OString Redacted else rec v.
Proof.
  induction l as [|[f v] l IH]; intros acc x Hx; [by left|]. cbn [fold_left] in Hx.
  destruct (IH _ _ Hx) as [Ha|(f' & w & Hw & Ek & E)]; [|right; exists f', w; split; [by right|done]].
  unfold redact_field in Ha. cbn [fst snd] in Ha. destruct (field_key f) as [k|] eqn:Ek; [|by left].
  apply in_set_key in Ha as [->|Ha]; [|by left]. right. exists f, v. split; [by left|done].
Qed.

Lemma redacted_atom p x : out_leaf (OString Redacted) p x -> x = AText Redacted.
Proof. by inversion 1. Qed.

Lemma redacted_leaf p x source : out_leaf (OString Redacted) p x -> shown source p x.
Proof. intros L. left. by eapply redacted_atom. Qed.

Lemma within_shown n : forall v q x, out_leaf (redact_within h n v) q x -> shown (leaf v) q x.
Proof.
  induction n as [|n IH]; intros v q x L; [by eapply redacted_leaf|].
  assert (Item : forall l (f : list string -> atom -> Prop), out_leaf (OList (map (redact_within h n) l)) q x ->
                   (forall v p s, In v l -> leaf v p s -> f p s) -> shown f q x).
  { intros l f Lo Hf. inversion Lo as [|o' y Eo|l' o p s Hin Ho|]; subst; [done|]. apply in_map_iff in Hin as (w & <- & Hw).
    apply (shown_under (leaf w) f [] [] q x); [by apply IH|constructor|done|intros p s; by apply Hf]. }
  destruct v as [s|b|z|z|z|z|[a|]|[] [a|]|[] l|[a|]|l|]; cbn [redact_within] in L;
    try (by eapply redacted_leaf); try (by inversion L);
    try (inversion L as [|o y Eo| |]; subst; injection Eo as <-; right; eexists [], (AScalar _);
         split_and!; [by apply leaf_scalar|done|constructor|done]).
  - inversion L; subst; [|done]. right. exists [], (AText s). split_and!; [constructor|done|constructor|done].
  - apply (shown_under (leaf (hp_elem h a)) _ [] [] q x); [by apply IH|constructor|done|intros p s; by constructor].
  - apply (Item _ _ L). intros w p s Hw Hl. by apply (leaf_slice _ _ w).
  - apply (Item _ _ L). intros w p s Hw Hl. by apply (leaf_array _ _ w).
  - inversion L as [|o' y Eo| |m k o p s Hin Ho]; subst; [done|]. apply in_entries in Hin as [[]|(w & Hw & E)]. cbn [fst snd] in *. subst o.
    destruct (isSensitiveKey k) eqn:Es; [left; by eapply redacted_atom|].
    apply (shown_under (leaf w) _ [k] [k] p x); [by apply IH|by constructor|done|intros p' s; by apply leaf_map].
  - inversion L as [|o' y Eo| |m k o p s Hin Ho]; subst; [done|]. apply in_fields in Hin as [[]|(f & w & Hw & Ek & E)]. cbn [fst snd] in *. subst o.
    destruct (isSensitiveKey k || isSensitiveKey (fd_Name f)) eqn:Es; [left; by eapply redacted_atom|].
    apply orb_false_iff in Es as [E1 E2].
    apply (shown_under (leaf w) _ (field_names f) [k] p x); [by apply IH| |unfold field_names; rewrite Ek|].
    + unfold field_names, public. rewrite Ek. repeat constructor; done.
    + apply sublist_skip, sublist_nil_l.
    + intros p' s. by apply leaf_field.
Qed.

Lemma redactAttr_sensitive suppress key v : suppress || isSensitiveKey key = true -> forall q x, written (redactAttr h suppress key v) q x -> x = AText Redacted.
Proof.
  intros E. induction v as [s|y|l| |[t|] v|v IH]; cbn [redactAttr]; intros q x; rewrite ?E, ?andb_true_r;
    try (inversion 1; subst; done); [|apply IH].
  destruct (key != ""); [by inversion 1|]. inversion 1 as [| | |o p s Ho]; subst. by inversion Ho.
Qed.

(** An attribute shows only what is under public names. *)
Fixpoint attr_shown (v : Value) : forall suppress key q x,
  written (redactAttr h suppress key v) q x -> suppress = false -> isSensitiveKey key = false -> shown (value_leaf v) q x.
Proof.
  intros suppress key q x W -> Ek.
  destruct v as [s|y|l| |[t|] v|v]; cbn [redactAttr] in W; rewrite ?Ek, ?andb_false_r in W; cbn [orb] in W.
  - inversion W; subst. right. exists [], (AText s). split_and!; [constructor|done|constructor|done].
  - inversion W; subst. right. exists [], (AScalar y). split_and!; [constructor|done|constructor|done].
  - inversion W as [| |l' k w p s Hin Hw|]; subst. clear W. induction l as [|[k' u] l IHl]; [by destruct Hin|].
    destruct Hin as [[= -> <-]|Hin].
    + destruct (isSensitiveKey k) eqn:E; [left; eapply redactAttr_sensitive; [|exact Hw]; done|].
      apply (shown_under (value_leaf u) _ [k] [k] p x); [by eapply attr_shown|by constructor|done|].
      intros p' s Hl. apply (vl_group _ k u); [by left|done].
    + destruct (IHl Hin) as [->|(p' & s & Hl & -> & Pp & Sub)]; [by left|]. right. exists p', s. split_and!; [|done..].
      inversion Hl as [| |l' k2 v2 p2 s2 Hin2 Hl2| | |]; subst. apply (vl_group _ k2 v2); [by right|done].
  - inversion W as [| | |o p s Ho]; subst. by inversion Ho.
  - inversion W; subst. right. exists [], (AText t). split_and!; [constructor|done|constructor|done].
  - assert (S : forall o, out_leaf o q x -> o = OString Redacted \/ o = redactReflect h v 0 -> shown (leaf v) q x).
    { intros o Lo [->| ->]; [by eapply redacted_leaf|by eapply within_shown]. }
    apply (shown_under (leaf v) _ [] [] q x); [|constructor|done|intros p s; by constructor].
    destruct v as [| | | | |t| |[] a| | | |]; cbn [redactAny] in W; inversion W as [| | |o' p' s' Ho]; subst; eauto; try (by left).
  - destruct (attr_shown v _ _ _ _ W eq_refl Ek) as [->|(p & s & Hl & -> & Pp & Sub)]; [by left|].
    right. exists p, s. split_and!; [by constructor|done..].
Qed.

(** ** A logger *)

(** The calls that derive a handler. *)
Inductive derivation : Type := InAttrs (l : list (string * Value)) | InGroup (name : string).
Definition derive_handler (r : RedactHandler) (o : derivation) : RedactHandler :=
  match o with InAttrs l => WithAttrs h l r | InGroup name => WithGroup name r end.
Definition handler_of (ops : list derivation) : RedactHandler := fold_left derive_handler ops NewRedactHandler.

Definition groups (ops : list derivation) : list string := omap (fun o => match o with InGroup n => Some n | _ => None end) ops.
Definition inner_groups (l : list derived) : list string := omap (fun o => match o with DGroup n => Some n | _ => None end) l.

(** What was logged, and what the wrapped handler got, with the names above each atom. *)
Inductive logged (ops : list derivation) (attrs : list (string * Value)) : list string -> atom -> Prop :=
| lg_record k v p s : In (k, v) attrs -> value_leaf v p s -> logged ops attrs (groups ops ++ k :: p) s
| lg_attached pre l post k v p s :
    ops = pre ++ InAttrs l :: post -> In (k, v) l -> value_leaf v p s -> logged ops attrs (groups pre ++ k :: p) s.

Inductive delivered (d : Delivered) : list string -> atom -> Prop :=
| dl_record k w q x : In (k, w) (dv_attrs d) -> written w q x -> delivered d (inner_groups (dv_inner d) ++ k :: q) x
| dl_attached pre l post k w q x :
    dv_inner d = pre ++ DAttrs l :: post -> In (k, w) l -> written w q x -> delivered d (inner_groups pre ++ k :: q) x.

Lemma handler_snoc ops o : handler_of (ops ++ [o]) = derive_handler (handler_of ops) o.
Proof. unfold handler_of. by rewrite fold_left_app. Qed.

Lemma handler_groups ops : inner_groups (rh_inner (handler_of ops)) = groups ops.
Proof.
  induction ops as [|o ops IH] using rev_ind; [done|]. rewrite handler_snoc. unfold groups, inner_groups in *.
  rewrite (omap_app _ ops). destruct o; cbn [derive_handler WithAttrs WithGroup rh_inner]; by rewrite omap_app, IH.
Qed.

Lemma handler_suppress ops : rh_suppress (handler_of ops) = existsb isSensitiveKey (groups ops).
Proof.
  induction ops as [|o ops IH] using rev_ind; [done|]. rewrite handler_snoc. unfold groups in *. rewrite omap_app, existsb_app, <- IH.
  destruct o; cbn; by rewrite ?orb_false_r.
Qed.

(** The attributes given to the wrapped handler are those attached, redacted as they were
    attached, under the same groups. *)
Lemma handler_attached ops : forall pre l post, rh_inner (handler_of ops) = pre ++ DAttrs l :: post ->
  exists ipre il ipost, ops = ipre ++ InAttrs il :: ipost /\ inner_groups pre = groups ipre /\
    l = map (fun kv => (fst kv, if rh_suppress (handler_of ipre) then WString Redacted else redactAttr h false (fst kv) (snd kv))) il.
Proof.
  induction ops as [|o ops IH] using rev_ind; intros pre l post E; [by destruct pre|]. rewrite handler_snoc in E.
  destruct post as [|e post _] using rev_ind.
  - destruct o as [il|n]; cbn [derive_handler WithAttrs WithGroup rh_inner] in E; apply app_inj_tail in E as [E1 E2]; [|done].
    injection E2 as <-. exists ops, il, []. split; [done|]. split; [by rewrite <- E1, handler_groups|].
    apply map_ext. intros kv. by destruct (rh_suppress (handler_of ops)).
  - assert (E1 : rh_inner (handler_of ops) = pre ++ DAttrs l :: post).
    { destruct o; cbn [derive_handler WithAttrs WithGroup rh_inner] in E; rewrite app_comm_cons, app_assoc in E; by apply app_inj_tail in E as [E _]. }
    destruct (IH _ _ _ E1) as (ipre & il & ipost & -> & E3 & E4). exists ipre, il, (ipost ++ [o]). by rewrite <- app_assoc.
Qed.

Lemma public_groups l : existsb isSensitiveKey l = false -> public l.
Proof.
  intros E. apply Forall_forall. intros k Hk. destruct (isSensitiveKey k) eqn:Es; [|done].
  rewrite <- not_true_iff_false, existsb_exists in E. destruct E. exists k. by apply list_elem_of_In in Hk.
Qed.

Lemma under_groups (g : list string -> atom -> Prop) gs k v q x :
  written (redactAttr h (existsb isSensitiveKey gs) k v) q x ->
  (forall p s, value_leaf v p s -> g (gs ++ k :: p) s) -> shown g (gs ++ k :: q) x.
Proof.
  intros W Hg. destruct (existsb isSensitiveKey gs || isSensitiveKey k) eqn:E; [left; by eapply redactAttr_sensitive|].
  apply orb_false_iff in E as [E1 E2]. replace (gs ++ k :: q) with ((gs ++ [k]) ++ q) by (by rewrite <- app_assoc).
  apply (shown_under (value_leaf v) g (gs ++ [k]) (gs ++ [k]) q x); [by eapply attr_shown| |done|].
  - unfold public. rewrite Forall_app. split; [by apply public_groups|by constructor].
  - intros p s Hl. rewrite <- app_assoc. by apply Hg.
Qed.

(** Nothing under a sensitive name reaches a log.  For a logger derived by any sequence of
    attached attributes and groups, and any record, cyclic values included, the message is
    delivered redacted, and each string, number, boolean, duration or time delivered in an
    attribute, of the record or attached before, is the placeholder, or the redacted form of one
    that was logged under the same names, none of which (groups, attribute keys, map keys, and field
    names in JSON and in Go) is sensitive. *)
Theorem handler_leaks_nothing ops message attrs :
  let d := Handle h message attrs (handler_of ops) in
  dv_message d = redactString message /\ forall q x, delivered d q x -> shown (logged ops attrs) q x.
Proof.
  split; [done|]. intros q x [k w q' x' Hin W|pre l post k w q' x' E Hin W].
  - cbn [Handle dv_attrs dv_inner] in *. apply in_map_iff in Hin as ([k0 v] & [= -> <-] & Hin). cbn [fst snd] in W.
    rewrite handler_groups. rewrite handler_suppress in W. apply (under_groups _ _ _ v); [done|]. intros p s. by apply lg_record.
  - cbn [Handle dv_inner] in E. destruct (handler_attached _ _ _ _ E) as (ipre & il & ipost & E1 & -> & ->).
    apply in_map_iff in Hin as ([k0 v] & [= -> <-] & Hin). cbn [fst snd] in W.
    rewrite handler_suppress in W. destruct (existsb isSensitiveKey (groups ipre)) eqn:Es; [inversion W; subst; by left|].
    apply (under_groups _ _ _ v); [by rewrite Es|intros p s; by eapply lg_attached].
Qed.
End Leaves.

(** ** Every value ends *)
Fixpoint nesting (o : out) : nat :=
  match o with
  | OList l => S (list_max (map nesting l))
  | OMap m => S (list_max (map (fun kv => nesting (snd kv)) m))
  | _ => 0
  end.

Lemma within_nesting h n : forall v, (nesting (redact_within h n v) <= n)%nat.
Proof.
  induction n as [|n IH]; intros v; [done|].
  assert (Red : (nesting (OString Redacted) <= n)%nat) by (cbn; lia).
  assert (Items : forall l, (list_max (map nesting (map (redact_within h n) l)) <= n)%nat).
  { intros l. apply list_max_le, Forall_forall. intros k Hk. apply list_elem_of_In in Hk. rewrite map_map in Hk.
    apply in_map_iff in Hk as (x & <- & _). apply IH. }
  assert (Entries : forall m : list (string * out), (forall x, In x m -> (nesting (snd x) <= n)%nat) ->
                      (list_max (map (fun kv => nesting (snd kv)) m) <= n)%nat).
  { intros m Hm. apply list_max_le, Forall_forall. intros k Hk. apply list_elem_of_In in Hk.
    apply in_map_iff in Hk as (x & <- & Hx). by apply Hm. }
  destruct v as [| | | | | |[a|]|[] [a|]|[] l|[a|]|l|]; cbn [redact_within]; try (cbn; lia).
  - specialize (IH (hp_elem h a)). lia.
  - specialize (Items (hp_items h a)). cbn [nesting]. lia.
  - specialize (Items l). cbn [nesting]. lia.
  - cbn [nesting]. apply le_n_S, Entries. intros x Hx. apply in_entries in Hx as [[]|(w & _ & ->)]. by destruct (isSensitiveKey _).
  - cbn [nesting]. apply le_n_S, Entries. intros x Hx. apply in_fields in Hx as [[]|(f & w & _ & _ & ->)]. by destruct (_ || _).
Qed.

(** C33. Redaction ends on every value, also one that contains itself through pointers, slices
    or maps: the recursion of [redactReflect], taken as it is written, has from every
    depth exactly one result, which is the one computed here, and from the top it nests at
    most [maxRedactDepth + 1] levels of lists and maps. *)
Theorem redaction_terminates h depth v :
  (exists o, Redacts h depth v o) /\ (forall o, Redacts h depth v o <-> o = redactReflect h v depth) /\
  (nesting (redactReflect h v depth) <= S maxRedactDepth - depth)%nat.
Proof.
  assert (R : Redacts h depth v (redactReflect h v depth)).
  { unfold redactReflect. destruct (decide (depth <= maxRedactDepth)%nat).
    - apply redacts_within. lia.
    - replace (S maxRedactDepth - depth)%nat with O by lia. constructor. lia. }
  split; [eauto|]. split; [|apply within_nesting]. intros o. split; [apply redacts_unique|by intros ->].
Qed.

(** A map that holds a pointer to a struct with a password field, and itself: the recursion
    stops at the depth limit. *)
Definition demo_heap : heap :=
  mkHeap (fun a => if Pos.eqb a 1 then VStruct [(mkField "User" (Some "user,omitempty") true, VString "crane");
                                                (mkField "Pass" (Some "password") true, VString "hunter2");
                                                (mkField "raw" None false, VString "hunter2")]
                   else VMap (Some 2%positive))
         (fun _ => [])
         (fun _ => [("login", VPtr (Some 1%positive)); ("self", VPtr (Some 2%positive)); ("Api-Key", VString "hunter2")]).

Fixpoint holds (x : string) (o : out) : bool :=
  match o with
  | OString s => Contains s x
  | OList l => existsb (holds x) l
  | OMap m => existsb (fun kv => holds x (snd kv)) m
  | _ => false
  end.

Example cyclic_value_redacted :
  let o := redactReflect demo_heap (VMap (Some 2%positive)) 0 in
  nesting o = 7%nat /\ holds "crane" o = true /\ holds "hunter2" o = false.
Proof. vm_compute. auto. Qed.

Example suppressed_group :
  dv_attrs (Handle demo_heap "login" [("user", KString "crane"); ("", KNil)] (handler_of demo_heap [InGroup "db_credentials"])) =
  [("user", WString Redacted); ("", WAny ONil)].
Proof. reflexivity. Qed.
