(* ===== verification/RedactText.v ===== *)
(** * Log redaction: free text

    [needs], [needs_then] and [only] read off an expression which characters its texts must
    or may contain, so that a text without them is left alone; [key_value_hidden] says
    what [redactString] does to a [key=value] pair anywhere in a text.  The examples at the
    end are texts whose secret is not recognised. *)
From S2P Require Import Prelude GoStrings Regex Redact.
From Stdlib Require Import Ascii String.

Local Open Scope string_scope.
Local Open Scope list_scope.
Local Open Scope crane_scope.

(** The classes a text of the language must or may only contain. *)
Definition all_ascii : list ascii := map ascii_of_nat (seq 0 256).
Definition subclass (f g : ascii -> bool) : bool := forallb (fun c => negb (f c) || g c) all_ascii.

Lemma subclass_spec f g c : subclass f g = true -> f c = true -> g c = true.
Proof.
  unfold subclass. rewrite forallb_forall. intros S F. specialize (S c). rewrite F in S. apply S.
  unfold all_ascii. apply in_map_iff. exists (nat_of_ascii c). split; [apply ascii_nat_embedding|]. apply in_seq.
  pose proof (nat_ascii_bounded c). lia.
Qed.

Fixpoint needs (f : ascii -> bool) (r : regex) : bool :=
  match r with
  | REps | RStar _ | RBegin => false
  | RClass g => subclass g f
  | RCat a b => needs f a || needs f b
  | RAlt a b => needs f a && needs f b
  | RGroup _ a => needs f a
  end.

(** An [f], and later a [g]. *)
Fixpoint needs_then (f g : ascii -> bool) (r : regex) : bool :=
  match r with
  | REps | RStar _ | RBegin | RClass _ => false
  | RCat a b => needs_then f g a || needs_then f g b || (needs f a && needs g b)
  | RAlt a b => needs_then f g a && needs_then f g b
  | RGroup _ a => needs_then f g a
  end.

Fixpoint only (f : ascii -> bool) (r : regex) : bool :=
  match r with
  | REps | RBegin => true
  | RClass g => subclass g f
  | RCat a b | RAlt a b => only f a && only f b
  | RStar a | RGroup _ a => only f a
  end.

Definition free (f : ascii -> bool) (s : string) : bool := all_chars (fun c => negb (f c)) s.

Lemma free_append f a b : free f (String.append a b) = free f a && free f b.
Proof. unfold free. apply all_chars_append. Qed.

Lemma needs_spec f b r m : matches b r m -> needs f r = true -> free f m = false.
Proof.
  induction 1 as [| |b r1 r2 s1 s2 _ IH1 _ IH2|b r1 r2 s _ IH|b r1 r2 s _ IH| | |b n r s _ IH|]; cbn [needs]; try done.
  - intros S. cbn. rewrite (subclass_spec _ _ _ S); done.
  - rewrite free_append. intros [N|N]%orb_true_iff; [rewrite IH1|rewrite IH2, andb_false_r]; done.
  - intros [N _]%andb_true_iff. auto.
  - intros [_ N]%andb_true_iff. auto.
Qed.

Lemma only_spec f b r m : matches b r m -> only f r = true -> all_chars f m = true.
Proof.
  induction 1 as [| |b r1 r2 s1 s2 _ IH1 _ IH2|b r1 r2 s _ IH|b r1 r2 s _ IH| |b r s1 s2 _ IH1 _ IH2|b n r s _ IH|]; cbn [only]; try done.
  - intros S. cbn. rewrite (subclass_spec _ _ _ S); done.
  - intros [N1 N2]%andb_true_iff. rewrite all_chars_append, IH1, IH2; done.
  - intros [N _]%andb_true_iff. auto.
  - intros [_ N]%andb_true_iff. auto.
  - intros N. rewrite all_chars_append, IH1, IH2; done.
Qed.

Lemma all_chars_sub f g s : subclass f g = true -> all_chars f s = true -> all_chars g s = true.
Proof.
  intros S. induction s as [|c s IH]; [done|]. change (f c && all_chars f s = true -> g c && all_chars g s = true).
  rewrite !andb_true_iff. intros [F A]. split; [by eapply subclass_spec|by apply IH].
Qed.

Definition follows (f g : ascii -> bool) (s : string) : Prop :=
  exists a b, s = String.append a b /\ free f a = false /\ free g b = false.

Lemma follows_inside f g u m v : follows f g m -> follows f g (String.append u (String.append m v)).
Proof.
  intros (a & b & -> & Fa & Gb). exists (String.append u a), (String.append b v). rewrite !append_assoc, !free_append, Fa, Gb, andb_false_r.
  done.
Qed.

Lemma needs_then_spec f g b r m : matches b r m -> needs_then f g r = true -> follows f g m.
Proof.
  assert (Nil : forall s, String.append s "" = s) by (induction s as [|c s IH]; [done|by rewrite append_cons, IH]).
  induction 1 as [| |b r1 r2 s1 s2 M1 IH1 M2 IH2|b r1 r2 s _ IH|b r1 r2 s _ IH| | |b n r s _ IH|]; cbn [needs_then]; try done.
  - intros [[N|N]%orb_true_iff|[N1 N2]%andb_true_iff]%orb_true_iff.
    + by apply (follows_inside f g "" s1 s2), IH1.
    + rewrite <- (Nil s2). by apply (follows_inside f g s1 s2 ""), IH2.
    + exists s1, s2. split_and!; [done|by eapply needs_spec..].
  - intros [N _]%andb_true_iff. auto.
  - intros [_ N]%andb_true_iff. auto.
Qed.

Lemma untouched f r template s : needs f r = true -> free f s = true -> replace_all r template s = s.
Proof.
  intros N F. apply replace_all_none. intros (b & u & m & v & -> & _ & M). rewrite !free_append, (needs_spec f _ _ _ M N), andb_false_r in F. done.
Qed.

(** A text splits at its first [f] in one way. *)
Lemma first_split f a a' c c' r r' : String.append a (String c r) = String.append a' (String c' r') ->
  free f a = true -> free f a' = true -> f c = true -> f c' = true -> a = a' /\ r = r'.
Proof.
  revert a'. induction a as [|x a IH]; intros [|y a'] E Fa Fa' Fc Fc'; rewrite ?append_cons in E; injection E as Ex Er.
  - done.
  - subst y. cbn in Fa'. by rewrite Fc in Fa'.
  - subst x. cbn in Fa. by rewrite Fc' in Fa.
  - subst y. cbn in Fa, Fa'. bsplit. destruct (IH a') as [-> ->]; done.
Qed.

(** ** [key=value] in a text *)
Definition text_keys : list string :=
  ["password"; "passwd"; "pwd"; "secret"; "token"; "api_key"; "api-key"; "apikey"; "access_key"; "access-key"; "accesskey";
   "secret_key"; "secret-key"; "secretkey"; "dsn"; "authorization"; "credential"].

Definition space : ascii := ascii_of_nat 32.
Definition key_char (c : ascii) : bool := letter c || any_of "_-" c.

Lemma word_then_spaces w sp p key : free space_class w = true -> all_chars space_class sp = true ->
  free space_class key = true -> key <> "" -> String.append w sp <> String.append p (String space key).
Proof.
  intros Fw Fs Fk Nk. revert p. induction w as [|c w IH]; intros p E.
  - change (sp = String.append p (String space key)) in E. rewrite E, all_chars_append in Fs.
    apply andb_true_iff in Fs as [_ Fs]. destruct key as [|c key]; [done|].
    change (space_class space && (space_class c && all_chars space_class key) = true) in Fs.
    change (negb (space_class c) && free space_class key = true) in Fk.
    destruct (space_class c); [done|]. by rewrite andb_false_r in Fs.
  - cbn in Fw. apply andb_true_iff in Fw as [Fc Fw]. destruct p as [|x p]; rewrite ?append_cons in E; injection E as Ec Er.
    + subst c. done.
    + by apply (IH Fw p).
Qed.

Lemma early_none template_fin b x pre key v : free separator (String x pre) = true -> free separator key = true ->
  free space_class key = true -> key <> "" ->
  match_at secretKeyValueRe Some (mkMState b (String x (String.append pre (String space (String.append key (String "=" v))))) []) <> Some template_fin.
Proof.
  intros Fp Fk Sk Nk E. apply match_at_sound in E as (st & (m & A & M & _) & _). cbn [ms_rest ms_start] in A, M.
  unfold secretKeyValueRe in M. inversion M as [| |? ? ? s1 t1 M1 Mr| | | | | |]; subst. clear M.
  inversion Mr as [| |? ? ? w t2 Mw Mr2| | | | | |]; subst. clear Mr.
  inversion Mr2 as [| |? ? ? sp t3 Msp Mr3| | | | | |]; subst. clear Mr2.
  inversion Mr3 as [| |? ? ? sc t4 Msc Mr4| | | | | |]; subst. clear Mr3 Mr4.
  inversion Msc as [|? ? c Hc| | | | | | |]; subst. clear Msc.
  assert (Kw : all_chars key_char w = true) by (eapply only_spec; [exact Mw|vm_compute; reflexivity]).
  assert (Ksp : all_chars space_class sp = true) by (eapply only_spec; [exact Msp|vm_compute; reflexivity]).
  assert (Fw : free space_class w = true) by (apply (all_chars_sub key_char); [vm_compute; reflexivity|exact Kw]).
  assert (Sw : free separator w = true) by (apply (all_chars_sub key_char); [vm_compute; reflexivity|exact Kw]).
  assert (Fsp : free separator sp = true) by (apply (all_chars_sub space_class); [vm_compute; reflexivity|exact Ksp]).
  assert (S1 : s1 = "" \/ s1 = String x "").
  { inversion M1 as [| | | | | | |? ? ? ? M0|]; subst. inversion M0 as [| | |? ? ? ? Mb|? ? ? ? Mb| | | |]; subst.
    - left. by inversion Mb.
    - right. inversion Mb; subst. by injection A as -> _. }
  assert (Split : forall p, free separator p = true ->
     String.append w (String.append sp (String c (String.append t4 (ms_rest st)))) = String.append p (String space (String.append key (String "=" v))) -> False).
  { intros p Fp' E. apply (word_then_spaces w sp p key); [done..|].
    destruct (first_split separator (String.append w sp) (String.append p (String space key)) c "=" (String.append t4 (ms_rest st)) v) as [E' _]; try done.
    - by rewrite !append_assoc.
    - by rewrite free_append, Sw, Fsp.
    - rewrite free_append, Fp'. cbn. exact Fk. }
  rewrite !append_assoc in A. cbn [String.append] in A. destruct S1 as [-> | ->].
  - apply (Split (String x pre)); done.
  - injection A as A. apply (Split pre); [|done]. unfold free in Fp |- *. cbn in Fp. by apply andb_true_iff in Fp as [_ Fp].
Qed.

Lemma taken_append a b : taken (String.append a b) b = a.
Proof.
  unfold taken. assert (E : (String.length (String.append a b) - String.length b = String.length a)%nat).
  { assert (String.length (String.append a b) = String.length a + String.length b)%nat; [|lia].
    induction a as [|c a IH]; [done|]. rewrite append_cons. cbn [String.length]. lia. }
  rewrite E. clear E. induction a as [|c a IH]; [by destruct b|]. rewrite append_cons. cbn [String.length String.substring]. by rewrite IH.
Qed.

Lemma match_cat a b k st : match_at (RCat a b) k st = match_at a (match_at b k) st.
Proof. reflexivity. Qed.

Lemma match_alt_right a b k st : match_at a k st = None -> match_at (RAlt a b) k st = match_at b k st.
Proof. intros E. cbn [match_at]. by rewrite E. Qed.

Lemma match_group n a k st : match_at (RGroup n a) k st =
  match_at a (fun st' => k (mkMState (ms_start st') (ms_rest st') ((n, taken (ms_rest st) (ms_rest st')) :: ms_caps st'))) st.
Proof. reflexivity. Qed.

Lemma match_class_false f k b c s caps : f c = false -> match_at (RClass f) k (mkMState b (String c s) caps) = None.
Proof. intros F. cbn [match_at ms_rest]. by rewrite F. Qed.

Lemma match_class_true f k b c s caps : f c = true -> match_at (RClass f) k (mkMState b (String c s) caps) = k (mkMState false s caps).
Proof. intros F. cbn [match_at ms_rest ms_caps]. by rewrite F. Qed.

Lemma spaces_skipped k b c s caps : space_class c = false -> match_at spaces k (mkMState b (String c s) caps) = k (mkMState b (String c s) caps).
Proof. intros F. unfold spaces. cbn [match_at ms_rest String.length]. by rewrite F. Qed.

(** Greedy repetition of a class takes everything, if what follows agrees. *)
Lemma star_takes_all f k caps fin s : all_chars f s = true -> k (mkMState false "" caps) = Some fin ->
  match_at (RStar (RClass f)) k (mkMState false s caps) = Some fin.
Proof.
  intros A K. cbn [match_at ms_rest]. induction s as [|c s IH]; [done|].
  change (f c && all_chars f s = true) in A. apply andb_true_iff in A as [F A]. cbn [String.length ms_rest ms_caps]. rewrite F.
  rewrite bool_decide_false by (intros E; apply (f_equal String.length) in E; cbn in E; lia). by rewrite (IH A).
Qed.

Definition quotes (c : ascii) : bool := is_char dquote c || is_char squote c.
Definition after_word : regex := RCat spaces (RCat (RClass separator) (RCat spaces (RGroup 3 secret_value))).

Lemma after_word_value v caps : v <> "" -> free space_class v = true -> free quotes v = true ->
  match_at after_word Some (mkMState false (String "=" v) caps) = Some (mkMState false "" ((3%nat, v) :: caps)).
Proof.
  intros Nv Sv Qv. destruct v as [|c v]; [done|].
  change (negb (space_class c) && free space_class v = true) in Sv. change (negb (quotes c) && free quotes v = true) in Qv.
  apply andb_true_iff in Sv as [Sc Sv]. apply andb_true_iff in Qv as [Qc _]. apply negb_true_iff in Sc, Qc.
  apply orb_false_iff in Qc as [Q1 Q2]. unfold after_word.
  rewrite match_cat, spaces_skipped, match_cat, match_class_true, match_cat, spaces_skipped, match_group by done.
  unfold secret_value, RQuote, RPlus. cbn [RAny]. rewrite !match_alt_right by (rewrite match_cat; by apply match_class_false).
  rewrite match_cat, match_class_true by (unfold non_space; by rewrite Sc).
  erewrite star_takes_all; [reflexivity|exact Sv|]. cbn [ms_rest ms_caps ms_start].
  pose proof (taken_append (String c v) "") as T. assert (Nil : String.append (String c v) "" = String c v).
  { generalize (String c v). induction s as [|y s IH]; [done|]. by rewrite append_cons, IH. }
  rewrite Nil in T. by rewrite T.
Qed.

Lemma after_word_none b c s caps : space_class c = false -> separator c = false ->
  match_at after_word Some (mkMState b (String c s) caps) = None.
Proof. intros S P. unfold after_word. by rewrite match_cat, spaces_skipped, match_cat, match_class_false. Qed.

Lemma word_read key v caps K fin : In key text_keys ->
  (forall b c s caps, space_class c = false -> separator c = false -> K (mkMState b (String c s) caps) = None) ->
  (forall k, K (mkMState false (String "=" v) ((2%nat, k) :: caps)) = Some (fin k)) ->
  match_at (RGroup 2 secret_word) K (mkMState false (String.append key (String "=" v)) caps) = Some (fin key).
Proof.
  intros Hk No Val. pose proof (fun k => taken_append k (String "=" v)) as T. unfold text_keys in Hk. simpl in Hk.
  repeat match type of Hk with
         | ?k = _ \/ _ =>
             destruct Hk as [<-|Hk];
             [specialize (T k); lazy -[taken] in T |- *; rewrite ?No by reflexivity; rewrite Val; by rewrite T|]
         end; done.
Qed.

Lemma match_begin k b s caps : match_at RBegin k (mkMState b s caps) = if b then k (mkMState b s caps) else None.
Proof. reflexivity. Qed.

Lemma word_not_space K b s caps : match_at (RGroup 2 secret_word) K (mkMState b (String space s) caps) = None.
Proof. reflexivity. Qed.

Lemma text_key_ok key : In key text_keys ->
  key <> "" /\ free separator key = true /\ free space_class key = true /\ free (is_char dquote) key = true.
Proof.
  intros H. assert (A : forallb (fun k => (k != "") && free separator k && free space_class k && free (is_char dquote) k) text_keys = true) by reflexivity.
  rewrite forallb_forall in A. specialize (A key H). bsplit. done.
Qed.

Lemma no_later_space p v : free separator p = true -> free space_class v = true -> ~ follows separator space_class (String.append p (String "=" v)).
Proof.
  intros Fp Fv (a & b & E & Fa & Fb). revert a E Fa. induction p as [|x p IH]; intros [|y a] E Fa; try done; rewrite ?append_cons in E.
  - injection E as _ ->. rewrite free_append, Fb, andb_false_r in Fv. done.
  - injection E as <- E. change (negb (separator x) && free separator p = true) in Fp. change (negb (separator x) && free separator a = false) in Fa.
    apply andb_true_iff in Fp as [Nx Fp]. rewrite Nx in Fa. by apply (IH Fp a).
Qed.

Lemma nothing_to_replace r template n b : replace_from r template n b "" = "".
Proof. apply replace_none. intros (b' & u & m & v & E & Hm & _). symmetry in E. apply append_nil_inv in E as [_ E]. by apply append_nil_inv in E as [E _]. Qed.

(** The pair is found where it stands, and only there. *)
Lemma pair_replaced key v : In key text_keys -> v <> "" -> free space_class v = true -> free quotes v = true ->
  forall pre n b, free separator pre = true -> (String.length pre < n)%nat ->
  replace_from secretKeyValueRe key_value_text n b (String.append pre (String space (String.append key (String "=" v)))) =
  String.append pre (String space (String.append key (String.append "=" Redacted))).
Proof.
  intros Hk Nv Sv Qv. destruct (text_key_ok _ Hk) as (Nk & Fk & Sk & _). induction pre as [|x pre IH]; intros n b Fp Ln.
  - destruct n as [|n]; [lia|].
    change (replace_from secretKeyValueRe key_value_text (S n) b (String space (String.append key (String "=" v))) =
            String space (String.append key (String.append "=" Redacted))). cbn [replace_from].
    assert (E : match_at secretKeyValueRe Some (mkMState b (String space (String.append key (String "=" v))) []) =
                Some (mkMState false "" [(3%nat, v); (2%nat, key); (1%nat, String space "")])).
    { unfold secretKeyValueRe. fold after_word. rewrite match_cat, match_group, match_alt_right.
      - rewrite match_class_true by done. cbn [ms_start ms_rest ms_caps]. rewrite match_cat.
        change (taken (String space (String.append key (String "=" v))) (String.append key (String "=" v)))
          with (taken (String.append (String space "") (String.append key (String "=" v))) (String.append key (String "=" v))).
        rewrite taken_append.
        apply (word_read key v _ _ (fun k => mkMState false "" [(3%nat, v); (2%nat, k); (1%nat, String space "")])); [done| |].
        + intros b' c s caps S P. by apply after_word_none.
        + intros k. by apply after_word_value.
      - rewrite match_begin. destruct b; [|done]. cbn [ms_start ms_rest ms_caps]. by rewrite match_cat, word_not_space. }
    rewrite E. cbn [ms_rest ms_caps]. rewrite bool_decide_false by done. rewrite nothing_to_replace.
    unfold key_value_text, capture. cbn [List.find fst snd Nat.eqb]. rewrite !append_assoc. reflexivity.
  - destruct n as [|n]; [lia|]. rewrite !append_cons. cbn [replace_from].
    destruct (match_at secretKeyValueRe Some _) as [fin|] eqn:E; [by apply early_none in E|].
    change (negb (separator x) && free separator pre = true) in Fp. apply andb_true_iff in Fp as [_ Fp].
    rewrite IH by (done || (cbn [String.length] in Ln; lia)). done.
Qed.

(** A [key=value] secret does not survive in free text: whatever comes before it, short of
    a separator or a double quote, and whatever the value is, short of white space and
    quotes, the value of each key that [secretKeyValueRe] lists is replaced by the
    placeholder and nothing else of the text changes. *)
Theorem key_value_hidden pre key v :
  In key text_keys -> free separator pre = true -> free (is_char dquote) pre = true ->
  v <> "" -> free space_class v = true -> free quotes v = true ->
  redactString (String.append pre (String space (String.append key (String "=" v)))) =
  String.append pre (String space (String.append key (String.append "=" Redacted))).
Proof.
  intros Hk Fp Dp Nv Sv Qv. destruct (text_key_ok _ Hk) as (Nk & Fk & Sk & Dk).
  assert (Dv : free (is_char dquote) v = true) by (apply (all_chars_sub (fun c => negb (quotes c))); [vm_compute; reflexivity|done]).
  unfold redactString. rewrite bool_decide_false by (intros E; by apply append_nil_inv in E as [_ E]).
  rewrite (replace_all_none authorizationRe).
  2: { intros (b & u & m & w & E & _ & M). apply (no_later_space (String.append pre (String space key)) v); [|done|].
       - rewrite free_append, Fp. exact Fk.
       - rewrite append_assoc, append_cons, E. apply follows_inside. eapply needs_then_spec; [exact M|]. vm_compute. reflexivity. }
  rewrite (untouched (is_char dquote) jsonSecretRe); [|vm_compute; reflexivity|].
  2: { rewrite free_append, Dp. cbn [andb]. change (free (is_char dquote) (String.append key (String "=" v)) = true). rewrite free_append, Dk. exact Dv. }
  unfold replace_all at 2. rewrite pair_replaced; try done.
  2: { assert (forall s t, String.length s <= String.length (String.append s t))%nat; [|by apply le_n_S].
       intros s t. induction s as [|c s IH]; [cbn; lia|]. rewrite append_cons. cbn [String.length]. lia. }
  apply (untouched (is_char ":")); [vm_compute; reflexivity|].
  assert (Colon : forall s, free separator s = true -> free (is_char ":") s = true) by (intros s; apply all_chars_sub; vm_compute; reflexivity).
  rewrite free_append, (Colon pre Fp). cbn [andb]. change (free (is_char ":") (String.append key (String.append "=" Redacted)) = true).
  by rewrite free_append, (Colon key Fk).
Qed.

Lemma key_value_hidden_witness :
  redactString "dial tcp 10.0.0.7 failed for db_user, password=hunter2" = "dial tcp 10.0.0.7 failed for db_user, password=[REDACTED]".
Proof. exact (key_value_hidden "dial tcp 10.0.0.7 failed for db_user," "password" "hunter2" ltac:(vm_compute; auto) eq_refl eq_refl ltac:(discriminate) eq_refl eq_refl). Defined.

(** A URL whose user is empty keeps its password: the expression wants a user. *)
Example url_without_user_kept : redactString "redis://:hunter2@cache:6379" = "redis://:hunter2@cache:6379".
Proof. reflexivity. Qed.

(** In JSON text only the bare words are recognised, while [isSensitiveKey] accepts the key. *)
Example json_prefixed_key_kept :
  let text := String dquote (String.append "db_password" (String dquote (String.append ":" (String dquote (String.append "hunter2" (String dquote "")))))) in
  redactString text = text /\ isSensitiveKey "db_password" = true.
Proof. split; reflexivity. Qed.
