(* ===== verification/Logging.v ===== *)
(** * Loggers: internal/logging/logging.go, otlp.go and bridge.go

    [newLogger] stacks handlers: the local JSON or text handler, with an OTLP provider a
    [fanoutHandler] that copies each record to the exporter, for services a
    [correlationHandler] that adds the request and trace IDs of the context, and on top the
    [RedactHandler] of [Redact].  A sink is represented by the records it is given. *)
From S2P Require Import Prelude GoStrings Regex Redact RedactFacts.
From Stdlib Require Import Ascii String.

Local Open Scope string_scope.
Local Open Scope list_scope.
Local Open Scope Z_scope.
Local Open Scope crane_scope.

(** ** Levels *)
Definition LevelDebug : Z := -4.
Definition LevelInfo : Z := 0.
Definition LevelWarn : Z := 4.
Definition LevelError : Z := 8.

Definition log_level (raw : string) : Z :=
  let s := ToLower (TrimSpace raw) in
  let s := if s == "" then "info" else s in
  if s == "debug" then LevelDebug else if s == "warn" then LevelWarn else if s == "error" then LevelError else LevelInfo.

(** ** Handlers *)

(** slog's JSON and text handlers on standard output, and the exporting handler of the
    OpenTelemetry bridge, with the attributes and groups they were derived with. *)
Record LocalHandler : Type := mkLocal { lh_json : bool; lh_level : Z; lh_derived : list derived }.
Record RemoteHandler : Type := mkRemote { rm_service : string; rm_derived : list derived }.

Inductive handler : Type :=
| HLocal (x : LocalHandler)
| HFanout (local : LocalHandler) (remote : RemoteHandler) (level : Z)
| HCorrelation (inner : handler).

Definition local_With (o : derived) (x : LocalHandler) : LocalHandler := mkLocal (lh_json x) (lh_level x) (lh_derived x ++ [o]).
Definition remote_With (o : derived) (x : RemoteHandler) : RemoteHandler := mkRemote (rm_service x) (rm_derived x ++ [o]).

(** [WithAttrs] and [WithGroup]. *)
Fixpoint handler_With (o : derived) (x : handler) : handler :=
  match x with
  | HLocal x => HLocal (local_With o x)
  | HFanout l r level => HFanout (local_With o l) (remote_With o r) level
  | HCorrelation inner => HCorrelation (handler_With o inner)
  end.

Fixpoint handler_Enabled (level : Z) (x : handler) : bool :=
  match x with
  | HLocal x => lh_level x <=? level
  | HFanout _ _ l => l <=? level
  | HCorrelation inner => handler_Enabled level inner
  end.

(** The request ID and the valid span context (trace and span ID) of a context. *)
Record Context : Type := mkContext { cx_request_id : option string; cx_span : option (string * string) }.

Definition correlation_attrs (ctx : Context) : list (string * OutValue) :=
  match cx_request_id ctx with Some id => [("request_id", WString id)] | None => [] end ++
  match cx_span ctx with Some (t, s) => [("trace_id", WString t); ("span_id", WString s)] | None => [] end.

Inductive sink : Type := Stdout (json : bool) | Otlp (service : string).
(** What a sink is given. *)
Record Emitted : Type := mkEmitted { em_sink : sink; em_level : Z; em_record : Delivered }.

(** The handlers below fail when their sink does. *)
Record Sinks : Type := mkSinks { sk_local : bool; sk_remote : bool }.

(** [Handle]: the records given to the sinks, in order, and whether an error is returned. *)
Fixpoint handler_Handle (sinks : Sinks) (ctx : Context) (level : Z) (message : string) (attrs : list (string * OutValue)) (x : handler)
    : list Emitted * bool :=
  match x with
  | HLocal x => ([mkEmitted (Stdout (lh_json x)) level (mkDelivered (lh_derived x) message attrs)], sk_local sinks)
  | HFanout l r _ =>
      let out := mkEmitted (Stdout (lh_json l)) level (mkDelivered (lh_derived l) message attrs) in
      let exported := mkEmitted (Otlp (rm_service r)) level (mkDelivered (rm_derived r) message attrs) in
      ([out; exported], sk_local sinks && sk_remote sinks)
  | HCorrelation inner => handler_Handle sinks ctx level message (attrs ++ correlation_attrs ctx) inner
  end.

(** ** Loggers *)

(** The handler below the redacting one, underived, and the redacting one. *)
Record Logger : Type := mkLogger { lg_base : handler; lg_redact : RedactHandler }.

(** The build of the process. *)
Record Build : Type := mkBuild { bd_Version : string; bd_Commit : string }.

Definition service_attrs (service : string) (b : Build) : list (string * Value) :=
  [("service", KString service); ("version", KString (bd_Version b)); ("commit", KString (bd_Commit b))].

Definition log_format (getenv : string -> string) : string :=
  let s := ToLower (TrimSpace (getenv "LOG_FORMAT")) in
  if s == "" then
    if (getenv "GO_ENV" == "production") || (getenv "ENVIRONMENT" == "production") then "json" else "text"
  else s.

Definition base_handler (getenv : string -> string) (service : string) (provider jsonOutput : bool) : handler :=
  let level := log_level (getenv "LOG_LEVEL") in
  let local := mkLocal ((log_format getenv == "json") || jsonOutput) level [] in
  let x := if provider then HFanout local (mkRemote service []) level else HLocal local in
  if jsonOutput then HCorrelation x else x.

Section Loggers.
Context (h : heap).

Definition logger_With (attrs : list (string * Value)) (l : Logger) : Logger := mkLogger (lg_base l) (WithAttrs h attrs (lg_redact l)).
Definition logger_WithGroup (name : string) (l : Logger) : Logger := mkLogger (lg_base l) (WithGroup name (lg_redact l)).

Definition newLogger (getenv : string -> string) (service : string) (b : Build) (provider jsonOutput : bool) : Logger :=
  logger_With (service_attrs service b) (mkLogger (base_handler getenv service provider jsonOutput) NewRedactHandler).

(** [slog.Logger.Log]. *)
Definition Log (sinks : Sinks) (ctx : Context) (level : Z) (message : string) (attrs : list (string * Value)) (l : Logger) : list Emitted :=
  if handler_Enabled level (lg_base l) then
    let d := Handle h message attrs (lg_redact l) in
    fst (handler_Handle sinks ctx level (dv_message d) (dv_attrs d) (fold_left (fun x o => handler_With o x) (dv_inner d) (lg_base l)))
  else [].

(** ** bridge.go: [text] is what [fmt] makes of the arguments. *)
Definition background : Context := mkContext None None.
Definition adapter_Print (sinks : Sinks) (text : string) (l : Logger) : list Emitted := Log sinks background LevelInfo text [] l.
Definition adapter_Fatal (sinks : Sinks) (text : string) (l : Logger) : list Emitted := Log sinks background LevelError text [] l.
Definition adapter_SetPrefix (prefix : string) (l : Logger) : Logger := logger_With [("prefix", KString prefix)] l.
End Loggers.

(** [Logger.SetDefault]: lines of the standard library's log package are information. *)
Definition default_line (h : heap) (sinks : Sinks) (line : string) (l : Logger) : list Emitted := Log h sinks background LevelInfo line [] l.

(** [version.String]. *)
Definition version_String (b : Build) (date : string) : string :=
  let commit := if (7 <? String.length (bd_Commit b))%nat then String.substring 0 7 (bd_Commit b) else bd_Commit b in
  String.append (bd_Version b) (String.append " (commit " (String.append commit (String.append ", built " (String.append date ")")))).

(** ** Facts *)
Section Sinks.
Context (h : heap).

(** A derivation of the whole logger. *)
Definition derive_logger (l : Logger) (o : derivation) : Logger :=
  match o with InAttrs attrs => logger_With h attrs l | InGroup name => logger_WithGroup name l end.

Lemma derived_logger ops : forall l,
  fold_left derive_logger ops l = mkLogger (lg_base l) (fold_left (derive_handler h) ops (lg_redact l)).
Proof.
  induction ops as [|o ops IH]; intros l; [by destruct l|]. cbn [fold_left]. rewrite IH. by destruct o.
Qed.

Definition sinks_of (getenv : string -> string) (service : string) (provider jsonOutput : bool) : list sink :=
  Stdout ((log_format getenv == "json") || jsonOutput) :: if provider then [Otlp service] else [].

Lemma with_local ops : forall x, fold_left (fun x o => handler_With o x) ops (HLocal x) = HLocal (mkLocal (lh_json x) (lh_level x) (lh_derived x ++ ops)).
Proof.
  induction ops as [|o ops IH]; intros x; cbn [fold_left]; [by destruct x; rewrite app_nil_r|]. cbn [handler_With]. rewrite IH.
  cbn. by rewrite <- app_assoc.
Qed.

Lemma with_fanout ops : forall x r n, fold_left (fun x o => handler_With o x) ops (HFanout x r n) =
  HFanout (mkLocal (lh_json x) (lh_level x) (lh_derived x ++ ops)) (mkRemote (rm_service r) (rm_derived r ++ ops)) n.
Proof.
  induction ops as [|o ops IH]; intros x r n; cbn [fold_left]; [by destruct x, r; rewrite !app_nil_r|]. cbn [handler_With]. rewrite IH.
  cbn. by rewrite <- !app_assoc.
Qed.

Lemma with_correlation ops : forall x, fold_left (fun x o => handler_With o x) ops (HCorrelation x) = HCorrelation (fold_left (fun x o => handler_With o x) ops x).
Proof. induction ops as [|o ops IH]; intros x; [done|]. cbn [fold_left handler_With]. apply IH. Qed.

(** Every sink is given the one record, whatever becomes of the others. *)
Lemma base_Handle getenv service provider jsonOutput sinks ctx level message attrs ops :
  fst (handler_Handle sinks ctx level message attrs (fold_left (fun x o => handler_With o x) ops (base_handler getenv service provider jsonOutput))) =
  map (fun s => mkEmitted s level (mkDelivered ops message (attrs ++ if jsonOutput then correlation_attrs ctx else [])))
      (sinks_of getenv service provider jsonOutput).
Proof.
  unfold base_handler, sinks_of. destruct jsonOutput; rewrite ?orb_true_r, ?with_correlation, ?app_nil_r; cbn [handler_Handle];
    destruct provider; by rewrite ?with_local, ?with_fanout.
Qed.

Lemma base_Enabled getenv service provider jsonOutput level :
  handler_Enabled level (base_handler getenv service provider jsonOutput) = (log_level (getenv "LOG_LEVEL") <=? level).
Proof. by destruct jsonOutput, provider. Qed.

(** The identifiers of a context. *)
Definition context_ids (ctx : Context) : list string :=
  match cx_request_id ctx with Some id => [id] | None => [] end ++ match cx_span ctx with Some (t, s) => [t; s] | None => [] end.

Lemma correlation_written ctx k w q x : In (k, w) (correlation_attrs ctx) -> written w q x -> exists id, x = AText id /\ In id (context_ids ctx).
Proof.
  unfold correlation_attrs, context_ids. intros Hin W. apply in_app_iff in Hin as [Hin|Hin].
  - destruct (cx_request_id ctx) as [id|]; [|done]. destruct Hin as [[= <- <-]|[]]. inversion W; subst. exists id. split; [done|by left].
  - destruct (cx_span ctx) as [[t s]|]; [|done].
    destruct Hin as [[= <- <-]|[[= <- <-]|[]]]; inversion W; subst; eexists; (split; [done|]); apply in_app_iff; cbn; auto.
Qed.

(** C32. Nothing under a sensitive name leaves the process in a log.  For a logger of
    [newLogger], derived by any attributes and groups, and any record, cyclic values
    included: below the configured level no sink is given anything; otherwise standard
    output and, with a provider, the exporter are given the same record, whether or not a
    sink fails.  Its message is redacted, and each string, number, boolean, duration or time in
    its attributes, or in those attached before, at any depth, is the placeholder, or the redacted
    form (of all but strings, the value itself) of one that was logged under the same names, none of which (groups, attribute keys, map
    keys and field names) is sensitive, or an identifier that the correlating handler took from
    the context. *)
Theorem logger_leaks_nothing getenv service b provider jsonOutput ops sinks ctx level message attrs :
  let logger := fold_left derive_logger ops (newLogger h getenv service b provider jsonOutput) in
  let emitted := Log h sinks ctx level message attrs logger in
  (level < log_level (getenv "LOG_LEVEL") -> emitted = []) /\
  (log_level (getenv "LOG_LEVEL") <= level ->
   exists record, map (fun e => (em_sink e, em_record e)) emitted = map (fun s => (s, record)) (sinks_of getenv service provider jsonOutput)) /\
  forall e, In e emitted ->
    dv_message (em_record e) = redactString message /\
    forall q x, delivered (em_record e) q x ->
      shown (logged h (InAttrs (service_attrs service b) :: ops) attrs) q x \/
      (jsonOutput = true /\ exists id, x = AText id /\ In id (context_ids ctx)).
Proof.
  cbn zeta. rewrite derived_logger. unfold Log, newLogger, logger_With. cbn [lg_base lg_redact]. rewrite base_Enabled.
  replace (fold_left (derive_handler h) ops _) with (handler_of h (InAttrs (service_attrs service b) :: ops)) by done.
  set (all := InAttrs (service_attrs service b) :: ops). destruct (log_level (getenv "LOG_LEVEL") <=? level) eqn:El.
  - apply Z.leb_le in El. rewrite base_Handle. split; [lia|]. split.
    + intros _. eexists. rewrite map_map. cbn [em_sink em_record]. reflexivity.
    + intros e He. apply in_map_iff in He as (s & <- & _). cbn [em_record]. split; [done|].
      destruct (handler_leaks_nothing h all message attrs) as [_ Hd]. intros q x [k w q' x' Hin W|pre l post k w q' x' E Hin W].
      * cbn [dv_attrs dv_inner] in *. apply in_app_iff in Hin as [Hin|Hin].
        -- left. apply Hd. by apply (dl_record _ _ w).
        -- right. destruct jsonOutput; [|done]. split; [done|]. by eapply correlation_written.
      * left. apply Hd. by eapply dl_attached.
  - apply Z.leb_gt in El. split; [done|]. split; [lia|done].
Qed.
End Sinks.

(** A service logs an error with a secret: both sinks get it redacted, with the request's ID;
    at the level "warn" information is dropped. *)
Example demo_logging :
  let h := mkHeap (fun _ => VOther) (fun _ => []) (fun _ => []) in
  let env := fun k => if k == "LOG_LEVEL" then " WARN " else "" in
  let l := newLogger h env "crane-api" (mkBuild "0.2.22" "unknown") true true in
  Log h (mkSinks false true) (mkContext (Some "r1") None) LevelInfo "start" [] l = [] /\
  map (fun e => (em_sink e, dv_message (em_record e), dv_attrs (em_record e)))
    (Log h (mkSinks false true) (mkContext (Some "r1") None) LevelError "token=abc" [("api_key", KString "k")] l) =
  [(Stdout true, "token=[REDACTED]", [("api_key", WString Redacted); ("request_id", WString "r1")]);
   (Otlp "crane-api", "token=[REDACTED]", [("api_key", WString Redacted); ("request_id", WString "r1")])].
Proof. vm_compute. split; reflexivity. Qed.
