(* ===== verification/Progress.v ===== *)
(** * What an operator sees of a run: the texts of internal/bootstrap/progress.go

    [Runner] has the order of the reports; here is how one is written, with the counter of
    completed phases and its bar.  A write may fail; [Writer] is any writer. *)
From stdpp Require Import pretty.
From S2P Require Import Prelude GoStrings Regex Redact.
From Stdlib Require Import Ascii String.

Local Open Scope string_scope.
Local Open Scope list_scope.
Local Open Scope Z_scope.
Local Open Scope crane_scope.

Class Writer (W : Type) : Type := { write_text : string -> W -> bool * W }.

(** [Phase]: the fields of a report as they are encoded. *)
Record Report : Type := mkReport {
  rp_Number : Z; rp_Total : Z; rp_Name : string; rp_Status : string; rp_Detail : string; rp_Elapsed : string; rp_Event : string }.
Definition set_rp_Detail (v : string) (p : Report) : Report :=
  mkReport (rp_Number p) (rp_Total p) (rp_Name p) (rp_Status p) v (rp_Elapsed p) (rp_Event p).
Record Reporter : Type := mkReporter { rr_JSON : bool; rr_completed : Z }.

(** ** Texts *)
Definition line_feed : string := String (ascii_of_nat 10) "".
Fixpoint repeat_text (n : nat) (s : string) : string := match n with O => "" | S n => String.append s (repeat_text n s) end.
Definition margin : string := repeat_text 13 " ".

(** [strings.ReplaceAll] of each line feed by a line feed and the margin. *)
Fixpoint indented (s : string) : string :=
  match s with
  | EmptyString => ""
  | String c s => if Ascii.eqb c (ascii_of_nat 10) then String.append line_feed (String.append margin (indented s)) else String c (indented s)
  end.
(** [strings.TrimSuffix] of one line feed. *)
Fixpoint without_last_feed (s : string) : string :=
  match s with
  | EmptyString => ""
  | String c EmptyString => if Ascii.eqb c (ascii_of_nat 10) then "" else String c ""
  | String c s => String c (without_last_feed s)
  end.
(** Characters of UTF-8 text: bytes that do not continue one. *)
Fixpoint rune_count (s : string) : nat :=
  match s with EmptyString => O | String c s => ((if (128 <=? nat_of_ascii c) && (nat_of_ascii c <? 192) then 0 else 1) + rune_count s)%nat end.
(** [%-24s] and [%02d] *)
Definition padded (n : nat) (s : string) : string := String.append s (repeat_text (n - rune_count s) " ").
Definition two_digits (n : Z) : string := if (0 <=? n) && (n <? 10) then String.append "0" (pretty n) else pretty n.

Definition phaseBar (done total : Z) : string :=
  if total <? 1 then "[----------]"
  else
    let filled := Z.quot (done * 10) total in
    let filled := if 10 <? filled then 10 else filled in
    String.append "[" (String.append (repeat_text (Z.to_nat filled) "#") (String.append (repeat_text (Z.to_nat (10 - filled)) "-") "]")).

(** ** [emit] *)
Section Emit.
Context {W : Type} {writer : Writer W} (json_line : Report -> string).

Definition counter (p : Report) : string := Join ["["; two_digits (rp_Number p); "/"; two_digits (rp_Total p); "]"] "".
Definition arrow : string := "           → ".

Definition emit_detail (p : Report) : W -> bool * W :=
  write_text (Join [arrow; padded 24 (rp_Name p); " "; indented (rp_Detail p); line_feed] "").

Definition emit_output (p : Report) (w : W) : bool * W :=
  let '(ok, w) := write_text (Join ["           "; if rp_Status p == "stderr" then "stderr" else "stdout"; ":"; line_feed] "") w in
  if negb ok then (false, w) else write_text (Join [margin; indented (without_last_feed (rp_Detail p)); line_feed] "") w.

(** The end of a phase; only the failure of the writes after the detail is reported. *)
Definition emit_end (p : Report) (r : Reporter) (w : W) : bool * (Reporter * W) :=
  let w := snd (write_text (Join [counter p; " "; if rp_Status p == "failed" then "✗" else "✓"; " "; rp_Name p] "") w) in
  let w := if rp_Detail p == "" then w else snd (write_text (String.append " — " (rp_Detail p)) w) in
  let w := if rp_Elapsed p == "" then w else snd (write_text (Join [" ["; rp_Elapsed p; "]"] "") w) in
  let '(ok, w) := write_text line_feed w in
  if ok && (rp_Status p == "ok") then
    let done := rr_completed r + 1 in
    let '(ok, w) := write_text (Join [phaseBar done (rp_Total p); " ["; pretty done; "/"; pretty (rp_Total p); "] phases complete"; line_feed] "") w in
    (ok, (mkReporter (rr_JSON r) done, w))
  else (ok, (r, w)).

Definition emit_report (p : Report) (r : Reporter) (w : W) : bool * (Reporter * W) :=
  let p := set_rp_Detail (redactString (rp_Detail p)) p in
  if rr_JSON r then let '(ok, w) := write_text (String.append (json_line p) line_feed) w in (ok, (r, w))
  else if rp_Event p == "detail" then let '(ok, w) := emit_detail p w in (ok, (r, w))
  else if rp_Event p == "output" then let '(ok, w) := emit_output p w in (ok, (r, w))
  else if rp_Status p == "running" then
    let '(ok, w) := write_text (Join [phaseBar (rr_completed r) (rp_Total p); " "; counter p; " "; rp_Name p; " ..."; line_feed] "") w in (ok, (r, w))
  else emit_end p r w.

(** [Detail] and [Output] *)
Definition reporter_Detail (name detail : string) : Reporter -> W -> bool * (Reporter * W) := emit_report (mkReport 0 0 name "detail" detail "" "detail").
Definition reporter_Output (name stream output : string) (r : Reporter) (w : W) : bool * (Reporter * W) :=
  if TrimSpace output == "" then (true, (r, w)) else emit_report (mkReport 0 0 name stream output "" "output") r w.

(** [Planned] *)
Fixpoint planned_from (i : Z) (total : Z) (names : list string) (r : Reporter) (w : W) : bool * (Reporter * W) :=
  match names with
  | [] => (true, (r, w))
  | name :: names =>
      match emit_report (mkReport i total name "planned" "" "" "phase") r w with
      | (true, (r, w)) => planned_from (i + 1) total names r w
      | failed => failed
      end
  end.
Definition Planned (names : list string) : Reporter -> W -> bool * (Reporter * W) := planned_from 1 (Z.of_nat (List.length names)) names.

(** ** Facts *)

(** A phase is counted when it ended well and its line was written; nothing else counts. *)
Lemma completed_counts p r w : let r' := fst (snd (emit_report p r w)) in
  rr_completed r' = rr_completed r \/
  (rr_completed r' = rr_completed r + 1 /\ rp_Status p = "ok" /\ rr_JSON r = false /\ rp_Event p <> "detail" /\ rp_Event p <> "output").
Proof.
  unfold emit_report. destruct (rr_JSON r) eqn:Ej; [destruct (write_text _ _); by left|]. cbn [set_rp_Detail rp_Event rp_Status].
  case_bool_decide; [destruct (emit_detail _ _); by left|]. case_bool_decide; [destruct (emit_output _ _); by left|].
  case_bool_decide; [destruct (write_text _ _); by left|]. unfold emit_end. destruct (write_text line_feed _) as [ok w1]. cbn [set_rp_Detail rp_Status].
  destruct (ok && _) eqn:E; [|by left]. destruct (write_text _ w1). right. bsplit. done.
Qed.
End Emit.

Lemma length_repeat_text n c : String.length (repeat_text n (String c "")) = n.
Proof. induction n as [|n IH]; [done|]. cbn [repeat_text]. by rewrite length_append, IH. Qed.

(** The bar has its ten cells whatever the counter says, and is full when, and only when, all phases
    are done. *)
Theorem bar_shape done total : 0 <= done -> String.length (phaseBar done total) = 12%nat /\
  (1 <= total -> phaseBar done total = "[##########]" <-> total <= done).
Proof.
  intros Hd. unfold phaseBar. destruct (total <? 1) eqn:Et; bsplit; [split; [done|lia]|].
  rewrite Z.quot_div_nonneg by lia. set (q := done * 10 / total). assert (0 <= q) as Hq by (apply Z.div_pos; lia).
  assert (total <= done <-> 10 <= q) as Hf by (unfold q; split; intros; [apply Z.div_le_lower_bound; lia|pose proof (Z.mul_div_le (done * 10) total); nia]).
  set (k := if 10 <? q then 10 else q). assert (0 <= k <= 10 /\ (k = 10 <-> 10 <= q)) as [Hk Hk10] by (unfold k; destruct (10 <? q) eqn:E; bsplit; lia).
  clearbody k q. split.
  - rewrite !length_append, !length_repeat_text. cbn [String.length]. lia.
  - intros _. rewrite Hf, <- Hk10. split; [|by intros ->]. intros E.
    assert (k = 0 \/ k = 1 \/ k = 2 \/ k = 3 \/ k = 4 \/ k = 5 \/ k = 6 \/ k = 7 \/ k = 8 \/ k = 9 \/ k = 10) as D by lia.
    repeat (destruct D as [-> | D]; [by vm_compute in E|]). done.
Qed.

Lemma bar_shape_witness : phaseBar 5 10 = "[#####-----]" /\ String.length (phaseBar 5 10) = 12%nat.
Proof. split; [vm_compute; reflexivity|]. apply (bar_shape 5 10). lia. Defined.
