(* ===== verification/Cidr.v ===== *)
(** * IPv4 prefixes: what the configuration uses of net/netip

    [ParsePrefix] on texts of the form a.b.c.d/n; every other text is an error or an IPv6
    prefix, and the callers refuse both alike.  [Prefix_Contains] and [Prefix_Overlaps] compare shifted
    addresses, as the library does; they are proved to be membership and intersection of
    sets of addresses. *)
From S2P Require Import Prelude GoStrings Regex LocalHost.
From Stdlib Require Import Ascii String.

Local Open Scope string_scope.
Local Open Scope list_scope.
Local Open Scope Z_scope.
Local Open Scope crane_scope.

Record Prefix : Type := mkPrefix { p_Addr : Z; p_Bits : Z }.
#[global] Instance Prefix_eq_dec : EqDecision Prefix.
Proof. solve_decision. Defined.

(** ** Parsing *)
Definition digit_value (c : ascii) : Z := Z.of_nat (nat_of_ascii c) - 48.
Fixpoint decimal_from (acc : Z) (s : string) : Z :=
  match s with EmptyString => acc | String c r => decimal_from (10 * acc + digit_value c) r end.

(** A number without sign and without leading zeros, of at most [max]. *)
Definition canonical_number (max : Z) (s : string) : option Z :=
  let n := decimal_from 0 s in
  if (s != "") && all_chars digit s && ((String.length s =? 1)%nat || negb (HasPrefix s "0")) && (n <=? max) then Some n else None.

Definition dot : ascii := ".".
Definition ParseIPv4 (s : string) : option Z :=
  match Split s dot with
  | [a; b; c; d] =>
      a ← canonical_number 255 a; b ← canonical_number 255 b; c ← canonical_number 255 c; d ← canonical_number 255 d;
      Some (((a * 256 + b) * 256 + c) * 256 + d)
  | _ => None
  end.

Definition solidus : ascii := "/".
Definition ParsePrefix (s : string) : option Prefix :=
  match Split s solidus with
  | [addr; bits] => a ← ParseIPv4 addr; n ← canonical_number 32 bits; Some (mkPrefix a n)
  | _ => None
  end.

(** ** Operations *)
Definition host_bits (n : Z) : Z := 32 - n.
Definition Masked (p : Prefix) : Prefix :=
  mkPrefix (Z.shiftl (Z.shiftr (p_Addr p) (host_bits (p_Bits p))) (host_bits (p_Bits p))) (p_Bits p).
Definition canonical (p : Prefix) : bool := p == Masked p.
Definition Prefix_Contains (p : Prefix) (a : Z) : bool := Z.shiftr (Z.lxor (p_Addr p) a) (host_bits (p_Bits p)) =? 0.
Definition Prefix_Overlaps (p q : Prefix) : bool :=
  let n := Z.min (p_Bits p) (p_Bits q) in
  (n =? 0) || (Z.shiftr (p_Addr p) (host_bits n) =? Z.shiftr (p_Addr q) (host_bits n)).

(** ** What they mean *)
Definition address (a : Z) : Prop := 0 <= a < 2 ^ 32.
Definition well_formed (p : Prefix) : Prop := address (p_Addr p) /\ 0 <= p_Bits p <= 32.

Lemma decimal_nonneg s acc : 0 <= acc -> all_chars digit s = true -> 0 <= decimal_from acc s.
Proof.
  revert acc. induction s as [|c s IH]; intros acc H D; [done|]. cbn in D. apply andb_prop in D as [D1 D2]. cbn [decimal_from]. apply IH; [|done].
  unfold digit, between, code in D1. apply andb_prop in D1 as [D1 _]. apply Nat.leb_le in D1. unfold digit_value.
  change (nat_of_ascii "0") with 48%nat in D1. lia.
Qed.

Lemma canonical_number_range max s n : canonical_number max s = Some n -> 0 <= n <= max.
Proof.
  unfold canonical_number. case_match eqn:E; [|done]. intros [= <-]. bsplit. split; [|done]. by apply decimal_nonneg.
Qed.

Lemma ParsePrefix_wf s p : ParsePrefix s = Some p -> well_formed p.
Proof.
  unfold ParsePrefix, ParseIPv4, well_formed, address. intros H.
  repeat (case_match; try done). apply bind_Some in H as (a & Ha & H). apply bind_Some in H as (n & Hn & [= <-]). cbn.
  repeat (case_match; try done). repeat (apply bind_Some in Ha as (? & ?%canonical_number_range & Ha)). injection Ha as <-.
  apply canonical_number_range in Hn. lia.
Qed.

Lemma shiftr_eq_lxor a b n : 0 <= n -> Z.shiftr a n = Z.shiftr b n <-> Z.shiftr (Z.lxor a b) n = 0.
Proof. intros Hn. rewrite Z.shiftr_lxor, Z.lxor_eq_0_iff. done. Qed.

Lemma Prefix_Contains_spec p a : well_formed p ->
  Prefix_Contains p a = true <-> Z.shiftr (p_Addr p) (host_bits (p_Bits p)) = Z.shiftr a (host_bits (p_Bits p)).
Proof. intros [_ Hb]. unfold Prefix_Contains. rewrite Z.eqb_eq, <- shiftr_eq_lxor by (unfold host_bits; lia). done. Qed.

(** A prefix is an interval of addresses. *)
Lemma Prefix_Contains_interval p a : well_formed p ->
  Prefix_Contains p a = true <-> p_Addr (Masked p) <= a < p_Addr (Masked p) + 2 ^ host_bits (p_Bits p).
Proof.
  intros W. rewrite Prefix_Contains_spec by done. destruct W as [_ Hb]. unfold Masked. cbn.
  assert (0 <= host_bits (p_Bits p)) as Hn by (unfold host_bits; lia). rewrite Z.shiftl_mul_pow2, !Z.shiftr_div_pow2 by done.
  pose proof (Z.pow_pos_nonneg 2 (host_bits (p_Bits p))) as P. specialize (P ltac:(lia) Hn).
  set (m := 2 ^ host_bits (p_Bits p)) in *. pose proof (Z.div_mod a m). pose proof (Z.mod_pos_bound a m). split; intros; [nia|].
  apply (Z.div_unique a m _ (a - (p_Addr p / m) * m)); [left|]; lia.
Qed.

Lemma shiftr_coarser a b n k : 0 <= n -> 0 <= k -> Z.shiftr a n = Z.shiftr b n -> Z.shiftr a (n + k) = Z.shiftr b (n + k).
Proof. intros Hn Hk E. rewrite <- !Z.shiftr_shiftr by done. by rewrite E. Qed.

Lemma Prefix_Overlaps_spec p q : well_formed p -> well_formed q ->
  Prefix_Overlaps p q = true <-> exists a, address a /\ Prefix_Contains p a = true /\ Prefix_Contains q a = true.
Proof.
  intros Wp Wq. pose proof Wp as [[Ap1 Ap2] Bp]. pose proof Wq as [[Aq1 Aq2] Bq].
  assert (Prefix_Overlaps p q = true <-> Z.shiftr (p_Addr p) (host_bits (Z.min (p_Bits p) (p_Bits q))) = Z.shiftr (p_Addr q) (host_bits (Z.min (p_Bits p) (p_Bits q)))) as ->.
  { unfold Prefix_Overlaps. destruct (Z.eqb_spec (Z.min (p_Bits p) (p_Bits q)) 0) as [->|Hn]; cbn; [|by rewrite Z.eqb_eq].
    unfold host_bits. rewrite !Z.shiftr_div_pow2, !Z.div_small by lia. done. }
  split.
  - intros E. destruct (Z.le_ge_cases (p_Bits p) (p_Bits q)) as [L|L].
    + exists (p_Addr q). rewrite Z.min_l in E by done. split; [done|]. rewrite !Prefix_Contains_spec by done. done.
    + exists (p_Addr p). rewrite Z.min_r in E by lia. split; [done|]. rewrite !Prefix_Contains_spec by done. done.
  - intros (a & _ & Hp & Hq). rewrite Prefix_Contains_spec in Hp, Hq by done.
    assert (forall x y bits n, 0 <= n <= bits -> bits <= 32 -> Z.shiftr x (host_bits bits) = Z.shiftr y (host_bits bits) -> Z.shiftr x (host_bits n) = Z.shiftr y (host_bits n)) as K.
    { intros x y bits n H1 H2 E. replace (host_bits n) with (host_bits bits + (bits - n)) by (unfold host_bits; lia). apply shiftr_coarser; [unfold host_bits; lia..|done]. }
    rewrite (K _ _ (p_Bits p) (Z.min (p_Bits p) (p_Bits q)) ltac:(lia) ltac:(lia) Hp). symmetry. apply (K _ _ (p_Bits q)); [lia..|done].
Qed.

(** A longer prefix whose address lies in a shorter one lies in it as a whole. *)
Lemma Prefix_Contains_sub p q a : well_formed p -> well_formed q -> p_Bits p <= p_Bits q ->
  Prefix_Contains p (p_Addr q) = true -> Prefix_Contains q a = true -> Prefix_Contains p a = true.
Proof.
  intros Wp Wq L. rewrite !Prefix_Contains_spec by done. intros -> E. destruct Wp as [_ Hp], Wq as [_ Hq].
  replace (host_bits (p_Bits p)) with (host_bits (p_Bits q) + (p_Bits q - p_Bits p)) by (unfold host_bits; lia).
  apply shiftr_coarser; [unfold host_bits; lia..|done].
Qed.

Example parse_default_vpc : ParsePrefix "10.80.0.0/16" = Some (mkPrefix 173015040 16).
Proof. reflexivity. Qed.
Example parse_refusals : map ParsePrefix ["10.80.0.0"; "10.80.0.0/33"; "10.080.0.0/16"; "10.80.0.0/016"; "256.0.0.0/8"; "::1/128"; "10.80.0/16"] = repeat None 7.
Proof. reflexivity. Qed.
