(* ===== verification/Deployment.v ===== *)
(** * The deployment configuration: internal/bootstrap/config.go, artifacts.go and database.go

    The configuration of a bootstrap, its defaults and validation, the topology of the
    first zone that it describes, and the initialization of the database with it.  Raw
    JSON fields hold parsed values ([None] is an absent field); the parsing of an address
    prefix is a parameter. *)
From S2P Require Import Prelude GoStrings Sql Api Schema Scheduling Catalog Decode Regex Cidr.
From Stdlib Require Import Ascii String.

Local Open Scope string_scope.
Local Open Scope list_scope.
Local Open Scope Z_scope.
Local Open Scope crane_scope.

Record SPIREConfig : Type := mkSPIRE { sp_Version : string; sp_TrustDomain : string; sp_Image : string }.
Record PlatformConfig : Type := mkPlatform {
  pl_CraneAPIImage : string; pl_DominatorImage : string; pl_KubernetesVersion : string; pl_CiliumVersion : string; pl_PodCIDR : string }.
Record Config : Type := mkConfig {
  cf_DevelopmentStage : string; cf_GroupSuffix : string; cf_Version : Z; cf_Name : string; cf_Provider : string;
  cf_ProviderConfig : RawMessage; cf_SPIRE : SPIREConfig; cf_Platform : PlatformConfig; cf_FirstZone : RawMessage }.

Definition set_cf_ProviderConfig (v : RawMessage) (c : Config) : Config :=
  mkConfig (cf_DevelopmentStage c) (cf_GroupSuffix c) (cf_Version c) (cf_Name c) (cf_Provider c) v (cf_SPIRE c) (cf_Platform c) (cf_FirstZone c).
Definition set_cf_Platform (v : PlatformConfig) (c : Config) : Config :=
  mkConfig (cf_DevelopmentStage c) (cf_GroupSuffix c) (cf_Version c) (cf_Name c) (cf_Provider c) (cf_ProviderConfig c) (cf_SPIRE c) v (cf_FirstZone c).

Definition WithDefaults (c : Config) : Config :=
  let s := cf_SPIRE c in
  let p := cf_Platform c in
  mkConfig (cf_DevelopmentStage c) (cf_GroupSuffix c) (cf_Version c) (or_default (cf_Name c) "crane-platform") (cf_Provider c) (cf_ProviderConfig c)
    (mkSPIRE (or_default (sp_Version s) "1.9.3") (or_default (sp_TrustDomain s) "crane.internal") (sp_Image s))
    (mkPlatform (pl_CraneAPIImage p) (pl_DominatorImage p) (or_default (pl_KubernetesVersion p) "v1.35.0")
       (or_default (pl_CiliumVersion p) "1.19.0") (or_default (pl_PodCIDR p) "10.244.0.0/16"))
    (match cf_FirstZone c with Some JNull => None | z => z end).

(** ** Validation *)
Definition lower_name : regex := RCat (RClass lower_letter) (RStar (RClass (fun c => lower_letter c || digit c || any_of "-" c))).
Definition deployment_name : regex :=
  let c := RClass (fun c => lower_letter c || digit c || any_of "-" c) in RCat (RClass lower_letter) (RCat (RRep 2 c) (RUpTo 27 c)).
Definition digits : regex := RPlus (RClass digit).
Definition release_version : regex := RCat digits (RCat (RLit ".") (RCat digits (RCat (RLit ".") digits))).
Definition trust_domain_name : regex :=
  let a := fun c => lower_letter c || digit c in RCat (RClass a) (RCat (RStar (RClass (fun c => a c || any_of ".-" c))) (RClass a)).
Definition pinned_image : regex :=
  RCat (RClass (fun c => lower_letter c || digit c)) (RCat (RStar (RClass (fun c => lower_letter c || digit c || any_of "./:_-" c)))
    (RAny [RCat (RLit ":") (RCat (ROpt (RLit "v")) release_version);
           RCat (RLit ":") (RRep 40 (RClass hex_digit));
           RCat (RLit "@sha256:") (RRep 64 (RClass hex_digit))])).
Definition PinnedImage (ref : string) : bool := full_match pinned_image ref.

(** [netip.ParsePrefix] gave a masked IPv4 prefix. *)
Definition canonical_ipv4_prefix (s : string) : bool := match ParsePrefix s with Some p => canonical p | None => false end.

(** ** The first zone *)

(** [DisallowUnknownFields]: every key names a field of its struct. *)
Definition known (names : list string) (j : option Json) : bool :=
  match j with
  | Some (JObj l) => forallb (fun kv => existsb (fun n => ToLower (fst kv) == ToLower n) names) l
  | _ => true
  end.
Definition sub (j : option Json) (name : string) : option Json := match j with Some (JObj l) => field name l | _ => None end.
Definition known_resources : option Json -> bool := known ["vcpu"; "memory_mib"; "nodes"].

Definition known_zone : option Json -> bool :=
  known ["id"; "provider"; "account_id"; "region"; "provider_zone_id"; "kubernetes_region"; "kubernetes_zone"].
Definition known_cluster : option Json -> bool :=
  known ["id"; "api_server_endpoint"; "ca_cert_hash"; "kubeadm_version"; "kubelet_version"; "container_runtime"; "cni"].
Definition known_membership : option Json -> bool := known ["cluster_id"; "zone_id"; "lifecycle_state"; "access_state"].
Definition known_pool (p : option Json) : bool := known ["id"; "limits"] p && known_resources (sub p "limits").
Definition known_scheduling (s : option Json) : bool :=
  known ["instance_type"; "architecture"; "region"; "zone"; "labels"; "taints"] s &&
  match sub s "taints" with Some (JArr l) => forallb (fun t => known ["key"; "value"; "effect"] (Some t)) l | _ => true end.

Definition known_group (g : option Json) : bool :=
  known ["naming"; "id"; "cluster_id"; "node_pool_id"; "zone_id"; "capacity_class"; "provider_zone_id"; "min_nodes"; "max_nodes";
         "template_revision"; "per_node"; "launch_parameters"; "scheduling"] g &&
  known ["provider"; "development_stage"; "region"; "az"; "group"] (sub g "naming") && known_resources (sub g "per_node") &&
  known_scheduling (sub g "scheduling").

Definition known_first_zone (j : option Json) : bool :=
  known ["zone"; "cluster"; "membership"; "pool"; "group"] j && known_zone (sub j "zone") && known_cluster (sub j "cluster") &&
  known_membership (sub j "membership") && known_pool (sub j "pool") && known_group (sub j "group").

Definition default_first_zone (c : Config) : FirstZoneInput :=
  mkFirstZoneInput (mkZoneInput (String.append (cf_Name c) "-zone") "" "" "" "" "" "")
    (mkClusterInput (String.append (cf_Name c) "-cluster") "" "" "" "" "" "") (mkClusterZoneInput "" "" "" "")
    (mkNodePoolInput (String.append (cf_Name c) "-pool") (mkResources 32 65536 8))
    (mkNodeGroupInput (mkNaming (cf_Provider c) (cf_DevelopmentStage c) "" "" (cf_GroupSuffix c)) "" "" "" "" "on-demand" "" 0 8
       "bootstrap-v3" (mkResources 2 4096 0) None (mkScheduling "" "" "" "" ∅ [])).

(** [v] is empty or [want]. *)
Definition unset_or (v want : string) : bool := negb ((v != "") && (v != want)).

Definition completed_first_zone (c : Config) (i : FirstZoneInput) : FirstZoneInput :=
  let z := zi_ID (fz_Zone i) in
  let cl := ci_ID (fz_Cluster i) in
  let p := pi_ID (fz_Pool i) in
  let g := fz_Group i in
  mkFirstZoneInput (fz_Zone i)
    (mkClusterInput cl "" "" (pl_KubernetesVersion (cf_Platform c)) (pl_KubernetesVersion (cf_Platform c)) "containerd" "cilium")
    (mkClusterZoneInput cl z (mi_LifecycleState (fz_Membership i)) (mi_AccessState (fz_Membership i))) (fz_Pool i)
    (mkNodeGroupInput (gi_Naming g) (gi_ID g) cl p z (gi_CapacityClass g) (gi_ProviderZoneID g) (gi_MinNodes g) (gi_MaxNodes g)
       (gi_TemplateRevision g) (gi_PerNode g) (gi_LaunchParameters g) (gi_Scheduling g)).

Definition FirstZone (c : Config) : result FirstZoneInput :=
  let* i := match cf_FirstZone c with
            | Some j => if known_first_zone (Some j) then of_option (ErrMsg "json") (dec_first_zone (Some j)) else Err (ErrMsg "json: unknown field")
            | None => Ok (default_first_zone c)
            end in
  let g := fz_Group i in
  let* _ := FormatNodeGroupID (mkNaming (cf_Provider c) (cf_DevelopmentStage c) "placement" "placement" (cf_GroupSuffix c)) in
  guard negb ((n_DevelopmentStage (gi_Naming g) != cf_DevelopmentStage c) || (n_Group (gi_Naming g) != cf_GroupSuffix c) ||
              (n_Provider (gi_Naming g) != cf_Provider c)) else ErrMsg "first-zone naming conflicts with deployment configuration" in
  guard negb ((zi_ID (fz_Zone i) == "") || (ci_ID (fz_Cluster i) == "") || (pi_ID (fz_Pool i) == "") || (gi_MinNodes g != 0) ||
              (gi_MaxNodes g <? 0) || (VCPU (gi_PerNode g) <=? 0) || (MemoryMiB (gi_PerNode g) <=? 0))
    else ErrMsg "first_zone requires IDs, positive per_node resources and min_nodes=0 for the initial zero target" in
  guard negb ((VCPU (pi_Limits (fz_Pool i)) <? 0) || (MemoryMiB (pi_Limits (fz_Pool i)) <? 0) || (Nodes (pi_Limits (fz_Pool i)) <? 0))
    else ErrMsg "first_zone pool limits must be nonnegative" in
  guard unset_or (mi_ClusterID (fz_Membership i)) (ci_ID (fz_Cluster i)) && unset_or (mi_ZoneID (fz_Membership i)) (zi_ID (fz_Zone i)) &&
        unset_or (gi_ZoneID g) (zi_ID (fz_Zone i)) && unset_or (gi_ClusterID g) (ci_ID (fz_Cluster i)) &&
        unset_or (gi_NodePoolID g) (pi_ID (fz_Pool i)) else ErrMsg "first-zone input has inconsistent ownership" in
  Ok (completed_first_zone c i).

(** The two ranges over maps report the first offender in an unspecified order; the message
    here names none. *)
Definition Validate (c : Config) : result unit :=
  let c := WithDefaults c in
  let p := cf_Platform c in
  guard cf_Version c == 3 else ErrMsg "unsupported bootstrap config version; use version 3" in
  guard full_match deployment_name (cf_Name c) else ErrMsg "name must be 3-30 lowercase letters, digits or hyphens, starting with a letter" in
  guard full_match lower_name (cf_Provider c) else ErrMsg "provider is required and must be a lowercase identifier" in
  guard match cf_ProviderConfig c with Some (JObj _) => true | _ => false end else ErrMsg "provider_config must be a JSON object" in
  guard full_match release_version (sp_Version (cf_SPIRE c)) && full_match release_version (pl_CiliumVersion p)
    else ErrMsg "must be an exact release version" in
  guard full_match (RCat (RLit "v") release_version) (pl_KubernetesVersion p)
    else ErrMsg "platform.kubernetes_version must be an exact v-prefixed version" in
  guard full_match trust_domain_name (sp_TrustDomain (cf_SPIRE c)) else ErrMsg "invalid spire.trust_domain" in
  guard (sp_Image (cf_SPIRE c) == "") || PinnedImage (sp_Image (cf_SPIRE c)) else ErrMsg "spire.image must be a pinned image reference" in
  guard ((pl_CraneAPIImage p == "") || PinnedImage (pl_CraneAPIImage p)) && ((pl_DominatorImage p == "") || PinnedImage (pl_DominatorImage p))
    else ErrMsg "must be a pinned image reference" in
  guard canonical_ipv4_prefix (pl_PodCIDR p) else ErrMsg "platform.pod_cidr must be a canonical IPv4 CIDR" in
  let* _ := FirstZone c in
  Ok tt.

(** ** The topology that the provider completed *)
Definition ValidateTopology (i : FirstZoneInput) : result unit :=
  let z := fz_Zone i in
  let g := fz_Group i in
  guard negb ((zi_Provider z == "") || (zi_AccountID z == "") || (zi_Region z == "") || (zi_ProviderZoneID z == ""))
    else ErrMsg "provider must supply zone identity and placement" in
  guard (mi_ClusterID (fz_Membership i) == ci_ID (fz_Cluster i)) && (mi_ZoneID (fz_Membership i) == zi_ID z) && (gi_ZoneID g == zi_ID z) &&
        (gi_ClusterID g == ci_ID (fz_Cluster i)) && (gi_NodePoolID g == pi_ID (fz_Pool i)) && (gi_ProviderZoneID g == zi_ProviderZoneID z)
    else ErrMsg "first-zone topology has inconsistent ownership or placement" in
  guard is_ok (NormalizeID g) && (n_Provider (gi_Naming g) == zi_Provider z) && (n_Region (gi_Naming g) == zi_Region z)
    else ErrMsg "invalid first-zone group naming or placement" in
  guard match gi_LaunchParameters g with Some _ => true | None => false end else ErrMsg "provider must supply valid launch parameters" in
  Ok tt.

(** [InitializeDatabase]: the schema, then the first zone; [schema_ok] is the outcome of
    [capacity.InitializeSchema], which creates what is missing and leaves rows alone. *)
Definition InitializeDatabase `{K8s} (schema_ok : result unit) (i : FirstZoneInput) (pending : bool) : Store unit := fun d =>
  match schema_ok with
  | Err e => (Err e, d)
  | Ok _ => (if pending then SeedFirstZonePending i else SeedFirstZone i) d
  end.
