(* ===== verification/Router.v ===== *)
(** * Request routing: Go's [http.ServeMux] as the servers use it

    The mux of crane-api, the platform API below it and the Dominator's listener register
    patterns with an optional method, literal and [{name}] segments and an optional final
    slash.  The model follows the routing tree of net/http: a method's own patterns come
    before those without a method, [GET] serves [HEAD], and within a tree a literal segment
    is preferred to a wildcard and a wildcard to a final slash, with backtracking. *)
From Stdlib Require Import Ascii String.
From S2P Require Import Prelude GoStrings Sql Api Schema Regex LocalHost.

Local Open Scope string_scope.
Local Open Scope list_scope.
Local Open Scope Z_scope.
Local Open Scope crane_scope.

(** ** Paths *)
Definition slash : ascii := "/"%char.

Definition hex_value (c : ascii) : option Z :=
  let n := Z.of_nat (nat_of_ascii c) in
  if (48 <=? n) && (n <=? 57) then Some (n - 48)
  else if (97 <=? n) && (n <=? 102) then Some (n - 87)
  else if (65 <=? n) && (n <=? 70) then Some (n - 55)
  else None.

(** [url.PathUnescape]; [None] for a malformed escape. *)
Fixpoint unescape (s : string) : option string :=
  match s with
  | EmptyString => Some EmptyString
  | String "%" (String a (String b r)) =>
      x ← hex_value a; y ← hex_value b; t ← unescape r; Some (String (ascii_of_nat (Z.to_nat (16 * x + y))) t)
  | String "%" _ => None
  | String c r => t ← unescape r; Some (String c t)
  end.

(** A malformed segment is matched as it is. *)
Definition pathUnescape (s : string) : string := match unescape s with Some t => t | None => s end.

(** [path.Clean] on the segments of a rooted path; [acc] holds those kept, last first. *)
Fixpoint clean_segments (acc l : list string) : list string :=
  match l with
  | [] => rev acc
  | s :: l => if (s == "") || (s == ".") then clean_segments acc l
              else if s == ".." then clean_segments (tail acc) l
              else clean_segments (s :: acc) l
  end.

Definition rooted (p : string) : string := if HasPrefix p "/" then p else String slash p.

Definition cleanPath (p : string) : string :=
  if p == "" then "/"
  else
    let p := rooted p in
    let np := String slash (Join (clean_segments [] (Split p slash)) "/") in
    if HasSuffix p "/" && (np != "/") then String.append np "/" else np.

(** [firstSegment], repeated: a final slash is the segment "/". *)
Fixpoint segments_from (l : list string) : list string :=
  match l with
  | [] => []
  | [s] => [if s == "" then "/" else pathUnescape s]
  | s :: l => pathUnescape s :: segments_from l
  end.

Definition segments_of (path : string) : list string :=
  match path with EmptyString => [] | String _ r => segments_from (Split r slash) end.

(** ** Patterns *)
Inductive segment : Type := Lit (s : string) | Var (name : string).

#[global] Instance segment_eq_dec : EqDecision segment.
Proof. solve_decision. Defined.

(** [pt_method] is empty for a pattern without a method, [pt_rest] set for one that ends
    in a slash. *)
Record Pattern : Type := mkPattern { pt_method : string; pt_segments : list segment; pt_rest : bool }.

#[global] Instance Pattern_eq_dec : EqDecision Pattern.
Proof. solve_decision. Defined.

Section Mux.
Context {H : Type}.

(** A branch of the tree: the segments still to match, the final slash, the leaf. *)
Definition Branch : Type := (list segment * bool) * (Pattern * H).

Definition take (x : segment) (b : Branch) : option Branch :=
  match b with
  | ((y :: l, r), h) => if x == y then Some ((l, r), h) else None
  | _ => None
  end.
Definition take_var (b : Branch) : option Branch :=
  match b with ((Var _ :: l, r), h) => Some ((l, r), h) | _ => None end.

Definition ends (rest : bool) (b : Branch) : bool := match b with (([], r), _) => Bool.eqb r rest | _ => false end.

Definition leaf (rest : bool) (bs : list Branch) : option (Pattern * H) :=
  match List.find (ends rest) bs with Some b => Some (snd b) | None => None end.

(** [matchPath]: the leaf and the values of its wildcards. *)
Fixpoint matchPath (bs : list Branch) (path : list string) : option ((Pattern * H) * list string) :=
  match path with
  | [] => h ← leaf false bs; Some (h, [])
  | s :: path =>
      match matchPath (omap (take (Lit s)) bs) path with
      | Some m => Some m
      | None =>
          match (if s == "/" then None else matchPath (omap take_var bs) path) with
          | Some (h, vs) => Some (h, s :: vs)
          | None => h ← leaf true bs; Some (h, [])
          end
      end
  end.

Definition branch (r : Pattern * H) : Branch := ((pt_segments (fst r), pt_rest (fst r)), r).

(** The tree of one method. *)
Definition tree (routes : list (Pattern * H)) (method : string) : list Branch :=
  map branch (List.filter (fun r => pt_method (fst r) == method) routes).

Definition or_else {A} (x y : option A) : option A := match x with Some a => Some a | None => y end.

(** [matchMethodAndPath]. *)
Definition find_route (routes : list (Pattern * H)) (method path : string) : option ((Pattern * H) * list string) :=
  let at_method := fun m => matchPath (tree routes m) (segments_of path) in
  or_else (at_method method) (or_else (if method == "HEAD" then at_method "GET" else None) (at_method "")).

Definition exactMatch (m : option ((Pattern * H) * list string)) (path : string) : bool :=
  match m with
  | None => false
  | Some ((p, _), _) =>
      if negb (pt_rest p) then true
      else HasSuffix path "/" && (length (segments_of path) =? S (length (pt_segments p)))%nat
  end.

(** The redirection to a path with a final slash. *)
Definition slash_redirect (routes : list (Pattern * H)) (method path : string) : bool :=
  negb (exactMatch (find_route routes method path) path) && negb (HasSuffix path "/") &&
  exactMatch (find_route routes method (String.append path "/")) (String.append path "/").

(** The registered methods under which the path has a handler. *)
Definition matchingMethods (routes : list (Pattern * H)) (path : string) : bool :=
  existsb (fun r => match matchPath (tree routes (pt_method (fst r))) (segments_of path) with Some _ => true | None => false end) routes.

Inductive Routed : Type := Found (h : H) (values : list (string * string)) | Moved | MethodNotAllowed | NotFound.

Definition var_names (p : Pattern) : list string := omap (fun s => match s with Var n => Some n | Lit _ => None end) (pt_segments p).

(** [ServeMux.findHandler]; [escaped] is the path of the request line. *)
Definition findHandler (routes : list (Pattern * H)) (method escaped : string) : Routed :=
  let path := if method == "CONNECT" then escaped else cleanPath escaped in
  if slash_redirect routes method path then Moved
  else if path != escaped then Moved
  else match find_route routes method path with
       | Some ((p, h), vs) => Found h (combine (var_names p) vs)
       | None => if matchingMethods routes path || (negb (HasSuffix path "/") && matchingMethods routes (String.append path "/"))
                 then MethodNotAllowed else NotFound
       end.
End Mux.
Arguments Branch : clear implicits.
Arguments Routed : clear implicits.

(** [r.PathValue]. *)
Definition PathValue (values : list (string * string)) (name : string) : string :=
  match List.find (fun kv => fst kv == name) values with Some (_, v) => v | None => "" end.

(** ** A pattern by itself *)

(** What a pattern matches, without the tree. *)
Fixpoint pattern_matches (l : list segment) (rest : bool) (path : list string) : bool :=
  match l, path with
  | [], [] => negb rest
  | [], _ :: _ => rest
  | Lit s :: l, x :: path => (s == x) && pattern_matches l rest path
  | Var _ :: l, x :: path => (x != "/") && pattern_matches l rest path
  | _ :: _, [] => false
  end.

Section MuxFacts.
Context {H : Type}.
Implicit Types (bs : list (Branch H)) (b : Branch H) (routes : list (Pattern * H)).

Definition branch_matches (path : list string) (b : Branch H) : bool := pattern_matches (fst (fst b)) (snd (fst b)) path.

Lemma leaf_some rest bs h : leaf rest bs = Some h -> exists b, In b bs /\ snd b = h /\ fst b = ([], rest).
Proof.
  unfold leaf. destruct (List.find (ends rest) bs) as [b|] eqn:E; [|done]. intros [= <-].
  apply List.find_some in E as [Hb E]. exists b. split; [done|split; [done|]].
  destruct b as [[[|y l] r] h]; [|done]. cbn in *. apply Bool.eqb_prop in E. by subst.
Qed.

Lemma leaf_none rest bs b : leaf rest bs = None -> In b bs -> fst b <> ([], rest).
Proof.
  unfold leaf. destruct (List.find (ends rest) bs) as [|] eqn:E; [done|]. intros _ Hb E'.
  pose proof (List.find_none _ _ E b Hb) as Hn. destruct b as [[l r] h]. cbn in E'. injection E' as -> ->. cbn in Hn. by destruct rest.
Qed.

Lemma in_omap {A B} (f : A -> option B) (l : list A) y : In y (omap f l) <-> exists x, In x l /\ f x = Some y.
Proof.
  rewrite <- list_elem_of_In, list_elem_of_omap. split; intros (x & Hx & E); exists x; (split; [by apply list_elem_of_In|done]).
Qed.

(** What the tree finds, the pattern of its leaf matches. *)
Lemma matchPath_sound path : forall bs h vs, matchPath bs path = Some (h, vs) -> exists b, In b bs /\ snd b = h /\ branch_matches path b = true.
Proof.
  induction path as [|s path IH]; intros bs h vs; cbn [matchPath].
  - intros E. apply bind_Some in E as (h' & E & [= <- <-]). apply leaf_some in E as (b & Hb & <- & Eb).
    exists b. split; [done|split; [done|]]. unfold branch_matches. by rewrite Eb.
  - destruct (matchPath (omap (take (Lit s)) bs) path) as [m|] eqn:E1.
    { intros [= ->]. apply IH in E1 as (b & Hb & <- & M). apply in_omap in Hb as (b0 & H0 & T).
      destruct b0 as [[[|y l] r] h0]; [done|]. cbn in T. case_bool_decide as Ey; [|done]. simplify_eq. eexists. split; [exact H0|].
      split; [done|]. unfold branch_matches. cbn. by rewrite bool_decide_true. }
    destruct (if s == "/" then None else matchPath (omap take_var bs) path) as [[h2 vs2]|] eqn:E2.
    { intros [= <- <-]. case_bool_decide as Es; [done|]. apply IH in E2 as (b & Hb & <- & M). apply in_omap in Hb as (b0 & H0 & T).
      destruct b0 as [[[|[y|y] l] r] h0]; try done. cbn in T. simplify_eq. eexists. split; [exact H0|]. split; [done|].
      unfold branch_matches. cbn. by rewrite bool_decide_false. }
    intros E. apply bind_Some in E as (h' & E & [= <- <-]). apply leaf_some in E as (b & Hb & <- & Eb).
    exists b. split; [done|split; [done|]]. unfold branch_matches. by rewrite Eb.
Qed.

(** The tree finds a leaf whenever a pattern matches. *)
Lemma matchPath_complete path : forall bs b, In b bs -> branch_matches path b = true -> matchPath bs path <> None.
Proof.
  induction path as [|s path IH]; intros bs b Hb M N; cbn [matchPath] in N.
  - destruct (leaf false bs) eqn:E; [done|]. apply (leaf_none false bs b E Hb). destruct b as [[[|[y|y] l] r] h]; try done.
    unfold branch_matches in M. cbn in *. by destruct r.
  - destruct (matchPath (omap (take (Lit s)) bs) path) eqn:E1; [done|].
    destruct (if s == "/" then None else matchPath (omap take_var bs) path) as [[]|] eqn:E2; [done|].
    destruct (leaf true bs) eqn:E3; [done|]. destruct b as [[[|[y|y] l] r] h]; unfold branch_matches in M; cbn in M.
    + apply (leaf_none true bs _ E3 Hb). cbn. by rewrite M.
    + bsplit. subst. refine (IH _ ((l, r), h) _ _ E1); [|done]. apply in_omap. eexists. split; [exact Hb|]. cbn. by rewrite bool_decide_true.
    + bsplit. rewrite bool_decide_false in E2 by done. refine (IH _ ((l, r), h) _ _ E2); [|done]. apply in_omap. by eexists.
Qed.

(** A method serves the patterns that name it, [HEAD] those of [GET], and all serve those
    without a method. *)
Definition serves (p : Pattern) (method : string) : Prop :=
  pt_method p = method \/ pt_method p = "" \/ (method = "HEAD" /\ pt_method p = "GET").

Lemma in_tree routes m b : In b (tree routes m) <-> exists r : Pattern * H, In r routes /\ pt_method (fst r) = m /\ b = branch r.
Proof.
  unfold tree. rewrite in_map_iff. split.
  - intros (r & <- & Hr). apply filter_In in Hr as [Hr E]. bsplit. eauto.
  - intros (r & Hr & E & ->). exists r. split; [done|]. apply filter_In. split; [done|]. by rewrite bool_decide_true.
Qed.

Lemma at_method_sound routes m path h vs :
  matchPath (tree routes m) path = Some (h, vs) ->
  In h routes /\ pt_method (fst h) = m /\ pattern_matches (pt_segments (fst h)) (pt_rest (fst h)) path = true.
Proof.
  intros E. apply matchPath_sound in E as (b & Hb & <- & M). apply in_tree in Hb as (r & Hr & Em & ->). done.
Qed.

Lemma find_route_sound routes method path p h vs :
  find_route routes method path = Some ((p, h), vs) ->
  In (p, h) routes /\ serves p method /\ pattern_matches (pt_segments p) (pt_rest p) (segments_of path) = true.
Proof.
  unfold find_route, or_else, serves. destruct (matchPath (tree routes method) (segments_of path)) as [x|] eqn:E1.
  { intros [= ->]. apply at_method_sound in E1 as (A & B & C). cbn in *. split_and!; auto. }
  destruct (if method == "HEAD" then matchPath (tree routes "GET") (segments_of path) else None) as [x|] eqn:E2.
  { intros [= ->]. case_bool_decide as Eh; [|done]. apply at_method_sound in E2 as (A & B & C). cbn in *. split_and!; auto. }
  intros E3. apply at_method_sound in E3 as (A & B & C). cbn in *. split_and!; auto.
Qed.

Lemma find_route_complete routes method path p h :
  In (p, h) routes -> serves p method -> pattern_matches (pt_segments p) (pt_rest p) (segments_of path) = true ->
  find_route routes method path <> None.
Proof.
  intros Hr Hs M. unfold find_route, or_else.
  assert (forall m, pt_method p = m -> matchPath (tree routes m) (segments_of path) <> None) as Hm.
  { intros m Em. apply (matchPath_complete _ _ (branch (p, h))); [|done]. apply in_tree. by exists (p, h). }
  destruct (matchPath (tree routes method) (segments_of path)) as [x|] eqn:E1; [done|].
  destruct (if method == "HEAD" then matchPath (tree routes "GET") (segments_of path) else None) as [x|] eqn:E2; [done|].
  destruct Hs as [E|[E|[-> E]]]; [by destruct (Hm _ E)|by apply Hm|].
  rewrite bool_decide_true in E2 by done. by destruct (Hm _ E).
Qed.

Lemma findHandler_found routes method escaped h vs :
  findHandler routes method escaped = Found h vs ->
  exists p, In (p, h) routes /\ serves p method /\ pattern_matches (pt_segments p) (pt_rest p) (segments_of escaped) = true.
Proof.
  unfold findHandler. set (path := if method == "CONNECT" then escaped else cleanPath escaped).
  case_match; [done|]. destruct (path != escaped) eqn:Ep; [done|]. bsplit_hyp Ep. rewrite Ep.
  destruct (find_route routes method escaped) as [[[p h'] vs']|] eqn:E; [|by case_match]. intros [= <- _].
  exists p. by apply find_route_sound in E.
Qed.
End MuxFacts.
