(* ===== verification/ApiServer.v ===== *)
(** * The crane-api server: cmd/crane-api/main.go, composed

    The two muxes of the process: the outer one of [run] (health, the host operation, the
    platform API under /v1/) and [API.Handler] of internal/capacity/http.go below it.  A
    request is what arrives on the wire: method, escaped path, query, headers and the text
    of its body, which [decodeJSON] and [hostrpc.Decode] read strictly.  The theorem says
    who can change anything at all through this listener. *)
From Stdlib Require Import Ascii String.
From S2P Require Import Prelude GoStrings Sql Api Decode Schema Admission Invariant Fixture AdmissionFacts Lease Handoff LeaseFacts Removal RemovalFacts Scheduling Catalog CatalogFacts Bootstrap BootstrapFacts Http HttpFacts Regex Subd HostRpc HostOps LocalHost Deployment Router.

Local Open Scope string_scope.
Local Open Scope list_scope.
Local Open Scope Z_scope.
Local Open Scope crane_scope.

(** ** Bodies *)

(** Strict decoding of a body: at most [limit] bytes, one JSON value, no unknown field. *)
Definition strict_body `{GoJson} {A} (limit : Z) (fields : option Json -> bool) (dec : option Json -> option A) (body : string) : option A :=
  if limit <? Z.of_nat (String.length body) then None
  else match json_parse body with
       | Some j => if fields (Some j) then dec (Some j) else None
       | None => None
       end.

Definition maxBodyBytes : Z := 2 ^ 20.
Definition decodeJSON `{GoJson} {A} := @strict_body _ A maxBodyBytes.

Definition KubernetesBodyLimit : Z := 2 * 2 ^ 20.
Definition rpc_Decode `{GoJson} {A} := @strict_body _ A KubernetesBodyLimit.

(** The anonymous structs of [updateClusterZone] and [updateNodeGroupTemplate]. *)
Definition known_states : option Json -> bool := known ["lifecycle_state"; "access_state"].
Definition dec_states (j : option Json) : option (string * string) :=
  l ← dec_object j; s ← dec_string (field "lifecycle_state" l); x ← dec_string (field "access_state" l); Some (s, x).

Definition known_template (j : option Json) : bool :=
  known ["expected_template_revision"; "template_revision"; "scheduling"; "launch_parameters"] j && known_scheduling (sub j "scheduling").
Definition dec_template (j : option Json) : option templateUpdate :=
  l ← dec_object j; ex ← dec_string (field "expected_template_revision" l); rev ← dec_string (field "template_revision" l);
  s ← dec_scheduling (field "scheduling" l); Some (mkTemplateUpdate ex rev s (field "launch_parameters" l)).

Definition known_bootstrap : option Json -> bool := known ["kind"; "request_id"; "cluster_id"; "zone_id"; "parameters"].
Definition dec_bootstrap (j : option Json) : option BootstrapRequest :=
  l ← dec_object j; k ← dec_string (field "kind" l); r ← dec_string (field "request_id" l); c ← dec_string (field "cluster_id" l);
  z ← dec_string (field "zone_id" l); Some (mkBootstrapRequest k r c z (field "parameters" l)).

Definition known_target : option Json -> bool :=
  known ["node_group_id"; "request_id"; "expected_target_revision"; "desired_target"; "template_revision"].
Definition dec_target (j : option Json) : option setTargetRequest :=
  l ← dec_object j; g ← dec_string (field "node_group_id" l); r ← dec_string (field "request_id" l);
  x ← dec_int64 (field "expected_target_revision" l); n ← dec_int64 (field "desired_target" l);
  t ← dec_string (field "template_revision" l); Some (mkSetTargetRequest g r x n t).

Definition known_removal (j : option Json) : bool :=
  known ["node_group_id"; "request_id"; "expected_target_revision"; "nodes"] j &&
  match sub j "nodes" with Some (JArr l) => forallb (fun n => known ["host_id"; "node_name"; "provider_id"] (Some n)) l | _ => true end.
Definition dec_removal_node (j : Json) : option RemovalNode :=
  l ← dec_object (Some j); h ← dec_string (field "host_id" l); n ← dec_string (field "node_name" l);
  p ← dec_string (field "provider_id" l); Some (mkRemovalNode h n p).
Definition dec_removal (j : option Json) : option NodeRemovalRequest :=
  l ← dec_object j; g ← dec_string (field "node_group_id" l); r ← dec_string (field "request_id" l);
  x ← dec_int64 (field "expected_target_revision" l); ns ← dec_array (field "nodes" l); nodes ← mapM dec_removal_node ns;
  Some (mkNodeRemovalRequest g r x nodes).

(** [base64.StdEncoding] with its padding; line breaks are skipped. *)
Definition base64_value (c : ascii) : option Z :=
  let n := Z.of_nat (nat_of_ascii c) in
  if (65 <=? n) && (n <=? 90) then Some (n - 65)
  else if (97 <=? n) && (n <=? 122) then Some (n - 71)
  else if (48 <=? n) && (n <=? 57) then Some (n + 4)
  else if n =? 43 then Some 62 else if n =? 47 then Some 63 else None.

Definition byte (n : Z) : ascii := ascii_of_nat (Z.to_nat (n mod 256)).

Fixpoint base64_quanta (s : string) : option string :=
  match s with
  | EmptyString => Some EmptyString
  | String a (String b (String c (String d r))) =>
      x ← base64_value a; y ← base64_value b;
      let first := byte (4 * x + y / 16) in
      if Ascii.eqb c "=" then if Ascii.eqb d "=" && (r == "") then Some (String first "") else None
      else
        z ← base64_value c;
        let second := byte (16 * y + z / 4) in
        if Ascii.eqb d "=" then if r == "" then Some (String first (String second "")) else None
        else w ← base64_value d; t ← base64_quanta r; Some (String first (String second (String (byte (64 * z + w)) t)))
  | _ => None
  end.

Fixpoint without_breaks (s : string) : string :=
  match s with
  | EmptyString => EmptyString
  | String c r => if one_of (code c) [10; 13]%nat then without_breaks r else String c (without_breaks r)
  end.

Definition base64_decode (s : string) : option string := base64_quanta (without_breaks s).

(** A [[]byte] value: a base64 string, or an array of numbers. *)
Definition dec_uint8 (j : Json) : option ascii :=
  match j with
  | JNull => Some (byte 0)
  | JNum n => if (0 <=? n) && (n <=? 255) then Some (byte n) else None
  | _ => None
  end.

Definition dec_bytes (j : option Json) : option string :=
  match j with
  | None | Some JNull => Some ""
  | Some (JStr s) => base64_decode s
  | Some (JArr l) => cs ← mapM dec_uint8 l; Some (fold_right String EmptyString cs)
  | _ => None
  end.

Definition dec_data (j : option Json) : option (gmap string string) :=
  l ← dec_object j; m ← mapM (fun kv => s ← dec_bytes (Some (snd kv)); Some (fst kv, s)) l; Some (list_to_map (rev m)).

(** [SecretRequest] with the embedded [KubernetesSecret]. *)
Definition known_secret : option Json -> bool :=
  known ["request_id"; "namespace"; "name"; "type"; "data"; "stringData"; "rollout_deployment"].
Definition dec_secret (j : option Json) : option SecretRequest :=
  l ← dec_object j; r ← dec_string (field "request_id" l); ns ← dec_string (field "namespace" l); n ← dec_string (field "name" l);
  t ← dec_string (field "type" l); d ← dec_data (field "data" l); sd ← dec_labels (field "stringData" l);
  ro ← dec_string (field "rollout_deployment" l); Some (mkSecretRequest r (mkSecret ns n t d sd ro)).

(** ** Requests and routes *)

(** [rq_Deadline]: no X-Crane-Deadline header, one that does not parse, or its time. *)
Record Request : Type := mkRequest {
  rq_Method : string; rq_Path : string; rq_Query : list (string * string); rq_Headers : Headers; rq_Deadline : option (option Z);
  rq_Body : string }.

Definition query_values (name : string) (r : Request) : list string :=
  map snd (List.filter (fun kv => fst kv == name) (rq_Query r)).

Definition v1 (l : list segment) : list segment := Lit "v1" :: l.
Definition on (method : string) (l : list segment) : Pattern := mkPattern method (v1 l) false.

Section Routes.
Context `{GoJson}.

(** What the handler of a route reads: the path values and the request. *)
Definition Reader : Type := (string -> string) -> Request -> ApiCall.

(** The routes of [API.Handler], in its order. *)
Definition capacity_routes : list (Pattern * Reader) :=
  [(on "GET" [Lit "hosts"], fun _ r => Admin (GetHosts (query_values "provider" r) (query_values "region" r)));
   (on "POST" [Lit "zones"], fun _ r => Admin (PostZone (decodeJSON known_zone dec_zone (rq_Body r))));
   (on "POST" [Lit "clusters"], fun _ r => Admin (PostCluster (decodeJSON known_cluster dec_cluster (rq_Body r))));
   (on "POST" [Lit "cluster-zones"], fun _ r => Admin (PostClusterZone (decodeJSON known_membership dec_membership (rq_Body r))));
   (on "PATCH" [Lit "cluster-zones"; Var "cluster_id"; Var "zone_id"],
      fun v r => Admin (PatchClusterZone (v "cluster_id") (v "zone_id") (decodeJSON known_states dec_states (rq_Body r))));
   (on "POST" [Lit "node-pools"], fun _ r => Admin (PostNodePool (decodeJSON known_pool dec_pool (rq_Body r))));
   (on "POST" [Lit "node-groups"], fun _ r => Admin (PostNodeGroup (decodeJSON known_group dec_group (rq_Body r))));
   (on "PATCH" [Lit "node-groups"; Var "id"; Lit "template"],
      fun v r => Admin (PatchTemplate (v "id") (decodeJSON known_template dec_template (rq_Body r))));
   (on "POST" [Lit "first-zone"], fun _ r => Admin (PostFirstZone (decodeJSON known_first_zone dec_first_zone (rq_Body r))));
   (on "POST" [Lit "bootstrap"], fun _ r => Admin (PostBootstrap (decodeJSON known_bootstrap dec_bootstrap (rq_Body r))));
   (on "GET" [Lit "bootstrap"; Var "id"], fun v _ => Admin (GetBootstrap (v "id")));
   (on "POST" [Lit "capacity"], fun _ r => Adapter (PostCapacity (decodeJSON known_target dec_target (rq_Body r))));
   (on "GET" [Lit "node-groups"; Var "id"; Lit "target"], fun v _ => Adapter (GetTarget (v "id")));
   (on "GET" [Lit "autoscaler"; Lit "discovery"], fun _ _ => Adapter GetDiscovery);
   (on "POST" [Lit "node-removals"], fun _ r => Adapter (PostRemovals (decodeJSON known_removal dec_removal (rq_Body r))))].
End Routes.

Inductive Endpoint : Type := EHealth | EDbHealth | ESecret | ECapacity.

(** [hostoperations.PublicPattern]. *)
Definition PublicPattern : Pattern :=
  on "PUT" [Lit "hosts"; Var "hostID"; Lit "kubernetes"; Lit "namespaces"; Var "namespace"; Lit "secrets"; Var "name"].

(** The mux of [run]. *)
Definition server_routes : list (Pattern * Endpoint) :=
  [(mkPattern "" [Lit "health"] false, EHealth);
   (mkPattern "" (v1 [Lit "db"; Lit "health"]) false, EDbHealth);
   (PublicPattern, ESecret);
   (mkPattern "" (v1 []) true, ECapacity)].

(** ** The server *)
Inductive Answer : Type := AApi (r : Http.Response) | ASecret (r : SecretReply) | AText (code : Z) (text : string).

Definition not_found : Answer := AText 404 "404 page not found".
Definition not_allowed : Answer := AText 405 "Method Not Allowed".
Definition moved_permanently : Answer := AText 301 "Moved Permanently".

Definition dquoted (s : string) : string := String (ascii_of_nat 34) (String.append s (String (ascii_of_nat 34) "")).
Definition status_json (s : string) : string :=
  String.append "{" (String.append (dquoted "status") (String.append ": " (String.append (dquoted s) "}"))).

(** [healthHandler]; [ping] tells whether the database answers. *)
Definition health : Answer := AText 200 (status_json "available").
Definition dbHealth (ping : bool) : Answer :=
  if negb ping then AText 503 (status_json "unavailable") else AText 200 (status_json "available").

Section Server.
Context {k8s : K8s} {names : K8sNames} {json : GoJson} {W : Type}.
Context (a : API) (e : Env) (dominator : string -> string -> Delivery -> W -> Outcome SecretResult * W).
(** Of one request: the iteration order of the principals, the database's answer to a
    ping, and whether the deadline passed while the Dominator worked. *)
Context (order : list (string * string)) (ping expired : bool).

Definition State : Type := DB * W.

Definition serve_capacity (r : Request) (s : State) : Answer * State :=
  match findHandler capacity_routes (rq_Method r) (rq_Path r) with
  | Found reader values =>
      let '(resp, d) := Handler a e order (rq_Headers r) (reader (PathValue values) r) (fst s) in (AApi resp, (d, snd s))
  | Moved => (moved_permanently, s)
  | MethodNotAllowed => (not_allowed, s)
  | NotFound => (not_found, s)
  end.

Definition serve_secret (values : list (string * string)) (r : Request) (s : State) : Answer * State :=
  let '(reply, w) :=
    API_ServeHTTP (adminToken a) (Authorization (rq_Headers r)) (is_ok (rpc_Context (now e 0) (rq_Deadline r) None))
      (PathValue values "hostID") (PathValue values "namespace") (PathValue values "name")
      (rpc_Decode known_secret dec_secret (rq_Body r)) (fst s) dominator expired (snd s) in
  (ASecret reply, (fst s, w)).

Definition serve (r : Request) (s : State) : Answer * State :=
  match findHandler server_routes (rq_Method r) (rq_Path r) with
  | Found EHealth _ => (health, s)
  | Found EDbHealth _ => (dbHealth ping, s)
  | Found ESecret values => serve_secret values r s
  | Found ECapacity _ => serve_capacity r s
  | Moved => (moved_permanently, s)
  | MethodNotAllowed => (not_allowed, s)
  | NotFound => (not_found, s)
  end.
End Server.

(** [capacity.NewAPI] over the environment of the process. *)
Definition new_api `{GoJson} (order : gmap string string -> list (string * string)) (token raw : string)
    (validate : ZoneInput -> bool) : result API :=
  let* principals := ParseAdapterPrincipals order raw in
  Ok (mkAPI (Some validate) token principals).

(** ** Facts *)
Lemma strict_body_some `{GoJson} {A} limit fields (dec : option Json -> option A) body x :
  strict_body limit fields dec body = Some x -> exists j, dec (Some j) = Some x.
Proof. unfold strict_body. case_match; [done|]. destruct (json_parse body) as [j|]; [|done]. case_match; [|done]. by exists j. Qed.

Lemma decodeJSON_typed `{GoJson} {A} fields (dec : option Json -> option A) body (P : A -> Prop) :
  (forall j x, dec j = Some x -> P x) -> match decodeJSON fields dec body with Some x => P x | None => True end.
Proof.
  intros HP. destruct (decodeJSON fields dec body) as [x|] eqn:E; [|done]. apply strict_body_some in E as (j & E). by eapply HP.
Qed.

Lemma dec_pool_typed j p : dec_pool j = Some p -> pool_typed p.
Proof. intros E. apply dec_pool_range in E. unfold pool_typed, int64 in *. lia. Qed.

Lemma dec_group_typed j g : dec_group j = Some g -> group_typed g.
Proof. intros E. apply dec_group_range in E. unfold group_typed, int64 in *. lia. Qed.

Lemma dec_first_zone_typed j i : dec_first_zone j = Some i -> pool_typed (fz_Pool i) /\ group_typed (fz_Group i).
Proof.
  unfold dec_first_zone. intros E. repeat (apply bind_Some in E as (? & ? & E)). simplify_eq. cbn [fz_Pool fz_Group].
  eauto using dec_pool_typed, dec_group_typed.
Qed.

(** Every body that is read holds [int64] numbers. *)
Lemma capacity_call_typed `{GoJson} p (reader : Reader) v r : In (p, reader) capacity_routes -> call_typed (reader v r).
Proof.
  intros Hin. cbn [capacity_routes In] in Hin.
  destruct_or? Hin; simplify_eq; try exact I; cbn [call_typed].
  - apply decodeJSON_typed, dec_pool_typed.
  - apply decodeJSON_typed, dec_group_typed.
  - apply decodeJSON_typed, dec_first_zone_typed.
Qed.

(** The routes of [GET] only read. *)
Definition reads (c : ApiCall) : bool :=
  match c with Admin (GetHosts _ _) | Admin (GetBootstrap _) | Adapter (GetTarget _) | Adapter GetDiscovery => true | _ => false end.

Lemma capacity_get_reads `{GoJson} p (reader : Reader) v r method :
  In (p, reader) capacity_routes -> serves p method -> method = "GET" \/ method = "HEAD" -> reads (reader v r) = true.
Proof.
  intros Hin Hs Hm. cbn [capacity_routes In] in Hin.
  destruct_or? Hin; simplify_eq; try done; exfalso; unfold serves in Hs; cbn in Hs; naive_solver.
Qed.

Section ServerFacts.
Context {k8s : K8s} {names : K8sNames} {json : GoJson} {W : Type}.
Context (a : API) (e : Env) (dominator : string -> string -> Delivery -> W -> Outcome SecretResult * W).
Implicit Types (s : DB * W).

Lemma reads_unchanged order h c d : reads c = true -> snd (Handler a e order h c d) = d.
Proof.
  destruct c as [c|c]; cbn [Handler].
  - destruct (admin a h); [|done]. destruct c; try done; intros _; cbn [serve_admin].
    + unfold listHosts. by case_match.
    + unfold respond_read, respond. by destruct (BootstrapStatus id d).
  - destruct (adapter order h); [done..|]. destruct c; try done; intros _; cbn [serve_adapter]; unfold respond_read, respond.
    + by destruct (Admission.Target cluster id d).
    + by destruct (AutoscalerDiscovery cluster d).
Qed.

(** Without the admin token the host operation does not reach the Dominator. *)
Lemma secret_unauthorized token auth ok host ns name body d expired (w : W) :
  (token == "") || (auth != String.append "Bearer " token) = true ->
  API_ServeHTTP token auth ok host ns name body d dominator expired w = (SText 401 "unauthorized", w).
Proof. unfold API_ServeHTTP. by intros ->. Qed.

(** Who sent the request, when it changed anything. *)
Definition admitted (order : list (string * string)) (r : Request) (s s' : DB * W) : Prop :=
  s' = s \/ (admin a (rq_Headers r) = true /\ (fst s' = fst s \/ snd s' = snd s)) \/
  exists cluster, adapter order (rq_Headers r) = Authenticated cluster /\ snd s' = snd s /\ others_untouched cluster (fst s) (fst s').

Lemma serve_capacity_admitted order r s : invariants (fst s) -> admitted order r s (snd (serve_capacity a e order r s)).
Proof.
  intros (HL & HT & _). destruct s as [d w]. unfold serve_capacity. destruct (findHandler _ _ _) as [reader vs| | |]; [|by left..].
  cbn [fst snd]. destruct (Handler a e order (rq_Headers r) (reader (PathValue vs) r) d) as [resp d'] eqn:E. cbn [snd].
  destruct (reader (PathValue vs) r) as [c|c]; cbn [Handler] in E.
  - destruct (admin a (rq_Headers r)) eqn:Ea; [|injection E as <- <-; by left]. right; left. split; [done|by right].
  - destruct (adapter order (rq_Headers r)) as [| |cl] eqn:Ea; [injection E as <- <-; by left..|]. right; right. exists cl.
    split; [done|]. split; [done|]. pose proof (serve_adapter_confined e cl c d HL HT) as HC. by rewrite E in HC.
Qed.

Lemma serve_capacity_keeps order r s : invariants (fst s) -> invariants (fst (snd (serve_capacity a e order r s))).
Proof.
  intros HI. unfold serve_capacity. destruct (findHandler _ _ _) as [reader vs| | |] eqn:F; [|done..].
  apply findHandler_found in F as (p & Hin & _). pose proof (capacity_call_typed p reader (PathValue vs) r Hin) as Ht.
  pose proof (keeps_handler a e order (rq_Headers r) _ (fst s) Ht HI) as HK.
  by destruct (Handler a e order (rq_Headers r) (reader (PathValue vs) r) (fst s)).
Qed.

Lemma serve_capacity_get order r s :
  rq_Method r = "GET" \/ rq_Method r = "HEAD" -> snd (serve_capacity a e order r s) = s.
Proof.
  intros Hm. destruct s as [d w]. unfold serve_capacity. destruct (findHandler _ _ _) as [reader vs| | |] eqn:F; [|done..].
  apply findHandler_found in F as (p & Hin & Hs & _).
  pose proof (reads_unchanged order (rq_Headers r) _ d (capacity_get_reads p reader (PathValue vs) r _ Hin Hs Hm)) as HR.
  cbn [fst snd]. by destruct (Handler a e order (rq_Headers r) (reader (PathValue vs) r) d); cbn in *; subst.
Qed.

Lemma serve_secret_admitted order vs r expired s :
  admitted order r s (snd (serve_secret a e dominator expired vs r s)).
Proof.
  destruct s as [d w]. unfold serve_secret. destruct (admin a (rq_Headers r)) eqn:Ea.
  - right; left. split; [done|]. left. by destruct (API_ServeHTTP _ _ _ _ _ _ _ _ _ _ _).
  - left. rewrite secret_unauthorized; [done|]. unfold admin, bearer in Ea. by apply negb_false_iff in Ea.
Qed.

Lemma secret_route_put method escaped vs :
  findHandler server_routes method escaped = Found ESecret vs -> method = "PUT".
Proof.
  intros F. apply findHandler_found in F as (p & Hin & Hs & _). cbn [server_routes In] in Hin. unfold serves in Hs.
  destruct_or? Hin; simplify_eq. cbn in Hs. naive_solver.
Qed.

Lemma serve_spec order ping expired r s :
  invariants (fst s) ->
  let s' := snd (serve a e dominator order ping expired r s) in
  invariants (fst s') /\ admitted order r s s' /\ (rq_Method r = "GET" \/ rq_Method r = "HEAD" -> s' = s).
Proof.
  intros HI. unfold serve. destruct (findHandler server_routes _ _) as [[] vs| | |] eqn:F; cbn [snd];
    try (split; [done|split; [by left|done]]).
  - split; [|split].
    + destruct s as [d w]. unfold serve_secret. by destruct (API_ServeHTTP _ _ _ _ _ _ _ _ _ _ _).
    + apply serve_secret_admitted.
    + apply secret_route_put in F. intros []; congruence.
  - split; [by apply serve_capacity_keeps|split; [by apply serve_capacity_admitted|apply serve_capacity_get]].
Qed.
End ServerFacts.

Lemma new_api_ok `{GoJson} order token raw validate a :
  (forall m, Permutation (order m) (map_to_list m)) -> new_api order token raw validate = Ok a ->
  adminToken a = token /\ principals_ok (adapterPrincipals a).
Proof.
  unfold new_api. intros Hord E. apply rbind_ok in E as (m & Em & [= <-]). split; [done|]. cbn.
  apply principals_order_independent in Em as [[_ ->]|(_ & _ & Hok)]; [|done|done].
  split; [intros c t Hct; by rewrite lookup_empty in Hct|intros c1 c2 t Hct; by rewrite lookup_empty in Hct].
Qed.

(** ** Theorem *)

(** C10. What can change anything through the API's listener.  Whatever arrives on the wire -
    any method, path, header and body - the invariants of the catalog are kept, [GET] and
    [HEAD] change nothing, and a request that changes the catalog or reaches a Dominator
    either presented the configured admin token, or presented the credential of one
    configured cluster, named that cluster, and changed no group or host of another. *)
Theorem server_changes_authenticated {k8s : K8s} {names : K8sNames} {json : GoJson} {W : Type} parse_order token raw validate a e
    (dominator : string -> string -> Delivery -> W -> Outcome SecretResult * W) order ping expired r d w ans d' w' :
  (forall m, Permutation (parse_order m) (map_to_list m)) -> new_api parse_order token raw validate = Ok a ->
  Permutation order (map_to_list (adapterPrincipals a)) -> invariants d ->
  serve a e dominator order ping expired r (d, w) = (ans, (d', w')) ->
  invariants d' /\
  (rq_Method r = "GET" \/ rq_Method r = "HEAD" -> (d', w') = (d, w)) /\
  ((d', w') = (d, w) \/
   (token <> "" /\ Authorization (rq_Headers r) = bearer token /\ (d' = d \/ w' = w)) \/
   exists cluster t, adapterPrincipals a !! cluster = Some t /\ Authorization (rq_Headers r) = bearer t /\
     TrimSpace (XCraneClusterID (rq_Headers r)) = cluster /\ w' = w /\ others_untouched cluster d d').
Proof.
  intros Hpo Hnew Hord HI Hs. destruct (new_api_ok _ _ _ _ _ Hpo Hnew) as [Htok Hok].
  pose proof (serve_spec a e dominator order ping expired r (d, w) HI) as S. rewrite Hs in S. cbn [snd fst] in S.
  destruct S as (HI' & HA & HG). split; [done|]. split; [done|].
  destruct HA as [->|[[Ha Hx]|(cl & Ha & Hw & Ho)]]; [by left|right; left|right; right].
  - unfold admin in Ha. rewrite Htok in Ha. apply negb_true_iff in Ha. bsplit. by split_and!.
  - apply (adapter_spec _ _ _ _ Hok Hord) in Ha as (t & Ht & Hb & Hc). exists cl, t. by split_and!.
Qed.

(** ** Witness *)
#[local] Existing Instance demo_k8s.
#[local] Instance demo_valid_names : K8sNames :=
  {| dns_label := fun _ => true; dns_subdomain := fun _ => true; config_map_key := fun _ => true |}.
#[local] Instance demo_bodies : GoJson :=
  {| json_parse := fun s =>
       if s == "principals" then Some (JObj [("c1", JStr "token-1"); ("c2", JStr "token-2")])
       else if s == "target" then Some (JObj [("node_group_id", JStr demo_gid); ("request_id", JStr "req-1"); ("Desired_Target", JNum 2);
                                              ("template_revision", JStr "rev-1")])
       else None |}.
Definition demo_server : API := mkAPI (Some (fun _ => true)) "admin-token" demo_principals.
Definition demo_dominator (endpoint identity : string) (dl : Delivery) (calls : nat) : Outcome SecretResult * nat := ((200, Ok None), S calls).
Definition demo_post (path : string) : Request := mkRequest "POST" path [] demo_headers None "target".
Definition demo_serve (r : Request) : Answer * (DB * nat) :=
  serve demo_server (env_at "a" 100) demo_dominator (map_to_list demo_principals) true false r (demo_db, 0%nat).
Definition answer_code (x : Answer) : Z :=
  match x with
  | AApi r => Http.rs_status r
  | ASecret (SText c _) | ASecret (SResult c _) | AText c _ => c
  end.

(** The target is raised through the wire; a doubled slash is redirected, a wrong method and
    an unknown path are refused, the admin routes need the admin token, an escaped segment
    matches, and a database that does not answer shows. *)
Example demo_routing :
  map (fun r => answer_code (fst (demo_serve r)))
    [demo_post "/v1/capacity"; demo_post "/v1//capacity"; demo_post "/v1/hosts"; demo_post "/v1/none"; demo_post "/v1";
     demo_post "/v1/zones"; demo_post "/v1/c%61pacity"; mkRequest "HEAD" "/health" [] demo_headers None "";
     mkRequest "PUT" "/v1/hosts/h1/kubernetes/namespaces/ns/secrets/s" [] (mkHeaders "Bearer admin-token" "") None "none";
     mkRequest "PUT" "/v1/hosts/h1/kubernetes/namespaces/ns/secrets/s" [] demo_headers None "none"] =
    [200; 301; 405; 404; 301; 401; 200; 200; 400; 401].
Proof. vm_compute. reflexivity. Qed.

Lemma server_changes_authenticated_witness :
  fst (snd (demo_serve (demo_post "/v1/capacity"))) <> demo_db /\
  invariants (fst (snd (demo_serve (demo_post "/v1/capacity")))) /\
  exists cluster t, demo_principals !! cluster = Some t /\ others_untouched cluster demo_db (fst (snd (demo_serve (demo_post "/v1/capacity")))).
Proof.
  assert (fst (snd (demo_serve (demo_post "/v1/capacity"))) <> demo_db) as Hne
    by (intros E; apply (f_equal (fun d => length (operations d))) in E; vm_compute in E; discriminate E).
  split; [exact Hne|].
  assert (invariants demo_db) as HI by (split; [exact demo_ledger|]; split; [exact demo_targets|]; intros h; vm_compute; discriminate).
  destruct (demo_serve (demo_post "/v1/capacity")) as [ans [d' w']] eqn:E. cbn [fst snd] in *.
  destruct (server_changes_authenticated (fun m => rev (map_to_list m)) "admin-token" "principals" (fun _ => true) demo_server (env_at "a" 100)
              demo_dominator (map_to_list demo_principals) true false (demo_post "/v1/capacity") demo_db 0%nat ans d' w')
    as (H1 & _ & [H|[(_ & H & _)|(c & t & Hc & _ & _ & _ & Ho)]]).
  - intros m. symmetry. apply Permutation_rev.
  - vm_compute. reflexivity.
  - reflexivity.
  - exact HI.
  - exact E.
  - destruct (Hne (f_equal fst H)).
  - discriminate H.
  - split; [exact H1|]. exists c, t. exact (conj Hc Ho).
Defined.
