(* ===== verification/DominatorServer.v ===== *)
(** * The Dominator's listener: internal/dominator/server.go

    [StartContext] checks the workload identity of the process against its zone and serves
    three routes over mutual TLS to two identities: Crane API, which may deliver host
    operations, and the bootstrap probe, which may look at the health.  TLS itself is a
    parameter: a connection comes with the identity of its verified peer. *)
From Stdlib Require Import Ascii String.
From S2P Require Import Prelude GoStrings Sql Api Decode Schema Fixture Lease Handoff Scheduling Bootstrap Http Regex Subd SubdFacts HostRpc HostOps HostOpsFacts LocalHost Probe Deployment Router Settings ApiServer.

Local Open Scope string_scope.
Local Open Scope list_scope.
Local Open Scope Z_scope.
Local Open Scope crane_scope.

(** ** hostrpc: the peer *)

(** [Peer]: the identity of the first peer certificate, empty when there is none. *)
Definition Peer (certificates : option (list (option string))) : string :=
  match certificates with
  | Some (Some id :: _) => id
  | _ => ""
  end.

(** ** Starting *)
Record DominatorListener : Type := mkDominatorListener { ls_controller : Controller; ls_api : string; ls_allowed : list string; ls_addr : string }.

(** [spiffeid.FromString] and [String]. *)
Definition from_string `{Spiffe} (raw : string) : option string :=
  match spiffe_id raw with Some (td, path) => Some (id_string td path) | None => None end.

(** [svid] is the process's own identity, [None] when the workload API has none. *)
Definition StartContext `{Spiffe} (lookup : string -> option string) (svid : option string) (addr : string) : result DominatorListener :=
  let domain := GetEnv lookup "SPIFFE_TRUST_DOMAIN" "crane-oss" in
  let zone := GetEnv lookup "CRANE_ZONE_ID" "" in
  guard zone != "" else ErrMsg "CRANE_ZONE_ID is required" in
  let* expectedOwnID := DominatorID domain zone in
  let* apiID := of_option (ErrMsg "invalid Crane API identity") (from_string (String.append "spiffe://" (String.append domain "/crane-api"))) in
  let* own := of_option (ErrMsg "Dominator workload identity unavailable") svid in
  guard own == expectedOwnID else ErrMsg "Dominator workload identity does not match CRANE_ZONE_ID" in
  let* allowedID := of_option (ErrMsg "invalid SPIFFE trust domain") (from_string (String.append "spiffe://" (String.append domain "/subd"))) in
  Ok (mkDominatorListener (mkController zone domain own) apiID [allowedID; apiID] addr).

(** ** Serving *)
Inductive Target_ : Type := DOperation | DHealth | DDbHealth.

Definition InternalPath : list segment := [Lit "v1"; Lit "host-secrets"].

Definition dominator_routes : list (Pattern * Target_) :=
  [(mkPattern "PUT" InternalPath false, DOperation);
   (mkPattern "" [Lit "v1"; Lit "health"] false, DHealth);
   (mkPattern "" [Lit "v1"; Lit "db"; Lit "health"] false, DDbHealth)].

Definition known_delivery (j : option Json) : bool := known ["host_id"; "request"] j && known_secret (sub j "request").
Definition dec_delivery (j : option Json) : option Delivery :=
  l ← dec_object j; h ← dec_string (field "host_id" l); r ← dec_secret (field "request" l); Some (mkDelivery h r).

Definition listening (addr : string) : string := String.append "Dominator listening on " (String.append addr (String newline "")).

Section Serve.
Context {W : Type} {link : AgentLink W} {k8s : K8s} {names : K8sNames} {fp : Fingerprints} {spiffe : Spiffe} {json : GoJson}.
Context (ln : DominatorListener) (ping : bool) (lk : Luck) (now : Z).

(** One request on a connection whose peer certificate is for [peer]; [None] when the
    handshake refuses the peer. *)
Definition serve_dominator (peer : string) (r : Request) (s : HostStore W) : option Answer * HostStore W :=
  if negb (one_of peer (ls_allowed ln)) then (None, s)
  else
    match findHandler dominator_routes (rq_Method r) (rq_Path r) with
    | Found DOperation _ =>
        let '(reply, s') := Controller_Handler (ls_controller ln) (ls_api ln) (Peer (Some [Some peer])) (is_ok (rpc_Context now (rq_Deadline r) None))
                              (rpc_Decode known_delivery dec_delivery (rq_Body r)) lk s in
        (Some (ASecret reply), s')
    | Found DHealth _ => (Some (AText 200 (listening (ls_addr ln))), s)
    | Found DDbHealth _ => (Some (dbHealth ping), s)
    | Moved => (Some moved_permanently, s)
    | MethodNotAllowed => (Some not_allowed, s)
    | NotFound => (Some not_found, s)
    end.
End Serve.

(** ** Facts *)
Section Owned.
Context {W : Type} {link : AgentLink W} {k8s : K8s} {names : K8sNames} {fp : Fingerprints} {spiffe : Spiffe}.

(** An execution does nothing for a host that the Dominator does not own. *)
Lemma Execute_owned c lk host rq (s : HostStore W) :
  snd (Execute c lk host rq s) = s \/
  exists t, loadTarget (hs_db s) host = (t, None) /\ tg_ZoneID t = ct_ZoneID c /\ ct_ZoneID c <> "" /\ tg_DominatorIdentity t = ct_OwnIdentity c.
Proof.
  unfold Execute. destruct (SecretRequest_Normalize rq) as [rq'|e]; [|by left]. destruct (lk_lock lk); [by left|].
  destruct (loadTarget (hs_db s) host) as [t [e|]]; [by left|].
  destruct ((ct_ZoneID c == "") || (tg_ZoneID t != ct_ZoneID c) || (tg_DominatorIdentity t != ct_OwnIdentity c)) eqn:E; [by left|].
  right. exists t. bsplit. by split_and!.
Qed.

Lemma Controller_Handler_owned c api peer ok body lk (s : HostStore W) :
  snd (Controller_Handler c api peer ok body lk s) = s \/
  (peer = api /\ api <> "" /\ exists dl t, body = Some dl /\ loadTarget (hs_db s) (dl_HostID dl) = (t, None) /\
    tg_ZoneID t = ct_ZoneID c /\ tg_DominatorIdentity t = ct_OwnIdentity c).
Proof.
  unfold Controller_Handler. destruct ((peer != api) || (api == "")) eqn:E; [by left|]. destruct (negb ok); [by left|].
  destruct body as [dl|]; [|by left]. destruct (dl_HostID dl == ""); [by left|].
  destruct (Execute_owned c lk (dl_HostID dl) (dl_Request dl) s) as [H|(t & Ht & Hz & _ & Hi)].
  - destruct (Execute c lk (dl_HostID dl) (dl_Request dl) s) as [[r err] s']. cbn [snd] in *. by left.
  - right. bsplit. subst. split; [done|]. split; [done|]. by exists dl, t.
Qed.
End Owned.

Lemma DominatorID_ok `{Spiffe} td zone id : DominatorID td zone = Ok id ->
  exists t, trust_domain td = Some t /\ id = id_string t (String.append "/dominator/" zone).
Proof.
  unfold DominatorID. intros E. apply rbind_ok in E as ([] & _ & E). apply rbind_ok in E as (t & Et & E).
  apply of_option_ok in Et. apply of_option_ok in E. unfold FromPath in E. case_match; [|done]. injection E as <-. by exists t.
Qed.

(** C39. A Dominator acts only for its zone and only for Crane API.  Once a listener started, the
    process has the workload identity of the zone it was configured for; a peer other
    than the two named is refused in the handshake; a request changes the operation store
    or reaches an agent only if it came from Crane API's identity, was a PUT with a
    well-formed delivery, and named a host that the catalog places in this zone with
    this very Dominator as its zone's. *)
Theorem dominator_acts_for_its_zone {W} {link : AgentLink W} {k8s : K8s} {names : K8sNames} {fp : Fingerprints} {spiffe : Spiffe} {json : GoJson}
    lookup svid addr ln ping lk now peer r (s : HostStore W) ans s' :
  StartContext lookup svid addr = Ok ln -> serve_dominator ln ping lk now peer r s = (ans, s') ->
  (exists td own, trust_domain (GetEnv lookup "SPIFFE_TRUST_DOMAIN" "crane-oss") = Some td /\ svid = Some own /\
     own = id_string td (String.append "/dominator/" (GetEnv lookup "CRANE_ZONE_ID" "")) /\
     (~ In peer (ls_allowed ln) -> ans = None) /\
     (s' = s \/
      (peer = ls_api ln /\ rq_Method r = "PUT" /\
       exists dl t, rpc_Decode known_delivery dec_delivery (rq_Body r) = Some dl /\ loadTarget (hs_db s) (dl_HostID dl) = (t, None) /\
         tg_ZoneID t = GetEnv lookup "CRANE_ZONE_ID" "" /\ tg_DominatorIdentity t = own))).
Proof.
  unfold StartContext. intros Hs Hr. apply rbind_ok in Hs as ([] & _ & Hs). apply rbind_ok in Hs as (own & Eo & Hs).
  apply rbind_ok in Hs as (apiID & _ & Hs). apply rbind_ok in Hs as (own' & Esv & Hs). apply of_option_ok in Esv.
  apply rbind_ok in Hs as ([] & Eq & Hs). apply require_ok in Eq. bsplit. subst own'. apply rbind_ok in Hs as (sub & _ & [= <-]).
  apply DominatorID_ok in Eo as (td & Etd & ->). exists td, (id_string td (String.append "/dominator/" (GetEnv lookup "CRANE_ZONE_ID" ""))).
  split; [done|]. split; [done|]. split; [done|]. unfold serve_dominator in Hr. cbn [ls_allowed ls_controller ls_api] in *.
  destruct (one_of peer [sub; apiID]) eqn:Ep; cbn [negb] in Hr.
  2: { injection Hr as <- <-. split; [done|by left]. }
  apply one_of_spec in Ep. split; [intros Hn; by destruct Hn|].
  destruct (findHandler dominator_routes (rq_Method r) (rq_Path r)) as [[] vs| | |] eqn:F; try (injection Hr as <- <-; by left).
  destruct (Controller_Handler_owned (mkController (GetEnv lookup "CRANE_ZONE_ID" "") (GetEnv lookup "SPIFFE_TRUST_DOMAIN" "crane-oss")
              (id_string td (String.append "/dominator/" (GetEnv lookup "CRANE_ZONE_ID" "")))) apiID (Peer (Some [Some peer]))
              (is_ok (rpc_Context now (rq_Deadline r) None)) (rpc_Decode known_delivery dec_delivery (rq_Body r)) lk s)
    as [Hsame|(Hpeer & _ & dl & t & Hb & Ht & Hz & Hi)].
  - left. destruct (Controller_Handler _ _ _ _ _ _ _) as [reply s1]. cbn [snd] in *. congruence.
  - right. split; [exact Hpeer|]. split; [|by exists dl, t].
    apply findHandler_found in F as (p & Hin & Hsv & _). cbn [dominator_routes In] in Hin. unfold serves in Hsv.
    destruct_or? Hin; simplify_eq. cbn in Hsv. naive_solver.
Qed.

(** ** Witness: a Secret delivered over the wire *)
#[local] Existing Instance demo_names.
#[local] Existing Instance demo_k8s_names.
#[local] Existing Instance demo_prints.
#[local] Existing Instance demo_sum.
#[local] Existing Instance no_faults.
#[local] Existing Instance demo_agent_url.
#[local] Existing Instance demo_kube_host.
#[local] Instance demo_ids : Spiffe :=
  {| spiffe_id := fun s => if HasPrefix s "spiffe://" then let '(td, path, _) := Cut (TrimPrefix s "spiffe://") "/" in Some (td, String.append "/" path) else None;
     trust_domain := fun s => Some s; spiffe_path_ok := fun _ => true |}.
#[local] Instance demo_wire : GoJson :=
  {| json_parse := fun s =>
       if s == "secret"
       then Some (JObj [("host_id", JStr "bootstrap/spire");
                        ("request", JObj [("request_id", JStr "req-1"); ("namespace", JStr "ns"); ("name", JStr "db"); ("stringData", JObj [("password", JStr "x")])])])
       else None |}.
Definition demo_environment (k : string) : option string :=
  if k == "SPIFFE_TRUST_DOMAIN" then Some "crane" else if k == "CRANE_ZONE_ID" then Some "z1" else None.
Definition demo_listener : DominatorListener :=
  mkDominatorListener (mkController "z1" "crane" "spiffe://crane/dominator/z1") "spiffe://crane/crane-api" ["spiffe://crane/subd"; "spiffe://crane/crane-api"] ":44000".
Definition demo_request : Request := mkRequest "PUT" "/v1/host-secrets" [] (mkHeaders "" "") None "secret".
(** The second attempt of a delivery whose first answer was lost. *)
Definition demo_answered (peer : string) : option Answer * HostStore (Net nat) :=
  serve_dominator (link := net_link demo_config (fun _ => None) "spiffe://crane/dominator/z1") demo_listener true demo_luck 0 peer demo_request demo_first.

Lemma demo_listens : StartContext demo_environment (Some "spiffe://crane/dominator/z1") ":44000" = Ok demo_listener.
Proof. vm_compute. reflexivity. Qed.

(** Crane API's delivery is applied; the probe may not deliver; a stranger is refused in the
    handshake. *)
Example demo_deliveries :
  map (fun p => match fst (demo_answered p) with Some (ASecret (SResult c _) | ASecret (SText c _) | AText c _) => Some c | _ => None end)
    ["spiffe://crane/crane-api"; "spiffe://crane/subd"; "spiffe://crane/other"] = [Some 200; Some 403; None].
Proof. vm_compute. reflexivity. Qed.

Lemma dominator_acts_for_its_zone_witness :
  snd (demo_answered "spiffe://crane/crane-api") <> demo_first /\
  exists t, loadTarget (hs_db demo_first) "bootstrap/spire" = (t, None) /\ tg_ZoneID t = "z1" /\ tg_DominatorIdentity t = "spiffe://crane/dominator/z1".
Proof.
  assert (snd (demo_answered "spiffe://crane/crane-api") <> demo_first) as Hne by (intros E; apply (f_equal (fun s => map hq_outcome (hs_requests s))) in E; vm_compute in E; discriminate E).
  split; [exact Hne|]. destruct (demo_answered "spiffe://crane/crane-api") as [ans s'] eqn:E.
  destruct (dominator_acts_for_its_zone demo_environment (Some "spiffe://crane/dominator/z1") ":44000" demo_listener true demo_luck 0
    "spiffe://crane/crane-api" demo_request demo_first ans s' demo_listens E) as (td & own & _ & [= <-] & _ & _ & [H|(_ & _ & dl & t & Hd & Ht & Hz & Hi)]).
  - by destruct Hne.
  - exists t. assert (dl_HostID dl = "bootstrap/spire") as Eh by (vm_compute in Hd; injection Hd as <-; reflexivity). rewrite Eh in Ht.
    exact (conj Ht (conj Hz Hi)).
Defined.
