(* ===== verification/AgentServer.v ===== *)
(** * The host agent as a process: internal/subd/config.go, Serve of server.go, cmd/subd

    From the configuration file to the listener: [LoadConfig], the process's own identity,
    [NewServer] (file [Subd]), and [Serve] with its handshake, its authorization by method and
    its five routes; bodies are read strictly from the wire.  Also what the collectors do
    with the differences they find. *)
From Stdlib Require Import Ascii String.
From S2P Require Import Prelude GoStrings Sql Api Decode Schema Fixture Lease Handoff Scheduling Bootstrap Http Regex Subd SubdFacts HostRpc HostOps LocalHost Deployment Router ApiServer.

Local Open Scope string_scope.
Local Open Scope list_scope.
Local Open Scope Z_scope.
Local Open Scope crane_scope.

(** ** Configuration *)
Definition known_agent : option Json -> bool := known ["ListenAddress"; "TrustDomain"; "WriterIdentity"; "ReaderIdentities"; "Kubeconfig"].
Definition dec_agent (j : option Json) : option AgentConfig :=
  l ← dec_object j; a ← dec_string (field "ListenAddress" l); t ← dec_string (field "TrustDomain" l);
  w ← dec_string (field "WriterIdentity" l); rs ← dec_array (field "ReaderIdentities" l); r ← mapM (fun x => dec_string (Some x)) rs;
  k ← dec_string (field "Kubeconfig" l); Some (mkAgentConfig a t w r k).

(** [file] is the content, [None] when it cannot be opened; only its first 65537 bytes are read. *)
Definition LoadConfig `{ListenNet} `{Spiffe} `{GoJson} (file : option string) : result AgentConfig :=
  let* text := of_option (ErrMsg "cannot open Subd configuration") file in
  let* j := of_option (ErrMsg "invalid Subd configuration") (json_parse (String.substring 0 (Z.to_nat 65537) text)) in
  guard known_agent (Some j) else ErrMsg "invalid Subd configuration" in
  let* cfg := of_option (ErrMsg "invalid Subd configuration") (dec_agent (Some j)) in
  let* _ := Config_Validate cfg in
  Ok cfg.

(** ** Bodies *)
Definition dec_uint64 (j : option Json) : option Z :=
  match j with
  | None | Some JNull => Some 0
  | Some (JNum n) => if (0 <=? n) && (n <? 2 ^ 64) then Some n else None
  | _ => None
  end.
Definition dec_bool (j : Json) : option bool := match j with JNull => Some false | JBool b => Some b | _ => None end.

Definition dec_services (j : option Json) : option (gmap string bool) :=
  l ← dec_object j; m ← mapM (fun kv => b ← dec_bool (snd kv); Some (fst kv, b)) l; Some (list_to_map (rev m)).
Definition dec_change (j : Json) : option HostPackageChange :=
  l ← dec_object (Some j); n ← dec_string (field "name" l); a ← dec_string (field "action" l); Some (mkPackageChange n a).

Definition known_kubernetes_secret : option Json -> bool := known ["namespace"; "name"; "type"; "data"; "stringData"; "rollout_deployment"].
Definition dec_kubernetes_secret (j : option Json) : option (option KubernetesSecret) :=
  match j with
  | None | Some JNull => Some None
  | _ => l ← dec_object j; ns ← dec_string (field "namespace" l); n ← dec_string (field "name" l); t ← dec_string (field "type" l);
         d ← dec_data (field "data" l); sd ← dec_labels (field "stringData" l); ro ← dec_string (field "rollout_deployment" l);
         Some (Some (mkSecret ns n t d sd ro))
  end.

Definition known_expected (j : option Json) : bool :=
  known ["revision"; "image_id"; "track"; "version"; "services"; "packages"; "secret"] j && known_kubernetes_secret (sub j "secret") &&
  match sub j "packages" with Some (JArr l) => forallb (fun x => known ["name"; "action"] (Some x)) l | _ => true end.
Definition dec_expected (j : option Json) : option ExpectedHostState :=
  l ← dec_object j; r ← dec_uint64 (field "revision" l); i ← dec_string (field "image_id" l); t ← dec_string (field "track" l);
  v ← dec_string (field "version" l); s ← dec_services (field "services" l); ps ← dec_array (field "packages" l); p ← mapM dec_change ps;
  k ← dec_kubernetes_secret (field "secret" l); Some (mkExpected r i t v s p k).

Definition known_registration (j : option Json) : bool :=
  known ["cluster_id"; "host_id"; "node_group_id"; "node_pool_id"; "template_revision"; "node_name"; "provider_id"; "scheduling"] j &&
  known_scheduling (sub j "scheduling").
Definition dec_registration (j : option Json) : option WorkerRegistration :=
  l ← dec_object j; c ← dec_string (field "cluster_id" l); h ← dec_string (field "host_id" l); g ← dec_string (field "node_group_id" l);
  p ← dec_string (field "node_pool_id" l); t ← dec_string (field "template_revision" l); n ← dec_string (field "node_name" l);
  i ← dec_string (field "provider_id" l); s ← dec_scheduling (field "scheduling" l); Some (mkRegistration c h g p t n i s).

Definition known_join (j : option Json) : bool :=
  known ["registration"; "fence"; "operation_id"; "api_server_endpoint"; "token"; "ca_cert_hash"] j && known_registration (sub j "registration").
Definition dec_join (j : option Json) : option ClusterJoinRequest :=
  l ← dec_object j; r ← dec_registration (field "registration" l); f ← dec_int64 (field "fence" l); o ← dec_string (field "operation_id" l);
  e ← dec_string (field "api_server_endpoint" l); t ← dec_string (field "token" l); c ← dec_string (field "ca_cert_hash" l);
  Some (mkJoinRequest r f o e t c).

Definition known_challenge : option Json -> bool := known ["challenge"].
Definition dec_challenge (j : option Json) : option string := l ← dec_object j; dec_string (field "challenge" l).

(** The length that [base64.RawURLEncoding] decodes. *)
Definition url_alphabet (c : ascii) : bool := letter c || digit c || any_of "-_" c.
Definition raw_url_length (s : string) : option Z :=
  let s := without_breaks s in
  let n := Z.of_nat (String.length s) in
  if all_chars url_alphabet s && negb (n mod 4 =? 1) then Some (n * 6 / 8) else None.

(** ** Routes *)
Definition agent_routes `{GoJson} (cancelled : bool) : list (Pattern * (string -> AgentCall)) :=
  [(on "GET" [Lit "health"], fun _ => GetHealth);
   (on "GET" [Lit "state"], fun _ => GetState);
   (on "PUT" [Lit "expected-state"], fun body => PutExpectedState cancelled (rpc_Decode known_expected dec_expected body));
   (on "PUT" [Lit "cluster-join"], fun body => PutClusterJoin (strict_body 32768 known_join dec_join body));
   (on "POST" [Lit "cluster-membership"], fun body => PostMembership (rpc_Decode known_challenge dec_challenge body))].

(** The certificate of a peer: none, one without an identity, or one for an identity. *)
Inductive Certificate : Type := NoCertificate | NoIdentity | Identity (id : string).

Inductive AgentAnswer : Type := NReply (r : Reply) | NText (code : Z) (text : string).

Section Agent.
Context {H : Type} {host : Subd.HostOps H} {k8s : K8s} {names : K8sNames} {fp : Fingerprints} {dg : Digest} {gourl : GoURL} {faults : Faults}
  {spiffe : Spiffe} {net : ListenNet} {json : GoJson}.
Context (identity : string) (pid : Z) (invocation : string) (cfg : AgentConfig).

Definition peer_allowed (method id : string) : bool :=
  (id == ac_WriterIdentity cfg) || ((method == "GET") && one_of id (ac_ReaderIdentities cfg)).

(** [Handler]; [None] when the process died. *)
Definition agent_serve (cancelled : bool) (now : Z) (cert : Certificate) (r : Request) (m : Machine H) : option AgentAnswer * Machine H :=
  match cert with
  | NoCertificate => (Some (NText 401 "client identity required"), m)
  | NoIdentity => (Some (NText 401 "invalid client identity"), m)
  | Identity id =>
      if negb (peer_allowed (rq_Method r) id) then (Some (NText 403 "forbidden"), m)
      else
        match findHandler (agent_routes cancelled) (rq_Method r) (rq_Path r) with
        | Found call _ =>
            let '(reply, m) := agent_Handler identity pid invocation cfg raw_url_length (Some id)
                                 (is_ok (rpc_Context now (rq_Deadline r) None)) (call (rq_Body r)) m in
            (option_map NReply reply, m)
        | Moved => (Some (NText 301 "Moved Permanently"), m)
        | MethodNotAllowed => (Some (NText 405 "Method Not Allowed"), m)
        | NotFound => (Some (NText 404 "404 page not found"), m)
        end
  end.

(** [Serve]: the identities of the handshake, the listener, the readiness; [None] when the
    process died.  [RequireFromString] panics on what is not an identity. *)
Definition serve_identities : option (list string) :=
  mapM (fun raw => match spiffe_id raw with Some (td, path) => Some (id_string td path) | None => None end)
    (ac_WriterIdentity cfg :: ac_ReaderIdentities cfg).

Inductive Serving : Type := Serves (ids : list string) | Stops (e : error) | Panics.

Definition Serve (binds : bool) (m : Machine H) : option Serving * Machine H :=
  match serve_identities with
  | None => (Some Panics, m)
  | Some ids =>
      if negb binds then (Some (Stops (ErrMsg "cannot bind Subd listener")), m)
      else match publish identity pid invocation m with
           | (Some true, m) => (Some (Serves ids), m)
           | (Some false, m) => (Some (Stops (ErrMsg "cannot publish Subd readiness")), m)
           | (None, m) => (None, m)
           end
  end.
End Agent.

(** [run] of cmd/subd: [svid] is what the workload API gives within thirty seconds. *)
Definition agent_run {H} {host : Subd.HostOps H} {k8s : K8s} {names : K8sNames} {fp : Fingerprints} {dg : Digest} {gourl : GoURL} {faults : Faults}
    {spiffe : Spiffe} {net : ListenNet} {json : GoJson} (pid : Z) (invocation : string) (file svid : option string) (binds : bool)
    (m : Machine H) : option Serving * Machine H :=
  match (let* cfg := LoadConfig file in
         let* own := of_option (ErrMsg "workload identity unavailable") svid in
         let* _ := Config_Validate cfg in
         let* _ := validateOwnID own (ac_TrustDomain cfg) in
         let* m := restart own pid invocation m in
         Ok (cfg, own, m)) with
  | Err e => (Some (Stops e), m)
  | Ok (cfg, own, m) => Serve own pid invocation cfg binds m
  end.

(** ** The collectors *)

(** What one [systemctl] run comes to; a timeout kills it. *)
Inductive command_luck : Type := Succeeds | FailsWith (e : string) | TimesOut.

Definition verb (v : ServiceVerb) : string := match v with StartService => "start" | StopService => "stop" end.
Definition collector_service_command (a : string * ServiceVerb) : list string := ["systemctl"; verb (snd a); fst a].

(** [PerformActions]: every action is tried once; the messages are collected, and dropped. *)
Fixpoint perform_services (luck : string * ServiceVerb -> command_luck) (l : list (string * ServiceVerb)) : list (list string) * list string :=
  match l with
  | [] => ([], [])
  | a :: l =>
      let '(commands, errors) := perform_services luck l in
      (collector_service_command a :: commands,
       match luck a with
       | Succeeds => []
       | FailsWith e => [Join ["failed to "; verb (snd a); " service "; fst a; ": "; e] ""]
       | TimesOut => [Join ["timeout after 30s trying to "; verb (snd a); " service "; fst a] ""]
       end ++ errors)
  end.
Definition PerformActions (luck : string * ServiceVerb -> command_luck) (l : list (string * ServiceVerb)) : result unit * list (list string) :=
  let '(commands, errors) := perform_services luck l in (Ok tt, commands).

Definition collector_package_command (a : string * PackageVerb) : list string :=
  ["pkexec"; "apt-get"; match snd a with InstallPackage => "install" | UninstallPackage => "remove" end; "-y"; fst a].

(** The caller of [PerformActions] cannot tell a failure: every action is attempted, and the
    result is the same whatever happened. *)
Lemma PerformActions_reports_nothing luck luck' l : PerformActions luck l = PerformActions luck' l /\ snd (PerformActions luck l) = map collector_service_command l.
Proof.
  assert (forall k, fst (perform_services k l) = map collector_service_command l) as E.
  { intros k. induction l as [|a l IH]; [done|]. cbn [perform_services map]. rewrite <- IH. by destruct (perform_services k l). }
  unfold PerformActions. pose proof (E luck) as E1. pose proof (E luck') as E2.
  destruct (perform_services luck l) as [c1 e1], (perform_services luck' l) as [c2 e2]. cbn in *. by subst.
Qed.

(** ** Facts *)
Section AgentFacts.
Context {H : Type} {host : Subd.HostOps H} {k8s : K8s} {names : K8sNames} {fp : Fingerprints} {dg : Digest} {gourl : GoURL} {faults : Faults}
  {spiffe : Spiffe} {net : ListenNet} {json : GoJson}.
Implicit Types (m : Machine H) (cfg : AgentConfig).

Lemma agent_get_unchanged identity pid invocation cfg bytes peer ok c m :
  is_get c = true -> snd (agent_Handler identity pid invocation cfg bytes peer ok c m) = m.
Proof.
  intros G. unfold agent_Handler. destruct peer as [id|]; [|done]. case_match; [done|]. rewrite G. cbn [negb andb]. by destruct c.
Qed.

Lemma agent_membership_unchanged identity pid invocation cfg bytes peer ok body m :
  snd (agent_Handler identity pid invocation cfg bytes peer ok (PostMembership body) m) = m.
Proof.
  unfold agent_Handler. destruct peer as [id|]; [|done]. case_match; [done|]. case_match; [done|]. unfold clusterMembership.
  destruct body as [c|]; [|done]. case_match; [done|]. unfold act_bind, gets. destruct host_ClusterMembership as [prove|]; [|done].
  case_match; [done|]. by destruct (prove _ c (mc_host m)).
Qed.

Lemma agent_route_get cancelled p (call : string -> AgentCall) method body :
  In (p, call) (agent_routes cancelled) -> serves p method -> method = "GET" -> is_get (call body) = true.
Proof.
  intros Hin Hs ->. cbn [agent_routes In] in Hin. destruct_or? Hin; simplify_eq; try done; exfalso; unfold serves in Hs; cbn in Hs; naive_solver.
Qed.

(** Only the writer changes a host.  Whatever arrives, without a certificate for a configured
    identity the answer is 401 or 403, a reader changes nothing, and a request after which
    the machine is different (its memory, its files, its host) was a PUT by the writer's
    identity. *)
Theorem agent_writes_by_writer identity pid invocation cfg cancelled now cert r m ans m' :
  agent_serve identity pid invocation cfg cancelled now cert r m = (ans, m') ->
  (m' = m \/ (cert = Identity (ac_WriterIdentity cfg) /\ rq_Method r = "PUT")) /\
  ((forall id, cert = Identity id -> ~ In id (ac_WriterIdentity cfg :: ac_ReaderIdentities cfg)) ->
   m' = m /\ exists code text, ans = Some (NText code text) /\ (code = 401 \/ code = 403)).
Proof.
  unfold agent_serve. destruct cert as [| |id]; [intros [= <- <-]; split; [by left|intros _; split; [done|]; eexists _, _; split; [reflexivity|auto]]..|].
  destruct (peer_allowed cfg (rq_Method r) id) eqn:Ea; cbn [negb]; [|intros [= <- <-]; split; [by left|intros _; split; [done|]; eexists _, _; split; [reflexivity|auto]]].
  intros E. split.
  2: { intros Hno. specialize (Hno id eq_refl). exfalso. apply Hno. unfold peer_allowed in Ea. apply orb_prop in Ea as [Ea|Ea]; bsplit; [by left|].
       right. by apply one_of_spec. }
  destruct (findHandler (agent_routes cancelled) (rq_Method r) (rq_Path r)) as [call vs| | |] eqn:F; try (injection E as <- <-; by left).
  apply findHandler_found in F as (p & Hin & Hs & _).
  destruct (is_get (call (rq_Body r))) eqn:G.
  { left. pose proof (agent_get_unchanged identity pid invocation cfg raw_url_length (Some id) (is_ok (rpc_Context now (rq_Deadline r) None)) _ m G) as U.
    destruct (agent_Handler _ _ _ _ _ _ _ _ _) as [reply m1]. cbn in U. congruence. }
  unfold peer_allowed in Ea. apply orb_prop in Ea as [Ea|Ea]; bsplit.
  2: { exfalso. pose proof (agent_route_get cancelled p call (rq_Method r) (rq_Body r) Hin Hs ltac:(assumption)). congruence. }
  subst id. cbn [agent_routes In] in Hin. destruct_or? Hin; simplify_eq; try done.
  - right. split; [done|]. unfold serves in Hs. cbn in Hs. naive_solver.
  - right. split; [done|]. unfold serves in Hs. cbn in Hs. naive_solver.
  - left. pose proof (agent_membership_unchanged identity pid invocation cfg raw_url_length (Some (ac_WriterIdentity cfg))
      (is_ok (rpc_Context now (rq_Deadline r) None)) (rpc_Decode known_challenge dec_challenge (rq_Body r)) m) as U.
    destruct (agent_Handler _ _ _ _ _ _ _ _ _) as [reply m1]. cbn in U. congruence.
Qed.

Lemma mapM_total {A B} (f : A -> option B) l : (forall x, In x l -> f x <> None) -> mapM f l <> None.
Proof.
  induction l as [|x l IH]; intros Hl; [done|]. cbn. destruct (f x) eqn:E; [|by destruct (Hl x (or_introl eq_refl))].
  cbn. destruct (mapM f l) eqn:E2; [done|]. by destruct (IH (fun y Hy => Hl y (or_intror Hy))).
Qed.

Lemma validated_identities cfg : Config_Validate cfg = Ok tt -> serve_identities cfg <> None.
Proof.
  unfold Config_Validate. intros E. do 3 (apply rbind_ok in E as ([] & _ & E)). apply rbind_ok in E as ([] & E & _). apply require_ok in E.
  rewrite forallb_forall in E. apply mapM_total. intros raw Hr. specialize (E raw Hr). by destruct (spiffe_id raw) as [[]|].
Qed.

(** An agent that starts is the agent it should be: the process never panics on its
    configuration, and when it listens, its file was valid, its identity is a host's under
    the configured trust domain, its state was recovered from its disk, and the readiness it
    published is of that state. *)
Theorem agent_starts_as_itself pid invocation file svid binds m res m' :
  agent_run pid invocation file svid binds m = (res, m') ->
  res <> Some Panics /\
  forall ids, res = Some (Serves ids) ->
    exists cfg own path m1, LoadConfig file = Ok cfg /\ svid = Some own /\ spiffe_id own = Some (ac_TrustDomain cfg, path) /\
      HasPrefix path "/subd/" = true /\ restart own pid invocation m = Ok m1 /\ serve_identities cfg = Some ids /\
      mc_view m' = status_of own pid invocation (mc_saved m1).
Proof.
  unfold agent_run. destruct (rbind (LoadConfig file) _) as [[[cfg own] m1]|e] eqn:E; [|intros [= <- <-]; split; [done|by intros ids]].
  apply rbind_ok in E as (cfg' & Ec & E). apply rbind_ok in E as (own' & Eo & E). apply of_option_ok in Eo.
  apply rbind_ok in E as ([] & Ev & E). apply rbind_ok in E as ([] & Ei & E). apply rbind_ok in E as (m2 & Er & [= -> -> ->]).
  unfold Serve. pose proof (validated_identities cfg Ev) as Hids. destruct (serve_identities cfg) as [ids0|] eqn:Eids; [|done].
  destruct binds; cbn [negb]; [|intros [= <- <-]; split; [done|by intros ids]].
  destruct (publish own pid invocation m1) as [[[]|] m3] eqn:P; intros [= <- <-]; split; try done. intros ids [= <-].
  unfold validateOwnID in Ei. apply require_ok in Ei. destruct (spiffe_id own) as [[td path]|] eqn:Es; [|done].
  bsplit. exists cfg, own, path, m1. subst td. split_and!; try done.
  unfold publish, act_bind, gets, modify, atomicJSON in P. cbn in P. destruct (fault_at _); simplify_eq; done.
Qed.
End AgentFacts.

(** ** Witness: one delivery over the wire *)
#[local] Existing Instance demo_names.
#[local] Existing Instance demo_k8s_names.
#[local] Existing Instance demo_prints.
#[local] Existing Instance demo_sum.
#[local] Existing Instance demo_urls.
#[local] Existing Instance demo_host.
#[local] Existing Instance no_faults.
#[local] Instance demo_delivered : GoJson :=
  {| json_parse := fun s =>
       if s == "expected"
       then Some (JObj [("revision", JNum 1); ("image_id", JStr "img"); ("track", JStr "stable"); ("version", JStr "1.2");
                        ("services", JObj [("kubelet.service", JBool true)]);
                        ("packages", JArr [JObj [("name", JStr "vim"); ("action", JStr "install")]])])
       else None |}.
Definition demo_delivery : Request := mkRequest "PUT" "/v1/expected-state" [] (mkHeaders "" "") None "expected".
Definition demo_served (cert : Certificate) (r : Request) : option AgentAnswer * Machine nat :=
  agent_serve demo_me 1 "i" demo_agent false 0 cert r (boot 0%nat).
Definition agent_code (a : option AgentAnswer) : option Z :=
  match a with Some (NText c _) => Some c | Some (NReply (RStatus c _)) => Some c | _ => None end.

(** The writer is served, by the path it names; nobody else is. *)
Example demo_agent_routing :
  map (fun x => agent_code (fst (demo_served (fst x) (snd x))))
    [(Identity demo_writer, demo_delivery); (Identity "spiffe://crane/other", demo_delivery); (NoCertificate, demo_delivery); (NoIdentity, demo_delivery);
     (Identity demo_writer, mkRequest "PUT" "/v1/state" [] (mkHeaders "" "") None ""); (Identity demo_writer, mkRequest "GET" "/v1/none" [] (mkHeaders "" "") None "")] =
    [Some 200; Some 403; Some 401; Some 401; Some 405; Some 404].
Proof. vm_compute. reflexivity. Qed.

Lemma agent_writes_by_writer_witness :
  snd (demo_served (Identity demo_writer) demo_delivery) <> boot 0%nat /\ rq_Method demo_delivery = "PUT" /\ snd (demo_served (Identity "spiffe://crane/other") demo_delivery) = boot 0%nat.
Proof.
  assert (snd (demo_served (Identity demo_writer) demo_delivery) <> boot 0%nat) as Hne
    by (intros E; apply (f_equal (fun m => length (mc_log m))) in E; vm_compute in E; discriminate E).
  split; [exact Hne|]. split.
  - destruct (demo_served (Identity demo_writer) demo_delivery) as [ans m'] eqn:E.
    destruct (proj1 (agent_writes_by_writer demo_me 1 "i" demo_agent false 0 _ _ _ ans m' E)) as [H|[_ H]]; [by destruct Hne|exact H].
  - destruct (demo_served (Identity "spiffe://crane/other") demo_delivery) as [ans m'] eqn:E.
    refine (proj1 (proj2 (agent_writes_by_writer demo_me 1 "i" demo_agent false 0 _ _ _ ans m' E) _)).
    intros id [= <-] [H|[]]. discriminate H.
Defined.
