(* ===== verification/Topology.v ===== *)
(** * Placement: internal/provider/registry/topology.go and awscompute/topology.go

    The validator that crane-api installs in the platform API: a zone is accepted only when
    the provider confirms that the account, region and availability zone exist as named. *)
From Stdlib Require Import Ascii String.
From S2P Require Import Prelude GoStrings Sql Api Decode Schema Admission Invariant Fixture Lease Handoff Removal Scheduling Catalog CatalogFacts Bootstrap Http HttpFacts Regex LocalHost Deployment Router ApiServer.

Local Open Scope string_scope.
Local Open Scope list_scope.
Local Open Scope Z_scope.
Local Open Scope crane_scope.

(** The SDK: whether a configuration for the region loads, the caller's account there, and
    the availability zones of that name, each with region, name and ID. *)
Class AwsPlacement : Type := {
  sdk_config : string -> bool;
  caller_account : string -> option string;
  availability_zones : string -> string -> option (list (string * string * string)) }.

Definition topology_failed : error := ErrMsg "provider topology validation failed".

Definition aws_ValidateTopology `{AwsPlacement} (z : ZoneInput) : result unit :=
  guard negb (((zi_KubernetesRegion z != "") && (zi_KubernetesRegion z != zi_Region z)) ||
              ((zi_KubernetesZone z != "") && (zi_KubernetesZone z != zi_ProviderZoneID z))) else topology_failed in
  guard sdk_config (zi_Region z) else topology_failed in
  guard caller_account (zi_Region z) == Some (zi_AccountID z) else topology_failed in
  require match availability_zones (zi_Region z) (zi_ProviderZoneID z) with
          | Some [(region, name, id)] => negb ((region != zi_Region z) || (name != zi_ProviderZoneID z) || (id == ""))
          | _ => false
          end topology_failed.

Definition registry_ValidateTopology `{AwsPlacement} (z : ZoneInput) : result unit :=
  if zi_Provider z == "aws" then aws_ValidateTopology z else Err (ErrMsg "unsupported topology provider").

(** What the provider confirmed. *)
Definition confirmed `{AwsPlacement} (z : ZoneInput) : Prop :=
  zi_Provider z = "aws" /\ caller_account (zi_Region z) = Some (zi_AccountID z) /\
  (exists id, id <> "" /\ availability_zones (zi_Region z) (zi_ProviderZoneID z) = Some [(zi_Region z, zi_ProviderZoneID z, id)]) /\
  (zi_KubernetesRegion z = "" \/ zi_KubernetesRegion z = zi_Region z) /\ (zi_KubernetesZone z = "" \/ zi_KubernetesZone z = zi_ProviderZoneID z).

Lemma registry_confirms `{AwsPlacement} z : registry_ValidateTopology z = Ok tt -> confirmed z.
Proof.
  unfold registry_ValidateTopology, confirmed. case_bool_decide as Ep; [|done]. unfold aws_ValidateTopology. intros E.
  apply rbind_ok in E as ([] & E1 & E). apply require_ok in E1. apply rbind_ok in E as ([] & _ & E). apply rbind_ok in E as ([] & E2 & E).
  apply require_ok in E2. apply require_ok in E. destruct (availability_zones _ _) as [[|[[region name] id] [|? ?]]|] eqn:Ez; try done.
  apply negb_true_iff in E, E1. apply orb_false_iff in E as [E E5]. apply orb_false_iff in E as [E3 E4]. apply orb_false_iff in E1 as [E1 E6].
  bsplit. subst. split_and!; try done; [by exists id|..].
  - apply andb_false_iff in E1 as [E1|E1]; bsplit; auto.
  - apply andb_false_iff in E6 as [E6|E6]; bsplit; auto.
Qed.

(** The zone that a call brings into the catalog. *)
Definition zone_of_call (c : AdminCall) : option ZoneInput :=
  match c with
  | PostZone (Some z) => Some z
  | PostFirstZone (Some i) => Some (fz_Zone i)
  | PostBootstrap (Some r) => bootstrap_zone r
  | _ => None
  end.

(** No zone enters unconfirmed.  Over the API that crane-api builds, a request that carries a
    zone (a zone, a first zone, or the bootstrap of a cluster) and changes the catalog
    carries one that the provider confirmed, in the account and with the labels it names. *)
Theorem zones_confirmed `{AwsPlacement} {k8s : K8s} token principals e order h c z d :
  let a := mkAPI (Some (fun z => is_ok (registry_ValidateTopology z))) token principals in
  zone_of_call c = Some z -> snd (Handler a e order h (Admin c) d) <> d -> confirmed z.
Proof.
  intros a Hz Hd. cbn [Handler] in Hd. destruct (admin a h); [|done].
  assert (is_ok (registry_ValidateTopology z) = true -> confirmed z) as Hc.
  { intros Hok. apply registry_confirms. by destruct (registry_ValidateTopology z) as [[]|]. }
  apply Hc. destruct (is_ok (registry_ValidateTopology z)) eqn:E; [done|]. exfalso. apply Hd. clear Hd Hc.
  destruct c as [ | [b|] | | | | | | | [b|] | [b|] | ]; try done; cbn [zone_of_call] in Hz; simplify_eq; cbn [serve_admin].
  - unfold http_createZone, decoded, topology_valid. cbn [Http.ValidateTopology a]. by rewrite E.
  - unfold http_seedFirstZone, decoded, topology_valid. cbn [Http.ValidateTopology a]. by rewrite E.
  - unfold http_createBootstrap, decoded. case_match; [done|]. cbn [Http.ValidateTopology a]. by rewrite Hz, E.
Qed.

(** A confirmed zone passes, one of another account does not. *)
Example demo_topology :
  let placement := {| sdk_config := fun _ => true; caller_account := fun _ => Some "acct";
                      availability_zones := fun r n => Some [(r, n, "usw2-az1")] |} in
  @registry_ValidateTopology placement (mkZoneInput "z1" "aws" "acct" "us-west-2" "us-west-2a" "" "us-west-2a") = Ok tt /\
  is_ok (@registry_ValidateTopology placement (mkZoneInput "z1" "aws" "other" "us-west-2" "us-west-2a" "" "")) = false.
Proof. vm_compute. split; reflexivity. Qed.
