(* ===== verification/Telemetry.v ===== *)
(** * Telemetry: internal/telemetry

    [New] starts the exporters that the environment asks for, or leaves no-op providers and
    nothing running; [HTTPHandler] observes every request of a server.  The OpenTelemetry
    SDK is represented by which providers were started and which were told to shut down;
    whether an exporter can be built is a parameter. *)
From Stdlib Require Import Ascii String.
From S2P Require Import Prelude GoStrings Sql Api Decode Schema Bootstrap Http HostOps Regex Redact Logging Router ApiServer.

Local Open Scope string_scope.
Local Open Scope list_scope.
Local Open Scope Z_scope.
Local Open Scope crane_scope.

(** ** Signals *)
Inductive signal : Type := TRACES | METRICS | LOGS.

#[global] Instance signal_eq_dec : EqDecision signal.
Proof. solve_decision. Defined.

Definition signal_name (s : signal) : string := match s with TRACES => "TRACES" | METRICS => "METRICS" | LOGS => "LOGS" end.
Definition otlp (s : signal) (suffix : string) : string :=
  String.append "OTEL_EXPORTER_OTLP_" (String.append (signal_name s) (String.append "_" suffix)).

Inductive backend : Type := Noop | Sdk.

#[global] Instance backend_eq_dec : EqDecision backend.
Proof. solve_decision. Defined.

(** A provider with the shutdown functions it joins. *)
Record Provider : Type := mkProvider { pv_Tracer : backend; pv_Meter : backend; pv_Logger : backend; pv_shutdowns : list signal }.

Record TelemetryConfig : Type := mkTelemetryConfig { cfg_EnableLogs : bool; cfg_ErrorHandler : bool }.

(** The process-wide state, and the SDK providers started and told to shut down so far. *)
Record Otel : Type := mkOtel {
  ot_propagator : bool; ot_error_handler : bool; ot_tracer : backend; ot_meter : backend; ot_started : list signal; ot_stopped : list signal }.

Definition pick (s : signal) (p : Provider) : backend := match s with TRACES => pv_Tracer p | METRICS => pv_Meter p | LOGS => pv_Logger p end.

Definition set_globals (t m : backend) (o : Otel) : Otel := mkOtel (ot_propagator o) (ot_error_handler o) t m (ot_started o) (ot_stopped o).
Definition note_started (s : signal) (o : Otel) : Otel :=
  mkOtel (ot_propagator o) (ot_error_handler o) (ot_tracer o) (ot_meter o) (ot_started o ++ [s]) (ot_stopped o).
Definition note_stopped (l : list signal) (o : Otel) : Otel :=
  mkOtel (ot_propagator o) (ot_error_handler o) (ot_tracer o) (ot_meter o) (ot_started o) (ot_stopped o ++ l).

Section Start.
Context {gourl : GoURL} (getenv : string -> string).
(** Whether the resource, and the exporter of a signal, can be built. *)
Context (resource_ok : bool) (exporter_ok : signal -> bool).

Definition EnvOTLPEndpoint : string := "OTEL_EXPORTER_OTLP_ENDPOINT".

Definition signalEnabled (s : signal) : bool :=
  (TrimSpace (getenv (otlp s "ENDPOINT")) != "") || (TrimSpace (getenv EnvOTLPEndpoint) != "").

Definition first_set (a b : string) : string := if TrimSpace (getenv a) == "" then TrimSpace (getenv b) else TrimSpace (getenv a).

Definition endpoint_url (u : URL) : bool :=
  negb ((u_Host u == "") || ((u_Scheme u != "http") && (u_Scheme u != "https")) || u_User u || (u_RawQuery u != "") ||
        (u_Fragment u != "") || ((u_Path u != "") && (u_Path u != "/"))).

Definition validateSignal (s : signal) : result unit :=
  let protocol := first_set (otlp s "PROTOCOL") "OTEL_EXPORTER_OTLP_PROTOCOL" in
  if (protocol != "") && (protocol != "grpc")
  then Err (ErrMsg (String.append "unsupported OTLP " (String.append (ToLower (signal_name s)) " protocol; use grpc")))
  else
    let endpoint := first_set (otlp s "ENDPOINT") EnvOTLPEndpoint in
    if Contains endpoint "://" && negb (match url_parse endpoint with Some u => endpoint_url u | None => false end)
    then Err (ErrMsg (String.append "invalid OTLP " (String.append (ToLower (signal_name s)) " endpoint URL")))
    else Ok tt.

Definition newNoopProvider (o : Otel) : Provider * Otel := (mkProvider Noop Noop Noop [], set_globals Noop Noop o).

Definition install (s : signal) (p : Provider) : Provider :=
  let l := pv_shutdowns p ++ [s] in
  match s with
  | TRACES => mkProvider Sdk (pv_Meter p) (pv_Logger p) l
  | METRICS => mkProvider (pv_Tracer p) Sdk (pv_Logger p) l
  | LOGS => mkProvider (pv_Tracer p) (pv_Meter p) Sdk l
  end.

(** The three blocks of [newOTLPProvider]; [false] when an exporter cannot be built. *)
Fixpoint start_signals (l : list signal) (p : Provider) (o : Otel) : bool * Provider * Otel :=
  match l with
  | [] => (true, p, o)
  | s :: l =>
      if signalEnabled s then
        if exporter_ok s then start_signals l (install s p) (note_started s o) else (false, p, o)
      else start_signals l p o
  end.

Definition signals (cfg : TelemetryConfig) : list signal := [TRACES; METRICS] ++ if cfg_EnableLogs cfg then [LOGS] else [].

Definition newOTLPProvider (cfg : TelemetryConfig) (o : Otel) : option Provider * Otel :=
  if negb resource_ok then (None, o)
  else
    let '(p, o) := newNoopProvider o in
    let '((ok, p), o) := start_signals (signals cfg) p o in
    if ok then (Some p, set_globals (pv_Tracer p) (pv_Meter p) o)
    else (None, note_stopped (pv_shutdowns p) o).

(** The loop over the signals: the first error, or whether one is enabled. *)
Fixpoint check_signals (l : list signal) (enabled : bool) : result bool :=
  match l with
  | [] => Ok enabled
  | s :: l => let* _ := validateSignal s in check_signals l (enabled || signalEnabled s)
  end.

Definition otlp_failed : error := ErrMsg "OTLP initialization failed; check endpoint, TLS and exporter configuration".

(** [New]: the provider, the error, and the state of the process. *)
Definition New (cfg : TelemetryConfig) (o : Otel) : Provider * option error * Otel :=
  let o := mkOtel true (ot_error_handler o || cfg_ErrorHandler cfg) (ot_tracer o) (ot_meter o) (ot_started o) (ot_stopped o) in
  match check_signals (signals cfg) false with
  | Err e => let '(p, o) := newNoopProvider o in (p, Some e, o)
  | Ok false => let '(p, o) := newNoopProvider o in (p, None, o)
  | Ok true =>
      match newOTLPProvider cfg o with
      | (Some p, o) => (p, None, o)
      | (None, o) => let '(p, o) := newNoopProvider o in (p, Some otlp_failed, o)
      end
  end.

(** [Provider.Shutdown]: every signal is told, whatever the others answer. *)
Definition Shutdown (p : Provider) (o : Otel) : Otel := note_stopped (pv_shutdowns p) o.

(** ** What [New] leaves *)
Lemma start_signals_spec l : forall p o,
  let '((ok, p'), o') := start_signals l p o in
  exists m, pv_shutdowns p' = pv_shutdowns p ++ m /\ o' = mkOtel (ot_propagator o) (ot_error_handler o) (ot_tracer o) (ot_meter o) (ot_started o ++ m) (ot_stopped o) /\
    (forall s, In s m -> signalEnabled s = true /\ In s l) /\
    (ok = true -> forall s, pick s p' = Sdk <-> pick s p = Sdk \/ (In s l /\ signalEnabled s = true)).
Proof.
  induction l as [|s l IH]; intros p o; cbn [start_signals].
  { exists []. rewrite !app_nil_r. destruct o. split_and!; [done|done|done|]. intros _ s. cbn. tauto. }
  destruct (signalEnabled s) eqn:Es; [destruct (exporter_ok s)|].
  - specialize (IH (install s p) (note_started s o)). destruct (start_signals l (install s p) (note_started s o)) as [[ok p'] o'].
    destruct IH as (m & Ep & -> & Hm & Hs). exists (s :: m). split_and!.
    + rewrite Ep. by destruct s; cbn; rewrite <- app_assoc.
    + cbn. by rewrite <- app_assoc.
    + intros s' [<-|Hin]; [split; [done|by left]|]. destruct (Hm s' Hin). split; [done|by right].
    + intros Hok s'. rewrite (Hs Hok s'). cbn [In]. destruct s, s', p; cbn; intuition congruence.
  - exists []. rewrite !app_nil_r. destruct o. by split_and!.
  - specialize (IH p o). destruct (start_signals l p o) as [[ok p'] o']. destruct IH as (m & Ep & Eo & Hm & Hs). exists m. split_and!; [done|done| |].
    + intros s' Hin. destruct (Hm s' Hin). split; [done|by right].
    + intros Hok s'. rewrite (Hs Hok s'). cbn [In]. intuition congruence.
Qed.

Lemma check_signals_disabled l b : check_signals l b = Ok false -> b = false /\ forall s, In s l -> signalEnabled s = false.
Proof.
  revert b. induction l as [|s l IH]; intros b; cbn [check_signals]; [intros [= ->]; by split|].
  intros E. apply rbind_ok in E as ([] & _ & E). destruct (IH _ E) as [Eb H]. apply orb_false_iff in Eb as [-> Es].
  split; [done|]. by intros s' [<-|Hin]; [|apply H].
Qed.

(** The texts of the errors: they name a signal, never a value of the environment. *)
Definition telemetry_errors : list error :=
  otlp_failed :: List.concat (map (fun s => [ErrMsg (String.append "unsupported OTLP " (String.append (ToLower (signal_name s)) " protocol; use grpc"));
                                             ErrMsg (String.append "invalid OTLP " (String.append (ToLower (signal_name s)) " endpoint URL"))])
                                  [TRACES; METRICS; LOGS]).

Lemma validateSignal_err s e : validateSignal s = Err e -> In e telemetry_errors.
Proof.
  unfold validateSignal. case_match; [intros [= <-]|case_match; [intros [= <-]|done]]; destruct s; cbn; tauto.
Qed.

Lemma check_signals_err l b e : check_signals l b = Err e -> In e telemetry_errors.
Proof.
  revert b. induction l as [|s l IH]; intros b; cbn [check_signals]; [done|].
  destruct (validateSignal s) as [[]|e'] eqn:E; cbn [rbind]; [apply IH|]. intros [= <-]. by eapply validateSignal_err.
Qed.

(** C40. Telemetry starts whole or not at all.  After an error every provider is a no-op, the
    process-wide ones included, each exporter that was started has been told to shut
    down, and the error is one of seven texts that quote nothing of the configuration.
    Without an error exactly the enabled signals export (logs only where the service asked
    for them), what was started is what [Shutdown] will stop, and the process-wide providers
    are those returned. *)
Theorem telemetry_whole_or_noop cfg o p err o' :
  New cfg o = (p, err, o') ->
  ot_propagator o' = true /\ ot_tracer o' = pv_Tracer p /\ ot_meter o' = pv_Meter p /\
  exists m, ot_started o' = ot_started o ++ m /\ (forall s, In s m -> signalEnabled s = true /\ In s (signals cfg)) /\
    match err with
    | Some e => In e telemetry_errors /\ p = mkProvider Noop Noop Noop [] /\ ot_stopped o' = ot_stopped o ++ m
    | None => (forall s, pick s p = Sdk <-> In s (signals cfg) /\ signalEnabled s = true) /\ pv_shutdowns p = m /\ ot_stopped o' = ot_stopped o /\
              ot_stopped (Shutdown p o') = ot_stopped o ++ m
    end.
Proof.
  unfold New. set (o1 := mkOtel true _ _ _ _ _). destruct (check_signals (signals cfg) false) as [[]|e] eqn:Ec.
  - unfold newOTLPProvider. destruct resource_ok; cbn [negb].
    2: { intros [= <- <- <-]. do 3 (split; [done|]). exists []. rewrite app_nil_r. split; [done|]. split; [done|].
         split; [by left|]. split; [done|]. cbn. by rewrite app_nil_r. }
    cbn [newNoopProvider]. pose proof (start_signals_spec (signals cfg) (mkProvider Noop Noop Noop []) (set_globals Noop Noop o1)) as S.
    destruct (start_signals _ _ _) as [[ok p1] o2]. destruct S as (m & Ep & -> & Hm & Hs). destruct ok; intros [= <- <- <-]; cbn [set_globals ot_propagator ot_tracer ot_meter ot_started ot_stopped note_stopped o1].
    + do 3 (split; [done|]). exists m. do 2 (split; [done|]). split; [|split; [done|split; [done|by cbn; rewrite Ep]]].
      intros s. rewrite (Hs eq_refl s). destruct s; cbn [pick pv_Tracer pv_Meter pv_Logger]; naive_solver.
    + do 3 (split; [done|]). exists m. do 2 (split; [done|]). split; [by left|]. split; [done|]. by rewrite Ep.
  - apply check_signals_disabled in Ec as [_ Hd]. intros [= <- <- <-]. do 3 (split; [done|]). exists []. rewrite app_nil_r. do 2 (split; [done|]).
    split; [|split; [done|split; [done|by cbn; rewrite app_nil_r]]]. intros s. split; [by destruct s|]. intros [Hin Hs].
    by rewrite (Hd s Hin) in Hs.
  - intros [= <- <- <-]. do 3 (split; [done|]). exists []. rewrite !app_nil_r. do 2 (split; [done|]). split; [by eapply check_signals_err|].
    done.
Qed.
End Start.

(** ** Witness: a metrics exporter that cannot be built *)
#[local] Instance demo_collector : GoURL :=
  {| url_parse := fun s => if s == "https://otel:4317" then Some (mkURL "https" false "otel:4317" "otel" "4317" "" "" "") else None;
     is_ip := fun _ => false |}.
Definition demo_getenv (k : string) : string := if k == EnvOTLPEndpoint then "https://otel:4317" else "".
Definition demo_otel : Otel := mkOtel false false Noop Noop [] [].
Definition demo_new (metrics : bool) : Provider * option error * Otel :=
  New demo_getenv true (fun s => match s with METRICS => metrics | _ => true end) (mkTelemetryConfig true true) demo_otel.

Example demo_started : fst (demo_new true) = (mkProvider Sdk Sdk Sdk [TRACES; METRICS; LOGS], None).
Proof. vm_compute. reflexivity. Qed.

Lemma telemetry_whole_or_noop_witness :
  ot_started (snd (demo_new false)) = [TRACES] /\ ot_stopped (snd (demo_new false)) = [TRACES] /\ fst (demo_new false) = (mkProvider Noop Noop Noop [], Some otlp_failed).
Proof.
  pose proof (telemetry_whole_or_noop demo_getenv true (fun s => match s with METRICS => false | _ => true end) (mkTelemetryConfig true true) demo_otel
    (fst (fst (demo_new false))) (snd (fst (demo_new false))) (snd (demo_new false)) eq_refl) as (_ & _ & _ & m & Hs & _ & Hm).
  change (snd (fst (demo_new false))) with (Some otlp_failed) in Hm. destruct Hm as (_ & Hp & Ht). cbn [demo_otel ot_started ot_stopped app] in Hs, Ht.
  rewrite Ht, <- Hs. split; [reflexivity|]. split; [reflexivity|]. reflexivity.
Defined.

(** ** http.go *)
Definition known_methods : list string := ["GET"; "HEAD"; "POST"; "PUT"; "DELETE"; "CONNECT"; "OPTIONS"; "TRACE"; "PATCH"].
Definition requestMethod (method : string) : string := if one_of method known_methods then method else "_OTHER".

(** What the wrapped handler did: the pattern that the mux left in the request, the status
    code that was captured (200 when none was written), and the value it panicked with. *)
Record ServedRequest : Type := mkServed { sv_pattern : string; sv_code : Z; sv_panic : option string }.

(** The label of a pattern: without its method. *)
Definition route_label (pattern : string) : string :=
  let '(_, path, found) := Cut pattern " " in
  let route := if found then path else pattern in
  if route == "" then "unmatched" else route.

Record Labels : Type := mkLabels { lb_method : string; lb_route : string; lb_status : Z }.

(** What is recorded of a request: the span with its attributes and error status, the labels
    of the two instruments, the log record; then the panic is raised again. *)
Record Observed : Type := mkObserved {
  ob_span : string; ob_labels : Labels; ob_request_id : string; ob_error : bool;
  ob_level : Z; ob_message : string; ob_attrs : list (string * Value); ob_panic : option string }.

Definition served_status (s : ServedRequest) : Z := match sv_panic s with Some _ => 500 | None => sv_code s end.

Definition HTTPHandler (method id : string) (duration : Z) (s : ServedRequest) : Observed :=
  let m := requestMethod method in
  let route := route_label (sv_pattern s) in
  let status := served_status s in
  let panicked := match sv_panic s with Some _ => true | None => false end in
  mkObserved (String.append m (String.append " " route)) (mkLabels m route status) id (500 <=? status)
    (if 500 <=? status then LevelError else if 400 <=? status then LevelWarn else LevelInfo) "HTTP request completed"
    [("method", KString m); ("route", KString route); ("status", KScalar (SInt64 status)); ("duration_ms", KScalar (SFloat64 duration));
     ("panicked", KScalar (SBool panicked))]
    (sv_panic s).

(** ** The patterns of crane-api *)
Definition segment_text (s : segment) : string :=
  match s with Lit t => t | Var n => String.append "{" (String.append n "}") end.

Definition pattern_path (p : Pattern) : string :=
  String.append (fold_right (fun s acc => String.append "/" (String.append (segment_text s) acc)) "" (pt_segments p)) (if pt_rest p then "/" else "").

(** [pattern.String]. *)
Definition pattern_text (p : Pattern) : string :=
  if pt_method p == "" then pattern_path p else String.append (pt_method p) (String.append " " (pattern_path p)).

(** [r.Pattern] after a mux; [target] is the path of a redirection to a final slash. *)
Definition reported {H} (routes : list (Pattern * H)) (target method escaped : string) : string :=
  let path := if method == "CONNECT" then escaped else cleanPath escaped in
  if slash_redirect routes method path then target
  else match find_route routes method path with Some ((p, _), _) => pattern_text p | None => "" end.

(** The inner mux of the platform API sets the pattern again. *)
Definition server_pattern `{GoJson} (target method escaped : string) : string :=
  match findHandler server_routes method escaped with
  | Found ECapacity _ => reported capacity_routes target method escaped
  | _ => reported server_routes target method escaped
  end.

Definition answer_status (x : Answer) : Z :=
  match x with AApi r => Http.rs_status r | ASecret (SText c _) | ASecret (SResult c _) | AText c _ => c end.

(** The server as it listens: the mux inside [HTTPHandler]. *)
Definition observed_serve `{Scheduling.K8s} `{Subd.K8sNames} `{GoJson} {W} (a : API) (e : Env)
    (dominator : string -> string -> Delivery -> W -> HostRpc.Outcome SecretResult * W) (order : list (string * string)) (ping expired : bool)
    (id target : string) (duration : Z) (r : Request) (s : DB * W) : (Answer * Observed) * (DB * W) :=
  let '(ans, s') := serve a e dominator order ping expired r s in
  ((ans, HTTPHandler (rq_Method r) id duration (mkServed (server_pattern target (rq_Method r) (rq_Path r)) (answer_status ans) None)), s').

(** Every label the server can record for a route, but that of a redirection. *)
Definition route_labels : list string :=
  "unmatched" :: map (fun r => pattern_path (fst r)) server_routes ++
  map pattern_path
    [on "GET" [Lit "hosts"]; on "POST" [Lit "zones"]; on "POST" [Lit "clusters"]; on "POST" [Lit "cluster-zones"];
     on "PATCH" [Lit "cluster-zones"; Var "cluster_id"; Var "zone_id"]; on "POST" [Lit "node-pools"]; on "POST" [Lit "node-groups"];
     on "PATCH" [Lit "node-groups"; Var "id"; Lit "template"]; on "POST" [Lit "first-zone"]; on "POST" [Lit "bootstrap"];
     on "GET" [Lit "bootstrap"; Var "id"]; on "POST" [Lit "capacity"]; on "GET" [Lit "node-groups"; Var "id"; Lit "target"];
     on "GET" [Lit "autoscaler"; Lit "discovery"]; on "POST" [Lit "node-removals"]].

Lemma requestMethod_known m : In (requestMethod m) ("_OTHER" :: known_methods).
Proof.
  unfold requestMethod. destruct (one_of m known_methods) eqn:E; [|by left]. right. by apply one_of_spec.
Qed.

Lemma reported_label {H} (routes : list (Pattern * H)) target method escaped labels :
  (forall r, In r routes -> In (route_label (pattern_text (fst r))) labels) -> In "unmatched" labels ->
  findHandler routes method escaped <> Moved -> In (route_label (reported routes target method escaped)) labels.
Proof.
  intros Hr Hu Hm. unfold reported. unfold findHandler in Hm. set (path := if method == "CONNECT" then escaped else cleanPath escaped) in *.
  destruct (slash_redirect routes method path); [done|].
  destruct (find_route routes method path) as [[[p h] vs]|] eqn:E; [|by replace (route_label "") with "unmatched"].
  apply find_route_sound in E as [Hin _]. exact (Hr _ Hin).
Qed.

Definition in_list (x : string) (l : list string) : bool := existsb (fun y => x == y) l.
Lemma in_list_In x l : in_list x l = true -> In x l.
Proof. unfold in_list. rewrite existsb_exists. intros (y & Hy & E). bsplit. by subst. Qed.

Lemma server_labels r : In r server_routes -> In (route_label (pattern_text (fst r))) route_labels.
Proof. intros Hr. cbn [server_routes In] in Hr. apply in_list_In. destruct_or? Hr; subst; vm_compute; reflexivity. Qed.

Lemma capacity_labels `{GoJson} r : In r capacity_routes -> In (route_label (pattern_text (fst r))) route_labels.
Proof. intros Hr. cbn [capacity_routes In] in Hr. apply in_list_In. destruct_or? Hr; subst; vm_compute; reflexivity. Qed.

(** What is recorded of a request has bounded cardinality and none of its contents: unless a
    mux redirects it, the method label is one of ten and the route label one of twenty,
    whatever was sent; the span's name, the labels of the metrics and the log record are
    functions of these, the status, the generated request ID, and the duration. *)
Theorem observations_bounded `{Scheduling.K8s} `{Subd.K8sNames} `{GoJson} {W} a e
    (dominator : string -> string -> Delivery -> W -> HostRpc.Outcome SecretResult * W) order ping expired id target duration r s ans obs s' :
  findHandler server_routes (rq_Method r) (rq_Path r) <> Moved -> findHandler capacity_routes (rq_Method r) (rq_Path r) <> Moved ->
  observed_serve a e dominator order ping expired id target duration r s = ((ans, obs), s') ->
  exists method route, In method ("_OTHER" :: known_methods) /\ In route route_labels /\ length route_labels = 20%nat /\
    obs = HTTPHandler method id duration (mkServed route (answer_status ans) None).
Proof.
  intros Hs Hc. unfold observed_serve. destruct (serve a e dominator order ping expired r s) as [ans' s1]. intros [= <- <- <-].
  set (pattern := server_pattern target (rq_Method r) (rq_Path r)).
  assert (In (route_label pattern) route_labels) as Hl.
  { unfold pattern, server_pattern. destruct (findHandler server_routes (rq_Method r) (rq_Path r)) as [[] vs| | |] eqn:F;
      try (apply reported_label; [exact server_labels|by left|congruence]).
    apply reported_label; [exact capacity_labels|by left|done]. }
  exists (requestMethod (rq_Method r)), (route_label pattern). split; [apply requestMethod_known|]. split; [done|]. split; [done|].
  assert (forall l, In l route_labels -> route_label l = l) as Hi.
  { intros l Hin. cut (forallb (fun l => route_label l == l) route_labels = true);
      [intros Hf; rewrite forallb_forall in Hf; specialize (Hf l Hin); by bsplit|]. vm_compute. reflexivity. }
  assert (requestMethod (requestMethod (rq_Method r)) = requestMethod (rq_Method r)) as Hm.
  { unfold requestMethod. destruct (one_of (rq_Method r) known_methods) eqn:E; [by rewrite E|done]. }
  unfold HTTPHandler, served_status. cbn [sv_pattern sv_panic sv_code]. by rewrite (Hi _ Hl), Hm.
Qed.

(** A panic of a handler is answered as it came, after the request was recorded as a server
    error; nothing that is recorded depends on the value of the panic. *)
Lemma panic_recorded_then_raised method id duration pattern c1 c2 v1 v2 :
  let o1 := HTTPHandler method id duration (mkServed pattern c1 (Some v1)) in
  let o2 := HTTPHandler method id duration (mkServed pattern c2 (Some v2)) in
  ob_panic o1 = Some v1 /\ lb_status (ob_labels o1) = 500 /\ ob_error o1 = true /\ ob_level o1 = LevelError /\
  (ob_span o1, ob_labels o1, ob_message o1, ob_attrs o1) = (ob_span o2, ob_labels o2, ob_message o2, ob_attrs o2).
Proof. done. Qed.
