(* ===== verification/Runner.v ===== *)
(** * The bootstrap runner: internal/bootstrap/runner.go, state.go, progress.go, provider.go
      and operation.go

    [Run] takes a deployment through the provider's session: local state is read and
    checked, the resolved configuration is pinned, then the session is called phase by
    phase and the result is written.  The session is any implementation of its interface
    over a world [W].  Files are written by rename, so a write happened or not; whatever
    fails or dies is an input: at its [n]-th interaction with its surroundings the process
    works, gets an error or dies ([fate]).  [run_trace] records what the outside can see,
    in order. *)
From S2P Require Import Prelude GoStrings Sql Api Schema Scheduling Catalog Decode Bootstrap Regex Redact Deployment.
From Stdlib Require Import Ascii String.

Local Open Scope string_scope.
Local Open Scope list_scope.
Local Open Scope Z_scope.
Local Open Scope crane_scope.

(** ** The interface of a provider *)
Inductive HostPhase : Type := InstallIdentity | RegisterWorkloads | InstallPlatform | ValidateHandoff.

Record Result : Type := mkResult {
  rt_Name : string; rt_Provider : string; rt_IdentityEndpoint : string; rt_APIServerEndpoint : string; rt_ControlPlaneEndpoint : string;
  rt_TargetHostID : string; rt_ObservabilityStatus : string; rt_ConnectionInstructions : string; rt_ProviderOutput : RawMessage }.
Definition zero_result : Result := mkResult "" "" "" "" "" "" "" "" None.
Definition with_deployment (c : Config) (r : Result) : Result :=
  mkResult (cf_Name c) (cf_Provider c) (rt_IdentityEndpoint r) (rt_APIServerEndpoint r) (rt_ControlPlaneEndpoint r) (rt_TargetHostID r)
    (rt_ObservabilityStatus r) (rt_ConnectionInstructions r) (rt_ProviderOutput r).

Inductive session_call : Type := PrepareEndpoint | EnsureCredentials | EnsureInfrastructure | EnsureHosts | RunHostPhase (p : HostPhase).

(** A factory and the sessions it opens; [session_do] is one method that provisions. *)
Class Sessions (W : Type) : Type := {
  session_open : Config -> W -> result W;
  session_Resolve : RawMessage -> bool -> W -> result RawMessage * W;
  session_do : session_call -> W -> result unit * W;
  session_Result : W -> Result }.

Inductive fate : Type := Works | Fails | Dies.
(** [json_same] compares JSON values as [sameJSON] does, after decoding. *)
Class Texts : Type := { error_text : error -> string; json_same : Json -> Json -> bool }.

(** ** Phases and reports *)
Definition Phases (prepare : bool) : list string :=
  if prepare then ["resolve deployment identity and placement"; "persist deployment configuration locally"; "prepare private identity endpoint";
                   "persist bootstrap result locally"]
  else ["resolve deployment identity and placement"; "persist deployment configuration locally"; "ensure runtime credentials";
        "ensure network, database and runtime permissions"; "ensure protected identity and platform hosts"; "initialize databases and identity server";
        "register platform workload identities"; "initialize cluster, network and platform services";
        "validate identity, cluster and service handoff"; "persist bootstrap result locally"].

Inductive status : Type := Running | Done | Failed.
Record Phase : Type := mkPhase { ph_Number : nat; ph_Total : nat; ph_Name : string; ph_Status : status; ph_Detail : string }.

(** ** The state directory *)
Record Dir : Type := mkDir { dir_config : file Config; dir_endpoint : file Result; dir_result : file Result }.
Definition put_config (v : Config) (d : Dir) : Dir := mkDir (Stored v) (dir_endpoint d) (dir_result d).
Definition put_endpoint (v : Result) (d : Dir) : Dir := mkDir (dir_config d) (Stored v) (dir_result d).
Definition put_result (v : Result) (d : Dir) : Dir := mkDir (dir_config d) (dir_endpoint d) (Stored v).

Definition readState {A} (f : file A) : result (option A) :=
  match f with
  | Missing => Ok None
  | Unreadable => Err (ErrMsg "read")
  | Garbage => Err (ErrMsg "invalid local deployment state")
  | Stored a => Ok (Some a)
  end.

Definition mergeImage (candidate stored : string) : string * string :=
  let candidate := if candidate == "" then stored else candidate in
  (candidate, if stored == "" then candidate else stored).

Inductive observed : Type :=
| Reported (p : Phase) | Resolved (ok : bool) | Called (c : session_call) (ok : bool)
| PinnedConfig (c : Config) | PinnedEndpoint (r : Result) | PinnedResult (r : Result).

Section Run.
Context {W : Type} {sessions : Sessions W} {texts : Texts} (fate_at : nat -> fate).

(** [rn_result] is the variable [result] of [Run], [rn_next] the counter of the reporter. *)
Record Running_ : Type := mkRunning {
  rn_dir : Dir; rn_world : W; rn_result : Result; rn_next : nat; rn_tick : nat; run_trace : list observed }.
Definition set_rn_dir (v : Dir) (s : Running_) : Running_ := mkRunning v (rn_world s) (rn_result s) (rn_next s) (rn_tick s) (run_trace s).
Definition set_rn_world (v : W) (s : Running_) : Running_ := mkRunning (rn_dir s) v (rn_result s) (rn_next s) (rn_tick s) (run_trace s).
Definition set_rn_result (v : Result) (s : Running_) : Running_ := mkRunning (rn_dir s) (rn_world s) v (rn_next s) (rn_tick s) (run_trace s).
Definition see (o : observed) (s : Running_) : Running_ :=
  mkRunning (rn_dir s) (rn_world s) (rn_result s) (rn_next s) (rn_tick s) (run_trace s ++ [o]).
Definition next_tick (s : Running_) : Running_ := mkRunning (rn_dir s) (rn_world s) (rn_result s) (rn_next s) (S (rn_tick s)) (run_trace s).
Definition next_phase (s : Running_) : Running_ := mkRunning (rn_dir s) (rn_world s) (rn_result s) (S (rn_next s)) (rn_tick s) (run_trace s).

(** [None]: the process died. *)
Definition Job (A : Type) : Type := Running_ -> option (result A) * Running_.
Definition job_ret {A} (r : result A) : Job A := fun s => (Some r, s).
Definition job_bind {A B} (m : Job A) (k : A -> Job B) : Job B := fun s =>
  match m s with
  | (Some (Ok a), s') => k a s'
  | (Some (Err e), s') => (Some (Err e), s')
  | (None, s') => (None, s')
  end.
Definition job_get {A} (f : Running_ -> A) : Job A := fun s => (Some (Ok (f s)), s).
Definition job_set (f : Running_ -> Running_) : Job unit := fun s => (Some (Ok tt), f s).

Notation "'job!' x := m 'in' k" := (job_bind m (fun x => k)) (at level 10, x pattern, m at level 100, k at level 200).
Notation "'demand' b 'else' msg 'in' k" := (if b then k else job_ret (Err (ErrMsg msg))) (at level 10, b at level 100, msg at level 100, k at level 200).

(** An interaction that works, fails with an error or is the last thing the process does. *)
Definition attempt (failure : error) (effect : Running_ -> Running_) : Job unit := fun s =>
  match fate_at (rn_tick s) with
  | Works => (Some (Ok tt), effect (next_tick s))
  | Fails => (Some (Err failure), next_tick s)
  | Dies => (None, next_tick s)
  end.

Definition ctx_Err : Job unit := attempt (ErrMsg "context canceled") (fun s => s).
Definition emit (p : Phase) : Job unit := attempt (ErrMsg "write") (see (Reported p)).
Definition writeJSONAtomic (put : Dir -> Dir) (o : observed) : Job unit :=
  attempt (ErrMsg "write state") (fun s => see o (set_rn_dir (put (rn_dir s)) s)).

(** A call of the session; the process may die before it learns the outcome. *)
Definition call_session {A} (m : W -> result A * W) (o : bool -> observed) : Job A := fun s =>
  let '(r, w) := m (rn_world s) in
  let s := set_rn_world w (next_tick s) in
  match fate_at (pred (rn_tick s)) with
  | Dies => (None, s)
  | _ => (Some r, see (o (is_ok r)) s)
  end.

(** [Reporter.Run]; the closure's assignment is the value it returns. *)
Definition reporter_Run {A} (total : nat) (name : string) (fn : Job A) : Job A := fun s =>
  let s := next_phase s in
  let n := rn_next s in
  match emit (mkPhase n total name Running "") s with
  | (None, s) => (None, s)
  | (Some (Err e), s) => (Some (Err e), s)
  | (Some (Ok _), s) =>
      match fn s with
      | (None, s) => (None, s)
      | (Some (Ok a), s) =>
          match emit (mkPhase n total name Done "") s with
          | (None, s) => (None, s)
          | (Some (Err e), s) => (Some (Err e), s)
          | (Some (Ok _), s) => (Some (Ok a), s)
          end
      | (Some (Err e), s) =>
          match emit (mkPhase n total name Failed (redactString (error_text e))) s with
          | (None, s) => (None, s)
          | (Some _, s) => (Some (Err e), s)
          end
      end
  end.

Definition step {A} (prepare : bool) (name : string) (fn : Job A) : Job A :=
  reporter_Run (List.length (Phases prepare)) name (job! _ := ctx_Err in fn).

Definition provision (c : session_call) : Job unit := call_session (session_do c) (Called c).

(** [sameJSON] of two configurations without their provider settings. *)
Definition same_raw (a b : RawMessage) : bool :=
  match a, b with None, None => true | Some x, Some y => json_same x y | _, _ => false end.
Definition same_shared (a b : Config) : bool :=
  (cf_DevelopmentStage a == cf_DevelopmentStage b) && (cf_GroupSuffix a == cf_GroupSuffix b) && (cf_Version a == cf_Version b) &&
  (cf_Name a == cf_Name b) && (cf_Provider a == cf_Provider b) &&
  (sp_Version (cf_SPIRE a) == sp_Version (cf_SPIRE b)) && (sp_TrustDomain (cf_SPIRE a) == sp_TrustDomain (cf_SPIRE b)) &&
  (sp_Image (cf_SPIRE a) == sp_Image (cf_SPIRE b)) &&
  (pl_CraneAPIImage (cf_Platform a) == pl_CraneAPIImage (cf_Platform b)) && (pl_DominatorImage (cf_Platform a) == pl_DominatorImage (cf_Platform b)) &&
  (pl_KubernetesVersion (cf_Platform a) == pl_KubernetesVersion (cf_Platform b)) &&
  (pl_CiliumVersion (cf_Platform a) == pl_CiliumVersion (cf_Platform b)) && (pl_PodCIDR (cf_Platform a) == pl_PodCIDR (cf_Platform b)) &&
  same_raw (cf_FirstZone a) (cf_FirstZone b).

Definition with_images (api dominator : string) (c : Config) : Config :=
  let p := cf_Platform c in
  set_cf_Platform (mkPlatform api dominator (pl_KubernetesVersion p) (pl_CiliumVersion p) (pl_PodCIDR p)) c.

(** The candidate and the pinned configuration once images have been merged. *)
Definition merged (cfg stored : Config) : Config * Config :=
  let '(a1, a2) := mergeImage (pl_CraneAPIImage (cf_Platform cfg)) (pl_CraneAPIImage (cf_Platform stored)) in
  let '(d1, d2) := mergeImage (pl_DominatorImage (cf_Platform cfg)) (pl_DominatorImage (cf_Platform stored)) in
  (with_images a1 d1 cfg, with_images a2 d2 stored).

(** What the pinned state makes of a configuration: the one to run with, and the provider
    settings that were pinned. *)
Definition reconcile (cfg : Config) (stored : option Config) : result (Config * RawMessage) :=
  match stored with
  | None => Ok (cfg, None)
  | Some stored =>
      let* _ := match Validate stored with Ok _ => Ok tt | Err _ => Err (ErrMsg "invalid pinned configuration") end in
      let stored := WithDefaults stored in
      guard (cf_Provider stored == cf_Provider cfg) && (cf_Name stored == cf_Name cfg)
        else ErrMsg "local deployment belongs to another provider or deployment" in
      let '(cfg, stored) := merged cfg stored in
      guard same_shared cfg stored else ErrMsg "deployment already has different shared configuration" in
      Ok (cfg, cf_ProviderConfig stored)
  end.

(** [checkEndpoint] *)
Definition checkEndpoint (cfg : Config) (endpoint : option Result) : Job unit :=
  job! r := job_get (fun s => session_Result (rn_world s)) in
  job! _ := job_set (set_rn_result r) in
  demand rt_IdentityEndpoint r != "" else "provider returned no identity endpoint" in
  demand match endpoint with Some e => rt_IdentityEndpoint r == rt_IdentityEndpoint e | None => true end
    else "identity endpoint changed; use an explicit endpoint rollout" in
  job_set (set_rn_result (with_deployment cfg r)).

(** The two sequences after the configuration is pinned. *)
Definition prepare_images (cfg : Config) (endpoint : option Result) : Job unit :=
  job! _ := step true "prepare private identity endpoint" (job! _ := provision PrepareEndpoint in checkEndpoint cfg endpoint) in
  step true "persist bootstrap result locally"
    (job! r := job_get rn_result in writeJSONAtomic (put_endpoint r) (PinnedEndpoint r)).

Definition bootstrap_platform (cfg : Config) (endpoint : option Result) : Job unit :=
  job! _ := step false "ensure runtime credentials" (provision EnsureCredentials) in
  job! _ := step false "ensure network, database and runtime permissions"
              (job! _ := provision EnsureInfrastructure in checkEndpoint cfg endpoint) in
  job! _ := step false "ensure protected identity and platform hosts" (provision EnsureHosts) in
  job! _ := step false "initialize databases and identity server" (provision (RunHostPhase InstallIdentity)) in
  job! _ := step false "register platform workload identities" (provision (RunHostPhase RegisterWorkloads)) in
  job! _ := step false "initialize cluster, network and platform services" (provision (RunHostPhase InstallPlatform)) in
  job! _ := step false "validate identity, cluster and service handoff" (provision (RunHostPhase ValidateHandoff)) in
  job! _ := checkEndpoint cfg endpoint in
  step false "persist bootstrap result locally"
    (job! r := job_get rn_result in writeJSONAtomic (put_result r) (PinnedResult r)).

Definition open_session (cfg : Config) : Job unit := fun s =>
  match session_open cfg (rn_world s) with
  | Ok w => (Some (Ok tt), set_rn_world w s)
  | Err e => (Some (Err e), s)
  end.

Definition persist_config (prepare : bool) (cfg : Config) : Job unit :=
  step prepare "persist deployment configuration locally"
    (job! _ := job_ret (match Validate cfg with Ok _ => Ok tt | Err _ => Err (ErrMsg "invalid resolved configuration") end) in
     job! _ := attempt (ErrMsg "mkdir") (fun s => s) in
     writeJSONAtomic (put_config cfg) (PinnedConfig cfg)).

(** [Run]: the result is [rn_result] at the end, next to the error. *)
Definition bootstrap_Run (c : Config) (StateDir : string) (PrepareImages : bool) : Job unit :=
  job! _ := job_set (set_rn_result zero_result) in
  let cfg := WithDefaults c in
  job! _ := job_ret (Validate cfg) in
  job! _ := ctx_Err in
  demand StateDir != "" else "state directory is required" in
  job! files := job_get rn_dir in
  job! stored := job_ret (readState (dir_config files)) in
  job! chosen := job_ret (reconcile cfg stored) in
  let '(cfg, pinned) := chosen in
  demand PrepareImages || negb ((pl_CraneAPIImage (cf_Platform cfg) == "") || (pl_DominatorImage (cf_Platform cfg) == ""))
    else "provide pinned platform images after preparing the endpoint" in
  job! endpoint := job_ret (readState (dir_endpoint files)) in
  demand match endpoint with
         | Some e => (rt_Provider e == cf_Provider cfg) && (rt_Name e == cf_Name cfg) && (rt_IdentityEndpoint e != "")
         | None => true
         end else "invalid pinned identity endpoint" in
  job! _ := open_session cfg in
  job! settings := step PrepareImages "resolve deployment identity and placement"
                     (call_session (session_Resolve pinned PrepareImages) Resolved) in
  let cfg := set_cf_ProviderConfig settings cfg in
  job! _ := persist_config PrepareImages cfg in
  if PrepareImages then prepare_images cfg endpoint else bootstrap_platform cfg endpoint.
End Run.

(** ** [OperationExecutor]: the phases of a durable operation, over the provider's session *)
Record OperationSession : Type := mkOperationSession {
  os_EnsureInfrastructure : Operation -> result BootstrapStepResult;
  os_InitializeControlPlane : Operation -> result BootstrapStepResult;
  os_EnsureNetwork : Operation -> result unit;
  os_EnsureDominator : Operation -> result BootstrapStepResult;
  os_Validate : Operation -> result bool }.

Definition no_step : BootstrapStepResult := mkStepResult "" "" "" "" "" "" "".

Definition executor_Step (session : option OperationSession) (op : Operation) (phase : ZoneBootstrapPhase) : result BootstrapStepResult :=
  guard op_Kind op == Kcreate_cluster else ErrMsg "bootstrap executor only supports create_cluster" in
  let* s := of_option (ErrMsg "bootstrap operation session is not configured") session in
  match phase with
  | ZoneInfrastructureProvisioning => os_EnsureInfrastructure s op
  | ZoneControlPlaneInitializing => os_InitializeControlPlane s op
  | ZoneNetworkInstalling => let* _ := os_EnsureNetwork s op in Ok no_step
  | ZoneDominatorInstalling => os_EnsureDominator s op
  | ZoneValidating => Ok no_step
  | _ => Err (ErrMsg "unsupported bootstrap phase")
  end.

Definition executor_Validated (session : option OperationSession) (op : Operation) : result bool :=
  guard op_Kind op == Kcreate_cluster else ErrMsg "bootstrap executor only supports create_cluster" in
  let* s := of_option (ErrMsg "bootstrap operation session is not configured") session in
  os_Validate s op.

Definition OperationExecutor (session : option OperationSession) : BootstrapExecutor :=
  mkBootstrapExecutor (executor_Step session) (executor_Validated session).
