(* ===== verification/RunnerFacts.v ===== *)
(** * The bootstrap runner: order of its effects and what stays pinned

    [run_follows_script] says that whatever fails or dies, what a run does is an initial
    part of one script, and all of it when the run succeeds.  [deployment_pinned] says what
    no later run changes in the state directory.  The first uses [plays], a judgement on the
    trace, the second [ensures], one on the directory and the result. *)
From S2P Require Import Prelude GoStrings Sql Api Schema Scheduling Catalog Decode Bootstrap Regex Redact Deployment Runner.
From Stdlib Require Import Ascii String.

Local Open Scope string_scope.
Local Open Scope list_scope.
Local Open Scope Z_scope.
Local Open Scope crane_scope.

(** ** The script *)

(** An observation that is not a failure, without what only the run determines. *)
Inductive shape : Type :=
| SReported (n total : nat) (name : string) (s : status) | SResolved | SCalled (c : session_call) | SConfig | SEndpoint | SResult.

Definition shape_of (o : observed) : shape :=
  match o with
  | Reported p => SReported (ph_Number p) (ph_Total p) (ph_Name p) (ph_Status p)
  | Resolved _ => SResolved
  | Called c _ => SCalled c
  | PinnedConfig _ => SConfig
  | PinnedEndpoint _ => SEndpoint
  | PinnedResult _ => SResult
  end.

Definition refused (o : observed) : Prop := match o with Resolved false | Called _ false => True | _ => False end.
Definition reported_failure (o : observed) : Prop := match o with Reported p => ph_Status p = Failed | _ => False end.
Definition succeeded (o : observed) : Prop := ~ refused o /\ ~ reported_failure o.

(** One refused call at most, then one report of a failure at most. *)
Inductive one_refusal : list observed -> Prop :=
| or_none : one_refusal []
| or_one o : refused o -> one_refusal [o].
Inductive stopped : list observed -> Prop :=
| st_quiet l : one_refusal l -> stopped l
| st_reported l o : one_refusal l -> reported_failure o -> stopped (l ++ [o]).

Lemma reported_ok p : ph_Status p <> Failed -> succeeded (Reported p).
Proof. intros Np. split; [by intros []|done]. Qed.

(** What each phase does between its two reports. *)
Definition script_phases (prepare : bool) : list (string * list shape) :=
  combine (Phases prepare)
    (if prepare then [[SResolved]; [SConfig]; [SCalled PrepareEndpoint]; [SEndpoint]]
     else [[SResolved]; [SConfig]; [SCalled EnsureCredentials]; [SCalled EnsureInfrastructure]; [SCalled EnsureHosts];
           [SCalled (RunHostPhase InstallIdentity)]; [SCalled (RunHostPhase RegisterWorkloads)]; [SCalled (RunHostPhase InstallPlatform)];
           [SCalled (RunHostPhase ValidateHandoff)]; [SResult]]).

Definition phase_script (total n : nat) (name : string) (inner : list shape) : list shape :=
  SReported n total name Running :: inner ++ [SReported n total name Done].

Fixpoint script_from (total n : nat) (l : list (string * list shape)) : list shape :=
  match l with
  | [] => []
  | (name, inner) :: l => phase_script total (S n) name inner ++ script_from total (S n) l
  end.
Definition script (prepare : bool) (n : nat) : list shape := script_from (List.length (Phases prepare)) n (script_phases prepare).

Section Facts.
Context {W : Type} {sessions : Sessions W} {texts : Texts}.

Section Trace.
Context (fate_at : nat -> fate).

(** From a reporter at [n], [m] plays [sc] and leaves it at [n'], or stops after a part of
    it with a tail in [T]. *)
Definition plays {A} (T : list observed -> Prop) (n : nat) (m : Job (W := W) A) (sc : list shape) (n' : nat) : Prop :=
  forall s, rn_next s = n -> let '(r, s') := m s in
  exists p t, run_trace s' = run_trace s ++ p ++ t /\ Forall succeeded p /\ map shape_of p `prefix_of` sc /\ T t /\
    forall a, r = Some (Ok a) -> map shape_of p = sc /\ t = [] /\ rn_next s' = n'.

Lemma plays_bind {A B} T n (m : Job A) (k : A -> Job B) s1 n1 s2 n2 :
  T [] -> plays T n m s1 n1 -> (forall a, plays T n1 (k a) s2 n2) -> plays T n (job_bind m k) (s1 ++ s2) n2.
Proof.
  intros T0 Hm Hk s Hn. unfold job_bind. specialize (Hm s Hn). destruct (m s) as [[[a|e]|] s1'].
  - destruct Hm as (p & t & E & F & _ & _ & Hok). destruct (Hok a eq_refl) as (Ep & -> & Hn1).
    specialize (Hk a s1' Hn1). destruct (k a s1') as [r s2']. destruct Hk as (p2 & t2 & E2 & F2 & P2 & T2 & Hok2).
    exists (p ++ p2), t2. rewrite E2, E, app_nil_r, !app_assoc. split; [done|]. rewrite Forall_app, map_app, Ep. split; [done|].
    split; [by apply prefix_app|]. split; [done|]. intros b Eb. destruct (Hok2 b Eb) as (-> & -> & ->). done.
  - destruct Hm as (p & t & E & F & P & HT & _). exists p, t. split_and!; try done. by apply prefix_app_r.
  - destruct Hm as (p & t & E & F & P & HT & _). exists p, t. split_and!; try done. by apply prefix_app_r.
Qed.

(** A job that leaves the trace and the reporter alone. *)
Definition silent {A} (m : Job (W := W) A) : Prop :=
  forall s, run_trace (snd (m s)) = run_trace s /\ rn_next (snd (m s)) = rn_next s.

Lemma plays_silent {A} T n (m : Job A) : T [] -> silent m -> plays T n m [] n.
Proof.
  intros T0 Hs s Hn. specialize (Hs s). destruct (m s) as [r s']. cbn [snd] in Hs. destruct Hs as [E En]. exists [], [].
  rewrite !app_nil_r. split_and!; try done. intros a _. by rewrite En.
Qed.

Lemma plays_see T n failure effect o : T [] -> succeeded o ->
  (forall s, run_trace (effect s) = run_trace s ++ [o] /\ rn_next (effect s) = rn_next s) ->
  plays T n (attempt fate_at failure effect) [shape_of o] n.
Proof.
  intros T0 So He s Hn. unfold attempt. destruct (fate_at (rn_tick s)).
  - exists [o], []. destruct (He (next_tick s)) as [E1 E2]. rewrite E1, app_nil_r. split_and!; try done; [by constructor|].
    intros a _. by rewrite E2.
  - exists [], []. rewrite !app_nil_r. split_and!; try done; [apply prefix_nil].
  - exists [], []. rewrite !app_nil_r. split_and!; try done; [apply prefix_nil].
Qed.

Lemma plays_err {A} T n e sc n' : T [] -> plays T n (job_ret (A := A) (Err e)) sc n'.
Proof. intros T0 s Hn. exists [], []. rewrite !app_nil_r. split_and!; try done; [apply prefix_nil]. Qed.

Lemma plays_demand {A} T n (b : bool) (m : Job A) e sc n' : T [] -> plays T n m sc n' -> plays T n (if b then m else job_ret (Err e)) sc n'.
Proof. intros T0 Hm. destruct b; [done|by apply plays_err]. Qed.

(** A silent job first. *)
Lemma plays_after {A B} T n (m : Job A) (k : A -> Job B) sc n' : T [] -> silent m -> (forall a, plays T n (k a) sc n') -> plays T n (job_bind m k) sc n'.
Proof. intros T0 Hs Hk. apply (plays_bind T n m k [] n sc n'); [done|by apply plays_silent|done]. Qed.

Lemma plays_then {A B} T n (m : Job A) (k : A -> Job B) sc n' : T [] -> plays T n m sc n' -> (forall a, silent (k a)) -> plays T n (job_bind m k) sc n'.
Proof.
  intros T0 Hm Hk. rewrite <- (app_nil_r sc). eapply plays_bind; [done|exact Hm|]. intros a. by apply plays_silent.
Qed.

Lemma silent_bind {A B} (m : Job A) (k : A -> Job B) : silent m -> (forall a, silent (k a)) -> silent (job_bind m k).
Proof.
  intros Hm Hk s. unfold job_bind. specialize (Hm s). destruct (m s) as [[[a|e]|] s1]; cbn [snd] in *; try done.
  destruct (Hk a s1) as [E1 E2]. destruct Hm as [E3 E4]. split; congruence.
Qed.

Lemma silent_ret {A} (r : result A) : silent (job_ret r).
Proof. done. Qed.

Lemma silent_check cfg e : silent (checkEndpoint cfg e).
Proof.
  unfold checkEndpoint. do 2 (apply silent_bind; [done|intros]).
  repeat match goal with |- silent (if ?b then _ else _) => destruct b end; try apply silent_ret; done.
Qed.

Lemma silent_ctx : silent (ctx_Err fate_at).
Proof. intros s. unfold ctx_Err, attempt. by destruct (fate_at _). Qed.

Lemma plays_call {A} n (m : W -> result A * W) o sh : (forall b, shape_of (o b) = sh) -> succeeded (o true) -> refused (o false) ->
  plays one_refusal n (call_session fate_at m o) [sh] n.
Proof.
  intros Hsh So Ro s Hn. unfold call_session. destruct (m (rn_world s)) as [r w]. destruct (fate_at _); [| |exists [], []; cbn; rewrite app_nil_r].
  3: { split_and!; try done; [apply prefix_nil|constructor]. }
  all: destruct r as [a|e]; cbn [is_ok].
  all: try (exists [o true], []; cbn [see set_rn_world next_tick run_trace rn_next]; rewrite app_nil_r; split_and!; try done;
            [constructor; [done|constructor]|cbn [map]; by rewrite Hsh|constructor|intros b _; cbn [map]; by rewrite Hsh]).
  all: exists [], [o false]; cbn [see set_rn_world next_tick run_trace]; split_and!; try done; [apply prefix_nil|by constructor].
Qed.

(** A phase: its report, its work, its report. *)
Lemma plays_step {A} n prepare name (fn : Job A) inner :
  plays one_refusal (S n) fn inner (S n) ->
  plays stopped n (step fate_at prepare name fn) (phase_script (List.length (Phases prepare)) (S n) name inner) (S n).
Proof.
  intros Hf s Hn. unfold step, reporter_Run. set (total := List.length _). set (s0 := next_phase s).
  assert (Hn0 : rn_next s0 = S n) by (cbn; congruence). rewrite Hn0. unfold emit at 1, attempt.
  assert (Stop : forall p t (s' : Running_ (W := W)), run_trace s' = run_trace s ++ p ++ t -> Forall succeeded p ->
    map shape_of p `prefix_of` phase_script total (S n) name inner -> stopped t -> forall r : option (result A), (forall a, r <> Some (Ok a)) ->
    exists p t, run_trace s' = run_trace s ++ p ++ t /\ Forall succeeded p /\ map shape_of p `prefix_of` phase_script total (S n) name inner /\
      stopped t /\ forall a, r = Some (Ok a) -> map shape_of p = phase_script total (S n) name inner /\ t = [] /\ rn_next s' = S n).
  { intros p t s' E F P St r Nr. exists p, t. split_and!; try done. intros a Ea. by destruct (Nr a). }
  destruct (fate_at (rn_tick s0)).
  2,3: apply (Stop [] []); try done; [by rewrite !app_nil_r|apply prefix_nil|apply st_quiet; constructor].
  set (run := mkPhase (S n) total name Running ""). set (s1 := see (Reported run) (next_tick s0)).
  assert (Body : plays one_refusal (S n) (job_bind (ctx_Err fate_at) (fun _ => fn)) inner (S n)).
  { rewrite <- (app_nil_l inner). eapply plays_bind; [constructor| |done]. apply plays_silent; [constructor|apply silent_ctx]. }
  specialize (Body s1 Hn0). destruct (job_bind _ _ s1) as [r s2]. destruct Body as (p & t & E & F & P & HT & Hok).
  assert (E2 : run_trace s2 = run_trace s ++ (Reported run :: p) ++ t) by (rewrite E; cbn; by rewrite <- app_assoc).
  assert (F2 : Forall succeeded (Reported run :: p)) by (constructor; [by apply reported_ok|done]).
  assert (P2 : map shape_of (Reported run :: p) `prefix_of` phase_script total (S n) name inner).
  { cbn [map]. apply prefix_cons. by apply prefix_app_r. }
  destruct r as [[a|e]|].
  - destruct (Hok a eq_refl) as (Ep & -> & Hn2). unfold emit, attempt. destruct (fate_at (rn_tick s2)).
    2,3: eapply Stop; [exact E2|exact F2|exact P2|apply st_quiet; constructor|done].
    exists (Reported run :: p ++ [Reported (mkPhase (S n) total name Done "")]), []. cbn [see run_trace next_tick rn_next].
    rewrite E2, !app_nil_r. split; [cbn; by rewrite <- !app_assoc|]. split; [rewrite app_comm_cons, Forall_app; split; [done|constructor; [by apply reported_ok|constructor]]|].
    cbn [map]. rewrite map_app, Ep. split; [done|]. split; [apply st_quiet; constructor|]. done.
  - set (bad := mkPhase (S n) total name Failed _). unfold emit, attempt. destruct (fate_at (rn_tick s2)).
    2,3: eapply Stop; [exact E2|exact F2|exact P2|by apply st_quiet|done].
    apply (Stop (Reported run :: p) (t ++ [Reported bad])); try done; [|by apply st_reported].
    cbn [see run_trace next_tick]. by rewrite E2, !app_assoc.
  - eapply Stop; [exact E2|exact F2|exact P2|by apply st_quiet|done].
Qed.

Lemma quiet_none : stopped [].
Proof. apply st_quiet. constructor. Qed.

Lemma plays_provision n c : plays one_refusal n (provision fate_at c) [SCalled c] n.
Proof. apply plays_call; [done|split; intros []|exact I]. Qed.

Lemma plays_persist n prepare cfg :
  plays stopped n (persist_config fate_at prepare cfg)
    (phase_script (List.length (Phases prepare)) (S n) "persist deployment configuration locally" [SConfig]) (S n).
Proof.
  apply plays_step. apply plays_after; [constructor|apply silent_ret|intros []].
  apply plays_after; [constructor|intros s; unfold attempt; by destruct (fate_at _)|intros []].
  apply (plays_see _ _ _ _ (PinnedConfig cfg)); [constructor|split; intros []|done].
Qed.

Ltac next_step := eapply plays_bind; [apply quiet_none|apply plays_step|intros []].

Lemma plays_prepare n cfg e :
  plays stopped n (prepare_images fate_at cfg e) (script_from 4 n (drop 2 (script_phases true))) (S (S n)).
Proof.
  unfold prepare_images. cbn [script_phases drop script_from Phases combine]. rewrite app_nil_r. next_step.
  - apply plays_then; [constructor|apply plays_provision|intros []; apply silent_check].
  - apply (plays_step _ true). apply plays_after; [constructor|done|intros r].
    apply (plays_see _ _ _ _ (PinnedEndpoint r)); [constructor|split; intros []|done].
Qed.

Lemma plays_platform n cfg e :
  plays stopped n (bootstrap_platform fate_at cfg e) (script_from 10 n (drop 2 (script_phases false))) (8 + n).
Proof.
  unfold bootstrap_platform. cbn [script_phases drop script_from Phases combine]. rewrite app_nil_r. next_step; [apply plays_provision|].
  next_step; [apply plays_then; [constructor|apply plays_provision|intros []; apply silent_check]|].
  do 5 (next_step; [apply plays_provision|]). apply plays_after; [apply quiet_none|apply silent_check|intros []].
  apply (plays_step _ false). apply plays_after; [constructor|done|intros r].
  apply (plays_see _ _ _ _ (PinnedResult r)); [constructor|split; intros []|done].
Qed.

Lemma plays_run n c dir prepare :
  plays stopped n (bootstrap_Run fate_at c dir prepare) (script prepare n) (List.length (Phases prepare) + n).
Proof.
  assert (Q := quiet_none). unfold bootstrap_Run. apply plays_after; [done|done|intros []].
  apply plays_after; [done|apply silent_ret|intros []]. apply plays_after; [done|apply silent_ctx|intros []].
  apply plays_demand; [done|]. apply plays_after; [done|done|intros files]. apply plays_after; [done|apply silent_ret|intros stored].
  apply plays_after; [done|apply silent_ret|intros [cfg pinned]]. apply plays_demand; [done|].
  apply plays_after; [done|apply silent_ret|intros endpoint]. apply plays_demand; [done|].
  apply plays_after; [done|intros s; unfold open_session; by destruct (session_open _ _)|intros []].
  assert (E : script prepare n = phase_script (List.length (Phases prepare)) (S n) "resolve deployment identity and placement" [SResolved] ++
              phase_script (List.length (Phases prepare)) (S (S n)) "persist deployment configuration locally" [SConfig] ++
              script_from (List.length (Phases prepare)) (S (S n)) (drop 2 (script_phases prepare))) by (by destruct prepare).
  rewrite E. eapply plays_bind; [done|apply plays_step|intros settings]; [apply plays_call; [done|split; intros []|exact I]|].
  eapply plays_bind; [done|apply plays_persist|intros []]. destruct prepare; [apply plays_prepare|apply plays_platform].
Qed.

(** ** The directory and the result *)
Abbreviation Pred := (Dir -> Result -> Prop).

(** From [P], [m] ends in [Q] when it succeeds and in [R] when it fails or dies. *)
Definition ensures {A} (P : Pred) (m : Job (W := W) A) (Q : A -> Pred) (R : Pred) : Prop :=
  forall s, P (rn_dir s) (rn_result s) ->
  match m s with
  | (Some (Ok a), s') => Q a (rn_dir s') (rn_result s')
  | (_, s') => R (rn_dir s') (rn_result s')
  end.

Lemma ensures_bind {A B} P (m : Job A) (k : A -> Job B) Q1 Q R :
  ensures P m Q1 R -> (forall a, ensures (Q1 a) (k a) Q R) -> ensures P (job_bind m k) Q R.
Proof.
  intros Hm Hk s Hp. specialize (Hm s Hp). unfold job_bind. destruct (m s) as [[[a|e]|] s1]; try done. by apply Hk.
Qed.

Lemma ensures_ret {A} P (r : result A) (Q : A -> Pred) (R : Pred) :
  (forall a d x, r = Ok a -> P d x -> Q a d x) -> (forall e d x, r = Err e -> P d x -> R d x) -> ensures P (job_ret r) Q R.
Proof. intros HQ HR s Hp. destruct r; cbn; eauto. Qed.

Lemma ensures_get {A} P (f : Running_ -> A) (Q : A -> Pred) R :
  (forall s, P (rn_dir s) (rn_result s) -> Q (f s) (rn_dir s) (rn_result s)) -> ensures P (job_get f) Q R.
Proof. intros HQ s Hp. cbn. auto. Qed.

Lemma ensures_demand {A} P (b : bool) (m : Job A) e (Q : A -> Pred) (R : Pred) :
  (forall d x, P d x -> R d x) -> (b = true -> ensures P m Q R) -> ensures P (if b then m else job_ret (Err e)) Q R.
Proof. intros HR Hm. destruct b; [by apply Hm|]. apply ensures_ret; [done|eauto]. Qed.

Lemma ensures_attempt P failure effect (Q R : Pred) :
  (forall d x, P d x -> R d x) -> (forall s, P (rn_dir s) (rn_result s) -> Q (rn_dir (effect s)) (rn_result (effect s))) ->
  ensures P (attempt fate_at failure effect) (fun _ => Q) R.
Proof. intros HR HQ s Hp. unfold attempt. destruct (fate_at _); cbn; [by apply HQ|by apply HR..]. Qed.

Lemma ensures_ctx (P R : Pred) : (forall d x, P d x -> R d x) -> ensures P (ctx_Err fate_at) (fun _ => P) R.
Proof. intros HR. by apply ensures_attempt. Qed.

Lemma ensures_call {A} (P R : Pred) (m : W -> result A * W) o :
  (forall d x, P d x -> R d x) -> ensures P (call_session fate_at m o) (fun _ => P) R.
Proof.
  intros HR s Hp. unfold call_session. destruct (m _) as [[a|e] w]; destruct (fate_at _); cbn; auto.
Qed.

Lemma ensures_step {A} P prepare name (fn : Job A) (Q : A -> Pred) (R : Pred) :
  (forall d x, P d x -> R d x) -> (forall a d x, Q a d x -> R d x) -> ensures P fn Q R -> ensures P (step fate_at prepare name fn) Q R.
Proof.
  intros HP HQ Hf s Hp. unfold step, reporter_Run, emit, attempt.
  destruct (fate_at _); [|by apply HP..].
  set (s1 := see _ _). assert (B : ensures P (job_bind (ctx_Err fate_at) (fun _ => fn)) Q R).
  { eapply ensures_bind; [by apply ensures_ctx|by intros []]. }
  specialize (B s1 Hp). destruct (job_bind _ _ s1) as [[[a|e]|] s2]; [| |done].
  - destruct (fate_at _); cbn; [done|by apply (HQ a)..].
  - destruct (fate_at _); done.
Qed.

(** ** What later runs keep *)

(** The choices of [s] that [c] keeps; an image may be filled in once. *)
Definition keeps_image (s c : string) : Prop := s = "" \/ c = s.
Record keeps_choices (s c : Config) : Prop := {
  kc_same : same_shared (with_images "" "" (WithDefaults s)) (with_images "" "" (WithDefaults c)) = true;
  kc_api : keeps_image (pl_CraneAPIImage (cf_Platform s)) (pl_CraneAPIImage (cf_Platform c));
  kc_dominator : keeps_image (pl_DominatorImage (cf_Platform s)) (pl_DominatorImage (cf_Platform c)) }.
Definition keeps_endpoint (s e : Result) : Prop :=
  rt_IdentityEndpoint e = rt_IdentityEndpoint s /\ rt_Name e = rt_Name s /\ rt_Provider e = rt_Provider s.

(** A file that is there stays, or is replaced by one that keeps what it pinned. *)
Definition kept_file {A} (keep : A -> A -> Prop) (f f' : file A) : Prop :=
  f' = f \/ exists a', f' = Stored a' /\ (f = Missing \/ exists a, f = Stored a /\ keep a a').
Definition kept_dir (d d' : Dir) : Prop :=
  kept_file keeps_choices (dir_config d) (dir_config d') /\ kept_file keeps_endpoint (dir_endpoint d) (dir_endpoint d').

Lemma or_default_idem v x : or_default (or_default v x) x = or_default v x.
Proof. unfold or_default. repeat case_bool_decide; congruence. Qed.

Lemma WithDefaults_idem c : WithDefaults (WithDefaults c) = WithDefaults c.
Proof.
  destruct c as [a b v n p pc [s1 s2 s3] [p1 p2 p3 p4 p5] z]. unfold WithDefaults. cbn. rewrite !or_default_idem.
  by destruct z as [[]|].
Qed.

Lemma WithDefaults_images a d c : WithDefaults (with_images a d c) = with_images a d (WithDefaults c).
Proof. by destruct c as [? ? ? ? ? ? ? [? ? ? ? ?] ?]. Qed.

Lemma WithDefaults_provider x c : WithDefaults (set_cf_ProviderConfig x c) = set_cf_ProviderConfig x (WithDefaults c).
Proof. by destruct c. Qed.

Lemma mergeImage_same c s c' s' : mergeImage c s = (c', s') -> c' = s' -> keeps_image s c'.
Proof. unfold mergeImage, keeps_image. intros [= <- <-]. repeat case_bool_decide; subst; auto. Qed.

Lemma reconcile_place cfg stored cfg' pinned : reconcile cfg stored = Ok (cfg', pinned) -> cf_Name cfg' = cf_Name cfg /\ cf_Provider cfg' = cf_Provider cfg.
Proof.
  destruct stored as [st|]; cbn [reconcile]; [|by intros [= <- <-]]. destruct (Validate st); [|done]. cbn [rbind].
  destruct (_ && _); cbn [require rbind]; [|done]. unfold merged. destruct (mergeImage _ _) as [a1 a2]. destruct (mergeImage _ _) as [d1 d2].
  destruct (same_shared _ _); cbn; [|done]. by intros [= <- <-].
Qed.

Section Pinned.
(** What the run found and what it runs with. *)
Context (d0 : Dir) (cfg : Config) (endpoint : option Result).

Definition good (r : Result) : Prop :=
  rt_IdentityEndpoint r <> "" /\ rt_Name r = cf_Name cfg /\ rt_Provider r = cf_Provider cfg /\
  forall e, endpoint = Some e -> rt_IdentityEndpoint r = rt_IdentityEndpoint e.
Definition endpoint_kept (d : Dir) : Prop := dir_endpoint d = dir_endpoint d0 \/ exists r, dir_endpoint d = Stored r /\ good r.
Definition config_kept (d : Dir) : Prop := dir_config d = dir_config d0 \/ exists x, dir_config d = Stored (set_cf_ProviderConfig x cfg).
Definition holding : Pred := fun d _ => config_kept d /\ endpoint_kept d.
Definition checked : Pred := fun d r => holding d r /\ good r.

Lemma ensures_check x : ensures holding (checkEndpoint (set_cf_ProviderConfig x cfg) endpoint) (fun _ => checked) holding.
Proof.
  unfold checkEndpoint. apply (ensures_bind _ _ _ (fun _ => holding)); [by apply ensures_get|intros r].
  apply (ensures_bind _ _ _ (fun _ => holding)); [by intros s Hs|intros []].
  apply ensures_demand; [done|intros N]. apply ensures_demand; [done|intros E]. intros s Hs.
  cbn [job_set set_rn_result rn_dir rn_result]. split; [done|]. unfold good. cbn. apply negb_true_iff, bool_decide_eq_false in N. split_and!; try done. intros e ->. by apply bool_decide_eq_true in E.
Qed.

Lemma ensures_put_endpoint : ensures checked (job_bind (job_get rn_result) (fun r => writeJSONAtomic fate_at (put_endpoint r) (PinnedEndpoint r)))
  (fun _ d r => holding d r /\ good r /\ dir_endpoint d = Stored r) holding.
Proof.
  apply (ensures_bind _ _ _ (fun r d x => checked d x /\ r = x)); [by apply ensures_get|intros r]. apply ensures_attempt; [by intros d x [[Hc _] _]|].
  intros s [[[Hc He] Hg] ->]. split; [|done]. split; [exact Hc|]. right. by exists (rn_result s).
Qed.

Lemma ensures_put_result : ensures checked (job_bind (job_get rn_result) (fun r => writeJSONAtomic fate_at (put_result r) (PinnedResult r)))
  (fun _ d r => holding d r /\ good r /\ dir_result d = Stored r) holding.
Proof.
  apply (ensures_bind _ _ _ (fun r d x => checked d x /\ r = x)); [by apply ensures_get|intros r]. apply ensures_attempt; [by intros d x [[Hc _] _]|].
  intros s [[[Hc He] Hg] ->]. split; [by split|done].
Qed.

(** What a successful run leaves. *)
Definition recorded (prepare : bool) : Pred := fun d r =>
  holding d r /\ good r /\ (if prepare then dir_endpoint d = Stored r else dir_result d = Stored r).

Lemma ensures_provision c : ensures holding (provision fate_at c) (fun _ => holding) holding.
Proof. by apply ensures_call. Qed.

Lemma ensures_provision_step prepare name c : ensures holding (step fate_at prepare name (provision fate_at c)) (fun _ => holding) holding.
Proof. apply ensures_step; [done|done|apply ensures_provision]. Qed.

Lemma ensures_prepare x : ensures holding (prepare_images fate_at (set_cf_ProviderConfig x cfg) endpoint) (fun _ => recorded true) holding.
Proof.
  unfold prepare_images. apply (ensures_bind _ _ _ (fun _ => checked)); [|intros []].
  - apply ensures_step; [done|by intros _ d r []|]. apply (ensures_bind _ _ _ (fun _ => holding)); [apply ensures_provision|intros []].
    apply ensures_check.
  - apply ensures_step; [by intros d r []|by intros _ d r []|apply ensures_put_endpoint].
Qed.

Lemma ensures_platform x : ensures holding (bootstrap_platform fate_at (set_cf_ProviderConfig x cfg) endpoint) (fun _ => recorded false) holding.
Proof.
  unfold bootstrap_platform. apply (ensures_bind _ _ _ (fun _ => holding)); [apply ensures_provision_step|intros []].
  apply (ensures_bind _ _ _ (fun _ => holding)); [|intros []].
  { apply ensures_step; [done|done|]. apply (ensures_bind _ _ _ (fun _ => holding)); [apply ensures_provision|intros []].
    intros s Hs. pose proof (ensures_check x s Hs) as C. destruct (checkEndpoint _ _ s) as [[[[]|]|] s']; [|done..]. apply C. }
  do 5 (apply (ensures_bind _ _ _ (fun _ => holding)); [apply ensures_provision_step|intros []]).
  apply (ensures_bind _ _ _ (fun _ => checked)); [apply ensures_check|intros []].
  apply ensures_step; [by intros d r []|by intros _ d r []|apply ensures_put_result].
Qed.

Lemma ensures_persist prepare x : ensures holding (persist_config fate_at prepare (set_cf_ProviderConfig x cfg)) (fun _ => holding) holding.
Proof.
  apply ensures_step; [done|done|]. apply (ensures_bind _ _ _ (fun _ => holding)); [by apply ensures_ret|intros []].
  apply (ensures_bind _ _ _ (fun _ => holding)); [by apply ensures_attempt|intros []]. apply ensures_attempt; [done|].
  intros s [Hc He]. split; [|done]. right. by exists x.
Qed.
End Pinned.

(** What a run found: the pinned state, and the configuration it made of its argument. *)
Definition found (d0 : Dir) (cfg : Config) (endpoint : option Result) : Prop :=
  (exists c stored pinned, readState (dir_config d0) = Ok stored /\ reconcile (WithDefaults c) stored = Ok (cfg, pinned)) /\
  readState (dir_endpoint d0) = Ok endpoint /\
  forall e, endpoint = Some e -> rt_Provider e = cf_Provider cfg /\ rt_Name e = cf_Name cfg.

Definition run_done (d0 : Dir) (prepare : bool) : Pred :=
  fun d r => exists cfg endpoint, found d0 cfg endpoint /\ recorded d0 cfg endpoint prepare d r.
Definition run_stopped (d0 : Dir) : Pred :=
  fun d r => d = d0 \/ exists cfg endpoint, found d0 cfg endpoint /\ holding d0 cfg endpoint d r.

Lemma ensures_run c dir prepare d0 :
  ensures (fun d _ => d = d0) (bootstrap_Run fate_at c dir prepare) (fun _ => run_done d0 prepare) (run_stopped d0).
Proof.
  set (R := run_stopped d0). set (Q := fun _ : unit => run_done d0 prepare).
  assert (L : forall (d : Dir) (x : Result), d = d0 -> R d x) by (intros d x ->; unfold R; by left). unfold bootstrap_Run.
  apply (ensures_bind _ _ _ (fun _ d _ => d = d0)); [by intros s Hs|intros []].
  apply (ensures_bind _ _ _ (fun _ d _ => d = d0)); [by apply ensures_ret; [|intros; apply L]|intros []].
  apply (ensures_bind _ _ _ (fun _ d _ => d = d0)); [by apply ensures_ctx|intros []]. apply ensures_demand; [done|intros _].
  apply (ensures_bind _ _ _ (fun f d _ => d = d0 /\ f = d0)); [by apply ensures_get|intros files].
  apply (ensures_bind _ _ _ (fun st d _ => (d = d0 /\ files = d0) /\ readState (dir_config files) = Ok st)); [|intros stored].
  { apply ensures_ret; [by intros a d x E Hd|intros e d x _ [Hd _]; by apply L]. }
  apply (ensures_bind _ _ _ (fun ch d _ => ((d = d0 /\ files = d0) /\ readState (dir_config files) = Ok stored) /\
                               reconcile (WithDefaults c) stored = Ok ch)); [|intros [cfg pinned]].
  { apply ensures_ret; [by intros a d x E Hd|intros e d x _ [[Hd _] _]; by apply L]. }
  apply ensures_demand; [intros d x [[[Hd _] _] _]; by apply L|intros _].
  apply (ensures_bind _ _ _ (fun en d _ => (((d = d0 /\ files = d0) /\ readState (dir_config files) = Ok stored) /\
     reconcile (WithDefaults c) stored = Ok (cfg, pinned)) /\ readState (dir_endpoint files) = Ok en)); [|intros endpoint].
  { apply ensures_ret; [by intros a d x E Hd|intros e d x _ [[[Hd _] _] _]; by apply L]. }
  apply ensures_demand; [intros d x [[[[Hd _] _] _] _]; by apply L|intros Ee].
  apply (ensures_bind _ _ _ (fun _ d r => found d0 cfg endpoint /\ holding d0 cfg endpoint d r)); [|intros []].
  { intros s [[[[Hd ->] E1] E2] E3]. unfold open_session. destruct (session_open _ _); [|by apply L]. cbn. split; [|by split; left; rewrite Hd].
    split; [by exists c, stored, pinned|]. split; [done|]. intros e ->. bsplit. done. }
  intros s [Hf Hs]. assert (K : forall (d : Dir) (x : Result), holding d0 cfg endpoint d x -> R d x) by (intros; unfold R; right; eauto).
  revert s Hs. change (ensures (holding d0 cfg endpoint) (job_bind (step fate_at prepare "resolve deployment identity and placement"
    (call_session fate_at (session_Resolve pinned prepare) Resolved)) (fun settings => job_bind (persist_config fate_at prepare (set_cf_ProviderConfig settings cfg))
      (fun _ => if prepare then prepare_images fate_at (set_cf_ProviderConfig settings cfg) endpoint
                else bootstrap_platform fate_at (set_cf_ProviderConfig settings cfg) endpoint))) Q R).
  assert (Weak : forall A (m : Job A) (Q1 : A -> Pred), ensures (holding d0 cfg endpoint) m Q1 (holding d0 cfg endpoint) -> ensures (holding d0 cfg endpoint) m Q1 R).
  { intros A m Q1 Hm s Hs. specialize (Hm s Hs). destruct (m s) as [[[a|e]|] s']; auto. }
  apply (ensures_bind _ _ _ (fun _ => holding d0 cfg endpoint)); [apply Weak, ensures_step; [done|done|by apply ensures_call]|intros settings].
  apply (ensures_bind _ _ _ (fun _ => holding d0 cfg endpoint)); [apply Weak, ensures_persist|intros []].
  intros s Hs. destruct prepare.
  - pose proof (Weak _ _ _ (ensures_prepare d0 cfg endpoint settings) s Hs) as P. destruct (prepare_images _ _ _ s) as [[[a|e]|] s']; [|done..]. by exists cfg, endpoint.
  - pose proof (Weak _ _ _ (ensures_platform d0 cfg endpoint settings) s Hs) as P. destruct (bootstrap_platform _ _ _ s) as [[[a|e]|] s']; [|done..]. by exists cfg, endpoint.
Qed.

(** C30. Whatever fails, is cancelled or dies, a run of the bootstrap does an initial part of one
    script and nothing else: each phase of [Phases], numbered in order, reported as running
    and then as done, with exactly its call or write between the two reports; nothing is
    provisioned before the session resolved its settings and the configuration is pinned on
    disk; after the part comes at most one refused call and one report of a failed phase.  When
    the run succeeds the whole script was played, its result has an identity endpoint and
    is the one on disk. *)
Theorem run_follows_script c dir prepare s r s' :
  bootstrap_Run fate_at c dir prepare s = (r, s') ->
  exists p t, run_trace s' = run_trace s ++ p ++ t /\ Forall succeeded p /\ map shape_of p `prefix_of` script prepare (rn_next s) /\ stopped t /\
  (r = Some (Ok tt) -> map shape_of p = script prepare (rn_next s) /\ t = [] /\ rt_IdentityEndpoint (rn_result s') <> "" /\
     (if prepare then dir_endpoint (rn_dir s') else dir_result (rn_dir s')) = Stored (rn_result s')).
Proof.
  intros E. pose proof (plays_run (rn_next s) c dir prepare s eq_refl) as P. pose proof (ensures_run c dir prepare (rn_dir s) s eq_refl) as D.
  rewrite E in P, D. destruct P as (p & t & Et & F & Pr & St & Hok). exists p, t. split_and!; try done. intros ->.
  destruct (Hok tt eq_refl) as (-> & -> & _). destruct D as (cfg & en & _ & _ & (Ne & _) & Hd). split_and!; try done. by destruct prepare.
Qed.
End Trace.

(** ** Across runs *)
Context (json_same_sym : forall a b, json_same a b = true -> json_same b a = true)
        (json_same_trans : forall a b c, json_same a b = true -> json_same b c = true -> json_same a c = true).

Lemma same_raw_sym a b : same_raw a b = true -> same_raw b a = true.
Proof. destruct a, b; cbn; auto. Qed.

Lemma same_raw_trans a b c : same_raw a b = true -> same_raw b c = true -> same_raw a c = true.
Proof. destruct a, b, c; cbn; eauto; done. Qed.

Lemma same_shared_sym a b : same_shared a b = true -> same_shared b a = true.
Proof. unfold same_shared. intros E. bsplit. repeat (apply andb_true_iff; split); try (by apply bool_decide_eq_true). by apply same_raw_sym. Qed.

Lemma same_shared_trans a b c : same_shared a b = true -> same_shared b c = true -> same_shared a c = true.
Proof.
  unfold same_shared. intros E1 E2. bsplit. repeat (apply andb_true_iff; split); try (apply bool_decide_eq_true; congruence).
  by eapply same_raw_trans.
Qed.

Lemma same_shared_blank a b x y x' y' : same_shared (with_images x y a) (with_images x' y' b) = true -> same_shared (with_images "" "" a) (with_images "" "" b) = true.
Proof.
  unfold same_shared, with_images, set_cf_Platform. cbn [cf_DevelopmentStage cf_GroupSuffix cf_Version cf_Name cf_Provider cf_SPIRE cf_Platform cf_FirstZone
    pl_CraneAPIImage pl_DominatorImage pl_KubernetesVersion pl_CiliumVersion pl_PodCIDR]. rewrite !eq_refl_true. intros E. bsplit.
  repeat (apply andb_true_iff; split); try done; by apply bool_decide_eq_true.
Qed.

Lemma reconcile_keeps c st cfg pinned x : reconcile (WithDefaults c) (Some st) = Ok (cfg, pinned) -> keeps_choices st (set_cf_ProviderConfig x cfg).
Proof.
  cbn [reconcile]. destruct (Validate st); [|done]. cbn [rbind]. destruct (_ && _); cbn [require rbind]; [|done]. unfold merged.
  destruct (mergeImage _ _) as [a1 a2] eqn:E1. destruct (mergeImage (pl_DominatorImage _) _) as [d1 d2] eqn:E2.
  destruct (same_shared _ _) eqn:S; cbn; [|done]. intros [= <- _].
  assert (a1 = a2 /\ d1 = d2) as [Ea Ed].
  { unfold same_shared in S. bsplit. split; match goal with A : _ = _ |- _ => exact A end. }
  split.
  - rewrite WithDefaults_provider, WithDefaults_images, WithDefaults_idem. apply same_shared_sym. exact (same_shared_blank _ _ _ _ _ _ S).
  - eapply mergeImage_same; [exact E1|done].
  - eapply mergeImage_same; [exact E2|done].
Qed.

Lemma keeps_choices_trans a b c : keeps_choices a b -> keeps_choices b c -> keeps_choices a c.
Proof.
  intros [S1 A1 D1] [S2 A2 D2]. split; [by eapply same_shared_trans| |].
  - destruct A1 as [->|A1]; [by left|]. destruct A2 as [A2|A2]; [left; congruence|right; congruence].
  - destruct D1 as [->|D1]; [by left|]. destruct D2 as [D2|D2]; [left; congruence|right; congruence].
Qed.

Lemma kept_file_trans {A} (keep : A -> A -> Prop) f g h : (forall a b c, keep a b -> keep b c -> keep a c) ->
  kept_file keep f g -> kept_file keep g h -> kept_file keep f h.
Proof.
  intros T [->|(b & -> & Hb)]; [done|]. intros [->|(c & -> & Hc)]; [right; eauto|]. right. exists c. split; [done|].
  destruct Hb as [->|(a & -> & Ha)]; [by left|]. destruct Hc as [|(b' & [= <-] & Hc)]; [done|]. right. eauto.
Qed.

Lemma found_kept d0 cfg endpoint d r : found d0 cfg endpoint -> holding d0 cfg endpoint d r -> kept_dir d0 d.
Proof.
  intros ((c & stored & pinned & Es & Er) & Ee & Hp) [Hc He]. split.
  - destruct Hc as [->|(x & ->)]; [by left|]. right. eexists. split; [done|]. destruct (dir_config d0) as [| | |st]; try done; [by left|].
    right. exists st. split; [done|]. cbn in Es. injection Es as <-. by eapply reconcile_keeps.
  - destruct He as [->|(e' & -> & Ne & Hn & Hpr & Hsame)]; [by left|]. right. exists e'. split; [done|].
    destruct (dir_endpoint d0) as [| | |e]; try done; [by left|]. right. exists e. split; [done|]. cbn in Ee. injection Ee as <-.
    destruct (Hp e eq_refl) as [P1 P2]. split; [by apply Hsame|]. split; congruence.
Qed.

(** One run, with whatever configuration, options, session and fate, on the directory. *)
Definition run_on (d d' : Dir) : Prop :=
  exists fate_at c dir prepare s, rn_dir s = d /\ d' = rn_dir (snd (bootstrap_Run (W := W) fate_at c dir prepare s)).

Lemma run_on_intro fate_at c dir prepare s : run_on (rn_dir s) (rn_dir (snd (bootstrap_Run fate_at c dir prepare s))).
Proof. by exists fate_at, c, dir, prepare, s. Qed.

Lemma run_on_kept d d' : run_on d d' -> kept_dir d d'.
Proof.
  intros (fate_at & c & dir & prepare & s & Ed & ->). pose proof (ensures_run fate_at c dir prepare d s Ed) as R.
  destruct (bootstrap_Run fate_at c dir prepare s) as [[[[]|e]|] s']; cbn [snd].
  - destruct R as (cfg & en & Hf & Hh & _). by eapply found_kept.
  - destruct R as [->|(cfg & en & Hf & Hh)]; [by split; left|]. by eapply found_kept.
  - destruct R as [->|(cfg & en & Hf & Hh)]; [by split; left|]. by eapply found_kept.
Qed.

(** C31. What a deployment pinned stays pinned: after any sequence of runs on a state directory,
    with any configurations and through any failures and deaths, the pinned configuration
    still has the same provider, name, versions, trust domain, pod network and first zone,
    the same image in each slot that was filled, and the pinned identity endpoint is the same. *)
Theorem deployment_pinned d d' st e :
  rtc run_on d d' -> dir_config d = Stored st -> dir_endpoint d = Stored e ->
  (exists st', dir_config d' = Stored st' /\ (st' = st \/ keeps_choices st st')) /\
  (exists e', dir_endpoint d' = Stored e' /\ rt_IdentityEndpoint e' = rt_IdentityEndpoint e).
Proof.
  intros R Ec Ee. assert (K : kept_dir d d').
  { clear Ec Ee. induction R as [d|d1 d2 d3 H1 _ IH]; [by split; left|]. apply run_on_kept in H1 as [C1 E1]. destruct IH as [C2 E2]. split.
    - eapply kept_file_trans; [apply keeps_choices_trans|done|done].
    - eapply kept_file_trans; [|done|done]. intros a b c (A1 & A2 & A3) (B1 & B2 & B3). repeat split; congruence. }
  destruct K as [C E]. rewrite Ec in C. rewrite Ee in E. split.
  - destruct C as [->|(st' & -> & [|(a & [= <-] & K)])]; [eauto|done|eauto].
  - destruct E as [->|(e' & -> & [|(a & [= <-] & (K & _))])]; [eauto|done|eauto].
Qed.
End Facts.

(** ** A deployment: the endpoint is prepared, then the platform is bootstrapped with images *)
#[local] Instance demo_sessions : Sessions nat := {|
  session_open := fun _ w => Ok w;
  session_Resolve := fun _ _ w => (Ok (Some (JObj [("region", JStr "eu-west-1")])), S w);
  session_do := fun _ w => (Ok tt, S w);
  session_Result := fun _ => mkResult "" "" "10.0.0.5:8081" "" "" "" "" "" None |}.
#[local] Instance demo_texts : Texts := {| error_text := fun _ => "failed"; json_same := fun a b => a == b |}.

Definition demo_runner_config (image : string) : Config :=
  mkConfig "test" "general" 3 "" "aws" (Some (JObj [])) (mkSPIRE "" "" "") (mkPlatform image image "" "" "") None.
Definition fresh_dir : Dir := mkDir Missing Missing Missing.
Definition started (d : Dir) : Running_ := mkRunning d 0%nat zero_result 0 0 [].
Definition works (n : nat) : fate := Works.
Definition prepared_run : option (result unit) * Running_ := bootstrap_Run works (demo_runner_config "") "/state" true (started fresh_dir).
Definition second_start : Running_ := started (rn_dir (snd prepared_run)).
Definition platform_run : option (result unit) * Running_ :=
  bootstrap_Run works (demo_runner_config "registry.example/api:1.2.3") "/state" false second_start.

Lemma run_follows_script_witness :
  map shape_of (run_trace (snd platform_run)) = script false 0 /\ dir_result (rn_dir (snd platform_run)) = Stored (rn_result (snd platform_run)).
Proof.
  destruct (run_follows_script works (demo_runner_config "registry.example/api:1.2.3") "/state" false second_start
    (fst platform_run) (snd platform_run) (surjective_pairing _)) as (p & t & E & _ & _ & _ & H).
  destruct H as (H1 & -> & _ & H2); [vm_compute; reflexivity|]. split; [|exact H2].
  rewrite E, app_nil_r. exact H1.
Defined.

(** An image that changes afterwards is refused, and nothing is written. *)
Definition changed_run : option (result unit) * Running_ :=
  bootstrap_Run works (demo_runner_config "registry.example/api:1.2.4") "/state" false (started (rn_dir (snd platform_run))).
Example changed_image_refused :
  fst changed_run = Some (Err (ErrMsg "deployment already has different shared configuration")) /\ run_trace (snd changed_run) = [].
Proof. vm_compute. auto. Qed.

Definition pinned_config (d : Dir) : Config := match dir_config d with Stored c => c | _ => demo_runner_config "" end.
Definition pinned_endpoint (d : Dir) : Result := match dir_endpoint d with Stored e => e | _ => zero_result end.

Lemma deployment_pinned_witness :
  (exists st', dir_config (rn_dir (snd platform_run)) = Stored st' /\
     (st' = pinned_config (rn_dir second_start) \/ keeps_choices (pinned_config (rn_dir second_start)) st')) /\
  (exists e', dir_endpoint (rn_dir (snd platform_run)) = Stored e' /\
     rt_IdentityEndpoint e' = rt_IdentityEndpoint (pinned_endpoint (rn_dir second_start))).
Proof.
  refine (deployment_pinned (W := nat) _ _ (rn_dir second_start) (rn_dir (snd platform_run)) (pinned_config (rn_dir second_start))
            (pinned_endpoint (rn_dir second_start)) _ _ _).
  - intros a b E. apply bool_decide_eq_true in E. by apply bool_decide_eq_true.
  - intros a b c E1 E2. apply bool_decide_eq_true in E1, E2. apply bool_decide_eq_true. congruence.
  - apply rtc_once. unfold platform_run. apply run_on_intro.
  - vm_compute. reflexivity.
  - vm_compute. reflexivity.
Defined.
