(* ===== verification/AwsConfig.v ===== *)
(** * The AWS deployment: bootstrap_config.go, bootstrap_state.go, bootstrap_artifacts.go and the
      settings of bootstrap_session.go (internal/provider/awscompute)

    The configuration that an AWS bootstrap works with, its defaults and its validation; the
    provider settings that are pinned on disk, their JSON form and the rule by which a later
    run may only fill in what is missing; and [topology], the first zone completed with AWS
    placement.  A Go slice is [None] when it is nil, which JSON shows as null.  Integers are
    int32 where the struct says so: the decoder refuses what does not fit. *)
From S2P Require Import Prelude GoStrings Sql Api Schema Scheduling Catalog Decode Regex Cidr Deployment.
From Stdlib Require Import Ascii String.

Local Open Scope string_scope.
Local Open Scope list_scope.
Local Open Scope Z_scope.
Local Open Scope crane_scope.

(** ** Data *)
Definition slice : Type := option (list string).
Definition elems (s : slice) : list string := default [] s.

Record AWSConfig : Type := mkAWS { aw_Region : string; aw_AccountID : string }.
Record NetworkConfig : Type := mkNetwork {
  nw_VPCCIDR : string; nw_PublicSubnetCIDRs : slice; nw_PrivateSubnetCIDRs : slice; nw_AvailabilityZones : slice; nw_VPCID : string;
  nw_PrivateSubnetIDs : slice; nw_RDSecurityGroupID : string; nw_RDSecurityGroupName : string; nw_PostgresIngressSecurityGroupID : string;
  nw_DBSubnetGroupName : string; nw_SPIRESecurityGroupID : string }.
Record AwsSPIRE : Type := mkAwsSPIRE {
  as_Version : string; as_AMIID : string; as_InstanceType : string; as_IAMInstanceProfile : string; as_KeyName : string; as_StorageGiB : Z;
  as_TrustDomain : string; as_Image : string }.
Record AwsPlatform : Type := mkAwsPlatform {
  ap_CraneAPIImage : string; ap_DominatorImage : string; ap_AMIID : string; ap_InstanceType : string; ap_StorageGiB : Z;
  ap_KubernetesVersion : string; ap_CiliumVersion : string; ap_PodCIDR : string }.
Record RDSConfig : Type := mkRDS {
  rd_Identifier : string; rd_Engine : string; rd_EngineVersion : string; rd_InstanceClass : string; rd_StorageGiB : Z; rd_DeletionProtection : bool;
  rd_MasterUsername : string; rd_Port : Z; rd_MultiAZ : bool; rd_StorageType : string; rd_ManageMasterUserPassword : bool; rd_Databases : slice }.
Record bootstrapConfig : Type := mkBootstrapConfig {
  bc_DevelopmentStage : string; bc_GroupSuffix : string; bc_Name : string; bc_AWS : AWSConfig; bc_Network : NetworkConfig; bc_SPIRE : AwsSPIRE;
  bc_RDS : RDSConfig; bc_Platform : AwsPlatform; bc_FirstZone : RawMessage }.

Record Infrastructure : Type := mkInfra {
  in_SpireAddress : string; in_SpireLoadBalancerARN : string; in_SpireTargetGroupARN : string; in_SpireLoadBalancerSecurityGroupID : string;
  in_VPCID : string; in_PublicSubnetIDs : list string; in_PrivateSubnetIDs : list string; in_AvailabilityZones : list string;
  in_SpireSecurityGroupID : string; in_PlatformSecurityGroupID : string; in_RDSSecurityGroupID : string; in_SpireProfile : string;
  in_PlatformProfile : string; in_WorkerProfile : string; in_DBEndpoint : string; in_DBSecretARN : string; in_RuntimeSecretARN : string }.
Definition no_infra : Infrastructure := mkInfra "" "" "" "" "" [] [] [] "" "" "" "" "" "" "" "" "".

(** ** Defaults *)
Definition or_int (v d : Z) : Z := if v == 0 then d else v.
Definition or_slice (v : slice) (d : list string) : slice := match elems v with [] => Some d | _ => v end.

Definition aws_WithDefaults (c : bootstrapConfig) : bootstrapConfig :=
  let n := bc_Network c in
  let s := bc_SPIRE c in
  let r := bc_RDS c in
  let p := bc_Platform c in
  let name := or_default (bc_Name c) "crane-platform" in
  mkBootstrapConfig (bc_DevelopmentStage c) (bc_GroupSuffix c) name (bc_AWS c)
    (mkNetwork (or_default (nw_VPCCIDR n) "10.80.0.0/16") (or_slice (nw_PublicSubnetCIDRs n) ["10.80.0.0/24"; "10.80.1.0/24"])
       (or_slice (nw_PrivateSubnetCIDRs n) ["10.80.16.0/24"; "10.80.17.0/24"]) (nw_AvailabilityZones n) (nw_VPCID n) (nw_PrivateSubnetIDs n)
       (nw_RDSecurityGroupID n) (or_default (nw_RDSecurityGroupName n) "spire-rds-sg") (nw_PostgresIngressSecurityGroupID n)
       (nw_DBSubnetGroupName n) (nw_SPIRESecurityGroupID n))
    (mkAwsSPIRE (or_default (as_Version s) "1.9.3") (as_AMIID s) (or_default (as_InstanceType s) "t3.small") (as_IAMInstanceProfile s) (as_KeyName s)
       (or_int (as_StorageGiB s) 20) (or_default (as_TrustDomain s) "crane.internal") (as_Image s))
    (mkRDS (or_default (rd_Identifier r) (String.append name "-db")) (or_default (rd_Engine r) "postgres") (rd_EngineVersion r)
       (or_default (rd_InstanceClass r) "db.t3.micro") (or_int (rd_StorageGiB r) 20) true (or_default (rd_MasterUsername r) "postgres")
       (or_int (rd_Port r) 5432) (rd_MultiAZ r) (or_default (rd_StorageType r) "gp3") true (or_slice (rd_Databases r) ["spire"; "crane"]))
    (mkAwsPlatform (ap_CraneAPIImage p) (ap_DominatorImage p) (ap_AMIID p) (or_default (ap_InstanceType p) "t3.medium") (or_int (ap_StorageGiB p) 40)
       (or_default (ap_KubernetesVersion p) "v1.35.0") (or_default (ap_CiliumVersion p) "1.19.0") (or_default (ap_PodCIDR p) "10.244.0.0/16"))
    (match bc_FirstZone c with Some JNull => None | z => z end).

(** ** Lists of names *)
Definition sort_strings (l : list string) : list string := order_by String.leb l.
Definition nul : string := String (ascii_of_nat 0) "".
Definition sameStrings (a b : list string) : bool := Join (sort_strings a) nul == Join (sort_strings b) nul.

(** ** The first zone on AWS *)
Definition sharedConfig (c : bootstrapConfig) : Config :=
  let s := bc_SPIRE c in
  let p := bc_Platform c in
  mkConfig (bc_DevelopmentStage c) (bc_GroupSuffix c) 3 (bc_Name c) "aws" (Some (JObj []))
    (mkSPIRE (as_Version s) (as_TrustDomain s) (as_Image s))
    (mkPlatform (ap_CraneAPIImage p) (ap_DominatorImage p) (ap_KubernetesVersion p) (ap_CiliumVersion p) (ap_PodCIDR p)) (bc_FirstZone c).

(** [json.Marshal] of a map: its keys in order. *)
Definition marshal_map (m : gmap string Json) : Json := JObj (order_by (fun a b => String.leb (fst a) (fst b)) (map_to_list m)).
(** [json.Unmarshal] into a map: the last of equal keys wins. *)
Definition dec_map (j : Json) : option (gmap string Json) := match j with JObj l => Some (list_to_map (rev l)) | _ => None end.

Definition json_string (j : Json) : option string := match j with JStr s => Some s | _ => None end.

(** The security groups of the template, with the platform's. *)
Definition with_group (id : string) (j : option Json) : Json :=
  let ids := match j with Some (JArr l) => l | _ => [] end in
  if existsb (fun v => json_string v == Some id) ids then JArr ids else JArr (ids ++ [JStr id]).

Definition complete_launch (infra : Infrastructure) (subnet : string) (launch : gmap string Json) : gmap string Json :=
  let launch := <["subnet_id" := JStr subnet]> launch in
  let launch := <["iam_instance_profile" := JStr (in_WorkerProfile infra)]> launch in
  let launch := match launch !! "associate_public_ip_address" with Some _ => launch | None => <["associate_public_ip_address" := JBool true]> launch end in
  <["security_group_ids" := with_group (in_PlatformSecurityGroupID infra) (launch !! "security_group_ids")]> launch.

Definition set_group_aws (zone : string) (naming : NodeGroupNaming) (launch : RawMessage) (sch : SchedulingTemplate) (g : NodeGroupInput) : NodeGroupInput :=
  mkNodeGroupInput naming (gi_ID g) (gi_ClusterID g) (gi_NodePoolID g) (gi_ZoneID g) (gi_CapacityClass g) zone (gi_MinNodes g) (gi_MaxNodes g)
    (gi_TemplateRevision g) (gi_PerNode g) launch sch.
Definition set_fz_Zone (z : ZoneInput) (i : FirstZoneInput) : FirstZoneInput := mkFirstZoneInput z (fz_Cluster i) (fz_Membership i) (fz_Pool i) (fz_Group i).
Definition set_fz_Group (g : NodeGroupInput) (i : FirstZoneInput) : FirstZoneInput := mkFirstZoneInput (fz_Zone i) (fz_Cluster i) (fz_Membership i) (fz_Pool i) g.

(** One letter after the region. *)
Definition standard_zone (az : string) : bool := match az with String c EmptyString => lower_letter c | _ => false end.

Fixpoint zone_index (zone : string) (l : list string) : option nat :=
  match l with [] => None | z :: r => if z == zone then Some O else option_map S (zone_index zone r) end.

Definition topology (c : bootstrapConfig) (infra : Infrastructure) : result FirstZoneInput :=
  let* i := FirstZone (sharedConfig c) in
  match in_AvailabilityZones infra, in_PublicSubnetIDs infra with
  | pz :: _, _ :: _ =>
      let region := aw_Region (bc_AWS c) in
      let z := fz_Zone i in
      let zone := mkZoneInput (zi_ID z) "aws" (aw_AccountID (bc_AWS c)) region pz (zi_KubernetesRegion z) (zi_KubernetesZone z) in
      let g := fz_Group i in
      let az := TrimPrefix pz region in
      guard standard_zone az else ErrMsg "AWS placement requires a standard availability zone naming mapping" in
      guard unset_or (n_Region (gi_Naming g)) region && unset_or (n_AZ (gi_Naming g)) az else ErrMsg "group naming conflicts with AWS placement" in
      let naming := mkNaming (n_Provider (gi_Naming g)) (n_DevelopmentStage (gi_Naming g)) region az (n_Group (gi_Naming g)) in
      let sch := if InstanceType (gi_Scheduling g) == "" then mkScheduling (ap_InstanceType (bc_Platform c)) "amd64" region pz ∅ [] else gi_Scheduling g in
      let* g := NormalizeID (set_group_aws pz naming (gi_LaunchParameters g) sch g) in
      let raw := default (marshal_map {[ "image_id" := JStr (ap_AMIID (bc_Platform c)); "instance_type" := JStr (ap_InstanceType (bc_Platform c)) ]})
                   (gi_LaunchParameters g) in
      let* launch := of_option (ErrMsg "first-zone launch parameters must be a JSON object") (dec_map raw) in
      let* subnet := of_option (ErrMsg "zone has no deployment subnet")
                       (k ← zone_index pz (in_AvailabilityZones infra); in_PublicSubnetIDs infra !! k) in
      let g := set_group_aws pz naming (Some (marshal_map (complete_launch infra subnet launch))) sch g in
      let i := set_fz_Group g (set_fz_Zone zone i) in
      let* _ := if aw_AccountID (bc_AWS c) == "" then Ok tt else ValidateTopology i in
      Ok i
  | _, _ => Err (ErrMsg "network discovery returned no platform availability zone/subnet")
  end.

(** ** Validation *)
Definition database_name : regex := RCat (RClass lower_letter) (RUpTo 62 (RClass (fun c => lower_letter c || digit c || any_of "_" c))).
Definition region_name : regex :=
  RCat (RRep 2 (RClass lower_letter)) (RCat (RPlus (RCat (RLit "-") (RPlus (RClass lower_letter)))) (RCat (RLit "-") (RPlus (RClass digit)))).
Definition account_number : regex := RRep 12 (RClass digit).
Definition aws_identifier : regex := RPlus (RClass (fun c => letter c || digit c || any_of "._-" c)).

(** The subnets, each inside the VPC and apart from those before it. *)
Fixpoint check_subnets (vpc : Prefix) (seen : list Prefix) (l : list string) : result unit :=
  match l with
  | [] => Ok tt
  | raw :: l =>
      match ParsePrefix raw with
      | Some p =>
          guard canonical p && (p_Bits vpc <? p_Bits p) && (p_Bits p <=? 28) && Prefix_Contains vpc (p_Addr p)
            else ErrMsg "subnet must be a canonical IPv4 CIDR within network.vpc_cidr" in
          guard negb (existsb (fun other => Prefix_Overlaps other p) seen) else ErrMsg "subnet CIDRs must not overlap" in
          check_subnets vpc (seen ++ [p]) l
      | None => Err (ErrMsg "subnet must be a canonical IPv4 CIDR within network.vpc_cidr")
      end
  end.

Definition check_network (n : NetworkConfig) (podCIDR : string) : result unit :=
  let* vpc := of_option (ErrMsg "network.vpc_cidr must be a canonical IPv4 CIDR") (ParsePrefix (nw_VPCCIDR n)) in
  guard canonical vpc && (16 <=? p_Bits vpc) && (p_Bits vpc <=? 28) else ErrMsg "network.vpc_cidr must be a canonical IPv4 CIDR" in
  guard (List.length (elems (nw_PublicSubnetCIDRs n)) =? 2)%nat && (List.length (elems (nw_PrivateSubnetCIDRs n)) =? 2)%nat
    else ErrMsg "provide two public and two private subnet CIDRs" in
  guard match elems (nw_AvailabilityZones n) with [] => true | [a; b] => a != b | _ => false end
    else ErrMsg "provide two distinct availability zones, or omit to discover them" in
  let* _ := check_subnets vpc [] (elems (nw_PublicSubnetCIDRs n) ++ elems (nw_PrivateSubnetCIDRs n)) in
  let* pod := of_option (ErrMsg "platform.pod_cidr must be a canonical IPv4 CIDR outside the VPC") (ParsePrefix podCIDR) in
  guard canonical pod && negb (Prefix_Overlaps pod vpc) else ErrMsg "platform.pod_cidr must be a canonical IPv4 CIDR outside the VPC" in
  Ok tt.

(** The ranges over maps report the first offender in an unspecified order; the messages here
    name none. *)
Definition aws_Validate (c : bootstrapConfig) : result unit :=
  let c := aws_WithDefaults c in
  let n := bc_Network c in
  let s := bc_SPIRE c in
  let r := bc_RDS c in
  let p := bc_Platform c in
  let region := aw_Region (bc_AWS c) in
  let blank := fun v => TrimSpace v == "" in
  guard negb (existsb blank [region; rd_Identifier r; rd_Engine r; rd_InstanceClass r; as_InstanceType s]) else ErrMsg "is required" in
  guard 20 <=? rd_StorageGiB r else ErrMsg "rds.storage_gib must be at least 20" in
  guard 8 <=? as_StorageGiB s else ErrMsg "spire.storage_gib must be at least 8" in
  guard as_TrustDomain s != "" else ErrMsg "spire.trust_domain is required" in
  guard rd_DeletionProtection r else ErrMsg "rds.deletion_protection must be enabled" in
  guard (1 <=? rd_Port r) && (rd_Port r <=? 65535) else ErrMsg "rds.port must be between 1 and 65535" in
  guard negb (blank (rd_MasterUsername r)) else ErrMsg "rds.master_username is required" in
  guard forallb (full_match database_name) (elems (rd_Databases r)) else ErrMsg "invalid database name" in
  guard full_match deployment_name (bc_Name c) else ErrMsg "name must be 3-30 lowercase letters, digits or hyphens, starting with a letter" in
  guard full_match region_name region else ErrMsg "invalid aws.region" in
  guard negb (HasPrefix region "cn-" || HasPrefix region "us-gov-" || HasPrefix region "us-iso")
    else ErrMsg "bootstrap currently supports commercial AWS regions only" in
  guard (aw_AccountID (bc_AWS c) == "") || full_match account_number (aw_AccountID (bc_AWS c)) else ErrMsg "aws.account_id must contain 12 digits" in
  guard (nw_VPCID n == "") && match elems (nw_PrivateSubnetIDs n) with [] => true | _ => false end
    else ErrMsg "bootstrap creates its own network; omit existing network IDs" in
  guard forallb (fun v => v == "") [nw_RDSecurityGroupID n; nw_SPIRESecurityGroupID n; nw_PostgresIngressSecurityGroupID n; nw_DBSubnetGroupName n;
                                     as_IAMInstanceProfile s; as_KeyName s]
    else ErrMsg "bootstrap provisions its own security groups, subnet group and instance profiles; omit existing IDs and SSH keys" in
  guard (as_Image s == "") || (as_Image s == String.append "ghcr.io/spiffe/spire-server:" (as_Version s))
    else ErrMsg "spire.image must match the pinned public SPIRE server version, or be omitted" in
  guard sameStrings (elems (rd_Databases r)) ["spire"; "crane"] else ErrMsg "bootstrap requires exactly the spire and crane databases" in
  let* _ := check_network n (ap_PodCIDR p) in
  guard rd_Engine r == "postgres" else ErrMsg "rds.engine must be postgres" in
  guard 20 <=? ap_StorageGiB p else ErrMsg "platform.storage_gib must be at least 20" in
  guard full_match release_version (as_Version s) && full_match release_version (ap_CiliumVersion p) else ErrMsg "must be an exact release version" in
  guard full_match (RCat (RLit "v") release_version) (ap_KubernetesVersion p)
    else ErrMsg "platform.kubernetes_version must be an exact v-prefixed version" in
  guard full_match trust_domain_name (as_TrustDomain s) else ErrMsg "invalid spire.trust_domain" in
  guard forallb (fun v => (v == "") || full_match aws_identifier v)
      [rd_Identifier r; rd_MasterUsername r; rd_InstanceClass r; rd_EngineVersion r; as_InstanceType s; as_AMIID s; ap_InstanceType p; ap_AMIID p]
    else ErrMsg "invalid" in
  guard forallb (fun v => (v == "") || PinnedImage v) [ap_CraneAPIImage p; ap_DominatorImage p]
    else ErrMsg "must be a versioned GHCR/ECR image or a digest reference" in
  match bc_FirstZone c with
  | None => Ok tt
  | Some _ =>
      let* _ := topology c (mkInfra "" "" "" "" "" ["validation-only"] [] [String.append region "a"] "" "" "" "" "" "" "" "" "") in
      Ok tt
  end.

(** ** Settings *)
Record BootstrapHost : Type := mkBootstrapHost { bh_AMIID : string; bh_InstanceType : string; bh_StorageGiB : Z }.
Record BootstrapSettings : Type := mkSettings {
  se_Region : string; se_AccountID : string; se_Network : NetworkConfig; se_RDS : RDSConfig; se_SPIREHost : BootstrapHost; se_PlatformHost : BootstrapHost }.

Definition composeBootstrapConfig (shared : Config) (se : BootstrapSettings) : bootstrapConfig :=
  let s := cf_SPIRE shared in
  let p := cf_Platform shared in
  let sh := se_SPIREHost se in
  let ph := se_PlatformHost se in
  mkBootstrapConfig (cf_DevelopmentStage shared) (cf_GroupSuffix shared) (cf_Name shared) (mkAWS (se_Region se) (se_AccountID se)) (se_Network se)
    (mkAwsSPIRE (sp_Version s) (bh_AMIID sh) (bh_InstanceType sh) "" "" (bh_StorageGiB sh) (sp_TrustDomain s) (sp_Image s)) (se_RDS se)
    (mkAwsPlatform (pl_CraneAPIImage p) (pl_DominatorImage p) (bh_AMIID ph) (bh_InstanceType ph) (bh_StorageGiB ph) (pl_KubernetesVersion p)
       (pl_CiliumVersion p) (pl_PodCIDR p)) (cf_FirstZone shared).

Definition settingsFor (c : bootstrapConfig) : BootstrapSettings :=
  mkSettings (aw_Region (bc_AWS c)) (aw_AccountID (bc_AWS c)) (bc_Network c) (bc_RDS c)
    (mkBootstrapHost (as_AMIID (bc_SPIRE c)) (as_InstanceType (bc_SPIRE c)) (as_StorageGiB (bc_SPIRE c)))
    (mkBootstrapHost (ap_AMIID (bc_Platform c)) (ap_InstanceType (bc_Platform c)) (ap_StorageGiB (bc_Platform c))).

(** *** JSON *)
Definition enc_slice (s : slice) : Json := match s with None => JNull | Some l => JArr (map JStr l) end.
Definition enc_omitempty (name v : string) : list (string * Json) := if v == "" then [] else [(name, JStr v)].
Definition enc_network (n : NetworkConfig) : Json :=
  JObj [("vpc_cidr", JStr (nw_VPCCIDR n)); ("public_subnet_cidrs", enc_slice (nw_PublicSubnetCIDRs n));
        ("private_subnet_cidrs", enc_slice (nw_PrivateSubnetCIDRs n)); ("availability_zones", enc_slice (nw_AvailabilityZones n));
        ("vpc_id", JStr (nw_VPCID n)); ("private_subnet_ids", enc_slice (nw_PrivateSubnetIDs n));
        ("rds_security_group_id", JStr (nw_RDSecurityGroupID n)); ("rds_security_group_name", JStr (nw_RDSecurityGroupName n));
        ("postgres_ingress_security_group_id", JStr (nw_PostgresIngressSecurityGroupID n)); ("db_subnet_group_name", JStr (nw_DBSubnetGroupName n));
        ("spire_security_group_id", JStr (nw_SPIRESecurityGroupID n))].
Definition enc_rds (r : RDSConfig) : Json :=
  JObj [("identifier", JStr (rd_Identifier r)); ("engine", JStr (rd_Engine r)); ("engine_version", JStr (rd_EngineVersion r));
        ("instance_class", JStr (rd_InstanceClass r)); ("storage_gib", JNum (rd_StorageGiB r)); ("deletion_protection", JBool (rd_DeletionProtection r));
        ("master_username", JStr (rd_MasterUsername r)); ("port", JNum (rd_Port r)); ("multi_az", JBool (rd_MultiAZ r));
        ("storage_type", JStr (rd_StorageType r)); ("manage_master_user_password", JBool (rd_ManageMasterUserPassword r));
        ("databases", enc_slice (rd_Databases r))].
Definition enc_host (h : BootstrapHost) : Json :=
  JObj (enc_omitempty "ami_id" (bh_AMIID h) ++ [("instance_type", JStr (bh_InstanceType h)); ("storage_gib", JNum (bh_StorageGiB h))]).
Definition enc_settings (s : BootstrapSettings) : Json :=
  JObj ([("region", JStr (se_Region s))] ++ enc_omitempty "account_id" (se_AccountID s) ++
        [("network", enc_network (se_Network s)); ("rds", enc_rds (se_RDS s)); ("spire_host", enc_host (se_SPIREHost s));
         ("platform_host", enc_host (se_PlatformHost s))]).

Definition int32 (n : Z) : bool := (- 2 ^ 31 <=? n) && (n <=? MaxInt32).
Definition dec_int32 (j : option Json) : option Z :=
  match j with None | Some JNull => Some 0 | Some (JNum n) => if int32 n then Some n else None | _ => None end.
Definition dec_bool (j : option Json) : option bool := match j with None | Some JNull => Some false | Some (JBool b) => Some b | _ => None end.
Definition dec_slice (j : option Json) : option slice :=
  match j with
  | None | Some JNull => Some None
  | Some (JArr l) => v ← mapM (fun x => dec_string (Some x)) l; Some (Some v)
  | _ => None
  end.

Definition dec_network (j : option Json) : option NetworkConfig :=
  l ← dec_object j;
  c ← dec_string (field "vpc_cidr" l); pu ← dec_slice (field "public_subnet_cidrs" l); pr ← dec_slice (field "private_subnet_cidrs" l);
  az ← dec_slice (field "availability_zones" l); v ← dec_string (field "vpc_id" l); ids ← dec_slice (field "private_subnet_ids" l);
  rg ← dec_string (field "rds_security_group_id" l); rn ← dec_string (field "rds_security_group_name" l);
  pg ← dec_string (field "postgres_ingress_security_group_id" l); db ← dec_string (field "db_subnet_group_name" l);
  sg ← dec_string (field "spire_security_group_id" l);
  Some (mkNetwork c pu pr az v ids rg rn pg db sg).
Definition dec_rds (j : option Json) : option RDSConfig :=
  l ← dec_object j;
  i ← dec_string (field "identifier" l); e ← dec_string (field "engine" l); ev ← dec_string (field "engine_version" l);
  ic ← dec_string (field "instance_class" l); st ← dec_int32 (field "storage_gib" l); dp ← dec_bool (field "deletion_protection" l);
  mu ← dec_string (field "master_username" l); po ← dec_int32 (field "port" l); mz ← dec_bool (field "multi_az" l);
  ty ← dec_string (field "storage_type" l); mm ← dec_bool (field "manage_master_user_password" l); db ← dec_slice (field "databases" l);
  Some (mkRDS i e ev ic st dp mu po mz ty mm db).
Definition dec_host (j : option Json) : option BootstrapHost :=
  l ← dec_object j;
  a ← dec_string (field "ami_id" l); i ← dec_string (field "instance_type" l); s ← dec_int32 (field "storage_gib" l);
  Some (mkBootstrapHost a i s).
Definition dec_settings (j : option Json) : option BootstrapSettings :=
  l ← dec_object j;
  r ← dec_string (field "region" l); a ← dec_string (field "account_id" l); n ← dec_network (field "network" l); d ← dec_rds (field "rds" l);
  s ← dec_host (field "spire_host" l); p ← dec_host (field "platform_host" l);
  Some (mkSettings r a n d s p).

Definition network_fields : list string :=
  ["vpc_cidr"; "public_subnet_cidrs"; "private_subnet_cidrs"; "availability_zones"; "vpc_id"; "private_subnet_ids"; "rds_security_group_id";
   "rds_security_group_name"; "postgres_ingress_security_group_id"; "db_subnet_group_name"; "spire_security_group_id"].
Definition rds_fields : list string :=
  ["identifier"; "engine"; "engine_version"; "instance_class"; "storage_gib"; "deletion_protection"; "master_username"; "port"; "multi_az";
   "storage_type"; "manage_master_user_password"; "databases"].
Definition host_fields : list string := ["ami_id"; "instance_type"; "storage_gib"].
Definition known_settings (j : option Json) : bool :=
  known ["region"; "account_id"; "network"; "rds"; "spire_host"; "platform_host"] j && known network_fields (sub j "network") &&
  known rds_fields (sub j "rds") && known host_fields (sub j "spire_host") && known host_fields (sub j "platform_host").

Definition decodeBootstrapSettings (raw : RawMessage) : result BootstrapSettings :=
  match raw with
  | None => Err (ErrMsg "decode AWS provider_config")
  | Some j => if known_settings (Some j) then of_option (ErrMsg "decode AWS provider_config") (dec_settings (Some j)) else Err (ErrMsg "decode AWS provider_config")
  end.

Definition decodePinnedBootstrapSettings (raw : RawMessage) : result BootstrapSettings :=
  match raw with
  | Some JNull => decodeBootstrapSettings (Some JNull)
  | Some j =>
      let* fields := of_option (ErrMsg "decode pinned AWS configuration") (dec_map j) in
      decodeBootstrapSettings (Some (marshal_map (delete "observability" fields)))
  | None => Err (ErrMsg "decode pinned AWS configuration")
  end.

(** *** Pinning *)
Definition set_aws (v : AWSConfig) (c : bootstrapConfig) : bootstrapConfig :=
  mkBootstrapConfig (bc_DevelopmentStage c) (bc_GroupSuffix c) (bc_Name c) v (bc_Network c) (bc_SPIRE c) (bc_RDS c) (bc_Platform c) (bc_FirstZone c).
Definition set_zones (v : slice) (n : NetworkConfig) : NetworkConfig :=
  mkNetwork (nw_VPCCIDR n) (nw_PublicSubnetCIDRs n) (nw_PrivateSubnetCIDRs n) v (nw_VPCID n) (nw_PrivateSubnetIDs n) (nw_RDSecurityGroupID n)
    (nw_RDSecurityGroupName n) (nw_PostgresIngressSecurityGroupID n) (nw_DBSubnetGroupName n) (nw_SPIRESecurityGroupID n).
Definition set_network (v : NetworkConfig) (c : bootstrapConfig) : bootstrapConfig :=
  mkBootstrapConfig (bc_DevelopmentStage c) (bc_GroupSuffix c) (bc_Name c) (bc_AWS c) v (bc_SPIRE c) (bc_RDS c) (bc_Platform c) (bc_FirstZone c).
Definition set_images (spire platform : string) (c : bootstrapConfig) : bootstrapConfig :=
  let s := bc_SPIRE c in
  let p := bc_Platform c in
  mkBootstrapConfig (bc_DevelopmentStage c) (bc_GroupSuffix c) (bc_Name c) (bc_AWS c) (bc_Network c)
    (mkAwsSPIRE (as_Version s) spire (as_InstanceType s) (as_IAMInstanceProfile s) (as_KeyName s) (as_StorageGiB s) (as_TrustDomain s) (as_Image s))
    (bc_RDS c)
    (mkAwsPlatform (ap_CraneAPIImage p) (ap_DominatorImage p) platform (ap_InstanceType p) (ap_StorageGiB p) (ap_KubernetesVersion p)
       (ap_CiliumVersion p) (ap_PodCIDR p)) (bc_FirstZone c).

Definition with_ami (v : string) (h : BootstrapHost) : BootstrapHost := mkBootstrapHost v (bh_InstanceType h) (bh_StorageGiB h).

(** The candidate completed from what was pinned, and what was pinned completed from it. *)
Definition fill_candidate (candidate previous : BootstrapSettings) : BootstrapSettings :=
  let n := se_Network candidate in
  mkSettings (se_Region candidate) (or_default (se_AccountID candidate) (se_AccountID previous))
    (match elems (nw_AvailabilityZones n) with [] => set_zones (nw_AvailabilityZones (se_Network previous)) n | _ => n end) (se_RDS candidate)
    (with_ami (or_default (bh_AMIID (se_SPIREHost candidate)) (bh_AMIID (se_SPIREHost previous))) (se_SPIREHost candidate))
    (with_ami (or_default (bh_AMIID (se_PlatformHost candidate)) (bh_AMIID (se_PlatformHost previous))) (se_PlatformHost candidate)).
Definition fill_previous (candidate previous : BootstrapSettings) : BootstrapSettings :=
  mkSettings (se_Region previous) (se_AccountID previous) (se_Network previous) (se_RDS previous)
    (with_ami (or_default (bh_AMIID (se_SPIREHost previous)) (bh_AMIID (se_SPIREHost candidate))) (se_SPIREHost previous))
    (with_ami (or_default (bh_AMIID (se_PlatformHost previous)) (bh_AMIID (se_PlatformHost candidate))) (se_PlatformHost previous)).

(** Both sides are marshalled and compared as decoded values: the encodings are equal. *)
Definition mergePinnedSettings (c : bootstrapConfig) (previous : BootstrapSettings) : result bootstrapConfig :=
  let candidate := settingsFor c in
  let a := fill_candidate candidate previous in
  guard enc_settings a == enc_settings (fill_previous candidate previous)
    else ErrMsg "deployment already has different AWS configuration; use its original config or a new deployment name" in
  Ok (set_images (bh_AMIID (se_SPIREHost a)) (bh_AMIID (se_PlatformHost a))
        (set_network (set_zones (nw_AvailabilityZones (se_Network a)) (bc_Network c)) (set_aws (mkAWS (aw_Region (bc_AWS c)) (se_AccountID a)) c))).

Definition NewBootstrap (shared : Config) : result bootstrapConfig :=
  let shared := WithDefaults shared in
  let* _ := Validate shared in
  let* settings := decodeBootstrapSettings (cf_ProviderConfig shared) in
  let c := aws_WithDefaults (composeBootstrapConfig shared settings) in
  let* _ := aws_Validate c in
  Ok c.
