(* ===== verification/AwsConfigFacts.v ===== *)
(** * The AWS configuration: addresses, pinned settings and the first zone *)
From S2P Require Import Prelude GoStrings Sql Api Schema Scheduling Catalog Decode Regex Cidr Deployment AwsConfig.
From Stdlib Require Import Ascii String.

Local Open Scope string_scope.
Local Open Scope list_scope.
Local Open Scope Z_scope.
Local Open Scope crane_scope.

(** ** Addresses *)
Definition apart (p q : Prefix) : Prop := forall a, address a -> Prefix_Contains p a = true -> Prefix_Contains q a = true -> False.
Definition within (vpc p : Prefix) : Prop := forall a, Prefix_Contains p a = true -> Prefix_Contains vpc a = true.

Lemma overlaps_apart p q : well_formed p -> well_formed q -> Prefix_Overlaps p q = false -> apart p q.
Proof.
  intros Wp Wq H a Ha Hp Hq. assert (Prefix_Overlaps p q = true) as E by (apply Prefix_Overlaps_spec; eauto). by rewrite E in H.
Qed.

Lemma check_subnets_ok vpc seen l : well_formed vpc -> Forall well_formed seen -> check_subnets vpc seen l = Ok tt ->
  exists ps, mapM ParsePrefix l = Some ps /\ Forall (fun p => well_formed p /\ canonical p = true /\ p_Bits vpc < p_Bits p <= 28 /\ within vpc p) ps /\
    ForallOrdPairs apart ps /\ forall o p, In o seen -> In p ps -> apart o p.
Proof.
  intros Wv. revert seen. induction l as [|raw l IH]; intros seen Ws H.
  - exists []. split_and!; [done|constructor|constructor|]. by intros o p _ [].
  - cbn [check_subnets] in H. destruct (ParsePrefix raw) as [p|] eqn:E; [|done]. inv_ok. bsplit. pose proof (ParsePrefix_wf _ _ E) as Wp.
    destruct (IH (seen ++ [p])) as (ps & Em & Fp & Op & Sp); [apply Forall_app; auto|done|].
    assert (forall o, In o seen -> apart o p) as Ho.
    { intros o Hin. apply overlaps_apart; [by eapply Forall_forall in Ws; [|apply list_elem_of_In]|done|].
      destruct (Prefix_Overlaps o p) eqn:Eo; [|done]. assert (existsb (fun other => Prefix_Overlaps other p) seen = true) as K by (apply existsb_exists; eauto). congruence. }
    exists (p :: ps). split_and!.
    + cbn. rewrite E. cbn. by rewrite Em.
    + constructor; [|done]. split_and!; [done..|]. intros a Ha. eapply (Prefix_Contains_sub vpc p); try done. lia.
    + constructor; [|done]. apply Forall_forall. intros q Hq%list_elem_of_In. apply Sp; [|done]. apply in_app_iff. right. by left.
    + intros o q Hin [<-|Hq]; [by apply Ho|]. apply Sp; [|done]. apply in_app_iff. by left.
Qed.

Lemma ordered_pairs {A} (R : A -> A -> Prop) l : ForallOrdPairs R l -> forall i j p q, i <> j -> l !! i = Some p -> l !! j = Some q -> R p q \/ R q p.
Proof.
  induction 1 as [|x l Hx _ IH]; [done|]. intros [|i] [|j] p q Hij Hp Hq; cbn in *; [done| | |].
  - injection Hp as <-. left. eapply Forall_lookup_1; eauto.
  - injection Hq as <-. right. eapply Forall_lookup_1; eauto.
  - eapply IH; [|done..]. lia.
Qed.

Lemma check_network_ok n podCIDR : check_network n podCIDR = Ok tt ->
  exists vpc pod subnets, ParsePrefix (nw_VPCCIDR n) = Some vpc /\ ParsePrefix podCIDR = Some pod /\
    mapM ParsePrefix (elems (nw_PublicSubnetCIDRs n) ++ elems (nw_PrivateSubnetCIDRs n)) = Some subnets /\ List.length subnets = 4%nat /\
    canonical vpc = true /\ canonical pod = true /\ 16 <= p_Bits vpc <= 28 /\ Forall (fun p => well_formed p /\ canonical p = true /\ p_Bits vpc < p_Bits p <= 28 /\ within vpc p) subnets /\
    ForallOrdPairs apart subnets /\ apart pod vpc.
Proof.
  unfold check_network. intros H. inv_ok. bsplit. destruct x2. cbn in *. apply Nat.eqb_eq in Hx7, Hx1.
  pose proof (ParsePrefix_wf _ _ Hx) as Wv. pose proof (ParsePrefix_wf _ _ Hx4) as Wp. destruct x3.
  destruct (check_subnets_ok x [] _ Wv ltac:(constructor) Hx3) as (ps & Em & Fp & Op & _). exists x, x4, ps. split_and!; try done.
  - apply length_mapM in Em. rewrite length_app in Em. lia.
  - by apply overlaps_apart.
Qed.

Lemma aws_Validate_network c : aws_Validate c = Ok tt -> check_network (bc_Network (aws_WithDefaults c)) (ap_PodCIDR (bc_Platform (aws_WithDefaults c))) = Ok tt.
Proof.
  unfold aws_Validate. generalize (aws_WithDefaults c) as d. intros d. cbv zeta. intros H. inv_ok.
  match goal with K : check_network _ _ = Ok ?u |- _ => by destruct u end.
Qed.

(** C24. A validated configuration, with its defaults filled in, has a network whose addresses do
    not collide: the VPC, the pod network and the four subnets are canonical IPv4 prefixes; every
    address of a subnet is an address of the VPC, no address is in two subnets, and no pod
    address is in the VPC; prefix lengths are within what AWS accepts (16 to 28). *)
Theorem validated_network_is_disjoint c : aws_Validate c = Ok tt ->
  let n := bc_Network (aws_WithDefaults c) in
  exists vpc pod subnets, ParsePrefix (nw_VPCCIDR n) = Some vpc /\ ParsePrefix (ap_PodCIDR (bc_Platform (aws_WithDefaults c))) = Some pod /\
    mapM ParsePrefix (elems (nw_PublicSubnetCIDRs n) ++ elems (nw_PrivateSubnetCIDRs n)) = Some subnets /\ List.length subnets = 4%nat /\
    canonical vpc = true /\ canonical pod = true /\ 16 <= p_Bits vpc <= 28 /\
    Forall (fun p => canonical p = true /\ p_Bits vpc < p_Bits p <= 28 /\ forall a, Prefix_Contains p a = true -> Prefix_Contains vpc a = true) subnets /\
    (forall i j p q a, i <> j -> subnets !! i = Some p -> subnets !! j = Some q -> address a ->
       Prefix_Contains p a = true -> Prefix_Contains q a = true -> False) /\
    (forall a, address a -> Prefix_Contains pod a = true -> Prefix_Contains vpc a = true -> False).
Proof.
  intros H n. apply aws_Validate_network, check_network_ok in H as (vpc & pod & subnets & H1 & H2 & H3 & H4 & Cv & Cp & H5 & H6 & H7 & H8).
  exists vpc, pod, subnets. split_and!; try done; try lia.
  - eapply Forall_impl; [exact H6|]. intros p (_ & Hc & Hb & Hw). done.
  - intros i j p q a Hij Hp Hq Ha Ip Iq. destruct (ordered_pairs apart subnets H7 i j p q Hij Hp Hq) as [K|K]; [by apply (K a)|by apply (K a)].
Qed.

(** ** JSON of the settings *)
Lemma dec_enc_slice s : dec_slice (Some (enc_slice s)) = Some s.
Proof.
  destruct s as [l|]; [|done]. unfold dec_slice, enc_slice.
  assert (mapM (fun x => dec_string (Some x)) (map JStr l) = Some l) as E; [|by rewrite E].
  induction l as [|x l IH]; [done|]. cbn in IH |- *. by rewrite IH.
Qed.

(** Objects with the keys in their places. *)
Lemma dec_network_object c pu pr az v ids rg rn pg db sg :
  dec_network (Some (JObj [("vpc_cidr", c); ("public_subnet_cidrs", pu); ("private_subnet_cidrs", pr); ("availability_zones", az); ("vpc_id", v);
    ("private_subnet_ids", ids); ("rds_security_group_id", rg); ("rds_security_group_name", rn); ("postgres_ingress_security_group_id", pg);
    ("db_subnet_group_name", db); ("spire_security_group_id", sg)])) =
  (c ← dec_string (Some c); pu ← dec_slice (Some pu); pr ← dec_slice (Some pr); az ← dec_slice (Some az); v ← dec_string (Some v); ids ← dec_slice (Some ids);
   rg ← dec_string (Some rg); rn ← dec_string (Some rn); pg ← dec_string (Some pg); db ← dec_string (Some db); sg ← dec_string (Some sg);
   Some (mkNetwork c pu pr az v ids rg rn pg db sg)).
Proof. reflexivity. Qed.

Lemma dec_rds_object i e ev ic st dp mu po mz ty mm db :
  dec_rds (Some (JObj [("identifier", i); ("engine", e); ("engine_version", ev); ("instance_class", ic); ("storage_gib", st); ("deletion_protection", dp);
    ("master_username", mu); ("port", po); ("multi_az", mz); ("storage_type", ty); ("manage_master_user_password", mm); ("databases", db)])) =
  (i ← dec_string (Some i); e ← dec_string (Some e); ev ← dec_string (Some ev); ic ← dec_string (Some ic); st ← dec_int32 (Some st); dp ← dec_bool (Some dp);
   mu ← dec_string (Some mu); po ← dec_int32 (Some po); mz ← dec_bool (Some mz); ty ← dec_string (Some ty); mm ← dec_bool (Some mm); db ← dec_slice (Some db);
   Some (mkRDS i e ev ic st dp mu po mz ty mm db)).
Proof. reflexivity. Qed.

Lemma dec_enc_network n : dec_network (Some (enc_network n)) = Some n.
Proof. unfold enc_network. rewrite dec_network_object, !dec_enc_slice. by destruct n. Qed.

Lemma dec_enc_int n : int32 n = true -> dec_int32 (Some (JNum n)) = Some n.
Proof. intros H. cbn. by rewrite H. Qed.

Lemma dec_enc_rds r : int32 (rd_StorageGiB r) = true -> int32 (rd_Port r) = true -> dec_rds (Some (enc_rds r)) = Some r.
Proof. intros H1 H2. unfold enc_rds. rewrite dec_rds_object, dec_enc_slice, !dec_enc_int by done. by destruct r. Qed.

Lemma dec_enc_host h : int32 (bh_StorageGiB h) = true -> dec_host (Some (enc_host h)) = Some h.
Proof.
  intros H. assert (forall a i s, dec_host (Some (JObj [("ami_id", a); ("instance_type", i); ("storage_gib", s)])) =
    (a ← dec_string (Some a); i ← dec_string (Some i); s ← dec_int32 (Some s); Some (mkBootstrapHost a i s))) as E1 by (intros; reflexivity).
  assert (forall i s, dec_host (Some (JObj [("instance_type", i); ("storage_gib", s)])) =
    (i ← dec_string (Some i); s ← dec_int32 (Some s); Some (mkBootstrapHost "" i s))) as E2 by (intros; reflexivity).
  destruct h as [a i s]. cbn in H. unfold enc_host, enc_omitempty. cbn [bh_AMIID bh_InstanceType bh_StorageGiB].
  destruct (decide (a = "")) as [->|Ha]; [rewrite eq_refl_true|rewrite bool_decide_eq_false_2 by done]; cbn [app];
    [rewrite E2|rewrite E1]; by rewrite dec_enc_int.
Qed.

(** The object of the settings, by whether the account is known. *)
Definition settings_object (account : option Json) (r n d s p : Json) : list (string * Json) :=
  [("region", r)] ++ match account with Some a => [("account_id", a)] | None => [] end ++ [("network", n); ("rds", d); ("spire_host", s); ("platform_host", p)].

Lemma enc_settings_object s : enc_settings s =
  JObj (settings_object (if se_AccountID s == "" then None else Some (JStr (se_AccountID s))) (JStr (se_Region s)) (enc_network (se_Network s)) (enc_rds (se_RDS s))
    (enc_host (se_SPIREHost s)) (enc_host (se_PlatformHost s))).
Proof. unfold enc_settings, enc_omitempty, settings_object. by destruct (se_AccountID s == ""). Qed.

Lemma dec_settings_object account r n d s p :
  dec_settings (Some (JObj (settings_object account r n d s p))) =
  (r ← dec_string (Some r); a ← dec_string account; n ← dec_network (Some n); d ← dec_rds (Some d); s ← dec_host (Some s); p ← dec_host (Some p);
   Some (mkSettings r a n d s p)).
Proof. destruct account; reflexivity. Qed.

(** Reading a pinned object puts its keys in order. *)
Definition pinned_object (account : option Json) (r n d s p : Json) : list (string * Json) :=
  match account with Some a => [("account_id", a)] | None => [] end ++ [("network", n); ("platform_host", p); ("rds", d); ("region", r); ("spire_host", s)].

Lemma pin_settings_object account r n d s p :
  (m ← dec_map (JObj (settings_object account r n d s p)); Some (marshal_map (delete "observability" m))) = Some (JObj (pinned_object account r n d s p)).
Proof. destruct account; vm_compute; reflexivity. Qed.

Lemma dec_pinned_object account r n d s p :
  dec_settings (Some (JObj (pinned_object account r n d s p))) = dec_settings (Some (JObj (settings_object account r n d s p))).
Proof. destruct account; reflexivity. Qed.

Lemma known_settings_object account r n d s p : known_settings (Some (JObj (settings_object account r n d s p))) =
  known network_fields (Some n) && known rds_fields (Some d) && known host_fields (Some s) && known host_fields (Some p).
Proof. destruct account; reflexivity. Qed.
Lemma known_pinned_object account r n d s p : known_settings (Some (JObj (pinned_object account r n d s p))) =
  known network_fields (Some n) && known rds_fields (Some d) && known host_fields (Some s) && known host_fields (Some p).
Proof. destruct account; reflexivity. Qed.
Lemma known_host h : known host_fields (Some (enc_host h)) = true.
Proof. unfold enc_host, enc_omitempty. by destruct (bh_AMIID h == ""). Qed.

(** Integers of the settings that their JSON can hold. *)
Definition settings_fit (s : BootstrapSettings) : Prop :=
  int32 (rd_StorageGiB (se_RDS s)) = true /\ int32 (rd_Port (se_RDS s)) = true /\ int32 (bh_StorageGiB (se_SPIREHost s)) = true /\
  int32 (bh_StorageGiB (se_PlatformHost s)) = true.

Lemma dec_enc_settings s : settings_fit s -> dec_settings (Some (enc_settings s)) = Some s.
Proof.
  intros (H1 & H2 & H3 & H4). rewrite enc_settings_object, dec_settings_object, dec_enc_network, dec_enc_rds, !dec_enc_host by done.
  destruct s as [r a n d h p]. cbn. destruct (decide (a = "")) as [->|Ha]; [done|]. by rewrite bool_decide_eq_false_2.
Qed.

Lemma pinned_round_trip s : settings_fit s -> decodePinnedBootstrapSettings (Some (enc_settings s)) = Ok s.
Proof.
  intros F. pose proof (dec_enc_settings s F) as E. rewrite enc_settings_object in *. unfold decodePinnedBootstrapSettings.
  pose proof (pin_settings_object (if se_AccountID s == "" then None else Some (JStr (se_AccountID s))) (JStr (se_Region s)) (enc_network (se_Network s))
    (enc_rds (se_RDS s)) (enc_host (se_SPIREHost s)) (enc_host (se_PlatformHost s))) as P.
  apply bind_Some in P as (m & -> & P). apply (inj Some) in P. cbn [of_option rbind]. rewrite P. unfold decodeBootstrapSettings.
  rewrite known_pinned_object, !known_host, dec_pinned_object, E. done.
Qed.

(** ** Ranges *)
Lemma dec_int32_range j n : dec_int32 j = Some n -> int32 n = true.
Proof. unfold dec_int32. repeat case_match; intros; simplify_eq; done. Qed.
Lemma or_int_range n d : int32 n = true -> int32 d = true -> int32 (or_int n d) = true.
Proof. intros. unfold or_int. by destruct (n == 0). Qed.

Lemma decoded_settings_fit raw s : decodeBootstrapSettings raw = Ok s -> settings_fit s.
Proof.
  unfold decodeBootstrapSettings. destruct raw as [j|]; [|done]. destruct (known_settings _); [|done]. intros H. inv_ok.
  unfold dec_settings in H. repeat (apply bind_Some in H as (? & ? & H)). injection H as <-. unfold settings_fit. cbn.
  repeat match goal with
  | K : dec_rds _ = Some _ |- _ => unfold dec_rds in K; repeat (apply bind_Some in K as (? & ? & K)); injection K as <-
  | K : dec_host _ = Some _ |- _ => unfold dec_host in K; repeat (apply bind_Some in K as (? & ? & K)); injection K as <-
  end. cbn. split_and!; eapply dec_int32_range; eassumption.
Qed.

Lemma NewBootstrap_fits shared c : NewBootstrap shared = Ok c -> settings_fit (settingsFor c).
Proof.
  unfold NewBootstrap. intros H. inv_ok. apply decoded_settings_fit in Hx0 as (H1 & H2 & H3 & H4). unfold settings_fit. cbn.
  split_and!; by apply or_int_range.
Qed.

(** ** What a later run keeps *)
Lemma enc_slice_inj a b : enc_slice a = enc_slice b -> a = b.
Proof. intros E. pose proof (dec_enc_slice a) as H. rewrite E, dec_enc_slice in H. by injection H. Qed.
Lemma enc_network_inj a b : enc_network a = enc_network b -> a = b.
Proof. intros E. pose proof (dec_enc_network a) as H. rewrite E, dec_enc_network in H. by injection H. Qed.
Lemma enc_rds_inj a b : enc_rds a = enc_rds b -> a = b.
Proof.
  destruct a as [a1 a2 a3 a4 a5 a6 a7 a8 a9 a10 a11 a12], b as [b1 b2 b3 b4 b5 b6 b7 b8 b9 b10 b11 b12]. cbn. intros E. injection E.
  intros E12%enc_slice_inj. intros. by subst.
Qed.
Lemma enc_host_inj a b : enc_host a = enc_host b -> a = b.
Proof.
  destruct a as [a1 a2 a3], b as [b1 b2 b3]. unfold enc_host, enc_omitempty. cbn [bh_AMIID bh_InstanceType bh_StorageGiB].
  repeat case_bool_decide; cbn [app]; intros [=]; by subst.
Qed.
Lemma enc_settings_inj a b : enc_settings a = enc_settings b -> a = b.
Proof.
  rewrite !enc_settings_object. intros E. unfold settings_object in E.
  assert (se_AccountID a = se_AccountID b /\ se_Region a = se_Region b /\ enc_network (se_Network a) = enc_network (se_Network b) /\
    enc_rds (se_RDS a) = enc_rds (se_RDS b) /\ enc_host (se_SPIREHost a) = enc_host (se_SPIREHost b) /\
    enc_host (se_PlatformHost a) = enc_host (se_PlatformHost b)) as (E1 & E2 & E3%enc_network_inj & E4%enc_rds_inj & E5%enc_host_inj & E6%enc_host_inj).
  { revert E. generalize (enc_network (se_Network a)), (enc_network (se_Network b)), (enc_rds (se_RDS a)), (enc_rds (se_RDS b)),
      (enc_host (se_SPIREHost a)), (enc_host (se_SPIREHost b)), (enc_host (se_PlatformHost a)), (enc_host (se_PlatformHost b)). intros.
    repeat case_bool_decide; cbn [app] in E; first [discriminate E|injection E; intros; split_and!; congruence]. }
  destruct a, b. cbn in *. by subst.
Qed.

Definition keeps_text (pinned v : string) : Prop := pinned = "" \/ v = pinned.
Definition keeps_host (pinned h : BootstrapHost) : Prop :=
  bh_InstanceType h = bh_InstanceType pinned /\ bh_StorageGiB h = bh_StorageGiB pinned /\ keeps_text (bh_AMIID pinned) (bh_AMIID h).
(** Everything that was pinned; an account, images and zones may be filled in once. *)
Definition keeps_settings (pinned s : BootstrapSettings) : Prop :=
  se_Region s = se_Region pinned /\ keeps_text (se_AccountID pinned) (se_AccountID s) /\ se_RDS s = se_RDS pinned /\
  (se_Network s = se_Network pinned \/
   elems (nw_AvailabilityZones (se_Network pinned)) = [] /\ exists z, se_Network s = set_zones z (se_Network pinned)) /\
  keeps_host (se_SPIREHost pinned) (se_SPIREHost s) /\ keeps_host (se_PlatformHost pinned) (se_PlatformHost s).

Lemma keeps_or_default a b : keeps_text a (or_default a b).
Proof. unfold keeps_text, or_default. destruct (decide (a = "")); [by left|]. right. by rewrite bool_decide_eq_false_2. Qed.

Lemma merge_settings c previous c' : mergePinnedSettings c previous = Ok c' -> settingsFor c' = fill_previous (settingsFor c) previous.
Proof.
  unfold mergePinnedSettings. intros H. inv_ok. bsplit. apply enc_settings_inj in Hx. rewrite <- Hx. unfold settingsFor, fill_candidate. cbn. f_equal.
  destruct (elems (nw_AvailabilityZones (bc_Network c))); [done|]. by destruct (bc_Network c).
Qed.

Lemma fill_previous_keeps candidate previous : keeps_settings previous (fill_previous candidate previous).
Proof. split_and!; try done; [by right|by left|..]; (split_and!; [done..|apply keeps_or_default]). Qed.

Lemma merge_fits c previous c' : mergePinnedSettings c previous = Ok c' -> settings_fit (settingsFor c) -> settings_fit (settingsFor c').
Proof. unfold mergePinnedSettings. intros H. inv_ok. done. Qed.
