(* ===== verification/AwsCli.v ===== *)
(** * The AWS command line: the type [CLI] of bootstrap_aws.go

    Below [AWSClient.Call]: the command line that is run, the error that a failed command leaves
    behind and the label under which a request is reported.  Both may be shown to an operator while
    requests and service messages can hold secrets, so what can reach them is proved.  The process
    is a parameter. *)
From S2P Require Import Prelude GoStrings Sql Api Regex Redact RedactText.
From Stdlib Require Import Ascii String.

Local Open Scope string_scope.
Local Open Scope list_scope.
Local Open Scope crane_scope.

Record CLI : Type := mkCLI { cli_Region : string; cli_Profile : string }.

(** How a process ended: with output, with an exit status and this standard error, or not started. *)
Inductive process : Type := Exited (stdout : string) | ExitError (stderr : string) | NotStarted.

Record AWSError : Type := mkAWSError { ae_Service : string; ae_Operation : string; ae_Code : string }.
Definition AWSError_Error (e : AWSError) : string :=
  Join ["AWS "; ae_Service e; " "; ae_Operation e; " failed ("; ae_Code e; ")"] "".

Inductive cli_error : Type := InputError | ContextError | ServiceError (e : AWSError) | DecodeError.

(** ** The error code *)
Definition code_char (c : ascii) : bool := letter c || digit c || any_of "_.-" c.
Definition codeRe : regex := RCat (RLit "(") (RCat (RGroup 1 (RPlus (RClass code_char))) (RLit ")")).

(** [FindSubmatch]: the leftmost match with its groups. *)
Fixpoint find_submatch (r : regex) (start : bool) (s : string) : option (list (nat * string)) :=
  match match_at r Some (mkMState start s []) with
  | Some fin => Some (ms_caps fin)
  | None => match s with EmptyString => None | String _ s => find_submatch r false s end
  end.

Definition error_code (p : process) : string :=
  match p with
  | ExitError stderr => match find_submatch codeRe true stderr with Some caps => capture caps 1 | None => "command failed" end
  | _ => "command failed"
  end.

(** ** [Call]; [input] is the path of the written request, an error when it could not be written,
    [decodes] says that the output is the JSON expected, [None] that none is. *)
Definition cli_args (c : CLI) (service operation : string) (input : option string) : list string :=
  [service; operation; "--region"; cli_Region c; "--output"; "json"; "--no-cli-pager"] ++
  (if cli_Profile c != "" then ["--profile"; cli_Profile c] else []) ++
  match input with Some path => ["--cli-input-json"; String.append "file://" path] | None => [] end.

Definition CLI_Call (run : list string -> process) (c : CLI) (service operation : string) (input : option (option string)) (cancelled : bool)
    (decodes : option (string -> bool)) : string + cli_error :=
  match input with
  | Some None => inr InputError
  | _ =>
      let p := run (cli_args c service operation (match input with Some path => path | None => None end)) in
      match p with
      | Exited out =>
          match decodes with
          | Some ok => if (out != "") && negb (ok out) then inr DecodeError else inl out
          | None => inl out
          end
      | _ => if cancelled then inr ContextError else inr (ServiceError (mkAWSError service operation (error_code p)))
      end
  end.

(** ** [resourceLabel] *)
Definition labelled : list string :=
  ["DBInstanceIdentifier"; "DBSubnetGroupName"; "RoleName"; "InstanceProfileName"; "VpcId"; "SubnetId"; "GroupId"; "CommandId"].

Fixpoint first_label (fields : gmap string Json) (keys : list string) : option string :=
  match keys with
  | [] => None
  | k :: keys => match fields !! k with Some (JStr v) => if v != "" then Some v else first_label fields keys | _ => first_label fields keys end
  end.

(** [None]: the input is not a map. *)
Definition resourceLabel (service operation : string) (input : option (gmap string Json)) : string :=
  let label := String.append service " resource" in
  if (operation == "get-secret-value") || (operation == "create-secret") then "runtime secret"
  else match input with
       | None => label
       | Some fields => match first_label fields labelled with Some v => Join [label; v] " " | None => label end
       end.

(** ** Facts *)

(** What the search finds lies in the text. *)
Lemma find_submatch_sound r s : forall b caps, find_submatch r b s = Some caps ->
  exists b' u v, s = String.append u v /\ exists fin, match_at r Some (mkMState b' v []) = Some fin /\ caps = ms_caps fin.
Proof.
  induction s as [|c s IH]; intros b caps H; cbn [find_submatch] in H; destruct (match_at _ _ _) as [fin|] eqn:E; try done.
  - injection H as <-. exists b, "", "". eauto.
  - injection H as <-. exists b, "", (String c s). eauto.
  - apply IH in H as (b' & u & v & -> & H). exists b', (String c u), v. by rewrite append_cons.
Qed.

Lemma code_word b s : matches b (RPlus (RClass code_char)) s -> s <> "" /\ all_chars code_char s = true.
Proof.
  intros M. split; [|apply (only_spec code_char b _ _ M); by vm_compute]. inversion M as [| |? ? ? s1 s2 M1 M2| | | | | |]; subst.
  inversion M1; subst. by rewrite append_cons.
Qed.

(** One literal character. *)
Lemma match_char c k st fin : match_at (RLit (String c "")) k st = Some fin ->
  exists s, ms_rest st = String c s /\ k (mkMState false s (ms_caps st)) = Some fin.
Proof. cbn [RLit match_at]. destruct (ms_rest st) as [|x s]; [done|]. case_bool_decide as E; [subst; eauto|done]. Qed.

(** A match of the pattern is a word of code characters in parentheses, and the group is that word. *)
Lemma code_match b v fin : match_at codeRe Some (mkMState b v []) = Some fin ->
  exists code rest, v = String "(" (String.append code (String ")" rest)) /\ code <> "" /\ all_chars code_char code = true /\
    capture (ms_caps fin) 1 = code.
Proof.
  unfold codeRe. rewrite match_cat. intros (s & E1 & H)%match_char. cbn [ms_rest ms_caps] in *. rewrite match_cat in H. cbn [match_at] in H.
  apply (match_at_sound (RPlus (RClass code_char))) in H as (st & (code & E2 & M & _) & H). apply match_char in H as (rest & E3 & H).
  apply code_word in M as [N A]. cbn [ms_rest ms_caps ms_start] in *. injection H as <-. exists code, rest. rewrite E1, E2, E3.
  split_and!; [done..|]. rewrite <- E3. cbn. apply taken_append.
Qed.

(** What a failed command leaves in an error: nothing of the message but a word that stood in
    parentheses, of letters, digits, dots, hyphens and underscores, or the fixed text. *)
Theorem error_reveals_one_code run c service operation input cancelled decodes e :
  CLI_Call run c service operation input cancelled decodes = inr (ServiceError e) ->
  ae_Service e = service /\ ae_Operation e = operation /\
  (ae_Code e = "command failed" \/
   exists args stderr u rest, run args = ExitError stderr /\ stderr = String.append u (String "(" (String.append (ae_Code e) (String ")" rest))) /\
     ae_Code e <> "" /\ all_chars code_char (ae_Code e) = true).
Proof.
  unfold CLI_Call. intros H.
  assert (exists args, mkAWSError service operation (error_code (run args)) = e) as (args & <-).
  { destruct input as [[path|]|]; [|done|]; cbv zeta in H;
      (match type of H with context [run ?a] => exists a; destruct (run a) as [out|err|] end; [by repeat case_match| |]); destruct cancelled; congruence. }
  split; [done|]. split; [done|]. cbn [ae_Code]. unfold error_code. destruct (run args) as [|stderr|] eqn:Er; [by left| |by left].
  destruct (find_submatch codeRe true stderr) as [caps|] eqn:Ef; [|by left]. right.
  apply find_submatch_sound in Ef as (b & u & v & -> & fin & Em & ->). apply code_match in Em as (code & rest & -> & N & A & ->). eauto 9.
Qed.

Lemma first_label_ext m m' keys : (forall k, In k keys -> m !! k = m' !! k) -> first_label m keys = first_label m' keys.
Proof.
  induction keys as [|k keys IH]; intros E; [done|]. cbn [first_label]. rewrite (E k) by (by left). rewrite IH; [done|]. intros x Hx. apply E. by right.
Qed.

(** The label of a request does not depend on any field but the listed identifiers, and for the two
    operations on secrets not on the request at all. *)
Theorem label_shows_identifiers_only service operation m m' : (forall k, In k labelled -> m !! k = m' !! k) ->
  resourceLabel service operation (Some m) = resourceLabel service operation (Some m').
Proof. intros E. unfold resourceLabel. by rewrite (first_label_ext m m' labelled E). Qed.

Example code_found : error_code (ExitError "An error occurred (InvalidGroup.Duplicate) when calling CreateSecurityGroup: sg (x)") = "InvalidGroup.Duplicate".
Proof. vm_compute. reflexivity. Qed.

Lemma label_shows_identifiers_only_witness :
  resourceLabel "rds" "create-db-instance" (Some (<["DBInstanceIdentifier" := JStr "crane-db"]> (<["MasterUserPassword" := JStr "hunter2"]> ∅))) =
  resourceLabel "rds" "create-db-instance" (Some (<["DBInstanceIdentifier" := JStr "crane-db"]> ∅)).
Proof. apply label_shows_identifiers_only. intros k Hk. repeat destruct Hk as [<-|Hk]; [by vm_compute..|done]. Defined.

Lemma error_reveals_one_code_witness : exists e,
  CLI_Call (fun _ => ExitError "An error occurred (AccessDenied) when calling") (mkCLI "us-west-2" "") "ec2" "describe-vpcs" None false None = inr (ServiceError e) /\
  ae_Service e = "ec2".
Proof.
  eexists. split; [vm_compute; reflexivity|].
  refine (proj1 (error_reveals_one_code (fun _ => ExitError "An error occurred (AccessDenied) when calling") (mkCLI "us-west-2" "") "ec2" "describe-vpcs" None false None _ _)).
  vm_compute. reflexivity.
Defined.
