(* ===== verification/AwsCloud.v ===== *)
(** * Calls of a layer-zero bootstrap: [AWSClient] of bootstrap_aws.go

    Every request that the bootstrap of a deployment sends, with the fields it sends and the
    part of the answer it reads; computations of the bootstrap are [Calls] with these
    requests.  Reports to the operator are requests too.

    [audit] reads a log and says whether every request that changes something was justified
    by answers received before it: what is created was reported absent and carries the
    deployment's tag, what is modified was created or shown to be the deployment's own, what
    is opened is one of the rules of the design, commands go to hosts of the deployment. *)
From S2P Require Import Prelude GoStrings Sql Api Calls AwsConfig.
From Stdlib Require Import Ascii String.

Local Open Scope string_scope.
Local Open Scope list_scope.
Local Open Scope Z_scope.
Local Open Scope crane_scope.

(** ** Answers *)
Record Tag : Type := mkTag { tg_Key : string; tg_Value : string }.
Record Vpc : Type := mkVpc { vp_ID : string; vp_CidrBlock : string; vp_State : string; vp_Tags : list Tag }.
Record SubnetInfo : Type := mkSubnetInfo { sn_ID : string; sn_AvailabilityZone : string; sn_Tags : list Tag }.
Record Gateway : Type := mkGateway { gw_ID : string; gw_Attachments : list string }.
Record RouteTable : Type := mkRouteTable { rtb_ID : string; rtb_Routes : list (string * string); rtb_Associations : list string }.
(** [ip_Open]: the permission has CIDR, IPv6 or prefix-list sources. *)
Record Permission : Type := mkPermission { ip_Protocol : string; ip_From : Z; ip_To : Z; ip_Open : bool; ip_Groups : list string }.
Record SecurityGroup : Type := mkSecurityGroup { gr_ID : string; gr_Tags : list Tag; gr_Permissions : list Permission }.
Record DBSubnetGroup : Type := mkDBSubnetGroup { dg_VpcID : string; dg_Subnets : list string }.
Record DBInstance : Type := mkDBInstance {
  db_Arn : string; db_Status : string; db_Engine : string; db_EngineVersion : string; db_Class : string; db_MasterUsername : string; db_StorageType : string;
  db_AllocatedStorage : Z; db_MultiAZ : bool; db_StorageEncrypted : bool; db_PubliclyAccessible : bool; db_DeletionProtection : bool;
  db_Endpoint : option (string * Z); db_MasterUserSecret : option (string * string); db_SubnetGroup : string; db_VpcID : string; db_SecurityGroups : list string }.
Record SecretInfo : Type := mkSecretInfo { si_ARN : string; si_Tags : list Tag; si_Deleted : bool }.
Record ProfileInfo : Type := mkProfileInfo { pf_Tags : list Tag; pf_Roles : list string }.
Record LoadBalancer : Type := mkLoadBalancer {
  lb_Arn : string; lb_DNSName : string; lb_Scheme : string; lb_Type : string; lb_VpcID : string; lb_SecurityGroups : list string; lb_Subnets : list string }.
Record TargetGroup : Type := mkTargetGroup {
  tgr_Arn : string; tgr_VpcID : string; tgr_Protocol : string; tgr_TargetType : string; tgr_HealthCheckProtocol : string; tgr_HealthCheckPort : string; tgr_Port : Z }.
Record Listener : Type := mkListener { ls_Protocol : string; ls_Port : Z; ls_Actions : list (string * string) }.
Record ImageInfo : Type := mkImageInfo { ii_State : string; ii_Architecture : string; ii_Tags : list Tag }.
Record HostInfo : Type := mkHostInfo { hi_ID : string; hi_PrivateIP : string; hi_ImageID : string; hi_InstanceType : string; hi_State : string }.
Record Invocation : Type := mkInvocation { iv_Status : string; iv_Stdout : string; iv_Stderr : string }.

(** ** Inputs with many fields *)
Record DBInput : Type := mkDBInput {
  di_Identifier : string; di_Class : string; di_Engine : string; di_EngineVersion : string; di_MasterUsername : string; di_ManagePassword : bool; di_Storage : Z;
  di_StorageType : string; di_Encrypted : bool; di_DeletionProtection : bool; di_Public : bool; di_MultiAZ : bool; di_Port : Z; di_SubnetGroup : string;
  di_SecurityGroups : list string; di_BackupDays : Z; di_Tags : list Tag }.
Record Statement : Type := mkStatement { st_Actions : list string; st_Resources : list string; st_Condition : list (string * string * string) }.
Record LaunchInput : Type := mkLaunchInput {
  li_ImageID : string; li_InstanceType : string; li_ClientToken : string; li_Profile : string; li_SubnetID : string; li_Groups : list string; li_VolumeSize : Z;
  li_Tags : list Tag }.

(** ** Requests, each with the type of its answer *)
Inductive request : Type -> Type :=
| CallerIdentity : request string
| DescribeZones : request (list (string * string))
| DescribeVpcsOwned (owner : string) : request (list Vpc)
| DescribeVpc (id : string) : request (list Vpc)
| CreateVpc (cidr : string) (tags : list Tag) : request string
| ModifyVpc (id attribute : string) : request unit
| DescribeSubnet (vpc cidr : string) : request (list SubnetInfo)
| CreateSubnet (vpc cidr zone : string) (tags : list Tag) : request string
| ModifySubnet (id : string) (public : bool) : request unit
| DescribeGateways (owner : string) : request (list Gateway)
| CreateGateway (tags : list Tag) : request Gateway
| AttachGateway (vpc gateway : string) : request unit
| DescribeRouteTables (vpc name owner : string) : request (list RouteTable)
| CreateRouteTable (vpc : string) (tags : list Tag) : request string
| CreateRoute (table cidr gateway : string) : request unit
| AssociateRouteTable (table subnet : string) : request unit
| DescribeGroups (vpc name : string) : request (list SecurityGroup)
| CreateGroup (vpc name : string) (tags : list Tag) : request string
| AuthorizeIngress (group source protocol : string) (ports : option Z) : request unit
| DescribeDBSubnetGroup (name : string) : request (list DBSubnetGroup)
| CreateDBSubnetGroup (name : string) (subnets : list string) (tags : list Tag) : request unit
| DescribeDBInstance (id : string) : request (list DBInstance)
| CreateDBInstance (input : DBInput) : request unit
| ListTags (arn : string) : request (list Tag)
| DescribeSecret (name : string) : request SecretInfo
| CreateSecret (name : string) (values : list (string * string)) (tags : list Tag) : request string
| GetSecretValue (arn : string) : request RawMessage
| GetRole (name : string) : request (list Tag)
| CreateRole (name : string) (tags : list Tag) : request unit
| UpdateAssumeRolePolicy (name : string) : request unit
| PutRolePolicy (name : string) (statements : list Statement) : request unit
| AttachRolePolicy (name policy : string) : request unit
| GetInstanceProfile (name : string) : request ProfileInfo
| CreateInstanceProfile (name : string) (tags : list Tag) : request unit
| AddRoleToProfile (profile role : string) : request unit
| DescribeLoadBalancers (name : string) : request (list LoadBalancer)
| CreateLoadBalancer (name : string) (subnets groups : list string) (tags : list Tag) : request (list LoadBalancer)
| ModifyLoadBalancer (arn : string) : request unit
| DescribeTargetGroups (name : string) : request (list TargetGroup)
| CreateTargetGroup (name vpc : string) (tags : list Tag) : request (list TargetGroup)
| ModifyTargetGroup (arn : string) : request unit
| DescribeEndpointTags (arn : string) : request (list (list Tag))
| DescribeListeners (lb : string) : request (list Listener)
| CreateListener (lb target : string) : request unit
| DescribeTargetHealth (target : string) : request (list (string * Z))
| RegisterTarget (target instance : string) : request unit
| DescribeImage (ami : string) : request (list ImageInfo)
| DescribeHosts (owner role : string) (states : list string) : request (list (list HostInfo))
| DescribeHost (id : string) : request (list (list string))
| RunHost (input : LaunchInput) : request (list (string * string))
| DescribePing (id : string) : request (list string)
| SendCommand (instance name command : string) : request string
| GetInvocation (command instance : string) : request Invocation
| ReportDetail (name detail : string) : request unit
| ReportOutput (name stream output : string) : request unit.

(** The service of the account, and computations on it. *)
Abbreviation Cloud := (Service request).
Abbreviation event := (call_event request).
Abbreviation aws_state := (call_state request).
Abbreviation Aws := (Calls request).

(** ** Ownership *)
Definition owned (tags : list Tag) (name : string) : bool := existsb (fun t => (tg_Key t == "CraneBootstrap") && (tg_Value t == name)) tags.
Definition resourceTags (name kind : string) : list Tag := [mkTag "CraneBootstrap" name; mkTag "Name" (String.append name (String.append "-" kind))].

(** ** The audit of a log *)
Inductive kind : Type := KVpc | KSubnet | KGateway | KTable | KGroup | KDBGroup | KDB | KSecret | KRole | KProfile | KBalancer | KTargets | KHost.
#[global] Instance kind_eq_dec : EqDecision kind.
Proof. solve_decision. Defined.

Definition ids_of {A} (k : kind) (id : A -> string) (l : list A) : list (kind * string) := map (fun x => (k, id x)) l.

Section Audit.
Context (name : string).

Definition not_found (e : aws_error) : bool :=
  isCode e ["DBSubnetGroupNotFoundFault"; "DBSubnetGroupNotFound"; "DBInstanceNotFound"; "DBInstanceNotFoundFault"; "ResourceNotFoundException"; "NoSuchEntity";
            "LoadBalancerNotFound"; "TargetGroupNotFound"].

(** What an answer shows to be the deployment's own. *)
Definition evidence (e : event) : list (kind * string) :=
  match e with
  | mkEvent rq a =>
      match rq in request A return answer A -> list (kind * string) with
      | DescribeVpcsOwned owner => fun a => match a with inl l => ids_of KVpc vp_ID (List.filter (fun v => owned (vp_Tags v) name) l) | inr _ => [] end
      | CreateVpc _ _ => fun a => match a with inl id => [(KVpc, id)] | inr _ => [] end
      | DescribeSubnet _ _ => fun a => match a with inl l => ids_of KSubnet sn_ID (List.filter (fun v => owned (sn_Tags v) name) l) | inr _ => [] end
      | CreateSubnet _ _ _ _ => fun a => match a with inl id => [(KSubnet, id)] | inr _ => [] end
      | DescribeGateways owner => fun a => match a with inl l => if owner == name then ids_of KGateway gw_ID l else [] | inr _ => [] end
      | CreateGateway _ => fun a => match a with inl g => [(KGateway, gw_ID g)] | inr _ => [] end
      | DescribeRouteTables _ _ owner => fun a => match a with inl l => if owner == name then ids_of KTable rtb_ID l else [] | inr _ => [] end
      | CreateRouteTable _ _ => fun a => match a with inl id => [(KTable, id)] | inr _ => [] end
      | DescribeGroups _ _ => fun a => match a with inl l => ids_of KGroup gr_ID (List.filter (fun v => owned (gr_Tags v) name) l) | inr _ => [] end
      | CreateGroup _ _ _ => fun a => match a with inl id => [(KGroup, id)] | inr _ => [] end
      | DescribeSecret _ => fun a => match a with inl v => if owned (si_Tags v) name then [(KSecret, si_ARN v)] else [] | inr _ => [] end
      | GetRole role => fun a => match a with inl tags => if owned tags name then [(KRole, role)] else [] | inr _ => [] end
      | CreateRole role _ => fun a => match a with inl _ => [(KRole, role)] | inr _ => [] end
      | GetInstanceProfile p => fun a => match a with inl v => if owned (pf_Tags v) name then [(KProfile, p)] else [] | inr _ => [] end
      | CreateInstanceProfile p _ => fun a => match a with inl _ => [(KProfile, p)] | inr _ => [] end
      | DescribeEndpointTags arn => fun a =>
          match a with inl [tags] => if owned tags name then [(KBalancer, arn); (KTargets, arn)] else [] | _ => [] end
      | DescribeHosts owner _ _ => fun a => match a with inl l => if owner == name then ids_of KHost hi_ID (List.concat l) else [] | inr _ => [] end
      | RunHost _ => fun a => match a with inl l => ids_of KHost fst l | inr _ => [] end
      | _ => fun _ => []
      end a
  end.

(** What an answer shows to be absent, by the key it was asked for. *)
Definition absence (e : event) : list (kind * string) :=
  match e with
  | mkEvent rq a =>
      let none {A} (k : kind) (key : string) (a : answer (list A)) := match a with inl [] => [(k, key)] | _ => [] end in
      let refused {A} (k : kind) (key : string) (a : answer A) := match a with inr e => if not_found e then [(k, key)] else [] | inl _ => [] end in
      match rq in request A return answer A -> list (kind * string) with
      | DescribeVpcsOwned owner => none KVpc owner
      | DescribeSubnet vpc cidr => none KSubnet (String.append vpc cidr)
      | DescribeGateways owner => none KGateway owner
      | DescribeRouteTables vpc n owner => none KTable (String.append vpc n)
      | DescribeGroups vpc n => none KGroup (String.append vpc n)
      | DescribeDBSubnetGroup n => refused KDBGroup n
      | DescribeDBInstance id => refused KDB id
      | DescribeSecret n => refused KSecret n
      | GetRole n => refused KRole n
      | GetInstanceProfile n => refused KProfile n
      | DescribeLoadBalancers n => refused KBalancer n
      | DescribeTargetGroups n => refused KTargets n
      | DescribeHosts owner role _ => fun a => match a with inl l => match List.concat l with [] => [(KHost, role)] | _ => [] end | inr _ => [] end
      | _ => fun _ => []
      end a
  end.

Definition mine (l : list event) (k : kind) (id : string) : bool := existsb (fun e => one_of (k, id) (evidence e)) l.
Definition missing (l : list event) (k : kind) (key : string) : bool := existsb (fun e => one_of (k, key) (absence e)) l.

Definition role_tag (tags : list Tag) : string := match List.find (fun t => tg_Key t == "BootstrapRole") tags with Some t => tg_Value t | None => "" end.
Definition name_tag (tags : list Tag) : string := match List.find (fun t => tg_Key t == "Name") tags with Some t => tg_Value t | None => "" end.

(** The rules that may be opened, by protocol and port. *)
Definition open_rule (rdsPort : Z) (group source protocol : string) (ports : option Z) : bool :=
  match ports with
  | Some p => (protocol == "tcp") && one_of p [8081; 44001; rdsPort]
  | None => (protocol == "-1") && (group == source)
  end.

Definition justified (rdsPort : Z) (l : list event) (e : event) : bool :=
  match e with
  | mkEvent rq _ =>
      match rq with
      | CreateVpc _ tags => missing l KVpc name && owned tags name
      | ModifyVpc id _ => mine l KVpc id
      | CreateSubnet vpc cidr _ tags => mine l KVpc vpc && missing l KSubnet (String.append vpc cidr) && owned tags name
      | ModifySubnet id _ => mine l KSubnet id
      | CreateGateway tags => missing l KGateway name && owned tags name
      | AttachGateway vpc id => mine l KVpc vpc && mine l KGateway id
      | CreateRouteTable vpc tags => mine l KVpc vpc && missing l KTable (String.append vpc (name_tag tags)) && owned tags name
      | CreateRoute table _ gateway => mine l KTable table && mine l KGateway gateway
      | AssociateRouteTable table subnet => mine l KTable table && mine l KSubnet subnet
      | CreateGroup vpc n tags => mine l KVpc vpc && missing l KGroup (String.append vpc n) && owned tags name
      | AuthorizeIngress group source protocol ports => mine l KGroup group && mine l KGroup source && open_rule rdsPort group source protocol ports
      | CreateDBSubnetGroup n subnets tags => missing l KDBGroup n && forallb (mine l KSubnet) subnets && owned tags name
      | CreateDBInstance i =>
          missing l KDB (di_Identifier i) && forallb (mine l KGroup) (di_SecurityGroups i) && owned (di_Tags i) name &&
          di_Encrypted i && di_DeletionProtection i && negb (di_Public i) && di_ManagePassword i
      | CreateSecret n _ tags => missing l KSecret n && owned tags name
      | CreateRole n tags => missing l KRole n && owned tags name
      | UpdateAssumeRolePolicy n | PutRolePolicy n _ | AttachRolePolicy n _ => mine l KRole n
      | CreateInstanceProfile n tags => missing l KProfile n && owned tags name
      | AddRoleToProfile p r => mine l KProfile p && mine l KRole r
      | CreateLoadBalancer n subnets groups tags => missing l KBalancer n && forallb (mine l KSubnet) subnets && forallb (mine l KGroup) groups && owned tags name
      | ModifyLoadBalancer arn => mine l KBalancer arn
      | CreateTargetGroup n vpc tags => missing l KTargets n && mine l KVpc vpc && owned tags name
      | ModifyTargetGroup arn => mine l KTargets arn
      | CreateListener lb target => mine l KBalancer lb && mine l KTargets target
      | RegisterTarget target instance => mine l KTargets target && mine l KHost instance
      | RunHost i =>
          missing l KHost (role_tag (li_Tags i)) && owned (li_Tags i) name && mine l KSubnet (li_SubnetID i) && forallb (mine l KGroup) (li_Groups i)
      | SendCommand instance _ _ => mine l KHost instance
      | _ => true
      end
  end.

Fixpoint audit (rdsPort : Z) (l : list event) : bool := match l with [] => true | e :: l => justified rdsPort l e && audit rdsPort l end.
End Audit.
