(* ===== verification/AwsResources.v ===== *)
(** * Layer-zero resources: bootstrap_resources.go and bootstrap_endpoint.go

    Network, security groups, the SPIRE endpoint, the database, the runtime secret and the IAM
    roles of a deployment: each is looked up, checked and reused, or created.  The lists that
    [ensureNetwork] indexes by 0 and 1 have two elements once the configuration is validated.
    SHA-256 in hexadecimal and the source of random credentials are parameters. *)
From S2P Require Import Prelude GoStrings Sql Api Decode Regex Deployment AwsConfig Calls AwsCloud.
From Stdlib Require Import Ascii String.

Local Open Scope string_scope.
Local Open Scope list_scope.
Local Open Scope Z_scope.
Local Open Scope crane_scope.

Class Sha : Type := { sha256_hex : string -> string }.
(** 32 random bytes for a field of the secret, in unpadded URL base64; [None] when the source fails. *)
Class Random : Type := { fresh_credential : string -> option string }.

Definition at_index (i : nat) (l : list string) : string := List.nth i l "".

(** ** Setters of [Infrastructure] *)
Definition set_vpc (v : string) (i : Infrastructure) : Infrastructure :=
  mkInfra (in_SpireAddress i) (in_SpireLoadBalancerARN i) (in_SpireTargetGroupARN i) (in_SpireLoadBalancerSecurityGroupID i) v (in_PublicSubnetIDs i)
    (in_PrivateSubnetIDs i) (in_AvailabilityZones i) (in_SpireSecurityGroupID i) (in_PlatformSecurityGroupID i) (in_RDSSecurityGroupID i)
    (in_SpireProfile i) (in_PlatformProfile i) (in_WorkerProfile i) (in_DBEndpoint i) (in_DBSecretARN i) (in_RuntimeSecretARN i).
Definition set_subnets (public private zones : list string) (i : Infrastructure) : Infrastructure :=
  mkInfra (in_SpireAddress i) (in_SpireLoadBalancerARN i) (in_SpireTargetGroupARN i) (in_SpireLoadBalancerSecurityGroupID i) (in_VPCID i) public
    private zones (in_SpireSecurityGroupID i) (in_PlatformSecurityGroupID i) (in_RDSSecurityGroupID i)
    (in_SpireProfile i) (in_PlatformProfile i) (in_WorkerProfile i) (in_DBEndpoint i) (in_DBSecretARN i) (in_RuntimeSecretARN i).
Definition set_groups (nlb spire platform rds : string) (i : Infrastructure) : Infrastructure :=
  mkInfra (in_SpireAddress i) (in_SpireLoadBalancerARN i) (in_SpireTargetGroupARN i) nlb (in_VPCID i) (in_PublicSubnetIDs i)
    (in_PrivateSubnetIDs i) (in_AvailabilityZones i) spire platform rds
    (in_SpireProfile i) (in_PlatformProfile i) (in_WorkerProfile i) (in_DBEndpoint i) (in_DBSecretARN i) (in_RuntimeSecretARN i).
Definition set_endpoint (address lb tg : string) (i : Infrastructure) : Infrastructure :=
  mkInfra address lb tg (in_SpireLoadBalancerSecurityGroupID i) (in_VPCID i) (in_PublicSubnetIDs i)
    (in_PrivateSubnetIDs i) (in_AvailabilityZones i) (in_SpireSecurityGroupID i) (in_PlatformSecurityGroupID i) (in_RDSSecurityGroupID i)
    (in_SpireProfile i) (in_PlatformProfile i) (in_WorkerProfile i) (in_DBEndpoint i) (in_DBSecretARN i) (in_RuntimeSecretARN i).
Definition set_database (endpoint secret : string) (i : Infrastructure) : Infrastructure :=
  mkInfra (in_SpireAddress i) (in_SpireLoadBalancerARN i) (in_SpireTargetGroupARN i) (in_SpireLoadBalancerSecurityGroupID i) (in_VPCID i) (in_PublicSubnetIDs i)
    (in_PrivateSubnetIDs i) (in_AvailabilityZones i) (in_SpireSecurityGroupID i) (in_PlatformSecurityGroupID i) (in_RDSSecurityGroupID i)
    (in_SpireProfile i) (in_PlatformProfile i) (in_WorkerProfile i) endpoint secret (in_RuntimeSecretARN i).
Definition set_secret (v : string) (i : Infrastructure) : Infrastructure :=
  mkInfra (in_SpireAddress i) (in_SpireLoadBalancerARN i) (in_SpireTargetGroupARN i) (in_SpireLoadBalancerSecurityGroupID i) (in_VPCID i) (in_PublicSubnetIDs i)
    (in_PrivateSubnetIDs i) (in_AvailabilityZones i) (in_SpireSecurityGroupID i) (in_PlatformSecurityGroupID i) (in_RDSSecurityGroupID i)
    (in_SpireProfile i) (in_PlatformProfile i) (in_WorkerProfile i) (in_DBEndpoint i) (in_DBSecretARN i) v.
Definition set_profiles (spire platform worker : string) (i : Infrastructure) : Infrastructure :=
  mkInfra (in_SpireAddress i) (in_SpireLoadBalancerARN i) (in_SpireTargetGroupARN i) (in_SpireLoadBalancerSecurityGroupID i) (in_VPCID i) (in_PublicSubnetIDs i)
    (in_PrivateSubnetIDs i) (in_AvailabilityZones i) (in_SpireSecurityGroupID i) (in_PlatformSecurityGroupID i) (in_RDSSecurityGroupID i)
    spire platform worker (in_DBEndpoint i) (in_DBSecretARN i) (in_RuntimeSecretARN i).

(** ** Names *)
Definition dashed (name kind : string) : string := String.append name (String.append "-" kind).
Definition bundleParameter (c : bootstrapConfig) : string := String.append "/crane/" (String.append (bc_Name c) "/spire-bundle").
Definition bundleParameterARN (c : bootstrapConfig) : string :=
  String.append "arn:aws:ssm:" (String.append (aw_Region (bc_AWS c)) (String.append ":" (String.append (aw_AccountID (bc_AWS c))
    (String.append ":parameter" (bundleParameter c))))).
Definition endpointName `{Sha} (name : string) : string :=
  String.append (String.substring 0 16 name) (String.append "-spire-" (String.substring 0 8 (sha256_hex name))).

Section Resources.
Context {C : Type} {cloud : Cloud C} {sha : Sha} {random : Random}.

(** ** Network *)
Definition choose_zones (c : bootstrapConfig) (available : list string) : Aws C (list string) :=
  match elems (nw_AvailabilityZones (bc_Network c)) with
  | [] => match available with a :: b :: _ => aws_ret [a; b] | _ => aws_fail "bootstrap requires two available AWS availability zones" end
  | zones => insist forallb (fun z => one_of z available) zones else "availability zone is not available in region" in aws_ret zones
  end.

Definition available_zones : Aws C (list string) :=
  aws! zones := call DescribeZones in
  aws_ret (sort_strings (map fst (List.filter (fun z => snd z == "available") zones))).

Definition ensureVpc (c : bootstrapConfig) : Aws C string :=
  let name := bc_Name c in
  let cidr := nw_VPCCIDR (bc_Network c) in
  aws! vpcs := call (DescribeVpcsOwned name) in
  aws! id := match vpcs with
             | [] => call (CreateVpc cidr (resourceTags name "vpc"))
             | [v] => insist (vp_CidrBlock v == cidr) && owned (vp_Tags v) name else "existing deployment VPC does not match configured CIDR/ownership" in
                      aws_ret (vp_ID v)
             | _ => aws_fail "multiple VPCs belong to deployment"
             end in
  insist id != "" else "AWS returned no VPC ID" in
  aws! _ := until (aws! out := call (DescribeVpc id) in aws_ret (match out with [v] => if vp_State v == "available" then Some tt else None | _ => None end)) in
  aws! _ := for_each ["EnableDnsSupport"; "EnableDnsHostnames"] (fun a => call (ModifyVpc id a)) in
  aws_ret id.

Definition ensureSubnet (c : bootstrapConfig) (vpc cidr zone kind : string) (public : bool) : Aws C string :=
  let name := bc_Name c in
  aws! out := call (DescribeSubnet vpc cidr) in
  aws! id := match out with
             | [] => call (CreateSubnet vpc cidr zone (resourceTags name kind))
             | [s] => insist (sn_AvailabilityZone s == zone) && owned (sn_Tags s) name else "subnet has incompatible availability zone or ownership" in
                      aws_ret (sn_ID s)
             | _ => aws_fail "multiple subnets match"
             end in
  insist id != "" else "AWS returned no subnet ID" in
  aws! _ := call (ModifySubnet id public) in
  aws_ret id.

Definition ensureGateway (c : bootstrapConfig) (vpc : string) : Aws C string :=
  let name := bc_Name c in
  aws! out := call (DescribeGateways name) in
  aws! g := match out with
            | [] => call (CreateGateway (resourceTags name "gateway"))
            | [g] => aws_ret g
            | _ => aws_fail "multiple internet gateways belong to deployment"
            end in
  insist gw_ID g != "" else "AWS returned no internet gateway ID" in
  match gw_Attachments g with
  | [] => aws! _ := call (AttachGateway vpc (gw_ID g)) in aws_ret (gw_ID g)
  | [v] => insist v == vpc else "deployment gateway is attached to a different VPC" in aws_ret (gw_ID g)
  | _ => aws_fail "deployment gateway is attached to a different VPC"
  end.

Definition anywhere : string := "0.0.0.0/0".
Definition ensureRoutes (c : bootstrapConfig) (vpc kind gateway : string) (subnets : list string) : Aws C unit :=
  let name := bc_Name c in
  aws! out := call (DescribeRouteTables vpc (dashed name kind) name) in
  aws! found := match out with
                | [] => aws! id := call (CreateRouteTable vpc (resourceTags name kind)) in aws_ret (id, false, [])
                | [t] =>
                    let defaults := List.filter (fun r => fst r == anywhere) (rtb_Routes t) in
                    insist forallb (fun r => (gateway != "") && (snd r == gateway)) defaults else "route table has an unexpected default route" in
                    aws_ret (rtb_ID t, match defaults with [] => false | _ => true end, rtb_Associations t)
                | _ => aws_fail "multiple route tables belong to deployment"
                end in
  let '(id, hasDefault, associated) := found in
  insist id != "" else "AWS returned no route table ID" in
  aws! _ := if (gateway != "") && negb hasDefault then call (CreateRoute id anywhere gateway) else aws_ret tt in
  for_each subnets (fun s => if one_of s associated then aws_ret tt else call (AssociateRouteTable id s)).

Definition ensureNetwork (c : bootstrapConfig) : Aws C Infrastructure :=
  let n := bc_Network c in
  aws! available := available_zones in
  aws! zones := choose_zones c available in
  aws! vpc := ensureVpc c in
  let subnet i kind cidrs public := ensureSubnet c vpc (at_index i (elems cidrs)) (at_index i zones) kind public in
  aws! pub1 := subnet 0%nat "public-1" (nw_PublicSubnetCIDRs n) true in
  aws! prv1 := subnet 0%nat "private-1" (nw_PrivateSubnetCIDRs n) false in
  aws! pub2 := subnet 1%nat "public-2" (nw_PublicSubnetCIDRs n) true in
  aws! prv2 := subnet 1%nat "private-2" (nw_PrivateSubnetCIDRs n) false in
  aws! gateway := ensureGateway c vpc in
  aws! _ := ensureRoutes c vpc "public" gateway [pub1; pub2] in
  aws! _ := ensureRoutes c vpc "private" "" [prv1; prv2] in
  aws_ret (set_subnets [pub1; pub2] [prv1; prv2] zones (set_vpc vpc no_infra)).

(** ** Security groups *)
Definition ensureGroup (c : bootstrapConfig) (vpc kind : string) : Aws C (string * list Permission) :=
  let name := bc_Name c in
  aws! out := call (DescribeGroups vpc (dashed name kind)) in
  aws! g := match out with
            | [] => aws! id := call (CreateGroup vpc (dashed name kind) (resourceTags name kind)) in aws_ret (id, [])
            | [g] => insist owned (gr_Tags g) name else "security group is not owned by this bootstrap" in
                     insist negb (existsb ip_Open (gr_Permissions g)) else "security group contains unexpected CIDR/prefix-list ingress" in
                     aws_ret (gr_ID g, gr_Permissions g)
            | _ => aws_fail "multiple security groups"
            end in
  insist fst g != "" else "AWS returned no security group ID" in
  aws_ret g.

Record rule : Type := mkRule { ru_target : string; ru_source : string; ru_protocol : string; ru_port : Z }.
(** The rules of the design, in the order in which they are opened. *)
Definition design_rules (rdsPort : Z) (spire nlb platform rds : string) : list rule :=
  [mkRule spire nlb "tcp" 8081; mkRule nlb platform "tcp" 8081; mkRule nlb spire "tcp" 8081; mkRule spire platform "tcp" 44001;
   mkRule platform platform "-1" 0; mkRule rds spire "tcp" rdsPort; mkRule rds platform "tcp" rdsPort].

(** The sources that an existing permission of a group may admit, by the kind of the group. *)
Definition allowed_source (rdsPort : Z) (spire nlb platform : string) (kind : string) (p : Permission) (source : string) : bool :=
  let tcp port := (ip_Protocol p == "tcp") && (ip_From p == port) && (ip_To p == port) in
  ((kind == "spire") && (source == nlb) && tcp 8081) || ((kind == "spire-nlb") && (source == platform) && tcp 8081) ||
  ((kind == "spire-nlb") && (source == spire) && tcp 8081) || ((kind == "spire") && (source == platform) && tcp 44001) ||
  ((kind == "platform") && (source == platform) && (ip_Protocol p == "-1")) ||
  ((kind == "rds") && ((source == spire) || (source == platform)) && tcp rdsPort).

Definition authorize (r : rule) : Aws C unit :=
  aws! a := try_call (AuthorizeIngress (ru_target r) (ru_source r) (ru_protocol r) (if ru_protocol r == "-1" then None else Some (ru_port r))) in
  match a with
  | inl _ => aws_ret tt
  | inr e => if isCode e ["InvalidPermission.Duplicate"] then aws_ret tt else aws_lift (Err (err_of e))
  end.

Definition ensureSecurityGroups (c : bootstrapConfig) (infra : Infrastructure) : Aws C Infrastructure :=
  let vpc := in_VPCID infra in
  aws! spire := ensureGroup c vpc "spire" in
  aws! nlb := ensureGroup c vpc "spire-nlb" in
  aws! platform := ensureGroup c vpc "platform" in
  aws! rds := ensureGroup c vpc "rds" in
  let port := rd_Port (bc_RDS c) in
  let allowed := allowed_source port (fst spire) (fst nlb) (fst platform) in
  insist forallb (fun kg => forallb (fun p => forallb (allowed (fst kg) p) (ip_Groups p)) (snd (snd kg)))
           [("spire", spire); ("spire-nlb", nlb); ("platform", platform); ("rds", rds)]
    else "security group has an unexpected source/protocol/port rule" in
  aws! _ := for_each (design_rules port (fst spire) (fst nlb) (fst platform) (fst rds)) authorize in
  aws_ret (set_groups (fst nlb) (fst spire) (fst platform) (fst rds) infra).

(** ** Database *)
Definition db_input (c : bootstrapConfig) (infra : Infrastructure) (group : string) : DBInput :=
  let r := bc_RDS c in
  mkDBInput (rd_Identifier r) (rd_InstanceClass r) "postgres" (rd_EngineVersion r) (rd_MasterUsername r) true (rd_StorageGiB r) (rd_StorageType r) true true
    false (rd_MultiAZ r) (rd_Port r) group [in_RDSSecurityGroupID infra] 7 (resourceTags (bc_Name c) "db").

Definition db_as_configured (c : bootstrapConfig) (infra : Infrastructure) (group : string) (d : DBInstance) : bool :=
  let r := bc_RDS c in
  (db_Engine d == "postgres") && (db_Class d == rd_InstanceClass r) && (db_MasterUsername d == rd_MasterUsername r) &&
  (rd_StorageGiB r <=? db_AllocatedStorage d) && (db_StorageType d == rd_StorageType r) && (db_MultiAZ d == rd_MultiAZ r) && db_StorageEncrypted d &&
  negb (db_PubliclyAccessible d) && db_DeletionProtection d && (db_SubnetGroup d == group) && (db_VpcID d == in_VPCID infra).

(** One look at the instance: [None] while it is not available yet. *)
Definition db_ready (c : bootstrapConfig) (infra : Infrastructure) (group : string) : Aws C (option (string * string)) :=
  let r := bc_RDS c in
  aws! out := call (DescribeDBInstance (rd_Identifier r)) in
  match out with
  | [d] =>
      insist db_as_configured c infra group d else "existing RDS instance does not match protected deployment configuration" in
      insist (rd_EngineVersion r == "") || (db_EngineVersion d == rd_EngineVersion r) else "existing RDS engine version differs from configuration" in
      insist sameStrings (db_SecurityGroups d) [in_RDSSecurityGroupID infra] else "RDS instance has unexpected security groups" in
      aws! tags := call (ListTags (db_Arn d)) in
      insist owned tags (bc_Name c) else "RDS instance is not owned by this deployment" in
      let pending := if Contains (db_Status d) "failed" || HasPrefix (db_Status d) "incompatible" || one_of (db_Status d) ["storage-full"; "deleting"]
                     then aws_fail "RDS entered unusable state" else aws_ret None in
      match db_Endpoint d, db_MasterUserSecret d with
      | Some (address, port), Some (arn, status) =>
          if (db_Status d == "available") && (arn != "") && (status == "active")
          then insist port == rd_Port r else "RDS port does not match configuration" in aws_ret (Some (address, arn))
          else pending
      | _, _ => pending
      end
  | _ => aws_fail "RDS returned unexpected instance count"
  end.

Definition ensureRDS (c : bootstrapConfig) (infra : Infrastructure) : Aws C Infrastructure :=
  let name := bc_Name c in
  let group := dashed name "db-subnets" in
  aws! g := try_call (DescribeDBSubnetGroup group) in
  aws! _ := match g with
            | inl [x] => insist (dg_VpcID x == in_VPCID infra) && sameStrings (dg_Subnets x) (in_PrivateSubnetIDs infra)
                           else "existing RDS subnet group has different VPC/subnets" in aws_ret tt
            | inl _ => aws_fail "RDS returned unexpected subnet group count"
            | inr e => if isCode e ["DBSubnetGroupNotFoundFault"; "DBSubnetGroupNotFound"]
                       then call (CreateDBSubnetGroup group (in_PrivateSubnetIDs infra) (resourceTags name "db-subnets"))
                       else aws_lift (Err (err_of e))
            end in
  aws! d := try_call (DescribeDBInstance (rd_Identifier (bc_RDS c))) in
  aws! _ := match d with
            | inl _ => aws_ret tt
            | inr e => if isCode e ["DBInstanceNotFound"; "DBInstanceNotFoundFault"] then call (CreateDBInstance (db_input c infra group))
                       else aws_lift (Err (err_of e))
            end in
  aws! found := until (db_ready c infra group) in
  aws_ret (set_database (fst found) (snd found) infra).

(** ** Runtime secret *)
Definition credential : regex :=
  let c := RClass (fun c => letter c || digit c || any_of "_-" c) in RCat (RRep 43 c) (RStar c).
Definition credential_fields : list string := ["spire_password"; "crane_password"; "admin_token"; "adapter_token"].

Definition fresh_values : result (list (string * string)) :=
  let fresh k := of_option (ErrMsg "random source") (fresh_credential k) in
  let* sp := fresh "spire_password" in
  let* cp := fresh "crane_password" in
  let* ad := fresh "admin_token" in
  let* ap := fresh "adapter_token" in
  Ok [("adapter_token", ap); ("admin_token", ad); ("crane_password", cp); ("crane_username", "crane"); ("spire_password", sp); ("spire_username", "spire")].

(** The checks of a secret that exists. *)
Definition secret_ok (raw : RawMessage) : result unit :=
  let* values := of_option (ErrMsg "runtime secret is not valid JSON") (match raw with Some j => dec_labels (Some j) | None => None end) in
  let value k := default "" (values !! k) in
  guard forallb (fun k => value k != "") ["spire_username"; "spire_password"; "crane_username"; "crane_password"; "admin_token"; "adapter_token"]
    else ErrMsg "runtime secret is missing required field" in
  guard (value "spire_username" == "spire") && (value "crane_username" == "crane") else ErrMsg "runtime secret database users differ from deployment" in
  guard forallb (fun k => full_match credential (value k)) credential_fields else ErrMsg "runtime secret field has an unexpected credential format" in
  Ok tt.

Definition ensureSecrets (c : bootstrapConfig) (infra : Infrastructure) : Aws C Infrastructure :=
  let name := bc_Name c in
  let secretName := String.append name "/runtime" in
  aws! d := try_call (DescribeSecret secretName) in
  aws! arn := match d with
              | inr e =>
                  if isCode e ["ResourceNotFoundException"]
                  then aws! values := aws_lift fresh_values in call (CreateSecret secretName values (resourceTags name "runtime"))
                  else aws_lift (Err (err_of e))
              | inl x =>
                  insist owned (si_Tags x) name && negb (si_Deleted x) else "runtime secret has incompatible ownership or is scheduled for deletion" in
                  aws! value := call (GetSecretValue (si_ARN x)) in
                  aws! _ := aws_lift (secret_ok value) in
                  aws_ret (si_ARN x)
              end in
  insist arn != "" else "AWS returned no runtime secret ARN" in
  aws_ret (set_secret arn infra).

(** ** IAM *)
Definition in_region (c : bootstrapConfig) : string * string * string := ("StringEquals", "aws:RequestedRegion", aw_Region (bc_AWS c)).
Definition arn_in (service : string) (c : bootstrapConfig) (rest : string) : string :=
  String.append "arn:aws:" (String.append service (String.append ":" (String.append (aw_Region (bc_AWS c)) (String.append ":" (String.append (aw_AccountID (bc_AWS c)) rest))))).

Definition role_statements (c : bootstrapConfig) (infra : Infrastructure) (kind : string) : list Statement :=
  let bundle := bundleParameterARN c in
  [mkStatement ["ssm:GetParameter"] [bundle] []] ++
  (if kind == "worker" then []
   else [mkStatement ["secretsmanager:GetSecretValue"] [in_RuntimeSecretARN infra] [];
         mkStatement ["ec2:DescribeInstances"; "ec2:DescribeAvailabilityZones"; "ec2:DescribeInstanceStatus"; "ec2:DescribeImages"; "ec2:DescribeSubnets";
                      "ec2:DescribeSecurityGroups"] ["*"] [in_region c]]) ++
  (if kind == "spire"
   then [mkStatement ["secretsmanager:GetSecretValue"] [in_DBSecretARN infra] []; mkStatement ["ssm:PutParameter"] [bundle] []]
   else if kind == "platform"
   then [mkStatement ["ecr:GetAuthorizationToken"] ["*"] [];
         mkStatement ["ecr:BatchGetImage"; "ecr:GetDownloadUrlForLayer"; "ecr:BatchCheckLayerAvailability"] [arn_in "ecr" c ":repository/*"] [];
         mkStatement ["ec2:RunInstances"] ["*"] [in_region c];
         mkStatement ["ec2:CreateTags"] ["*"] [("StringEquals", "ec2:CreateAction", "RunInstances"); in_region c];
         mkStatement ["ec2:TerminateInstances"] [arn_in "ec2" c ":instance/*"] [("Null", "ec2:ResourceTag/CraneBootstrap", "true")];
         mkStatement ["iam:PassRole"] [String.append "arn:aws:iam::" (String.append (aw_AccountID (bc_AWS c)) (String.append ":role/" (dashed (bc_Name c) "worker")))]
           [("StringEquals", "iam:PassedToService", "ec2.amazonaws.com")];
         mkStatement ["ssm:DescribeInstanceInformation"; "ssm:GetCommandInvocation"] ["*"] [];
         mkStatement ["ssm:SendCommand"] [String.append "arn:aws:ssm:" (String.append (aw_Region (bc_AWS c)) "::document/AWS-RunShellScript")] [];
         mkStatement ["ssm:SendCommand"] [arn_in "ec2" c ":instance/*"] [("StringEquals", "ssm:resourceTag/CraneBootstrap", bc_Name c)]]
   else []).

Definition managed_policy : string := "arn:aws:iam::aws:policy/AmazonSSMManagedInstanceCore".

Definition ensureRole (c : bootstrapConfig) (infra : Infrastructure) (kind : string) : Aws C string :=
  let name := bc_Name c in
  let role := dashed name kind in
  aws! r := try_call (GetRole role) in
  aws! _ := match r with
            | inr e => if isCode e ["NoSuchEntity"] then call (CreateRole role (resourceTags name kind)) else aws_lift (Err (err_of e))
            | inl tags => insist owned tags name else "runtime IAM role is not owned by deployment" in call (UpdateAssumeRolePolicy role)
            end in
  aws! _ := call (PutRolePolicy role (role_statements c infra kind)) in
  aws! _ := call (AttachRolePolicy role managed_policy) in
  aws! p := try_call (GetInstanceProfile role) in
  aws! roles := match p with
                | inr e => if isCode e ["NoSuchEntity"] then aws! _ := call (CreateInstanceProfile role (resourceTags name kind)) in aws_ret []
                           else aws_lift (Err (err_of e))
                | inl x => insist owned (pf_Tags x) name else "IAM profile is not owned by deployment" in
                           insist match pf_Roles x with [] => true | [r] => r == role | _ => false end else "IAM profile has incompatible runtime role" in
                           aws_ret (pf_Roles x)
                end in
  aws! _ := match roles with [] => call (AddRoleToProfile role role) | _ => aws_ret tt end in
  aws_ret role.

Definition ensureIAM (c : bootstrapConfig) (infra : Infrastructure) : Aws C Infrastructure :=
  aws! spire := ensureRole c infra "spire" in
  aws! platform := ensureRole c infra "platform" in
  aws! worker := ensureRole c infra "worker" in
  aws_ret (set_profiles spire platform worker infra).

(** ** The SPIRE endpoint *)
Definition checkEndpointOwner (arn name : string) : Aws C unit :=
  aws! out := call (DescribeEndpointTags arn) in
  match out with
  | [tags] => insist owned tags name else "SPIRE load balancer resource is not owned by deployment" in aws_ret tt
  | _ => aws_fail "SPIRE load balancer resource is not owned by deployment"
  end.

Definition ensureBalancer (c : bootstrapConfig) (infra : Infrastructure) : Aws C LoadBalancer :=
  let name := endpointName (bc_Name c) in
  aws! a := try_call (DescribeLoadBalancers name) in
  aws! lbs := match a with
              | inl l => aws_ret l
              | inr e => if isCode e ["LoadBalancerNotFound"]
                         then call (CreateLoadBalancer name (in_PrivateSubnetIDs infra) [in_SpireLoadBalancerSecurityGroupID infra] (resourceTags (bc_Name c) "spire-nlb"))
                         else aws_lift (Err (err_of e))
              end in
  match lbs with
  | [l] =>
      insist (lb_Arn l != "") && (lb_DNSName l != "") && (lb_Scheme l == "internal") && (lb_Type l == "network") && (lb_VpcID l == in_VPCID infra) &&
             sameStrings (lb_SecurityGroups l) [in_SpireLoadBalancerSecurityGroupID infra]
        else "SPIRE load balancer has incompatible network or security settings" in
      insist sameStrings (lb_Subnets l) (in_PrivateSubnetIDs infra) else "SPIRE load balancer has incompatible subnets" in
      aws! _ := checkEndpointOwner (lb_Arn l) (bc_Name c) in
      aws! _ := call (ModifyLoadBalancer (lb_Arn l)) in
      aws_ret l
  | _ => aws_fail "expected one SPIRE load balancer"
  end.

Definition ensureTargets (c : bootstrapConfig) (infra : Infrastructure) : Aws C TargetGroup :=
  let name := endpointName (bc_Name c) in
  aws! a := try_call (DescribeTargetGroups name) in
  aws! groups := match a with
                 | inl l => aws_ret l
                 | inr e => if isCode e ["TargetGroupNotFound"] then call (CreateTargetGroup name (in_VPCID infra) (resourceTags (bc_Name c) "spire-targets"))
                            else aws_lift (Err (err_of e))
                 end in
  match groups with
  | [t] =>
      insist (tgr_Arn t != "") && (tgr_VpcID t == in_VPCID infra) && (tgr_Protocol t == "TCP") && (tgr_Port t == 8081) && (tgr_TargetType t == "instance") &&
             (tgr_HealthCheckProtocol t == "TCP") && (tgr_HealthCheckPort t == "8081") else "SPIRE target group has incompatible settings" in
      aws! _ := checkEndpointOwner (tgr_Arn t) (bc_Name c) in
      aws! _ := call (ModifyTargetGroup (tgr_Arn t)) in
      aws_ret t
  | _ => aws_fail "expected one SPIRE target group"
  end.

Definition ensureListener (lb target : string) : Aws C unit :=
  aws! ls := call (DescribeListeners lb) in
  match ls with
  | [] => call (CreateListener lb target)
  | [x] => insist (ls_Protocol x == "TCP") && (ls_Port x == 8081) &&
                  match ls_Actions x with [(ty, arn)] => (ty == "forward") && (arn == target) | _ => false end else "incompatible SPIRE listener" in
           aws_ret tt
  | _ => aws_fail "unexpected SPIRE listeners"
  end.

Definition ensureSpireEndpoint (c : bootstrapConfig) (infra : Infrastructure) : Aws C Infrastructure :=
  aws! l := ensureBalancer c infra in
  aws! t := ensureTargets c infra in
  aws! _ := ensureListener (lb_Arn l) (tgr_Arn t) in
  aws_ret (set_endpoint (lb_DNSName l) (lb_Arn l) (tgr_Arn t) infra).

Definition registerSpireTarget (infra : Infrastructure) (instance : string) : Aws C unit :=
  aws! ts := call (DescribeTargetHealth (in_SpireTargetGroupARN infra)) in
  insist forallb (fun t => (fst t == instance) && (snd t == 8081)) ts
    else "SPIRE target group already contains another backend; restore the authority and reconcile targets explicitly" in
  call (RegisterTarget (in_SpireTargetGroupARN infra) instance).

Definition validateGoldenImage (c : bootstrapConfig) (infra : Infrastructure) (ami : string) : Aws C unit :=
  aws! out := call (DescribeImage ami) in
  match out with
  | [x] =>
      insist (ii_State x == "available") && (ii_Architecture x == "x86_64") else "bootstrap requires an available amd64 golden AMI" in
      let tag k := match List.find (fun t => tg_Key t == k) (rev (ii_Tags x)) with Some t => tg_Value t | None => "" end in
      insist forallb (fun kv => TrimSpace (tag (fst kv)) == snd kv)
               [("CraneImage", "v2"); ("SpireServerAddress", in_SpireAddress infra); ("SpireTrustDomain", as_TrustDomain (bc_SPIRE c));
                ("SpireBundleParameter", bundleParameter c); ("SpireVersion", as_Version (bc_SPIRE c));
                ("KubernetesVersion", ap_KubernetesVersion (bc_Platform c)); ("AWSRegion", aw_Region (bc_AWS c))]
        else "golden AMI metadata does not match deployment; rebuild with the prepared endpoint/configuration" in
      aws_ret tt
  | _ => aws_fail "bootstrap requires an available amd64 golden AMI"
  end.

(** ** Everything *)
Definition ensureComputeInfrastructure (c : bootstrapConfig) (stored : Infrastructure) : Aws C Infrastructure :=
  aws! infra := ensureNetwork c in
  let infra := set_secret (in_RuntimeSecretARN stored) infra in
  aws! infra := ensureSecurityGroups c infra in
  aws! infra := ensureSpireEndpoint c infra in
  aws! infra := ensureRDS c infra in
  ensureIAM c infra.

Definition EnsureInfrastructure (c : bootstrapConfig) : Aws C Infrastructure :=
  let c := aws_WithDefaults c in
  aws! _ := aws_lift (aws_Validate c) in
  aws! infra := ensureSecrets c no_infra in
  ensureComputeInfrastructure c infra.
End Resources.
