(* ===== verification/AwsRuntime.v ===== *)
(** * The AWS runtime: internal/provider/awscompute runtime.go, runtime_identity.go and
      [shellQuote] of bootstrap_runner.go

    [LaunchWorker], [VerifyWorker] and the two scripts that enroll a worker, over an EC2 and
    an SSM service that are parameters ([EC2], [SSM]) with a state of their own.  A context
    ends after [polls] pauses, so the polling loops count them down.  gzip, base64 and the
    rendering of the script template are parameters. *)
From S2P Require Import Prelude GoStrings Sql Api Schema Lease Scheduling Catalog Decode Bootstrap Regex Subd Dominator LocalHost Deployment.
From Stdlib Require Import Ascii String.

Local Open Scope string_scope.
Local Open Scope list_scope.
Local Open Scope Z_scope.
Local Open Scope crane_scope.

(** ** The services *)
Record Image : Type := mkImage { im_Available : bool; im_Tags : list (string * string) }.
Record Subnet : Type := mkSubnet { su_AvailabilityZone : string; su_VpcID : string }.

(** An instance as EC2 describes it, with the client token it was launched with; [None] of
    [is_ProfileArn] and [is_Zone] are nil pointers; the other strings are never absent. *)
Record Instance : Type := mkInstance {
  is_ID : string; is_PrivateIP : string; is_Zone : option string; is_SubnetID : string; is_ImageID : string; is_Type : string;
  is_ProfileArn : option string; is_Running : bool; is_Tags : list (string * string); is_Token : string }.

(** One instance is asked for, and the metadata service's options are constants. *)
Record RunInstancesInput : Type := mkRunInput {
  ri_ImageID : string; ri_InstanceType : string; ri_ClientToken : string; ri_Profile : string; ri_SubnetID : string;
  ri_Groups : list string; ri_PublicIP : bool; ri_Tags : list (string * string) }.

(** [ec2_all] is every instance there is, whoever asks. *)
Class EC2 (C : Type) : Type := {
  ec2_DescribeImages : string -> C -> result (list Image);
  ec2_DescribeSubnets : string -> C -> result (list Subnet);
  ec2_DescribeSecurityGroups : list string -> C -> result (list string);
  ec2_RunInstances : RunInstancesInput -> C -> result (list Instance) * C;
  ec2_DescribeInstances : string -> C -> result (list (string * list Instance));
  ec2_all : C -> list Instance }.

Class SSM (C : Type) : Type := {
  ssm_Ping : string -> C -> result (list bool) * C;
  ssm_SendCommand : string -> string -> C -> result (option string) * C;
  ssm_Invocation : string -> string -> C -> (bool + string) * C }.

Class Scripts : Type := { gzip_base64 : string -> string; render_subd : string -> string -> string -> string -> string -> string -> option string }.

(** ** The launch template *)
Record runtimeLaunchParameters : Type := mkLaunch {
  lp_ImageID : string; lp_InstanceType : string; lp_SubnetID : string; lp_SecurityGroupIDs : list string; lp_InstanceProfile : string;
  lp_AssociatePublicIP : option bool }.

Definition dec_bool_pointer (j : option Json) : option (option bool) :=
  match j with None | Some JNull => Some None | Some (JBool b) => Some (Some b) | _ => None end.

(** [json.Unmarshal] into the struct. *)
Definition dec_launch (raw : RawMessage) : option runtimeLaunchParameters :=
  match raw with
  | None => None
  | Some j =>
      l ← dec_object (Some j);
      im ← dec_string (field "image_id" l); it ← dec_string (field "instance_type" l); su ← dec_string (field "subnet_id" l);
      gs ← dec_array (field "security_group_ids" l); sg ← mapM (fun g => dec_string (Some g)) gs;
      pr ← dec_string (field "iam_instance_profile" l); pu ← dec_bool_pointer (field "associate_public_ip_address" l);
      Some (mkLaunch im it su sg pr pu)
  end.

(** The same with [DisallowUnknownFields]. *)
Definition dec_launch_strict (raw : RawMessage) : option runtimeLaunchParameters :=
  if known ["image_id"; "instance_type"; "subnet_id"; "security_group_ids"; "iam_instance_profile"; "associate_public_ip_address"] raw
  then dec_launch raw else None.

Definition deploymentNameRE : regex :=
  let a := fun c => lower_letter c || digit c in RCat (RClass a) (RUpTo 62 (RClass (fun c => a c || any_of "-" c))).
Definition instanceIDRE : regex := RCat (RLit "i-") (RCat (RRep 8 (RClass hex_digit)) (RUpTo 9 (RClass hex_digit))).

(** [strings.Trim(s, "/")] *)
Definition slash : ascii := "/".
Fixpoint trim_slashes_left (s : string) : string :=
  match s with String c r => if c == slash then trim_slashes_left r else s | EmptyString => "" end.
Fixpoint all_slashes (s : string) : bool := match s with EmptyString => true | String c r => (c == slash) && all_slashes r end.
Fixpoint trim_slashes_right (s : string) : string :=
  match s with EmptyString => "" | String c r => if all_slashes s then "" else String c (trim_slashes_right r) end.

Definition deploymentNameFromBundleParameter (parameter : string) : option string :=
  match Split (trim_slashes_right (trim_slashes_left parameter)) slash with
  | [a; name; b] => if (a == "crane") && (b == "spire-bundle") && full_match deploymentNameRE name then Some name else None
  | _ => None
  end.

(** A map built from tags: the last one with a key wins. *)
Definition tag_map (tags : list (string * string)) : gmap string string := list_to_map (rev tags).
Definition tag (m : gmap string string) (key : string) : string := default "" (m !! key).

(** [shellQuote] *)
Definition quote_char : ascii := ascii_of_nat 39.
Definition double_quote : ascii := ascii_of_nat 34.
Definition quoted_quote : string := String quote_char (String double_quote (String quote_char (String double_quote (String quote_char "")))).
Fixpoint escape_quotes (s : string) : string :=
  match s with
  | EmptyString => ""
  | String c r => if c == quote_char then String.append quoted_quote (escape_quotes r) else String c (escape_quotes r)
  end.
Definition shellQuote (s : string) : string := String quote_char (String.append (escape_quotes s) (String quote_char "")).

Section Runtime.
Context {C : Type} {ec2 : EC2 C} {ssm : SSM C} {gonet : GoNet} {scripts : Scripts}.

Record Runtime : Type := mkRuntime { rt_region : string; rt_trustDomain : string }.

Definition worker_tags (deployment : string) (op : Operation) : list (string * string) :=
  let t := op_Target op in
  [("CraneBootstrap", deployment); ("BootstrapRole", "worker"); ("CraneHostID", op_HostID op); ("CraneOperationID", op_ID op);
   ("CraneNodeGroupID", op_NodeGroupID op); ("CraneZoneID", op_ZoneID op); ("CraneClusterID", t_ClusterID t);
   ("CraneNodePoolID", t_NodePoolID t); ("CraneTemplateRevision", t_TemplateRevision t);
   ("Name", String.append "crane-" (String.append (t_CapacityClass t) (String.append "-" (op_HostID op))))].

Definition imageMetadata (id : string) (c : C) : result (gmap string string) :=
  match ec2_DescribeImages id c with
  | Ok [im] => if im_Available im then Ok (tag_map (im_Tags im)) else Err (ErrMsg "worker golden image is unavailable")
  | _ => Err (ErrMsg "worker golden image is unavailable")
  end.

Definition kubernetes_provider_id (zone id : string) : string := String.append "aws:///" (String.append zone (String.append "/" id)).

(** The template and the deployment's name, when the operation may be launched. *)
Definition launch_request (r : Runtime) (op : Operation) (c : C) : result RunInstancesInput :=
  let t := op_Target op in
  let sch := t_Scheduling t in
  let* p := of_option (ErrMsg "runtime launch template is incomplete") (dec_launch_strict (t_LaunchParameters t)) in
  guard negb ((lp_ImageID p == "") || (lp_InstanceType p == "") || (lp_SubnetID p == "") || (List.length (lp_SecurityGroupIDs p) =? 0)%nat ||
              (lp_InstanceProfile p == "")) else ErrMsg "runtime launch template is incomplete" in
  guard negb ((t_Provider t != "aws") || (t_Region t != rt_region r) || (t_ProviderZoneID t == "") || (op_ProviderToken op == "") || (op_HostID op == ""))
    else ErrMsg "runtime operation does not match AWS deployment" in
  let* m := imageMetadata (lp_ImageID p) c in
  guard negb ((tag m "CraneImage" != "v2") || (tag m "SpireServerAddress" == "") || (tag m "SpireTrustDomain" != rt_trustDomain r) ||
              (tag m "SpireBundleParameter" == "") || (tag m "AWSRegion" != rt_region r)) else ErrMsg "worker image is not prepared for this deployment" in
  let* name := of_option (ErrMsg "worker template does not match the deployment zone") (deploymentNameFromBundleParameter (tag m "SpireBundleParameter")) in
  guard negb ((lp_InstanceProfile p != String.append name "-worker") || (InstanceType sch != lp_InstanceType p) || (sRegion sch != rt_region r) ||
              (sZone sch != t_ProviderZoneID t)) else ErrMsg "worker template does not match the deployment zone" in
  let* subnet := match ec2_DescribeSubnets (lp_SubnetID p) c with
                 | Ok [s] => if su_AvailabilityZone s == t_ProviderZoneID t then Ok s else Err (ErrMsg "worker subnet is not in the selected availability zone")
                 | _ => Err (ErrMsg "worker subnet is not in the selected availability zone")
                 end in
  let* vpcs := match ec2_DescribeSecurityGroups (lp_SecurityGroupIDs p) c with
               | Ok l => if (List.length l =? List.length (lp_SecurityGroupIDs p))%nat then Ok l else Err (ErrMsg "worker security groups are unavailable")
               | Err _ => Err (ErrMsg "worker security groups are unavailable")
               end in
  guard forallb (fun v => v == su_VpcID subnet) vpcs else ErrMsg "worker security group is outside the selected VPC" in
  Ok (mkRunInput (lp_ImageID p) (lp_InstanceType p) (op_ProviderToken op) (lp_InstanceProfile p) (lp_SubnetID p) (lp_SecurityGroupIDs p)
        (default true (lp_AssociatePublicIP p)) (worker_tags name op)).

Definition LaunchWorker (r : Runtime) (op : Operation) (c : C) : result RuntimeHost * C :=
  match launch_request r op c with
  | Err e => (Err e, c)
  | Ok rq =>
      match ec2_RunInstances rq c with
      | (Err _, c') => (Err (ErrMsg "AWS worker launch failed"), c')
      | (Ok [i], c') =>
          if (is_ID i == "") || (is_PrivateIP i == "") then (Err (ErrMsg "AWS worker launch returned incomplete identity"), c')
          else (Ok (mkRuntimeHost (is_ID i) (is_PrivateIP i) (kubernetes_provider_id (t_ProviderZoneID (op_Target op)) (is_ID i))), c')
      | (Ok _, c') => (Err (ErrMsg "AWS worker launch returned no instance"), c')
      end
  end.

Definition identity_tags (op : Operation) : list (string * string) :=
  let t := op_Target op in
  [("CraneHostID", op_HostID op); ("CraneOperationID", op_ID op); ("CraneNodeGroupID", op_NodeGroupID op); ("CraneZoneID", op_ZoneID op);
   ("CraneClusterID", t_ClusterID t); ("CraneNodePoolID", t_NodePoolID t); ("CraneTemplateRevision", t_TemplateRevision t); ("BootstrapRole", "worker")].

(** The instance is the one that the operation launched. *)
Definition instance_matches (op : Operation) (p : runtimeLaunchParameters) (id : string) (i : Instance) : bool :=
  match is_Zone i with Some z => is_Running i && (is_ID i == id) && (z == t_ProviderZoneID (op_Target op)) | None => false end &&
  (is_SubnetID i == lp_SubnetID p) && (is_ImageID i == lp_ImageID p) && (is_Type i == lp_InstanceType p) &&
  match is_ProfileArn i with Some arn => HasSuffix arn (String.append "instance-profile/" (lp_InstanceProfile p)) | None => false end.

Definition VerifyWorker (r : Runtime) (op : Operation) (id : string) (c : C) : result RuntimeIdentity :=
  let invalid := ErrMsg "provider worker identity verification failed" in
  let t := op_Target op in
  guard negb ((id == "") || (t_Provider t != "aws") || (t_Region t != rt_region r) || (t_AccountID t == "") || (t_ClusterID t == "") ||
              (t_NodePoolID t == "") || (op_HostID op == "") || (op_ID op == "") || (op_NodeGroupID op == "") || (op_ZoneID op == "") ||
              (t_TemplateRevision t == "")) else invalid in
  let* i := match ec2_DescribeInstances id c with
            | Ok [(owner, [i])] => if owner == t_AccountID t then Ok i else Err invalid
            | _ => Err invalid
            end in
  let* p := of_option invalid (dec_launch (t_LaunchParameters t)) in
  guard instance_matches op p id i else invalid in
  let tags := tag_map (is_Tags i) in
  guard forallb (fun kv => tag tags (fst kv) == snd kv) (identity_tags op) else invalid in
  guard negb ((tag tags "CraneBootstrap" == "") || (lp_InstanceProfile p != String.append (tag tags "CraneBootstrap") "-worker")) else invalid in
  guard private_ip (is_PrivateIP i) else invalid in
  Ok (mkIdentity (is_PrivateIP i) (kubernetes_provider_id (t_ProviderZoneID t) id)).

(** ** Scripts on a host *)
Fixpoint wait_online (polls : nat) (instance : string) (c : C) : result unit * C :=
  match ssm_Ping instance c with
  | (Err _, c) => (Err (ErrMsg "SSM worker discovery failed"), c)
  | (Ok [true], c) => (Ok tt, c)
  | (Ok _, c) => match polls with O => (Err (ErrMsg "context"), c) | S polls => wait_online polls instance c end
  end.

(** [inl true]: the invocation does not exist yet; [inl false]: another error. *)
Fixpoint wait_command (polls : nat) (command instance : string) (c : C) : result unit * C :=
  match ssm_Invocation command instance c with
  | (inl true, c) => match polls with O => (Err (ErrMsg "context"), c) | S polls => wait_command polls command instance c end
  | (inl false, c) => (Err (ErrMsg "SSM configuration status unavailable"), c)
  | (inr status, c) =>
      if status == "Success" then (Ok tt, c)
      else if one_of status ["Failed"; "Cancelled"; "TimedOut"; "DeliveryTimedOut"; "ExecutionTimedOut"; "Undeliverable"; "Terminated"]
      then (Err (ErrMsg "SSM host configuration failed"), c)
      else match polls with O => (Err (ErrMsg "context"), c) | S polls => wait_command polls command instance c end
  end.

Definition nl : string := String (ascii_of_nat 10) "".
Definition ssm_command (label script : string) : string :=
  let path := shellQuote (String.append "/var/lib/crane/" (String.append label ".sh")) in
  String.append "set -eu" (String.append nl (String.append "install -d -m 0755 /var/lib/crane" (String.append nl
    (String.append "printf %s " (String.append (shellQuote (gzip_base64 script)) (String.append " | base64 -d | gzip -d > " (String.append path
      (String.append nl (String.append "bash " path))))))))).

Definition runSSMScript (polls : nat) (instance label script : string) (c : C) : result unit * C :=
  if negb (full_match instanceIDRE instance) then (Err (ErrMsg "invalid SSM target identity"), c)
  else match wait_online polls instance c with
       | (Err e, c) => (Err e, c)
       | (Ok _, c) =>
           let command := ssm_command label script in
           if 23000 <? Z.of_nat (String.length command) then (Err (ErrMsg "SSM configuration command exceeds the supported size"), c)
           else match ssm_SendCommand instance command c with
                | (Ok (Some id), c) => wait_command polls id instance c
                | (_, c) => (Err (ErrMsg "SSM configuration command submission failed"), c)
                end
       end.

Definition registration_script (identity parent : string) : string :=
  String.append "#!/usr/bin/env bash" (String.append nl (String.append "set -euo pipefail" (String.append nl
  (String.append "export PATH=/usr/local/bin:/usr/bin:/bin:/usr/sbin:/sbin" (String.append nl (String.append "container=crane-spire-server" (String.append nl
  (String.append "socket=/tmp/spire-server/private/api.sock" (String.append nl (String.append "id=" (String.append (shellQuote identity) (String.append nl
  (String.append "parent=" (String.append (shellQuote parent) nl)))))))))))))).

(** The script's head, which carries what varies, is rendered here; the rest of the text is fixed. *)
Definition ReconcileSubdRegistration (rest : string) (polls : nat) (r : Runtime) (op : Operation) (providerID : string) (c : C) : result unit * C :=
  let t := op_Target op in
  if (t_SpireInstanceID t == "") || (providerID == "") || (t_AccountID t == "") || (t_Region t == "")
  then (Err (ErrMsg "SPIRE registration target is incomplete"), c)
  else
    let domain := String.append "spiffe://" (rt_trustDomain r) in
    let parent := String.append domain (String.append "/spire/agent/aws_iid/" (String.append (t_AccountID t) (String.append "/" (String.append (t_Region t)
                    (String.append "/" providerID))))) in
    let identity := String.append domain (String.append "/subd/" providerID) in
    runSSMScript polls (t_SpireInstanceID t) "subd-registration" (String.append (registration_script identity parent) rest) c.

Definition ConfigureSubd (polls : nat) (r : Runtime) (op : Operation) (providerID privateIP : string) (c : C) : result unit * C :=
  if (providerID == "") || (privateIP == "") || (op_ZoneID op == "") then (Err (ErrMsg "worker configuration target is incomplete"), c)
  else
    let imageID := match dec_launch (t_LaunchParameters (op_Target op)) with Some p => lp_ImageID p | None => "" end in
    match imageMetadata imageID c with
    | Err e => (Err e, c)
    | Ok m =>
        match render_subd (rt_trustDomain r) (tag m "SpireServerAddress") (op_ZoneID op) providerID privateIP imageID with
        | None => (Err (ErrMsg "render worker configuration"), c)
        | Some script => runSSMScript polls providerID (String.append "subd-" (op_ID op)) script c
        end
    end.
End Runtime.
