(* ===== verification/LegacyProvider.v ===== *)
(** * The provider of the legacy actions: internal/provider/awscompute/provider.go

    Hosts, a load balancer and a database made through the AWS SDK, as the action executor asks
    for them.  Requests are [Calls] of the SDK; each wait is a ticker with its deadline in ticks
    (20 minutes of 30 seconds, 5 minutes of 15, 3 minutes of 10).  An index into an empty answer is
    a panic, shown as a failure.  Log lines, the prefixes that wrap an error and the HCL stanza
    [buildSpireDatastoreConfig] prints beside the connection are left out. *)
From S2P Require Import Prelude GoStrings Sql Api Calls HostCatalog.
From stdpp Require Import pretty.
From Stdlib Require Import Ascii String.

Local Open Scope string_scope.
Local Open Scope list_scope.
Local Open Scope Z_scope.
Local Open Scope crane_scope.

(** ** Requests *)
Record SdkVolume : Type := mkSdkVolume { sv_Device : string; sv_GiB : Z; sv_Type : string; sv_DeleteOnTermination : bool; sv_Encrypted : bool }.
Record SdkLaunch : Type := mkSdkLaunch {
  sl_ImageID : string; sl_Type : string; sl_KeyName : string; sl_UserData : string; sl_Groups : list string; sl_Profile : string; sl_Volumes : list SdkVolume;
  sl_MinCount : Z; sl_MaxCount : Z; sl_Tags : list (string * string) }.
Record SdkDatabase : Type := mkSdkDatabase { sdb_Status : string; sdb_Endpoint : option string; sdb_SecretArn : option string }.
Record SdkNewDatabase : Type := mkSdkNewDatabase {
  nd_Identifier : string; nd_Class : string; nd_Engine : string; nd_Name : string; nd_Username : string; nd_ManagePassword : bool; nd_Storage : Z; nd_StorageType : string;
  nd_Encrypted : bool; nd_Groups : list string; nd_MultiAZ : bool; nd_Public : bool; nd_BackupDays : Z; nd_Maintenance : string; nd_Insights : bool;
  nd_DeletionProtection : bool; nd_Tags : list (string * string) }.
Record SdkHealthCheck : Type := mkSdkHealthCheck { hc_Port : string; hc_IntervalSecs : Z; hc_Healthy : Z; hc_Unhealthy : Z }.
Record LBConfig : Type := mkLBConfig { lc_Name : string; lc_Port : Z; lc_Internal : bool; lc_Purpose : string; lc_DeregistrationDelaySecs : Z }.
Record PostgresSpec : Type := mkPostgresSpec {
  ps_VPCID : string; ps_DBSubnetGroup : string; ps_SecurityGroupName : string; ps_IngressSecurityGroupID : string; ps_Identifier : string; ps_Engine : string;
  ps_EngineVersion : string; ps_InstanceClass : string; ps_MasterUsername : string; ps_StorageType : string; ps_SubnetIDs : list string; ps_Port : Z; ps_StorageGiB : Z;
  ps_MultiAZ : bool; ps_DeletionProtection : bool; ps_ManageMasterUserPassword : bool }.

Inductive sdk : Type -> Type :=
| LoadDefaultConfig : sdk unit
| ReadFile (path : string) : sdk string
| TerminateInstances (id : string) : sdk unit
| RunInstances (input : SdkLaunch) : sdk (list string)
| InstanceStates (id : string) : sdk (list (list string))
| TargetGroupsNamed (name : string) : sdk (list string)
| NewTargetGroup (name vpc : string) (port : Z) (health : SdkHealthCheck) (tags : list (string * string)) : sdk (list string)
| BalancersNamed (name : string) : sdk (list (string * string))
| NewBalancer (name scheme : string) (subnets : list string) (tags : list (string * string)) : sdk (list (string * string))
| BalancerStates (arn : string) : sdk (list string)
| NewListener (balancer : string) (port : Z) (target : string) : sdk unit
| RegisterTarget (target instance : string) (port : Z) : sdk unit
| GroupsNamed (name vpc : string) : sdk (list string)
| NewGroup (name description vpc : string) (tags : list (string * string)) : sdk string
| Authorize (group source : string) (port : Z) : sdk unit
| NewDatabase (input : SdkNewDatabase) : sdk unit
| Databases (id : string) : sdk (list SdkDatabase).

(** [base64.StdEncoding] *)
Class Base64 : Type := { base64_std : string -> string }.

Record Provider : Type := mkLegacyProvider { pv_elbClient : bool }.

Section Provider.
Context {C : Type} {service : Service sdk C} {base64 : Base64}.
Abbreviation Sdk := (Calls sdk C).

Definition panics {A} : Sdk A := aws_fail "panic: index out of range".
Definition isDryRunSuccess (e : aws_error) : bool := isCode e ["DryRunOperation"].
Definition GetProviderName : string := "aws".

(** ** Hosts *)
Definition legacy_TerminateHost (id : string) : Sdk unit :=
  aws! a := try_call (TerminateInstances id) in
  match a with inl _ => aws_ret tt | inr e => if isDryRunSuccess e then aws_ret tt else aws_lift (Err (err_of e)) end.

Definition buildUserData (path : string) : Sdk string := aws! raw := call (ReadFile path) in aws_ret (base64_std raw).

Definition launched (input : SdkLaunch) : Sdk string :=
  aws! a := try_call (RunInstances input) in
  match a with
  | inl (id :: _) => aws_ret id
  | inl [] => aws_fail "no instance created"
  | inr e => if isDryRunSuccess e then aws_ret "sample-id" else aws_lift (Err (err_of e))
  end.

Definition spire_launch (userData id : string) (conn : DBConnectionInfo) : SdkLaunch :=
  mkSdkLaunch "ami-0e91fdbdf2e87a2fc" "t4g.small" "dominatorDeployedEC2Key" userData ["sg-0a365ae1dce045677"] "Spire-server-instance-role" [mkSdkVolume "/dev/sda1" 15 "gp3" true true] 1 1
    [("Role", "spire-server"); ("HostID", id); ("SpireDBEndpoint", ci_Endpoint conn); ("SpireDBSecretArn", ci_SecretARN conn)].
Definition legacy_ProvisionSpireHost (id : string) (conn : DBConnectionInfo) : Sdk string :=
  aws! userData := buildUserData "cloud-init.yaml" in launched (spire_launch userData id conn).

Definition host_launch (role id : string) : SdkLaunch :=
  mkSdkLaunch "ami-0e91fdbdf2e87a2fc" "t4g.micro" "crane_api_provisioned_instances_key" "" [] "" [] 1 1 [("Role", role); ("HostID", id)].
Definition legacy_ProvisionHost (role id : string) : Sdk string :=
  insist role != "" else "role empty" in launched (host_launch role id).

(** ** Load balancer *)
(** A failed lookup is taken for absence. *)
Definition found {A} (a : answer (list A)) : option A := match a with inl (x :: _) => Some x | _ => None end.
Definition first_of {A} (l : list A) : Sdk A := match l with x :: _ => aws_ret x | [] => panics end.

Definition findOrCreateTargetGroup (vpc : string) (cfg : LBConfig) : Sdk string :=
  let name := String.append (lc_Name cfg) "-tg" in
  aws! a := try_call (TargetGroupsNamed name) in
  match found a with
  | Some arn => aws_ret arn
  | None =>
      aws! out := call (NewTargetGroup name vpc (lc_Port cfg) (mkSdkHealthCheck (pretty (lc_Port cfg)) 10 2 2)
                          [("DeregistrationDelay.TimeoutSeconds", pretty (lc_DeregistrationDelaySecs cfg)); ("Purpose", lc_Purpose cfg)]) in
      first_of out
  end.

Definition findOrCreateNLB (subnets : list string) (name scheme : string) : Sdk (string * string) :=
  let name := String.append name "-nlb" in
  aws! a := try_call (BalancersNamed name) in
  match found a with
  | Some b => aws_ret b
  | None => aws! out := call (NewBalancer name scheme subnets [("Purpose", "Spire server")]) in first_of out
  end.

Definition waitForNLBActive (arn : string) : Sdk unit :=
  every_tick 20 "timed out waiting for NLB to become active"
    (aws! out := call (BalancerStates arn) in
     aws! state := first_of out in
     aws_ret (if state == "active" then Some tt else None)).

Definition legacy_ProvisionLB (p : Provider) (vpc : string) (subnets : list string) (cfg : LBConfig) : Sdk string :=
  aws! _ := if pv_elbClient p then aws_ret tt else call LoadDefaultConfig in
  aws! target := findOrCreateTargetGroup vpc cfg in
  aws! b := findOrCreateNLB subnets (lc_Name cfg) (if lc_Internal cfg then "internal" else "internet-facing") in
  aws! _ := waitForNLBActive (snd b) in
  aws! a := try_call (NewListener (snd b) (lc_Port cfg) target) in
  match a with
  | inl _ => aws_ret (fst b)
  | inr e => if isCode e ["DuplicateListener"] then aws_ret (fst b) else aws_lift (Err (err_of e))
  end.

(** ** Database *)
Definition dbPort : Z := 5432.
Definition dbName : string := "spire".
Definition dbUser : string := "postgres".
Definition dbInstanceID : string := "spire-server-db".
Definition dbSGName : string := "spire-rds-sg".
Definition dbSGDescription : string := "SPIRE server RDS inbound 5432 from EC2 SG only".

Definition waitForRDSAvailable (id : string) : Sdk (string * string) :=
  every_tick 40 "timed out after 20 minutes"
    (aws! out := call (Databases id) in
     aws! db := first_of out in
     aws_ret (match sdb_Endpoint db with
              | Some address => if sdb_Status db == "available" then Some (address, default "" (sdb_SecretArn db)) else None
              | None => None
              end)).

Definition new_database (group : string) : SdkNewDatabase :=
  mkSdkNewDatabase dbInstanceID "db.t4g.micro" "postgres" dbName dbUser true 20 "gp2" false [group] false false 0 "sun:05:00-sun:06:00" false true
    [("Purpose", "spire-server-datastore"); ("ManagedBy", "go-provisioner")].

Definition legacy_ProvisionSpireDB (vpc : string) (subnets : list string) (source : string) : Sdk DBConnectionInfo :=
  aws! _ := call LoadDefaultConfig in
  aws! groups := call (GroupsNamed dbSGName vpc) in
  aws! group := match groups with [] => call (NewGroup dbSGName dbSGDescription vpc [("Purpose", "spire-rds")]) | g :: _ => aws_ret g end in
  aws! a := try_call (Authorize group source dbPort) in
  aws! _ := match a with
            | inl _ => aws_ret tt
            | inr e => if isCode e ["InvalidPermission.Duplicate"] then aws_ret tt else aws_lift (Err (err_of e))
            end in
  aws! _ := call (NewDatabase (new_database group)) in
  aws! found := waitForRDSAvailable dbInstanceID in
  aws_ret (mkConnInfo (fst found) dbPort dbName dbUser (snd found) group).

Definition EnsurePostgres (spec : PostgresSpec) : Sdk DBConnectionInfo :=
  legacy_ProvisionSpireDB (ps_VPCID spec) (ps_SubnetIDs spec) (ps_IngressSecurityGroupID spec).

(** ** Targets *)
Definition waitForInstanceRunning (id : string) : Sdk unit :=
  every_tick 18 "timed out after 3 minutes waiting for instance to be running"
    (aws! a := try_call (InstanceStates id) in
     aws_ret (match a with inl ((state :: _) :: _) => if state == "running" then Some tt else None | _ => None end)).

Definition legacy_RegisterTargets (group instance : string) (port : Z) : Sdk unit :=
  aws! _ := call LoadDefaultConfig in
  aws! _ := waitForInstanceRunning instance in
  aws! groups := call (TargetGroupsNamed group) in
  match groups with
  | [] => aws_fail "target group not found"
  | arn :: _ => call (RegisterTarget arn instance port)
  end.

Definition legacy_DrainHost (id : string) : Sdk unit := aws_ret tt.
End Provider.

(** ** The database is made once *)
Section Database.
Context {C : Type} {service : Service sdk C}.

(** RDS refuses an identifier that is in use, and nothing here deletes an instance. *)
Record one_database (has : C -> Prop) : Prop := {
  od_kept : forall A (rq : sdk A) c, has c -> has (snd (aws_Call A rq c));
  od_made : forall i c u, nd_Identifier i = dbInstanceID -> fst (aws_Call _ (NewDatabase i) c) = inl u -> has (snd (aws_Call _ (NewDatabase i) c));
  od_taken : forall i c, nd_Identifier i = dbInstanceID -> has c -> exists e, fst (aws_Call _ (NewDatabase i) c) = inr e }.

(** What any sequence of requests makes of the account. *)
Definition later : C -> C -> Prop := rtc (fun c c' => exists A (rq : sdk A), c' = snd (aws_Call A rq c)).
Lemma later_has has c c' : one_database has -> later c c' -> has c -> has c'.
Proof. intros L. induction 1 as [|c c1 c2 (A & rq & ->) _ IH]; [done|]. intros Hc. apply IH. by apply (od_kept has L). Qed.

(** The part of [ProvisionSpireDB] before the instance is requested. *)
Definition database_group (vpc source : string) : Calls sdk C string :=
  aws! _ := call LoadDefaultConfig in
  aws! groups := call (GroupsNamed dbSGName vpc) in
  aws! group := match groups with [] => call (NewGroup dbSGName dbSGDescription vpc [("Purpose", "spire-rds")]) | g :: _ => aws_ret g end in
  aws! a := try_call (Authorize group source dbPort) in
  aws! _ := match a with
            | inl _ => aws_ret tt
            | inr e => if isCode e ["InvalidPermission.Duplicate"] then aws_ret tt else aws_lift (Err (err_of e))
            end in
  aws_ret group.

Lemma database_split vpc subnets source s conn s' : legacy_ProvisionSpireDB vpc subnets source s = (Ok conn, s') ->
  exists group s1 s2 found, database_group vpc source s = (Ok group, s1) /\ call (NewDatabase (new_database group)) s1 = (Ok tt, s2) /\
    waitForRDSAvailable dbInstanceID s2 = (Ok found, s').
Proof.
  intros H. unfold legacy_ProvisionSpireDB in H. apply aws_bind_ok in H as (u1 & a1 & E1 & H). apply aws_bind_ok in H as (groups & a2 & E2 & H).
  apply aws_bind_ok in H as (group & a3 & E3 & H). apply aws_bind_ok in H as (r & a4 & E4 & H). apply aws_bind_ok in H as (u5 & a5 & E5 & H).
  apply aws_bind_ok in H as ([] & a6 & E6 & H). apply aws_bind_ok in H as (found & a7 & E7 & H). apply aws_ret_ok in H as [_ ->].
  exists group, a5, a6, found. split; [|done]. unfold database_group, aws_bind in *. rewrite E1, E2, E3, E4, E5. done.
Qed.

Lemma group_preserves has vpc source : one_database has -> preserves has (database_group vpc source).
Proof.
  intros L. pose proof (od_kept has L) as K. repeat (apply preserves_bind; [try by apply preserves_call|intros ?]).
  - destruct a0; [by apply preserves_call|apply preserves_ret].
  - by apply preserves_try.
  - destruct a2 as [|e]; [apply preserves_ret|]. destruct (isCode e _); [apply preserves_ret|apply preserves_lift].
  - apply preserves_ret.
Qed.

Lemma wait_preserves has id : one_database has -> preserves has (waitForRDSAvailable id).
Proof.
  intros L. apply preserves_tick, preserves_bind; [by apply preserves_call, L|]. intros out. apply preserves_bind; [|intros; apply preserves_ret].
  destruct out; [apply preserves_fail|apply preserves_ret].
Qed.

Lemma provisioned_has has vpc subnets source s conn s' : one_database has ->
  legacy_ProvisionSpireDB vpc subnets source s = (Ok conn, s') -> has (as_cloud s').
Proof.
  intros L (group & s1 & s2 & found & _ & [E2 E3]%call_ok & Hw)%database_split.
  pose proof (wait_preserves has dbInstanceID L s2) as P. rewrite Hw in P. apply P. rewrite E3. by eapply (od_made has L).
Qed.

(** The identifier of the database is a constant and its creation is not preceded by a
    lookup: once it was provisioned, no later call succeeds, whatever the network it is asked for and
    whatever happened in between.  The executor asks for it in both ActionCreateDB and
    ActionCreateSpireInstance, so the second of them, and every repetition, fails. *)
Theorem database_provisioned_once has vpc subnets source vpc' subnets' source' s conn s1 s2 : one_database has ->
  legacy_ProvisionSpireDB vpc subnets source s = (Ok conn, s1) -> later (as_cloud s1) (as_cloud s2) ->
  exists e, fst (legacy_ProvisionSpireDB vpc' subnets' source' s2) = Err e.
Proof.
  intros L H1 Hl. apply (provisioned_has has) in H1; [|done]. apply (later_has has _ _ L Hl) in H1.
  destruct (legacy_ProvisionSpireDB vpc' subnets' source' s2) as [[conn'|e] s3] eqn:E; [|by exists e]. exfalso.
  apply database_split in E as (group & a1 & a2 & found & Hg & [E2 _]%call_ok & _). pose proof (group_preserves has vpc' source' L s2 H1) as P.
  rewrite Hg in P. destruct (od_taken has L (new_database group) (as_cloud a1) eq_refl P) as (e & Ee). by rewrite Ee in E2.
Qed.
End Database.

(** ** Waits *)
Section Waits.
Context {C : Type} {service : Service sdk C}.

(** A result of a ticker came from a look. *)
Lemma every_tick_ok {A} n timeout (body : Calls sdk C (option A)) s a s' : every_tick n timeout body s = (Ok a, s') ->
  exists s1 s2, body s1 = (Ok (Some a), s2).
Proof.
  revert s. induction n as [|n IH]; intros s H; cbn [every_tick] in H; apply aws_bind_ok in H as (u & s0 & _ & H); [done|].
  apply aws_bind_ok in H as (o & s1 & Hb & H). destruct o as [found|]; [|by eapply IH]. apply aws_ret_ok in H as [-> ->]. eauto.
Qed.

(** A database that is handed out was seen available, with the address and the secret of that look. *)
Lemma waited_available id s address secret s' : waitForRDSAvailable id s = (Ok (address, secret), s') ->
  exists c db rest, fst (aws_Call _ (Databases id) c) = inl (db :: rest) /\ sdb_Status db = "available" /\ sdb_Endpoint db = Some address /\
    secret = default "" (sdb_SecretArn db).
Proof.
  intros (s1 & s2 & H)%every_tick_ok. apply aws_bind_ok in H as (out & a1 & [E _]%call_ok & H). apply aws_bind_ok in H as (db & a2 & F & H).
  destruct out as [|db' rest]; [done|]. apply aws_ret_ok in F as [-> ->]. apply aws_ret_ok in H as [H _].
  destruct (sdb_Endpoint db) as [x|] eqn:Ee; [|done]. case_bool_decide; [|done]. injection H as <- <-. eauto 7.
Qed.
End Waits.

(** ** An account in which this happens *)
#[local] Instance small_account : Service sdk bool := {|
  aws_Call := fun A rq =>
    match rq in sdk A return bool -> answer A * bool with
    | LoadDefaultConfig => fun b => (inl tt, b)
    | ReadFile _ => fun b => (inl "#cloud-config", b)
    | TerminateInstances _ => fun b => (inl tt, b)
    | RunInstances _ => fun b => (inl ["i-1"], b)
    | InstanceStates _ => fun b => (inl [["running"]], b)
    | TargetGroupsNamed _ => fun b => (inl ["arn:tg"], b)
    | NewTargetGroup _ _ _ _ _ => fun b => (inl ["arn:tg"], b)
    | BalancersNamed _ => fun b => (inl [("lb.internal", "arn:lb")], b)
    | NewBalancer _ _ _ _ => fun b => (inl [("lb.internal", "arn:lb")], b)
    | BalancerStates _ => fun b => (inl ["active"], b)
    | NewListener _ _ _ => fun b => (inr (Some "DuplicateListener"), b)
    | RegisterTarget _ _ _ => fun b => (inl tt, b)
    | GroupsNamed _ _ => fun b => (inl ["sg-1"], b)
    | NewGroup _ _ _ _ => fun b => (inl "sg-1", b)
    | Authorize _ _ _ => fun b => (inr (Some "InvalidPermission.Duplicate"), b)
    | NewDatabase _ => fun b => if b then (inr (Some "DBInstanceAlreadyExists"), b) else (inl tt, true)
    | Databases _ => fun b => (inl [mkSdkDatabase "available" (Some "db.internal") (Some "arn:secret")], b)
    end |}.

Definition first_database : result DBConnectionInfo * call_state sdk bool := legacy_ProvisionSpireDB "vpc-1" [] "sg-2" (mkAwsState false 50 []).
Lemma database_provisioned_once_witness :
  is_ok (fst first_database) = true /\ exists e, fst (legacy_ProvisionSpireDB "vpc-2" [] "sg-3" (snd first_database)) = Err e.
Proof.
  split; [vm_compute; reflexivity|].
  apply (database_provisioned_once (fun b => b = true) "vpc-1" [] "sg-2" "vpc-2" [] "sg-3" (mkAwsState false 50 []) (mkConnInfo "db.internal" 5432 "spire" "postgres" "arn:secret" "sg-1")
    (snd first_database) (snd first_database)).
  - split; [intros A rq c ->; by destruct rq|by intros i [] u|intros i c _ ->; by eexists].
  - vm_compute. reflexivity.
  - apply rtc_refl.
Defined.
