(* ===== verification/AwsRuntimeFacts.v ===== *)
(** * Facts of the AWS runtime

    A shell lexer and the exactness of the commands sent to hosts; one request per
    operation, across crashes and takeovers, and with it one instance by the documented
    idempotency of [RunInstances]; and the agreement of what [LaunchWorker] starts with what
    [VerifyWorker] accepts. *)
From S2P Require Import Prelude GoStrings Sql Api Schema Admission Invariant Fixture AdmissionFacts Lease Handoff LeaseFacts Removal RemovalFacts Scheduling Catalog CatalogFacts Decode Bootstrap BootstrapFacts Provision Http HttpFacts System Regex Subd Dominator LocalHost LocalHostFacts Deployment AwsRuntime.
From Stdlib Require Import Ascii String.

Local Open Scope string_scope.
Local Open Scope list_scope.
Local Open Scope Z_scope.
Local Open Scope crane_scope.

(** ** How a POSIX shell splits a command

    Blanks separate words, newline, [|] and [>] are operators, single quotes keep every
    character, double quotes every one but the four that stay special, [#] at the start of a
    word opens a comment.  A character that would make the shell expand, glob or run
    something is refused. *)
Inductive token : Type := Word (w : string) | Newline | Pipe | Redirect.
Inductive lex_mode : Type := Plain | Single | Double | Comment.
Definition lex_state : Type := option (lex_mode * option string * list token).

Definition flush (cur : option string) (acc : list token) : list token := match cur with Some w => Word w :: acc | None => acc end.
Definition snoc (cur : option string) (c : ascii) : option string := Some (String.append (default "" cur) (String c "")).

Definition lex_char (st : lex_state) (c : ascii) : lex_state :=
  match st with
  | None => None
  | Some (Single, cur, acc) => if c == quote_char then Some (Plain, cur, acc) else Some (Single, snoc cur c, acc)
  | Some (Double, cur, acc) =>
      if c == double_quote then Some (Plain, cur, acc)
      else if any_of "$`\!" c then None else Some (Double, snoc cur c, acc)
  | Some (Comment, cur, acc) => if c == ascii_of_nat 10 then Some (Plain, None, Newline :: acc) else st
  | Some (Plain, cur, acc) =>
      if c == ascii_of_nat 10 then Some (Plain, None, Newline :: flush cur acc)
      else if any_of " " c then Some (Plain, None, flush cur acc)
      else if any_of "|" c then Some (Plain, None, Pipe :: flush cur acc)
      else if any_of ">" c then Some (Plain, None, Redirect :: flush cur acc)
      else if c == quote_char then Some (Single, Some (default "" cur), acc)
      else if c == double_quote then Some (Double, Some (default "" cur), acc)
      else if any_of "#" c && match cur with None => true | Some _ => false end then Some (Comment, None, acc)
      else if any_of "$`\;&()<*?[]{}~#!^" c then None
      else Some (Plain, snoc cur c, acc)
  end.

Fixpoint lex (st : lex_state) (s : string) : lex_state :=
  match s with EmptyString => st | String c r => lex (lex_char st c) r end.

(** The words and operators of a text, [None] when a quote is open or a character is refused. *)
Definition shell_words (s : string) : option (list token) :=
  match lex (Some (Plain, None, [])) s with
  | Some (Plain, cur, acc) => Some (rev (flush cur acc))
  | Some (Comment, _, acc) => Some (rev acc)
  | _ => None
  end.

Lemma lex_app a b st : lex st (String.append a b) = lex (lex st a) b.
Proof. revert st. induction a as [|c a IH]; intros st; [done|]. rewrite append_cons. apply IH. Qed.

Lemma lex_escaped s cur acc : lex (Some (Single, Some cur, acc)) (escape_quotes s) = Some (Single, Some (String.append cur s), acc).
Proof.
  revert cur. induction s as [|c s IH]; intros cur.
  - simpl. by rewrite append_nil_r.
  - cbn [escape_quotes]. destruct (c == quote_char) eqn:E.
    + apply bool_decide_eq_true in E as ->. rewrite lex_app.
      change (lex (Some (Single, Some cur, acc)) quoted_quote) with (Some (Single, snoc (Some cur) quote_char, acc)).
      unfold snoc. cbn [default from_option id]. by rewrite IH, append_assoc.
    + cbn [lex lex_char]. rewrite E. unfold snoc. cbn [default from_option id]. by rewrite IH, append_assoc.
Qed.

(** A quoted value extends the word it stands in by exactly that value. *)
Lemma lex_quoted s cur acc : lex (Some (Plain, cur, acc)) (shellQuote s) = Some (Plain, Some (String.append (default "" cur) s), acc).
Proof.
  unfold shellQuote. cbn [lex].
  change (lex_char (Some (Plain, cur, acc)) quote_char) with (Some (Single, Some (default "" cur), acc)).
  rewrite lex_app, lex_escaped. reflexivity.
Qed.

(** One step of reading a rendered text: a quoted value, or a literal piece. *)
Ltac lex_step :=
  rewrite lex_quoted ||
  match goal with |- context [lex (Some ?st) ?s] => let v := eval cbv -[gzip_base64] in (lex (Some st) s) in progress change (lex (Some st) s) with v end.

(** C34. The command that [runSSMScript] sends to a host is read by the shell as exactly these
    words, whatever the script and the label contain: the encoded script is one argument of
    [printf], and the file that is written is the file that is run.  Likewise the script that
    registers an agent assigns exactly the two SPIFFE identifiers, whatever characters the
    trust domain, account, region or provider ID have. *)
Theorem ssm_command_words `{Scripts} label script identity parent :
  let path := String.append "/var/lib/crane/" (String.append label ".sh") in
  shell_words (ssm_command label script) =
    Some [Word "set"; Word "-eu"; Newline; Word "install"; Word "-d"; Word "-m"; Word "0755"; Word "/var/lib/crane"; Newline;
          Word "printf"; Word "%s"; Word (gzip_base64 script); Pipe; Word "base64"; Word "-d"; Pipe; Word "gzip"; Word "-d"; Redirect; Word path;
          Newline; Word "bash"; Word path] /\
  shell_words (registration_script identity parent) =
    Some [Newline; Word "set"; Word "-euo"; Word "pipefail"; Newline;
          Word "export"; Word "PATH=/usr/local/bin:/usr/bin:/bin:/usr/sbin:/sbin"; Newline; Word "container=crane-spire-server"; Newline;
          Word "socket=/tmp/spire-server/private/api.sock"; Newline; Word (String.append "id=" identity); Newline;
          Word (String.append "parent=" parent); Newline].
Proof. intros path. unfold ssm_command, registration_script, shell_words. rewrite !lex_app. split; repeat lex_step; reflexivity. Qed.

(** ** What EC2 promises *)

(** An instance that [RunInstances] returns exists, and has the attributes that were asked for. *)
Record run_laws (C : Type) `{EC2 C} : Prop := mkRunLaws {
  rl_exists : forall rq c l c' i, ec2_RunInstances rq c = (Ok l, c') -> In i l -> In i (ec2_all c');
  rl_placed : forall rq c l c' i s, ec2_RunInstances rq c = (Ok l, c') -> In i l -> ec2_DescribeSubnets (ri_SubnetID rq) c = Ok [s] ->
    is_SubnetID i = ri_SubnetID rq /\ is_Zone i = Some (su_AvailabilityZone s);
  rl_asked : forall rq c l c' i, ec2_RunInstances rq c = (Ok l, c') -> In i l ->
    is_ImageID i = ri_ImageID rq /\ is_Type i = ri_InstanceType rq /\ is_Tags i = ri_Tags rq /\
    exists arn, is_ProfileArn i = Some arn /\ HasSuffix arn (String.append "instance-profile/" (ri_Profile rq)) = true }.

(** The documented idempotency of [RunInstances].  [remembered token c] is the request that EC2
    carried out under a client token, with the instances it started, for as long as EC2
    remembers it; nothing is assumed of how long that is.  A success is remembered.  The same
    request, token and parameters alike, starts nothing while it is remembered, and if it is
    answered with success, the answer is the instances of the first time.  Of a request that
    reuses the token with other parameters nothing is promised. *)
Record idempotent {C : Type} `{EC2 C} (remembered : string -> C -> option (RunInstancesInput * list string)) : Prop := mkIdempotent {
  id_noted : forall rq c l c', ec2_RunInstances rq c = (Ok l, c') -> ri_ClientToken rq <> "" ->
    remembered (ri_ClientToken rq) c' = Some (rq, map is_ID l);
  id_replayed : forall rq c r c' ids, remembered (ri_ClientToken rq) c = Some (rq, ids) -> ec2_RunInstances rq c = (r, c') ->
    ec2_all c' = ec2_all c /\ forall l, r = Ok l -> map is_ID l = ids }.

Section Facts.
Context {C : Type} {ec2 : EC2 C} {gonet : GoNet}.

Lemma launch_inv r op c h c' : LaunchWorker r op c = (Ok h, c') ->
  exists rq i, launch_request r op c = Ok rq /\ ec2_RunInstances rq c = (Ok [i], c') /\
    h = mkRuntimeHost (is_ID i) (is_PrivateIP i) (kubernetes_provider_id (t_ProviderZoneID (op_Target op)) (is_ID i)) /\
    is_ID i <> "" /\ is_PrivateIP i <> "".
Proof.
  unfold LaunchWorker. destruct (launch_request r op c) as [rq|e]; [|done].
  destruct (ec2_RunInstances rq c) as [[[|i [|]]|e] c1] eqn:E; try done.
  destruct ((is_ID i == "") || (is_PrivateIP i == "")) eqn:Ei; [done|]. intros [= <- <-].
  apply orb_false_iff in Ei as [E1 E2]. apply bool_decide_eq_false in E1, E2. by exists rq, i.
Qed.

Lemma dec_launch_strict_loose raw p : dec_launch_strict raw = Some p -> dec_launch raw = Some p.
Proof. unfold dec_launch_strict. by case_match. Qed.

Lemma deployment_name_nonempty s n : deploymentNameFromBundleParameter s = Some n -> n <> "".
Proof.
  unfold deploymentNameFromBundleParameter. intros H ->. repeat (case_match; try done).
  injection H as ->. bsplit. match goal with H : full_match _ "" = true |- _ => vm_compute in H; discriminate H end.
Qed.

Lemma subnet_found {x : result (list Subnet)} {z e s} :
  match x with Ok [s] => if su_AvailabilityZone s == z then Ok s else Err e | _ => Err e end = Ok s -> x = Ok [s] /\ su_AvailabilityZone s = z.
Proof. intros H. destruct x as [[|s' [|]]|]; try done. case_match; [|done]. injection H as ->. bsplit. done. Qed.

(** What an accepted request holds. *)
Lemma launch_request_inv r op c rq : launch_request r op c = Ok rq ->
  exists p name s, dec_launch (t_LaunchParameters (op_Target op)) = Some p /\ name <> "" /\
    t_Provider (op_Target op) = "aws" /\ t_Region (op_Target op) = rt_region r /\ op_HostID op <> "" /\
    lp_InstanceProfile p = String.append name "-worker" /\
    ec2_DescribeSubnets (lp_SubnetID p) c = Ok [s] /\ su_AvailabilityZone s = t_ProviderZoneID (op_Target op) /\
    op_ProviderToken op <> "" /\
    rq = mkRunInput (lp_ImageID p) (lp_InstanceType p) (op_ProviderToken op) (lp_InstanceProfile p) (lp_SubnetID p)
           (lp_SecurityGroupIDs p) (default true (lp_AssociatePublicIP p)) (worker_tags name op).
Proof.
  unfold launch_request. intros H. inv_ok. bsplit.
  match goal with H : dec_launch_strict _ = Some ?p, H2 : deploymentNameFromBundleParameter _ = Some ?n, H3 : _ = Ok ?s |- _ =>
    match type of s with Subnet => exists p, n, s; apply dec_launch_strict_loose in H; apply deployment_name_nonempty in H2; apply subnet_found in H3 as [? ?] end end.
  split_and!; done.
Qed.

(** ** One instance per operation *)

(** What a request depends on of a loaded operation. *)
Definition launch_key (op : Operation) :=
  let t := op_Target op in
  (op_ID op, op_HostID op, op_NodeGroupID op, op_ZoneID op, op_ProviderToken op,
   (t_LaunchParameters t, t_ClusterID t, t_NodePoolID t, t_TemplateRevision t, t_CapacityClass t)).

Lemma append_cancel_r a b s : String.append a s = String.append b s -> a = b.
Proof.
  revert b. induction a as [|x a IH]; intros [|y b] E; [done|..].
  - apply (f_equal String.length) in E. cbn [String.length] in E; rewrite !length_append in E; cbn [String.length] in E; lia.
  - apply (f_equal String.length) in E. cbn [String.length] in E; rewrite !length_append in E; cbn [String.length] in E; lia.
  - rewrite !append_cons in E. injection E as -> E. by rewrite (IH b E).
Qed.

(** Whoever launches an operation, whenever, and whatever the account looks like: the request is
    the same. *)
Lemma same_request r1 op1 c1 q1 r2 op2 c2 q2 : launch_key op1 = launch_key op2 ->
  launch_request r1 op1 c1 = Ok q1 -> launch_request r2 op2 c2 = Ok q2 -> q1 = q2.
Proof.
  intros K (p & n1 & _ & D1 & _ & _ & _ & _ & N1 & _ & _ & _ & ->)%launch_request_inv
    (p2 & n2 & _ & D2 & _ & _ & _ & _ & N2 & _ & _ & _ & ->)%launch_request_inv.
  unfold launch_key in K. injection K as K1 K2 K3 K4 K5 K6 K7 K8 K9 K10. rewrite K6, D2 in D1. injection D1 as ->.
  rewrite N2 in N1. apply append_cancel_r in N1 as ->. unfold worker_tags. by rewrite K1, K2, K3, K4, K5, K7, K8, K9, K10.
Qed.
End Facts.

Section Tokens.
Context {k8s : K8s} {gonet : GoNet} {gourl : GoURL} {digest : Digest}.

(** What two claims of an operation hand out alike. *)
Definition claim_key (op : Operation) :=
  (op_ID op, op_Kind op, op_ZoneID op, op_NodeGroupID op, op_HostID op, op_ProviderToken op, op_Parameters op).

Lemma claims_agree d t z k w dur a op d1 d2 t' z' k' w' dur' a' op' d3 :
  invariants d -> claim t z k w dur a d = (Ok op, d1) -> rtc step d1 d2 ->
  claim t' z' k' w' dur' a' d2 = (Ok op', d3) -> op_ID op = op_ID op' -> claim_key op = claim_key op'.
Proof.
  intros I H1 Hs H2 Eid. pose proof (keeps_claim _ _ _ _ _ _ _ _ _ H1 I) as I1.
  destruct (steps_keep _ _ Hs I1) as (L2 & _). pose proof (hi_ops _ _ (steps_history _ _ Hs I1)) as Hev.
  apply claim_ok in H1 as (o & Ho & _ & -> & ->). apply claim_ok in H2 as (o2 & Ho2 & _ & -> & _).
  assert (In (claim_row d t dur w o) (update_where (fun x => o_id x == o_id o) (claim_row d t dur w) (operations d))) as Hin.
  { apply in_update_where. exists o. split; [done|]. by rewrite eq_refl_true. }
  destruct (extends_in _ _ _ _ Hev Hin) as (o' & Ho' & E & _). simpl in *.
  assert (o' = o2) as ->. { apply (unique_key_in o_id _ _ _ (L_ops _ L2)); [done..|]. apply op_ident_eq in E as [E _]. simpl in E. congruence. }
  unfold op_ident in E. simpl in E. unfold claim_key. simpl. congruence.
Qed.

(** A loaded operation is the claimed one with its template and the placement of its group. *)
Lemma load_inv op d op' : LoadProvisioningTarget op d = Ok op' ->
  claim_key op' = claim_key op /\
  (t_LaunchParameters (op_Target op'), t_TemplateRevision (op_Target op'), t_CapacityClass (op_Target op')) =
    (pt_LaunchParameters (template_of (op_Parameters op)), pt_TemplateRevision (template_of (op_Parameters op)),
     pt_CapacityClass (template_of (op_Parameters op))) /\
  exists g, In g (node_groups d) /\ g_id g = op_NodeGroupID op /\ t_ClusterID (op_Target op') = g_cluster_id g /\
    t_NodePoolID (op_Target op') = g_node_pool_id g.
Proof.
  unfold LoadProvisioningTarget. intros H. inv_ok. split; [done|]. split; [done|].
  match goal with H : select_one _ (node_groups d) = Some ?g |- _ => apply select_one_some in H as [Hg Hp]; exists g end. by bsplit.
Qed.

(** Two loads of an operation, the second one after any further steps, agree on what a launch
    depends on. *)
Lemma loads_agree claimed1 e1 op1 claimed2 e2 op2 : Ledger e2 -> groups_kept e1 e2 -> claim_key claimed1 = claim_key claimed2 ->
  LoadProvisioningTarget claimed1 e1 = Ok op1 -> LoadProvisioningTarget claimed2 e2 = Ok op2 -> launch_key op1 = launch_key op2.
Proof.
  intros L G K (K1 & T1 & g1 & G1 & I1 & C1 & P1)%load_inv (K2 & T2 & g2 & G2 & I2 & C2 & P2)%load_inv.
  destruct (G g1 G1) as (g & Hg & E). unfold group_place in E. injection E as E1 E2 E3 E4. unfold claim_key in *.
  assert (g = g2) as -> by (apply (unique_key_in g_id _ _ _ (L_groups _ L)); try done; congruence).
  unfold launch_key. congruence.
Qed.

(** C28. Launching an operation again starts no second instance.  A controller claims a
    provisioning operation, loads its target and launches a worker; after any further steps of
    the control plane and any change of the account (a crash, an expired lease, other launches)
    another controller claims the same operation, loads its target after yet more steps, and
    launches a worker.  If the second launch gets as far as [RunInstances], it sends exactly the
    request of the first one, token and parameters alike.  So, by the documented idempotency of
    [RunInstances] and as long as EC2 still remembers the first request, answered or not, the
    second launch starts no instance, and a host it returns is the one instance of the first
    request; in particular, if both launches return a host, it is the same instance. *)
Theorem relaunch_same_instance {C} {ec2 : EC2 C} remembered
    d t z k w dur a claimed1 d1 e1 op1 r1 c1 q1 res1 c1' d2 t' z' k' w' dur' a' claimed2 d3 e2 op2 r2 c2 res2 c2' :
  idempotent remembered -> invariants d ->
  claim t z k w dur a d = (Ok claimed1, d1) -> rtc step d1 e1 -> LoadProvisioningTarget claimed1 e1 = Ok op1 ->
  launch_request r1 op1 c1 = Ok q1 -> LaunchWorker r1 op1 c1 = (res1, c1') -> rtc step e1 d2 ->
  claim t' z' k' w' dur' a' d2 = (Ok claimed2, d3) -> op_ID claimed1 = op_ID claimed2 -> rtc step d3 e2 ->
  LoadProvisioningTarget claimed2 e2 = Ok op2 -> LaunchWorker r2 op2 c2 = (res2, c2') ->
  (forall q2, launch_request r2 op2 c2 = Ok q2 -> q2 = q1) /\
  (forall ids, remembered (ri_ClientToken q1) c2 = Some (q1, ids) ->
     ec2_all c2' = ec2_all c2 /\ forall h, res2 = Ok h -> ids = [rh_ProviderID h]) /\
  (forall h1 h2, res1 = Ok h1 -> res2 = Ok h2 ->
     remembered (ri_ClientToken q1) c2 = remembered (ri_ClientToken q1) c1' -> rh_ProviderID h2 = rh_ProviderID h1).
Proof.
  intros M I H1 S1 T1 R1 W1 S2 H2 Eid S3 T2 W2.
  assert (forall q2, launch_request r2 op2 c2 = Ok q2 -> q2 = q1) as Hq.
  { intros q2 R2. symmetry. refine (same_request _ _ _ _ _ _ _ _ _ R1 R2).
    pose proof (keeps_claim _ _ _ _ _ _ _ _ _ H1 I) as I1. pose proof (steps_keep _ _ S1 I1) as I2.
    pose proof (steps_keep _ _ S2 I2) as I3. pose proof (keeps_claim _ _ _ _ _ _ _ _ _ H2 I3) as I4.
    eapply loads_agree; [by apply (steps_keep _ _ S3 I4)| |by eapply claims_agree; [|exact H1|etrans; [exact S1|exact S2]|exact H2|]|exact T1|exact T2].
    eapply groups_trans; [by apply steps_groups|]. eapply groups_trans; [by eapply claim_same_groups|by apply steps_groups]. }
  assert (forall ids, remembered (ri_ClientToken q1) c2 = Some (q1, ids) ->
     ec2_all c2' = ec2_all c2 /\ forall h, res2 = Ok h -> ids = [rh_ProviderID h]) as Hr.
  { intros ids Hm. unfold LaunchWorker in W2. destruct (launch_request r2 op2 c2) as [q2|e]; [|by simplify_eq].
    rewrite (Hq q2 eq_refl) in W2. destruct (ec2_RunInstances q1 c2) as [r c] eqn:E.
    destruct (id_replayed _ M _ _ _ _ _ Hm E) as [Ea El].
    destruct r as [[|i [|]]|e]; try by simplify_eq. case_match; simplify_eq; [done|]. split; [done|]. intros h [= <-]. by rewrite <- (El [i]). }
  split; [done|]. split; [done|]. intros h1 h2 -> -> Em.
  apply launch_inv in W1 as (q & i & R & E & -> & _). rewrite R1 in R. injection R as <-.
  pose proof R1 as R1'. apply launch_request_inv in R1' as (p & n & su & _ & _ & _ & _ & _ & _ & _ & _ & Nt & Eq).
  rewrite (id_noted _ M _ _ _ _ E) in Em by (by rewrite Eq). destruct (Hr _ Em) as [_ Hh]. specialize (Hh h2 eq_refl). simpl in *. congruence.
Qed.
End Tokens.

(** ** Verification of a worker *)
Definition running (i : Instance) : Instance :=
  mkInstance (is_ID i) (is_PrivateIP i) (is_Zone i) (is_SubnetID i) (is_ImageID i) (is_Type i) (is_ProfileArn i) true (is_Tags i) (is_Token i).

Definition fully_identified (op : Operation) : bool :=
  let t := op_Target op in
  negb ((t_AccountID t == "") || (t_ClusterID t == "") || (t_NodePoolID t == "") || (op_ID op == "") || (op_NodeGroupID op == "") ||
        (op_ZoneID op == "") || (t_TemplateRevision t == "")).

(** A map built from tags, as the list that it was built from. *)
Lemma tag_lookup l k : tag (tag_map l) k = match List.find (fun kv => fst kv == k) (rev l) with Some kv => snd kv | None => "" end.
Proof.
  unfold tag, tag_map. induction (rev l) as [|[a b] r IH]; [done|]. cbn [list_to_map foldr List.find fst snd].
  destruct (a == k) eqn:E; bsplit.
  - by rewrite E, lookup_insert_eq.
  - by rewrite lookup_insert_ne.
Qed.

Lemma worker_tags_found name op :
  let m := tag_map (worker_tags name op) in
  forallb (fun kv => tag m (fst kv) == snd kv) (identity_tags op) = true /\ tag m "CraneBootstrap" = name.
Proof.
  intros m. split.
  - apply forallb_forall. intros kv Hkv. apply bool_decide_eq_true. unfold m. rewrite tag_lookup.
    repeat destruct Hkv as [<-|Hkv]; [reflexivity..|destruct Hkv].
  - unfold m. by rewrite tag_lookup.
Qed.

Section Verify.
Context {C : Type} {ec2 : EC2 C} {gonet : GoNet}.

Lemma verify_inv r op id (c : C) x : VerifyWorker r op id c = Ok x ->
  exists i, ec2_DescribeInstances id c = Ok [(t_AccountID (op_Target op), [i])] /\ is_Zone i = Some (t_ProviderZoneID (op_Target op)) /\
    Forall (fun kv => tag (tag_map (is_Tags i)) (fst kv) = snd kv) (identity_tags op) /\
    x = mkIdentity (is_PrivateIP i) (kubernetes_provider_id (t_ProviderZoneID (op_Target op)) id).
Proof.
  unfold VerifyWorker. intros H. inv_ok.
  match goal with H : match ec2_DescribeInstances id c with _ => _ end = Ok ?y |- _ => rename H into Hd; exists y end.
  destruct (ec2_DescribeInstances id c) as [[|[owner [|i [|]]] [|]]|]; try done. case_match eqn:Eo; [|done]. injection Hd as ->.
  match goal with H : instance_matches _ _ _ _ = true |- _ => unfold instance_matches in H end. bsplit.
  destruct (is_Zone _) eqn:Ez; [bsplit|done]. subst. split_and!; try done.
  apply List.Forall_forall. intros kv Hkv. match goal with H : forallb _ (identity_tags op) = true |- _ => rewrite forallb_forall in H; apply H in Hkv end.
  by apply bool_decide_eq_true in Hkv.
Qed.

(** An instance is accepted for one operation only: whatever two verifications of the same
    instance accept, they are of the same operation, host, group, zone, cluster and pool, in
    the same account and placement, and report the same identity. *)
Theorem verified_worker_owned r1 r2 op1 op2 id (c : C) x1 x2 :
  VerifyWorker r1 op1 id c = Ok x1 -> VerifyWorker r2 op2 id c = Ok x2 ->
  op_ID op1 = op_ID op2 /\ identity_tags op1 = identity_tags op2 /\
  t_AccountID (op_Target op1) = t_AccountID (op_Target op2) /\ x1 = x2.
Proof.
  intros (i1 & D1 & Z1 & T1 & ->)%verify_inv (i2 & D2 & Z2 & T2 & ->)%verify_inv.
  rewrite D1 in D2. injection D2 as Ea ->. rewrite Z1 in Z2. injection Z2 as Ez.
  unfold identity_tags in *. repeat match goal with H : Forall _ (_ :: _) |- _ => inversion H; clear H; subst end.
  cbn [fst snd] in *. rewrite Ez. split_and!; congruence.
Qed.

(** C29. Verification recognizes what was launched.  If [LaunchWorker] returned a host for an
    operation with a complete identity, then as soon as the account describes that instance as
    running, [VerifyWorker] recognizes it: its placement, image, type, profile and tags all pass,
    and the answer depends on its address alone.  If that is a private address in the sense of Go's
    net.IP.IsPrivate (RFC 1918 or a unique local one), the identity is accepted with exactly the address and
    the Kubernetes provider ID that the launch returned; with any other address, as a VPC outside
    those ranges hands out, the worker is refused. *)
Theorem launched_worker_verified r op c h c' (c2 : C) :
  run_laws C -> LaunchWorker r op c = (Ok h, c') -> fully_identified op = true ->
  (forall i, In i (ec2_all c') -> is_ID i = rh_ProviderID h ->
     ec2_DescribeInstances (rh_ProviderID h) c2 = Ok [(t_AccountID (op_Target op), [running i])]) ->
  VerifyWorker r op (rh_ProviderID h) c2 =
    if private_ip (rh_PrivateIP h) then Ok (mkIdentity (rh_PrivateIP h) (rh_KubernetesProviderID h))
    else Err (ErrMsg "provider worker identity verification failed").
Proof.
  intros L HL Hf Hd. apply launch_inv in HL as (rq & i & R & E & -> & Hid & _). cbn in Hd |- *.
  apply launch_request_inv in R as (p & name & s & D & Hn & A1 & A2 & A3 & A4 & Hs & Hz & _ & Eq).
  assert (ri_ImageID rq = lp_ImageID p /\ ri_InstanceType rq = lp_InstanceType p /\ ri_Profile rq = lp_InstanceProfile p /\
    ri_SubnetID rq = lp_SubnetID p /\ ri_Tags rq = worker_tags name op) as (Q1 & Q2 & Q3 & Q4 & Q5) by by rewrite Eq.
  pose proof (rl_exists _ L _ _ _ _ _ E (in_eq _ _)) as Ii. specialize (Hd i Ii eq_refl).
  destruct (rl_asked _ L _ _ _ _ _ E (in_eq _ _)) as (P1 & P2 & P3 & arn & P4 & P5).
  destruct (rl_placed _ L _ _ _ _ _ s E (in_eq _ _)) as [P6 P7]; [by rewrite Q4|].
  unfold fully_identified in Hf. bsplit. unfold VerifyWorker. rewrite Hd, D, eq_refl_true. cbn [of_option rbind].
  destruct (worker_tags_found name op) as [W1 W2].
  assert (instance_matches op p (is_ID i) (running i) = true) as HM.
  { unfold instance_matches, running. cbn. rewrite P7, P4. rewrite !andb_true_iff, !bool_decide_eq_true. rewrite <- Q3. split_and!; congruence. }
  rewrite HM. cbn [is_Tags is_PrivateIP running]. rewrite P3, Q5, W1, W2, A1, A2, A4, !eq_refl_true, !bool_decide_eq_false_2 by congruence.
  cbn. by destruct (private_ip (is_PrivateIP i)).
Qed.
End Verify.

(** ** An account that is a list of launches, and remembers all of them *)
#[global] Instance RunInstancesInput_eq_dec : EqDecision RunInstancesInput.
Proof. solve_decision. Defined.

Definition demo_image : Image :=
  mkImage true [("CraneImage", "v2"); ("SpireServerAddress", "10.0.0.3"); ("SpireTrustDomain", "crane"); ("AWSRegion", "us-west-2");
                ("SpireBundleParameter", "/crane/demo/spire-bundle")].
Definition demo_launch (rq : RunInstancesInput) (n : nat) : Instance :=
  mkInstance (String.append "i-" (marks (S n))) "10.0.0.9" (Some "us-west-2a") (ri_SubnetID rq) (ri_ImageID rq) (ri_InstanceType rq)
    (Some (String.append "arn:aws:iam::acct:instance-profile/" (ri_Profile rq))) false (ri_Tags rq) (ri_ClientToken rq).
Definition Launches : Type := list (RunInstancesInput * nat).
Definition launched_instance (x : RunInstancesInput * nat) : Instance := demo_launch (fst x) (snd x).
Definition with_token (tok : string) (x : RunInstancesInput * nat) : bool := ri_ClientToken (fst x) == tok.

#[local] Instance demo_ec2 : EC2 Launches := {|
  ec2_DescribeImages := fun id _ => Ok [demo_image];
  ec2_DescribeSubnets := fun id _ => Ok [mkSubnet "us-west-2a" "vpc-1"];
  ec2_DescribeSecurityGroups := fun l _ => Ok (map (fun _ => "vpc-1") l);
  ec2_RunInstances := fun rq c =>
    match List.find (with_token (ri_ClientToken rq)) c with
    | Some x => if fst x == rq then (Ok [launched_instance x], c) else (Err (ErrMsg "IdempotentParameterMismatch"), c)
    | None => (Ok [demo_launch rq (List.length c)], (rq, List.length c) :: c)
    end;
  ec2_DescribeInstances := fun id c =>
    Ok [("acct", map (fun x => running (launched_instance x)) (List.filter (fun x => is_ID (launched_instance x) == id) c))];
  ec2_all := fun c => map launched_instance c |}.

Definition demo_remembered (tok : string) (c : Launches) : option (RunInstancesInput * list string) :=
  option_map (fun x => (fst x, [is_ID (launched_instance x)])) (List.find (with_token tok) c).

(** What a successful answer is. *)
Lemma demo_answer rq (c : Launches) l c' : ec2_RunInstances rq c = (Ok l, c') ->
  exists n, l = [demo_launch rq n] /\ In (rq, n) c' /\ List.find (with_token (ri_ClientToken rq)) c' = Some (rq, n).
Proof.
  cbn. destruct (List.find _ c) as [[q n]|] eqn:E.
  - case_match eqn:Eq; [|done]. intros [= <- <-]. bsplit. cbn in *. subst q. exists n. split; [done|]. split; [|done].
    by apply find_some in E as [E _].
  - intros [= <- <-]. exists (List.length c). split; [done|]. split; [by left|]. cbn. unfold with_token at 1. cbn. by rewrite eq_refl_true.
Qed.

Lemma demo_laws : run_laws Launches.
Proof.
  split; intros rq c l c' i.
  - intros (n & -> & I & _)%demo_answer [<-|[]]. cbn. apply in_map_iff. by exists (rq, n).
  - intros s (n & -> & _)%demo_answer [<-|[]] [= <-]. done.
  - intros (n & -> & _)%demo_answer [<-|[]]. cbn. split_and!; try done. eexists. split; [done|].
    change "arn:aws:iam::acct:instance-profile/" with (String.append "arn:aws:iam::acct:" "instance-profile/"). by rewrite append_assoc, HasSuffix_app.
Qed.

Lemma demo_idempotent : idempotent demo_remembered.
Proof.
  split.
  - intros rq c l c' (n & -> & _ & F)%demo_answer _. unfold demo_remembered. by rewrite F.
  - intros rq c r c' ids Hm. unfold demo_remembered in Hm. cbn. destruct (List.find _ c) as [[q n]|]; [|done].
    cbn in Hm. injection Hm as -> <-. rewrite eq_refl_true. intros [= <- <-]. split; [done|]. by intros l [= <-].
Qed.

(** The demo deployment with a complete launch template. *)
Definition aws_launch : Json :=
  JObj [("image_id", JStr "ami-1"); ("instance_type", JStr "m7i.large"); ("subnet_id", JStr "subnet-1");
        ("security_group_ids", JArr [JStr "sg-1"]); ("iam_instance_profile", JStr "demo-worker")].
Definition aws_group : GroupRow :=
  mkGroup demo_naming "aws-prod-us-west-2-a-general" "c1" "z1" "pool" "general" "us-west-2a" 0 0 0 3 "rev-1" "active"
    2 8192 aws_launch demo_scheduling.
Definition aws_db : DB := snd (SetTarget (env_at "a" 100) (demo_request "req-1" 0 1) (set_node_groups [aws_group] demo_db)).
Definition aws_first : result Operation * DB := claim 1000 "z1" Kprovision demo_owner minute true aws_db.
Definition aws_second : result Operation * DB := claim 99000 "z1" Kprovision demo_owner minute true (snd aws_first).
Definition aws_loaded (x : result Operation * DB) : Operation :=
  match x with (Ok op, d) => match LoadProvisioningTarget op d with Ok op => op | Err _ => claimed_op end | (Err _, _) => claimed_op end.
Definition aws_runtime : Runtime := mkRuntime "us-west-2" "crane".
Definition aws_launched : result RuntimeHost * Launches := LaunchWorker aws_runtime (aws_loaded aws_first) [].

#[local] Existing Instance demo_k8s.
#[local] Existing Instance demo_net.
#[local] Existing Instance demo_digest.
#[local] Existing Instance demo_url.

Lemma aws_invariants : invariants aws_db.
Proof.
  assert (same_ledger demo_db (set_node_groups [aws_group] demo_db)) as E by by split.
  destruct (SetTarget_keeps (env_at "a" 100) (demo_request "req-1" 0 1) (set_node_groups [aws_group] demo_db)
    (fst (SetTarget (env_at "a" 100) (demo_request "req-1" 0 1) (set_node_groups [aws_group] demo_db))) aws_db) as [H1 H2].
  - rewrite <- E. apply demo_ledger.
  - intros g [<-|[]]. unfold target_ok, MaxInt64. simpl. lia.
  - apply surjective_pairing.
  - split; [done|split; [done|]]. intros h. vm_compute. congruence.
Qed.

Definition the_op (x : result Operation * DB) : Operation := match fst x with Ok op => op | Err _ => claimed_op end.
Definition the_host (x : result RuntimeHost * Launches) : RuntimeHost := match fst x with Ok h => h | Err _ => mkRuntimeHost "" "" "" end.
Definition aws_relaunched : result RuntimeHost * Launches := LaunchWorker aws_runtime (aws_loaded aws_second) (snd aws_launched).

Definition aws_request : RunInstancesInput :=
  mkRunInput "ami-1" "m7i.large" (op_ProviderToken (aws_loaded aws_first)) "demo-worker" "subnet-1" ["sg-1"] true
    (worker_tags "demo" (aws_loaded aws_first)).

Lemma relaunch_same_instance_witness :
  op_Fence (the_op aws_first) < op_Fence (the_op aws_second) /\
  rh_ProviderID (the_host aws_relaunched) = rh_ProviderID (the_host aws_launched).
Proof.
  split; [vm_compute; reflexivity|].
  destruct (relaunch_same_instance demo_remembered aws_db 1000 "z1" Kprovision demo_owner minute true (the_op aws_first) (snd aws_first)
    (snd aws_first) (aws_loaded aws_first) aws_runtime [] aws_request (fst aws_launched) (snd aws_launched) (snd aws_first) 99000 "z1" Kprovision
    demo_owner minute true (the_op aws_second) (snd aws_second) (snd aws_second) (aws_loaded aws_second) aws_runtime (snd aws_launched)
    (fst aws_relaunched) (snd aws_relaunched)) as (_ & _ & H).
  - exact demo_idempotent.
  - exact aws_invariants.
  - vm_compute. reflexivity.
  - apply rtc_refl.
  - vm_compute. reflexivity.
  - vm_compute. reflexivity.
  - vm_compute. reflexivity.
  - apply rtc_refl.
  - vm_compute. reflexivity.
  - vm_compute. reflexivity.
  - apply rtc_refl.
  - vm_compute. reflexivity.
  - vm_compute. reflexivity.
  - apply H; [vm_compute; reflexivity|vm_compute; reflexivity|vm_compute; reflexivity].
Defined.

Definition aws_verified : result RuntimeIdentity := VerifyWorker aws_runtime (aws_loaded aws_first) "i-i" (snd aws_launched).

Lemma aws_described i : In i (ec2_all (snd aws_launched)) ->
  ec2_DescribeInstances "i-i" (snd aws_launched) = Ok [(t_AccountID (op_Target (aws_loaded aws_first)), [running i])].
Proof.
  assert (ec2_all (snd aws_launched) = [demo_launch aws_request 0]) as -> by (vm_compute; reflexivity).
  intros [<-|[]]. vm_compute. reflexivity.
Qed.

Lemma launched_worker_verified_witness : aws_verified = Ok (mkIdentity "10.0.0.9" "aws:///us-west-2a/i-i").
Proof.
  pose proof (launched_worker_verified aws_runtime (aws_loaded aws_first) [] (mkRuntimeHost "i-i" "10.0.0.9" "aws:///us-west-2a/i-i")
    (snd aws_launched) (snd aws_launched) demo_laws) as H.
  refine (H _ _ _).
  - vm_compute. reflexivity.
  - vm_compute. reflexivity.
  - intros i Hi _. exact (aws_described i Hi).
Defined.

Lemma verified_worker_owned_witness : op_ID (aws_loaded aws_first) = op_ID (aws_loaded aws_second).
Proof.
  apply (verified_worker_owned aws_runtime aws_runtime (aws_loaded aws_first) (aws_loaded aws_second) "i-i" (snd aws_launched)
    (mkIdentity "10.0.0.9" "aws:///us-west-2a/i-i") (mkIdentity "10.0.0.9" "aws:///us-west-2a/i-i")); vm_compute; reflexivity.
Defined.
