(* ===== verification/AwsTopologyFacts.v ===== *)
(** * From the bootstrap to the workers

    [topology] completes the first zone with the placement of the bootstrap; workers of that
    zone are launched much later by AwsRuntime.v from what was stored.  The two agree: what the
    bootstrap wrote is what [LaunchWorker] asks for. *)
From S2P Require Import Prelude GoStrings Sql Api Schema Lease Scheduling Catalog Decode Bootstrap Regex Subd Redact LocalHost LocalHostFacts Cidr Deployment Runner AwsConfig AwsConfigFacts Calls AwsCloud AwsResources AwsRuntime.
From Stdlib Require Import Ascii String.

Local Open Scope string_scope.
Local Open Scope list_scope.
Local Open Scope Z_scope.
Local Open Scope crane_scope.

(** ** Bounded repetitions of a class *)
Lemma append_nil_l s : String.append "" s = s.
Proof. reflexivity. Qed.

Lemma upto_matches b n f s : matches b (RUpTo n (RClass f)) s <-> all_chars f s = true /\ (String.length s <= n)%nat.
Proof.
  revert b s. induction n as [|n IH]; intros b s; cbn [RUpTo].
  - split; [inversion 1; by subst|]. intros [_ H]. destruct s; [constructor|cbn in H; lia].
  - split.
    + inversion 1 as [| | |? ? ? ? M| ? ? ? ? M| | | |]; subst; [|inversion M; subst; cbn; split; [done|lia]].
      inversion M as [| |? ? ? s1 s2 M1 M2| | | | | |]; subst. inversion M1; subst. apply IH in M2 as [A L]. rewrite append_cons, append_nil_l. cbn in *.
      split; [by apply andb_true_iff|lia].
    + intros [A L]. destruct s as [|c s]; [apply m_right; constructor|]. cbn in A, L. apply andb_prop in A as [A1 A2]. apply m_left.
      change (String c s) with (String.append (String c "") s). constructor; [by constructor|]. apply IH. split; [done|lia].
Qed.

Lemma rep_matches b n f s : matches b (RRep n (RClass f)) s -> all_chars f s = true /\ String.length s = n.
Proof.
  revert b s. induction n as [|n IH]; intros b s; cbn [RRep]; [inversion 1; by subst|].
  inversion 1 as [| |? ? ? s1 s2 M1 M2| | | | | |]; subst. inversion M1; subst. apply IH in M2 as [A L]. rewrite append_cons, append_nil_l. cbn in *.
  split; [by apply andb_true_iff|lia].
Qed.

Definition name_class (c : ascii) : bool := lower_letter c || digit c || any_of "-" c.

Lemma cat_matches b r1 r2 s : matches b (RCat r1 r2) s -> exists s1 s2, s = String.append s1 s2 /\ matches b r1 s1 /\ matches (b && (s1 == "")) r2 s2.
Proof. inversion 1; subst. eauto. Qed.
Lemma class_matches b f s : matches b (RClass f) s -> exists c, s = String c "" /\ f c = true.
Proof. inversion 1; subst. eauto. Qed.

Lemma deployment_name_chars s : full_match deployment_name s = true ->
  exists c t, s = String c t /\ lower_letter c = true /\ all_chars name_class t = true /\ (2 <= String.length t <= 29)%nat.
Proof.
  intros H%full_match_spec. change deployment_name with (RCat (RClass lower_letter) (RCat (RRep 2 (RClass name_class)) (RUpTo 27 (RClass name_class)))) in H.
  apply cat_matches in H as (s1 & s2 & -> & (c & -> & Hc)%class_matches & M). apply cat_matches in M as (s3 & s4 & -> & M3 & M4).
  apply rep_matches in M3 as [A3 L3]. apply upto_matches in M4 as [A4 L4].
  rewrite append_cons, append_nil_l. eexists _, _. split; [reflexivity|]. split; [done|].
  rewrite all_chars_append, length_append. split; [by apply andb_true_iff|lia].
Qed.

Lemma deployment_name_runtime s : full_match deployment_name s = true -> full_match deploymentNameRE s = true.
Proof.
  intros (c & t & -> & Hc & Ht & L)%deployment_name_chars. apply full_match_spec. unfold deploymentNameRE.
  change (String c t) with (String.append (String c "") t). constructor; [constructor; cbn; by rewrite Hc|]. apply upto_matches. split; [done|lia].
Qed.

Lemma name_class_no_slash c : name_class c = true -> negb (Ascii.eqb c slash) = true.
Proof. intros H. apply negb_true_iff, Ascii.eqb_neq. intros ->. discriminate H. Qed.
Lemma all_chars_weaken (f g : ascii -> bool) s : (forall c, f c = true -> g c = true) -> all_chars f s = true -> all_chars g s = true.
Proof. intros H. induction s as [|c s IH]; [done|]. cbn. rewrite !andb_true_iff. intros [A B]. auto. Qed.

Lemma all_slashes_append a b : all_slashes (String.append a b) = all_slashes a && all_slashes b.
Proof. induction a as [|c a IH]; [done|]. rewrite append_cons. cbn. by rewrite IH, andb_assoc. Qed.
Lemma trim_right_append a b : all_slashes b = false -> trim_slashes_right (String.append a b) = String.append a (trim_slashes_right b).
Proof.
  intros H. induction a as [|c a IH]; [done|]. rewrite !append_cons.
  assert (all_slashes (String c (String.append a b)) = false) as E by (rewrite <- append_cons, all_slashes_append, H; apply andb_false_r).
  change (trim_slashes_right (String c (String.append a b))) with (if all_slashes (String c (String.append a b)) then "" else String c (trim_slashes_right (String.append a b))).
  by rewrite E, IH.
Qed.

(** The deployment's name comes back out of the parameter of its trust bundle. *)
Lemma bundle_name c : full_match deployment_name (bc_Name c) = true -> deploymentNameFromBundleParameter (bundleParameter c) = Some (bc_Name c).
Proof.
  intros H. pose proof (deployment_name_runtime _ H) as R. apply deployment_name_chars in H as (x & t & E & Hx & Ht & _).
  assert (all_chars (fun c => negb (Ascii.eqb c slash)) (bc_Name c) = true) as Hn.
  { rewrite E. cbn [all_chars]. apply andb_true_iff. split; [apply name_class_no_slash; unfold name_class; by rewrite Hx|].
    eapply all_chars_weaken; [apply name_class_no_slash|done]. }
  unfold deploymentNameFromBundleParameter, bundleParameter.
  change (trim_slashes_left _) with (String.append "crane" (String slash (String.append (bc_Name c) "/spire-bundle"))).
  change (String slash (String.append (bc_Name c) "/spire-bundle")) with (String.append "/" (String.append (bc_Name c) "/spire-bundle")).
  rewrite !trim_right_append by (rewrite ?all_slashes_append; cbn; rewrite ?andb_false_r; done).
  change (trim_slashes_right "/spire-bundle") with (String slash "spire-bundle").
  change (String.append "/" (String.append (bc_Name c) (String slash "spire-bundle"))) with (String slash (String.append (bc_Name c) (String slash "spire-bundle"))).
  unfold Split. rewrite !split_from_sep by done. cbn -[full_match]. rewrite !append_nil_l, R. reflexivity.
Qed.

(** ** Configurations that are accepted *)
Lemma or_default_idem' v d : or_default (or_default v d) d = or_default v d.
Proof. unfold or_default. by repeat case_bool_decide. Qed.
Lemma or_int_idem v d : or_int (or_int v d) d = or_int v d.
Proof. unfold or_int. by repeat case_bool_decide. Qed.
Lemma or_slice_idem v d : or_slice (or_slice v d) d = or_slice v d.
Proof. unfold or_slice. destruct (elems v) eqn:E; [|by rewrite E]. cbn. by destruct d. Qed.

Lemma aws_WithDefaults_idem c : aws_WithDefaults (aws_WithDefaults c) = aws_WithDefaults c.
Proof.
  unfold aws_WithDefaults. cbn. rewrite !or_default_idem', !or_int_idem, !or_slice_idem. f_equal. by destruct (bc_FirstZone c) as [[]|].
Qed.

Lemma substring_length n m s : (String.length (String.substring n m s) <= m)%nat.
Proof.
  revert n m. induction s as [|c s IH]; intros n m; [destruct n, m; cbn; lia|]. destruct n as [|n]; [|apply IH].
  destruct m as [|m]; cbn; [lia|]. specialize (IH 0%nat m). lia.
Qed.

Lemma endpointName_length `{Sha} s : (String.length (endpointName s) <= 31)%nat.
Proof.
  unfold endpointName. rewrite !length_append. pose proof (substring_length 0 16 s). pose proof (substring_length 0 8 (sha256_hex s)). cbn [String.length]. lia.
Qed.

(** C23. A configuration that [NewBootstrap] accepts is well formed: filling in the defaults again
    changes nothing; the name has 3 to 30 characters, all lowercase letters, digits or hyphens, so that
    the names made of it stay within the limits of AWS (32 for the endpoint, 64 for roles) and come
    back out of the trust-bundle parameter; integers fit the 32 bits of their fields, the
    port is a TCP port, disks have their minimum sizes; the database is PostgreSQL, protected
    against deletion, with the two databases of the platform. *)
Theorem accepted_configuration_typed `{Sha} shared c : NewBootstrap shared = Ok c ->
  aws_WithDefaults c = c /\
  (3 <= String.length (bc_Name c) <= 30)%nat /\ all_chars name_class (bc_Name c) = true /\
  (String.length (endpointName (bc_Name c)) <= 32)%nat /\
  (forall kind, In kind ["spire"; "platform"; "worker"] -> (String.length (dashed (bc_Name c) kind) <= 64)%nat) /\
  deploymentNameFromBundleParameter (bundleParameter c) = Some (bc_Name c) /\
  settings_fit (settingsFor c) /\ 1 <= rd_Port (bc_RDS c) <= 65535 /\
  20 <= rd_StorageGiB (bc_RDS c) /\ 8 <= as_StorageGiB (bc_SPIRE c) /\ 20 <= ap_StorageGiB (bc_Platform c) /\
  rd_Engine (bc_RDS c) = "postgres" /\ rd_DeletionProtection (bc_RDS c) = true /\ sameStrings (elems (rd_Databases (bc_RDS c))) ["spire"; "crane"] = true.
Proof.
  intros N. pose proof (NewBootstrap_fits _ _ N) as F. unfold NewBootstrap in N. inv_ok. cbv zeta in *.
  set (d := composeBootstrapConfig (WithDefaults shared) x0) in *. pose proof (aws_WithDefaults_idem d) as I.
  set (c := aws_WithDefaults d) in *. clearbody c. unfold aws_Validate in Hx1. rewrite I in Hx1. cbv zeta in Hx1. inv_ok. bsplit.
  match goal with K : full_match deployment_name _ = true |- _ => pose proof (deployment_name_chars _ K) as (h & t & E & Hh & Ht & L); pose proof (bundle_name _ K) as BN end.
  pose proof (endpointName_length (bc_Name c)). split_and!; try done; try lia; rewrite ?E; cbn [String.length all_chars]; try lia.
  - apply andb_true_iff. split; [unfold name_class; by rewrite Hh|done].
  - intros kind Hk. unfold dashed. rewrite !length_append. cbn [String.length]. cbn [In] in Hk. destruct_or?; subst; try done; cbn [String.length]; lia.
Qed.

(** ** The template of the first zone *)
Lemma launch_object ami type subnet profile group :
  marshal_map (complete_launch (mkInfra "" "" "" "" "" [] [] [] "" group "" "" "" profile "" "" "") subnet
    (list_to_map (rev [("image_id", ami); ("instance_type", type)]))) =
  JObj [("associate_public_ip_address", JBool true); ("iam_instance_profile", JStr profile); ("image_id", ami); ("instance_type", type);
        ("security_group_ids", JArr [JStr group]); ("subnet_id", JStr subnet)].
Proof. vm_compute. reflexivity. Qed.

Lemma default_template ami type : dec_map (marshal_map {[ "image_id" := ami; "instance_type" := type ]}) = Some (list_to_map (rev [("image_id", ami); ("instance_type", type)])).
Proof. vm_compute. reflexivity. Qed.

Definition launch_template (c : bootstrapConfig) (infra : Infrastructure) (subnet : string) : Json :=
  JObj [("associate_public_ip_address", JBool true); ("iam_instance_profile", JStr (in_WorkerProfile infra)); ("image_id", JStr (ap_AMIID (bc_Platform c)));
        ("instance_type", JStr (ap_InstanceType (bc_Platform c))); ("security_group_ids", JArr [JStr (in_PlatformSecurityGroupID infra)]); ("subnet_id", JStr subnet)].

Lemma first_zone_default c i : bc_FirstZone c = None -> FirstZone (sharedConfig c) = Ok i -> gi_LaunchParameters (fz_Group i) = None /\ InstanceType (gi_Scheduling (fz_Group i)) = "".
Proof. intros E H. unfold FirstZone in H. cbn [cf_FirstZone sharedConfig] in H. rewrite E in H. cbn [rbind] in H. inv_ok. done. Qed.

Lemma NormalizeID_keeps g g' : NormalizeID g = Ok g' -> gi_LaunchParameters g' = gi_LaunchParameters g.
Proof. unfold NormalizeID. intros H. inv_ok. done. Qed.

Lemma topology_default c infra i : bc_FirstZone c = None -> topology c infra = Ok i ->
  exists pz zs subnet ss, in_AvailabilityZones infra = pz :: zs /\ in_PublicSubnetIDs infra = subnet :: ss /\
    zi_ProviderZoneID (fz_Zone i) = pz /\ zi_Region (fz_Zone i) = aw_Region (bc_AWS c) /\ zi_Provider (fz_Zone i) = "aws" /\
    gi_LaunchParameters (fz_Group i) = Some (launch_template c infra subnet) /\
    gi_Scheduling (fz_Group i) = mkScheduling (ap_InstanceType (bc_Platform c)) "amd64" (aw_Region (bc_AWS c)) pz ∅ [].
Proof.
  intros E H. unfold topology in H. apply rbind_ok in H as (i0 & Hi & H). apply first_zone_default in Hi as [El Es]; [|done].
  destruct (in_AvailabilityZones infra) as [|pz zs] eqn:Ez; [done|]. destruct (in_PublicSubnetIDs infra) as [|subnet ss] eqn:Ep; [done|].
  rewrite Es, eq_refl_true in H. cbv zeta in H. inv_ok. apply NormalizeID_keeps in Hx1. cbn [gi_LaunchParameters set_group_aws] in Hx1. rewrite El in Hx1. rewrite Hx1 in Hx2.
  cbn [default] in Hx2. rewrite default_template in Hx2. injection Hx2 as <-. cbn [zone_index] in Hx3. rewrite eq_refl_true in Hx3. injection Hx3 as <-.
  exists pz, zs, subnet, ss. split_and!; done.
Qed.

(** ** Workers *)
Section Workers.
Context {C : Type} {ec2 : EC2 C}.

Lemma dec_template c infra subnet : dec_launch_strict (Some (launch_template c infra subnet)) =
  Some (mkLaunch (ap_AMIID (bc_Platform c)) (ap_InstanceType (bc_Platform c)) subnet [in_PlatformSecurityGroupID infra] (in_WorkerProfile infra) (Some true)).
Proof. reflexivity. Qed.

(** The image passed the checks of [validateGoldenImage] for this deployment, which trims the
    tags' values before it compares them, and the tags hold no blanks to trim: [LaunchWorker]
    compares them as they are. *)
Definition golden (c : bootstrapConfig) (address : string) (tags : gmap string string) : Prop :=
  address <> "" /\
  Forall (fun kv => TrimSpace (tag tags (fst kv)) = snd kv /\ TrimSpace (tag tags (fst kv)) = tag tags (fst kv))
    [("CraneImage", "v2"); ("SpireServerAddress", address); ("SpireTrustDomain", as_TrustDomain (bc_SPIRE c));
     ("SpireBundleParameter", bundleParameter c); ("AWSRegion", aw_Region (bc_AWS c))].

Lemma golden_tags c address tags : golden c address tags ->
  address <> "" /\ tag tags "CraneImage" = "v2" /\ tag tags "SpireServerAddress" = address /\ tag tags "SpireTrustDomain" = as_TrustDomain (bc_SPIRE c) /\
  tag tags "SpireBundleParameter" = bundleParameter c /\ tag tags "AWSRegion" = aw_Region (bc_AWS c).
Proof.
  intros [Ha F]. repeat match goal with F : Forall _ (_ :: _) |- _ => apply Forall_cons in F as [[? ?] F] end.
  cbn [fst snd] in *. split_and!; congruence.
Qed.

(** C26. The bootstrap and the worker runtime agree.  For a deployment without a first zone of its
    own, the group that [topology] completes from the network of the bootstrap can be launched as it
    is: an operation whose target was made from that group, in a runtime of the deployment's
    region and trust domain, with the golden image of the deployment (its tags without blanks
    around the values, which only the validation trims) and the subnet and group in one VPC, passes every check of [LaunchWorker], which asks for the platform's image and type in
    the first public subnet with the platform's security group, the deployment's worker profile and
    the tags of this deployment. *)
Theorem first_zone_workers_launch c infra i op (w : C) address im vpc zone zones subnet subnets :
  bc_FirstZone c = None -> full_match deployment_name (bc_Name c) = true -> topology c infra = Ok i ->
  in_AvailabilityZones infra = zone :: zones -> in_PublicSubnetIDs infra = subnet :: subnets -> in_WorkerProfile infra = dashed (bc_Name c) "worker" ->
  Forall (fun v => v <> "") [ap_AMIID (bc_Platform c); ap_InstanceType (bc_Platform c); subnet; zone; in_PlatformSecurityGroupID infra; op_ProviderToken op; op_HostID op] ->
  t_Provider (op_Target op) = zi_Provider (fz_Zone i) -> t_Region (op_Target op) = zi_Region (fz_Zone i) ->
  t_ProviderZoneID (op_Target op) = zi_ProviderZoneID (fz_Zone i) -> t_LaunchParameters (op_Target op) = gi_LaunchParameters (fz_Group i) ->
  t_Scheduling (op_Target op) = gi_Scheduling (fz_Group i) ->
  ec2_DescribeImages (ap_AMIID (bc_Platform c)) w = Ok [im] -> im_Available im = true -> golden c address (tag_map (im_Tags im)) ->
  ec2_DescribeSubnets subnet w = Ok [mkSubnet zone vpc] -> ec2_DescribeSecurityGroups [in_PlatformSecurityGroupID infra] w = Ok [vpc] ->
  launch_request (mkRuntime (aw_Region (bc_AWS c)) (as_TrustDomain (bc_SPIRE c))) op w =
  Ok (mkRunInput (ap_AMIID (bc_Platform c)) (ap_InstanceType (bc_Platform c)) (op_ProviderToken op) (dashed (bc_Name c) "worker") subnet
        [in_PlatformSecurityGroupID infra] true (worker_tags (bc_Name c) op)).
Proof.
  intros E Hn Ht Ez Ep Ew Hf T1 T2 T3 T4 T5 Hi Ha (G1 & G2 & G3 & G4 & G5 & G6)%golden_tags Hs Hg.
  destruct (topology_default _ _ _ E Ht) as (pz & zs & sn & ss & Z1 & P1 & I1 & I2 & I3 & I4 & I5). rewrite Ez in Z1. rewrite Ep in P1.
  injection Z1 as <- <-. injection P1 as <- <-. rewrite I4 in T4. rewrite I5 in T5. rewrite I1 in T3. rewrite I2 in T2. rewrite I3 in T1.
  repeat (apply Forall_cons in Hf as [? Hf]). unfold launch_request, imageMetadata. cbv zeta. rewrite T1, T2, T3, T4, T5, dec_template.
  cbn [of_option rbind lp_ImageID lp_InstanceType lp_SubnetID lp_SecurityGroupIDs lp_InstanceProfile rt_region rt_trustDomain InstanceType sRegion sZone].
  rewrite Hi, Ha. cbn [rbind]. rewrite G2, G3, G4, G5, G6, (bundle_name _ Hn), Ew, Hs, Hg.
  change (dashed (bc_Name c) "worker") with (String.append (bc_Name c) "-worker").
  assert (bundleParameter c <> "") as B1 by done. assert (String.append (bc_Name c) "-worker" <> "") as B2 by (by destruct (bc_Name c)).
  repeat match goal with H : ?a <> ?b |- context [bool_decide (?a = ?b)] => rewrite (bool_decide_eq_false_2 _ H) end.
  rewrite !eq_refl_true. cbn. rewrite !eq_refl_true. reflexivity.
Qed.
End Workers.
