(* ===== verification/AwsSession.v ===== *)
(** * The AWS session: bootstrap_runner.go, bootstrap_scripts.go, bootstrap_session.go and the
      bootstrap_operation*.go files

    Hosts and scripts of a deployment; [bootstrapSession], the provider of the bootstrap
    runner; and [operationSession], the executor of durable operations.  Templates are
    rendered by a parameter ([Rendering]), whose data are the structs of the code; gzip and
    base64 are parameters too. *)
From S2P Require Import Prelude GoStrings Sql Api Schema Lease Scheduling Catalog Decode Bootstrap Regex Subd Redact LocalHost Deployment Runner AwsConfig Calls AwsCloud AwsResources AwsRuntime.
From Stdlib Require Import Ascii String.

Local Open Scope string_scope.
Local Open Scope list_scope.
Local Open Scope Z_scope.
Local Open Scope crane_scope.

(** ** Data *)
Record host : Type := mkAwsHost { ho_ID : string; ho_PrivateIP : string }.
Definition no_host : host := mkAwsHost "" "".
Record bootstrapAgentHost : Type := mkAgentHost { ah_ID : string; ah_PrivateIP : string; ah_Role : string; ah_AMI : string }.
Definition no_agent : bootstrapAgentHost := mkAgentHost "" "" "" "".

Record scriptData : Type := mkScriptData {
  sd_Hosts : list bootstrapAgentHost; sd_Host : bootstrapAgentHost; sd_Config : option bootstrapConfig; sd_Infra : Infrastructure; sd_TrustDomain : string;
  sd_Region : string; sd_AccountID : string; sd_BundleParameter : string; sd_FirstZone : option FirstZoneInput; sd_SpireImage : string;
  sd_KubernetesVersion : string; sd_CiliumVersion : string; sd_PodCIDR : string; sd_SpireAddress : string; sd_PlatformInstanceID : string; sd_ZoneID : string;
  sd_ClusterID : string; sd_NodePrivateIP : string }.
(** [sd_FirstZone] stands for the encodings that are derived from it: the first zone itself,
    the bad-host configuration of its zone, and the collector's manifest. *)
Definition no_data : scriptData := mkScriptData [] no_agent None no_infra "" "" "" "" None "" "" "" "" "" "" "" "" "".

Class Rendering : Type := { render_template : string -> scriptData -> option string }.

Definition set_sd_Hosts (v : list bootstrapAgentHost) (d : scriptData) : scriptData :=
  mkScriptData v (sd_Host d) (sd_Config d) (sd_Infra d) (sd_TrustDomain d) (sd_Region d) (sd_AccountID d) (sd_BundleParameter d) (sd_FirstZone d) (sd_SpireImage d)
    (sd_KubernetesVersion d) (sd_CiliumVersion d) (sd_PodCIDR d) (sd_SpireAddress d) (sd_PlatformInstanceID d) (sd_ZoneID d) (sd_ClusterID d) (sd_NodePrivateIP d).
Definition set_sd_Host (v : bootstrapAgentHost) (d : scriptData) : scriptData :=
  mkScriptData (sd_Hosts d) v (sd_Config d) (sd_Infra d) (sd_TrustDomain d) (sd_Region d) (sd_AccountID d) (sd_BundleParameter d) (sd_FirstZone d) (sd_SpireImage d)
    (sd_KubernetesVersion d) (sd_CiliumVersion d) (sd_PodCIDR d) (sd_SpireAddress d) (sd_PlatformInstanceID d) (sd_ZoneID d) (sd_ClusterID d) (sd_NodePrivateIP d).
Definition set_sd_SpireAddress (v : string) (d : scriptData) : scriptData :=
  mkScriptData (sd_Hosts d) (sd_Host d) (sd_Config d) (sd_Infra d) (sd_TrustDomain d) (sd_Region d) (sd_AccountID d) (sd_BundleParameter d) (sd_FirstZone d) (sd_SpireImage d)
    (sd_KubernetesVersion d) (sd_CiliumVersion d) (sd_PodCIDR d) v (sd_PlatformInstanceID d) (sd_ZoneID d) (sd_ClusterID d) (sd_NodePrivateIP d).
Definition set_sd_FirstZone (v : option FirstZoneInput) (d : scriptData) : scriptData :=
  mkScriptData (sd_Hosts d) (sd_Host d) (sd_Config d) (sd_Infra d) (sd_TrustDomain d) (sd_Region d) (sd_AccountID d) (sd_BundleParameter d) v (sd_SpireImage d)
    (sd_KubernetesVersion d) (sd_CiliumVersion d) (sd_PodCIDR d) (sd_SpireAddress d) (sd_PlatformInstanceID d) (sd_ZoneID d) (sd_ClusterID d) (sd_NodePrivateIP d).
Definition set_sd_Platform (v : string) (d : scriptData) : scriptData :=
  mkScriptData (sd_Hosts d) (sd_Host d) (sd_Config d) (sd_Infra d) (sd_TrustDomain d) (sd_Region d) (sd_AccountID d) (sd_BundleParameter d) (sd_FirstZone d) (sd_SpireImage d)
    (sd_KubernetesVersion d) (sd_CiliumVersion d) (sd_PodCIDR d) (sd_SpireAddress d) v (sd_ZoneID d) (sd_ClusterID d) (sd_NodePrivateIP d).

(** ** Scripts *)
Section Scripts.
Context {gonet : GoNet} {rendering : Rendering}.

Definition checkAgentHosts (hosts : list bootstrapAgentHost) : result unit :=
  match hosts with
  | [a; b] =>
      guard (ah_Role a == "spire") && (ah_Role b == "platform") && (ah_ID a != ah_ID b) else ErrMsg "both distinct bootstrap hosts are required" in
      guard forallb (fun h => full_match instanceIDRE (ah_ID h) && private_ip (ah_PrivateIP h)) hosts
        else ErrMsg "bootstrap host has invalid identity or private address" in
      Ok tt
  | _ => Err (ErrMsg "both distinct bootstrap hosts are required")
  end.

Definition baseScriptData (c : bootstrapConfig) (infra : Infrastructure) : result scriptData :=
  let c := aws_WithDefaults c in
  let s := bc_SPIRE c in
  guard TrimSpace (as_TrustDomain s) != "" else ErrMsg "spire.trust_domain is required to render bootstrap scripts" in
  let image := or_default (TrimSpace (as_Image s)) (String.append "ghcr.io/spiffe/spire-server:" (as_Version s)) in
  match topology c infra with
  | Err _ => Err (ErrMsg "derive first-zone identity")
  | Ok first =>
      Ok (mkScriptData [] no_agent (Some c) infra (as_TrustDomain s) (aw_Region (bc_AWS c)) (aw_AccountID (bc_AWS c)) (bundleParameter c) None image
            (ap_KubernetesVersion (bc_Platform c)) (ap_CiliumVersion (bc_Platform c)) (ap_PodCIDR (bc_Platform c)) "" "" (zi_ID (fz_Zone first)) "" "")
  end.

Definition renderTemplate (name : string) (d : scriptData) : result string := of_option (ErrMsg "render") (render_template name d).
Definition renderScript (name : string) (d : scriptData) : result string :=
  let* s := renderTemplate name d in
  guard HasPrefix s "#!" else ErrMsg "rendered script is missing a shebang" in
  Ok s.

(** The fields of the infrastructure that a script needs. *)
Definition requireInfra (values : list string) : result unit :=
  require (forallb (fun v => TrimSpace v != "") values) (ErrMsg "infrastructure is missing fields required to render scripts").

Definition RenderSpireScript (c : bootstrapConfig) (infra : Infrastructure) : result string :=
  let* d := baseScriptData c infra in
  let* _ := requireInfra [in_DBEndpoint infra; in_DBSecretARN infra; in_RuntimeSecretARN infra] in
  renderScript "spire.sh.tmpl" d.

Definition RenderPlatformScript (c : bootstrapConfig) (infra : Infrastructure) (spireAddress : string) : result string :=
  guard TrimSpace spireAddress != "" else ErrMsg "spireAddress is required to render the platform script" in
  let* d := baseScriptData c infra in
  let* _ := requireInfra [in_DBEndpoint infra; in_RuntimeSecretARN infra] in
  guard spireAddress == in_SpireAddress infra else ErrMsg "platform requires the prepared SPIRE load balancer hostname" in
  let d := set_sd_SpireAddress spireAddress d in
  let* first := topology c infra in
  let d := set_sd_FirstZone (Some first) d in
  let* _ := renderTemplate "otel-collector.yaml.tmpl" d in
  renderScript "platform.sh.tmpl" d.

Definition RenderIdentityScript (c : bootstrapConfig) (infra : Infrastructure) (platform spire : string) : result string :=
  guard TrimSpace platform != "" else ErrMsg "platformInstanceID is required to render the identity script" in
  let* d := baseScriptData c infra in
  guard (TrimSpace (aw_AccountID (bc_AWS c)) != "") && (TrimSpace (aw_Region (bc_AWS c)) != "")
    else ErrMsg "aws.account_id and aws.region are required to render the identity script" in
  guard full_match instanceIDRE spire && full_match instanceIDRE platform && (spire != platform) else ErrMsg "two distinct instance IDs are required" in
  renderScript "identity.sh.tmpl" (set_sd_Hosts [mkAgentHost spire "" "" ""; mkAgentHost platform "" "" ""] (set_sd_Platform platform d)).

Definition RenderValidateScript (c : bootstrapConfig) (infra : Infrastructure) (hosts : list bootstrapAgentHost) : result string :=
  let* _ := checkAgentHosts hosts in
  let* d := baseScriptData c infra in
  let* _ := requireInfra [in_DBEndpoint infra; in_RuntimeSecretARN infra] in
  renderScript "validate.sh.tmpl" (set_sd_Hosts hosts d).

Definition RenderSubdScript (c : bootstrapConfig) (infra : Infrastructure) (h : bootstrapAgentHost) : result string :=
  guard full_match instanceIDRE (ah_ID h) && private_ip (ah_PrivateIP h) else ErrMsg "Subd requires a host identity and private address" in
  let* d := baseScriptData c infra in
  renderScript "subd.sh.tmpl" (set_sd_SpireAddress (in_SpireAddress infra) (set_sd_Host h d)).

Definition RenderSeedHostsScript (c : bootstrapConfig) (infra : Infrastructure) (hosts : list bootstrapAgentHost) : result string :=
  let* _ := checkAgentHosts hosts in
  let* d := baseScriptData c infra in
  renderScript "seed-hosts.sh.tmpl" (set_sd_Hosts hosts d).
End Scripts.

(** ** Hosts *)
Section Hosts.
Context {C : Type} {cloud : Cloud C} {sha : Sha} {random : Random} {gonet : GoNet} {rendering : Rendering} {scripts : Scripts}.

(** Instance profiles take time to be seen: up to [retries] further attempts. *)
Fixpoint launch (retries : nat) (input : LaunchInput) : Aws C (list (string * string)) :=
  aws! a := try_call (RunHost input) in
  match a with
  | inl l => aws_ret l
  | inr e =>
      match retries with
      | S n => if isCode e ["InvalidParameterValue"; "InvalidIamInstanceProfile"] then aws! _ := pause in launch n input else aws_lift (Err (err_of e))
      | O => aws_lift (Err (err_of e))
      end
  end.

Definition client_token (c : bootstrapConfig) (role : string) : string :=
  sha256_hex (String.append (aw_AccountID (bc_AWS c)) (String.append "/" (String.append (aw_Region (bc_AWS c)) (String.append "/"
    (String.append (bc_Name c) (String.append "/" role)))))).

Definition host_tags (name role : string) : list Tag := [mkTag "Name" (dashed name role); mkTag "CraneBootstrap" name; mkTag "BootstrapRole" role].

(** The hosts that exist, in the order in which they are listed. *)
Fixpoint usable_hosts (ami instanceType : string) (l : list HostInfo) : result (list host) :=
  match l with
  | [] => Ok []
  | i :: l =>
      guard (hi_ImageID i == ami) && (hi_InstanceType i == instanceType) else ErrMsg "existing host has an incompatible AMI or instance type" in
      guard negb (one_of (hi_State i) ["stopped"; "stopping"]) else ErrMsg "existing host is stopped; resume it before rerunning bootstrap" in
      let* r := usable_hosts ami instanceType l in
      Ok (mkAwsHost (hi_ID i) (hi_PrivateIP i) :: r)
  end.

(** [infra.PublicSubnetIDs[0]] panics when there is none. *)
Definition ensureHost (c : bootstrapConfig) (subnets : list string) (role ami instanceType : string) (storage : Z) (profile sg : string) : Aws C host :=
  let name := bc_Name c in
  aws! existing := call (DescribeHosts name role ["pending"; "running"; "stopped"; "stopping"]) in
  aws! found := aws_lift (usable_hosts ami instanceType (List.concat existing)) in
  aws! h := match found with
            | [h] => aws_ret h
            | [] =>
                match subnets with
                | [] => aws_fail "panic: index out of range"
                | subnet :: _ =>
                    aws! launched := launch 7 (mkLaunchInput ami instanceType (client_token c role) profile subnet [sg] storage (host_tags name role)) in
                    match launched with [(id, ip)] => aws_ret (mkAwsHost id ip) | _ => aws_fail "AWS did not return exactly one instance" end
                end
            | _ => aws_fail "multiple hosts have this deployment's ownership tags"
            end in
  aws! _ := until (aws! l := call (DescribePing (ho_ID h)) in aws_ret (match l with [st] => if st == "Online" then Some tt else None | _ => None end)) in
  if ho_PrivateIP h == ""
  then aws! out := call (DescribeHost (ho_ID h)) in
       match out with [[ip]] => aws_ret (mkAwsHost (ho_ID h) ip) | _ => aws_fail "cannot discover host private address" end
  else aws_ret h.

(** ** Scripts on hosts *)
Definition script_command (name script : string) : string :=
  let path := shellQuote (String.append "/var/lib/crane/" (String.append name ".sh")) in
  let body := String.append "set -eu" (String.append nl (String.append "umask 077" (String.append nl (String.append "printf %s "
                (String.append (shellQuote (gzip_base64 script)) (String.append " | base64 -d | gzip -d > " (String.append path
                  (String.append nl (String.append "bash " path))))))))) in
  String.append "set -eu" (String.append nl (String.append "cloud-init status --wait >/dev/null" (String.append nl
    (String.append "install -d -m 0755 /var/lib/crane" (String.append nl (String.append "flock -w 3500 /var/lib/crane-bootstrap.lock bash -c " (shellQuote body))))))).

(** [Reporter.Output] says nothing about blank output; the text is redacted here and once more
    when it is emitted. *)
Definition report_output (name stream output : string) : Aws C unit :=
  if TrimSpace (redactString output) == "" then aws_ret tt else call (ReportOutput name stream (redactString (redactString output))).

(** An error of the report is dropped. *)
Definition quietly {A} (m : Aws C A) : Aws C unit := fun s => let '(_, s) := m s in (Ok tt, s).

Definition invocation (name instance command : string) : Aws C (option string) :=
  aws! a := try_call (GetInvocation command instance) in
  match a with
  | inr e => if isCode e ["InvocationDoesNotExist"] then aws_ret None else aws_lift (Err (err_of e))
  | inl i =>
      if iv_Status i == "Success"
      then aws! _ := report_output name "stdout" (iv_Stdout i) in aws! _ := report_output name "stderr" (iv_Stderr i) in aws_ret (Some (iv_Stdout i))
      else if one_of (iv_Status i) ["Failed"; "Cancelled"; "TimedOut"; "Cancelling"]
      then aws! _ := quietly (report_output name "stdout" (iv_Stdout i)) in aws! _ := quietly (report_output name "stderr" (iv_Stderr i)) in
           aws_fail "bootstrap script failed"
      else if one_of (iv_Status i) ["Pending"; "InProgress"; "Delayed"] then aws_ret None
      else aws_fail "SSM command returned unexpected state"
  end.

(** The output that the caller observes. *)
Definition runScriptObserved (instance name script : string) : Aws C string :=
  let command := script_command name script in
  insist negb (23000 <? Z.of_nat (String.length command)) else "bootstrap exceeds SSM command size; move reusable setup into the golden image" in
  aws! id := call (SendCommand instance name command) in
  insist id != "" else "SSM returned no command id" in
  aws! _ := call (ReportDetail name (redactString (String.append "SSM command " (String.append id " submitted; waiting for host")))) in
  until (invocation name instance id).

Definition runScript (instance name script : string) : Aws C unit := aws! _ := runScriptObserved instance name script in aws_ret tt.

(** The last line of the output that starts with the marker, without it. *)
Definition marked (trim : bool) (marker output : string) : list string :=
  let lines := split_lines output in
  map (fun l => TrimPrefix l marker) (List.filter (fun l => HasPrefix l marker) (if trim then map TrimSpace lines else lines)).
Definition last_marked (marker output : string) : string := TrimSpace (List.last (marked false marker output) "").

(** ** [bootstrapSession]

    A method that fails may leave the session half updated; the runner does not use a session
    again that returned an error, and the model keeps the session as it was. *)
Record bootstrapSession : Type := mkSession {
  bs_cfg : bootstrapConfig; bs_infra : Infrastructure; bs_spire : host; bs_platform : host; bs_observability : string }.
Definition set_bs_cfg (v : bootstrapConfig) (s : bootstrapSession) : bootstrapSession := mkSession v (bs_infra s) (bs_spire s) (bs_platform s) (bs_observability s).
Definition set_bs_infra (v : Infrastructure) (s : bootstrapSession) : bootstrapSession := mkSession (bs_cfg s) v (bs_spire s) (bs_platform s) (bs_observability s).
Definition set_bs_hosts (spire platform : host) (s : bootstrapSession) : bootstrapSession := mkSession (bs_cfg s) (bs_infra s) spire platform (bs_observability s).
Definition set_bs_observability (v : string) (s : bootstrapSession) : bootstrapSession := mkSession (bs_cfg s) (bs_infra s) (bs_spire s) (bs_platform s) v.

Definition discover_zones (c : bootstrapConfig) : Aws C bootstrapConfig :=
  match elems (nw_AvailabilityZones (bc_Network c)) with
  | [] =>
      aws! zones := available_zones in
      match zones with
      | a :: b :: _ => aws_ret (set_network (set_zones (Some [a; b]) (bc_Network c)) c)
      | _ => aws_fail "bootstrap requires two available AWS availability zones"
      end
  | _ => aws_ret c
  end.

(** The pinned settings and the session that holds them. *)
Definition session_resolve (previous : RawMessage) (prepare : bool) (s : bootstrapSession) : Aws C (RawMessage * bootstrapSession) :=
  aws! c := aws_lift (match previous with
                      | None => Ok (bs_cfg s)
                      | Some _ => let* prior := decodePinnedBootstrapSettings previous in mergePinnedSettings (bs_cfg s) prior
                      end) in
  insist prepare || negb ((as_AMIID (bc_SPIRE c) == "") || (ap_AMIID (bc_Platform c) == ""))
    else "provide provider_config.spire_host.ami_id and platform_host.ami_id after preparing the endpoint and building golden AMIs" in
  aws! account := call CallerIdentity in
  insist account != "" else "AWS identity returned no account" in
  insist (aw_AccountID (bc_AWS c) == "") || (aw_AccountID (bc_AWS c) == account) else "configured AWS account does not match the credential identity" in
  aws! c := discover_zones (set_aws (mkAWS (aw_Region (bc_AWS c)) account) c) in
  aws! _ := aws_lift (aws_Validate c) in
  aws_ret (Some (enc_settings (settingsFor c)), set_bs_cfg c s).

Definition session_PrepareEndpoint (s : bootstrapSession) : Aws C bootstrapSession :=
  let c := bs_cfg s in
  aws! infra := ensureNetwork c in
  aws! infra := ensureSecurityGroups c infra in
  aws! infra := ensureSpireEndpoint c infra in
  aws_ret (set_bs_infra infra s).

Definition session_EnsureHosts (s : bootstrapSession) : Aws C bootstrapSession :=
  let c := bs_cfg s in
  let infra := bs_infra s in
  let sp := bc_SPIRE c in
  let pl := bc_Platform c in
  let subnets := in_PublicSubnetIDs infra in
  aws! _ := for_each [as_AMIID sp; ap_AMIID pl] (validateGoldenImage c infra) in
  aws! spire := ensureHost c subnets "spire" (as_AMIID sp) (as_InstanceType sp) (as_StorageGiB sp) (in_SpireProfile infra) (in_SpireSecurityGroupID infra) in
  aws! _ := registerSpireTarget infra (ho_ID spire) in
  aws! platform := ensureHost c subnets "platform" (ap_AMIID pl) (ap_InstanceType pl) (ap_StorageGiB pl) (in_PlatformProfile infra) (in_PlatformSecurityGroupID infra) in
  aws_ret (set_bs_hosts spire platform s).

Definition agentHosts (s : bootstrapSession) : list bootstrapAgentHost :=
  [mkAgentHost (ho_ID (bs_spire s)) (ho_PrivateIP (bs_spire s)) "spire" (as_AMIID (bc_SPIRE (bs_cfg s)));
   mkAgentHost (ho_ID (bs_platform s)) (ho_PrivateIP (bs_platform s)) "platform" (ap_AMIID (bc_Platform (bs_cfg s)))].

Definition observability_marker : string := "crane-observability-status:".
Definition observed_status (output old : string) : string :=
  List.last (List.filter (fun v => one_of v ["configuration_pending"; "ready"; "failed"]) (marked true observability_marker output)) old.

(** A script on a protected host. *)
Definition on_host (target name : string) (script : result string) : Aws C string :=
  aws! script := aws_lift script in
  insist target != "" else "host phase requires a protected host" in
  runScriptObserved target name script.

Definition session_RunHostPhase (p : HostPhase) (s : bootstrapSession) : Aws C bootstrapSession :=
  let c := bs_cfg s in
  let infra := bs_infra s in
  let spire := ho_ID (bs_spire s) in
  let platform := ho_ID (bs_platform s) in
  match p with
  | InstallIdentity => aws! _ := on_host spire "identity-server" (RenderSpireScript c infra) in aws_ret s
  | RegisterWorkloads => aws! _ := on_host spire "workload-identities" (RenderIdentityScript c infra platform spire) in aws_ret s
  | InstallPlatform => aws! _ := on_host platform "platform" (RenderPlatformScript c infra (in_SpireAddress infra)) in aws_ret s
  | ValidateHandoff =>
      let hosts := agentHosts s in
      aws! _ := aws_lift (checkAgentHosts hosts) in
      aws! _ := for_each hosts (fun h =>
                  aws! setup := aws_lift (RenderSubdScript c infra h) in runScript (ah_ID h) (String.append "subd-" (ah_Role h)) setup) in
      aws! seed := aws_lift (RenderSeedHostsScript c infra hosts) in
      aws! _ := runScript platform "seed-hosts" seed in
      (* the case's own [err] takes the error of rendering, which the check after the switch does not see *)
      let script := match RenderValidateScript c infra hosts with Ok script => script | Err _ => "" end in
      aws! output := on_host platform "validate" (Ok script) in
      aws_ret (set_bs_observability (observed_status output (bs_observability s)) s)
  end.

Definition quoted (s : string) : string := String double_quote (String.append s (String double_quote "")).
Definition port_parameter (name : string) : string := String.append (quoted name) (String.append ":[" (String.append (quoted "43060") "]")).
Definition tunnel (platform : string) : string :=
  Join ["Open an encrypted private tunnel: aws ssm start-session --target "; platform;
        " --document-name AWS-StartPortForwardingSession --parameters '{"; port_parameter "portNumber"; ","; port_parameter "localPortNumber";
        "}'. Call http://127.0.0.1:43060 using the admin_token from the deployment runtime secret (provider_output.runtime_secret_arn). See docs/kubernetes-operations.md; never print the token."] "".

Definition provider_output (s : bootstrapSession) : Json :=
  JObj ([("region", JStr (aw_Region (bc_AWS (bs_cfg s))))] ++ enc_omitempty "spire_instance_id" (ho_ID (bs_spire s)) ++
        enc_omitempty "platform_instance_id" (ho_ID (bs_platform s)) ++ enc_omitempty "platform_address" (ho_PrivateIP (bs_platform s)) ++
        [("spire_bundle_parameter", JStr (bundleParameter (bs_cfg s)))] ++ enc_omitempty "runtime_secret_arn" (in_RuntimeSecretARN (bs_infra s))).

Definition session_result (s : bootstrapSession) : Result :=
  let name := bc_Name (bs_cfg s) in
  let ip := ho_PrivateIP (bs_platform s) in
  if ip == "" then mkResult name "aws" (in_SpireAddress (bs_infra s)) "" "" "" "" "" (Some (provider_output s))
  else mkResult name "aws" (in_SpireAddress (bs_infra s)) (String.append "https://" (String.append ip ":6443")) (String.append "http://" (String.append ip ":43060"))
         (String.append name "/bootstrap/platform") (or_default (bs_observability s) "configuration_pending") (tunnel (ho_ID (bs_platform s)))
         (Some (provider_output s)).

(** The session as the provider of the bootstrap runner. *)
Record aws_world : Type := mkWorld { w_session : bootstrapSession; w_aws : aws_state C }.
Definition in_session (m : bootstrapSession -> Aws C bootstrapSession) (w : aws_world) : result unit * aws_world :=
  match m (w_session w) (w_aws w) with
  | (Ok s, a) => (Ok tt, mkWorld s a)
  | (Err e, a) => (Err e, mkWorld (w_session w) a)
  end.

#[global] Instance aws_sessions : Sessions aws_world := {|
  session_open := fun shared w => let* c := NewBootstrap shared in Ok (mkWorld (mkSession c no_infra no_host no_host "") (w_aws w));
  session_Resolve := fun previous prepare w =>
    match session_resolve previous prepare (w_session w) (w_aws w) with
    | (Ok (raw, s), a) => (Ok raw, mkWorld s a)
    | (Err e, a) => (Err e, mkWorld (w_session w) a)
    end;
  session_do := fun call =>
    match call with
    | Runner.PrepareEndpoint => in_session session_PrepareEndpoint
    | EnsureCredentials => in_session (fun s => aws! i := ensureSecrets (bs_cfg s) (bs_infra s) in aws_ret (set_bs_infra i s))
    | Runner.EnsureInfrastructure => in_session (fun s => aws! i := ensureComputeInfrastructure (bs_cfg s) (bs_infra s) in aws_ret (set_bs_infra i s))
    | EnsureHosts => in_session session_EnsureHosts
    | RunHostPhase p => in_session (session_RunHostPhase p)
    end;
  session_Result := fun w => session_result (w_session w) |}.

(** ** [operationSession] *)
Definition NewOperationSession (shared : Config) : result bootstrapConfig :=
  guard cf_Provider shared == "aws" else ErrMsg "AWS operation requires AWS provider configuration" in
  let* _ := Validate shared in
  let* settings := decodeBootstrapSettings (cf_ProviderConfig shared) in
  let c := aws_WithDefaults (composeBootstrapConfig shared settings) in
  let* _ := aws_Validate c in
  guard negb ((aw_AccountID (bc_AWS c) == "") || (ap_AMIID (bc_Platform c) == "")) else ErrMsg "operation session requires pinned AWS account and platform AMI" in
  Ok c.

Definition simple_name : regex :=
  let a := fun c => lower_letter c || digit c in RCat (RClass a) (RStar (RClass (fun c => a c || any_of "-" c))).

(** The zone and the cluster that an operation is about. *)
Definition target (c : bootstrapConfig) (op : Operation) : result (ZoneInput * string) :=
  guard op_Kind op == Kcreate_cluster else ErrMsg "bootstrap operation only supports create_cluster" in
  let* i := of_option (ErrMsg "invalid operation intent") (match op_Parameters op with PJson j => dec_intent (Some j) | _ => None end) in
  let z := fz_Zone i in
  let cluster := ci_ID (fz_Cluster i) in
  guard (zi_ID z == op_ZoneID op) && (zi_Provider z == "aws") && (zi_AccountID z == aw_AccountID (bc_AWS c)) && (zi_Region z == aw_Region (bc_AWS c)) &&
        full_match simple_name cluster && full_match simple_name (zi_ID z) else ErrMsg "operation target does not match the pinned AWS deployment" in
  Ok (z, cluster).

Definition cluster_role (cluster : string) : string := String.append "cluster-" cluster.

(** The resources that every operation reconciles before it uses them. *)
Definition operation_infra (c : bootstrapConfig) : Aws C Infrastructure :=
  aws! infra := ensureNetwork c in
  aws! infra := ensureSecurityGroups c infra in
  aws! infra := ensureSecrets c infra in
  ensureRDS c infra.

Definition op_EnsureInfrastructure (c : bootstrapConfig) (op : Operation) : Aws C BootstrapStepResult :=
  let name := bc_Name c in
  let pl := bc_Platform c in
  aws! t := aws_lift (target c op) in
  let '(zone, cluster) := t in
  aws! account := call CallerIdentity in
  insist account == aw_AccountID (bc_AWS c) else "AWS credentials do not match pinned deployment account" in
  aws! vpcs := call (DescribeVpcsOwned name) in
  insist match vpcs with [v] => owned (vp_Tags v) name | _ => false end else "existing deployment VPC is unavailable" in
  aws! infra := operation_infra c in
  let profile := dashed name "platform" in
  aws! p := call (GetInstanceProfile profile) in
  insist owned (pf_Tags p) name && match pf_Roles p with [r] => r == profile | _ => false end else "existing platform instance profile has incompatible ownership" in
  match (k ← zone_index (zi_ProviderZoneID zone) (in_AvailabilityZones infra); in_PublicSubnetIDs infra !! k) with
  | None => aws_fail "target availability zone has no deployment subnet"
  | Some subnet =>
      aws! h := ensureHost c [subnet] (cluster_role cluster) (ap_AMIID pl) (ap_InstanceType pl) (ap_StorageGiB pl) profile (in_PlatformSecurityGroupID infra) in
      aws_ret (mkStepResult "" "" (ho_ID h) (ho_PrivateIP h) (ap_AMIID pl) "" "")
  end.

Fixpoint pinned_hosts (c : bootstrapConfig) (l : list HostInfo) : result (list host) :=
  match l with
  | [] => Ok []
  | i :: l =>
      guard (hi_ImageID i == ap_AMIID (bc_Platform c)) && (hi_InstanceType i == ap_InstanceType (bc_Platform c)) && private_ip (hi_PrivateIP i)
        else ErrMsg "operation host does not match pinned image, type or private address" in
      let* r := pinned_hosts c l in
      Ok (mkAwsHost (hi_ID i) (hi_PrivateIP i) :: r)
  end.

Definition operationHost (c : bootstrapConfig) (role : string) : Aws C host :=
  aws! out := call (DescribeHosts (bc_Name c) role ["running"]) in
  aws! found := aws_lift (pinned_hosts c (List.concat out)) in
  match found with [h] => aws_ret h | _ => aws_fail "expected one running operation host" end.

Definition op_InitializeControlPlane (c : bootstrapConfig) (op : Operation) : Aws C BootstrapStepResult :=
  aws! t := aws_lift (target c op) in
  aws! h := operationHost c (cluster_role (snd t)) in
  let p := bc_Platform c in
  aws! script := aws_lift (renderTemplate "cluster-control-plane.sh.tmpl"
                   (mkScriptData [] (mkAgentHost "" (ho_PrivateIP h) "" "") None no_infra "" "" "" "" None "" (ap_KubernetesVersion p) "" (ap_PodCIDR p) "" "" "" "" "")) in
  aws! output := runScriptObserved (ho_ID h) "cluster-control-plane" script in
  let endpoint := last_marked "crane-cluster-api-endpoint:" output in
  let hash := last_marked "crane-cluster-ca-hash:" output in
  insist negb ((endpoint == "") || (hash == "")) else "control plane did not return public discovery" in
  aws_ret (mkStepResult endpoint hash "" "" "" "" "").

Definition op_EnsureNetwork (c : bootstrapConfig) (op : Operation) : Aws C unit :=
  aws! t := aws_lift (target c op) in
  insist unset_or (t_ClusterID (op_Target op)) (snd t) else "operation cluster differs from trusted catalog" in
  aws! h := operationHost c (cluster_role (snd t)) in
  aws! script := aws_lift (renderTemplate "cluster-cilium.sh.tmpl"
                   (mkScriptData [] no_agent None no_infra "" "" "" "" None "" "" (ap_CiliumVersion (bc_Platform c)) "" "" "" "" "" "")) in
  runScript (ho_ID h) "cluster-cilium" script.

(** Identities. *)
Definition spiffe (c : bootstrapConfig) (path : string) : string := String.append "spiffe://" (String.append (as_TrustDomain (bc_SPIRE c)) path).
Definition dominator_identity (c : bootstrapConfig) (zone : string) : string := spiffe c (String.append "/dominator/" zone).
Definition agent_parent (c : bootstrapConfig) (instance : string) : string :=
  spiffe c (Join ["/spire/agent/aws_iid"; aw_AccountID (bc_AWS c); aw_Region (bc_AWS c); instance] "/").

(** The scripts are written here with [~] for a double quote. *)
Definition tilde : ascii := "~".
Fixpoint with_quotes (s : string) : string :=
  match s with EmptyString => "" | String c r => String (if c == tilde then double_quote else c) (with_quotes r) end.

(** [%q] of a text of printable ASCII characters. *)
Definition backslash : ascii := ascii_of_nat 92.
Fixpoint escape_double (s : string) : string :=
  match s with
  | EmptyString => ""
  | String c r => if (c == double_quote) || (c == backslash) then String backslash (String c (escape_double r)) else String c (escape_double r)
  end.
Definition go_quote (s : string) : string := quoted (escape_double s).

Definition spire_entry : string := with_quotes "docker exec ~$CONTAINER~ /opt/spire/bin/spire-server entry ".
(** One entry with the identity [id], below [parent] and for exactly the [selectors]. *)
Definition entry_script (id parent selectors : string) : string :=
  Join ["#!/usr/bin/env bash"; "set -euo pipefail"; "CONTAINER=crane-spire-server"; "SOCKET=/tmp/spire-server/private/api.sock";
        String.append "ID=" id; String.append "PARENT=" parent;
        String.append (with_quotes "all=~$(") (String.append spire_entry (with_quotes "show -socketPath ~$SOCKET~ -spiffeID ~$ID~ || true)~"));
        with_quotes "count=~$(printf '%s\n' ~$all~ | awk '/Entry ID/{n++} END{print n+0}')~";
        with_quotes "if [ ~$count~ -gt 1 ]; then exit 1; fi"; with_quotes "if [ ~$count~ = 1 ]; then";
        Join ["  "; spire_entry; with_quotes "show -socketPath ~$SOCKET~ -spiffeID ~$ID~ -parentID ~$PARENT~ "; selectors; " -matchSelectorsOn exact | grep -q 'Entry ID'"] "";
        "else"; Join ["  "; spire_entry; with_quotes "create -socketPath ~$SOCKET~ -parentID ~$PARENT~ -spiffeID ~$ID~ "; selectors] ""; "fi"; ""] nl.
Definition dominator_registration (c : bootstrapConfig) (zone instance : string) : string :=
  entry_script (quoted (dominator_identity c zone)) (quoted (agent_parent c instance))
    (String.append "-selector k8s:ns:crane-system -selector k8s:sa:dominator-" zone).
Definition subd_registration (c : bootstrapConfig) (instance : string) : string :=
  entry_script (go_quote (spiffe c (String.append "/subd/" instance))) (go_quote (agent_parent c instance)) "-selector systemd:id:subd.service".

Definition op_ensureSubd (c : bootstrapConfig) (spire agent : host) (zone : string) (infra : Infrastructure) : Aws C unit :=
  aws! _ := runScript (ho_ID spire) (String.append "subd-identity-" zone) (subd_registration c (ho_ID agent)) in
  aws! subd := aws_lift (renderTemplate "subd.sh.tmpl"
                 (mkScriptData [] (mkAgentHost (ho_ID agent) (ho_PrivateIP agent) "zone" "") (Some c) infra (as_TrustDomain (bc_SPIRE c)) "" "" "" None "" "" "" ""
                    (in_SpireAddress infra) "" zone "" "")) in
  runScript (ho_ID agent) (String.append "subd-" zone) subd.

Definition op_EnsureDominator (c : bootstrapConfig) (op : Operation) : Aws C BootstrapStepResult :=
  aws! t := aws_lift (target c op) in
  let '(z, cluster) := t in
  let zone := zi_ID z in
  aws! control := operationHost c (cluster_role cluster) in
  aws! spire := operationHost c "spire" in
  aws! _ := runScript (ho_ID spire) (String.append "dominator-identity-" zone) (dominator_registration c zone (ho_ID control)) in
  aws! infra := operation_infra c in
  aws! _ := op_ensureSubd c spire control zone infra in
  aws! script := aws_lift (renderTemplate "zone-dominator.sh.tmpl"
                   (mkScriptData [] (mkAgentHost "" (ho_PrivateIP control) "" "") (Some c) infra (as_TrustDomain (bc_SPIRE c)) (aw_Region (bc_AWS c)) "" "" None "" "" "" ""
                      "" "" zone cluster "")) in
  aws! output := runScriptObserved (ho_ID control) (String.append "dominator-" zone) script in
  let endpoint := last_marked "crane-dominator-endpoint:" output in
  insist endpoint != "" else "zone Dominator did not return a private Service endpoint" in
  aws_ret (mkStepResult "" "" "" "" "" endpoint (dominator_identity c zone)).

Definition op_Validate (c : bootstrapConfig) (op : Operation) : Aws C bool :=
  aws! t := aws_lift (target c op) in
  let '(z, cluster) := t in
  aws! control := operationHost c (cluster_role cluster) in
  aws! probe := aws_lift (renderTemplate "zone-validate.sh.tmpl"
                  (mkScriptData [] (mkAgentHost "" (ho_PrivateIP control) "" "") (Some c) no_infra (as_TrustDomain (bc_SPIRE c)) "" "" "" None "" "" "" "" "" "" (zi_ID z) ""
                     (ho_PrivateIP control))) in
  aws! _ := runScript (ho_ID control) (String.append "validate-" (zi_ID z)) probe in
  aws_ret true.
End Hosts.
