(* ===== verification/AwsDemo.v ===== *)
(** * An account to run against

    A small account that remembers what was created in it and answers like one, for runs of
    the bootstrap on concrete configurations: the first run builds everything, a second run
    finds it. *)
From S2P Require Import Prelude GoStrings Sql Api Schema Lease Scheduling Catalog Decode Bootstrap Regex Subd Redact LocalHost Cidr Deployment Runner AwsConfig Calls AwsCloud AwsResources AwsRuntime AwsSession.
From Stdlib Require Import Ascii String.

Local Open Scope string_scope.
Local Open Scope list_scope.
Local Open Scope Z_scope.
Local Open Scope crane_scope.

Definition demo_text (letter : string) (n : nat) : string := Join (repeat letter n) "".
#[local] Instance demo_sha : Sha := {| sha256_hex := fun s => String.append (String.substring 0 24 s) (demo_text "a" 40) |}.
#[local] Instance demo_random : Random := {| fresh_credential := fun k => Some (demo_text "k" 43) |}.
#[local] Instance demo_private : GoNet := {| private_ip := fun s => HasPrefix s "10." |}.
#[local] Instance demo_rendering : Rendering := {| render_template := fun name _ => Some (String.append "#!/usr/bin/env bash # " name) |}.
#[local] Instance demo_packing : Scripts := {| gzip_base64 := fun s => "H4sI"; render_subd := fun _ _ _ _ _ _ => Some "" |}.
#[local] Instance demo_words : Texts := {| error_text := fun _ => "failed"; json_same := fun a b => a == b |}.

(** ** The account *)
Record account : Type := mkAccount { ac_made : list string; ac_targets : list (string * Z); ac_image : list Tag }.
Definition made (a : account) (key : string) : bool := one_of key (ac_made a).
Definition make {A} (key : string) (r : A) (a : account) : answer A * account := (inl r, mkAccount (key :: ac_made a) (ac_targets a) (ac_image a)).
Definition read {A} (r : answer A) (a : account) : answer A * account := (r, a).
Definition look {A} (key : string) (found : A) (otherwise : answer A) (a : account) : answer A * account := (if made a key then inl found else otherwise, a).

Definition demo_name : string := "crane-demo".
Definition demo_own : list Tag := [mkTag "CraneBootstrap" demo_name].
Definition demo_db_instance : DBInstance :=
  mkDBInstance "arn:db" "available" "postgres" "16" "db.t3.micro" "postgres" "gp3" 20 false true false true (Some ("db.internal", 5432))
    (Some ("arn:master", "active")) "crane-demo-db-subnets" "vpc-1" ["sg-crane-demo-rds"].
Definition demo_subnet (cidr : string) : string := String.append "subnet-" cidr.
Definition demo_zone_of (cidr : string) : string := if one_of cidr ["10.80.0.0/24"; "10.80.16.0/24"] then "us-west-2a" else "us-west-2b".

Definition demo_answer : forall A, request A -> account -> answer A * account := fun A rq =>
  match rq in request A return account -> answer A * account with
  | CallerIdentity => read (inl "123456789012")
  | DescribeZones => read (inl [("us-west-2b", "available"); ("us-west-2a", "available"); ("us-west-2c", "impaired")])
  | DescribeVpcsOwned owner => look "vpc" [mkVpc "vpc-1" "10.80.0.0/16" "available" demo_own] (inl [])
  | DescribeVpc id => read (inl [mkVpc id "10.80.0.0/16" "available" demo_own])
  | CreateVpc _ _ => make "vpc" "vpc-1"
  | ModifyVpc _ _ => read (inl tt)
  | DescribeSubnet _ cidr => look cidr [mkSubnetInfo (demo_subnet cidr) (demo_zone_of cidr) demo_own] (inl [])
  | CreateSubnet _ cidr _ _ => make cidr (demo_subnet cidr)
  | ModifySubnet _ _ => read (inl tt)
  | DescribeGateways _ => look "gateway" [mkGateway "igw-1" ["vpc-1"]] (inl [])
  | CreateGateway _ => make "gateway" (mkGateway "igw-1" [])
  | AttachGateway _ _ => read (inl tt)
  | DescribeRouteTables _ n _ => look n [mkRouteTable n (if HasPrefix n "crane-demo-public" then [("0.0.0.0/0", "igw-1")] else []) []] (inl [])
  | CreateRouteTable _ tags => make (name_tag tags) (name_tag tags)
  | CreateRoute _ _ _ => read (inl tt)
  | AssociateRouteTable _ _ => read (inl tt)
  | DescribeGroups _ n => look n [mkSecurityGroup (String.append "sg-" n) demo_own []] (inl [])
  | CreateGroup _ n _ => make n (String.append "sg-" n)
  | AuthorizeIngress _ _ _ _ => read (inl tt)
  | DescribeDBSubnetGroup n => look n [mkDBSubnetGroup "vpc-1" [demo_subnet "10.80.17.0/24"; demo_subnet "10.80.16.0/24"]] (inr (Some "DBSubnetGroupNotFoundFault"))
  | CreateDBSubnetGroup n _ _ => make n tt
  | DescribeDBInstance id => look "db" [demo_db_instance] (inr (Some "DBInstanceNotFound"))
  | CreateDBInstance _ => make "db" tt
  | ListTags _ => read (inl demo_own)
  | DescribeSecret n => look n (mkSecretInfo "arn:secret" demo_own false) (inr (Some "ResourceNotFoundException"))
  | CreateSecret n _ _ => make n "arn:secret"
  | GetSecretValue _ => read (inl (match fresh_values with
                                   | Ok values => Some (JObj (map (fun kv => (fst kv, JStr (snd kv))) values))
                                   | Err _ => None
                                   end))
  | GetRole n => look (String.append "role-" n) demo_own (inr (Some "NoSuchEntity"))
  | CreateRole n _ => make (String.append "role-" n) tt
  | UpdateAssumeRolePolicy _ => read (inl tt)
  | PutRolePolicy _ _ => read (inl tt)
  | AttachRolePolicy _ _ => read (inl tt)
  | GetInstanceProfile n => look (String.append "profile-" n) (mkProfileInfo demo_own [n]) (inr (Some "NoSuchEntity"))
  | CreateInstanceProfile n _ => make (String.append "profile-" n) tt
  | AddRoleToProfile _ _ => read (inl tt)
  | DescribeLoadBalancers n =>
      look "lb" [mkLoadBalancer "arn:lb" "spire.internal" "internal" "network" "vpc-1" ["sg-crane-demo-spire-nlb"] [demo_subnet "10.80.16.0/24"; demo_subnet "10.80.17.0/24"]]
        (inr (Some "LoadBalancerNotFound"))
  | CreateLoadBalancer _ subnets groups _ => make "lb" [mkLoadBalancer "arn:lb" "spire.internal" "internal" "network" "vpc-1" groups subnets]
  | ModifyLoadBalancer _ => read (inl tt)
  | DescribeTargetGroups n => look "tg" [mkTargetGroup "arn:tg" "vpc-1" "TCP" "instance" "TCP" "8081" 8081] (inr (Some "TargetGroupNotFound"))
  | CreateTargetGroup _ vpc _ => make "tg" [mkTargetGroup "arn:tg" vpc "TCP" "instance" "TCP" "8081" 8081]
  | ModifyTargetGroup _ => read (inl tt)
  | DescribeEndpointTags _ => read (inl [demo_own])
  | DescribeListeners _ => look "listener" [mkListener "TCP" 8081 [("forward", "arn:tg")]] (inl [])
  | CreateListener _ _ => make "listener" tt
  | DescribeTargetHealth _ => fun a => (inl (ac_targets a), a)
  | RegisterTarget _ instance => fun a => (inl tt, mkAccount (ac_made a) [(instance, 8081)] (ac_image a))
  | DescribeImage _ => fun a => (inl [mkImageInfo "available" "x86_64" (ac_image a)], a)
  | DescribeHosts _ role _ =>
      look (String.append "host-" role)
        [[if role == "spire" then mkHostInfo "i-0123456789abcdef0" "10.80.0.4" "ami-1" "t3.small" "running"
          else mkHostInfo "i-0123456789abcdef1" "10.80.0.5" "ami-2" "t3.medium" "running"]] (inl [])
  | DescribeHost _ => read (inl [["10.80.0.9"]])
  | RunHost i =>
      let role := role_tag (li_Tags i) in
      make (String.append "host-" role) [if role == "spire" then ("i-0123456789abcdef0", "10.80.0.4") else ("i-0123456789abcdef1", "")]
  | DescribePing _ => read (inl ["Online"])
  | SendCommand _ n _ => read (inl (String.append "cmd-" n))
  | GetInvocation c _ => read (inl (mkInvocation "Success" "crane-observability-status:ready" ""))
  | ReportDetail _ _ => read (inl tt)
  | ReportOutput _ _ _ => read (inl tt)
  end.
#[local] Instance demo_cloud : Cloud account := {| aws_Call := demo_answer |}.

(** ** A configuration *)
Definition demo_settings : Json :=
  JObj [("region", JStr "us-west-2"); ("spire_host", JObj [("ami_id", JStr "ami-1")]); ("platform_host", JObj [("ami_id", JStr "ami-2")])].
Definition demo_deployment : Config :=
  mkConfig "test" "general" 3 demo_name "aws" (Some demo_settings) (mkSPIRE "" "" "")
    (mkPlatform "registry.example/api:1.2.3" "registry.example/dominator:1.2.3" "" "" "") None.
Definition demo_image_tags : list Tag :=
  [mkTag "CraneImage" "v2"; mkTag "SpireServerAddress" "spire.internal"; mkTag "SpireTrustDomain" "crane.internal";
   mkTag "SpireBundleParameter" "/crane/crane-demo/spire-bundle"; mkTag "SpireVersion" "1.9.3"; mkTag "KubernetesVersion" "v1.35.0"; mkTag "AWSRegion" "us-west-2"].
Definition empty_account : account := mkAccount [] [] demo_image_tags.
Definition no_session : bootstrapSession :=
  mkSession (mkBootstrapConfig "" "" "" (mkAWS "" "") (mkNetwork "" None None None "" None "" "" "" "" "") (mkAwsSPIRE "" "" "" "" "" 0 "" "")
    (mkRDS "" "" "" "" 0 false "" 0 false "" false None) (mkAwsPlatform "" "" "" "" 0 "" "" "") None) no_infra no_host no_host "".
Definition first_start : Running_ (W := aws_world) :=
  mkRunning (mkDir Missing Missing Missing) (mkWorld no_session (mkAwsState empty_account 10 [])) zero_result 0 0 [].
Definition first_run : option (result unit) * Running_ := bootstrap_Run (fun _ => Works) demo_deployment "/state" false first_start.

(** A second run, with what the first one left: it succeeds and creates nothing. *)
Definition second_run : option (result unit) * Running_ :=
  let w := w_aws (rn_world (snd first_run)) in
  bootstrap_Run (fun _ => Works) demo_deployment "/state" false
    (mkRunning (rn_dir (snd first_run)) (mkWorld no_session (mkAwsState (as_cloud w) 10 [])) zero_result 0 0 []).
Definition run_log (r : option (result unit) * Running_ (W := aws_world (C := account))) : list event := as_log (w_aws (rn_world (snd r))).
Definition creates (e : event) : bool :=
  match e with
  | mkEvent rq _ =>
      match rq with
      | CreateVpc _ _ | CreateSubnet _ _ _ _ | CreateGateway _ | CreateRouteTable _ _ | CreateGroup _ _ _ | CreateDBSubnetGroup _ _ _ | CreateDBInstance _
      | CreateSecret _ _ _ | CreateRole _ _ | CreateInstanceProfile _ _ | CreateLoadBalancer _ _ _ _ | CreateTargetGroup _ _ _ | CreateListener _ _ | RunHost _ => true
      | _ => false
      end
  end.

Example first_run_builds : fst first_run = Some (Ok tt) /\ List.length (List.filter creates (run_log first_run)) = 26%nat /\
  rt_APIServerEndpoint (rn_result (snd first_run)) = "https://10.80.0.9:6443".
Proof. vm_compute. auto. Qed.
Example second_run_creates_nothing : fst second_run = Some (Ok tt) /\ existsb creates (run_log second_run) = false.
Proof. vm_compute. auto. Qed.

(** The session of the demonstration, before its first call. *)
Definition demo_config : bootstrapConfig := match NewBootstrap demo_deployment with Ok c => c | Err _ => bs_cfg no_session end.
Definition demo_session : bootstrapSession := mkSession demo_config no_infra no_host no_host "".
Definition demo_resolve (previous : RawMessage) : result (RawMessage * bootstrapSession) * aws_state account :=
  session_resolve previous false demo_session (mkAwsState empty_account 10 []).
Definition resolved (r : result (RawMessage * bootstrapSession) * aws_state account) : RawMessage * bootstrapSession :=
  match fst r with Ok x => x | Err _ => (None, demo_session) end.

(** The account after the first run, with the host of a further cluster, and the operation that
    is to make that cluster. *)
Definition pinned_demo : bootstrapConfig := bs_cfg (w_session (rn_world (snd first_run))).
Definition cluster_account : aws_state account :=
  let a := as_cloud (w_aws (rn_world (snd first_run))) in mkAwsState (mkAccount ("host-cluster-c2" :: ac_made a) (ac_targets a) (ac_image a)) 10 [].
Definition cluster_intent : Json :=
  JObj [("first_zone", JObj [("zone", JObj [("id", JStr "z2"); ("provider", JStr "aws"); ("account_id", JStr "123456789012"); ("region", JStr "us-west-2");
                                            ("provider_zone_id", JStr "us-west-2b")]); ("cluster", JObj [("id", JStr "c2")])])].
Definition cluster_operation : Operation :=
  mkOperation "op-1" Kcreate_cluster "z2" "" "" "" empty_target 0 Oleased "" (PJson cluster_intent) "" 0 1 "" 0 0.
Definition dominator_answer : result BootstrapStepResult * aws_state account :=
  op_EnsureDominator pinned_demo cluster_operation cluster_account.

Example operation_finds_its_host : is_ok (fst (op_InitializeControlPlane pinned_demo cluster_operation cluster_account)) = false /\
  fst (op_EnsureNetwork pinned_demo cluster_operation cluster_account) = Ok tt.
Proof. vm_compute. auto. Qed.
