(* ===== verification/Commands.v ===== *)
(** * The commands: cmd/crane-bootstrap, cmd/crane-api and cmd/crane-autoscaler-adapter

    What each command decides before it serves or provisions.  [crane-bootstrap] reads flags and
    files and does one of four things ([action]); the flag that plans without acting is proved to
    accept exactly the invocations that would act.  [crane-api] builds the checks of the bad-host
    detector, the adapter decides how its listener is protected.  A file holds its first JSON value
    and whether anything follows it. *)
From S2P Require Import Prelude GoStrings Sql Api Schema Scheduling Catalog Decode Bootstrap Regex Redact HostCatalog Activity LocalHost Deployment Runner AwsConfig AwsCloud AwsSession AwsDemo.
From Stdlib Require Import Ascii String.

Local Open Scope string_scope.
Local Open Scope list_scope.
Local Open Scope Z_scope.
Local Open Scope crane_scope.

(** ** Decoding a configuration *)
Definition dec_config (j : option Json) : option Config :=
  l ← dec_object j;
  ds ← dec_string (field "development_stage" l); gs ← dec_string (field "group_suffix" l); ve ← dec_int64 (field "version" l);
  na ← dec_string (field "name" l); pr ← dec_string (field "provider" l);
  s ← dec_object (field "spire" l); sv ← dec_string (field "version" s); st ← dec_string (field "trust_domain" s); si ← dec_string (field "image" s);
  p ← dec_object (field "platform" l); pa ← dec_string (field "crane_api_image" p); pd ← dec_string (field "dominator_image" p);
  pk ← dec_string (field "kubernetes_version" p); pc ← dec_string (field "cilium_version" p); pp ← dec_string (field "pod_cidr" p);
  Some (mkConfig ds gs ve na pr (field "provider_config" l) (mkSPIRE sv st si) (mkPlatform pa pd pk pc pp) (field "first_zone" l)).

Definition known_config (j : option Json) : bool :=
  known ["development_stage"; "group_suffix"; "version"; "name"; "provider"; "provider_config"; "spire"; "platform"; "first_zone"] j &&
  known ["version"; "trust_domain"; "image"] (sub j "spire") &&
  known ["crane_api_image"; "dominator_image"; "kubernetes_version"; "cilium_version"; "pod_cidr"] (sub j "platform").

Record Content : Type := mkContent { ct_value : Json; ct_more : bool }.
Class Files : Type := { read_file : string -> file Content }.

Definition contents `{Files} (path : string) : result (option Content) :=
  match read_file path with
  | Missing | Unreadable => Err (ErrMsg "open")
  | Garbage => Ok None
  | Stored c => Ok (Some c)
  end.

(** The versioned configuration: its version is looked at before its fields. *)
Definition load_config `{Files} (path : string) : result Config :=
  let malformed := ErrMsg "decode bootstrap configuration" in
  let* o := contents path in
  let* c := of_option malformed o in
  guard negb (ct_more c) else malformed in
  let* version := of_option malformed (l ← dec_object (Some (ct_value c)); dec_int64 (field "version" l)) in
  guard version == 3 else ErrMsg "unsupported bootstrap config version; use version 3" in
  guard known_config (Some (ct_value c)) else malformed in
  let* cfg := of_option malformed (dec_config (Some (ct_value c))) in
  Ok (WithDefaults cfg).

(** The first zone of [-config], and its text. *)
Definition load_first_zone `{Files} (path : string) : result (FirstZoneInput * Json) :=
  let malformed := ErrMsg "decode first zone configuration" in
  let* o := contents path in
  let* c := of_option malformed o in
  guard known_first_zone (Some (ct_value c)) else malformed in
  let* i := of_option malformed (dec_first_zone (Some (ct_value c))) in
  guard negb (ct_more c) else ErrMsg "first zone configuration must contain one JSON object" in
  Ok (i, ct_value c).

(** ** [run] of crane-bootstrap *)
Record Flags : Type := mkFlags {
  fl_dsn : string; fl_raw : string; fl_configPath : string; fl_stateDir : string; fl_prepareImages : bool; fl_dryRun : bool; fl_jsonOutput : bool;
  fl_pending : bool; fl_worker : bool; fl_workerInterval : Z; fl_timeout : Z }.
Definition set_fl_dryRun (v : bool) (f : Flags) : Flags :=
  mkFlags (fl_dsn f) (fl_raw f) (fl_configPath f) (fl_stateDir f) (fl_prepareImages f) v (fl_jsonOutput f) (fl_pending f) (fl_worker f) (fl_workerInterval f) (fl_timeout f).

Definition zero_config : Config := mkConfig "" "" 0 "" "" None (mkSPIRE "" "" "") (mkPlatform "" "" "" "" "") None.
Definition zero_first_zone : FirstZoneInput :=
  mkFirstZoneInput (mkZoneInput "" "" "" "" "" "" "") (mkClusterInput "" "" "" "" "" "" "") (mkClusterZoneInput "" "" "" "")
    (mkNodePoolInput "" (mkResources 0 0 0))
    (mkNodeGroupInput (mkNaming "" "" "" "" "") "" "" "" "" "" "" 0 0 "" (mkResources 0 0 0) None (mkScheduling "" "" "" "" ∅ [])).
Definition set_cf_FirstZone (v : RawMessage) (c : Config) : Config :=
  mkConfig (cf_DevelopmentStage c) (cf_GroupSuffix c) (cf_Version c) (cf_Name c) (cf_Provider c) (cf_ProviderConfig c) (cf_SPIRE c) (cf_Platform c) v.

(** [registry.Bootstrap] and [registry.Operation], applied to the configuration. *)
Definition registry_Bootstrap (c : Config) : result bootstrapConfig :=
  if cf_Provider c == "aws" then NewBootstrap c else Err (ErrMsg "unsupported bootstrap provider").
Definition registry_Operation (c : Config) : result bootstrapConfig :=
  if cf_Provider c == "aws" then NewOperationSession c else Err (ErrMsg "unsupported operation provider").

(** What an invocation does once its arguments are accepted.  A worker opens the database, checks
    its schema and runs the controller of [Bootstrap] with this session. *)
Inductive action : Type :=
| Work (session : Config) (interval : Z)
| Plan (names : list string)
| ProvisionPlatform (c : Config) (stateDir : string) (prepare : bool)
| Initialize (i : FirstZoneInput) (pending : bool).

Section Bootstrap.
Context {files : Files} (join_path : string -> string -> string).

(** [join_path config name]: the directory beside the configuration. *)
Definition state_dir (f : Flags) (c : Config) : string := if fl_stateDir f == "" then join_path (fl_configPath f) (cf_Name c) else fl_stateDir f.

Definition database_phases : list string := ["initialize Crane schema"; "seed first zone"].

(** The part for a platform without a database, and the part for a database alone. *)
Definition run_platform (f : Flags) (c : Config) : result action :=
  guard negb (fl_pending f) else ErrMsg "-pending is only used with an explicit database DSN" in
  let* _ := registry_Bootstrap c in
  if fl_dryRun f then Ok (Plan (Phases (fl_prepareImages f))) else Ok (ProvisionPlatform c (state_dir f c) (fl_prepareImages f)).

Definition run_database (f : Flags) (c : Config) (given : FirstZoneInput) : result action :=
  guard negb (fl_prepareImages f) else ErrMsg "-prepare-images requires platform provisioning without a database DSN" in
  let* i := (if fl_raw f != "" then Ok given
             else match cf_FirstZone c with
                  | None => Err (ErrMsg "database-only initialization requires -config or first_zone in the bootstrap config")
                  | Some j => of_option (ErrMsg "json") (dec_first_zone (Some j))
                  end) in
  if fl_dryRun f then Ok (Plan database_phases) else Ok (Initialize i (fl_pending f)).

Definition run_worker (f : Flags) (c : Config) : result action :=
  guard negb ((fl_dsn f == "") || (fl_configPath f == "")) else ErrMsg "-worker requires -dsn and -bootstrap-config" in
  guard 0 <? fl_workerInterval f else ErrMsg "worker-interval must be positive" in
  let* _ := Validate c in
  let* _ := registry_Operation c in
  Ok (Work c (fl_workerInterval f)).

Definition crane_bootstrap (f : Flags) : result action :=
  guard negb ((fl_timeout f <=? 0) && negb (fl_worker f)) else ErrMsg "operation-timeout must be positive" in
  let* cfg := (if fl_configPath f != "" then load_config (fl_configPath f) else Ok zero_config) in
  if fl_worker f then run_worker f cfg
  else
    let* given := (if fl_raw f != "" then let* x := load_first_zone (fl_raw f) in Ok (fst x, set_cf_FirstZone (Some (snd x)) cfg) else Ok (zero_first_zone, cfg)) in
    let cfg := snd given in
    guard negb ((fl_dsn f == "") && (fl_configPath f == ""))
      else ErrMsg "provide -bootstrap-config for platform provisioning, or -dsn and -config for database-only initialization" in
    let* _ := (if fl_configPath f != "" then Validate cfg else Ok tt) in
    if fl_dsn f == "" then run_platform f cfg else run_database f cfg (fst given).

(** ** Facts *)

(** What is planned for an action. *)
Definition planned (a : action) : list string :=
  match a with Plan names => names | ProvisionPlatform _ _ prepare => Phases prepare | Initialize _ _ => database_phases | Work _ _ => [] end.

(** The choice at the end of both parts depends on the flag, nothing before it does. *)
Lemma dry_run_part f : fl_worker f = false -> exists r : result action,
  (forall a, r = Ok a -> exists c d p, a = ProvisionPlatform c d p \/ exists i b, a = Initialize i b) /\
  crane_bootstrap (set_fl_dryRun false f) = r /\ crane_bootstrap (set_fl_dryRun true f) = (let* a := r in Ok (Plan (planned a))).
Proof.
  intros W. exists (crane_bootstrap (set_fl_dryRun false f)). unfold crane_bootstrap. cbn [set_fl_dryRun fl_timeout fl_worker fl_configPath fl_raw fl_dsn].
  rewrite W. destruct (negb _); [|done].
  destruct (if _ != "" then load_config _ else _) as [cfg|]; [|done]. cbn [rbind].
  destruct (if fl_raw f != "" then _ else _) as [given|]; [|done]. cbn [rbind].
  destruct (negb (_ && _)); [|done]. destruct (if _ != "" then Validate _ else _) as [u|]; [|done]. cbn [rbind].
  case_bool_decide.
  - unfold run_platform, state_dir. cbn [set_fl_dryRun fl_pending fl_dryRun fl_prepareImages fl_stateDir fl_configPath].
    destruct (negb (fl_pending f)); [|done]. destruct (registry_Bootstrap _); [|done]. cbn [rbind]. split; [|done]. intros x [= <-]. eauto.
  - unfold run_database. cbn [set_fl_dryRun fl_pending fl_dryRun fl_prepareImages fl_raw].
    destruct (negb (fl_prepareImages f)); [|done]. destruct (if _ != "" then Ok _ else _) as [i|]; [|done]. cbn [rbind].
    split; [|done]. intros x [= <-]. exists zero_config, "", false. eauto.
Qed.

(** A dry run is an honest rehearsal: it accepts exactly the invocations that would act, refuses
    the others with the same error, and lists the phases of what would be done; without it an
    accepted invocation acts. *)
Theorem dry_run_faithful f : fl_worker f = false ->
  crane_bootstrap (set_fl_dryRun true f) = (let* a := crane_bootstrap (set_fl_dryRun false f) in Ok (Plan (planned a))) /\
  (forall names, crane_bootstrap (set_fl_dryRun false f) <> Ok (Plan names)).
Proof.
  intros W. destruct (dry_run_part f W) as (r & Ha & -> & ->). split; [done|].
  intros names E. destruct (Ha _ E) as (c & d & p & [H|(i & b & H)]); congruence.
Qed.

(** The worker looks at its own flags only: with [-worker] a dry run provisions. *)
Lemma worker_ignores_dry_run f : fl_worker f = true -> crane_bootstrap (set_fl_dryRun true f) = crane_bootstrap (set_fl_dryRun false f).
Proof. intros W. unfold crane_bootstrap, run_worker. cbn [set_fl_dryRun fl_timeout fl_worker fl_configPath fl_raw fl_dsn fl_workerInterval]. by rewrite W. Qed.

Lemma state_dir_named f c : (forall config name, join_path config name <> "") -> state_dir f c <> "".
Proof. intros J. unfold state_dir. by case_bool_decide. Qed.

(** A platform is provisioned from a configuration that was validated, by a provider that accepts
    it, in a named directory, and never with a database at hand. *)
Theorem provisioning_checked f c d prepare : (forall config name, join_path config name <> "") ->
  crane_bootstrap f = Ok (ProvisionPlatform c d prepare) ->
  Validate c = Ok tt /\ is_ok (NewBootstrap c) = true /\ d <> "" /\ fl_dsn f = "" /\ fl_dryRun f = false /\ prepare = fl_prepareImages f.
Proof.
  intros J E. unfold crane_bootstrap, run_worker, run_platform, run_database, registry_Bootstrap in E. inv_ok. repeat (case_match; inv_ok; simplify_eq; try done).
  all: repeat match goal with x : unit |- _ => destruct x end; split; [done|]; split; [by match goal with H : NewBootstrap _ = _ |- _ => rewrite H end|].
  all: split; [by apply state_dir_named|]; by bsplit.
Qed.
End Bootstrap.

(** ** crane-api: the checks of the detector *)
Record BadHostConfig : Type := mkBadHostConfig { bh_Zone : string; bh_ScanInterval : Z; bh_Checks : list string }.

(** [LoadConfigFromFile]; the minutes become a duration in 64-bit arithmetic. *)
Definition LoadConfigFromFile `{Files} (path : string) : result BadHostConfig :=
  let* o := contents path in
  let* c := of_option (ErrMsg "json") o in
  guard negb (ct_more c) else ErrMsg "json" in
  of_option (ErrMsg "json")
    (l ← dec_object (Some (ct_value c)); zone ← dec_string (field "zone" l); minutes ← dec_int64 (field "scan_interval" l);
     a ← dec_array (field "checks" l); checks ← mapM (fun j => dec_string (Some j)) a;
     Some (mkBadHostConfig zone (mul64 minutes 60000000000) checks)).

Definition CheckCatalog `{EC2} (name : string) : option Check :=
  if name == "aws.ec2.unhealthy" then Some ec2_Detect else if name == "host.store.check" then Some host_store_Detect else None.

Fixpoint BuildChecks `{EC2} (enabled : list string) : result (list Check) :=
  match enabled with
  | [] => Ok []
  | name :: enabled =>
      let* c := of_option (ErrMsg "check does not exist") (CheckCatalog name) in
      let* l := BuildChecks enabled in
      Ok (c :: l)
  end.

(** ** crane-autoscaler-adapter: [transportOptions] *)

(** [net.ParseIP(host).IsLoopback()], [tls.LoadX509KeyPair], [os.ReadFile] and [AppendCertsFromPEM]. *)
Class TlsFiles : Type := { is_loopback : string -> bool; key_pair : string -> string -> bool; pem_file : string -> option string; pem_certs : string -> bool }.

Inductive transport : Type := Plain | MutualTLS (cert key roots : string).

Definition transportOptions `{ListenNet} `{TlsFiles} (addr cert key ca : string) : result transport :=
  if (cert == "") && (key == "") && (ca == "") then
    guard match split_host_port addr with Some (host, _) => is_loopback host | None => false end
      else ErrMsg "non-loopback gRPC listeners require a certificate, key, and client CA" in
    Ok Plain
  else
    guard negb ((cert == "") || (key == "") || (ca == "")) else ErrMsg "all three mTLS files are required" in
    guard key_pair cert key else ErrMsg "load adapter TLS identity" in
    let* data := of_option (ErrMsg "read adapter client CA") (pem_file ca) in
    guard pem_certs data else ErrMsg "invalid client CA" in
    Ok (MutualTLS cert key data).

(** A listener without client authentication is bound to the loopback interface, and naming any of
    the three files rules it out. *)
Lemma plain_only_on_loopback `{ListenNet} `{TlsFiles} addr cert key ca : transportOptions addr cert key ca = Ok Plain ->
  cert = "" /\ key = "" /\ ca = "" /\ exists host port, split_host_port addr = Some (host, port) /\ is_loopback host = true.
Proof.
  unfold transportOptions. destruct (_ && (ca == "")) eqn:E; intros Ht; inv_ok; [|done]. bsplit. destruct (split_host_port addr) as [[host port]|]; [|done]. eauto 7.
Qed.

(** ** An invocation *)
Definition demo_document : Json :=
  JObj [("version", JNum 3); ("name", JStr "crane-demo"); ("provider", JStr "aws"); ("development_stage", JStr "test"); ("group_suffix", JStr "general");
        ("provider_config", demo_settings);
        ("platform", JObj [("crane_api_image", JStr "registry.example/api:1.2.3"); ("dominator_image", JStr "registry.example/dominator:1.2.3")])].
#[local] Instance demo_files : Files := {| read_file := fun path => if path == "/etc/crane.json" then Stored (mkContent demo_document false) else Missing |}.
Definition demo_flags : Flags := mkFlags "" "" "/etc/crane.json" "" false false false false false 5 90.
Definition demo_dir (config name : string) : string := String.append "/etc/.crane-bootstrap/" name.

Lemma dry_run_faithful_witness : crane_bootstrap demo_dir (set_fl_dryRun true demo_flags) = Ok (Plan (Phases false)) /\
  is_ok (crane_bootstrap demo_dir demo_flags) = true.
Proof.
  split; [|vm_compute; reflexivity].
  rewrite (proj1 (dry_run_faithful demo_dir demo_flags eq_refl)). vm_compute. reflexivity.
Defined.

Lemma provisioning_checked_witness : exists c, crane_bootstrap demo_dir demo_flags = Ok (ProvisionPlatform c "/etc/.crane-bootstrap/crane-demo" false) /\
  Validate c = Ok tt.
Proof.
  eexists. split; [vm_compute; reflexivity|].
  refine (proj1 (provisioning_checked demo_dir demo_flags _ "/etc/.crane-bootstrap/crane-demo" false _ _)); [done|vm_compute; reflexivity].
Defined.
