(* ===== verification/Startup.v ===== *)
(** * Processes: the polling loops, and the life of crane-api, the Dominator and the adapter

    The loops poll until their context is done; a round gets the environment of its time.
    The [run] functions of the commands open resources one after the other, each with a
    deferred clean-up, and return at the first that fails: a process is represented by the
    steps it takes and leaves the trace of what it did, in order. *)
From Stdlib Require Import Ascii String.
From S2P Require Import Prelude GoStrings Sql Api Decode Schema Admission Invariant Fixture AdmissionFacts Lease Handoff LeaseFacts Removal RemovalFacts Scheduling Catalog CatalogFacts Bootstrap BootstrapFacts Provision Http HttpFacts ProblemCache HostCatalog Actions Activity Autoscaler Regex Subd HostRpc HostOps LocalHost Probe Deployment Router Settings ApiServer DominatorServer Telemetry AwsCloud Commands.

Local Open Scope string_scope.
Local Open Scope list_scope.
Local Open Scope Z_scope.
Local Open Scope crane_scope.

(** ** Loops *)

(** [time.NewTicker] panics when the interval is not positive. *)
Definition NewTicker (interval : Z) : option unit := if interval <=? 0 then None else Some tt.

Fixpoint rounds {E S} (round : E -> S -> option S) (ticks : list E) (s : S) : option S :=
  match ticks with [] => Some s | e :: ticks => s ← round e s; rounds round ticks s end.

(** [for { select { case <-ctx.Done(): return; case <-ticker.C: round } }], over the rounds
    before the context is done; [None]: a panic, which ends the process. *)
Definition ticking {E S} (interval : Z) (round : E -> S -> option S) (ticks : list E) (s : S) : option S :=
  _ ← NewTicker interval; rounds round ticks s.

(** [BadHostDetector.Run]. *)
Definition detector_Run `{Http.GoJson} (cfg : BadHostConfig) (checks : list Check) (ticks : list Z) (w : World) : option World :=
  ticking (bh_ScanInterval cfg) (fun now w => Some (ScanZone checks now (bh_Zone cfg) w)) ticks w.

(** [ActivityManager.Run]: the manager with its cache. *)
Definition manager_Run {C} `{SeenProblemCache C} (interval window : Z) (ticks : list (Z * (list string -> list string))) (s : C * World) : option (C * World) :=
  ticking interval (fun e s => RunHelp (snd e) (fst e) window (fst s) (snd s)) ticks s.

(** [Worker.Run]: every minute. *)
Definition worker_Run (execute : Action -> Run unit) (ticks : list (Z * Z * Z)) (w : World) : option World :=
  ticking 60000000000 (fun e w => Some (worker_step execute (fst (fst e)) (snd (fst e)) (snd e) w)) ticks w.

(** [startPeriodicCleanup]. *)
Definition cleanup_Run (ticks : list Z) (c : LRCache) : option LRCache := ticking (TTL c) PeriodicRun ticks c.

Section Controllers.
Context {gourl : GoURL} {gonet : GoNet} {digest : Digest}.

(** One round of a controller: its clock and identifiers, the renewals that tick, its executor. *)
Record ProvisionRound : Type := mkProvisionRound { vr_env : Env; vr_ticks : list Z; vr_executor : ProvisionExecutor }.
Record BootstrapRound : Type := mkBootstrapRound { br_env : Env; br_ticks : list Z; br_executor : BootstrapExecutor }.

(** [ProvisionController.Run]: works first, then waits; errors are logged and forgotten. *)
Definition provision_Run (interval : Z) (zone identity : string) (lease : Z) (first : ProvisionRound) (ticks : list ProvisionRound) (d : DB) : result unit * DB :=
  if interval <=? 0 then (Err (ErrMsg "provisioning poll interval must be positive"), d)
  else (Err (ErrMsg "context canceled"),
        fold_left (fun d e => snd (provision_RunOnce (vr_executor e) (vr_env e) (vr_ticks e) zone identity lease d)) (first :: ticks) d).

Definition bootstrap_round (owner : string) (lease : Z) (e : BootstrapRound) (d : DB) : DB :=
  match NextBootstrapZone (now (br_env e) 0) d with
  | Ok zone => snd (bootstrap_RunOnce (br_env e) (br_ticks e) (br_executor e) lease zone owner d)
  | Err _ => d
  end.

(** [BootstrapController.Run]. *)
Definition bootstrap_controller_Run (configured : bool) (interval : Z) (owner : string) (lease : Z) (first : BootstrapRound) (ticks : list BootstrapRound) (d : DB) : result unit * DB :=
  if negb configured || (owner == "") || (interval <=? 0) then (Err (ErrMsg "bootstrap worker is not configured"), d)
  else (Err (ErrMsg "context canceled"), fold_left (fun d e => bootstrap_round owner lease e d) (first :: ticks) d).

(** The controllers never break the ledger, however long they run and whatever their
    executors, clocks and renewals do. *)
Theorem loops_keep_ledger interval zone identity owner lease l first ticks bfirst bticks d :
  Forall (fun e => ExecutorLaws (vr_executor e)) (first :: ticks) -> Ledger d -> targets_ok d ->
  (let d' := snd (provision_Run interval zone identity lease first ticks d) in Ledger d' /\ targets_ok d') /\
  (let d' := snd (bootstrap_controller_Run true interval owner l bfirst bticks d) in Ledger d' /\ targets_ok d').
Proof.
  intros HX HL HT. split.
  - unfold provision_Run. destruct (interval <=? 0); [done|]. cbn [snd]. revert d HL HT. induction HX as [|e es He _ IH]; intros d HL HT; [done|].
    cbn [fold_left]. destruct (provision_RunOnce (vr_executor e) (vr_env e) (vr_ticks e) zone identity lease d) as [r d1] eqn:E.
    destruct (run_confined _ _ _ _ _ _ _ _ _ HL HT E) as (HL1 & HT1 & _). by apply IH.
  - unfold bootstrap_controller_Run. destruct (negb true || (owner == "") || (interval <=? 0)); [done|]. cbn [snd].
    generalize (bfirst :: bticks) as es. intros es. revert d HL HT. induction es as [|e es IH]; intros d HL HT; [done|]. cbn [fold_left].
    assert (Ledger (bootstrap_round owner l e d) /\ targets_ok (bootstrap_round owner l e d)) as [HL1 HT1].
    { unfold bootstrap_round. destruct (NextBootstrapZone _ d) as [z|]; [|done].
      destruct (bootstrap_RunOnce (br_env e) (br_ticks e) (br_executor e) l z owner d) as [res d1] eqn:E.
      destruct (RunOnce_outcome _ _ _ _ _ _ _ _ _ E) as [K _]. by apply K. }
    by apply IH.
Qed.
End Controllers.

(** A detector configured without a scan interval ends the whole API process. *)
Lemma zero_interval_panics `{Http.GoJson} cfg checks ticks w : bh_ScanInterval cfg = 0 -> detector_Run cfg checks ticks w = None.
Proof. unfold detector_Run, ticking, NewTicker. by intros ->. Qed.

Example unset_interval_is_zero :
  let files := {| read_file := fun _ => Stored (mkContent (JObj [("zone", JStr "us-west-2a"); ("checks", JArr [])]) false) |} in
  exists cfg, @LoadConfigFromFile files "bhd.json" = Ok cfg /\ bh_ScanInterval cfg = 0.
Proof. eexists. split; reflexivity. Qed.

(** ** Processes *)
Inductive effect : Type :=
| StopSignals | OpenTelemetry | FlushTelemetry | LogStopped (failed : bool) | OpenIdentity | CloseIdentity | OpenDB | CloseDB
| StartLoops | JoinLoops | OpenListener | CloseListener | Served.

#[global] Instance effect_eq_dec : EqDecision effect.
Proof. solve_decision. Defined.

(** A step of a [run] function: what it does in any case, whether it succeeds, what it does
    then, and what it defers to the end; a deferred function sees the result. *)
Record step : Type := mkStep { sp_before : list effect; sp_result : result unit; sp_does : list effect; sp_defers : result unit -> list effect }.
Definition opens (r : result unit) (does : list effect) (defers : list effect) : step := mkStep [] r does (fun _ => defers).
Definition checks_ (r : result unit) : step := opens r [] [].

(** The result and the trace; [defers] are the deferred functions, the last one first. *)
Fixpoint run_process (steps : list step) (defers : list (result unit -> list effect)) : result unit * list effect :=
  match steps with
  | [] => (Ok tt, List.concat (map (fun f => f (Ok tt)) defers))
  | s :: steps =>
      match sp_result s with
      | Err e => (Err e, sp_before s ++ List.concat (map (fun f => f (Err e)) defers))
      | Ok _ => let '(r, t) := run_process steps (sp_defers s :: defers) in (r, sp_before s ++ sp_does s ++ t)
      end
  end.

Definition unit_of {A} (r : result A) : result unit := match r with Ok _ => Ok tt | Err e => Err e end.
Definition works (b : bool) (msg : string) : result unit := require b (ErrMsg msg).

(** How what is outside the process fares. *)
Record Outside : Type := mkOutside {
  os_source : bool; os_svid : option string; os_db : bool; os_answers : nat -> bool; os_relations : Relations; os_aws : bool; os_policy : bool;
  os_kubernetes : bool; os_client : bool; os_trust_root : bool; os_listens : bool; os_serves : result unit }.

Definition stopped (r : result unit) : list effect := [LogStopped (negb (is_ok r)); FlushTelemetry].

(** *** cmd/crane-api *)
Definition api_steps `{Files} `{Activity.EC2} `{Http.GoJson} (lookup : string -> option string) (order : gmap string string -> list (string * string))
    (x : Outside) : list step :=
  [opens (Ok tt) [] [StopSignals];
   mkStep [] (Ok tt) [OpenTelemetry] stopped;
   opens (works (os_db x) "open database") [OpenDB] [CloseDB];
   checks_ (CheckSchema (os_answers x) (os_relations x));
   checks_ (works (os_aws x) "load SDK config");
   checks_ (let* cfg := LoadConfigFromFile "bhd.json" in unit_of (BuildChecks (bh_Checks cfg)));
   opens (Ok tt) [StartLoops] [StopSignals; JoinLoops];
   opens (works (os_source x) "Crane API workload identity unavailable") [OpenIdentity] [CloseIdentity];
   checks_ (unit_of (ParseAdapterPrincipals order (GetEnv lookup "CRANE_ADAPTER_PRINCIPALS" "")));
   mkStep [Served; StopSignals] (os_serves x) [] (fun _ => [])].

(** *** cmd/dominator *)
Definition dominator_steps `{Spiffe} (lookup : string -> option string) (x : Outside) : list step :=
  [opens (Ok tt) [] [StopSignals];
   mkStep [] (Ok tt) [OpenTelemetry] stopped;
   opens (works (os_source x) "create X509 source") [OpenIdentity] [CloseIdentity];
   checks_ (unit_of (of_option (ErrMsg "get X509 SVID") (os_svid x)));
   opens (works (os_db x) "open database") [OpenDB] [CloseDB];
   checks_ (CheckSchema (os_answers x) (os_relations x));
   checks_ (works (os_policy x) "create policy resolver");
   checks_ (works (os_aws x) "create AWS runtime provisioner");
   checks_ (works (os_kubernetes x) "create Dominator Kubernetes client configuration");
   checks_ (works (os_client x) "create Dominator Kubernetes client");
   checks_ (works (GetEnv lookup "CRANE_CLUSTER_ID" "" != "") "CRANE_CLUSTER_ID is required");
   checks_ (works (os_trust_root x) "cannot load Kubernetes cluster trust root");
   opens (Ok tt) [StartLoops] [StopSignals; JoinLoops];
   checks_ (unit_of (StartContext lookup (os_svid x) ":44000"));
   opens (works (os_listens x) "failed to listen") [OpenListener] [CloseListener];
   mkStep [Served] (os_serves x) [] (fun _ => [])].

(** *** cmd/crane-autoscaler-adapter *)

(** The flags, and the results of the constructors that [run] calls. *)
Definition NewKubernetesNodeVerifier (kubeconfig : string) (in_cluster exists_ builds client : bool) : grpc unit :=
  let unavailable := GErr FailedPrecondition "Kubernetes credentials unavailable" in
  if (if kubeconfig == "" then in_cluster else exists_ && builds)
  then if client then GOk tt else GErr FailedPrecondition "Kubernetes client unavailable"
  else unavailable.

Definition grpc_result {A} (r : grpc A) : result unit := match r with GOk _ => Ok tt | GErr _ msg => Err (ErrMsg msg) end.

Definition adapter_steps {A B} (client : grpc A) (server : grpc B) (verifier : grpc unit) (protection : result transport) (counter : bool) (x : Outside) : list step :=
  [checks_ (grpc_result client);
   checks_ (grpc_result server);
   checks_ (grpc_result verifier);
   checks_ (unit_of protection);
   opens (Ok tt) [] [StopSignals];
   opens (Ok tt) [OpenTelemetry] [FlushTelemetry];
   opens (works (os_listens x) "adapter listener unavailable") [OpenListener] [CloseListener];
   checks_ (works counter "initialize adapter request metric");
   mkStep [Served] (os_serves x) [] (fun _ => [])].

(** ** What a process leaves *)

(** A process that returns has executed a prefix of its steps and then every function
    deferred by them, the last one first; it went to its end if and only if every step
    succeeded. *)
Lemma run_process_spec steps : forall defers r t, run_process steps defers = (r, t) ->
  exists taken rest, steps = taken ++ rest /\ Forall (fun s => sp_result s = Ok tt) taken /\
    t = List.concat (map (fun s => sp_before s ++ sp_does s) taken) ++ match rest with s :: _ => sp_before s | [] => [] end ++
        List.concat (map (fun s => sp_defers s r) (rev taken)) ++ List.concat (map (fun f => f r) defers) /\
    match rest with [] => r = Ok tt | s :: _ => exists e, r = Err e /\ sp_result s = Err e end.
Proof.
  induction steps as [|s steps IH]; intros defers r t; cbn [run_process].
  { intros [= <- <-]. by exists [], []. }
  destruct (sp_result s) as [[]|e] eqn:E.
  - destruct (run_process steps (sp_defers s :: defers)) as [r1 t1] eqn:R. intros [= <- <-].
    destruct (IH _ _ _ R) as (taken & rest & -> & F & -> & Hr). exists (s :: taken), rest. split; [done|]. split; [by constructor|]. split; [|done].
    cbn [map List.concat rev]. rewrite map_app, concat_app. cbn [map List.concat]. by rewrite app_nil_r, <- !app_assoc.
  - intros [= <- <-]. exists [], (s :: steps). split; [done|]. split; [done|]. split; [done|]. by exists e.
Qed.

(** What must not be cut off: the effects in the order of a whole run. *)
Definition api_order (failed : bool) : list effect :=
  [OpenTelemetry; OpenDB; StartLoops; OpenIdentity; Served; StopSignals; CloseIdentity; StopSignals; JoinLoops; CloseDB; LogStopped failed; FlushTelemetry;
   StopSignals].
Definition dominator_order (failed : bool) : list effect :=
  [OpenTelemetry; OpenIdentity; OpenDB; StartLoops; OpenListener; Served; CloseListener; StopSignals; JoinLoops; CloseDB; CloseIdentity; LogStopped failed;
   FlushTelemetry; StopSignals].

(** Each effect that opens something is followed by the one that closes it. *)
Definition closed (t : list effect) : Prop :=
  (In OpenDB t <-> In CloseDB t) /\ (In StartLoops t <-> In JoinLoops t) /\ (In OpenIdentity t <-> In CloseIdentity t) /\
  (In OpenTelemetry t <-> In FlushTelemetry t) /\ (In OpenListener t <-> In CloseListener t).

Definition closed_b (t : list effect) : bool :=
  let i := fun e => one_of e t in
  Bool.eqb (i OpenDB) (i CloseDB) && Bool.eqb (i StartLoops) (i JoinLoops) && Bool.eqb (i OpenIdentity) (i CloseIdentity) &&
  Bool.eqb (i OpenTelemetry) (i FlushTelemetry) && Bool.eqb (i OpenListener) (i CloseListener).

Lemma closed_spec t : closed_b t = true -> closed t.
Proof. unfold closed_b, closed. rewrite !andb_true_iff, !Bool.eqb_true_iff, <- !one_of_spec. intros ((((E1 & E2) & E3) & E4) & E5).
  by rewrite E1, E2, E3, E4, E5. Qed.

(** A list is a sublist of another, decided. *)
Fixpoint sublist_b (a b : list effect) : bool :=
  match a, b with
  | [], _ => true
  | _, [] => false
  | x :: a', y :: b' => if x == y then sublist_b a' b' || sublist_b a b' else sublist_b a b'
  end.
Lemma sublist_b_spec b : forall a, sublist_b a b = true -> a `sublist_of` b.
Proof.
  induction b as [|y b IH]; intros [|x a]; cbn [sublist_b]; try done; [intros _; apply sublist_nil_l|].
  case_bool_decide as E; [subst; intros [H|H]%orb_prop|intros H]; [apply sublist_skip; auto|apply sublist_cons; auto..].
Qed.

(** A run that ends before it serves. *)
Ltac returned :=
  intros [= <- <-]; split; [apply sublist_b_spec; reflexivity|split; [apply closed_spec; reflexivity|cbn; intuition discriminate]].

(** The API listens only over a database that was initialized, with an identity and with
    unambiguous principals; however it ends, what it opened is closed and in this order: the
    loops are joined before the database is closed, and the telemetry is flushed after
    both, with the record of how the process ended before it. *)
Theorem api_process_order `{Files} `{Activity.EC2} `{Http.GoJson} lookup order x r t :
  run_process (api_steps lookup order x) [] = (r, t) ->
  t `sublist_of` api_order (negb (is_ok r)) /\ closed t /\
  (In Served t -> CheckSchema (os_answers x) (os_relations x) = Ok tt /\ os_source x = true /\
     exists m, ParseAdapterPrincipals order (GetEnv lookup "CRANE_ADAPTER_PRINCIPALS" "") = Ok m).
Proof.
  unfold api_steps, checks_, opens, works. cbn [run_process sp_result sp_before sp_does sp_defers].
  destruct (os_db x); cbn [require]; [|returned].
  destruct (CheckSchema (os_answers x) (os_relations x)) as [[]|e1]; [|returned].
  destruct (os_aws x); cbn [require]; [|returned].
  destruct (let* cfg := LoadConfigFromFile "bhd.json" in unit_of (BuildChecks (bh_Checks cfg))) as [[]|e2]; [|returned].
  destruct (os_source x); cbn [require]; [|returned].
  destruct (ParseAdapterPrincipals order _) as [m|e3]; cbn [unit_of]; [|returned].
  destruct (os_serves x) as [[]|e4]; intros [= <- <-];
    (split; [apply sublist_b_spec; reflexivity|split; [apply closed_spec; reflexivity|intros _; split; [done|split; [done|by exists m]]]]).
Qed.

(** A Dominator listens only over an initialized database and with the identity of its zone,
    and it, too, joins its controller before the database and the identity it uses are
    closed. *)
Theorem dominator_process_order `{Spiffe} lookup x r t :
  run_process (dominator_steps lookup x) [] = (r, t) ->
  t `sublist_of` dominator_order (negb (is_ok r)) /\ closed t /\
  (In Served t -> CheckSchema (os_answers x) (os_relations x) = Ok tt /\ exists ln, StartContext lookup (os_svid x) ":44000" = Ok ln).
Proof.
  unfold dominator_steps, checks_, opens, works. cbn [run_process sp_result sp_before sp_does sp_defers].
  destruct (os_source x); cbn [require]; [|returned]. destruct (os_svid x) as [svid|]; cbn [of_option unit_of]; [|returned].
  destruct (os_db x); cbn [require]; [|returned]. destruct (CheckSchema (os_answers x) (os_relations x)) as [[]|e1]; [|returned].
  destruct (os_policy x); cbn [require]; [|returned]. destruct (os_aws x); cbn [require]; [|returned].
  destruct (os_kubernetes x); cbn [require]; [|returned]. destruct (os_client x); cbn [require]; [|returned].
  destruct (GetEnv lookup "CRANE_CLUSTER_ID" "" != ""); cbn [require]; [|returned]. destruct (os_trust_root x); cbn [require]; [|returned].
  destruct (StartContext lookup (Some svid) ":44000") as [ln|e2]; cbn [unit_of]; [|returned].
  destruct (os_listens x); cbn [require]; [|returned].
  destruct (os_serves x) as [[]|e3]; intros [= <- <-];
    (split; [apply sublist_b_spec; reflexivity|split; [apply closed_spec; reflexivity|intros _; split; [done|by exists ln]]]).
Qed.

(** The adapter never listens without its credentials, a verifier of nodes and, off the
    loopback interface, mutual TLS; what it opened is closed. *)
Theorem adapter_process_order {A B} (client : grpc A) (server : grpc B) verifier protection counter x r t :
  run_process (adapter_steps client server verifier protection counter x) [] = (r, t) ->
  closed t /\ (In Served t -> (exists c, client = GOk c) /\ (exists s, server = GOk s) /\ verifier = GOk tt /\ exists p, protection = Ok p).
Proof.
  unfold adapter_steps, checks_, opens, works. cbn [run_process sp_result sp_before sp_does sp_defers].
  assert (forall t0 : list effect, closed_b t0 = true -> ~ In Served t0 -> closed t0 /\ (In Served t0 -> (exists c, client = GOk c) /\
            (exists s, server = GOk s) /\ verifier = GOk tt /\ exists p, protection = Ok p)) as Early.
  { intros t0 Hc Hn. split; [by apply closed_spec|done]. }
  destruct client as [c|]; cbn [grpc_result]; [|intros [= <- <-]; apply Early; [reflexivity|cbn; intuition discriminate]].
  destruct server as [s|]; cbn [grpc_result]; [|intros [= <- <-]; apply Early; [reflexivity|cbn; intuition discriminate]].
  destruct verifier as [[]|]; cbn [grpc_result]; [|intros [= <- <-]; apply Early; [reflexivity|cbn; intuition discriminate]].
  destruct protection as [p|]; cbn [unit_of]; [|intros [= <- <-]; apply Early; [reflexivity|cbn; intuition discriminate]].
  destruct (os_listens x); cbn [require]; [|intros [= <- <-]; apply Early; [reflexivity|cbn; intuition discriminate]].
  destruct counter; cbn [require]; [|intros [= <- <-]; apply Early; [reflexivity|cbn; intuition discriminate]].
  destruct (os_serves x) as [[]|]; intros [= <- <-]; (split; [apply closed_spec; reflexivity|eauto 10]).
Qed.
