(* ===== verification/AwsFacts.v ===== *)
(** * The layer-zero bootstrap touches only what is its own

    A program logic for computations on the account: [wp l m Q] says that from any log that
    contains the events of [l] and passes the audit, [m] keeps passing it, only adds to the
    log, and ends in [Q].  Facts about the log only need events to be in it, so they survive
    whatever is added.  Each resource function is specified once; the theorem is about whole
    runs of the bootstrap runner on the AWS session, against a service that answers as it
    likes. *)
From S2P Require Import Prelude GoStrings Sql Api Schema Lease Scheduling Catalog Decode Bootstrap Regex Subd Redact LocalHost Deployment Runner AwsConfig Calls AwsCloud AwsResources AwsRuntime AwsSession.
From Stdlib Require Import Ascii String.

Local Open Scope string_scope.
Local Open Scope list_scope.
Local Open Scope Z_scope.
Local Open Scope crane_scope.

(** ** The audit and larger logs *)
Section Audit.
Context (name : string).

Lemma exists_incl {A} (f : A -> bool) l l' : incl l l' -> existsb f l = true -> existsb f l' = true.
Proof. rewrite !existsb_exists. intros H (x & Hx & Hf). eauto. Qed.

Lemma mine_incl l l' k id : incl l l' -> mine name l k id = true -> mine name l' k id = true.
Proof. apply exists_incl. Qed.
Lemma missing_incl l l' k id : incl l l' -> missing l k id = true -> missing l' k id = true.
Proof. apply exists_incl. Qed.
Lemma all_mine_incl l l' k ids : incl l l' -> forallb (mine name l k) ids = true -> forallb (mine name l' k) ids = true.
Proof. intros H. rewrite !forallb_forall. intros K x Hx. eauto using mine_incl. Qed.

Lemma justified_incl port l l' e : incl l l' -> justified name port l e = true -> justified name port l' e = true.
Proof.
  intros H. destruct e as [A rq a]. destruct rq; cbn [justified]; try done; rewrite ?andb_true_iff; intros; destruct_and?;
    repeat split; eauto using mine_incl, missing_incl, all_mine_incl.
Qed.

Lemma mine_event (e : event) l k id : In e l -> one_of (k, id) (evidence name e) = true -> mine name l k id = true.
Proof. intros H1 H2. apply existsb_exists. eauto. Qed.
Lemma missing_event (e : event) l k id : In e l -> one_of (k, id) (absence e) = true -> missing l k id = true.
Proof. intros H1 H2. apply existsb_exists. eauto. Qed.
End Audit.

(** ** The logic *)
Section Logic.
Context {C : Type} {cloud : Cloud C} (name : string) (port : Z).

Definition wp {A} (l : list event) (m : Aws C A) (Q : A -> list event -> Prop) : Prop :=
  forall s, incl l (as_log s) -> audit name port (as_log s) = true ->
  match m s with
  | (r, s') => audit name port (as_log s') = true /\ incl (as_log s) (as_log s') /\ match r with Ok a => Q a (as_log s') | Err _ => True end
  end.

(** A postcondition that more events do not break. *)
Definition stable {A} (Q : A -> list event -> Prop) : Prop := forall a l l', incl l l' -> Q a l -> Q a l'.

Lemma wpa_ret {A} l (a : A) (Q : A -> list event -> Prop) : (forall l', incl l l' -> Q a l') -> wp l (aws_ret a) Q.
Proof. intros H s Hl Ha. cbn. split_and!; auto. apply incl_refl. Qed.
Lemma wp_fail {A} l msg (Q : A -> list event -> Prop) : wp l (aws_fail msg) Q.
Proof. intros s Hl Ha. cbn. split_and!; auto. apply incl_refl. Qed.
Lemma wp_lift {A} l (r : result A) (Q : A -> list event -> Prop) : (forall a l', r = Ok a -> incl l l' -> Q a l') -> wp l (aws_lift r) Q.
Proof. intros H s Hl Ha. cbn. split_and!; auto; [apply incl_refl|]. destruct r; eauto. Qed.

Lemma wpa_bind {A B} l (m : Aws C A) (k : A -> Aws C B) Q R :
  wp l m Q -> (forall a l', incl l l' -> Q a l' -> wp l' (k a) R) -> wp l (aws_bind m k) R.
Proof.
  intros Hm Hk s Hl Ha. specialize (Hm s Hl Ha). unfold aws_bind. destruct (m s) as [[a|e] s1]; [|done].
  destruct Hm as (A1 & I1 & Q1). specialize (Hk a (as_log s1) ltac:(eauto using incl_tran) Q1 s1 (incl_refl _) A1).
  destruct (k a s1) as [r s2]. destruct Hk as (A2 & I2 & R2). split_and!; eauto using incl_tran.
Qed.

Lemma wpa_mono {A} l (m : Aws C A) Q R : wp l m Q -> (forall a l', incl l l' -> Q a l' -> R a l') -> wp l m R.
Proof.
  intros Hm HQ s Hl Ha. specialize (Hm s Hl Ha). destruct (m s) as [[a|e] s1]; [|done]. destruct Hm as (A1 & I1 & Q1).
  split_and!; eauto using incl_tran.
Qed.

Lemma wp_weaken {A} l l' (m : Aws C A) Q : incl l l' -> wp l m Q -> wp l' m Q.
Proof. intros H Hm s Hl. apply Hm. eauto using incl_tran. Qed.

Lemma wp_try {A} l (rq : request A) (Q : answer A -> list event -> Prop) :
  (forall a, justified name port l (mkEvent rq a) = true) -> (forall a l', incl (mkEvent rq a :: l) l' -> Q a l') -> wp l (try_call rq) Q.
Proof.
  intros J H s Hl Ha. unfold try_call. destruct (aws_Call A rq (as_cloud s)) as [r c]. cbn [as_log audit]. split_and!.
  - rewrite Ha, andb_true_r. eauto using justified_incl.
  - apply incl_tl, incl_refl.
  - apply H. apply incl_cons; [by left|]. by apply incl_tl.
Qed.

Lemma wp_call {A} l (rq : request A) (Q : A -> list event -> Prop) :
  (forall a, justified name port l (mkEvent rq a) = true) -> (forall a l', incl (mkEvent rq (inl a) :: l) l' -> Q a l') -> wp l (call rq) Q.
Proof.
  intros J H. eapply wpa_bind; [apply (wp_try l rq (fun a l' => incl (mkEvent rq a :: l) l')); [done|auto]|].
  intros [a|e] l' _ I'; [apply wpa_ret; eauto using incl_tran|by apply wp_lift].
Qed.

Lemma wp_if {A} l (b : bool) (m1 m2 : Aws C A) Q : (b = true -> wp l m1 Q) -> (b = false -> wp l m2 Q) -> wp l (if b then m1 else m2) Q.
Proof. destruct b; auto. Qed.

Lemma wp_until {A} l (body : Aws C (option A)) Q : wp l body (fun o l' => forall a, o = Some a -> Q a l') -> wp l (until body) Q.
Proof.
  intros H s Hl Ha. unfold until. generalize (as_pauses s) as n. intros n. revert s Hl Ha. induction n as [|n IH]; intros s Hl Ha; cbn [until_from];
    specialize (H s Hl Ha); destruct (body s) as [[[a|]|e] s1]; destruct H as (A1 & I1 & Q1); try done.
  - split_and!; auto.
  - split_and!; auto.
  - specialize (IH (mkAwsState (as_cloud s1) n (as_log s1)) ltac:(cbn; eauto using incl_tran) A1). destruct (until_from n body _) as [r s2]. cbn in *.
    destruct IH as (A2 & I2 & R2). split_and!; eauto using incl_tran.
Qed.

Lemma wp_for {A} l (xs : list A) (body : A -> Aws C unit) :
  (forall x, In x xs -> wp l (body x) (fun _ _ => True)) -> wp l (for_each xs body) (fun _ _ => True).
Proof.
  revert l. induction xs as [|x xs IH]; intros l H; cbn [for_each]; [by apply wpa_ret|].
  eapply wpa_bind; [apply H; by left|]. intros _ l' I _. apply IH. intros y Hy. eapply wp_weaken; [exact I|]. apply H. by right.
Qed.

Lemma wp_bind_call {A B} l (rq : request A) (k : A -> Aws C B) R :
  (forall a, justified name port l (mkEvent rq a) = true) -> (forall a l', incl (mkEvent rq (inl a) :: l) l' -> wp l' (k a) R) -> wp l (aws_bind (call rq) k) R.
Proof. intros J H. eapply wpa_bind; [apply (wp_call l rq (fun a l' => incl (mkEvent rq (inl a) :: l) l')); [done|auto]|]. intros a l' _. apply H. Qed.

Lemma wp_bind_try {A B} l (rq : request A) (k : answer A -> Aws C B) R :
  (forall a, justified name port l (mkEvent rq a) = true) -> (forall a l', incl (mkEvent rq a :: l) l' -> wp l' (k a) R) -> wp l (aws_bind (try_call rq) k) R.
Proof. intros J H. eapply wpa_bind; [apply (wp_try l rq (fun a l' => incl (mkEvent rq a :: l) l')); [done|auto]|]. intros a l' _. apply H. Qed.

Lemma wp_bind_lift {A B} l (r : result A) (k : A -> Aws C B) R : (forall a l', r = Ok a -> incl l l' -> wp l' (k a) R) -> wp l (aws_bind (aws_lift r) k) R.
Proof. intros H. eapply wpa_bind; [apply (wp_lift l r (fun a l' => r = Ok a /\ incl l l')); auto|]. intros a l' _ [E I]. by apply H. Qed.

Lemma mine_head l l' e k id : incl (e :: l) l' -> one_of (k, id) (evidence name e) = true -> mine name l' k id = true.
Proof. intros I. apply mine_event, I. by left. Qed.
Lemma missing_head l l' e k id : incl (e :: l) l' -> one_of (k, id) (absence e) = true -> missing l' k id = true.
Proof. intros I. apply missing_event, I. by left. Qed.
Lemma incl_rest (l l' : list event) e : incl (e :: l) l' -> incl l l'.
Proof. intros I x Hx. apply I. by right. Qed.

Lemma one_of_single {A} `{EqDecision A} (x : A) : one_of x [x] = true.
Proof. apply one_of_spec. by left. Qed.

Lemma owned_tags kind : owned (resourceTags name kind) name = true.
Proof. unfold owned, resourceTags. cbn. by rewrite !eq_refl_true. Qed.
(** The codes that a function takes for absence are among those of the audit. *)
Lemma not_found_code e codes : isCode e codes = true ->
  forallb (fun x => not_found (Some x)) codes = true -> not_found e = true.
Proof.
  destruct e as [x|]; [|done]. cbn [isCode]. rewrite forallb_forall. intros H%one_of_spec K. apply K, H.
Qed.

Lemma name_tag_resource kind : name_tag (resourceTags name kind) = dashed name kind.
Proof. reflexivity. Qed.
End Logic.

(** What is known of a smaller log is known of the larger one. *)
Ltac lift_known :=
  repeat match goal with
  | I : incl (?e :: ?l) ?l' |- _ =>
      lazymatch goal with J : incl l l' |- _ => fail | _ => pose proof (incl_rest _ _ _ I) end
  end;
  repeat match goal with
  | I : incl ?l ?l', H : mine _ ?l _ _ = true |- _ => apply (mine_incl _ _ _ _ _ I) in H
  | I : incl ?l ?l', H : missing ?l _ _ = true |- _ => apply (missing_incl _ _ _ _ I) in H
  | I : incl ?l ?l', H : forallb (mine _ ?l _) _ = true |- _ => apply (all_mine_incl _ _ _ _ _ I) in H
  end.

(** What an answer shows. *)
Ltac shows I :=
  first [eapply mine_head; [exact I|] | eapply missing_head; [exact I|]];
  cbn; repeat match goal with H : ?b = true |- context [if ?b then _ else _] => rewrite H; cbn end; rewrite ?eq_refl_true; cbn; first [reflexivity | apply one_of_single].
Ltac shown :=
  cbn [fst snd];
  first
    [ match goal with I : incl (_ :: _) ?l |- _ ?l _ _ = true => solve [shows I] end
    | match goal with
      | J : incl ?l1 ?l |- mine _ ?l _ _ = true => is_var l1; eapply mine_incl; [exact J|]; solve [shown]
      | J : incl ?l1 ?l |- missing ?l _ _ = true => is_var l1; eapply missing_incl; [exact J|]; solve [shown]
      end ].

(** A request is justified by what is known. *)
Ltac justify :=
  intros; cbn [justified]; rewrite ?andb_true_iff; repeat split;
  rewrite ?name_tag_resource; first [done | assumption | apply owned_tags | solve [shown] | idtac].

Ltac on_call := first [apply wp_bind_call; [justify|] | apply wp_bind_try; [justify|]]; intros ? ? ?; lift_known.
Ltac on_if := apply wp_if; [intros; bsplit|intros; apply wp_fail].
(** A call, an error or a value at the end of a branch. *)
Ltac on_end :=
  first [apply wp_fail | apply wp_call; [justify|] | apply wpa_ret | apply wp_lift; [done]]; intros; lift_known; try solve [assumption | done | shown].

#[local] Arguments not_found : simpl never.
(** An error with a code that means absence, and any other error. *)
Ltac on_refused := apply wp_if; [intros E; apply not_found_code in E; [|reflexivity]|intros; on_end].

(** A function that is specified. *)
Ltac on_spec lem := eapply wpa_bind; [apply lem; solve [assumption | tauto]|]; intros ? ? ? ?; cbv beta in *; lift_known.
Ltac rewrite_known := repeat match goal with H : ?b = true |- context [?b] => rewrite H end.

Section Resources.
Context {C : Type} {cloud : Cloud C} {sha : Sha} {random : Random} {gonet : GoNet} {rendering : Rendering} {scripts : Scripts} (c : bootstrapConfig).
Abbreviation name := (bc_Name c).
Abbreviation port := (rd_Port (bc_RDS c)).
Abbreviation WP := (wp name port).

Lemma wp_ensureVpc l : WP l (ensureVpc (C := C) c) (fun id l' => mine name l' KVpc id = true).
Proof.
  unfold ensureVpc. on_call. eapply (wpa_bind name port _ _ _ (fun id l'' => mine name l'' KVpc id = true)).
  - destruct a as [|v [|]]; [on_end|on_if; on_end|on_end].
  - intros id l'' I Hm. on_if.
    eapply wpa_bind. { apply (wp_until name port _ _ (fun _ _ => True)). on_call. on_end. }
    intros _ l3 I3 _. lift_known.
    eapply wpa_bind. { apply wp_for. intros x Hx. on_end. }
    intros _ l4 I4 _. lift_known. on_end.
Qed.

Lemma wp_ensureSubnet l vpc cidr zone kind public : mine name l KVpc vpc = true ->
  WP l (ensureSubnet (C := C) c vpc cidr zone kind public) (fun id l' => mine name l' KSubnet id = true).
Proof.
  intros Hv. unfold ensureSubnet. on_call. eapply (wpa_bind name port _ _ _ (fun id l'' => mine name l'' KSubnet id = true)).
  - destruct a as [|v [|]]; [on_end|on_if; on_end|on_end].
  - intros id l'' I Hm. on_if. on_call. on_end.
Qed.

Lemma wp_ensureGateway l vpc : mine name l KVpc vpc = true ->
  WP l (ensureGateway (C := C) c vpc) (fun id l' => mine name l' KGateway id = true).
Proof.
  intros Hv. unfold ensureGateway. on_call. eapply (wpa_bind name port _ _ _ (fun g l'' => mine name l'' KGateway (gw_ID g) = true)).
  - destruct a as [|v [|]]; [on_end|on_end|on_end].
  - intros g l'' I Hm. lift_known. on_if. destruct (gw_Attachments g) as [|v [|]]; [on_call; on_end|on_if; on_end|on_end].
Qed.

Lemma wp_ensureRoutes l vpc kind gateway subnets : mine name l KVpc vpc = true -> ((gateway != "") = true -> mine name l KGateway gateway = true) ->
  forallb (mine name l KSubnet) subnets = true -> WP l (ensureRoutes (C := C) c vpc kind gateway subnets) (fun _ _ => True).
Proof.
  intros Hv Hg Hs. unfold ensureRoutes. on_call. eapply (wpa_bind name port _ _ _ (fun t l'' => mine name l'' KTable (fst (fst t)) = true)).
  - destruct a as [|t [|]]; [|on_if; on_end|on_end].
    on_call. on_end.
  - intros [[id hasDefault] associated] l'' I Hm. cbn [fst] in Hm. on_if.
    eapply (wpa_bind name port _ _ _ (fun _ _ => True)).
    + apply wp_if; [|intros; on_end]. intros B. apply andb_prop in B as [B _]. specialize (Hg B). lift_known. on_end.
    + intros _ l3 I3 _. lift_known. apply wp_for. intros s Hin. apply wp_if; intros; [on_end|]. rewrite forallb_forall in Hs. specialize (Hs _ Hin). on_end.
Qed.
(** What a session holds, by the part of the infrastructure. *)
Definition network_mine (i : Infrastructure) (l : list event) : Prop :=
  mine name l KVpc (in_VPCID i) = true /\ forallb (mine name l KSubnet) (in_PublicSubnetIDs i) = true /\
  forallb (mine name l KSubnet) (in_PrivateSubnetIDs i) = true.
Definition groups_mine (i : Infrastructure) (l : list event) : Prop :=
  mine name l KGroup (in_SpireSecurityGroupID i) = true /\ mine name l KGroup (in_SpireLoadBalancerSecurityGroupID i) = true /\
  mine name l KGroup (in_PlatformSecurityGroupID i) = true /\ mine name l KGroup (in_RDSSecurityGroupID i) = true.

Lemma wp_ensureNetwork l : WP l (ensureNetwork (C := C) c) network_mine.
Proof.
  unfold ensureNetwork, available_zones. eapply wpa_bind. { on_call. apply (wpa_ret name port _ _ (fun _ _ => True)). done. }
  intros zs l1 I1 _. eapply (wpa_bind name port _ _ _ (fun _ _ => True)).
  { unfold choose_zones. destruct (elems _); [destruct zs as [|? [|]]|on_if]; on_end. }
  intros zones l2 I2 _. on_spec wp_ensureVpc. do 4 on_spec wp_ensureSubnet. on_spec wp_ensureGateway.
  eapply wpa_bind. { apply (wp_ensureRoutes _ a "public" a4); [done..|]. cbn. rewrite_known. done. }
  intros _ l9 I9 _. lift_known. eapply wpa_bind. { apply (wp_ensureRoutes _ a "private" ""); [done..|]. cbn. rewrite_known. done. }
  intros _ l10 I10 _. lift_known. on_end. unfold network_mine. cbn. rewrite_known. done.
Qed.

Lemma wp_ensureGroup l vpc kind : mine name l KVpc vpc = true ->
  WP l (ensureGroup (C := C) c vpc kind) (fun g l' => mine name l' KGroup (fst g) = true).
Proof.
  intros Hv. unfold ensureGroup. on_call. eapply (wpa_bind name port _ _ _ (fun g l'' => mine name l'' KGroup (fst g) = true)).
  - destruct a as [|v [|]]; [on_call; on_end|on_if; on_if; on_end|on_end].
  - intros g l'' I Hm. on_if. on_end.
Qed.

Lemma network_mine_incl i l l' : incl l l' -> network_mine i l -> network_mine i l'.
Proof. intros I (H1 & H2 & H3). unfold network_mine. lift_known. done. Qed.
Lemma groups_mine_incl i l l' : incl l l' -> groups_mine i l -> groups_mine i l'.
Proof. intros I (H1 & H2 & H3 & H4). unfold groups_mine. lift_known. done. Qed.

(** The rules of the design open nothing else. *)
Lemma wp_authorize l spire nlb platform rds r :
  mine name l KGroup spire = true -> mine name l KGroup nlb = true -> mine name l KGroup platform = true -> mine name l KGroup rds = true ->
  In r (design_rules port spire nlb platform rds) -> WP l (authorize (C := C) r) (fun _ _ => True).
Proof.
  intros Hs Hn Hp Hr Hin. unfold authorize. apply wp_bind_try.
  - intros a. cbn [justified]. cbn [design_rules In] in Hin.
    destruct_or?; subst; try done; cbn [ru_target ru_source ru_protocol ru_port]; rewrite_known; unfold open_rule; rewrite ?eq_refl_true; try done.
    all: change ("tcp" == "-1") with false; cbn; rewrite eq_refl_true, ?orb_true_r; done.
  - intros [u|e] l' I; [on_end|]. apply wp_if; intros; on_end.
Qed.

Lemma wp_ensureSecurityGroups l i : network_mine i l ->
  WP l (ensureSecurityGroups (C := C) c i) (fun i' l' => network_mine i' l' /\ groups_mine i' l').
Proof.
  intros (Hv & Hpub & Hprv). unfold ensureSecurityGroups. do 4 on_spec wp_ensureGroup. on_if.
  eapply wpa_bind; [apply wp_for; intros r Hr; eapply wp_authorize; [..|exact Hr]; done|]. intros _ l5 I5 _. lift_known. on_end.
Qed.

Lemma wp_checkEndpointOwner l arn : WP l (checkEndpointOwner (C := C) arn name) (fun _ l' => mine name l' KBalancer arn = true /\ mine name l' KTargets arn = true).
Proof.
  unfold checkEndpointOwner. on_call. destruct a as [|tags [|]]; [on_end| |on_end]. on_if. apply wpa_ret. intros l2 I2. split; [shown|].
  eapply mine_incl; [exact I2|]. eapply mine_head; [exact H|]. cbn. rewrite_known. cbn. by rewrite eq_refl_true.
Qed.

Lemma wp_ensureBalancer l i : network_mine i l -> groups_mine i l ->
  WP l (ensureBalancer (C := C) c i) (fun b l' => mine name l' KBalancer (lb_Arn b) = true).
Proof.
  intros (Hv & Hpub & Hprv) (Hs & Hn & Hp & Hr). unfold ensureBalancer. on_call. eapply (wpa_bind name port _ _ _ (fun _ _ => True)).
  - destruct a as [lbs|e]; [on_end|]. on_refused. on_end. cbn. rewrite_known. done.
  - intros lbs l1 I1 _. destruct lbs as [|b [|]]; [on_end| |on_end]. on_if. on_if. on_spec wp_checkEndpointOwner. destruct_and?. on_call. on_end.
Qed.

Lemma wp_ensureTargets l i : network_mine i l ->
  WP l (ensureTargets (C := C) c i) (fun t l' => mine name l' KTargets (tgr_Arn t) = true).
Proof.
  intros (Hv & Hpub & Hprv). unfold ensureTargets. on_call. eapply (wpa_bind name port _ _ _ (fun _ _ => True)).
  - destruct a as [ts|e]; [on_end|]. on_refused. on_end.
  - intros ts l1 I1 _. destruct ts as [|b [|]]; [on_end| |on_end]. on_if. on_spec wp_checkEndpointOwner. destruct_and?. on_call. on_end.
Qed.

Lemma wp_ensureListener l lb target : mine name l KBalancer lb = true -> mine name l KTargets target = true ->
  WP l (ensureListener (C := C) lb target) (fun _ _ => True).
Proof.
  intros Hb Ht. unfold ensureListener. on_call. destruct a as [|x [|]]; [on_end|on_if; on_end|on_end].
Qed.

Definition endpoint_mine (i : Infrastructure) (l : list event) : Prop := mine name l KTargets (in_SpireTargetGroupARN i) = true.
Definition resources_mine (i : Infrastructure) (l : list event) : Prop := network_mine i l /\ groups_mine i l /\ endpoint_mine i l.
Lemma resources_mine_incl i l l' : incl l l' -> resources_mine i l -> resources_mine i l'.
Proof. intros I (H1 & H2 & H3). split_and!; [by eapply network_mine_incl|by eapply groups_mine_incl|by eapply mine_incl]. Qed.

Lemma wp_ensureSpireEndpoint l i : network_mine i l -> groups_mine i l -> WP l (ensureSpireEndpoint (C := C) c i) resources_mine.
Proof.
  intros Hn Hg. unfold ensureSpireEndpoint. on_spec wp_ensureBalancer. eapply wpa_bind; [apply wp_ensureTargets; by eapply network_mine_incl|].
  intros t l2 I2 Ht. cbv beta in *. lift_known. on_spec wp_ensureListener. apply wpa_ret. intros l4 I4. lift_known.
  split_and!; [eapply (network_mine_incl i); [|done]|eapply (groups_mine_incl i); [|done]|done]; eauto using incl_tran.
Qed.

Lemma wp_ensureRDS l i : network_mine i l -> groups_mine i l ->
  WP l (ensureRDS (C := C) c i) (fun i' _ => exists endpoint secret, i' = set_database endpoint secret i).
Proof.
  intros (Hv & Hpub & Hprv) (Hs & Hn & Hp & Hr). unfold ensureRDS. on_call. eapply (wpa_bind name port _ _ _ (fun _ _ => True)).
  { destruct a as [[|x [|]]|e]; [on_end|on_if; on_end|on_end|]. on_refused. on_end. }
  intros _ l1 I1 _. lift_known. on_call. eapply (wpa_bind name port _ _ _ (fun _ _ => True)).
  { destruct a0 as [x|e]; [on_end|]. on_refused. on_end. cbn. rewrite_known. done. }
  intros _ l2 I2 _. eapply (wpa_bind name port _ _ _ (fun _ _ => True)); [|intros; on_end; eauto].
  apply wp_until. unfold db_ready. on_call. destruct a1 as [|d [|]]; [on_end| |on_end]. do 3 on_if. on_call. on_if.
  repeat case_match; try (on_if); try on_end. all: apply wp_if; intros; try on_if; on_end.
Qed.

Lemma wp_ensureSecrets l i : WP l (ensureSecrets (C := C) c i) (fun i' _ => exists arn, i' = set_secret arn i).
Proof.
  unfold ensureSecrets. on_call. eapply (wpa_bind name port _ _ _ (fun _ _ => True)).
  - destruct a as [x|e].
    + on_if. on_call. apply wp_bind_lift. intros u l2 E I2. on_end.
    + on_refused. apply wp_bind_lift. intros values l2 E2 I2. lift_known. on_end.
  - intros arn l1 I1 _. on_if. on_end. eauto.
Qed.

Lemma wp_ensureRole l i kind : WP l (ensureRole (C := C) c i kind) (fun _ _ => True).
Proof.
  unfold ensureRole. on_call. eapply (wpa_bind name port _ _ _ (fun _ l' => mine name l' KRole (dashed name kind) = true)).
  { destruct a as [tags|e]; [on_if|on_refused]; on_end. }
  intros u l1 I1 Hm. cbv beta in Hm. on_call. on_call. on_call.
  eapply (wpa_bind name port _ _ _ (fun _ l' => mine name l' KProfile (dashed name kind) = true)).
  { destruct a2 as [x|e]; [on_if; on_if; on_end|on_refused; on_call; on_end]. }
  intros roles l2 I2 Hp. cbv beta in Hp. lift_known. eapply (wpa_bind name port _ _ _ (fun _ _ => True)); [|intros; on_end].
  destruct roles; on_end.
Qed.

Lemma wp_ensureIAM l i : WP l (ensureIAM (C := C) c i) (fun i' _ => exists s p w, i' = set_profiles s p w i).
Proof. unfold ensureIAM. do 3 on_spec wp_ensureRole. on_end. eauto. Qed.

Lemma wp_ensureComputeInfrastructure l stored : WP l (ensureComputeInfrastructure (C := C) c stored) resources_mine.
Proof.
  unfold ensureComputeInfrastructure. on_spec wp_ensureNetwork.
  eapply wpa_bind; [apply wp_ensureSecurityGroups; exact H0|]. intros i1 l1 I1 [Hn Hg].
  eapply wpa_bind; [by apply wp_ensureSpireEndpoint|]. intros i2 l2 I2 (Hn2 & Hg2 & He2).
  eapply wpa_bind; [by apply wp_ensureRDS|]. intros i3 l3 I3 (e & s & ->).
  eapply wpa_mono; [apply wp_ensureIAM|]. intros i4 l4 I4 (a1 & a2 & a3 & ->). apply (resources_mine_incl i2 l2); eauto using incl_tran.
  by split_and!.
Qed.

Lemma wp_registerSpireTarget l i instance : endpoint_mine i l -> mine name l KHost instance = true ->
  WP l (registerSpireTarget (C := C) i instance) (fun _ _ => True).
Proof. unfold endpoint_mine, registerSpireTarget. intros He Hh. on_call. on_if. on_end. Qed.

Lemma wp_validateGoldenImage l i ami : WP l (validateGoldenImage (C := C) c i ami) (fun _ _ => True).
Proof. unfold validateGoldenImage. on_call. destruct a as [|x [|]]; [on_end| |on_end]. on_if. on_if. on_end. Qed.

(** ** Hosts and scripts *)
Lemma wp_pause l : WP l (pause (C := C)) (fun _ _ => True).
Proof. intros s Hl Ha. unfold pause. destruct (as_pauses s); cbn; split_and!; auto; apply incl_refl. Qed.

Lemma wp_quietly {A} l (m : Aws C A) : WP l m (fun _ _ => True) -> WP l (quietly m) (fun _ _ => True).
Proof. intros H s Hl Ha. specialize (H s Hl Ha). unfold quietly. destruct (m s) as [r s']. destruct H as (H1 & H2 & _). done. Qed.

(** The items of an answer. *)
Lemma mine_ids {A} k (id : A -> string) (xs : list A) e l l' l2 :
  incl (e :: l) l' -> incl l' l2 -> evidence name e = ids_of k id xs -> forallb (mine name l2 k) (map id xs) = true.
Proof.
  intros I I2 E. apply forallb_forall. intros x Hx. eapply mine_incl; [exact I2|]. eapply mine_head; [exact I|]. rewrite E.
  apply one_of_spec. unfold ids_of. rewrite in_map_iff in *. destruct Hx as (y & <- & Hy). eauto.
Qed.

Lemma wp_launch l n input : missing l KHost (role_tag (li_Tags input)) = true -> owned (li_Tags input) name = true ->
  mine name l KSubnet (li_SubnetID input) = true -> forallb (mine name l KGroup) (li_Groups input) = true ->
  WP l (launch (C := C) n input) (fun hosts l' => forallb (mine name l' KHost) (map fst hosts) = true).
Proof.
  intros Hm Ho Hs Hg. revert l Hm Hs Hg. induction n as [|n IH]; intros l Hm Hs Hg; cbn [launch]; on_call; destruct a as [hosts|e].
  - apply wpa_ret. intros l2 I2. by eapply mine_ids.
  - on_end.
  - apply wpa_ret. intros l2 I2. by eapply mine_ids.
  - apply wp_if; intros; [|on_end]. on_spec wp_pause. by apply IH.
Qed.

Lemma usable_hosts_ids ami type l hosts : usable_hosts ami type l = Ok hosts -> map ho_ID hosts = map hi_ID l.
Proof. revert hosts. induction l as [|i l IH]; intros hosts H; cbn in H; inv_ok; [done|]. cbn. erewrite IH; eauto. Qed.
Lemma pinned_hosts_ids l hosts : pinned_hosts c l = Ok hosts -> map ho_ID hosts = map hi_ID l.
Proof. revert hosts. induction l as [|i l IH]; intros hosts H; cbn in H; inv_ok; [done|]. cbn. erewrite IH; eauto. Qed.

(** The hosts of a deployment that an answer lists. *)
Lemma mine_hosts role states found hosts l l' l2 : incl (mkEvent (DescribeHosts name role states) (inl found) :: l) l' -> incl l' l2 ->
  map ho_ID hosts = map hi_ID (List.concat found) -> forallb (mine name l2 KHost) (map ho_ID hosts) = true.
Proof. intros I I2 ->. eapply mine_ids; [exact I|exact I2|]. cbn. by rewrite eq_refl_true. Qed.

Lemma wp_ensureHost l subnets role ami type storage profile sg : forallb (mine name l KSubnet) subnets = true -> mine name l KGroup sg = true ->
  WP l (ensureHost (C := C) c subnets role ami type storage profile sg) (fun h l' => mine name l' KHost (ho_ID h) = true).
Proof.
  intros Hs Hg. unfold ensureHost. on_call. apply wp_bind_lift. intros hosts l1 E I1. apply usable_hosts_ids in E.
  pose proof (mine_hosts _ _ _ _ _ _ _ H I1 E) as Hh. lift_known.
  eapply (wpa_bind name port _ _ _ (fun h l' => mine name l' KHost (ho_ID h) = true)).
  - destruct hosts as [|h [|]]; [|on_end; cbn in Hh; lift_known; by bsplit|on_end].
    destruct subnets as [|subnet rest]; [on_end|]. cbn in Hs. bsplit. cbn [map] in E. symmetry in E. apply map_eq_nil in E.
    assert (missing l1 KHost role = true) as Hm.
    { eapply missing_incl; [exact I1|]. eapply missing_head; [exact H|]. cbn. rewrite E. apply one_of_single. }
    eapply wpa_bind.
    { apply wp_launch; cbn [li_Tags li_SubnetID li_Groups]; [exact Hm|unfold owned; cbn; by rewrite !eq_refl_true|done|cbn; by rewrite Hg]. }
    intros launched l2 I2 Hl. cbv beta in Hl. destruct launched as [|[id ip] [|]]; [on_end| |on_end]. cbn in Hl. bsplit. on_end.
  - intros h l2 I2 Hm. cbv beta in Hm. eapply (wpa_bind name port _ _ _ (fun _ _ => True)).
    { apply wp_until. on_call. on_end. }
    intros _ l3 I3 _. lift_known. apply wp_if; intros; [|on_end]. on_call. destruct a0 as [|[|ip [|]] [|]]; try on_end.
Qed.

Lemma wp_operationHost l role : WP l (operationHost (C := C) c role) (fun h l' => mine name l' KHost (ho_ID h) = true).
Proof.
  unfold operationHost. on_call. apply wp_bind_lift. intros hosts l1 E I1. apply pinned_hosts_ids in E.
  pose proof (mine_hosts _ _ _ _ _ _ _ H I1 E) as Hh. destruct hosts as [|h [|]]; [on_end| |on_end]. cbn in Hh. bsplit. on_end.
Qed.

Lemma wp_report_output l n stream output : WP l (report_output (C := C) n stream output) (fun _ _ => True).
Proof. unfold report_output. apply wp_if; intros; on_end. Qed.

Lemma wp_runScriptObserved l instance n script : mine name l KHost instance = true -> WP l (runScriptObserved (C := C) instance n script) (fun _ _ => True).
Proof.
  intros Hm. unfold runScriptObserved. on_if. on_call. on_if. on_call. apply wp_until. unfold invocation. on_call.
  destruct a1 as [i|e]; [|apply wp_if; intros; on_end].
  apply wp_if; intros; [do 2 on_spec wp_report_output; on_end|].
  apply wp_if; intros; [|apply wp_if; intros; on_end].
  do 2 (eapply wpa_bind; [apply wp_quietly, wp_report_output|intros ? ? ? _]). on_end.
Qed.

Lemma wp_runScript l instance n script : mine name l KHost instance = true -> WP l (runScript (C := C) instance n script) (fun _ _ => True).
Proof. intros Hm. unfold runScript. on_spec wp_runScriptObserved. on_end. Qed.

(** ** The session *)
Definition hosts_mine (s : bootstrapSession) (l : list event) : Prop :=
  resources_mine (bs_infra s) l /\ mine name l KHost (ho_ID (bs_spire s)) = true /\ mine name l KHost (ho_ID (bs_platform s)) = true.

Lemma wp_session_PrepareEndpoint l s : bs_cfg s = c -> WP l (session_PrepareEndpoint (C := C) s) (fun s' _ => bs_cfg s' = c).
Proof.
  intros Ec. unfold session_PrepareEndpoint. rewrite Ec. on_spec wp_ensureNetwork. eapply wpa_bind; [by apply wp_ensureSecurityGroups|].
  intros i l2 I2 [Hn Hg]. on_spec wp_ensureSpireEndpoint. on_end.
Qed.

Lemma wp_session_credentials l s : bs_cfg s = c ->
  WP l (aws! i := ensureSecrets (C := C) (bs_cfg s) (bs_infra s) in aws_ret (set_bs_infra i s)) (fun s' _ => bs_cfg s' = c).
Proof. intros Ec. rewrite Ec. on_spec wp_ensureSecrets. on_end. Qed.

Lemma wp_session_infrastructure l s : bs_cfg s = c ->
  WP l (aws! i := ensureComputeInfrastructure (C := C) (bs_cfg s) (bs_infra s) in aws_ret (set_bs_infra i s))
    (fun s' l' => bs_cfg s' = c /\ resources_mine (bs_infra s') l').
Proof. intros Ec. rewrite Ec. on_spec wp_ensureComputeInfrastructure. apply wpa_ret. intros l2 I2. split; [done|]. by eapply resources_mine_incl. Qed.

Lemma wp_session_EnsureHosts l s : bs_cfg s = c -> resources_mine (bs_infra s) l ->
  WP l (session_EnsureHosts (C := C) s) (fun s' l' => bs_cfg s' = c /\ hosts_mine s' l').
Proof.
  intros Ec Hr. unfold session_EnsureHosts. rewrite Ec. eapply wpa_bind; [apply wp_for; intros x _; apply wp_validateGoldenImage|]. intros _ l1 I1 _.
  apply (resources_mine_incl _ _ _ I1) in Hr. pose proof Hr as ((_ & Hs & _) & (Gs & _ & Gp & _) & He). on_spec wp_ensureHost.
  eapply wpa_bind; [apply wp_registerSpireTarget; [by eapply mine_incl|done]|]. intros _ l3 I3 _. lift_known. on_spec wp_ensureHost.
  apply wpa_ret. intros l5 I5. lift_known. split; [done|]. split; [|done]. eapply resources_mine_incl; [|exact Hr]. eauto using incl_tran.
Qed.

Lemma wp_on_host l target n script : mine name l KHost target = true -> WP l (on_host (C := C) target n script) (fun _ _ => True).
Proof.
  intros Hm. unfold on_host. apply wp_bind_lift. intros text l1 _ I1. lift_known. on_if. by apply wp_runScriptObserved.
Qed.

Lemma hosts_mine_incl s l l' : incl l l' -> hosts_mine s l -> hosts_mine s l'.
Proof. intros I (H1 & H2 & H3). lift_known. split_and!; [by eapply resources_mine_incl|done..]. Qed.

Lemma wp_session_RunHostPhase l p s : bs_cfg s = c -> hosts_mine s l -> WP l (session_RunHostPhase (C := C) p s) (fun s' l' => bs_cfg s' = c /\ hosts_mine s' l').
Proof.
  intros Ec Hh. pose proof Hh as (_ & Hs & Hp). destruct p; cbn [session_RunHostPhase]; rewrite Ec.
  1-3: eapply wpa_bind; [by apply wp_on_host|]; intros; apply wpa_ret; intros; split; [done|]; eapply hosts_mine_incl; [|exact Hh]; eauto using incl_tran.
  apply wp_bind_lift. intros _ l1 _ I1. lift_known. eapply wpa_bind.
  { apply wp_for. intros h Hin. apply wp_bind_lift. intros setup l2 _ I2. apply wp_runScript. lift_known. cbn [agentHosts In] in Hin.
    destruct_or?; subst; done. }
  intros _ l2 I2 _. lift_known. apply wp_bind_lift. intros seed l3 _ I3. lift_known. on_spec wp_runScript. on_spec wp_on_host.
  apply wpa_ret. intros l5 I5. split; [done|]. apply (hosts_mine_incl s l); [|done]. eauto 9 using incl_tran.
Qed.

(** ** Operations *)
Lemma wp_operation_infra l : WP l (operation_infra (C := C) c) (fun i l' => network_mine i l' /\ groups_mine i l').
Proof.
  unfold operation_infra. on_spec wp_ensureNetwork. eapply wpa_bind; [by apply wp_ensureSecurityGroups|]. intros i l2 I2 [Hn Hg].
  eapply wpa_bind; [apply wp_ensureSecrets|]. intros ? l3 I3 (arn & ->).
  assert (network_mine (set_secret arn i) l3) by (by apply (network_mine_incl i l2)).
  assert (groups_mine (set_secret arn i) l3) by (by apply (groups_mine_incl i l2)).
  eapply wpa_mono; [by apply wp_ensureRDS|]. intros ? l4 I4 (e & s & ->).
  split; [by apply (network_mine_incl (set_secret arn i) l3)|by apply (groups_mine_incl (set_secret arn i) l3)].
Qed.

Lemma lookup_mine l k subnets i x : forallb (mine name l k) subnets = true -> subnets !! i = Some x -> mine name l k x = true.
Proof. intros H E. rewrite forallb_forall in H. apply H. by eapply list_elem_of_In, list_elem_of_lookup_2. Qed.

Ltac on_lift := apply wp_bind_lift; intros ? ? ? ?; lift_known.

Lemma wp_op_EnsureInfrastructure l op : WP l (op_EnsureInfrastructure (C := C) c op) (fun _ _ => True).
Proof.
  unfold op_EnsureInfrastructure. on_lift. destruct a as [zone cluster]. on_call. on_if. on_call. on_if.
  eapply wpa_bind; [apply wp_operation_infra|]. intros i l4 I4 ((_ & Hs & _) & (_ & _ & Hg & _)). on_call. on_if.
  destruct (zone_index _ _ ≫= _) as [subnet|] eqn:E; [|on_end]. apply bind_Some in E as (k & _ & E).
  pose proof (lookup_mine _ _ _ _ _ Hs E) as Hm. eapply wpa_bind; [apply wp_ensureHost; [cbn; by rewrite Hm|done]|]. intros. on_end.
Qed.

Lemma wp_op_InitializeControlPlane l op : WP l (op_InitializeControlPlane (C := C) c op) (fun _ _ => True).
Proof. unfold op_InitializeControlPlane. on_lift. on_spec wp_operationHost. on_lift. on_spec wp_runScriptObserved. on_if. on_end. Qed.

Lemma wp_op_EnsureNetwork l op : WP l (op_EnsureNetwork (C := C) c op) (fun _ _ => True).
Proof. unfold op_EnsureNetwork. on_lift. on_if. on_spec wp_operationHost. on_lift. by apply wp_runScript. Qed.

Lemma wp_op_EnsureDominator l op : WP l (op_EnsureDominator (C := C) c op) (fun _ _ => True).
Proof.
  unfold op_EnsureDominator, op_ensureSubd. on_lift. destruct a as [z cluster]. do 2 on_spec wp_operationHost. on_spec wp_runScript.
  on_spec wp_operation_infra. eapply wpa_bind. { on_spec wp_runScript. on_lift. by apply wp_runScript. }
  intros _ l6 I6 _. lift_known. on_lift. on_spec wp_runScriptObserved. on_if. on_end.
Qed.

Lemma wp_op_Validate l op : WP l (op_Validate (C := C) c op) (fun _ _ => True).
Proof. unfold op_Validate. on_lift. destruct a as [z cluster]. on_spec wp_operationHost. on_lift. on_spec wp_runScript. on_end. Qed.
End Resources.
