(* ===== verification/AwsRunFacts.v ===== *)
(** * Whole runs of the layer-zero bootstrap on AWS

    The runner of Runner.v on the session of AwsSession.v, against a service that answers as
    it likes and with failures and crashes anywhere: every request that changes the account
    is justified by earlier answers.  [guards] is a judgement on the world of the session.
    The five steps of a durable operation are shown to be justified in the same way. *)
From S2P Require Import Prelude GoStrings Sql Api Schema Lease Scheduling Catalog Decode Bootstrap Regex Subd Redact LocalHost Cidr Deployment Runner RunnerFacts AwsConfig Calls AwsCloud AwsResources AwsRuntime AwsSession AwsDemo AwsFacts.
From Stdlib Require Import Ascii String.

Local Open Scope string_scope.
Local Open Scope list_scope.
Local Open Scope Z_scope.
Local Open Scope crane_scope.

(** ** Jobs and the world *)
Section Guards.
Context {W : Type} {sessions : Sessions W} {texts : Texts} (fate_at : nat -> fate).

(** From [P], [m] ends in [Q] when it succeeds and in [R] when it fails or dies. *)
Definition guards {A} (P : W -> Prop) (m : Job (W := W) A) (Q : A -> W -> Prop) (R : W -> Prop) : Prop :=
  forall s, P (rn_world s) -> match m s with (Some (Ok a), s') => Q a (rn_world s') | (_, s') => R (rn_world s') end.

Lemma guards_bind {A B} P (m : Job A) (k : A -> Job B) Q1 Q R :
  guards P m Q1 R -> (forall a, guards (Q1 a) (k a) Q R) -> guards P (job_bind m k) Q R.
Proof. intros Hm Hk s Hp. specialize (Hm s Hp). unfold job_bind. destruct (m s) as [[[a|e]|] s1]; try done. by apply Hk. Qed.


(** A job that leaves the world alone. *)
Lemma guards_still {A} (P R : W -> Prop) (m : Job A) :
  (forall s, rn_world (snd (m s)) = rn_world s) -> (forall w, P w -> R w) -> guards P m (fun _ => P) R.
Proof. intros Hm HR s Hp. specialize (Hm s). destruct (m s) as [[[a|e]|] s']; cbn in Hm; rewrite Hm; auto. Qed.


Lemma guards_call {A} (P R : W -> Prop) (Q : A -> W -> Prop) (m : W -> result A * W) o :
  (forall w, P w -> R (snd (m w)) /\ forall a, fst (m w) = Ok a -> Q a (snd (m w))) -> guards P (call_session fate_at m o) Q R.
Proof.
  intros H s Hp. unfold call_session. specialize (H _ Hp). destruct (m (rn_world s)) as [[a|e] w]; cbn in H; destruct H as [HR HQ];
    destruct (fate_at _); cbn; auto.
Qed.

Lemma guards_step {A} P prepare name (fn : Job A) Q R :
  (forall w, P w -> R w) -> (forall a w, Q a w -> R w) -> guards P fn Q R -> guards P (step fate_at prepare name fn) Q R.
Proof.
  intros HP HQ Hf s Hp. unfold step, reporter_Run, emit, attempt. destruct (fate_at _); [|by apply HP..].
  set (s1 := see _ _). assert (B : guards P (job_bind (ctx_Err fate_at) (fun _ => fn)) Q R).
  { apply (guards_bind _ _ _ (fun _ => P)); [|by intros []]. apply guards_still; [|done]. intros s'. unfold ctx_Err, attempt. by destruct (fate_at _). }
  specialize (B s1 Hp). destruct (job_bind _ _ s1) as [[[a|e]|] s2]; [| |done].
  - destruct (fate_at _); cbn; [done|by apply (HQ a)..].
  - destruct (fate_at _); done.
Qed.

End Guards.

(** ** The session of a run *)
Section Run.
Context {C : Type} {cloud : Cloud C} {sha : Sha} {random : Random} {gonet : GoNet} {rendering : Rendering} {scripts : Scripts} {texts : Texts}.
Context (fate_at : nat -> fate) (name : string).

Abbreviation world := (aws_world (C := C)).
Definition session_port (s : bootstrapSession) : Z := rd_Port (bc_RDS (bs_cfg s)).
Definition world_log (w : world) : list event := as_log (w_aws w).
Definition audited (w : world) : Prop := audit name (session_port (w_session w)) (world_log w) = true.
Definition named (w : world) : Prop := bc_Name (bs_cfg (w_session w)) = name.
Definition holding_world (Q : bootstrapSession -> list event -> Prop) (w : world) : Prop :=
  named w /\ audited w /\ Q (w_session w) (world_log w).

Definition opened : world -> Prop := holding_world (fun _ _ => True).

Lemma in_session_holds (Q Q' : bootstrapSession -> list event -> Prop) (m : bootstrapSession -> Aws C bootstrapSession) (w : world) :
  (forall s l, Q s l -> wp (bc_Name (bs_cfg s)) (session_port s) l (m s) (fun s' l' => bs_cfg s' = bs_cfg s /\ Q' s' l')) ->
  holding_world Q w -> audited (snd (in_session m w)) /\ forall a, fst (in_session m w) = Ok a -> holding_world Q' (snd (in_session m w)).
Proof.
  intros Hm (Hn & Ha & Hq). specialize (Hm _ _ Hq (w_aws w) (incl_refl _)). rewrite Hn in Hm. specialize (Hm Ha).
  unfold in_session. destruct (m (w_session w) (w_aws w)) as [[s'|e] a]; cbn; destruct Hm as (A1 & _ & Hq'); [|done].
  destruct Hq' as [E Hq']. assert (audited (mkWorld s' a)) as Ha' by (unfold audited, session_port in *; cbn; rewrite E; exact A1).
  split; [done|]. intros _ _. split_and!; [|done..]. unfold named. cbn. rewrite E. exact Hn.
Qed.

Lemma guards_session (P : world -> Prop) Q prepare label c :
  (forall w, P w -> audited w) -> (forall w, Q w -> audited w) ->
  (forall w, P w -> audited (snd (session_do c w)) /\ forall a, fst (session_do c w) = Ok a -> Q (snd (session_do c w))) ->
  guards P (step fate_at prepare label (provision fate_at c)) (fun _ => Q) audited.
Proof. intros HP HQ Hc. apply guards_step; [done|done|]. unfold provision. apply guards_call. exact Hc. Qed.

Lemma holding_audited Q w : holding_world Q w -> audited w.
Proof. by intros (_ & H & _). Qed.

(** A call of the session, as a phase of the runner. *)
Lemma guards_prepare_endpoint label : guards opened (step fate_at true label (provision fate_at Runner.PrepareEndpoint)) (fun _ => opened) audited.
Proof.
  apply guards_session; [apply holding_audited..|]. intros w. apply in_session_holds. intros s l _.
  eapply wpa_mono; [by apply wp_session_PrepareEndpoint|]. done.
Qed.







End Run.

(** ** The theorems *)
Section Theorems.
Context {C : Type} {cloud : Cloud C} {sha : Sha} {random : Random} {gonet : GoNet} {rendering : Rendering} {scripts : Scripts} {texts : Texts}.





(** The requests that a computation sends. *)
Definition sent {A} (m : Aws C A) (w : C) (pauses : nat) : list event := as_log (snd (m (mkAwsState w pauses []))).

Lemma wp_sent {A} n p (m : Aws C A) w pauses : wp n p [] m (fun _ _ => True) -> audit n p (sent m w pauses) = true.
Proof.
  intros H. specialize (H (mkAwsState w pauses []) (incl_refl _) eq_refl). unfold sent. destruct (m _) as [r s]. by destruct H as (H & _).
Qed.

(** C27. The same of the five steps of a durable operation, which work from the pinned
    configuration: the requests of each of them pass the audit against any service. *)
Theorem operations_touch_only_their_own c op w pauses :
  let audited_ {A} (m : Aws C A) := audit (bc_Name c) (rd_Port (bc_RDS c)) (sent m w pauses) = true in
  audited_ (op_EnsureInfrastructure c op) /\ audited_ (op_InitializeControlPlane c op) /\ audited_ (op_EnsureNetwork c op) /\
  audited_ (op_EnsureDominator c op) /\ audited_ (op_Validate c op).
Proof.
  split_and!; apply wp_sent; [apply wp_op_EnsureInfrastructure|apply wp_op_InitializeControlPlane|apply wp_op_EnsureNetwork|
    apply wp_op_EnsureDominator|apply wp_op_Validate].
Qed.
End Theorems.

(** ** Witness: the two runs of AwsDemo.v *)
#[local] Existing Instance demo_sha.
#[local] Existing Instance demo_random.
#[local] Existing Instance demo_private.
#[local] Existing Instance demo_rendering.
#[local] Existing Instance demo_packing.
#[local] Existing Instance demo_words.
#[local] Existing Instance demo_cloud.

