(* ===== verification/AwsSessionFacts.v ===== *)
(** * The AWS session: settings that stay pinned, and steps that cannot work *)
From S2P Require Import Prelude GoStrings Sql Api Schema Lease Scheduling Catalog Decode Bootstrap Regex Subd Redact LocalHost Cidr Deployment Runner RunnerFacts AwsConfig AwsConfigFacts Calls AwsCloud AwsResources AwsRuntime AwsTopologyFacts AwsSession AwsDemo AwsFacts.
From Stdlib Require Import Ascii String.

Local Open Scope string_scope.
Local Open Scope list_scope.
Local Open Scope Z_scope.
Local Open Scope crane_scope.

(** ** Pinned settings *)
Section Pinned.
Context {C : Type} {cloud : Cloud C}.

Lemma discover_ok c a c' a' : discover_zones (C := C) c a = (Ok c', a') ->
  c' = c \/ elems (nw_AvailabilityZones (bc_Network c)) = [] /\ exists z, c' = set_network (set_zones z (bc_Network c)) c.
Proof.
  unfold discover_zones. destruct (elems _) eqn:E; [|intros H; aws_ok; by left]. intros H. aws_ok. destruct x as [|z1 [|z2 r]]; [done..|]. aws_ok. right. eauto.
Qed.

Definition with_account (account : string) (s : BootstrapSettings) : BootstrapSettings :=
  mkSettings (se_Region s) account (se_Network s) (se_RDS s) (se_SPIREHost s) (se_PlatformHost s).

Lemma keeps_account p s account : keeps_settings p s -> se_AccountID s = "" \/ se_AccountID s = account -> keeps_settings p (with_account account s).
Proof.
  intros (H1 & H2 & H3 & H4 & H5 & H6) Ha. split_and!; try done; try apply H5; try apply H6. cbn. unfold keeps_text in *. destruct H2 as [->|E]; [by left|].
  destruct Ha as [Ha| <-]; [left; congruence|by right].
Qed.

Lemma keeps_zones p s z : keeps_settings p s -> elems (nw_AvailabilityZones (se_Network s)) = [] ->
  keeps_settings p (mkSettings (se_Region s) (se_AccountID s) (set_zones z (se_Network s)) (se_RDS s) (se_SPIREHost s) (se_PlatformHost s)).
Proof.
  intros (H1 & H2 & H3 & H4 & H5 & H6) Ez. split_and!; try done; try apply H5; try apply H6. cbn. right.
  destruct H4 as [E|(E0 & z' & E)]; rewrite E in *; [|split; [done|by exists z]]. split; [done|by exists z].
Qed.

(** C25. What the session resolves is pinned for good.  From a configuration that [NewBootstrap]
    accepted, the settings that [Resolve] hands to the runner decode to exactly the settings the
    session goes on with; and when earlier settings were pinned, it goes on only if nothing that
    they determined has changed: region, network, database, instance types and disk sizes are the
    pinned ones, and the account, the images and the availability zones are the pinned ones unless
    they were still empty. *)
Theorem resolved_settings_stay_pinned shared previous prepare s (a a' : aws_state C) raw s' :
  NewBootstrap shared = Ok (bs_cfg s) -> session_resolve previous prepare s a = (Ok (raw, s'), a') ->
  decodePinnedBootstrapSettings raw = Ok (settingsFor (bs_cfg s')) /\
  (previous <> None -> exists pinned, decodePinnedBootstrapSettings previous = Ok pinned /\ keeps_settings pinned (settingsFor (bs_cfg s'))).
Proof.
  intros F%NewBootstrap_fits H. unfold session_resolve in H. aws_ok. injection H as <- <-. cbn [bs_cfg set_bs_cfg].
  assert (settings_fit (settingsFor x)) as Fx by (destruct previous; inv_ok; [by eapply merge_fits|done]).
  pose proof (discover_ok _ _ _ _ Hx1) as D. split.
  { apply pinned_round_trip. by destruct D as [->|(_ & z & ->)]. }
  intros Hp. destruct previous as [j|]; [|done]. inv_ok. exists x3. split; [done|]. apply merge_settings in Hx.
  assert (keeps_settings x3 (with_account x0 (settingsFor x))) as K.
  { apply keeps_account; [rewrite Hx; apply fill_previous_keeps|]. apply orb_prop in Hb1 as [E|E]; bsplit; [by left|by right]. }
  destruct D as [->|(Ez & z & ->)]; [exact K|]. by apply (keeps_zones _ _ z K).
Qed.
End Pinned.

(** ** The Dominator step of an operation *)
Section Dominator.
Context {C : Type} {cloud : Cloud C} {sha : Sha} {random : Random} {gonet : GoNet} {rendering : Rendering} {scripts : Scripts}.

Lemma pinned_hosts_match c l hosts h : pinned_hosts c l = Ok hosts -> In h l -> hi_ImageID h = ap_AMIID (bc_Platform c) /\ hi_InstanceType h = ap_InstanceType (bc_Platform c).
Proof.
  revert hosts. induction l as [|i l IH]; intros hosts H Hin; [done|]. cbn in H. inv_ok. bsplit. destruct Hin as [->|Hin]; [done|eauto].
Qed.

(** The hosts of a role that the service lists are the ones that [ensureHost] accepts for it. *)
Definition lists_as_launched (c : bootstrapConfig) : Prop := forall w l,
  fst (aws_Call _ (DescribeHosts (bc_Name c) "spire" ["running"]) w) = inl l ->
  forall h, In h (List.concat l) -> hi_ImageID h = as_AMIID (bc_SPIRE c) /\ hi_InstanceType h = as_InstanceType (bc_SPIRE c).

(** The Dominator step of a durable operation never succeeds on a deployment whose SPIRE host
    has another image or instance type than its platform host, which is what the defaults give
    (t3.small and t3.medium): it looks up the SPIRE host, which was launched with the SPIRE
    settings, and requires the platform's. *)
Theorem dominator_step_needs_equal_hosts c op (a a' : aws_state C) r :
  lists_as_launched c ->
  as_AMIID (bc_SPIRE c) <> ap_AMIID (bc_Platform c) \/ as_InstanceType (bc_SPIRE c) <> ap_InstanceType (bc_Platform c) ->
  op_EnsureDominator c op a = (r, a') -> exists e, r = Err e.
Proof.
  intros L D H. destruct r as [r|e]; [|eauto]. exfalso. unfold op_EnsureDominator in H. apply aws_bind_ok in H as ([z cluster] & a0 & _ & H).
  apply aws_bind_ok in H as (control & a1 & _ & H). apply aws_bind_ok in H as (spire & a2 & Hs & _). unfold operationHost in Hs. aws_ok.
  apply call_ok in Hx as [Hx _]. pose proof (pinned_hosts_ids _ _ _ Hx0) as E. destruct x0 as [|h0 [|]]; [done| |done].
  destruct (List.concat x) as [|h l] eqn:El; [done|]. pose proof (pinned_hosts_match _ _ _ h Hx0 ltac:(by left)) as [P1 P2].
  specialize (L _ _ Hx h). rewrite El in L. destruct (L ltac:(by left)) as [L1 L2]. destruct D as [D|D]; apply D; congruence.
Qed.

(** And the host agent that this step installs is configured with no SPIRE server: the
    infrastructure of an operation never has the address of the identity endpoint, so the
    script that checks the agent's configuration is rendered with an empty one. *)
Theorem operation_has_no_identity_endpoint c (a a' : aws_state C) i : operation_infra c a = (Ok i, a') -> in_SpireAddress i = "".
Proof.
  unfold operation_infra. intros H. aws_ok. unfold ensureRDS in H. aws_ok. subst. unfold ensureSecrets in Hx1. aws_ok. subst.
  unfold ensureSecurityGroups in Hx0. aws_ok. subst. unfold ensureNetwork in Hx. aws_ok. by subst.
Qed.
End Dominator.

(** ** Witnesses *)
#[local] Existing Instance demo_sha.
#[local] Existing Instance demo_random.
#[local] Existing Instance demo_private.
#[local] Existing Instance demo_rendering.
#[local] Existing Instance demo_packing.
#[local] Existing Instance demo_cloud.

Lemma validated_network_is_disjoint_witness : exists vpc pod subnets,
  ParsePrefix "10.80.0.0/16" = Some vpc /\ ParsePrefix "10.244.0.0/16" = Some pod /\
  mapM ParsePrefix ["10.80.0.0/24"; "10.80.1.0/24"; "10.80.16.0/24"; "10.80.17.0/24"] = Some subnets /\
  forall a, address a -> Prefix_Contains pod a = true -> Prefix_Contains vpc a = true -> False.
Proof.
  destruct (validated_network_is_disjoint demo_config) as (vpc & pod & subnets & H1 & H2 & H3 & _ & _ & _ & _ & _ & _ & H).
  - vm_compute. reflexivity.
  - exists vpc, pod, subnets. split; [exact H1|]. split; [exact H2|]. split; [exact H3|exact H].
Defined.

(** A second resolution, with the settings that the first one pinned. *)
Definition first_resolution : result (RawMessage * bootstrapSession) * aws_state account := demo_resolve None.
Definition second_resolution : result (RawMessage * bootstrapSession) * aws_state account := demo_resolve (fst (resolved first_resolution)).

Lemma resolved_settings_stay_pinned_witness :
  decodePinnedBootstrapSettings (fst (resolved second_resolution)) = Ok (settingsFor (bs_cfg (snd (resolved second_resolution)))) /\
  (fst (resolved first_resolution) <> None -> exists pinned, decodePinnedBootstrapSettings (fst (resolved first_resolution)) = Ok pinned /\
     keeps_settings pinned (settingsFor (bs_cfg (snd (resolved second_resolution))))).
Proof.
  apply (resolved_settings_stay_pinned demo_deployment (fst (resolved first_resolution)) false demo_session (mkAwsState empty_account 10 [])
    (snd second_resolution) (fst (resolved second_resolution)) (snd (resolved second_resolution))).
  - vm_compute. reflexivity.
  - vm_compute. reflexivity.
Defined.

Lemma dominator_step_needs_equal_hosts_witness : (exists e, fst dominator_answer = Err e) /\ fst (op_EnsureNetwork pinned_demo cluster_operation cluster_account) = Ok tt.
Proof.
  split; [|vm_compute; reflexivity].
  apply (dominator_step_needs_equal_hosts pinned_demo cluster_operation cluster_account (snd dominator_answer) (fst dominator_answer)).
  - intros w l H h Hh. change (bc_Name pinned_demo) with "crane-demo" in H.
    cbn in H. destruct (made w _); injection H as <-; [|destruct Hh].
    destruct Hh as [<-|[]]. vm_compute. auto.
  - left. vm_compute. discriminate.
  - unfold dominator_answer. apply surjective_pairing.
Defined.

Lemma operation_has_no_identity_endpoint_witness :
  exists i, fst (operation_infra pinned_demo cluster_account) = Ok i /\ in_SpireAddress i = "".
Proof.
  destruct (operation_infra pinned_demo cluster_account) as [[i|e] a] eqn:E.
  - exists i. split; [reflexivity|]. apply (operation_has_no_identity_endpoint pinned_demo cluster_account a i). exact E.
  - exfalso. revert E. vm_compute. discriminate.
Defined.

(** A template of the final check that cannot be rendered: the error is lost, an empty script is
    sent in its place, and the run ends as if the handoff had been validated. *)
Definition no_validation : Rendering :=
  {| render_template := fun name _ => if name == "validate.sh.tmpl" then None else Some (String.append "#!/usr/bin/env bash # " name) |}.
Definition unvalidated_run : option (result unit) * Running_ (W := aws_world (C := account)) :=
  bootstrap_Run (sessions := aws_sessions (rendering := no_validation)) (texts := demo_words) (fun _ => Works) demo_deployment "/state" false first_start.
Definition sends (name : string) (e : event) : bool := match ev_request e with SendCommand _ n _ => n == name | _ => false end.

Example handoff_passes_without_validation :
  fst unvalidated_run = Some (Ok tt) /\
  is_ok (RenderValidateScript (rendering := no_validation) pinned_demo (bs_infra (w_session (rn_world (snd first_run))))
           (agentHosts (w_session (rn_world (snd first_run))))) = false /\
  List.length (List.filter (sends "validate") (run_log unvalidated_run)) = 1%nat.
Proof. vm_compute. auto. Qed.

(** A worker of the demonstration's first zone. *)
Definition demo_infra : Infrastructure := bs_infra (w_session (rn_world (snd first_run))).
Definition demo_first_zone : FirstZoneInput := match topology pinned_demo demo_infra with Ok i => i | Err _ => default_first_zone demo_deployment end.
Definition worker_target : OperationTarget :=
  let z := fz_Zone demo_first_zone in
  let g := fz_Group demo_first_zone in
  mkTarget "c1" "p1" "" "" (zi_Provider z) (zi_AccountID z) (zi_Region z) (zi_ProviderZoneID z) "" "" (gi_CapacityClass g) (gi_TemplateRevision g)
    (gi_LaunchParameters g) (gi_Scheduling g) "".
Definition worker_operation : Operation := mkOperation "op-2" Kprovision "z1" "g1" "h1" "" worker_target 0 Oleased "token-1" (PJson JNull) "" 0 1 "" 0 0.
#[local] Instance demo_fleet : EC2 unit := {|
  ec2_DescribeImages := fun id _ => Ok [mkImage true (map (fun t => (tg_Key t, tg_Value t)) demo_image_tags)];
  ec2_DescribeSubnets := fun id _ => Ok [mkSubnet "us-west-2a" "vpc-1"];
  ec2_DescribeSecurityGroups := fun l _ => Ok (map (fun _ => "vpc-1") l);
  ec2_RunInstances := fun _ c => (Err (ErrMsg "capacity"), c);
  ec2_DescribeInstances := fun _ _ => Ok [];
  ec2_all := fun _ => [] |}.

Lemma first_zone_workers_launch_witness :
  launch_request (mkRuntime "us-west-2" "crane.internal") worker_operation tt =
  Ok (mkRunInput "ami-2" "t3.medium" "token-1" "crane-demo-worker" "subnet-10.80.0.0/24" ["sg-crane-demo-platform"] true (worker_tags "crane-demo" worker_operation)).
Proof.
  apply (first_zone_workers_launch pinned_demo demo_infra demo_first_zone worker_operation tt "spire.internal"
    (mkImage true (map (fun t => (tg_Key t, tg_Value t)) demo_image_tags)) "vpc-1" "us-west-2a" ["us-west-2b"] "subnet-10.80.0.0/24" ["subnet-10.80.1.0/24"]);
    try (vm_compute; reflexivity).
  - repeat (apply Forall_cons; split; [vm_compute; discriminate|]). apply Forall_nil_2.
  - split; [discriminate|]. repeat (apply Forall_cons; split; [split; vm_compute; reflexivity|]). apply Forall_nil_2.
Defined.

Lemma accepted_configuration_typed_witness :
  NewBootstrap demo_deployment = Ok demo_config /\ deploymentNameFromBundleParameter (bundleParameter demo_config) = Some (bc_Name demo_config) /\
  1 <= rd_Port (bc_RDS demo_config) <= 65535.
Proof.
  assert (NewBootstrap demo_deployment = Ok demo_config) as E by (vm_compute; reflexivity). split; [exact E|].
  destruct (accepted_configuration_typed demo_deployment demo_config E) as (_ & _ & _ & _ & _ & H1 & _ & H2 & _). exact (conj H1 H2).
Defined.
